(* ===== verification/_CoqProject ===== *)
-Q . S2P
Prelude.v
PyJson.v
PyTime.v
PyText.v
PyFloat.v
PyModel.v
PyProg.v
QuotaFacts.v
PyDigest.v
Sha256.v
Domain.v
Durability.v
LedgerInvariant.v
LedgerOps.v
LedgerChain.v
Fixtures.v
LedgerOutbox.v
LedgerTheorems.v
Authorization.v
RemediationData.v
RemediationStores.v
RemediationServices.v
RemediationFacts.v
RemediationWorld.v
RemediationSafety.v
RemediationEffects.v
RemediationFixtures.v
RemediationAuthority.v
RemediationTheorems.v
Evidence.v
EvidenceRuntime.v
EvidenceTheorems.v
MemoryData.v
MemoryLedger.v
MemoryText.v
MemoryIndex.v
MemoryService.v
MemoryFacts.v
MemoryWorld.v
MemoryAccess.v
MemoryFixtures.v
MemoryRetrieval.v
MemoryTextFacts.v
MemoryErasure.v
MemoryTheorems.v
ModelData.v
ModelStore.v
ModelCalls.v
ModelFacts.v
ModelOnce.v
ModelBudget.v
ModelTheorems.v
SandboxText.v
SandboxData.v
SandboxLedger.v
SandboxService.v
SandboxFacts.v
SandboxWorld.v
SandboxTheorems.v
SandboxWorkflow.v
SandboxWorkflowFacts.v
SandboxWorkflowTheorems.v
InteropText.v
InteropData.v
InteropTrust.v
InteropLedger.v
InteropGateway.v
InteropFacts.v
InteropSafety.v
InteropFixtures.v
InteropTheorems.v
Investigation.v
Identity.v
Orchestration.v
Graph.v
Service.v
OrchestrationFacts.v
OrchestrationTheorems.v
ServiceTheorems.v
