(* ===== verification/Prelude.v ===== *)
(** * Aegis: the framework's durable core in Rocq

    ** What the program is

    Aegis runs incident investigations for many tenants.  Everything it does passes through a
    few stores that must not lose, forge or leak anything: the durable ledger of run events,
    the ledger and stores behind approved remediation, the memory of past incidents with its
    index, and the gateways that spend a budget at a provider.  An investigation itself is a graph
    of agents whose verdict must rest on evidence.  The sources are the Python
    modules of [src/src/aegis_framework/]; this library models the modules that hold that core
    logic, one definition per class, method or helper, with the names of the source.

    ** How Python is read

    - A method is a computation in [M S] (below): it takes the object's state and returns a
      value or an exception together with the new state.  A raise keeps the assignments made
      before it, as in Python.  Locks make each store method atomic, so a program run is a
      sequence of method calls, or, for the model gateway, the external invocation gateway, the
      investigation graph, the application service, the evidence collector and the sandbox
      workflow, a schedule of the atomic calls of several
      programs ([PyProg.run_pool]); the step relations ([op], [service_op], [memory_op] and their
      closures) range over every such sequence with every argument.
    - Exceptions are values ([exn], one [ExnKind] per class of [errors.py]); a message is kept
      as text.
    - [int] is [Z], unbounded.  [float] is IEEE 754 binary64 ([PyFloat]).  [str] is a [string],
      one character per code point, so code points above 255 are outside the model; what goes
      into a hash is encoded in UTF-8 ([PyText.utf8]).  [datetime] is an integer number of
      microseconds in UTC ([PyTime]).  Dicts whose order is observable are association lists
      with [dict_set], the others are [gmap]s.
    - A Pydantic model is a record with a constructor [new_X] that runs the field constraints
      and validators and raises [ValidationError] ([PyModel]).  JSON documents are values of
      [PyJson.json]; [json.dumps(sort_keys=True)] is [canonical_json], proved injective up to the
      order of keys ([PyJson.canonical_json_inj]).
    - A clock is a function from the position of the reading to its value, so every reading in
      a method may differ.  Where a theorem needs it, monotonicity is a hypothesis.
    - What the code receives as a port (policy, clock, action provider, embedding provider,
      blob store, model adapter, random or SDK code) is a parameter over an external state of
      its own; nothing is assumed about it unless a theorem names the assumption.
    - SHA-256 is the class [Digest].  Theorems that rest on hashes end in "or here is a
      collision" ([collides]); [Sha256] is the algorithm, with the standard's test vectors.

    ** The files

    Shared: this file (exceptions, the monads, dicts, sorting, lists, hex), [PyJson], [PyTime],
    [PyText] (case, words, UTF-8, regular expressions), [PyFloat], [PyModel], [PyDigest] (what a
    digest of a JSON document binds), [Sha256], [PyProg] (interleaved programs), [QuotaFacts], [Domain] ([domain.py]: identifiers,
    identities, requests, [stable_id], the trace references).

    The durable ledger ([durability.py], [InMemoryDurability]).  [Durability]: events, drafts,
    deliveries, run views, the store and its methods ([append], [accept_run],
    [record_transition], [accept_signal], [events], [timeline], [claim_outbox],
    [complete_outbox], [fail_outbox], [verify_integrity], [rebuild_run], [replay_legacy], ...).
    [LedgerInvariant], [LedgerOps]: the invariant and that each method keeps it.
    [LedgerChain]: what the hash chain binds and what a sequence of
    calls can do to a run.  [LedgerOutbox]: leases and fencing.  [LedgerTheorems]: the promises of
    the component.  [Fixtures]: the concrete ledger the witnesses evaluate.

    Authorization ([authorization.py], [access.py], [ports.py]): [Authorization], the action and
    role catalogues and [EnterprisePolicy.authorize].

    Remediation ([remediation.py]).  [RemediationData]: the contracts.  [RemediationStores]:
    [InMemoryRemediationLedger] with the fold over facts and the transition table, effect claims,
    quota, policies, control store.  [RemediationServices]:
    [ApprovalService] and [EffectService].  [RemediationFacts]: their
    invariants.  [RemediationWorld]: the class [WorldOrder] of relations every primitive update
    keeps, lifted to every method and every sequence of calls.  [RemediationSafety],
    [RemediationEffects]: what a decision and a provider call imply.
    [RemediationAuthority], [RemediationTheorems]: the promises.
    [RemediationFixtures]: the concrete world.

    Evidence ([evidence.py], [evidence_runtime.py]): [Evidence], queries, pages, provenance,
    normalised evidence and [build_bundle].  [EvidenceRuntime]: the cursor vault over the class
    [Aead], [InMemoryEvidenceControlStore], and [EvidenceCollector] as a thread whose authority,
    connector and ingestor answer anything; its world keeps, for the theorems, which thread
    started and which fetched a page.  [EvidenceTheorems]: the promises.

    Memory ([memory.py]).  [MemoryData]: the contracts.  [MemoryLedger]: the two ledgers.
    [MemoryText]: the chunker, the context builder, the summarizer.  [MemoryIndex]: embeddings,
    scoring, [InMemoryHybridIndex] and its cache, [ControlledEmbeddingGateway].  [MemoryService]:
    [MemoryLifecycleService], [MemoryRetrievalService], [InMemoryMemoryControl].  [MemoryFacts]:
    the ledger invariant.  [MemoryWorld]: the class [MemoryOrder] and the call sequences.
    [MemoryAccess], [MemoryRetrieval]: who sees what.  [MemoryTextFacts]: chunks,
    contexts and summaries.  [MemoryErasure], [MemoryTheorems]: erasure and holds,
    the limits of the embedding gateway.  [MemoryFixtures]: the concrete world.

    Model gateway ([model_gateway.py]).  [PyProg]: methods that run in several threads or
    workflow steps, as trees of atomic calls that a schedule interleaves.  [ModelData]: models,
    policies, prices, bindings, requests.  [ModelStore]: the ledger of reservations and
    attempts, each locked section one atomic call.  [ModelCalls]: the threads, an atomic step
    per locked section, clock reading or provider call.  [ModelFacts],
    [ModelOnce], [ModelBudget]: the store's invariant, the proof outline of a thread, single
    use, the sum of what was spent.  [ModelTheorems].  The budget theorem
    assumes distinct call ids and providers that report what they used.

    Sandbox ([sandbox.py], the workflow of [sandbox_temporal.py]).  [SandboxText]: paths, names,
    origins, DNS names.  [SandboxData]: specifications, policies, [policy_authorize].
    [SandboxLedger]: the facts and their fold.  [SandboxService]: quota, claims and the control
    service.  [QuotaFacts] (the account this quota shares with remediation), [SandboxFacts],
    [SandboxWorld], [SandboxTheorems].  [SandboxWorkflow]:
    [AegisSandboxWorkflow.run] as a thread whose signals arrive between any two steps and whose
    Activities answer anything their contract admits; [SandboxWorkflowFacts] reasons about the
    trace of Activities, [SandboxWorkflowTheorems] states the promises.  Temporal's own retries
    of an Activity stay outside: an answer is what the last retry answered.

    Interoperability ([interoperability.py], whole).  [InteropText]: the text and JSON bounds of
    peer content, the module's [canonical_json] (here [protocol_json]) and [digest_value].
    [InteropData]: the contracts.  [InteropTrust]: [TrustRegistry],
    [WorkloadIdentityValidator] and its replay cache, which is the class [ReplayCache].
    [InteropLedger]: [InteroperabilityLedger], [InvocationQuota], [CircuitBreaker].
    [InteropGateway]: [ExternalInvocationGateway.invoke], [reconcile] and [cancel] as threads
    that interleave with each other and with the operators of the registry; the clock, the
    policy port, the transport and the cancellation flag answer anything at each step.  Its
    world keeps two histories no code reads, the port calls and the thread that opened each
    operation, for the theorems to speak of.  [InteropFacts]: the
    invariants of the stores.  [InteropSafety]: the proof outline of a thread.
    [InteropFixtures] (with the runs the documents rule out), [InteropTheorems].

    Investigations ([graph.py], [orchestration.py], [correlation.py], part of [safety.py], the
    rest of [domain.py]).  [Investigation]: findings, hypotheses, verdicts, the reducers, the
    numbers of facts, the view of evidence the models get, injected instructions, citations,
    [correlate_evidence].  [Orchestration]: the governed artifacts with their digests,
    provenance and transitions, and [InMemoryOrchestrationLedger].  [Graph]: the nine nodes of
    [LangGraphInvestigator] as threads of operations on the ledger and the model, the critic, and
    [run].  LangGraph is third-party code: [invoke_graph] states what it documents, supersteps
    whose nodes run at once on the state before them and whose updates are applied in an order of
    the engine's own ([UpdateOrder]), and [run] takes the engine as an argument, of which the
    theorems assume [follows_graph] only.  What Pydantic reads from a cached document is the
    class [FindingDecoder].  A resumed checkpoint is the engine's: the theorems on verdicts speak
    of fresh runs.  [OrchestrationFacts]: the moves of the ledger, the life of a task, what a node
    can return, the correlation, orders.  [OrchestrationTheorems]: the promises, a concrete
    incident and the runs on which the graph falls short.

    The application service ([service.py], [adapters.py], the rest of [safety.py]).  [Service]: the
    local adapters (role policies, idempotency, budget, evidence, hash-chain audit, approvals) and
    [InvestigationService.investigate] as a thread over their ports; the policy, the evidence
    port and the orchestrator answer anything.  What a client may assume of the orchestrator is
    the class [OrchestratorPromise]; the graph above discharges it.  [ServiceTheorems]: the
    promises of the service, and with the graph's promise those of what it serves.

    Identity ([identity.py], [access.py], part of [adapters.py]).  [Identity]: the governance
    records, the repository and its replacement rules, issuers, the key cache and
    [JwtAuthenticator.authenticate]; signatures are checked by a function the theorems know
    nothing about, and the network fetch of the key set answers anything.

    ** What the theorems show

    - Integrity: every reachable ledger verifies, its projections are the replay of its events
      or facts, histories only grow, and two verified histories with one head are equal or
      exhibit a collision.
    - State machines: runs, plans, messages and memories move only along their transition
      tables over any sequence of calls; terminal states are inert.
    - Fencing: a lease excludes other workers, a lost lease settles nothing, a claimed effect
      runs at most once.
    - Authority: who may approve, execute, retrieve or erase, traced from a provider call or a
      returned hit back to grants, quorum, policy and classification; a peer is only called
      under a trust entry an operator reviewed, and once per operation.
    - Evidence: a completed investigation has consistent, fresh, uninjected evidence, citations
      that name it, and agreeing findings behind it; every artifact leads back through digests to
      assessments and a plan; a task of a specialist is started once and completed under its
      fence; the order of the evidence changes nothing; a page of a query is fetched once, its view
      is the fold of its events and stays within the bounds of the query; a sealed cursor opens.
    - Service: a request runs under a policy decision, a budget reservation, an audit record and
      validated evidence, once; a completed one is replayed as it was; an identity is issued for a
      key, an issuer and grants that are current, and carries nothing its grants do not.
    - Bounds: quotas, budgets, rates, context and result sizes.
    - Ends: a sandbox workflow finishes in a fixed number of its own steps whatever is answered
      or signalled, and has cleaned up once; a model call that ended has settled its budget;
      every superstep of an investigation ends.
    - Round trips: JSON text, identifiers, chunks against the text they came from.
    - What goes wrong: the states in which a crash between two stores leaves a component stuck,
      and the inputs a store accepts and cannot verify later, each with a run that reaches it.

    ** Bounds and fuel

    Loops over data are structural.  Fuel appears where the source's loop shrinks something
    else: the JSON parser (the length of the text, enough by [PyJson.loads_canonical]); regular
    expression repeats and [find_terms] (the length of the text, every round consumes a
    character); the pages of [activity_artifact] (20 pages of 500 are its 10 000 events);
    [lost_middle_loop] (the number of hits, enough by [MemoryTextFacts.every_hit_is_considered]);
    [mmr_loop] (the result limit, as in the source); [decimal_exponent] (4 steps from an estimate
    that is one or two too small, three when the digits round up); the blocks of SHA-256 (the
    number of words).  The threads need none: they are finite trees, at most 24 provider calls for
    a model call, 42 steps for a sandbox workflow, whose queues hold at most 64 commands, 14
    operations for a request to the service and 5 for a node of the investigation graph.

    ** What is not modelled, and why

    The PostgreSQL stores run SQL in a database server; the Temporal workers (the sandbox
    workflow apart), the HTTP and command-line front ends and the adapters are glue over an SDK or a remote service; metrics,
    logging, demos and benchmark drivers report and decide nothing.  The order in which
    Python iterates a set is not fixed by the language; where the source depends on it the
    definitions sort first or take a canonical order, and say so.  The fetch
    of a key set is network I/O.  Left out for their size: the parsers and scanners of
    [ingestion.py], evaluation scoring and replay, the sandbox backends, the cursor codec and
    [DurableInvestigationService] of [durability.py].

    This file holds what all the others share: exceptions and the two monads, ordered dicts,
    sorting, strings, lists and digests. *)

From stdpp Require Export base gmap strings list sorting.
From Stdlib Require Export ZArith Lia Ascii.

Declare Scope py_scope.
Delimit Scope py_scope with py.
#[global] Open Scope Z_scope.

(** ** Exceptions

    One constructor per exception class of [errors.py] the modelled code raises,
    together with the built-in classes it raises or catches. *)

Inductive ExnKind :=
  | ValueError | ValidationError | KeyError | IndexError | StopIteration | TypeError
  | RuntimeError | TimeoutError | ConnectionError
  | PolicyDenied | AuthenticationFailed | IdentityUnavailable | BudgetExhausted
  | EvidenceIsolationViolation | EvidenceUnavailable | ConnectorDisabled
  | ConnectorRejected | ConnectorRateLimited | ReconciliationRequired
  | ModelProviderError | OrchestrationFailure | ApprovalBoundaryFailure
  | EffectsDisabled | ApprovalDenied | ApprovalExpired | ApprovalRevoked
  | EffectConflict | EffectAmbiguous | VerificationFailed | IdempotencyConflict
  | InvestigationInProgress | ConcurrencyConflict | RepositoryUnavailable
  | AuditFailure | MigrationFailure | IntegrityFailure | MessageClaimConflict
  | PayloadRejected | SandboxRejected | SandboxUnavailable | SandboxAmbiguous
  | ArtifactQuarantined | AmbiguousTransportError.

#[export] Instance ExnKind_eq_dec : EqDecision ExnKind.
Proof. solve_decision. Defined.

Record exn := Exn { exn_kind : ExnKind; exn_message : string }.

#[export] Instance exn_eq_dec : EqDecision exn.
Proof. solve_decision. Defined.

(** ** Fallible computations

    [res A] is the outcome of a pure call that may raise. *)

Inductive res (A : Type) :=
  | Ok (a : A)
  | Raise (e : exn).
Arguments Ok {A} a.
Arguments Raise {A} e.

#[export] Instance res_ret : MRet res := λ A a, Ok a.
#[export] Instance res_bind : MBind res := λ A B f r,
  match r with Ok a => f a | Raise e => Raise e end.
#[export] Instance res_fmap : FMap res := λ A B f r,
  match r with Ok a => Ok (f a) | Raise e => Raise e end.

Definition raise {A} (k : ExnKind) (msg : string) : res A := Raise (Exn k msg).

(** [if b: raise k(msg)] *)
Definition raise_if (b : bool) (k : ExnKind) (msg : string) : res unit :=
  if b then raise k msg else Ok ().

Definition of_option {A} (o : option A) (k : ExnKind) (msg : string) : res A :=
  match o with Some a => Ok a | None => raise k msg end.

Definition is_ok {A} (r : res A) : bool :=
  match r with Ok _ => true | Raise _ => false end.

Definition raised_kind {A} (r : res A) : option ExnKind :=
  match r with Ok _ => None | Raise e => Some (exn_kind e) end.

Lemma is_ok_inv {A} (r : res A) : is_ok r = true ↔ ∃ a, r = Ok a.
Proof. destruct r; naive_solver. Qed.

Lemma returned {A S} (m : res A * S) : is_ok m.1 = true → ∃ a, m = (Ok a, m.2).
Proof. destruct m as [[a|e] s]; simpl; [eauto|done]. Qed.

Lemma ok_pair {A S} (m : res A * S) : is_ok m.1 = true → ∃ a s, m = (Ok a, s).
Proof. intros [a Ha]%returned. by exists a, m.2. Qed.

(** A left fold that stops at the first exception: [for x in l: acc = f(acc, x)]. *)
Fixpoint foldM {A B} (f : B → A → res B) (acc : B) (l : list A) : res B :=
  match l with
  | [] => Ok acc
  | x :: l => acc' ← f acc x; foldM f acc' l
  end.

(** [[f(x) for x in l]], which stops at the first exception *)
Definition traverse {A B} (f : A → res B) : list A → res (list B) :=
  fix go l := match l with
              | [] => Ok []
              | x :: l => y ← f x; ys ← go l; Ok (y :: ys)
              end.

(** [for x in l: f(x)] *)
Definition each_ok {A} (f : A → res unit) : list A → res unit :=
  fix go l := match l with [] => Ok () | x :: l => f x;; go l end.

Lemma res_bind_ok {A B} (m : res A) (k : A → res B) b :
  m ≫= k = Ok b ↔ ∃ a, m = Ok a ∧ k a = Ok b.
Proof. destruct m; simpl; naive_solver. Qed.

Lemma raise_if_ok b k msg (u : unit) : raise_if b k msg = Ok u ↔ b = false.
Proof. destruct u, b; naive_solver. Qed.

Lemma traverse_ok {A B} (f : A → res B) l : ∀ l',
  traverse f l = Ok l' ↔ Forall2 (λ x y, f x = Ok y) l l'.
Proof.
  induction l as [|x l IH]; intros l'; cbn.
  - split; [by intros [= <-]|by intros ->%Forall2_nil_inv_l].
  - rewrite res_bind_ok. setoid_rewrite res_bind_ok. setoid_rewrite IH. split.
    + intros (y & Hy & ys & Hys & [= <-]). by constructor.
    + intros (y & ys & Hy & Hys & ->)%Forall2_cons_inv_l. eauto.
Qed.

Lemma each_ok_ok {A} (f : A → res unit) l : each_ok f l = Ok () ↔ Forall (λ x, f x = Ok ()) l.
Proof.
  induction l as [|x l IH]; cbn; [by split|]. rewrite res_bind_ok, Forall_cons, <- IH. split.
  - by intros ([] & H1 & H2).
  - intros [H1 H2]. by exists tt.
Qed.

Lemma foldM_app {A B} (f : B → A → res B) acc l1 l2 :
  foldM f acc (l1 ++ l2) = acc' ← foldM f acc l1; foldM f acc' l2.
Proof.
  revert acc. induction l1 as [|x l1 IH]; intros acc; simpl; [done|].
  destruct (f acc x); simpl; [apply IH|done].
Qed.

Lemma foldM_snoc_ok {A B} (f : B → A → res B) acc l x acc1 :
  foldM f acc l = Ok acc1 → foldM f acc (l ++ [x]) = f acc1 x.
Proof. intros H. rewrite foldM_app, H. simpl. by destruct (f acc1 x). Qed.

(** ** Stateful computations

    [M S A]: a method body over the object state [S].  The state survives a raise:
    an exception does not undo the mutations made before it. *)

Definition M (S A : Type) : Type := S → res A * S.

#[export] Instance M_ret S : MRet (M S) := λ A a s, (Ok a, s).
#[export] Instance M_bind S : MBind (M S) := λ A B f m s,
  match m s with
  | (Ok a, s') => f a s'
  | (Raise e, s') => (Raise e, s')
  end.

Definition get {S} : M S S := λ s, (Ok s, s).
Definition gets {S A} (f : S → A) : M S A := λ s, (Ok (f s), s).
Definition modify {S} (f : S → S) : M S unit := λ s, (Ok (), f s).
Definition lift {S A} (r : res A) : M S A := λ s, (r, s).

(** [try: m / except Exception: handler; raise] *)
Definition on_raise {S A} (m : M S A) (cleanup : S → S) : M S A := λ s,
  match m s with
  | (Raise e, s') => (Raise e, cleanup s')
  | r => r
  end.

Lemma M_bind_ok {S A B} (m : M S A) (k : A → M S B) s b s' :
  (m ≫= k) s = (Ok b, s') ↔ ∃ a s1, m s = (Ok a, s1) ∧ k a s1 = (Ok b, s').
Proof. unfold mbind, M_bind. destruct (m s) as [[a|e] s1]; naive_solver. Qed.

Lemma M_bind_raise {S A B} (m : M S A) (k : A → M S B) s e s' :
  (m ≫= k) s = (Raise e, s') ↔
  m s = (Raise e, s') ∨ ∃ a s1, m s = (Ok a, s1) ∧ k a s1 = (Raise e, s').
Proof. unfold mbind, M_bind. destruct (m s) as [[a|e'] s1]; naive_solver. Qed.

Lemma M_bind_returns {S A B} (m : M S A) (k : A → M S B) s a s' :
  m s = (Ok a, s') → (m ≫= k) s = k a s'.
Proof. unfold mbind, M_bind. by intros ->. Qed.

Lemma M_bind_raises {S A B} (m : M S A) (k : A → M S B) s e s' :
  m s = (Raise e, s') → (m ≫= k) s = (Raise e, s').
Proof. unfold mbind, M_bind. by intros ->. Qed.

(** Run a method of one component on its part of a larger state. *)
Definition zoom {W S A} (part : W → S) (put : S → W → W) (m : M S A) : M W A :=
  λ w, let '(r, s) := m (part w) in (r, put s w).

Lemma zoom_snd {W S A} (part : W → S) put (m : M S A) w : (zoom part put m w).2 = put (m (part w)).2 w.
Proof. unfold zoom. by destruct (m (part w)). Qed.

Lemma zoom_ok {W S A} (part : W → S) put (m : M S A) w a w1 :
  zoom part put m w = (Ok a, w1) → ∃ s, m (part w) = (Ok a, s) ∧ w1 = put s w.
Proof. unfold zoom. destruct (m (part w)) as [r s]. intros [= -> <-]. eauto. Qed.

(** [preserves I m]: [m] keeps the object invariant [I], whether it returns or
    raises. *)
Definition preserves {S A} (I : S → Prop) (m : M S A) : Prop :=
  ∀ s, I s → I (m s).2.

(** [atomic m]: a raise leaves the object as it was. *)
Definition atomic {S A} (m : M S A) : Prop :=
  ∀ s e s', m s = (Raise e, s') → s' = s.

Section preserves.
Context {S : Type} (I : S → Prop).

Lemma preserves_ret {A} (a : A) : preserves I (mret a : M S A).
Proof. by intros s. Qed.
Lemma preserves_lift {A} (r : res A) : preserves I (lift r : M S A).
Proof. by intros s. Qed.
Lemma preserves_gets {A} (f : S → A) : preserves I (gets f).
Proof. by intros s. Qed.
Lemma preserves_get : preserves I get.
Proof. by intros s. Qed.
Lemma preserves_modify f : (∀ s, I s → I (f s)) → preserves I (modify f).
Proof. intros H s Hs. by apply H. Qed.
Lemma preserves_bind {A B} (m : M S A) (k : A → M S B) :
  preserves I m → (∀ a, preserves I (k a)) → preserves I (m ≫= k).
Proof.
  intros Hm Hk s Hs. unfold mbind, M_bind.
  specialize (Hm s Hs). destruct (m s) as [[a|e] s1]; [by apply Hk|done].
Qed.
Lemma preserves_bind_lift {A B} (r : res A) (k : A → M S B) :
  (∀ a, r = Ok a → preserves I (k a)) → preserves I (lift r ≫= k).
Proof. intros H s Hs. unfold mbind, M_bind, lift. destruct r; [by apply H|done]. Qed.
Lemma preserves_bind_get {B} (k : S → M S B) :
  (∀ s, preserves I (k s)) → preserves I (get ≫= k).
Proof. intros H s Hs. by apply (H s). Qed.
Lemma preserves_if {A} (b : bool) (m1 m2 : M S A) :
  preserves I m1 → preserves I m2 → preserves I (if b then m1 else m2).
Proof. by destruct b. Qed.
End preserves.

Create HintDb py discriminated.
#[export] Hint Resolve preserves_ret preserves_lift preserves_gets preserves_get
  preserves_modify preserves_bind preserves_if : py.

(** Invert a successful (or failed) chain of binds in the context. *)
Ltac py_inv :=
  repeat match goal with
  | H : (_ ≫= _) _ = (Ok _, _) |- _ =>
      apply M_bind_ok in H; destruct H as (? & ? & ? & H)
  | H : (_ ≫= _) = Ok _ |- _ =>
      apply res_bind_ok in H; destruct H as (? & ? & H)
  | H : raise_if _ _ _ = Ok _ |- _ => apply raise_if_ok in H
  | H : lift _ _ = (_, _) |- _ => unfold lift in H
  | H : gets _ _ = (_, _) |- _ => unfold gets in H
  | H : get _ = (_, _) |- _ => unfold get in H
  | H : modify _ _ = (_, _) |- _ => unfold modify in H
  | H : mret _ _ = (_, _) |- _ => unfold mret, M_ret in H
  | _ => progress simplify_eq/=
  end.

(** Invert a bind; of a [lift], keep the equation of the lifted result. *)
Ltac inv_bind H a w Hm := apply M_bind_ok in H as (a & w & Hm & H).
Ltac inv_lift H a Hm :=
  let w := fresh "w" in apply M_bind_ok in H as (a & w & Hm & H); unfold lift in Hm; injection Hm as Hm <-.

(** Unfold the first bind of the run in [H]. *)
Ltac bind_step H := unfold mbind at 1, M_bind at 1 in H.

(** Turn the Boolean tests of the context into propositions. *)
Ltac py_bool :=
  repeat match goal with
  | H : negb _ = false |- _ => apply negb_false_iff in H
  | H : negb _ = true |- _ => apply negb_true_iff in H
  | H : (_ || _) = false |- _ => apply orb_false_iff in H; destruct H
  | H : (_ && _) = true |- _ => apply andb_true_iff in H; destruct H
  | H : (_ =? _) = true |- _ => apply Z.eqb_eq in H
  | H : (_ =? _) = false |- _ => apply Z.eqb_neq in H
  | H : (_ <=? _) = true |- _ => apply Z.leb_le in H
  | H : (_ <=? _) = false |- _ => apply Z.leb_gt in H
  | H : (_ <? _) = true |- _ => apply Z.ltb_lt in H
  | H : (_ <? _) = false |- _ => apply Z.ltb_ge in H
  | H : bool_decide _ = true |- _ => apply bool_decide_eq_true in H
  | H : bool_decide _ = false |- _ => apply bool_decide_eq_false in H
  | H : ¬ (_ ≠ _) |- _ => apply dec_stable in H
  | H : ¬ (_ ∉ _) |- _ => apply dec_stable in H
  end.

(** ** Python dicts with an order

    A [dict] whose iteration order matters is an association list with distinct keys;
    assignment overwrites in place or appends. *)

Section dict.
Context {K V : Type} `{!EqDecision K}.

Fixpoint dict_get (k : K) (d : list (K * V)) : option V :=
  match d with
  | [] => None
  | (k', v) :: d => if decide (k' = k) then Some v else dict_get k d
  end.

Fixpoint dict_set (k : K) (v : V) (d : list (K * V)) : list (K * V) :=
  match d with
  | [] => [(k, v)]
  | (k', v') :: d => if decide (k' = k) then (k', v) :: d else (k', v') :: dict_set k v d
  end.

Definition dict_update (d new : list (K * V)) : list (K * V) :=
  foldl (λ d '(k, v), dict_set k v d) d new.

Lemma dict_get_set_eq k v d : dict_get k (dict_set k v d) = Some v.
Proof.
  induction d as [|[k' v'] d IH]; simpl; [by rewrite decide_True|].
  destruct (decide (k' = k)); simpl; [by rewrite decide_True|].
  by rewrite decide_False.
Qed.

Lemma dict_get_set_ne k k' v d : k ≠ k' → dict_get k' (dict_set k v d) = dict_get k' d.
Proof.
  intros Hne. induction d as [|[k1 v1] d IH]; simpl; [by rewrite decide_False|].
  destruct (decide (k1 = k)); simpl; destruct (decide (k1 = k')); naive_solver.
Qed.

Lemma dict_set_keys k v d :
  (dict_set k v d).*1 = if decide (k ∈ d.*1) then d.*1 else d.*1 ++ [k].
Proof.
  induction d as [|[k' v'] d IH].
  - case_decide as H; [by apply not_elem_of_nil in H|done].
  - cbn [dict_set]. destruct (decide (k' = k)) as [->|Hne]; cbn [fmap list_fmap fst].
    + rewrite decide_True; [done|]. by left.
    + rewrite IH. destruct (decide (k ∈ d.*1)).
      * rewrite decide_True; [done|]. by right.
      * rewrite decide_False; [done|]. rewrite elem_of_cons. naive_solver.
Qed.

Lemma dict_set_NoDup k v d : NoDup d.*1 → NoDup (dict_set k v d).*1.
Proof.
  intros H. rewrite dict_set_keys. destruct (decide (k ∈ d.*1)) as [|Hn]; [done|].
  apply NoDup_app. repeat split; [done| |apply NoDup_singleton].
  intros x Hx Hx'. apply list_elem_of_singleton in Hx'. by subst.
Qed.

Lemma dict_get_elem k v d : dict_get k d = Some v → (k, v) ∈ d.
Proof.
  induction d as [|[k' v'] d IH]; simpl; [done|].
  destruct (decide (k' = k)); intros; simplify_eq; [by left|right; auto].
Qed.

Lemma dict_get_None k d : dict_get k d = None ↔ k ∉ d.*1.
Proof.
  induction d as [|[k' v'] d IH]; simpl; [set_solver|].
  destruct (decide (k' = k)); set_solver.
Qed.
End dict.

(** Dicts whose order does not matter: [for x in l: d[k(x)] = v(x)]. *)

Lemma foldl_insert_lookup {K V A} `{Countable K} (kf : A → K) (vf : A → V) l : ∀ (d : gmap K V) k r,
  foldl (λ d m, <[kf m := vf m]> d) d l !! k = Some r →
  d !! k = Some r ∨ ∃ m, m ∈ l ∧ k = kf m ∧ r = vf m.
Proof.
  induction l as [|m l IH]; intros d k r Hl; simpl in Hl; [by left|].
  apply IH in Hl as [Hl|(m' & Hm & -> & ->)]; [|right; exists m'; split_and!; [by right|done|done]].
  rewrite lookup_insert in Hl. case_decide; simplify_eq; [|by left].
  right. exists m. split_and!; [by left|done|done].
Qed.

Lemma foldl_insert_other {K V A} `{Countable K} (kf : A → K) (vf : A → V) l : ∀ (d : gmap K V) k,
  k ∉ kf <$> l → foldl (λ d m, <[kf m := vf m]> d) d l !! k = d !! k.
Proof.
  induction l as [|m l IH]; intros d k Hk; simpl; [done|].
  rewrite fmap_cons, not_elem_of_cons in Hk. destruct Hk as [Hne Hk].
  by rewrite IH, lookup_insert_ne.
Qed.

Lemma foldl_insert_nodup {K V A} `{Countable K} (kf : A → K) (vf : A → V) l : ∀ (d : gmap K V) m,
  NoDup (kf <$> l) → m ∈ l → foldl (λ d m, <[kf m := vf m]> d) d l !! kf m = Some (vf m).
Proof.
  induction l as [|x l IH]; intros d m Hnd Hm; [by apply not_elem_of_nil in Hm|].
  rewrite fmap_cons in Hnd. apply NoDup_cons in Hnd as [Hx Hnd]. simpl.
  apply elem_of_cons in Hm as [->|Hm]; [|by apply IH].
  rewrite foldl_insert_other by done. by rewrite lookup_insert_eq.
Qed.

(** ** Stable sorting: [sorted(l, key=...)] *)

Section sorted.
Context {A : Type} (leb : A → A → bool).

Fixpoint insert_sorted (x : A) (l : list A) : list A :=
  match l with
  | [] => [x]
  | y :: l => if leb x y then x :: y :: l else y :: insert_sorted x l
  end.

Definition py_sorted (l : list A) : list A := foldr insert_sorted [] l.

Lemma insert_sorted_perm x l : insert_sorted x l ≡ₚ x :: l.
Proof.
  induction l as [|y l IH]; simpl; [done|]. destruct (leb x y); [done|].
  rewrite IH. apply Permutation_swap.
Qed.

Lemma py_sorted_perm l : py_sorted l ≡ₚ l.
Proof. induction l; simpl; [done|]. by rewrite insert_sorted_perm, IHl. Qed.

Let R x y : Prop := leb x y = true.
Context (Htot : ∀ x y, leb x y = true ∨ leb y x = true).

Lemma insert_sorted_sorted x l : Sorted R l → Sorted R (insert_sorted x l).
Proof.
  induction 1 as [|y l Hs IH Hhd]; simpl; [repeat constructor|].
  destruct (leb x y) eqn:E; [repeat constructor; done|].
  constructor; [done|]. destruct l as [|z l]; simpl.
  - constructor. unfold R. destruct (Htot x y); congruence.
  - inversion Hhd. destruct (leb x z); constructor; [|done].
    unfold R. destruct (Htot x y); congruence.
Qed.

Lemma py_sorted_sorted l : Sorted R (py_sorted l).
Proof. induction l; simpl; [constructor|]. by apply insert_sorted_sorted. Qed.

Lemma py_sorted_id l : Sorted R l → py_sorted l = l.
Proof.
  induction 1 as [|x l Hs IH Hhd]; simpl; [done|]. rewrite IH.
  destruct l as [|y l]; simpl; [done|]. inversion Hhd; subst.
  unfold R in *. by replace (leb x y) with true.
Qed.

Lemma py_sorted_idem l : py_sorted (py_sorted l) = py_sorted l.
Proof. apply py_sorted_id, py_sorted_sorted. Qed.
End sorted.

(** ** Strings *)

Abbreviation str_leb := String.leb.

Lemma str_leb_total s1 s2 : str_leb s1 s2 = true ∨ str_leb s2 s1 = true.
Proof. apply String.leb_total. Qed.

Lemma str_leb_trans s1 s2 s3 :
  str_leb s1 s2 = true → str_leb s2 s3 = true → str_leb s1 s3 = true.
Proof.
  intros H1 H2. apply Is_true_true.
  apply (@transitivity _ String.le _ s1 s2 s3); by apply Is_true_true.
Qed.

Lemma str_leb_antisym s1 s2 : str_leb s1 s2 = true → str_leb s2 s1 = true → s1 = s2.
Proof. apply String.leb_antisym. Qed.

(** [len(s)] *)
Definition str_len (s : string) : Z := Z.of_nat (String.length s).

(** [s[:n]] *)
Fixpoint str_take (n : nat) (s : string) : string :=
  match n, s with
  | S n, String c s => String c (str_take n s)
  | _, _ => ""
  end.

(** [sep.join(parts)] *)
Fixpoint str_join (sep : string) (parts : list string) : string :=
  match parts with
  | [] => ""
  | [p] => p
  | p :: parts => p +:+ sep +:+ str_join sep parts
  end.

Fixpoint str_forallb (f : ascii → bool) (s : string) : bool :=
  match s with
  | "" => true
  | String c s => f c && str_forallb f s
  end.

Fixpoint str_repeat (n : nat) (c : ascii) : string :=
  match n with O => "" | S n => String c (str_repeat n c) end.

Definition char_code (c : ascii) : Z := Z.of_N (N_of_ascii c).
Definition char_in_range (lo hi c : ascii) : bool :=
  (char_code lo <=? char_code c) && (char_code c <=? char_code hi).
Definition is_digit (c : ascii) : bool := char_in_range "0" "9" c.
Definition is_hex_lower (c : ascii) : bool := is_digit c || char_in_range "a" "f" c.

Lemma str_app_assoc (s1 s2 s3 : string) : (s1 +:+ s2) +:+ s3 = s1 +:+ s2 +:+ s3.
Proof. induction s1; [done|]. change (String a ((s1 +:+ s2) +:+ s3) = String a (s1 +:+ s2 +:+ s3)). by f_equal. Qed.

Lemma str_app_length (s1 s2 : string) :
  String.length (s1 +:+ s2) = (String.length s1 + String.length s2)%nat.
Proof. induction s1; [done|]. change (S (String.length (s1 +:+ s2)) = S (String.length s1 + String.length s2)%nat). by f_equal. Qed.

Lemma str_take_length n s : (String.length (str_take n s) = Nat.min n (String.length s))%nat.
Proof. revert s. induction n as [|n IH]; intros [|c s]; simpl; auto. Qed.

Lemma str_forallb_app f s1 s2 :
  str_forallb f (s1 +:+ s2) = str_forallb f s1 && str_forallb f s2.
Proof.
  induction s1; [done|].
  change (f a && str_forallb f (s1 +:+ s2) = f a && str_forallb f s1 && str_forallb f s2).
  by rewrite IHs1, andb_assoc.
Qed.

Lemma str_forallb_take f n s : str_forallb f s = true → str_forallb f (str_take n s) = true.
Proof.
  revert s. induction n as [|n IH]; intros [|c s]; simpl; auto.
  rewrite !andb_true_iff. naive_solver.
Qed.

Lemma str_forallb_impl (f g : ascii → bool) s :
  (∀ c, f c = true → g c = true) → str_forallb f s = true → str_forallb g s = true.
Proof.
  intros H. induction s; simpl; [done|]. rewrite !andb_true_iff. naive_solver.
Qed.

(** ** Lists *)

Definition zlen {A} (l : list A) : Z := Z.of_nat (length l).

(** [l[:n]]; a negative bound counts from the end *)
Definition ztake {A} (n : Z) (l : list A) : list A :=
  take (Z.to_nat (if n <? 0 then zlen l + n else n)) l.

Lemma ztake_nonneg {A} n (l : list A) : 0 <= n → ztake n l = take (Z.to_nat n) l.
Proof. intros H. unfold ztake. by destruct (Z.ltb_spec n 0); [lia|]. Qed.

(** [len(set(l)) == len(l)] *)
Definition no_dups {A} `{!EqDecision A, !Countable A} (l : list A) : bool :=
  bool_decide (NoDup l).

Lemma existsb_false {A} (f : A → bool) l x : existsb f l = false → x ∈ l → f x = false.
Proof.
  intros H Hx. destruct (f x) eqn:E; [|done]. rewrite <-H. symmetry. apply existsb_exists.
  exists x. split; [by apply list_elem_of_In|done].
Qed.

Lemma last_snoc_ne {A} (l : list A) x : l ≠ [] → last (x :: l) = last l.
Proof. by destruct l. Qed.

Lemma filter_sublist {A} (f : A → bool) (l : list A) : List.filter f l `sublist_of` l.
Proof. induction l as [|x l IH]; simpl; [done|]. destruct (f x); by constructor. Qed.

(** [sum(f(x) for x in l)] *)
Definition sum_of {A} (f : A → Z) (l : list A) : Z := foldr Z.add 0 (f <$> l).

Lemma sum_of_snoc {A} (f : A → Z) l x : sum_of f (l ++ [x]) = sum_of f l + f x.
Proof.
  unfold sum_of. rewrite fmap_app. change (f <$> [x]) with [f x].
  induction (f <$> l) as [|y l' IH]; simpl in *; lia.
Qed.

Lemma sum_of_cons {A} (f : A → Z) x l : sum_of f (x :: l) = f x + sum_of f l.
Proof. done. Qed.

Lemma sum_of_le {A} (f g : A → Z) l : (∀ x, x ∈ l → f x ≤ g x) → sum_of f l ≤ sum_of g l.
Proof.
  induction l as [|x l IH]; intros H; [done|]. rewrite !sum_of_cons.
  apply Z.add_le_mono; [apply H; by left|apply IH; intros y Hy; apply H; by right].
Qed.

Lemma sum_of_ext {A} (f g : A → Z) l : (∀ x, x ∈ l → f x = g x) → sum_of f l = sum_of g l.
Proof. intros H. apply Z.le_antisymm; apply sum_of_le; intros x Hx; rewrite (H x Hx); lia. Qed.

Lemma sum_of_filter {A} (p : A → bool) (f : A → Z) l :
  sum_of f (List.filter p l) = sum_of (λ x, if p x then f x else 0) l.
Proof.
  induction l as [|x l IH]; [done|]. rewrite sum_of_cons, <- IH. simpl. by destruct (p x).
Qed.

Lemma sum_of_dict_set {K V} `{!EqDecision K} (f : V → Z) (k : K) v (d : list (K * V)) :
  sum_of f (dict_set k v d).*2
  = sum_of f d.*2 + f v - match dict_get k d with Some v0 => f v0 | None => 0 end.
Proof.
  induction d as [|[k' v'] d IH]; [cbn; lia|]. cbn [dict_set dict_get].
  destruct (decide (k' = k)); cbn [fmap list_fmap snd]; rewrite !sum_of_cons; [lia|].
  cbn [fmap] in IH. rewrite IH. lia.
Qed.

Lemma filter_snoc {A} (P : A → Prop) `{!∀ x, Decision (P x)} l x :
  filter P (l ++ [x]) = filter P l ++ (if decide (P x) then [x] else []).
Proof. rewrite filter_app, filter_cons. by destruct (decide (P x)). Qed.

(** ** Digests

    [sha256(b).digest()] as a class: every component that hashes takes it as an
    interface; [Sha256.v] supplies the algorithm and discharges the law. *)

Class Digest := sha256_digest : string → string.

Class DigestLaws `{!Digest} : Prop := {
  digest_length b : String.length (sha256_digest b) = 32%nat
}.

Definition hex_digit (n : N) : ascii :=
  if (n <? 10)%N then ascii_of_N (48 + n) else ascii_of_N (87 + n).

(** [bytes.hex()] *)
Fixpoint hex (b : string) : string :=
  match b with
  | "" => ""
  | String c b =>
      String (hex_digit (N_of_ascii c / 16)%N)
        (String (hex_digit (N_of_ascii c mod 16)%N) (hex b))
  end.

(** [sha256(s.encode()).hexdigest()] on an ASCII [s] *)
Definition hexdigest `{!Digest} (s : string) : string := hex (sha256_digest s).
#[global] Arguments hexdigest {_} _ : simpl never.

(** Pydantic pattern [^[a-f0-9]{64}$]. *)
Definition is_sha256_hex (s : string) : bool :=
  (String.length s =? 64)%nat && str_forallb is_hex_lower s.

Lemma hex_digits_lower b : str_forallb is_hex_lower (hex b) = true.
Proof.
  induction b as [|c b IH]; [done|]. simpl. rewrite IH, andb_true_r.
  by destruct c as [[] [] [] [] [] [] [] []].
Qed.

Lemma hex_length b : String.length (hex b) = (2 * String.length b)%nat.
Proof. induction b; simpl; lia. Qed.

Lemma hex_inj b1 b2 : hex b1 = hex b2 → b1 = b2.
Proof.
  revert b2. induction b1 as [|c1 b1 IH]; intros [|c2 b2] H; try done.
  simpl in H. injection H as H1 H2 H3. f_equal; [|auto].
  clear -H1 H2.
  assert (∀ c, hex_digit (N_of_ascii c / 16) = hex_digit (N_of_ascii c1 / 16) → True) by done.
  rewrite <-(ascii_N_embedding c1), <-(ascii_N_embedding c2). f_equal.
  assert (∀ a b, (a < 16)%N → (b < 16)%N → hex_digit a = hex_digit b → a = b) as Hd.
  { intros a b Ha Hb Hab. apply (f_equal N_of_ascii) in Hab. unfold hex_digit in Hab.
    destruct (N.ltb_spec a 10), (N.ltb_spec b 10);
      rewrite !N_ascii_embedding in Hab by lia; lia. }
  pose proof (N_ascii_bounded c1). pose proof (N_ascii_bounded c2).
  apply Hd in H1; [|apply N.Div0.div_lt_upper_bound; lia..].
  apply Hd in H2; [|apply N.mod_lt; lia..].
  rewrite (N.Div0.div_mod (N_of_ascii c1) 16), (N.Div0.div_mod (N_of_ascii c2) 16).
  congruence.
Qed.

Lemma hexdigest_ok `{!Digest, !DigestLaws} s : is_sha256_hex (hexdigest s) = true.
Proof.
  unfold is_sha256_hex, hexdigest. rewrite hex_length, digest_length, hex_digits_lower.
  done.
Qed.

(** [collides m1 m2]: these two messages are a collision of the digest. *)
Definition collides `{!Digest} (m1 m2 : string) : Prop :=
  m1 ≠ m2 ∧ sha256_digest m1 = sha256_digest m2.

Lemma hexdigest_inj `{!Digest} m1 m2 :
  hexdigest m1 = hexdigest m2 → m1 = m2 ∨ collides m1 m2.
Proof.
  intros Heq. apply hex_inj in Heq. destruct (decide (m1 = m2)); [by left|by right].
Qed.
