(* ===== verification/PyJson.v ===== *)
(** * JSON values and [json.dumps] / [json.loads]

    The values of Pydantic's [JsonValue], their canonical text
    ([_canonical_json] of [durability.py]: sorted keys, no spaces, ASCII escapes) and
    the parser of [json.loads], with the round trip between the two.  A Python [str] is
    a [string], one character per code point (code points up to 255).  A [float] is kept
    as the literal [float.__repr__] prints. *)

From S2P Require Import Prelude.
From Stdlib Require DecimalZ DecimalN.

Inductive json :=
  | JNull
  | JBool (b : bool)
  | JInt (z : Z)
  | JFloat (repr : string)
  | JStr (s : string)
  | JList (l : list json)
  | JObj (o : list (string * json)).

Section json_ind.
Context (P : json → Prop).
Context (Hnull : P JNull) (Hbool : ∀ b, P (JBool b)) (Hint : ∀ z, P (JInt z))
  (Hfloat : ∀ r, P (JFloat r)) (Hstr : ∀ s, P (JStr s))
  (Hlist : ∀ l, Forall P l → P (JList l))
  (Hobj : ∀ o, Forall (λ kv, P kv.2) o → P (JObj o)).

Fixpoint json_nested_ind (v : json) : P v :=
  match v with
  | JNull => Hnull
  | JBool b => Hbool b
  | JInt z => Hint z
  | JFloat r => Hfloat r
  | JStr s => Hstr s
  | JList l => Hlist l ((fix go l : Forall P l :=
      match l with
      | [] => Forall_nil_2 _
      | x :: l => Forall_cons_2 _ _ _ (json_nested_ind x) (go l)
      end) l)
  | JObj o => Hobj o ((fix go o : Forall (λ kv, P kv.2) o :=
      match o with
      | [] => Forall_nil_2 _
      | kv :: o => Forall_cons_2 _ _ _ (json_nested_ind kv.2) (go o)
      end) o)
  end.
End json_ind.

#[export] Instance json_eq_dec : EqDecision json.
Proof.
  unfold EqDecision. fix go 1. intros x y.
  destruct x as [|b|z|r|s|l|o], y as [|b'|z'|r'|s'|l'|o'];
    try (right; discriminate).
  - by left.
  - destruct (decide (b = b')) as [->|]; [by left|right; congruence].
  - destruct (decide (z = z')) as [->|]; [by left|right; congruence].
  - destruct (decide (r = r')) as [->|]; [by left|right; congruence].
  - destruct (decide (s = s')) as [->|]; [by left|right; congruence].
  - assert (Decision (l = l')) as [->|]; [|by left|right; congruence].
    revert l'. induction l as [|x l IH]; intros [|y l'];
      [by left|by right|by right|].
    destruct (go x y) as [->|]; [|right; congruence].
    destruct (IH l') as [->|]; [by left|right; congruence].
  - assert (Decision (o = o')) as [->|]; [|by left|right; congruence].
    revert o'. induction o as [|[k x] o IH]; intros [|[k' y] o'];
      [by left|by right|by right|].
    destruct (decide (k = k')) as [->|]; [|right; congruence].
    destruct (go x y) as [->|]; [|right; congruence].
    destruct (IH o') as [->|]; [by left|right; congruence].
Defined.

(** [value.get(key)] on a JSON object *)
Abbreviation payload := (list (string * json)).

(** ** Printing *)

Fixpoint pr_uint (d : Decimal.uint) (k : string) : string :=
  match d with
  | Decimal.Nil => k
  | Decimal.D0 d => String "0" (pr_uint d k)
  | Decimal.D1 d => String "1" (pr_uint d k)
  | Decimal.D2 d => String "2" (pr_uint d k)
  | Decimal.D3 d => String "3" (pr_uint d k)
  | Decimal.D4 d => String "4" (pr_uint d k)
  | Decimal.D5 d => String "5" (pr_uint d k)
  | Decimal.D6 d => String "6" (pr_uint d k)
  | Decimal.D7 d => String "7" (pr_uint d k)
  | Decimal.D8 d => String "8" (pr_uint d k)
  | Decimal.D9 d => String "9" (pr_uint d k)
  end.

(** [str(z)] followed by [k] *)
Definition pr_int (z : Z) (k : string) : string :=
  match Z.to_int z with
  | Decimal.Pos d => pr_uint d k
  | Decimal.Neg d => String "-" (pr_uint d k)
  end.

Definition str_of_int (z : Z) : string := pr_int z "".

(** The escapes of [json.encoder.ESCAPE_ASCII]: everything outside [' '..'~'], the
    quote and the backslash. *)
Definition esc (c : ascii) (k : string) : string :=
  if decide (c = "034"%char) then String "\" (String "034" k)
  else if decide (c = "\"%char) then String "\" (String "\" k)
  else if decide (c = "008"%char) then String "\" (String "b" k)
  else if decide (c = "009"%char) then String "\" (String "t" k)
  else if decide (c = "010"%char) then String "\" (String "n" k)
  else if decide (c = "012"%char) then String "\" (String "f" k)
  else if decide (c = "013"%char) then String "\" (String "r" k)
  else if char_in_range " " "~" c then String c k
  else String "\" (String "u" (String "0" (String "0"
         (String (hex_digit (N_of_ascii c / 16)%N)
            (String (hex_digit (N_of_ascii c mod 16)%N) k))))).

Fixpoint pr_chars (s : string) (k : string) : string :=
  match s with
  | "" => k
  | String c s => esc c (pr_chars s k)
  end.

Definition pr_str (s k : string) : string :=
  String "034" (pr_chars s (String "034" k)).

Fixpoint pr (v : json) (k : string) : string :=
  match v with
  | JNull => "null" +:+ k
  | JBool true => "true" +:+ k
  | JBool false => "false" +:+ k
  | JInt z => pr_int z k
  | JFloat r => r +:+ k
  | JStr s => pr_str s k
  | JList l => String "[" ((fix go l :=
      match l with
      | [] => String "]" k
      | [x] => pr x (String "]" k)
      | x :: l => pr x (String "," (go l))
      end) l)
  | JObj o => String "{" ((fix go o :=
      match o with
      | [] => String "}" k
      | [(key, x)] => pr_str key (String ":" (pr x (String "}" k)))
      | (key, x) :: o => pr_str key (String ":" (pr x (String "," (go o))))
      end) o)
  end.

(** [sort_keys=True], at every depth *)
Definition key_leb {A} (kv1 kv2 : string * A) : bool := str_leb kv1.1 kv2.1.

Fixpoint jnorm (v : json) : json :=
  match v with
  | JList l => JList (jnorm <$> l)
  | JObj o => JObj (py_sorted key_leb ((λ kv, (kv.1, jnorm kv.2)) <$> o))
  | v => v
  end.

Definition canonical_json (v : json) : string := pr (jnorm v) "".
#[global] Arguments canonical_json : simpl never.

(** ** Parsing *)

Definition is_ws (c : ascii) : bool :=
  bool_decide (c = " "%char ∨ c = "009"%char ∨ c = "010"%char ∨ c = "013"%char).

Fixpoint skip_ws (s : string) : string :=
  match s with
  | String c s' => if is_ws c then skip_ws s' else s
  | "" => ""
  end.

Definition hex_value (c : ascii) : option N :=
  let n := N_of_ascii c in
  if is_digit c then Some (n - 48)%N
  else if char_in_range "a" "f" c then Some (n - 87)%N
  else if char_in_range "A" "F" c then Some (n - 55)%N
  else None.

Definition unescape (c : ascii) : option ascii :=
  if decide (c = "034"%char) then Some "034"%char
  else if decide (c = "\"%char) then Some "\"%char
  else if decide (c = "/"%char) then Some "/"%char
  else if decide (c = "b"%char) then Some "008"%char
  else if decide (c = "f"%char) then Some "012"%char
  else if decide (c = "n"%char) then Some "010"%char
  else if decide (c = "r"%char) then Some "013"%char
  else if decide (c = "t"%char) then Some "009"%char
  else None.

(** [scanstring], after the opening quote *)
Fixpoint parse_chars (s : string) : option (string * string) :=
  match s with
  | "" => None
  | String c s1 =>
      if decide (c = "034"%char) then Some ("", s1)
      else if decide (c = "\"%char) then
        match s1 with
        | String e s2 =>
            if decide (e = "u"%char) then
              match s2 with
              | String h1 (String h2 (String h3 (String h4 s3))) =>
                  match hex_value h1, hex_value h2, hex_value h3, hex_value h4 with
                  | Some 0%N, Some 0%N, Some n3, Some n4 =>
                      '(t, r) ← parse_chars s3;
                      Some (String (ascii_of_N (16 * n3 + n4)) t, r)
                  | _, _, _, _ => None
                  end
              | _ => None
              end
            else
              match unescape e with
              | Some c' => '(t, r) ← parse_chars s2; Some (String c' t, r)
              | None => None
              end
        | "" => None
        end
      else if char_code c <? 32 then None
      else '(t, r) ← parse_chars s1; Some (String c t, r)
  end.

Definition is_num_char (c : ascii) : bool :=
  is_digit c || bool_decide (c = "+"%char ∨ c = "-"%char ∨ c = "."%char
                             ∨ c = "e"%char ∨ c = "E"%char).

Fixpoint span (f : ascii → bool) (s : string) : string * string :=
  match s with
  | String c s' => if f c then let '(a, b) := span f s' in (String c a, b) else ("", s)
  | "" => ("", "")
  end.

Fixpoint read_uint (s : string) : Decimal.uint * string :=
  match s with
  | String c s' =>
      let '(d, r) := read_uint s' in
      match c with
      | "0" => (Decimal.D0 d, r) | "1" => (Decimal.D1 d, r)
      | "2" => (Decimal.D2 d, r) | "3" => (Decimal.D3 d, r)
      | "4" => (Decimal.D4 d, r) | "5" => (Decimal.D5 d, r)
      | "6" => (Decimal.D6 d, r) | "7" => (Decimal.D7 d, r)
      | "8" => (Decimal.D8 d, r) | "9" => (Decimal.D9 d, r)
      | _ => (Decimal.Nil, s)
      end%char
  | "" => (Decimal.Nil, "")
  end.

Definition leading_zero (d : Decimal.uint) : bool :=
  match d with Decimal.D0 Decimal.Nil => false | Decimal.D0 _ => true | _ => false end.

(** The rest of a number after its integer part: an optional fraction, an optional
    exponent, nothing else. *)
Definition frac_exp_ok (s : string) : bool :=
  let exp_ok s :=
    match s with
    | "" => true
    | String e s =>
        if bool_decide (e = "e"%char ∨ e = "E"%char) then
          let s := match s with String "+" s | String "-" s => s | s => s end in
          match read_uint s with
          | (Decimal.Nil, _) => false
          | (_, "") => true
          | _ => false
          end
        else false
    end in
  match s with
  | String "." s =>
      match read_uint s with (Decimal.Nil, _) => false | (_, r) => exp_ok r end
  | s => exp_ok s
  end.

(** [NUMBER_RE] over the whole text: an optional sign, [0] or a digit run without
    leading zero, then the optional fraction and exponent *)
Definition num_of_text (s : string) : option json :=
  let '(neg, s1) := match s with String "-" s1 => (true, s1) | _ => (false, s) end in
  match read_uint s1 with
  | (Decimal.Nil, _) => None
  | (d, r) =>
      if leading_zero d then None
      else match r with
      | "" => Some (JInt (Z.of_int (if neg : bool then Decimal.Neg d else Decimal.Pos d)))
      | _ => if frac_exp_ok r then Some (JFloat s) else None
      end
  end.

Fixpoint strip_prefix (p s : string) : option string :=
  match p, s with
  | "", _ => Some s
  | String c p, String c' s => if decide (c = c') then strip_prefix p s else None
  | _, _ => None
  end.

Definition parse_literal (s : string) : option (json * string) :=
  match strip_prefix "null" s with Some r => Some (JNull, r) | None =>
  match strip_prefix "true" s with Some r => Some (JBool true, r) | None =>
  match strip_prefix "false" s with Some r => Some (JBool false, r) | None =>
  match strip_prefix "NaN" s with Some r => Some (JFloat "NaN", r) | None =>
  match strip_prefix "Infinity" s with Some r => Some (JFloat "Infinity", r) | None =>
  match strip_prefix "-Infinity" s with Some r => Some (JFloat "-Infinity", r) | None =>
  None end end end end end end.

Fixpoint parse_value (n : nat) (s : string) : option (json * string) :=
  match n with
  | O => None
  | S n =>
      match skip_ws s with
      | "" => None
      | String c s1 as s0 =>
          if decide (c = "034"%char) then '(t, r) ← parse_chars s1; Some (JStr t, r)
          else if decide (c = "["%char) then
            match skip_ws s1 with
            | String "]" r => Some (JList [], r)
            | _ => '(l, r) ← parse_elems n s1; Some (JList l, r)
            end
          else if decide (c = "{"%char) then
            match skip_ws s1 with
            | String "}" r => Some (JObj [], r)
            | _ => '(o, r) ← parse_members n s1; Some (JObj (dict_update [] o), r)
            end
          else match parse_literal s0 with
          | Some x => Some x
          | None =>
              let '(t, r) := span is_num_char s0 in
              v ← num_of_text t; Some (v, r)
          end
      end
  end
with parse_elems (n : nat) (s : string) : option (list json * string) :=
  match n with
  | O => None
  | S n =>
      '(v, r) ← parse_value n s;
      match skip_ws r with
      | String "]" r => Some ([v], r)
      | String "," r => '(l, r) ← parse_elems n r; Some (v :: l, r)
      | _ => None
      end
  end
with parse_members (n : nat) (s : string) : option (list (string * json) * string) :=
  match n with
  | O => None
  | S n =>
      match skip_ws s with
      | String "034" s1 =>
          '(key, r) ← parse_chars s1;
          match skip_ws r with
          | String ":" r =>
              '(v, r) ← parse_value n r;
              match skip_ws r with
              | String "}" r => Some ([(key, v)], r)
              | String "," r => '(o, r) ← parse_members n r; Some ((key, v) :: o, r)
              | _ => None
              end
          | _ => None
          end
      | _ => None
      end
  end.

(** [json.loads(text)]; every failure is a [JSONDecodeError], a [ValueError] *)
Definition json_loads (s : string) : option json :=
  match parse_value (S (String.length s)) s with
  | Some (v, r) => if decide (skip_ws r = "") then Some v else None
  | None => None
  end.

(** ** Well-formed values *)

Definition float_ok (r : string) : bool :=
  str_forallb is_num_char r && bool_decide (num_of_text r = Some (JFloat r)).

(** Distinct keys in every object (a [dict] cannot have others) and finite floats. *)
Fixpoint json_wf (v : json) : bool :=
  match v with
  | JFloat r => float_ok r
  | JList l => forallb json_wf l
  | JObj o => bool_decide (NoDup o.*1) && forallb (λ kv, json_wf kv.2) o
  | _ => true
  end.

(** ** The round trip *)

(** [k] does not continue a number. *)
Definition delim (k : string) : Prop :=
  match k with "" => True | String c _ => is_num_char c = false end.

Ltac ascii_cases c := destruct c as [[] [] [] [] [] [] [] []].

Lemma is_num_char_false_digit c : is_num_char c = false → is_digit c = false.
Proof. unfold is_num_char. by destruct (is_digit c). Qed.

Lemma read_uint_stop k : delim k → read_uint k = (Decimal.Nil, k).
Proof.
  destruct k as [|c k]; simpl; [done|]. intros H%is_num_char_false_digit.
  destruct (read_uint k). revert H. by ascii_cases c.
Qed.

Lemma read_uint_pr d k : delim k → read_uint (pr_uint d k) = (d, k).
Proof.
  intros Hk. induction d as [|d IH|d IH|d IH|d IH|d IH|d IH|d IH|d IH|d IH|d IH];
    simpl; [by apply read_uint_stop|by rewrite IH..].
Qed.

Lemma pr_uint_app d k : pr_uint d k = pr_uint d "" +:+ k.
Proof. induction d; [done|by (simpl; rewrite IHd)..]. Qed.

Lemma pr_int_app z k : pr_int z k = str_of_int z +:+ k.
Proof.
  unfold str_of_int, pr_int. destruct (Z.to_int z); rewrite pr_uint_app; done.
Qed.

Lemma pr_uint_num d : str_forallb is_num_char (pr_uint d "") = true.
Proof. by induction d. Qed.

Lemma str_of_int_num z : str_forallb is_num_char (str_of_int z) = true.
Proof. unfold str_of_int, pr_int. destruct (Z.to_int z); apply pr_uint_num. Qed.

Lemma span_app f a k :
  str_forallb f a = true → match k with "" => True | String c _ => f c = false end →
  span f (a +:+ k) = (a, k).
Proof.
  intros Ha Hk. induction a as [|c a IH].
  - destruct k as [|c k]; [done|]. change (span f (String c k) = ("", String c k)).
    simpl. by rewrite Hk.
  - change (span f (String c (a +:+ k)) = (String c a, k)). simpl in *.
    apply andb_true_iff in Ha as [-> Ha]. by rewrite IH.
Qed.

Lemma nzhead_not_D0 d d' : Decimal.nzhead d ≠ Decimal.D0 d'.
Proof. induction d; simpl; congruence. Qed.

Lemma unorm_no_leading_zero d : leading_zero (Decimal.unorm d) = false.
Proof.
  unfold Decimal.unorm. destruct (Decimal.nzhead d) eqn:E; try done.
  by apply nzhead_not_D0 in E.
Qed.

Lemma unorm_not_nil d : Decimal.unorm d ≠ Decimal.Nil.
Proof. unfold Decimal.unorm. by destruct (Decimal.nzhead d). Qed.

Lemma to_int_normal z :
  match Z.to_int z with Decimal.Pos d | Decimal.Neg d => d = Decimal.unorm d end.
Proof.
  assert (∀ p, Pos.to_uint p = Decimal.unorm (Pos.to_uint p)) as Hp.
  { intros p. pose proof (DecimalN.Unsigned.to_of (N.to_uint (N.pos p))) as H.
    by rewrite DecimalN.Unsigned.of_to in H. }
  destruct z; simpl; [done|apply Hp..].
Qed.

Lemma num_of_text_int z : num_of_text (str_of_int z) = Some (JInt z).
Proof.
  pose proof (to_int_normal z) as Hn. pose proof (DecimalZ.of_to z) as Hz.
  unfold str_of_int, pr_int. destruct (Z.to_int z) as [d|d] eqn:E.
  - assert (leading_zero d = false ∧ d ≠ Decimal.Nil) as [Hl Hnil].
    { rewrite Hn. split; [apply unorm_no_leading_zero|apply unorm_not_nil]. }
    assert (match pr_uint d "" with String "-" s1 => (true, s1) | _ => (false, pr_uint d "") end
            = (false, pr_uint d "")) as Hsgn by (by destruct d).
    unfold num_of_text. rewrite Hsgn, read_uint_pr by done. rewrite Hl, Hz. by destruct d.
  - assert (leading_zero d = false ∧ d ≠ Decimal.Nil) as [Hl Hnil].
    { rewrite Hn. split; [apply unorm_no_leading_zero|apply unorm_not_nil]. }
    unfold num_of_text. rewrite read_uint_pr by done. rewrite Hl, Hz. by destruct d.
Qed.

Lemma parse_chars_esc c t :
  parse_chars (esc c t) = '(x, r) ← parse_chars t; Some (String c x, r).
Proof. by ascii_cases c. Qed.

Lemma parse_pr_chars s k : parse_chars (pr_chars s (String "034" k)) = Some (s, k).
Proof.
  induction s as [|c s IH]; [done|]. cbn [pr_chars]. by rewrite parse_chars_esc, IH.
Qed.

(** A number text starts like no literal, no container and no string. *)
Lemma num_text_head s v k :
  num_of_text s = Some v →
  ∃ c s', s +:+ k = String c s' ∧ is_num_char c = true ∧
          parse_literal (s +:+ k) = None.
Proof.
  assert (∀ c s1, is_digit c = false → read_uint (String c s1) = (Decimal.Nil, String c s1)) as Hnd.
  { intros c s1 Hc. simpl. destruct (read_uint s1). revert Hc. by ascii_cases c. }
  destruct s as [|c s]; [done|]. intros H. exists c, (s +:+ k).
  change (String c s +:+ k) with (String c (s +:+ k)).
  destruct (is_digit c) eqn:Ec.
  { split_and!; [done|unfold is_num_char; by rewrite Ec|].
    clear H. revert Ec. by ascii_cases c. }
  destruct (decide (c = "-"%char)) as [->|Hc].
  - split_and!; [done..|]. destruct s as [|c' s]; [done|].
    change (String c' s +:+ k) with (String c' (s +:+ k)).
    destruct (is_digit c') eqn:Ec'.
    + clear H. revert Ec'. by ascii_cases c'.
    + unfold num_of_text in H. rewrite Hnd in H by done. done.
  - exfalso. unfold num_of_text in H.
    assert (match String c s with String "-" s1 => (true, s1) | _ => (false, String c s) end
            = (false, String c s)) as E.
    { clear H Ec. revert Hc. by ascii_cases c. }
    rewrite E, Hnd in H by done. done.
Qed.

Lemma num_char_plain c s : is_num_char c = true →
  skip_ws (String c s) = String c s ∧ c ≠ "034"%char ∧ c ≠ "["%char ∧ c ≠ "{"%char.
Proof. by ascii_cases c. Qed.

Lemma parse_number n s v k :
  num_of_text s = Some v → str_forallb is_num_char s = true → delim k →
  parse_value (S n) (s +:+ k) = Some (v, k).
Proof.
  intros Hv Hs Hk. destruct (num_text_head s v k Hv) as (c & s' & E & Hc & Hl).
  cbn [parse_value].
  assert (skip_ws (s +:+ k) = s +:+ k) as ->.
  { rewrite E. by apply num_char_plain. }
  destruct (num_char_plain c s' Hc) as (_ & H1 & H2 & H3).
  assert (span is_num_char (s +:+ k) = (s, k)) as Hspan by (by apply span_app).
  rewrite E in *. rewrite !decide_False by done. rewrite Hl, Hspan. simpl. by rewrite Hv.
Qed.

(** [pr] never starts with white space, nor with a closing bracket. *)
Lemma pr_head v k : json_wf v = true →
  ∃ c s, pr v k = String c s ∧ is_ws c = false ∧ c ≠ "]"%char ∧ c ≠ "}"%char.
Proof.
  assert (∀ c, is_num_char c = true → is_ws c = false ∧ c ≠ "]"%char ∧ c ≠ "}"%char) as Hnum.
  { intros c. by ascii_cases c. }
  destruct v as [|[]|z|r|s|l|o]; intros Hwf; simpl; try (eexists _, _; split; [done|]; done).
  - rewrite pr_int_app. destruct (num_text_head _ _ k (num_of_text_int z)) as (c & s & -> & Hc & _).
    eauto.
  - simpl in Hwf. unfold float_ok in Hwf. apply andb_true_iff in Hwf as [_ H%bool_decide_eq_true].
    destruct (num_text_head _ _ k H) as (c & s & -> & Hc & _). eauto.
Qed.

(** Fuel: one unit per value and one per container element. *)
Fixpoint jsize (v : json) : nat :=
  match v with
  | JList l => S (sum_list ((λ x, S (jsize x)) <$> l))
  | JObj o => S (sum_list ((λ kv, S (jsize kv.2)) <$> o))
  | _ => 1%nat
  end.

Definition pr_elems (l : list json) (k : string) : string :=
  (fix go l := match l with
   | [] => String "]" k
   | [x] => pr x (String "]" k)
   | x :: l => pr x (String "," (go l))
   end) l.

Definition pr_members (o : payload) (k : string) : string :=
  (fix go o := match o with
   | [] => String "}" k
   | [(key, x)] => pr_str key (String ":" (pr x (String "}" k)))
   | (key, x) :: o => pr_str key (String ":" (pr x (String "," (go o))))
   end) o.

(** [v] prints to a text [parse_value] reads back, whatever follows it. *)
Definition parses (v : json) : Prop :=
  ∀ n k, (jsize v ≤ n)%nat → json_wf v = true → delim k → parse_value n (pr v k) = Some (v, k).

Lemma parse_pr_elems l n k :
  Forall parses l → l ≠ [] → (sum_list ((λ x, S (jsize x)) <$> l) ≤ n)%nat →
  forallb json_wf l = true → parse_elems n (pr_elems l k) = Some (l, k).
Proof.
  intros Hl. revert n. induction Hl as [|x l Hx Hl IH]; intros n Hne Hn Hwf; [done|].
  cbn [fmap list_fmap sum_list sum_list_with foldr] in Hn. simpl in Hn, Hwf.
  apply andb_true_iff in Hwf as [Hwx Hwl].
  destruct n as [|n]; [lia|]. cbn [parse_elems].
  destruct l as [|y l].
  - change (pr_elems [x] k) with (pr x (String "]" k)). by rewrite Hx by (simpl in *; lia || done).
  - change (pr_elems (x :: y :: l) k) with (pr x (String "," (pr_elems (y :: l) k))).
    rewrite Hx by (simpl in *; lia || done). simpl. rewrite IH; [done..|simpl in *; lia|done].
Qed.

Lemma parse_pr_members o n k :
  Forall (λ kv, parses kv.2) o → o ≠ [] → (sum_list ((λ kv, S (jsize kv.2)) <$> o) ≤ n)%nat →
  forallb (λ kv, json_wf kv.2) o = true → parse_members n (pr_members o k) = Some (o, k).
Proof.
  intros Ho. revert n. induction Ho as [|[key x] o Hx Ho IH]; intros n Hne Hn Hwf; [done|].
  simpl in Hn, Hwf, Hx. apply andb_true_iff in Hwf as [Hwx Hwo].
  destruct n as [|n]; [lia|]. cbn [parse_members].
  destruct o as [|[key' y] o].
  - change (pr_members [(key, x)] k) with (pr_str key (String ":" (pr x (String "}" k)))).
    unfold pr_str. simpl. rewrite parse_pr_chars. simpl. by rewrite Hx by (simpl in *; lia || done).
  - change (pr_members ((key, x) :: (key', y) :: o) k)
      with (pr_str key (String ":" (pr x (String "," (pr_members ((key', y) :: o) k))))).
    unfold pr_str at 1. simpl. rewrite parse_pr_chars. simpl.
    rewrite Hx by (simpl in *; lia || done). simpl. rewrite IH; [done..|simpl in *; lia|done].
Qed.

Lemma dict_update_fresh {V} (d new : list (string * V)) :
  NoDup (d ++ new).*1 → dict_update d new = d ++ new.
Proof.
  revert d. induction new as [|[k v] new IH]; intros d Hnd; [by rewrite app_nil_r|].
  unfold dict_update in *. simpl. rewrite fmap_app in Hnd. simpl in Hnd.
  assert (dict_set k v d = d ++ [(k, v)]) as ->.
  { apply NoDup_app in Hnd as (_ & Hd & _). clear IH.
    induction d as [|[k' v'] d IHd]; [done|]. simpl.
    rewrite decide_False; [f_equal; apply IHd; set_solver|].
    intros ->. apply (Hd k); simpl; left. }
  rewrite IH; [by rewrite <-app_assoc|]. rewrite <-app_assoc, fmap_app. done.
Qed.

Lemma parse_value_bracket n t :
  parse_value (S n) (String "[" t) =
  match skip_ws t with
  | String "]" r => Some (JList [], r)
  | _ => '(l, r) ← parse_elems n t; Some (JList l, r)
  end.
Proof. done. Qed.

Lemma parse_value_brace n t :
  parse_value (S n) (String "{" t) =
  match skip_ws t with
  | String "}" r => Some (JObj [], r)
  | _ => '(o, r) ← parse_members n t; Some (JObj (dict_update [] o), r)
  end.
Proof. done. Qed.

Theorem parse_value_pr v : parses v.
Proof.
  induction v as [|[]|z|r|s|l Hl|o Ho] using json_nested_ind; intros n k Hn Hwf Hk;
    (destruct n as [|n]; [simpl in Hn; lia|]); try done.
  - simpl pr. rewrite pr_int_app. apply parse_number; [apply num_of_text_int|apply str_of_int_num|done].
  - simpl in Hwf. unfold float_ok in Hwf.
    apply andb_true_iff in Hwf as [Hr H%bool_decide_eq_true]. by apply parse_number.
  - simpl. unfold pr_str. simpl. by rewrite parse_pr_chars.
  - simpl in Hwf, Hn. change (pr (JList l) k) with (String "[" (pr_elems l k)).
    rewrite parse_value_bracket. destruct l as [|x l]; [done|].
    assert (∃ c s, pr_elems (x :: l) k = String c s ∧ is_ws c = false ∧ c ≠ "]"%char ∧ c ≠ "}"%char)
      as (c & s & E & Hc & Hb & _).
    { simpl in Hwf. apply andb_true_iff in Hwf as [Hwx _].
      destruct l as [|y l]; by apply pr_head. }
    assert (parse_elems n (pr_elems (x :: l) k) = Some (x :: l, k)) as Hp.
    { apply parse_pr_elems; [done..|lia|done]. }
    rewrite Hp, E. cbn [skip_ws]. rewrite Hc. revert Hb. by ascii_cases c.
  - simpl in Hwf, Hn. apply andb_true_iff in Hwf as [Hnd%bool_decide_eq_true Hwf].
    change (pr (JObj o) k) with (String "{" (pr_members o k)).
    rewrite parse_value_brace. destruct o as [|[key x] o]; [done|].
    assert (∃ s, pr_members ((key, x) :: o) k = String "034" s) as (s & E).
    { destruct o as [|y o]; by eexists. }
    assert (parse_members n (pr_members ((key, x) :: o) k) = Some ((key, x) :: o, k)) as Hp.
    { apply parse_pr_members; [done..|lia|done]. }
    rewrite Hp, E. simpl skip_ws. cbn -[dict_update].
    by rewrite (dict_update_fresh [] ((key, x) :: o)).
Qed.

(** The fuel [json_loads] takes from the text is enough. *)
Lemma esc_length c k : (S (String.length k) ≤ String.length (esc c k))%nat.
Proof. ascii_cases c; simpl; lia. Qed.

Lemma pr_str_length s k : (S (String.length k) ≤ String.length (pr_str s k))%nat.
Proof.
  unfold pr_str. simpl. induction s as [|c s IH]; simpl; [lia|].
  pose proof (esc_length c (pr_chars s (String "034" k))). lia.
Qed.

Lemma pr_nonempty s v k : num_of_text s = Some v →
  (S (String.length k) ≤ String.length (s +:+ k))%nat.
Proof. intros H. destruct s; [done|]. rewrite str_app_length. simpl. lia. Qed.

Lemma pr_length v k : json_wf v = true →
  (jsize v + String.length k ≤ String.length (pr v k))%nat.
Proof.
  revert k. induction v as [|[]|z|r|s|l Hl|o Ho] using json_nested_ind; intros k Hwf;
    try (cbn [pr jsize]; rewrite str_app_length; simpl; lia).
  - cbn [pr jsize]. rewrite pr_int_app. apply (pr_nonempty _ _ _ (num_of_text_int z)).
  - cbn [pr jsize json_wf] in *. unfold float_ok in Hwf. apply andb_true_iff in Hwf as [_ H%bool_decide_eq_true].
    by apply (pr_nonempty _ (JFloat r)).
  - apply pr_str_length.
  - change (pr (JList l) k) with (String "[" (pr_elems l k)). simpl in Hwf |- *.
    destruct l as [|x l]; [simpl; lia|].
    enough (sum_list ((λ x, S (jsize x)) <$> x :: l) + String.length k
            ≤ String.length (pr_elems (x :: l) k))%nat by lia.
    revert x Hl Hwf. induction l as [|y l IH]; intros x Hl Hwf;
      inversion_clear Hl as [|?? Hx Hl']; simpl in Hwf; apply andb_true_iff in Hwf as [Hwx Hwl].
    + specialize (Hx (String "]" k) Hwx). simpl in *. lia.
    + specialize (IH y Hl' Hwl). change (pr_elems (x :: y :: l) k)
        with (pr x (String "," (pr_elems (y :: l) k))).
      specialize (Hx (String "," (pr_elems (y :: l) k)) Hwx).
      simpl in *. lia.
  - change (pr (JObj o) k) with (String "{" (pr_members o k)). simpl in Hwf |- *.
    apply andb_true_iff in Hwf as [_ Hwf].
    destruct o as [|x o]; [simpl; lia|].
    enough (sum_list ((λ kv, S (jsize kv.2)) <$> x :: o) + String.length k
            ≤ String.length (pr_members (x :: o) k))%nat by lia.
    revert x Ho Hwf. induction o as [|y o IH]; intros [key x] Ho Hwf;
      inversion_clear Ho as [|?? Hx Ho']; simpl in Hwf; apply andb_true_iff in Hwf as [Hwx Hwo];
      simpl in Hx.
    + change (pr_members [(key, x)] k) with (pr_str key (String ":" (pr x (String "}" k)))).
      etrans; [|apply pr_str_length]. specialize (Hx (String "}" k) Hwx). simpl in *. lia.
    + specialize (IH y Ho' Hwo). change (pr_members ((key, x) :: y :: o) k)
        with (pr_str key (String ":" (pr x (String "," (pr_members (y :: o) k))))).
      etrans; [|apply pr_str_length].
      specialize (Hx (String "," (pr_members (y :: o) k)) Hwx).
      destruct y as [key' y]. simpl in *. lia.
Qed.

(** Key order: [jnorm] permutes the members of an object, so it keeps [json_wf]. *)
Lemma key_leb_total {A} (x y : string * A) : key_leb x y = true ∨ key_leb y x = true.
Proof. apply str_leb_total. Qed.

Lemma sorted_keys_NoDup {A} (o : list (string * A)) :
  NoDup o.*1 → NoDup (py_sorted key_leb o).*1.
Proof. by rewrite (py_sorted_perm key_leb o). Qed.

Lemma forallb_perm {A} (f : A → bool) l1 l2 : l1 ≡ₚ l2 → forallb f l1 = forallb f l2.
Proof.
  induction 1; simpl; [done|congruence| |congruence]. by rewrite !andb_assoc, (andb_comm (f y)).
Qed.

Lemma jnorm_wf v : json_wf v = true → json_wf (jnorm v) = true.
Proof.
  induction v as [| | | | |l Hl|o Ho] using json_nested_ind; try done; simpl.
  - induction Hl; simpl; [done|]. rewrite !andb_true_iff. naive_solver.
  - rewrite !andb_true_iff. intros [Hnd%bool_decide_eq_true Hwf]. split.
    + apply bool_decide_eq_true, sorted_keys_NoDup. rewrite <-list_fmap_compose. done.
    + rewrite (forallb_perm _ _ _ (py_sorted_perm _ _)). clear Hnd.
      induction Ho as [|[k x] o Hx Ho IH]; simpl in *; [done|].
      rewrite !andb_true_iff in *. naive_solver.
Qed.

(** Reading back a canonical text gives the value with its keys in order. *)
Theorem loads_canonical v : json_wf v = true → json_loads (canonical_json v) = Some (jnorm v).
Proof.
  intros Hwf%jnorm_wf. unfold json_loads, canonical_json.
  pose proof (pr_length (jnorm v) "" Hwf) as Hlen. simpl in Hlen.
  rewrite parse_value_pr; [done|lia|done|done].
Qed.

(** Equal canonical texts come from the same value, up to the order of keys. *)
Theorem canonical_json_inj v1 v2 :
  json_wf v1 = true → json_wf v2 = true →
  canonical_json v1 = canonical_json v2 → jnorm v1 = jnorm v2.
Proof.
  intros H1 H2 H. apply loads_canonical in H1, H2. rewrite H in H1. congruence.
Qed.

(** Canonical text is printable ASCII. *)
Definition is_printable (c : ascii) : bool := char_in_range " " "~" c.

Lemma pr_chars_printable s k :
  str_forallb is_printable k = true → str_forallb is_printable (pr_chars s k) = true.
Proof.
  intros Hk. induction s as [|c s IH]; [done|]. simpl. revert IH. generalize (pr_chars s k).
  intros t Ht. ascii_cases c; simpl; by rewrite Ht.
Qed.

(** ** Reading members *)

(** [value.get(key)] then [isinstance(_, str)] *)
Definition as_str (v : json) : option string :=
  match v with JStr s => Some s | _ => None end.

(** [repr] of a [str]: single quotes unless the text holds one and no double quote;
    backslash escapes for the quote, the backslash, newline, carriage return and tab, and
    hexadecimal escapes for what is not printable. *)
Definition str_printable (c : ascii) : bool :=
  is_printable c || ((161 <=? char_code c) && negb (char_code c =? 173)).

Definition repr_char (quote c : ascii) (k : string) : string :=
  if bool_decide (c = quote ∨ c = "\"%char) then String "\" (String c k)
  else if char_code c =? 10 then String "\" (String "n" k)
  else if char_code c =? 13 then String "\" (String "r" k)
  else if char_code c =? 9 then String "\" (String "t" k)
  else if str_printable c then String c k
  else String "\" (String "x" (String (hex_digit (N_of_ascii c / 16)) (String (hex_digit (N_of_ascii c mod 16)) k))).

Definition repr_str (s : string) : string :=
  let has c := negb (str_forallb (λ x, negb (bool_decide (x = c))) s) in
  let quote := if has "'"%char && negb (has "034"%char) then "034"%char else "'"%char in
  String quote ((fix go s := match s with "" => String quote "" | String c s => repr_char quote c (go s) end) s).

Fixpoint py_repr (v : json) : string :=
  match v with
  | JNull => "None"
  | JBool true => "True"
  | JBool false => "False"
  | JInt z => str_of_int z
  | JFloat r => r
  | JStr s => repr_str s
  | JList l => "[" +:+ str_join ", " (py_repr <$> l) +:+ "]"
  | JObj o => "{" +:+ str_join ", " ((λ kv, repr_str kv.1 +:+ ": " +:+ py_repr kv.2) <$> o) +:+ "}"
  end.

(** [str(value)] *)
Definition py_str (v : json) : string :=
  match v with JStr s => s | _ => py_repr v end.

Example py_str_list : py_str (JList [JStr "it's"; JNull; JObj [("k", JInt 3)]]) =
  "[" +:+ String "034" "it's" +:+ String "034" ", None, {'k': 3}]".
Proof. reflexivity. Qed.
