(* ===== verification/PyTime.v ===== *)
(** * Aware datetimes

    A [datetime] of the application is an instant in UTC (the clocks of [adapters.py]
    return [datetime.now(UTC)]): the microseconds since [datetime.min], an integer.
    [isoformat] follows CPython's [_ord2ymd]; it is injective on the range of
    [datetime], which is what the hash chains need of it. *)

From S2P Require Import Prelude.

Abbreviation datetime := Z (only parsing).

Definition us_per_second : Z := 1000000.
Definition us_per_day : Z := 86400 * us_per_second.

(** [timedelta(seconds=n)] and [timedelta(hours=n)] *)
Definition seconds (n : Z) : Z := n * us_per_second.
Definition hours (n : Z) : Z := n * 3600 * us_per_second.

(** [datetime.min <= t <= datetime.max] *)
Definition datetime_ok (t : datetime) : bool := (0 <=? t) && (t <? 3652059 * us_per_day).

Definition days_before_month (leap : bool) (m : Z) : Z :=
  nth (Z.to_nat m) [-1; 0; 31; 59; 90; 120; 151; 181; 212; 243; 273; 304; 334] 0
  + (if (2 <? m) && leap then 1 else 0).

Definition days_in_month (leap : bool) (m : Z) : Z :=
  if (m =? 2) && leap then 29
  else nth (Z.to_nat m) [-1; 31; 28; 31; 30; 31; 30; 31; 31; 30; 31; 30; 31] 0.

(** The month and the day within a year, from its day number. *)
Definition month_day (leap : bool) (n : Z) : Z * Z :=
  let month := Z.shiftr (n + 50) 5 in
  let preceding := days_before_month leap month in
  if n <? preceding then
    (month - 1, n - (preceding - days_in_month leap (month - 1)) + 1)
  else (month, n - preceding + 1).

(** [_ord2ymd(n + 1)] *)
Definition ord2ymd (n : Z) : Z * Z * Z :=
  let n400 := n / 146097 in let n := n mod 146097 in
  let n100 := n / 36524 in let n := n mod 36524 in
  let n4 := n / 1461 in let n := n mod 1461 in
  let n1 := n / 365 in let n := n mod 365 in
  let year := n400 * 400 + 1 + n100 * 100 + n4 * 4 + n1 in
  if (n1 =? 4) || (n100 =? 4) then (year - 1, 12, 31)
  else
    let leap := (n1 =? 3) && (negb (n4 =? 24) || (n100 =? 3)) in
    let '(m, d) := month_day leap n in (year, m, d).

Definition digit (d : Z) : ascii := ascii_of_N (Z.to_N (48 + d)).

(** [f"{z:0wd}"] followed by [k] *)
Fixpoint pad (w : nat) (z : Z) (k : string) : string :=
  match w with
  | O => k
  | S w' => String (digit (z / 10 ^ Z.of_nat w' mod 10)) (pad w' z k)
  end.

(** The ISO text of [t] with the given UTC designator *)
Definition iso_with (utc : string) (t : datetime) : string :=
  let '(y, m, d) := ord2ymd (t / us_per_day) in
  let us := t mod us_per_day in
  let s := us / us_per_second in
  let f := us mod us_per_second in
  pad 4 y (String "-" (pad 2 m (String "-" (pad 2 d (String "T"
    (pad 2 (s / 3600) (String ":" (pad 2 (s / 60 mod 60) (String ":" (pad 2 (s mod 60)
      ((if f =? 0 then λ k, k else λ k, String "." (pad 6 f k)) utc))))))))))).

(** [t.isoformat()] in UTC *)
Definition isoformat (t : datetime) : string := iso_with "+00:00" t.

(** Pydantic's JSON form of an aware [datetime] in UTC *)
Definition iso_z (t : datetime) : string := iso_with "Z" t.

Example isoformat_epoch :
  isoformat (719162 * us_per_day + 3661 * us_per_second) = "1970-01-01T01:01:01+00:00".
Proof. reflexivity. Qed.

Example isoformat_leap :
  isoformat (738944 * us_per_day + 1500000) = "2024-02-29T00:00:01.500000+00:00".
Proof. reflexivity. Qed.

(** ** Injectivity *)

(** [lia] with quotients and remainders by constants *)
Ltac dlia := Z.to_euclidean_division_equations; lia.

(** [_ymd2ord(y, m, d) - 1] *)
Definition is_leap (y : Z) : bool := (y mod 4 =? 0) && (negb (y mod 100 =? 0) || (y mod 400 =? 0)).
Definition ymd2ord (ymd : Z * Z * Z) : Z :=
  let '(y, m, d) := ymd in
  (y - 1) * 365 + (y - 1) / 4 - (y - 1) / 100 + (y - 1) / 400
  + days_before_month (is_leap y) m + d - 1.

Lemma month_day_inv leap n : 0 <= n < (if leap : bool then 366 else 365) →
  let '(m, d) := month_day leap n in
  days_before_month leap m + d - 1 = n ∧ 1 <= m <= 12 ∧ 1 <= d <= 31.
Proof.
  intros Hn.
  assert (forallb (λ n, let '(m, d) := month_day leap n in
    (days_before_month leap m + d - 1 =? n) && (1 <=? m) && (m <=? 12) && (1 <=? d) && (d <=? 31))
    (Z.of_nat <$> seq 0 (if leap then 366 else 365)) = true) as H.
  { by destruct leap. }
  rewrite forallb_forall in H. specialize (H n). cbn beta in H.
  destruct (month_day leap n) as [m d].
  rewrite !andb_true_iff, Z.eqb_eq, !Z.leb_le in H. apply and_assoc.
  assert (In n (Z.of_nat <$> seq 0 (if leap then 366 else 365))) as Hin; [|apply H in Hin; lia].
  apply list_elem_of_In, list_elem_of_fmap. exists (Z.to_nat n). split; [lia|].
  apply elem_of_seq. destruct leap; lia.
Qed.

Lemma ymd2ord_2ymd n : 0 <= n < 3652059 →
  ymd2ord (ord2ymd n) = n ∧
  let '(y, m, d) := ord2ymd n in 1 <= y <= 9999 ∧ 1 <= m <= 12 ∧ 1 <= d <= 31.
Proof.
  intros Hn. unfold ord2ymd.
  set (a := n / 146097). set (r1 := n mod 146097).
  set (b := r1 / 36524). set (r2 := r1 mod 36524).
  set (c := r2 / 1461). set (r3 := r2 mod 1461).
  set (e := r3 / 365). set (r := r3 mod 365).
  assert (n = 146097 * a + r1 ∧ 0 <= r1 < 146097) as [En Hr1] by (subst a r1; dlia).
  assert (r1 = 36524 * b + r2 ∧ 0 <= r2 < 36524) as [Er1 Hr2] by (subst b r2; dlia).
  assert (r2 = 1461 * c + r3 ∧ 0 <= r3 < 1461) as [Er2 Hr3] by (subst c r3; dlia).
  assert (r3 = 365 * e + r ∧ 0 <= r < 365) as [Er3 Hr] by (subst e r; dlia).
  clearbody a r1 b r2 c r3 e r.
  assert (0 <= b <= 4 ∧ 0 <= c <= 24 ∧ 0 <= e <= 4) as (Hb & Hc & He) by lia.
  assert (a <= 24) as Ha by lia.
  destruct (Z.eqb_spec e 4) as [->|Hne].
  { simpl. unfold ymd2ord. assert (r = 0 ∧ b < 4 ∧ (c < 24 ∨ b = 3)) as (-> & Hb4 & Hc4) by lia.
    split; [|lia]. replace (is_leap _) with true; [unfold days_before_month; simpl; dlia|].
    unfold is_leap. symmetry. rewrite andb_true_iff, orb_true_iff, negb_true_iff, !Z.eqb_eq, Z.eqb_neq.
    dlia. }
  destruct (Z.eqb_spec b 4) as [->|Hnb].
  { simpl. unfold ymd2ord. assert (r2 = 0) as -> by lia. assert (c = 0 ∧ e = 0 ∧ r = 0) as (-> & -> & ->) by lia.
    split; [|lia]. replace (is_leap _) with true; [unfold days_before_month; simpl; dlia|].
    unfold is_leap. symmetry. rewrite andb_true_iff, orb_true_iff, negb_true_iff, !Z.eqb_eq, Z.eqb_neq.
    dlia. }
  simpl. set (leap := (e =? 3) && (negb (c =? 24) || (b =? 3))).
  set (y := a * 400 + 1 + b * 100 + c * 4 + e).
  assert (is_leap y = leap) as Hleap.
  { apply eq_true_iff_eq. subst leap y. unfold is_leap.
    rewrite !andb_true_iff, !orb_true_iff, !negb_true_iff, !Z.eqb_eq, !Z.eqb_neq. dlia. }
  pose proof (month_day_inv leap r) as Hm. destruct (month_day leap r) as [m d].
  assert (0 <= r < (if leap then 366 else 365)) as (Hm1 & Hm2 & Hm3)%Hm by (destruct leap; lia).
  unfold ymd2ord. rewrite Hleap. split; [|subst y; lia].
  assert ((y - 1) / 4 = 100 * a + 25 * b + c ∧ (y - 1) / 100 = 4 * a + b ∧ (y - 1) / 400 = a)
    as (-> & -> & ->) by (subst y; dlia).
  subst y. lia.
Qed.

Lemma digit_inj a b : 0 <= a < 10 → 0 <= b < 10 → digit a = digit b → a = b.
Proof.
  intros Ha Hb H. apply (f_equal N_of_ascii) in H. unfold digit in H.
  rewrite !N_ascii_embedding in H by lia. lia.
Qed.

Lemma pad_inj w z1 z2 k1 k2 :
  0 <= z1 < 10 ^ Z.of_nat w → 0 <= z2 < 10 ^ Z.of_nat w →
  pad w z1 k1 = pad w z2 k2 → z1 = z2 ∧ k1 = k2.
Proof.
  assert (∀ w, pad w z1 k1 = pad w z2 k2 →
    z1 mod 10 ^ Z.of_nat w = z2 mod 10 ^ Z.of_nat w ∧ k1 = k2) as H.
  { clear w. intros w. induction w as [|w IH]; intros H.
    - simpl in H. by rewrite !Z.mod_1_r.
    - cbn [pad] in H. injection H as Hd Hp. apply IH in Hp as [Hp ->]. split; [|done].
      apply digit_inj in Hd; [|apply Z.mod_pos_bound; lia..].
      rewrite Nat2Z.inj_succ, Z.pow_succ_r by lia. rewrite (Z.mul_comm 10).
      rewrite !Z.rem_mul_r by lia. congruence. }
  intros H1 H2 E%H. by rewrite !Z.mod_small in E.
Qed.

Lemma pad_head w z k : ∃ c s, pad (S w) z k = String c s ∧ is_digit c = true.
Proof.
  eexists _, _. split; [reflexivity|].
  pose proof (Z.mod_pos_bound (z / 10 ^ Z.of_nat w) 10 ltac:(lia)) as Hb.
  unfold digit, is_digit, char_in_range, char_code. rewrite N_ascii_embedding by lia.
  change (Z.of_N (N_of_ascii "0")) with 48. change (Z.of_N (N_of_ascii "9")) with 57.
  rewrite andb_true_iff, !Z.leb_le. lia.
Qed.

Lemma str_cons_inj c s1 s2 : String c s1 = String c s2 → s1 = s2.
Proof. congruence. Qed.

Lemma iso_with_inj utc t1 t2 :
  (∀ s, utc ≠ String "." s) → datetime_ok t1 = true → datetime_ok t2 = true →
  iso_with utc t1 = iso_with utc t2 → t1 = t2.
Proof.
  unfold datetime_ok. rewrite !andb_true_iff, !Z.leb_le, !Z.ltb_lt. intros Hutc H1 H2.
  unfold iso_with.
  assert (∀ t, 0 ≤ t ∧ t < 3652059 * us_per_day → 0 <= t / us_per_day < 3652059) as Hd.
  { intros t Ht. split; [apply Z.div_pos; unfold us_per_day, us_per_second in *; lia|].
    apply Z.div_lt_upper_bound; unfold us_per_day, us_per_second in *; lia. }
  pose proof (ymd2ord_2ymd _ (Hd _ H1)) as [E1 B1]. pose proof (ymd2ord_2ymd _ (Hd _ H2)) as [E2 B2].
  destruct (ord2ymd (t1 / us_per_day)) as [[y1 m1] d1].
  destruct (ord2ymd (t2 / us_per_day)) as [[y2 m2] d2].
  assert (∀ t, 0 <= t mod us_per_day < 86400 * 1000000) as Hus.
  { intros t. apply (Z.mod_pos_bound t us_per_day). done. }
  pose proof (Hus t1) as Hu1. pose proof (Hus t2) as Hu2. clear Hus.
  set (u1 := t1 mod us_per_day) in *. set (u2 := t2 mod us_per_day) in *.
  unfold us_per_second. intros H.
  apply pad_inj in H as [-> H]; [|simpl; dlia..]. apply str_cons_inj in H.
  apply pad_inj in H as [-> H]; [|simpl; dlia..]. apply str_cons_inj in H.
  apply pad_inj in H as [-> H]; [|simpl; dlia..]. apply str_cons_inj in H.
  apply pad_inj in H as [Hh H]; [|simpl; dlia..]. apply str_cons_inj in H.
  apply pad_inj in H as [Hm H]; [|simpl; dlia..]. apply str_cons_inj in H.
  apply pad_inj in H as [Hs H]; [|simpl; dlia..].
  assert (u1 mod 1000000 = u2 mod 1000000) as Hf.
  { destruct (Z.eqb_spec (u1 mod 1000000) 0), (Z.eqb_spec (u2 mod 1000000) 0);
      [congruence|by destruct (Hutc _ H)|by destruct (Hutc _ (eq_sym H))|].
    apply str_cons_inj in H. apply pad_inj in H as [? _]; [done|simpl; dlia..]. }
  assert (u1 = u2) by dlia. assert (t1 / us_per_day = t2 / us_per_day) by congruence.
  rewrite (Z.div_mod t1 us_per_day), (Z.div_mod t2 us_per_day) by done. subst u1 u2. congruence.
Qed.

Theorem isoformat_inj t1 t2 :
  datetime_ok t1 = true → datetime_ok t2 = true → isoformat t1 = isoformat t2 → t1 = t2.
Proof. by apply iso_with_inj. Qed.

Lemma iso_z_inj t1 t2 :
  datetime_ok t1 = true → datetime_ok t2 = true → iso_z t1 = iso_z t2 → t1 = t2.
Proof. by apply iso_with_inj. Qed.
