(* ===== verification/PyText.v ===== *)
(** * Python text

    The [str] methods the text-handling components use (UTF-8 length, case, whitespace,
    lines, words, replacement) and the regular expressions of [re.search].  Characters are
    code points up to 255, for which NFC normalisation is the identity and full case
    conversion is one character to one. *)

From S2P Require Import Prelude PyJson.

(** ** Characters *)

Definition code_in (lo hi : Z) (c : ascii) : bool := (lo <=? char_code c) && (char_code c <=? hi).

(** [c.isspace()] *)
Definition is_space (c : ascii) : bool :=
  code_in 9 13 c || code_in 28 32 c || (char_code c =? 133) || (char_code c =? 160).

(** The line boundaries of [str.splitlines] *)
Definition is_line_break (c : ascii) : bool :=
  code_in 10 13 c || code_in 28 30 c || (char_code c =? 133).

(** [c.lower()]: the capitals of ASCII and of Latin-1, the multiplication sign excepted *)
Definition lower_char (c : ascii) : ascii :=
  if code_in 65 90 c || (code_in 192 222 c && negb (char_code c =? 215))
  then ascii_of_N (N_of_ascii c + 32) else c.

(** [\w]: letters, digits, the numeric and ordinal signs, and the underscore *)
Definition is_word_char (c : ascii) : bool :=
  is_digit c || char_in_range "a" "z" c || char_in_range "A" "Z" c || bool_decide (c = "_"%char)
  || (char_code c =? 170) || code_in 178 179 c || (char_code c =? 181) || code_in 185 186 c
  || code_in 188 190 c
  || (code_in 192 255 c && negb (char_code c =? 215) && negb (char_code c =? 247)).

(** ** Strings *)

Fixpoint str_map (f : ascii → ascii) (s : string) : string :=
  match s with "" => "" | String c s => String (f c) (str_map f s) end.

Definition str_lower : string → string := str_map lower_char.

Fixpoint str_filter (f : ascii → bool) (s : string) : string :=
  match s with
  | "" => ""
  | String c s => if f c then String c (str_filter f s) else str_filter f s
  end.

(** [s.replace(c, by)] for a single character *)
Fixpoint replace_char (c : ascii) (by_ : string) (s : string) : string :=
  match s with
  | "" => ""
  | String x s => if bool_decide (x = c) then by_ +:+ replace_char c by_ s else String x (replace_char c by_ s)
  end.

(** [s.replace(CR LF, LF)] *)
Fixpoint replace_crlf (s : string) : string :=
  match s with
  | "" => ""
  | String x s' =>
      match s' with
      | String y s'' =>
          if (char_code x =? 13) && (char_code y =? 10) then String y (replace_crlf s'')
          else String x (replace_crlf s')
      | "" => String x ""
      end
  end.

Definition newline : ascii := "010".
Definition carriage_return : ascii := "013".
Definition tab : ascii := "009".

(** [s.encode()]: UTF-8 *)
Fixpoint utf8 (s : string) : string :=
  match s with
  | "" => ""
  | String c s =>
      let n := N_of_ascii c in
      if (n <? 128)%N then String c (utf8 s)
      else String (ascii_of_N (192 + n / 64)) (String (ascii_of_N (128 + n mod 64)) (utf8 s))
  end.

(** [len(s.encode())] *)
Definition byte_len (s : string) : Z := str_len (utf8 s).

Fixpoint str_lstrip (s : string) : string :=
  match s with
  | "" => ""
  | String c s' => if is_space c then str_lstrip s' else s
  end.

Fixpoint str_rstrip (s : string) : string :=
  match s with
  | "" => ""
  | String c s =>
      match str_rstrip s with
      | "" => if is_space c then "" else String c ""
      | r => String c r
      end
  end.

Definition str_strip (s : string) : string := str_lstrip (str_rstrip s).

Fixpoint str_splitlines (s : string) : list string :=
  match s with
  | "" => []
  | String c s' =>
      if is_line_break c then
        "" :: match s' with
              | String d s'' =>
                  if (char_code c =? 13) && (char_code d =? 10) then str_splitlines s'' else str_splitlines s'
              | "" => []
              end
      else match str_splitlines s' with
           | [] => [String c ""]
           | l :: ls => String c l :: ls
           end
  end.

(** The word a text starts with, and the words after it *)
Fixpoint split_words (s : string) : string * list string :=
  match s with
  | "" => ("", [])
  | String c s =>
      let '(w, ws) := split_words s in
      if is_space c then ("", match w with "" => ws | _ => w :: ws end) else (String c w, ws)
  end.

(** [s.split()] *)
Definition str_split (s : string) : list string :=
  let '(w, ws) := split_words s in match w with "" => ws | _ => w :: ws end.

(** [s.split(c, maxsplit=1)[0]] *)
Fixpoint str_before (c : ascii) (s : string) : string :=
  match s with
  | "" => ""
  | String x s => if bool_decide (x = c) then "" else String x (str_before c s)
  end.

(** [s.split(c)] *)
Fixpoint split_on (c : ascii) (s : string) : list string :=
  match s with
  | "" => [""]
  | String x s =>
      if bool_decide (x = c) then "" :: split_on c s
      else match split_on c s with
           | [] => [String x ""]
           | p :: ps => String x p :: ps
           end
  end.

Fixpoint str_drop (n : nat) (s : string) : string :=
  match n, s with S n, String _ s => str_drop n s | _, _ => s end.

(** [sub in s] *)
Fixpoint str_contains (sub s : string) : bool :=
  String.prefix sub s || match s with "" => false | String _ s => str_contains sub s end.

(** [s.endswith(suf)] *)
Fixpoint ends_with (suf s : string) : bool :=
  bool_decide (s = suf) || match s with "" => false | String _ s => ends_with suf s end.

(** What follows the last occurrence of [sep]: [s.rsplit(sep, maxsplit=1)[1]], when there is one *)
Fixpoint after_last (sep s : string) : option string :=
  match s with
  | "" => None
  | String c t =>
      match after_last sep t with
      | Some r => Some r
      | None => if String.prefix sep s then Some (str_drop (String.length sep) s) else None
      end
  end.

(** [s.rsplit(sep, maxsplit=1)[-1]] *)
Definition rsplit_last (sep s : string) : string := default s (after_last sep s).

(** [s.rstrip(chars)] *)
Fixpoint rstrip_chars (f : ascii → bool) (s : string) : string :=
  match s with
  | "" => ""
  | String c s =>
      match rstrip_chars f s with
      | "" => if f c then "" else String c ""
      | r => String c r
      end
  end.

(** [s.lstrip(chars)] *)
Fixpoint lstrip_chars (f : ascii → bool) (s : string) : string :=
  match s with
  | "" => ""
  | String c t => if f c then lstrip_chars f t else s
  end.

(** ** Regular expressions

    [re.search] asks only whether some substring matches, so a pattern is its set of
    matches: [ends r prev s] lists the ways [r] can match a prefix of [s], where [prev] is
    the character before [s] and each way is given by what is left. *)

Inductive regex :=
  | RChar (f : ascii → bool)
  | RSeq (r1 r2 : regex)
  | RAlt (r1 r2 : regex)
  | REmpty
  | RBoundary
  | RRepeat (r : regex) (lo : nat) (hi : option nat).

Definition place : Type := option ascii * string.

Definition at_boundary (p : place) : bool :=
  let before := match p.1 with Some c => is_word_char c | None => false end in
  let after := match p.2 with String c _ => is_word_char c | "" => false end in
  xorb before after.

(** Up to [n] further matches of a body given by its ends *)
Fixpoint repeat_ends (body : place → list place) (n : nat) (p : place) : list place :=
  match n with
  | O => [p]
  | S n => p :: (body p ≫= repeat_ends body n)
  end.

Fixpoint times_ends (body : place → list place) (n : nat) (p : place) : list place :=
  match n with
  | O => [p]
  | S n => body p ≫= times_ends body n
  end.

(** An unbounded repetition needs no more rounds than there are characters left: the bodies
    used below consume one at least. *)
Fixpoint ends (r : regex) (p : place) : list place :=
  match r with
  | RChar f => match p.2 with String c s => if f c then [(Some c, s)] else [] | "" => [] end
  | RSeq r1 r2 => ends r1 p ≫= ends r2
  | RAlt r1 r2 => ends r1 p ++ ends r2 p
  | REmpty => [p]
  | RBoundary => if at_boundary p then [p] else []
  | RRepeat r lo hi =>
      times_ends (ends r) lo p ≫= λ q,
        repeat_ends (ends r) (match hi with Some h => h - lo | None => String.length q.2 end)%nat q
  end.

Fixpoint search_from (r : regex) (prev : option ascii) (s : string) : bool :=
  match ends r (prev, s) with
  | _ :: _ => true
  | [] => match s with String c s => search_from r (Some c) s | "" => false end
  end.

(** [pattern.search(s) is not None] *)
Definition re_search (r : regex) (s : string) : bool := search_from r None s.

(** [pattern.fullmatch(s) is not None] *)
Definition re_fullmatch (r : regex) (s : string) : bool :=
  existsb (λ q : place, bool_decide (q.2 = "")) (ends r (None, s)).

(** A literal, character by character *)
Fixpoint RLit (eq : ascii → ascii → bool) (s : string) : regex :=
  match s with "" => REmpty | String c s => RSeq (RChar (eq c)) (RLit eq s) end.

Definition exactly (c x : ascii) : bool := bool_decide (x = c).
(** [re.I] on an ASCII pattern *)
Definition caseless (c x : ascii) : bool := bool_decide (lower_char x = lower_char c).

Definition ROpt (r : regex) : regex := RRepeat r 0 (Some 1%nat).
Definition RPlus (r : regex) : regex := RRepeat r 1 None.
Definition RAny (rs : list regex) : regex :=
  match rs with [] => RChar (λ _, false) | r :: rs => foldl RAlt r rs end.
Definition RSeqs (rs : list regex) : regex := foldr RSeq REmpty rs.
Definition RStar (r : regex) : regex := RRepeat r 0 None.

(** The language of a pattern, boundaries aside *)
Inductive lang : regex → string → Prop :=
  | lang_char f c : f c = true → lang (RChar f) (String c "")
  | lang_seq r1 r2 s1 s2 : lang r1 s1 → lang r2 s2 → lang (RSeq r1 r2) (s1 +:+ s2)
  | lang_left r1 r2 s : lang r1 s → lang (RAlt r1 r2) s
  | lang_right r1 r2 s : lang r2 s → lang (RAlt r1 r2) s
  | lang_empty : lang REmpty ""
  | lang_boundary : lang RBoundary ""
  | lang_repeat r lo hi ss :
      Forall (lang r) ss → (lo ≤ length ss)%nat → (∀ h, hi = Some h → (lo ≤ h → length ss ≤ h)%nat) →
      lang (RRepeat r lo hi) (str_join "" ss).

Example search_word :
  re_search (RSeqs [RBoundary; RLit caseless "token"; RBoundary]) "the TOKEN, please" = true.
Proof. reflexivity. Qed.
Example search_inside : re_search (RSeqs [RBoundary; RLit exactly "ken"]) "token" = false.
Proof. reflexivity. Qed.

(** ** Facts *)

Lemma byte_len_ascii s : str_forallb (λ c, (N_of_ascii c <? 128)%N) s = true → utf8 s = s.
Proof.
  induction s as [|c s IH]; simpl; [done|]. rewrite andb_true_iff. intros [-> Hs]. by rewrite IH.
Qed.

Lemma byte_len_nonneg s : 0 <= byte_len s.
Proof. unfold byte_len, str_len. lia. Qed.

Lemma str_drop_app a b : str_drop (String.length a) (a +:+ b) = b.
Proof. induction a; [by destruct b|done]. Qed.

Lemma str_take_app a b : str_take (String.length a) (a +:+ b) = a.
Proof. induction a as [|c a IH]; [by destruct b|]. change (String c (str_take (String.length a) (a +:+ b)) = String c a). by rewrite IH. Qed.

Lemma utf8_app s1 s2 : utf8 (s1 +:+ s2) = utf8 s1 +:+ utf8 s2.
Proof.
  induction s1 as [|c s1 IH]; [done|]. change (utf8 (String c (s1 +:+ s2)) = utf8 (String c s1) +:+ utf8 s2).
  simpl. rewrite IH. by destruct (_ <? _)%N.
Qed.

Lemma replace_char_absent c by_ s :
  str_forallb (λ x, negb (bool_decide (x = c))) by_ = true →
  str_forallb (λ x, negb (bool_decide (x = c))) (replace_char c by_ s) = true.
Proof.
  intros Hby. induction s as [|x s IH]; [done|]. simpl. case_bool_decide as Hx.
  - by rewrite str_forallb_app, Hby, IH.
  - simpl. rewrite bool_decide_eq_false_2 by done. exact IH.
Qed.

Lemma replace_char_keeps (f : ascii → bool) c by_ s :
  str_forallb f by_ = true → str_forallb f s = true → str_forallb f (replace_char c by_ s) = true.
Proof.
  intros Hby. induction s as [|x s IH]; [done|]. simpl. rewrite andb_true_iff. intros [Hx Hs].
  case_bool_decide; [by rewrite str_forallb_app, Hby, IH|]. simpl. by rewrite Hx, IH.
Qed.

Lemma split_on_nonempty c s : split_on c s ≠ [].
Proof. destruct s as [|x s]; [done|]. simpl. case_bool_decide; [done|]. by destruct (split_on c s). Qed.

Lemma join_split c s : str_join (String c "") (split_on c s) = s.
Proof.
  induction s as [|x s IH]; [done|]. simpl. pose proof (split_on_nonempty c s) as Hne.
  case_bool_decide as Hx.
  - subst x. destruct (split_on c s) as [|p ps] eqn:Hs; [done|]. rewrite <-Hs in *.
    rewrite <-IH at 2. rewrite Hs. done.
  - destruct (split_on c s) as [|p ps]; [done|]. rewrite <-IH. by destruct ps.
Qed.

Lemma split_on_inj c s1 s2 : split_on c s1 = split_on c s2 → s1 = s2.
Proof. intros Heq. by rewrite <-(join_split c s1), <-(join_split c s2), Heq. Qed.

Lemma split_on_app c s1 s2 : split_on c (s1 +:+ String c s2) = split_on c s1 ++ split_on c s2.
Proof.
  induction s1 as [|x s1 IH]; simpl.
  - by rewrite bool_decide_eq_true_2.
  - rewrite IH. case_bool_decide; [done|]. pose proof (split_on_nonempty c s1).
    by destruct (split_on c s1).
Qed.

Lemma prefix_split p s : String.prefix p s = true ↔ ∃ t, s = p +:+ t.
Proof.
  revert s. induction p as [|x p IH]; intros [|y s]; simpl; try (split; [done|by intros [t ?]]).
  - split; [by exists ""|done].
  - split; [by exists (String y s)|done].
  - destruct (Ascii.ascii_dec x y) as [->|Hne].
    + rewrite IH. split; intros [t Ht]; exists t; [by rewrite Ht|by injection Ht].
    + split; [done|]. intros [t Ht]. by injection Ht.
Qed.

Lemma str_app_nil s : s +:+ "" = s.
Proof. induction s as [|c s IH]; [done|]. change (String c (s +:+ "") = String c s). by rewrite IH. Qed.

Lemma join_cons s l : str_join "" (s :: l) = s +:+ str_join "" l.
Proof. destruct l; [by rewrite str_app_nil|done]. Qed.

Lemma join_app_sep sep l1 l2 : l1 ≠ [] → l2 ≠ [] →
  str_join sep (l1 ++ l2) = str_join sep l1 +:+ sep +:+ str_join sep l2.
Proof.
  intros H1 H2. induction l1 as [|x l1 IH]; [done|]. destruct l1 as [|y l1].
  - by destruct l2.
  - change (str_join sep ((x :: y :: l1) ++ l2)) with (x +:+ sep +:+ str_join sep ((y :: l1) ++ l2)).
    rewrite IH by done. change (str_join sep (x :: y :: l1)) with (x +:+ sep +:+ str_join sep (y :: l1)).
    by rewrite !str_app_assoc.
Qed.

(** What a pattern consumes is in its language. *)
Lemma repeat_ends_lang body (L : string → Prop) n : ∀ p q,
  (∀ p q, q ∈ body p → ∃ s, p.2 = s +:+ q.2 ∧ L s) → q ∈ repeat_ends body n p →
  ∃ ss, p.2 = str_join "" ss +:+ q.2 ∧ Forall L ss ∧ (length ss ≤ n)%nat.
Proof.
  induction n as [|n IH]; intros p q Hb Hq; cbn [repeat_ends] in Hq.
  - apply list_elem_of_singleton in Hq as ->. by exists [].
  - apply elem_of_cons in Hq as [->|Hq]; [exists []; simpl; split_and!; [done|done|lia]|].
    apply list_elem_of_bind in Hq as (m & Hq & Hm). destruct (Hb _ _ Hm) as (s & Hs & HL).
    destruct (IH m q Hb Hq) as (ss & Hss & HF & Hl). exists (s :: ss). split_and!.
    + by rewrite Hs, Hss, join_cons, str_app_assoc.
    + by constructor.
    + simpl. lia.
Qed.

Lemma times_ends_lang body (L : string → Prop) n : ∀ p q,
  (∀ p q, q ∈ body p → ∃ s, p.2 = s +:+ q.2 ∧ L s) → q ∈ times_ends body n p →
  ∃ ss, p.2 = str_join "" ss +:+ q.2 ∧ Forall L ss ∧ length ss = n.
Proof.
  induction n as [|n IH]; intros p q Hb Hq; cbn [times_ends] in Hq.
  - apply list_elem_of_singleton in Hq as ->. by exists [].
  - apply list_elem_of_bind in Hq as (m & Hq & Hm). destruct (Hb _ _ Hm) as (s & Hs & HL).
    destruct (IH m q Hb Hq) as (ss & Hss & HF & Hl). exists (s :: ss). split_and!.
    + by rewrite Hs, Hss, join_cons, str_app_assoc.
    + by constructor.
    + simpl. lia.
Qed.

Lemma join_app ss1 ss2 : str_join "" (ss1 ++ ss2) = str_join "" ss1 +:+ str_join "" ss2.
Proof.
  induction ss1 as [|s ss1 IH]; [done|].
  change ((s :: ss1) ++ ss2) with (s :: (ss1 ++ ss2)). by rewrite !join_cons, IH, str_app_assoc.
Qed.

Lemma ends_lang r : ∀ p q, q ∈ ends r p → ∃ s, p.2 = s +:+ q.2 ∧ lang r s.
Proof.
  induction r as [f|r1 IH1 r2 IH2|r1 IH1 r2 IH2| | |r IH lo hi]; intros p q Hq; cbn [ends] in Hq.
  - destruct p as [pv [|c s]]; cbn in Hq; [by apply not_elem_of_nil in Hq|].
    destruct (f c) eqn:Hf; [|by apply not_elem_of_nil in Hq].
    apply list_elem_of_singleton in Hq as ->. exists (String c ""). split; [done|by constructor].
  - apply list_elem_of_bind in Hq as (m & Hq & Hm).
    destruct (IH1 _ _ Hm) as (s1 & H1 & L1), (IH2 _ _ Hq) as (s2 & H2 & L2).
    exists (s1 +:+ s2). split; [by rewrite H1, H2, str_app_assoc|by constructor].
  - apply elem_of_app in Hq as [Hq|Hq]; [destruct (IH1 _ _ Hq) as (s & Hs & L)|destruct (IH2 _ _ Hq) as (s & Hs & L)];
      exists s; (split; [done|by constructor]).
  - apply list_elem_of_singleton in Hq as ->. exists "". split; [done|constructor].
  - destruct (at_boundary p); [|by apply not_elem_of_nil in Hq].
    apply list_elem_of_singleton in Hq as ->. exists "". split; [done|constructor].
  - apply list_elem_of_bind in Hq as (m & Hq & Hm).
    destruct (times_ends_lang _ _ _ _ _ IH Hm) as (ss1 & H1 & F1 & L1).
    destruct (repeat_ends_lang _ _ _ _ _ IH Hq) as (ss2 & H2 & F2 & L2).
    exists (str_join "" (ss1 ++ ss2)). split; [by rewrite H1, H2, join_app, str_app_assoc|].
    constructor; [by apply Forall_app|rewrite length_app; lia|].
    intros h ->. rewrite length_app. lia.
Qed.

Lemma fullmatch_lang r s : re_fullmatch r s = true → lang r s.
Proof.
  unfold re_fullmatch. intros Hm. apply existsb_exists in Hm as (q & Hq & He).
  apply bool_decide_eq_true in He. apply list_elem_of_In in Hq.
  destruct (ends_lang _ _ _ Hq) as (m & Hs & Hl). simpl in Hs. rewrite Hs, He.
  by rewrite str_app_nil.
Qed.
