(* ===== verification/PyFloat.v ===== *)
(** * Python floats

    IEEE 754 binary64 with the arithmetic of [Stdlib.Floats.SpecFloat] (round to nearest,
    ties to even), and the built-ins the scoring code uses: comparisons, [min] and [max],
    true division of integers, [math.sqrt], [math.isclose] and [sum], which since
    Python 3.12 compensates rounding errors. *)

From S2P Require Import Prelude PyJson.
From Stdlib Require Import Floats.SpecFloat.

Abbreviation float := spec_float.
Abbreviation prec := 53%Z.
Abbreviation emax := 1024%Z.

Definition fadd : float → float → float := SFadd prec emax.
Definition fsub : float → float → float := SFsub prec emax.
Definition fmul : float → float → float := SFmul prec emax.
Definition fdiv : float → float → float := SFdiv prec emax.
Definition fsqrt : float → float := SFsqrt prec emax.
Definition fabs : float → float := SFabs.
Definition fopp : float → float := SFopp.

(** [a < b], [a <= b] and [a == b]; every comparison with a NaN is false *)
Definition fltb (a b : float) : bool := SFltb a b.
Definition fleb (a b : float) : bool := SFleb a b.
Definition feqb (a b : float) : bool := SFeqb a b.

(** [float(z)] *)
Definition float_of_int (z : Z) : float := binary_normalize prec emax z 0 false.

Definition f_zero : float := S754_zero false.
Definition f_one : float := float_of_int 1.
Definition f_two : float := float_of_int 2.

(** [a / b] on integers, correctly rounded; [b] is positive wherever it is used. *)
Definition int_truediv (a b : Z) : float :=
  match a, b with
  | Z0, _ | _, Z0 => f_zero
  | _, _ =>
      let '(m, e, l) := SFdiv_core_binary prec emax (Z.abs a) 0 (Z.abs b) 0 in
      binary_round_aux prec emax (xorb (a <? 0) (b <? 0)) m e l
  end.

Definition is_finite (f : float) : bool :=
  match f with S754_zero _ | S754_finite _ _ _ => true | _ => false end.

(** [not f == 0.0]: the truth value of a float *)
Definition ftruthy (f : float) : bool := match f with S754_zero _ => false | _ => true end.

(** [max(a, b)] and [min(a, b)]: the first argument unless the second is strictly better *)
Definition fmax (a b : float) : float := if fltb a b then b else a.
Definition fmin (a b : float) : float := if fltb b a then b else a.

(** [sum(floats)]: a running sum and a running compensation *)
Definition sum_step (acc : float * float) (x : float) : float * float :=
  let '(hi, lo) := acc in
  let t := fadd hi x in
  let c := if fleb (fabs x) (fabs hi) then fadd (fsub hi t) x else fadd (fsub x t) hi in
  (t, fadd lo c).

Definition float_sum (l : list float) : float :=
  match l with
  | [] => f_zero
  | x :: l =>
      let '(hi, lo) := foldl sum_step (fadd f_zero x, f_zero) l in
      if ftruthy lo && is_finite lo then fadd hi lo else hi
  end.

Definition math_isclose (a b rel_tol abs_tol : float) : bool :=
  if feqb a b then true
  else if negb (is_finite a) || negb (is_finite b) then false
  else
    let diff := fabs (fsub b a) in
    fleb diff (fabs (fmul rel_tol b)) || fleb diff (fabs (fmul rel_tol a)) || fleb diff abs_tol.

Definition f_1e6 : float := int_truediv 1 1000000.
Definition f_1e9 : float := int_truediv 1 1000000000.

(** The JSON form of a float ([float.__repr__] and Pydantic's JSON mode), left open *)
Class FloatJson := float_json : float → json.

(** [Field(ge=lo, le=hi)] *)
Definition float_range (lo hi f : float) : bool := fleb lo f && fleb f hi.

(** [Field(ge=0.0, le=1.0)] *)
Definition unit_interval (f : float) : bool := fleb f_zero f && fleb f f_one.

Example float_tenth : fadd (int_truediv 1 10) (int_truediv 2 10) = S754_finite false 5404319552844596 (-54).
Proof. vm_compute. reflexivity. Qed.
(** [sum([0.1] * 10) == 1.0] *)
Example float_sum_tenths : feqb (float_sum (replicate 10 (int_truediv 1 10))) f_one = true.
Proof. vm_compute. reflexivity. Qed.

(** ** Facts *)

Lemma fltb_irrefl a : fltb a a = false.
Proof.
  unfold fltb, SFltb, SFcompare. destruct a as [[]|[]| |[] m e]; try done;
    rewrite Z.compare_refl, Pos.compare_cont_refl; done.
Qed.

(** A float squeezed by [min(1.0, max(0.0, x))] is in the unit interval, whatever [x] is. *)
Definition fclamp (x : float) : float := fmin f_one (fmax f_zero x).

Lemma fltb_fleb a b : fltb a b = true → fleb a b = true.
Proof. unfold fltb, fleb, SFltb, SFleb. by destruct (SFcompare a b) as [[]|]. Qed.

Lemma fclamp_unit x : unit_interval (fclamp x) = true.
Proof.
  unfold fclamp, fmax. destruct (fltb f_zero x) eqn:H0; [|by vm_compute].
  unfold fmin. destruct (fltb x f_one) eqn:H1; [|by vm_compute].
  unfold unit_interval. by rewrite (fltb_fleb _ _ H0), (fltb_fleb _ _ H1).
Qed.
