(* ===== verification/PyModel.v ===== *)
(** * Pydantic models

    A model class is a record; its constructor is [validated X_ok]: the value when the field
    constraints and the validators hold, a [ValidationError] otherwise.  Its JSON document
    ([model_dump(mode="json")]) is a function to [json]. *)

From S2P Require Import Prelude PyJson PyTime.

Definition in_range (lo hi z : Z) : bool := (lo <=? z) && (z <=? hi).
Definition count_range {A} (lo hi : Z) (l : list A) : bool := in_range lo hi (zlen l).
Definition opt_ok {A} (f : A → bool) (o : option A) : bool :=
  match o with Some a => f a | None => true end.

(** A Pydantic constructor: the value when the constraints hold *)
Definition validated {A} (ok : A → bool) (name : string) (a : A) : res A :=
  raise_if (negb (ok a)) ValidationError name;; Ok a.

Lemma validated_ok {A} (ok : A → bool) name a b : validated ok name a = Ok b ↔ b = a ∧ ok a = true.
Proof. unfold validated. destruct (ok a); simpl; naive_solver. Qed.

Lemma validated_returns {A} (ok : A → bool) name a : ok a = true → validated ok name a = Ok a.
Proof. intros H. by apply validated_ok. Qed.

Definition opt_json (o : option string) : json :=
  match o with Some s => JStr s | None => JNull end.
Definition opt_int_json (o : option Z) : json :=
  match o with Some z => JInt z | None => JNull end.
Definition strings_json (l : list string) : json := JList (JStr <$> l).

(** [sha256(canonical_json(value).encode()).hexdigest()] *)
Definition json_digest `{!Digest} (v : json) : string := hexdigest (canonical_json v).

Lemma json_digest_ok `{!Digest, !DigestLaws} v : is_sha256_hex (json_digest v) = true.
Proof. apply hexdigest_ok. Qed.

#[global] Arguments validated : simpl never.
#[global] Arguments json_digest : simpl never.
