(* ===== verification/PyProg.v ===== *)
(** * Concurrent Python code as trees of operations

    A thread is a tree: each node is one operation on the shared objects (a locked section, a
    reading of the clock, a call of a collaborator), its children the rest of the thread for
    each answer.  Threads interleave at the nodes.  [raise], [try]/[except]/[else] and
    [finally] are functions on trees.

    The second half is the reasoning principle: rely and guarantee, with a thread's private
    knowledge of the shared state. *)

From S2P Require Import Prelude.

Section prog.
Context {op : Set → Set} {X : Set}.

Inductive prog (A : Set) :=
  | Return (a : A)
  | Throw (x : X)
  | Do {R : Set} (o : op R) (k : R → prog A).

End prog.
#[global] Arguments prog : clear implicits.
#[global] Arguments Return {op X A} a.
#[global] Arguments Throw {op X A} x.
#[global] Arguments Do {op X A R} o k.

Section combinators.
Context {op : Set → Set} {X : Set}.

Definition call {R : Set} (o : op R) : prog op X R := Do o Return.

Fixpoint then_ {A B : Set} (p : prog op X A) (f : A → prog op X B) : prog op X B :=
  match p with
  | Return a => f a
  | Throw x => Throw x
  | Do o k => Do o (λ r, then_ (k r) f)
  end.

(** [try: p / except: h / else: f]: the handler does not cover [f]. *)
Fixpoint try_else {A B : Set} (p : prog op X A) (h : X → prog op X B) (f : A → prog op X B)
    : prog op X B :=
  match p with
  | Return a => f a
  | Throw x => h x
  | Do o k => Do o (λ r, try_else (k r) h f)
  end.

(** [try: p / finally: o] for a cleanup of one operation *)
Definition finally {A : Set} (p : prog op X A) (o : op unit) : prog op X A :=
  try_else p (λ x, Do o (λ _, Throw x)) (λ a, Do o (λ _, Return a)).

Fixpoint each {A B : Set} (f : A → prog op X B) (l : list A) : prog op X (list B) :=
  match l with
  | [] => Return []
  | x :: l => then_ (f x) (λ b, then_ (each f l) (λ bs, Return (b :: bs)))
  end.
End combinators.

Notation "x ←' p ; q" := (then_ p (λ x, q))
  (at level 20, p at level 100, q at level 200, only parsing).
Notation "p ;;' q" := (then_ p (λ _, q)) (at level 100, q at level 200, right associativity, only parsing).

(** ** Running

    [handle e i o w]: what operation [o] of thread [i] does to the world, with the answers [e]
    of the environment (the clock and the collaborators). *)

Section run.
Context {op : Set → Set} {X W E : Set} (handle : E → nat → ∀ R : Set, op R → W → R * W).

Definition step {A : Set} (e : E) (i : nat) (p : prog op X A) (w : W) : prog op X A * W :=
  match p with
  | Do o k => let '(r, w) := handle e i _ o w in (k r, w)
  | _ => (p, w)
  end.

(** One step of the pool: of a thread, or of the environment *)
Inductive move := Thread (i : nat) (e : E) | Outside (f : W → W).

Definition pool_step {A : Set} (s : list (prog op X A) * W) (m : move) : list (prog op X A) * W :=
  match m with
  | Outside f => (s.1, f s.2)
  | Thread i e =>
      match s.1 !! i with
      | Some p => let '(p, w) := step e i p s.2 in (<[i := p]> s.1, w)
      | None => s
      end
  end.

Definition run_pool {A : Set} (ms : list move) (s : list (prog op X A) * W) : list (prog op X A) * W :=
  foldl pool_step s ms.

(** ** Termination

    [ends_within p n]: whatever the answers, [p] ends after at most [n] operations. *)

Definition ended {A : Set} (p : prog op X A) : bool := match p with Do _ _ => false | _ => true end.

Fixpoint ends_within {A : Set} (p : prog op X A) (n : nat) : Prop :=
  match p with
  | Do o k => match n with O => False | S n => ∀ r, ends_within (k r) n end
  | _ => True
  end.

Lemma ends_within_mono {A : Set} (p : prog op X A) : ∀ n m, (n ≤ m)%nat → ends_within p n → ends_within p m.
Proof.
  induction p as [a|x|R o k IH]; intros n m Hn H; [done|done|].
  destruct n as [|n]; [done|]. destruct m as [|m]; [lia|]. intros r. apply (IH r n m); [lia|apply H].
Qed.

Lemma ends_within_then {A B : Set} (p : prog op X A) (f : A → prog op X B) m : ∀ n,
  ends_within p n → (∀ a, ends_within (f a) m) → ends_within (then_ p f) (n + m).
Proof.
  induction p as [a|x|R o k IH]; intros n H Hf.
  - eapply ends_within_mono; [|apply Hf]. lia.
  - done.
  - destruct n as [|n]; [done|]. intros r. by apply IH.
Qed.

Lemma ends_within_try {A B : Set} (p : prog op X A) h (f : A → prog op X B) m : ∀ n,
  ends_within p n → (∀ a, ends_within (f a) m) → (∀ x, ends_within (h x) m) → ends_within (try_else p h f) (n + m).
Proof.
  induction p as [a|x|R o k IH]; intros n H Hf Hh.
  - eapply ends_within_mono; [|apply Hf]. lia.
  - eapply ends_within_mono; [|apply Hh]. lia.
  - destruct n as [|n]; [done|]. intros r. by apply IH.
Qed.

(** The moves of thread [i] in a schedule *)
Definition steps_of (i : nat) (ms : list move) : nat :=
  length (List.filter (λ m, match m with Thread j _ => (j =? i)%nat | Outside _ => false end) ms).

Lemma run_pool_ends {A : Set} ms i : ∀ (s : list (prog op X A) * W) p n,
  s.1 !! i = Some p → ends_within p n → (n ≤ steps_of i ms)%nat →
  ∃ q, (run_pool ms s).1 !! i = Some q ∧ ended q = true.
Proof.
  induction ms as [|m ms IH]; intros s p n Hp Hn Hs; cbn in Hs.
  - exists p. split; [done|]. destruct p; [done|done|]. by destruct n; [|lia].
  - change (run_pool (m :: ms) s) with (run_pool ms (pool_step s m)).
    destruct m as [j e|f]; unfold steps_of in Hs; cbn in Hs.
    + destruct (Nat.eqb_spec j i) as [->|Hne]; cbn in Hs.
      * cbn. rewrite Hp. assert (Hlt : (i < length s.1)%nat) by (by apply lookup_lt_Some in Hp).
        destruct p as [a|x|R o k].
        1,2: cbn; eapply (IH _ _ O); [cbn; by apply list_lookup_insert_eq|done|lia].
        cbn. destruct n as [|n]; [done|]. destruct (handle e i R o s.2) as [r w'] eqn:Hh.
        eapply (IH _ (k r) n); [cbn; by apply list_lookup_insert_eq|apply Hn|unfold steps_of; lia].
      * cbn. destruct (s.1 !! j) as [q|] eqn:Hq; [|by eapply IH].
        destruct (step e j q s.2) as [q' w'] eqn:Hstep. eapply IH; [|exact Hn|exact Hs].
        cbn. by rewrite list_lookup_insert_ne.
    + by eapply IH.
Qed.

(** ** Rely and guarantee *)

Section logic.
Context (Inv : W → Prop) (legal : E → Prop) (G : nat → W → W → Prop).

(** What thread [i] may assume of the other threads *)
Definition rely (i : nat) (w w' : W) : Prop := Inv w' ∧ (w' = w ∨ ∃ j, j ≠ i ∧ G j w w').

Definition stable (i : nat) (P : W → Prop) : Prop := ∀ w w', Inv w → P w → rely i w w' → P w'.

(** [safe i p P Q Z]: from knowledge [P], every operation of [p] keeps the invariant and the
    guarantee of the thread, and the thread ends with [Q] or raises with [Z]. *)
Fixpoint safe {A : Set} (i : nat) (p : prog op X A) (P : W → Prop) (Q : A → W → Prop)
    (Z : X → W → Prop) : Prop :=
  match p with
  | Return a => ∀ w, Inv w → P w → Q a w
  | Throw x => ∀ w, Inv w → P w → Z x w
  | Do o k =>
      ∀ e w, legal e → Inv w → P w →
        ∃ P', stable i P' ∧ P' (handle e i _ o w).2 ∧ Inv (handle e i _ o w).2
              ∧ G i w (handle e i _ o w).2 ∧ safe i (k (handle e i _ o w).1) P' Q Z
  end.

Lemma safe_weaken {A : Set} i (p : prog op X A) (P P' : W → Prop) (Q Q' : A → W → Prop) (Z Z' : X → W → Prop) :
  safe i p P Q Z → (∀ w, Inv w → P' w → P w) → (∀ a w, Inv w → Q a w → Q' a w) →
  (∀ x w, Inv w → Z x w → Z' x w) → safe i p P' Q' Z'.
Proof.
  revert P P'. induction p as [a|x|R o k IH]; intros P P' H HP HQ HZ; cbn in *.
  - intros w Hw Hp. auto.
  - intros w Hw Hp. auto.
  - intros e w He Hw Hp. destruct (H e w He Hw (HP w Hw Hp)) as (P1 & Hs & Hp1 & Hi & Hg & Hk).
    exists P1. do 4 (split; [done|]). eapply IH; eauto.
Qed.

(** A fact that follows from what is known *)
Lemma safe_pure {A : Set} i (p : prog op X A) (P : W → Prop) Q Z (φ : Prop) :
  (∀ w, Inv w → P w → φ) → (φ → safe i p P Q Z) → safe i p P Q Z.
Proof.
  intros Hφ Hp. destruct p as [a|x|R o k].
  - intros w Hw HP. by apply (Hp (Hφ w Hw HP)).
  - intros w Hw HP. by apply (Hp (Hφ w Hw HP)).
  - intros e w He Hw HP. by apply (Hp (Hφ w Hw HP)).
Qed.

Lemma safe_try {A B : Set} i (p : prog op X A) h f P Q Z (Q' : B → W → Prop) Z' :
  safe i p P Q Z → (∀ a, safe i (f a) (Q a) Q' Z') → (∀ x, safe i (h x) (Z x) Q' Z') →
  safe i (try_else p h f) P Q' Z'.
Proof.
  intros Hp Hf Hh. revert P Hp. induction p as [a|x|R o k IH]; intros P Hp.
  - eapply safe_weaken; [apply Hf|exact Hp|done|done].
  - eapply safe_weaken; [apply Hh|exact Hp|done|done].
  - intros e w He Hw Hpw. destruct (Hp e w He Hw Hpw) as (P1 & Hs & Hp1 & Hi & Hg & Hk).
    exists P1. do 4 (split; [done|]). by apply IH.
Qed.

Lemma safe_then {A B : Set} i (p : prog op X A) f P Q Z (Q' : B → W → Prop) :
  safe i p P Q Z → (∀ a, safe i (f a) (Q a) Q' Z) → safe i (then_ p f) P Q' Z.
Proof.
  intros Hp Hf. revert P Hp. induction p as [a|x|R o k IH]; intros P Hp.
  - eapply safe_weaken; [apply Hf|exact Hp|done|done].
  - exact Hp.
  - intros e w He Hw Hpw. destruct (Hp e w He Hw Hpw) as (P1 & Hs & Hp1 & Hi & Hg & Hk).
    exists P1. do 4 (split; [done|]). by apply IH.
Qed.

(** An operation that gives no information and keeps what is known *)
Lemma safe_do {A R : Set} i (o : op R) (k : R → prog op X A) (P : W → Prop) (P' : R → W → Prop) Q Z :
  (∀ r, stable i (P' r)) →
  (∀ e w, legal e → Inv w → P w →
     P' (handle e i _ o w).1 (handle e i _ o w).2 ∧ Inv (handle e i _ o w).2
     ∧ G i w (handle e i _ o w).2) →
  (∀ r, safe i (k r) (P' r) Q Z) → safe i (Do o k) P Q Z.
Proof.
  intros Hs Ho Hk e w He Hw Hp. destruct (Ho e w He Hw Hp) as (H1 & H2 & H3). by exists (P' (handle e i _ o w).1).
Qed.

(** A pool of safe threads: the invariant holds whatever the schedule, and a thread that ended
    has its post-condition. *)
Context (allowed : move → Prop).
Context (Hmove : ∀ i e, allowed (Thread i e) → legal e).
Context (Houtside : ∀ f, allowed (Outside f) → ∀ w, Inv w → Inv (f w) ∧ ∀ i, G i w (f w)).

Definition pool_safe {A : Set} (Q : nat → A → W → Prop) (Z : nat → X → W → Prop)
    (s : list (prog op X A) * W) : Prop :=
  Inv s.2 ∧ ∀ i p, s.1 !! i = Some p → ∃ P, stable i P ∧ P s.2 ∧ safe i p P (Q i) (Z i).

Lemma pool_step_safe {A : Set} Q Z (s : list (prog op X A) * W) m :
  allowed m → pool_safe Q Z s → pool_safe Q Z (pool_step s m).
Proof.
  intros Hm [Hi Hp]. destruct m as [i e|f]; cbn.
  - destruct (s.1 !! i) as [p|] eqn:Ep; [|done].
    destruct (Hp i p Ep) as (P & Hs & HP & Hsafe).
    assert (Hlt : (i < length s.1)%nat) by (by apply lookup_lt_Some in Ep).
    destruct p as [a|x|R o k]; cbn.
    1,2: split; [done|]; cbn; intros j q Hq; rewrite list_insert_id in Hq by done; eauto.
    destruct (Hsafe e s.2 (Hmove i e Hm) Hi HP) as (P1 & Hs1 & HP1 & Hi1 & Hg & Hk).
    destruct (handle e i R o s.2) as [r w']. cbn in *. split; [done|]. intros j q Hq. cbn in Hq.
    destruct (decide (i = j)) as [->|Hne].
    + rewrite list_lookup_insert_eq in Hq by done. simplify_eq. by exists P1.
    + rewrite list_lookup_insert_ne in Hq by done. destruct (Hp j q Hq) as (P2 & Hs2 & HP2 & Hsafe2).
      exists P2. do 2 (split; [done || (eapply Hs2; [exact Hi|done|split; [done|right; eauto]])|]). done.
  - destruct (Houtside f Hm s.2 Hi) as [Hi' Hg]. split; [done|]. intros j q Hq.
    destruct (Hp j q Hq) as (P2 & Hs2 & HP2 & Hsafe2). exists P2. split; [done|]. split; [|done].
    eapply Hs2; [exact Hi|done|]. split; [done|]. right. exists (S j). split; [lia|apply Hg].
Qed.

(** Every step keeps the guarantee of some thread. *)
Lemma pool_step_guarantee {A : Set} Q Z (s : list (prog op X A) * W) m :
  allowed m → pool_safe Q Z s → (pool_step s m).2 = s.2 ∨ ∃ j, G j s.2 (pool_step s m).2.
Proof.
  intros Hm [Hi Hp]. destruct m as [i e|f]; cbn; [|right; exists O; by apply (Houtside f Hm s.2 Hi)].
  destruct (s.1 !! i) as [p|] eqn:Ep; [|by left]. destruct (Hp i p Ep) as (P & Hs & HP & Hsafe).
  destruct p as [a|x|R o k]; cbn; [by left|by left|].
  destruct (Hsafe e s.2 (Hmove i e Hm) Hi HP) as (P1 & Hs1 & HP1 & Hi1 & Hg & Hk).
  destruct (handle e i R o s.2) as [r w']. right. by exists i.
Qed.

(** What every step keeps holds at the end. *)
Lemma run_pool_keeps {A : Set} Q Z (K : W → Prop) ms : ∀ (s : list (prog op X A) * W),
  (∀ j w w', Inv w → K w → G j w w' → K w') → Forall allowed ms → pool_safe Q Z s → K s.2 → K (run_pool ms s).2.
Proof.
  induction ms as [|m ms IH]; intros s HK Hms Hs Hk; [done|]. apply Forall_cons in Hms as [Hm Hms].
  apply (IH (pool_step s m)); [done|done|by apply pool_step_safe|].
  destruct (pool_step_guarantee Q Z s m Hm Hs) as [->|[j Hg]]; [done|]. eapply HK; [apply Hs|done|done].
Qed.

Lemma run_pool_safe {A : Set} Q Z ms (s : list (prog op X A) * W) :
  Forall allowed ms → pool_safe Q Z s → pool_safe Q Z (run_pool ms s).
Proof.
  revert s. induction ms as [|m ms IH]; intros s Hms Hs; [done|].
  apply Forall_cons in Hms as [Hm Hms]. apply IH; [done|]. by apply pool_step_safe.
Qed.
End logic.
End run.
