(* ===== verification/QuotaFacts.v ===== *)
(** * Quotas

    Two stores keep, per tenant, the units that remain and the decisions already made.  Here is
    their shared account: what remains and what was granted add up to the limit. *)

From S2P Require Import Prelude.

Section quota.
Context {D : Type} (units : D → Z) (allowed : D → bool).

(** What one decision takes from tenant [t] *)
Definition granted_units (t : string) (k : string * string) (d : D) : Z :=
  if bool_decide (k.1 = t) && allowed d then units d else 0.

(** The units granted to tenant [t] *)
Definition granted (t : string) (m : gmap (string * string) D) : Z :=
  map_fold (λ k d acc, granted_units t k d + acc) 0 m.

(** Every unit of the limit remains or was granted; nothing is overdrawn. *)
Definition balanced (limits remaining : gmap string Z) (m : gmap (string * string) D) : Prop :=
  (∀ t, default 0 (remaining !! t) + granted t m = default 0 (limits !! t)) ∧
  (∀ t, 0 <= default 0 (limits !! t) → 0 <= default 0 (remaining !! t)) ∧
  (∀ k d, m !! k = Some d → 1 <= units d).

Lemma balanced_init limits : balanced limits limits ∅.
Proof. split_and!; intros *; [unfold granted; rewrite map_fold_empty; lia|lia|done]. Qed.

Lemma granted_insert t m k d : m !! k = None → granted t (<[k := d]> m) = granted_units t k d + granted t m.
Proof. intros Hk. unfold granted. rewrite map_fold_insert_L; [done| |done]. intros. lia. Qed.

Lemma balanced_grant limits remaining m t id d :
  balanced limits remaining m → m !! (t, id) = None → allowed d = true →
  1 <= units d <= default 0 (remaining !! t) →
  balanced limits (<[t := default 0 (remaining !! t) - units d]> remaining) (<[(t, id) := d]> m).
Proof.
  intros (Hsum & Hpos & Hone) Hk Hd [Hu Hr]. split_and!.
  - intros t'. rewrite granted_insert by done. unfold granted_units. simpl. rewrite Hd, andb_true_r.
    specialize (Hsum t'). rewrite lookup_insert. case_decide as E; simplify_eq.
    + rewrite bool_decide_eq_true_2 by done. simpl. lia.
    + rewrite bool_decide_eq_false_2 by done. simpl. lia.
  - intros t' Hl. rewrite lookup_insert. case_decide; simplify_eq/=; [lia|by apply Hpos].
  - intros k d'. rewrite lookup_insert. case_decide; [by intros [= <-]|apply Hone].
Qed.

Lemma balanced_refuse limits remaining m k d :
  balanced limits remaining m → m !! k = None → allowed d = false → 1 <= units d →
  balanced limits remaining (<[k := d]> m).
Proof.
  intros (Hsum & Hpos & Hone) Hk Hd Hu. split_and!; [|done|].
  - intros t'. rewrite granted_insert by done. unfold granted_units. rewrite Hd, andb_false_r. apply Hsum.
  - intros k' d'. rewrite lookup_insert. case_decide; [by intros [= <-]|apply Hone].
Qed.

Lemma granted_nonneg t m : (∀ k d, m !! k = Some d → 1 <= units d) → 0 <= granted t m.
Proof.
  apply (map_fold_weak_ind (λ r m, (∀ k d, m !! k = Some d → 1 <= units d) → 0 <= r)); [lia|].
  intros k d m' r Hk IH Hm. assert (0 <= r).
  { apply IH. intros k' d' Hk'. apply (Hm k' d'). rewrite lookup_insert_ne; [done|]. intros ->. congruence. }
  specialize (Hm k d ltac:(by rewrite lookup_insert_eq)). unfold granted_units. destruct (_ && _); lia.
Qed.

Lemma balanced_bounded limits remaining m t :
  balanced limits remaining m → 0 <= default 0 (limits !! t) → 0 <= granted t m <= default 0 (limits !! t).
Proof.
  intros (Hsum & Hpos & Hone) Hl. specialize (Hsum t). specialize (Hpos t Hl).
  pose proof (granted_nonneg t m Hone). lia.
Qed.
End quota.
