(* ===== verification/PyDigest.v ===== *)
(** * What a canonical digest binds

    Two documents with the same canonical digest agree on every member, or are a collision
    of the digest function.  The JSON documents of the models are well formed: their keys
    are distinct. *)

From S2P Require Import Prelude PyJson PyFloat PyTime PyModel.

(** A document, as hashed *)
Definition document (m : payload) : string := canonical_json (JObj m).

(** A float is printed as a JSON number (or [null]). *)
Class FloatJsonLaws `{!FloatJson} := float_json_wf f : json_wf (float_json f) = true.

Lemma dict_get_member {V} (m : list (string * V)) k v :
  NoDup m.*1 → dict_get k m = Some v ↔ (k, v) ∈ m.
Proof.
  induction m as [|[k' v'] m IH]; intros Hnd; simpl in *; [split; [done|by intros ?%not_elem_of_nil]|].
  apply NoDup_cons in Hnd as [Hk' Hnd]. rewrite elem_of_cons. case_decide as E.
  - subst. split; [intros [= ->]; by left|]. intros [[= ->]|Hin]; [done|].
    destruct Hk'. apply list_elem_of_fmap. by exists (k, v).
  - rewrite IH by done. split; [by right|]. intros [[= -> ->]|]; done.
Qed.

Lemma jnorm_members m1 m2 :
  NoDup m1.*1 → NoDup m2.*1 → jnorm (JObj m1) = jnorm (JObj m2) →
  ∀ k, jnorm <$> dict_get k m1 = jnorm <$> dict_get k m2.
Proof.
  intros N1 N2 H k. simpl in H. injection H as H.
  set (f := λ kv : string * json, (kv.1, jnorm kv.2)) in H.
  assert (f <$> m1 ≡ₚ f <$> m2) as Hp.
  { rewrite <-(py_sorted_perm key_leb (f <$> m1)), H. apply py_sorted_perm. }
  assert (∀ m, NoDup m.*1 → NoDup (f <$> m).*1) as Hnd.
  { intros m Hm. by rewrite <-list_fmap_compose. }
  assert (∀ m, NoDup m.*1 → jnorm <$> dict_get k m = dict_get k (f <$> m)) as Hget.
  { intros m Hm. induction m as [|[k' v] m IH]; simpl; [done|].
    apply NoDup_cons in Hm as [_ Hm]. case_decide; [done|by apply IH]. }
  rewrite !Hget by done. apply option_eq. intros v.
  rewrite !dict_get_member by auto. by rewrite Hp.
Qed.

Lemma opt_json_wf o : json_wf (opt_json o) = true.
Proof. by destruct o. Qed.
Lemma strings_json_wf l : json_wf (strings_json l) = true.
Proof. induction l; simpl; auto. Qed.
Lemma opt_int_json_wf o : json_wf (opt_int_json o) = true.
Proof. by destruct o. Qed.
Lemma list_wf {A} (f : A → json) l : (∀ x, json_wf (f x) = true) → json_wf (JList (f <$> l)) = true.
Proof. intros H. simpl. induction l; simpl; [done|]. by rewrite H. Qed.

(** Objects with literal keys: the keys are distinct by computation. *)
Lemma obj_wf (o : payload) : no_dups o.*1 = true → forallb (λ kv, json_wf kv.2) o = true → json_wf (JObj o) = true.
Proof. intros H1 H2. cbn [json_wf]. unfold no_dups in H1. py_bool. by rewrite bool_decide_eq_true_2, H2. Qed.

Create HintDb json_wf discriminated.
#[export] Hint Resolve opt_json_wf opt_int_json_wf strings_json_wf list_wf float_json_wf : json_wf.

(** An object with literal keys is well formed when its members are. *)
Ltac members := apply obj_wf; [reflexivity|]; cbn [forallb snd];
  rewrite !andb_true_iff; split_and!; auto with json_wf.

Section digests.
Context {HDigest : Digest}.

Lemma json_digest_inj v1 v2 :
  json_wf v1 = true → json_wf v2 = true → json_digest v1 = json_digest v2 →
  collides (canonical_json v1) (canonical_json v2) ∨ jnorm v1 = jnorm v2.
Proof.
  intros W1 W2 H. unfold json_digest in H. apply hexdigest_inj in H as [H|H]; [right|by left].
  by apply canonical_json_inj in H.
Qed.

Lemma digest_binds m1 m2 :
  json_wf (JObj m1) = true → json_wf (JObj m2) = true →
  json_digest (JObj m1) = json_digest (JObj m2) →
  collides (document m1) (document m2) ∨ ∀ k, jnorm <$> dict_get k m1 = jnorm <$> dict_get k m2.
Proof.
  intros W1 W2 H. apply json_digest_inj in H as [?|H]; [by left|right|done..].
  cbn [json_wf] in W1, W2. py_bool. by apply jnorm_members.
Qed.

Lemma jnorm_strings l : jnorm (strings_json l) = strings_json l.
Proof. unfold strings_json. simpl. f_equal. induction l; simpl; [done|]. by f_equal. Qed.

Lemma strings_json_inj l l' : strings_json l = strings_json l' → l = l'.
Proof.
  unfold strings_json. intros [= H]. revert l' H. induction l as [|x l IH]; intros [|y l']; simpl; try done.
  intros [= -> H]. f_equal. by apply IH.
Qed.
End digests.
