(* ===== verification/Sha256.v ===== *)
(** * SHA-256

    [hashlib.sha256(b).digest()] as FIPS 180-4 defines it, on strings of bytes: 32-bit words
    as integers, sums modulo 2^32.  It is an instance of the [Digest] interface the other
    files are stated against, and satisfies its law. *)

From S2P Require Import Prelude.

Definition word (z : Z) : Z := z mod 2 ^ 32.

Definition rotr (n x : Z) : Z := Z.lor (Z.shiftr x n) (word (Z.shiftl x (32 - n))).

Definition ch (x y z : Z) : Z := Z.lxor (Z.land x y) (Z.land (Z.lxor x (2 ^ 32 - 1)) z).
Definition maj (x y z : Z) : Z := Z.lxor (Z.lxor (Z.land x y) (Z.land x z)) (Z.land y z).
Definition big_sigma0 (x : Z) : Z := Z.lxor (Z.lxor (rotr 2 x) (rotr 13 x)) (rotr 22 x).
Definition big_sigma1 (x : Z) : Z := Z.lxor (Z.lxor (rotr 6 x) (rotr 11 x)) (rotr 25 x).
Definition small_sigma0 (x : Z) : Z := Z.lxor (Z.lxor (rotr 7 x) (rotr 18 x)) (Z.shiftr x 3).
Definition small_sigma1 (x : Z) : Z := Z.lxor (Z.lxor (rotr 17 x) (rotr 19 x)) (Z.shiftr x 10).

(** ** Constants

    The initial state and the round constants are the first 32 bits of the fractional parts of
    the square and cube roots of the first primes, computed here by bisection. *)

Definition is_prime (n : Z) : bool :=
  forallb (λ d, negb (n mod d =? 0)) (seqZ 2 (Z.sqrt n - 1)).

Definition first_primes (n : nat) : list Z := take n (List.filter is_prime (seqZ 2 311)).

(** The bits of the largest [r] with [r ^ k <= n], from bit [i] down *)
Fixpoint root_bits (i : nat) (k n r : Z) : Z :=
  match i with
  | O => r
  | S i =>
      let r' := r + 2 ^ Z.of_nat i in
      root_bits i k n (if r' ^ k <=? n then r' else r)
  end.

Definition root_fraction (k p : Z) : Z := word (root_bits 40 k (p * 2 ^ (32 * k)) 0).

Definition round_constants : list Z :=
  Eval vm_compute in root_fraction 3 <$> first_primes 64.

(** The eight working variables *)
Record hash_state := HashState {
  ha : Z; hb : Z; hc : Z; hd : Z; he : Z; hf : Z; hg : Z; hh : Z
}.

Definition initial_state : hash_state :=
  Eval vm_compute in
  match root_fraction 2 <$> first_primes 8 with
  | [a; b; c; d; e; f; g; h] => HashState a b c d e f g h
  | _ => HashState 0 0 0 0 0 0 0 0
  end.

(** Message padding: a one bit, zeros, and the length in bits on 64 bits. *)
Definition be_bytes (n : nat) (z : Z) : list Z :=
  (λ i, Z.shiftr z (8 * (Z.of_nat n - 1 - i)) mod 256) <$> seqZ 0 (Z.of_nat n).

Definition pad (m : list Z) : list Z :=
  let l := zlen m in
  m ++ 128 :: replicate (Z.to_nat ((55 - l) mod 64)) 0 ++ be_bytes 8 (8 * l).

Fixpoint words_of (bs : list Z) : list Z :=
  match bs with
  | b1 :: b2 :: b3 :: b4 :: bs =>
      (((b1 * 256 + b2) * 256 + b3) * 256 + b4) :: words_of bs
  | _ => []
  end.

(** The message schedule, latest word first: 16 words of the block, then [n] derived ones. *)
Fixpoint extend (n : nat) (w : list Z) : list Z :=
  match n with
  | O => w
  | S n =>
      let at_ i := nth (i - 1) w 0 in
      extend n (word (small_sigma1 (at_ 2%nat) + at_ 7%nat + small_sigma0 (at_ 15%nat)
                      + at_ 16%nat) :: w)
  end.

Definition schedule (block : list Z) : list Z := rev (extend 48 (rev block)).

Definition compress_round (s : hash_state) (kw : Z * Z) : hash_state :=
  let t1 := word (hh s + big_sigma1 (he s) + ch (he s) (hf s) (hg s) + kw.1 + kw.2) in
  let t2 := word (big_sigma0 (ha s) + maj (ha s) (hb s) (hc s)) in
  HashState (word (t1 + t2)) (ha s) (hb s) (hc s) (word (hd s + t1)) (he s) (hf s) (hg s).

Definition compress (s : hash_state) (block : list Z) : hash_state :=
  let t := foldl compress_round s (combine round_constants (schedule block)) in
  HashState (word (ha s + ha t)) (word (hb s + hb t)) (word (hc s + hc t)) (word (hd s + hd t))
    (word (he s + he t)) (word (hf s + hf t)) (word (hg s + hg t)) (word (hh s + hh t)).

(** Blocks of 16 words; the fuel is the number of words, more than the number of blocks. *)
Fixpoint compress_all (fuel : nat) (s : hash_state) (ws : list Z) : hash_state :=
  match fuel, ws with
  | S fuel, _ :: _ => compress_all fuel (compress s (take 16 ws)) (drop 16 ws)
  | _, _ => s
  end.

Definition state_bytes (s : hash_state) : list Z :=
  mjoin (be_bytes 4 <$> [ha s; hb s; hc s; hd s; he s; hf s; hg s; hh s]).

Definition bytes_of (b : string) : list Z :=
  (λ c, Z.of_N (N_of_ascii c)) <$> String.list_ascii_of_string b.

Definition string_of (bs : list Z) : string :=
  String.string_of_list_ascii ((λ z, ascii_of_N (Z.to_N z)) <$> bs).

Definition sha256 : Digest := λ b,
  let ws := words_of (pad (bytes_of b)) in
  string_of (state_bytes (compress_all (length ws) initial_state ws)).

Lemma string_of_length bs : String.length (string_of bs) = length bs.
Proof. induction bs as [|b bs IH]; simpl; [done|]. by f_equal. Qed.

Lemma sha256_laws : @DigestLaws sha256.
Proof. split. intros b. unfold sha256_digest, sha256. rewrite string_of_length. done. Qed.

(** The test vectors of FIPS 180-4 *)
Example sha256_empty :
  @hexdigest sha256 "" = "e3b0c44298fc1c149afbf4c8996fb92427ae41e4649b934ca495991b7852b855".
Proof. vm_compute. reflexivity. Qed.

Example sha256_abc :
  @hexdigest sha256 "abc" = "ba7816bf8f01cfea414140de5dae2223b00361a396177a9cb410ff61f20015ad".
Proof. vm_compute. reflexivity. Qed.

Example sha256_two_blocks :
  @hexdigest sha256 "abcdbcdecdefdefgefghfghighijhijkijkljklmklmnlmnomnopnopq"
  = "248d6a61d20638b8e5c026930c3e6039a33ce45964ff2167f6ecedd419db06c1".
Proof. vm_compute. reflexivity. Qed.
