(* ===== verification/Domain.v ===== *)
(** * Domain contracts ([domain.py], [ports.py]) and trace references ([telemetry.py])

    Identifiers and their patterns, risk levels, grants and identities with their
    validators, the investigation request, and [stable_id], the content-derived
    identifier every component uses.  At the end, the part of the telemetry module the ledger
    depends on: the W3C trace coordinates derived from a correlation reference, stored with
    every accepted run. *)

From S2P Require Import Prelude PyJson PyTime PyText.

(** ** Constrained strings *)

Definition is_alnum (c : ascii) : bool :=
  char_in_range "a" "z" c || char_in_range "A" "Z" c || is_digit c.
Definition is_identifier_char (c : ascii) : bool :=
  is_alnum c || bool_decide (c = "."%char ∨ c = "_"%char ∨ c = ":"%char ∨ c = "-"%char).

Definition length_between (lo hi : Z) (s : string) : bool :=
  (lo <=? str_len s) && (str_len s <=? hi).

Definition Identifier (s : string) : bool :=
  length_between 1 128 s && str_forallb is_identifier_char s.

Definition OpaqueReference (s : string) : bool :=
  length_between 1 512 s && str_forallb is_identifier_char s.

Definition SubjectIdentifier (s : string) : bool :=
  length_between 1 255 s && str_forallb (char_in_range "!" "~") s.

Definition opt_Identifier (o : option string) : bool :=
  match o with Some s => Identifier s | None => true end.

(** The issuer pattern: scheme, authority, optional path. *)
Definition issuer_tail (s : string) : bool :=
  match s with
  | "" => false
  | String c s =>
      is_alnum c &&
      (let '(_, rest) := span is_identifier_char s in
       match rest with
       | "" => true
       | String "/" path =>
           str_forallb (λ c, is_identifier_char c
             || bool_decide (c = "~"%char ∨ c = "/"%char)) path
       | _ => false
       end)
  end.

Definition Issuer (s : string) : bool :=
  length_between 8 512 s &&
  match strip_prefix "https://" s with
  | Some t => issuer_tail t
  | None => match strip_prefix "http://" s with Some t => issuer_tail t | None => false end
  end.

#[global] Arguments Identifier : simpl never.
#[global] Arguments Issuer : simpl never.

(** ** Enumerations *)

Inductive RiskLevel := RLow | RMedium | RHigh.
#[export] Instance RiskLevel_eq_dec : EqDecision RiskLevel.
Proof. solve_decision. Defined.

Definition risk_value (r : RiskLevel) : string :=
  match r with RLow => "low" | RMedium => "medium" | RHigh => "high" end.

(** [_RISK_ORDER], the same table in [authorization.py] and [remediation.py] *)
Definition risk_order (r : RiskLevel) : Z :=
  match r with RLow => 1 | RMedium => 2 | RHigh => 3 end.

Inductive PrincipalKind := PHuman | PWorkload.
#[export] Instance PrincipalKind_eq_dec : EqDecision PrincipalKind.
Proof. solve_decision. Defined.

Definition principal_kind_value (k : PrincipalKind) : string :=
  match k with PHuman => "human" | PWorkload => "workload" end.

(** ** Identities *)

Record GrantBinding := {
  gb_role : string;
  gb_purpose : string;
  gb_permissions : list string;
  gb_risk_ceiling : RiskLevel;
  gb_expires_at : datetime
}.
#[export] Instance GrantBinding_eq_dec : EqDecision GrantBinding.
Proof. solve_decision. Defined.

Record IdentityContext := {
  ic_tenant_id : string;
  ic_issuer : string;
  ic_subject_id : string;
  ic_principal_kind : PrincipalKind;
  ic_roles : list string;
  ic_permissions : list string;
  ic_purposes : list string;
  ic_grants : list GrantBinding;
  ic_grant_version : Z;
  ic_authenticated_at : datetime;
  ic_expires_at : datetime;
  ic_request_id : string;
  ic_trace_id : string
}.

(** [tuple(sorted(set(value)))] *)
Definition sorted_set (l : list string) : list string := py_sorted str_leb (remove_dups l).

(** [GrantBinding(...)]: field constraints, then [normalize_permissions] *)
Definition new_GrantBinding (g : GrantBinding) : res GrantBinding :=
  raise_if (negb (Identifier (gb_role g) && Identifier (gb_purpose g)
                  && forallb Identifier (gb_permissions g)))
    ValidationError "GrantBinding";;
  Ok {| gb_role := gb_role g; gb_purpose := gb_purpose g;
        gb_permissions := sorted_set (gb_permissions g);
        gb_risk_ceiling := gb_risk_ceiling g; gb_expires_at := gb_expires_at g |}.

(** The sort key of [normalize_grants]: purpose, role, risk value, expiry *)
Definition grant_leb (a b : GrantBinding) : bool :=
  if decide (gb_purpose a = gb_purpose b) then
    if decide (gb_role a = gb_role b) then
      if decide (gb_risk_ceiling a = gb_risk_ceiling b) then gb_expires_at a <=? gb_expires_at b
      else str_leb (risk_value (gb_risk_ceiling a)) (risk_value (gb_risk_ceiling b))
    else str_leb (gb_role a) (gb_role b)
  else str_leb (gb_purpose a) (gb_purpose b).

(** [IdentityContext(...)]: field constraints, the normalizing validators, then
    [validate_authority_projection]. *)
Definition new_IdentityContext (i : IdentityContext) : res IdentityContext :=
  raise_if (negb (Identifier (ic_tenant_id i) && Issuer (ic_issuer i)
                  && SubjectIdentifier (ic_subject_id i)
                  && forallb Identifier (ic_roles i) && forallb Identifier (ic_permissions i)
                  && forallb Identifier (ic_purposes i) && (1 <=? ic_grant_version i)
                  && Identifier (ic_request_id i) && Identifier (ic_trace_id i)))
    ValidationError "IdentityContext";;
  let roles := sorted_set (ic_roles i) in
  let permissions := sorted_set (ic_permissions i) in
  let purposes := sorted_set (ic_purposes i) in
  let grants := py_sorted grant_leb (remove_dups (ic_grants i)) in
  raise_if (ic_expires_at i <=? ic_authenticated_at i)
    ValidationError "identity expiry must follow authentication";;
  raise_if (bool_decide (roles ≠ sorted_set (gb_role <$> grants)))
    ValidationError "identity roles must match immutable grant bindings";;
  raise_if (bool_decide (permissions ≠ sorted_set (grants ≫= gb_permissions)))
    ValidationError "identity permissions must match immutable grant bindings";;
  raise_if (bool_decide (purposes ≠ sorted_set (gb_purpose <$> grants)))
    ValidationError "identity purposes must match immutable grant bindings";;
  Ok {| ic_tenant_id := ic_tenant_id i; ic_issuer := ic_issuer i;
        ic_subject_id := ic_subject_id i; ic_principal_kind := ic_principal_kind i;
        ic_roles := roles; ic_permissions := permissions; ic_purposes := purposes;
        ic_grants := grants; ic_grant_version := ic_grant_version i;
        ic_authenticated_at := ic_authenticated_at i; ic_expires_at := ic_expires_at i;
        ic_request_id := ic_request_id i; ic_trace_id := ic_trace_id i |}.

(** ** Requests *)

Record CheckoutAlert := {
  ca_region : string;
  ca_observed_at : datetime;
  ca_failure_rate : string;
  ca_threshold : string
}.
#[export] Instance CheckoutAlert_eq_dec : EqDecision CheckoutAlert.
Proof. solve_decision. Defined.

Record InvestigationRequest := {
  ir_incident_id : string;
  ir_alert : CheckoutAlert
}.
#[export] Instance InvestigationRequest_eq_dec : EqDecision InvestigationRequest.
Proof. solve_decision. Defined.

(** [request.model_dump(mode="json")]; a float field is its [repr] *)
Definition alert_json (a : CheckoutAlert) : json :=
  JObj [("signal", JStr "checkout_failure_rate"); ("service", JStr "checkout-api");
        ("region", JStr (ca_region a)); ("observed_at", JStr (iso_z (ca_observed_at a)));
        ("failure_rate", JFloat (ca_failure_rate a)); ("threshold", JFloat (ca_threshold a))].

Definition request_json (r : InvestigationRequest) : json :=
  JObj [("incident_id", JStr (ir_incident_id r)); ("alert", alert_json (ir_alert r))].

(** ** Stable identifiers *)

Section stable_id.
Context {HDigest : Digest}.

Definition stable_id (prefix : string) (parts : list string) (length : nat) : string :=
  prefix +:+ ":" +:+ str_take length (hexdigest (utf8 (str_join (String "000" "") parts))).

(** [stable_id("actor", identity.issuer, identity.subject_id, length=32)] *)
Definition actor_ref (i : IdentityContext) : string :=
  stable_id "actor" [ic_issuer i; ic_subject_id i] 32.

Lemma hexdigest_identifier_chars s : str_forallb is_identifier_char (hexdigest s) = true.
Proof.
  apply (str_forallb_impl is_hex_lower); [|apply hex_digits_lower].
  intros c. by ascii_cases c.
Qed.

(** A stable id with an identifier-like prefix is an [Identifier]. *)
Lemma stable_id_Identifier prefix parts n :
  str_forallb is_identifier_char prefix = true →
  (String.length prefix + 1 + n ≤ 128)%nat →
  Identifier (stable_id prefix parts n) = true.
Proof.
  intros Hp Hn. unfold Identifier, stable_id, length_between, str_len.
  rewrite !str_forallb_app, Hp, str_forallb_take by apply hexdigest_identifier_chars.
  rewrite !str_app_length, str_take_length.
  rewrite !andb_true_iff, !Z.leb_le. simpl. lia.
Qed.
End stable_id.
#[global] Arguments stable_id {_} _ _ _ : simpl never.

(** ** Properties *)

Lemma sorted_set_elem x l : x ∈ sorted_set l ↔ x ∈ l.
Proof.
  unfold sorted_set. rewrite (py_sorted_perm str_leb (remove_dups l)).
  apply elem_of_remove_dups.
Qed.

Lemma sorted_set_NoDup l : NoDup (sorted_set l).
Proof.
  unfold sorted_set. rewrite (py_sorted_perm str_leb (remove_dups l)).
  apply NoDup_remove_dups.
Qed.

Record TraceReference := {
  tr_trace_id : string;
  tr_span_id : string;
  tr_sampled : bool
}.

(** [int.from_bytes(b, "big")] *)
Definition int_of_bytes (b : string) : Z :=
  (fix go acc b := match b with
   | "" => acc
   | String c b => go (256 * acc + char_code c) b
   end) 0 b.

Definition hex_of_length (n : nat) (s : string) : bool :=
  (String.length s =? n)%nat && str_forallb is_hex_lower s.

(** [TraceReference(...)]: the two patterns and the two zero checks *)
Definition new_TraceReference (t : TraceReference) : res TraceReference :=
  raise_if (negb (hex_of_length 32 (tr_trace_id t) && hex_of_length 16 (tr_span_id t)))
    ValidationError "TraceReference";;
  raise_if (bool_decide (tr_trace_id t = str_repeat 32 "0")) ValidationError "zero trace id is invalid";;
  raise_if (bool_decide (tr_span_id t = str_repeat 16 "0")) ValidationError "zero span id is invalid";;
  Ok t.

Definition traceparent (t : TraceReference) : string :=
  "00-" +:+ tr_trace_id t +:+ "-" +:+ tr_span_id t +:+ "-" +:+ (if tr_sampled t then "01" else "00").

Section telemetry.
Context {HDigest : Digest}.

Definition deterministic_sample (correlation_ref : string) (rate_basis_points : Z)
    (force : bool) : res bool :=
  raise_if ((rate_basis_points <? 0) || (10000 <? rate_basis_points)) ValueError
    "sampling rate must be between 0 and 10000 basis points";;
  if force then Ok true
  else
    let slot := int_of_bytes (str_take 8 (sha256_digest correlation_ref)) mod 10000 in
    Ok (slot <? rate_basis_points).

Definition durable_trace_reference (correlation_ref : string) (sampled : option bool)
    : res TraceReference :=
  let trace_digest := hexdigest ("trace:" +:+ correlation_ref) in
  let span_digest := hexdigest ("span:" +:+ correlation_ref) in
  s ← match sampled with
      | None => deterministic_sample correlation_ref 1000 false
      | Some s => Ok s
      end;
  new_TraceReference {| tr_trace_id := str_take 32 trace_digest;
                        tr_span_id := str_take 16 span_digest; tr_sampled := s |}.
End telemetry.
