(* ===== verification/Durability.v ===== *)
(** * The durable ledger ([durability.py]): data model and operations

    Events, deliveries, run views and the reference store [InMemoryDurability], one
    definition per method.  [store] is the object's state; a method is a computation in
    [M store], so a raise keeps whatever the method had already assigned.  A reading of
    [self._clock.now()] is an argument ([now], [now1], [now2] in program order). *)

From S2P Require Import Prelude PyJson PyTime Domain.

Definition _ZERO_HASH : string := str_repeat 64 "0".
Definition _MAX_EVENT_BYTES : Z := 32768.
Definition _MAX_EVENTS_PER_APPEND : Z := 32.
Definition _MAX_DELIVERY_ATTEMPTS : Z := 5.
Definition _MAX_RESUME_COMMANDS : Z := 32.

(** ** Enumerations *)

Inductive RunStatus :=
  | QUEUED | RUNNING | WAITING | COMPLETED | FAILED | CANCEL_REQUESTED | CANCELLED | TIMED_OUT.
#[export] Instance RunStatus_eq_dec : EqDecision RunStatus.
Proof. solve_decision. Defined.

Definition run_status_value (s : RunStatus) : string :=
  match s with
  | QUEUED => "queued" | RUNNING => "running" | WAITING => "waiting"
  | COMPLETED => "completed" | FAILED => "failed"
  | CANCEL_REQUESTED => "cancel_requested" | CANCELLED => "cancelled"
  | TIMED_OUT => "timed_out"
  end.

Inductive DeliveryStatus := PENDING | CLAIMED | DELIVERED | DEAD_LETTER.
#[export] Instance DeliveryStatus_eq_dec : EqDecision DeliveryStatus.
Proof. solve_decision. Defined.

(** ** Events *)

Record EventDraft := {
  ed_event_id : string;
  ed_event_type : string;
  ed_occurred_at : datetime;
  ed_actor_ref : string;
  ed_correlation_ref : string;
  ed_causation_ref : option string;
  ed_schema_version : Z;
  ed_payload : payload
}.

(** [dict(sorted(value.items()))] *)
Definition sort_payload (p : payload) : payload := py_sorted key_leb p.

#[global] Arguments sort_payload : simpl never.

(** The field constraints of [EventDraft], [bound_payload] included *)
Definition EventDraft_ok (d : EventDraft) : bool :=
  Identifier (ed_event_id d) && Identifier (ed_event_type d) && Identifier (ed_actor_ref d)
  && Identifier (ed_correlation_ref d) && opt_Identifier (ed_causation_ref d)
  && (1 <=? ed_schema_version d) && (ed_schema_version d <=? 1000)
  && (zlen (ed_payload d) <=? 32)
  && (str_len (canonical_json (JObj (ed_payload d))) <=? _MAX_EVENT_BYTES).

Definition new_EventDraft (d : EventDraft) : res EventDraft :=
  raise_if (negb (EventDraft_ok d)) ValidationError "EventDraft";;
  Ok {| ed_event_id := ed_event_id d; ed_event_type := ed_event_type d;
        ed_occurred_at := ed_occurred_at d; ed_actor_ref := ed_actor_ref d;
        ed_correlation_ref := ed_correlation_ref d; ed_causation_ref := ed_causation_ref d;
        ed_schema_version := ed_schema_version d; ed_payload := sort_payload (ed_payload d) |}.

Record ApplicationEvent := {
  ev_tenant_id : string;
  ev_aggregate_type : string;
  ev_aggregate_id : string;
  ev_aggregate_sequence : Z;
  ev_tenant_cursor : Z;
  ev_event_id : string;
  ev_event_type : string;
  ev_occurred_at : datetime;
  ev_actor_ref : string;
  ev_correlation_ref : string;
  ev_causation_ref : option string;
  ev_schema_version : Z;
  ev_payload : payload;
  ev_aggregate_previous_hash : string;
  ev_tenant_previous_hash : string;
  ev_record_hash : string
}.

Definition ApplicationEvent_ok (e : ApplicationEvent) : bool :=
  Identifier (ev_tenant_id e) && Identifier (ev_aggregate_type e) && Identifier (ev_aggregate_id e)
  && (1 <=? ev_aggregate_sequence e) && (1 <=? ev_tenant_cursor e)
  && Identifier (ev_event_id e) && Identifier (ev_event_type e) && Identifier (ev_actor_ref e)
  && Identifier (ev_correlation_ref e) && opt_Identifier (ev_causation_ref e)
  && (1 <=? ev_schema_version e) && (ev_schema_version e <=? 1000)
  && is_sha256_hex (ev_aggregate_previous_hash e) && is_sha256_hex (ev_tenant_previous_hash e)
  && is_sha256_hex (ev_record_hash e).

Definition new_ApplicationEvent (e : ApplicationEvent) : res ApplicationEvent :=
  raise_if (negb (ApplicationEvent_ok e)) ValidationError "ApplicationEvent";; Ok e.

(** The draft every verifier rebuilds from a stored event *)
Definition draft_of_event (e : ApplicationEvent) : EventDraft :=
  {| ed_event_id := ev_event_id e; ed_event_type := ev_event_type e;
     ed_occurred_at := ev_occurred_at e; ed_actor_ref := ev_actor_ref e;
     ed_correlation_ref := ev_correlation_ref e; ed_causation_ref := ev_causation_ref e;
     ed_schema_version := ev_schema_version e; ed_payload := ev_payload e |}.

Definition json_of_opt (o : option string) : json :=
  match o with Some s => JStr s | None => JNull end.

Definition event_material (tenant_id aggregate_type aggregate_id : string)
    (aggregate_sequence tenant_cursor : Z) (draft : EventDraft)
    (aggregate_previous_hash tenant_previous_hash : string) : string :=
  canonical_json (JObj [
    ("actor_ref", JStr (ed_actor_ref draft));
    ("aggregate_id", JStr aggregate_id);
    ("aggregate_previous_hash", JStr aggregate_previous_hash);
    ("aggregate_sequence", JInt aggregate_sequence);
    ("aggregate_type", JStr aggregate_type);
    ("causation_ref", json_of_opt (ed_causation_ref draft));
    ("correlation_ref", JStr (ed_correlation_ref draft));
    ("event_id", JStr (ed_event_id draft));
    ("event_type", JStr (ed_event_type draft));
    ("occurred_at", JStr (isoformat (ed_occurred_at draft)));
    ("payload", JObj (ed_payload draft));
    ("record_schema_version", JInt 1);
    ("schema_version", JInt (ed_schema_version draft));
    ("tenant_cursor", JInt tenant_cursor);
    ("tenant_id", JStr tenant_id);
    ("tenant_previous_hash", JStr tenant_previous_hash)]).

#[global] Arguments new_EventDraft : simpl never.
#[global] Arguments new_ApplicationEvent : simpl never.
#[global] Arguments event_material : simpl never.

(** ** Deliveries *)

Record OutboxDraft := {
  od_message_id : string;
  od_destination : string;
  od_message_type : string;
  od_available_at : datetime;
  od_payload : payload
}.

Definition delivery_payload_ok (p : payload) : bool :=
  (zlen p <=? 16) && (str_len (canonical_json (JObj p)) <=? 8192).

Definition new_OutboxDraft (d : OutboxDraft) : res OutboxDraft :=
  raise_if (negb (Identifier (od_message_id d) && Identifier (od_destination d)
                  && Identifier (od_message_type d) && delivery_payload_ok (od_payload d)))
    ValidationError "OutboxDraft";;
  Ok {| od_message_id := od_message_id d; od_destination := od_destination d;
        od_message_type := od_message_type d; od_available_at := od_available_at d;
        od_payload := sort_payload (od_payload d) |}.

Record InboxDraft := {
  in_message_id : string;
  in_source : string;
  in_message_type : string;
  in_payload : payload
}.

Definition new_InboxDraft (d : InboxDraft) : res InboxDraft :=
  raise_if (negb (Identifier (in_message_id d) && Identifier (in_source d)
                  && Identifier (in_message_type d) && delivery_payload_ok (in_payload d)))
    ValidationError "InboxDraft";;
  Ok {| in_message_id := in_message_id d; in_source := in_source d;
        in_message_type := in_message_type d; in_payload := sort_payload (in_payload d) |}.

Record DeliveryRecord := {
  dr_tenant_id : string;
  dr_message_id : string;
  dr_direction : string;
  dr_destination : string;
  dr_message_type : string;
  dr_status : DeliveryStatus;
  dr_attempts : Z;
  dr_available_at : datetime;
  dr_claim_token : option string;
  dr_claim_until : option datetime;
  dr_last_error_code : option string;
  dr_payload : payload
}.

Record DeliveryClaim := {
  dc_tenant_id : string;
  dc_message_id : string;
  dc_claim_token : string;
  dc_destination : string;
  dc_message_type : string;
  dc_attempt : Z;
  dc_payload : payload
}.

(** ** Read models *)

Record ProjectionCheckpoint := {
  pc_tenant_id : string;
  pc_projection_name : string;
  pc_last_cursor : Z;
  pc_last_event_hash : string;
  pc_version : Z
}.

Record RunView := {
  rv_tenant_id : string;
  rv_run_id : string;
  rv_incident_id : string;
  rv_request_ref : string;
  rv_workflow_id : string;
  rv_status : RunStatus;
  rv_version : Z;
  rv_last_cursor : Z;
  rv_created_at : datetime;
  rv_updated_at : datetime;
  rv_failure_code : option string;
  rv_replayed : bool
}.
#[export] Instance RunView_eq_dec : EqDecision RunView.
Proof. solve_decision. Defined.

Record TimelineItem := {
  ti_cursor : Z;
  ti_event_type : string;
  ti_occurred_at : datetime;
  ti_status : RunStatus;
  ti_failure_code : option string
}.

Record TimelinePage := {
  tp_items : list TimelineItem;
  tp_next_cursor : option string
}.

Inductive CommandType := Resume | Cancel.
#[export] Instance CommandType_eq_dec : EqDecision CommandType.
Proof. solve_decision. Defined.
Definition command_type_value (c : CommandType) : string :=
  match c with Resume => "resume" | Cancel => "cancel" end.

Record SignalCommand := {
  sc_command_id : string;
  sc_run_id : string;
  sc_command_type : CommandType
}.

Record LegacyEvent := {
  le_event_type : string;
  le_occurred_at : datetime;
  le_payload : payload
}.

(** ** The run reducer *)

Definition status_by_event (event_type : string) : option RunStatus :=
  dict_get event_type
    [("investigation.requested", QUEUED);
     ("investigation.started", RUNNING);
     ("investigation.evidence_collected", RUNNING);
     ("investigation.graph_completed", RUNNING);
     ("investigation.waiting", WAITING);
     ("investigation.cancel_requested", CANCEL_REQUESTED);
     ("investigation.completed", COMPLETED);
     ("investigation.failed", FAILED);
     ("investigation.cancelled", CANCELLED);
     ("investigation.timed_out", TIMED_OUT)].

Definition allowed_run_transitions (previous : RunStatus) : list RunStatus :=
  match previous with
  | QUEUED => [RUNNING; QUEUED; CANCEL_REQUESTED; FAILED]
  | RUNNING => [RUNNING; WAITING; COMPLETED; CANCEL_REQUESTED; FAILED; TIMED_OUT]
  | WAITING => [WAITING; COMPLETED; CANCEL_REQUESTED; FAILED; TIMED_OUT]
  | CANCEL_REQUESTED => [CANCELLED]
  | COMPLETED | FAILED | CANCELLED | TIMED_OUT => []
  end.

Definition _validate_run_transition (previous current : RunStatus) : res unit :=
  raise_if (bool_decide (current ∉ allowed_run_transitions previous))
    IntegrityFailure "investigation event violates the state machine".

(** [str(event.payload[key])] and the [Identifier] constraint of the field it fills:
    a missing key and a non-identifier end in the same [IntegrityFailure]. *)
Definition payload_identifier (p : payload) (key : string) : res string :=
  match dict_get key p with
  | Some v => if Identifier (py_str v) then Ok (py_str v)
              else raise IntegrityFailure "requested event cannot build a run projection"
  | None => raise IntegrityFailure "requested event cannot build a run projection"
  end.

Definition failure_code_of (p : payload) : res (option string) :=
  match dict_get "failure_code" p with
  | None | Some JNull => Ok None
  | Some (JStr s) => Ok (Some s)
  | Some _ => raise IntegrityFailure "failure code projection is invalid"
  end.

Definition reduce_run (current : option RunView) (event : ApplicationEvent) : res RunView :=
  status ← match
      (match current with
       | Some c => if decide (ev_event_type event = "investigation.resume_requested")
                   then Some (rv_status c) else status_by_event (ev_event_type event)
       | None => status_by_event (ev_event_type event)
       end)
    with
    | Some s => Ok s
    | None => raise IntegrityFailure "unknown investigation event type"
    end;
  failure_code ← failure_code_of (ev_payload event);
  match current with
  | None =>
      raise_if (bool_decide (ev_event_type event ≠ "investigation.requested"))
        IntegrityFailure "investigation projection does not start at requested";;
      run_id ← payload_identifier (ev_payload event) "run_id";
      incident_id ← payload_identifier (ev_payload event) "incident_id";
      request_ref ← payload_identifier (ev_payload event) "request_ref";
      workflow_id ← payload_identifier (ev_payload event) "workflow_id";
      Ok {| rv_tenant_id := ev_tenant_id event; rv_run_id := run_id;
            rv_incident_id := incident_id; rv_request_ref := request_ref;
            rv_workflow_id := workflow_id; rv_status := status;
            rv_version := ev_aggregate_sequence event;
            rv_last_cursor := ev_tenant_cursor event;
            rv_created_at := ev_occurred_at event; rv_updated_at := ev_occurred_at event;
            rv_failure_code := None; rv_replayed := false |}
  | Some c =>
      raise_if (negb (ev_aggregate_sequence event =? rv_version c + 1))
        IntegrityFailure "projection observed a non-contiguous aggregate sequence";;
      _validate_run_transition (rv_status c) status;;
      Ok {| rv_tenant_id := rv_tenant_id c; rv_run_id := rv_run_id c;
            rv_incident_id := rv_incident_id c; rv_request_ref := rv_request_ref c;
            rv_workflow_id := rv_workflow_id c; rv_status := status;
            rv_version := ev_aggregate_sequence event;
            rv_last_cursor := ev_tenant_cursor event;
            rv_created_at := rv_created_at c; rv_updated_at := ev_occurred_at event;
            rv_failure_code := failure_code; rv_replayed := false |}
  end.

#[global] Arguments status_by_event : simpl never.
#[global] Arguments reduce_run : simpl never.

(** [current.model_copy(update={"replayed": True})] *)
Definition mark_replayed (r : RunView) : RunView :=
  {| rv_tenant_id := rv_tenant_id r; rv_run_id := rv_run_id r;
     rv_incident_id := rv_incident_id r; rv_request_ref := rv_request_ref r;
     rv_workflow_id := rv_workflow_id r; rv_status := rv_status r;
     rv_version := rv_version r; rv_last_cursor := rv_last_cursor r;
     rv_created_at := rv_created_at r; rv_updated_at := rv_updated_at r;
     rv_failure_code := rv_failure_code r; rv_replayed := true |}.

Definition _timeline_item (event : ApplicationEvent) (status : RunStatus) : TimelineItem :=
  {| ti_cursor := ev_tenant_cursor event; ti_event_type := ev_event_type event;
     ti_occurred_at := ev_occurred_at event; ti_status := status;
     ti_failure_code := dict_get "failure_code" (ev_payload event) ≫= as_str |}.

(** ** The store *)

Record _AggregateHead := { ah_sequence : Z; ah_record_hash : string }.
Record _TenantHead := { th_cursor : Z; th_record_hash : string }.
Record _IdempotencyRecord := { ir_fingerprint : string; ir_run_id : string }.

Definition no_aggregate_head : _AggregateHead :=
  {| ah_sequence := 0; ah_record_hash := _ZERO_HASH |}.
Definition no_tenant_head : _TenantHead :=
  {| th_cursor := 0; th_record_hash := _ZERO_HASH |}.

Record store := {
  _events : gmap string (list ApplicationEvent);
  _aggregate_heads : gmap (string * string * string) _AggregateHead;
  _tenant_heads : gmap string _TenantHead;
  _event_ids : gset (string * string);
  _idempotency : gmap (string * string) _IdempotencyRecord;
  _deliveries : gmap (string * string * string) DeliveryRecord;
  _runs : gmap (string * string) RunView;
  _projection_checkpoints : gmap (string * string) ProjectionCheckpoint
}.

Definition empty_store : store :=
  {| _events := ∅; _aggregate_heads := ∅; _tenant_heads := ∅; _event_ids := ∅;
     _idempotency := ∅; _deliveries := ∅; _runs := ∅; _projection_checkpoints := ∅ |}.

Definition set_idempotency (f : gmap (string * string) _IdempotencyRecord →
    gmap (string * string) _IdempotencyRecord) (st : store) : store :=
  {| _events := _events st; _aggregate_heads := _aggregate_heads st;
     _tenant_heads := _tenant_heads st; _event_ids := _event_ids st;
     _idempotency := f (_idempotency st); _deliveries := _deliveries st;
     _runs := _runs st; _projection_checkpoints := _projection_checkpoints st |}.

Definition set_deliveries (f : gmap (string * string * string) DeliveryRecord →
    gmap (string * string * string) DeliveryRecord) (st : store) : store :=
  {| _events := _events st; _aggregate_heads := _aggregate_heads st;
     _tenant_heads := _tenant_heads st; _event_ids := _event_ids st;
     _idempotency := _idempotency st; _deliveries := f (_deliveries st);
     _runs := _runs st; _projection_checkpoints := _projection_checkpoints st |}.

Definition set_runs (f : gmap (string * string) RunView → gmap (string * string) RunView)
    (st : store) : store :=
  {| _events := _events st; _aggregate_heads := _aggregate_heads st;
     _tenant_heads := _tenant_heads st; _event_ids := _event_ids st;
     _idempotency := _idempotency st; _deliveries := _deliveries st;
     _runs := f (_runs st); _projection_checkpoints := _projection_checkpoints st |}.

Definition set_checkpoints (f : gmap (string * string) ProjectionCheckpoint →
    gmap (string * string) ProjectionCheckpoint) (st : store) : store :=
  {| _events := _events st; _aggregate_heads := _aggregate_heads st;
     _tenant_heads := _tenant_heads st; _event_ids := _event_ids st;
     _idempotency := _idempotency st; _deliveries := _deliveries st;
     _runs := _runs st; _projection_checkpoints := f (_projection_checkpoints st) |}.

(** [self._events.get(tenant_id, ())], [self._aggregate_heads.get(...)],
    [self._tenant_heads.get(...)] *)
Definition tenant_events (st : store) (tenant_id : string) : list ApplicationEvent :=
  default [] (_events st !! tenant_id).
Definition aggregate_head_of (st : store) (key : string * string * string) : _AggregateHead :=
  default no_aggregate_head (_aggregate_heads st !! key).
Definition tenant_head_of (st : store) (tenant_id : string) : _TenantHead :=
  default no_tenant_head (_tenant_heads st !! tenant_id).

Section operations.
Context {HDigest : Digest}.

(** ** Append *)

(** The checks of [_append_locked], in program order *)
Definition append_guards (st : store) (tenant_id : string)
    (aggregate_key : string * string * string) (expected_version : Z)
    (drafts : list EventDraft) (outbox : list OutboxDraft) (inbox : list InboxDraft)
    : res unit :=
  raise_if (negb (ah_sequence (aggregate_head_of st aggregate_key) =? expected_version))
    ConcurrencyConflict "aggregate version changed";;
  raise_if (negb (no_dups (ed_event_id <$> drafts)))
    IdempotencyConflict "event batch contains duplicate event ids";;
  raise_if (existsb (λ d, bool_decide ((tenant_id, ed_event_id d) ∈ _event_ids st)) drafts)
    IdempotencyConflict "event id already exists";;
  raise_if (negb (no_dups (od_message_id <$> outbox)))
    IdempotencyConflict "outbox batch contains duplicate message ids";;
  raise_if (existsb (λ d, bool_decide
      (is_Some (_deliveries st !! (tenant_id, "outbox", od_message_id d)))) outbox)
    IdempotencyConflict "outbox message already exists";;
  raise_if (negb (no_dups (in_message_id <$> inbox)))
    IdempotencyConflict "inbox batch contains duplicate message ids";;
  raise_if (existsb (λ d, bool_decide
      (is_Some (_deliveries st !! (tenant_id, "inbox", in_message_id d)))) inbox)
    IdempotencyConflict "inbox message already exists".

(** One iteration of the event loop *)
Definition build_event (tenant_id aggregate_type aggregate_id : string)
    (aggregate_sequence tenant_cursor : Z)
    (aggregate_previous_hash tenant_previous_hash : string) (draft : EventDraft)
    : res ApplicationEvent :=
  let material := event_material tenant_id aggregate_type aggregate_id
    aggregate_sequence tenant_cursor draft aggregate_previous_hash tenant_previous_hash in
  new_ApplicationEvent {|
    ev_tenant_id := tenant_id; ev_aggregate_type := aggregate_type;
    ev_aggregate_id := aggregate_id; ev_aggregate_sequence := aggregate_sequence;
    ev_tenant_cursor := tenant_cursor; ev_event_id := ed_event_id draft;
    ev_event_type := ed_event_type draft; ev_occurred_at := ed_occurred_at draft;
    ev_actor_ref := ed_actor_ref draft; ev_correlation_ref := ed_correlation_ref draft;
    ev_causation_ref := ed_causation_ref draft;
    ev_schema_version := ed_schema_version draft; ev_payload := ed_payload draft;
    ev_aggregate_previous_hash := aggregate_previous_hash;
    ev_tenant_previous_hash := tenant_previous_hash;
    ev_record_hash := hexdigest material |}.

(** [for offset, draft in enumerate(drafts, start=1)] *)
Fixpoint build_events (tenant_id aggregate_type aggregate_id : string)
    (aggregate_sequence tenant_cursor : Z)
    (aggregate_previous_hash tenant_previous_hash : string) (drafts : list EventDraft)
    : res (list ApplicationEvent) :=
  match drafts with
  | [] => Ok []
  | draft :: drafts =>
      e ← build_event tenant_id aggregate_type aggregate_id (aggregate_sequence + 1)
            (tenant_cursor + 1) aggregate_previous_hash tenant_previous_hash draft;
      rest ← build_events tenant_id aggregate_type aggregate_id (aggregate_sequence + 1)
               (tenant_cursor + 1) (ev_record_hash e) (ev_record_hash e) drafts;
      Ok (e :: rest)
  end.

(** One step of the projection: over [projected] first, the store's runs second *)
Definition project_step (runs : gmap (string * string) RunView)
    (projected : gmap (string * string) RunView) (event : ApplicationEvent)
    : res (gmap (string * string) RunView) :=
  if decide (ev_aggregate_type event ≠ "investigation") then Ok projected
  else
    let key := (ev_tenant_id event, ev_aggregate_id event) in
    let current := match projected !! key with Some r => Some r | None => runs !! key end in
    r ← reduce_run current event;
    Ok (<[key := r]> projected).

Definition outbox_record (tenant_id : string) (message : OutboxDraft) : DeliveryRecord :=
  {| dr_tenant_id := tenant_id; dr_message_id := od_message_id message;
     dr_direction := "outbox"; dr_destination := od_destination message;
     dr_message_type := od_message_type message; dr_status := PENDING; dr_attempts := 0;
     dr_available_at := od_available_at message; dr_claim_token := None;
     dr_claim_until := None; dr_last_error_code := None; dr_payload := od_payload message |}.

Definition inbox_record (tenant_id : string) (at_ : datetime) (message : InboxDraft)
    : DeliveryRecord :=
  {| dr_tenant_id := tenant_id; dr_message_id := in_message_id message;
     dr_direction := "inbox"; dr_destination := "application";
     dr_message_type := in_message_type message; dr_status := DELIVERED; dr_attempts := 1;
     dr_available_at := at_; dr_claim_token := None; dr_claim_until := None;
     dr_last_error_code := None; dr_payload := in_payload message |}.

(** The assignments of [_append_locked], after the last statement that can raise *)
Definition commit_append (tenant_id : string) (aggregate_key : string * string * string)
    (appended : list ApplicationEvent) (tail : ApplicationEvent)
    (projected : gmap (string * string) RunView)
    (outbox : list OutboxDraft) (inbox : list InboxDraft) (st : store) : store :=
  {| _events := <[tenant_id := tenant_events st tenant_id ++ appended]> (_events st);
     _aggregate_heads := <[aggregate_key :=
       {| ah_sequence := ev_aggregate_sequence tail; ah_record_hash := ev_record_hash tail |}]>
       (_aggregate_heads st);
     _tenant_heads := <[tenant_id :=
       {| th_cursor := ev_tenant_cursor tail; th_record_hash := ev_record_hash tail |}]>
       (_tenant_heads st);
     _event_ids := list_to_set ((λ e, (tenant_id, ev_event_id e)) <$> appended) ∪ _event_ids st;
     _idempotency := _idempotency st;
     _deliveries :=
       foldl (λ d m, <[(tenant_id, "inbox", in_message_id m) :=
                       inbox_record tenant_id (ev_occurred_at tail) m]> d)
         (foldl (λ d m, <[(tenant_id, "outbox", od_message_id m) :=
                          outbox_record tenant_id m]> d) (_deliveries st) outbox) inbox;
     _runs := projected ∪ _runs st;
     _projection_checkpoints := _projection_checkpoints st |}.

Definition _append_locked (tenant_id aggregate_type aggregate_id : string)
    (expected_version : Z) (drafts : list EventDraft) (outbox : list OutboxDraft)
    (inbox : list InboxDraft) : M store (list ApplicationEvent) :=
  st ← get;
  let aggregate_key := (tenant_id, aggregate_type, aggregate_id) in
  let aggregate_head := aggregate_head_of st aggregate_key in
  let tenant_head := tenant_head_of st tenant_id in
  lift (append_guards st tenant_id aggregate_key expected_version drafts outbox inbox);;
  appended ← lift (build_events tenant_id aggregate_type aggregate_id expected_version
                     (th_cursor tenant_head) (ah_record_hash aggregate_head)
                     (th_record_hash tenant_head) drafts);
  projected ← lift (foldM (project_step (_runs st)) ∅ appended);
  tail ← lift (of_option (last appended) IndexError "list index out of range");
  modify (commit_append tenant_id aggregate_key appended tail projected outbox inbox);;
  mret appended.

Definition append (tenant_id aggregate_type aggregate_id : string) (expected_version : Z)
    (drafts : list EventDraft) (outbox : list OutboxDraft) (inbox : list InboxDraft)
    : M store (list ApplicationEvent) :=
  lift (raise_if (bool_decide (drafts = []) || (_MAX_EVENTS_PER_APPEND <? zlen drafts))
          ValueError "event batch is outside the permitted bound");;
  _append_locked tenant_id aggregate_type aggregate_id expected_version drafts outbox inbox.

(** ** Commands *)

(** [self._runs[key]] *)
Definition run_at (key : string * string) : M store RunView :=
  st ← get; lift (of_option (_runs st !! key) KeyError "run").

Definition run_fingerprint (request : InvestigationRequest) (wait_for_signal : bool) : string :=
  hexdigest (canonical_json (JObj [("request", request_json request);
                                   ("wait_for_signal", JBool wait_for_signal)])).

Definition run_id_of (identity : IdentityContext) (request : InvestigationRequest) : string :=
  stable_id "run" [ic_tenant_id identity; ir_incident_id request; ic_request_id identity] 32.

(** The event and the message [accept_run] appends *)
Definition accept_run_drafts (identity : IdentityContext) (request : InvestigationRequest)
    (wait_for_signal : bool) (now : datetime) : res (EventDraft * OutboxDraft) :=
  let run_id := run_id_of identity request in
  let request_ref := stable_id "request" [ic_tenant_id identity; ic_request_id identity] 32 in
  let tenant_ref := stable_id "tenant" [ic_tenant_id identity] 32 in
  let actor := actor_ref identity in
  let workflow_id := stable_id "workflow" [tenant_ref; run_id; request_ref] 40 in
  trace ← durable_trace_reference (ic_trace_id identity) None;
  let trace_ref := traceparent trace in
  draft ← new_EventDraft {|
    ed_event_id := stable_id "event" [run_id; "requested"] 32;
    ed_event_type := "investigation.requested"; ed_occurred_at := now;
    ed_actor_ref := actor; ed_correlation_ref := request_ref; ed_causation_ref := None;
    ed_schema_version := 1;
    ed_payload := [("incident_id", JStr (ir_incident_id request));
                   ("request", request_json request); ("request_ref", JStr request_ref);
                   ("run_id", JStr run_id); ("tenant_ref", JStr tenant_ref);
                   ("trace_ref", JStr trace_ref); ("wait_for_signal", JBool wait_for_signal);
                   ("workflow_id", JStr workflow_id)] |};
  outbox ← new_OutboxDraft {|
    od_message_id := stable_id "outbox" [run_id; "temporal-start"] 32;
    od_destination := "temporal"; od_message_type := "investigation.start";
    od_available_at := now;
    od_payload := [("actor_ref", JStr actor); ("request_ref", JStr request_ref);
                   ("run_id", JStr run_id); ("tenant_ref", JStr tenant_ref);
                   ("trace_ref", JStr trace_ref); ("wait_for_signal", JBool wait_for_signal);
                   ("workflow_id", JStr workflow_id)] |};
  Ok (draft, outbox).

Definition accept_run (identity : IdentityContext) (request : InvestigationRequest)
    (wait_for_signal : bool) (now : datetime) : M store RunView :=
  let fingerprint := run_fingerprint request wait_for_signal in
  let key := (ic_tenant_id identity, ic_request_id identity) in
  st ← get;
  match _idempotency st !! key with
  | Some existing =>
      lift (raise_if (bool_decide (ir_fingerprint existing ≠ fingerprint))
              IdempotencyConflict "request id was reused with different durable input");;
      r ← run_at (ic_tenant_id identity, ir_run_id existing);
      mret (mark_replayed r)
  | None =>
      let run_id := run_id_of identity request in
      drafts ← lift (accept_run_drafts identity request wait_for_signal now);
      modify (set_idempotency
        (insert key {| ir_fingerprint := fingerprint; ir_run_id := run_id |}));;
      on_raise
        (_append_locked (ic_tenant_id identity) "investigation" run_id 0
           [drafts.1] [drafts.2] [])
        (set_idempotency (delete key));;
      run_at (ic_tenant_id identity, run_id)
  end.

Definition record_transition (tenant_id run_id event_type operation_id actor_ref request_ref : string)
    (failure_code : option string) (attributes : option payload) (now : datetime)
    : M store RunView :=
  st ← get;
  match _runs st !! (tenant_id, run_id) with
  | None => lift (raise IntegrityFailure "durable run does not exist")
  | Some current =>
      let p0 := [("run_id", JStr run_id)] in
      let p1 := match attributes with Some a => dict_update p0 a | None => p0 end in
      let p2 := match failure_code with
                | Some c => dict_set "failure_code" (JStr c) p1 | None => p1 end in
      let event_id := stable_id "event" [run_id; event_type; operation_id] 32 in
      if decide ((tenant_id, event_id) ∈ _event_ids st) then mret (mark_replayed current)
      else
        draft ← lift (new_EventDraft {|
          ed_event_id := event_id; ed_event_type := event_type; ed_occurred_at := now;
          ed_actor_ref := actor_ref; ed_correlation_ref := request_ref;
          ed_causation_ref := Some operation_id; ed_schema_version := 1; ed_payload := p2 |});
        _append_locked tenant_id "investigation" run_id (rv_version current) [draft] [] [];;
        run_at (tenant_id, run_id)
  end.

Definition resume_count (st : store) (tenant_id run_id : string) : Z :=
  Z.of_nat (size (filter (λ '((_, r) : _ * DeliveryRecord),
    dr_tenant_id r = tenant_id ∧ dr_direction r = "inbox" ∧
    dr_message_type r = "investigation.resume" ∧
    dict_get "run_id" (dr_payload r) = Some (JStr run_id)) (_deliveries st))).

Definition signal_message_type (c : CommandType) : string :=
  "investigation." +:+ command_type_value c.
Definition signal_event_type (c : CommandType) : string :=
  "investigation." +:+ command_type_value c +:+ "_requested".

Definition accept_signal (identity : IdentityContext) (command : SignalCommand)
    (now1 now2 : datetime) : M store RunView :=
  st ← get;
  let tenant_id := ic_tenant_id identity in
  match _runs st !! (tenant_id, sc_run_id command) with
  | None => lift (raise IntegrityFailure "durable run does not exist")
  | Some current =>
      match _deliveries st !! (tenant_id, "inbox", sc_command_id command) with
      | Some existing =>
          lift (raise_if
            (bool_decide (dr_message_type existing ≠ signal_message_type (sc_command_type command)
               ∨ dict_get "run_id" (dr_payload existing) ≠ Some (JStr (sc_run_id command))))
            IdempotencyConflict "signal command id conflicts with an existing command");;
          mret (mark_replayed current)
      | None =>
          lift (raise_if
            (bool_decide (sc_command_type command = Resume)
               && (_MAX_RESUME_COMMANDS <=? resume_count st tenant_id (sc_run_id command)))
            PayloadRejected "run resume command bound exceeded");;
          let actor := actor_ref identity in
          inbox ← lift (new_InboxDraft {|
            in_message_id := sc_command_id command; in_source := "api";
            in_message_type := signal_message_type (sc_command_type command);
            in_payload := [("actor_ref", JStr actor); ("command_id", JStr (sc_command_id command));
                           ("run_id", JStr (sc_run_id command))] |});
          let event_type := signal_event_type (sc_command_type command) in
          outbox ← lift (new_OutboxDraft {|
            od_message_id := stable_id "outbox" [sc_run_id command; sc_command_id command] 32;
            od_destination := "temporal"; od_message_type := event_type;
            od_available_at := now1;
            od_payload := [("command_ref", JStr (sc_command_id command));
                           ("run_id", JStr (sc_run_id command));
                           ("workflow_id", JStr (rv_workflow_id current))] |});
          draft ← lift (new_EventDraft {|
            ed_event_id := stable_id "event"
              [sc_run_id command; event_type; sc_command_id command] 32;
            ed_event_type := event_type; ed_occurred_at := now2; ed_actor_ref := actor;
            ed_correlation_ref := rv_request_ref current;
            ed_causation_ref := Some (sc_command_id command); ed_schema_version := 1;
            ed_payload := [("command_ref", JStr (sc_command_id command));
                           ("run_id", JStr (sc_run_id command))] |});
          _append_locked tenant_id "investigation" (sc_run_id command) (rv_version current)
            [draft] [outbox] [inbox];;
          run_at (tenant_id, sc_run_id command)
      end
  end.

(** ** Reads *)

Definition get_run (st : store) (tenant_id run_id : string) : option RunView :=
  _runs st !! (tenant_id, run_id).

Definition event_selected (aggregate_type aggregate_id : option string) (after_cursor : Z)
    (e : ApplicationEvent) : bool :=
  (after_cursor <? ev_tenant_cursor e)
  && match aggregate_type with None => true | Some t => bool_decide (ev_aggregate_type e = t) end
  && match aggregate_id with None => true | Some i => bool_decide (ev_aggregate_id e = i) end.

Definition events (st : store) (tenant_id : string) (aggregate_type aggregate_id : option string)
    (after_cursor limit : Z) : res (list ApplicationEvent) :=
  raise_if ((limit <? 1) || (500 <? limit)) ValueError
    "event page limit is outside the permitted range";;
  Ok (ztake limit
    (List.filter (event_selected aggregate_type aggregate_id after_cursor)
       (tenant_events st tenant_id))).

(** The first [run_request] statement; the Pydantic validation of the stored document
    is the argument [model_validate]. *)
Definition run_request (model_validate : json → option InvestigationRequest)
    (st : store) (tenant_id run_id : string) : res InvestigationRequest :=
  evs ← events st tenant_id (Some "investigation") (Some run_id) 0 1;
  match evs with
  | [] => raise IntegrityFailure "durable run request is missing"
  | e :: _ =>
      of_option (dict_get "request" (ev_payload e) ≫= model_validate)
        IntegrityFailure "durable run request is malformed"
  end.

(** The loop of [activity_artifact]; [fuel] bounds the number of pages. *)
Fixpoint artifact_pages (fuel : nat) (st : store) (tenant_id run_id event_type : string)
    (maximum_events after_cursor scanned : Z) (latest : option payload)
    : res (option payload) :=
  if maximum_events <=? scanned then
    more ← events st tenant_id (Some "investigation") (Some run_id) after_cursor 1;
    match more with
    | [] => Ok latest
    | _ => raise IntegrityFailure "activity artifact scan exceeds the event bound"
    end
  else match fuel with
  | O => Ok latest
  | S fuel =>
      let page_limit := Z.min 500 (maximum_events - scanned) in
      page ← events st tenant_id (Some "investigation") (Some run_id) after_cursor page_limit;
      let latest := foldl (λ acc e, if decide (ev_event_type e = event_type)
                                    then Some (ev_payload e) else acc) latest page in
      if zlen page <? page_limit then Ok latest
      else match last page with
      | None => raise IndexError "list index out of range"
      | Some e => artifact_pages fuel st tenant_id run_id event_type maximum_events
                    (ev_tenant_cursor e) (scanned + zlen page) latest
      end
  end.

Definition activity_artifact (st : store) (tenant_id run_id event_type : string)
    : res (option payload) :=
  artifact_pages 20 st tenant_id run_id event_type 10000 0 0 None.

(** The projection loop of [timeline]; [cursor_encode] is [cursor_codec.encode] with the
    tenant and the run applied. *)
Definition timeline_step (after_cursor : Z) (acc : option RunView * list TimelineItem)
    (event : ApplicationEvent) : res (option RunView * list TimelineItem) :=
  r ← reduce_run acc.1 event;
  Ok (Some r, if after_cursor <? ev_tenant_cursor event
              then acc.2 ++ [_timeline_item event (rv_status r)] else acc.2).

Definition timeline (cursor_encode : Z → string) (st : store) (tenant_id run_id : string)
    (after_cursor limit : Z) : res TimelinePage :=
  evs ← events st tenant_id (Some "investigation") (Some run_id) 0 500;
  acc ← foldM (timeline_step after_cursor) (None, []) evs;
  let projected := acc.2 in
  let visible := ztake limit projected in
  Ok {| tp_items := visible;
        tp_next_cursor :=
          if limit <? zlen projected then cursor_encode ∘ ti_cursor <$> last visible else None |}.

Definition delivery (st : store) (tenant_id direction message_id : string)
    : option DeliveryRecord :=
  _deliveries st !! (tenant_id, direction, message_id).

(** ** The outbox *)

Definition outbox_candidate (tenant_id : string) (now : datetime)
    (key : string * string * string) (record : DeliveryRecord) : bool :=
  bool_decide (key.1.2 = "outbox") && bool_decide (dr_tenant_id record = tenant_id)
  && (dr_available_at record <=? now)
  && (bool_decide (dr_status record = PENDING)
      || (bool_decide (dr_status record = CLAIMED)
          && match dr_claim_until record with Some u => u <=? now | None => false end)).

(** The sort key [(available_at, tenant_id, message_id)] *)
Definition delivery_leb (a b : DeliveryRecord) : bool :=
  if dr_available_at a =? dr_available_at b then
    if decide (dr_tenant_id a = dr_tenant_id b)
    then str_leb (dr_message_id a) (dr_message_id b)
    else str_leb (dr_tenant_id a) (dr_tenant_id b)
  else dr_available_at a <? dr_available_at b.

Definition set_status (status : DeliveryStatus) (r : DeliveryRecord) : DeliveryRecord :=
  {| dr_tenant_id := dr_tenant_id r; dr_message_id := dr_message_id r;
     dr_direction := dr_direction r; dr_destination := dr_destination r;
     dr_message_type := dr_message_type r; dr_status := status;
     dr_attempts := dr_attempts r; dr_available_at := dr_available_at r;
     dr_claim_token := dr_claim_token r; dr_claim_until := dr_claim_until r;
     dr_last_error_code := dr_last_error_code r; dr_payload := dr_payload r |}.

Definition claim_token_for (worker_ref : string) (r : DeliveryRecord) (attempt : Z) : string :=
  stable_id "claim" [worker_ref; dr_tenant_id r; dr_message_id r; str_of_int attempt] 32.

Definition claimed_record (worker_ref : string) (claim_until : datetime) (r : DeliveryRecord)
    : DeliveryRecord :=
  {| dr_tenant_id := dr_tenant_id r; dr_message_id := dr_message_id r;
     dr_direction := dr_direction r; dr_destination := dr_destination r;
     dr_message_type := dr_message_type r; dr_status := CLAIMED;
     dr_attempts := dr_attempts r + 1; dr_available_at := dr_available_at r;
     dr_claim_token := Some (claim_token_for worker_ref r (dr_attempts r + 1));
     dr_claim_until := Some claim_until;
     dr_last_error_code := dr_last_error_code r; dr_payload := dr_payload r |}.

(** One iteration of the claim loop *)
Definition claim_step (worker_ref : string) (claim_until : datetime)
    (acc : gmap (string * string * string) DeliveryRecord * list DeliveryClaim)
    (record : DeliveryRecord)
    : gmap (string * string * string) DeliveryRecord * list DeliveryClaim :=
  let '(deliveries, claims) := acc in
  let key := (dr_tenant_id record, "outbox", dr_message_id record) in
  let attempt := dr_attempts record + 1 in
  if _MAX_DELIVERY_ATTEMPTS <? attempt then
    (<[key := set_status DEAD_LETTER record]> deliveries, claims)
  else
    (<[key := claimed_record worker_ref claim_until record]> deliveries,
     claims ++ [{| dc_tenant_id := dr_tenant_id record; dc_message_id := dr_message_id record;
                   dc_claim_token := claim_token_for worker_ref record attempt;
                   dc_destination := dr_destination record;
                   dc_message_type := dr_message_type record; dc_attempt := attempt;
                   dc_payload := dr_payload record |}]).

Definition outbox_candidates (st : store) (tenant_id : string) (now : datetime) (limit : Z)
    : list DeliveryRecord :=
  ztake limit (py_sorted delivery_leb
    ((List.filter (λ kr, outbox_candidate tenant_id now kr.1 kr.2)
        (map_to_list (_deliveries st))).*2)).

Definition claim_outbox (tenant_id worker_ref : string) (now claim_until : datetime) (limit : Z)
    : M store (list DeliveryClaim) :=
  lift (raise_if ((limit <? 1) || (100 <? limit) || (claim_until <=? now)) ValueError
          "outbox claim bounds are invalid");;
  st ← get;
  let '(deliveries, claims) :=
    foldl (claim_step worker_ref claim_until) (_deliveries st, [])
      (outbox_candidates st tenant_id now limit) in
  modify (set_deliveries (λ _, deliveries));;
  mret claims.

Definition _update_claim (claim : DeliveryClaim) (status : DeliveryStatus)
    (error_code : option string) (retry_at : option datetime) : M store unit :=
  let key := (dc_tenant_id claim, "outbox", dc_message_id claim) in
  st ← get;
  match _deliveries st !! key with
  | Some record =>
      lift (raise_if (bool_decide (dr_status record ≠ CLAIMED)
                      || bool_decide (dr_claim_token record ≠ Some (dc_claim_token claim))
                      || negb (dr_attempts record =? dc_attempt claim))
              MessageClaimConflict "outbox claim is stale or not owned");;
      modify (set_deliveries (insert key
        {| dr_tenant_id := dr_tenant_id record; dr_message_id := dr_message_id record;
           dr_direction := dr_direction record; dr_destination := dr_destination record;
           dr_message_type := dr_message_type record; dr_status := status;
           dr_attempts := dr_attempts record;
           dr_available_at := default (dr_available_at record) retry_at;
           dr_claim_token := None; dr_claim_until := None;
           dr_last_error_code := error_code; dr_payload := dr_payload record |}))
  | None => lift (raise MessageClaimConflict "outbox claim is stale or not owned")
  end.

Definition complete_outbox (claim : DeliveryClaim) : M store unit :=
  _update_claim claim DELIVERED None None.

Definition fail_outbox (claim : DeliveryClaim) (error_code : string) (retry_at : datetime)
    (permanent : bool) : M store unit :=
  _update_claim claim
    (if permanent || (_MAX_DELIVERY_ATTEMPTS <=? dc_attempt claim) then DEAD_LETTER else PENDING)
    (Some error_code) (Some retry_at).

(** ** Integrity and rebuild *)

(** The hash an event must carry after the given predecessors *)
Definition expected_hash (e : ApplicationEvent) (draft : EventDraft)
    (aggregate_hash tenant_hash : string) : string :=
  hexdigest (event_material (ev_tenant_id e) (ev_aggregate_type e) (ev_aggregate_id e)
    (ev_aggregate_sequence e) (ev_tenant_cursor e) draft aggregate_hash tenant_hash).

(** The locals of the [verify_integrity] loop *)
Record verifier := {
  v_aggregate_heads : gmap (string * string) _AggregateHead;
  v_tenant_head : _TenantHead;
  v_seen : gset string
}.

Definition verifier_init : verifier :=
  {| v_aggregate_heads := ∅; v_tenant_head := no_tenant_head; v_seen := ∅ |}.

(** One iteration: [None] is [return False] *)
Definition verify_step (v : verifier) (e : ApplicationEvent) : res (option verifier) :=
  let key := (ev_aggregate_type e, ev_aggregate_id e) in
  let aggregate := default no_aggregate_head (v_aggregate_heads v !! key) in
  draft ← new_EventDraft (draft_of_event e);
  let expected := expected_hash e draft (ah_record_hash aggregate)
                    (th_record_hash (v_tenant_head v)) in
  if negb (ev_schema_version e =? 1)
     || bool_decide (ev_event_id e ∈ v_seen v)
     || negb (ev_aggregate_sequence e =? ah_sequence aggregate + 1)
     || negb (ev_tenant_cursor e =? th_cursor (v_tenant_head v) + 1)
     || bool_decide (ev_aggregate_previous_hash e ≠ ah_record_hash aggregate)
     || bool_decide (ev_tenant_previous_hash e ≠ th_record_hash (v_tenant_head v))
     || bool_decide (ev_record_hash e ≠ expected)
  then Ok None
  else Ok (Some {|
    v_aggregate_heads := <[key := {| ah_sequence := ev_aggregate_sequence e;
                                     ah_record_hash := ev_record_hash e |}]> (v_aggregate_heads v);
    v_tenant_head := {| th_cursor := ev_tenant_cursor e; th_record_hash := ev_record_hash e |};
    v_seen := {[ev_event_id e]} ∪ v_seen v |}).

Fixpoint verify_events (v : verifier) (l : list ApplicationEvent) : res (option verifier) :=
  match l with
  | [] => Ok (Some v)
  | e :: l => o ← verify_step v e;
      match o with None => Ok None | Some v' => verify_events v' l end
  end.

Definition verify_integrity (st : store) (tenant_id : string) : res bool :=
  o ← verify_events verifier_init (tenant_events st tenant_id);
  Ok (bool_decide (is_Some o)).

Definition is_run_event (run_id : string) (e : ApplicationEvent) : bool :=
  bool_decide (ev_aggregate_type e = "investigation") && bool_decide (ev_aggregate_id e = run_id).

(** One iteration of [verify_run_integrity]; [all] is the tenant's event tuple. *)
Definition verify_run_step (st : store) (tenant_id : string) (all : list ApplicationEvent)
    (acc : Z * string) (e : ApplicationEvent) : res (option (Z * string)) :=
  let '(aggregate_sequence, aggregate_hash) := acc in
  if (ev_tenant_cursor e <? 1) || (zlen all <? ev_tenant_cursor e) then Ok None
  else
    let previous_tenant_hash :=
      if ev_tenant_cursor e =? 1 then _ZERO_HASH
      else from_option ev_record_hash "" (all !! Z.to_nat (ev_tenant_cursor e - 2)) in
    draft ← new_EventDraft (draft_of_event e);
    let expected := expected_hash e draft aggregate_hash previous_tenant_hash in
    if negb (ev_schema_version e =? 1)
       || negb (ev_aggregate_sequence e =? aggregate_sequence + 1)
       || bool_decide (ev_aggregate_previous_hash e ≠ aggregate_hash)
       || bool_decide (ev_tenant_previous_hash e ≠ previous_tenant_hash)
       || bool_decide (ev_record_hash e ≠ expected)
    then Ok None
    else
      let linked :=
        if ev_tenant_cursor e <? zlen all then
          bool_decide (ev_tenant_previous_hash <$> all !! Z.to_nat (ev_tenant_cursor e)
                       = Some (ev_record_hash e))
        else bool_decide (th_record_hash (tenant_head_of st tenant_id) = ev_record_hash e) in
      if linked then Ok (Some (ev_aggregate_sequence e, ev_record_hash e)) else Ok None.

Fixpoint verify_run_events (st : store) (tenant_id : string) (all : list ApplicationEvent)
    (acc : Z * string) (l : list ApplicationEvent) : res (option (Z * string)) :=
  match l with
  | [] => Ok (Some acc)
  | e :: l => o ← verify_run_step st tenant_id all acc e;
      match o with None => Ok None | Some acc => verify_run_events st tenant_id all acc l end
  end.

Definition verify_run_integrity (st : store) (tenant_id run_id : string) (maximum_events : Z)
    : res bool :=
  raise_if ((maximum_events <? 1) || (10000 <? maximum_events)) ValueError
    "run integrity event bound is invalid";;
  let all := tenant_events st tenant_id in
  let selected := List.filter (is_run_event run_id) all in
  if bool_decide (selected = []) || (maximum_events <? zlen selected) then Ok false
  else
    o ← verify_run_events st tenant_id all (0, _ZERO_HASH) selected;
    match o, _aggregate_heads st !! (tenant_id, "investigation", run_id) with
    | Some (seq, h), Some head => Ok ((ah_sequence head =? seq)
                                      && bool_decide (ah_record_hash head = h))
    | _, _ => Ok false
    end.

(** [_apply_projection_locked]: the reducer over the store's own run table *)
Definition apply_event (runs : gmap (string * string) RunView) (event : ApplicationEvent)
    : res (gmap (string * string) RunView) :=
  if decide (ev_aggregate_type event ≠ "investigation") then Ok runs
  else
    let key := (ev_tenant_id event, ev_aggregate_id event) in
    r ← reduce_run (runs !! key) event;
    Ok (<[key := r]> runs).

Fixpoint _apply_projection_locked (evs : list ApplicationEvent) : M store unit :=
  match evs with
  | [] => mret ()
  | e :: evs =>
      st ← get;
      runs ← lift (apply_event (_runs st) e);
      modify (set_runs (λ _, runs));;
      _apply_projection_locked evs
  end.

Definition rebuild_run_projections (tenant_id : string) : M store ProjectionCheckpoint :=
  modify (set_runs (filter (λ '(k, _), k.1 ≠ tenant_id)));;
  st ← get;
  _apply_projection_locked (tenant_events st tenant_id);;
  st ← get;
  let head := tenant_head_of st tenant_id in
  let key := (tenant_id, "investigation-runs") in
  let checkpoint :=
    {| pc_tenant_id := tenant_id; pc_projection_name := "investigation-runs";
       pc_last_cursor := th_cursor head; pc_last_event_hash := th_record_hash head;
       pc_version := match _projection_checkpoints st !! key with
                     | None => 1 | Some previous => pc_version previous + 1 end |} in
  modify (set_checkpoints (insert key checkpoint));;
  mret checkpoint.

Definition reduce_opt (current : option RunView) (event : ApplicationEvent)
    : res (option RunView) := Some <$> reduce_run current event.

Definition rebuild_run (tenant_id run_id : string) : M store RunView :=
  st ← get;
  valid ← lift (verify_integrity st tenant_id);
  lift (raise_if (negb valid) IntegrityFailure "ledger integrity verification failed");;
  let evs := List.filter (is_run_event run_id) (tenant_events st tenant_id) in
  lift (raise_if (bool_decide (evs = [])) ValueError "run does not exist");;
  projection ← lift (foldM reduce_opt None evs);
  match projection with
  | None => lift (raise IntegrityFailure "run projection could not be rebuilt")
  | Some p => modify (set_runs (insert (tenant_id, run_id) p));; mret p
  end.

(** The drafts [replay_legacy] makes from position [index] on *)
Fixpoint legacy_drafts (upcast : LegacyEvent → string * payload)
    (tenant_id aggregate_id actor_ref correlation_ref : string) (index : Z)
    (legacy : list LegacyEvent) : res (list EventDraft) :=
  match legacy with
  | [] => Ok []
  | item :: legacy =>
      let '(event_type, p) := upcast item in
      draft ← new_EventDraft {|
        ed_event_id := stable_id "legacy-event"
          [tenant_id; aggregate_id; str_of_int index; le_event_type item] 32;
        ed_event_type := event_type; ed_occurred_at := le_occurred_at item;
        ed_actor_ref := actor_ref; ed_correlation_ref := correlation_ref;
        ed_causation_ref := None; ed_schema_version := 1; ed_payload := p |};
      rest ← legacy_drafts upcast tenant_id aggregate_id actor_ref correlation_ref
               (index + 1) legacy;
      Ok (draft :: rest)
  end.

Definition replay_legacy (upcast : LegacyEvent → string * payload)
    (tenant_id aggregate_id actor_ref correlation_ref : string) (legacy : list LegacyEvent)
    : M store (list ApplicationEvent) :=
  drafts ← lift (legacy_drafts upcast tenant_id aggregate_id actor_ref correlation_ref 1 legacy);
  append tenant_id "investigation" aggregate_id 0 drafts [] [].
End operations.

#[global] Arguments build_event {_} _ _ _ _ _ _ _ _ : simpl never.
#[global] Arguments verify_step {_} _ _ : simpl never.
#[global] Arguments verify_run_step {_} _ _ _ _ _ : simpl never.
#[global] Arguments expected_hash {_} _ _ _ _ : simpl never.
#[global] Arguments project_step : simpl never.
#[global] Arguments commit_append : simpl never.
#[global] Arguments append_guards : simpl never.
