(* ===== verification/LedgerInvariant.v ===== *)
(** * The ledger invariant

    First the facts about events, drafts and the run reducer it rests on: draft validation is
    stable, an appended batch extends the verified chain, and the reducer keeps versions in
    step with the aggregate sequence.  Then what every state of [InMemoryDurability] satisfies:
    the stored chain verifies and ends at the stored heads, the run table is the replay of the
    events, deliveries are within their attempt bound, and every idempotency record names a
    stored run. *)

From S2P Require Import Prelude PyJson PyTime Domain Durability.

(** ** Validated drafts *)

(** A draft the constructor returned: validating it again changes nothing. *)
Definition EventDraft_valid (d : EventDraft) : Prop := new_EventDraft d = Ok d.

#[export] Instance EventDraft_valid_dec d : Decision (EventDraft_valid d).
Proof.
  unfold EventDraft_valid, new_EventDraft, raise_if.
  destruct (EventDraft_ok d); simpl; [|by right].
  destruct (decide (sort_payload (ed_payload d) = ed_payload d)) as [E|E].
  - left. rewrite E. by destruct d.
  - right. intros H. injection H as H. apply E. by rewrite <-H at 2.
Defined.

Lemma insert_sorted_fmap {A B} (f : string * A → string * B) x l :
  (∀ kv, (f kv).1 = kv.1) →
  insert_sorted key_leb (f x) (f <$> l) = f <$> insert_sorted key_leb x l.
Proof.
  intros Hf. induction l as [|y l IH]; simpl; [done|].
  assert (key_leb (f x) (f y) = key_leb x y) as -> by (unfold key_leb; by rewrite !Hf).
  destruct (key_leb x y); simpl; [done|]. f_equal. exact IH.
Qed.

Lemma py_sorted_fmap {A B} (f : string * A → string * B) l :
  (∀ kv, (f kv).1 = kv.1) → py_sorted key_leb (f <$> l) = f <$> py_sorted key_leb l.
Proof.
  intros Hf. induction l as [|x l IH]; [done|].
  change (insert_sorted key_leb (f x) (py_sorted key_leb (f <$> l)) =
          f <$> insert_sorted key_leb x (py_sorted key_leb l)).
  rewrite IH. by apply insert_sorted_fmap.
Qed.

(** Sorting the members first does not change the canonical text. *)
Lemma jnorm_sort_payload p : jnorm (JObj (sort_payload p)) = jnorm (JObj p).
Proof.
  simpl. f_equal. unfold sort_payload. rewrite !py_sorted_fmap by done.
  f_equal. apply py_sorted_idem, key_leb_total.
Qed.

Lemma new_EventDraft_valid d d' : new_EventDraft d = Ok d' → EventDraft_valid d'.
Proof.
  unfold EventDraft_valid, new_EventDraft. intros H. py_inv.
  py_bool. unfold EventDraft_ok in *. simpl.
  assert (zlen (sort_payload (ed_payload d)) = zlen (ed_payload d)) as ->.
  { unfold zlen, sort_payload. by rewrite (py_sorted_perm key_leb (ed_payload d)). }
  assert (canonical_json (JObj (sort_payload (ed_payload d))) = canonical_json (JObj (ed_payload d)))
    as -> by (unfold canonical_json; by rewrite jnorm_sort_payload).
  rewrite H0. simpl. f_equal. f_equal. apply py_sorted_idem, key_leb_total.
Qed.

Lemma EventDraft_valid_sorted d : EventDraft_valid d → sort_payload (ed_payload d) = ed_payload d.
Proof.
  unfold EventDraft_valid, new_EventDraft. intros H. py_inv. by rewrite <-H at 2.
Qed.

(** ** Appended batches *)

Section batches.
Context {HDigest : Digest}.

Lemma draft_of_built t aty aid seq cur ah th d e :
  build_event t aty aid seq cur ah th d = Ok e →
  draft_of_event e = d ∧ ev_tenant_id e = t ∧ ev_aggregate_type e = aty ∧
  ev_aggregate_id e = aid ∧ ev_aggregate_sequence e = seq ∧ ev_tenant_cursor e = cur ∧
  ev_aggregate_previous_hash e = ah ∧ ev_tenant_previous_hash e = th ∧
  ev_record_hash e = hexdigest (event_material t aty aid seq cur d ah th).
Proof.
  unfold build_event, new_ApplicationEvent. intros H. py_inv. by destruct d.
Qed.

(** The verifier accepts an event built on its own heads. *)
Lemma verify_step_built v t aty aid seq cur ah th d e :
  build_event t aty aid (seq + 1) (cur + 1) ah th d = Ok e →
  default no_aggregate_head (v_aggregate_heads v !! (aty, aid)) = {| ah_sequence := seq; ah_record_hash := ah |} →
  v_tenant_head v = {| th_cursor := cur; th_record_hash := th |} →
  EventDraft_valid d → ed_schema_version d = 1 → ed_event_id d ∉ v_seen v →
  verify_step v e = Ok (Some {|
    v_aggregate_heads := <[(aty, aid) := {| ah_sequence := seq + 1; ah_record_hash := ev_record_hash e |}]>
      (v_aggregate_heads v);
    v_tenant_head := {| th_cursor := cur + 1; th_record_hash := ev_record_hash e |};
    v_seen := {[ed_event_id d]} ∪ v_seen v |}).
Proof.
  intros Hb Hah Hth Hd Hsv Hseen.
  apply draft_of_built in Hb as (Hde & Ht & Hty & Hid & Hseq & Hcur & Hap & Htp & Hrh).
  unfold verify_step, expected_hash.
  rewrite Hde, Hd. cbn [mbind res_bind].
  assert (ev_schema_version e = 1) as -> by (by rewrite <-Hsv, <-Hde).
  assert (ev_event_id e = ed_event_id d) as -> by (by rewrite <-Hde).
  rewrite Ht, Hty, Hid, Hseq, Hcur, Hap, Htp, Hah, Hth. cbn [ah_sequence ah_record_hash th_cursor th_record_hash].
  rewrite !Z.eqb_refl, Hrh. cbn [negb orb].
  rewrite !bool_decide_eq_false_2 by (done || (intros ?; done)). done.
Qed.

Lemma build_events_all drafts : ∀ t aty aid seq cur ah th es,
  build_events t aty aid seq cur ah th drafts = Ok es →
  Forall (λ e, ev_tenant_id e = t ∧ ev_aggregate_type e = aty ∧ ev_aggregate_id e = aid) es ∧
  draft_of_event <$> es = drafts.
Proof.
  induction drafts as [|d drafts IH]; intros t aty aid seq cur ah th es Hb;
    cbn [build_events] in Hb; py_inv; [done|].
  pose proof (draft_of_built _ _ _ _ _ _ _ _ _ H) as (Hde & ? & ? & ? & _).
  apply IH in H0 as [Hall Hds]. split; [by constructor|]. simpl. by rewrite Hde, Hds.
Qed.

(** Where the chain stands after a batch. *)
Lemma verify_events_built drafts : ∀ v t aty aid seq cur ah th es,
  build_events t aty aid seq cur ah th drafts = Ok es →
  default no_aggregate_head (v_aggregate_heads v !! (aty, aid)) = {| ah_sequence := seq; ah_record_hash := ah |} →
  v_tenant_head v = {| th_cursor := cur; th_record_hash := th |} →
  Forall EventDraft_valid drafts → Forall (λ d, ed_schema_version d = 1) drafts →
  NoDup (ed_event_id <$> drafts) → Forall (λ d, ed_event_id d ∉ v_seen v) drafts →
  ∃ v', verify_events v es = Ok (Some v') ∧
    (∀ x, x ∈ v_seen v' ↔ x ∈ ed_event_id <$> drafts ∨ x ∈ v_seen v) ∧
    (∀ key, key ≠ (aty, aid) → v_aggregate_heads v' !! key = v_aggregate_heads v !! key) ∧
    (∀ tail, last es = Some tail →
       v_aggregate_heads v' !! (aty, aid) = Some {| ah_sequence := ev_aggregate_sequence tail;
                                                 ah_record_hash := ev_record_hash tail |} ∧
       v_tenant_head v' = {| th_cursor := ev_tenant_cursor tail; th_record_hash := ev_record_hash tail |}).
Proof.
  induction drafts as [|d drafts IH]; intros v t aty aid seq cur ah th es Hb Hah Hth Hv Hs Hnd Hfr.
  - cbn [build_events] in Hb. simplify_eq. exists v. split_and!; [done| |done|done]. set_solver.
  - cbn [build_events] in Hb. py_inv. rename x into e, x0 into es, H into He, H0 into Hes.
    inversion_clear Hv as [|?? Hd Hv']. inversion_clear Hs as [|?? Hd1 Hs'].
    inversion_clear Hnd as [|?? Hni Hnd']. inversion_clear Hfr as [|?? Hf Hfr'].
    pose proof (verify_step_built v _ _ _ _ _ _ _ _ _ He Hah Hth Hd Hd1 Hf) as Hstep.
    pose proof (draft_of_built _ _ _ _ _ _ _ _ _ He) as (Hde & _ & _ & _ & Hseq & Hcur & _).
    set (v1 := {| v_aggregate_heads := _ |}) in Hstep.
    edestruct (IH v1) as (v' & Hv1 & Hseen & Hother & Htail); [exact Hes|..].
    + unfold v1. simpl. by rewrite lookup_insert_eq.
    + done.
    + done.
    + done.
    + done.
    + apply Forall_forall. intros d' Hd'. unfold v1. simpl.
      rewrite Forall_forall in Hfr'. specialize (Hfr' d' Hd').
      assert (ed_event_id d' ≠ ed_event_id d); [|set_solver].
      intros E. apply Hni. rewrite <-E. apply list_elem_of_fmap. eauto.
    + exists v'. cbn [verify_events]. rewrite Hstep. cbn [mbind res_bind].
      split_and!; [done| | |].
      * intros x. rewrite Hseen. unfold v1. simpl. set_solver.
      * intros key Hk. rewrite Hother by done. unfold v1. simpl. by rewrite lookup_insert_ne.
      * intros tail Hl. destruct es as [|e2 es].
        -- simpl in Hl. simplify_eq. apply build_events_all in Hes as [_ Hes]. subst drafts.
           cbn [verify_events] in Hv1. injection Hv1 as <-. unfold v1. simpl.
           by rewrite lookup_insert_eq, Hseq, Hcur.
        -- apply Htail. by destruct es.
Qed.

Lemma verify_events_app v l1 l2 :
  verify_events v (l1 ++ l2) =
  (o ← verify_events v l1; match o with None => Ok None | Some v' => verify_events v' l2 end).
Proof.
  revert v. induction l1 as [|e l1 IH]; intros v; simpl; [done|].
  destruct (verify_step v e) as [[v'|]|]; simpl; [apply IH|done|done].
Qed.
End batches.

(** ** The reducer *)

Lemma reduce_run_version current e r :
  reduce_run current e = Ok r →
  rv_version r = ev_aggregate_sequence e ∧ rv_replayed r = false ∧
  rv_last_cursor r = ev_tenant_cursor e ∧
  rv_tenant_id r = match current with Some c => rv_tenant_id c | None => ev_tenant_id e end.
Proof.
  unfold reduce_run. intros H. py_inv. destruct current; py_inv; done.
Qed.

(** What the reducer changes when a run exists: the status moves along the machine, the
    identifying fields stay. *)
Lemma reduce_run_some c e r :
  reduce_run (Some c) e = Ok r →
  rv_status r ∈ allowed_run_transitions (rv_status c) ∧
  ev_aggregate_sequence e = rv_version c + 1 ∧
  rv_run_id r = rv_run_id c ∧ rv_incident_id r = rv_incident_id c ∧
  rv_request_ref r = rv_request_ref c ∧ rv_workflow_id r = rv_workflow_id c ∧
  rv_created_at r = rv_created_at c.
Proof.
  unfold reduce_run, _validate_run_transition. intros H. py_inv.
  py_bool. done.
Qed.

Lemma reduce_run_none e r :
  reduce_run None e = Ok r →
  ev_event_type e = "investigation.requested" ∧ rv_status r = QUEUED.
Proof.
  unfold reduce_run. intros H. py_inv. py_bool.
  match goal with E : ev_event_type e = _ |- _ => rewrite E in * end.
  by repeat match goal with E : _ = Ok x |- _ => vm_compute in E; injection E as <- end.
Qed.

(** The fold that rebuilds one run from a tenant's events *)
Definition replay_run (l : list ApplicationEvent) (run_id : string) : res (option RunView) :=
  foldM reduce_opt None (List.filter (is_run_event run_id) l).

Definition delivery_ok (k : string * string * string) (r : DeliveryRecord) : Prop :=
  k = (dr_tenant_id r, dr_direction r, dr_message_id r) ∧
  0 <= dr_attempts r <= _MAX_DELIVERY_ATTEMPTS ∧
  (dr_status r = PENDING → dr_attempts r < _MAX_DELIVERY_ATTEMPTS) ∧
  (dr_status r = CLAIMED → 1 <= dr_attempts r ∧ is_Some (dr_claim_token r) ∧ is_Some (dr_claim_until r)).

Definition deliveries_ok (st : store) : Prop :=
  ∀ k r, _deliveries st !! k = Some r → delivery_ok k r.

(** The idempotency table names stored runs. *)
Definition idempotency_ok (st : store) : Prop :=
  ∀ k r, _idempotency st !! k = Some r → is_Some (_runs st !! (k.1, ir_run_id r)).

Section invariant.
Context {HDigest : Digest}.

(** [v] is where the verifier stands after the tenant's events, and where the heads of
    the store stand. *)
Definition chain_at (st : store) (t : string) (v : verifier) : Prop :=
  verify_events verifier_init (tenant_events st t) = Ok (Some v) ∧
  v_tenant_head v = tenant_head_of st t ∧
  (∀ aty aid, default no_aggregate_head (v_aggregate_heads v !! (aty, aid)) =
              aggregate_head_of st (t, aty, aid)) ∧
  (∀ id, id ∈ v_seen v ↔ (t, id) ∈ _event_ids st).

Record core_inv (st : store) : Prop := {
  inv_chain t : ∃ v, chain_at st t v;
  inv_tenant t : Forall (λ e, ev_tenant_id e = t) (tenant_events st t);
  inv_runs t id : replay_run (tenant_events st t) id = Ok (_runs st !! (t, id));
  inv_deliveries : deliveries_ok st
}.

Definition store_inv (st : store) : Prop := core_inv st ∧ idempotency_ok st.

Lemma empty_store_inv : store_inv empty_store.
Proof.
  split; [|done]. split; try done. intros t. exists verifier_init. split_and!; done.
Qed.

(** ** Append *)

(** A batch the constructor validated, in the only schema version the verifiers accept *)
Definition valid_batch (drafts : list EventDraft) : Prop :=
  Forall EventDraft_valid drafts ∧ Forall (λ d, ed_schema_version d = 1) drafts.

Lemma append_locked_run t aty aid ver drafts outbox inbox st :
  match _append_locked t aty aid ver drafts outbox inbox st with
  | (Raise _, st') => st' = st
  | (Ok es, st') => ∃ tail projected,
      append_guards st t (t, aty, aid) ver drafts outbox inbox = Ok () ∧
      build_events t aty aid ver (th_cursor (tenant_head_of st t))
        (ah_record_hash (aggregate_head_of st (t, aty, aid)))
        (th_record_hash (tenant_head_of st t)) drafts = Ok es ∧
      foldM (project_step (_runs st)) ∅ es = Ok projected ∧ last es = Some tail ∧
      st' = commit_append t (t, aty, aid) es tail projected outbox inbox st
  end.
Proof.
  unfold _append_locked, get, lift, modify, mbind, M_bind, mret, M_ret.
  destruct (append_guards _ _ _ _ _ _ _) as [[]|] eqn:Hg; [|done].
  destruct (build_events _ _ _ _ _ _ _ _) as [es|] eqn:Hb; [|done].
  destruct (foldM _ _ _) as [projected|] eqn:Hp; [|done].
  destruct (last es) as [tail|] eqn:Hl; [|done].
  simpl. exists tail, projected. done.
Qed.

Lemma append_locked_atomic t aty aid ver drafts outbox inbox :
  atomic (_append_locked t aty aid ver drafts outbox inbox).
Proof.
  intros st e st' H.
  pose proof (append_locked_run t aty aid ver drafts outbox inbox st) as Hr.
  by rewrite H in Hr.
Qed.

Lemma append_guards_ok st t key ver drafts outbox inbox :
  append_guards st t key ver drafts outbox inbox = Ok () →
  ah_sequence (aggregate_head_of st key) = ver ∧ NoDup (ed_event_id <$> drafts) ∧
  Forall (λ d, (t, ed_event_id d) ∉ _event_ids st) drafts.
Proof.
  unfold append_guards. intros H. py_inv. unfold no_dups in *. py_bool.
  split_and!; [done|done|]. apply Forall_forall. intros d Hd Hin.
  eapply existsb_false in Hd; [|done]. by apply bool_decide_eq_false in Hd.
Qed.

Lemma append_guards_fresh st t key ver drafts outbox inbox :
  append_guards st t key ver drafts outbox inbox = Ok () →
  Forall (λ m, _deliveries st !! (t, "outbox", od_message_id m) = None) outbox ∧
  Forall (λ m, _deliveries st !! (t, "inbox", in_message_id m) = None) inbox.
Proof.
  unfold append_guards. intros H. py_inv.
  split; apply Forall_forall; intros m Hm; apply eq_None_not_Some;
    match goal with E : existsb _ ?l = false, Hin : m ∈ ?l |- _ =>
      pose proof (existsb_false _ _ _ E Hin) as H'; by apply bool_decide_eq_false in H' end.
Qed.

Lemma lookup_union_match {K V} `{Countable K} (m1 m2 : gmap K V) k :
  (m1 ∪ m2) !! k = match m1 !! k with Some x => Some x | None => m2 !! k end.
Proof. rewrite lookup_union. by destruct (m1 !! k), (m2 !! k). Qed.

Lemma project_fold runs t aty aid es : ∀ proj proj',
  Forall (λ e, ev_tenant_id e = t ∧ ev_aggregate_type e = aty ∧ ev_aggregate_id e = aid) es →
  foldM (project_step runs) proj es = Ok proj' →
  (∀ k, k ≠ (t, aid) → proj' !! k = proj !! k) ∧
  (aty ≠ "investigation" → proj' = proj) ∧
  (aty = "investigation" →
     foldM reduce_opt ((proj ∪ runs) !! (t, aid)) es = Ok ((proj' ∪ runs) !! (t, aid))).
Proof.
  induction es as [|e es IH]; intros proj proj' Hall Hf; simpl in Hf; [by simplify_eq|].
  inversion_clear Hall as [|?? (Ht & Hty & Hid) Hall'].
  apply res_bind_ok in Hf as (proj1 & Hstep & Hf).
  destruct (IH _ _ Hall' Hf) as (IH1 & IH2 & IH3). clear IH Hf.
  unfold project_step in Hstep. rewrite Ht, Hty, Hid in Hstep.
  destruct (decide (aty ≠ "investigation")) as [Hne|Heq%dec_stable].
  - simplify_eq. split_and!; [done|auto|done].
  - apply res_bind_ok in Hstep as (r & Hr & Hstep). injection Hstep as <-.
    split_and!; [|done|].
    + intros k Hk. rewrite IH1, lookup_insert_ne by done. done.
    + intros _. cbn [foldM].
      assert (reduce_opt ((proj ∪ runs) !! (t, aid)) e = Ok (Some r)) as ->.
      { unfold reduce_opt. by rewrite lookup_union_match, Hr. }
      simpl. rewrite <-IH3 by done. f_equal.
      by rewrite lookup_union_match, lookup_insert_eq.
Qed.

Lemma filter_run_other aty aid id es :
  Forall (λ e, ev_aggregate_type e = aty ∧ ev_aggregate_id e = aid) es →
  List.filter (is_run_event id) es =
  if decide (aty = "investigation" ∧ aid = id) then es else [].
Proof.
  induction 1 as [|e es [Hty Hid] Hes IH]; simpl; [by case_decide|].
  unfold is_run_event at 1. rewrite Hty, Hid, IH. clear.
  repeat case_decide; repeat case_bool_decide; naive_solver.
Qed.

Lemma list_filter_app {A} (f : A → bool) l1 l2 :
  List.filter f (l1 ++ l2) = List.filter f l1 ++ List.filter f l2.
Proof. induction l1 as [|x l1 IH]; simpl; [done|]. rewrite IH. by destruct (f x). Qed.

Lemma tenant_events_commit t key es tail proj outbox inbox st t' :
  tenant_events (commit_append t key es tail proj outbox inbox st) t' =
  if decide (t = t') then tenant_events st t' ++ es else tenant_events st t'.
Proof.
  unfold tenant_events, commit_append. simpl. rewrite lookup_insert.
  case_decide; [by subst|done].
Qed.

Lemma commit_chain st t aty aid ver drafts es tail proj outbox inbox :
  core_inv st → valid_batch drafts →
  append_guards st t (t, aty, aid) ver drafts outbox inbox = Ok () →
  build_events t aty aid ver (th_cursor (tenant_head_of st t))
    (ah_record_hash (aggregate_head_of st (t, aty, aid)))
    (th_record_hash (tenant_head_of st t)) drafts = Ok es →
  last es = Some tail →
  ∀ t', ∃ v, chain_at (commit_append t (t, aty, aid) es tail proj outbox inbox st) t' v.
Proof.
  intros Hinv [Hval Hver] Hg Hb Hl t'.
  apply append_guards_ok in Hg as (Hseq & Hnd & Hfresh).
  destruct (inv_chain _ Hinv t') as (v & Hv & Hth & Hah & Hseen).
  destruct (decide (t = t')) as [<-|Hne].
  - destruct (verify_events_built drafts v t aty aid ver _ _ _ es Hb)
      as (v' & Hv' & Hseen' & Hother & Htail).
    + rewrite Hah, <-Hseq. by destruct (aggregate_head_of st _).
    + rewrite Hth. by destruct (tenant_head_of st t).
    + done.
    + done.
    + done.
    + eapply Forall_impl; [exact Hfresh|]. intros d Hd. by rewrite Hseen.
    + specialize (Htail tail Hl) as [Hta Htt]. exists v'. split_and!.
      * rewrite tenant_events_commit, decide_True by done.
        rewrite verify_events_app, Hv. simpl. done.
      * unfold tenant_head_of, commit_append. simpl. by rewrite lookup_insert_eq, Htt.
      * intros aty' aid'. unfold aggregate_head_of, commit_append. simpl.
        destruct (decide ((aty, aid) = (aty', aid'))) as [E|E].
        -- simplify_eq. by rewrite lookup_insert_eq, Hta.
        -- rewrite lookup_insert_ne by naive_solver. rewrite Hother by done. apply Hah.
      * intros id. rewrite Hseen'. unfold commit_append. simpl. rewrite Hseen.
        apply build_events_all in Hb as [_ <-].
        rewrite elem_of_union, elem_of_list_to_set, !list_elem_of_fmap. clear.
        split.
        -- intros [(x & -> & Hx)|Hin]; [|by right]. left.
           apply list_elem_of_fmap in Hx as (e & -> & He). exists e. done.
        -- intros [(e & [= ->] & He)|Hin]; [|by right]. left. exists (draft_of_event e).
           split; [done|]. apply list_elem_of_fmap. eauto.
  - exists v. unfold chain_at. rewrite tenant_events_commit, decide_False by done.
    unfold tenant_head_of, aggregate_head_of, commit_append in *. simpl.
    split_and!; [done| | |].
    + by rewrite lookup_insert_ne.
    + intros aty' aid'. rewrite lookup_insert_ne by naive_solver. apply Hah.
    + intros id. rewrite elem_of_union, elem_of_list_to_set, list_elem_of_fmap, Hseen. naive_solver.
Qed.

Lemma commit_runs st t aty aid ver ch ah th drafts es proj :
  core_inv st → build_events t aty aid ver ch ah th drafts = Ok es →
  foldM (project_step (_runs st)) ∅ es = Ok proj →
  ∀ t' id, replay_run (if decide (t = t') then tenant_events st t' ++ es else tenant_events st t') id
           = Ok ((proj ∪ _runs st) !! (t', id)).
Proof.
  intros Hinv Hb Hp t' id. apply build_events_all in Hb as [Hall _].
  destruct (project_fold _ _ _ _ _ _ _ Hall Hp) as (Hoth & Hnon & Hinvst).
  pose proof (inv_runs _ Hinv t' id) as Hr. unfold replay_run in *.
  assert (∀ k, proj !! k = None → (proj ∪ _runs st) !! k = _runs st !! k) as Hskip.
  { intros k Hk. by rewrite lookup_union_match, Hk. }
  destruct (decide (t = t')) as [<-|Hne].
  - rewrite list_filter_app, foldM_app, Hr. simpl.
    rewrite (filter_run_other aty aid).
    2:{ eapply Forall_impl; [exact Hall|]. naive_solver. }
    case_decide as Hd; simpl.
    + destruct Hd as [-> ->]. specialize (Hinvst eq_refl).
      by rewrite (left_id_L ∅ (∪)) in Hinvst.
    + f_equal. symmetry. apply Hskip. destruct (decide (aid = id)) as [<-|].
      * rewrite Hnon; [done|naive_solver].
      * rewrite Hoth; [done|naive_solver].
  - rewrite Hr. f_equal. symmetry. apply Hskip. rewrite Hoth; [done|naive_solver].
Qed.

Lemma commit_deliveries st t key es tail proj outbox inbox :
  deliveries_ok st → deliveries_ok (commit_append t key es tail proj outbox inbox st).
Proof.
  intros Hinv k r Hk. unfold commit_append in Hk. simpl in Hk.
  apply (foldl_insert_lookup (λ m, (t, "inbox", in_message_id m))) in Hk as [Hk|(m & _ & -> & ->)].
  - apply (foldl_insert_lookup (λ m, (t, "outbox", od_message_id m))) in Hk as [Hk|(m & _ & -> & ->)].
    + by apply Hinv.
    + unfold delivery_ok, outbox_record, _MAX_DELIVERY_ATTEMPTS. simpl. split_and!; try done; lia.
  - unfold delivery_ok, inbox_record, _MAX_DELIVERY_ATTEMPTS. simpl. split_and!; try done; lia.
Qed.

Lemma commit_inv st t aty aid ver drafts es tail proj outbox inbox :
  core_inv st → valid_batch drafts →
  append_guards st t (t, aty, aid) ver drafts outbox inbox = Ok () →
  build_events t aty aid ver (th_cursor (tenant_head_of st t))
    (ah_record_hash (aggregate_head_of st (t, aty, aid)))
    (th_record_hash (tenant_head_of st t)) drafts = Ok es →
  foldM (project_step (_runs st)) ∅ es = Ok proj → last es = Some tail →
  core_inv (commit_append t (t, aty, aid) es tail proj outbox inbox st).
Proof.
  intros Hinv Hval Hg Hb Hp Hl. split.
  - by eapply commit_chain.
  - intros t'. rewrite tenant_events_commit. pose proof (inv_tenant _ Hinv t') as Ht.
    case_decide as Heq; [|done]. apply Forall_app. split; [done|].
    apply build_events_all in Hb as [Hall _]. eapply Forall_impl; [exact Hall|]. naive_solver.
  - intros t' id. rewrite tenant_events_commit. unfold commit_append at 1. simpl.
    by eapply commit_runs.
  - apply commit_deliveries, (inv_deliveries _ Hinv).
Qed.

Lemma commit_idempotency st t key es tail proj outbox inbox :
  idempotency_ok st → idempotency_ok (commit_append t key es tail proj outbox inbox st).
Proof.
  intros Hid k r Hk. specialize (Hid k r Hk). unfold commit_append. simpl.
  rewrite lookup_union_match. destruct (proj !! _); eauto.
Qed.

Lemma append_locked_core t aty aid ver drafts outbox inbox :
  valid_batch drafts → preserves core_inv (_append_locked t aty aid ver drafts outbox inbox).
Proof.
  intros Hval st Hinv. pose proof (append_locked_run t aty aid ver drafts outbox inbox st) as Hr.
  destruct (_append_locked _ _ _ _ _ _ _ st) as [[es|e] st']; simpl; [|by subst].
  destruct Hr as (tail & proj & Hg & Hb & Hp & Hl & ->). by eapply commit_inv.
Qed.

Lemma append_locked_idempotency t aty aid ver drafts outbox inbox :
  preserves idempotency_ok (_append_locked t aty aid ver drafts outbox inbox).
Proof.
  intros st Hid. pose proof (append_locked_run t aty aid ver drafts outbox inbox st) as Hr.
  destruct (_append_locked _ _ _ _ _ _ _ st) as [[es|e] st']; simpl; [|by subst].
  destruct Hr as (tail & proj & _ & _ & _ & _ & ->). by apply commit_idempotency.
Qed.

Lemma append_locked_inv t aty aid ver drafts outbox inbox :
  valid_batch drafts → preserves store_inv (_append_locked t aty aid ver drafts outbox inbox).
Proof.
  intros Hval st [Hc Hi]. split; [by apply append_locked_core|by apply append_locked_idempotency].
Qed.
End invariant.
