(* ===== verification/LedgerOps.v ===== *)
(** * Every method of the store keeps the ledger invariant

    One lemma per mutating method of [InMemoryDurability], then the states the object can
    reach as a step relation and the invariant on all of them. *)

From S2P Require Import Prelude PyJson PyTime Domain Durability LedgerInvariant.

Section ops.
Context {HDigest : Digest}.

Lemma valid_batch_one d d' :
  new_EventDraft d = Ok d' → ed_schema_version d = 1 → valid_batch [d'].
Proof.
  intros H Hs. split; (constructor; [|done]).
  - by eapply new_EventDraft_valid.
  - unfold new_EventDraft in H. by py_inv.
Qed.

Lemma run_at_preserves I key : preserves I (run_at key).
Proof. by intros st Hst. Qed.

Lemma append_inv t aty aid ver drafts outbox inbox :
  valid_batch drafts → preserves store_inv (append t aty aid ver drafts outbox inbox).
Proof. intros. apply preserves_bind_lift. intros. by apply append_locked_inv. Qed.

(** ** Commands *)

Lemma record_transition_inv t run_id ety op actor req fc attrs now :
  preserves store_inv (record_transition t run_id ety op actor req fc attrs now).
Proof.
  apply preserves_bind_get. intros st. cbv zeta.
  destruct (_runs st !! (t, run_id)) as [current|]; [|apply preserves_lift].
  case_decide; [apply preserves_ret|].
  apply preserves_bind_lift. intros draft Hd.
  apply preserves_bind; [|intros; apply run_at_preserves].
  apply append_locked_inv. by eapply valid_batch_one.
Qed.

Lemma accept_signal_inv identity command now1 now2 :
  preserves store_inv (accept_signal identity command now1 now2).
Proof.
  apply preserves_bind_get. intros st. cbv zeta.
  destruct (_runs st !! (ic_tenant_id identity, sc_run_id command)) as [current|];
    [|apply preserves_lift].
  destruct (_deliveries st !! (ic_tenant_id identity, "inbox", sc_command_id command)).
  { apply preserves_bind_lift. intros. apply preserves_ret. }
  apply preserves_bind_lift. intros _ _.
  apply preserves_bind_lift. intros inbox _. apply preserves_bind_lift. intros outbox _.
  apply preserves_bind_lift. intros draft Hd.
  apply preserves_bind; [|intros; apply run_at_preserves].
  apply append_locked_inv. by eapply valid_batch_one.
Qed.

Lemma core_inv_set_idempotency f st : core_inv st → core_inv (set_idempotency f st).
Proof. intros [H1 H2 H3 H4]. by split. Qed.

Lemma accept_run_drafts_valid identity request wait now d o :
  accept_run_drafts identity request wait now = Ok (d, o) → valid_batch [d].
Proof.
  unfold accept_run_drafts. intros H. apply res_bind_ok in H as (tr & _ & H).
  apply res_bind_ok in H as (d' & Hd & H). apply res_bind_ok in H as (o' & _ & H).
  injection H as -> ->. by eapply valid_batch_one.
Qed.

(** A one-event append to a run leaves the run stored. *)
Lemma append_one_run t aid ver d outbox inbox st es st' :
  _append_locked t "investigation" aid ver [d] outbox inbox st = (Ok es, st') →
  is_Some (_runs st' !! (t, aid)).
Proof.
  intros H. pose proof (append_locked_run t "investigation" aid ver [d] outbox inbox st) as Hr.
  rewrite H in Hr. destruct Hr as (tail & proj & _ & Hb & Hp & Hl & ->).
  apply build_events_all in Hb as [Hall Hds].
  destruct (project_fold _ _ _ _ _ _ _ Hall Hp) as (_ & _ & Hf). specialize (Hf eq_refl).
  destruct es as [|e [|]]; [done| |done]. cbn [foldM] in Hf.
  apply res_bind_ok in Hf as (o & Ho & Hf). simpl in Hf. injection Hf as Hf.
  unfold commit_append. simpl. rewrite <-Hf.
  unfold reduce_opt in Ho. destruct (reduce_run _ e); simpl in Ho; [|done]. injection Ho as <-. eauto.
Qed.

Lemma accept_run_inv identity request wait now :
  preserves store_inv (accept_run identity request wait now).
Proof.
  intros st [Hc Hi]. unfold accept_run, get, mbind, M_bind, modify, on_raise, lift.
  set (key := (ic_tenant_id identity, ic_request_id identity)).
  destruct (_idempotency st !! key) as [existing|] eqn:Hk.
  { destruct (raise_if _ _ _); [|done]. unfold run_at, get, lift, mbind, M_bind, mret, M_ret.
    by destruct (of_option _ _ _). }
  destruct (accept_run_drafts identity request wait now) as [[d o]|] eqn:Hd; [|done].
  pose proof (accept_run_drafts_valid _ _ _ _ _ _ Hd) as Hval.
  set (rec := {| ir_fingerprint := _; ir_run_id := _ |}).
  set (st1 := set_idempotency (insert key rec) st). cbn [fst snd].
  pose proof (append_locked_core (ic_tenant_id identity) "investigation" (run_id_of identity request)
                0 [d] [o] [] Hval st1 (core_inv_set_idempotency _ _ Hc)) as Hcore.
  pose proof (append_locked_run (ic_tenant_id identity) "investigation" (run_id_of identity request)
                0 [d] [o] [] st1) as Hrun.
  destruct (_append_locked _ _ _ _ _ _ _ st1) as [[es|e] st2] eqn:Happ.
  - apply append_one_run in Happ as Hsome.
    assert (store_inv st2) as Hst2; [|by apply run_at_preserves].
    split; [done|]. destruct Hrun as (tail & proj & _ & _ & _ & _ & ->).
    intros k r Hkr. unfold commit_append, st1 in *. simpl in *.
    rewrite lookup_insert in Hkr. case_decide as E; simplify_eq; [done|].
    specialize (Hi k r Hkr). rewrite lookup_union_match. destruct (proj !! (k.1, ir_run_id r)); eauto.
  - simpl. subst st2. split; [by apply core_inv_set_idempotency, core_inv_set_idempotency|].
    intros k r Hkr. unfold st1, set_idempotency in *. simpl in *.
    rewrite delete_insert_id in Hkr by done. by apply Hi.
Qed.

Lemma legacy_drafts_valid upcast t aid actor corr legacy : ∀ i ds,
  legacy_drafts upcast t aid actor corr i legacy = Ok ds → valid_batch ds.
Proof.
  induction legacy as [|item legacy IH]; intros i ds H; cbn [legacy_drafts] in H;
    [by injection H as <-|].
  destruct (upcast item) as [ety p].
  apply res_bind_ok in H as (d & Hd & H). apply res_bind_ok in H as (rest & Hr & H).
  injection H as <-. apply valid_batch_one in Hd as [Hd1 Hd2]; [|done].
  apply IH in Hr as [Hr1 Hr2]. inversion_clear Hd1. inversion_clear Hd2. split; by constructor.
Qed.

Lemma replay_legacy_inv upcast t aid actor corr legacy :
  preserves store_inv (replay_legacy upcast t aid actor corr legacy).
Proof.
  apply preserves_bind_lift. intros ds Hds. by eapply append_inv, legacy_drafts_valid.
Qed.

(** ** The outbox *)

Lemma store_inv_set_deliveries f st :
  store_inv st → (∀ k r, f (_deliveries st) !! k = Some r → delivery_ok k r) →
  store_inv (set_deliveries f st).
Proof. intros [[H1 H2 H3 H4] H5] H. split; [by split|done]. Qed.

Definition outbox_key (r : DeliveryRecord) : string * string * string :=
  (dr_tenant_id r, "outbox", dr_message_id r).

Lemma claim_fold_ok worker until l : ∀ d claims,
  (∀ k r, d !! k = Some r → delivery_ok k r) →
  Forall (λ r, delivery_ok (outbox_key r) r) l →
  ∀ k r, (foldl (claim_step worker until) (d, claims) l).1 !! k = Some r → delivery_ok k r.
Proof.
  induction l as [|x l IH]; intros d claims Hd Hl; [done|].
  inversion_clear Hl as [|?? Hx Hl']. simpl.
  destruct Hx as (Hkey & Hatt & _). unfold outbox_key in Hkey.
  assert (dr_direction x = "outbox") as Hdir by congruence. clear Hkey.
  destruct (Z.ltb_spec _MAX_DELIVERY_ATTEMPTS (dr_attempts x + 1)); apply IH; try done;
    intros k r Hk; rewrite lookup_insert in Hk; case_decide; simplify_eq; auto;
    unfold delivery_ok; simpl; rewrite Hdir; split_and!; try done; try lia.
  intros _. split_and!; [lia|eauto|eauto].
Qed.

Lemma candidates_are_stored st t now limit r :
  deliveries_ok st →
  r ∈ outbox_candidates st t now limit →
  _deliveries st !! outbox_key r = Some r ∧ outbox_candidate t now (outbox_key r) r = true.
Proof.
  intros Hinv Hr. unfold outbox_candidates, ztake in Hr.
  apply subseteq_take in Hr as Hi.
  rewrite py_sorted_perm in Hi. apply list_elem_of_fmap in Hi as ([k r'] & -> & Hk).
  apply list_elem_of_In, filter_In in Hk as [Hk Hc]. simpl in *.
  apply list_elem_of_In, elem_of_map_to_list in Hk.
  pose proof (Hinv _ _ Hk) as (Hkey & _).
  assert (k = outbox_key r') as E.
  { unfold outbox_key. unfold outbox_candidate in Hc. py_bool. subst k. simpl in *. congruence. }
  by rewrite <-E.
Qed.

Lemma claim_outbox_inv t worker now until limit :
  preserves store_inv (claim_outbox t worker now until limit).
Proof.
  apply preserves_bind_lift. intros _ _ st Hst.
  unfold get, mbind, M_bind, modify, mret, M_ret.
  destruct (foldl _ _ _) as [d claims] eqn:Hf. simpl.
  apply store_inv_set_deliveries; [done|]. intros k r Hk.
  apply (claim_fold_ok worker until (outbox_candidates st t now limit) (_deliveries st) []).
  - apply Hst.
  - apply Forall_forall. intros x Hx. apply candidates_are_stored in Hx as [Hx _]; [|apply (inv_deliveries _ (proj1 Hst))].
    by apply (inv_deliveries _ (proj1 Hst)).
  - by rewrite Hf.
Qed.

Lemma update_claim_inv claim status code retry :
  status ≠ CLAIMED → (status = PENDING → dc_attempt claim < _MAX_DELIVERY_ATTEMPTS) →
  preserves store_inv (_update_claim claim status code retry).
Proof.
  intros Hns Hp st Hst. unfold _update_claim, get, mbind, M_bind.
  destruct (_deliveries st !! (dc_tenant_id claim, "outbox", dc_message_id claim))
    as [record|] eqn:Hk; [|done].
  unfold lift, raise_if. destruct (_ || _) eqn:Hg; [done|]. simpl.
  apply store_inv_set_deliveries; [done|]. intros k r Hr.
  rewrite lookup_insert in Hr. case_decide; [|by apply (inv_deliveries _ (proj1 Hst))].
  simplify_eq. py_bool.
  destruct (inv_deliveries _ (proj1 Hst) _ _ Hk) as (Hkey & Hatt & _).
  unfold delivery_ok. simpl. rewrite Hkey. split_and!; try done; try lia.
  intros ->. specialize (Hp eq_refl). lia.
Qed.

Lemma complete_outbox_inv claim : preserves store_inv (complete_outbox claim).
Proof. by apply update_claim_inv. Qed.

Lemma fail_outbox_inv claim code retry permanent :
  preserves store_inv (fail_outbox claim code retry permanent).
Proof.
  apply update_claim_inv; destruct permanent; simpl; try done;
    destruct (Z.leb_spec _MAX_DELIVERY_ATTEMPTS (dc_attempt claim)); done.
Qed.

(** ** Rebuilds *)

Lemma verify_integrity_ok st t : core_inv st → verify_integrity st t = Ok true.
Proof.
  intros Hinv. destruct (inv_chain _ Hinv t) as (v & Hv & _).
  unfold verify_integrity. rewrite Hv. done.
Qed.

Lemma set_runs_id f st : f (_runs st) = _runs st → set_runs f st = st.
Proof. intros H. unfold set_runs. rewrite H. by destruct st. Qed.

(** [rebuild_run] recomputes the stored view and changes nothing. *)
Lemma rebuild_run_stored st t run_id r :
  core_inv st → _runs st !! (t, run_id) = Some r → rebuild_run t run_id st = (Ok r, st).
Proof.
  intros Hinv Hr. pose proof (inv_runs _ Hinv t run_id) as Hf. rewrite Hr in Hf.
  unfold replay_run in Hf.
  unfold rebuild_run, get, mbind, M_bind, lift. rewrite verify_integrity_ok by done. simpl.
  destruct (List.filter (is_run_event run_id) (tenant_events st t)) as [|e l] eqn:E; [done|].
  simpl raise_if. cbn [bool_decide]. rewrite Hf. simpl. unfold modify, mret, M_ret.
  f_equal. apply set_runs_id. by apply insert_id.
Qed.

Lemma rebuild_run_missing st t run_id :
  core_inv st → _runs st !! (t, run_id) = None → ∃ e, rebuild_run t run_id st = (Raise e, st).
Proof.
  intros Hinv Hr. pose proof (inv_runs _ Hinv t run_id) as Hf. rewrite Hr in Hf.
  unfold replay_run in Hf.
  unfold rebuild_run, get, mbind, M_bind, lift. rewrite verify_integrity_ok by done. simpl.
  destruct (List.filter (is_run_event run_id) (tenant_events st t)) as [|e l] eqn:E; simpl; [eauto|].
  simpl in Hf. rewrite Hf. eauto.
Qed.

Lemma rebuild_run_inv t run_id : preserves store_inv (rebuild_run t run_id).
Proof.
  intros st Hst. destruct (_runs st !! (t, run_id)) as [r|] eqn:Hr.
  - by rewrite (rebuild_run_stored _ _ _ r) by (done || apply Hst).
  - by destruct (rebuild_run_missing st t run_id) as [e ->]; [apply Hst|done|].
Qed.

Lemma set_runs_twice f g st : set_runs f (set_runs g st) = set_runs (λ r, f (g r)) st.
Proof. done. Qed.

Lemma set_runs_const runs f st : _runs (set_runs f st) = runs → set_runs f st = set_runs (λ _, runs) st.
Proof. intros H. unfold set_runs in *. simpl in *. by rewrite H. Qed.

(** The projection loop succeeds when every run replays, and computes the replays. *)
Lemma apply_projection_run t l : ∀ st,
  Forall (λ e, ev_tenant_id e = t) l →
  (∀ id, ∃ o, foldM reduce_opt (_runs st !! (t, id)) (List.filter (is_run_event id) l) = Ok o) →
  ∃ runs', _apply_projection_locked l st = (Ok (), set_runs (λ _, runs') st) ∧
    (∀ id, foldM reduce_opt (_runs st !! (t, id)) (List.filter (is_run_event id) l)
           = Ok (runs' !! (t, id))) ∧
    (∀ k, k.1 ≠ t → runs' !! k = _runs st !! k).
Proof.
  induction l as [|e l IH]; intros st Ht Hok.
  { exists (_runs st). split_and!; try done. unfold mret, M_ret. simpl. f_equal.
    symmetry. by apply set_runs_id. }
  inversion_clear Ht as [|?? He Ht']. cbn [_apply_projection_locked].
  unfold get, mbind, M_bind, lift, modify. unfold apply_event at 1.
  destruct (decide (ev_aggregate_type e ≠ "investigation")) as [Hne|Heq%dec_stable].
  - assert (∀ id, List.filter (is_run_event id) (e :: l) = List.filter (is_run_event id) l) as Hskip.
    { intros id. simpl. unfold is_run_event at 1. by rewrite bool_decide_eq_false_2. }
    setoid_rewrite Hskip in Hok. rewrite set_runs_id by done.
    destruct (IH st Ht' Hok) as (runs' & -> & Hr & Ho). exists runs'.
    split_and!; [done| |done]. intros id. by rewrite Hskip.
  - assert (∀ id, List.filter (is_run_event id) (e :: l) =
      (if decide (ev_aggregate_id e = id) then [e] else []) ++ List.filter (is_run_event id) l) as Hcase.
    { intros id. simpl. unfold is_run_event at 1. rewrite bool_decide_eq_true_2 by done. simpl.
      repeat case_bool_decide; case_decide; try done. }
    rewrite He. destruct (Hok (ev_aggregate_id e)) as [o Ho].
    rewrite Hcase, decide_True in Ho by done. cbn [app foldM] in Ho.
    apply res_bind_ok in Ho as (o1 & Hred & Ho). unfold reduce_opt at 1 in Hred.
    destruct (reduce_run (_runs st !! (t, ev_aggregate_id e)) e) as [r|] eqn:Hr; [|done].
    cbn [fmap res_fmap] in Hred. injection Hred as <-. cbn [mbind res_bind].
    set (runs1 := <[(t, ev_aggregate_id e) := r]> (_runs st)).
    assert (∀ id, foldM reduce_opt (runs1 !! (t, id)) (List.filter (is_run_event id) l) =
                  foldM reduce_opt (_runs st !! (t, id)) (List.filter (is_run_event id) (e :: l))) as Hstep.
    { assert (reduce_opt (_runs st !! (t, ev_aggregate_id e)) e = Ok (Some r)) as Hro
        by (unfold reduce_opt; by rewrite Hr).
      intros id. rewrite Hcase. unfold runs1. rewrite lookup_insert. case_decide as E.
      - injection E as <-. rewrite decide_True by done. cbn [app foldM]. by rewrite Hro.
      - rewrite decide_False by naive_solver. done. }
    destruct (IH (set_runs (λ _, runs1) st) Ht') as (runs' & Heval & Hr' & Ho').
    { intros id. simpl. rewrite Hstep. apply Hok. }
    rewrite Heval. exists runs'. split_and!; [done| |].
    + intros id. rewrite <-Hstep. apply Hr'.
    + intros k Hk. rewrite Ho' by done. simpl. unfold runs1. rewrite lookup_insert_ne; [done|].
      destruct k; simpl in *; congruence.
Qed.

(** Rebuilding a tenant's projections recomputes the run table and only moves the
    checkpoint. *)
Lemma rebuild_run_projections_run st t :
  core_inv st → ∃ cp,
  rebuild_run_projections t st =
    (Ok cp, set_checkpoints (insert (t, "investigation-runs") cp) st) ∧
  pc_last_cursor cp = th_cursor (tenant_head_of st t) ∧
  pc_last_event_hash cp = th_record_hash (tenant_head_of st t).
Proof.
  intros Hinv. unfold rebuild_run_projections, modify, get, mbind, M_bind.
  set (st0 := set_runs _ st).
  assert (∀ id, _runs st0 !! (t, id) = None) as Hnone.
  { intros id. unfold st0. simpl. apply map_lookup_filter_None. right. naive_solver. }
  change (tenant_events st0 t) with (tenant_events st t).
  destruct (apply_projection_run t (tenant_events st t) st0) as (runs' & -> & Hr & Ho).
  { apply (inv_tenant _ Hinv). }
  { intros id. rewrite Hnone. pose proof (inv_runs _ Hinv t id) as H. unfold replay_run in H. eauto. }
  assert (set_runs (λ _, runs') st0 = st) as ->.
  { unfold st0. rewrite set_runs_twice. apply set_runs_id. apply map_eq. intros [t' id].
    destruct (decide (t' = t)) as [->|Hne].
    - specialize (Hr id). rewrite Hnone in Hr. pose proof (inv_runs _ Hinv t id) as H.
      unfold replay_run in H. congruence.
    - rewrite Ho by done. unfold st0. simpl. apply option_eq. intros x.
      rewrite map_lookup_filter_Some. naive_solver. }
  unfold mret, M_ret. eexists. split; [reflexivity|]. done.
Qed.

Lemma rebuild_run_projections_inv t : preserves store_inv (rebuild_run_projections t).
Proof.
  intros st [Hc Hi]. destruct (rebuild_run_projections_run st t Hc) as (cp & -> & _).
  destruct Hc as [H1 H2 H3 H4]. split; [by split|done].
Qed.

(** ** Reachable states *)

Inductive operation :=
  | OpAppend (t aty aid : string) (ver : Z) (drafts : list EventDraft)
      (outbox : list OutboxDraft) (inbox : list InboxDraft)
  | OpAcceptRun (identity : IdentityContext) (request : InvestigationRequest) (wait : bool)
      (now : datetime)
  | OpRecordTransition (t run_id ety op actor req : string) (code : option string)
      (attributes : option payload) (now : datetime)
  | OpAcceptSignal (identity : IdentityContext) (command : SignalCommand) (now1 now2 : datetime)
  | OpClaimOutbox (t worker : string) (now until : datetime) (limit : Z)
  | OpCompleteOutbox (claim : DeliveryClaim)
  | OpFailOutbox (claim : DeliveryClaim) (code : string) (retry_at : datetime) (permanent : bool)
  | OpRebuildRunProjections (t : string)
  | OpRebuildRun (t run_id : string)
  | OpReplayLegacy (upcast : LegacyEvent → string * payload) (t aid actor corr : string)
      (legacy : list LegacyEvent).

(** The state after a call, returned or raised *)
Definition run_op (op : operation) (st : store) : store :=
  match op with
  | OpAppend t aty aid ver drafts outbox inbox => (append t aty aid ver drafts outbox inbox st).2
  | OpAcceptRun identity request wait now => (accept_run identity request wait now st).2
  | OpRecordTransition t run_id ety op actor req code attributes now =>
      (record_transition t run_id ety op actor req code attributes now st).2
  | OpAcceptSignal identity command now1 now2 => (accept_signal identity command now1 now2 st).2
  | OpClaimOutbox t worker now until limit => (claim_outbox t worker now until limit st).2
  | OpCompleteOutbox claim => (complete_outbox claim st).2
  | OpFailOutbox claim code retry_at permanent => (fail_outbox claim code retry_at permanent st).2
  | OpRebuildRunProjections t => (rebuild_run_projections t st).2
  | OpRebuildRun t run_id => (rebuild_run t run_id st).2
  | OpReplayLegacy upcast t aid actor corr legacy =>
      (replay_legacy upcast t aid actor corr legacy st).2
  end.

(** A direct [append] receives validated drafts of schema version 1; every other method
    makes its own. *)
Definition op_ok (op : operation) : Prop :=
  match op with OpAppend _ _ _ _ drafts _ _ => valid_batch drafts | _ => True end.

Inductive reachable : store → Prop :=
  | reachable_init : reachable empty_store
  | reachable_step st op : reachable st → op_ok op → reachable (run_op op st).

Lemma run_op_inv op st : op_ok op → store_inv st → store_inv (run_op op st).
Proof.
  intros Hok Hst. destruct op; simpl in Hok.
  - by apply append_inv.
  - by apply accept_run_inv.
  - by apply record_transition_inv.
  - by apply accept_signal_inv.
  - by apply claim_outbox_inv.
  - by apply complete_outbox_inv.
  - by apply fail_outbox_inv.
  - by apply rebuild_run_projections_inv.
  - by apply rebuild_run_inv.
  - by apply replay_legacy_inv.
Qed.

Lemma reachable_inv st : reachable st → store_inv st.
Proof. induction 1; [apply empty_store_inv|by apply run_op_inv]. Qed.
End ops.
