(* ===== verification/LedgerChain.v ===== *)
(** * What the event chain binds, and how a ledger evolves

    Tamper evidence: [event_material] determines every field of an event, so two ledgers that
    both pass [verify_integrity] and end in the same tenant head hold the same events, unless
    they exhibit a SHA-256 collision (payloads up to the order of keys, Python's [dict]
    equality).  Positions: the cursor of an event is its position, its tenant link is the
    record before it, and the per-run walk of [verify_run_integrity] follows the aggregate
    heads of the tenant walk.  History: the event lists of the store only grow, idempotency
    records stay, and so a run view moves only along the run state machine. *)

From S2P Require Import Prelude PyJson PyTime Domain Durability LedgerInvariant LedgerOps.

Definition canon_payload (p : payload) : payload :=
  py_sorted key_leb ((λ kv, (kv.1, jnorm kv.2)) <$> p).

(** The event with its payload in canonical key order *)
Definition canon_event (e : ApplicationEvent) : ApplicationEvent :=
  {| ev_tenant_id := ev_tenant_id e; ev_aggregate_type := ev_aggregate_type e;
     ev_aggregate_id := ev_aggregate_id e; ev_aggregate_sequence := ev_aggregate_sequence e;
     ev_tenant_cursor := ev_tenant_cursor e; ev_event_id := ev_event_id e;
     ev_event_type := ev_event_type e; ev_occurred_at := ev_occurred_at e;
     ev_actor_ref := ev_actor_ref e; ev_correlation_ref := ev_correlation_ref e;
     ev_causation_ref := ev_causation_ref e; ev_schema_version := ev_schema_version e;
     ev_payload := canon_payload (ev_payload e);
     ev_aggregate_previous_hash := ev_aggregate_previous_hash e;
     ev_tenant_previous_hash := ev_tenant_previous_hash e; ev_record_hash := ev_record_hash e |}.

(** What Python's types guarantee of a stored event: an instant in range, a payload of
    finite JSON values with distinct keys. *)
Definition event_wf (e : ApplicationEvent) : bool :=
  datetime_ok (ev_occurred_at e) && json_wf (JObj (ev_payload e)).

(** ** The material is injective *)

Lemma jnorm_sorted_obj o :
  Sorted (λ a b, key_leb a b = true) o → jnorm (JObj o) = JObj ((λ kv, (kv.1, jnorm kv.2)) <$> o).
Proof.
  intros Hs. simpl. f_equal. rewrite py_sorted_fmap by done. by rewrite py_sorted_id.
Qed.

Definition material_members t aty aid seq cur (d : EventDraft) ah th : payload := [
    ("actor_ref", JStr (ed_actor_ref d));
    ("aggregate_id", JStr aid);
    ("aggregate_previous_hash", JStr ah);
    ("aggregate_sequence", JInt seq);
    ("aggregate_type", JStr aty);
    ("causation_ref", json_of_opt (ed_causation_ref d));
    ("correlation_ref", JStr (ed_correlation_ref d));
    ("event_id", JStr (ed_event_id d));
    ("event_type", JStr (ed_event_type d));
    ("occurred_at", JStr (isoformat (ed_occurred_at d)));
    ("payload", JObj (ed_payload d));
    ("record_schema_version", JInt 1);
    ("schema_version", JInt (ed_schema_version d));
    ("tenant_cursor", JInt cur);
    ("tenant_id", JStr t);
    ("tenant_previous_hash", JStr th)].

Lemma material_members_sorted t aty aid seq cur d ah th :
  Sorted (λ a b, key_leb a b = true) (material_members t aty aid seq cur d ah th).
Proof. unfold material_members. repeat constructor. Qed.

Lemma material_members_wf t aty aid seq cur d ah th :
  json_wf (JObj (ed_payload d)) = true →
  json_wf (JObj (material_members t aty aid seq cur d ah th)) = true.
Proof.
  intros Hwf. cbn [json_wf]. apply andb_true_iff. split.
  - unfold material_members. cbn [fmap list_fmap fst]. by vm_compute.
  - unfold material_members. cbn [forallb snd].
    assert (json_wf (json_of_opt (ed_causation_ref d)) = true) as -> by (by destruct (ed_causation_ref d)).
    rewrite Hwf. done.
Qed.

Lemma json_of_opt_inj o1 o2 : jnorm (json_of_opt o1) = jnorm (json_of_opt o2) → o1 = o2.
Proof. destruct o1, o2; simpl; congruence. Qed.

Lemma event_material_inj t1 aty1 aid1 seq1 cur1 d1 ah1 th1 t2 aty2 aid2 seq2 cur2 d2 ah2 th2 :
  json_wf (JObj (ed_payload d1)) = true → json_wf (JObj (ed_payload d2)) = true →
  datetime_ok (ed_occurred_at d1) = true → datetime_ok (ed_occurred_at d2) = true →
  event_material t1 aty1 aid1 seq1 cur1 d1 ah1 th1 = event_material t2 aty2 aid2 seq2 cur2 d2 ah2 th2 →
  (t1 = t2 ∧ aty1 = aty2 ∧ aid1 = aid2 ∧ seq1 = seq2 ∧ cur1 = cur2 ∧ ah1 = ah2 ∧ th1 = th2) ∧
  ed_event_id d1 = ed_event_id d2 ∧ ed_event_type d1 = ed_event_type d2 ∧
  ed_occurred_at d1 = ed_occurred_at d2 ∧ ed_actor_ref d1 = ed_actor_ref d2 ∧
  ed_correlation_ref d1 = ed_correlation_ref d2 ∧ ed_causation_ref d1 = ed_causation_ref d2 ∧
  ed_schema_version d1 = ed_schema_version d2 ∧
  canon_payload (ed_payload d1) = canon_payload (ed_payload d2).
Proof.
  intros Hw1 Hw2 Ht1 Ht2 Heq.
  apply (canonical_json_inj (JObj (material_members t1 aty1 aid1 seq1 cur1 d1 ah1 th1))
    (JObj (material_members t2 aty2 aid2 seq2 cur2 d2 ah2 th2))) in Heq;
    [|by apply material_members_wf..].
  rewrite !jnorm_sorted_obj in Heq by apply material_members_sorted.
  unfold material_members in Heq. cbn [fmap list_fmap fst snd] in Heq.
  assert (∀ p1 p2, jnorm (JObj p1) = jnorm (JObj p2) → canon_payload p1 = canon_payload p2) as Hp.
  { intros p1 p2 Hp. simpl in Hp. by injection Hp. }
  injection Heq as E1 E2 E3 E4 E5 E6 E7 E8 E9 E10 E11 E12 E13 E14 E15.
  apply json_of_opt_inj in E6. apply isoformat_inj in E10; [|done..].
  split_and!; try done.
Qed.

(** ** Chains *)

Section tamper.
Context {HDigest : Digest}.

(** The text whose digest an event must carry *)
Definition hashed_material (e : ApplicationEvent) : string :=
  event_material (ev_tenant_id e) (ev_aggregate_type e) (ev_aggregate_id e)
    (ev_aggregate_sequence e) (ev_tenant_cursor e)
    {| ed_event_id := ev_event_id e; ed_event_type := ev_event_type e;
       ed_occurred_at := ev_occurred_at e; ed_actor_ref := ev_actor_ref e;
       ed_correlation_ref := ev_correlation_ref e; ed_causation_ref := ev_causation_ref e;
       ed_schema_version := ev_schema_version e; ed_payload := sort_payload (ev_payload e) |}
    (ev_aggregate_previous_hash e) (ev_tenant_previous_hash e).

(** Two event lists hold a collision of the digest: an event of each, different hashed
    texts, the same digest. *)
Definition events_collide (l1 l2 : list ApplicationEvent) : Prop :=
  ∃ e1 e2, e1 ∈ l1 ∧ e2 ∈ l2 ∧ collides (hashed_material e1) (hashed_material e2).

Lemma events_collide_app l1 l1' l2 l2' : events_collide l1 l2 → events_collide (l1 ++ l1') (l2 ++ l2').
Proof. intros (e1 & e2 & ? & ? & ?). exists e1, e2. rewrite !elem_of_app. auto. Qed.

(** What the verifier checked of an accepted event. *)
Lemma verify_step_accepts v e v' :
  verify_step v e = Ok (Some v') →
  ev_record_hash e = hexdigest (hashed_material e) ∧
    ev_tenant_previous_hash e = th_record_hash (v_tenant_head v) ∧
    ev_tenant_cursor e = th_cursor (v_tenant_head v) + 1 ∧
    v_tenant_head v' = {| th_cursor := ev_tenant_cursor e; th_record_hash := ev_record_hash e |}.
Proof.
  unfold verify_step. intros H. apply res_bind_ok in H as (d & Hd & H).
  unfold new_EventDraft in Hd. apply res_bind_ok in Hd as (u & _ & Hd). injection Hd as <-.
  destruct (_ || _) eqn:Hc in H; [done|]. injection H as <-. py_bool.
  unfold expected_hash in *. split_and!; try done. unfold hashed_material.
  match goal with E : ev_record_hash e = _ |- _ => rewrite E end. by f_equal; f_equal.
Qed.

Lemma verify_events_snoc v l e v2 :
  verify_events v (l ++ [e]) = Ok (Some v2) ↔
  ∃ v1, verify_events v l = Ok (Some v1) ∧ verify_step v1 e = Ok (Some v2).
Proof.
  rewrite verify_events_app. destruct (verify_events v l) as [[v1|]|]; simpl.
  - split.
    + intros H. exists v1. split; [done|]. by destruct (verify_step v1 e) as [[v3|]|].
    + intros (v1' & [= <-] & ->). done.
  - split; [done|]. by intros (v1 & ? & _).
  - split; [done|]. by intros (v1 & ? & _).
Qed.

Lemma verified_cursor l v :
  verify_events verifier_init l = Ok (Some v) → th_cursor (v_tenant_head v) = zlen l.
Proof.
  revert v. induction l as [|e l IH] using rev_ind; intros v H.
  - simpl in H. by injection H as <-.
  - apply verify_events_snoc in H as (v1 & H1 & Hs). apply IH in H1.
    apply verify_step_accepts in Hs as (_ & _ & Hc & ->). simpl.
    unfold zlen in *. rewrite length_app. simpl. lia.
Qed.

(** The last link: equal heads come from the same last event and the same previous
    head, or from a collision. *)
Lemma same_last_event v1 e1 w1 v2 e2 w2 :
  event_wf e1 = true → event_wf e2 = true →
  verify_step v1 e1 = Ok (Some w1) → verify_step v2 e2 = Ok (Some w2) →
  th_record_hash (v_tenant_head w1) = th_record_hash (v_tenant_head w2) →
  collides (hashed_material e1) (hashed_material e2) ∨
  canon_event e1 = canon_event e2 ∧
  th_record_hash (v_tenant_head v1) = th_record_hash (v_tenant_head v2).
Proof.
  unfold event_wf. intros Hw1 Hw2 H1 H2 Hh. py_bool.
  apply verify_step_accepts in H1 as (Hr1 & Ht1 & Hc1 & Hv1).
  apply verify_step_accepts in H2 as (Hr2 & Ht2 & Hc2 & Hv2).
  rewrite Hv1, Hv2 in Hh. simpl in Hh. pose proof Hh as Hh'.
  rewrite Hr1, Hr2 in Hh. apply hexdigest_inj in Hh as [Hm|]; [|by left]. right.
  assert (∀ e, json_wf (JObj (ev_payload e)) = true → json_wf (JObj (sort_payload (ev_payload e))) = true) as Hsort.
  { intros e. cbn [json_wf]. unfold sort_payload. rewrite !andb_true_iff, !bool_decide_eq_true.
    rewrite (forallb_perm _ _ _ (py_sorted_perm key_leb (ev_payload e))).
    intros [? ?]. split; [by apply sorted_keys_NoDup|done]. }
  unfold hashed_material in Hm. apply event_material_inj in Hm as ((E1 & E2 & E3 & E4 & E5 & E6 & E7) & E8 & E9 & E10 & E11 & E12 & E13 & E14 & E15);
    [|cbn [ed_payload ed_occurred_at]; by auto..].
  simpl in *. split; [|congruence]. unfold canon_event.
  assert (∀ p, canon_payload (sort_payload p) = canon_payload p) as Hcs.
  { intros p. pose proof (jnorm_sort_payload p) as Hj. simpl in Hj. by injection Hj. }
  rewrite !Hcs in E15. f_equal; assumption.
Qed.

(** Two verified chains with the same tenant head are the same chain, or hold a SHA-256
    collision between two of their events. *)
Lemma same_head_same_events l1 : ∀ l2 v1 v2,
  Forall (λ e, event_wf e = true) l1 → Forall (λ e, event_wf e = true) l2 →
  verify_events verifier_init l1 = Ok (Some v1) → verify_events verifier_init l2 = Ok (Some v2) →
  v_tenant_head v1 = v_tenant_head v2 →
  events_collide l1 l2 ∨ canon_event <$> l1 = canon_event <$> l2.
Proof.
  induction l1 as [|e1 l1 IH] using rev_ind; intros l2 v1 v2 Hw1 Hw2 H1 H2 Hh;
    pose proof (verified_cursor _ _ H1) as Hc1; pose proof (verified_cursor _ _ H2) as Hc2;
    rewrite Hh, Hc2 in Hc1; unfold zlen in Hc1; rewrite ?length_app in Hc1; simpl in Hc1.
  - destruct l2; [by right|simpl in Hc1; lia].
  - destruct l2 as [|e2 l2 _] using rev_ind; [simpl in Hc1; lia|].
    apply Forall_app in Hw1 as [Hw1 He1]. apply Forall_app in Hw2 as [Hw2 He2].
    rewrite Forall_singleton in He1, He2.
    apply verify_events_snoc in H1 as (u1 & H1 & Hs1). apply verify_events_snoc in H2 as (u2 & H2 & Hs2).
    destruct (same_last_event _ _ _ _ _ _ He1 He2 Hs1 Hs2) as [?|[Hce Hhash]]; [by rewrite Hh| |].
    { left. exists e1, e2. rewrite !elem_of_app, !list_elem_of_singleton. auto. }
    assert (v_tenant_head u1 = v_tenant_head u2) as Hu.
    { pose proof (verified_cursor _ _ H1) as Hu1. pose proof (verified_cursor _ _ H2) as Hu2.
      rewrite length_app in Hc1. simpl in Hc1. unfold zlen in *.
      destruct (v_tenant_head u1), (v_tenant_head u2). simpl in *. f_equal; [lia|done]. }
    destruct (IH l2 u1 u2 Hw1 Hw2 H1 H2 Hu) as [?|Heq]; [left; by apply events_collide_app|right].
    rewrite !fmap_app, Heq. cbn [fmap list_fmap]. by rewrite Hce.
Qed.
End tamper.

Section chain.
Context {HDigest : Digest}.

(** Everything the verifier established about an accepted event. *)
Record accepted (v : verifier) (e : ApplicationEvent) (v' : verifier) : Prop := {
  acc_draft : ∃ d, new_EventDraft (draft_of_event e) = Ok d ∧
    ev_record_hash e = expected_hash e d
      (ah_record_hash (default no_aggregate_head (v_aggregate_heads v !! (ev_aggregate_type e, ev_aggregate_id e))))
      (th_record_hash (v_tenant_head v));
  acc_schema : ev_schema_version e = 1;
  acc_sequence : ev_aggregate_sequence e =
    ah_sequence (default no_aggregate_head (v_aggregate_heads v !! (ev_aggregate_type e, ev_aggregate_id e))) + 1;
  acc_cursor : ev_tenant_cursor e = th_cursor (v_tenant_head v) + 1;
  acc_aggregate_link : ev_aggregate_previous_hash e =
    ah_record_hash (default no_aggregate_head (v_aggregate_heads v !! (ev_aggregate_type e, ev_aggregate_id e)));
  acc_tenant_link : ev_tenant_previous_hash e = th_record_hash (v_tenant_head v);
  acc_heads : v_aggregate_heads v' =
    <[(ev_aggregate_type e, ev_aggregate_id e) :=
      {| ah_sequence := ev_aggregate_sequence e; ah_record_hash := ev_record_hash e |}]> (v_aggregate_heads v);
  acc_head : v_tenant_head v' = {| th_cursor := ev_tenant_cursor e; th_record_hash := ev_record_hash e |};
  acc_fresh : ev_event_id e ∉ v_seen v;
  acc_seen : v_seen v' = {[ev_event_id e]} ∪ v_seen v
}.

Lemma verify_step_accepted v e v' : verify_step v e = Ok (Some v') → accepted v e v'.
Proof.
  unfold verify_step. intros H. apply res_bind_ok in H as (d & Hd & H).
  destruct (_ || _) eqn:Hc in H; [done|]. injection H as <-. py_bool.
  split; try done. exists d. done.
Qed.

Lemma verified_position l v : verify_events verifier_init l = Ok (Some v) →
  th_record_hash (v_tenant_head v) = from_option ev_record_hash _ZERO_HASH (last l) ∧
  ∀ i e, l !! i = Some e →
    ev_tenant_cursor e = Z.of_nat i + 1 ∧
    ev_tenant_previous_hash e = match i with O => _ZERO_HASH
                                | S j => from_option ev_record_hash _ZERO_HASH (l !! j) end.
Proof.
  revert v. induction l as [|e l IH] using rev_ind; intros v H.
  { simpl in H. injection H as <-. done. }
  apply verify_events_snoc in H as (v1 & H1 & Hs). pose proof (verified_cursor _ _ H1) as Hc.
  apply IH in H1 as [Hlast Hpos]. apply verify_step_accepted in Hs. split.
  { rewrite (acc_head _ _ _ Hs), last_snoc. done. }
  intros i x Hi. destruct (decide (i < length l)%nat) as [Hlt|Hge].
  - rewrite lookup_app_l in Hi by done. destruct (Hpos i x Hi) as [-> ->]. split; [done|].
    destruct i as [|j]; [done|]. by rewrite lookup_app_l by lia.
  - apply lookup_lt_Some in Hi as Hlen. rewrite length_app in Hlen. simpl in Hlen.
    assert (i = length l) as -> by lia. rewrite list_lookup_middle in Hi by done. injection Hi as <-.
    rewrite (acc_cursor _ _ _ Hs), (acc_tenant_link _ _ _ Hs), Hc, Hlast. split; [done|].
    destruct (length l) as [|j] eqn:El; [by destruct l|].
    rewrite lookup_app_l by lia. by rewrite last_lookup, El.
Qed.

Lemma verify_run_events_snoc st t all acc l e acc1 :
  verify_run_events st t all acc l = Ok (Some acc1) →
  verify_run_events st t all acc (l ++ [e]) = verify_run_step st t all acc1 e.
Proof.
  revert acc. induction l as [|x l IH]; intros acc H; simpl in *.
  - injection H as ->. destruct (verify_run_step st t all acc1 e) as [[]|]; done.
  - apply res_bind_ok in H as (o & Ho & H). rewrite Ho. simpl. destruct o; [by apply IH|done].
Qed.

(** One step of the run walk inside a verified chain. *)
Lemma verify_run_step_ok st t all i e v v' w :
  verify_events verifier_init all = Ok (Some w) → v_tenant_head w = tenant_head_of st t →
  all !! i = Some e → accepted v e v' →
  v_tenant_head v = {| th_cursor := Z.of_nat i; th_record_hash := ev_tenant_previous_hash e |} →
  verify_run_step st t all
    (ah_sequence (default no_aggregate_head (v_aggregate_heads v !! (ev_aggregate_type e, ev_aggregate_id e))),
     ah_record_hash (default no_aggregate_head (v_aggregate_heads v !! (ev_aggregate_type e, ev_aggregate_id e)))) e
  = Ok (Some (ev_aggregate_sequence e, ev_record_hash e)).
Proof.
  intros Hall Hw Hi Hacc Hv. destruct (verified_position _ _ Hall) as [Hlast Hpos].
  destruct (Hpos i e Hi) as [Hcur Hprev]. apply lookup_lt_Some in Hi as Hlen.
  destruct Hacc as [(d & Hd & Hrh) Hsv Hseq _ Hal Htl _ _ _ _].
  unfold verify_run_step. rewrite Hcur. unfold zlen.
  destruct (Z.ltb_spec (Z.of_nat i + 1) 1); [lia|].
  destruct (Z.ltb_spec (Z.of_nat (length all)) (Z.of_nat i + 1)); [lia|]. simpl orb. cbn iota.
  rewrite Hd. cbn [mbind res_bind].
  assert ((if Z.of_nat i + 1 =? 1 then _ZERO_HASH
           else from_option ev_record_hash "" (all !! Z.to_nat (Z.of_nat i + 1 - 2)))
          = ev_tenant_previous_hash e) as ->.
  { rewrite Hprev. destruct i as [|j]; [done|]. destruct (Z.eqb_spec (Z.of_nat (S j) + 1) 1); [lia|].
    replace (Z.to_nat (Z.of_nat (S j) + 1 - 2)) with j by lia.
    destruct (all !! j) eqn:E; [done|]. apply lookup_ge_None in E. lia. }
  rewrite Hsv, Hseq, Hal, Htl, Hv in *. simpl th_record_hash in *. rewrite <-Hrh.
  rewrite !Z.eqb_refl, !bool_decide_eq_false_2 by (intros ?; done). simpl negb. cbn [orb].
  assert ((if Z.of_nat i + 1 <? Z.of_nat (length all)
    then bool_decide (ev_tenant_previous_hash <$> all !! Z.to_nat (Z.of_nat i + 1) = Some (ev_record_hash e))
    else bool_decide (th_record_hash (tenant_head_of st t) = ev_record_hash e)) = true) as ->; [|done].
  destruct (Z.ltb_spec (Z.of_nat i + 1) (Z.of_nat (length all))); apply bool_decide_eq_true.
  - replace (Z.to_nat (Z.of_nat i + 1)) with (S i) by lia.
    destruct (lookup_lt_is_Some_2 all (S i)) as [e' He']; [lia|]. rewrite He'. simpl. f_equal.
    destruct (Hpos _ _ He') as [_ ->]. by rewrite Hi.
  - rewrite <-Hw, Hlast. assert (last all = Some e) as ->; [|done].
    rewrite last_lookup. replace (pred (length all)) with i by lia. done.
Qed.

Lemma verify_run_walk st t run_id all w l : ∀ suffix v,
  all = l ++ suffix → verify_events verifier_init all = Ok (Some w) →
  v_tenant_head w = tenant_head_of st t → verify_events verifier_init l = Ok (Some v) →
  let h := default no_aggregate_head (v_aggregate_heads v !! ("investigation", run_id)) in
  verify_run_events st t all (0, _ZERO_HASH) (List.filter (is_run_event run_id) l)
  = Ok (Some (ah_sequence h, ah_record_hash h)).
Proof.
  induction l as [|e l IH] using rev_ind; intros suffix v Hall Hw Hh Hv.
  { simpl in Hv. injection Hv as <-. done. }
  apply verify_events_snoc in Hv as (u & Hu & Hs). pose proof (verified_cursor _ _ Hu) as Hc.
  pose proof (verified_position _ _ Hu) as [Hul _]. apply verify_step_accepted in Hs as Hacc.
  specialize (IH ([e] ++ suffix) u). rewrite app_assoc in IH. specialize (IH Hall Hw Hh Hu). cbv zeta in IH.
  rewrite list_filter_app. simpl. rewrite (acc_heads _ _ _ Hacc).
  destruct (is_run_event run_id e) eqn:Er.
  - unfold is_run_event in Er. py_bool. subst run_id.
    erewrite verify_run_events_snoc by exact IH.
    match goal with E : ev_aggregate_type e = _ |- _ => rewrite <-E in * end.
    rewrite lookup_insert_eq. cbn [default ah_sequence ah_record_hash from_option id].
    eapply (verify_run_step_ok st t all (length l) e u v w); try done.
    + rewrite Hall, <-app_assoc. by apply list_lookup_middle.
    + rewrite (acc_tenant_link _ _ _ Hacc). destruct (v_tenant_head u) as [cu hu] eqn:Eu.
      simpl in *. unfold zlen in Hc. by subst.
  - rewrite app_nil_r, lookup_insert_ne; [done|]. intros [= E1 E2].
    unfold is_run_event in Er. rewrite !bool_decide_eq_true_2 in Er by done. done.
Qed.

Lemma verify_run_step_sequence st t all acc e acc' :
  verify_run_step st t all acc e = Ok (Some acc') → acc'.1 = acc.1 + 1.
Proof.
  destruct acc as [n h]. unfold verify_run_step. intros H.
  destruct (_ || _) in H; [done|]. apply res_bind_ok in H as (d & _ & H).
  destruct (_ || _) eqn:Hc in H; [done|].
  match type of H with (if ?b then _ else _) = _ => destruct b; [|done] end.
  injection H as <-. py_bool. done.
Qed.

Lemma verify_run_events_sequence st t all l : ∀ acc acc',
  verify_run_events st t all acc l = Ok (Some acc') → acc'.1 = acc.1 + zlen l.
Proof.
  induction l as [|e l IH]; intros acc acc' H; simpl in H.
  - injection H as <-. unfold zlen. simpl. lia.
  - apply res_bind_ok in H as (o & Ho & H). destruct o as [acc1|]; [|done].
    apply verify_run_step_sequence in Ho. apply IH in H. unfold zlen in *. simpl length. lia.
Qed.

Lemma verify_run_integrity_ok st t run_id r maximum :
  core_inv st → _runs st !! (t, run_id) = Some r → 1 <= maximum <= 10000 →
  zlen (List.filter (is_run_event run_id) (tenant_events st t)) <= maximum →
  verify_run_integrity st t run_id maximum = Ok true.
Proof.
  intros Hinv Hr Hmax Hlen. destruct (inv_chain _ Hinv t) as (v & Hv & Hth & Hah & _).
  pose proof (verify_run_walk st t run_id (tenant_events st t) v (tenant_events st t) [] v
                (eq_sym (app_nil_r _)) Hv Hth Hv) as Hwalk. cbv zeta in Hwalk.
  pose proof (inv_runs _ Hinv t run_id) as Hrep. rewrite Hr in Hrep. unfold replay_run in Hrep.
  unfold verify_run_integrity.
  destruct (Z.ltb_spec maximum 1); [lia|]. destruct (Z.ltb_spec 10000 maximum); [lia|]. simpl orb.
  destruct (List.filter (is_run_event run_id) (tenant_events st t)) as [|e l] eqn:E; [done|].
  rewrite bool_decide_eq_false_2 by done.
  destruct (Z.ltb_spec maximum (zlen (e :: l))); [lia|]. simpl raise_if. cbn [mbind res_bind orb].
  rewrite Hwalk. cbn [mbind res_bind]. rewrite (Hah "investigation" run_id).
  unfold aggregate_head_of. destruct (_aggregate_heads st !! (t, "investigation", run_id)) as [hd|] eqn:Ehd.
  - simpl. by rewrite Z.eqb_refl, bool_decide_eq_true_2.
  - exfalso. specialize (Hah "investigation" run_id). unfold aggregate_head_of in Hah. rewrite Ehd in Hah.
    simpl in Hah. rewrite Hah in Hwalk.
    apply verify_run_events_sequence in Hwalk. simpl in Hwalk. unfold zlen in Hwalk. simpl in Hwalk. lia.
Qed.
End chain.

Section history.
Context {HDigest : Digest}.

(** ** Relations every call respects

    [StoreOrder R]: a preorder between the store before a call and the store after it,
    kept by the primitive updates.  [run_op_moves] lifts it to every method and
    [steps_moves] to every sequence of calls. *)

Inductive steps : store → store → Prop :=
  | steps_refl st : steps st st
  | steps_op st op st' : op_ok op → steps (run_op op st) st' → steps st st'.

Definition moves (R : store → store → Prop) {A} (m : M store A) : Prop := ∀ st, R st (m st).2.

Class StoreOrder (R : store → store → Prop) := {
  so_preorder :: PreOrder R;
  so_runs f : moves R (modify (set_runs f));
  so_checkpoints f : moves R (modify (set_checkpoints f));
  so_append_locked t aty aid ver drafts outbox inbox :
    moves R (_append_locked t aty aid ver drafts outbox inbox);
  so_accept_run identity request wait now : moves R (accept_run identity request wait now);
  so_claim t worker now until limit : moves R (claim_outbox t worker now until limit);
  so_update_claim claim status code retry :
    status ≠ CLAIMED → (status = PENDING → dc_attempt claim < _MAX_DELIVERY_ATTEMPTS) →
    moves R (_update_claim claim status code retry)
}.

Create HintDb moves discriminated.

Section moves.
Context (R : store → store → Prop) `{!StoreOrder R}.

Lemma moves_lift {A} (r : res A) : moves R (lift r : M store A).
Proof. intros st. reflexivity. Qed.
Lemma moves_ret {A} (a : A) : moves R (mret a : M store A).
Proof. intros st. reflexivity. Qed.
Lemma moves_get : moves R get.
Proof. intros st. reflexivity. Qed.
Lemma moves_bind {A B} (m : M store A) (k : A → M store B) :
  moves R m → (∀ a, moves R (k a)) → moves R (m ≫= k).
Proof.
  intros Hm Hk st. unfold mbind, M_bind. specialize (Hm st).
  destruct (m st) as [[a|e] s1]; [|done]. etrans; [exact Hm|apply Hk].
Qed.
#[local] Hint Resolve moves_lift moves_ret moves_get so_runs so_checkpoints so_append_locked
  so_accept_run so_claim so_update_claim : moves.

(** Walk through the binds of a method body. *)
#[local] Ltac walk := repeat first
  [ solve [auto with moves]
  | apply moves_bind; [solve [auto with moves]|intros; cbv zeta]
  | case_match ].

Lemma moves_run_at key : moves R (run_at key).
Proof. unfold run_at. walk. Qed.
#[local] Hint Resolve moves_run_at : moves.

Lemma moves_apply_projection l : moves R (_apply_projection_locked l).
Proof. induction l as [|e l IH]; cbn [_apply_projection_locked]; walk. Qed.
#[local] Hint Resolve moves_apply_projection : moves.

Lemma moves_append t aty aid ver drafts outbox inbox : moves R (append t aty aid ver drafts outbox inbox).
Proof. unfold append. walk. Qed.
#[local] Hint Resolve moves_append : moves.

Lemma run_op_moves op st : R st (run_op op st).
Proof.
  revert st. destruct op.
  - apply moves_append.
  - apply so_accept_run.
  - unfold run_op. change (moves R (record_transition t run_id ety op actor req code attributes now)).
    unfold record_transition. walk.
  - change (moves R (accept_signal identity command now1 now2)). unfold accept_signal. walk.
  - apply so_claim.
  - by apply so_update_claim.
  - apply so_update_claim; destruct permanent; simpl; try done;
      destruct (Z.leb_spec _MAX_DELIVERY_ATTEMPTS (dc_attempt claim)); done.
  - change (moves R (rebuild_run_projections t)). unfold rebuild_run_projections. walk.
  - change (moves R (rebuild_run t run_id)). unfold rebuild_run. walk.
  - change (moves R (replay_legacy upcast t aid actor corr legacy)). unfold replay_legacy. walk.
Qed.

Lemma steps_moves st st' : steps st st' → R st st'.
Proof.
  induction 1 as [|st op st' _ _ IH]; [reflexivity|]. etrans; [apply run_op_moves|exact IH].
Qed.
End moves.

Lemma steps_reachable st st' : steps st st' → reachable st → reachable st'.
Proof. induction 1; [done|]. intros. apply IHsteps. by constructor. Qed.

(** ** Events and idempotency records stay

    [extends st st']: every tenant's events of [st] are a prefix of those of [st'] and
    every idempotency record is still there. *)
Definition extends (st st' : store) : Prop :=
  (∀ t, tenant_events st t `prefix_of` tenant_events st' t) ∧
  _idempotency st ⊆ _idempotency st'.

#[local] Instance extends_preorder : PreOrder extends.
Proof.
  split.
  - intros st. split; done.
  - intros a b c [H1 H2] [H3 H4]. split; [intros t; etrans; [apply H1|apply H3]|by etrans].
Qed.

Lemma extends_append_locked t aty aid ver drafts outbox inbox :
  moves extends (_append_locked t aty aid ver drafts outbox inbox).
Proof.
  intros st. pose proof (append_locked_run t aty aid ver drafts outbox inbox st) as Hr.
  destruct (_append_locked _ _ _ _ _ _ _ st) as [[es|e] st']; simpl; [|by subst].
  destruct Hr as (tail & proj & _ & _ & _ & _ & ->). split; [|done].
  intros t'. rewrite tenant_events_commit. case_decide; [by apply prefix_app_r|done].
Qed.

Lemma extends_accept_run identity request wait now : moves extends (accept_run identity request wait now).
Proof.
  intros st. unfold accept_run, get, mbind, M_bind, modify, on_raise, lift.
  set (key := (ic_tenant_id identity, ic_request_id identity)).
  destruct (_idempotency st !! key) as [existing|] eqn:Hk.
  { destruct (raise_if _ _ _); [|done]. unfold run_at, get, lift, mbind, M_bind, mret, M_ret.
    by destruct (of_option _ _ _). }
  destruct (accept_run_drafts identity request wait now) as [[d o]|] eqn:Hd; [|done].
  set (rec := {| ir_fingerprint := _; ir_run_id := _ |}).
  set (st1 := set_idempotency (insert key rec) st). cbn [fst snd].
  assert (extends st st1) as H1 by (split; [done|by apply insert_subseteq]).
  pose proof (extends_append_locked (ic_tenant_id identity) "investigation" (run_id_of identity request)
                0 [d] [o] [] st1) as H2.
  destruct (_append_locked _ _ _ _ _ _ _ st1) as [[es|e] st2] eqn:Happ.
  - etrans; [exact H1|]. exact H2.
  - apply append_locked_atomic in Happ. subst st2. split; [done|].
    unfold st1, set_idempotency. simpl. by rewrite delete_insert_id.
Qed.

#[export] Instance extends_order : StoreOrder extends.
Proof.
  split.
  - apply _.
  - by intros f st.
  - by intros f st.
  - apply extends_append_locked.
  - apply extends_accept_run.
  - intros t worker now until limit st. unfold claim_outbox, lift, get, modify, mbind, M_bind.
    destruct (raise_if _ _ _); [|done]. by destruct (foldl _ _ _).
  - intros claim status code retry _ _ st. unfold _update_claim, lift, get, modify, mbind, M_bind.
    destruct (_deliveries st !! _); [|done]. by destruct (raise_if _ _ _).
Qed.

Lemma steps_extends st st' : steps st st' → extends st st'.
Proof. apply steps_moves, _. Qed.

(** ** Runs along the state machine *)

Definition run_transition (s s' : RunStatus) : Prop := s' ∈ allowed_run_transitions s.

Definition run_terminal (s : RunStatus) : bool := bool_decide (allowed_run_transitions s = []).

(** The later view of a run *)
Record run_follows (r r' : RunView) : Prop := {
  rf_status : rtc run_transition (rv_status r) (rv_status r');
  rf_version : rv_version r <= rv_version r';
  rf_identity : rv_run_id r' = rv_run_id r ∧ rv_incident_id r' = rv_incident_id r ∧
                rv_request_ref r' = rv_request_ref r ∧ rv_workflow_id r' = rv_workflow_id r ∧
                rv_tenant_id r' = rv_tenant_id r ∧ rv_created_at r' = rv_created_at r;
  rf_terminal : run_terminal (rv_status r) = true → r' = r
}.

Lemma replay_follows l : ∀ r o,
  foldM reduce_opt (Some r) l = Ok o → ∃ r', o = Some r' ∧ run_follows r r'.
Proof.
  induction l as [|e l IH]; intros r o H; cbn [foldM] in H.
  - injection H as <-. exists r. split; [done|]. split; [done|lia|done|done].
  - apply res_bind_ok in H as (o1 & Hred & H). unfold reduce_opt in Hred.
    destruct (reduce_run (Some r) e) as [r1|] eqn:Hr; [|done]. simpl in Hred. injection Hred as <-.
    apply IH in H as (r' & -> & [H1 H2 H3 H4]). exists r'. split; [done|].
    pose proof (reduce_run_some _ _ _ Hr) as (Ht & Hs & Hid).
    pose proof (reduce_run_version _ _ _ Hr) as (Hv & _ & _ & Htn).
    split.
    + by eapply rtc_l.
    + lia.
    + destruct H3 as (-> & -> & -> & -> & -> & ->). naive_solver.
    + unfold run_terminal. intros Hterm%bool_decide_eq_true. rewrite Hterm in Ht. by apply not_elem_of_nil in Ht.
Qed.

Lemma steps_run_follows st st' t id r :
  reachable st → steps st st' → _runs st !! (t, id) = Some r →
  ∃ r', _runs st' !! (t, id) = Some r' ∧ run_follows r r'.
Proof.
  intros Hreach Hsteps Hr. pose proof (steps_reachable _ _ Hsteps Hreach) as Hreach'.
  apply reachable_inv in Hreach as [Hinv _]. apply reachable_inv in Hreach' as [Hinv' _].
  apply steps_extends in Hsteps as [Hpre _]. destruct (Hpre t) as [new Hnew].
  pose proof (inv_runs _ Hinv t id) as H1. pose proof (inv_runs _ Hinv' t id) as H2.
  unfold replay_run in *. rewrite Hnew, list_filter_app, foldM_app, H1, Hr in H2. simpl in H2.
  apply replay_follows in H2 as (r' & -> & Hf). eauto.
Qed.
End history.
