(* ===== verification/Fixtures.v ===== *)
(** * A concrete ledger to evaluate

    A small digest function (a 16-bit polynomial checksum, padded to 32 bytes), one identity and
    one request.  The witnesses run the store's methods on them. *)

From S2P Require Import Prelude PyJson PyTime PyFloat PyDigest Domain Durability LedgerInvariant LedgerOps LedgerChain.

Fixpoint checksum (acc : N) (s : string) : N :=
  match s with
  | "" => acc
  | String c s => checksum (N.land (acc * 33 + N_of_ascii c) 65535) s
  end.

Definition demo_digest : Digest := λ s,
  let n := checksum 7 s in
  String (ascii_of_N (N.land n 255)) (String (ascii_of_N (N.shiftr n 8)) (str_repeat 30 "000")).

Lemma demo_digest_laws : @DigestLaws demo_digest.
Proof. split. intros b. reflexivity. Qed.

(** Floats are printed as [null]: enough for digests that only need to be computable. *)
Definition demo_float : FloatJson := λ _, JNull.

Lemma demo_float_laws : @FloatJsonLaws demo_float.
Proof. intros f. reflexivity. Qed.

(** 2026-01-01T00:00:00Z *)
Definition demo_time : datetime := 739616 * us_per_day.

Definition demo_grant : GrantBinding :=
  {| gb_role := "incident-responder"; gb_purpose := "incident-response";
     gb_permissions := ["investigation:read"; "investigation:run"];
     gb_risk_ceiling := RHigh; gb_expires_at := demo_time + hours 24 |}.

Definition demo_identity : IdentityContext :=
  {| ic_tenant_id := "tenant-a"; ic_issuer := "https://idp.example";
     ic_subject_id := "alice"; ic_principal_kind := PHuman;
     ic_roles := ["incident-responder"];
     ic_permissions := ["investigation:read"; "investigation:run"];
     ic_purposes := ["incident-response"]; ic_grants := [demo_grant]; ic_grant_version := 1;
     ic_authenticated_at := demo_time; ic_expires_at := demo_time + hours 1;
     ic_request_id := "req-1"; ic_trace_id := "trace-1" |}.

Definition demo_request : InvestigationRequest :=
  {| ir_incident_id := "inc-1";
     ir_alert := {| ca_region := "eu-west-1"; ca_observed_at := demo_time;
                    ca_failure_rate := "0.25"; ca_threshold := "0.05" |} |}.

Section demo.
#[local] Existing Instance demo_digest.

(** The store after one accepted run *)
Definition demo_accepted : res RunView * store :=
  accept_run demo_identity demo_request false demo_time empty_store.
Definition demo_store : store := demo_accepted.2.
Definition demo_run_id : string := run_id_of demo_identity demo_request.

Example demo_accepts : is_ok demo_accepted.1 = true.
Proof. vm_compute. reflexivity. Qed.
Lemma demo_store_reachable : reachable demo_store.
Proof.
  unfold demo_store, demo_accepted.
  pose proof (reachable_step empty_store (OpAcceptRun demo_identity demo_request false demo_time)
                reachable_init I) as H.
  unfold run_op in H. exact H.
Qed.

Definition demo_run : RunView :=
  match demo_accepted.1 with Ok r => r | Raise _ => Build_RunView "" "" "" "" "" QUEUED 0 0 0 0 None true end.

Lemma demo_accept : accept_run demo_identity demo_request false demo_time empty_store = (Ok demo_run, demo_store).
Proof.
  pose proof demo_accepts as H. unfold demo_run, demo_store. fold demo_accepted.
  destruct demo_accepted as [[r|e] st]; [done|discriminate].
Qed.

Lemma demo_stored : get_run demo_store "tenant-a" demo_run_id = Some demo_run.
Proof. vm_compute. reflexivity. Qed.

Definition demo_event : ApplicationEvent :=
  default (Build_ApplicationEvent "" "" "" 0 0 "" "" 0 "" "" None 0 [] "" "" "") (head (tenant_events demo_store "tenant-a")).

Lemma demo_events : tenant_events demo_store "tenant-a" = [demo_event].
Proof. vm_compute. reflexivity. Qed.

(** The first lease on the start message of the run *)
Definition demo_claimed : res (list DeliveryClaim) * store :=
  claim_outbox "tenant-a" "worker-a" demo_time (demo_time + seconds 30) 10 demo_store.
Definition demo_claim_store : store := demo_claimed.2.
Definition demo_claim : DeliveryClaim :=
  match demo_claimed.1 with
  | Ok [c] => c
  | _ => Build_DeliveryClaim "" "" "" "" "" 0 []
  end.

Definition one_claim (r : res (list DeliveryClaim)) : bool := match r with Ok [_] => true | _ => false end.

Lemma demo_claims : one_claim demo_claimed.1 = true.
Proof. vm_compute. reflexivity. Qed.

Lemma demo_claim_run :
  claim_outbox "tenant-a" "worker-a" demo_time (demo_time + seconds 30) 10 demo_store =
  (Ok [demo_claim], demo_claim_store).
Proof.
  pose proof demo_claims as H. unfold demo_claim, demo_claim_store. fold demo_claimed.
  destruct demo_claimed as [[[|c []]|e] st]; first [reflexivity|discriminate H].
Qed.

Lemma demo_claim_store_reachable : reachable demo_claim_store.
Proof.
  unfold demo_claim_store, demo_claimed.
  pose proof (reachable_step demo_store
    (OpClaimOutbox "tenant-a" "worker-a" demo_time (demo_time + seconds 30) 10) demo_store_reachable I) as H.
  unfold run_op in H. exact H.
Qed.

(** The lease after it was taken over *)
Definition demo_taken : res (list DeliveryClaim) * store :=
  claim_outbox "tenant-a" "worker-b" (demo_time + seconds 31) (demo_time + seconds 61) 10 demo_claim_store.
Definition demo_taken_store : store := demo_taken.2.
Definition demo_taken_claim : DeliveryClaim :=
  match demo_taken.1 with
  | Ok [c] => c
  | _ => Build_DeliveryClaim "" "" "" "" "" 0 []
  end.

Lemma demo_takes : one_claim demo_taken.1 = true.
Proof. vm_compute. reflexivity. Qed.

Lemma demo_taken_run :
  claim_outbox "tenant-a" "worker-b" (demo_time + seconds 31) (demo_time + seconds 61) 10 demo_claim_store =
  (Ok [demo_taken_claim], demo_taken_store).
Proof.
  pose proof demo_takes as H. unfold demo_taken_claim, demo_taken_store. fold demo_taken.
  destruct demo_taken as [[[|c []]|e] st]; first [reflexivity|discriminate H].
Qed.
End demo.
