(* ===== verification/LedgerOutbox.v ===== *)
(** * Outbox delivery: leases, fencing and bounded attempts

    What the messages of the outbox go through: [claim_outbox] leases them to a worker,
    [complete_outbox] and [fail_outbox] settle a lease, and the attempt counter fences off
    every worker whose lease was settled or taken over. *)

From S2P Require Import Prelude PyJson PyTime Domain Durability LedgerInvariant LedgerOps LedgerChain Fixtures.

Section outbox.
Context {HDigest : Digest}.

(** ** The claim loop *)

(** What the loop makes of a candidate *)
Definition claim_outcome (worker : string) (until : datetime) (r : DeliveryRecord) : DeliveryRecord :=
  if _MAX_DELIVERY_ATTEMPTS <? dr_attempts r + 1 then set_status DEAD_LETTER r
  else claimed_record worker until r.

Definition claim_of (worker : string) (r : DeliveryRecord) : option DeliveryClaim :=
  if _MAX_DELIVERY_ATTEMPTS <? dr_attempts r + 1 then None
  else Some {| dc_tenant_id := dr_tenant_id r; dc_message_id := dr_message_id r;
               dc_claim_token := claim_token_for worker r (dr_attempts r + 1);
               dc_destination := dr_destination r; dc_message_type := dr_message_type r;
               dc_attempt := dr_attempts r + 1; dc_payload := dr_payload r |}.

Lemma claim_fold worker until l : ∀ d cs,
  foldl (claim_step worker until) (d, cs) l =
  (foldl (λ d r, <[outbox_key r := claim_outcome worker until r]> d) d l,
   cs ++ omap (claim_of worker) l).
Proof.
  induction l as [|r l IH]; intros d cs; [by rewrite app_nil_r|].
  cbn [foldl fold_left claim_step omap list_omap].
  assert (claim_outcome worker until r = if _MAX_DELIVERY_ATTEMPTS <? dr_attempts r + 1
            then set_status DEAD_LETTER r else claimed_record worker until r) as -> by done.
  unfold claim_of at 1. fold (outbox_key r).
  destruct (_MAX_DELIVERY_ATTEMPTS <? dr_attempts r + 1); rewrite IH; [done|]. by rewrite <-app_assoc.
Qed.

Lemma candidates_NoDup st t now limit :
  deliveries_ok st → NoDup (outbox_key <$> outbox_candidates st t now limit).
Proof.
  intros Hok. unfold outbox_candidates, ztake.
  set (sel := List.filter _ _).
  assert (NoDup (outbox_key <$> sel.*2)) as Hnd.
  { assert (outbox_key <$> sel.*2 = sel.*1) as ->.
    - rewrite <-list_fmap_compose. apply list_fmap_ext. intros i [k r] Hi. simpl.
      apply list_elem_of_lookup_2, list_elem_of_In, filter_In in Hi as [Hi Hc].
      apply list_elem_of_In, elem_of_map_to_list in Hi. destruct (Hok _ _ Hi) as [Hkey _].
      unfold outbox_candidate in Hc. simpl in Hc. py_bool. subst k. simpl in *. unfold outbox_key. congruence.
    - subst sel. pose proof (NoDup_fst_map_to_list (_deliveries st)) as H.
      induction (map_to_list (_deliveries st)) as [|[k r] l IH]; [constructor|]. simpl in *.
      apply NoDup_cons in H as [Hk H]. case_match; [|by apply IH]. simpl. apply NoDup_cons. split; [|by apply IH].
      intros (kr & -> & Hin)%list_elem_of_fmap. apply Hk. apply list_elem_of_In, filter_In in Hin as [Hin _].
      apply list_elem_of_fmap. exists kr. split; [done|]. by apply list_elem_of_In. }
  assert (NoDup (outbox_key <$> py_sorted delivery_leb sel.*2)) as H.
  { by rewrite (fmap_Permutation outbox_key _ _ (py_sorted_perm delivery_leb sel.*2)). }
  rewrite fmap_take. eapply sublist_NoDup; [exact H|apply sublist_take].
Qed.

(** A successful [claim_outbox], spelled out *)
Lemma claim_outbox_run t worker now until limit st :
  match claim_outbox t worker now until limit st with
  | (Raise e, st') => st' = st ∧ exn_kind e = ValueError
  | (Ok claims, st') =>
      1 <= limit <= 100 ∧ now < until ∧
      claims = omap (claim_of worker) (outbox_candidates st t now limit) ∧
      st' = set_deliveries (λ d, foldl (λ d r, <[outbox_key r := claim_outcome worker until r]> d) d
              (outbox_candidates st t now limit)) st
  end.
Proof.
  unfold claim_outbox, lift, get, modify, mbind, M_bind, mret, M_ret, raise_if.
  destruct (_ || _) eqn:Hg; [done|]. rewrite claim_fold. py_bool. simpl. split_and!; try done; lia.
Qed.

(** ** The life of a message *)

Definition settled (s : DeliveryStatus) : bool :=
  match s with DELIVERED | DEAD_LETTER => true | _ => false end.

(** [msg_follows r r']: [r'] is a later record of the same message. *)
Record msg_follows (r r' : DeliveryRecord) : Prop := {
  mf_message : dr_tenant_id r' = dr_tenant_id r ∧ dr_message_id r' = dr_message_id r ∧
               dr_direction r' = dr_direction r ∧ dr_destination r' = dr_destination r ∧
               dr_message_type r' = dr_message_type r ∧ dr_payload r' = dr_payload r;
  mf_attempts : dr_attempts r <= dr_attempts r';
  mf_settled : settled (dr_status r) = true → r' = r;
  mf_claimed : dr_status r' = CLAIMED → r' = r ∨ dr_attempts r < dr_attempts r'
}.

#[export] Instance msg_follows_preorder : PreOrder msg_follows.
Proof.
  split.
  - intros r. split; first [done|lia|by left].
  - intros a b c [M1 A1 S1 C1] [M2 A2 S2 C2]. split.
    + naive_solver congruence.
    + lia.
    + intros H. rewrite S2; [by apply S1|]. by rewrite S1.
    + intros H. destruct (C2 H) as [->|]; [destruct (C1 H) as [->|]; [by left|by right]|right; lia].
Qed.

(** [messages_follow]: well-formed messages stay well formed, none is dropped, and each
    follows its life cycle. *)
Definition messages_follow (st st' : store) : Prop :=
  deliveries_ok st → deliveries_ok st' ∧
  ∀ k r, _deliveries st !! k = Some r → ∃ r', _deliveries st' !! k = Some r' ∧ msg_follows r r'.

#[local] Instance messages_follow_preorder : PreOrder messages_follow.
Proof.
  split.
  - intros st H. split; [done|]. intros k r Hr. exists r. split; [done|reflexivity].
  - intros a b c H1 H2 Ha. destruct (H1 Ha) as [Hb Hab]. destruct (H2 Hb) as [Hc Hbc].
    split; [done|]. intros k r Hr. destruct (Hab _ _ Hr) as (r1 & Hr1 & F1).
    destruct (Hbc _ _ Hr1) as (r2 & Hr2 & F2). exists r2. split; [done|by etrans].
Qed.

Lemma same_messages_follow st st' : _deliveries st' = _deliveries st → messages_follow st st'.
Proof.
  intros E. unfold messages_follow, deliveries_ok. rewrite E. intros H. split; [done|].
  intros k r Hr. exists r. split; [done|reflexivity].
Qed.

Lemma messages_append_locked t aty aid ver drafts outbox inbox :
  moves messages_follow (_append_locked t aty aid ver drafts outbox inbox).
Proof.
  intros st Hok. pose proof (append_locked_run t aty aid ver drafts outbox inbox st) as Hr.
  destruct (_append_locked _ _ _ _ _ _ _ st) as [[es|e] st']; simpl; [|subst; by apply same_messages_follow].
  destruct Hr as (tail & proj & Hg & _ & _ & _ & ->). split.
  { by apply commit_deliveries. }
  apply append_guards_fresh in Hg as [Hout Hin]. intros k r Hr. exists r. split; [|reflexivity].
  unfold commit_append. simpl.
  rewrite (foldl_insert_other (λ m, (t, "inbox", in_message_id m))).
  - rewrite (foldl_insert_other (λ m, (t, "outbox", od_message_id m))); [done|].
    intros (m & -> & Hm)%list_elem_of_fmap. rewrite Forall_forall in Hout. specialize (Hout m Hm). congruence.
  - intros (m & -> & Hm)%list_elem_of_fmap. rewrite Forall_forall in Hin. specialize (Hin m Hm). congruence.
Qed.

Lemma messages_claim t worker now until limit : moves messages_follow (claim_outbox t worker now until limit).
Proof.
  intros st Hok. pose proof (claim_outbox_run t worker now until limit st) as Hr.
  destruct (claim_outbox t worker now until limit st) as [[cs|e] st'];
    [|destruct Hr as [-> _]; by apply same_messages_follow].
  destruct Hr as (_ & _ & _ & ->). set (l := outbox_candidates st t now limit). split.
  - intros k r Hk. apply (claim_fold_ok worker until l (_deliveries st) []).
    + done.
    + apply Forall_forall. intros x Hx. apply candidates_are_stored in Hx as [Hx _]; auto.
    + by rewrite claim_fold.
  - intros k r Hk. simpl. destruct (decide (k ∈ outbox_key <$> l)) as [Hin|Hin].
    + apply list_elem_of_fmap in Hin as (x & -> & Hx).
      rewrite (foldl_insert_nodup outbox_key) by (done || by apply candidates_NoDup).
      eexists. split; [done|]. apply candidates_are_stored in Hx as [Hx Hc]; [|done].
      assert (x = r) as -> by congruence. unfold outbox_candidate in Hc. py_bool.
      assert (settled (dr_status r) = false) as Hns by (destruct (dr_status r); naive_solver).
      unfold claim_outcome. destruct (_MAX_DELIVERY_ATTEMPTS <? dr_attempts r + 1);
        split; simpl; try done; try lia; try congruence.
    + rewrite foldl_insert_other by done. exists r. split; [done|reflexivity].
Qed.

Lemma messages_update_claim claim status code retry :
  status ≠ CLAIMED → (status = PENDING → dc_attempt claim < _MAX_DELIVERY_ATTEMPTS) →
  moves messages_follow (_update_claim claim status code retry).
Proof.
  intros Hns Hp st Hok. unfold _update_claim, get, mbind, M_bind, lift, raise_if.
  set (key := (dc_tenant_id claim, "outbox", dc_message_id claim)).
  destruct (_deliveries st !! key) as [record|] eqn:Hk; [|by apply same_messages_follow].
  destruct (_ || _) eqn:Hg; [by apply same_messages_follow|]. simpl. py_bool.
  pose proof (Hok _ _ Hk) as (Hkey & Hatt & _). split.
  - intros k r Hr. simpl in Hr. rewrite lookup_insert in Hr. case_decide; [|by apply Hok]. simplify_eq.
    unfold delivery_ok. simpl. split_and!; try congruence; try lia. intros ->. specialize (Hp eq_refl). lia.
  - intros k r Hr. simpl. rewrite lookup_insert. case_decide; [|by exists r].
    simplify_eq. eexists. split; [done|]. split; simpl; try done; try lia. by rewrite H.
Qed.

Lemma messages_accept_run identity request wait now :
  moves messages_follow (accept_run identity request wait now).
Proof.
  intros st. unfold accept_run, get, mbind, M_bind, modify, on_raise, lift.
  set (key := (ic_tenant_id identity, ic_request_id identity)).
  destruct (_idempotency st !! key) as [existing|] eqn:Hk.
  { destruct (raise_if _ _ _); [|done]. unfold run_at, get, lift, mbind, M_bind, mret, M_ret.
    by destruct (of_option _ _ _). }
  destruct (accept_run_drafts identity request wait now) as [[d o]|] eqn:Hd; [|done].
  set (st1 := set_idempotency _ st). cbn [fst snd].
  assert (messages_follow st st1) as H1 by by apply same_messages_follow.
  pose proof (messages_append_locked (ic_tenant_id identity) "investigation" (run_id_of identity request)
                0 [d] [o] [] st1) as H2.
  destruct (_append_locked _ _ _ _ _ _ _ st1) as [[es|e] st2] eqn:Happ.
  - etrans; [exact H1|]. exact H2.
  - etrans; [exact H1|]. etrans; [exact H2|]. by apply same_messages_follow.
Qed.

#[export] Instance messages_order : StoreOrder messages_follow.
Proof.
  split.
  - apply _.
  - intros f st. by apply same_messages_follow.
  - intros f st. by apply same_messages_follow.
  - apply messages_append_locked.
  - apply messages_accept_run.
  - apply messages_claim.
  - apply messages_update_claim.
Qed.

Lemma update_claim_ok claim status code retry st u st' :
  _update_claim claim status code retry st = (Ok u, st') →
  ∃ r r', delivery st (dc_tenant_id claim) "outbox" (dc_message_id claim) = Some r ∧
    dr_status r = CLAIMED ∧ dr_attempts r = dc_attempt claim ∧
    delivery st' (dc_tenant_id claim) "outbox" (dc_message_id claim) = Some r' ∧
    dr_status r' = status ∧ dr_attempts r' = dc_attempt claim.
Proof.
  unfold _update_claim, get, mbind, M_bind, lift, raise_if, delivery.
  destruct (_deliveries st !! _) as [r|] eqn:Hk; [|done]. destruct (_ || _) eqn:Hg; [done|].
  simpl. py_bool. intros Hm. unfold modify in Hm. injection Hm as _ <-. simpl. rewrite lookup_insert_eq.
  eexists r, _. split_and!; done.
Qed.

(** A claim is fenced off once its message has moved past it. *)
Definition past_claim (claim : DeliveryClaim) (r : DeliveryRecord) : Prop :=
  dc_attempt claim < dr_attempts r ∨ dc_attempt claim <= dr_attempts r ∧ dr_status r ≠ CLAIMED.

Lemma past_claim_follows claim r r' : msg_follows r r' → past_claim claim r → past_claim claim r'.
Proof.
  intros [_ Ha _ Hc] [H|[H Hs]]; [left; lia|].
  destruct (decide (dr_status r' = CLAIMED)) as [E|E]; [|right; split; [lia|done]].
  destruct (Hc E) as [->|]; [done|left; lia].
Qed.

Lemma update_claim_stale claim status code retry st r :
  delivery st (dc_tenant_id claim) "outbox" (dc_message_id claim) = Some r → past_claim claim r →
  ∃ e, _update_claim claim status code retry st = (Raise e, st) ∧ exn_kind e = MessageClaimConflict.
Proof.
  unfold _update_claim, get, mbind, M_bind, lift, raise_if, delivery. intros -> Hp.
  destruct (_ || _) eqn:Hg; [by eexists|]. py_bool. destruct Hp as [|[]]; [lia|done].
Qed.

Lemma steps_message st st' t dir id r :
  reachable st → steps st st' → delivery st t dir id = Some r →
  ∃ r', delivery st' t dir id = Some r' ∧ msg_follows r r'.
Proof.
  intros [Hc _]%reachable_inv Hs Hr.
  destruct (steps_moves messages_follow _ _ Hs (inv_deliveries _ Hc)) as [_ H]. by apply H.
Qed.

Lemma claims_are_candidates t worker now until limit st claims st' c :
  deliveries_ok st → claim_outbox t worker now until limit st = (Ok claims, st') → c ∈ claims →
  ∃ r, delivery st (dc_tenant_id c) "outbox" (dc_message_id c) = Some r ∧
    outbox_candidate t now (outbox_key r) r = true ∧ claim_of worker r = Some c ∧
    delivery st' (dc_tenant_id c) "outbox" (dc_message_id c) = Some (claimed_record worker until r).
Proof.
  intros Hok Hrun Hc. pose proof (claim_outbox_run t worker now until limit st) as Hr.
  rewrite Hrun in Hr. destruct Hr as (_ & _ & -> & ->).
  apply list_elem_of_omap in Hc as (r & Hr & Hco). exists r.
  pose proof (candidates_are_stored st t now limit r Hok Hr) as [Hst Hcand].
  assert (claim_outcome worker until r = claimed_record worker until r ∧
          (dc_tenant_id c, "outbox", dc_message_id c) = outbox_key r) as [Hout Hkey].
  { unfold claim_of in Hco. unfold claim_outcome. destruct (_ <? _); [done|]. by simplify_eq. }
  unfold delivery. rewrite Hkey. split_and!; try done. simpl.
  rewrite (foldl_insert_nodup outbox_key) by (done || by apply candidates_NoDup). by rewrite Hout.
Qed.

(** A lease is exclusive.  [claim_outbox] never hands the same message out twice in a
    batch; each claim can be settled by its holder; and until the lease runs out no other
    [claim_outbox] call returns the message. *)
Theorem lease_is_exclusive t worker now until limit st claims st1 c :
  reachable st → claim_outbox t worker now until limit st = (Ok claims, st1) → c ∈ claims →
  NoDup ((λ c, (dc_tenant_id c, dc_message_id c)) <$> claims) ∧
  is_ok (complete_outbox c st1).1 = true ∧
  ∀ t' worker' now' until' limit' claims' st2,
    now' < until → claim_outbox t' worker' now' until' limit' st1 = (Ok claims', st2) →
    Forall (λ c', (dc_tenant_id c', dc_message_id c') ≠ (dc_tenant_id c, dc_message_id c)) claims'.
Proof.
  intros Hreach Hrun Hc.
  assert (reachable st1) as Hreach1.
  { pose proof (reachable_step st (OpClaimOutbox t worker now until limit) Hreach I) as H.
    simpl in H. by rewrite Hrun in H. }
  apply reachable_inv in Hreach as [Hinv _]. apply inv_deliveries in Hinv as Hok.
  apply reachable_inv in Hreach1 as [Hinv1 _]. apply inv_deliveries in Hinv1 as Hok1.
  destruct (claims_are_candidates _ _ _ _ _ _ _ _ _ Hok Hrun Hc) as (r & Hr & Hcand & Hco & Hr1).
  split_and!.
  - pose proof (claim_outbox_run t worker now until limit st) as H. rewrite Hrun in H.
    destruct H as (_ & _ & -> & _). pose proof (candidates_NoDup st t now limit Hok) as Hnd.
    clear -Hnd. induction (outbox_candidates st t now limit) as [|x l IH]; [constructor|].
    rewrite fmap_cons in Hnd. apply NoDup_cons in Hnd as [Hx Hnd]. simpl.
    unfold claim_of at 1. destruct (_ <? _); [by apply IH|]. rewrite fmap_cons. apply NoDup_cons. split; [|by apply IH].
    intros (y & Hy & (z & Hz & Hyz)%list_elem_of_omap)%list_elem_of_fmap. apply Hx.
    apply list_elem_of_fmap. exists z. split; [|done]. unfold claim_of in Hyz.
    destruct (_ <? _); [done|]. simplify_eq/=. unfold outbox_key. congruence.
  - unfold complete_outbox, _update_claim, get, mbind, M_bind, lift, raise_if.
    unfold delivery in Hr1. rewrite Hr1. unfold claim_of in Hco. destruct (_ <? _); [done|]. simplify_eq/=.
    rewrite !bool_decide_eq_false_2 by auto. by rewrite Z.eqb_refl.
  - intros t' worker' now' until' limit' claims' st2 Hlt Hrun'. apply Forall_forall. intros c' Hc' E.
    destruct (claims_are_candidates _ _ _ _ _ _ _ _ _ Hok1 Hrun' Hc') as (r' & Hr' & Hcand' & _).
    assert (r' = claimed_record worker until r) as ->.
    { injection E as E1 E2. rewrite E1, E2 in Hr'. congruence. }
    unfold outbox_candidate in Hcand'. simpl in Hcand'. py_bool. lia.
Qed.

(** a message is never lost, its content never changes, its attempt counter never
    decreases and never exceeds [_MAX_DELIVERY_ATTEMPTS], a delivered or dead-lettered
    message stays as it is, and a message is leased again only with a higher attempt. *)
Theorem message_life_cycle st st' t direction message_id r :
  reachable st → steps st st' → delivery st t direction message_id = Some r →
  ∃ r', delivery st' t direction message_id = Some r' ∧ msg_follows r r' ∧
        0 <= dr_attempts r' <= _MAX_DELIVERY_ATTEMPTS.
Proof.
  intros Hreach Hs Hr. destruct (steps_message _ _ _ _ _ _ Hreach Hs Hr) as (r' & Hr' & Hf).
  exists r'. split_and!; try done; apply (steps_reachable _ _ Hs) in Hreach;
    apply reachable_inv in Hreach as [Hinv _]; apply (inv_deliveries _ Hinv) in Hr' as (_ & ? & _); lia.
Qed.

(** A claim settles at most once.  After [complete_outbox] or [fail_outbox] accepted a
    claim, every later attempt to settle it, through any further calls, is refused with
    [MessageClaimConflict] and changes nothing. *)
Theorem claim_settles_once claim st u st1 st2 code retry permanent :
  reachable st →
  complete_outbox claim st = (Ok u, st1) ∨ fail_outbox claim code retry permanent st = (Ok u, st1) →
  steps st1 st2 →
  (∃ e, complete_outbox claim st2 = (Raise e, st2) ∧ exn_kind e = MessageClaimConflict) ∧
  (∀ code' retry' permanent', ∃ e, fail_outbox claim code' retry' permanent' st2 = (Raise e, st2) ∧
     exn_kind e = MessageClaimConflict).
Proof.
  intros Hreach Hset Hs.
  assert (∃ r1, delivery st1 (dc_tenant_id claim) "outbox" (dc_message_id claim) = Some r1 ∧
     past_claim claim r1 ∧ reachable st1) as (r1 & Hr1 & Hp & Hreach1).
  { destruct Hset as [H|H].
    - pose proof (reachable_step st (OpCompleteOutbox claim) Hreach I) as Hn. simpl in Hn. rewrite H in Hn.
      apply update_claim_ok in H as (_ & r' & _ & _ & _ & Hr' & Hst & Hat).
      exists r'. split_and!; [done| |done]. right. rewrite Hst. split; [lia|done].
    - pose proof (reachable_step st (OpFailOutbox claim code retry permanent) Hreach I) as Hn. simpl in Hn.
      rewrite H in Hn. apply update_claim_ok in H as (_ & r' & _ & _ & _ & Hr' & Hst & Hat).
      exists r'. split_and!; [done| |done]. right. rewrite Hst. split; [lia|by destruct (_ || _)]. }
  destruct (steps_message _ _ _ _ _ _ Hreach1 Hs Hr1) as (r2 & Hr2 & Hf).
  eapply past_claim_follows in Hp; [|exact Hf].
  split; intros; by eapply update_claim_stale.
Qed.

(** A worker whose lease was taken over is fenced off.  If a message claimed by [c1] is
    claimed again by [c2] later on, [c2] carries a higher attempt number, and from then on
    neither [complete_outbox] nor [fail_outbox] accepts [c1]. *)
Theorem takeover_fences t1 w1 now1 until1 l1 st1 cs1 st1' st2 t2 w2 now2 until2 l2 cs2 st2' st3 c1 c2 :
  reachable st1 → claim_outbox t1 w1 now1 until1 l1 st1 = (Ok cs1, st1') → c1 ∈ cs1 →
  steps st1' st2 → claim_outbox t2 w2 now2 until2 l2 st2 = (Ok cs2, st2') → c2 ∈ cs2 →
  dc_tenant_id c2 = dc_tenant_id c1 → dc_message_id c2 = dc_message_id c1 → steps st2' st3 →
  dc_attempt c1 < dc_attempt c2 ∧
  (∃ e, complete_outbox c1 st3 = (Raise e, st3) ∧ exn_kind e = MessageClaimConflict) ∧
  (∀ code retry permanent, ∃ e, fail_outbox c1 code retry permanent st3 = (Raise e, st3) ∧
     exn_kind e = MessageClaimConflict).
Proof.
  intros R1 Hc1 In1 S12 Hc2 In2 Et Em S23.
  pose proof (reachable_step st1 (OpClaimOutbox t1 w1 now1 until1 l1) R1 I) as R1'. simpl in R1'. rewrite Hc1 in R1'.
  pose proof (steps_reachable _ _ S12 R1') as R2.
  pose proof (reachable_step st2 (OpClaimOutbox t2 w2 now2 until2 l2) R2 I) as R2'. simpl in R2'. rewrite Hc2 in R2'.
  apply claims_are_candidates with (c := c1) in Hc1 as (r1 & _ & _ & Hco1 & Hr1);
    [|apply (inv_deliveries _ (proj1 (reachable_inv _ R1)))|done].
  apply claims_are_candidates with (c := c2) in Hc2 as (r2 & Hr2 & _ & Hco2 & Hr2');
    [|apply (inv_deliveries _ (proj1 (reachable_inv _ R2)))|done].
  rewrite Et, Em in Hr2, Hr2'.
  destruct (steps_message _ _ _ _ _ _ R1' S12 Hr1) as (r2x & Hr2x & F12).
  assert (r2x = r2) as -> by congruence.
  destruct (steps_message _ _ _ _ _ _ R2' S23 Hr2') as (r3 & Hr3 & F23).
  destruct F12 as [_ A12 _ _]. destruct F23 as [_ A23 _ _]. simpl in *.
  unfold claim_of in Hco1, Hco2. destruct (_MAX_DELIVERY_ATTEMPTS <? dr_attempts r1 + 1); [done|].
  destruct (_MAX_DELIVERY_ATTEMPTS <? dr_attempts r2 + 1); [done|]. simplify_eq/=.
  split; [lia|]. split; intros; eapply update_claim_stale; try exact Hr3; left; simpl; lia.
Qed.
End outbox.

(** ** Evaluations *)

Section witnesses.
#[local] Existing Instance demo_digest.

Lemma lease_is_exclusive_witness : is_ok (complete_outbox demo_claim demo_claim_store).1 = true.
Proof.
  apply (lease_is_exclusive "tenant-a" "worker-a" demo_time (demo_time + seconds 30) 10 demo_store
           [demo_claim] demo_claim_store demo_claim).
  - apply demo_store_reachable.
  - apply demo_claim_run.
  - by left.
Defined.

Definition demo_message : DeliveryRecord :=
  default (inbox_record "" 0 (Build_InboxDraft "" "" "" []))
    (delivery demo_claim_store "tenant-a" "outbox" (dc_message_id demo_claim)).

Lemma message_life_cycle_witness :
  ∃ r', delivery demo_claim_store "tenant-a" "outbox" (dc_message_id demo_claim) = Some r' ∧
        msg_follows demo_message r' ∧ 0 <= dr_attempts r' <= _MAX_DELIVERY_ATTEMPTS.
Proof.
  apply (message_life_cycle demo_claim_store).
  - apply demo_claim_store_reachable.
  - apply steps_refl.
  - vm_compute. reflexivity.
Defined.

Definition demo_completed : store := (complete_outbox demo_claim demo_claim_store).2.

Lemma claim_settles_once_witness :
  ∃ e, complete_outbox demo_claim demo_completed = (Raise e, demo_completed) ∧ exn_kind e = MessageClaimConflict.
Proof.
  refine (proj1 (claim_settles_once demo_claim demo_claim_store () demo_completed demo_completed "" 0 false _ _ _)).
  - apply demo_claim_store_reachable.
  - left. vm_compute. reflexivity.
  - apply steps_refl.
Defined.

Lemma takeover_fences_witness : dc_attempt demo_claim < dc_attempt demo_taken_claim.
Proof.
  refine (proj1 (takeover_fences "tenant-a" "worker-a" demo_time (demo_time + seconds 30) 10 demo_store [demo_claim]
           demo_claim_store demo_claim_store "tenant-a" "worker-b" (demo_time + seconds 31) (demo_time + seconds 61)
           10 [demo_taken_claim] demo_taken_store demo_taken_store demo_claim demo_taken_claim _ _ _ _ _ _ _ _ _)).
  - apply demo_store_reachable.
  - apply demo_claim_run.
  - by left.
  - apply steps_refl.
  - apply demo_taken_run.
  - by left.
  - vm_compute. reflexivity.
  - vm_compute. reflexivity.
  - apply steps_refl.
Defined.
End witnesses.
