(* ===== verification/LedgerTheorems.v ===== *)
(** * What the durable ledger promises

    The properties of [InMemoryDurability] in terms of its methods, each with an
    evaluation on the concrete ledger of [Fixtures]. *)

From S2P Require Import Prelude PyJson PyTime Domain Durability LedgerInvariant LedgerOps LedgerChain Fixtures.

Section theorems.
Context {HDigest : Digest}.



(** The store with one tenant's event list replaced *)
Definition replace_events (t : string) (l : list ApplicationEvent) (st : store) : store :=
  {| _events := <[t := l]> (_events st); _aggregate_heads := _aggregate_heads st;
     _tenant_heads := _tenant_heads st; _event_ids := _event_ids st;
     _idempotency := _idempotency st; _deliveries := _deliveries st; _runs := _runs st;
     _projection_checkpoints := _projection_checkpoints st |}.

(** C3: tamper evidence.  Replace a tenant's events by any other list that
    [verify_integrity] still accepts and that ends in the recorded tenant head: the list
    holds the original events (payloads as dicts), or an event of it and an event of the
    original are a SHA-256 collision. *)
Theorem tampering_is_evident st t l last_event :
  reachable st →
  verify_integrity (replace_events t l st) t = Ok true →
  last l = Some last_event →
  ev_tenant_cursor last_event = th_cursor (tenant_head_of st t) →
  ev_record_hash last_event = th_record_hash (tenant_head_of st t) →
  Forall (λ e, event_wf e = true) (tenant_events st t) → Forall (λ e, event_wf e = true) l →
  events_collide l (tenant_events st t) ∨ canon_event <$> l = canon_event <$> tenant_events st t.
Proof.
  intros [Hc _]%reachable_inv Hv Hl Hcur Hhash Hw1 Hw2.
  destruct (inv_chain _ Hc t) as (v & Hver & Hth & _).
  unfold verify_integrity in Hv. apply res_bind_ok in Hv as (o & Ho & Hv).
  injection Hv as [v2 ->]%bool_decide_eq_true.
  assert (tenant_events (replace_events t l st) t = l) as Hte.
  { unfold tenant_events, replace_events. simpl. by rewrite lookup_insert_eq. }
  rewrite Hte in Ho. apply (same_head_same_events l _ v2 v); try done.
  pose proof (verified_cursor _ _ Ho) as Hc2. destruct (verified_position _ _ Ho) as [Hlast Hpos].
  rewrite Hl in Hlast. simpl in Hlast. rewrite Hth.
  rewrite last_lookup in Hl. destruct (Hpos _ _ Hl) as [Hcl _]. apply lookup_lt_Some in Hl as Hlen.
  destruct (v_tenant_head v2), (tenant_head_of st t). simpl in *. unfold zlen in Hc2. f_equal; [lia|congruence].
Qed.

(** C34: [append], [accept_run], [record_transition], [accept_signal] and [rebuild_run] are
    all or nothing: a call that raises leaves the store as it was (the idempotency entry
    [accept_run] writes before appending is taken back). *)
Theorem commands_are_atomic :
  (∀ t aty aid ver drafts outbox inbox, atomic (append t aty aid ver drafts outbox inbox)) ∧
  (∀ identity request wait now, atomic (accept_run identity request wait now)) ∧
  (∀ t run_id ety op actor req code attrs now,
     atomic (record_transition t run_id ety op actor req code attrs now)) ∧
  (∀ identity command now1 now2, atomic (accept_signal identity command now1 now2)).
Proof.
  split_and!.
  - intros t aty aid ver drafts outbox inbox st e st' H. unfold append, lift, mbind, M_bind in H.
    destruct (raise_if _ _ _); [by eapply append_locked_atomic|]. by injection H.
  - intros identity request wait now st e st'. unfold accept_run, get, mbind, M_bind, modify, on_raise, lift.
    set (key := (ic_tenant_id identity, ic_request_id identity)).
    destruct (_idempotency st !! key) as [existing|] eqn:Hk.
    { destruct (raise_if _ _ _); [|by intros [= _ ->]].
      unfold run_at, get, lift, mbind, M_bind, mret, M_ret. destruct (of_option _ _ _); [done|by intros [= _ ->]]. }
    destruct (accept_run_drafts identity request wait now) as [[d o]|]; [|by intros [= _ ->]].
    set (st1 := set_idempotency _ st). cbn [fst snd].
    destruct (_append_locked _ _ _ _ _ _ _ st1) as [[es|e'] st2] eqn:Happ.
    + apply append_one_run in Happ as [r Hr]. unfold run_at, get, lift, mbind, M_bind. by rewrite Hr.
    + apply append_locked_atomic in Happ as ->. intros [= _ <-]. unfold st1, set_idempotency. simpl.
      rewrite delete_insert_id by done. by destruct st.
  - intros t run_id ety op actor req code attrs now st e st'. unfold record_transition, get, mbind, M_bind, lift.
    destruct (_runs st !! (t, run_id)); [|by intros [= _ ->]]. cbv zeta. case_decide; [done|].
    destruct (new_EventDraft _); [|by intros [= _ ->]].
    destruct (_append_locked _ _ _ _ _ _ _ st) as [[es|e'] st2] eqn:Happ.
    + apply append_one_run in Happ as [r' Hr]. unfold run_at, get, lift, mbind, M_bind. by rewrite Hr.
    + apply append_locked_atomic in Happ as ->. by intros [= _ <-].
  - intros identity command now1 now2 st e st'. unfold accept_signal, get, mbind, M_bind, lift. cbv zeta.
    destruct (_runs st !! (ic_tenant_id identity, sc_run_id command)); [|by intros [= _ ->]].
    destruct (_deliveries st !! (ic_tenant_id identity, "inbox", sc_command_id command));
      (destruct (raise_if _ _ _); [|by intros [= _ ->]]); [done|].
    destruct (new_InboxDraft _); [|by intros [= _ ->]]. destruct (new_OutboxDraft _); [|by intros [= _ ->]].
    destruct (new_EventDraft _); [|by intros [= _ ->]].
    destruct (_append_locked _ _ _ _ _ _ _ st) as [[es|e'] st2] eqn:Happ.
    + apply append_one_run in Happ as [r' Hr]. unfold run_at, get, lift, mbind, M_bind. by rewrite Hr.
    + apply append_locked_atomic in Happ as ->. by intros [= _ <-].
Qed.

(** C28: along any sequence of calls a run's status only follows the state machine of
    [_validate_run_transition], its version never decreases, its identifying fields never
    change, and a terminal run keeps its view for ever. *)
Theorem runs_follow_state_machine st st' t run_id r :
  reachable st → steps st st' → get_run st t run_id = Some r →
  ∃ r', get_run st' t run_id = Some r' ∧ run_follows r r'.
Proof. apply steps_run_follows. Qed.

Lemma accept_run_records identity request wait now st r st' :
  accept_run identity request wait now st = (Ok r, st') →
  ∃ rec, _idempotency st' !! (ic_tenant_id identity, ic_request_id identity) = Some rec ∧
         ir_fingerprint rec = run_fingerprint request wait.
Proof.
  unfold accept_run, get, mbind, M_bind, modify, on_raise, lift.
  set (key := (ic_tenant_id identity, ic_request_id identity)).
  destruct (_idempotency st !! key) as [existing|] eqn:Hk.
  { destruct (raise_if _ _ _) eqn:Hf; [|done]. apply raise_if_ok in Hf. py_bool.
    unfold run_at, get, lift, mbind, M_bind, mret, M_ret. destruct (of_option _ _ _); [|done].
    intros [= _ <-]. eauto. }
  destruct (accept_run_drafts identity request wait now) as [[d o]|]; [|done].
  set (st1 := set_idempotency _ st). cbn [fst snd].
  destruct (_append_locked _ _ _ _ _ _ _ st1) as [[es|e'] st2] eqn:Happ; [|done].
  unfold run_at, get, lift, mbind, M_bind. intros H. injection H as _ <-.
  pose proof (append_locked_run (ic_tenant_id identity) "investigation" (run_id_of identity request)
                0 [d] [o] [] st1) as Hr.
  rewrite Happ in Hr. destruct Hr as (tail & proj & _ & _ & _ & _ & ->).
  unfold commit_append, st1, set_idempotency. simpl. rewrite lookup_insert_eq. eauto.
Qed.

(** submission is idempotent.  Once a request id has been accepted, then after any
    further calls, submitting it again with the same input returns the current view of the
    accepted run, marked replayed, without changing the store; submitting it with input of
    another fingerprint is refused with [IdempotencyConflict], again without a change. *)
Theorem accept_run_idempotent identity request wait now st r st1 st2 :
  reachable st → accept_run identity request wait now st = (Ok r, st1) → steps st1 st2 →
  (∃ run_id r2, get_run st2 (ic_tenant_id identity) run_id = Some r2 ∧
     ∀ now', accept_run identity request wait now' st2 = (Ok (mark_replayed r2), st2)) ∧
  (∀ request' wait' now', run_fingerprint request' wait' ≠ run_fingerprint request wait →
     ∃ e, accept_run identity request' wait' now' st2 = (Raise e, st2) ∧
          exn_kind e = IdempotencyConflict).
Proof.
  intros Hreach Hacc Hsteps.
  assert (reachable st1) as Hreach1.
  { pose proof (reachable_step st (OpAcceptRun identity request wait now) Hreach I) as H.
    simpl in H. by rewrite Hacc in H. }
  pose proof (steps_reachable _ _ Hsteps Hreach1) as Hreach2.
  apply accept_run_records in Hacc as (rec & Hrec & Hfp).
  apply steps_extends in Hsteps as [_ Hsub]. eapply lookup_weaken in Hrec; [|exact Hsub].
  apply reachable_inv in Hreach2 as [_ Hidem]. destruct (Hidem _ _ Hrec) as [r2 Hr2]. simpl in Hr2.
  split.
  - exists (ir_run_id rec), r2. split; [done|]. intros now'.
    unfold accept_run, get, mbind, M_bind, lift. rewrite Hrec, Hfp, bool_decide_eq_false_2 by auto.
    simpl. unfold run_at, get, lift, mbind, M_bind. by rewrite Hr2.
  - intros request' wait' now' Hne. eexists.
    unfold accept_run, get, mbind, M_bind, lift. rewrite Hrec, Hfp, bool_decide_eq_true_2 by auto. done.
Qed.

(** The audit of one run succeeds on every reachable store: for a stored run of at
    most [maximum] events, [verify_run_integrity] answers [True]; it follows the run's
    aggregate links through the tenant chain and ends at the stored aggregate head. *)
Theorem run_always_verifies st t run_id r maximum :
  reachable st → get_run st t run_id = Some r → 1 <= maximum <= 10000 →
  zlen (List.filter (is_run_event run_id) (tenant_events st t)) <= maximum →
  verify_run_integrity st t run_id maximum = Ok true.
Proof. intros [Hc _]%reachable_inv. by eapply verify_run_integrity_ok. Qed.

(** [append] accepts a batch whose drafts carry a schema version other than 1
    (the field allows 1 to 1000), and from then on [verify_integrity] rejects the tenant's
    ledger. *)
Theorem foreign_schema_breaks_integrity st t aty aid ver drafts outbox inbox es st' :
  reachable st → Forall EventDraft_valid drafts →
  Exists (λ d, ed_schema_version d ≠ 1) drafts →
  append t aty aid ver drafts outbox inbox st = (Ok es, st') →
  verify_integrity st' t = Ok false.
Proof.
  intros [Hc _]%reachable_inv Hval Hbad Happ. unfold append, lift, mbind, M_bind in Happ.
  destruct (raise_if _ _ _); [|done].
  pose proof (append_locked_run t aty aid ver drafts outbox inbox st) as Hr. rewrite Happ in Hr.
  destruct Hr as (tail & proj & _ & Hb & _ & _ & ->).
  apply build_events_all in Hb as [_ Hds]. destruct (inv_chain _ Hc t) as (v & Hv & _).
  unfold verify_integrity. rewrite tenant_events_commit, decide_True by done.
  rewrite verify_events_app, Hv. simpl. clear Happ Hc Hv.
  assert (verify_events v es = Ok None) as ->; [|done].
  subst drafts. revert v Hval Hbad. induction es as [|e es IH]; intros v Hval Hbad; [by inversion Hbad|].
  inversion_clear Hval as [|?? Hd Hval']. cbn [verify_events].
  unfold verify_step at 1. rewrite Hd. cbn [mbind res_bind].
  destruct (Z.eqb_spec (ev_schema_version e) 1) as [E|E]; [|done].
  destruct (_ || _); [done|]. cbn [mbind res_bind]. apply IH; [done|].
  inversion_clear Hbad; [done|done].
Qed.
End theorems.

(** ** Evaluations *)

Section witnesses.
#[local] Existing Instance demo_digest.



Lemma tampering_is_evident_witness :
  events_collide [demo_event] (tenant_events demo_store "tenant-a") ∨
  canon_event <$> [demo_event] = canon_event <$> tenant_events demo_store "tenant-a".
Proof.
  apply (tampering_is_evident demo_store "tenant-a" [demo_event] demo_event).
  - apply demo_store_reachable.
  - vm_compute. reflexivity.
  - reflexivity.
  - vm_compute. reflexivity.
  - vm_compute. reflexivity.
  - rewrite demo_events. repeat constructor.
  - repeat constructor.
Defined.

Lemma runs_follow_state_machine_witness :
  ∃ r', get_run (run_op (OpRecordTransition "tenant-a" demo_run_id "investigation.started" "op-1" "actor"
                           "request" None None demo_time) demo_store) "tenant-a" demo_run_id = Some r' ∧
        run_follows demo_run r'.
Proof.
  apply (runs_follow_state_machine demo_store).
  - apply demo_store_reachable.
  - eapply steps_op; [|apply steps_refl]. exact I.
  - apply demo_stored.
Defined.

Lemma accept_run_idempotent_witness :
  ∃ run_id r2, get_run demo_store "tenant-a" run_id = Some r2 ∧
    ∀ now', accept_run demo_identity demo_request false now' demo_store = (Ok (mark_replayed r2), demo_store).
Proof.
  apply (accept_run_idempotent demo_identity demo_request false demo_time empty_store demo_run demo_store demo_store).
  - apply reachable_init.
  - apply demo_accept.
  - apply steps_refl.
Defined.

Lemma run_always_verifies_witness : verify_run_integrity demo_store "tenant-a" demo_run_id 10000 = Ok true.
Proof.
  apply (run_always_verifies demo_store "tenant-a" demo_run_id demo_run 10000).
  - apply demo_store_reachable.
  - apply demo_stored.
  - lia.
  - rewrite demo_events. vm_compute. discriminate.
Defined.

Definition foreign_draft : EventDraft :=
  {| ed_event_id := "event-2"; ed_event_type := "audit.note"; ed_occurred_at := demo_time;
     ed_actor_ref := "actor"; ed_correlation_ref := "request"; ed_causation_ref := None;
     ed_schema_version := 2; ed_payload := [] |}.

Definition foreign_append : res (list ApplicationEvent) * store :=
  append "tenant-a" "note" "note-1" 0 [foreign_draft] [] [] demo_store.

Lemma foreign_schema_breaks_integrity_witness :
  verify_integrity foreign_append.2 "tenant-a" = Ok false.
Proof.
  apply (foreign_schema_breaks_integrity demo_store "tenant-a" "note" "note-1" 0 [foreign_draft] [] []
           (match foreign_append.1 with Ok es => es | Raise _ => [] end) foreign_append.2).
  - apply demo_store_reachable.
  - constructor; [vm_compute; reflexivity|constructor].
  - constructor. discriminate.
  - vm_compute. reflexivity.
Defined.
End witnesses.
