(* ===== verification/Authorization.v ===== *)
(** * Authorization ([authorization.py], [ports.py], [access.py])

    The actions, the immutable role catalogue and [EnterprisePolicy]: every operation is
    checked against the tenant's current policy and the identity's current grants, and is
    denied unless both allow it. *)

From S2P Require Import Prelude PyJson PyTime Domain.

(** ** Actions *)

Inductive Action :=
  | INVESTIGATION_RUN | INVESTIGATION_READ | TENANT_READ | POLICY_READ
  | POLICY_WRITE | QUOTA_READ | QUOTA_WRITE | AUDIT_READ
  | MODEL_CATALOG_READ | MODEL_USAGE_READ | MODEL_HEALTH_READ | EVIDENCE_QUERY_READ
  | EVIDENCE_CURSOR_READ | ORCHESTRATION_ARTIFACT_READ | REMEDIATION_PROPOSE | REMEDIATION_READ
  | APPROVAL_REQUEST | APPROVAL_DECIDE | APPROVAL_REVOKE | EFFECT_EXECUTE
  | EFFECT_READ | SANDBOX_EXECUTE | SANDBOX_READ | SANDBOX_ARTIFACT_READ
  | MEMORY_WRITE | MEMORY_READ | MEMORY_RETRIEVE | MEMORY_DELETE
  | OPERATIONS_READ | SUPPORT_READ | REPLAY_READ | PROJECTION_REBUILD
  | INTEROPERABILITY_READ | INTEROPERABILITY_INVOKE | INTEROPERABILITY_TRUST_ADMIN.
#[export] Instance Action_eq_dec : EqDecision Action.
Proof. solve_decision. Defined.

Definition action_value (a : Action) : string :=
  match a with
  | INVESTIGATION_RUN => "investigation:run"
  | INVESTIGATION_READ => "investigation:read"
  | TENANT_READ => "tenant:read"
  | POLICY_READ => "policy:read"
  | POLICY_WRITE => "policy:write"
  | QUOTA_READ => "quota:read"
  | QUOTA_WRITE => "quota:write"
  | AUDIT_READ => "audit:read"
  | MODEL_CATALOG_READ => "model:catalog:read"
  | MODEL_USAGE_READ => "model:usage:read"
  | MODEL_HEALTH_READ => "model:health:read"
  | EVIDENCE_QUERY_READ => "evidence:query:read"
  | EVIDENCE_CURSOR_READ => "evidence:cursor:read"
  | ORCHESTRATION_ARTIFACT_READ => "orchestration:artifact:read"
  | REMEDIATION_PROPOSE => "remediation:propose"
  | REMEDIATION_READ => "remediation:read"
  | APPROVAL_REQUEST => "approval:request"
  | APPROVAL_DECIDE => "approval:decide"
  | APPROVAL_REVOKE => "approval:revoke"
  | EFFECT_EXECUTE => "effect:execute"
  | EFFECT_READ => "effect:read"
  | SANDBOX_EXECUTE => "sandbox:execute"
  | SANDBOX_READ => "sandbox:read"
  | SANDBOX_ARTIFACT_READ => "sandbox:artifact:read"
  | MEMORY_WRITE => "memory:write"
  | MEMORY_READ => "memory:read"
  | MEMORY_RETRIEVE => "memory:retrieve"
  | MEMORY_DELETE => "memory:delete"
  | OPERATIONS_READ => "operations:read"
  | SUPPORT_READ => "support:read"
  | REPLAY_READ => "replay:read"
  | PROJECTION_REBUILD => "projection:rebuild"
  | INTEROPERABILITY_READ => "interoperability:read"
  | INTEROPERABILITY_INVOKE => "interoperability:invoke"
  | INTEROPERABILITY_TRUST_ADMIN => "interoperability:trust:admin"
  end.

(** ** Roles *)

(** [RoleCatalog.DEFINITIONS.get(role, ())] *)
Definition role_actions (role : string) : list Action :=
  if decide (role = "incident-responder") then
    [INVESTIGATION_RUN; INVESTIGATION_READ; EVIDENCE_QUERY_READ; EVIDENCE_CURSOR_READ;
     MODEL_CATALOG_READ; MODEL_HEALTH_READ; MODEL_USAGE_READ; ORCHESTRATION_ARTIFACT_READ;
     REMEDIATION_PROPOSE; REMEDIATION_READ; APPROVAL_REQUEST; EFFECT_READ; SANDBOX_EXECUTE;
     SANDBOX_READ; SANDBOX_ARTIFACT_READ; MEMORY_WRITE; MEMORY_READ; MEMORY_RETRIEVE;
     OPERATIONS_READ; SUPPORT_READ; REPLAY_READ; TENANT_READ; POLICY_READ; QUOTA_READ]
  else if decide (role = "incident-viewer") then
    [INVESTIGATION_READ; EVIDENCE_QUERY_READ; EVIDENCE_CURSOR_READ; MODEL_CATALOG_READ;
     MODEL_HEALTH_READ; MODEL_USAGE_READ; ORCHESTRATION_ARTIFACT_READ; REMEDIATION_READ;
     EFFECT_READ; SANDBOX_READ; SANDBOX_ARTIFACT_READ; MEMORY_READ; MEMORY_RETRIEVE;
     OPERATIONS_READ; TENANT_READ; POLICY_READ; QUOTA_READ]
  else if decide (role = "tenant-admin") then
    [TENANT_READ; POLICY_READ; POLICY_WRITE; QUOTA_READ; QUOTA_WRITE; AUDIT_READ;
     EVIDENCE_QUERY_READ; EVIDENCE_CURSOR_READ; MODEL_CATALOG_READ; MODEL_HEALTH_READ;
     MODEL_USAGE_READ; ORCHESTRATION_ARTIFACT_READ; REMEDIATION_READ; APPROVAL_DECIDE;
     APPROVAL_REVOKE; EFFECT_READ; SANDBOX_READ; SANDBOX_ARTIFACT_READ; MEMORY_WRITE;
     MEMORY_READ; MEMORY_RETRIEVE; MEMORY_DELETE; OPERATIONS_READ; SUPPORT_READ; REPLAY_READ;
     PROJECTION_REBUILD]
  else if decide (role = "tenant-auditor") then
    [TENANT_READ; POLICY_READ; QUOTA_READ; AUDIT_READ; EVIDENCE_QUERY_READ;
     EVIDENCE_CURSOR_READ; MODEL_CATALOG_READ; MODEL_HEALTH_READ; MODEL_USAGE_READ;
     ORCHESTRATION_ARTIFACT_READ; REMEDIATION_READ; EFFECT_READ; SANDBOX_READ;
     SANDBOX_ARTIFACT_READ; MEMORY_READ; OPERATIONS_READ; SUPPORT_READ; REPLAY_READ]
  else if decide (role = "workload-investigator") then
    [INVESTIGATION_RUN; INVESTIGATION_READ; MODEL_CATALOG_READ; ORCHESTRATION_ARTIFACT_READ;
     MODEL_HEALTH_READ; MODEL_USAGE_READ; QUOTA_READ; SANDBOX_EXECUTE; SANDBOX_READ;
     SANDBOX_ARTIFACT_READ; MEMORY_READ; MEMORY_RETRIEVE]
  else if decide (role = "incident-commander") then
    [REMEDIATION_READ; APPROVAL_DECIDE; APPROVAL_REVOKE; EFFECT_READ]
  else if decide (role = "change-approver") then
    [REMEDIATION_READ; APPROVAL_DECIDE; APPROVAL_REVOKE; EFFECT_READ]
  else if decide (role = "effect-worker") then
    [REMEDIATION_READ; EFFECT_EXECUTE; EFFECT_READ]
  else [].

(** [RoleCatalog.permissions_for] *)
Definition permissions_for (role : string) : list string :=
  py_sorted str_leb (action_value <$> role_actions role).

(** ** Policies *)

Record PolicyRecord := {
  po_policy_id : string;
  po_tenant_id : string;
  po_revision : Z;
  po_allowed_actions : list string;
  po_allowed_purposes : list string;
  po_max_risk : RiskLevel;
  po_version : Z
}.

(** [PolicyRecord(...)]: field constraints, then [normalize_values] *)
Definition new_PolicyRecord (p : PolicyRecord) : res PolicyRecord :=
  raise_if (negb (Identifier (po_policy_id p) && Identifier (po_tenant_id p)
                  && (1 <=? po_revision p) && forallb Identifier (po_allowed_actions p)
                  && forallb Identifier (po_allowed_purposes p) && (1 <=? po_version p)))
    ValidationError "PolicyRecord";;
  Ok {| po_policy_id := po_policy_id p; po_tenant_id := po_tenant_id p;
        po_revision := po_revision p; po_allowed_actions := sorted_set (po_allowed_actions p);
        po_allowed_purposes := sorted_set (po_allowed_purposes p);
        po_max_risk := po_max_risk p; po_version := po_version p |}.

Record PolicyDecision := {
  pd_allowed : bool;
  pd_policy_id : string;
  pd_policy_revision : Z;
  pd_purpose : string;
  pd_risk : RiskLevel;
  pd_reason : string
}.

(** The grant [_denial_reason] looks for *)
Definition grant_permits (action : Action) (purpose : string) (risk : RiskLevel) (now : datetime)
    (g : GrantBinding) : bool :=
  (now <? gb_expires_at g) && bool_decide (gb_purpose g = purpose)
  && bool_decide (action_value action ∈ gb_permissions g)
  && (risk_order risk <=? risk_order (gb_risk_ceiling g)).

Definition _denial_reason (identity : IdentityContext) (action : Action)
    (resource_tenant_id purpose : string) (risk : RiskLevel) (policy : option PolicyRecord)
    (now : datetime) : option string :=
  if decide (ic_tenant_id identity ≠ resource_tenant_id) then Some "tenant_mismatch"
  else if ic_expires_at identity <=? now then Some "identity_expired"
  else match policy with
  | None => Some "no_active_policy"
  | Some policy =>
      if decide (action_value action ∉ po_allowed_actions policy) then Some "action_disallowed_by_policy"
      else if decide (purpose ∉ po_allowed_purposes policy) then Some "purpose_disallowed_by_policy"
      else if risk_order (po_max_risk policy) <? risk_order risk then Some "risk_exceeds_policy"
      else match find (grant_permits action purpose risk now) (ic_grants identity) with
           | None => Some "no_current_purpose_grant"
           | Some _ => None
           end
  end.

(** [EnterprisePolicy.authorize]: [current_policy] is the policy repository, [now] the
    clock reading. *)
Definition authorize (current_policy : string → option PolicyRecord) (now : datetime)
    (identity : IdentityContext) (action : Action) (resource_tenant_id purpose : string)
    (risk : RiskLevel) : PolicyDecision :=
  let policy := current_policy resource_tenant_id in
  let reason := _denial_reason identity action resource_tenant_id purpose risk policy now in
  {| pd_allowed := bool_decide (reason = None);
     pd_policy_id := match policy with Some p => po_policy_id p | None => "deny-all:no-policy" end;
     pd_policy_revision := match policy with Some p => po_revision p | None => 0 end;
     pd_purpose := purpose; pd_risk := risk;
     pd_reason := default "explicit_current_grant" reason |}.
