(* ===== verification/RemediationData.v ===== *)
(** * Remediation contracts ([remediation.py], lines 42-480)

    The enumerations and records of the remediation flow, their JSON documents, the
    canonical digest that binds them, and the constructors with their validators.
    A Pydantic constructor is a function [new_X] that raises [ValidationError] when a
    field constraint or a validator fails. *)

From S2P Require Import Prelude PyJson PyFloat PyTime PyModel Domain Durability.
From Stdlib Require Import Floats.SpecFloat.

(** ** Scalars: [str | int | float | bool]

    A float is an IEEE 754 datum; its JSON form is left to the parameter [float_json]
    ([float.__repr__] and Pydantic's JSON mode). *)

#[export] Instance spec_float_eq_dec : EqDecision spec_float.
Proof. solve_decision. Defined.

Inductive scalar :=
  | SStr (s : string)
  | SInt (z : Z)
  | SFloat (f : spec_float)
  | SBool (b : bool).

(** A number as Python compares it: exactly.  [Dyadic m e] is [m * 2^e]. *)
Inductive number := Dyadic (m e : Z) | Infinite (negative : bool) | NotANumber.

Definition number_of_float (f : spec_float) : number :=
  match f with
  | S754_zero _ => Dyadic 0 0
  | S754_infinity s => Infinite s
  | S754_nan => NotANumber
  | S754_finite s m e => Dyadic (if s then Z.neg m else Z.pos m) e
  end.

(** [isinstance(v, int | float)]: booleans are integers. *)
Definition number_of (v : scalar) : option number :=
  match v with
  | SStr _ => None
  | SInt z => Some (Dyadic z 0)
  | SFloat f => Some (number_of_float f)
  | SBool b => Some (Dyadic (if b then 1 else 0) 0)
  end.

(** The order of two numbers; [None] when one is not a number. *)
Definition number_compare (a b : number) : option comparison :=
  match a, b with
  | NotANumber, _ | _, NotANumber => None
  | Infinite s, Infinite s' =>
      Some (match s, s' with
            | true, false => Lt
            | false, true => Gt
            | _, _ => Eq
            end)
  | Infinite s, Dyadic _ _ => Some (if s then Lt else Gt)
  | Dyadic _ _, Infinite s => Some (if s then Gt else Lt)
  | Dyadic m e, Dyadic m' e' =>
      let low := Z.min e e' in
      Some (Z.compare (m * 2 ^ (e - low)) (m' * 2 ^ (e' - low)))
  end.

(** [a == b] *)
Definition scalar_eqb (a b : scalar) : bool :=
  match a, b with
  | SStr s, SStr s' => bool_decide (s = s')
  | _, _ =>
      match number_of a, number_of b with
      | Some x, Some y => bool_decide (number_compare x y = Some Eq)
      | _, _ => false
      end
  end.

Definition scalar_json `{!FloatJson} (v : scalar) : json :=
  match v with
  | SStr s => JStr s
  | SInt z => JInt z
  | SFloat f => float_json f
  | SBool b => JBool b
  end.

(** ** Enumerations *)

Inductive BlastRadius := ONE_REPLICA_SET | ONE_SERVICE | MULTI_SERVICE.
#[export] Instance BlastRadius_eq_dec : EqDecision BlastRadius.
Proof. solve_decision. Defined.

Definition blast_value (b : BlastRadius) : string :=
  match b with
  | ONE_REPLICA_SET => "one-replica-set"
  | ONE_SERVICE => "one-service"
  | MULTI_SERVICE => "multi-service"
  end.

Definition _blast_order (b : BlastRadius) : Z :=
  match b with ONE_REPLICA_SET => 1 | ONE_SERVICE => 2 | MULTI_SERVICE => 3 end.

Inductive RemediationStatus :=
  | RS_PROPOSED | RS_APPROVAL_PENDING | RS_APPROVED | RS_DENIED | RS_EXPIRED | RS_REVOKED
  | RS_PREFLIGHT | RS_EXECUTING | RS_SUCCEEDED | RS_FAILED | RS_AMBIGUOUS | RS_RECONCILING
  | RS_ROLLING_BACK | RS_ROLLED_BACK | RS_CANCELLED | RS_VERIFIED | RS_VERIFICATION_FAILED
  | RS_ESCALATED.
#[export] Instance RemediationStatus_eq_dec : EqDecision RemediationStatus.
Proof. solve_decision. Defined.

Definition status_value (s : RemediationStatus) : string :=
  match s with
  | RS_PROPOSED => "proposed" | RS_APPROVAL_PENDING => "approval_pending" | RS_APPROVED => "approved"
  | RS_DENIED => "denied" | RS_EXPIRED => "expired" | RS_REVOKED => "revoked"
  | RS_PREFLIGHT => "preflight" | RS_EXECUTING => "executing" | RS_SUCCEEDED => "succeeded"
  | RS_FAILED => "failed" | RS_AMBIGUOUS => "ambiguous" | RS_RECONCILING => "reconciling"
  | RS_ROLLING_BACK => "rolling_back" | RS_ROLLED_BACK => "rolled_back" | RS_CANCELLED => "cancelled"
  | RS_VERIFIED => "verified" | RS_VERIFICATION_FAILED => "verification_failed" | RS_ESCALATED => "escalated"
  end.

Inductive ApprovalDisposition := GRANT | DENY | REVOKE.
#[export] Instance ApprovalDisposition_eq_dec : EqDecision ApprovalDisposition.
Proof. solve_decision. Defined.

Definition disposition_value (d : ApprovalDisposition) : string :=
  match d with GRANT => "grant" | DENY => "deny" | REVOKE => "revoke" end.

Inductive EffectOutcome :=
  | EO_DRY_RUN_SUCCEEDED | EO_SUCCEEDED | EO_FAILED | EO_AMBIGUOUS | EO_DUPLICATE
  | EO_CONFLICT | EO_COMPENSATED.
#[export] Instance EffectOutcome_eq_dec : EqDecision EffectOutcome.
Proof. solve_decision. Defined.

Definition outcome_value (o : EffectOutcome) : string :=
  match o with
  | EO_DRY_RUN_SUCCEEDED => "dry_run_succeeded" | EO_SUCCEEDED => "succeeded"
  | EO_FAILED => "failed" | EO_AMBIGUOUS => "ambiguous" | EO_DUPLICATE => "duplicate"
  | EO_CONFLICT => "conflict" | EO_COMPENSATED => "compensated"
  end.

Inductive ObservationState :=
  | OS_BEFORE | OS_APPLIED | OS_NOT_APPLIED | OS_CONFLICT | OS_UNKNOWN | OS_RECOVERED.
#[export] Instance ObservationState_eq_dec : EqDecision ObservationState.
Proof. solve_decision. Defined.

Definition observation_value (o : ObservationState) : string :=
  match o with
  | OS_BEFORE => "before" | OS_APPLIED => "applied" | OS_NOT_APPLIED => "not_applied"
  | OS_CONFLICT => "conflict" | OS_UNKNOWN => "unknown" | OS_RECOVERED => "recovered"
  end.

(** ** Conditions *)

Inductive ConditionOperator := OpEquals | OpNotEquals | OpGreaterThan | OpLessThan.

Definition operator_value (o : ConditionOperator) : string :=
  match o with
  | OpEquals => "equals" | OpNotEquals => "not_equals"
  | OpGreaterThan => "greater_than" | OpLessThan => "less_than"
  end.

Record Condition := {
  co_fact : string;
  co_operator : ConditionOperator;
  co_expected : scalar
}.

Definition _condition_matches (condition : Condition) (facts : list (string * scalar)) : bool :=
  match dict_get (co_fact condition) facts with
  | None => false
  | Some actual =>
      match co_operator condition with
      | OpEquals => scalar_eqb actual (co_expected condition)
      | OpNotEquals => negb (scalar_eqb actual (co_expected condition))
      | op =>
          match number_of actual, number_of (co_expected condition) with
          | Some a, Some e =>
              match op with
              | OpGreaterThan => bool_decide (number_compare a e = Some Gt)
              | _ => bool_decide (number_compare a e = Some Lt)
              end
          | _, _ => false
          end
      end
  end.

(** ** Plans *)

Record KubernetesTarget := {
  kt_cluster_ref : string;
  kt_namespace : string;
  kt_name : string;
  kt_uid : string;
  kt_resource_version : string;
  kt_resource_fingerprint : string
}.

Record RetryContract := {
  rc_maximum_attempts : Z;
  rc_attempt_timeout_seconds : Z;
  rc_schedule_timeout_seconds : Z;
  rc_heartbeat_timeout_seconds : Z
}.

Inductive CompensationAction := ObserveOnly | RollbackRevision.
#[export] Instance CompensationAction_eq_dec : EqDecision CompensationAction.
Proof. solve_decision. Defined.

Record CompensationContract := {
  cc_enabled : bool;
  cc_action : CompensationAction;
  cc_rollback_revision : option string;
  cc_requires_fresh_approval : bool
}.

Record ActionDefinition := {
  ad_action_id : string;
  ad_target : KubernetesTarget;
  ad_risk : RiskLevel;
  ad_blast_radius : BlastRadius;
  ad_preconditions : list Condition;
  ad_postconditions : list Condition;
  ad_retry : RetryContract;
  ad_idempotency_key : string;
  ad_compensation : CompensationContract;
  ad_canonical_digest : string
}.

(** The only value of the [action_type] literal *)
Definition action_type (a : ActionDefinition) : string := "kubernetes.rollout_restart".

Record PolicySnapshot := {
  ps_policy_id : string;
  ps_revision : Z;
  ps_role_revision : Z;
  ps_quota_revision : Z;
  ps_policy_digest : string
}.
#[export] Instance PolicySnapshot_eq_dec : EqDecision PolicySnapshot.
Proof. solve_decision. Defined.

Record Citation := {
  ci_evidence_id : string;
  ci_locator : string;
  ci_content_hash : string;
  ci_provenance_digest : option string;
  ci_source_id : option string;
  ci_query_id : option string;
  ci_page_number : option Z
}.

Record RemediationPlan := {
  rp_plan_id : string;
  rp_tenant_id : string;
  rp_run_id : string;
  rp_incident_id : string;
  rp_proposer_ref : string;
  rp_target_fingerprint : string;
  rp_risk : RiskLevel;
  rp_blast_radius : BlastRadius;
  rp_rationale : string;
  rp_actions : list ActionDefinition;
  rp_evidence : list Citation;
  rp_policy_snapshot : PolicySnapshot;
  rp_created_at : datetime;
  rp_expires_at : datetime;
  rp_plan_digest : string
}.

(** ** Approvals *)

Record ApprovalRequirement := {
  aq_quorum : Z;
  aq_required_roles : list string;
  aq_prohibit_self_approval : bool;
  aq_rationale_min_length : Z;
  aq_rationale_max_length : Z
}.

Record ActionApprovalRequest := {
  ar_approval_id : string;
  ar_tenant_id : string;
  ar_plan_id : string;
  ar_run_id : string;
  ar_plan_digest : string;
  ar_action_digests : list string;
  ar_target_fingerprint : string;
  ar_policy_snapshot : PolicySnapshot;
  ar_requirement : ApprovalRequirement;
  ar_requested_by_ref : string;
  ar_requested_at : datetime;
  ar_expires_at : datetime;
  ar_canonical_digest : string
}.

Record ApprovalDecision := {
  de_decision_id : string;
  de_command_id : string;
  de_approval_id : string;
  de_tenant_id : string;
  de_disposition : ApprovalDisposition;
  de_approver_ref : string;
  de_approver_role : string;
  de_plan_digest : string;
  de_approval_digest : string;
  de_policy_digest : string;
  de_role_revision : Z;
  de_rationale : string;
  de_decided_at : datetime;
  de_canonical_digest : string
}.

Record ApprovalView := {
  av_approval : ActionApprovalRequest;
  av_decisions : list ApprovalDecision;
  av_status : RemediationStatus;
  av_version : Z;
  av_grants : Z
}.

(** ** Effects *)

Record ActionIntent := {
  ai_tenant_id : string;
  ai_run_id : string;
  ai_plan_id : string;
  ai_action : ActionDefinition;
  ai_plan_digest : string;
  ai_approval_digest : string;
  ai_policy_digest : string;
  ai_operation_id : string;
  ai_attempt : Z;
  ai_fence_token : string;
  ai_requested_at : datetime;
  ai_dry_run : bool
}.

Record ActionObservation := {
  ao_tenant_id : string;
  ao_plan_id : string;
  ao_action_id : string;
  ao_operation_id : string;
  ao_target_fingerprint : string;
  ao_state : ObservationState;
  ao_facts : list (string * scalar);
  ao_observed_at : datetime;
  ao_provider_receipt_ref : option string;
  ao_attempt_fence : string
}.

Record ActionReceipt := {
  rec_tenant_id : string;
  rec_plan_id : string;
  rec_action_id : string;
  rec_operation_id : string;
  rec_idempotency_key : string;
  rec_fence_token : string;
  rec_attempt : Z;
  rec_outcome : EffectOutcome;
  rec_provider_receipt_ref : option string;
  rec_target_fingerprint : string;
  rec_recorded_at : datetime;
  rec_detail_code : string;
  rec_canonical_digest : string
}.

Record VerificationRecord := {
  vr_verification_id : string;
  vr_tenant_id : string;
  vr_plan_id : string;
  vr_action_id : string;
  vr_effect_receipt_digest : string;
  vr_fresh_evidence : list Citation;
  vr_observation : ActionObservation;
  vr_postconditions_satisfied : bool;
  vr_verified_at : datetime;
  vr_canonical_digest : string
}.

(** ** Facts and projections *)

Inductive RemediationFactType :=
  | FT_PROPOSAL_RECORDED | FT_POLICY_DECIDED | FT_APPROVAL_REQUESTED | FT_APPROVAL_GRANTED
  | FT_APPROVAL_DENIED | FT_APPROVAL_EXPIRED | FT_APPROVAL_REVOKED | FT_PREFLIGHT_REQUESTED
  | FT_DRY_RUN_SUCCEEDED | FT_EXECUTION_REQUESTED | FT_EXECUTION_STARTED
  | FT_EXECUTION_SUCCEEDED | FT_EXECUTION_FAILED | FT_EXECUTION_AMBIGUOUS
  | FT_RECONCILIATION_STARTED | FT_RECONCILIATION_RESOLVED | FT_ROLLBACK_REQUESTED
  | FT_ROLLBACK_SUCCEEDED | FT_ROLLBACK_FAILED | FT_CANCELLATION_REQUESTED | FT_CANCELLED
  | FT_VERIFICATION_REQUESTED | FT_VERIFIED | FT_VERIFICATION_FAILED | FT_ESCALATED.
#[export] Instance RemediationFactType_eq_dec : EqDecision RemediationFactType.
Proof. solve_decision. Defined.

Definition fact_type_value (t : RemediationFactType) : string :=
  match t with
  | FT_PROPOSAL_RECORDED => "remediation.proposal_recorded"
  | FT_POLICY_DECIDED => "remediation.policy_decided"
  | FT_APPROVAL_REQUESTED => "remediation.approval_requested"
  | FT_APPROVAL_GRANTED => "remediation.approval_granted"
  | FT_APPROVAL_DENIED => "remediation.approval_denied"
  | FT_APPROVAL_EXPIRED => "remediation.approval_expired"
  | FT_APPROVAL_REVOKED => "remediation.approval_revoked"
  | FT_PREFLIGHT_REQUESTED => "remediation.preflight_requested"
  | FT_DRY_RUN_SUCCEEDED => "remediation.dry_run_succeeded"
  | FT_EXECUTION_REQUESTED => "remediation.execution_requested"
  | FT_EXECUTION_STARTED => "remediation.execution_started"
  | FT_EXECUTION_SUCCEEDED => "remediation.execution_succeeded"
  | FT_EXECUTION_FAILED => "remediation.execution_failed"
  | FT_EXECUTION_AMBIGUOUS => "remediation.execution_ambiguous"
  | FT_RECONCILIATION_STARTED => "remediation.reconciliation_started"
  | FT_RECONCILIATION_RESOLVED => "remediation.reconciliation_resolved"
  | FT_ROLLBACK_REQUESTED => "remediation.rollback_requested"
  | FT_ROLLBACK_SUCCEEDED => "remediation.rollback_succeeded"
  | FT_ROLLBACK_FAILED => "remediation.rollback_failed"
  | FT_CANCELLATION_REQUESTED => "remediation.cancellation_requested"
  | FT_CANCELLED => "remediation.cancelled"
  | FT_VERIFICATION_REQUESTED => "remediation.verification_requested"
  | FT_VERIFIED => "remediation.verified"
  | FT_VERIFICATION_FAILED => "remediation.verification_failed"
  | FT_ESCALATED => "remediation.escalated"
  end.

Record RemediationFact := {
  rf_tenant_id : string;
  rf_plan_id : string;
  rf_sequence : Z;
  rf_fact_id : string;
  rf_fact_type : RemediationFactType;
  rf_command_id : string;
  rf_actor_ref : string;
  rf_recorded_at : datetime;
  rf_payload : payload;
  rf_previous_digest : string;
  rf_canonical_digest : string
}.

Record RemediationProjection := {
  pj_tenant_id : string;
  pj_plan_id : string;
  pj_run_id : string;
  pj_status : RemediationStatus;
  pj_version : Z;
  pj_plan_digest : string;
  pj_approval_id : option string;
  pj_approval_digest : option string;
  pj_effect_receipt_digest : option string;
  pj_verification_digest : option string;
  pj_fence_token : string;
  pj_last_fact_digest : string;
  pj_updated_at : datetime
}.

Record ActionPolicy := {
  ap_tenant_id : string;
  ap_policy_id : string;
  ap_revision : Z;
  ap_role_revision : Z;
  ap_quota_revision : Z;
  ap_enabled : bool;
  ap_allowed_action_types : list string;
  ap_allowed_target_fingerprints : list string;
  ap_allowed_namespaces : list string;
  ap_maintenance_window_start : datetime;
  ap_maintenance_window_end : datetime;
  ap_max_risk : RiskLevel;
  ap_max_blast_radius : BlastRadius;
  ap_remaining_effects : Z;
  ap_high_risk_quorum : Z;
  ap_normal_quorum : Z;
  ap_approver_roles : list string;
  ap_prohibit_self_approval : bool;
  ap_policy_digest : string
}.

Definition snapshot (p : ActionPolicy) : PolicySnapshot :=
  {| ps_policy_id := ap_policy_id p; ps_revision := ap_revision p;
     ps_role_revision := ap_role_revision p; ps_quota_revision := ap_quota_revision p;
     ps_policy_digest := ap_policy_digest p |}.

(** ** JSON documents

    [X_material] is what the digest covers ([model_dump] without the digest field);
    [X_json] adds the digest, as a nested model is dumped. *)


Section documents.
Context {HDigest : Digest} {HFloat : FloatJson}.

Definition canonical_digest (document : payload) : string := hexdigest (canonical_json (JObj document)).

Definition condition_json (c : Condition) : json :=
  JObj [("fact", JStr (co_fact c)); ("operator", JStr (operator_value (co_operator c)));
        ("expected", scalar_json (co_expected c))].

Definition target_json (t : KubernetesTarget) : json :=
  JObj [("provider", JStr "kubernetes"); ("cluster_ref", JStr (kt_cluster_ref t));
        ("namespace", JStr (kt_namespace t)); ("kind", JStr "Deployment");
        ("name", JStr (kt_name t)); ("uid", JStr (kt_uid t));
        ("resource_version", JStr (kt_resource_version t));
        ("resource_fingerprint", JStr (kt_resource_fingerprint t))].

Definition retry_json (r : RetryContract) : json :=
  JObj [("owner", JStr "temporal"); ("maximum_attempts", JInt (rc_maximum_attempts r));
        ("attempt_timeout_seconds", JInt (rc_attempt_timeout_seconds r));
        ("schedule_timeout_seconds", JInt (rc_schedule_timeout_seconds r));
        ("heartbeat_timeout_seconds", JInt (rc_heartbeat_timeout_seconds r));
        ("observe_before_retry", JBool true)].

Definition compensation_json (c : CompensationContract) : json :=
  JObj [("enabled", JBool (cc_enabled c));
        ("action", JStr (match cc_action c with
                         | ObserveOnly => "observe_only" | RollbackRevision => "rollback_revision"
                         end));
        ("rollback_revision", opt_json (cc_rollback_revision c));
        ("requires_fresh_approval", JBool (cc_requires_fresh_approval c))].

Definition action_material (a : ActionDefinition) : payload :=
  [("schema_version", JInt 1); ("action_id", JStr (ad_action_id a));
   ("action_type", JStr (action_type a)); ("target", target_json (ad_target a));
   ("risk", JStr (risk_value (ad_risk a)));
   ("blast_radius", JStr (blast_value (ad_blast_radius a)));
   ("preconditions", JList (condition_json <$> ad_preconditions a));
   ("postconditions", JList (condition_json <$> ad_postconditions a));
   ("dry_run_required", JBool true); ("retry", retry_json (ad_retry a));
   ("idempotency_key", JStr (ad_idempotency_key a));
   ("compensation", compensation_json (ad_compensation a))].

Definition action_json (a : ActionDefinition) : json :=
  JObj (action_material a ++ [("canonical_digest", JStr (ad_canonical_digest a))]).

Definition snapshot_json (p : PolicySnapshot) : json :=
  JObj [("policy_id", JStr (ps_policy_id p)); ("revision", JInt (ps_revision p));
        ("role_revision", JInt (ps_role_revision p)); ("quota_revision", JInt (ps_quota_revision p));
        ("policy_digest", JStr (ps_policy_digest p))].

Definition citation_json (c : Citation) : json :=
  JObj [("evidence_id", JStr (ci_evidence_id c)); ("locator", JStr (ci_locator c));
        ("content_hash", JStr (ci_content_hash c));
        ("provenance_digest", opt_json (ci_provenance_digest c));
        ("source_id", opt_json (ci_source_id c)); ("query_id", opt_json (ci_query_id c));
        ("page_number", match ci_page_number c with Some n => JInt n | None => JNull end)].

Definition plan_material (p : RemediationPlan) : payload :=
  [("schema_version", JInt 1); ("plan_id", JStr (rp_plan_id p));
   ("tenant_id", JStr (rp_tenant_id p)); ("run_id", JStr (rp_run_id p));
   ("incident_id", JStr (rp_incident_id p)); ("proposer_ref", JStr (rp_proposer_ref p));
   ("target_fingerprint", JStr (rp_target_fingerprint p));
   ("risk", JStr (risk_value (rp_risk p)));
   ("blast_radius", JStr (blast_value (rp_blast_radius p)));
   ("rationale", JStr (rp_rationale p)); ("actions", JList (action_json <$> rp_actions p));
   ("evidence", JList (citation_json <$> rp_evidence p)); ("critic_status", JStr "accepted");
   ("policy_snapshot", snapshot_json (rp_policy_snapshot p));
   ("created_at", JStr (iso_z (rp_created_at p))); ("expires_at", JStr (iso_z (rp_expires_at p)))].

Definition requirement_json (r : ApprovalRequirement) : json :=
  JObj [("quorum", JInt (aq_quorum r)); ("required_roles", strings_json (aq_required_roles r));
        ("distinct_approvers", JBool true);
        ("prohibit_self_approval", JBool (aq_prohibit_self_approval r));
        ("rationale_min_length", JInt (aq_rationale_min_length r));
        ("rationale_max_length", JInt (aq_rationale_max_length r))].

Definition approval_material (a : ActionApprovalRequest) : payload :=
  [("schema_version", JInt 1); ("approval_id", JStr (ar_approval_id a));
   ("tenant_id", JStr (ar_tenant_id a)); ("plan_id", JStr (ar_plan_id a));
   ("run_id", JStr (ar_run_id a)); ("plan_digest", JStr (ar_plan_digest a));
   ("action_digests", strings_json (ar_action_digests a));
   ("target_fingerprint", JStr (ar_target_fingerprint a));
   ("policy_snapshot", snapshot_json (ar_policy_snapshot a));
   ("requirement", requirement_json (ar_requirement a));
   ("requested_by_ref", JStr (ar_requested_by_ref a));
   ("requested_at", JStr (iso_z (ar_requested_at a)));
   ("expires_at", JStr (iso_z (ar_expires_at a)))].

Definition decision_material (d : ApprovalDecision) : payload :=
  [("schema_version", JInt 1); ("decision_id", JStr (de_decision_id d));
   ("command_id", JStr (de_command_id d)); ("approval_id", JStr (de_approval_id d));
   ("tenant_id", JStr (de_tenant_id d));
   ("disposition", JStr (disposition_value (de_disposition d)));
   ("approver_ref", JStr (de_approver_ref d)); ("approver_role", JStr (de_approver_role d));
   ("purpose", JStr "incident-response"); ("plan_digest", JStr (de_plan_digest d));
   ("approval_digest", JStr (de_approval_digest d)); ("policy_digest", JStr (de_policy_digest d));
   ("role_revision", JInt (de_role_revision d)); ("rationale", JStr (de_rationale d));
   ("decided_at", JStr (iso_z (de_decided_at d)))].

Definition observation_json (o : ActionObservation) : json :=
  JObj [("schema_version", JInt 1); ("tenant_id", JStr (ao_tenant_id o));
        ("plan_id", JStr (ao_plan_id o)); ("action_id", JStr (ao_action_id o));
        ("operation_id", JStr (ao_operation_id o));
        ("target_fingerprint", JStr (ao_target_fingerprint o));
        ("state", JStr (observation_value (ao_state o)));
        ("facts", JObj ((λ kv, (kv.1, scalar_json kv.2)) <$> ao_facts o));
        ("observed_at", JStr (iso_z (ao_observed_at o)));
        ("provider_receipt_ref", opt_json (ao_provider_receipt_ref o));
        ("attempt_fence", JStr (ao_attempt_fence o))].

Definition receipt_material (r : ActionReceipt) : payload :=
  [("schema_version", JInt 1); ("tenant_id", JStr (rec_tenant_id r));
   ("plan_id", JStr (rec_plan_id r)); ("action_id", JStr (rec_action_id r));
   ("operation_id", JStr (rec_operation_id r)); ("idempotency_key", JStr (rec_idempotency_key r));
   ("fence_token", JStr (rec_fence_token r)); ("attempt", JInt (rec_attempt r));
   ("outcome", JStr (outcome_value (rec_outcome r)));
   ("provider_receipt_ref", opt_json (rec_provider_receipt_ref r));
   ("target_fingerprint", JStr (rec_target_fingerprint r));
   ("recorded_at", JStr (iso_z (rec_recorded_at r))); ("detail_code", JStr (rec_detail_code r))].

Definition verification_material (v : VerificationRecord) : payload :=
  [("schema_version", JInt 1); ("verification_id", JStr (vr_verification_id v));
   ("tenant_id", JStr (vr_tenant_id v)); ("plan_id", JStr (vr_plan_id v));
   ("action_id", JStr (vr_action_id v));
   ("effect_receipt_digest", JStr (vr_effect_receipt_digest v));
   ("fresh_evidence", JList (citation_json <$> vr_fresh_evidence v));
   ("observation", observation_json (vr_observation v));
   ("postconditions_satisfied", JBool (vr_postconditions_satisfied v));
   ("verified_at", JStr (iso_z (vr_verified_at v)))].

Definition policy_material (p : ActionPolicy) : payload :=
  [("tenant_id", JStr (ap_tenant_id p)); ("policy_id", JStr (ap_policy_id p));
   ("revision", JInt (ap_revision p)); ("role_revision", JInt (ap_role_revision p));
   ("quota_revision", JInt (ap_quota_revision p)); ("enabled", JBool (ap_enabled p));
   ("allowed_action_types", strings_json (ap_allowed_action_types p));
   ("allowed_target_fingerprints", strings_json (ap_allowed_target_fingerprints p));
   ("allowed_namespaces", strings_json (ap_allowed_namespaces p));
   ("maintenance_window_start", JStr (iso_z (ap_maintenance_window_start p)));
   ("maintenance_window_end", JStr (iso_z (ap_maintenance_window_end p)));
   ("max_risk", JStr (risk_value (ap_max_risk p)));
   ("max_blast_radius", JStr (blast_value (ap_max_blast_radius p)));
   ("remaining_effects", JInt (ap_remaining_effects p));
   ("high_risk_quorum", JInt (ap_high_risk_quorum p));
   ("normal_quorum", JInt (ap_normal_quorum p));
   ("approver_roles", strings_json (ap_approver_roles p));
   ("prohibit_self_approval", JBool (ap_prohibit_self_approval p));
   ("require_accepted_critic", JBool true)].

(** ** Constructors *)

Definition KubernetesTarget_ok (t : KubernetesTarget) : bool :=
  Identifier (kt_cluster_ref t) && Identifier (kt_namespace t) && Identifier (kt_name t)
  && Identifier (kt_uid t) && Identifier (kt_resource_version t)
  && is_sha256_hex (kt_resource_fingerprint t).

Definition RetryContract_ok (r : RetryContract) : bool :=
  in_range 1 5 (rc_maximum_attempts r) && in_range 5 900 (rc_attempt_timeout_seconds r)
  && in_range 5 3600 (rc_schedule_timeout_seconds r)
  && in_range 5 120 (rc_heartbeat_timeout_seconds r).

(** [bind_rollback_revision] included *)
Definition CompensationContract_ok (c : CompensationContract) : bool :=
  opt_Identifier (cc_rollback_revision c)
  && negb (bool_decide (cc_action c = RollbackRevision) && bool_decide (cc_rollback_revision c = None))
  && negb (negb (cc_enabled c) && bool_decide (cc_action c ≠ ObserveOnly)).

(** [verify_digest] included *)
Definition ActionDefinition_ok (a : ActionDefinition) : bool :=
  Identifier (ad_action_id a) && KubernetesTarget_ok (ad_target a)
  && count_range 1 16 (ad_preconditions a) && count_range 1 16 (ad_postconditions a)
  && forallb (λ c, Identifier (co_fact c)) (ad_preconditions a ++ ad_postconditions a)
  && RetryContract_ok (ad_retry a) && Identifier (ad_idempotency_key a)
  && CompensationContract_ok (ad_compensation a) && is_sha256_hex (ad_canonical_digest a)
  && bool_decide (ad_canonical_digest a = canonical_digest (action_material a)).

Definition PolicySnapshot_ok (p : PolicySnapshot) : bool :=
  Identifier (ps_policy_id p) && (1 <=? ps_revision p) && (1 <=? ps_role_revision p)
  && (1 <=? ps_quota_revision p) && is_sha256_hex (ps_policy_digest p).

(** [bind_extended_provenance]: all four provenance fields or none *)
Definition Citation_ok (c : Citation) : bool :=
  let values := [bool_decide (is_Some (ci_provenance_digest c)); bool_decide (is_Some (ci_source_id c));
                 bool_decide (is_Some (ci_query_id c)); bool_decide (is_Some (ci_page_number c))] in
  Identifier (ci_evidence_id c) && length_between 1 512 (ci_locator c)
  && is_sha256_hex (ci_content_hash c)
  && match ci_provenance_digest c with Some d => is_sha256_hex d | None => true end
  && opt_Identifier (ci_source_id c) && opt_Identifier (ci_query_id c)
  && match ci_page_number c with Some n => in_range 1 100 n | None => true end
  && negb (existsb id values && negb (forallb id values)).

(** [validate_plan] included *)
Definition RemediationPlan_ok (p : RemediationPlan) : bool :=
  Identifier (rp_plan_id p) && Identifier (rp_tenant_id p) && Identifier (rp_run_id p)
  && Identifier (rp_incident_id p) && Identifier (rp_proposer_ref p)
  && is_sha256_hex (rp_target_fingerprint p) && length_between 1 2000 (rp_rationale p)
  && count_range 1 8 (rp_actions p) && forallb ActionDefinition_ok (rp_actions p)
  && count_range 1 64 (rp_evidence p) && forallb Citation_ok (rp_evidence p)
  && PolicySnapshot_ok (rp_policy_snapshot p) && is_sha256_hex (rp_plan_digest p)
  && (rp_created_at p <? rp_expires_at p)
  && no_dups (ad_action_id <$> rp_actions p)
  && forallb (λ a, bool_decide (kt_resource_fingerprint (ad_target a) = rp_target_fingerprint p)) (rp_actions p)
  && forallb (λ a, risk_order (ad_risk a) <=? risk_order (rp_risk p)) (rp_actions p)
  && bool_decide (rp_plan_digest p = canonical_digest (plan_material p)).

Definition new_RemediationPlan : RemediationPlan → res RemediationPlan :=
  validated RemediationPlan_ok "RemediationPlan".

Definition ApprovalRequirement_ok (r : ApprovalRequirement) : bool :=
  in_range 1 5 (aq_quorum r) && count_range 1 8 (aq_required_roles r)
  && forallb Identifier (aq_required_roles r) && in_range 1 256 (aq_rationale_min_length r)
  && in_range 16 2000 (aq_rationale_max_length r)
  && (aq_rationale_min_length r <=? aq_rationale_max_length r).

Definition new_ApprovalRequirement : ApprovalRequirement → res ApprovalRequirement :=
  validated ApprovalRequirement_ok "ApprovalRequirement".

(** [validate_request] included *)
Definition ActionApprovalRequest_ok (a : ActionApprovalRequest) : bool :=
  Identifier (ar_approval_id a) && Identifier (ar_tenant_id a) && Identifier (ar_plan_id a)
  && Identifier (ar_run_id a) && is_sha256_hex (ar_plan_digest a)
  && count_range 1 8 (ar_action_digests a) && forallb is_sha256_hex (ar_action_digests a)
  && is_sha256_hex (ar_target_fingerprint a) && PolicySnapshot_ok (ar_policy_snapshot a)
  && ApprovalRequirement_ok (ar_requirement a) && Identifier (ar_requested_by_ref a)
  && is_sha256_hex (ar_canonical_digest a) && (ar_requested_at a <? ar_expires_at a)
  && bool_decide (ar_canonical_digest a = canonical_digest (approval_material a)).

Definition new_ActionApprovalRequest : ActionApprovalRequest → res ActionApprovalRequest :=
  validated ActionApprovalRequest_ok "ActionApprovalRequest".

Definition ApprovalDecision_ok (d : ApprovalDecision) : bool :=
  Identifier (de_decision_id d) && Identifier (de_command_id d) && Identifier (de_approval_id d)
  && Identifier (de_tenant_id d) && bool_decide (de_disposition d ≠ REVOKE)
  && Identifier (de_approver_ref d) && Identifier (de_approver_role d)
  && is_sha256_hex (de_plan_digest d) && is_sha256_hex (de_approval_digest d)
  && is_sha256_hex (de_policy_digest d) && (1 <=? de_role_revision d)
  && length_between 1 2000 (de_rationale d) && is_sha256_hex (de_canonical_digest d)
  && bool_decide (de_canonical_digest d = canonical_digest (decision_material d)).

Definition new_ApprovalDecision : ApprovalDecision → res ApprovalDecision :=
  validated ApprovalDecision_ok "ApprovalDecision".

Definition new_ApprovalView : ApprovalView → res ApprovalView :=
  validated (λ v, (1 <=? av_version v) && (0 <=? av_grants v)) "ApprovalView".

Definition ActionIntent_ok (i : ActionIntent) : bool :=
  Identifier (ai_tenant_id i) && Identifier (ai_run_id i) && Identifier (ai_plan_id i)
  && is_sha256_hex (ai_plan_digest i) && is_sha256_hex (ai_approval_digest i)
  && is_sha256_hex (ai_policy_digest i) && Identifier (ai_operation_id i)
  && in_range 1 16 (ai_attempt i) && Identifier (ai_fence_token i).

Definition new_ActionIntent : ActionIntent → res ActionIntent :=
  validated ActionIntent_ok "ActionIntent".

Definition ActionReceipt_ok (r : ActionReceipt) : bool :=
  Identifier (rec_tenant_id r) && Identifier (rec_plan_id r) && Identifier (rec_action_id r)
  && Identifier (rec_operation_id r) && Identifier (rec_idempotency_key r)
  && Identifier (rec_fence_token r) && in_range 1 16 (rec_attempt r)
  && opt_Identifier (rec_provider_receipt_ref r) && is_sha256_hex (rec_target_fingerprint r)
  && Identifier (rec_detail_code r) && is_sha256_hex (rec_canonical_digest r)
  && bool_decide (rec_canonical_digest r = canonical_digest (receipt_material r)).

Definition new_ActionReceipt : ActionReceipt → res ActionReceipt :=
  validated ActionReceipt_ok "ActionReceipt".

Definition VerificationRecord_ok (v : VerificationRecord) : bool :=
  Identifier (vr_verification_id v) && Identifier (vr_tenant_id v) && Identifier (vr_plan_id v)
  && Identifier (vr_action_id v) && is_sha256_hex (vr_effect_receipt_digest v)
  && count_range 1 32 (vr_fresh_evidence v) && is_sha256_hex (vr_canonical_digest v)
  && bool_decide (vr_canonical_digest v = canonical_digest (verification_material v)).

Definition new_VerificationRecord : VerificationRecord → res VerificationRecord :=
  validated VerificationRecord_ok "VerificationRecord".

Definition RemediationFact_ok (f : RemediationFact) : bool :=
  Identifier (rf_tenant_id f) && Identifier (rf_plan_id f) && (1 <=? rf_sequence f)
  && Identifier (rf_fact_id f) && Identifier (rf_command_id f) && Identifier (rf_actor_ref f)
  && (zlen (rf_payload f) <=? 32) && is_sha256_hex (rf_previous_digest f)
  && is_sha256_hex (rf_canonical_digest f).

Definition new_RemediationFact : RemediationFact → res RemediationFact :=
  validated RemediationFact_ok "RemediationFact".

Definition RemediationProjection_ok (p : RemediationProjection) : bool :=
  Identifier (pj_tenant_id p) && Identifier (pj_plan_id p) && Identifier (pj_run_id p)
  && (1 <=? pj_version p) && is_sha256_hex (pj_plan_digest p)
  && Identifier (pj_fence_token p) && is_sha256_hex (pj_last_fact_digest p).

Definition new_RemediationProjection : RemediationProjection → res RemediationProjection :=
  validated RemediationProjection_ok "RemediationProjection".

(** [validate_policy] included *)
Definition ActionPolicy_ok (p : ActionPolicy) : bool :=
  Identifier (ap_tenant_id p) && Identifier (ap_policy_id p) && (1 <=? ap_revision p)
  && (1 <=? ap_role_revision p) && (1 <=? ap_quota_revision p)
  && forallb Identifier (ap_allowed_action_types p)
  && forallb is_sha256_hex (ap_allowed_target_fingerprints p)
  && forallb Identifier (ap_allowed_namespaces p)
  && (0 <=? ap_remaining_effects p) && in_range 2 5 (ap_high_risk_quorum p)
  && in_range 1 5 (ap_normal_quorum p) && count_range 1 8 (ap_approver_roles p)
  && forallb Identifier (ap_approver_roles p) && is_sha256_hex (ap_policy_digest p)
  && (ap_maintenance_window_start p <? ap_maintenance_window_end p)
  && bool_decide (ap_policy_digest p = canonical_digest (policy_material p)).

Definition new_ActionPolicy : ActionPolicy → res ActionPolicy :=
  validated ActionPolicy_ok "ActionPolicy".
End documents.

#[global] Arguments canonical_digest : simpl never.
