(* ===== verification/RemediationStores.v ===== *)
(** * The remediation ledger and stores ([remediation.py], lines 485-1121)

    [InMemoryRemediationLedger]: an append-only list of facts per plan, the command table
    that makes appends idempotent, and the projection kept next to the facts;
    [reduce_remediation] is the fold the projection comes from and [_validate_transition]
    its state machine.  Then the in-memory effect claims, effect quota, action policies and the
    control store of plans, approvals, decisions and verifications. *)

From S2P Require Import Prelude PyJson PyTime PyFloat PyModel Domain Durability RemediationData.

Definition _MAX_FACTS : Z := 500.

(** ** The state machine *)

Definition status_by_fact (t : RemediationFactType) : RemediationStatus :=
  match t with
  | FT_PROPOSAL_RECORDED => RS_PROPOSED
  | FT_POLICY_DECIDED => RS_PROPOSED
  | FT_APPROVAL_REQUESTED => RS_APPROVAL_PENDING
  | FT_APPROVAL_GRANTED => RS_APPROVED
  | FT_APPROVAL_DENIED => RS_DENIED
  | FT_APPROVAL_EXPIRED => RS_EXPIRED
  | FT_APPROVAL_REVOKED => RS_REVOKED
  | FT_PREFLIGHT_REQUESTED => RS_PREFLIGHT
  | FT_DRY_RUN_SUCCEEDED => RS_PREFLIGHT
  | FT_EXECUTION_REQUESTED => RS_EXECUTING
  | FT_EXECUTION_STARTED => RS_EXECUTING
  | FT_EXECUTION_SUCCEEDED => RS_SUCCEEDED
  | FT_EXECUTION_FAILED => RS_FAILED
  | FT_EXECUTION_AMBIGUOUS => RS_AMBIGUOUS
  | FT_RECONCILIATION_STARTED => RS_RECONCILING
  | FT_RECONCILIATION_RESOLVED => RS_SUCCEEDED
  | FT_ROLLBACK_REQUESTED => RS_ROLLING_BACK
  | FT_ROLLBACK_SUCCEEDED => RS_ROLLED_BACK
  | FT_ROLLBACK_FAILED => RS_ESCALATED
  | FT_CANCELLATION_REQUESTED => RS_CANCELLED
  | FT_CANCELLED => RS_CANCELLED
  | FT_VERIFICATION_REQUESTED => RS_SUCCEEDED
  | FT_VERIFIED => RS_VERIFIED
  | FT_VERIFICATION_FAILED => RS_VERIFICATION_FAILED
  | FT_ESCALATED => RS_ESCALATED
  end.

Definition terminal_statuses : list RemediationStatus :=
  [RS_DENIED; RS_EXPIRED; RS_REVOKED; RS_ROLLED_BACK; RS_CANCELLED; RS_VERIFIED; RS_ESCALATED].

Definition allowed_transitions (previous : RemediationStatus) : list RemediationStatus :=
  match previous with
  | RS_PROPOSED => [RS_PROPOSED; RS_APPROVAL_PENDING]
  | RS_APPROVAL_PENDING =>
      [RS_APPROVAL_PENDING; RS_APPROVED; RS_DENIED; RS_EXPIRED; RS_REVOKED; RS_CANCELLED]
  | RS_APPROVED => [RS_PREFLIGHT; RS_REVOKED; RS_CANCELLED]
  | RS_PREFLIGHT => [RS_PREFLIGHT; RS_EXECUTING; RS_FAILED; RS_CANCELLED]
  | RS_EXECUTING => [RS_EXECUTING; RS_SUCCEEDED; RS_FAILED; RS_AMBIGUOUS; RS_CANCELLED]
  | RS_SUCCEEDED => [RS_SUCCEEDED; RS_VERIFIED; RS_VERIFICATION_FAILED; RS_ROLLING_BACK]
  | RS_FAILED => [RS_ROLLING_BACK; RS_ESCALATED]
  | RS_AMBIGUOUS => [RS_RECONCILING; RS_ESCALATED]
  | RS_RECONCILING => [RS_SUCCEEDED; RS_FAILED; RS_ESCALATED]
  | RS_ROLLING_BACK => [RS_ROLLED_BACK; RS_ESCALATED]
  | RS_VERIFICATION_FAILED => [RS_ROLLING_BACK; RS_ESCALATED]
  | _ => []
  end.

Definition _validate_transition (previous current : RemediationStatus) : res unit :=
  raise_if (bool_decide (previous ∈ terminal_statuses)) IntegrityFailure
    "terminal remediation state cannot advance";;
  raise_if (bool_decide (current ∉ allowed_transitions previous)) IntegrityFailure
    ("illegal remediation transition " +:+ status_value previous +:+ "->" +:+ status_value current).

(** ** The fold *)

(** [str(fact.payload[key])] with the [KeyError] it may raise *)
Definition payload_str (p : payload) (key : string) (k : ExnKind) (msg : string) : res string :=
  match dict_get key p with Some v => Ok (py_str v) | None => raise k msg end.

(** [changes[field] = value] when the payload member is a string *)
Definition payload_if_str (p : payload) (key : string) (old : option string) : option string :=
  match dict_get key p with Some (JStr s) => Some s | _ => old end.

Definition reduce_remediation (current : option RemediationProjection) (fact : RemediationFact)
    : res RemediationProjection :=
  let status := status_by_fact (rf_fact_type fact) in
  match current with
  | None =>
      raise_if (bool_decide (rf_fact_type fact ≠ FT_PROPOSAL_RECORDED)) IntegrityFailure
        "remediation replay must start with proposal";;
      run_id ← payload_str (rf_payload fact) "run_id" IntegrityFailure "proposal fact is incomplete";
      plan_digest ← payload_str (rf_payload fact) "plan_digest" IntegrityFailure "proposal fact is incomplete";
      fence_token ← payload_str (rf_payload fact) "fence_token" IntegrityFailure "proposal fact is incomplete";
      new_RemediationProjection
        {| pj_tenant_id := rf_tenant_id fact; pj_plan_id := rf_plan_id fact; pj_run_id := run_id;
           pj_status := status; pj_version := 1; pj_plan_digest := plan_digest;
           pj_approval_id := None; pj_approval_digest := None;
           pj_effect_receipt_digest := None; pj_verification_digest := None;
           pj_fence_token := fence_token; pj_last_fact_digest := rf_canonical_digest fact;
           pj_updated_at := rf_recorded_at fact |}
  | Some c =>
      raise_if (negb (rf_sequence fact =? pj_version c + 1)) IntegrityFailure
        "remediation replay sequence is not contiguous";;
      raise_if (bool_decide (rf_previous_digest fact ≠ pj_last_fact_digest c)) IntegrityFailure
        "remediation fact chain is invalid";;
      _validate_transition (pj_status c) status;;
      approval ← (if decide (rf_fact_type fact = FT_APPROVAL_REQUESTED) then
          approval_id ← payload_str (rf_payload fact) "approval_id" KeyError "approval_id";
          approval_digest ← payload_str (rf_payload fact) "approval_digest" KeyError "approval_digest";
          Ok (Some approval_id, Some approval_digest)
        else Ok (pj_approval_id c, pj_approval_digest c));
      let effect_receipt_digest :=
        if decide (rf_fact_type fact ∈ [FT_EXECUTION_SUCCEEDED; FT_RECONCILIATION_RESOLVED; FT_ROLLBACK_SUCCEEDED])
        then payload_if_str (rf_payload fact) "effect_receipt_digest" (pj_effect_receipt_digest c)
        else pj_effect_receipt_digest c in
      let verification_digest :=
        if decide (rf_fact_type fact ∈ [FT_VERIFIED; FT_VERIFICATION_FAILED])
        then payload_if_str (rf_payload fact) "verification_digest" (pj_verification_digest c)
        else pj_verification_digest c in
      Ok {| pj_tenant_id := pj_tenant_id c; pj_plan_id := pj_plan_id c; pj_run_id := pj_run_id c;
            pj_status := status; pj_version := rf_sequence fact; pj_plan_digest := pj_plan_digest c;
            pj_approval_id := approval.1; pj_approval_digest := approval.2;
            pj_effect_receipt_digest := effect_receipt_digest;
            pj_verification_digest := verification_digest; pj_fence_token := pj_fence_token c;
            pj_last_fact_digest := rf_canonical_digest fact; pj_updated_at := rf_recorded_at fact |}
  end.

(** ** The ledger *)

Record rledger := {
  _facts : gmap (string * string) (list RemediationFact);
  _commands : gmap (string * string) (string * string);
  _projections : gmap (string * string) RemediationProjection
}.

Definition empty_rledger : rledger := {| _facts := ∅; _commands := ∅; _projections := ∅ |}.

Definition projection (l : rledger) (tenant_id plan_id : string) : option RemediationProjection :=
  _projections l !! (tenant_id, plan_id).

Definition facts (l : rledger) (tenant_id plan_id : string) : list RemediationFact :=
  default [] (_facts l !! (tenant_id, plan_id)).

(** [self._facts.setdefault(key, [])] *)
Definition setdefault_facts (key : string * string) (l : rledger) : rledger :=
  {| _facts := match _facts l !! key with Some _ => _facts l | None => <[key := []]> (_facts l) end;
     _commands := _commands l; _projections := _projections l |}.

Section ledger.
Context {HDigest : Digest}.

Definition command_fingerprint (fact_type : RemediationFactType) (p : payload) : string :=
  canonical_digest [("fact_type", JStr (fact_type_value fact_type)); ("payload", JObj p)].

(** The fact an append records: its id, its sorted payload and the digest of its material *)
Definition build_fact (tenant_id plan_id : string) (sequence : Z) (previous : string)
    (fact_type : RemediationFactType) (command_id actor_ref : string) (recorded_at : datetime)
    (p : payload) : RemediationFact :=
  let document := sort_payload p in
  let fact_id := stable_id "remediation-fact"
    [tenant_id; plan_id; str_of_int sequence; command_id] 32 in
  let material :=
    [("actor_ref", JStr actor_ref); ("command_id", JStr command_id); ("fact_id", JStr fact_id);
     ("fact_type", JStr (fact_type_value fact_type)); ("payload", JObj document);
     ("plan_id", JStr plan_id); ("previous_digest", JStr previous);
     ("recorded_at", JStr (isoformat recorded_at)); ("schema_version", JInt 1);
     ("sequence", JInt sequence); ("tenant_id", JStr tenant_id)] in
  {| rf_tenant_id := tenant_id; rf_plan_id := plan_id; rf_sequence := sequence;
     rf_fact_id := fact_id; rf_fact_type := fact_type; rf_command_id := command_id;
     rf_actor_ref := actor_ref; rf_recorded_at := recorded_at; rf_payload := document;
     rf_previous_digest := previous; rf_canonical_digest := canonical_digest material |}.

Definition commit_fact (key command_key : string * string) (plan_id fingerprint : string)
    (fact : RemediationFact) (p : RemediationProjection) (l : rledger) : rledger :=
  {| _facts := <[key := default [] (_facts l !! key) ++ [fact]]> (_facts l);
     _commands := <[command_key := (plan_id, fingerprint)]> (_commands l);
     _projections := <[key := p]> (_projections l) |}.

Definition ledger_append (tenant_id plan_id : string) (expected_version : Z)
    (fact_type : RemediationFactType) (command_id actor_ref : string) (recorded_at : datetime)
    (p : payload) : M rledger RemediationProjection :=
  let key := (tenant_id, plan_id) in
  let fingerprint := command_fingerprint fact_type p in
  let command_key := (tenant_id, command_id) in
  l ← get;
  match _commands l !! command_key with
  | Some existing_command =>
      lift (raise_if (bool_decide (existing_command ≠ (plan_id, fingerprint))) IdempotencyConflict
              "command id was replayed with different remediation input");;
      lift (of_option (_projections l !! key) KeyError plan_id)
  | None =>
      modify (setdefault_facts key);;
      let fs := default [] (_facts l !! key) in
      lift (raise_if (_MAX_FACTS <=? zlen fs) IntegrityFailure "remediation fact bound exceeded");;
      lift (raise_if (negb (zlen fs =? expected_version)) ConcurrencyConflict
              "remediation aggregate version changed");;
      let previous := match last fs with Some f => rf_canonical_digest f | None => _ZERO_HASH end in
      fact ← lift (new_RemediationFact
        (build_fact tenant_id plan_id (zlen fs + 1) previous fact_type command_id actor_ref recorded_at p));
      projected ← lift (reduce_remediation (_projections l !! key) fact);
      modify (commit_fact key command_key plan_id fingerprint fact projected);;
      mret projected
  end.

Definition reduce_fact_opt (current : option RemediationProjection) (fact : RemediationFact)
    : res (option RemediationProjection) :=
  p ← reduce_remediation current fact; Ok (Some p).

Definition ledger_rebuild (l : rledger) (tenant_id plan_id : string) : res RemediationProjection :=
  o ← foldM reduce_fact_opt None (facts l tenant_id plan_id);
  of_option o IntegrityFailure "cannot rebuild an unknown remediation plan".
End ledger.

#[global] Arguments reduce_remediation : simpl never.
#[global] Arguments build_fact : simpl never.
#[global] Arguments ledger_append : simpl never.
#[global] Arguments command_fingerprint : simpl never.

(** ** Effect claims *)

Record EffectClaimRecord := {
  ecr_claim_token : string;
  ecr_fence_token : string;
  ecr_attempt : Z;
  ecr_replayed : bool;
  ecr_receipt : option ActionReceipt
}.

Record _InMemoryEffectClaim := {
  ec_action_digest : string;
  ec_plan_digest : string;
  ec_approval_digest : string;
  ec_policy_digest : string;
  ec_target_fingerprint : string;
  ec_fence_token : string;
  ec_attempt : Z;
  ec_claim_token : string;
  ec_claim_until : datetime;
  ec_receipt : option ActionReceipt
}.

Abbreviation claims_table := (gmap (string * string) _InMemoryEffectClaim).

Definition claim_binding (c : _InMemoryEffectClaim) : list string :=
  [ec_action_digest c; ec_plan_digest c; ec_approval_digest c; ec_policy_digest c;
   ec_target_fingerprint c; ec_fence_token c].

Definition intent_binding (i : ActionIntent) : list string :=
  [ad_canonical_digest (ai_action i); ai_plan_digest i; ai_approval_digest i; ai_policy_digest i;
   kt_resource_fingerprint (ad_target (ai_action i)); ai_fence_token i].

(** [existing.model_copy(update={attempt, claim_token, claim_until})] *)
Definition renew_claim (attempt : Z) (token : string) (until : datetime) (c : _InMemoryEffectClaim)
    : _InMemoryEffectClaim :=
  {| ec_action_digest := ec_action_digest c; ec_plan_digest := ec_plan_digest c;
     ec_approval_digest := ec_approval_digest c; ec_policy_digest := ec_policy_digest c;
     ec_target_fingerprint := ec_target_fingerprint c; ec_fence_token := ec_fence_token c;
     ec_attempt := attempt; ec_claim_token := token; ec_claim_until := until;
     ec_receipt := ec_receipt c |}.

Definition set_receipt (r : ActionReceipt) (c : _InMemoryEffectClaim) : _InMemoryEffectClaim :=
  {| ec_action_digest := ec_action_digest c; ec_plan_digest := ec_plan_digest c;
     ec_approval_digest := ec_approval_digest c; ec_policy_digest := ec_policy_digest c;
     ec_target_fingerprint := ec_target_fingerprint c; ec_fence_token := ec_fence_token c;
     ec_attempt := ec_attempt c; ec_claim_token := ec_claim_token c;
     ec_claim_until := ec_claim_until c; ec_receipt := Some r |}.

Definition claim_record (replayed : bool) (c : _InMemoryEffectClaim) : EffectClaimRecord :=
  {| ecr_claim_token := ec_claim_token c; ecr_fence_token := ec_fence_token c;
     ecr_attempt := ec_attempt c; ecr_replayed := replayed; ecr_receipt := ec_receipt c |}.

Section claims.
Context {HDigest : Digest}.

Definition effect_claim_token (intent : ActionIntent) (worker_ref : string) : string :=
  stable_id "effect-claim" [ai_tenant_id intent; ai_operation_id intent; worker_ref;
                            str_of_int (ai_attempt intent); ai_fence_token intent] 40.

Definition effect_claim (intent : ActionIntent) (worker_ref : string) (now claim_until : datetime)
    : M claims_table EffectClaimRecord :=
  lift (raise_if (claim_until <=? now) ValueError "effect claim expiry must follow claim time");;
  let key := (ai_tenant_id intent, ai_operation_id intent) in
  let token := effect_claim_token intent worker_ref in
  claims ← get;
  match claims !! key with
  | Some existing =>
      lift (raise_if (bool_decide (claim_binding existing ≠ intent_binding intent)) EffectConflict
              "effect claim exact binding changed");;
      lift (raise_if (bool_decide (ec_receipt existing = None) && (now <? ec_claim_until existing)
                      && bool_decide (ec_claim_token existing ≠ token)) ConcurrencyConflict
              "effect attempt is actively claimed");;
      (if bool_decide (ec_receipt existing = None) && (ec_claim_until existing <=? now) then
         lift (raise_if (ai_attempt intent <=? ec_attempt existing) ConcurrencyConflict
                 "effect retry attempt did not advance");;
         let renewed := renew_claim (ai_attempt intent) token claim_until existing in
         modify (insert key renewed);;
         mret (claim_record true renewed)
       else mret (claim_record true existing))
  | None =>
      let fresh :=
        {| ec_action_digest := ad_canonical_digest (ai_action intent);
           ec_plan_digest := ai_plan_digest intent; ec_approval_digest := ai_approval_digest intent;
           ec_policy_digest := ai_policy_digest intent;
           ec_target_fingerprint := kt_resource_fingerprint (ad_target (ai_action intent));
           ec_fence_token := ai_fence_token intent; ec_attempt := ai_attempt intent;
           ec_claim_token := token; ec_claim_until := claim_until; ec_receipt := None |} in
      modify (insert key fresh);;
      mret (claim_record false fresh)
  end.

Definition effect_complete (receipt : ActionReceipt) (claim_token : string) : M claims_table unit :=
  let key := (rec_tenant_id receipt, rec_operation_id receipt) in
  claims ← get;
  match claims !! key with
  | None => lift (raise ConcurrencyConflict "stale effect claim completion rejected")
  | Some existing =>
      lift (raise_if (bool_decide (ec_claim_token existing ≠ claim_token)
                      || bool_decide (ec_fence_token existing ≠ rec_fence_token receipt)
                      || negb (ec_attempt existing =? rec_attempt receipt)) ConcurrencyConflict
              "stale effect claim completion rejected");;
      match ec_receipt existing with
      | Some r =>
          lift (raise_if (bool_decide (rec_canonical_digest r ≠ rec_canonical_digest receipt))
                  IdempotencyConflict "effect claim receipt changed")
      | None => modify (insert key (set_receipt receipt existing))
      end
  end.
End claims.

(** ** Effect quota *)

Record EffectQuotaDecision := {
  eq_allowed : bool;
  eq_reservation_id : string;
  eq_units : Z;
  eq_reason : string
}.

Record quota := {
  _remaining : gmap string Z;
  _reservations : gmap (string * string) EffectQuotaDecision
}.

Definition new_EffectQuotaDecision : EffectQuotaDecision → res EffectQuotaDecision :=
  validated (λ d, Identifier (eq_reservation_id d) && (1 <=? eq_units d) && Identifier (eq_reason d))
    "EffectQuotaDecision".

Definition quota_reserve (tenant_id reservation_id : string) (units : Z) : M quota EffectQuotaDecision :=
  lift (raise_if (units <? 1) ValueError "effect quota units must be positive");;
  let key := (tenant_id, reservation_id) in
  q ← get;
  match _reservations q !! key with
  | Some existing => mret existing
  | None =>
      let remaining := default 0 (_remaining q !! tenant_id) in
      let allowed := units <=? remaining in
      decision ← lift (new_EffectQuotaDecision
        {| eq_allowed := allowed; eq_reservation_id := reservation_id; eq_units := units;
           eq_reason := if allowed then "reserved" else "effect_quota_exhausted" |});
      modify (λ q,
        {| _remaining := if allowed then <[tenant_id := remaining - units]> (_remaining q) else _remaining q;
           _reservations := <[key := decision]> (_reservations q) |});;
      mret decision
  end.

(** ** Action policies *)

Abbreviation policy_table := (gmap string ActionPolicy).

Definition policy_current (policies : policy_table) (tenant_id : string) : option ActionPolicy :=
  policies !! tenant_id.

Definition policy_replace (policy : ActionPolicy) : M policy_table unit :=
  policies ← get;
  lift (raise_if (match policies !! ap_tenant_id policy with
                  | Some current => ap_revision policy <=? ap_revision current
                  | None => false
                  end) ConcurrencyConflict "action policy revision did not advance");;
  modify (insert (ap_tenant_id policy) policy).

(** ** The control store *)

Record control_store := {
  _plans : gmap (string * string) RemediationPlan;
  _approvals : gmap (string * string) ActionApprovalRequest;
  _decisions : gmap (string * string) (list ApprovalDecision);
  _decision_commands : gmap (string * string) string;
  _verifications : gmap (string * string) VerificationRecord
}.

Definition empty_control_store : control_store :=
  {| _plans := ∅; _approvals := ∅; _decisions := ∅; _decision_commands := ∅; _verifications := ∅ |}.

Definition put_plan (plan : RemediationPlan) : M control_store unit :=
  let key := (rp_tenant_id plan, rp_plan_id plan) in
  s ← get;
  lift (raise_if (match _plans s !! key with
                  | Some existing => bool_decide (rp_plan_digest existing ≠ rp_plan_digest plan)
                  | None => false
                  end) IdempotencyConflict "plan id was reused with different content");;
  modify (λ s, {| _plans := <[key := plan]> (_plans s); _approvals := _approvals s;
                  _decisions := _decisions s; _decision_commands := _decision_commands s;
                  _verifications := _verifications s |}).

Definition stored_plan (s : control_store) (tenant_id plan_id : string) : option RemediationPlan :=
  _plans s !! (tenant_id, plan_id).

Definition put_approval (approval : ActionApprovalRequest) : M control_store unit :=
  let key := (ar_tenant_id approval, ar_approval_id approval) in
  s ← get;
  lift (raise_if (match _approvals s !! key with
                  | Some existing => bool_decide (ar_canonical_digest existing ≠ ar_canonical_digest approval)
                  | None => false
                  end) IdempotencyConflict "approval id was reused with different exact scope");;
  modify (λ s, {| _plans := _plans s; _approvals := <[key := approval]> (_approvals s);
                  _decisions := _decisions s; _decision_commands := _decision_commands s;
                  _verifications := _verifications s |}).

Definition stored_approval (s : control_store) (tenant_id approval_id : string)
    : option ActionApprovalRequest := _approvals s !! (tenant_id, approval_id).

Definition decisions (s : control_store) (tenant_id approval_id : string) : list ApprovalDecision :=
  default [] (_decisions s !! (tenant_id, approval_id)).

(** [self._decisions.setdefault(key, [])] runs before the approver check. *)
Definition add_decision (decision : ApprovalDecision) : M control_store unit :=
  let command_key := (de_tenant_id decision, de_command_id decision) in
  let key := (de_tenant_id decision, de_approval_id decision) in
  s ← get;
  match _decision_commands s !! command_key with
  | Some existing =>
      lift (raise_if (bool_decide (existing ≠ de_canonical_digest decision)) IdempotencyConflict
              "approval command replay changed immutable decision")
  | None =>
      let ds := default [] (_decisions s !! key) in
      modify (λ s, {| _plans := _plans s; _approvals := _approvals s;
                      _decisions := <[key := ds]> (_decisions s);
                      _decision_commands := _decision_commands s; _verifications := _verifications s |});;
      lift (raise_if (existsb (λ item, bool_decide (de_approver_ref item = de_approver_ref decision)) ds)
              IdempotencyConflict "approver already decided this approval");;
      modify (λ s, {| _plans := _plans s; _approvals := _approvals s;
                      _decisions := <[key := ds ++ [decision]]> (_decisions s);
                      _decision_commands := <[command_key := de_canonical_digest decision]> (_decision_commands s);
                      _verifications := _verifications s |})
  end.

Definition put_verification (verification : VerificationRecord) : M control_store unit :=
  let key := (vr_tenant_id verification, vr_verification_id verification) in
  s ← get;
  lift (raise_if (match _verifications s !! key with
                  | Some existing => bool_decide (vr_canonical_digest existing ≠ vr_canonical_digest verification)
                  | None => false
                  end) IdempotencyConflict "verification replay changed");;
  modify (λ s, {| _plans := _plans s; _approvals := _approvals s; _decisions := _decisions s;
                  _decision_commands := _decision_commands s;
                  _verifications := <[key := verification]> (_verifications s) |}).

Definition stored_verification (s : control_store) (tenant_id verification_id : string)
    : option VerificationRecord := _verifications s !! (tenant_id, verification_id).
