(* ===== verification/RemediationServices.v ===== *)
(** * Approval and effect services ([remediation.py], lines 1124-2243)

    [ApprovalService] and [EffectService] over the in-memory ledger, control store, policy
    store, quota and claims.  The world also holds the clock position, so that each
    [clock.now()] is a new reading, and the log of the calls made to the action provider.

    The ports the services receive are parameters: the clock ([clock], readings in call
    order), the policy ([authorize_port], which may read the clock), and the action provider
    ([ActionPort], over a provider state of its own).  A raise keeps what was written
    before it. *)

From S2P Require Import Prelude PyJson PyFloat PyTime PyModel Domain Durability Authorization RemediationData RemediationStores.

(** ** The world *)

Inductive provider_call :=
  | CallDryRun (intent : ActionIntent)
  | CallObserve (intent : ActionIntent)
  | CallExecute (intent : ActionIntent)
  | CallCompensate (intent : ActionIntent).

(** [ActionPort]: an adapter over a provider state [E] *)
Record ActionPort (E : Type) := {
  port_dry_run : ActionIntent → M E ActionReceipt;
  port_observe : ActionIntent → M E ActionObservation;
  port_execute : ActionIntent → M E ActionReceipt;
  port_compensate : ActionIntent → M E ActionReceipt
}.
Arguments port_dry_run {E} _ _.
Arguments port_observe {E} _ _.
Arguments port_execute {E} _ _.
Arguments port_compensate {E} _ _.

(** [PolicyPort.authorize], given the clock position and returning the new one *)
Definition PolicyPort : Type :=
  nat → IdentityContext → Action → string → string → RiskLevel → PolicyDecision * nat.

(** [EnterprisePolicy] as that port: it reads the clock once; [current_policy] is the policy
    repository as it answers at each clock position. *)
Definition enterprise_port (current_policy : nat → string → option PolicyRecord)
    (clock : nat → datetime) : PolicyPort := λ tick identity action tenant purpose risk,
  (authorize (current_policy tick) (clock tick) identity action tenant purpose risk, S tick).

Record world (E : Type) := {
  w_ledger : rledger;
  w_store : control_store;
  w_policies : policy_table;
  w_quota : quota;
  w_claims : claims_table;
  w_tick : nat;
  w_log : list provider_call;
  w_provider : E
}.
Arguments w_ledger {E} _.
Arguments w_store {E} _.
Arguments w_policies {E} _.
Arguments w_quota {E} _.
Arguments w_claims {E} _.
Arguments w_tick {E} _.
Arguments w_log {E} _.
Arguments w_provider {E} _.

Section world.
Context {E : Type}.

Definition set_w_ledger (l : rledger) (w : world E) : world E :=
  {| w_ledger := l; w_store := w_store w; w_policies := w_policies w; w_quota := w_quota w;
     w_claims := w_claims w; w_tick := w_tick w; w_log := w_log w; w_provider := w_provider w |}.
Definition set_w_store (s : control_store) (w : world E) : world E :=
  {| w_ledger := w_ledger w; w_store := s; w_policies := w_policies w; w_quota := w_quota w;
     w_claims := w_claims w; w_tick := w_tick w; w_log := w_log w; w_provider := w_provider w |}.
Definition set_w_policies (p : policy_table) (w : world E) : world E :=
  {| w_ledger := w_ledger w; w_store := w_store w; w_policies := p; w_quota := w_quota w;
     w_claims := w_claims w; w_tick := w_tick w; w_log := w_log w; w_provider := w_provider w |}.
Definition set_w_quota (q : quota) (w : world E) : world E :=
  {| w_ledger := w_ledger w; w_store := w_store w; w_policies := w_policies w; w_quota := q;
     w_claims := w_claims w; w_tick := w_tick w; w_log := w_log w; w_provider := w_provider w |}.
Definition set_w_claims (c : claims_table) (w : world E) : world E :=
  {| w_ledger := w_ledger w; w_store := w_store w; w_policies := w_policies w; w_quota := w_quota w;
     w_claims := c; w_tick := w_tick w; w_log := w_log w; w_provider := w_provider w |}.
Definition set_w_tick (t : nat) (w : world E) : world E :=
  {| w_ledger := w_ledger w; w_store := w_store w; w_policies := w_policies w; w_quota := w_quota w;
     w_claims := w_claims w; w_tick := t; w_log := w_log w; w_provider := w_provider w |}.
Definition set_w_provider (l : list provider_call) (e : E) (w : world E) : world E :=
  {| w_ledger := w_ledger w; w_store := w_store w; w_policies := w_policies w; w_quota := w_quota w;
     w_claims := w_claims w; w_tick := w_tick w; w_log := l; w_provider := e |}.

(** The methods of each component, run on the world *)
Definition on_ledger {A} (m : M rledger A) : M (world E) A := zoom w_ledger set_w_ledger m.
Definition on_store {A} (m : M control_store A) : M (world E) A := zoom w_store set_w_store m.
Definition on_quota {A} (m : M quota A) : M (world E) A := zoom w_quota set_w_quota m.
Definition on_claims {A} (m : M claims_table A) : M (world E) A := zoom w_claims set_w_claims m.

(** A call to the provider is logged, then made. *)
Definition call_provider {A} (c : provider_call) (m : M E A) : M (world E) A :=
  λ w, let '(r, e) := m (w_provider w) in (r, set_w_provider (w_log w ++ [c]) e w).
End world.

Section services.
Context {HDigest : Digest} {HFloat : FloatJson} {E : Type}.
Context (clock : nat → datetime) (authorize_port : PolicyPort) (actions : ActionPort E).

Abbreviation W := (M (world E)).

(** [clock.now()] *)
Definition now : W datetime := λ w, (Ok (clock (w_tick w)), set_w_tick (S (w_tick w)) w).

Definition _authorize (identity : IdentityContext) (action : Action) (risk : RiskLevel) : W unit :=
  decision ← (λ w, let '(d, t) := authorize_port (w_tick w) identity action (ic_tenant_id identity)
                                    "incident-response" risk in (Ok d, set_w_tick t w));
  lift (raise_if (negb (pd_allowed decision)) PolicyDenied (pd_reason decision)).

(** The first failing check of [_require_action_policy] *)
Definition policy_denial (policy : ActionPolicy) (at_ : datetime) (plan : RemediationPlan)
    (consume_quota : bool) : option string :=
  if negb (ap_enabled policy) then Some "effects_disabled"
  else if (at_ <? ap_maintenance_window_start policy) || (ap_maintenance_window_end policy <=? at_)
  then Some "outside_maintenance_window"
  else if risk_order (ap_max_risk policy) <? risk_order (rp_risk plan)
  then Some "risk_exceeds_action_policy"
  else if _blast_order (ap_max_blast_radius policy) <? _blast_order (rp_blast_radius plan)
  then Some "blast_radius_exceeds_action_policy"
  else if consume_quota && (ap_remaining_effects policy <? 1) then Some "effect_quota_exhausted"
  else if existsb (λ action,
      bool_decide (action_type action ∉ ap_allowed_action_types policy)
      || bool_decide (kt_resource_fingerprint (ad_target action) ∉ ap_allowed_target_fingerprints policy)
      || bool_decide (kt_namespace (ad_target action) ∉ ap_allowed_namespaces policy)) (rp_actions plan)
  then Some "action_or_exact_target_not_allowlisted"
  else None.

Definition _require_action_policy (plan : RemediationPlan) (consume_quota : bool) : W ActionPolicy :=
  w ← get;
  at_ ← now;
  match policy_current (w_policies w) (rp_tenant_id plan) with
  | None => lift (raise PolicyDenied "no_current_action_policy")
  | Some policy =>
      match policy_denial policy at_ plan consume_quota with
      | Some reason => lift (raise PolicyDenied reason)
      | None => mret policy
      end
  end.

Definition _require_plan (tenant_id plan_id : string) : W RemediationPlan :=
  w ← get;
  lift (of_option (stored_plan (w_store w) tenant_id plan_id) PolicyDenied "remediation_not_available").

Definition _require_approval (tenant_id approval_id : string) : W ActionApprovalRequest :=
  w ← get;
  lift (of_option (stored_approval (w_store w) tenant_id approval_id) PolicyDenied "remediation_not_available").

Definition _actor_ref (identity : IdentityContext) : string :=
  stable_id "actor" [ic_issuer identity; ic_subject_id identity] 32.

(** [self._ledger.append(recorded_at=self._clock.now(), ...)] *)
Definition record_fact (plan : RemediationPlan) (expected_version : Z) (fact_type : RemediationFactType)
    (command_id actor : string) (p : payload) : W RemediationProjection :=
  recorded_at ← now;
  on_ledger (ledger_append (rp_tenant_id plan) (rp_plan_id plan) expected_version fact_type
               command_id actor recorded_at p).

(** ** ApprovalService *)

Definition propose (identity : IdentityContext) (plan : RemediationPlan) (command_id : string)
    : W RemediationProjection :=
  _authorize identity REMEDIATION_PROPOSE (rp_risk plan);;
  lift (raise_if (bool_decide (rp_tenant_id plan ≠ ic_tenant_id identity)) PolicyDenied "tenant_mismatch");;
  current ← _require_action_policy plan false;
  lift (raise_if (bool_decide (snapshot current ≠ rp_policy_snapshot plan)) PolicyDenied
          "plan_policy_snapshot_is_not_current");;
  on_store (put_plan plan);;
  let fence := stable_id "effect-fence" [rp_tenant_id plan; rp_plan_id plan; rp_plan_digest plan] 32 in
  let actor := _actor_ref identity in
  recorded ← record_fact plan 0 FT_PROPOSAL_RECORDED command_id actor
    [("run_id", JStr (rp_run_id plan)); ("plan_digest", JStr (rp_plan_digest plan));
     ("fence_token", JStr fence)];
  record_fact plan (pj_version recorded) FT_POLICY_DECIDED (command_id +:+ ":policy") actor
    [("allowed", JBool true); ("policy_digest", JStr (ap_policy_digest current));
     ("policy_revision", JInt (ap_revision current))].

(** The approval request [request_approval] makes *)
Definition approval_request (identity : IdentityContext) (plan : RemediationPlan)
    (current : ActionPolicy) (requirement : ApprovalRequirement) (at_ : datetime) : ActionApprovalRequest :=
  let unsigned :=
    {| ar_approval_id := stable_id "approval" [rp_tenant_id plan; rp_plan_id plan; rp_plan_digest plan] 32;
       ar_tenant_id := rp_tenant_id plan; ar_plan_id := rp_plan_id plan; ar_run_id := rp_run_id plan;
       ar_plan_digest := rp_plan_digest plan; ar_action_digests := ad_canonical_digest <$> rp_actions plan;
       ar_target_fingerprint := rp_target_fingerprint plan; ar_policy_snapshot := snapshot current;
       ar_requirement := requirement; ar_requested_by_ref := _actor_ref identity;
       ar_requested_at := at_; ar_expires_at := Z.min (rp_expires_at plan) (at_ + hours 2);
       ar_canonical_digest := "" |} in
  {| ar_approval_id := ar_approval_id unsigned; ar_tenant_id := ar_tenant_id unsigned;
     ar_plan_id := ar_plan_id unsigned; ar_run_id := ar_run_id unsigned;
     ar_plan_digest := ar_plan_digest unsigned; ar_action_digests := ar_action_digests unsigned;
     ar_target_fingerprint := ar_target_fingerprint unsigned;
     ar_policy_snapshot := ar_policy_snapshot unsigned; ar_requirement := ar_requirement unsigned;
     ar_requested_by_ref := ar_requested_by_ref unsigned; ar_requested_at := ar_requested_at unsigned;
     ar_expires_at := ar_expires_at unsigned;
     ar_canonical_digest := canonical_digest (approval_material unsigned) |}.

Definition required_quorum (plan : RemediationPlan) (current : ActionPolicy) : Z :=
  if decide (rp_risk plan = RHigh) then ap_high_risk_quorum current else ap_normal_quorum current.

Definition request_approval (identity : IdentityContext) (plan_id : string) (expected_version : Z)
    (command_id : string) : W ApprovalView :=
  _authorize identity APPROVAL_REQUEST RHigh;;
  plan ← _require_plan (ic_tenant_id identity) plan_id;
  current ← _require_action_policy plan false;
  let quorum := required_quorum plan current in
  at_ ← now;
  requirement ← lift (new_ApprovalRequirement
    {| aq_quorum := quorum; aq_required_roles := ap_approver_roles current;
       aq_prohibit_self_approval := ap_prohibit_self_approval current;
       aq_rationale_min_length := 12; aq_rationale_max_length := 1000 |});
  approval ← lift (new_ActionApprovalRequest (approval_request identity plan current requirement at_));
  on_store (put_approval approval);;
  p ← on_ledger (ledger_append (rp_tenant_id plan) (rp_plan_id plan) expected_version
    FT_APPROVAL_REQUESTED command_id (_actor_ref identity) at_
    [("approval_id", JStr (ar_approval_id approval));
     ("approval_digest", JStr (ar_canonical_digest approval));
     ("expires_at", JStr (isoformat (ar_expires_at approval))); ("quorum", JInt quorum)]);
  lift (new_ApprovalView
    {| av_approval := approval; av_decisions := []; av_status := pj_status p;
       av_version := pj_version p; av_grants := 0 |}).

(** [sum(item.disposition is GRANT for item in decisions)] *)
Definition grant_count (ds : list ApprovalDecision) : Z :=
  zlen (List.filter (λ d, bool_decide (de_disposition d = GRANT)) ds).

(** [{item.approver_ref for item in decisions if item.disposition is GRANT}] *)
Definition granting_approvers (ds : list ApprovalDecision) : gset string :=
  list_to_set (de_approver_ref <$> List.filter (λ d, bool_decide (de_disposition d = GRANT)) ds).

(** The decision [decide] records *)
Definition approval_decision (identity : IdentityContext) (approval : ActionApprovalRequest)
    (plan : RemediationPlan) (policy : ActionPolicy) (approval_id : string)
    (disposition : ApprovalDisposition) (rationale command_id role : string) (at_ : datetime)
    : ApprovalDecision :=
  let actor := _actor_ref identity in
  let unsigned :=
    {| de_decision_id := stable_id "decision" [ic_tenant_id identity; approval_id; actor; command_id] 32;
       de_command_id := command_id; de_approval_id := approval_id; de_tenant_id := ic_tenant_id identity;
       de_disposition := disposition; de_approver_ref := actor; de_approver_role := role;
       de_plan_digest := rp_plan_digest plan; de_approval_digest := ar_canonical_digest approval;
       de_policy_digest := ap_policy_digest policy; de_role_revision := ap_role_revision policy;
       de_rationale := rationale; de_decided_at := at_; de_canonical_digest := "" |} in
  {| de_decision_id := de_decision_id unsigned; de_command_id := command_id;
     de_approval_id := approval_id; de_tenant_id := ic_tenant_id identity;
     de_disposition := disposition; de_approver_ref := actor; de_approver_role := role;
     de_plan_digest := rp_plan_digest plan; de_approval_digest := ar_canonical_digest approval;
     de_policy_digest := ap_policy_digest policy; de_role_revision := ap_role_revision policy;
     de_rationale := rationale; de_decided_at := at_;
     de_canonical_digest := canonical_digest (decision_material unsigned) |}.

(** The projection of the plan an approval belongs to, or the [IntegrityFailure] of a
    binding that does not hold *)
Definition bound_projection (tenant_id plan_id approval_id : string) : W RemediationProjection :=
  w ← get;
  match projection (w_ledger w) tenant_id plan_id with
  | Some p =>
      lift (raise_if (bool_decide (pj_approval_id p ≠ Some approval_id)) IntegrityFailure
              "approval projection binding is invalid");;
      mret p
  | None => lift (raise IntegrityFailure "approval projection binding is invalid")
  end.

Definition decide_approval (identity : IdentityContext) (approval_id : string)
    (disposition : ApprovalDisposition) (rationale : string) (expected_version : Z)
    (command_id plan_digest approval_digest : string) : W ApprovalView :=
  _authorize identity APPROVAL_DECIDE RHigh;;
  lift (raise_if (bool_decide (ic_principal_kind identity ≠ PHuman)) PolicyDenied
          "approval_requires_human_principal");;
  approval ← _require_approval (ic_tenant_id identity) approval_id;
  plan ← _require_plan (ic_tenant_id identity) (ar_plan_id approval);
  current ← bound_projection (ic_tenant_id identity) (rp_plan_id plan) approval_id;
  lift (raise_if (negb (pj_version current =? expected_version)) ConcurrencyConflict
          "approval aggregate version changed");;
  lift (raise_if (bool_decide (pj_status current ≠ RS_APPROVAL_PENDING)) IntegrityFailure
          "approval is already terminal");;
  policy ← _require_action_policy plan false;
  at_ ← now;
  let actor := _actor_ref identity in
  if (ar_expires_at approval <=? at_) || (rp_expires_at plan <=? at_) then
    on_ledger (ledger_append (rp_tenant_id plan) (rp_plan_id plan) expected_version
      FT_APPROVAL_EXPIRED command_id actor at_ [("approval_id", JStr approval_id)]);;
    lift (raise ApprovalExpired "approval has expired")
  else
    lift (raise_if (bool_decide (plan_digest ≠ rp_plan_digest plan)
                    || bool_decide (ar_plan_digest approval ≠ rp_plan_digest plan)) PolicyDenied
            "plan_digest_changed");;
    lift (raise_if (bool_decide (approval_digest ≠ ar_canonical_digest approval)
                    || bool_decide (ar_policy_snapshot approval ≠ snapshot policy)) PolicyDenied
            "approval_or_policy_digest_changed");;
    lift (raise_if (aq_prohibit_self_approval (ar_requirement approval)
                    && bool_decide (actor = rp_proposer_ref plan)) PolicyDenied
            "self_approval_prohibited");;
    let matching_roles := sorted_set
      (List.filter (λ r, bool_decide (r ∈ aq_required_roles (ar_requirement approval))) (ic_roles identity)) in
    match matching_roles with
    | [] => lift (raise PolicyDenied "approver_role_not_permitted")
    | role :: _ =>
        lift (raise_if (negb (in_range (aq_rationale_min_length (ar_requirement approval))
                                (aq_rationale_max_length (ar_requirement approval)) (str_len rationale)))
                PolicyDenied "approval_rationale_outside_bounds");;
        decision ← lift (new_ApprovalDecision
          (approval_decision identity approval plan policy approval_id disposition rationale command_id role at_));
        on_store (add_decision decision);;
        w ← get;
        let ds := decisions (w_store w) (ic_tenant_id identity) approval_id in
        let fact_type :=
          if decide (disposition = DENY) then FT_APPROVAL_DENIED
          else if aq_quorum (ar_requirement approval) <=? Z.of_nat (size (granting_approvers ds))
          then FT_APPROVAL_GRANTED else FT_APPROVAL_REQUESTED in
        let status :=
          if decide (disposition = DENY) then RS_DENIED
          else if decide (fact_type = FT_APPROVAL_GRANTED) then RS_APPROVED else RS_APPROVAL_PENDING in
        p ← on_ledger (ledger_append (rp_tenant_id plan) (rp_plan_id plan) expected_version fact_type
          command_id actor at_
          [("approval_id", JStr approval_id); ("approval_digest", JStr (ar_canonical_digest approval));
           ("decision_digest", JStr (de_canonical_digest decision)); ("grant_count", JInt (grant_count ds))]);
        lift (raise_if (bool_decide (pj_status p ≠ status)) IntegrityFailure
                "approval projection status mismatch");;
        lift (new_ApprovalView
          {| av_approval := approval; av_decisions := ds; av_status := pj_status p;
             av_version := pj_version p; av_grants := grant_count ds |})
    end.

Definition revoke (identity : IdentityContext) (approval_id : string) (expected_version : Z)
    (command_id rationale : string) : W RemediationProjection :=
  _authorize identity APPROVAL_REVOKE RHigh;;
  lift (raise_if (str_len rationale <? 12) PolicyDenied "revocation_rationale_too_short");;
  approval ← _require_approval (ic_tenant_id identity) approval_id;
  current ← bound_projection (ic_tenant_id identity) (ar_plan_id approval) approval_id;
  lift (raise_if (negb (pj_version current =? expected_version)) ConcurrencyConflict
          "approval aggregate version changed");;
  lift (raise_if (bool_decide (pj_status current ∉ [RS_APPROVAL_PENDING; RS_APPROVED])) IntegrityFailure
          "approval is already terminal");;
  recorded_at ← now;
  on_ledger (ledger_append (ic_tenant_id identity) (ar_plan_id approval) expected_version
    FT_APPROVAL_REVOKED command_id (_actor_ref identity) recorded_at
    [("approval_id", JStr approval_id); ("reason_code", JStr "human_revocation")]).

Definition get_approval (identity : IdentityContext) (approval_id : string) : W (option ApprovalView) :=
  _authorize identity REMEDIATION_READ RLow;;
  w ← get;
  match stored_approval (w_store w) (ic_tenant_id identity) approval_id with
  | None => mret None
  | Some approval =>
      match projection (w_ledger w) (ic_tenant_id identity) (ar_plan_id approval) with
      | None => lift (raise IntegrityFailure "approval has no remediation projection")
      | Some p =>
          let ds := decisions (w_store w) (ic_tenant_id identity) approval_id in
          v ← lift (new_ApprovalView
            {| av_approval := approval; av_decisions := ds; av_status := pj_status p;
               av_version := pj_version p; av_grants := grant_count ds |});
          mret (Some v)
      end
  end.

(** ** EffectService *)

Record scope := {
  sc_plan : RemediationPlan;
  sc_approval : ActionApprovalRequest;
  sc_policy : ActionPolicy;
  sc_projection : RemediationProjection
}.

(** A grant that counts at execution: it binds the plan, the approval, the policy and the
    role revision in force. *)
Definition current_grant (plan : RemediationPlan) (approval : ActionApprovalRequest)
    (current : ActionPolicy) (d : ApprovalDecision) : bool :=
  bool_decide (de_disposition d = GRANT) && bool_decide (de_plan_digest d = rp_plan_digest plan)
  && bool_decide (de_approval_digest d = ar_canonical_digest approval)
  && bool_decide (de_policy_digest d = ap_policy_digest current)
  && (de_role_revision d =? ap_role_revision current).

Definition current_grants (plan : RemediationPlan) (approval : ActionApprovalRequest)
    (current : ActionPolicy) (ds : list ApprovalDecision) : gset string :=
  list_to_set (de_approver_ref <$> List.filter (current_grant plan approval current) ds).

(** [approval.expires_at <= self._clock.now() or plan.expires_at <= self._clock.now()]: the
    clock is read for each comparison that is evaluated. *)
Definition scope_expired (approval : ActionApprovalRequest) (plan : RemediationPlan) : W bool :=
  t1 ← now;
  if ar_expires_at approval <=? t1 then mret true
  else t2 ← now; mret (rp_expires_at plan <=? t2).

Definition _validated_scope (identity : IdentityContext) (plan_id action_id : string)
    (allowed_statuses : list RemediationStatus) : W scope :=
  _authorize identity EFFECT_EXECUTE RHigh;;
  w ← get;
  match stored_plan (w_store w) (ic_tenant_id identity) plan_id,
        projection (w_ledger w) (ic_tenant_id identity) plan_id with
  | Some plan, Some p =>
    match pj_approval_id p with
    | None => lift (raise PolicyDenied "remediation_not_available")
    | Some approval_id =>
      lift (raise_if (negb (existsb (λ a, bool_decide (ad_action_id a = action_id)) (rp_actions plan)))
              PolicyDenied "action_not_in_exact_plan");;
      approval ← lift (of_option (stored_approval (w_store w) (ic_tenant_id identity) approval_id)
                         IntegrityFailure "approved remediation omitted approval record");
      current ← lift (of_option (policy_current (w_policies w) (ic_tenant_id identity))
                        PolicyDenied "no_current_action_policy");
      expired ← (if bool_decide (ar_plan_digest approval ≠ rp_plan_digest plan)
                    || bool_decide (Some (ar_canonical_digest approval) ≠ pj_approval_digest p)
                    || bool_decide (ar_policy_snapshot approval ≠ snapshot current)
                    || bool_decide (rp_policy_snapshot plan ≠ snapshot current)
                 then mret true else scope_expired approval plan);
      lift (raise_if expired ApprovalExpired "approval exact scope is stale");;
      let ds := decisions (w_store w) (ic_tenant_id identity) (ar_approval_id approval) in
      lift (raise_if (existsb (λ d, bool_decide (de_disposition d = DENY)) ds) ApprovalDenied
              "approval was denied");;
      lift (raise_if (Z.of_nat (size (current_grants plan approval current ds))
                      <? aq_quorum (ar_requirement approval)) ApprovalDenied
              "approval quorum is not satisfied");;
      lift (raise_if (bool_decide (pj_status p ∉ allowed_statuses)
                      && bool_decide (pj_status p = RS_REVOKED)) ApprovalRevoked "approval was revoked");;
      lift (raise_if (bool_decide (pj_status p ∉ allowed_statuses)) EffectConflict
              "remediation state does not permit this operation");;
      _require_action_policy plan true;;
      requested_at ← now;
      quota_decision ← on_quota (quota_reserve (rp_tenant_id plan)
        (stable_id "effect-quota" [rp_tenant_id plan; rp_plan_id plan; action_id] 32) 1);
      lift (raise_if (negb (eq_allowed quota_decision)) PolicyDenied (eq_reason quota_decision));;
      mret {| sc_plan := plan; sc_approval := approval; sc_policy := current; sc_projection := p |}
    end
  | _, _ => lift (raise PolicyDenied "remediation_not_available")
  end.

(** [next(item for item in plan.actions if item.action_id == action_id)] *)
Definition plan_action (plan : RemediationPlan) (action_id : string) : res ActionDefinition :=
  of_option (find (λ a, bool_decide (ad_action_id a = action_id)) (rp_actions plan)) StopIteration "".

Definition _intent (s : scope) (action_id operation_id : string) (attempt : Z) (dry_run : bool) : W ActionIntent :=
  action ← lift (plan_action (sc_plan s) action_id);
  requested_at ← now;
  lift (new_ActionIntent
    {| ai_tenant_id := rp_tenant_id (sc_plan s); ai_run_id := rp_run_id (sc_plan s);
       ai_plan_id := rp_plan_id (sc_plan s); ai_action := action;
       ai_plan_digest := rp_plan_digest (sc_plan s);
       ai_approval_digest := ar_canonical_digest (sc_approval s);
       ai_policy_digest := ap_policy_digest (sc_policy s); ai_operation_id := operation_id;
       ai_attempt := attempt; ai_fence_token := pj_fence_token (sc_projection s);
       ai_requested_at := requested_at; ai_dry_run := dry_run |}).

Definition _synthetic_receipt (intent : ActionIntent) (outcome : EffectOutcome) (detail_code : string)
    (recorded_at : datetime) (provider_receipt_ref : option string) : res ActionReceipt :=
  let receipt digest :=
    {| rec_tenant_id := ai_tenant_id intent; rec_plan_id := ai_plan_id intent;
       rec_action_id := ad_action_id (ai_action intent); rec_operation_id := ai_operation_id intent;
       rec_idempotency_key := ad_idempotency_key (ai_action intent);
       rec_fence_token := ai_fence_token intent; rec_attempt := ai_attempt intent;
       rec_outcome := outcome; rec_provider_receipt_ref := provider_receipt_ref;
       rec_target_fingerprint := kt_resource_fingerprint (ad_target (ai_action intent));
       rec_recorded_at := recorded_at; rec_detail_code := detail_code;
       rec_canonical_digest := digest |} in
  new_ActionReceipt (receipt (canonical_digest (receipt_material (receipt "")))).

(** [self._claims.claim(intent, worker_ref=actor, now=now, claim_until=now + timeout)] *)
Definition claim_effect (intent : ActionIntent) (actor : string) : W EffectClaimRecord :=
  at_ ← now;
  on_claims (effect_claim intent actor at_
    (at_ + seconds (rc_attempt_timeout_seconds (ad_retry (ai_action intent))))).

(** [self._claims.complete(receipt, claim_token=..., now=self._clock.now())] *)
Definition complete_effect (receipt : ActionReceipt) (claim_token : string) : W unit :=
  completed_at ← now;
  on_claims (effect_complete receipt claim_token).

Definition synthetic (intent : ActionIntent) (outcome : EffectOutcome) (detail_code : string)
    (provider_receipt_ref : option string) : W ActionReceipt :=
  recorded_at ← now;
  lift (_synthetic_receipt intent outcome detail_code recorded_at provider_receipt_ref).

Definition preflight (identity : IdentityContext) (plan_id action_id : string) (expected_version : Z)
    (operation_id : string) (attempt : Z) : W ActionReceipt :=
  s ← _validated_scope identity plan_id action_id [RS_APPROVED; RS_PREFLIGHT];
  intent ← _intent s action_id operation_id attempt true;
  let actor := _actor_ref identity in
  started ← record_fact (sc_plan s) expected_version FT_PREFLIGHT_REQUESTED (operation_id +:+ ":intent") actor
    [("action_id", JStr action_id); ("action_digest", JStr (ad_canonical_digest (ai_action intent)))];
  receipt ← call_provider (CallDryRun intent) (port_dry_run actions intent);
  if decide (rec_outcome receipt ≠ EO_DRY_RUN_SUCCEEDED) then
    record_fact (sc_plan s) (pj_version started) FT_EXECUTION_FAILED (operation_id +:+ ":result") actor
      [("detail_code", JStr (rec_detail_code receipt))];;
    lift (raise EffectConflict "action dry-run did not succeed")
  else
    record_fact (sc_plan s) (pj_version started) FT_DRY_RUN_SUCCEEDED (operation_id +:+ ":result") actor
      [("effect_receipt_digest", JStr (rec_canonical_digest receipt))];;
    mret receipt.

(** Observe, then execute only on an unapplied target whose preconditions hold *)
Definition observe_and_execute (intent : ActionIntent) : W ActionReceipt :=
  before ← call_provider (CallObserve intent) (port_observe actions intent);
  if decide (ao_state before = OS_APPLIED) then
    synthetic intent EO_DUPLICATE "already_applied" (ao_provider_receipt_ref before)
  else if decide (ao_state before ∉ [OS_BEFORE; OS_NOT_APPLIED]) then
    synthetic intent EO_CONFLICT "observe_before_execute_conflict" None
  else if negb (forallb (λ c, _condition_matches c (ao_facts before)) (ad_preconditions (ai_action intent))) then
    synthetic intent EO_CONFLICT "precondition_failed" None
  else call_provider (CallExecute intent) (port_execute actions intent).

Definition execution_fact (o : EffectOutcome) : option RemediationFactType :=
  match o with
  | EO_SUCCEEDED | EO_DUPLICATE => Some FT_EXECUTION_SUCCEEDED
  | EO_FAILED | EO_CONFLICT => Some FT_EXECUTION_FAILED
  | EO_AMBIGUOUS => Some FT_EXECUTION_AMBIGUOUS
  | _ => None
  end.

Definition execute (identity : IdentityContext) (plan_id action_id : string) (expected_version : Z)
    (operation_id : string) (attempt : Z) : W ActionReceipt :=
  s ← _validated_scope identity plan_id action_id [RS_PREFLIGHT; RS_EXECUTING; RS_SUCCEEDED];
  intent ← _intent s action_id operation_id attempt false;
  let actor := _actor_ref identity in
  requested ← record_fact (sc_plan s) expected_version FT_EXECUTION_REQUESTED (operation_id +:+ ":intent") actor
    [("action_id", JStr action_id); ("idempotency_key", JStr (ad_idempotency_key (ai_action intent)));
     ("fence_token", JStr (pj_fence_token (sc_projection s)))];
  claim ← claim_effect intent actor;
  result ← match ecr_receipt claim with
    | Some receipt => mret (receipt, pj_version requested)
    | None =>
        started ← record_fact (sc_plan s) (pj_version requested) FT_EXECUTION_STARTED
          (operation_id +:+ ":started:" +:+ str_of_int attempt) actor [("attempt", JInt attempt)];
        receipt ← observe_and_execute intent;
        complete_effect receipt (ecr_claim_token claim);;
        mret (receipt, pj_version started)
    end;
  let receipt := result.1 in
  fact_type ← lift (of_option (execution_fact (rec_outcome receipt)) IntegrityFailure
                      "action adapter returned an invalid execute outcome");
  record_fact (sc_plan s) result.2 fact_type (operation_id +:+ ":result") actor
    [("effect_receipt_digest", JStr (rec_canonical_digest receipt));
     ("detail_code", JStr (rec_detail_code receipt))];;
  lift (raise_if (bool_decide (rec_outcome receipt = EO_AMBIGUOUS)) EffectAmbiguous
          "external action outcome requires reconciliation");;
  lift (raise_if (bool_decide (rec_outcome receipt ∉ [EO_SUCCEEDED; EO_DUPLICATE])) EffectConflict
          "external action failed safely");;
  mret receipt.

Definition reconcile (identity : IdentityContext) (plan_id action_id : string) (expected_version : Z)
    (operation_id : string) (attempt : Z) : W ActionReceipt :=
  s ← _validated_scope identity plan_id action_id [RS_AMBIGUOUS; RS_RECONCILING; RS_SUCCEEDED];
  intent ← _intent s action_id operation_id attempt false;
  let actor := _actor_ref identity in
  current_version ← (if decide (pj_status (sc_projection s) = RS_AMBIGUOUS) then
      reconciling ← record_fact (sc_plan s) expected_version FT_RECONCILIATION_STARTED
        (operation_id +:+ ":intent") actor [("action_id", JStr action_id)];
      mret (pj_version reconciling)
    else mret expected_version);
  claim ← claim_effect intent actor;
  receipt ← match ecr_receipt claim with
    | Some receipt => mret receipt
    | None =>
        observed ← call_provider (CallObserve intent) (port_observe actions intent);
        receipt ← (if decide (ao_state observed = OS_APPLIED) then
            synthetic intent EO_SUCCEEDED "reconciled_applied" (ao_provider_receipt_ref observed)
          else synthetic intent EO_AMBIGUOUS "reconciliation_inconclusive" None);
        complete_effect receipt (ecr_claim_token claim);;
        mret receipt
    end;
  if decide (rec_outcome receipt = EO_SUCCEEDED) then
    record_fact (sc_plan s) current_version FT_RECONCILIATION_RESOLVED (operation_id +:+ ":result") actor
      [("effect_receipt_digest", JStr (rec_canonical_digest receipt))];;
    mret receipt
  else
    record_fact (sc_plan s) current_version FT_ESCALATED (operation_id +:+ ":escalate") actor
      [("reason_code", JStr "reconciliation_inconclusive")];;
    lift (raise EffectAmbiguous "reconciliation could not prove the external outcome").

(** The verification record [verify] makes *)
Definition verification_record (plan : RemediationPlan) (action_id verification_id : string)
    (effect_receipt : ActionReceipt) (fresh_evidence : list Citation) (observed : ActionObservation)
    (satisfied : bool) (at_ : datetime) : VerificationRecord :=
  let record digest :=
    {| vr_verification_id := verification_id; vr_tenant_id := rp_tenant_id plan;
       vr_plan_id := rp_plan_id plan; vr_action_id := action_id;
       vr_effect_receipt_digest := rec_canonical_digest effect_receipt;
       vr_fresh_evidence := fresh_evidence; vr_observation := observed;
       vr_postconditions_satisfied := satisfied; vr_verified_at := at_;
       vr_canonical_digest := digest |} in
  record (canonical_digest (verification_material (record ""))).

Definition verify (identity : IdentityContext) (plan_id action_id : string) (expected_version : Z)
    (operation_id : string) (effect_receipt : ActionReceipt) (fresh_evidence : list Citation)
    (attempt : Z) : W VerificationRecord :=
  s ← _validated_scope identity plan_id action_id [RS_SUCCEEDED; RS_VERIFIED; RS_VERIFICATION_FAILED];
  intent ← _intent s action_id operation_id attempt false;
  let actor := _actor_ref identity in
  let plan := sc_plan s in
  lift (raise_if (bool_decide (pj_effect_receipt_digest (sc_projection s) ≠ Some (rec_canonical_digest effect_receipt))
                  || bool_decide (rec_tenant_id effect_receipt ≠ rp_tenant_id plan)
                  || bool_decide (rec_plan_id effect_receipt ≠ rp_plan_id plan)
                  || bool_decide (rec_action_id effect_receipt ≠ action_id)
                  || bool_decide (rec_fence_token effect_receipt ≠ pj_fence_token (sc_projection s)))
          IntegrityFailure "verification receipt binding is invalid");;
  requested ← record_fact plan expected_version FT_VERIFICATION_REQUESTED (operation_id +:+ ":intent") actor
    [("effect_receipt_digest", JStr (rec_canonical_digest effect_receipt))];
  let verification_id := stable_id "verification"
    [rp_tenant_id plan; rp_plan_id plan; action_id; operation_id] 32 in
  w ← get;
  record ← match stored_verification (w_store w) (rp_tenant_id plan) verification_id with
    | Some record => mret record
    | None =>
        observed ← call_provider (CallObserve intent) (port_observe actions intent);
        let satisfied :=
          (rec_recorded_at effect_receipt <? ao_observed_at observed)
          && negb (bool_decide (fresh_evidence = []))
          && forallb (λ c, _condition_matches c (ao_facts observed)) (ad_postconditions (ai_action intent)) in
        at_ ← now;
        record ← lift (new_VerificationRecord
          (verification_record plan action_id verification_id effect_receipt fresh_evidence observed satisfied at_));
        on_store (put_verification record);;
        mret record
    end;
  let satisfied := vr_postconditions_satisfied record in
  record_fact plan (pj_version requested) (if satisfied then FT_VERIFIED else FT_VERIFICATION_FAILED)
    (operation_id +:+ ":result") actor [("verification_digest", JStr (vr_canonical_digest record))];;
  lift (raise_if (negb satisfied) VerificationFailed "fresh evidence did not satisfy postconditions");;
  mret record.

Definition rollback (identity : IdentityContext) (plan_id action_id : string) (expected_version : Z)
    (operation_id : string) (attempt : Z) : W ActionReceipt :=
  s ← _validated_scope identity plan_id action_id
        [RS_FAILED; RS_SUCCEEDED; RS_VERIFICATION_FAILED; RS_ROLLED_BACK];
  action ← lift (plan_action (sc_plan s) action_id);
  lift (raise_if (negb (cc_enabled (ad_compensation action))) PolicyDenied "compensation_not_enabled");;
  intent ← _intent s action_id operation_id attempt false;
  let actor := _actor_ref identity in
  requested ← record_fact (sc_plan s) expected_version FT_ROLLBACK_REQUESTED (operation_id +:+ ":intent") actor
    [("action_id", JStr action_id)];
  claim ← claim_effect intent actor;
  receipt ← match ecr_receipt claim with
    | Some receipt => mret receipt
    | None =>
        receipt ← call_provider (CallCompensate intent) (port_compensate actions intent);
        complete_effect receipt (ecr_claim_token claim);;
        mret receipt
    end;
  let succeeded := bool_decide (rec_outcome receipt = EO_COMPENSATED) in
  record_fact (sc_plan s) (pj_version requested)
    (if succeeded then FT_ROLLBACK_SUCCEEDED else FT_ROLLBACK_FAILED) (operation_id +:+ ":result") actor
    [("effect_receipt_digest", JStr (rec_canonical_digest receipt));
     ("detail_code", JStr (rec_detail_code receipt))];;
  lift (raise_if (negb succeeded) EffectConflict "rollback failed and requires operator escalation");;
  mret receipt.
End services.
