(* ===== verification/RemediationFacts.v ===== *)
(** * The remediation ledger and its stores: invariants and history

    Every sequence of appends keeps the projection equal to the replay of the facts, the
    facts chained by digest and bounded, and the command table backed by a stored fact; the
    status of a plan moves only along [_validate_transition].  The effect quota never
    overspends, an effect claim keeps its receipt for ever and is held by one worker at a
    time, and an approval holds at most one decision per approver. *)

From S2P Require Import Prelude PyJson PyTime PyFloat PyModel QuotaFacts Domain Durability RemediationData RemediationStores.

(** ** The fold *)

Lemma validate_transition_ok s s' u :
  _validate_transition s s' = Ok u → s' ∈ allowed_transitions s ∧ s ∉ terminal_statuses.
Proof. unfold _validate_transition. intros H. py_inv. py_bool. by split. Qed.

(** What one fact does to a projection *)
Lemma reduce_some c f p :
  reduce_remediation (Some c) f = Ok p →
  rf_sequence f = pj_version c + 1 ∧ rf_previous_digest f = pj_last_fact_digest c ∧
  pj_status p ∈ allowed_transitions (pj_status c) ∧ pj_status c ∉ terminal_statuses ∧
  pj_status p = status_by_fact (rf_fact_type f) ∧ pj_version p = rf_sequence f ∧
  pj_last_fact_digest p = rf_canonical_digest f ∧
  pj_tenant_id p = pj_tenant_id c ∧ pj_plan_id p = pj_plan_id c ∧ pj_run_id p = pj_run_id c ∧
  pj_plan_digest p = pj_plan_digest c ∧ pj_fence_token p = pj_fence_token c.
Proof.
  unfold reduce_remediation. intros H.
  apply res_bind_ok in H as (u1 & H1 & H). apply res_bind_ok in H as (u2 & H2 & H).
  apply res_bind_ok in H as (u3 & H3 & H). apply res_bind_ok in H as (ap & _ & H).
  injection H as <-. apply validate_transition_ok in H3 as [Ha Ht]. py_inv. py_bool.
  simpl. split_and!; done.
Qed.

Lemma reduce_none f p :
  reduce_remediation None f = Ok p →
  rf_fact_type f = FT_PROPOSAL_RECORDED ∧ pj_status p = RS_PROPOSED ∧ pj_version p = 1 ∧
  pj_last_fact_digest p = rf_canonical_digest f ∧ pj_tenant_id p = rf_tenant_id f ∧
  pj_plan_id p = rf_plan_id f ∧ pj_approval_id p = None.
Proof.
  unfold reduce_remediation. intros H.
  apply res_bind_ok in H as (u1 & H1 & H). apply res_bind_ok in H as (r & _ & H).
  apply res_bind_ok in H as (d & _ & H). apply res_bind_ok in H as (t & _ & H).
  apply validated_ok in H as [-> _]. py_inv. py_bool. simpl. rewrite H1. done.
Qed.

(** The version of a replayed projection counts the facts; its last digest is that of the
    last fact. *)
Lemma replay_version fs : ∀ o,
  foldM reduce_fact_opt None fs = Ok o →
  match o with
  | None => fs = []
  | Some p => pj_version p = Z.of_nat (List.length fs) ∧
              Some (pj_last_fact_digest p) = rf_canonical_digest <$> last fs ∧
              (fs = [] → False)
  end.
Proof.
  induction fs as [|f fs IH] using rev_ind; intros o H; [by injection H as <-|].
  rewrite foldM_app in H. apply res_bind_ok in H as (o1 & H1 & H). apply IH in H1.
  cbn [foldM] in H. apply res_bind_ok in H as (o2 & H2 & H). injection H as <-.
  unfold reduce_fact_opt in H2. apply res_bind_ok in H2 as (p & Hp & H2). injection H2 as <-.
  rewrite last_snoc, length_app. simpl.
  destruct o1 as [c|].
  - destruct H1 as (Hv & _ & _). apply reduce_some in Hp. destruct Hp as (Hs & _ & _ & _ & _ & Hpv & Hpd & _).
    split_and!; [lia|by rewrite Hpd|by intros [_ ?]%app_eq_nil].
  - subst fs. apply reduce_none in Hp as (_ & _ & Hpv & Hpd & _).
    split_and!; [done|by rewrite Hpd|done].
Qed.

(** ** The state machine *)

Definition status_step (s s' : RemediationStatus) : Prop := s' ∈ allowed_transitions s.

Definition terminal (s : RemediationStatus) : bool := bool_decide (s ∈ terminal_statuses).

(** [plan_follows p p']: [p'] is a later projection of the same plan. *)
Record plan_follows (p p' : RemediationProjection) : Prop := {
  pf_status : rtc status_step (pj_status p) (pj_status p');
  pf_version : pj_version p <= pj_version p';
  pf_plan : pj_tenant_id p' = pj_tenant_id p ∧ pj_plan_id p' = pj_plan_id p ∧
            pj_run_id p' = pj_run_id p ∧ pj_plan_digest p' = pj_plan_digest p ∧
            pj_fence_token p' = pj_fence_token p;
  pf_terminal : terminal (pj_status p) = true → p' = p
}.

#[export] Instance plan_follows_preorder : PreOrder plan_follows.
Proof.
  split.
  - intros p. split; [done|lia|done|done].
  - intros a b c [S1 V1 P1 T1] [S2 V2 P2 T2]. split.
    + by etrans.
    + lia.
    + naive_solver congruence.
    + intros H. rewrite T2; [by apply T1|]. by rewrite T1.
Qed.

Lemma reduce_follows c f p : reduce_remediation (Some c) f = Ok p → plan_follows c p.
Proof.
  intros H. apply reduce_some in H as (Hs & _ & Ha & Ht & _ & Hv & _ & H1 & H2 & H3 & H4 & H5).
  split; [by apply rtc_once|lia|done|]. unfold terminal. by intros ?%bool_decide_eq_true.
Qed.

Section facts.
Context {HDigest : Digest}.

(** ** Append, spelled out *)

Lemma ledger_append_run t p ver ft cmd actor at_ pl l :
  match ledger_append t p ver ft cmd actor at_ pl l with
  | (Raise e, l') => l' = l ∨ l' = setdefault_facts (t, p) l
  | (Ok pj, l') =>
      (_commands l !! (t, cmd) = Some (p, command_fingerprint ft pl) ∧
       _projections l !! (t, p) = Some pj ∧ l' = l) ∨
      (_commands l !! (t, cmd) = None ∧ zlen (facts l t p) = ver ∧ ver < _MAX_FACTS ∧
       let fact := build_fact t p (ver + 1)
         (match last (facts l t p) with Some f => rf_canonical_digest f | None => _ZERO_HASH end)
         ft cmd actor at_ pl in
       RemediationFact_ok fact = true ∧ reduce_remediation (_projections l !! (t, p)) fact = Ok pj ∧
       l' = commit_fact (t, p) (t, cmd) p (command_fingerprint ft pl) fact pj l)
  end.
Proof.
  unfold ledger_append, facts, get, lift, modify, mbind, M_bind, mret, M_ret.
  destruct (_commands l !! (t, cmd)) as [ex|] eqn:Hc.
  { unfold raise_if. case_bool_decide as Hex; [by left|]. subst ex.
    destruct (_projections l !! (t, p)) as [pj|] eqn:Hp; simpl; [|by left]. by left. }
  unfold raise_if. destruct (_MAX_FACTS <=? _) eqn:Hm; [by right|].
  destruct (negb _) eqn:Hv; [by right|]. py_bool.
  destruct (new_RemediationFact _) as [fact|] eqn:Hf; [|by right].
  apply validated_ok in Hf as [-> Hok].
  destruct (reduce_remediation _ _) as [pj|] eqn:Hr; [|by right]. right.
  subst ver. split_and!; try done; try lia.
  unfold commit_fact, setdefault_facts. simpl.
  destruct (_facts l !! (t, p)) eqn:Hfs; [by rewrite Hfs|].
  by rewrite lookup_insert_eq, insert_insert_eq.
Qed.

(** ** The invariant *)

(** The digest a fact must carry *)
Definition fact_digest (f : RemediationFact) : string :=
  canonical_digest
    [("actor_ref", JStr (rf_actor_ref f)); ("command_id", JStr (rf_command_id f));
     ("fact_id", JStr (rf_fact_id f)); ("fact_type", JStr (fact_type_value (rf_fact_type f)));
     ("payload", JObj (rf_payload f)); ("plan_id", JStr (rf_plan_id f));
     ("previous_digest", JStr (rf_previous_digest f));
     ("recorded_at", JStr (isoformat (rf_recorded_at f))); ("schema_version", JInt 1);
     ("sequence", JInt (rf_sequence f)); ("tenant_id", JStr (rf_tenant_id f))].

(** The facts of plan [p] of tenant [t] are numbered from 1, each carries the digest of its
    predecessor and its own. *)
Definition chained (t p : string) (fs : list RemediationFact) : Prop :=
  ∀ i f, fs !! i = Some f →
    rf_tenant_id f = t ∧ rf_plan_id f = p ∧ rf_sequence f = Z.of_nat i + 1 ∧
    rf_canonical_digest f = fact_digest f ∧
    rf_previous_digest f = match last (take i fs) with
                           | Some f' => rf_canonical_digest f'
                           | None => _ZERO_HASH
                           end.

Record rledger_inv (l : rledger) : Prop := {
  ri_replay t p : foldM reduce_fact_opt None (facts l t p) = Ok (projection l t p);
  ri_bound t p : zlen (facts l t p) <= _MAX_FACTS;
  ri_chained t p : chained t p (facts l t p);
  ri_commands t c p fp : _commands l !! (t, c) = Some (p, fp) →
    ∃ f, f ∈ facts l t p ∧ rf_command_id f = c
}.

Lemma empty_rledger_inv : rledger_inv empty_rledger.
Proof. by split. Qed.

Lemma facts_setdefault key l t p : facts (setdefault_facts key l) t p = facts l t p.
Proof.
  unfold facts, setdefault_facts. simpl. destruct (_facts l !! key) eqn:Hk; [done|].
  rewrite lookup_insert. case_decide; simplify_eq; [by rewrite Hk|done].
Qed.

Lemma facts_commit t p ck fp f pj l t' p' :
  facts (commit_fact (t, p) ck p fp f pj l) t' p' =
  if decide ((t, p) = (t', p')) then facts l t p ++ [f] else facts l t' p'.
Proof. unfold facts, commit_fact. simpl. rewrite lookup_insert. by case_decide; simplify_eq. Qed.

Lemma chained_snoc t p fs f :
  chained t p fs → rf_tenant_id f = t → rf_plan_id f = p → rf_sequence f = zlen fs + 1 →
  rf_canonical_digest f = fact_digest f →
  rf_previous_digest f = match last fs with Some f' => rf_canonical_digest f' | None => _ZERO_HASH end →
  chained t p (fs ++ [f]).
Proof.
  intros Hc H1 H2 H3 H4 H5 i g Hg. apply lookup_app_Some in Hg as [Hg|[Hi Hg]].
  - rewrite take_app_le; [by apply Hc|]. apply lookup_lt_Some in Hg. lia.
  - apply list_lookup_singleton_Some in Hg as [Hi' <-]. assert (i = List.length fs) as -> by lia.
    rewrite take_app_length. done.
Qed.

Lemma commit_fact_inv t p ver ft cmd actor at_ pl pj l :
  rledger_inv l → _commands l !! (t, cmd) = None → zlen (facts l t p) = ver → ver < _MAX_FACTS →
  let fact := build_fact t p (ver + 1)
    (match last (facts l t p) with Some f => rf_canonical_digest f | None => _ZERO_HASH end)
    ft cmd actor at_ pl in
  reduce_remediation (_projections l !! (t, p)) fact = Ok pj →
  rledger_inv (commit_fact (t, p) (t, cmd) p (command_fingerprint ft pl) fact pj l).
Proof.
  intros [Hr Hb Hc Hcmd] Hnone Hver Hmax fact Hred. split.
  - intros t' p'. rewrite facts_commit. unfold projection, commit_fact. simpl.
    rewrite lookup_insert. case_decide as E; [|apply Hr]. injection E as <- <-.
    rewrite foldM_app, Hr. simpl. unfold reduce_fact_opt at 1. unfold projection. by rewrite Hred.
  - intros t' p'. rewrite facts_commit. case_decide; [|apply Hb]. unfold zlen in *.
    rewrite length_app. simpl. lia.
  - intros t' p'. rewrite facts_commit. case_decide as E; [|apply Hc]. injection E as <- <-.
    apply chained_snoc; try done. by rewrite Hver.
  - intros t' c p' fp Hk. unfold commit_fact in Hk. simpl in Hk. rewrite facts_commit.
    rewrite lookup_insert in Hk. case_decide as E; simplify_eq.
    + rewrite decide_True by done. exists fact. rewrite elem_of_app, list_elem_of_singleton. auto.
    + destruct (Hcmd _ _ _ _ Hk) as (g & Hg & Hgc). exists g. split; [|done].
      case_decide; simplify_eq; [rewrite elem_of_app; by left|done].
Qed.

Lemma setdefault_inv key l : rledger_inv l → rledger_inv (setdefault_facts key l).
Proof.
  intros [Hr Hb Hc Hcmd]. split; intros *; rewrite facts_setdefault; auto. apply Hcmd.
Qed.

Lemma ledger_append_inv t p ver ft cmd actor at_ pl :
  preserves rledger_inv (ledger_append t p ver ft cmd actor at_ pl).
Proof.
  intros l Hl. pose proof (ledger_append_run t p ver ft cmd actor at_ pl l) as H.
  destruct (ledger_append _ _ _ _ _ _ _ _ l) as [[pj|e] l']; simpl.
  - destruct H as [(_ & _ & ->)|(Hn & Hv & Hm & _ & Hred & ->)]; [done|by apply commit_fact_inv].
  - destruct H as [->| ->]; [done|by apply setdefault_inv].
Qed.

(** A replayed command finds its plan's projection: the [KeyError] branch is dead. *)
Lemma command_has_projection l t c p fp :
  rledger_inv l → _commands l !! (t, c) = Some (p, fp) → is_Some (projection l t p).
Proof.
  intros [Hr _ _ Hcmd] Hk. destruct (Hcmd _ _ _ _ Hk) as (f & Hf & _).
  specialize (Hr t p). apply replay_version in Hr. destruct (projection l t p); [eauto|].
  rewrite Hr in Hf. by apply not_elem_of_nil in Hf.
Qed.

Lemma replay_follows_more fs : ∀ c o,
  foldM reduce_fact_opt (Some c) fs = Ok o → ∃ p, o = Some p ∧ plan_follows c p.
Proof.
  induction fs as [|f fs IH]; intros c o H; cbn [foldM] in H.
  - injection H as <-. exists c. split; [done|reflexivity].
  - apply res_bind_ok in H as (o1 & H1 & H). unfold reduce_fact_opt in H1.
    apply res_bind_ok in H1 as (p1 & Hp1 & H1). injection H1 as <-.
    apply IH in H as (p & -> & Hf). exists p. split; [done|]. etrans; [by eapply reduce_follows|done].
Qed.

(** The facts and commands of a ledger only grow. *)
Definition ledger_grows (l l' : rledger) : Prop :=
  (∀ t p, facts l t p `prefix_of` facts l' t p) ∧ _commands l ⊆ _commands l'.

#[export] Instance ledger_grows_preorder : PreOrder ledger_grows.
Proof.
  split.
  - by split.
  - intros a b c [H1 H2] [H3 H4]. split; [intros t p; etrans; [apply H1|apply H3]|by etrans].
Qed.

Lemma ledger_append_grows t p ver ft cmd actor at_ pl l :
  ledger_grows l (ledger_append t p ver ft cmd actor at_ pl l).2.
Proof.
  pose proof (ledger_append_run t p ver ft cmd actor at_ pl l) as H.
  destruct (ledger_append _ _ _ _ _ _ _ _ l) as [[pj|e] l']; simpl.
  - destruct H as [(_ & _ & ->)|(Hn & _ & _ & _ & _ & ->)]; [done|]. split.
    + intros t' p'. rewrite facts_commit. case_decide; simplify_eq; [by apply prefix_app_r|done].
    + unfold commit_fact. simpl. by apply insert_subseteq.
  - destruct H as [->| ->]; [done|]. split; [|done]. intros t' p'. by rewrite facts_setdefault.
Qed.

Lemma grows_follows l l' t p c :
  rledger_inv l → rledger_inv l' → ledger_grows l l' → projection l t p = Some c →
  ∃ c', projection l' t p = Some c' ∧ plan_follows c c'.
Proof.
  intros Hl Hl' [Hg _] Hc. destruct (Hg t p) as [new Hnew].
  pose proof (ri_replay _ Hl t p) as H1. pose proof (ri_replay _ Hl' t p) as H2.
  rewrite Hnew, foldM_app, H1, Hc in H2. simpl in H2.
  apply replay_follows_more in H2 as (c' & -> & Hf). eauto.
Qed.
End facts.

(** ** Quota *)

(** The units reserved by tenant [t] *)
Definition spent (t : string) (q : quota) : Z := granted eq_units eq_allowed t (_reservations q).

(** Every unit of the limit is either remaining or reserved; nothing is overdrawn. *)
Definition quota_inv (limits : gmap string Z) (q : quota) : Prop :=
  balanced eq_units eq_allowed limits (_remaining q) (_reservations q).

Lemma quota_init limits : quota_inv limits {| _remaining := limits; _reservations := ∅ |}.
Proof. apply balanced_init. Qed.

Lemma quota_reserve_inv limits t id units : preserves (quota_inv limits) (quota_reserve t id units).
Proof.
  intros q Hq. unfold quota_reserve, lift, get, modify, mbind, M_bind, mret, M_ret, raise_if.
  destruct (Z.ltb_spec units 1) as [Hu|Hu]; [done|].
  destruct (_reservations q !! (t, id)) as [d|] eqn:Hk; [done|].
  destruct (new_EffectQuotaDecision _) as [d|] eqn:Hd; [|done].
  apply validated_ok in Hd as [-> _]. simpl.
  destruct (Z.leb_spec units (default 0 (_remaining q !! t))) as [Hr|Hr].
  - by apply (balanced_grant eq_units eq_allowed _ _ _ _ _
      {| eq_allowed := true; eq_reservation_id := id; eq_units := units; eq_reason := "reserved" |}).
  - by apply balanced_refuse.
Qed.

Lemma spent_bounded limits q t :
  quota_inv limits q → 0 <= default 0 (limits !! t) → 0 <= spent t q <= default 0 (limits !! t).
Proof. apply balanced_bounded. Qed.

(** ** Claims *)

Section claims.
Context {HDigest : Digest}.

(** [claim_follows c c']: [c'] is a later state of the claim [c]. *)
Record claim_follows (c c' : _InMemoryEffectClaim) : Prop := {
  cf_binding : claim_binding c' = claim_binding c;
  cf_attempt : ec_attempt c <= ec_attempt c';
  cf_receipt r : ec_receipt c = Some r → c' = c
}.

#[export] Instance claim_follows_preorder : PreOrder claim_follows.
Proof.
  split.
  - intros c. by split.
  - intros a b c [B1 A1 R1] [B2 A2 R2]. split; [congruence|lia|].
    intros r Hr. rewrite (R2 r); [by apply (R1 r)|]. by rewrite (R1 r).
Qed.

Definition claims_follow (m m' : claims_table) : Prop :=
  ∀ k c, m !! k = Some c → ∃ c', m' !! k = Some c' ∧ claim_follows c c'.

#[export] Instance claims_follow_preorder : PreOrder claims_follow.
Proof.
  split.
  - intros m k c Hc. exists c. split; [done|reflexivity].
  - intros a b c H1 H2 k x Hx. destruct (H1 _ _ Hx) as (y & Hy & F1).
    destruct (H2 _ _ Hy) as (z & Hz & F2). exists z. split; [done|by etrans].
Qed.

Lemma claims_follow_insert (m : claims_table) k c' :
  (∀ c, m !! k = Some c → claim_follows c c') → claims_follow m (<[k := c']> m).
Proof.
  intros H k' c Hc. rewrite lookup_insert. case_decide as E; [subst; eauto|].
  exists c. split; [done|reflexivity].
Qed.

Lemma effect_claim_follows intent worker at_ until m :
  claims_follow m (effect_claim intent worker at_ until m).2.
Proof.
  unfold effect_claim, lift, get, modify, mbind, M_bind, mret, M_ret, raise_if.
  destruct (until <=? at_); [done|].
  set (k := (ai_tenant_id intent, ai_operation_id intent)).
  destruct (m !! k) as [c|] eqn:Hk; [|apply claims_follow_insert; congruence].
  destruct (bool_decide (claim_binding c ≠ _)); [done|].
  destruct (bool_decide (ec_receipt c = None) && (at_ <? _) && _); [done|].
  destruct (bool_decide (ec_receipt c = None) && (_ <=? at_)) eqn:Hx; [|done].
  destruct (Z.leb_spec (ai_attempt intent) (ec_attempt c)); [done|]. simpl. py_bool.
  apply claims_follow_insert. intros c0 Hc0. assert (c0 = c) as -> by congruence.
  split; [done|simpl; lia|congruence].
Qed.

Lemma effect_complete_follows receipt token m :
  claims_follow m (effect_complete receipt token m).2.
Proof.
  unfold effect_complete, lift, get, modify, mbind, M_bind, raise_if.
  destruct (m !! _) as [c|] eqn:Hk; [|done]. destruct (_ || _); [done|].
  destruct (ec_receipt c) eqn:Hr; [by destruct (bool_decide _)|]. simpl.
  apply claims_follow_insert. intros c0 Hc0. assert (c0 = c) as -> by congruence.
  split; [done|simpl; lia|congruence].
Qed.

(** The outcomes of a claim call *)
Lemma effect_claim_run intent worker at_ until m :
  match effect_claim intent worker at_ until m with
  | (Raise _, m') => m' = m
  | (Ok r, m') =>
      ∃ c, m' !! (ai_tenant_id intent, ai_operation_id intent) = Some c ∧
        r = claim_record (ecr_replayed r) c ∧ claim_binding c = intent_binding intent ∧
        (ec_receipt c = None → ec_claim_token c = effect_claim_token intent worker ∧ at_ < ec_claim_until c)
  end.
Proof.
  unfold effect_claim, lift, get, modify, mbind, M_bind, mret, M_ret, raise_if.
  destruct (Z.leb_spec until at_) as [|Hu]; [done|].
  set (k := (ai_tenant_id intent, ai_operation_id intent)).
  destruct (m !! k) as [c|] eqn:Hk.
  2: { simpl. rewrite lookup_insert_eq. eexists. split_and!; done. }
  case_bool_decide as Hb; [done|].
  destruct (bool_decide (ec_receipt c = None) && (at_ <? _) && _) eqn:Hact; [done|].
  destruct (bool_decide (ec_receipt c = None) && (_ <=? at_)) eqn:Hx.
  - destruct (Z.leb_spec (ai_attempt intent) (ec_attempt c)); [done|]. simpl. py_bool.
    rewrite lookup_insert_eq. eexists. split_and!; done.
  - simpl. exists c. split_and!; try done. intros Hr. rewrite Hr in *.
    rewrite bool_decide_eq_true_2 in Hx, Hact by done. simpl in Hx, Hact.
    apply Z.leb_gt in Hx. apply andb_false_iff in Hact as [Hact|Hact].
    + apply Z.ltb_ge in Hact. lia.
    + apply bool_decide_eq_false, dec_stable in Hact. done.
Qed.
End claims.

(** ** Decisions *)

(** One decision per approver *)
Definition decisions_distinct (s : control_store) : Prop :=
  ∀ t a, NoDup (de_approver_ref <$> decisions s t a).

Lemma add_decision_run d s :
  match add_decision d s with
  | (Ok _, s') =>
      s' = s ∨
      (∀ x, x ∈ decisions s (de_tenant_id d) (de_approval_id d) → de_approver_ref x ≠ de_approver_ref d) ∧
      (∀ t a, decisions s' t a = if decide ((de_tenant_id d, de_approval_id d) = (t, a))
                                  then decisions s t a ++ [d] else decisions s t a) ∧
      _plans s' = _plans s ∧ _approvals s' = _approvals s ∧ _verifications s' = _verifications s
  | (Raise _, s') =>
      (∀ t a, decisions s' t a = decisions s t a) ∧
      _plans s' = _plans s ∧ _approvals s' = _approvals s ∧ _verifications s' = _verifications s
  end.
Proof.
  unfold add_decision, get, lift, modify, mbind, M_bind, raise_if.
  destruct (_decision_commands s !! _) as [ex|].
  { destruct (bool_decide _); [done|by left]. }
  destruct (existsb _ _) eqn:Hex; simpl.
  - split_and!; try done. intros t a. unfold decisions. simpl. rewrite lookup_insert.
    case_decide; by simplify_eq.
  - right. split_and!; try done.
    + intros x Hx. eapply existsb_false in Hex; [|exact Hx]. by apply bool_decide_eq_false in Hex.
    + intros t a. unfold decisions. simpl. rewrite !lookup_insert. case_decide; by simplify_eq.
Qed.
