(* ===== verification/RemediationWorld.v ===== *)
(** * What a call to the services may do to the world

    [WorldOrder R]: a preorder kept by every primitive update the services make.
    [run_service_moves] lifts it to each method and [service_steps] to every sequence of
    calls.  The instances say how the ledger, the decisions, the quota and the claims
    evolve. *)

From S2P Require Import Prelude PyJson PyFloat PyTime PyModel Domain Durability Authorization RemediationData RemediationStores RemediationServices RemediationFacts.

Section world.
Context {HDigest : Digest} {HFloat : FloatJson} {E : Type}.
Context (clock : nat → datetime) (authorize_port : PolicyPort) (actions : ActionPort E).

Abbreviation W := (M (world E)).

Definition wmoves (R : world E → world E → Prop) {A} (m : W A) : Prop := ∀ w, R w (m w).2.

Class WorldOrder (R : world E → world E → Prop) := {
  wo_preorder :: PreOrder R;
  wo_tick w t : R w (set_w_tick t w);
  wo_ledger t p ver ft cmd actor at_ pl :
    wmoves R (on_ledger (ledger_append t p ver ft cmd actor at_ pl));
  wo_put_plan plan : RemediationPlan_ok plan = true → wmoves R (on_store (put_plan plan));
  wo_put_verification v : wmoves R (on_store (put_verification v));
  wo_quota t id units : wmoves R (on_quota (quota_reserve t id units));
  wo_claim intent worker at_ until : wmoves R (on_claims (effect_claim intent worker at_ until));
  wo_complete receipt token : wmoves R (on_claims (effect_complete receipt token));
  wo_provider A c (m : M E A) : wmoves R (call_provider c m);
  wo_policies policy w : ActionPolicy_ok policy = true →
    R w (set_w_policies (policy_replace policy (w_policies w)).2 w);
  wo_request_approval identity plan_id ver cmd :
    wmoves R (request_approval clock authorize_port identity plan_id ver cmd);
  wo_decide identity aid disp rat ver cmd pd ad :
    wmoves R (decide_approval clock authorize_port identity aid disp rat ver cmd pd ad)
}.

Create HintDb wmoves discriminated.

Section generic.
Context (R : world E → world E → Prop).
Context {Hpre : PreOrder R} (Htick : ∀ w t, R w (set_w_tick t w)).

Lemma wmoves_lift {A} (r : res A) : wmoves R (lift r : W A).
Proof. intros w. reflexivity. Qed.
Lemma wmoves_ret {A} (a : A) : wmoves R (mret a : W A).
Proof. intros w. reflexivity. Qed.
Lemma wmoves_get : wmoves R get.
Proof. intros w. reflexivity. Qed.
Lemma wmoves_now : wmoves R (now clock).
Proof. intros w. apply Htick. Qed.
Lemma wmoves_bind {A B} (m : W A) (k : A → W B) :
  wmoves R m → (∀ a, wmoves R (k a)) → wmoves R (m ≫= k).
Proof.
  intros Hm Hk w. unfold mbind, M_bind. specialize (Hm w).
  destruct (m w) as [[a|e] w1]; [|done]. etrans; [exact Hm|apply Hk].
Qed.
Lemma wmoves_authorize identity action risk : wmoves R (_authorize authorize_port identity action risk).
Proof.
  apply wmoves_bind; [|intros d; apply wmoves_lift].
  intros w. destruct (authorize_port _ _ _ _ _ _) as [d t]. apply Htick.
Qed.
End generic.

#[local] Hint Resolve wmoves_lift wmoves_ret wmoves_get : wmoves.
#[local] Hint Resolve wo_ledger wo_put_plan wo_put_verification wo_quota wo_claim wo_complete
  wo_provider wo_request_approval wo_decide : wmoves.

(** Walk through the binds of a method body. *)
#[local] Ltac wwalk R := repeat first
  [ solve [eauto with wmoves typeclass_instances]
  | apply (wmoves_bind R); [|intros; cbv zeta]
  | case_match ].

Inductive service_op :=
  | OpPropose (identity : IdentityContext) (plan : RemediationPlan) (cmd : string)
  | OpRequestApproval (identity : IdentityContext) (plan_id : string) (ver : Z) (cmd : string)
  | OpDecide (identity : IdentityContext) (aid : string) (disp : ApprovalDisposition)
      (rationale : string) (ver : Z) (cmd plan_digest approval_digest : string)
  | OpRevoke (identity : IdentityContext) (aid : string) (ver : Z) (cmd rationale : string)
  | OpGetApproval (identity : IdentityContext) (aid : string)
  | OpPreflight (identity : IdentityContext) (plan_id action_id : string) (ver : Z) (op : string) (attempt : Z)
  | OpExecute (identity : IdentityContext) (plan_id action_id : string) (ver : Z) (op : string) (attempt : Z)
  | OpReconcile (identity : IdentityContext) (plan_id action_id : string) (ver : Z) (op : string) (attempt : Z)
  | OpVerify (identity : IdentityContext) (plan_id action_id : string) (ver : Z) (op : string)
      (receipt : ActionReceipt) (evidence : list Citation) (attempt : Z)
  | OpRollback (identity : IdentityContext) (plan_id action_id : string) (ver : Z) (op : string) (attempt : Z)
  | OpReplacePolicy (policy : ActionPolicy).

(** The world after a call, returned or raised *)
Definition run_service (op : service_op) (w : world E) : world E :=
  match op with
  | OpPropose identity plan cmd => (propose clock authorize_port identity plan cmd w).2
  | OpRequestApproval identity plan_id ver cmd =>
      (request_approval clock authorize_port identity plan_id ver cmd w).2
  | OpDecide identity aid disp rationale ver cmd pd ad =>
      (decide_approval clock authorize_port identity aid disp rationale ver cmd pd ad w).2
  | OpRevoke identity aid ver cmd rationale => (revoke clock authorize_port identity aid ver cmd rationale w).2
  | OpGetApproval identity aid => (get_approval authorize_port identity aid w).2
  | OpPreflight identity plan_id action_id ver op attempt =>
      (preflight clock authorize_port actions identity plan_id action_id ver op attempt w).2
  | OpExecute identity plan_id action_id ver op attempt =>
      (execute clock authorize_port actions identity plan_id action_id ver op attempt w).2
  | OpReconcile identity plan_id action_id ver op attempt =>
      (reconcile clock authorize_port actions identity plan_id action_id ver op attempt w).2
  | OpVerify identity plan_id action_id ver op receipt evidence attempt =>
      (verify clock authorize_port actions identity plan_id action_id ver op receipt evidence attempt w).2
  | OpRollback identity plan_id action_id ver op attempt =>
      (rollback clock authorize_port actions identity plan_id action_id ver op attempt w).2
  | OpReplacePolicy policy => set_w_policies (policy_replace policy (w_policies w)).2 w
  end.

(** Plans and policies are instances, so their constructors validated them. *)
Definition service_op_ok (op : service_op) : Prop :=
  match op with
  | OpPropose _ plan _ => RemediationPlan_ok plan = true
  | OpReplacePolicy policy => ActionPolicy_ok policy = true
  | _ => True
  end.

Section moves.
Context (R : world E → world E → Prop) `{!WorldOrder R}.

Lemma wmoves_clock : wmoves R (now clock).
Proof. apply wmoves_now, wo_tick. Qed.
Lemma wmoves_policy identity action risk : wmoves R (_authorize authorize_port identity action risk).
Proof. apply wmoves_authorize; [apply _|apply wo_tick]. Qed.
#[local] Hint Resolve wmoves_clock wmoves_policy : wmoves.

Lemma wmoves_require_action_policy plan q : wmoves R (_require_action_policy clock plan q).
Proof. unfold _require_action_policy. wwalk R. Qed.
Lemma wmoves_require_plan t p : wmoves R (_require_plan t p).
Proof. unfold _require_plan. wwalk R. Qed.
Lemma wmoves_require_approval t a : wmoves R (_require_approval t a).
Proof. unfold _require_approval. wwalk R. Qed.
Lemma wmoves_record_fact plan ver ft cmd actor pl : wmoves R (record_fact clock plan ver ft cmd actor pl).
Proof. unfold record_fact. wwalk R. Qed.
Lemma wmoves_bound_projection t p a : wmoves R (bound_projection t p a).
Proof. unfold bound_projection. wwalk R. Qed.
Lemma wmoves_scope_expired a p : wmoves R (scope_expired clock a p).
Proof. unfold scope_expired. wwalk R. Qed.
#[local] Hint Resolve wmoves_require_action_policy wmoves_require_plan wmoves_require_approval
  wmoves_record_fact wmoves_bound_projection wmoves_scope_expired : wmoves.

Lemma wmoves_validated_scope identity plan_id action_id allowed :
  wmoves R (_validated_scope clock authorize_port identity plan_id action_id allowed).
Proof.
  unfold _validated_scope. wwalk R.
Qed.
Lemma wmoves_intent s action_id op attempt dry : wmoves R (_intent clock s action_id op attempt dry).
Proof. unfold _intent. wwalk R. Qed.
Lemma wmoves_claim_effect intent actor : wmoves R (claim_effect clock intent actor).
Proof. unfold claim_effect. wwalk R. Qed.
Lemma wmoves_complete_effect receipt token : wmoves R (complete_effect clock receipt token).
Proof. unfold complete_effect. wwalk R. Qed.
Lemma wmoves_synthetic intent o code ref : wmoves R (synthetic clock intent o code ref).
Proof. unfold synthetic. wwalk R. Qed.
#[local] Hint Resolve wmoves_validated_scope wmoves_intent wmoves_claim_effect wmoves_complete_effect
  wmoves_synthetic : wmoves.

Lemma wmoves_observe_and_execute intent : wmoves R (observe_and_execute clock actions intent).
Proof. unfold observe_and_execute. wwalk R. Qed.
#[local] Hint Resolve wmoves_observe_and_execute : wmoves.

Lemma wmoves_propose identity plan cmd :
  RemediationPlan_ok plan = true → wmoves R (propose clock authorize_port identity plan cmd).
Proof. intros Hok. unfold propose. wwalk R. Qed.
Lemma wmoves_revoke identity aid ver cmd rationale :
  wmoves R (revoke clock authorize_port identity aid ver cmd rationale).
Proof. unfold revoke. wwalk R. Qed.
Lemma wmoves_get_approval identity aid : wmoves R (get_approval authorize_port identity aid).
Proof. unfold get_approval. wwalk R. Qed.
Lemma wmoves_preflight identity plan_id action_id ver op attempt :
  wmoves R (preflight clock authorize_port actions identity plan_id action_id ver op attempt).
Proof. unfold preflight. wwalk R. Qed.
Lemma wmoves_execute identity plan_id action_id ver op attempt :
  wmoves R (execute clock authorize_port actions identity plan_id action_id ver op attempt).
Proof.
  unfold execute. wwalk R.
Qed.
Lemma wmoves_reconcile identity plan_id action_id ver op attempt :
  wmoves R (reconcile clock authorize_port actions identity plan_id action_id ver op attempt).
Proof.
  unfold reconcile. wwalk R. 
Qed.
Lemma wmoves_verify identity plan_id action_id ver op receipt evidence attempt :
  wmoves R (verify clock authorize_port actions identity plan_id action_id ver op receipt evidence attempt).
Proof. unfold verify. wwalk R. Qed.
Lemma wmoves_rollback identity plan_id action_id ver op attempt :
  wmoves R (rollback clock authorize_port actions identity plan_id action_id ver op attempt).
Proof. unfold rollback. wwalk R. Qed.

Lemma run_service_moves op w : service_op_ok op → R w (run_service op w).
Proof.
  intros Hok. destruct op; cbn [run_service].
  - by apply wmoves_propose.
  - apply wo_request_approval.
  - apply wo_decide.
  - apply wmoves_revoke.
  - apply wmoves_get_approval.
  - apply wmoves_preflight.
  - apply wmoves_execute.
  - apply wmoves_reconcile.
  - apply wmoves_verify.
  - apply wmoves_rollback.
  - by apply wo_policies.
Qed.
End moves.

(** ** Sequences of calls *)

Inductive service_steps : world E → world E → Prop :=
  | service_refl w : service_steps w w
  | service_step w op w' : service_op_ok op → service_steps (run_service op w) w' → service_steps w w'.

Lemma service_steps_moves R `{!WorldOrder R} w w' : service_steps w w' → R w w'.
Proof.
  induction 1 as [|w op w' Hok _ IH]; [reflexivity|]. etrans; [apply (run_service_moves R op w Hok)|exact IH].
Qed.

(** ** The ledger *)

Lemma call_provider_snd {A} c (m : M E A) w :
  (call_provider c m w).2 = set_w_provider (w_log w ++ [c]) (m (w_provider w)).2 w.
Proof. unfold call_provider. by destruct (m (w_provider w)). Qed.

(** The two methods of the approval service with writes of their own, for a relation that
    does not depend on what is written *)
Section unconditional.
Context (R : world E → world E → Prop) {Hpre : PreOrder R} (Htick : ∀ w t, R w (set_w_tick t w)).
Context (Hledger : ∀ t p ver ft cmd actor at_ pl, wmoves R (on_ledger (ledger_append t p ver ft cmd actor at_ pl))).

#[local] Hint Resolve wmoves_now wmoves_authorize Hledger : wmoves.

Lemma wmoves_request_approval_if identity plan_id ver cmd :
  (∀ a, wmoves R (on_store (put_approval a))) →
  wmoves R (request_approval clock authorize_port identity plan_id ver cmd).
Proof.
  intros Hput. unfold request_approval, _require_plan, _require_action_policy. wwalk R.
Qed.

Lemma wmoves_decide_if identity aid disp rat ver cmd pd ad :
  (∀ d, wmoves R (on_store (add_decision d))) →
  wmoves R (decide_approval clock authorize_port identity aid disp rat ver cmd pd ad).
Proof.
  intros Hadd. unfold decide_approval, _require_approval, _require_plan, bound_projection, _require_action_policy.
  wwalk R.
Qed.
End unconditional.

(** A relation that looks only at the ledger *)
Definition ledger_rel (w w' : world E) : Prop :=
  rledger_inv (w_ledger w) → rledger_inv (w_ledger w') ∧ ledger_grows (w_ledger w) (w_ledger w').

#[local] Instance ledger_rel_preorder : PreOrder ledger_rel.
Proof.
  split.
  - intros w H. split; [done|reflexivity].
  - intros a b c H1 H2 Ha. destruct (H1 Ha) as [Hb Hab]. destruct (H2 Hb) as [Hc Hbc].
    split; [done|by etrans].
Qed.

Lemma same_ledger_rel w w' : w_ledger w' = w_ledger w → ledger_rel w w'.
Proof. intros H. unfold ledger_rel. rewrite H. intros. split; [done|reflexivity]. Qed.

Lemma ledger_rel_append t p ver ft cmd actor at_ pl :
  wmoves ledger_rel (on_ledger (ledger_append t p ver ft cmd actor at_ pl)).
Proof.
  intros w Hw. unfold on_ledger. rewrite zoom_snd. simpl.
  split; [by apply ledger_append_inv|apply ledger_append_grows].
Qed.

#[export] Instance ledger_rel_order : WorldOrder ledger_rel.
Proof.
  split; intros *; try (intros w; by apply same_ledger_rel).
  - apply _.
  - by apply same_ledger_rel.
  - apply ledger_rel_append.
  - intros _ w. unfold on_store. rewrite zoom_snd. by apply same_ledger_rel.
  - intros w. unfold on_store. rewrite zoom_snd. by apply same_ledger_rel.
  - intros w. unfold on_quota. rewrite zoom_snd. by apply same_ledger_rel.
  - intros w. unfold on_claims. rewrite zoom_snd. by apply same_ledger_rel.
  - intros w. unfold on_claims. rewrite zoom_snd. by apply same_ledger_rel.
  - intros w. rewrite call_provider_snd. by apply same_ledger_rel.
  - intros _. by apply same_ledger_rel.
  - apply wmoves_request_approval_if; [apply _|intros; by apply same_ledger_rel|apply ledger_rel_append|].
    intros a w. unfold on_store. rewrite zoom_snd. by apply same_ledger_rel.
  - apply wmoves_decide_if; [apply _|intros; by apply same_ledger_rel|apply ledger_rel_append|].
    intros d w. unfold on_store. rewrite zoom_snd. by apply same_ledger_rel.
Qed.
End world.
