(* ===== verification/RemediationSafety.v ===== *)
(** * Approvals are sound

    What the control store holds after any sequence of calls: plans and policies are valid,
    an approval request carries the quorum its plan's risk asks for, and each decision was
    taken by a human with an approver role who, where self-approval is prohibited, is not the
    proposer; no approver counts twice.  Plans and requests are only stored with their own
    digest, so the digest determines the fields these rules rest on. *)

From S2P Require Import Prelude PyJson PyTime PyFloat PyModel PyDigest Domain Durability Authorization RemediationData RemediationStores RemediationServices RemediationFacts RemediationWorld.

Section safety.
Context {HDigest : Digest} {HFloat : FloatJson} {E : Type}.
Context (clock : nat → datetime) (authorize_port : PolicyPort) (actions : ActionPort E).

Abbreviation W := (M (world E)).

(** ** Sound records *)

Record decision_sound (t aid : string) (d : ApprovalDecision) : Prop := {
  ds_key : de_tenant_id d = t ∧ de_approval_id d = aid;
  ds_taken : ∃ identity approval plan,
    ic_principal_kind identity = PHuman ∧ de_approver_ref d = _actor_ref identity ∧
    ActionApprovalRequest_ok approval = true ∧ RemediationPlan_ok plan = true ∧
    de_plan_digest d = rp_plan_digest plan ∧ de_approval_digest d = ar_canonical_digest approval ∧
    de_approver_role d ∈ ic_roles identity ∧
    de_approver_role d ∈ aq_required_roles (ar_requirement approval) ∧
    (aq_prohibit_self_approval (ar_requirement approval) = true → de_approver_ref d ≠ rp_proposer_ref plan)
}.

Record approval_sound (t aid : string) (a : ActionApprovalRequest) : Prop := {
  as_key : ar_tenant_id a = t ∧ ar_approval_id a = aid;
  as_ok : ActionApprovalRequest_ok a = true;
  as_requested : ∃ plan policy,
    RemediationPlan_ok plan = true ∧ ActionPolicy_ok policy = true ∧
    ar_plan_digest a = rp_plan_digest plan ∧ ar_policy_snapshot a = snapshot policy ∧
    aq_quorum (ar_requirement a) = required_quorum plan policy ∧
    aq_required_roles (ar_requirement a) = ap_approver_roles policy ∧
    aq_prohibit_self_approval (ar_requirement a) = ap_prohibit_self_approval policy
}.

Record store_sound (w : world E) : Prop := {
  ss_plans t p plan : stored_plan (w_store w) t p = Some plan →
    rp_tenant_id plan = t ∧ rp_plan_id plan = p ∧ RemediationPlan_ok plan = true;
  ss_approvals t a approval : stored_approval (w_store w) t a = Some approval → approval_sound t a approval;
  ss_decisions t a d : d ∈ decisions (w_store w) t a → decision_sound t a d;
  ss_distinct : decisions_distinct (w_store w);
  ss_policies t policy : policy_current (w_policies w) t = Some policy →
    ap_tenant_id policy = t ∧ ActionPolicy_ok policy = true
}.

(** Soundness is kept, and decisions are never withdrawn. *)
Definition store_rel (w w' : world E) : Prop :=
  store_sound w → store_sound w' ∧
  ∀ t a, decisions (w_store w) t a `prefix_of` decisions (w_store w') t a.

#[local] Instance store_rel_preorder : PreOrder store_rel.
Proof.
  split.
  - intros w H. by split.
  - intros a b c H1 H2 Ha. destruct (H1 Ha) as [Hb Hab]. destruct (H2 Hb) as [Hc Hbc].
    split; [done|]. intros t x. etrans; [apply Hab|apply Hbc].
Qed.

Lemma same_store_rel w w' :
  w_store w' = w_store w → w_policies w' = w_policies w → store_rel w w'.
Proof.
  intros H1 H2 [P A D N Q]. split; [|intros; by rewrite H1]. split; rewrite ?H1, ?H2; done.
Qed.

Lemma store_rel_tick w t : store_rel w (set_w_tick t w).
Proof. by apply same_store_rel. Qed.

#[local] Ltac frame := unfold on_ledger, on_quota, on_claims; rewrite ?zoom_snd, ?call_provider_snd; by apply same_store_rel.

Lemma store_rel_ledger t p ver ft cmd actor at_ pl :
  wmoves store_rel (on_ledger (ledger_append t p ver ft cmd actor at_ pl)).
Proof. intros w. frame. Qed.

Lemma store_rel_put_plan plan :
  RemediationPlan_ok plan = true → wmoves store_rel (on_store (put_plan plan)).
Proof.
  intros Hok w [P A D N Q]. unfold on_store. rewrite zoom_snd.
  unfold put_plan, get, lift, modify, mbind, M_bind, raise_if.
  destruct (match _plans _ !! _ with Some _ => _ | None => _ end); [by split|]. simpl.
  split; [|done]. split; try done.
  intros t p plan'. unfold stored_plan. simpl. rewrite lookup_insert.
  case_decide; [intros; by simplify_eq|apply P].
Qed.

Lemma store_rel_put_verification v : wmoves store_rel (on_store (put_verification v)).
Proof.
  intros w [P A D N Q]. unfold on_store. rewrite zoom_snd.
  unfold put_verification, get, lift, modify, mbind, M_bind, raise_if.
  destruct (match _verifications _ !! _ with Some _ => _ | None => _ end); simpl; by split.
Qed.

Lemma store_rel_put_approval a w :
  approval_sound (ar_tenant_id a) (ar_approval_id a) a → store_rel w (on_store (put_approval a) w).2.
Proof.
  intros Ha [P A D N Q]. unfold on_store. rewrite zoom_snd.
  unfold put_approval, get, lift, modify, mbind, M_bind, raise_if.
  destruct (match _approvals _ !! _ with Some _ => _ | None => _ end); simpl; [by split|].
  split; [|done]. split; try done.
  intros t x a'. unfold stored_approval. simpl. rewrite lookup_insert.
  case_decide; [intros; by simplify_eq|apply A].
Qed.

Lemma store_rel_add_decision d w :
  decision_sound (de_tenant_id d) (de_approval_id d) d → store_rel w (on_store (add_decision d) w).2.
Proof.
  intros Hd [P A D N Q]. unfold on_store. rewrite zoom_snd.
  pose proof (add_decision_run d (w_store w)) as H.
  destruct (add_decision d (w_store w)) as [[u|e] s']; simpl.
  - destruct H as [->|(Hnew & Hds & Hp & Ha & _)]; [by split|]. split.
    + split; simpl; unfold stored_plan, stored_approval; rewrite ?Hp, ?Ha; try done.
      * intros t a x. rewrite Hds. case_decide; [|apply D]. simplify_eq.
        rewrite elem_of_app, list_elem_of_singleton. intros [Hx| ->]; [by apply D|done].
      * intros t a. rewrite Hds. case_decide; [|apply N]. simplify_eq. rewrite fmap_app.
        apply NoDup_app. split_and!; [apply N| |apply NoDup_singleton].
        intros x (y & -> & Hy)%list_elem_of_fmap Hin. simpl in Hin. apply list_elem_of_singleton in Hin.
        by apply (Hnew y).
    + intros t a. simpl. rewrite Hds. case_decide; [by apply prefix_app_r|done].
  - destruct H as (Hds & Hp & Ha & _). split; [|intros; simpl; by rewrite Hds].
    split; simpl; unfold stored_plan, stored_approval; rewrite ?Hp, ?Ha; try done.
    + intros t a x. rewrite Hds. apply D.
    + intros t a. rewrite Hds. apply N.
Qed.

(** ** Pointwise reasoning along a method body *)

Definition wat (R : world E → world E → Prop) {A} (m : W A) (w : world E) : Prop := R w (m w).2.

Lemma wat_bind (R : world E → world E → Prop) `{!PreOrder R} {A B} (m : W A) (k : A → W B) w :
  wat R m w → (∀ a w1, m w = (Ok a, w1) → wat R (k a) w1) → wat R (m ≫= k) w.
Proof.
  intros Hm Hk. unfold wat, mbind, M_bind in *. destruct (m w) as [[a|e] w1] eqn:Hmw; [|done].
  etrans; [exact Hm|]. by apply Hk.
Qed.

Lemma wat_sound {A} (m : W A) w : (store_sound w → wat store_rel m w) → wat store_rel m w.
Proof. intros H Hs. by apply H. Qed.

Lemma wat_lift {A} (r : res A) w : wat store_rel (lift r) w.
Proof. by apply same_store_rel. Qed.
Lemma wat_ret {A} (a : A) w : wat store_rel (mret a) w.
Proof. by apply same_store_rel. Qed.
Lemma wat_get w : wat store_rel get w.
Proof. by apply same_store_rel. Qed.
Lemma wat_now w : wat store_rel (now clock) w.
Proof. apply store_rel_tick. Qed.
Lemma wat_authorize identity action risk w : wat store_rel (_authorize authorize_port identity action risk) w.
Proof. exact (wmoves_authorize authorize_port store_rel store_rel_tick identity action risk w). Qed.

Lemma require_plan_ok t p (w : world E) plan w1 :
  _require_plan t p w = (Ok plan, w1) → w1 = w ∧ stored_plan (w_store w) t p = Some plan.
Proof.
  unfold _require_plan, get, lift, mbind, M_bind, of_option. by destruct (stored_plan _ _ _) eqn:H; intros [= <- <-].
Qed.

Lemma require_approval_ok t a (w : world E) approval w1 :
  _require_approval t a w = (Ok approval, w1) → w1 = w ∧ stored_approval (w_store w) t a = Some approval.
Proof.
  unfold _require_approval, get, lift, mbind, M_bind, of_option.
  by destruct (stored_approval _ _ _) eqn:H; intros [= <- <-].
Qed.

Lemma require_action_policy_ok plan q (w : world E) policy w1 :
  _require_action_policy clock plan q w = (Ok policy, w1) →
  w1 = set_w_tick (S (w_tick w)) w ∧ policy_current (w_policies w) (rp_tenant_id plan) = Some policy ∧
  policy_denial policy (clock (w_tick w)) plan q = None.
Proof.
  unfold _require_action_policy, get, now, lift, mbind, M_bind, mret, M_ret.
  destruct (policy_current _ _) as [po|]; [|done].
  destruct (policy_denial po _ plan q) eqn:Hd; [done|]. by intros [= <- <-].
Qed.

Lemma wat_require_plan t p w : wat store_rel (_require_plan t p) w.
Proof. unfold wat, _require_plan, get, lift, mbind, M_bind. by apply same_store_rel. Qed.
Lemma wat_require_approval t a w : wat store_rel (_require_approval t a) w.
Proof. unfold wat, _require_approval, get, lift, mbind, M_bind. by apply same_store_rel. Qed.
Lemma wat_require_action_policy plan q w : wat store_rel (_require_action_policy clock plan q) w.
Proof.
  unfold wat, _require_action_policy, get, now, lift, mbind, M_bind, mret, M_ret.
  repeat case_match; apply store_rel_tick.
Qed.
Lemma wat_bound_projection t p a w : wat store_rel (bound_projection t p a) w.
Proof.
  unfold wat, bound_projection, get, lift, mbind, M_bind, mret, M_ret.
  destruct (projection _ _ _); [destruct (raise_if _ _ _)|]; by apply same_store_rel.
Qed.
Lemma wat_ledger t p ver ft cmd actor at_ pl w :
  wat store_rel (on_ledger (ledger_append t p ver ft cmd actor at_ pl)) w.
Proof. exact (store_rel_ledger t p ver ft cmd actor at_ pl w). Qed.

Create HintDb wat discriminated.
#[local] Hint Resolve wat_lift wat_ret wat_get wat_now wat_authorize wat_require_plan wat_require_approval
  wat_require_action_policy wat_bound_projection wat_ledger : wat.

(** One bind whose first part is routine *)
#[local] Ltac wstep a w1 H := apply (wat_bind store_rel); [solve [auto with wat]|intros a w1 H; cbv zeta].

Lemma store_rel_request_approval identity plan_id ver cmd :
  wmoves store_rel (request_approval clock authorize_port identity plan_id ver cmd).
Proof.
  intros w. change (wat store_rel (request_approval clock authorize_port identity plan_id ver cmd) w).
  unfold request_approval. wstep u w1 H1. apply wat_sound. intros Hs1.
  wstep plan w2 H2. apply require_plan_ok in H2 as [-> Hplan]. apply (ss_plans _ Hs1) in Hplan as (_ & _ & Hpok).
  wstep policy w3 H3. apply require_action_policy_ok in H3 as (_ & Hpol & _).
  apply (ss_policies _ Hs1) in Hpol as [_ Hpolok].
  wstep at_ w4 H4. wstep req w5 H5. unfold lift in H5. injection H5 as H5 _. apply validated_ok in H5 as [-> _].
  wstep a w6 H6. unfold lift in H6. injection H6 as H6 _. apply validated_ok in H6 as [-> Haok].
  apply (wat_bind store_rel).
  { apply store_rel_put_approval. split; [done|done|]. exists plan, policy. split_and!; done. }
  intros u' w7 _. wstep p w8 H8. apply wat_lift.
Qed.

Lemma decide_sound identity approval plan policy aid disp rat cmd role at_ :
  ic_principal_kind identity = PHuman →
  ActionApprovalRequest_ok approval = true → RemediationPlan_ok plan = true →
  role ∈ ic_roles identity → role ∈ aq_required_roles (ar_requirement approval) →
  aq_prohibit_self_approval (ar_requirement approval) && bool_decide (_actor_ref identity = rp_proposer_ref plan) = false →
  decision_sound (ic_tenant_id identity) aid
    (approval_decision identity approval plan policy aid disp rat cmd role at_).
Proof.
  intros Hh Ha Hp Hr1 Hr2 Hself. split; [done|]. exists identity, approval, plan. simpl. split_and!; try done.
  intros Hpro. rewrite Hpro in Hself. by apply bool_decide_eq_false in Hself.
Qed.

Lemma store_rel_decide identity aid disp rat ver cmd pd ad :
  wmoves store_rel (decide_approval clock authorize_port identity aid disp rat ver cmd pd ad).
Proof.
  intros w. change (wat store_rel (decide_approval clock authorize_port identity aid disp rat ver cmd pd ad) w).
  unfold decide_approval. wstep u w1 H1. wstep u2 w2 H2. unfold lift in H2. injection H2 as H2 _.
  apply raise_if_ok, bool_decide_eq_false, dec_stable in H2. apply wat_sound. intros Hs.
  wstep approval w3 H3. apply require_approval_ok in H3 as [-> Happ]. apply (ss_approvals _ Hs) in Happ as [_ Haok _].
  wstep plan w4 H4. apply require_plan_ok in H4 as [-> Hplan]. apply (ss_plans _ Hs) in Hplan as (_ & _ & Hpok).
  wstep cur w5 H5. wstep u6 w6 H6. wstep u7 w7 H7. wstep policy w8 H8. wstep at_ w9 H9.
  destruct (_ || _).
  { wstep p w10 H10. apply wat_lift. }
  wstep u10 w10 H10. wstep u11 w11 H11. wstep u12 w12 H12. unfold lift in H12. injection H12 as H12 _.
  apply raise_if_ok in H12.
  destruct (sorted_set _) as [|role roles] eqn:Hroles; [apply wat_lift|].
  assert (role ∈ ic_roles identity ∧ role ∈ aq_required_roles (ar_requirement approval)) as [Hr1 Hr2].
  { assert (role ∈ sorted_set (List.filter (λ r, bool_decide (r ∈ aq_required_roles (ar_requirement approval))) (ic_roles identity)))
      as Hin by (rewrite Hroles; by left).
    apply sorted_set_elem, list_elem_of_In, filter_In in Hin as [Hin Hb].
    split; [by apply list_elem_of_In|by apply bool_decide_eq_true in Hb]. }
  wstep u13 w13 H13. wstep d w14 H14. unfold lift in H14. injection H14 as H14 _. apply validated_ok in H14 as [-> _].
  apply (wat_bind store_rel).
  { apply store_rel_add_decision. by apply decide_sound. }
  intros u15 w15 _. wstep w16 w16' H16. wstep p w17 H17. wstep u18 w18 H18. apply wat_lift.
Qed.

#[export] Instance store_rel_order : WorldOrder clock authorize_port store_rel.
Proof.
  split; intros *.
  - apply _.
  - apply store_rel_tick.
  - apply store_rel_ledger.
  - apply store_rel_put_plan.
  - apply store_rel_put_verification.
  - intros w. frame.
  - intros w. frame.
  - intros w. frame.
  - intros w. frame.
  - intros Hok [P A D N Q]. split; [|done]. split; try done.
    intros t policy'. simpl. unfold policy_replace, get, lift, modify, mbind, M_bind, raise_if, policy_current.
    destruct (match w_policies w !! _ with Some _ => _ | None => _ end); simpl; [apply Q|].
    rewrite lookup_insert. case_decide; [intros; by simplify_eq|apply Q].
  - apply store_rel_request_approval.
  - apply store_rel_decide.
Qed.
End safety.

Section digests.
Context {HDigest : Digest} {HFloat : FloatJson} {HLaws : FloatJsonLaws}.

Lemma scalar_json_wf v : json_wf (scalar_json v) = true.
Proof. destruct v; simpl; auto. Qed.
#[local] Hint Resolve scalar_json_wf : json_wf.

Lemma condition_json_wf c : json_wf (condition_json c) = true.
Proof. unfold condition_json. members. Qed.
Lemma citation_json_wf c : json_wf (citation_json c) = true.
Proof. unfold citation_json. members. by destruct (ci_page_number c). Qed.
#[local] Hint Resolve condition_json_wf citation_json_wf : json_wf.
Lemma target_json_wf t : json_wf (target_json t) = true.
Proof. unfold target_json. members. Qed.
Lemma retry_json_wf r : json_wf (retry_json r) = true.
Proof. unfold retry_json. members. Qed.
Lemma compensation_json_wf c : json_wf (compensation_json c) = true.
Proof. unfold compensation_json. members. Qed.
#[local] Hint Resolve target_json_wf retry_json_wf compensation_json_wf : json_wf.
Lemma action_json_wf a : json_wf (action_json a) = true.
Proof.
  unfold action_json, action_material. cbn [app]. members.
Qed.
#[local] Hint Resolve action_json_wf : json_wf.
Lemma snapshot_json_wf p : json_wf (snapshot_json p) = true.
Proof. unfold snapshot_json. members. Qed.
Lemma requirement_json_wf p : json_wf (requirement_json p) = true.
Proof. unfold requirement_json. members. Qed.
#[local] Hint Resolve snapshot_json_wf requirement_json_wf : json_wf.
Lemma plan_material_wf p : json_wf (JObj (plan_material p)) = true.
Proof. unfold plan_material. members. Qed.
Lemma approval_material_wf a : json_wf (JObj (approval_material a)) = true.
Proof. unfold approval_material. members. Qed.

Lemma risk_value_inj r r' : risk_value r = risk_value r' → r = r'.
Proof. by destruct r, r'. Qed.

(** The plan digest determines risk and proposer. *)
Lemma plan_digest_binds p p' :
  RemediationPlan_ok p = true → RemediationPlan_ok p' = true → rp_plan_digest p = rp_plan_digest p' →
  collides (document (plan_material p)) (document (plan_material p')) ∨
  rp_risk p = rp_risk p' ∧ rp_proposer_ref p = rp_proposer_ref p'.
Proof.
  intros H1 H2 Hd. unfold RemediationPlan_ok in H1, H2.
  apply andb_true_iff in H1 as [_ H1%bool_decide_eq_true]. apply andb_true_iff in H2 as [_ H2%bool_decide_eq_true].
  rewrite H1, H2 in Hd. apply digest_binds in Hd as [?|Hk]; [by left|right|apply plan_material_wf..].
  pose proof (Hk "risk") as K1. pose proof (Hk "proposer_ref") as K2.
  unfold plan_material in K1, K2. simpl in K1, K2. injection K1 as K1. injection K2 as K2.
  split; [by apply risk_value_inj|done].
Qed.

(** The approval digest determines the requirement. *)
Lemma approval_digest_binds a a' :
  ActionApprovalRequest_ok a = true → ActionApprovalRequest_ok a' = true →
  ar_canonical_digest a = ar_canonical_digest a' →
  collides (document (approval_material a)) (document (approval_material a')) ∨
  aq_quorum (ar_requirement a) = aq_quorum (ar_requirement a') ∧
  aq_prohibit_self_approval (ar_requirement a) = aq_prohibit_self_approval (ar_requirement a') ∧
  aq_required_roles (ar_requirement a) = aq_required_roles (ar_requirement a').
Proof.
  intros H1 H2 Hd. unfold ActionApprovalRequest_ok in H1, H2.
  apply andb_true_iff in H1 as [_ H1%bool_decide_eq_true]. apply andb_true_iff in H2 as [_ H2%bool_decide_eq_true].
  rewrite H1, H2 in Hd. apply digest_binds in Hd as [?|Hk]; [by left|right|apply approval_material_wf..].
  pose proof (Hk "requirement") as K.
  assert (∀ a, dict_get "requirement" (approval_material a) = Some (requirement_json (ar_requirement a)))
    as G by reflexivity.
  rewrite !G in K. apply (inj Some) in K. unfold requirement_json in K.
  match type of K with jnorm (JObj ?m1) = jnorm (JObj ?m2) =>
    assert (NoDup m1.*1) as N1 by (by apply (bool_decide_eq_true (NoDup _)));
    assert (NoDup m2.*1) as N2 by (by apply (bool_decide_eq_true (NoDup _))) end.
  pose proof (jnorm_members _ _ N1 N2 K) as M.
  pose proof (M "quorum") as M1. pose proof (M "prohibit_self_approval") as M2. pose proof (M "required_roles") as M3.
  simpl in M1, M2, M3. injection M1 as M1. injection M2 as M2. injection M3 as M3.
  split_and!; [done|done|]. revert M3. generalize (aq_required_roles (ar_requirement a)) (aq_required_roles (ar_requirement a')).
  induction l as [|x l IH]; intros [|y l']; simpl; try done. intros [= -> H]. f_equal. by apply IH.
Qed.
End digests.
