(* ===== verification/RemediationEffects.v ===== *)
(** * Effects: what a call to the provider implies

    The analysis of [_validated_scope] and of the provider calls each method makes, and the
    evolution of quota and claims under the services. *)

From S2P Require Import Prelude PyJson PyFloat PyTime PyModel Domain Durability Authorization RemediationData RemediationStores RemediationServices RemediationFacts RemediationWorld RemediationSafety.

Section effects.
Context {HDigest : Digest} {HFloat : FloatJson} {E : Type}.
Context (clock : nat → datetime) (authorize_port : PolicyPort) (actions : ActionPort E).

Abbreviation W := (M (world E)).

(** ** Quota and claims under the services *)

Definition quota_rel (limits : gmap string Z) (w w' : world E) : Prop :=
  quota_inv limits (w_quota w) → quota_inv limits (w_quota w').

Definition claims_rel (w w' : world E) : Prop := claims_follow (w_claims w) (w_claims w').

#[local] Instance quota_rel_preorder limits : PreOrder (quota_rel limits).
Proof. unfold quota_rel. split; [by intros w|]. intros a b c H1 H2 Ha. auto. Qed.
#[local] Instance claims_rel_preorder : PreOrder claims_rel.
Proof. split; [intros w; unfold claims_rel; reflexivity|]. intros a b c H1 H2. unfold claims_rel in *. by etrans. Qed.

Lemma same_quota_rel limits w w' : w_quota w' = w_quota w → quota_rel limits w w'.
Proof. intros H. unfold quota_rel. by rewrite H. Qed.
Lemma same_claims_rel w w' : w_claims w' = w_claims w → claims_rel w w'.
Proof. intros H. unfold claims_rel. rewrite H. reflexivity. Qed.

#[local] Ltac frame same :=
  intros; unfold on_ledger, on_store, on_quota, on_claims; rewrite ?zoom_snd, ?call_provider_snd;
  by apply same.

#[export] Instance quota_rel_order limits : WorldOrder clock authorize_port (quota_rel limits).
Proof.
  split; intros *; try solve [frame same_quota_rel]; try (intros w; frame same_quota_rel); try (intros ? w; frame same_quota_rel).
  - apply _.
  - intros w Hw. unfold on_quota. rewrite zoom_snd. by apply quota_reserve_inv.
  - apply wmoves_request_approval_if; [apply _|frame same_quota_rel|intros * w; frame same_quota_rel|intros * w; frame same_quota_rel].
  - apply wmoves_decide_if; [apply _|frame same_quota_rel|intros * w; frame same_quota_rel|intros * w; frame same_quota_rel].
Qed.

#[export] Instance claims_rel_order : WorldOrder clock authorize_port claims_rel.
Proof.
  split; intros *; try solve [frame same_claims_rel]; try (intros w; frame same_claims_rel); try (intros ? w; frame same_claims_rel).
  - apply _.
  - intros w. unfold on_claims. rewrite zoom_snd. apply effect_claim_follows.
  - intros w. unfold on_claims. rewrite zoom_snd. apply effect_complete_follows.
  - apply wmoves_request_approval_if; [apply _|frame same_claims_rel|intros * w; frame same_claims_rel|intros * w; frame same_claims_rel].
  - apply wmoves_decide_if; [apply _|frame same_claims_rel|intros * w; frame same_claims_rel|intros * w; frame same_claims_rel].
Qed.

(** ** The initial world *)

Definition initial_world (policies : policy_table) (limits : gmap string Z) (e : E) : world E :=
  {| w_ledger := empty_rledger; w_store := empty_control_store; w_policies := policies;
     w_quota := {| _remaining := limits; _reservations := ∅ |}; w_claims := ∅; w_tick := 0;
     w_log := []; w_provider := e |}.

Definition policies_valid (policies : policy_table) : Prop :=
  ∀ t policy, policies !! t = Some policy → ap_tenant_id policy = t ∧ ActionPolicy_ok policy = true.

Lemma initial_sound policies limits e : policies_valid policies → store_sound (initial_world policies limits e).
Proof.
  intros H. split; simpl; try done.
  - intros t a d Hd. by apply not_elem_of_nil in Hd.
  - intros t a. constructor.
Qed.

(** Worlds the services reach *)
Definition service_reachable (policies : policy_table) (limits : gmap string Z) (w : world E) : Prop :=
  policies_valid policies ∧ ∃ e, service_steps clock authorize_port actions (initial_world policies limits e) w.

Lemma reachable_world policies limits w :
  service_reachable policies limits w →
  store_sound w ∧ rledger_inv (w_ledger w) ∧ quota_inv limits (w_quota w).
Proof.
  intros [Hp [e Hs]]. split_and!.
  - by destruct (service_steps_moves clock authorize_port actions store_rel _ _ Hs (initial_sound _ _ _ Hp)).
  - by destruct (service_steps_moves clock authorize_port actions ledger_rel _ _ Hs empty_rledger_inv).
  - exact (service_steps_moves clock authorize_port actions (quota_rel limits) _ _ Hs (quota_init limits)).
Qed.

(** ** What [_validated_scope] establishes *)

Definition quota_reservation_id (plan : RemediationPlan) (action_id : string) : string :=
  stable_id "effect-quota" [rp_tenant_id plan; rp_plan_id plan; action_id] 32.

Record scope_facts (identity : IdentityContext) (plan_id action_id : string)
    (allowed : list RemediationStatus) (w : world E) (s : scope) (w1 : world E) : Prop := {
  sf_authorized : pd_allowed (authorize_port (w_tick w) identity EFFECT_EXECUTE (ic_tenant_id identity)
                                "incident-response" RHigh).1 = true;
  sf_plan : stored_plan (w_store w) (ic_tenant_id identity) plan_id = Some (sc_plan s);
  sf_projection : projection (w_ledger w) (ic_tenant_id identity) plan_id = Some (sc_projection s);
  sf_approval : ∃ approval_id, pj_approval_id (sc_projection s) = Some approval_id ∧
    stored_approval (w_store w) (ic_tenant_id identity) approval_id = Some (sc_approval s);
  sf_policy : policy_current (w_policies w) (ic_tenant_id identity) = Some (sc_policy s);
  sf_action : existsb (λ a, bool_decide (ad_action_id a = action_id)) (rp_actions (sc_plan s)) = true;
  sf_digests : ar_plan_digest (sc_approval s) = rp_plan_digest (sc_plan s) ∧
    pj_approval_digest (sc_projection s) = Some (ar_canonical_digest (sc_approval s)) ∧
    ar_policy_snapshot (sc_approval s) = snapshot (sc_policy s) ∧
    rp_policy_snapshot (sc_plan s) = snapshot (sc_policy s);
  sf_undenied : Forall (λ d, de_disposition d ≠ DENY)
    (decisions (w_store w) (ic_tenant_id identity) (ar_approval_id (sc_approval s)));
  sf_quorum : aq_quorum (ar_requirement (sc_approval s)) <=
    Z.of_nat (size (current_grants (sc_plan s) (sc_approval s) (sc_policy s)
      (decisions (w_store w) (ic_tenant_id identity) (ar_approval_id (sc_approval s)))));
  sf_status : pj_status (sc_projection s) ∈ allowed;
  (* the clock readings of the check, in order *)
  sf_times : ∃ k policy, clock k < ar_expires_at (sc_approval s) ∧ clock (S k) < rp_expires_at (sc_plan s) ∧
    policy_current (w_policies w) (rp_tenant_id (sc_plan s)) = Some policy ∧
    policy_denial policy (clock (S (S k))) (sc_plan s) true = None;
  sf_quota : ∃ d, _reservations (w_quota w1) !! (rp_tenant_id (sc_plan s),
      quota_reservation_id (sc_plan s) action_id) = Some d ∧ eq_allowed d = true;
  sf_frame : ∃ k q, w1 = set_w_quota q (set_w_tick k w)
}.

Lemma authorize_ok identity action risk (w : world E) u w1 :
  _authorize authorize_port identity action risk w = (Ok u, w1) →
  (∃ k, w1 = set_w_tick k w) ∧
  pd_allowed (authorize_port (w_tick w) identity action (ic_tenant_id identity) "incident-response" risk).1 = true.
Proof.
  unfold _authorize, lift, mbind, M_bind.
  destruct (authorize_port _ _ _ _ _ _) as [d k] eqn:Hd. intros H. injection H as H <-. simpl.
  apply raise_if_ok in H. py_bool. split; [by exists k|done].
Qed.

Lemma quota_reserve_ok t id units q d q' :
  quota_reserve t id units q = (Ok d, q') → _reservations q' !! (t, id) = Some d.
Proof.
  unfold quota_reserve, lift, get, modify, mbind, M_bind, mret, M_ret, raise_if.
  destruct (units <? 1); [done|]. destruct (_reservations q !! (t, id)) as [d0|] eqn:Hk; [by intros [= <- <-]|].
  destruct (new_EffectQuotaDecision _) as [d1|]; [|done]. intros [= <- <-]. simpl. by rewrite lookup_insert_eq.
Qed.

Lemma on_quota_ok {A} (m : M quota A) (w : world E) a w1 :
  on_quota m w = (Ok a, w1) → ∃ q, m (w_quota w) = (Ok a, q) ∧ w1 = set_w_quota q w.
Proof. apply zoom_ok. Qed.

Lemma scope_expired_ok approval plan (w : world E) w1 :
  scope_expired clock approval plan w = (Ok false, w1) →
  clock (w_tick w) < ar_expires_at approval ∧ clock (S (w_tick w)) < rp_expires_at plan ∧
  w1 = set_w_tick (S (S (w_tick w))) w.
Proof.
  unfold scope_expired, now, mbind, M_bind, mret, M_ret.
  destruct (Z.leb_spec (ar_expires_at approval) (clock (w_tick w))); [done|]. simpl.
  intros [= H0 <-]. py_bool. done.
Qed.

Lemma validated_scope_ok identity plan_id action_id allowed w s w1 :
  _validated_scope clock authorize_port identity plan_id action_id allowed w = (Ok s, w1) →
  scope_facts identity plan_id action_id allowed w s w1.
Proof.
  unfold _validated_scope. intros H.
  inv_bind H u wa Ha. apply authorize_ok in Ha as [[k ->] Hauth].
  inv_bind H wb wc Hg. unfold get in Hg. injection Hg as <- <-. simpl in H.
  destruct (stored_plan _ _ _) as [plan|] eqn:Hplan; [|done].
  destruct (projection _ _ _) as [p|] eqn:Hp; [|done].
  destruct (pj_approval_id p) as [aid|] eqn:Haid; [|done].
  inv_lift H u1 Hact. inv_lift H approval Happ. inv_lift H current Hcur.
  inv_bind H expired wd Hexp. inv_lift H u2 Hne. apply raise_if_ok in Hne. subst expired.
  destruct (_ || _) eqn:Hdig in Hexp; [done|]. apply scope_expired_ok in Hexp as (Ht1 & Ht2 & ->).
  cbv zeta in H. inv_lift H u3 Hden. inv_lift H u4 Hquo. inv_lift H u5 Hrev. inv_lift H u6 Hst.
  inv_bind H po we Hpo. apply require_action_policy_ok in Hpo as (-> & Hpol & Hdenial).
  inv_bind H at_ wf Hnow. unfold now in Hnow. injection Hnow as _ <-.
  inv_bind H qd wg Hq. apply on_quota_ok in Hq as (q & Hq & ->). apply quota_reserve_ok in Hq.
  inv_lift H u7 Hall. unfold mret, M_ret in H. injection H as <- <-.
  apply raise_if_ok in Hact, Hden, Hquo, Hst, Hall. py_bool. simpl in *.
  unfold of_option in Happ, Hcur. destruct (stored_approval _ _ _) eqn:E1; [|done]. destruct (policy_current _ _) eqn:E2 in Hcur; [|done].
  simplify_eq.
  split; simpl; try done.
  - by exists aid.
  - apply Forall_forall. intros d Hd. eapply existsb_false in Hden; [|exact Hd]. by apply bool_decide_eq_false in Hden.
  - by exists k, po.
  - by exists qd.
  - eexists _, q. reflexivity.
Qed.

(** ** The log of provider calls *)

(** Every call made between [w] and [w'] satisfies [P]. *)
Definition log_rel (P : provider_call → Prop) (w w' : world E) : Prop :=
  ∃ calls, w_log w' = w_log w ++ calls ∧ Forall P calls.

#[local] Instance log_rel_preorder P : PreOrder (log_rel P).
Proof.
  split.
  - intros w. exists []. by rewrite app_nil_r.
  - intros a b c (l1 & H1 & F1) (l2 & H2 & F2). exists (l1 ++ l2).
    rewrite H2, H1, app_assoc. split; [done|by apply Forall_app].
Qed.

Lemma same_log P w w' : w_log w' = w_log w → log_rel P w w'.
Proof. intros H. exists []. by rewrite H, app_nil_r. Qed.

Lemma log_call (P : provider_call → Prop) {A} c (m : M E A) w : P c → wat (log_rel P) (call_provider c m) w.
Proof. intros H. unfold wat. rewrite call_provider_snd. exists [c]. split; [done|]. by constructor. Qed.

Lemma log_lift (P : provider_call → Prop) {A} (r : res A) w : wat (log_rel P) (lift r) w.
Proof. by apply same_log. Qed.
Lemma log_ret (P : provider_call → Prop) {A} (a : A) w : wat (log_rel P) (mret a) w.
Proof. by apply same_log. Qed.
Lemma log_get (P : provider_call → Prop) w : wat (log_rel P) get w.
Proof. by apply same_log. Qed.
Lemma log_now (P : provider_call → Prop) w : wat (log_rel P) (now clock) w.
Proof. by apply same_log. Qed.
Lemma log_store (P : provider_call → Prop) {A} (m : M control_store A) (w : world E) : wat (log_rel P) (on_store m) w.
Proof. unfold wat, on_store. rewrite zoom_snd. by apply same_log. Qed.
Lemma log_claims (P : provider_call → Prop) {A} (m : M claims_table A) (w : world E) : wat (log_rel P) (on_claims m) w.
Proof. unfold wat, on_claims. rewrite zoom_snd. by apply same_log. Qed.
Lemma log_quota (P : provider_call → Prop) {A} (m : M quota A) (w : world E) : wat (log_rel P) (on_quota m) w.
Proof. unfold wat, on_quota. rewrite zoom_snd. by apply same_log. Qed.
Lemma log_ledger (P : provider_call → Prop) {A} (m : M rledger A) (w : world E) : wat (log_rel P) (on_ledger m) w.
Proof. unfold wat, on_ledger. rewrite zoom_snd. by apply same_log. Qed.
Lemma log_authorize (P : provider_call → Prop) identity action risk w : wat (log_rel P) (_authorize authorize_port identity action risk) w.
Proof.
  apply (wat_bind (log_rel P)); [|intros; apply log_lift].
  unfold wat. destruct (authorize_port _ _ _ _ _ _) as [d k]. by apply same_log.
Qed.

Create HintDb log discriminated.
#[local] Hint Resolve log_lift log_ret log_get log_now log_store log_claims log_quota log_ledger log_authorize : log.

(** Walk a body that makes no provider call, or only calls known to satisfy [P]. *)
#[local] Ltac lwalk P := repeat first
  [ solve [auto with log]
  | apply (wat_bind (log_rel P)); [|intros; cbv zeta]
  | case_match ].

Lemma log_record_fact (P : provider_call → Prop) plan ver ft cmd actor pl w : wat (log_rel P) (record_fact clock plan ver ft cmd actor pl) w.
Proof. unfold record_fact. lwalk P. Qed.
Lemma log_require_action_policy (P : provider_call → Prop) plan q w : wat (log_rel P) (_require_action_policy clock plan q) w.
Proof. unfold _require_action_policy. lwalk P. Qed.
#[local] Hint Resolve log_record_fact log_require_action_policy : log.
Lemma log_scope (P : provider_call → Prop) identity plan_id action_id allowed w :
  wat (log_rel P) (_validated_scope clock authorize_port identity plan_id action_id allowed) w.
Proof. unfold _validated_scope, scope_expired. lwalk P. Qed.
Lemma log_intent (P : provider_call → Prop) s action_id op attempt dry w : wat (log_rel P) (_intent clock s action_id op attempt dry) w.
Proof. unfold _intent. lwalk P. Qed.
Lemma log_claim (P : provider_call → Prop) intent actor w : wat (log_rel P) (claim_effect clock intent actor) w.
Proof. unfold claim_effect. lwalk P. Qed.
Lemma log_complete (P : provider_call → Prop) receipt token w : wat (log_rel P) (complete_effect clock receipt token) w.
Proof. unfold complete_effect. lwalk P. Qed.
Lemma log_synthetic (P : provider_call → Prop) intent o code ref w : wat (log_rel P) (synthetic clock intent o code ref) w.
Proof. unfold synthetic. lwalk P. Qed.
#[local] Hint Resolve log_scope log_intent log_claim log_complete log_synthetic : log.

Lemma log_observe_and_execute (P : provider_call → Prop) intent w :
  P (CallObserve intent) → P (CallExecute intent) → wat (log_rel P) (observe_and_execute clock actions intent) w.
Proof. intros H1 H2. unfold observe_and_execute. pose proof (@log_call P). lwalk P. Qed.

(** ** The intent of an operation *)

Record intent_binds (s : scope) (action_id op : string) (attempt : Z) (dry : bool) (i : ActionIntent) : Prop := {
  ib_plan : ai_tenant_id i = rp_tenant_id (sc_plan s) ∧ ai_plan_id i = rp_plan_id (sc_plan s) ∧
            ai_run_id i = rp_run_id (sc_plan s) ∧ ai_plan_digest i = rp_plan_digest (sc_plan s);
  ib_action : ai_action i ∈ rp_actions (sc_plan s) ∧ ad_action_id (ai_action i) = action_id;
  ib_approval : ai_approval_digest i = ar_canonical_digest (sc_approval s);
  ib_policy : ai_policy_digest i = ap_policy_digest (sc_policy s);
  ib_operation : ai_operation_id i = op ∧ ai_attempt i = attempt ∧ ai_dry_run i = dry;
  ib_fence : ai_fence_token i = pj_fence_token (sc_projection s)
}.

Lemma intent_ok s action_id op attempt dry (w : world E) i w1 :
  _intent clock s action_id op attempt dry w = (Ok i, w1) →
  intent_binds s action_id op attempt dry i ∧ w1 = set_w_tick (S (w_tick w)) w.
Proof.
  unfold _intent. intros H. inv_lift H action Hact. inv_bind H at_ w2 Hnow.
  unfold now in Hnow. injection Hnow as _ <-. unfold lift in H. injection H as H <-.
  apply validated_ok in H as [-> _]. split; [|done].
  unfold plan_action, of_option in Hact. destruct (find _ _) as [a|] eqn:Hf; [|done]. injection Hact as ->.
  apply List.find_some in Hf as [Hin Hid]. apply list_elem_of_In in Hin. apply bool_decide_eq_true in Hid.
  split; simpl; try done.
Qed.

(** Appending a fact touches the ledger and the clock only. *)
Lemma record_fact_frame plan ver ft cmd actor pl (w : world E) :
  ∃ l k, (record_fact clock plan ver ft cmd actor pl w).2 = set_w_ledger l (set_w_tick k w).
Proof.
  unfold record_fact, now, mbind, M_bind, on_ledger, zoom. simpl.
  destruct (ledger_append _ _ _ _ _ _ _ _ _) as [r l]. by exists l, (S (w_tick w)).
Qed.

(** No receipt yet for the operation *)
Definition unfinished (w : world E) (t op : string) : Prop :=
  ∀ c, w_claims w !! (t, op) = Some c → ec_receipt c = None.

Lemma claim_effect_unfinished intent actor (w : world E) cl w1 :
  claim_effect clock intent actor w = (Ok cl, w1) → ecr_receipt cl = None →
  unfinished w (ai_tenant_id intent) (ai_operation_id intent).
Proof.
  unfold claim_effect. intros H Hr. inv_bind H at_ w2 Hnow. unfold now in Hnow. injection Hnow as <- <-.
  unfold on_claims, zoom in H. set (until := _ + _) in H. simpl in H.
  pose proof (effect_claim_run intent actor (clock (w_tick w)) until (w_claims w)) as Hrun.
  pose proof (effect_claim_follows intent actor (clock (w_tick w)) until (w_claims w)) as Hfol.
  destruct (effect_claim intent actor _ until (w_claims w)) as [[r|e] m']; [|done]. injection H as -> <-.
  destruct Hrun as (c & Hc & Hcl & _). intros c0 Hc0. destruct (ec_receipt c0) as [x|] eqn:Hx; [|done].
  destruct (Hfol _ _ Hc0) as (c' & Hc' & [_ _ Hkeep]). apply Hkeep in Hx as Heq. simpl in Hc'.
  rewrite Hcl in Hr. simpl in Hr. congruence.
Qed.

(** ** The calls of each operation *)

Section operations.
Context (identity : IdentityContext) (plan_id action_id op : string) (attempt : Z).

(** What holds, in the world [w] before the operation, of an intent the provider receives *)
Definition sanctioned (allowed : list RemediationStatus) (dry : bool) (w : world E) (i : ActionIntent) : Prop :=
  ∃ s w1, scope_facts identity plan_id action_id allowed w s w1 ∧ intent_binds s action_id op attempt dry i.

Definition execute_call (w : world E) (c : provider_call) : Prop :=
  match c with
  | CallObserve i | CallExecute i =>
      sanctioned [RS_PREFLIGHT; RS_EXECUTING; RS_SUCCEEDED] false w i ∧
      unfinished w (ai_tenant_id i) op
  | _ => False
  end.

Lemma execute_calls ver w :
  log_rel (execute_call w) w (execute clock authorize_port actions identity plan_id action_id ver op attempt w).2.
Proof.
  change (wat (log_rel (execute_call w)) (execute clock authorize_port actions identity plan_id action_id ver op attempt) w).
  unfold execute. set (P := execute_call w).
  apply (wat_bind (log_rel P)); [auto with log|]. intros s w1 Hs. apply validated_scope_ok in Hs.
  apply (wat_bind (log_rel P)); [auto with log|]. intros i w2 Hi. apply intent_ok in Hi as [Hi ->]. cbv zeta.
  apply (wat_bind (log_rel P)); [auto with log|]. intros requested w3 Hreq.
  match type of Hreq with record_fact _ ?p ?v ?ft ?c ?a ?pl ?wx = _ =>
    destruct (record_fact_frame p v ft c a pl wx) as (l & k & Hfr) end.
  rewrite Hreq in Hfr. simpl in Hfr.
  apply (wat_bind (log_rel P)); [auto with log|]. intros cl w4 Hcl.
  destruct (ecr_receipt cl) as [r|] eqn:Hr; [lwalk P|].
  apply claim_effect_unfinished in Hcl as Hun; [|done].
  assert (unfinished w (ai_tenant_id i) op) as Hun'.
  { intros c Hc. apply Hun. rewrite Hfr. destruct (sf_frame _ _ _ _ _ _ _ Hs) as (k' & q' & ->). simpl.
    by rewrite (proj1 (ib_operation _ _ _ _ _ _ Hi)). }
  assert (P (CallObserve i) ∧ P (CallExecute i)) as [H1 H2].
  { unfold P, execute_call, sanctioned. split; (split; [by exists s, w1|done]). }
  pose proof (log_observe_and_execute P i). lwalk P.
Qed.

Definition preflight_call (w : world E) (c : provider_call) : Prop :=
  match c with CallDryRun i => sanctioned [RS_APPROVED; RS_PREFLIGHT] true w i | _ => False end.
Definition reconcile_call (w : world E) (c : provider_call) : Prop :=
  match c with
  | CallObserve i => sanctioned [RS_AMBIGUOUS; RS_RECONCILING; RS_SUCCEEDED] false w i
  | _ => False
  end.
Definition verify_call (w : world E) (c : provider_call) : Prop :=
  match c with
  | CallObserve i => sanctioned [RS_SUCCEEDED; RS_VERIFIED; RS_VERIFICATION_FAILED] false w i
  | _ => False
  end.
Definition rollback_call (w : world E) (c : provider_call) : Prop :=
  match c with
  | CallCompensate i =>
      sanctioned [RS_FAILED; RS_SUCCEEDED; RS_VERIFICATION_FAILED; RS_ROLLED_BACK] false w i ∧
      cc_enabled (ad_compensation (ai_action i)) = true
  | _ => False
  end.

(** Enter an operation: its validated scope and its intent *)
#[local] Ltac enter P w s w1 Hs :=
  apply (wat_bind (log_rel P)); [auto with log|]; intros s w1 Hs; apply validated_scope_ok in Hs.
#[local] Ltac take_intent P i Hi :=
  apply (wat_bind (log_rel P)); [auto with log|]; let w2 := fresh "w" in intros i w2 Hi;
  apply intent_ok in Hi as [Hi ->]; cbv zeta.

Lemma preflight_calls ver w :
  log_rel (preflight_call w) w (preflight clock authorize_port actions identity plan_id action_id ver op attempt w).2.
Proof.
  set (P := preflight_call w).
  change (wat (log_rel P) (preflight clock authorize_port actions identity plan_id action_id ver op attempt) w).
  unfold preflight. enter P w s w1 Hs. take_intent P i Hi.
  assert (P (CallDryRun i)) by (by exists s, w1). pose proof (@log_call P). lwalk P.
Qed.

Lemma reconcile_calls ver w :
  log_rel (reconcile_call w) w (reconcile clock authorize_port actions identity plan_id action_id ver op attempt w).2.
Proof.
  set (P := reconcile_call w).
  change (wat (log_rel P) (reconcile clock authorize_port actions identity plan_id action_id ver op attempt) w).
  unfold reconcile. enter P w s w1 Hs. take_intent P i Hi.
  assert (P (CallObserve i)) by (by exists s, w1). pose proof (@log_call P). lwalk P.
Qed.

Lemma verify_calls ver receipt evidence w :
  log_rel (verify_call w) w
    (verify clock authorize_port actions identity plan_id action_id ver op receipt evidence attempt w).2.
Proof.
  set (P := verify_call w).
  change (wat (log_rel P) (verify clock authorize_port actions identity plan_id action_id ver op receipt evidence attempt) w).
  unfold verify. enter P w s w1 Hs. take_intent P i Hi.
  assert (P (CallObserve i)) by (by exists s, w1). pose proof (@log_call P). lwalk P.
Qed.

Lemma rollback_calls ver w :
  log_rel (rollback_call w) w (rollback clock authorize_port actions identity plan_id action_id ver op attempt w).2.
Proof.
  set (P := rollback_call w).
  change (wat (log_rel P) (rollback clock authorize_port actions identity plan_id action_id ver op attempt) w).
  unfold rollback. enter P w s w1 Hs.
  apply (wat_bind (log_rel P)); [auto with log|]. intros action w2 Hact. unfold lift in Hact. injection Hact as Hact _.
  apply (wat_bind (log_rel P)); [auto with log|]. intros u w3 Hen. unfold lift in Hen. injection Hen as Hen _.
  apply raise_if_ok in Hen. py_bool.
  apply (wat_bind (log_rel P)); [auto with log|]. intros i w4 Hi.
  assert (ai_action i = action) as Hia.
  { unfold _intent in Hi. inv_lift Hi a' Ha'. inv_bind Hi at_ w5 Hnow. unfold lift in Hi. injection Hi as Hi _.
    apply validated_ok in Hi as [-> _]. simpl. congruence. }
  apply intent_ok in Hi as [Hi ->]. cbv zeta.
  assert (P (CallCompensate i)) by (split; [by exists s, w1|by rewrite Hia]). pose proof (@log_call P). lwalk P.
Qed.
End operations.

(** ** The calls of any service method *)

Definition service_call (o : service_op) (w : world E) (c : provider_call) : Prop :=
  match o with
  | OpPreflight identity plan_id action_id _ op attempt => preflight_call identity plan_id action_id op attempt w c
  | OpExecute identity plan_id action_id _ op attempt => execute_call identity plan_id action_id op attempt w c
  | OpReconcile identity plan_id action_id _ op attempt => reconcile_call identity plan_id action_id op attempt w c
  | OpVerify identity plan_id action_id _ op _ _ attempt => verify_call identity plan_id action_id op attempt w c
  | OpRollback identity plan_id action_id _ op attempt => rollback_call identity plan_id action_id op attempt w c
  | _ => False
  end.

Lemma service_calls o w : log_rel (service_call o w) w (run_service clock authorize_port actions o w).
Proof.
  destruct o; cbn [run_service service_call].
  - change (wat (log_rel (λ _, False)) (propose clock authorize_port identity plan cmd) w).
    unfold propose. lwalk (λ _ : provider_call, False).
  - change (wat (log_rel (λ _, False)) (request_approval clock authorize_port identity plan_id ver cmd) w).
    unfold request_approval, _require_plan. lwalk (λ _ : provider_call, False).
  - change (wat (log_rel (λ _, False)) (decide_approval clock authorize_port identity aid disp rationale ver cmd plan_digest approval_digest) w).
    unfold decide_approval, _require_plan, _require_approval, bound_projection. lwalk (λ _ : provider_call, False).
  - change (wat (log_rel (λ _, False)) (revoke clock authorize_port identity aid ver cmd rationale) w).
    unfold revoke, _require_approval, bound_projection. lwalk (λ _ : provider_call, False).
  - change (wat (log_rel (λ _, False)) (get_approval authorize_port identity aid) w).
    unfold get_approval. lwalk (λ _ : provider_call, False).
  - apply preflight_calls.
  - apply execute_calls.
  - apply reconcile_calls.
  - apply verify_calls.
  - apply rollback_calls.
  - by apply same_log.
Qed.

Lemma service_steps_log w w' :
  service_steps clock authorize_port actions w w' → ∃ calls, w_log w' = w_log w ++ calls.
Proof.
  induction 1 as [w|w o w' _ _ [cs IH]]; [exists []; by rewrite app_nil_r|].
  destruct (service_calls o w) as (cs1 & H1 & _). exists (cs1 ++ cs). by rewrite IH, H1, app_assoc.
Qed.

(** Every logged call was made by one method call, in a world reached before it. *)
Lemma logged_call w0 w calls c :
  service_steps clock authorize_port actions w0 w → w_log w = w_log w0 ++ calls → c ∈ calls →
  ∃ o wi, service_steps clock authorize_port actions w0 wi ∧ service_op_ok o ∧
    service_steps clock authorize_port actions (run_service clock authorize_port actions o wi) w ∧
    service_call o wi c.
Proof.
  intros Hs. revert calls. induction Hs as [w|w o w' Hok Hs IH]; intros calls Hlog Hc.
  { rewrite <-(app_nil_r (w_log w)) in Hlog at 1. apply app_inv_head in Hlog as <-. by apply not_elem_of_nil in Hc. }
  destruct (service_calls o w) as (cs1 & H1 & Hall). destruct (service_steps_log _ _ Hs) as [cs2 H2].
  rewrite H2, H1, <-app_assoc in Hlog. apply app_inv_head in Hlog as <-.
  apply elem_of_app in Hc as [Hc|Hc].
  - exists o, w. rewrite Forall_forall in Hall. split_and!; [apply service_refl|done|done|by apply Hall].
  - destruct (IH cs2 H2 Hc) as (o' & wi & Hsi & Hok' & Hs' & Hcall).
    exists o', wi. split_and!; [|done|done|done]. by apply (service_step _ _ _ _ o).
Qed.
End effects.
