(* ===== verification/RemediationFixtures.v ===== *)
(** * A concrete remediation to evaluate

    One tenant, one high-risk plan with one action, a proposer, two approvers and an effect
    worker, the enterprise policy as policy port and a provider that remembers whether the
    action was applied.  The witnesses run the services on them. *)

From S2P Require Import Prelude PyJson PyFloat PyTime PyModel PyDigest Domain Durability Fixtures Authorization RemediationData RemediationStores RemediationServices RemediationFacts RemediationWorld RemediationSafety RemediationEffects.

(** ** Identities and the enterprise policy *)

Definition demo_actor (subject role : string) (kind : PrincipalKind) : IdentityContext :=
  {| ic_tenant_id := "tenant-a"; ic_issuer := "https://idp.example"; ic_subject_id := subject;
     ic_principal_kind := kind; ic_roles := [role]; ic_permissions := permissions_for role;
     ic_purposes := ["incident-response"];
     ic_grants := [{| gb_role := role; gb_purpose := "incident-response";
                      gb_permissions := permissions_for role; gb_risk_ceiling := RHigh;
                      gb_expires_at := demo_time + hours 24 |}];
     ic_grant_version := 1; ic_authenticated_at := demo_time; ic_expires_at := demo_time + hours 1;
     ic_request_id := "req-1"; ic_trace_id := "trace-1" |}.

Definition demo_proposer : IdentityContext := demo_actor "alice" "incident-responder" PHuman.
Definition demo_commander : IdentityContext := demo_actor "carol" "incident-commander" PHuman.
Definition demo_approver : IdentityContext := demo_actor "dave" "change-approver" PHuman.
Definition demo_worker : IdentityContext := demo_actor "worker" "effect-worker" PWorkload.

Definition demo_enterprise_policy : PolicyRecord :=
  {| po_policy_id := "policy-1"; po_tenant_id := "tenant-a"; po_revision := 1;
     po_allowed_actions := action_value <$> [REMEDIATION_PROPOSE; REMEDIATION_READ; APPROVAL_REQUEST;
                                             APPROVAL_DECIDE; APPROVAL_REVOKE; EFFECT_EXECUTE];
     po_allowed_purposes := ["incident-response"]; po_max_risk := RHigh; po_version := 1 |}.

Definition demo_clock : nat → datetime := λ _, demo_time + seconds 60.

Definition demo_repository (t : string) : option PolicyRecord :=
  if decide (t = "tenant-a") then Some demo_enterprise_policy else None.
Definition demo_port : PolicyPort := enterprise_port (λ _, demo_repository) demo_clock.

Section demo.
#[local] Existing Instances demo_digest demo_float.

(** ** The action policy and the plan *)

Definition demo_fingerprint : string := hexdigest "deployment/api".

Definition demo_action_policy : ActionPolicy :=
  let policy digest :=
    {| ap_tenant_id := "tenant-a"; ap_policy_id := "effects-1"; ap_revision := 1;
       ap_role_revision := 1; ap_quota_revision := 1; ap_enabled := true;
       ap_allowed_action_types := ["kubernetes.rollout_restart"];
       ap_allowed_target_fingerprints := [demo_fingerprint]; ap_allowed_namespaces := ["prod"];
       ap_maintenance_window_start := demo_time; ap_maintenance_window_end := demo_time + hours 8;
       ap_max_risk := RHigh; ap_max_blast_radius := ONE_SERVICE; ap_remaining_effects := 3;
       ap_high_risk_quorum := 2; ap_normal_quorum := 1;
       ap_approver_roles := ["change-approver"; "incident-commander"];
       ap_prohibit_self_approval := true; ap_policy_digest := digest |} in
  policy (canonical_digest (policy_material (policy ""))).

Definition demo_action : ActionDefinition :=
  let action digest :=
    {| ad_action_id := "restart-api";
       ad_target := {| kt_cluster_ref := "cluster-1"; kt_namespace := "prod"; kt_name := "api";
                       kt_uid := "uid-1"; kt_resource_version := "42";
                       kt_resource_fingerprint := demo_fingerprint |};
       ad_risk := RHigh; ad_blast_radius := ONE_SERVICE;
       ad_preconditions := [{| co_fact := "replicas"; co_operator := OpGreaterThan; co_expected := SInt 0 |}];
       ad_postconditions := [{| co_fact := "healthy"; co_operator := OpEquals; co_expected := SBool true |}];
       ad_retry := {| rc_maximum_attempts := 3; rc_attempt_timeout_seconds := 60;
                      rc_schedule_timeout_seconds := 600; rc_heartbeat_timeout_seconds := 15 |};
       ad_idempotency_key := "restart-api-1";
       ad_compensation := {| cc_enabled := true; cc_action := RollbackRevision;
                             cc_rollback_revision := Some "41"; cc_requires_fresh_approval := false |};
       ad_canonical_digest := digest |} in
  action (canonical_digest (action_material (action ""))).

Definition demo_plan : RemediationPlan :=
  let plan digest :=
    {| rp_plan_id := "plan-1"; rp_tenant_id := "tenant-a"; rp_run_id := "run-1";
       rp_incident_id := "inc-1"; rp_proposer_ref := _actor_ref demo_proposer;
       rp_target_fingerprint := demo_fingerprint; rp_risk := RHigh; rp_blast_radius := ONE_SERVICE;
       rp_rationale := "restart the api"; rp_actions := [demo_action];
       rp_evidence := [{| ci_evidence_id := "ev-1"; ci_locator := "logs#1";
                          ci_content_hash := demo_fingerprint; ci_provenance_digest := None;
                          ci_source_id := None; ci_query_id := None; ci_page_number := None |}];
       rp_policy_snapshot := snapshot demo_action_policy; rp_created_at := demo_time;
       rp_expires_at := demo_time + hours 4; rp_plan_digest := digest |} in
  plan (canonical_digest (plan_material (plan ""))).

Example demo_plan_ok : RemediationPlan_ok demo_plan = true.
Proof. vm_compute. reflexivity. Qed.

Definition demo_policies : policy_table := {["tenant-a" := demo_action_policy]}.
Definition demo_limits : gmap string Z := {["tenant-a" := 3]}.

Example demo_policies_valid : policies_valid demo_policies.
Proof.
  intros t policy. unfold demo_policies. rewrite lookup_singleton_Some. intros [<- <-].
  split; vm_compute; reflexivity.
Qed.

(** ** The provider: whether the action was applied *)

Definition demo_answer (outcome : EffectOutcome) (intent : ActionIntent) : res ActionReceipt :=
  _synthetic_receipt intent outcome "ok" (demo_clock 0) (Some "provider-1").

Definition demo_observation (applied : bool) (intent : ActionIntent) : ActionObservation :=
  {| ao_tenant_id := ai_tenant_id intent; ao_plan_id := ai_plan_id intent;
     ao_action_id := ad_action_id (ai_action intent); ao_operation_id := ai_operation_id intent;
     ao_target_fingerprint := kt_resource_fingerprint (ad_target (ai_action intent));
     ao_state := if applied then OS_APPLIED else OS_BEFORE;
     ao_facts := [("replicas", SInt 3); ("healthy", SBool applied)];
     ao_observed_at := demo_clock 0 + seconds 1; ao_provider_receipt_ref := Some "provider-1";
     ao_attempt_fence := ai_fence_token intent |}.

Definition demo_actions : ActionPort bool :=
  {| port_dry_run intent := λ e, (demo_answer EO_DRY_RUN_SUCCEEDED intent, e);
     port_observe intent := λ e, (Ok (demo_observation e intent), e);
     port_execute intent := λ _, (demo_answer EO_SUCCEEDED intent, true);
     port_compensate intent := λ _, (demo_answer EO_COMPENSATED intent, false) |}.

(** A provider that is down when dry runs and compensations are asked for *)
Definition demo_flaky : ActionPort bool :=
  {| port_dry_run intent := λ e, (raise IntegrityFailure "provider unavailable", e);
     port_observe := port_observe demo_actions; port_execute := port_execute demo_actions;
     port_compensate intent := λ e, (raise IntegrityFailure "provider unavailable", e) |}.

(** ** The run *)

Definition demo_approval_id : string :=
  stable_id "approval" [rp_tenant_id demo_plan; rp_plan_id demo_plan; rp_plan_digest demo_plan] 32.

Definition demo_w0 : world bool := initial_world demo_policies demo_limits false.

Section run.
Context (actions : ActionPort bool).
Abbreviation run := (run_service demo_clock demo_port actions).

Definition demo_proposed : world bool := run (OpPropose demo_proposer demo_plan "cmd-1") demo_w0.
Definition demo_requested : world bool := run (OpRequestApproval demo_proposer "plan-1" 2 "cmd-2") demo_proposed.
Definition demo_approval_digest : string :=
  match stored_approval (w_store demo_requested) "tenant-a" demo_approval_id with
  | Some a => ar_canonical_digest a
  | None => ""
  end.
Definition demo_vote (who : IdentityContext) (version : Z) (command : string) : service_op :=
  OpDecide who demo_approval_id GRANT "restart is safe now" version command
    (rp_plan_digest demo_plan) demo_approval_digest.
Definition demo_pending : world bool := run (demo_vote demo_commander 3 "cmd-3") demo_requested.
Definition demo_approved : world bool := run (demo_vote demo_approver 4 "cmd-4") demo_pending.
Definition demo_preflighted : world bool :=
  run (OpPreflight demo_worker "plan-1" "restart-api" 5 "op-1" 1) demo_approved.

Definition demo_version (w : world bool) : Z :=
  match projection (w_ledger w) "tenant-a" "plan-1" with Some p => pj_version p | None => 0 end.
Definition demo_executed : world bool :=
  run (OpExecute demo_worker "plan-1" "restart-api" (demo_version demo_preflighted) "op-2" 1) demo_preflighted.
Definition demo_rolled_back : world bool :=
  run (OpRollback demo_worker "plan-1" "restart-api" (demo_version demo_executed) "op-3" 1) demo_executed.

Abbreviation reached := (service_reachable demo_clock demo_port actions demo_policies demo_limits).

Lemma demo_reached_init : reached demo_w0.
Proof. split; [apply demo_policies_valid|]. exists false. apply service_refl. Qed.

Lemma demo_later w op : service_op_ok op → service_steps demo_clock demo_port actions w (run op w).
Proof. intros Hok. by apply (service_step _ _ _ _ op), service_refl. Qed.

Lemma demo_reached_step w op : reached w → service_op_ok op → reached (run op w).
Proof.
  intros [Hp [e Hs]] Hok. split; [done|]. exists e.
  induction Hs as [w|w o w' Ho Hs IH]; [by apply demo_later|]. by apply (service_step _ _ _ _ o).
Qed.

Lemma demo_pending_reached : reached demo_pending.
Proof. repeat (apply demo_reached_step; [|first [exact I|exact demo_plan_ok]]). apply demo_reached_init. Qed.
Lemma demo_approved_reached : reached demo_approved.
Proof. apply demo_reached_step; [apply demo_pending_reached|exact I]. Qed.
Lemma demo_preflighted_reached : reached demo_preflighted.
Proof. apply demo_reached_step; [apply demo_approved_reached|exact I]. Qed.
Lemma demo_executed_reached : reached demo_executed.
Proof. apply demo_reached_step; [apply demo_preflighted_reached|exact I]. Qed.
Lemma demo_rolled_back_reached : reached demo_rolled_back.
Proof. apply demo_reached_step; [apply demo_executed_reached|exact I]. Qed.
End run.

Definition demo_status (w : world bool) : option RemediationStatus :=
  pj_status <$> projection (w_ledger w) "tenant-a" "plan-1".

Definition demo_calls (w : world bool) : list string :=
  (λ c, match c with
        | CallDryRun i => "dry_run:" +:+ ai_operation_id i
        | CallObserve i => "observe:" +:+ ai_operation_id i
        | CallExecute i => "execute:" +:+ ai_operation_id i
        | CallCompensate i => "compensate:" +:+ ai_operation_id i
        end) <$> w_log w.

Example demo_run_calls :
  demo_calls (demo_rolled_back demo_actions)
  = ["dry_run:op-1"; "observe:op-2"; "execute:op-2"; "compensate:op-3"].
Proof. vm_compute. reflexivity. Qed.

Lemma logs_execute log :
  existsb (λ c, match c with CallExecute _ => true | _ => false end) log = true →
  ∃ i, CallExecute i ∈ log.
Proof.
  intros (c & Hc & H)%existsb_exists. destruct c as [| |i|]; try done.
  exists i. by apply list_elem_of_In.
Qed.

Lemma demo_execute_logged : ∃ i, CallExecute i ∈ w_log (demo_executed demo_actions).
Proof. apply logs_execute. vm_compute. reflexivity. Qed.
End demo.
