(* ===== verification/RemediationAuthority.v ===== *)
(** * Who may do what

    [EnterprisePolicy] denies by default and its authority only shrinks; the role catalogue
    separates proposing, approving and executing; and behind every execution in the
    provider log stands a caller with a current grant to execute effects.  Then the replay of a
    command of the ledger, and what a decision on an approval leads to. *)

From S2P Require Import Prelude PyJson PyTime PyFloat PyModel PyDigest Domain Durability Fixtures Authorization RemediationData RemediationStores RemediationServices RemediationFacts RemediationWorld RemediationSafety RemediationEffects RemediationFixtures.

(** ** The enterprise policy *)

(** The conditions under which [EnterprisePolicy] allows an action *)
Record permitted (current_policy : string → option PolicyRecord) (now : datetime)
    (identity : IdentityContext) (action : Action) (resource_tenant_id purpose : string)
    (risk : RiskLevel) : Prop := {
  pm_tenant : ic_tenant_id identity = resource_tenant_id;
  pm_identity : now < ic_expires_at identity;
  pm_policy : ∃ policy, current_policy resource_tenant_id = Some policy ∧
    action_value action ∈ po_allowed_actions policy ∧ purpose ∈ po_allowed_purposes policy ∧
    risk_order risk <= risk_order (po_max_risk policy);
  pm_grant : ∃ g, g ∈ ic_grants identity ∧ now < gb_expires_at g ∧ gb_purpose g = purpose ∧
    action_value action ∈ gb_permissions g ∧ risk_order risk <= risk_order (gb_risk_ceiling g)
}.

Lemma grant_permits_true action purpose risk now g :
  grant_permits action purpose risk now g = true ↔
  now < gb_expires_at g ∧ gb_purpose g = purpose ∧ action_value action ∈ gb_permissions g ∧
  risk_order risk <= risk_order (gb_risk_ceiling g).
Proof. unfold grant_permits. rewrite !andb_true_iff, !bool_decide_eq_true, Z.ltb_lt, Z.leb_le. tauto. Qed.

Lemma find_grant action purpose risk now gs :
  is_Some (find (grant_permits action purpose risk now) gs) ↔
  ∃ g, g ∈ gs ∧ grant_permits action purpose risk now g = true.
Proof.
  split.
  - intros [g Hg]. apply find_some in Hg as [Hin Hp]. exists g. by rewrite list_elem_of_In.
  - intros (g & Hin%list_elem_of_In & Hp). destruct (find _ gs) as [g'|] eqn:Hf; [done|].
    by rewrite (find_none _ _ Hf _ Hin) in Hp.
Qed.

Lemma no_denial current_policy now identity action tenant purpose risk :
  _denial_reason identity action tenant purpose risk (current_policy tenant) now = None ↔
  permitted current_policy now identity action tenant purpose risk.
Proof.
  unfold _denial_reason. split.
  - intros H. case_decide as Ht; [done|].
    destruct (Z.leb_spec (ic_expires_at identity) now); [done|].
    destruct (current_policy tenant) as [policy|] eqn:Hpol; [|done].
    case_decide as Ha; [done|]. case_decide as Hp; [done|].
    destruct (Z.ltb_spec (risk_order (po_max_risk policy)) (risk_order risk)); [done|].
    destruct (find _ _) as [g|] eqn:Hf; [|done].
    split; [done|done|by exists policy|].
    destruct (proj1 (find_grant action purpose risk now (ic_grants identity)) (mk_is_Some _ _ Hf)) as (g' & Hin & Hg).
    exists g'. split; [done|by apply grant_permits_true].
  - intros [Ht Hi (policy & -> & Ha & Hp & Hr) (g & Hin & Hg)].
    rewrite decide_False by (intros ?; done). destruct (Z.leb_spec (ic_expires_at identity) now); [lia|].
    rewrite decide_False by tauto. rewrite decide_False by tauto.
    destruct (Z.ltb_spec (risk_order (po_max_risk policy)) (risk_order risk)); [lia|].
    destruct (proj2 (find_grant action purpose risk now (ic_grants identity))) as [g' ->]; [|done].
    exists g. split; [done|by apply grant_permits_true].
Qed.

Lemma allowed_permitted current_policy now identity action tenant purpose risk :
  pd_allowed (authorize current_policy now identity action tenant purpose risk) = true ↔
  permitted current_policy now identity action tenant purpose risk.
Proof. unfold authorize. simpl. rewrite bool_decide_eq_true. apply no_denial. Qed.

(** C37: deny by default.  [EnterprisePolicy.authorize] allows an action exactly when the
    identity belongs to the tenant of the resource and has not expired, the tenant has a
    current policy that lists the action and the purpose and bounds the risk, and one single
    unexpired grant covers purpose, permission and risk together. *)
Theorem authorize_exactly current_policy now identity action tenant purpose risk :
  pd_allowed (authorize current_policy now identity action tenant purpose risk) = true ↔
  permitted current_policy now identity action tenant purpose risk.
Proof. apply allowed_permitted. Qed.

(** Authority only shrinks.  What is allowed at some time, for some risk, by some policy
    and grants was allowed at every earlier time, for every lower risk; and a decision never
    depends on the policy of another tenant. *)
Theorem authority_shrinks current_policy current_policy' now now' identity action tenant purpose risk risk' :
  pd_allowed (authorize current_policy now identity action tenant purpose risk) = true →
  now' <= now → risk_order risk' <= risk_order risk →
  current_policy' tenant = current_policy tenant →
  pd_allowed (authorize current_policy' now' identity action tenant purpose risk') = true.
Proof.
  rewrite !allowed_permitted. intros [Ht Hi (policy & Hp & Ha & Hu & Hr) (g & Hin & H1 & H2 & H3 & H4)] Hn Hk Heq.
  split; [done|lia|exists policy; rewrite Heq; split_and!; done || lia|].
  exists g. split_and!; done || lia.
Qed.

Lemma authority_shrinks_witness :
  pd_allowed (authorize demo_repository demo_time demo_proposer REMEDIATION_PROPOSE "tenant-a"
                "incident-response" RLow) = true.
Proof.
  refine (authority_shrinks demo_repository demo_repository (demo_clock 0) demo_time demo_proposer
    REMEDIATION_PROPOSE "tenant-a" "incident-response" RHigh RLow _ _ _ _).
  - vm_compute. reflexivity.
  - vm_compute. discriminate.
  - vm_compute. discriminate.
  - reflexivity.
Defined.

(** ** The role catalogue *)

(** The roles of the catalogue *)
Definition catalogue : list string :=
  ["incident-responder"; "incident-viewer"; "tenant-admin"; "tenant-auditor";
   "workload-investigator"; "incident-commander"; "change-approver"; "effect-worker"].

Lemma role_in_catalogue role action : action ∈ role_actions role → role ∈ catalogue.
Proof.
  intros H. destruct (decide (role ∈ catalogue)) as [|Hn]; [done|].
  unfold catalogue in Hn. rewrite !not_elem_of_cons in Hn. destruct_and! Hn.
  unfold role_actions in H. rewrite !decide_False in H by done. by apply not_elem_of_nil in H.
Qed.

Lemma catalogue_check (P : string → bool) role action :
  forallb P catalogue = true → action ∈ role_actions role → P role = true.
Proof.
  intros H Hin%role_in_catalogue. rewrite forallb_forall in H. by apply H, list_elem_of_In.
Qed.

(** Separation of duties in the role catalogue.  A role that decides approvals neither
    proposes remediations nor requests approvals nor executes effects; only [effect-worker]
    executes effects, and it can do nothing else that changes state; only [tenant-admin]
    writes policies or quotas. *)
Theorem role_separation role :
  (APPROVAL_DECIDE ∈ role_actions role →
     REMEDIATION_PROPOSE ∉ role_actions role ∧ APPROVAL_REQUEST ∉ role_actions role ∧
     EFFECT_EXECUTE ∉ role_actions role) ∧
  (EFFECT_EXECUTE ∈ role_actions role → role = "effect-worker" ∧
     role_actions role = [REMEDIATION_READ; EFFECT_EXECUTE; EFFECT_READ]) ∧
  (POLICY_WRITE ∈ role_actions role ∨ QUOTA_WRITE ∈ role_actions role → role = "tenant-admin").
Proof.
  split_and!; intros H.
  - apply (catalogue_check (λ r, implb (bool_decide (APPROVAL_DECIDE ∈ role_actions r))
      (bool_decide (REMEDIATION_PROPOSE ∉ role_actions r ∧ APPROVAL_REQUEST ∉ role_actions r ∧
                    EFFECT_EXECUTE ∉ role_actions r)))) in H as Hc; [|vm_compute; reflexivity].
    rewrite bool_decide_true in Hc by done. by apply bool_decide_eq_true in Hc.
  - apply (catalogue_check (λ r, implb (bool_decide (EFFECT_EXECUTE ∈ role_actions r))
      (bool_decide (r = "effect-worker")))) in H as Hc; [|vm_compute; reflexivity].
    rewrite bool_decide_true in Hc by done. apply bool_decide_eq_true in Hc as ->. done.
  - assert (∃ a, a ∈ role_actions role) as [a Ha] by (destruct H; eauto).
    apply (catalogue_check (λ r, implb (bool_decide (POLICY_WRITE ∈ role_actions r ∨ QUOTA_WRITE ∈ role_actions r))
      (bool_decide (r = "tenant-admin")))) in Ha as Hc; [|vm_compute; reflexivity].
    rewrite bool_decide_true in Hc by done. by apply bool_decide_eq_true in Hc.
Qed.

(** ** The services under the enterprise policy *)

Section authority.
Context {HDigest : Digest} {HFloat : FloatJson} {E : Type}.
Context (clock : nat → datetime) (current_policy : nat → string → option PolicyRecord) (actions : ActionPort E).

Abbreviation port := (enterprise_port current_policy clock).

(** What every call in the log needs: an intent of the tenant of a caller permitted to
    execute effects *)
Lemma sanctioned_permitted policies limits w identity plan_id action_id op attempt allowed dry i :
  service_reachable clock port actions policies limits w →
  sanctioned clock port identity plan_id action_id op attempt allowed dry w i →
  ai_tenant_id i = ic_tenant_id identity ∧
  permitted (current_policy (w_tick w)) (clock (w_tick w)) identity EFFECT_EXECUTE (ai_tenant_id i)
    "incident-response" RHigh.
Proof.
  intros Hr (s & w1 & Hs & Hi). apply reachable_world in Hr as (Hsound & _ & _).
  destruct Hs as [Hauth Hplan _ _ _ _ _ _ _ _ _ _ _]. destruct Hi as [(I1 & _) _ _ _ _ _].
  apply (ss_plans _ Hsound) in Hplan as (K1 & _).
  assert (ai_tenant_id i = ic_tenant_id identity) as -> by congruence.
  split; [done|]. by apply allowed_permitted.
Qed.

Lemma call_permitted policies limits w c :
  service_reachable clock port actions policies limits w → c ∈ w_log w →
  ∃ i tick identity, c ∈ [CallDryRun i; CallObserve i; CallExecute i; CallCompensate i] ∧
    permitted (current_policy tick) (clock tick) identity EFFECT_EXECUTE (ai_tenant_id i) "incident-response" RHigh.
Proof.
  intros [Hp [e Hs]] Hc. destruct (logged_call _ _ _ _ _ (w_log w) c Hs eq_refl Hc) as (o & w0 & H1 & Hok & H2 & Hcall).
  assert (service_reachable clock port actions policies limits w0) as Hr by (split; [done|by exists e]).
  destruct o, c as [i|i|i|i]; simpl in Hcall; try done;
    repeat match goal with H : _ ∧ _ |- _ => destruct H end;
    try match goal with H : sanctioned _ _ _ _ _ _ _ _ _ _ _ |- _ =>
      eapply sanctioned_permitted in H as [_ ?]; [|exact Hr];
      eexists i, _, _; split; [|eassumption]; rewrite !elem_of_cons; tauto end.
Qed.

(** Every call to the action provider, dry run, observation, execution or compensation,
    was made for a caller of the plan's own tenant whom the enterprise policy permitted, at
    the clock reading of that call, to execute effects at high risk. *)
Theorem provider_calls_are_permitted policies limits w c :
  service_reachable clock port actions policies limits w → c ∈ w_log w →
  ∃ i tick identity, c ∈ [CallDryRun i; CallObserve i; CallExecute i; CallCompensate i] ∧
    permitted (current_policy tick) (clock tick) identity EFFECT_EXECUTE (ai_tenant_id i) "incident-response" RHigh.
Proof. apply call_permitted. Qed.
End authority.

Section witnesses.
#[local] Existing Instances demo_digest demo_float.

Lemma provider_calls_are_permitted_witness :
  ∃ e, CallExecute e ∈ w_log (demo_executed demo_actions) ∧
  ∃ i tick identity, CallExecute e ∈ [CallDryRun i; CallObserve i; CallExecute i; CallCompensate i] ∧
    permitted demo_repository (demo_clock tick) identity EFFECT_EXECUTE (ai_tenant_id i) "incident-response" RHigh.
Proof.
  destruct demo_execute_logged as [e He]. exists e. split; [exact He|].
  refine (provider_calls_are_permitted demo_clock (λ _, demo_repository) demo_actions demo_policies demo_limits
    (demo_executed demo_actions) (CallExecute e) _ He).
  apply demo_executed_reached.
Defined.
End witnesses.

Section approvals.
Context {HDigest : Digest} {HFloat : FloatJson} {E : Type}.
Context (clock : nat → datetime) (authorize_port : PolicyPort) (actions : ActionPort E).

Abbreviation reached := (service_reachable clock authorize_port actions).
Abbreviation later := (service_steps clock authorize_port actions).

(** Commands of the remediation ledger are idempotent for good.  Once a command id is
    recorded for a plan, then, after any further calls, appending the same fact under it
    again returns the plan's current projection whatever version the caller expects, any
    other fact type, payload or plan under that id is an [IdempotencyConflict], and the
    ledger is unchanged either way. *)
Theorem remediation_commands_are_idempotent policies limits w w' t cmd p ft pl
    p' ver ft' actor at_ pl' :
  reached policies limits w → later w w' →
  _commands (w_ledger w) !! (t, cmd) = Some (p, command_fingerprint ft pl) →
  let again := ledger_append t p' ver ft' cmd actor at_ pl' (w_ledger w') in
  again.2 = w_ledger w' ∧
  ((p', command_fingerprint ft' pl') = (p, command_fingerprint ft pl) →
     ∃ pj, projection (w_ledger w') t p = Some pj ∧ again.1 = Ok pj) ∧
  ((p', command_fingerprint ft' pl') ≠ (p, command_fingerprint ft pl) →
     again.1 = Raise (Exn IdempotencyConflict "command id was replayed with different remediation input")).
Proof.
  intros Hr Hl Hc. apply reachable_world in Hr as (_ & Hinv & _).
  destruct (service_steps_moves clock authorize_port actions ledger_rel _ _ Hl Hinv) as [Hinv' [_ Hsub]].
  pose proof (lookup_weaken _ _ _ _ Hc Hsub) as Hc'.
  destruct (command_has_projection _ _ _ _ _ Hinv' Hc') as [pj Hpj].
  cbv zeta. unfold ledger_append, get, lift, mbind, M_bind. rewrite Hc'.
  destruct (decide ((p', command_fingerprint ft' pl') = (p, command_fingerprint ft pl))) as [Heq|Hne].
  - injection Heq as -> ->. rewrite bool_decide_eq_false_2 by (intros ?; done). simpl.
    unfold projection in Hpj. rewrite Hpj. simpl. split_and!; [done| |done]. intros _. by exists pj.
  - rewrite bool_decide_eq_true_2 by (intros ?; by apply Hne). simpl. by split_and!.
Qed.

(** ** Decisions *)

Lemma append_projection t p ver ft cmd actor at_ pl l pj l' :
  ledger_append t p ver ft cmd actor at_ pl l = (Ok pj, l') → projection l' t p = Some pj.
Proof.
  intros H. pose proof (ledger_append_run t p ver ft cmd actor at_ pl l) as Hrun. rewrite H in Hrun.
  destruct Hrun as [(_ & ? & ->)|(_ & _ & _ & _ & _ & ->)]; [done|].
  unfold projection, commit_fact. simpl. by rewrite lookup_insert_eq.
Qed.

Lemma on_ledger_ok {A} (m : M rledger A) (w : world E) a w1 :
  on_ledger m w = (Ok a, w1) → ∃ l, m (w_ledger w) = (Ok a, l) ∧ w1 = set_w_ledger l w.
Proof. apply zoom_ok. Qed.

Lemma on_store_ok {A} (m : M control_store A) (w : world E) a w1 :
  on_store m w = (Ok a, w1) → ∃ s, m (w_store w) = (Ok a, s) ∧ w1 = set_w_store s w.
Proof. apply zoom_ok. Qed.

(** With one decision per approver, the grants are as many as the granting approvers. *)
Lemma distinct_grants ds :
  NoDup (de_approver_ref <$> ds) → Z.of_nat (size (granting_approvers ds)) = grant_count ds.
Proof.
  intros Hnd. unfold granting_approvers, grant_count, zlen. rewrite size_list_to_set.
  - by rewrite length_fmap.
  - eapply sublist_NoDup; [exact Hnd|]. apply fmap_sublist, filter_sublist.
Qed.

(** The status a decision leads to *)
Definition decided_status (disposition : ApprovalDisposition) (quorum grants : Z) : RemediationStatus :=
  if decide (disposition = DENY) then RS_DENIED
  else if quorum <=? grants then RS_APPROVED else RS_APPROVAL_PENDING.

Lemma bound_projection_ok t p a (w : world E) pj w1 :
  bound_projection t p a w = (Ok pj, w1) →
  w1 = w ∧ projection (w_ledger w) t p = Some pj ∧ pj_approval_id pj = Some a.
Proof.
  unfold bound_projection, get, lift, mbind, M_bind, mret, M_ret, raise_if.
  destruct (projection _ _ _) as [p0|]; [|done]. case_bool_decide as H; [done|].
  by intros [= <- <-].
Qed.

(** What a decision that returns has done *)
Lemma decide_ok identity aid disp rat ver cmd pd ad (w : world E) v w' :
  decide_approval clock authorize_port identity aid disp rat ver cmd pd ad w = (Ok v, w') →
  let t := ic_tenant_id identity in
  ∃ approval plan before after,
    stored_approval (w_store w) t aid = Some approval ∧
    stored_plan (w_store w) t (ar_plan_id approval) = Some plan ∧
    projection (w_ledger w) t (rp_plan_id plan) = Some before ∧
    pj_status before = RS_APPROVAL_PENDING ∧ pj_version before = ver ∧
    projection (w_ledger w') (rp_tenant_id plan) (rp_plan_id plan) = Some after ∧
    av_approval v = approval ∧ av_status v = pj_status after ∧ av_version v = pj_version after ∧
    av_decisions v = decisions (w_store w') t aid ∧
    av_grants v = grant_count (av_decisions v) ∧
    av_status v = decided_status disp (aq_quorum (ar_requirement approval))
                    (Z.of_nat (size (granting_approvers (av_decisions v)))) ∧
    (∃ d, de_disposition d = disp ∧ de_approver_ref d = _actor_ref identity ∧
       de_tenant_id d = t ∧ de_approval_id d = aid ∧
       ∃ s, add_decision d (w_store w) = (Ok tt, s) ∧ w_store w' = s).
Proof.
  cbv zeta. unfold decide_approval. intros H. set (t := ic_tenant_id identity).
  inv_bind H u wa Ha. apply authorize_ok in Ha as [[k ->] _]. inv_lift H u1 Hh.
  inv_bind H approval wb Hap. apply require_approval_ok in Hap as [-> Happ].
  inv_bind H plan wc Hpl. apply require_plan_ok in Hpl as [-> Hplan].
  inv_bind H before wd Hb. apply bound_projection_ok in Hb as (-> & Hbefore & _).
  inv_lift H u2 Hver. inv_lift H u3 Hst. apply raise_if_ok in Hver, Hst. py_bool.
  inv_bind H policy we Hpo. apply require_action_policy_ok in Hpo as (-> & _ & _).
  inv_bind H at_ wf Hnow. unfold now in Hnow. injection Hnow as <- <-. cbv zeta in H.
  destruct (_ || _).
  { apply M_bind_ok in H as (? & ? & _ & H). done. }
  inv_lift H u4 H4. inv_lift H u5 H5. inv_lift H u6 H6.
  destruct (sorted_set _) as [|role roles]; [done|].
  inv_lift H u7 H7. inv_lift H d Hd. apply validated_ok in Hd as [-> _].
  inv_bind H u8 wg Hadd. apply on_store_ok in Hadd as (s & Hadd & ->).
  inv_bind H wh wi Hg. unfold get in Hg. injection Hg as <- <-.
  inv_bind H after wj Hap. apply on_ledger_ok in Hap as (l & Hl & ->). apply append_projection in Hl.
  inv_lift H u9 Hs. apply raise_if_ok in Hs. py_bool. unfold lift in H. injection H as H <-.
  apply validated_ok in H as [-> _]. simpl in *. destruct u8.
  exists approval, plan, before, after. split_and!; try done.
  - rewrite Hs. unfold decided_status. case_decide; [done|]. by destruct (_ <=? _).
  - eexists (approval_decision _ _ _ _ _ _ _ _ _ _). split_and!; try done. by exists s.
Qed.

(** A decision counts exactly.  When [decide] returns, the plan was pending approval at
    the version the caller expected; the decision of this approver is recorded, once; the
    view lists the recorded decisions, and its grant count is the number of distinct
    approvers who granted; the plan is denied after a denial, approved exactly when that
    number has reached the quorum, and otherwise still pending, in the view and in the
    ledger. *)
Theorem decision_counts_exactly policies limits w identity aid disp rat ver cmd pd ad v w' :
  reached policies limits w →
  decide_approval clock authorize_port identity aid disp rat ver cmd pd ad w = (Ok v, w') →
  let t := ic_tenant_id identity in
  ∃ approval before after,
    stored_approval (w_store w) t aid = Some approval ∧ av_approval v = approval ∧
    projection (w_ledger w) t (ar_plan_id approval) = Some before ∧
    pj_status before = RS_APPROVAL_PENDING ∧ pj_version before = ver ∧
    projection (w_ledger w') t (ar_plan_id approval) = Some after ∧
    pj_status after = av_status v ∧ pj_version after = av_version v ∧
    (av_decisions v = decisions (w_store w) t aid ∨
     ∃ d, av_decisions v = decisions (w_store w) t aid ++ [d] ∧ de_disposition d = disp ∧
       de_approver_ref d = _actor_ref identity) ∧
    av_decisions v = decisions (w_store w') t aid ∧ NoDup (de_approver_ref <$> av_decisions v) ∧
    av_grants v = Z.of_nat (size (granting_approvers (av_decisions v))) ∧
    av_status v = decided_status disp (aq_quorum (ar_requirement approval)) (av_grants v).
Proof.
  intros Hr Hd t. apply decide_ok in Hd as Hok.
  apply reachable_world in Hr as (Hsound & _ & _).
  destruct (store_rel_decide clock authorize_port identity aid disp rat ver cmd pd ad w Hsound) as [Hsound' _].
  rewrite Hd in Hsound'. simpl in Hsound'.
  destruct Hok as (approval & plan & before & after & Ha & Hp & Hb & Hst & Hv & Hq & Hva & Hvs & Hvv & Hvd & Hvg & Hout &
    d & Hd1 & Hd2 & Hd3 & Hd4 & s & Hs & Hws).
  apply (ss_plans _ Hsound) in Hp as (K1 & K2 & _). fold t in K1. rewrite K1 in Hq. rewrite K2 in Hb, Hq.
  pose proof (ss_distinct _ Hsound' t aid) as Hnd. fold t in Hvd. rewrite <-Hvd in Hnd.
  pose proof (distinct_grants _ Hnd) as Hg.
  exists approval, before, after. split_and!; try done; try congruence.
  rewrite Hvd, Hws. pose proof (add_decision_run d (w_store w)) as Hrun. rewrite Hs in Hrun.
  destruct Hrun as [->|(_ & Hds & _)]; [by left|right]. exists d.
  rewrite Hds, decide_True; [done|]. fold t in Hd3. congruence.
Qed.
End approvals.

Section witnesses.
#[local] Existing Instances demo_digest demo_float.

Definition demo_decided : res ApprovalView * world bool :=
  decide_approval demo_clock demo_port demo_approver demo_approval_id GRANT "restart is safe now" 4 "cmd-4"
    (rp_plan_digest demo_plan) (demo_approval_digest demo_actions) (demo_pending demo_actions).

Lemma decision_counts_exactly_witness :
  ∃ v w' quorum, demo_decided = (Ok v, w') ∧ av_status v = decided_status GRANT quorum (av_grants v).
Proof.
  destruct (ok_pair demo_decided) as (v & w' & H); [vm_compute; reflexivity|].
  destruct (decision_counts_exactly demo_clock demo_port demo_actions demo_policies demo_limits
    (demo_pending demo_actions) demo_approver demo_approval_id GRANT "restart is safe now" 4 "cmd-4"
    (rp_plan_digest demo_plan) (demo_approval_digest demo_actions) v w' (demo_pending_reached demo_actions) H)
    as (approval & _ & _ & _ & _ & _ & _ & _ & _ & _ & _ & _ & _ & _ & _ & Hout).
  exists v, w', (aq_quorum (ar_requirement approval)). split; [exact H|exact Hout].
Defined.

Lemma recorded_command (l : rledger) k c fp :
  bool_decide (_commands l !! k = Some (c, fp)) = true → _commands l !! k = Some (c, fp).
Proof. apply bool_decide_eq_true. Qed.

Lemma remediation_commands_are_idempotent_witness :
  let w := demo_pending demo_actions in
  (ledger_append "tenant-a" "plan-1" 7 FT_POLICY_DECIDED "cmd-1" "actor" 0 [] (w_ledger w)).1
  = Raise (Exn IdempotencyConflict "command id was replayed with different remediation input").
Proof.
  refine (proj2 (proj2 (remediation_commands_are_idempotent demo_clock demo_port demo_actions
    demo_policies demo_limits (demo_pending demo_actions) (demo_pending demo_actions) "tenant-a" "cmd-1" "plan-1"
    FT_PROPOSAL_RECORDED
    [("run_id", JStr "run-1"); ("plan_digest", JStr (rp_plan_digest demo_plan));
     ("fence_token", JStr (stable_id "effect-fence" ["tenant-a"; "plan-1"; rp_plan_digest demo_plan] 32))]
    "plan-1" 7 FT_POLICY_DECIDED "actor" 0 [] (demo_pending_reached demo_actions) _ _)) _).
  - apply service_refl.
  - apply recorded_command. vm_compute. reflexivity.
  - apply (bool_decide_eq_true _). vm_compute. reflexivity.
Defined.
End witnesses.
