(* ===== verification/RemediationTheorems.v ===== *)
(** * What the remediation services promise

    Safety of approvals and effects over every sequence of service calls, starting from an
    empty ledger and store with valid policies. *)

From S2P Require Import Prelude PyJson PyFloat PyTime PyModel PyDigest Domain Durability Authorization RemediationData RemediationStores RemediationServices RemediationFacts RemediationWorld RemediationSafety RemediationEffects Fixtures RemediationFixtures.

Section theorems.
Context {HDigest : Digest} {HFloat : FloatJson} {HLaws : FloatJsonLaws} {E : Type}.
Context (clock : nat → datetime) (authorize_port : PolicyPort) (actions : ActionPort E).

Abbreviation reached := (service_reachable clock authorize_port actions).
Abbreviation later := (service_steps clock authorize_port actions).

Lemma later_reached policies limits w w' : reached policies limits w → later w w' → reached policies limits w'.
Proof.
  intros [Hp [e Hs]] Hw. split; [done|]. exists e. induction Hs as [|w0 o w1 Hok _ IH]; [done|].
  eapply service_step; [exact Hok|by apply IH].
Qed.

(** A logged call and the method call that made it *)
Lemma reached_call policies limits w c :
  reached policies limits w → c ∈ w_log w →
  ∃ o w0, reached policies limits w0 ∧ later w0 w ∧ service_op_ok o ∧ service_call clock authorize_port o w0 c.
Proof.
  intros [Hp [e Hs]] Hc. destruct (logged_call _ _ _ _ _ (w_log w) c Hs eq_refl Hc) as (o & w0 & H1 & Hok & H2 & Hcall).
  exists o, w0. split_and!; [split; [done|by exists e]| |done|done]. by apply (service_step _ _ _ _ o).
Qed.

(** What one world before the call held when the provider was asked to execute [i] *)
Record execution_sanctioned (w : world E) (i : ActionIntent) (plan : RemediationPlan)
    (approval : ActionApprovalRequest) (policy : ActionPolicy) : Prop := {
  es_plan : stored_plan (w_store w) (ai_tenant_id i) (ai_plan_id i) = Some plan ∧
            rp_plan_digest plan = ai_plan_digest i ∧ ai_action i ∈ rp_actions plan;
  es_status : ∃ p, projection (w_ledger w) (ai_tenant_id i) (ai_plan_id i) = Some p ∧
            pj_status p ∈ [RS_PREFLIGHT; RS_EXECUTING; RS_SUCCEEDED] ∧
            pj_approval_digest p = Some (ai_approval_digest i) ∧ pj_fence_token p = ai_fence_token i;
  es_approval : stored_approval (w_store w) (ai_tenant_id i) (ar_approval_id approval) = Some approval ∧
            ar_canonical_digest approval = ai_approval_digest i ∧
            ar_plan_digest approval = ai_plan_digest i ∧ ar_policy_snapshot approval = snapshot policy;
  es_policy : policy_current (w_policies w) (ai_tenant_id i) = Some policy ∧
            ap_policy_digest policy = ai_policy_digest i ∧ rp_policy_snapshot plan = snapshot policy;
  es_undenied : Forall (λ d, de_disposition d ≠ DENY)
            (decisions (w_store w) (ai_tenant_id i) (ar_approval_id approval));
  es_quorum : aq_quorum (ar_requirement approval) <= Z.of_nat (size (current_grants plan approval policy
            (decisions (w_store w) (ai_tenant_id i) (ar_approval_id approval))));
  es_times : ∃ k, clock k < ar_expires_at approval ∧ clock (S k) < rp_expires_at plan ∧
            policy_denial policy (clock (S (S k))) plan true = None;
  es_unfinished : unfinished w (ai_tenant_id i) (ai_operation_id i)
}.

Lemma execute_sanctioned policies limits w i identity plan_id action_id op attempt :
  reached policies limits w →
  execute_call clock authorize_port identity plan_id action_id op attempt w (CallExecute i) →
  ∃ plan approval policy, execution_sanctioned w i plan approval policy.
Proof.
  intros Hr [(s & w1 & Hs & Hi) Hun]. apply reachable_world in Hr as (Hsound & _ & _).
  destruct Hs as [_ Hplan Hproj (aid & Haid & Happ) Hpol _ (D1 & D2 & D3 & D4) Hund Hquo Hst
    (k & po & T1 & T2 & Hpo & Hden) _ _].
  destruct Hi as [(I1 & I2 & _ & I4) [I5 _] I6 I7 (I8 & _ & _) I9].
  pose proof (ss_plans _ Hsound _ _ _ Hplan) as (K1 & K2 & _).
  pose proof (ss_approvals _ Hsound _ _ _ Happ) as [[_ K3] _ _].
  rewrite K1 in I1, Hpo. rewrite K2 in I2. assert (po = sc_policy s) as -> by congruence.
  exists (sc_plan s), (sc_approval s), (sc_policy s).
  split; rewrite ?I1, ?I2, ?I4, ?I6, ?I7, ?I8, ?I9; try done.
  - by exists (sc_projection s).
  - by rewrite K3.
  - by exists k.
  - by rewrite <-I1.
Qed.


(** Another document with the digest of this plan or of this approval request *)
Definition second_preimage (plan : RemediationPlan) (approval : ActionApprovalRequest) : Prop :=
  ∃ m, collides (document (plan_material plan)) (document m) ∨
       collides (document (approval_material approval)) (document m).

Lemma sanctioned_quorum policies limits w i plan approval policy :
  reached policies limits w → execution_sanctioned w i plan approval policy →
  second_preimage plan approval ∨
  1 <= aq_quorum (ar_requirement approval) ∧ (rp_risk plan = RHigh → 2 <= aq_quorum (ar_requirement approval)).
Proof.
  intros Hr Hs. apply reachable_world in Hr as (Hsound & _ & _).
  destruct Hs as [(Hp1 & Hp2 & _) _ (Ha1 & _ & Ha3 & _) _ _ _ _ _].
  pose proof (ss_plans _ Hsound _ _ _ Hp1) as (_ & _ & Hpok).
  pose proof (ss_approvals _ Hsound _ _ _ Ha1) as [_ _ (plan' & policy' & Hpok' & Hpol & Hd & _ & Hq & _)].
  destruct (plan_digest_binds plan plan' Hpok Hpok') as [Hc|[Hrisk _]]; [congruence| |].
  { left. exists (plan_material plan'). by left. }
  right. rewrite Hq. unfold required_quorum. rewrite <-Hrisk.
  unfold ActionPolicy_ok, in_range in Hpol. py_bool. case_decide; split; try done; lia.
Qed.

Lemma current_grants_voter plan approval policy ds v :
  v ∈ current_grants plan approval policy ds →
  ∃ d, d ∈ ds ∧ de_approver_ref d = v ∧ current_grant plan approval policy d = true.
Proof.
  unfold current_grants. rewrite elem_of_list_to_set, list_elem_of_fmap. intros (d & -> & Hd).
  apply list_elem_of_In, filter_In in Hd as [Hd Hg]. exists d. by rewrite list_elem_of_In.
Qed.

Lemma voter_is_not_proposer policies limits w plan approval policy t aid v :
  reached policies limits w →
  RemediationPlan_ok plan = true → ActionApprovalRequest_ok approval = true →
  v ∈ current_grants plan approval policy (decisions (w_store w) t aid) →
  second_preimage plan approval ∨
  ∃ identity, ic_principal_kind identity = PHuman ∧ v = _actor_ref identity ∧
    (∃ role, role ∈ ic_roles identity ∧ role ∈ aq_required_roles (ar_requirement approval)) ∧
    (aq_prohibit_self_approval (ar_requirement approval) = true → v ≠ rp_proposer_ref plan).
Proof.
  intros Hr Hpok Haok Hv. apply reachable_world in Hr as (Hsound & _ & _).
  apply current_grants_voter in Hv as (d & Hd & <- & Hg).
  apply (ss_decisions _ Hsound) in Hd as [_ (identity & a' & plan' & Hh & Hactor & Ha' & Hp' & D1 & D2 & R1 & R2 & Hself)].
  unfold current_grant in Hg. py_bool.
  destruct (plan_digest_binds plan plan' Hpok Hp') as [Hc|[_ Hprop]]; [congruence| |].
  { left. exists (plan_material plan'). by left. }
  destruct (approval_digest_binds approval a' Haok Ha') as [Hc|(_ & Hpro & Hroles)]; [congruence| |].
  { left. exists (approval_material a'). by right. }
  right. exists identity. split_and!; [done|done| |].
  - exists (de_approver_role d). by rewrite Hroles.
  - rewrite Hpro, Hprop. done.
Qed.


Lemma sanctioned_tenant policies limits w identity plan_id action_id op attempt allowed dry i :
  reached policies limits w →
  sanctioned clock authorize_port identity plan_id action_id op attempt allowed dry w i →
  ai_tenant_id i = ic_tenant_id identity ∧
  ∃ p, projection (w_ledger w) (ic_tenant_id identity) plan_id = Some p ∧ pj_status p ∈ allowed.
Proof.
  intros Hr (s & w1 & Hs & Hi). apply reachable_world in Hr as (Hsound & _ & _).
  destruct Hs as [_ Hplan Hproj _ _ _ _ _ _ Hst _ _ _]. destruct Hi as [(I1 & _) _ _ _ _ _].
  apply (ss_plans _ Hsound) in Hplan as (K1 & _). split; [congruence|by exists (sc_projection s)].
Qed.

(** C21: an effect runs at most once.  Once the claim of an operation holds its receipt, the
    claim never changes again, and no later [execute] of that operation calls the provider,
    whatever its other arguments. *)
Theorem effect_runs_at_most_once policies limits w w' c r identity plan_id action_id ver op attempt :
  reached policies limits w → later w w' →
  w_claims w !! (ic_tenant_id identity, op) = Some c → ec_receipt c = Some r →
  w_claims w' !! (ic_tenant_id identity, op) = Some c ∧
  w_log (execute clock authorize_port actions identity plan_id action_id ver op attempt w').2 = w_log w'.
Proof.
  intros Hr Hl Hc Hrc. pose proof (later_reached _ _ _ _ Hr Hl) as Hr'.
  destruct (service_steps_moves clock authorize_port actions claims_rel _ _ Hl _ _ Hc) as (c' & Hc' & [_ _ Hkeep]).
  rewrite (Hkeep _ Hrc) in Hc'. split; [done|].
  destruct (execute_calls clock authorize_port actions identity plan_id action_id op attempt ver w') as (calls & -> & Hall).
  destruct calls as [|x calls]; [by rewrite app_nil_r|]. exfalso.
  apply Forall_cons in Hall as [Hx _]. destruct x as [i|i|i|i]; simpl in Hx; try done;
    destruct Hx as [Hs Hun]; apply (sanctioned_tenant policies limits) in Hs as [Ht _]; try done;
    rewrite Ht in Hun; specialize (Hun _ Hc'); congruence.
Qed.

(** The effect quota is never overspent: the units reserved for a tenant, over any
    sequence of calls, add up with what remains to the limit it started with. *)
Theorem quota_is_never_overspent policies limits w t :
  reached policies limits w → 0 <= default 0 (limits !! t) →
  default 0 (_remaining (w_quota w) !! t) + spent t (w_quota w) = default 0 (limits !! t) ∧
  0 <= spent t (w_quota w) <= default 0 (limits !! t).
Proof.
  intros Hr Hl. apply reachable_world in Hr as (_ & _ & Hq). split; [apply Hq|by apply spent_bounded].
Qed.

(** The remediation ledger is sound after any sequence of calls: a plan has at most
    [_MAX_FACTS] facts, numbered and chained by digest; replaying them ([rebuild]) gives the
    stored projection, whose version is their number. *)
Theorem remediation_ledger_sound policies limits w t p :
  reached policies limits w →
  chained t p (facts (w_ledger w) t p) ∧ zlen (facts (w_ledger w) t p) <= _MAX_FACTS ∧
  (∀ pj, projection (w_ledger w) t p = Some pj →
     ledger_rebuild (w_ledger w) t p = Ok pj ∧ pj_version pj = zlen (facts (w_ledger w) t p)) ∧
  (projection (w_ledger w) t p = None → facts (w_ledger w) t p = []).
Proof.
  intros Hr. apply reachable_world in Hr as (_ & [Hrep Hb Hch _] & _).
  pose proof (replay_version _ _ (Hrep t p)) as Hv. split_and!; [done|done| |].
  - intros pj Hpj. rewrite Hpj in Hv. split; [|apply Hv]. unfold ledger_rebuild. by rewrite Hrep, Hpj.
  - intros Hn. by rewrite Hn in Hv.
Qed.

Lemma later_follows policies limits w w' t p pj :
  reached policies limits w → later w w' → projection (w_ledger w) t p = Some pj →
  ∃ pj', projection (w_ledger w') t p = Some pj' ∧ plan_follows pj pj'.
Proof.
  intros Hr Hl Hp. apply reachable_world in Hr as (_ & Hinv & _).
  destruct (service_steps_moves clock authorize_port actions ledger_rel _ _ Hl Hinv) as [Hinv' Hg].
  exact (grows_follows _ _ t p pj Hinv Hinv' Hg Hp).
Qed.

(** a plan only follows the remediation state machine: over any sequence of calls its
    status moves along [_validate_transition], its identity, digest and fence never change,
    its version never decreases, and a terminal plan is frozen. *)
Theorem plans_follow_state_machine policies limits w w' t p pj :
  reached policies limits w → later w w' → projection (w_ledger w) t p = Some pj →
  ∃ pj', projection (w_ledger w') t p = Some pj' ∧ plan_follows pj pj'.
Proof. apply later_follows. Qed.

Lemma blocked_operation policies limits w identity plan_id action_id allowed pj :
  reached policies limits w → projection (w_ledger w) (ic_tenant_id identity) plan_id = Some pj →
  pj_status pj ∉ allowed →
  is_ok (_validated_scope clock authorize_port identity plan_id action_id allowed w).1 = false ∧
  ∀ op attempt dry i, ¬ sanctioned clock authorize_port identity plan_id action_id op attempt allowed dry w i.
Proof.
  intros Hr Hp Hst. split.
  - destruct (_validated_scope _ _ _ _ _ _ w) as [[s|e] w1] eqn:Hs; [|done].
    apply validated_scope_ok in Hs as [_ _ Hproj _ _ _ _ _ _ Hs _ _ _]. congruence.
  - intros op attempt dry i Hs. eapply sanctioned_tenant in Hs as (_ & p & Hp' & Hin); [|done]. congruence.
Qed.

Lemma no_calls (P : provider_call → Prop) (w w' : world E) :
  log_rel P w w' → (∀ c, ¬ P c) → w_log w' = w_log w.
Proof.
  intros (calls & -> & Hall) Hn. destruct calls as [|x calls]; [by rewrite app_nil_r|].
  apply Forall_cons in Hall as [Hx _]. by destruct (Hn x).
Qed.

Lemma blocked_raises {A} (m : M (world E) scope) (k : scope → M (world E) A) w :
  is_ok (m w).1 = false → is_ok ((m ≫= k) w).1 = false.
Proof. unfold mbind, M_bind. by destruct (m w) as [[a|e] w1]. Qed.

Lemma nonterminal allowed :
  forallb (λ s, negb (terminal s)) allowed = true → ∀ s, s ∈ allowed → s ∉ terminal_statuses.
Proof.
  intros H s Hs. rewrite forallb_forall in H. apply list_elem_of_In in Hs. apply H in Hs.
  unfold terminal in Hs. py_bool. done.
Qed.

(** A denied, expired, revoked, cancelled, verified, rolled back or escalated plan stays
    inert: from then on [preflight], [execute] and [reconcile] of any of its actions raise
    and do not call the provider. *)
Theorem terminal_plans_are_inert policies limits w w' identity plan_id action_id ver op attempt pj :
  reached policies limits w → later w w' →
  projection (w_ledger w) (ic_tenant_id identity) plan_id = Some pj → terminal (pj_status pj) = true →
  let after m := is_ok (m w').1 = false ∧ w_log (m w').2 = w_log w' in
  after (preflight clock authorize_port actions identity plan_id action_id ver op attempt) ∧
  after (execute clock authorize_port actions identity plan_id action_id ver op attempt) ∧
  after (reconcile clock authorize_port actions identity plan_id action_id ver op attempt).
Proof.
  intros Hr Hl Hp Ht. pose proof (later_reached _ _ _ _ Hr Hl) as Hr'.
  destruct (later_follows _ _ _ _ _ _ _ Hr Hl Hp) as (pj' & Hp' & [_ _ _ Hfix]). rewrite (Hfix Ht) in Hp'.
  unfold terminal in Ht. apply bool_decide_eq_true in Ht.
  assert (∀ allowed, (∀ s, s ∈ allowed → s ∉ terminal_statuses) →
    is_ok (_validated_scope clock authorize_port identity plan_id action_id allowed w').1 = false ∧
    ∀ op attempt dry i, ¬ sanctioned clock authorize_port identity plan_id action_id op attempt allowed dry w' i) as Hb.
  { intros allowed Ha. apply (blocked_operation policies limits w' identity plan_id action_id allowed pj Hr' Hp').
    intros Hin. by apply (Ha _ Hin). }
  intros after. split_and!.
  - destruct (Hb [RS_APPROVED; RS_PREFLIGHT]) as [Hr1 Hc1]; [by apply nonterminal|].
    split; [by apply blocked_raises|]. eapply no_calls; [apply preflight_calls|].
    intros [i|i|i|i]; simpl; try tauto. apply Hc1.
  - destruct (Hb [RS_PREFLIGHT; RS_EXECUTING; RS_SUCCEEDED]) as [Hr1 Hc1]; [by apply nonterminal|].
    split; [by apply blocked_raises|]. eapply no_calls; [apply execute_calls|].
    intros [i|i|i|i]; simpl; try tauto; intros [? _]; by eapply Hc1.
  - destruct (Hb [RS_AMBIGUOUS; RS_RECONCILING; RS_SUCCEEDED]) as [Hr1 Hc1]; [by apply nonterminal|].
    split; [by apply blocked_raises|]. eapply no_calls; [apply reconcile_calls|].
    intros [i|i|i|i]; simpl; try tauto. apply Hc1.
Qed.

(** A plan that is rolling back cannot be driven on: every method of the effect service
    raises without a provider call, [rollback] included, so a rollback interrupted between
    its request and its result is never finished by the service. *)
Theorem interrupted_rollback_is_stuck policies limits w identity plan_id action_id ver op attempt receipt evidence pj :
  reached policies limits w → projection (w_ledger w) (ic_tenant_id identity) plan_id = Some pj →
  pj_status pj = RS_ROLLING_BACK →
  let stuck {A} (m : M (world E) A) := is_ok (m w).1 = false ∧ w_log (m w).2 = w_log w in
  stuck (preflight clock authorize_port actions identity plan_id action_id ver op attempt) ∧
  stuck (execute clock authorize_port actions identity plan_id action_id ver op attempt) ∧
  stuck (reconcile clock authorize_port actions identity plan_id action_id ver op attempt) ∧
  stuck (verify clock authorize_port actions identity plan_id action_id ver op receipt evidence attempt) ∧
  stuck (rollback clock authorize_port actions identity plan_id action_id ver op attempt).
Proof.
  intros Hr Hp Hst stuck.
  assert (∀ allowed, RS_ROLLING_BACK ∉ allowed →
    is_ok (_validated_scope clock authorize_port identity plan_id action_id allowed w).1 = false ∧
    ∀ op attempt dry i, ¬ sanctioned clock authorize_port identity plan_id action_id op attempt allowed dry w i) as Hb.
  { intros allowed Ha. apply (blocked_operation policies limits w identity plan_id action_id allowed pj Hr Hp).
    by rewrite Hst. }
  split_and!.
  - destruct (Hb [RS_APPROVED; RS_PREFLIGHT]) as [Hr1 Hc1]; [by apply (bool_decide_unpack _)|].
    split; [by apply blocked_raises|]. eapply no_calls; [apply preflight_calls|].
    intros [i|i|i|i]; simpl; try tauto. apply Hc1.
  - destruct (Hb [RS_PREFLIGHT; RS_EXECUTING; RS_SUCCEEDED]) as [Hr1 Hc1]; [by apply (bool_decide_unpack _)|].
    split; [by apply blocked_raises|]. eapply no_calls; [apply execute_calls|].
    intros [i|i|i|i]; simpl; try tauto; intros [? _]; by eapply Hc1.
  - destruct (Hb [RS_AMBIGUOUS; RS_RECONCILING; RS_SUCCEEDED]) as [Hr1 Hc1]; [by apply (bool_decide_unpack _)|].
    split; [by apply blocked_raises|]. eapply no_calls; [apply reconcile_calls|].
    intros [i|i|i|i]; simpl; try tauto. apply Hc1.
  - destruct (Hb [RS_SUCCEEDED; RS_VERIFIED; RS_VERIFICATION_FAILED]) as [Hr1 Hc1]; [by apply (bool_decide_unpack _)|].
    split; [by apply blocked_raises|]. eapply no_calls; [apply verify_calls|].
    intros [i|i|i|i]; simpl; try tauto. apply Hc1.
  - destruct (Hb [RS_FAILED; RS_SUCCEEDED; RS_VERIFICATION_FAILED; RS_ROLLED_BACK]) as [Hr1 Hc1]; [by apply (bool_decide_unpack _)|].
    split; [by apply blocked_raises|]. eapply no_calls; [apply rollback_calls|].
    intros [i|i|i|i]; simpl; try tauto. intros [? _]. by eapply Hc1.
Qed.

(** A fact of a fresh command that the state machine does not allow is refused. *)
Lemma illegal_fact plan ver ft cmd actor pl (w : world E) pj p w' :
  projection (w_ledger w) (rp_tenant_id plan) (rp_plan_id plan) = Some pj →
  _commands (w_ledger w) !! (rp_tenant_id plan, cmd) = None →
  status_by_fact ft ∉ allowed_transitions (pj_status pj) →
  record_fact clock plan ver ft cmd actor pl w = (Ok p, w') → False.
Proof.
  intros Hp Hc Hst H. unfold record_fact, now, mbind, M_bind, on_ledger, zoom in H. simpl in H.
  pose proof (ledger_append_run (rp_tenant_id plan) (rp_plan_id plan) ver ft cmd actor (clock (w_tick w)) pl (w_ledger w)) as Hrun.
  destruct (ledger_append _ _ _ _ _ _ _ _ _) as [[q|e] l]; [|done].
  destruct Hrun as [(Hk & _)|(_ & _ & _ & _ & Hred & _)]; [congruence|].
  unfold projection in Hp. rewrite Hp in Hred.
  apply reduce_some in Hred as (_ & _ & Hin & _ & Hs & _). unfold build_fact in Hs. simpl in Hs. by rewrite Hs in Hin.
Qed.

(** a plan executes one action only.  Once a plan has succeeded, [execute] of a new
    operation, for whichever of its actions, raises without calling the provider, although
    [RS_SUCCEEDED] is among the statuses it accepts and a plan may list eight actions. *)
Theorem succeeded_plan_executes_no_more policies limits w identity plan_id action_id ver op attempt pj :
  reached policies limits w → projection (w_ledger w) (ic_tenant_id identity) plan_id = Some pj →
  pj_status pj = RS_SUCCEEDED →
  _commands (w_ledger w) !! (ic_tenant_id identity, op +:+ ":intent") = None →
  let r := execute clock authorize_port actions identity plan_id action_id ver op attempt w in
  is_ok r.1 = false ∧ w_log r.2 = w_log w.
Proof.
  intros Hr Hp Hst Hcmd. apply reachable_world in Hr as (Hsound & _ & _). cbv zeta. unfold execute.
  destruct (_validated_scope clock authorize_port identity plan_id action_id
    [RS_PREFLIGHT; RS_EXECUTING; RS_SUCCEEDED] w) as [[s|e] w1] eqn:Hs.
  2: { pose proof (log_scope clock authorize_port (λ _, False) identity plan_id action_id [RS_PREFLIGHT; RS_EXECUTING; RS_SUCCEEDED] w) as Hlog.
       unfold wat in Hlog. rewrite Hs in Hlog. rewrite (M_bind_raises _ _ _ _ _ Hs). split; [done|].
       exact (no_calls (λ _, False) _ _ Hlog (λ _ H, H)). }
  apply validated_scope_ok in Hs as Hsf. rewrite (M_bind_returns _ _ _ _ _ Hs).
  destruct Hsf as [_ Hplan _ _ _ _ _ _ _ _ _ _ (k & q & ->)].
  apply (ss_plans _ Hsound) in Hplan as (K1 & K2 & _).
  destruct (_intent clock s action_id op attempt false (set_w_quota q (set_w_tick k w))) as [[i|e] w2] eqn:Hi.
  2: { pose proof (log_intent clock (λ _, False) s action_id op attempt false (set_w_quota q (set_w_tick k w))) as Hlog.
       unfold wat in Hlog. rewrite Hi in Hlog. rewrite (M_bind_raises _ _ _ _ _ Hi). split; [done|].
       exact (no_calls (λ _, False) _ _ Hlog (λ _ H, H)). }
  rewrite (M_bind_returns _ _ _ _ _ Hi). apply intent_ok in Hi as [_ ->]. cbv zeta.
  match goal with |- context [record_fact clock ?p ?v FT_EXECUTION_REQUESTED ?c ?a ?pl] =>
    set (ft := FT_EXECUTION_REQUESTED);
    set (wx := set_w_tick _ (set_w_quota q (set_w_tick k w)));
    destruct (record_fact clock p v ft c a pl wx) as [[rq|e] w3] eqn:Hrq;
    [exfalso; refine (illegal_fact p v ft c a pl wx pj rq w3 _ _ _ Hrq)|
     pose proof (log_record_fact clock (λ _, False) p v ft c a pl wx) as Hlog] end.
  - by rewrite K1, K2.
  - by rewrite K1.
  - rewrite Hst. by apply (bool_decide_unpack _).
  - unfold wat in Hlog. rewrite Hrq in Hlog. rewrite (M_bind_raises _ _ _ _ _ Hrq). split; [done|].
    exact (no_calls (λ _, False) _ _ Hlog (λ _ H, H)).
Qed.
End theorems.

(** ** Witnesses *)

Section witnesses.
#[local] Existing Instances demo_digest demo_float demo_float_laws.

(** A projection of the demo plan with a status that evaluates to [st] *)
Lemma demo_projection w st :
  demo_status w = Some st → ∃ pj, projection (w_ledger w) "tenant-a" "plan-1" = Some pj ∧ pj_status pj = st.
Proof.
  unfold demo_status. intros H. apply fmap_Some in H as (pj & Hp & ->). by exists pj.
Qed.

Lemma claim_done (claims : claims_table) k :
  bool_decide (is_Some (claims !! k ≫= ec_receipt)) = true →
  ∃ c r, claims !! k = Some c ∧ ec_receipt c = Some r.
Proof. intros [r (c & Hc & Hr)%bind_Some]%bool_decide_eq_true. by exists c, r. Qed.

Lemma demo_claim_done :
  ∃ c r, w_claims (demo_executed demo_actions) !! ("tenant-a", "op-2") = Some c ∧ ec_receipt c = Some r.
Proof. apply claim_done. vm_compute. reflexivity. Qed.



Lemma effect_runs_at_most_once_witness :
  w_log (execute demo_clock demo_port demo_actions demo_worker "plan-1" "restart-api" 9 "op-2" 2
           (demo_executed demo_actions)).2 = w_log (demo_executed demo_actions).
Proof.
  destruct demo_claim_done as (c & r & Hc & Hr).
  refine (proj2 (effect_runs_at_most_once demo_clock demo_port demo_actions demo_policies demo_limits
    (demo_executed demo_actions) (demo_executed demo_actions) c r demo_worker "plan-1" "restart-api" 9 "op-2" 2 _ _ Hc Hr)).
  - apply demo_executed_reached.
  - apply service_refl.
Defined.

Lemma quota_is_never_overspent_witness :
  default 0 (_remaining (w_quota (demo_executed demo_actions)) !! "tenant-a")
  + spent "tenant-a" (w_quota (demo_executed demo_actions)) = 3.
Proof.
  refine (proj1 (quota_is_never_overspent demo_clock demo_port demo_actions demo_policies demo_limits
    (demo_executed demo_actions) "tenant-a" _ _)).
  - apply demo_executed_reached.
  - vm_compute. discriminate.
Defined.

Lemma remediation_ledger_sound_witness :
  chained "tenant-a" "plan-1" (facts (w_ledger (demo_executed demo_actions)) "tenant-a" "plan-1").
Proof.
  refine (proj1 (remediation_ledger_sound demo_clock demo_port demo_actions demo_policies demo_limits
    (demo_executed demo_actions) "tenant-a" "plan-1" _)).
  apply demo_executed_reached.
Defined.

Lemma plans_follow_state_machine_witness :
  ∃ pj pj', projection (w_ledger (demo_approved demo_actions)) "tenant-a" "plan-1" = Some pj ∧
    projection (w_ledger (demo_preflighted demo_actions)) "tenant-a" "plan-1" = Some pj' ∧ plan_follows pj pj'.
Proof.
  destruct (demo_projection (demo_approved demo_actions) RS_APPROVED) as (pj & Hp & _);
    [vm_compute; reflexivity|].
  destruct (plans_follow_state_machine demo_clock demo_port demo_actions demo_policies demo_limits
    (demo_approved demo_actions) (demo_preflighted demo_actions) "tenant-a" "plan-1" pj
    (demo_approved_reached demo_actions) (demo_later demo_actions _
      (OpPreflight demo_worker "plan-1" "restart-api" 5 "op-1" 1) I) Hp) as (pj' & Hp' & Hf).
  exists pj, pj'. split; [exact Hp|]. split; [exact Hp'|exact Hf].
Defined.

Lemma terminal_plans_are_inert_witness :
  let w := demo_rolled_back demo_actions in
  w_log (execute demo_clock demo_port demo_actions demo_worker "plan-1" "restart-api" 12 "op-4" 1 w).2 = w_log w.
Proof.
  destruct (demo_projection (demo_rolled_back demo_actions) RS_ROLLED_BACK) as (pj & Hp & Hst);
    [vm_compute; reflexivity|].
  refine (proj2 (proj1 (proj2 (terminal_plans_are_inert demo_clock demo_port demo_actions demo_policies demo_limits
    (demo_rolled_back demo_actions) (demo_rolled_back demo_actions) demo_worker "plan-1" "restart-api" 12 "op-4" 1 pj _ _ Hp _)))).
  - apply demo_rolled_back_reached.
  - apply service_refl.
  - rewrite Hst. reflexivity.
Defined.

Lemma interrupted_rollback_is_stuck_witness :
  let w := demo_rolled_back demo_flaky in
  is_ok (rollback demo_clock demo_port demo_flaky demo_worker "plan-1" "restart-api" 10 "op-3" 2 w).1 = false.
Proof.
  destruct (demo_projection (demo_rolled_back demo_flaky) RS_ROLLING_BACK) as (pj & Hp & Hst);
    [vm_compute; reflexivity|].
  destruct (interrupted_rollback_is_stuck demo_clock demo_port demo_flaky demo_policies demo_limits
    (demo_rolled_back demo_flaky) demo_worker "plan-1" "restart-api" 10 "op-3" 2
    (Build_ActionReceipt "" "" "" "" "" "" 1 EO_SUCCEEDED None "" 0 "" "") [] pj
    (demo_rolled_back_reached demo_flaky) Hp Hst) as (_ & _ & _ & _ & H & _).
  exact H.
Defined.

Lemma succeeded_plan_executes_no_more_witness :
  let w := demo_executed demo_actions in
  is_ok (execute demo_clock demo_port demo_actions demo_worker "plan-1" "restart-api" 10 "op-5" 1 w).1 = false.
Proof.
  destruct (demo_projection (demo_executed demo_actions) RS_SUCCEEDED) as (pj & Hp & Hst);
    [vm_compute; reflexivity|].
  refine (proj1 (succeeded_plan_executes_no_more demo_clock demo_port demo_actions demo_policies demo_limits
    (demo_executed demo_actions) demo_worker "plan-1" "restart-api" 10 "op-5" 1 pj _ Hp Hst _)).
  - apply demo_executed_reached.
  - vm_compute. reflexivity.
Defined.

(** a successful dry run is not required to execute.  With a provider whose dry runs
    raise, the failed [preflight] has already put the plan in [RS_PREFLIGHT], and [execute]
    then runs the action and succeeds although no dry run of the plan ever succeeded. *)
Theorem execute_without_dry_run :
  demo_status (demo_executed demo_flaky) = Some RS_SUCCEEDED ∧
  demo_calls (demo_executed demo_flaky) = ["dry_run:op-1"; "observe:op-2"; "execute:op-2"] ∧
  forallb (λ f, negb (bool_decide (rf_fact_type f = FT_DRY_RUN_SUCCEEDED)))
    (facts (w_ledger (demo_executed demo_flaky)) "tenant-a" "plan-1") = true.
Proof. vm_compute. repeat split. Qed.
End witnesses.
