(* ===== verification/Evidence.v ===== *)
(** * Evidence contracts ([evidence.py], and [Evidence] of [domain.py])

    Sources, queries, pages, provenance, normalised evidence and the bundle that cites it,
    with their canonical digests. *)

From S2P Require Import Prelude PyJson PyFloat PyTime PyModel PyText Domain.

(** ** Enumerations *)

Inductive EvidenceSourceKind :=
  | ESK_DYNATRACE | ESK_GITHUB | ESK_KUBERNETES | ESK_RUNBOOK.
#[export] Instance EvidenceSourceKind_eq_dec : EqDecision EvidenceSourceKind.
Proof. solve_decision. Defined.

Definition source_kind_value (x : EvidenceSourceKind) : string :=
  match x with
  | ESK_DYNATRACE => "dynatrace" | ESK_GITHUB => "github" | ESK_KUBERNETES => "kubernetes"
  | ESK_RUNBOOK => "runbook"
  end.

Inductive SourceTrust :=
  | ST_EXTERNAL_UNTRUSTED | ST_PLATFORM_CONTROL_PLANE | ST_OPERATOR_APPROVED.
#[export] Instance SourceTrust_eq_dec : EqDecision SourceTrust.
Proof. solve_decision. Defined.

Definition trust_value (x : SourceTrust) : string :=
  match x with
  | ST_EXTERNAL_UNTRUSTED => "external_untrusted"
  | ST_PLATFORM_CONTROL_PLANE => "platform_control_plane"
  | ST_OPERATOR_APPROVED => "operator_approved"
  end.

Inductive DataClassification :=
  | DC_PUBLIC | DC_INTERNAL | DC_CONFIDENTIAL | DC_RESTRICTED.
#[export] Instance DataClassification_eq_dec : EqDecision DataClassification.
Proof. solve_decision. Defined.

Definition classification_value (x : DataClassification) : string :=
  match x with
  | DC_PUBLIC => "public" | DC_INTERNAL => "internal" | DC_CONFIDENTIAL => "confidential"
  | DC_RESTRICTED => "restricted"
  end.

Inductive EvidenceDisposition :=
  | ED_ACCEPTED | ED_REDACTED | ED_QUARANTINED | ED_DUPLICATE.
#[export] Instance EvidenceDisposition_eq_dec : EqDecision EvidenceDisposition.
Proof. solve_decision. Defined.

Definition evidence_disposition_value (x : EvidenceDisposition) : string :=
  match x with
  | ED_ACCEPTED => "accepted" | ED_REDACTED => "redacted" | ED_QUARANTINED => "quarantined"
  | ED_DUPLICATE => "duplicate"
  end.

Inductive QuarantineReason :=
  | QR_ACTIVE_CONTENT | QR_ARCHIVE_BOUNDS | QR_CLASSIFICATION | QR_CONTENT_TYPE | QR_MALFORMED
  | QR_PROMPT_INJECTION | QR_SCANNER_REJECTED | QR_SECRET | QR_SIZE.
#[export] Instance QuarantineReason_eq_dec : EqDecision QuarantineReason.
Proof. solve_decision. Defined.

Definition quarantine_value (x : QuarantineReason) : string :=
  match x with
  | QR_ACTIVE_CONTENT => "active_content" | QR_ARCHIVE_BOUNDS => "archive_bounds"
  | QR_CLASSIFICATION => "classification" | QR_CONTENT_TYPE => "content_type"
  | QR_MALFORMED => "malformed" | QR_PROMPT_INJECTION => "prompt_injection"
  | QR_SCANNER_REJECTED => "scanner_rejected" | QR_SECRET => "secret" | QR_SIZE => "size"
  end.

Inductive EvidenceKind :=
  | EK_TELEMETRY | EK_CHANGE | EK_RUNBOOK.
#[export] Instance EvidenceKind_eq_dec : EqDecision EvidenceKind.
Proof. solve_decision. Defined.

Definition evidence_kind_value (x : EvidenceKind) : string :=
  match x with
  | EK_TELEMETRY => "telemetry" | EK_CHANGE => "change" | EK_RUNBOOK => "runbook"
  end.

(** ** Records *)

Record EvidenceBounds := {
  eb_maximum_pages : Z;
  eb_maximum_records : Z;
  eb_maximum_page_bytes : Z;
  eb_maximum_total_bytes : Z;
  eb_request_timeout_seconds : float
}.

Record EvidenceSource := {
  es_tenant_id : string;
  es_source_id : string;
  es_kind : EvidenceSourceKind;
  es_trust : SourceTrust;
  es_classification : DataClassification;
  es_region : string;
  es_credential_ref : option string;
  es_credential_version : option Z;
  es_policy_revision : Z;
  es_allowed_resources : list string;
  es_enabled : bool
}.

Record EvidenceTimeRange := {
  tr_start : datetime;
  tr_end_ : datetime
}.

Record EvidenceQuery := {
  eq_query_id : string;
  eq_tenant_id : string;
  eq_incident_id : string;
  eq_run_id : string;
  eq_source : EvidenceSource;
  eq_window : EvidenceTimeRange;
  eq_resource : string;
  eq_parameters : payload;
  eq_bounds : EvidenceBounds;
  eq_created_at : datetime
}.

Record EvidenceCursor := {
  ec_tenant_id : string;
  ec_incident_id : string;
  ec_query_id : string;
  ec_source_id : string;
  ec_page_number : Z;
  ec_cursor_ref : string;
  ec_cursor_digest : string;
  ec_created_at : datetime;
  ec_expires_at : datetime
}.

Record ConnectorRecord := {
  cr_record_id : string;
  cr_locator : string;
  cr_observed_at : datetime;
  cr_content_type : string;
  cr_payload : string;
  cr_source_version : option string;
  cr_etag : option string
}.

Record ConnectorPage := {
  cp_query_id : string;
  cp_source_id : string;
  cp_page_number : Z;
  cp_records : list ConnectorRecord;
  cp_next_cursor : option string;
  cp_response_bytes : Z;
  cp_rate_limit_remaining : option Z;
  cp_retrieved_at : datetime
}.

Record ScannerFinding := {
  sf_scanner : string;
  sf_rule_id : string;
  sf_severity : string;
  sf_count : Z
}.

Record EvidenceProvenance := {
  ep_tenant_id : string;
  ep_incident_id : string;
  ep_run_id : string;
  ep_source_id : string;
  ep_source_kind : EvidenceSourceKind;
  ep_source_trust : SourceTrust;
  ep_source_digest : string;
  ep_query_id : string;
  ep_query_digest : string;
  ep_page_number : Z;
  ep_locator : string;
  ep_observed_at : datetime;
  ep_retrieved_at : datetime;
  ep_credential_version : option Z;
  ep_policy_revision : Z;
  ep_classification : DataClassification;
  ep_retention_ref : string;
  ep_raw_content_hash : string
}.

Record NormalizedEvidence := {
  ne_evidence_id : string;
  ne_tenant_id : string;
  ne_incident_id : string;
  ne_kind : EvidenceSourceKind;
  ne_summary : string;
  ne_facts : payload;
  ne_canonical_text : string;
  ne_content_hash : string;
  ne_provenance : EvidenceProvenance;
  ne_disposition : EvidenceDisposition;
  ne_redaction_count : Z;
  ne_scanner_findings : list ScannerFinding;
  ne_quarantine_reason : option QuarantineReason;
  ne_duplicate_of : option string
}.

Record EvidenceCitation := {
  ect_evidence_id : string;
  ect_locator : string;
  ect_content_hash : string;
  ect_provenance_digest : string;
  ect_source_id : string;
  ect_query_id : string;
  ect_page_number : Z
}.

Record EvidenceBundle := {
  bu_bundle_id : string;
  bu_tenant_id : string;
  bu_incident_id : string;
  bu_run_id : string;
  bu_query_ids : list string;
  bu_evidence : list NormalizedEvidence;
  bu_citations : list EvidenceCitation;
  bu_source_kinds : list EvidenceSourceKind;
  bu_created_at : datetime;
  bu_bundle_digest : string
}.

Record Evidence := {
  ev_evidence_id : string;
  ev_tenant_id : string;
  ev_kind : EvidenceKind;
  ev_source : string;
  ev_locator : string;
  ev_observed_at : datetime;
  ev_summary : string;
  ev_facts : payload;
  ev_content_hash : string;
  ev_untrusted_text : option string;
  ev_provenance_digest : option string;
  ev_source_id : option string;
  ev_query_id : option string;
  ev_page_number : option Z
}.

#[export] Instance EvidenceProvenance_eq_dec : EqDecision EvidenceProvenance.
Proof. solve_decision. Defined.
#[export] Instance ScannerFinding_eq_dec : EqDecision ScannerFinding.
Proof. solve_decision. Defined.
#[export] Instance NormalizedEvidence_eq_dec : EqDecision NormalizedEvidence.
Proof. solve_decision. Defined.
#[export] Instance EvidenceCitation_eq_dec : EqDecision EvidenceCitation.
Proof. solve_decision. Defined.

(** ** Documents and validators *)

Section evidence.
Context {HDigest : Digest} {HFloat : FloatJson}.

Definition EvidenceBounds_material (x : EvidenceBounds) : payload :=
  [("maximum_pages", JInt (eb_maximum_pages x)); ("maximum_records", JInt (eb_maximum_records x));
   ("maximum_page_bytes", JInt (eb_maximum_page_bytes x));
   ("maximum_total_bytes", JInt (eb_maximum_total_bytes x));
   ("request_timeout_seconds", float_json (eb_request_timeout_seconds x))].
Definition bounds_json (x : EvidenceBounds) : json := JObj (EvidenceBounds_material x).
Definition EvidenceBounds_fields (x : EvidenceBounds) : bool :=
  in_range 1 100 (eb_maximum_pages x) && in_range 1 10000 (eb_maximum_records x)
  && in_range 1024 8388608 (eb_maximum_page_bytes x)
  && in_range 1024 67108864 (eb_maximum_total_bytes x)
  && float_range f_one (float_of_int 120) (eb_request_timeout_seconds x).

(** [total_covers_page] included *)
Definition EvidenceBounds_ok (b : EvidenceBounds) : bool :=
  EvidenceBounds_fields b && (eb_maximum_page_bytes b <=? eb_maximum_total_bytes b).

Definition EvidenceSource_material (x : EvidenceSource) : payload :=
  [("schema_version", JInt 1); ("tenant_id", JStr (es_tenant_id x));
   ("source_id", JStr (es_source_id x)); ("kind", JStr (source_kind_value (es_kind x)));
   ("trust", JStr (trust_value (es_trust x)));
   ("classification", JStr (classification_value (es_classification x)));
   ("region", JStr (es_region x)); ("credential_ref", opt_json (es_credential_ref x));
   ("credential_version", opt_int_json (es_credential_version x));
   ("policy_revision", JInt (es_policy_revision x));
   ("allowed_resources", strings_json (es_allowed_resources x));
   ("enabled", JBool (es_enabled x))].
Definition source_json (x : EvidenceSource) : json := JObj (EvidenceSource_material x).
Definition EvidenceSource_fields (x : EvidenceSource) : bool :=
  Identifier (es_tenant_id x) && Identifier (es_source_id x) && Identifier (es_region x)
  && opt_Identifier (es_credential_ref x) && opt_ok (λ x, (1 <=? x)) (es_credential_version x)
  && (1 <=? es_policy_revision x) && count_range 1 64 (es_allowed_resources x).

(** [normalize_resources] and [bind_credential_version] *)
Definition EvidenceSource_ok (s : EvidenceSource) : bool :=
  EvidenceSource_fields s && forallb (length_between 1 512) (es_allowed_resources s)
  && bool_decide (is_Some (es_credential_ref s) ↔ is_Some (es_credential_version s)).

Definition new_EvidenceSource (s : EvidenceSource) : res EvidenceSource :=
  raise_if (negb (EvidenceSource_ok s)) ValidationError "EvidenceSource";;
  Ok {| es_tenant_id := es_tenant_id s; es_source_id := es_source_id s; es_kind := es_kind s;
        es_trust := es_trust s; es_classification := es_classification s; es_region := es_region s;
        es_credential_ref := es_credential_ref s; es_credential_version := es_credential_version s;
        es_policy_revision := es_policy_revision s;
        es_allowed_resources := sorted_set (es_allowed_resources s); es_enabled := es_enabled s |}.

(** [EvidenceSource.digest] *)
Definition source_digest (s : EvidenceSource) : string := json_digest (source_json s).

Definition EvidenceTimeRange_material (x : EvidenceTimeRange) : payload :=
  [("start", JStr (iso_z (tr_start x))); ("end", JStr (iso_z (tr_end_ x)))].
Definition window_json (x : EvidenceTimeRange) : json := JObj (EvidenceTimeRange_material x).

Definition _MAX_QUERY_WINDOW : Z := 7 * us_per_day.

(** [validate_range] *)
Definition EvidenceTimeRange_ok (w : EvidenceTimeRange) : bool :=
  (tr_start w <? tr_end_ w) && (tr_end_ w - tr_start w <=? _MAX_QUERY_WINDOW).

Definition EvidenceQuery_material (x : EvidenceQuery) : payload :=
  [("schema_version", JInt 1); ("query_id", JStr (eq_query_id x));
   ("tenant_id", JStr (eq_tenant_id x)); ("incident_id", JStr (eq_incident_id x));
   ("run_id", JStr (eq_run_id x)); ("source", source_json (eq_source x));
   ("window", window_json (eq_window x)); ("resource", JStr (eq_resource x));
   ("parameters", JObj (eq_parameters x)); ("bounds", bounds_json (eq_bounds x));
   ("created_at", JStr (iso_z (eq_created_at x)))].
Definition EvidenceQuery_fields (x : EvidenceQuery) : bool :=
  Identifier (eq_query_id x) && Identifier (eq_tenant_id x) && Identifier (eq_incident_id x)
  && Identifier (eq_run_id x) && EvidenceSource_ok (eq_source x)
  && EvidenceTimeRange_ok (eq_window x) && length_between 1 512 (eq_resource x)
  && (zlen (eq_parameters x) <=? 32) && EvidenceBounds_ok (eq_bounds x).

(** [bound_parameters] and [bind_source] *)
Definition EvidenceQuery_ok (q : EvidenceQuery) : bool :=
  EvidenceQuery_fields q && (str_len (canonical_json (JObj (eq_parameters q))) <=? 16384)
  && bool_decide (es_tenant_id (eq_source q) = eq_tenant_id q)
  && bool_decide (eq_resource q ∈ es_allowed_resources (eq_source q)).

Definition new_EvidenceQuery (q : EvidenceQuery) : res EvidenceQuery :=
  raise_if (negb (EvidenceQuery_ok q)) ValidationError "EvidenceQuery";;
  Ok {| eq_query_id := eq_query_id q; eq_tenant_id := eq_tenant_id q;
        eq_incident_id := eq_incident_id q; eq_run_id := eq_run_id q; eq_source := eq_source q;
        eq_window := eq_window q; eq_resource := eq_resource q;
        eq_parameters := py_sorted key_leb (eq_parameters q); eq_bounds := eq_bounds q;
        eq_created_at := eq_created_at q |}.

(** [EvidenceQuery.digest] *)
Definition query_digest (q : EvidenceQuery) : string := json_digest (JObj (EvidenceQuery_material q)).

Definition EvidenceCursor_material (x : EvidenceCursor) : payload :=
  [("schema_version", JInt 1); ("tenant_id", JStr (ec_tenant_id x));
   ("incident_id", JStr (ec_incident_id x)); ("query_id", JStr (ec_query_id x));
   ("source_id", JStr (ec_source_id x)); ("page_number", JInt (ec_page_number x));
   ("cursor_ref", JStr (ec_cursor_ref x)); ("cursor_digest", JStr (ec_cursor_digest x));
   ("created_at", JStr (iso_z (ec_created_at x))); ("expires_at", JStr (iso_z (ec_expires_at x)))].
Definition EvidenceCursor_fields (x : EvidenceCursor) : bool :=
  Identifier (ec_tenant_id x) && Identifier (ec_incident_id x) && Identifier (ec_query_id x)
  && Identifier (ec_source_id x) && in_range 1 100 (ec_page_number x)
  && Identifier (ec_cursor_ref x) && is_sha256_hex (ec_cursor_digest x).

(** [validate_expiry] *)
Definition EvidenceCursor_ok (c : EvidenceCursor) : bool :=
  EvidenceCursor_fields c && (ec_created_at c <? ec_expires_at c).

Definition ConnectorRecord_fields (x : ConnectorRecord) : bool :=
  Identifier (cr_record_id x) && length_between 1 1024 (cr_locator x)
  && length_between 3 128 (cr_content_type x) && length_between 1 2097152 (cr_payload x)
  && opt_ok (λ x, length_between 0 128 x) (cr_source_version x)
  && opt_ok (λ x, length_between 0 256 x) (cr_etag x).
Definition ConnectorPage_fields (x : ConnectorPage) : bool :=
  Identifier (cp_query_id x) && Identifier (cp_source_id x) && in_range 1 100 (cp_page_number x)
  && count_range 0 1000 (cp_records x) && forallb ConnectorRecord_fields (cp_records x)
  && opt_ok (λ x, length_between 0 4096 x) (cp_next_cursor x)
  && in_range 0 8388608 (cp_response_bytes x)
  && opt_ok (λ x, (0 <=? x)) (cp_rate_limit_remaining x).

(** [validate_response_size] *)
Definition ConnectorPage_ok (p : ConnectorPage) : bool :=
  ConnectorPage_fields p
  && (foldr Z.add 0 (str_len ∘ cr_payload <$> cp_records p) <=? cp_response_bytes p).

Definition ScannerFinding_material (x : ScannerFinding) : payload :=
  [("scanner", JStr (sf_scanner x)); ("rule_id", JStr (sf_rule_id x));
   ("severity", JStr (sf_severity x)); ("count", JInt (sf_count x))].
Definition finding_json (x : ScannerFinding) : json := JObj (ScannerFinding_material x).
Definition ScannerFinding_fields (x : ScannerFinding) : bool :=
  Identifier (sf_scanner x) && Identifier (sf_rule_id x) && in_range 1 10000 (sf_count x).

Definition ScannerFinding_ok (f : ScannerFinding) : bool :=
  ScannerFinding_fields f && bool_decide (sf_severity f ∈ ["info"; "warning"; "blocking"]).

Definition EvidenceProvenance_material (x : EvidenceProvenance) : payload :=
  [("schema_version", JInt 1); ("tenant_id", JStr (ep_tenant_id x));
   ("incident_id", JStr (ep_incident_id x)); ("run_id", JStr (ep_run_id x));
   ("source_id", JStr (ep_source_id x));
   ("source_kind", JStr (source_kind_value (ep_source_kind x)));
   ("source_trust", JStr (trust_value (ep_source_trust x)));
   ("source_digest", JStr (ep_source_digest x)); ("query_id", JStr (ep_query_id x));
   ("query_digest", JStr (ep_query_digest x)); ("page_number", JInt (ep_page_number x));
   ("locator", JStr (ep_locator x)); ("observed_at", JStr (iso_z (ep_observed_at x)));
   ("retrieved_at", JStr (iso_z (ep_retrieved_at x)));
   ("credential_version", opt_int_json (ep_credential_version x));
   ("policy_revision", JInt (ep_policy_revision x));
   ("classification", JStr (classification_value (ep_classification x)));
   ("retention_ref", JStr (ep_retention_ref x));
   ("raw_content_hash", JStr (ep_raw_content_hash x))].
Definition provenance_json (x : EvidenceProvenance) : json := JObj (EvidenceProvenance_material x).
Definition EvidenceProvenance_fields (x : EvidenceProvenance) : bool :=
  Identifier (ep_tenant_id x) && Identifier (ep_incident_id x) && Identifier (ep_run_id x)
  && Identifier (ep_source_id x) && is_sha256_hex (ep_source_digest x)
  && Identifier (ep_query_id x) && is_sha256_hex (ep_query_digest x)
  && in_range 1 100 (ep_page_number x) && length_between 1 1024 (ep_locator x)
  && opt_ok (λ x, (1 <=? x)) (ep_credential_version x) && (1 <=? ep_policy_revision x)
  && Identifier (ep_retention_ref x) && is_sha256_hex (ep_raw_content_hash x).

(** [EvidenceProvenance.digest] *)
Definition provenance_digest (p : EvidenceProvenance) : string := json_digest (provenance_json p).

Definition NormalizedEvidence_material (x : NormalizedEvidence) : payload :=
  [("schema_version", JInt 1); ("evidence_id", JStr (ne_evidence_id x));
   ("tenant_id", JStr (ne_tenant_id x)); ("incident_id", JStr (ne_incident_id x));
   ("kind", JStr (source_kind_value (ne_kind x))); ("summary", JStr (ne_summary x));
   ("facts", JObj (ne_facts x)); ("canonical_text", JStr (ne_canonical_text x));
   ("content_hash", JStr (ne_content_hash x)); ("provenance", provenance_json (ne_provenance x));
   ("disposition", JStr (evidence_disposition_value (ne_disposition x)));
   ("redaction_count", JInt (ne_redaction_count x));
   ("scanner_findings", JList (finding_json <$> ne_scanner_findings x));
   ("quarantine_reason", opt_json (quarantine_value <$> ne_quarantine_reason x));
   ("duplicate_of", opt_json (ne_duplicate_of x))].
Definition evidence_json (x : NormalizedEvidence) : json := JObj (NormalizedEvidence_material x).
Definition NormalizedEvidence_fields (x : NormalizedEvidence) : bool :=
  Identifier (ne_evidence_id x) && Identifier (ne_tenant_id x) && Identifier (ne_incident_id x)
  && length_between 1 512 (ne_summary x) && (zlen (ne_facts x) <=? 64)
  && length_between 0 65536 (ne_canonical_text x) && is_sha256_hex (ne_content_hash x)
  && EvidenceProvenance_fields (ne_provenance x) && in_range 0 10000 (ne_redaction_count x)
  && count_range 0 64 (ne_scanner_findings x) && forallb ScannerFinding_ok (ne_scanner_findings x)
  && opt_Identifier (ne_duplicate_of x).

(** The dispositions whose evidence may be used *)
Definition usable (d : EvidenceDisposition) : bool := bool_decide (d ∈ [ED_ACCEPTED; ED_REDACTED]).

(** [normalize_facts] and [validate_disposition]; the text is UTF-8 encoded for its hash *)
Definition NormalizedEvidence_ok (e : NormalizedEvidence) : bool :=
  NormalizedEvidence_fields e && (str_len (canonical_json (JObj (ne_facts e))) <=? 16384)
  && bool_decide (hexdigest (utf8 (ne_canonical_text e)) = ne_content_hash e)
  && bool_decide (ep_tenant_id (ne_provenance e) = ne_tenant_id e)
  && bool_decide (ep_incident_id (ne_provenance e) = ne_incident_id e)
  && bool_decide (ne_disposition e = ED_QUARANTINED ↔ is_Some (ne_quarantine_reason e))
  && bool_decide (ne_disposition e = ED_DUPLICATE ↔ is_Some (ne_duplicate_of e)).

Definition new_NormalizedEvidence (e : NormalizedEvidence) : res NormalizedEvidence :=
  raise_if (negb (NormalizedEvidence_ok e)) ValidationError "NormalizedEvidence";;
  Ok {| ne_evidence_id := ne_evidence_id e; ne_tenant_id := ne_tenant_id e;
        ne_incident_id := ne_incident_id e; ne_kind := ne_kind e; ne_summary := ne_summary e;
        ne_facts := py_sorted key_leb (ne_facts e); ne_canonical_text := ne_canonical_text e;
        ne_content_hash := ne_content_hash e; ne_provenance := ne_provenance e;
        ne_disposition := ne_disposition e; ne_redaction_count := ne_redaction_count e;
        ne_scanner_findings := ne_scanner_findings e; ne_quarantine_reason := ne_quarantine_reason e;
        ne_duplicate_of := ne_duplicate_of e |}.

Definition EvidenceCitation_material (x : EvidenceCitation) : payload :=
  [("evidence_id", JStr (ect_evidence_id x)); ("locator", JStr (ect_locator x));
   ("content_hash", JStr (ect_content_hash x));
   ("provenance_digest", JStr (ect_provenance_digest x)); ("source_id", JStr (ect_source_id x));
   ("query_id", JStr (ect_query_id x)); ("page_number", JInt (ect_page_number x))].
Definition evidence_citation_json (x : EvidenceCitation) : json := JObj (EvidenceCitation_material x).
Definition EvidenceCitation_fields (x : EvidenceCitation) : bool :=
  Identifier (ect_evidence_id x) && length_between 1 1024 (ect_locator x)
  && is_sha256_hex (ect_content_hash x) && is_sha256_hex (ect_provenance_digest x)
  && Identifier (ect_source_id x) && Identifier (ect_query_id x)
  && in_range 1 100 (ect_page_number x).

Definition EvidenceBundle_material (x : EvidenceBundle) : payload :=
  [("schema_version", JInt 1); ("bundle_id", JStr (bu_bundle_id x));
   ("tenant_id", JStr (bu_tenant_id x)); ("incident_id", JStr (bu_incident_id x));
   ("run_id", JStr (bu_run_id x)); ("query_ids", strings_json (bu_query_ids x));
   ("evidence", JList (evidence_json <$> bu_evidence x));
   ("citations", JList (evidence_citation_json <$> bu_citations x));
   ("source_kinds", strings_json (source_kind_value <$> bu_source_kinds x));
   ("created_at", JStr (iso_z (bu_created_at x)))].
Definition EvidenceBundle_fields (x : EvidenceBundle) : bool :=
  Identifier (bu_bundle_id x) && Identifier (bu_tenant_id x) && Identifier (bu_incident_id x)
  && Identifier (bu_run_id x)
  && count_range 1 64 (bu_query_ids x) && forallb Identifier (bu_query_ids x)
  && count_range 0 10000 (bu_evidence x) && forallb NormalizedEvidence_ok (bu_evidence x)
  && count_range 0 10000 (bu_citations x) && forallb EvidenceCitation_fields (bu_citations x)
  && count_range 0 16 (bu_source_kinds x) && is_sha256_hex (bu_bundle_digest x).

(** ** Bundles *)

Definition by_evidence_id (a b : NormalizedEvidence) : bool :=
  str_leb (ne_evidence_id a) (ne_evidence_id b).
Definition by_citation_id (a b : EvidenceCitation) : bool :=
  str_leb (ect_evidence_id a) (ect_evidence_id b).

(** [{item.evidence_id: item for item in evidence if ...}]: a later item replaces an earlier *)
Definition accepted_by_id (evidence : list NormalizedEvidence) : list (string * NormalizedEvidence) :=
  dict_update [] ((λ e, (ne_evidence_id e, e)) <$> List.filter (usable ∘ ne_disposition) evidence).

Definition citation_bound (accepted : list (string * NormalizedEvidence)) (c : EvidenceCitation) : bool :=
  match dict_get (ect_evidence_id c) accepted with
  | None => false
  | Some item =>
      bool_decide (ect_locator c = ep_locator (ne_provenance item))
      && bool_decide (ect_content_hash c = ne_content_hash item)
      && bool_decide (ect_provenance_digest c = provenance_digest (ne_provenance item))
  end.

(** [validate_bundle] included *)
Definition EvidenceBundle_ok (b : EvidenceBundle) : bool :=
  EvidenceBundle_fields b
  && bool_decide (py_sorted by_evidence_id (bu_evidence b) = bu_evidence b)
  && bool_decide (py_sorted by_citation_id (bu_citations b) = bu_citations b)
  && forallb (citation_bound (accepted_by_id (bu_evidence b))) (bu_citations b)
  && bool_decide (bu_bundle_digest b = json_digest (JObj (EvidenceBundle_material b))).

Definition citation_of (item : NormalizedEvidence) : EvidenceCitation :=
  {| ect_evidence_id := ne_evidence_id item; ect_locator := ep_locator (ne_provenance item);
     ect_content_hash := ne_content_hash item;
     ect_provenance_digest := provenance_digest (ne_provenance item);
     ect_source_id := ep_source_id (ne_provenance item);
     ect_query_id := ep_query_id (ne_provenance item);
     ect_page_number := ep_page_number (ne_provenance item) |}.

Definition by_kind_value (a b : EvidenceSourceKind) : bool :=
  str_leb (source_kind_value a) (source_kind_value b).

Definition build_bundle (bundle_id tenant_id incident_id run_id : string) (query_ids : list string)
    (evidence : list NormalizedEvidence) (created_at : datetime) : res EvidenceBundle :=
  let ordered := py_sorted by_evidence_id evidence in
  let citations := citation_of <$> List.filter (usable ∘ ne_disposition) ordered in
  let draft digest :=
    {| bu_bundle_id := bundle_id; bu_tenant_id := tenant_id; bu_incident_id := incident_id;
       bu_run_id := run_id; bu_query_ids := sorted_set query_ids; bu_evidence := ordered;
       bu_citations := citations;
       bu_source_kinds := py_sorted by_kind_value (remove_dups (ne_kind <$> ordered));
       bu_created_at := created_at; bu_bundle_digest := digest |} in
  validated EvidenceBundle_ok "EvidenceBundle"
    (draft (json_digest (JObj (EvidenceBundle_material (draft (str_repeat 64 "0")))))).

(** ** Graph evidence *)

Definition Evidence_material (x : Evidence) : payload :=
  [("evidence_id", JStr (ev_evidence_id x)); ("tenant_id", JStr (ev_tenant_id x));
   ("kind", JStr (evidence_kind_value (ev_kind x))); ("source", JStr (ev_source x));
   ("locator", JStr (ev_locator x)); ("observed_at", JStr (iso_z (ev_observed_at x)));
   ("summary", JStr (ev_summary x)); ("facts", JObj (ev_facts x));
   ("content_hash", JStr (ev_content_hash x)); ("untrusted_text", opt_json (ev_untrusted_text x));
   ("provenance_digest", opt_json (ev_provenance_digest x));
   ("source_id", opt_json (ev_source_id x)); ("query_id", opt_json (ev_query_id x));
   ("page_number", opt_int_json (ev_page_number x))].
Definition graph_evidence_json (x : Evidence) : json := JObj (Evidence_material x).
Definition Evidence_fields (x : Evidence) : bool :=
  Identifier (ev_evidence_id x) && Identifier (ev_tenant_id x) && Identifier (ev_source x)
  && length_between 1 512 (ev_locator x) && length_between 1 512 (ev_summary x)
  && (zlen (ev_facts x) <=? 32) && is_sha256_hex (ev_content_hash x)
  && opt_ok (λ x, length_between 0 65536 x) (ev_untrusted_text x)
  && opt_ok (λ x, is_sha256_hex x) (ev_provenance_digest x) && opt_Identifier (ev_source_id x)
  && opt_Identifier (ev_query_id x) && opt_ok (λ x, in_range 1 100 (x)) (ev_page_number x).

(** [BoundedFactValue] *)
Definition fact_value_ok (v : json) : bool :=
  match v with
  | JStr s => length_between 0 512 s
  | JInt _ | JFloat _ | JBool _ | JNull => true
  | JList _ | JObj _ => false
  end.

(** [bind_extended_provenance]: all four provenance fields or none *)
Definition all_or_none (l : list bool) : bool := negb (existsb id l && negb (forallb id l)).

Definition Evidence_ok (e : Evidence) : bool :=
  Evidence_fields e && (1 <=? zlen (ev_facts e)) && forallb (λ kv, fact_value_ok kv.2) (ev_facts e)
  && all_or_none [bool_decide (is_Some (ev_provenance_digest e)); bool_decide (is_Some (ev_source_id e));
                  bool_decide (is_Some (ev_query_id e)); bool_decide (is_Some (ev_page_number e))].

Definition graph_kind (k : EvidenceSourceKind) : EvidenceKind :=
  match k with
  | ESK_DYNATRACE | ESK_KUBERNETES => EK_TELEMETRY
  | ESK_GITHUB => EK_CHANGE
  | ESK_RUNBOOK => EK_RUNBOOK
  end.

Definition is_scalar (v : json) : bool := match v with JList _ | JObj _ => false | _ => true end.

Definition to_graph_evidence (item : NormalizedEvidence) : res Evidence :=
  raise_if (negb (usable (ne_disposition item))) ValueError "only accepted evidence can enter graph state";;
  let facts := List.filter (λ kv, is_scalar kv.2) (ne_facts item) in
  raise_if (bool_decide (facts = [])) ValueError "graph evidence requires allowlisted scalar facts";;
  raise_if (512 <? str_len (ep_locator (ne_provenance item))) ValueError
    "graph evidence locator exceeds its boundary";;
  validated Evidence_ok "Evidence"
    {| ev_evidence_id := ne_evidence_id item; ev_tenant_id := ne_tenant_id item;
       ev_kind := graph_kind (ne_kind item); ev_source := ep_source_id (ne_provenance item);
       ev_locator := ep_locator (ne_provenance item); ev_observed_at := ep_observed_at (ne_provenance item);
       ev_summary := ne_summary item; ev_facts := facts; ev_content_hash := ne_content_hash item;
       ev_untrusted_text := Some (ne_canonical_text item);
       ev_provenance_digest := Some (provenance_digest (ne_provenance item));
       ev_source_id := Some (ep_source_id (ne_provenance item));
       ev_query_id := Some (ep_query_id (ne_provenance item));
       ev_page_number := Some (ep_page_number (ne_provenance item)) |}.
End evidence.
