(* ===== verification/EvidenceRuntime.v ===== *)
(** * The evidence runtime ([evidence_runtime.py])

    [CursorVault], the query ledger [InMemoryEvidenceControlStore] and
    [EvidenceCollector.collect], a thread over the store, the authority, the connector and the
    ingestor, which answer anything.  AES-GCM is the class [Aead]. *)

From S2P Require Import Prelude PyJson PyFloat PyTime PyText PyModel PyProg Domain Evidence.

(** ** Views and events *)

Inductive QueryStatus :=
  | QS_REQUESTED | QS_RUNNING | QS_COMPLETED | QS_FAILED | QS_CANCELLED | QS_RECONCILIATION_REQUIRED | QS_STALE.
#[export] Instance QueryStatus_eq_dec : EqDecision QueryStatus.
Proof. solve_decision. Defined.

Definition query_status_value (s : QueryStatus) : string :=
  match s with
  | QS_REQUESTED => "requested" | QS_RUNNING => "running" | QS_COMPLETED => "completed" | QS_FAILED => "failed"
  | QS_CANCELLED => "cancelled" | QS_RECONCILIATION_REQUIRED => "reconciliation_required" | QS_STALE => "stale"
  end.

(** [QueryStatus(value)] *)
Definition query_status_of (value : string) : option QueryStatus :=
  List.find (λ s, bool_decide (query_status_value s = value))
    [QS_REQUESTED; QS_RUNNING; QS_COMPLETED; QS_FAILED; QS_CANCELLED; QS_RECONCILIATION_REQUIRED; QS_STALE].

Definition terminal_statuses : list QueryStatus :=
  [QS_CANCELLED; QS_COMPLETED; QS_FAILED; QS_RECONCILIATION_REQUIRED; QS_STALE].

Record EvidenceQueryView := {
  qv_query_id : string;
  qv_incident_id : string;
  qv_source_kind : EvidenceSourceKind;
  qv_status : QueryStatus;
  qv_page_count : Z;
  qv_record_count : Z;
  qv_accepted_count : Z;
  qv_quarantined_count : Z;
  qv_failure_code : option string;
  qv_cursor_available : bool;
  qv_reconciliation_required : bool;
  qv_updated_at : datetime
}.

Record EvidenceCursorView := {
  kv_query_id : string;
  kv_source_kind : EvidenceSourceKind;
  kv_page_number : Z;
  kv_expires_at : datetime;
  kv_available : bool
}.

Record EvidenceApplicationEvent := {
  ee_tenant_id : string;
  ee_query_id : string;
  ee_sequence : Z;
  ee_event_id : string;
  ee_event_type : string;
  ee_operation_id : string;
  ee_occurred_at : datetime;
  ee_payload : payload;
  ee_previous_hash : string;
  ee_record_hash : string
}.

Definition EvidenceApplicationEvent_ok (e : EvidenceApplicationEvent) : bool :=
  forallb Identifier [ee_tenant_id e; ee_query_id e; ee_event_id e; ee_event_type e; ee_operation_id e]
  && (1 <=? ee_sequence e) && count_range 0 32 (ee_payload e) && is_sha256_hex (ee_previous_hash e)
  && is_sha256_hex (ee_record_hash e).

(** [event.model_copy(update={"record_hash": h})] *)
Definition sealed (h : string) (e : EvidenceApplicationEvent) : EvidenceApplicationEvent :=
  {| ee_tenant_id := ee_tenant_id e; ee_query_id := ee_query_id e; ee_sequence := ee_sequence e;
     ee_event_id := ee_event_id e; ee_event_type := ee_event_type e; ee_operation_id := ee_operation_id e;
     ee_occurred_at := ee_occurred_at e; ee_payload := ee_payload e; ee_previous_hash := ee_previous_hash e;
     ee_record_hash := h |}.

Definition _ZERO_HASH : string := str_repeat 64 "0".

(** ** The projection *)

(** [current.model_copy(update={"status": ..., "updated_at": ...})] *)
Definition view_status (s : QueryStatus) (now : datetime) (v : EvidenceQueryView) : EvidenceQueryView :=
  {| qv_query_id := qv_query_id v; qv_incident_id := qv_incident_id v; qv_source_kind := qv_source_kind v;
     qv_status := s; qv_page_count := qv_page_count v; qv_record_count := qv_record_count v;
     qv_accepted_count := qv_accepted_count v; qv_quarantined_count := qv_quarantined_count v;
     qv_failure_code := qv_failure_code v; qv_cursor_available := qv_cursor_available v;
     qv_reconciliation_required := qv_reconciliation_required v; qv_updated_at := now |}.

Definition view_cursor (available : bool) (v : EvidenceQueryView) : EvidenceQueryView :=
  {| qv_query_id := qv_query_id v; qv_incident_id := qv_incident_id v; qv_source_kind := qv_source_kind v;
     qv_status := qv_status v; qv_page_count := qv_page_count v; qv_record_count := qv_record_count v;
     qv_accepted_count := qv_accepted_count v; qv_quarantined_count := qv_quarantined_count v;
     qv_failure_code := qv_failure_code v; qv_cursor_available := available;
     qv_reconciliation_required := qv_reconciliation_required v; qv_updated_at := qv_updated_at v |}.

Definition view_failure (code : string) (reconcile : bool) (v : EvidenceQueryView) : EvidenceQueryView :=
  {| qv_query_id := qv_query_id v; qv_incident_id := qv_incident_id v; qv_source_kind := qv_source_kind v;
     qv_status := qv_status v; qv_page_count := qv_page_count v; qv_record_count := qv_record_count v;
     qv_accepted_count := qv_accepted_count v; qv_quarantined_count := qv_quarantined_count v;
     qv_failure_code := Some code; qv_cursor_available := qv_cursor_available v;
     qv_reconciliation_required := reconcile; qv_updated_at := qv_updated_at v |}.

Definition view_page (records accepted quarantined : Z) (v : EvidenceQueryView) : EvidenceQueryView :=
  {| qv_query_id := qv_query_id v; qv_incident_id := qv_incident_id v; qv_source_kind := qv_source_kind v;
     qv_status := qv_status v; qv_page_count := qv_page_count v + 1; qv_record_count := qv_record_count v + records;
     qv_accepted_count := qv_accepted_count v + accepted; qv_quarantined_count := qv_quarantined_count v + quarantined;
     qv_failure_code := qv_failure_code v; qv_cursor_available := qv_cursor_available v;
     qv_reconciliation_required := qv_reconciliation_required v; qv_updated_at := qv_updated_at v |}.

Definition _payload_int (p : payload) (key : string) : res Z :=
  match dict_get key p with
  | Some (JInt n) => if n <? 0 then raise IntegrityFailure ("evidence event " +:+ key +:+ " is invalid") else Ok n
  | _ => raise IntegrityFailure ("evidence event " +:+ key +:+ " is invalid")
  end.

(** [bool(payload.get("cursor_present", False))] *)
Definition json_truthy (v : option json) : bool :=
  match v with
  | None | Some JNull | Some (JBool false) | Some (JInt 0) | Some (JStr "") | Some (JList []) | Some (JObj []) => false
  | Some (JFloat r) => negb (bool_decide (r = "0.0" ∨ r = "-0.0"))
  | Some _ => true
  end.

Definition new_view (query : EvidenceQuery) (now : datetime) : EvidenceQueryView :=
  {| qv_query_id := eq_query_id query; qv_incident_id := eq_incident_id query;
     qv_source_kind := es_kind (eq_source query); qv_status := QS_REQUESTED; qv_page_count := 0; qv_record_count := 0;
     qv_accepted_count := 0; qv_quarantined_count := 0; qv_failure_code := None; qv_cursor_available := false;
     qv_reconciliation_required := false; qv_updated_at := now |}.

Definition _reduce_view (current : option EvidenceQueryView) (event : EvidenceApplicationEvent)
    (query : EvidenceQuery) : res EvidenceQueryView :=
  let p := ee_payload event in
  match current with
  | None =>
      raise_if (bool_decide (ee_event_type event ≠ "evidence.query.requested")) IntegrityFailure
        "evidence projection must start with query request";;
      Ok (new_view query (ee_occurred_at event))
  | Some v =>
      let now := ee_occurred_at event in
      if decide (qv_status v ∈ terminal_statuses) then
        if decide (ee_operation_id event = ee_event_id event) then Ok v
        else raise IntegrityFailure "terminal evidence query cannot transition"
      else if decide (ee_event_type event = "evidence.page.requested") then Ok (view_status QS_RUNNING now v)
      else if decide (ee_event_type event = "evidence.page.completed") then
        records ← _payload_int p "record_count";
        accepted ← _payload_int p "accepted_count";
        quarantined ← _payload_int p "quarantined_count";
        Ok (view_cursor (json_truthy (dict_get "cursor_present" p))
              (view_page records accepted quarantined (view_status QS_RUNNING now v)))
      else if decide (ee_event_type event = "evidence.query.completed") then
        Ok (view_cursor false (view_status QS_COMPLETED now v))
      else
        match strip_prefix "evidence.query." (ee_event_type event) with
        | None => raise IntegrityFailure "unknown evidence application event"
        | Some value =>
            status ← of_option (query_status_of value) IntegrityFailure "unknown evidence query event type";
            match dict_get "failure_code" p with
            | Some (JStr code) =>
                Ok (view_failure code (bool_decide (status = QS_RECONCILIATION_REQUIRED)) (view_status status now v))
            | _ => raise IntegrityFailure "evidence query failure code is invalid"
            end
        end
  end.

(** ** The cursor vault *)

(** AES-GCM: [aead_decrypt] is [None] when the tag does not match. *)
Class Aead := {
  aead_encrypt (key nonce text aad : string) : string;
  aead_decrypt (key nonce ciphertext aad : string) : option string
}.

(** [bytes.decode()] on the code points a [string] holds; other bytes are outside the model or
    raise [UnicodeDecodeError]. *)
Fixpoint utf8_decode (s : string) : option string :=
  match s with
  | "" => Some ""
  | String c s =>
      if (N_of_ascii c <? 128)%N then String c <$> utf8_decode s
      else match s with
           | "" => None
           | String d s =>
               if ((194 <=? N_of_ascii c) && (N_of_ascii c <=? 195))%N && ((128 <=? N_of_ascii d) && (N_of_ascii d <? 192))%N
               then String (ascii_of_N ((N_of_ascii c - 192) * 64 + (N_of_ascii d - 128))) <$> utf8_decode s
               else None
           end
  end.

Section vault.
Context {HAead : Aead} (key : string).

Definition cursor_aad (tenant_id query_id : string) : string := utf8 (tenant_id +:+ String "000" query_id).

(** [CursorVault.seal], with the nonce the factory answers *)
Definition seal (nonce value tenant_id query_id : string) : res string :=
  raise_if (bool_decide (value = "") || (4096 <? str_len value)) ValueError "evidence cursor value is invalid";;
  raise_if (bool_decide (str_len nonce ≠ 12)) ValueError "evidence cursor nonce must be 12 bytes";;
  Ok (nonce +:+ aead_encrypt key nonce (utf8 value) (cursor_aad tenant_id query_id)).

(** [CursorVault.open] *)
Definition open_cursor (value tenant_id query_id : string) : res string :=
  raise_if ((str_len value <? 29) || (4128 <? str_len value)) IntegrityFailure "encrypted evidence cursor is malformed";;
  decoded ← of_option
    (text ← aead_decrypt key (str_take 12 value) (str_drop 12 value) (cursor_aad tenant_id query_id); utf8_decode text)
    IntegrityFailure "encrypted evidence cursor is invalid";
  raise_if (bool_decide (decoded = "") || (4096 <? str_len decoded)) IntegrityFailure
    "decrypted evidence cursor is invalid";;
  Ok decoded.
End vault.

(** [CursorVault(key)] *)
Definition vault_key_ok (key : string) : res unit :=
  raise_if (bool_decide (str_len key ≠ 32)) ValueError "evidence cursor encryption key must be 32 bytes".

(** ** The query ledger ([InMemoryEvidenceControlStore]) *)

Record evidence_store := {
  vs_queries : gmap (string * string) EvidenceQuery;
  vs_events : gmap (string * string) (list EvidenceApplicationEvent);
  vs_views : gmap (string * string) EvidenceQueryView;
  vs_page_intents : gmap (string * string * Z) string;
  vs_page_results : gset (string * string * Z);
  vs_evidence : gmap (string * string) (list NormalizedEvidence);
  vs_cursors : gmap (string * string) (EvidenceCursor * string);
  vs_bundles : gmap (string * string) EvidenceBundle
}.

Definition empty_evidence_store : evidence_store :=
  {| vs_queries := ∅; vs_events := ∅; vs_views := ∅; vs_page_intents := ∅; vs_page_results := ∅; vs_evidence := ∅;
     vs_cursors := ∅; vs_bundles := ∅ |}.

Definition put_query (key : string * string) (q : EvidenceQuery) (s : evidence_store) : evidence_store :=
  {| vs_queries := <[key := q]> (vs_queries s); vs_events := vs_events s; vs_views := vs_views s;
     vs_page_intents := vs_page_intents s; vs_page_results := vs_page_results s;
     vs_evidence := <[key := []]> (vs_evidence s); vs_cursors := vs_cursors s; vs_bundles := vs_bundles s |}.
Definition put_events (key : string * string) (l : list EvidenceApplicationEvent) (s : evidence_store) : evidence_store :=
  {| vs_queries := vs_queries s; vs_events := <[key := l]> (vs_events s); vs_views := vs_views s;
     vs_page_intents := vs_page_intents s; vs_page_results := vs_page_results s; vs_evidence := vs_evidence s;
     vs_cursors := vs_cursors s; vs_bundles := vs_bundles s |}.
Definition put_view (key : string * string) (v : EvidenceQueryView) (s : evidence_store) : evidence_store :=
  {| vs_queries := vs_queries s; vs_events := vs_events s; vs_views := <[key := v]> (vs_views s);
     vs_page_intents := vs_page_intents s; vs_page_results := vs_page_results s; vs_evidence := vs_evidence s;
     vs_cursors := vs_cursors s; vs_bundles := vs_bundles s |}.
Definition put_intent (page : string * string * Z) (operation_id : string) (s : evidence_store) : evidence_store :=
  {| vs_queries := vs_queries s; vs_events := vs_events s; vs_views := vs_views s;
     vs_page_intents := <[page := operation_id]> (vs_page_intents s); vs_page_results := vs_page_results s;
     vs_evidence := vs_evidence s; vs_cursors := vs_cursors s; vs_bundles := vs_bundles s |}.
Definition put_page (page : string * string * Z) (key : string * string) (l : list NormalizedEvidence)
    (s : evidence_store) : evidence_store :=
  {| vs_queries := vs_queries s; vs_events := vs_events s; vs_views := vs_views s;
     vs_page_intents := vs_page_intents s; vs_page_results := {[page]} ∪ vs_page_results s;
     vs_evidence := <[key := l]> (vs_evidence s); vs_cursors := vs_cursors s; vs_bundles := vs_bundles s |}.
Definition put_cursor (key : string * string) (c : option (EvidenceCursor * string)) (s : evidence_store) : evidence_store :=
  {| vs_queries := vs_queries s; vs_events := vs_events s; vs_views := vs_views s;
     vs_page_intents := vs_page_intents s; vs_page_results := vs_page_results s; vs_evidence := vs_evidence s;
     vs_cursors := partial_alter (λ _, c) key (vs_cursors s); vs_bundles := vs_bundles s |}.
Definition put_bundle (key : string * string) (b : EvidenceBundle) (s : evidence_store) : evidence_store :=
  {| vs_queries := vs_queries s; vs_events := vs_events s; vs_views := vs_views s;
     vs_page_intents := vs_page_intents s; vs_page_results := vs_page_results s; vs_evidence := vs_evidence s;
     vs_cursors := vs_cursors s; vs_bundles := <[key := b]> (vs_bundles s) |}.

Section store.
Context {HDigest : Digest} {HFloat : FloatJson} {HAead : Aead}.

(** [_event_hash(event, exclude_record_hash=True)] *)
Definition event_material (e : EvidenceApplicationEvent) : payload :=
  [("tenant_id", JStr (ee_tenant_id e)); ("query_id", JStr (ee_query_id e)); ("sequence", JInt (ee_sequence e));
   ("event_id", JStr (ee_event_id e)); ("event_type", JStr (ee_event_type e));
   ("operation_id", JStr (ee_operation_id e)); ("occurred_at", JStr (iso_z (ee_occurred_at e)));
   ("payload", JObj (ee_payload e)); ("previous_hash", JStr (ee_previous_hash e))].
Definition _event_hash (e : EvidenceApplicationEvent) : string := json_digest (JObj (event_material e)).

Definition key_lookup {A : Type} (o : option A) : res A := of_option o KeyError "key".

Definition _append (tenant_id query_id event_type operation_id : string) (occurred_at : datetime) (p : payload)
    : M evidence_store EvidenceQueryView :=
  let key := (tenant_id, query_id) in
  s ← get;
  let events := default [] (vs_events s !! key) in
  modify (put_events key events);;
  if existsb (λ e, bool_decide (ee_operation_id e = operation_id) && bool_decide (ee_event_type e = event_type)) events
  then lift (key_lookup (vs_views s !! key))
  else
    let sequence := zlen events + 1 in
    draft ← lift (validated EvidenceApplicationEvent_ok "EvidenceApplicationEvent"
      {| ee_tenant_id := tenant_id; ee_query_id := query_id; ee_sequence := sequence;
         ee_event_id := stable_id "event" [tenant_id; query_id; str_of_int sequence; event_type] 32;
         ee_event_type := event_type; ee_operation_id := operation_id; ee_occurred_at := occurred_at;
         ee_payload := py_sorted key_leb p;
         ee_previous_hash := match last events with Some e => ee_record_hash e | None => _ZERO_HASH end;
         ee_record_hash := _ZERO_HASH |});
    let event := sealed (_event_hash draft) draft in
    query ← lift (key_lookup (vs_queries s !! key));
    view ← lift (_reduce_view (vs_views s !! key) event query);
    modify (put_events key (events ++ [event]));;
    modify (put_view key view);;
    mret view.

Definition key_of (q : EvidenceQuery) : string * string := (eq_tenant_id q, eq_query_id q).

Definition request (query : EvidenceQuery) (operation_id : string) : M evidence_store EvidenceQueryView :=
  let key := key_of query in
  s ← get;
  match vs_queries s !! key with
  | Some existing =>
      lift (raise_if (bool_decide (query_digest existing ≠ query_digest query)) IdempotencyConflict
              "evidence query id was reused with different input");;
      lift (key_lookup (vs_views s !! key))
  | None =>
      modify (put_query key query);;
      _append (eq_tenant_id query) (eq_query_id query) "evidence.query.requested" operation_id (eq_created_at query)
        [("incident_id", JStr (eq_incident_id query)); ("query", JObj (EvidenceQuery_material query));
         ("query_digest", JStr (query_digest query));
         ("source_kind", JStr (source_kind_value (es_kind (eq_source query))))]
  end.

Definition query (s : evidence_store) (tenant_id query_id : string) : res EvidenceQuery :=
  of_option (vs_queries s !! (tenant_id, query_id)) IntegrityFailure "evidence query is unavailable".

(** [true]: the page was started; [false]: it was completed before. *)
Definition begin_page (tenant_id query_id : string) (page_number : Z) (operation_id : string)
    (cursor_ref : option string) (occurred_at : datetime) : M evidence_store bool :=
  let page := (tenant_id, query_id, page_number) in
  s ← get;
  if bool_decide (page ∈ vs_page_results s) then mret false
  else
    lift (raise_if (bool_decide (is_Some (vs_page_intents s !! page))) ReconciliationRequired
            "evidence page has unresolved external-call intent");;
    modify (put_intent page operation_id);;
    _append tenant_id query_id "evidence.page.requested" operation_id occurred_at
      [("cursor_present", JBool (bool_decide (is_Some cursor_ref))); ("page_number", JInt page_number)];;
    mret true.

Definition count_dispositions (l : list EvidenceDisposition) (evidence : list NormalizedEvidence) : Z :=
  zlen (List.filter (λ e, bool_decide (ne_disposition e ∈ l)) evidence).
Definition accepted_count : list NormalizedEvidence → Z := count_dispositions [ED_ACCEPTED; ED_REDACTED].
Definition quarantined_count : list NormalizedEvidence → Z := count_dispositions [ED_QUARANTINED].

Definition page_cursor (query : EvidenceQuery) (page_number : Z) (next_cursor : string) (occurred_at : datetime)
    : res EvidenceCursor :=
  let digest := hexdigest (utf8 next_cursor) in
  validated EvidenceCursor_ok "EvidenceCursor"
    {| ec_tenant_id := eq_tenant_id query; ec_incident_id := eq_incident_id query; ec_query_id := eq_query_id query;
       ec_source_id := es_source_id (eq_source query); ec_page_number := page_number;
       ec_cursor_ref := stable_id "cursor" [eq_tenant_id query; eq_query_id query; str_of_int page_number; digest] 32;
       ec_cursor_digest := digest; ec_created_at := occurred_at; ec_expires_at := occurred_at + seconds 300 |}.

Definition complete_page (vault nonce : string) (query : EvidenceQuery) (page_number : Z) (operation_id : string)
    (evidence : list NormalizedEvidence) (next_cursor : option string) (occurred_at : datetime)
    : M evidence_store (option EvidenceCursor) :=
  let key := key_of query in
  let page := (eq_tenant_id query, eq_query_id query, page_number) in
  s ← get;
  if bool_decide (page ∈ vs_page_results s) then mret (fst <$> vs_cursors s !! key)
  else
    lift (raise_if (bool_decide (vs_page_intents s !! page ≠ Some operation_id)) ConcurrencyConflict
            "evidence page intent is not owned");;
    let current := default [] (vs_evidence s !! key) in
    modify (put_page page key
      (current ++ List.filter (λ e, bool_decide (ne_evidence_id e ∉ ne_evidence_id <$> current)) evidence));;
    cursor ← match next_cursor with
             | None => modify (put_cursor key None);; mret None
             | Some next =>
                 cursor ← lift (page_cursor query page_number next occurred_at);
                 encrypted ← lift (seal vault nonce next (eq_tenant_id query) (eq_query_id query));
                 modify (put_cursor key (Some (cursor, encrypted)));;
                 mret (Some cursor)
             end;
    _append (eq_tenant_id query) (eq_query_id query) "evidence.page.completed" operation_id occurred_at
      [("accepted_count", JInt (accepted_count evidence));
       ("cursor_present", JBool (bool_decide (is_Some cursor))); ("page_number", JInt page_number);
       ("quarantined_count", JInt (quarantined_count evidence)); ("record_count", JInt (zlen evidence))];;
    mret cursor.

Definition complete_query (query : EvidenceQuery) (operation_id : string) (bundle : EvidenceBundle)
    (occurred_at : datetime) : M evidence_store EvidenceQueryView :=
  let key := key_of query in
  s ← get;
  match vs_bundles s !! key with
  | Some existing =>
      lift (raise_if (bool_decide (bu_bundle_digest existing ≠ bu_bundle_digest bundle)) IdempotencyConflict
              "evidence bundle result changed");;
      lift (key_lookup (vs_views s !! key))
  | None =>
      modify (put_bundle key bundle);;
      modify (put_cursor key None);;
      _append (eq_tenant_id query) (eq_query_id query) "evidence.query.completed" operation_id occurred_at
        [("bundle_digest", JStr (bu_bundle_digest bundle)); ("bundle_id", JStr (bu_bundle_id bundle));
         ("evidence_count", JInt (zlen (bu_evidence bundle)))]
  end.

Definition fail_query (tenant_id query_id operation_id failure_code : string) (status : QueryStatus)
    (occurred_at : datetime) : M evidence_store EvidenceQueryView :=
  lift (raise_if (bool_decide (status ∉ [QS_CANCELLED; QS_FAILED; QS_RECONCILIATION_REQUIRED; QS_STALE])) ValueError
          "invalid evidence query failure status");;
  _append tenant_id query_id ("evidence.query." +:+ query_status_value status) operation_id occurred_at
    [("failure_code", JStr failure_code)].

Definition cursor_value (vault : string) (s : evidence_store) (now : datetime) (tenant_id query_id cursor_ref : string)
    : res string :=
  stored ← of_option (vs_cursors s !! (tenant_id, query_id)) IntegrityFailure "evidence cursor is unavailable";
  raise_if (bool_decide (ec_cursor_ref stored.1 ≠ cursor_ref)) IntegrityFailure "evidence cursor reference is invalid";;
  raise_if (ec_expires_at stored.1 <=? now) ReconciliationRequired "evidence cursor has expired";;
  open_cursor vault stored.2 tenant_id query_id.

Definition evidence_of (s : evidence_store) (tenant_id query_id : string) : list NormalizedEvidence :=
  py_sorted by_evidence_id (default [] (vs_evidence s !! (tenant_id, query_id))).

Definition cursor_status (s : evidence_store) (now : datetime) (tenant_id query_id : string)
    : res (option EvidenceCursorView) :=
  match vs_cursors s !! (tenant_id, query_id) with
  | None => Ok None
  | Some (cursor, _) =>
      q ← query s tenant_id query_id;
      Some <$> validated (λ v, Identifier (kv_query_id v) && in_range 1 100 (kv_page_number v)) "EvidenceCursorView"
        {| kv_query_id := query_id; kv_source_kind := es_kind (eq_source q); kv_page_number := ec_page_number cursor;
           kv_expires_at := ec_expires_at cursor; kv_available := now <? ec_expires_at cursor |}
  end.

(** The walk of [rebuild]: the view and the last hash *)
Definition rebuild_step (q : option EvidenceQuery) (acc : option EvidenceQueryView * string) (e : EvidenceApplicationEvent)
    : res (option EvidenceQueryView * string) :=
  raise_if (bool_decide (ee_previous_hash e ≠ acc.2)) IntegrityFailure "evidence query event hash chain is invalid";;
  raise_if (bool_decide (ee_record_hash e ≠ _event_hash e)) IntegrityFailure "evidence query event record hash is invalid";;
  q ← key_lookup q;
  view ← _reduce_view acc.1 e q;
  Ok (Some view, ee_record_hash e).

Definition evidence_rebuild (tenant_id query_id : string) : M evidence_store EvidenceQueryView :=
  let key := (tenant_id, query_id) in
  s ← get;
  let events := default [] (vs_events s !! key) in
  lift (raise_if (bool_decide (events = [])) IntegrityFailure "evidence query events are unavailable");;
  walked ← lift (foldM (rebuild_step (vs_queries s !! key)) (None, _ZERO_HASH) events);
  view ← lift (of_option walked.1 IntegrityFailure "evidence query projection could not be rebuilt");
  modify (put_view key view);;
  mret view.
End store.

(** ** The collector *)

Inductive collector_op : Set → Set :=
  | Now : collector_op datetime
  | Request (query : EvidenceQuery) (operation_id : string) : collector_op (res EvidenceQueryView)
  | StoredBundle (key : string * string) : collector_op (option EvidenceBundle)
  | CurrentSource (tenant_id source_id : string) : collector_op (option EvidenceSource)
  | RunCancelled (tenant_id run_id : string) : collector_op bool
  | BeginPage (tenant_id query_id : string) (page_number : Z) (operation_id : string) (cursor_ref : option string)
      (occurred_at : datetime) : collector_op (res bool)
  | CursorStatus (tenant_id query_id : string) : collector_op (res (option EvidenceCursorView))
  | FetchPage (query : EvidenceQuery) (cursor : option string) (page_number : Z) : collector_op (res ConnectorPage)
  | Ingest (query : EvidenceQuery) (record : ConnectorRecord) (page_number : Z) (retrieved_at : datetime)
      : collector_op (res NormalizedEvidence)
  | CompletePage (query : EvidenceQuery) (page_number : Z) (operation_id : string)
      (evidence : list NormalizedEvidence) (next_cursor : option string) (occurred_at : datetime)
      : collector_op (res (option EvidenceCursor))
  | CursorValue (tenant_id query_id cursor_ref : string) : collector_op (res string)
  | StoredEvidence (tenant_id query_id : string) : collector_op (list NormalizedEvidence)
  | CompleteQuery (query : EvidenceQuery) (operation_id : string) (bundle : EvidenceBundle) (occurred_at : datetime)
      : collector_op (res EvidenceQueryView)
  | FailQuery (tenant_id query_id operation_id failure_code : string) (status : QueryStatus) (occurred_at : datetime)
      : collector_op (res EvidenceQueryView)
  | StoredView (key : string * string) : collector_op (option EvidenceQueryView).

Notation Collect A := (prog collector_op exn A).

Definition collect_res {A : Set} (r : res A) : Collect A := match r with Ok a => Return a | Raise e => Throw e end.
Definition collect_call {A : Set} (o : collector_op (res A)) : Collect A := r ←' call o; collect_res r.
Definition reject_if (b : bool) (k : ExnKind) (msg : string) : Collect unit := collect_res (raise_if b k msg).

Definition by_record_id (a b : ConnectorRecord) : bool := str_leb (cr_record_id a) (cr_record_id b).

(** [range(1, n + 1)] *)
Definition page_numbers (n : Z) : list Z := Z.of_nat <$> seq 1 (Z.to_nat n).

Section collector.
Context {HDigest : Digest} {HFloat : FloatJson}.
Context (q : EvidenceQuery).

Let tenant_id := eq_tenant_id q.
Let query_id := eq_query_id q.

Definition _fail (code : string) (status : QueryStatus) (operation_id : string) : Collect unit :=
  now ←' call Now;
  collect_call (FailQuery tenant_id query_id operation_id code status now) ;;'
  Return tt.

Definition _require_current : Collect unit :=
  current ←' call (CurrentSource tenant_id (es_source_id (eq_source q)));
  if match current with
     | Some c => bool_decide (source_digest c ≠ source_digest (eq_source q)) || negb (es_enabled c)
     | None => true
     end
  then
    _fail "source_policy_or_credential_stale" QS_STALE ("stale:" +:+ query_id) ;;'
    Throw (Exn ConnectorRejected "evidence source policy is stale or revoked")
  else Return tt.

(** [EvidenceIngestor.ingest_page] *)
Definition ingest_page (records : list ConnectorRecord) (page_number : Z) (retrieved_at : datetime)
    : Collect (list NormalizedEvidence) :=
  each (λ r, collect_call (Ingest q r page_number retrieved_at)) (py_sorted by_record_id records).

(** The rest of a round once the connector has answered: what it stored, and the cursor of the next
    page, or [None] when there is none *)
Definition store_page (page_number : Z) (operation_id : string) (page : ConnectorPage)
    : Collect (option (string * string)) :=
  normalized ←' ingest_page (cp_records page) page_number (cp_retrieved_at page);
  now ←' call Now;
  stored ←' collect_call (CompletePage q page_number operation_id normalized (cp_next_cursor page) now);
  match cp_next_cursor page with
  | None => Return None
  | Some _ =>
      match stored with
      | None => Throw (Exn IntegrityFailure "evidence cursor checkpoint was not committed")
      | Some c =>
          cursor ←' collect_call (CursorValue tenant_id query_id (ec_cursor_ref c));
          Return (Some (ec_cursor_ref c, cursor))
      end
  end.

(** The loop over the pages: [cursor] is the reference and the value of the cursor. *)
Fixpoint collect_pages (pages : list Z) (cursor : option (string * string)) (total_records total_bytes : Z)
    : Collect unit :=
  match pages with
  | [] => Throw (Exn ConnectorRejected "evidence query page bound was exhausted")
  | page_number :: pages =>
      _require_current ;;'
      cancelled ←' call (RunCancelled tenant_id (eq_run_id q));
      (if (cancelled : bool) then
         _fail "cancelled" QS_CANCELLED ("cancel:" +:+ query_id +:+ ":" +:+ str_of_int page_number) ;;'
         Throw (Exn ConnectorRejected "evidence query was cancelled")
       else Return tt) ;;'
      let operation_id := "page:" +:+ query_id +:+ ":" +:+ str_of_int page_number in
      now ←' call Now;
      started ←' collect_call (BeginPage tenant_id query_id page_number operation_id (fst <$> cursor) now);
      if (started : bool) then
        page ←' collect_call (FetchPage q (snd <$> cursor) page_number);
        _require_current ;;'
        let total_records := total_records + zlen (cp_records page) in
        let total_bytes := total_bytes + cp_response_bytes page in
        reject_if ((eb_maximum_records (eq_bounds q) <? total_records)
                   || (eb_maximum_total_bytes (eq_bounds q) <? total_bytes)) ConnectorRejected
          "evidence query aggregate bounds exceeded" ;;'
        next ←' store_page page_number operation_id page;
        match next with
        | None => Return tt
        | Some _ => collect_pages pages next total_records total_bytes
        end
      else
        current ←' collect_call (CursorStatus tenant_id query_id);
        match current with
        | None => Return tt
        | Some _ =>
            Throw (Exn ReconciliationRequired "completed evidence page cannot resume without internal cursor")
        end
  end.

(** The [except] clauses *)
Definition on_collect_error (x : exn) : Collect EvidenceBundle :=
  if decide (exn_kind x = ReconciliationRequired) then
    _fail "ambiguous_connector_outcome" QS_RECONCILIATION_REQUIRED ("reconcile:" +:+ query_id) ;;'
    Throw x
  else if decide (exn_kind x = ConnectorRejected) then
    status ←' call (StoredView (key_of q));
    match status with
    | Some v =>
        if decide (qv_status v ∈ [QS_CANCELLED; QS_RECONCILIATION_REQUIRED; QS_STALE]) then Throw x
        else _fail "connector_result_rejected" QS_FAILED ("failure:" +:+ query_id) ;;' Throw x
    | None => _fail "connector_result_rejected" QS_FAILED ("failure:" +:+ query_id) ;;' Throw x
    end
  else Throw x.

Definition finish_query (u : unit) : Collect EvidenceBundle :=
  all ←' call (StoredEvidence tenant_id query_id);
  created_at ←' call Now;
  let bundle_id := stable_id "bundle" [tenant_id; eq_incident_id q; query_id;
                     json_digest (strings_json ((λ e, json_digest (evidence_json e)) <$> (all : list NormalizedEvidence)))] 32 in
  bundle ←' collect_res (build_bundle bundle_id tenant_id (eq_incident_id q) (eq_run_id q) [query_id] all created_at);
  collect_call (CompleteQuery q ("complete:" +:+ query_id) bundle created_at) ;;'
  Return bundle.

(** [EvidenceCollector._collect]; [collect] adds observations, which decide nothing. *)
Definition _collect : Collect EvidenceBundle :=
  view ←' collect_call (Request q ("request:" +:+ query_id));
  if decide (qv_status view = QS_COMPLETED) then
    existing ←' call (StoredBundle (key_of q));
    match existing with
    | None => Throw (Exn IntegrityFailure "completed evidence query has no stored bundle")
    | Some b => Return b
    end
  else try_else (collect_pages (page_numbers (eb_maximum_pages (eq_bounds q))) None 0 0) on_collect_error finish_query.
End collector.

(** ** Threads and their world *)

Record collector_answers := {
  ca_now : datetime;
  ca_nonce : string;
  ca_source : string → string → option EvidenceSource;
  ca_cancelled : bool;
  ca_fetch : EvidenceQuery → option string → Z → res ConnectorPage;
  ca_ingest : EvidenceQuery → ConnectorRecord → Z → datetime → res NormalizedEvidence
}.

(** The store and two histories no code reads: the thread each page was started for, and the pages
    fetched by each thread *)
Record collector_world := {
  vw_store : evidence_store;
  vw_started : gmap (string * string * Z) nat;
  vw_fetched : list (nat * (string * string * Z))
}.

Definition put_store (s : evidence_store) (w : collector_world) : collector_world :=
  {| vw_store := s; vw_started := vw_started w; vw_fetched := vw_fetched w |}.
Definition mark_started (page : string * string * Z) (i : nat) (w : collector_world) : collector_world :=
  {| vw_store := vw_store w; vw_started := <[page := i]> (vw_started w); vw_fetched := vw_fetched w |}.
Definition mark_fetched (page : string * string * Z) (i : nat) (w : collector_world) : collector_world :=
  {| vw_store := vw_store w; vw_started := vw_started w; vw_fetched := vw_fetched w ++ [(i, page)] |}.

Section world.
Context {HDigest : Digest} {HFloat : FloatJson} {HAead : Aead} (vault : string).

Definition on_store {A} (m : M evidence_store A) (w : collector_world) : res A * collector_world :=
  let '(r, s) := m (vw_store w) in (r, put_store s w).

Definition collector_handle (e : collector_answers) (i : nat) (R : Set) (o : collector_op R) (w : collector_world)
    : R * collector_world :=
  match o in collector_op R return R * collector_world with
  | Now => (ca_now e, w)
  | Request q operation_id => on_store (request q operation_id) w
  | StoredBundle key => (vs_bundles (vw_store w) !! key, w)
  | CurrentSource tenant_id source_id => (ca_source e tenant_id source_id, w)
  | RunCancelled tenant_id run_id => (ca_cancelled e, w)
  | BeginPage tenant_id query_id page_number operation_id cursor_ref occurred_at =>
      let '(r, w) := on_store (begin_page tenant_id query_id page_number operation_id cursor_ref occurred_at) w in
      (r, match r with Ok true => mark_started (tenant_id, query_id, page_number) i w | _ => w end)
  | CursorStatus tenant_id query_id => (cursor_status (vw_store w) (ca_now e) tenant_id query_id, w)
  | FetchPage q cursor page_number =>
      (ca_fetch e q cursor page_number, mark_fetched (eq_tenant_id q, eq_query_id q, page_number) i w)
  | Ingest q record page_number retrieved_at => (ca_ingest e q record page_number retrieved_at, w)
  | CompletePage q page_number operation_id evidence next_cursor occurred_at =>
      on_store (complete_page vault (ca_nonce e) q page_number operation_id evidence next_cursor occurred_at) w
  | CursorValue tenant_id query_id cursor_ref =>
      (cursor_value vault (vw_store w) (ca_now e) tenant_id query_id cursor_ref, w)
  | StoredEvidence tenant_id query_id => (evidence_of (vw_store w) tenant_id query_id, w)
  | CompleteQuery q operation_id bundle occurred_at => on_store (complete_query q operation_id bundle occurred_at) w
  | FailQuery tenant_id query_id operation_id failure_code status occurred_at =>
      on_store (fail_query tenant_id query_id operation_id failure_code status occurred_at) w
  | StoredView key => (vs_views (vw_store w) !! key, w)
  end.

Definition collector_start : collector_world := {| vw_store := empty_evidence_store; vw_started := ∅; vw_fetched := [] |}.

(** The collectors of some queries after a schedule of their steps *)
Definition run_collectors (queries : list EvidenceQuery) (turns : list (nat * collector_answers)) (w : collector_world)
    : list (Collect EvidenceBundle) * collector_world :=
  run_pool collector_handle ((λ t, Thread t.1 t.2) <$> turns) (_collect <$> queries, w).
End world.
