(* ===== verification/EvidenceTheorems.v ===== *)
(** * Theorems on the evidence runtime

    The query ledger is the fold of its chained events, terminal queries stay as they are, no page
    is fetched twice whatever the collectors' interleaving, and no query exceeds its bounds. *)

From S2P Require Import Prelude PyJson PyFloat PyTime PyText PyModel PyProg Domain Evidence EvidenceRuntime Fixtures.

#[local] Abbreviation terminal v := (qv_status v ∈ terminal_statuses).

(** The pages and the records counted so far *)
#[local] Abbreviation counts v := (qv_page_count v, qv_record_count v).

Section store.
Context {HDigest : Digest} {HFloat : FloatJson} {HAead : Aead}.

(** ** The projection *)

(** What a page adds to the records *)
Definition page_records (p : payload) : Z :=
  match dict_get "record_count" p with Some (JInt n) => n | _ => 0 end.

Lemma strip_prefix_app p : ∀ s t, strip_prefix p s = Some t → s = p +:+ t.
Proof.
  induction p as [|c p IH]; intros [|d s] t H; cbn in H; try done; try by injection H as <-.
  destruct (decide (c = d)) as [->|]; [|done]. by rewrite (IH s t H).
Qed.

Lemma completed_status value : query_status_of value = Some QS_COMPLETED → value = "completed".
Proof. unfold query_status_of. intros H. apply find_some in H as [_ H]. by apply bool_decide_eq_true in H. Qed.

Lemma reduce_steps v e q v' :
  _reduce_view (Some v) e q = Ok v' →
  (terminal v → v' = v) ∧
  (counts v' = counts v ∨ ee_event_type e = "evidence.page.completed" ∧
     counts v' = (qv_page_count v + 1, qv_record_count v + page_records (ee_payload e))) ∧
  (qv_status v' = QS_COMPLETED → v' = v ∨ ee_event_type e = "evidence.query.completed").
Proof.
  unfold _reduce_view. intros H. destruct (decide (terminal v)) as [Ht|Ht].
  { destruct (decide _); [injection H as <-; by split_and!; [|left|left]|done]. }
  split; [done|]. destruct (decide _); [injection H as <-; by split; [left|]|].
  destruct (decide (_ = "evidence.page.completed")) as [Hp|].
  { apply res_bind_ok in H as (r & Hr & H). apply res_bind_ok in H as (a & _ & H). apply res_bind_ok in H as (b & _ & [= <-]).
    split; [|done]. right. split; [done|]. unfold _payload_int in Hr. unfold page_records.
    destruct (dict_get "record_count" _) as [[]|]; try done. destruct (z <? 0); [done|]. by injection Hr as <-. }
  destruct (decide (_ = "evidence.query.completed")); [injection H as <-; by split; [left|right]|].
  destruct (strip_prefix _ _) as [value|] eqn:Es; [|done]. apply strip_prefix_app in Es.
  apply res_bind_ok in H as (st & Hst & H). destruct (dict_get _ _) as [[]|]; try done. injection H as <-. split; [by left|].
  cbn. intros ->. right. unfold of_option in Hst. destruct (query_status_of value) as [st|] eqn:Ev; [|done].
  injection Hst as ->. apply completed_status in Ev as ->. done.
Qed.

Lemma view_starts e q v : _reduce_view None e q = Ok v → v = new_view q (ee_occurred_at e).
Proof. cbn. intros H. by apply res_bind_ok in H as (u & _ & [= <-]). Qed.

(** ** What holds of the store *)

Definition last_hash (events : list EvidenceApplicationEvent) : string :=
  match last events with Some e => ee_record_hash e | None => _ZERO_HASH end.

(** The view of a query is the fold of its events along their hash chain. *)
Record store_sound (s : evidence_store) : Prop := {
  ss_keyed key q : vs_queries s !! key = Some q → key_of q = key;
  ss_fold key v : vs_views s !! key = Some v → ∃ q, vs_queries s !! key = Some q ∧
    foldM (rebuild_step (Some q)) (None, _ZERO_HASH) (default [] (vs_events s !! key))
    = Ok (Some v, last_hash (default [] (vs_events s !! key)));
  ss_none key : vs_views s !! key = None → default [] (vs_events s !! key) = []
}.

Lemma empty_store_sound : store_sound empty_evidence_store.
Proof. by split. Qed.

(** Two stores that differ in intents, results, evidence, cursors and bundles only *)
Definition same_ledger (s s' : evidence_store) : Prop :=
  vs_queries s' = vs_queries s ∧ vs_events s' = vs_events s ∧ vs_views s' = vs_views s.

Lemma same_ledger_sound s s' : same_ledger s s' → store_sound s → store_sound s'.
Proof.
  intros (E1 & E2 & E3) [H1 H2 H3]. split; intros key.
  - rewrite E1. apply H1.
  - intros v. rewrite E1, E2, E3. apply H2.
  - rewrite E2, E3. apply H3.
Qed.

(** The parts of the store that no append touches *)
Definition side (s : evidence_store) :=
  (vs_queries s, vs_page_intents s, vs_page_results s, vs_evidence s, vs_cursors s, vs_bundles s).

Lemma last_hash_snoc events e : last_hash (events ++ [e]) = ee_record_hash e.
Proof. unfold last_hash. by rewrite last_snoc. Qed.

Lemma rebuild_step_ok q acc e v :
  ee_previous_hash e = acc.2 → ee_record_hash e = _event_hash e → _reduce_view acc.1 e q = Ok v →
  rebuild_step (Some q) acc e = Ok (Some v, ee_record_hash e).
Proof.
  intros H1 H2 H3. unfold rebuild_step. rewrite !bool_decide_eq_false_2 by (intros Hn; by apply Hn).
  unfold mbind, res_bind, raise_if, key_lookup, of_option. by rewrite H3.
Qed.

(** Nothing but the view and the events of a query changes, and those by at most one event. *)
Lemma append_cases t qid et op now p s r s' :
  store_sound s → _append t qid et op now p s = (r, s') →
  side s' = side s ∧ store_sound s' ∧
  (vs_views s' = vs_views s ∧ (∀ v, r = Ok v → vs_views s !! (t, qid) = Some v) ∨
   ∃ e q v, ee_event_type e = et ∧ ee_payload e = py_sorted key_leb p ∧
     _reduce_view (vs_views s !! (t, qid)) e q = Ok v ∧ r = Ok v ∧ vs_views s' = <[(t, qid) := v]> (vs_views s)).
Proof.
  intros Hs H. unfold _append in H. unfold mbind, M_bind, get, modify, lift in H. cbn -[_reduce_view] in H.
  set (key := (t, qid)) in *. set (events := default [] (vs_events s !! key)) in H.
  assert (Hs1 : store_sound (put_events key events s)).
  { destruct Hs as [H1 H2 H3]. assert (E : ∀ k, default [] (vs_events (put_events key events s) !! k) = default [] (vs_events s !! k)).
    { intros k. cbn. rewrite lookup_insert. case_decide as E; [by rewrite <- E|done]. }
    split; [done| |]; intros k; rewrite E; [apply H2|apply H3]. }
  destruct (existsb _ events).
  { injection H as <- <-. split; [done|]. split; [done|]. left. split; [done|]. intros v Hv. cbn in Hv.
    unfold key_lookup, of_option in Hv. destruct (vs_views s !! _); [by injection Hv as ->|done]. }
  unfold validated in H. destruct (EvidenceApplicationEvent_ok _); cbn -[_reduce_view] in H; [|injection H as <- <-; split; [done|]; split; [done|]; by left].
  unfold key_lookup, of_option in H. destruct (vs_queries s !! key) as [q|] eqn:Eq;
    [|injection H as <- <-; split; [done|]; split; [done|]; by left].
  set (e := sealed _ _) in H. destruct (_reduce_view _ e q) as [v|x] eqn:Er;
    injection H as <- <-; (split; [done|]); [|split; [done|]; by left].
  split; [|right; by exists e, q, v].
  destruct Hs as [H1 H2 H3].
  assert (Ee : ∀ k, default [] (vs_events (put_view key v (put_events key (events ++ [e]) (put_events key events s))) !! k)
    = if decide (k = key) then events ++ [e] else default [] (vs_events s !! k)).
  { intros k. cbn. destruct (decide (k = key)) as [->|Hne]; [by rewrite lookup_insert_eq|]. by rewrite !lookup_insert_ne. }
  split; [done| |]; intros k; rewrite Ee.
  - intros w Hw. cbn in Hw. destruct (decide (k = key)) as [->|Hne].
    + rewrite lookup_insert_eq in Hw. injection Hw as <-. exists q. split; [done|].
      assert (Hf : foldM (rebuild_step (Some q)) (None, _ZERO_HASH) events = Ok (vs_views s !! key, last_hash events)).
      { destruct (vs_views s !! key) as [v0|] eqn:Ev.
        - destruct (H2 _ _ Ev) as (q' & Hq' & Hf). rewrite Eq in Hq'. by injection Hq' as <-.
        - subst events. by rewrite (H3 _ Ev). }
      rewrite foldM_app, Hf, last_hash_snoc.
      change (foldM (rebuild_step (Some q)) (vs_views s !! key, last_hash events) [e] = Ok (Some v, ee_record_hash e)).
      unfold foldM. by rewrite (rebuild_step_ok q (_, last_hash events) e v eq_refl eq_refl Er).
    + rewrite lookup_insert_ne in Hw by done. by destruct (H2 k w Hw) as (q' & Hq' & Hf); exists q'.
  - intros Hw. cbn in Hw. destruct (decide (k = key)) as [->|Hne]; [by rewrite lookup_insert_eq in Hw|].
    rewrite lookup_insert_ne in Hw by done. by apply H3.
Qed.

(** ** What an operation may do

    Terminal views, the counts of the pages and the stored bundles stay; [page] is the query and
    the number of records of the page the operation completes. *)

Definition completed_stored (s : evidence_store) : Prop :=
  ∀ key v, vs_views s !! key = Some v → qv_status v = QS_COMPLETED → is_Some (vs_bundles s !! key).

Record store_step (page : option ((string * string) * Z)) (s s' : evidence_store) : Prop := {
  sp_sound : store_sound s';
  sp_done : completed_stored s';
  sp_intents p : is_Some (vs_page_intents s !! p) → is_Some (vs_page_intents s' !! p);
  sp_bundles key b : vs_bundles s !! key = Some b → vs_bundles s' !! key = Some b;
  sp_kept key v : vs_views s !! key = Some v → ∃ v', vs_views s' !! key = Some v' ∧ (terminal v → v' = v) ∧
    (counts v' = counts v ∨ ∃ n, page = Some (key, n) ∧ counts v' = (qv_page_count v + 1, qv_record_count v + n));
  sp_new key v : vs_views s !! key = None → vs_views s' !! key = Some v → counts v = (0, 0)
}.

Definition well_kept (s : evidence_store) : Prop := store_sound s ∧ completed_stored s.

(** The part of an operation before it appends *)
Record prepared (s s1 : evidence_store) : Prop := {
  pr_sound : store_sound s1;
  pr_views : vs_views s1 = vs_views s;
  pr_intents p : is_Some (vs_page_intents s !! p) → is_Some (vs_page_intents s1 !! p);
  pr_bundles key b : vs_bundles s !! key = Some b → vs_bundles s1 !! key = Some b
}.

Lemma prepared_kept s s1 page : well_kept s → prepared s s1 → store_step page s s1.
Proof.
  intros [Hs Hd] [H1 H2 H3 H4]. split; [done| |done|done| |].
  - intros key v. rewrite H2. intros Hv Hc. destruct (Hd key v Hv Hc) as [b Hb]. exists b. by apply H4.
  - intros key v Hv. rewrite H2. exists v. split_and!; [done|done|by left].
  - intros key v. rewrite H2. intros -> Hn. done.
Qed.

Lemma prepared_refl s : store_sound s → prepared s s.
Proof. by split. Qed.

Lemma store_step_refl s : well_kept s → store_step None s s.
Proof. intros H. apply prepared_kept; [done|]. apply prepared_refl, H. Qed.

Lemma append_step page t qid et op now p s s1 r s' :
  well_kept s → prepared s s1 → _append t qid et op now p s1 = (r, s') →
  (et = "evidence.page.completed" → page = Some ((t, qid), page_records (py_sorted key_leb p))) →
  (et = "evidence.query.completed" → is_Some (vs_bundles s1 !! (t, qid))) →
  store_step page s s' ∧ (∀ v, r = Ok v → vs_views s' !! (t, qid) = Some v) ∧ side s' = side s1.
Proof.
  intros Hk Hp H Hpage Hdone. destruct (prepared_kept s s1 page Hk Hp) as [_ Hd _ _ _ _]. destruct Hp as [H1 H2 H3 H4].
  destruct (append_cases _ _ _ _ _ _ _ _ _ H1 H) as (Hside & Hs' & Hc).
  injection Hside as E1 E2 E3 E4 E5 E6. rewrite H2 in Hc. destruct Hc as [[Ev Hr]|(e & q & v & Het & Hpl & Hv & -> & Ev)].
  - split; [|split; [intros v Hv; rewrite Ev; by apply Hr|unfold side; congruence]].
    apply prepared_kept; [done|]. split; [done|done| |]; intros *; rewrite ?E2, ?E6; auto.
  - split; [|split; [intros v' [= <-]; rewrite Ev; by rewrite lookup_insert_eq|unfold side; congruence]].
    split; [done| |by intros p0; rewrite E2; apply H3|by intros key b; rewrite E6; apply H4| |]; intros key w; rewrite Ev.
    + rewrite E6. intros Hw Hst. destruct (decide ((t, qid) = key)) as [<-|Hne].
      * rewrite lookup_insert_eq in Hw. injection Hw as <-. destruct (vs_views s !! (t, qid)) as [v0|] eqn:E0.
        -- destruct (reduce_steps _ _ _ _ Hv) as (_ & _ & Hq). destruct (Hq Hst) as [->|Hq']; [|apply Hdone; congruence].
           apply (Hd (t, qid) v0); [by rewrite H2|done].
        -- apply view_starts in Hv as ->. done.
      * rewrite lookup_insert_ne in Hw by done. apply (Hd key w); [by rewrite H2|done].
    + intros Hw. destruct (decide ((t, qid) = key)) as [<-|Hne].
      * exists v. rewrite lookup_insert_eq. rewrite Hw in Hv. destruct (reduce_steps _ _ _ _ Hv) as (Ht & Hn & _).
        split; [done|]. split; [done|]. destruct Hn as [Hn|[Hn1 Hn2]]; [by left|]. right.
        exists (page_records (py_sorted key_leb p)). rewrite <- Hpl. split; [|done]. rewrite Hpl. apply Hpage. congruence.
      * exists w. rewrite lookup_insert_ne by done. split_and!; [done|done|by left].
    + intros Hw Hv'. destruct (decide ((t, qid) = key)) as [<-|Hne].
      * rewrite lookup_insert_eq in Hv'. injection Hv' as <-. rewrite Hw in Hv. by apply view_starts in Hv as ->.
      * rewrite lookup_insert_ne in Hv' by done. congruence.
Qed.

Lemma raise_if_cases b k msg : raise_if b k msg = Ok tt ∧ b = false ∨ raise_if b k msg = Raise (Exn k msg) ∧ b = true.
Proof. destruct b; [by right|by left]. Qed.

Lemma request_step q op s r s' :
  well_kept s → request q op s = (r, s') →
  store_step None s s' ∧ ∀ v, r = Ok v → vs_views s' !! key_of q = Some v.
Proof.
  intros Hk H. unfold request, mbind, M_bind, get, lift, modify in H. destruct (vs_queries s !! key_of q) as [existing|] eqn:Eq.
  - destruct (raise_if_cases (bool_decide (query_digest existing ≠ query_digest q)) IdempotencyConflict
      "evidence query id was reused with different input") as [[E _]|[E _]]; rewrite E in H; injection H as <- <-;
      (split; [by apply store_step_refl|]); [|done].
    unfold key_lookup, of_option. intros v. destruct (vs_views s !! key_of q); [by intros [= ->]|done].
  - assert (Hp : prepared s (put_query (key_of q) q s)).
    { destruct Hk as [[S1 S2 S3] _]. split; [|done|done|done]. split; cbn; [| |by apply S3].
      + intros key q'. destruct (decide (key_of q = key)) as [<-|Hne]; [rewrite lookup_insert_eq; by intros [= <-]|].
        rewrite lookup_insert_ne by done. apply S1.
      + intros key v Hv. destruct (S2 key v Hv) as (q' & Hq' & Hf). exists q'. split; [|done].
        rewrite lookup_insert_ne; [done|]. intros <-. congruence. }
    destruct (append_step None _ _ _ _ _ _ _ _ _ _ Hk Hp H) as (H1 & H2 & _); [done|done|by split].
Qed.

Lemma begin_page_step t qid n op c now s r s' :
  well_kept s → begin_page t qid n op c now s = (r, s') →
  store_step None s s' ∧
  (r = Ok true → vs_page_intents s !! (t, qid, n) = None ∧ is_Some (vs_page_intents s' !! (t, qid, n)) ∧
     is_Some (vs_views s' !! (t, qid))).
Proof.
  intros Hk H. unfold begin_page, mbind, M_bind, get, lift, modify in H.
  destruct (bool_decide (_ ∈ vs_page_results s)); [injection H as <- <-; by split; [apply store_step_refl|]|].
  destruct (raise_if_cases (bool_decide (is_Some (vs_page_intents s !! (t, qid, n)))) ReconciliationRequired
    "evidence page has unresolved external-call intent") as [[E En]|[E _]]; rewrite E in H;
    [|injection H as <- <-; by split; [apply store_step_refl|]].
  apply bool_decide_eq_false in En. rewrite <- eq_None_not_Some in En.
  destruct (_append _ _ _ _ _ _ _) as [ra sa] eqn:Ea in H.
  assert (Hp : prepared s (put_intent (t, qid, n) op s)).
  { destruct Hk as [[S1 S2 S3] _]. split; [done|done| |done]. cbn. intros p Hp.
    destruct (decide ((t, qid, n) = p)) as [<-|Hne]; [by rewrite lookup_insert_eq|by rewrite lookup_insert_ne]. }
  destruct (append_step None _ _ _ _ _ _ _ _ _ _ Hk Hp Ea) as (H1 & H2 & H3); [done|done|].
  injection H3 as _ E2 _ _ _ _. destruct ra as [v|x]; injection H as <- <-; (split; [done|]); [|done]. intros _.
  split; [done|]. split; [rewrite E2; cbn; by rewrite lookup_insert_eq|]. exists v. by apply H2.
Qed.

Lemma fail_query_step t qid op code st now s r s' :
  well_kept s → fail_query t qid op code st now s = (r, s') → store_step None s s'.
Proof.
  intros Hk H. unfold fail_query, mbind, M_bind, lift in H.
  destruct (raise_if_cases (bool_decide (st ∉ [QS_CANCELLED; QS_FAILED; QS_RECONCILIATION_REQUIRED; QS_STALE])) ValueError
    "invalid evidence query failure status") as [[E En]|[E _]]; rewrite E in H;
    [|injection H as <- <-; by apply store_step_refl].
  eapply append_step; [done|apply prepared_refl, Hk|exact H|by destruct st..].
Qed.

Lemma complete_query_step q op b now s r s' :
  well_kept s → complete_query q op b now s = (r, s') →
  store_step None s s' ∧
  ∀ v, r = Ok v → ∃ b', vs_bundles s' !! key_of q = Some b' ∧ bu_bundle_digest b' = bu_bundle_digest b.
Proof.
  intros Hk H. unfold complete_query, mbind, M_bind, get, lift, modify in H. destruct (vs_bundles s !! key_of q) as [existing|] eqn:Eb.
  - destruct (raise_if_cases (bool_decide (bu_bundle_digest existing ≠ bu_bundle_digest b)) IdempotencyConflict
      "evidence bundle result changed") as [[E En]|[E _]]; rewrite E in H; injection H as <- <-;
      (split; [by apply store_step_refl|]); [|done].
    intros v _. exists existing. split; [done|]. by apply bool_decide_eq_false, dec_stable in En.
  - assert (Hp : prepared s (put_cursor (key_of q) None (put_bundle (key_of q) b s))).
    { destruct Hk as [[S1 S2 S3] _]. split; [done|done|done|]. cbn. intros key b' Hb.
      rewrite lookup_insert_ne; [done|]. intros <-. congruence. }
    destruct (append_step None _ _ _ _ _ _ _ _ _ _ Hk Hp H) as (H1 & H2 & H3); [done| |].
    + intros _. cbn. by rewrite lookup_insert_eq.
    + split; [done|]. intros v _. injection H3 as _ _ _ _ _ E6. exists b. rewrite E6. cbn. by rewrite lookup_insert_eq.
Qed.

Lemma page_append page q n p s s1 r s' et op now :
  well_kept s → prepared s s1 → page_records (py_sorted key_leb p) = n → page = Some (key_of q, n) →
  et = "evidence.page.completed" → _append (eq_tenant_id q) (eq_query_id q) et op now p s1 = (r, s') → store_step page s s'.
Proof. intros Hk Hp Hn -> -> H. eapply append_step; [done|done|exact H| |done]. intros _. by subst n. Qed.

Lemma complete_page_step vault nonce q n op evidence next now s r s' :
  well_kept s → complete_page vault nonce q n op evidence next now s = (r, s') →
  store_step (Some (key_of q, zlen evidence)) s s'.
Proof.
  intros Hk H. unfold complete_page in H. unfold mbind, M_bind, get, lift, modify in H. cbn -[_append page_cursor seal] in H.
  destruct (bool_decide (_ ∈ vs_page_results s)); [injection H as <- <-; by apply prepared_kept, prepared_refl, Hk|].
  destruct (raise_if_cases (bool_decide (vs_page_intents s !! (eq_tenant_id q, eq_query_id q, n) ≠ Some op))
    ConcurrencyConflict "evidence page intent is not owned") as [[E En]|[E _]]; rewrite E in H;
    [|injection H as <- <-; by apply prepared_kept, prepared_refl, Hk].
  assert (Hp : ∀ s1, same_ledger s s1 → vs_page_intents s1 = vs_page_intents s → vs_bundles s1 = vs_bundles s → prepared s s1).
  { intros s1 Hl E2 E3. split; [eapply same_ledger_sound; [exact Hl|apply Hk]|apply Hl|by rewrite E2|by rewrite E3]. }
  destruct next as [next|].
  - destruct (page_cursor q n next now) as [cursor|x]; [|injection H as <- <-; by apply prepared_kept, Hp].
    destruct (seal _ _ _ _ _) as [text|x]; [|injection H as <- <-; by apply prepared_kept, Hp].
    unfold mret, M_ret in H. destruct (_append _ _ _ _ _ _ _) as [ra sa] eqn:Ea in H. destruct ra; injection H as <- <-;
      (eapply page_append; [done| | | | |exact Ea]; [by apply Hp|done..]).
  - unfold mret, M_ret in H. destruct (_append _ _ _ _ _ _ _) as [ra sa] eqn:Ea in H. destruct ra; injection H as <- <-;
      (eapply page_append; [done| | | | |exact Ea]; [by apply Hp|done..]).
Qed.
End store.

(** ** Threads *)

Section threads.
Context {HDigest : Digest} {HFloat : FloatJson} {HAead : Aead} (vault : string) (queries : list EvidenceQuery).

(** Pages that were started have an intent, pages that were fetched were started by the thread that
    fetched them, and no view exceeds the bounds of the query of the thread that started its first page. *)
Record collectors_sound (w : collector_world) : Prop := {
  ws_store : well_kept (vw_store w);
  ws_started p i : vw_started w !! p = Some i → is_Some (vs_page_intents (vw_store w) !! p);
  ws_once : NoDup (vw_fetched w).*2;
  ws_fetched i p : (i, p) ∈ vw_fetched w → vw_started w !! p = Some i ∧
    ∃ q, queries !! i = Some q ∧ key_of q = p.1 ∧ 1 <= p.2 <= eb_maximum_pages (eq_bounds q);
  ws_within key v : vs_views (vw_store w) !! key = Some v → counts v = (0, 0) ∨
    ∃ i q, vw_started w !! (key, 1) = Some i ∧ queries !! i = Some q ∧ key_of q = key ∧
      qv_page_count v <= eb_maximum_pages (eq_bounds q) ∧ qv_record_count v <= eb_maximum_records (eq_bounds q)
}.

(** What thread [i] does to the world: only the thread that started the first page of a query
    moves its counts. *)
Record collects (i : nat) (w w' : collector_world) : Prop := {
  cg_started p j : vw_started w !! p = Some j → vw_started w' !! p = Some j;
  cg_fetched j p : (j, p) ∈ vw_fetched w' → (j, p) ∈ vw_fetched w ∨ j = i;
  cg_views key v : vs_views (vw_store w) !! key = Some v → ∃ v', vs_views (vw_store w') !! key = Some v' ∧
    (terminal v → v' = v) ∧ (counts v' = counts v ∨ vw_started w !! (key, 1) = Some i);
  cg_bundles key b : vs_bundles (vw_store w) !! key = Some b → vs_bundles (vw_store w') !! key = Some b
}.

Lemma collects_refl i w : collects i w w.
Proof. split; [done|by left| |done]. intros key v Hv. exists v. split_and!; [done|done|by left]. Qed.

Lemma put_store_id w : put_store (vw_store w) w = w.
Proof. by destruct w. Qed.

(** An operation of the store that completes no page, or the next page of a query within its bounds *)
Lemma store_moves i page w s' :
  collectors_sound w → store_step page (vw_store w) s' →
  (∀ key n, page = Some (key, n) → vw_started w !! (key, 1) = Some i ∧ ∃ q, queries !! i = Some q ∧ key_of q = key ∧
     ∀ v, vs_views (vw_store w) !! key = Some v →
       qv_page_count v + 1 <= eb_maximum_pages (eq_bounds q) ∧ qv_record_count v + n <= eb_maximum_records (eq_bounds q)) →
  collectors_sound (put_store s' w) ∧ collects i w (put_store s' w).
Proof.
  intros [W1 W2 W3 W4 W5] [S1 S2 S3 S4 S5 S6] Hpage. split; [split; cbn|split; cbn].
  - done.
  - intros p j Hp. eapply S3, W2, Hp.
  - done.
  - done.
  - intros key v' Hv'. destruct (vs_views (vw_store w) !! key) as [v|] eqn:Ev; [|left; by eapply S6].
    destruct (S5 key v Ev) as (v1 & Hv1 & _ & Hc). rewrite Hv' in Hv1. injection Hv1 as <-.
    destruct Hc as [[= Hc1 Hc2]|(n & Hn & [= Hc1 Hc2])].
    + rewrite Hc1, Hc2. by apply W5.
    + destruct (Hpage key n Hn) as (Ho & q & Hq1 & Hq2 & Hq3). destruct (Hq3 v Ev) as [H1 H2].
      right. exists i, q. rewrite Hc1, Hc2. by split_and!.
  - done.
  - by left.
  - intros key v Hv. destruct (S5 key v Hv) as (v' & Hv' & Ht & Hc). exists v'. split; [done|]. split; [done|].
    destruct Hc as [Hc|(n & Hn & _)]; [by left|right]. by apply (Hpage key n Hn).
  - done.
Qed.

Lemma store_calm w s' :
  collectors_sound w → store_step None (vw_store w) s' →
  collectors_sound (put_store s' w) ∧ ∀ i, collects i w (put_store s' w).
Proof.
  intros Hw Hs. split; [by apply (store_moves 0 None)|]. intros i. by apply (store_moves i None).
Qed.

(** The operations that start, fetch and complete no page *)
Definition mild {R : Set} (o : collector_op R) : bool :=
  match o with BeginPage _ _ _ _ _ _ | FetchPage _ _ _ | CompletePage _ _ _ _ _ _ => false | _ => true end.

Abbreviation handle := (collector_handle vault).

Lemma on_store_eq {A} (m : M evidence_store A) w : on_store m w = ((m (vw_store w)).1, put_store (m (vw_store w)).2 w).
Proof. unfold on_store. by destruct (m (vw_store w)). Qed.

Lemma mild_moves e i (R : Set) (o : collector_op R) w :
  mild o → collectors_sound w →
  collectors_sound (handle e i R o w).2 ∧ ∀ j, collects j w (handle e i R o w).2.
Proof.
  intros Hm Hw. destruct o; try done; cbn [collector_handle]; try (split; [done|intros; apply collects_refl]).
  all: rewrite on_store_eq; cbn; apply store_calm; [done|].
  - destruct (request _ _ _) as [r s'] eqn:E. by eapply request_step; [apply Hw|].
  - destruct (complete_query _ _ _ _ _) as [r s'] eqn:E. by eapply complete_query_step; [apply Hw|].
  - destruct (fail_query _ _ _ _ _ _ _) as [r s'] eqn:E. by eapply fail_query_step; [apply Hw|].
Qed.

Definition collects_safely {A : Set} (i : nat) (p : Collect A) (P : collector_world → Prop) (Q : A → collector_world → Prop) : Prop :=
  safe handle collectors_sound (λ _, True) collects i p P Q (λ _ _, True).

Abbreviation lasts i P := (stable collectors_sound collects i P).

Lemma lasts_and i P Q : lasts i P → lasts i Q → lasts i (λ w, P w ∧ Q w).
Proof. intros HP HQ w w' Hw [Hp Hq] Hr. split; [by eapply HP|by eapply HQ]. Qed.

Lemma lasts_pure i φ : lasts i (λ _, φ).
Proof. by intros w w' _ H _. Qed.

Lemma lasts_moves i P w w' : lasts i P → collectors_sound w → collectors_sound w' → (∀ j, collects j w w') → P w → P w'.
Proof. intros HP Hw Hw' Hj Hp. eapply HP; [exact Hw|done|]. split; [done|]. right. exists (S i). split; [lia|done]. Qed.

Lemma c_mild {A R : Set} i (o : collector_op R) (k : R → Collect A) P (P' : R → collector_world → Prop) Q :
  mild o → lasts i P → (∀ r, lasts i (P' r)) →
  (∀ e w, collectors_sound w → P w → P' (handle e i R o w).1 (handle e i R o w).2) →
  (∀ r, collects_safely i (k r) (λ w, P w ∧ P' r w) Q) → collects_safely i (Do o k) P Q.
Proof.
  intros Hm HP HP' Ho Hk. apply (safe_do handle) with (P' := λ r w, P w ∧ P' r w).
  - intros r. by apply lasts_and.
  - intros e w _ Hw Hp. destruct (mild_moves e i R o w Hm Hw) as [H1 H2]. split_and!; [|by apply Ho|done|done].
    by apply (lasts_moves i P w).
  - exact Hk.
Qed.

Lemma c_weaken {A : Set} i (p : Collect A) (P1 P2 : collector_world → Prop) Q :
  (∀ w, P1 w → P2 w) → collects_safely i p P2 Q → collects_safely i p P1 Q.
Proof. intros HP H. eapply safe_weaken; [exact H| |done|done]. auto. Qed.

Lemma c_skip {A R : Set} i (o : collector_op R) (k : R → Collect A) P Q :
  mild o → lasts i P → (∀ r, collects_safely i (k r) P Q) → collects_safely i (Do o k) P Q.
Proof.
  intros Hm HP Hk. apply c_mild with (P' := λ _ _, True); [done|done|intros; apply lasts_pure|done|].
  intros r. eapply c_weaken; [|apply Hk]. by intros w [? _].
Qed.

(** ... whose answer may be an exception *)
Lemma c_call {A R : Set} i (o : collector_op (res R)) (k : R → Collect A) P Q :
  mild o → lasts i P → (∀ r, collects_safely i (k r) P Q) → collects_safely i (then_ (collect_call o) k) P Q.
Proof. intros Hm HP Hk. apply c_skip; [done|done|]. intros [a|x]; [apply Hk|done]. Qed.

Lemma c_res {A R : Set} i (r : res R) (k : R → Collect A) P Q :
  (∀ a, r = Ok a → collects_safely i (k a) P Q) → collects_safely i (then_ (collect_res r) k) P Q.
Proof. intros Hk. destruct r as [a|x]; [by apply Hk|done]. Qed.

Lemma c_each {A B : Set} i (f : A → Collect B) P l :
  (∀ x, collects_safely i (f x) P (λ _, P)) → collects_safely i (each f l) P (λ r w, P w ∧ length r = length l).
Proof.
  intros Hf. induction l as [|x l IH]; [by intros w _ Hp|]. apply (safe_then handle) with (Q := λ _, P); [apply Hf|].
  intros b. apply (safe_then handle) with (Q := λ r w, P w ∧ length r = length l); [exact IH|].
  intros bs w _ [Hp Hl]. split; [done|]. cbn. by rewrite Hl.
Qed.

(** ** The thread of a query *)

Section thread.
Context (i : nat) (q : EvidenceQuery).

Let key := key_of q.

(** The thread has fetched no page after [a]; it owns the query and counted at most [n] pages and
    [r] records; it started the page after [a]. *)
Definition knows (a n r : Z) (owner began : bool) (w : collector_world) : Prop :=
  (∀ m, (i, (key, m)) ∈ vw_fetched w → m <= a) ∧
  (owner → vw_started w !! (key, 1) = Some i ∧
     ∃ v, vs_views (vw_store w) !! key = Some v ∧ qv_page_count v <= n ∧ qv_record_count v <= r) ∧
  (began → vw_started w !! (key, a + 1) = Some i).

Lemma knows_lasts a n r owner began : lasts i (knows a n r owner began).
Proof.
  intros w w' Hw (H1 & H2 & H3) [Hw' [->|(j & Hj & [G1 G2 G3 G4])]]; [done|]. split_and!.
  - intros m Hm. apply G2 in Hm as [Hm| ->]; [by apply H1|done].
  - intros Ho. destruct (H2 Ho) as (Hs & v & Hv & Hn & Hr). split; [by apply G1|].
    destruct (G3 key v Hv) as (v' & Hv' & _ & Hc). exists v'. split; [done|].
    destruct Hc as [[= -> ->]|Hc]; [done|]. rewrite Hs in Hc. by injection Hc as ->.
  - intros Hb. by apply G1, H3.
Qed.

Lemma knows_more a n r r' owner began w : r <= r' → knows a n r owner began w → knows a n r' owner began w.
Proof.
  intros Hr (H1 & H2 & H3). split_and!; [done| |done]. intros Ho. destruct (H2 Ho) as (Hs & v & Hv & Hn & Hv').
  split; [done|]. exists v. split_and!; [done|done|lia].
Qed.
End thread.

(** A page is begun: nobody else has it. *)
Lemma begin_moves e i t qid n op c now w :
  collectors_sound w →
  let rw := handle e i _ (BeginPage t qid n op c now) w in
  collectors_sound rw.2 ∧ collects i w rw.2 ∧ vw_fetched rw.2 = vw_fetched w ∧
  (rw.1 = Ok true → vw_started w !! (t, qid, n) = None ∧ vw_started rw.2 !! (t, qid, n) = Some i ∧
     ∃ v, vs_views (vw_store rw.2) !! (t, qid) = Some v ∧
       match vs_views (vw_store w) !! (t, qid) with Some v0 => counts v = counts v0 | None => counts v = (0, 0) end).
Proof.
  intros Hw. cbn. rewrite on_store_eq. destruct (begin_page _ _ _ _ _ _ _) as [r s'] eqn:E. cbn.
  destruct (begin_page_step _ _ _ _ _ _ _ _ _ (ws_store _ Hw) E) as [Hs Hb].
  destruct (store_calm w s' Hw Hs) as [Hw' Hc]. destruct r as [[]|x]; [|by split_and!..].
  destruct (Hb eq_refl) as (Hn & Hi & v & Hv).
  assert (Hfree : vw_started w !! (t, qid, n) = None).
  { destruct (vw_started w !! _) as [j|] eqn:Es; [|done]. apply (ws_started _ Hw) in Es. rewrite Hn in Es. by destruct Es. }
  assert (Hkeep : ∀ p j, vw_started w !! p = Some j → <[(t, qid, n):=i]> (vw_started w) !! p = Some j).
  { intros p j Hp. rewrite lookup_insert_ne; [done|]. intros <-. congruence. }
  destruct Hw' as [W1 W2 W3 W4 W5]. destruct (Hc i) as [C1 C2 C3 C4]. cbn in *. split_and!; [| |done|].
  - split; cbn; [done| |done| |].
    + intros p j. destruct (decide ((t, qid, n) = p)) as [<-|Hne]; [done|]. rewrite lookup_insert_ne by done. apply W2.
    + intros j p Hp. destruct (W4 j p Hp) as [Hst Hp']. split; [by apply Hkeep|done].
    + intros key v' Hv'. destruct (W5 key v' Hv') as [H|(j & q & Hj & H)]; [by left|right]. exists j, q. split; [by apply Hkeep|done].
  - by split.
  - intros _. split; [done|]. split; [by rewrite lookup_insert_eq|]. exists v. split; [done|].
    destruct (vs_views (vw_store w) !! (t, qid)) as [v0|] eqn:Ev; [|by eapply sp_new].
    destruct (sp_kept _ _ _ Hs _ _ Ev) as (v1 & Hv1 & _ & Hcn). rewrite Hv in Hv1. injection Hv1 as <-.
    by destruct Hcn as [Hcn|(m & Hm & _)].
Qed.

Section thread_steps.
Context (i : nat) (q : EvidenceQuery) (Hq : queries !! i = Some q).

Let key := key_of q.

Lemma begin_knows e n r op c now w :
  collectors_sound w → 0 <= n → 0 <= r → knows i q n n r (0 <? n) false w →
  let rw := handle e i _ (BeginPage (eq_tenant_id q) (eq_query_id q) (n + 1) op c now) w in
  rw.1 = Ok true → knows i q n n r true true rw.2.
Proof.
  intros Hw Hn Hr (K1 & K2 & _) rw Hok.
  destruct (begin_moves e i (eq_tenant_id q) (eq_query_id q) (n + 1) op c now w Hw) as (_ & B2 & B3 & B4).
  destruct (B4 Hok) as (Hfree & Hst & v & Hv & Hc). fold rw in B2, B3, Hst, Hv. split_and!; [by rewrite B3| |done].
  intros _. destruct (Z.ltb_spec 0 n) as [Hpos|Hpos].
  - destruct (K2 I) as (Hs & v0 & Hv0 & H1 & H2). split; [by eapply cg_started|]. exists v. split; [done|].
    unfold key_of in Hv0. rewrite Hv0 in Hc. by injection Hc as -> ->.
  - assert (n = 0) as -> by lia. change (0 + 1) with 1 in Hfree, Hst. split; [done|]. exists v. split; [done|].
    assert (counts v = (0, 0)) as [= -> ->]; [|lia].
    destruct (vs_views (vw_store w) !! _) as [v0|] eqn:Ev; [|done]. rewrite Hc.
    destruct (ws_within _ Hw _ _ Ev) as [H|(j & q' & Hj & _)]; [done|]. rewrite Hfree in Hj. done.
Qed.

Lemma fetch_moves e n r cursor w :
  collectors_sound w → 0 <= n → n + 1 <= eb_maximum_pages (eq_bounds q) → knows i q n n r true true w →
  let rw := handle e i _ (FetchPage q cursor (n + 1)) w in
  collectors_sound rw.2 ∧ collects i w rw.2 ∧ knows i q (n + 1) n r true false rw.2.
Proof.
  intros [W1 W2 W3 W4 W5] Hn Hmax (K1 & K2 & K3). cbn. split_and!.
  - split; cbn; [done|done| | |done].
    + rewrite fmap_app. apply NoDup_app. split; [done|]. split; [|apply NoDup_singleton].
      intros p Hp Hin. apply list_elem_of_singleton in Hin. cbn in Hin. subst p.
      apply list_elem_of_fmap in Hp as ([j p] & Hp1 & Hp2). cbn in Hp1. subst p.
      destruct (W4 _ _ Hp2) as [Hj _]. specialize (K3 I). unfold key_of in K3. rewrite Hj in K3. injection K3 as ->.
      specialize (K1 _ Hp2). lia.
    + intros j p Hp. apply elem_of_app in Hp as [Hp|Hp]; [by apply W4|]. apply list_elem_of_singleton in Hp.
      injection Hp as -> ->. split; [by apply K3|]. exists q. split_and!; [done|done|cbn; lia|cbn; lia].
  - split; cbn; [done| | |done].
    + intros j p Hp. apply elem_of_app in Hp as [Hp|Hp]; [by left|right]. apply list_elem_of_singleton in Hp. by injection Hp.
    + intros k v Hv. exists v. split_and!; [done|done|by left].
  - split_and!; cbn; [|done|done]. intros m Hm. apply elem_of_app in Hm as [Hm|Hm]; [specialize (K1 _ Hm); lia|].
    apply list_elem_of_singleton in Hm. injection Hm as ->. lia.
Qed.

Lemma complete_moves e n r op evidence next now w :
  collectors_sound w → n + 1 <= eb_maximum_pages (eq_bounds q) → r + zlen evidence <= eb_maximum_records (eq_bounds q) →
  knows i q (n + 1) n r true false w →
  let rw := handle e i _ (CompletePage q (n + 1) op evidence next now) w in
  collectors_sound rw.2 ∧ collects i w rw.2 ∧ knows i q (n + 1) (n + 1) (r + zlen evidence) true false rw.2.
Proof.
  intros Hw Hn Hr (K1 & K2 & _). cbn. rewrite on_store_eq. destruct (complete_page _ _ _ _ _ _ _ _ _) as [a s'] eqn:E.
  apply complete_page_step in E; [|apply Hw]. cbn. destruct (K2 I) as (Ks & v & Kv & Kn & Kr).
  destruct (store_moves i _ w s' Hw E) as [H1 H2].
  { intros k m [= <- <-]. split; [done|]. exists q. split_and!; [done|done|]. intros v' Hv'. rewrite Kv in Hv'.
    injection Hv' as <-. lia. }
  split_and!; [done|done|]. split_and!; [done| |done]. intros _. split; [done|].
  destruct (sp_kept _ _ _ E _ _ Kv) as (v' & Hv' & _ & Hc). exists v'. split; [done|].
  assert (0 <= zlen evidence) by (unfold zlen; lia).
  destruct Hc as [[= -> ->]|(m & [= <-] & [= -> ->])]; lia.
Qed.

Lemma fail_safe code st op P : lasts i P → collects_safely i (_fail q code st op) P (λ _, P).
Proof.
  intros HP. apply c_skip; [done|done|]. intros now. apply c_call; [done|done|]. intros v w _ Hp. exact Hp.
Qed.

Lemma current_safe P : lasts i P → collects_safely i (_require_current q) P (λ _, P).
Proof.
  intros HP. apply c_skip; [done|done|]. intros current. destruct (match current with Some c => _ | None => _ end); [|by intros w _ Hp].
  apply (safe_then handle) with (Q := λ _, P); [by apply fail_safe|]. by intros u w _ _.
Qed.

Lemma store_page_safe n r op page :
  n + 1 <= eb_maximum_pages (eq_bounds q) → r + zlen (cp_records page) <= eb_maximum_records (eq_bounds q) →
  collects_safely i (store_page q (n + 1) op page) (knows i q (n + 1) n r true false)
    (λ _, knows i q (n + 1) (n + 1) (r + zlen (cp_records page)) true false).
Proof.
  intros Hn Hr. unfold store_page, ingest_page.
  apply (safe_then handle) with (Q := λ l w, knows i q (n + 1) n r true false w ∧ length l = length (py_sorted by_record_id (cp_records page))).
  { apply c_each. intros record. apply c_skip; [done|apply knows_lasts|]. by intros [a|x]; [intros w _ Hk|]. }
  intros l. eapply (safe_pure _ _ _ _ _ _ _ _ _ (length l = length (cp_records page))).
  { intros w _ [_ Hl]. by rewrite Hl, (py_sorted_perm by_record_id). }
  intros Hl. eapply c_weaken; [by intros w [Hk _]; exact Hk|]. apply c_skip; [done|apply knows_lasts|]. intros now.
  intros e w _ Hw Hk. destruct (complete_moves e n r op l (cp_next_cursor page) now w Hw Hn) as (H1 & H2 & H3);
    [unfold zlen in *; by rewrite Hl|done|].
  assert (zlen l = zlen (cp_records page)) as Hz by (unfold zlen; by rewrite Hl). rewrite Hz in H3.
  exists (knows i q (n + 1) (n + 1) (r + zlen (cp_records page)) true false). split; [apply knows_lasts|]. do 3 (split; [done|]).
  destruct (handle _ _ _ _ _).1 as [stored|x]; [|done]. cbn. destruct (cp_next_cursor page); [|by intros w' _ Hk'].
  destruct stored as [c|]; [|done]. apply c_call; [done|apply knows_lasts|]. by intros cursor w' _ Hk'.
Qed.

Lemma pages_safe : ∀ k n cursor r b,
  Z.of_nat n + Z.of_nat k <= eb_maximum_pages (eq_bounds q) → 0 <= r <= eb_maximum_records (eq_bounds q) →
  collects_safely i (collect_pages q (Z.of_nat <$> seq (S n) k) cursor r b)
    (knows i q (Z.of_nat n) (Z.of_nat n) r (0 <? Z.of_nat n) false) (λ _ _, True).
Proof.
  induction k as [|k IH]; intros n cursor r b Hn Hr; [by intros w _ _|]. cbn [seq fmap list_fmap collect_pages].
  apply (safe_then handle) with (Q := λ _, knows i q (Z.of_nat n) (Z.of_nat n) r (0 <? Z.of_nat n) false); [by apply current_safe, knows_lasts|].
  intros _. apply c_skip; [done|apply knows_lasts|]. intros cancelled.
  apply (safe_then handle) with (Q := λ _, knows i q (Z.of_nat n) (Z.of_nat n) r (0 <? Z.of_nat n) false).
  { destruct cancelled; [|by intros w _ Hk]. apply (safe_then handle) with (Q := λ _ _, True); [|by intros].
    eapply c_weaken; [|apply fail_safe, lasts_pure]. done. }
  intros _. apply c_skip; [done|apply knows_lasts|]. intros now.
  assert (Z.of_nat (S n) = Z.of_nat n + 1) as -> by lia.
  intros e w _ Hw Hk. destruct (begin_moves e i (eq_tenant_id q) (eq_query_id q) (Z.of_nat n + 1)
    ("page:" +:+ eq_query_id q +:+ ":" +:+ str_of_int (Z.of_nat n + 1)) (fst <$> cursor) now w Hw) as (B1 & B2 & _ & _).
  pose proof (begin_knows e (Z.of_nat n) r ("page:" +:+ eq_query_id q +:+ ":" +:+ str_of_int (Z.of_nat n + 1)) (fst <$> cursor) now w
    Hw ltac:(lia) ltac:(lia) Hk) as B3. cbv zeta in B3.
  destruct (handle e i _ (BeginPage _ _ _ _ _ _) w) as [[[]|x] w1]; cbn [fst snd then_ collect_res] in *.
  2: { exists (λ _, True). split; [apply lasts_pure|]. do 3 (split; [done|]).
       apply c_call; [done|apply lasts_pure|]. intros [c|]; by intros w' _ _. }
  2: { exists (λ _, True). split; [apply lasts_pure|]. by do 3 (split; [done|]). }
  exists (knows i q (Z.of_nat n) (Z.of_nat n) r true true). split; [apply knows_lasts|]. split; [by apply B3|]. do 2 (split; [done|]).
  (* the page *)
  intros e2 w2 _ Hw2 Hk2. destruct (fetch_moves e2 (Z.of_nat n) r (snd <$> cursor) w2 Hw2) as (F1 & F2 & F3); [lia|lia|done|].
  exists (knows i q (Z.of_nat n + 1) (Z.of_nat n) r true false). split; [apply knows_lasts|]. do 3 (split; [done|]).
  destruct (handle e2 i _ (FetchPage _ _ _) w2).1 as [page|x]; [|done]. cbn [then_ collect_res].
  apply (safe_then handle) with (Q := λ _, knows i q (Z.of_nat n + 1) (Z.of_nat n) r true false); [by apply current_safe, knows_lasts|].
  intros _. apply c_res. intros [] Hb. apply raise_if_ok, orb_false_iff in Hb as [Hb _]. apply Z.ltb_ge in Hb.
  apply (safe_then handle) with (Q := λ _, knows i q (Z.of_nat n + 1) (Z.of_nat n + 1) (r + zlen (cp_records page)) true false).
  { apply store_page_safe; lia. }
  intros [next|]; [|by intros w3 _ _]. assert (0 <= zlen (cp_records page)) by (unfold zlen; lia).
  eapply c_weaken; [|apply IH; lia]. intros w3 Hk3. replace (Z.of_nat (S n)) with (Z.of_nat n + 1) by lia.
  by destruct (Z.ltb_spec 0 (Z.of_nat n + 1)); [|lia].
Qed.

(** What a thread that returns a bundle knows *)
Definition bundled (b : EvidenceBundle) (w : collector_world) : Prop :=
  ∃ b', vs_bundles (vw_store w) !! key = Some b' ∧ bu_bundle_digest b' = bu_bundle_digest b.

Lemma bundled_lasts b : lasts i (bundled b).
Proof. intros w w' _ (b' & Hb & Hd) [_ [->|(j & _ & Hg)]]; [by exists b'|]. exists b'. split; [by eapply cg_bundles|done]. Qed.

Lemma finish_safe u : collects_safely i (finish_query q u) (λ _, True) bundled.
Proof.
  unfold finish_query. apply c_skip; [done|apply lasts_pure|]. intros all. apply c_skip; [done|apply lasts_pure|].
  intros created_at. apply c_res. intros b Hb.
  apply c_mild with (P' := λ r, match r with Ok _ => bundled b | Raise _ => λ _, True end); [done|apply lasts_pure| | |].
  - intros [a|x]; [apply bundled_lasts|apply lasts_pure].
  - intros e w Hw _. cbn. rewrite on_store_eq. destruct (complete_query _ _ _ _ _) as [[v|x] s'] eqn:E; [|done]. cbn.
    apply complete_query_step in E as [_ E]; [|apply Hw]. by apply (E v).
  - intros [v|x]; [|done]. by intros w _ [_ Hw].
Qed.

Lemma error_safe x : collects_safely i (on_collect_error q x) (λ _, True) bundled.
Proof.
  assert (Hf : ∀ code st op, collects_safely i (_fail q code st op ;;' Throw x : Collect EvidenceBundle) (λ _, True) bundled).
  { intros code st op. apply (safe_then handle) with (Q := λ _ _, True); [apply fail_safe, lasts_pure|done]. }
  unfold on_collect_error. destruct (decide _); [apply Hf|]. destruct (decide _); [|done].
  apply c_skip; [done|apply lasts_pure|]. intros [v|]; [|apply Hf]. by destruct (decide _); [|apply Hf].
Qed.

Lemma collect_safe :
  eb_maximum_pages (eq_bounds q) = Z.of_nat (Z.to_nat (eb_maximum_pages (eq_bounds q))) → 0 <= eb_maximum_records (eq_bounds q) →
  collects_safely i (_collect q) (knows i q 0 0 0 false false) bundled.
Proof.
  intros Hp Hr. unfold _collect. apply c_call; [done|apply knows_lasts|]. intros view. destruct (decide _) as [_|_].
  - eapply c_weaken with (P2 := λ _, True); [done|].
    apply c_mild with (P' := λ r w, match r with Some b => vs_bundles (vw_store w) !! key = Some b | None => True end);
      [done|apply lasts_pure| | |].
    + intros [b|]; [|apply lasts_pure]. intros w w' _ Hb [_ [->|(j & _ & Hg)]]; [done|by eapply cg_bundles].
    + intros e w Hw _. cbn. by destruct (vs_bundles _ !! _).
    + intros [b|]; [|done]. intros w _ [_ Hb]. by exists b.
  - apply (safe_try handle) with (Q := λ _ _, True) (Z := λ _ _, True); [|apply finish_safe|apply error_safe].
    apply (pages_safe _ 0 None 0 0); lia.
Qed.
End thread_steps.
End threads.

(** ** Cursors *)

(** What AES-GCM documents: decryption undoes encryption, and the tag has 16 bytes. *)
Class AeadLaws `{Aead} := {
  aead_opens key nonce text aad : aead_decrypt key nonce (aead_encrypt key nonce text aad) aad = Some text;
  aead_size key nonce text aad : str_len (aead_encrypt key nonce text aad) = str_len text + 16
}.

Lemma utf8_decode_step c s : utf8_decode (utf8 (String c s)) = String c <$> utf8_decode (utf8 s).
Proof. by destruct c as [[] [] [] [] [] [] [] []]. Qed.

Lemma utf8_decodes s : utf8_decode (utf8 s) = Some s.
Proof. induction s as [|c s IH]; [done|]. by rewrite utf8_decode_step, IH. Qed.

Lemma utf8_injective s t : utf8 s = utf8 t → s = t.
Proof. intros H. pose proof (utf8_decodes s) as Hs. rewrite H, utf8_decodes in Hs. by injection Hs. Qed.

Lemma nul_split a : ∀ a' b b',
  str_forallb is_identifier_char a = true → str_forallb is_identifier_char a' = true →
  a +:+ String "000" b = a' +:+ String "000" b' → a = a' ∧ b = b'.
Proof.
  induction a as [|c a IH]; intros [|c' a'] b b' Ha Ha' H.
  - by injection H.
  - injection H as <- _. done.
  - injection H as -> _. done.
  - change (String c (a +:+ String "000" b) = String c' (a' +:+ String "000" b')) in H. injection H as -> H.
    cbn in Ha, Ha'. apply andb_true_iff in Ha as [_ Ha]. apply andb_true_iff in Ha' as [_ Ha'].
    by destruct (IH a' b b' Ha Ha' H) as [-> ->].
Qed.

Section cursors.
Context {HAead : Aead} {HLaws : AeadLaws} (vault : string).

Lemma seal_ok nonce value t q sealed_value :
  seal vault nonce value t q = Ok sealed_value →
  value ≠ "" ∧ str_len value <= 4096 ∧ str_len nonce = 12 ∧
  sealed_value = nonce +:+ aead_encrypt vault nonce (utf8 value) (cursor_aad t q).
Proof.
  unfold seal. intros H. apply res_bind_ok in H as (u & H1 & H). apply res_bind_ok in H as (u' & H2 & [= <-]).
  apply raise_if_ok, orb_false_iff in H1 as [H1 H1']. apply raise_if_ok, bool_decide_eq_false, dec_stable in H2.
  apply bool_decide_eq_false in H1. apply Z.ltb_ge in H1'. by split_and!.
Qed.

Lemma seal_parts nonce value t q sealed_value :
  seal vault nonce value t q = Ok sealed_value →
  str_take 12 sealed_value = nonce ∧ str_drop 12 sealed_value = aead_encrypt vault nonce (utf8 value) (cursor_aad t q) ∧
  str_len sealed_value = byte_len value + 28.
Proof.
  intros (_ & _ & Hn & ->)%seal_ok. assert (String.length nonce = 12)%nat as Hl by (unfold str_len in Hn; lia).
  rewrite <- Hl, str_take_app, str_drop_app. split_and!; [done|done|].
  unfold byte_len. pose proof (aead_size vault nonce (utf8 value) (cursor_aad t q)) as Hs. unfold str_len in *. rewrite str_app_length. lia.
Qed.

Lemma byte_len_pos value : value ≠ "" → 1 <= byte_len value.
Proof. unfold byte_len, str_len. destruct value as [|c s]; [done|]. intros _. cbn. destruct (_ <? 128)%N; cbn; lia. Qed.

(** A sealed cursor of at most 4100 bytes opens to its value for the tenant and the query it
    was sealed for; if it opens under other ids, the cipher accepted a text under associated data
    it was not encrypted with. *)
Theorem cursors_open_for_their_query nonce value t q sealed_value :
  Identifier t = true → Identifier q = true → seal vault nonce value t q = Ok sealed_value → byte_len value <= 4100 →
  open_cursor vault sealed_value t q = Ok value ∧
  ∀ t' q' value', Identifier t' = true → Identifier q' = true → open_cursor vault sealed_value t' q' = Ok value' →
    (t', q', value') = (t, q, value) ∨
    ∃ aad' text, aad' ≠ cursor_aad t q ∧
      aead_decrypt vault nonce (aead_encrypt vault nonce (utf8 value) (cursor_aad t q)) aad' = Some text.
Proof.
  intros Ht Hq Hs Hlen. destruct (seal_ok _ _ _ _ _ Hs) as (Hne & Hmax & _ & _).
  destruct (seal_parts _ _ _ _ _ Hs) as (Ptake & Pdrop & Plen). pose proof (byte_len_pos value Hne) as Hpos.
  assert (Hopen : open_cursor vault sealed_value t q = Ok value).
  { unfold open_cursor. rewrite Ptake, Pdrop, aead_opens.
    assert ((str_len sealed_value <? 29) || (4128 <? str_len sealed_value) = false) as ->
      by (apply orb_false_iff; split; apply Z.ltb_ge; lia).
    unfold mbind, option_bind. rewrite utf8_decodes. cbn. rewrite bool_decide_eq_false_2 by done.
    by destruct (Z.ltb_spec 4096 (str_len value)); [lia|]. }
  split; [done|]. intros t' q' value' Ht' Hq' Ho. destruct (decide (cursor_aad t' q' = cursor_aad t q)) as [E|Hneq].
  - left. apply utf8_injective, nul_split in E as [-> ->]; [|by apply andb_true_iff in Ht' as [_ ?]|by apply andb_true_iff in Ht as [_ ?]].
    rewrite Hopen in Ho. by injection Ho as ->.
  - right. unfold open_cursor in Ho. apply res_bind_ok in Ho as (u & _ & Ho). apply res_bind_ok in Ho as (d & Hd & _).
    rewrite Ptake, Pdrop in Hd. destruct (aead_decrypt _ _ _ _) as [text|] eqn:E; [|done]. by exists (cursor_aad t' q'), text.
Qed.

(** The two limits count differently, code points when sealing and bytes when opening: a cursor of
    4096 code points can be sealed and never opened. *)
Lemma long_cursors_stay_sealed nonce value t q sealed_value :
  seal vault nonce value t q = Ok sealed_value → 4100 < byte_len value →
  open_cursor vault sealed_value t q = raise IntegrityFailure "encrypted evidence cursor is malformed".
Proof.
  intros (_ & _ & Plen)%seal_parts Hlen. unfold open_cursor.
  assert ((str_len sealed_value <? 29) || (4128 <? str_len sealed_value) = true) as ->; [|done].
  apply orb_true_iff. right. apply Z.ltb_lt. lia.
Qed.
End cursors.

(** ** Promises *)

Section promises.
Context {HDigest : Digest} {HFloat : FloatJson} {HAead : Aead} (vault : string) (queries : list EvidenceQuery).
Context (Hok : Forall (λ q, EvidenceQuery_ok q = true) queries).

Definition collector_result (i : nat) (b : EvidenceBundle) (w : collector_world) : Prop :=
  ∀ q, queries !! i = Some q → bundled q b w.

Abbreviation safe_pool := (pool_safe (collector_handle vault) (collectors_sound queries) (λ _, True) collects
  collector_result (λ _ (_ : exn) _, True)).
Abbreviation ran turns := (run_collectors vault queries turns collector_start).

Lemma query_bounds q : EvidenceQuery_ok q = true → 1 <= eb_maximum_pages (eq_bounds q) ∧ 1 <= eb_maximum_records (eq_bounds q).
Proof.
  unfold EvidenceQuery_ok, EvidenceQuery_fields, EvidenceBounds_ok, EvidenceBounds_fields, in_range.
  rewrite !andb_true_iff, !Z.leb_le. tauto.
Qed.

Lemma collectors_start : safe_pool (_collect <$> queries, collector_start).
Proof.
  split.
  - split; [by split; [apply empty_store_sound|]|done|apply NoDup_nil_2|by intros i p ?%not_elem_of_nil|done].
  - intros i p Hp. cbn in Hp. apply list_lookup_fmap_Some in Hp as (q & -> & Hq).
    rewrite Forall_lookup in Hok. destruct (query_bounds q (Hok i q Hq)) as [H1 H2].
    exists (knows i q 0 0 0 false false). split; [apply knows_lasts|]. split; [by split_and!; [intros m ?%not_elem_of_nil|..]|].
    eapply safe_weaken; [apply (collect_safe vault queries i q Hq); lia|done| |done].
    intros b w _ Hb q' Hq'. rewrite Hq in Hq'. by injection Hq' as <-.
Qed.

Definition any_turn (m : move (W := collector_world) (E := collector_answers)) : Prop :=
  match m with Thread _ _ => True | Outside _ => False end.

Lemma turns_any turns : Forall any_turn ((λ t, Thread t.1 t.2) <$> turns).
Proof. apply Forall_fmap. by apply Forall_forall. Qed.

Lemma collectors_run turns : safe_pool (ran turns).
Proof.
  eapply (run_pool_safe (collector_handle vault) (collectors_sound queries) (λ _, True) collects any_turn); [done|done|apply turns_any|apply collectors_start].
Qed.

Lemma collectors_app turns1 turns2 :
  ran (turns1 ++ turns2) = run_pool (collector_handle vault) ((λ t, Thread t.1 t.2) <$> turns2) (ran turns1).
Proof. unfold run_collectors, run_pool. by rewrite fmap_app, foldl_app. Qed.

Lemma collectors_keep (K : collector_world → Prop) turns1 turns2 :
  (∀ i w w', K w → collects i w w' → K w') → K (ran turns1).2 → K (ran (turns1 ++ turns2)).2.
Proof.
  intros HK Hk. rewrite collectors_app.
  eapply (run_pool_keeps (collector_handle vault) (collectors_sound queries) (λ _, True) collects any_turn); [done|done| |apply turns_any|apply collectors_run|exact Hk].
  intros i w w' _ H Hg. by eapply HK.
Qed.

(** C12: however the collectors of some queries interleave and whatever their ports answer, no page
    of a query is fetched twice, a page is only fetched by a collector of its query and within its
    page bound, and no query counts more pages or records than its bounds allow. *)
Theorem pages_are_fetched_once turns :
  let w := (ran turns).2 in
  NoDup (vw_fetched w).*2 ∧
  (∀ i p, (i, p) ∈ vw_fetched w →
     ∃ q, queries !! i = Some q ∧ key_of q = p.1 ∧ 1 <= p.2 <= eb_maximum_pages (eq_bounds q)) ∧
  (∀ key v, vs_views (vw_store w) !! key = Some v → (qv_page_count v, qv_record_count v) = (0, 0) ∨
     ∃ q, q ∈ queries ∧ key_of q = key ∧ qv_page_count v <= eb_maximum_pages (eq_bounds q) ∧
       qv_record_count v <= eb_maximum_records (eq_bounds q)).
Proof.
  destruct (collectors_run turns) as [[_ _ H3 H4 H5] _]. split; [done|]. split.
  - intros i p Hp. by apply H4.
  - intros key v Hv. destruct (H5 key v Hv) as [H|(i & q & _ & Hq & H)]; [by left|right].
    exists q. split; [by eapply list_elem_of_lookup_2|done].
Qed.

(** C23: whatever the collectors did, the view of a query is what its chained events replay to:
    rebuilding it returns it and changes nothing. *)
Theorem views_are_rebuilt turns t qid v :
  let s := vw_store (ran turns).2 in
  vs_views s !! (t, qid) = Some v → evidence_rebuild t qid s = (Ok v, s).
Proof.
  intros s Hv. destruct (collectors_run turns) as [[[[_ Hf _] _] _ _ _ _] _].
  destruct (Hf _ _ Hv) as (q & Hq & Hr). unfold evidence_rebuild, mbind, M_bind, get, lift, modify.
  fold s in Hq, Hr, Hv. destruct (default [] (vs_events s !! (t, qid))) as [|e l] eqn:E; [done|].
  rewrite bool_decide_eq_false_2 by done. cbn [raise_if]. rewrite Hq, Hr. cbn. f_equal.
  unfold put_view. rewrite insert_id by done. by destruct s.
Qed.

(** What is settled stays: a query that ended keeps its view, whoever collects it again; a
    stored bundle is never replaced; a completed query has one; and a collector that returns a
    bundle returns the stored one, up to its digest. *)
Theorem settled_queries_stay turns1 turns2 :
  let w1 := (ran turns1).2 in let w2 := (ran (turns1 ++ turns2)).2 in
  (∀ key v, vs_views (vw_store w1) !! key = Some v → qv_status v ∈ terminal_statuses →
     vs_views (vw_store w2) !! key = Some v) ∧
  (∀ key b, vs_bundles (vw_store w1) !! key = Some b → vs_bundles (vw_store w2) !! key = Some b) ∧
  (∀ key v, vs_views (vw_store w1) !! key = Some v → qv_status v = QS_COMPLETED → is_Some (vs_bundles (vw_store w1) !! key)) ∧
  (∀ i q b, queries !! i = Some q → (ran turns1).1 !! i = Some (Return b) →
     ∃ b', vs_bundles (vw_store w2) !! key_of q = Some b' ∧ bu_bundle_digest b' = bu_bundle_digest b).
Proof.
  intros w1 w2. destruct (collectors_run turns1) as [[[Hs Hd] _ _ _ _] Hp].
  assert (Hb : ∀ key b, vs_bundles (vw_store w1) !! key = Some b → vs_bundles (vw_store w2) !! key = Some b).
  { intros key b Hb. apply (collectors_keep (λ w, vs_bundles (vw_store w) !! key = Some b)); [|done].
    intros i w w' H Hg. by eapply cg_bundles. }
  split_and!; [|done|exact Hd|].
  - intros key v Hv Ht. apply (collectors_keep (λ w, vs_views (vw_store w) !! key = Some v)); [|done].
    intros i w w' H Hg. destruct (cg_views _ _ _ Hg _ _ H) as (v' & Hv' & Hk & _). by rewrite (Hk Ht) in Hv'.
  - intros i q b Hq Hr. destruct (Hp i _ Hr) as (P & _ & HP & Hsafe).
    destruct (Hsafe _ (proj1 (collectors_run turns1)) HP q Hq) as (b' & H1 & H2). exists b'. split; [by apply Hb|done].
Qed.
End promises.

(** ** Concrete collectors *)

(** A cipher that hides nothing: the text, and a tag from the associated data *)
Definition demo_tag (aad : string) : string := str_take 16 (@hexdigest demo_digest aad +:+ str_repeat 16 "0").
#[local] Instance demo_aead : Aead := {
  aead_encrypt _ _ text aad := text +:+ demo_tag aad;
  aead_decrypt _ _ ciphertext aad :=
    let n := (String.length ciphertext - 16)%nat in
    if decide (str_drop n ciphertext = demo_tag aad) then Some (str_take n ciphertext) else None
}.

Lemma demo_tag_size aad : String.length (demo_tag aad) = 16%nat.
Proof. unfold demo_tag. rewrite str_take_length, str_app_length. cbn [str_repeat String.length]. lia. Qed.

#[local] Instance demo_aead_laws : AeadLaws.
Proof.
  split; intros key nonce text aad; cbn [aead_encrypt aead_decrypt demo_aead].
  - rewrite str_app_length, demo_tag_size. replace (_ + 16 - 16)%nat with (String.length text) by lia.
    by rewrite str_drop_app, str_take_app, decide_True.
  - unfold str_len. rewrite str_app_length, demo_tag_size. lia.
Qed.

Section collected.
#[local] Existing Instances demo_digest demo_float.

Definition demo_key : string := str_repeat 32 "k".
Definition demo_nonce : string := str_repeat 12 "n".

Lemma cursors_open_for_their_query_witness :
  ∃ sealed_value, seal demo_key demo_nonce "page-2" "tenant-a" "query-1" = Ok sealed_value ∧
    open_cursor demo_key sealed_value "tenant-a" "query-1" = Ok "page-2".
Proof.
  eexists. split; [reflexivity|].
  refine (proj1 (cursors_open_for_their_query demo_key demo_nonce "page-2" "tenant-a" "query-1" _ _ _ _ _)); [reflexivity..|discriminate].
Defined.

Definition demo_source : EvidenceSource :=
  {| es_tenant_id := "tenant-a"; es_source_id := "github-1"; es_kind := ESK_GITHUB; es_trust := ST_EXTERNAL_UNTRUSTED;
     es_classification := DC_INTERNAL; es_region := "eu-west-1"; es_credential_ref := None; es_credential_version := None;
     es_policy_revision := 1; es_allowed_resources := ["repo/a"]; es_enabled := true |}.

Definition demo_evidence_query (query_id : string) : EvidenceQuery :=
  {| eq_query_id := query_id; eq_tenant_id := "tenant-a"; eq_incident_id := "inc-1"; eq_run_id := "run-1";
     eq_source := demo_source; eq_window := {| tr_start := demo_time; tr_end_ := demo_time + hours 1 |};
     eq_resource := "repo/a"; eq_parameters := [];
     eq_bounds := {| eb_maximum_pages := 3; eb_maximum_records := 10; eb_maximum_page_bytes := 1024;
                     eb_maximum_total_bytes := 4096; eb_request_timeout_seconds := f_one |};
     eq_created_at := demo_time + hours 1 |}.

Definition demo_record (record_id : string) : ConnectorRecord :=
  {| cr_record_id := record_id; cr_locator := "repo/a/" +:+ record_id; cr_observed_at := demo_time;
     cr_content_type := "application/json"; cr_payload := "{}"; cr_source_version := None; cr_etag := None |}.

(** A page of one record *)
Definition demo_fetch (next : Z → option string) (q : EvidenceQuery) (cursor : option string) (n : Z) : res ConnectorPage :=
  Ok {| cp_query_id := eq_query_id q; cp_source_id := "github-1"; cp_page_number := n;
        cp_records := [demo_record ("record-" +:+ str_of_int n)]; cp_next_cursor := next n; cp_response_bytes := 2;
        cp_rate_limit_remaining := None; cp_retrieved_at := demo_time + hours 1 |}.

(** An ingestor that accepts the text of a record *)
Definition demo_ingest (q : EvidenceQuery) (r : ConnectorRecord) (n : Z) (retrieved_at : datetime) : res NormalizedEvidence :=
  validated NormalizedEvidence_ok "NormalizedEvidence"
    {| ne_evidence_id := cr_record_id r; ne_tenant_id := eq_tenant_id q; ne_incident_id := eq_incident_id q;
       ne_kind := ESK_GITHUB; ne_summary := "a change"; ne_facts := []; ne_canonical_text := cr_payload r;
       ne_content_hash := hexdigest (cr_payload r);
       ne_provenance :=
         {| ep_tenant_id := eq_tenant_id q; ep_incident_id := eq_incident_id q; ep_run_id := eq_run_id q;
            ep_source_id := "github-1"; ep_source_kind := ESK_GITHUB; ep_source_trust := ST_EXTERNAL_UNTRUSTED;
            ep_source_digest := source_digest (eq_source q); ep_query_id := eq_query_id q;
            ep_query_digest := query_digest q; ep_page_number := n; ep_locator := cr_locator r;
            ep_observed_at := cr_observed_at r; ep_retrieved_at := retrieved_at; ep_credential_version := None;
            ep_policy_revision := 1; ep_classification := DC_INTERNAL; ep_retention_ref := "retention-1";
            ep_raw_content_hash := hexdigest (cr_payload r) |};
       ne_disposition := ED_ACCEPTED; ne_redaction_count := 0; ne_scanner_findings := []; ne_quarantine_reason := None;
       ne_duplicate_of := None |}.

Definition demo_ports (next : Z → option string) : collector_answers :=
  {| ca_now := demo_time + hours 1; ca_nonce := demo_nonce; ca_source := λ _ _, Some demo_source; ca_cancelled := false;
     ca_fetch := demo_fetch next; ca_ingest := demo_ingest |}.

(** Two pages, and a connector that ends its first page with an empty cursor *)
Definition two_pages (n : Z) : option string := if n =? 1 then Some "page-2" else None.
Definition empty_cursor (n : Z) : option string := if n =? 1 then Some "" else None.

Definition collector_turns (i : nat) (n : nat) (next : Z → option string) : list (nat * collector_answers) :=
  replicate n (i, demo_ports next).

(** Three collectors of one query *)
Definition demo_queries : list EvidenceQuery := replicate 3 (demo_evidence_query "query-1").
Abbreviation collected turns := (run_collectors demo_key demo_queries turns collector_start).

(** How many items a collector returned, or what it raised *)
Definition collected_items (p : option (Collect EvidenceBundle)) : option (res Z) :=
  match p with
  | Some (Return b) => Some (Ok (zlen (bu_evidence b)))
  | Some (Throw x) => Some (Raise x)
  | _ => None
  end.
Definition demo_view (w : collector_world) : option (QueryStatus * Z * Z) :=
  v ← vs_views (vw_store w) !! ("tenant-a", "query-1"); Some (qv_status v, qv_page_count v, qv_record_count v).

Lemma demo_queries_ok : Forall (λ q, EvidenceQuery_ok q = true) demo_queries.
Proof. repeat constructor; vm_compute; reflexivity. Qed.

(** One collector at a time: the first fetches both pages, the second gets its bundle. *)
Example collected_once :
  let s := collected (collector_turns 0 40 two_pages ++ collector_turns 1 5 two_pages) in
  (collected_items (s.1 !! 0%nat), collected_items (s.1 !! 1%nat), (vw_fetched s.2).*2, demo_view s.2)
  = (Some (Ok 2), Some (Ok 2), [("tenant-a", "query-1", 1); ("tenant-a", "query-1", 2)], Some (QS_COMPLETED, 2, 2)).
Proof. vm_compute. reflexivity. Qed.

Definition demo_turns : list (nat * collector_answers) := collector_turns 0 40 two_pages.

Lemma pages_are_fetched_once_witness : NoDup (vw_fetched (collected demo_turns).2).*2.
Proof. exact (proj1 (pages_are_fetched_once demo_key demo_queries demo_queries_ok demo_turns)). Defined.

Lemma collected_completes :
  match vs_views (vw_store (collected demo_turns).2) !! ("tenant-a", "query-1") with
  | Some v => bool_decide (qv_status v = QS_COMPLETED) | None => false
  end = true.
Proof. vm_compute. reflexivity. Qed.

Lemma collected_completed : ∃ v, vs_views (vw_store (collected demo_turns).2) !! ("tenant-a", "query-1") = Some v ∧ qv_status v = QS_COMPLETED.
Proof.
  pose proof collected_completes as H. destruct (vs_views _ !! _) as [v|]; [|discriminate].
  exists v. split; [reflexivity|]. by apply bool_decide_eq_true in H.
Qed.

Lemma views_are_rebuilt_witness :
  ∃ v, evidence_rebuild "tenant-a" "query-1" (vw_store (collected demo_turns).2) = (Ok v, vw_store (collected demo_turns).2).
Proof.
  destruct collected_completed as (v & Hv & _). exists v.
  exact (views_are_rebuilt demo_key demo_queries demo_queries_ok demo_turns "tenant-a" "query-1" v Hv).
Defined.

Lemma settled_queries_stay_witness :
  ∃ v, vs_views (vw_store (collected (demo_turns ++ collector_turns 1 5 two_pages)).2) !! ("tenant-a", "query-1") = Some v.
Proof.
  destruct collected_completed as (v & Hv & Hs). exists v.
  refine (proj1 (settled_queries_stay demo_key demo_queries demo_queries_ok demo_turns (collector_turns 1 5 two_pages)) _ v Hv _).
  rewrite Hs. right. left.
Defined.

(** What the runs show of the limits of the collector. *)

(** A page domain allows an empty cursor and the vault refuses it, after the page was recorded as
    done: the collector fails, and the next one takes the query for finished and completes it
    without the remaining pages and with no page counted. *)
Lemma empty_cursor_truncates_query :
  let s := collected (collector_turns 0 40 empty_cursor ++ collector_turns 1 40 two_pages) in
  (collected_items (s.1 !! 0%nat), collected_items (s.1 !! 1%nat), (vw_fetched s.2).*2, demo_view s.2)
  = (Some (raise ValueError "evidence cursor value is invalid"), Some (Ok 1), [("tenant-a", "query-1", 1)],
     Some (QS_COMPLETED, 0, 0)).
Proof. vm_compute. reflexivity. Qed.

(** A query id of 121 characters is valid, the operation id made of it is not: the query is stored
    without a view, and every later request for it fails on the missing view. *)
Lemma long_query_id_is_stuck :
  let q := demo_evidence_query (str_repeat 121 "q") in
  let s := run_collectors demo_key [q; q] (collector_turns 0 2 two_pages ++ collector_turns 1 2 two_pages) collector_start in
  EvidenceQuery_ok q = true ∧
  (collected_items (s.1 !! 0%nat), collected_items (s.1 !! 1%nat))
  = (Some (raise ValidationError "EvidenceApplicationEvent"), Some (raise KeyError "key")).
Proof. vm_compute. by split. Qed.

(** Two collectors of one query: the one that finds the page in progress declares the query in need
    of reconciliation; the first one then cannot record the page it fetched, and its evidence is
    still handed out by a third one that asks twice. *)
Definition demo_race : list (nat * collector_answers) :=
  collector_turns 0 6 two_pages ++ collector_turns 1 40 two_pages ++ collector_turns 0 40 two_pages
  ++ collector_turns 2 40 two_pages.

Lemma second_collector_ends_query :
  let s := collected demo_race in
  (collected_items (s.1 !! 0%nat), collected_items (s.1 !! 1%nat), demo_view s.2)
  = (Some (raise IntegrityFailure "terminal evidence query cannot transition"),
     Some (raise ReconciliationRequired "evidence page has unresolved external-call intent"),
     Some (QS_RECONCILIATION_REQUIRED, 0, 0)).
Proof. vm_compute. reflexivity. Qed.

(** A bundle of a failed query is stored before the projection refuses the completion, and the same
    completion then succeeds. *)
Lemma failed_query_completes :
  let q := demo_evidence_query "query-1" in
  let failed := (fail_query "tenant-a" "query-1" "failure:query-1" "rejected" QS_FAILED demo_time
                   (request q "request:query-1" empty_evidence_store).2).2 in
  match build_bundle "bundle-1" "tenant-a" "inc-1" "run-1" ["query-1"] [] demo_time with
  | Raise _ => False
  | Ok b =>
      let r1 := complete_query q "complete:query-1" b demo_time failed in
      let r2 := complete_query q "complete:query-1" b demo_time r1.2 in
      r1.1 = raise IntegrityFailure "terminal evidence query cannot transition" ∧
      vs_bundles r1.2 !! ("tenant-a", "query-1") = Some b ∧
      (qv_status <$> match r2.1 with Ok v => Some v | Raise _ => None end) = Some QS_FAILED
  end.
Proof. vm_compute. by split_and!. Qed.
End collected.
