(* ===== verification/MemoryData.v ===== *)
(** * Memory contracts ([memory.py], lines 44-545 and 967-1058)

    Records, facts, projections, chunks, embeddings, summaries and retrieval contracts, with
    their JSON documents, digests and validators, and the text functions the validators use
    (lines 2120-2160). *)

From S2P Require Import Prelude PyJson PyFloat PyTime PyText PyModel Domain Evidence.

Definition _MAX_MEMORY_TEXT : Z := 65536.
Definition _MAX_FACT_BYTES : Z := 16384.

(** ** Text *)

(** [canonical_text]; NFC leaves these characters as they are *)
Definition canonical_text (value : string) : res string :=
  let s := replace_char carriage_return (String newline "") (replace_crlf value) in
  let s := str_filter (λ c, bool_decide (c = newline) || bool_decide (c = tab) || (32 <=? char_code c)) s in
  let s := str_strip (str_join (String newline "") (str_rstrip <$> str_splitlines s)) in
  raise_if (bool_decide (s = "") || (_MAX_MEMORY_TEXT <? str_len s)) ValueError
    "memory text is empty or exceeds the bound";;
  Ok s.

(** [max(1, math.ceil(len(text.encode()) / 4))]: a float division by four is exact *)
Definition token_estimate (text : string) : Z := Z.max 1 ((byte_len text + 3) / 4).

(** A character of [_WORD], and one a match can start with *)
Definition is_term_start (c : ascii) : bool := is_digit c || char_in_range "a" "z" c.
Definition is_term_char (c : ascii) : bool :=
  is_term_start c || bool_decide (c ∈ ["."%char; "_"%char; ":"%char; "-"%char]).

(** The longest run of term characters of at most [n], and what follows it *)
Fixpoint span_term (n : nat) (s : string) : string * string :=
  match n, s with
  | S n, String c s' =>
      if is_term_char c then let '(w, rest) := span_term n s' in (String c w, rest) else ("", s)
  | _, _ => ("", s)
  end.

(** [_WORD.findall(s)]: matches of [a-z0-9][a-z0-9._:-]{1,63} from left to right; each round
    consumes a character, so [n] rounds suffice for [n] characters. *)
Fixpoint find_terms (n : nat) (s : string) : list string :=
  match n, s with
  | S n, String c s' =>
      if is_term_start c then
        match span_term 63 s' with
        | ("", _) => find_terms n s'
        | (w, rest) => String c w :: find_terms n rest
        end
      else find_terms n s'
  | _, _ => []
  end.

Definition _terms (text : string) : res (list string) :=
  s ← canonical_text text; let s := str_lower s in Ok (find_terms (String.length s) s).

Example terms_of : _terms "Restart API-pods: a  eu-west.1!" = Ok ["restart"; "api-pods:"; "eu-west.1"].
Proof. vm_compute. reflexivity. Qed.

(** ** Enumerations *)

Inductive MemoryTier :=
  | MT_WORKING | MT_EPISODIC | MT_SEMANTIC.
#[export] Instance MemoryTier_eq_dec : EqDecision MemoryTier.
Proof. solve_decision. Defined.

Definition tier_value (x : MemoryTier) : string :=
  match x with
  | MT_WORKING => "working" | MT_EPISODIC => "episodic" | MT_SEMANTIC => "semantic"
  end.

Inductive MemoryStatus :=
  | MS_CANDIDATE | MS_ACCEPTED | MS_REJECTED | MS_ACTIVE | MS_SUPERSEDED | MS_TOMBSTONED
  | MS_ERASED.
#[export] Instance MemoryStatus_eq_dec : EqDecision MemoryStatus.
Proof. solve_decision. Defined.

Definition memory_status_value (x : MemoryStatus) : string :=
  match x with
  | MS_CANDIDATE => "candidate" | MS_ACCEPTED => "accepted" | MS_REJECTED => "rejected"
  | MS_ACTIVE => "active" | MS_SUPERSEDED => "superseded" | MS_TOMBSTONED => "tombstoned"
  | MS_ERASED => "erased"
  end.

Inductive MemoryFactType :=
  | MF_CANDIDATE_PROPOSED | MF_CANDIDATE_ACCEPTED | MF_CANDIDATE_REJECTED | MF_SCAN_REQUESTED
  | MF_SCAN_COMPLETED | MF_CHUNK_REQUESTED | MF_CHUNK_COMPLETED | MF_EMBED_REQUESTED
  | MF_EMBED_COMPLETED | MF_INDEX_REQUESTED | MF_INDEX_COMPLETED | MF_RETRIEVE_REQUESTED
  | MF_RETRIEVE_COMPLETED | MF_CONTEXT_BUILT | MF_COMPACT_REQUESTED | MF_COMPACT_COMPLETED
  | MF_SUMMARY_ACCEPTED | MF_SUMMARY_REJECTED | MF_FEEDBACK_RECORDED | MF_SUPERSEDED
  | MF_TOMBSTONED | MF_RETENTION_EXPIRED | MF_LEGAL_HOLD_APPLIED | MF_LEGAL_HOLD_RELEASED
  | MF_DELETE_REQUESTED | MF_DERIVED_PURGED | MF_CRYPTO_ERASED | MF_REBUILD_REQUESTED
  | MF_REBUILD_COMPLETED.
#[export] Instance MemoryFactType_eq_dec : EqDecision MemoryFactType.
Proof. solve_decision. Defined.

Definition memory_fact_value (x : MemoryFactType) : string :=
  match x with
  | MF_CANDIDATE_PROPOSED => "memory.candidate_proposed"
  | MF_CANDIDATE_ACCEPTED => "memory.candidate_accepted"
  | MF_CANDIDATE_REJECTED => "memory.candidate_rejected"
  | MF_SCAN_REQUESTED => "memory.scan_requested" | MF_SCAN_COMPLETED => "memory.scan_completed"
  | MF_CHUNK_REQUESTED => "memory.chunk_requested" | MF_CHUNK_COMPLETED => "memory.chunk_completed"
  | MF_EMBED_REQUESTED => "memory.embed_requested" | MF_EMBED_COMPLETED => "memory.embed_completed"
  | MF_INDEX_REQUESTED => "memory.index_requested" | MF_INDEX_COMPLETED => "memory.index_completed"
  | MF_RETRIEVE_REQUESTED => "memory.retrieve_requested"
  | MF_RETRIEVE_COMPLETED => "memory.retrieve_completed"
  | MF_CONTEXT_BUILT => "memory.context_built" | MF_COMPACT_REQUESTED => "memory.compact_requested"
  | MF_COMPACT_COMPLETED => "memory.compact_completed"
  | MF_SUMMARY_ACCEPTED => "memory.summary_accepted"
  | MF_SUMMARY_REJECTED => "memory.summary_rejected"
  | MF_FEEDBACK_RECORDED => "memory.feedback_recorded" | MF_SUPERSEDED => "memory.superseded"
  | MF_TOMBSTONED => "memory.tombstoned" | MF_RETENTION_EXPIRED => "memory.retention_expired"
  | MF_LEGAL_HOLD_APPLIED => "memory.legal_hold_applied"
  | MF_LEGAL_HOLD_RELEASED => "memory.legal_hold_released"
  | MF_DELETE_REQUESTED => "memory.delete_requested" | MF_DERIVED_PURGED => "memory.derived_purged"
  | MF_CRYPTO_ERASED => "memory.crypto_erased" | MF_REBUILD_REQUESTED => "memory.rebuild_requested"
  | MF_REBUILD_COMPLETED => "memory.rebuild_completed"
  end.

Inductive AcceptanceDisposition := AD_accept | AD_reject.
#[export] Instance AcceptanceDisposition_eq_dec : EqDecision AcceptanceDisposition.
Proof. solve_decision. Defined.
Definition acceptance_value (d : AcceptanceDisposition) : string :=
  match d with AD_accept => "accept" | AD_reject => "reject" end.

Inductive ReviewerKind := RK_human | RK_policy.
Definition reviewer_value (k : ReviewerKind) : string :=
  match k with RK_human => "human" | RK_policy => "policy" end.

(** ** Records *)

Record MemoryACL := {
  acl_roles : list string;
  acl_principals : list string
}.

Record ErasableBlobReference := {
  blob_tenant_id : string;
  blob_blob_ref : string;
  blob_key_ref : string;
  blob_key_version : Z;
  blob_content_digest : string;
  blob_byte_count : Z
}.

Record MemoryCitation := {
  mc_evidence_id : string;
  mc_source_id : string;
  mc_locator : string;
  mc_content_hash : string;
  mc_provenance_digest : string
}.

Record MemoryProvenance := {
  mp_tenant_id : string;
  mp_incident_id : string;
  mp_run_id : string;
  mp_source_id : string;
  mp_source_type : string;
  mp_source_digest : string;
  mp_evidence_id : string;
  mp_locator : string;
  mp_content_hash : string;
  mp_provenance_digest : string;
  mp_observed_at : datetime;
  mp_ingested_at : datetime
}.

Record RetentionBinding := {
  rb_policy_ref : string;
  rb_expires_at : datetime;
  rb_legal_hold_refs : list string
}.

Record MemoryRecord := {
  mr_memory_id : string;
  mr_tenant_id : string;
  mr_tier : MemoryTier;
  mr_status : MemoryStatus;
  mr_incident_id : string;
  mr_run_id : string;
  mr_source_type : string;
  mr_provenance : MemoryProvenance;
  mr_citations : list MemoryCitation;
  mr_acl : MemoryACL;
  mr_classification : DataClassification;
  mr_trust : SourceTrust;
  mr_schema_name : string;
  mr_schema_revision : Z;
  mr_chunker_version : string;
  mr_embedder_model : string;
  mr_embedder_version : string;
  mr_embedding_dimensions : Z;
  mr_content_digest : string;
  mr_quality : float;
  mr_confidence : float;
  mr_retention : RetentionBinding;
  mr_blob : ErasableBlobReference;
  mr_supersedes : list string;
  mr_superseded_by : option string;
  mr_tombstone_reason : option string;
  mr_created_at : datetime;
  mr_accepted_at : option datetime;
  mr_canonical_digest : string
}.

Record MemoryAcceptance := {
  mac_decision_id : string;
  mac_tenant_id : string;
  mac_memory_id : string;
  mac_disposition : AcceptanceDisposition;
  mac_reviewer_ref : string;
  mac_reviewer_kind : ReviewerKind;
  mac_policy_id : string;
  mac_policy_revision : Z;
  mac_policy_digest : string;
  mac_reason_code : string;
  mac_decided_at : datetime
}.

Record MemoryChunk := {
  ch_chunk_id : string;
  ch_memory_id : string;
  ch_tenant_id : string;
  ch_ordinal : Z;
  ch_text : string;
  ch_content_digest : string;
  ch_token_estimate : Z;
  ch_byte_count : Z;
  ch_citation : MemoryCitation;
  ch_chunker_version : string
}.

Record EmbeddingSpec := {
  sp_provider : string;
  sp_model : string;
  sp_version : string;
  sp_dimensions : Z;
  sp_timeout_seconds : float;
  sp_maximum_attempts : Z;
  sp_maximum_batch_items : Z;
  sp_maximum_batch_tokens : Z
}.

Record EmbeddingRequest := {
  erq_operation_id : string;
  erq_tenant_id : string;
  erq_run_id : string;
  erq_reservation_id : string;
  erq_fence_token : string;
  erq_spec : EmbeddingSpec;
  erq_chunks : list MemoryChunk;
  erq_request_digest : string
}.

Record EmbeddingVector := {
  vec_chunk_id : string;
  vec_content_digest : string;
  vec_values : list float
}.

Record EmbeddingResult := {
  ers_operation_id : string;
  ers_request_digest : string;
  ers_spec_digest : string;
  ers_attempt : Z;
  ers_fence_token : string;
  ers_vectors : list EmbeddingVector;
  ers_result_digest : string
}.

Record SummaryRequest := {
  srq_operation_id : string;
  srq_tenant_id : string;
  srq_run_id : string;
  srq_source_chunks : list MemoryChunk;
  srq_maximum_tokens : Z;
  srq_summarizer_model : string;
  srq_summarizer_version : string;
  srq_depth : Z;
  srq_fence_token : string;
  srq_request_digest : string
}.

Record SummaryClaim := {
  scl_text : string;
  scl_citations : list string
}.

Record SummaryResult := {
  srs_operation_id : string;
  srs_request_digest : string;
  srs_summary : string;
  srs_claims : list SummaryClaim;
  srs_source_coverage : float;
  srs_fallback_used : bool;
  srs_fence_token : string;
  srs_result_digest : string
}.

Record MemoryFact := {
  mfa_tenant_id : string;
  mfa_memory_id : string;
  mfa_sequence : Z;
  mfa_fact_id : string;
  mfa_fact_type : MemoryFactType;
  mfa_command_id : string;
  mfa_actor_ref : string;
  mfa_recorded_at : datetime;
  mfa_payload : payload;
  mfa_previous_digest : string;
  mfa_fact_digest : string
}.

Record MemoryOperationFact := {
  mof_tenant_id : string;
  mof_operation_id : string;
  mof_run_id : string;
  mof_incident_id : string;
  mof_sequence : Z;
  mof_fact_type : MemoryFactType;
  mof_policy_digest : string;
  mof_query_digest : option string;
  mof_result_digest : option string;
  mof_recorded_at : datetime;
  mof_fact_digest : string
}.

Record MemoryProjection := {
  mpj_tenant_id : string;
  mpj_memory_id : string;
  mpj_tier : MemoryTier;
  mpj_status : MemoryStatus;
  mpj_version : Z;
  mpj_record_digest : string;
  mpj_last_fact_digest : string;
  mpj_chunk_count : Z;
  mpj_indexed : bool;
  mpj_tombstoned : bool;
  mpj_legal_hold_count : Z;
  mpj_derived_purged : bool;
  mpj_blob_erased : bool;
  mpj_updated_at : datetime
}.

Record RetrievalPolicy := {
  rpo_policy_id : string;
  rpo_revision : Z;
  rpo_lexical_weight : float;
  rpo_vector_weight : float;
  rpo_recency_weight : float;
  rpo_quality_weight : float;
  rpo_mmr_lambda : float;
  rpo_maximum_candidates : Z;
  rpo_top_k : Z;
  rpo_maximum_tokens : Z;
  rpo_maximum_bytes : Z;
  rpo_cache_ttl_seconds : Z;
  rpo_freshness_seconds : Z
}.

Record RetrievalQuery := {
  rq_query_id : string;
  rq_tenant_id : string;
  rq_run_id : string;
  rq_incident_id : string;
  rq_principal_ref : string;
  rq_roles : list string;
  rq_allowed_classifications : list DataClassification;
  rq_text : string;
  rq_query_digest : string;
  rq_requested_at : datetime;
  rq_as_of : datetime;
  rq_policy : RetrievalPolicy
}.

Record RetrievalHit := {
  rh_memory_id : string;
  rh_chunk_id : string;
  rh_tier : MemoryTier;
  rh_text : string;
  rh_citation : MemoryCitation;
  rh_lexical_score : float;
  rh_vector_score : float;
  rh_recency_score : float;
  rh_quality_score : float;
  rh_combined_score : float;
  rh_stale : bool;
  rh_contradiction_group : option string
}.

Record RetrievalResult := {
  rr_query_id : string;
  rr_query_digest : string;
  rr_policy_digest : string;
  rr_hits : list RetrievalHit;
  rr_candidate_count : Z;
  rr_token_count : Z;
  rr_byte_count : Z;
  rr_insufficient_context : bool;
  rr_cache_hit : bool;
  rr_result_digest : string
}.

Record IndexedChunk := {
  ix_record : MemoryRecord;
  ix_chunk : MemoryChunk;
  ix_vector : EmbeddingVector;
  ix_indexed_at : datetime
}.

#[export] Instance MemoryCitation_eq_dec : EqDecision MemoryCitation.
Proof. solve_decision. Defined.

(** ** Documents and validators *)

Section memory.
Context {HDigest : Digest} {HFloat : FloatJson}.

Definition MemoryACL_material (x : MemoryACL) : payload :=
  [("roles", strings_json (acl_roles x)); ("principals", strings_json (acl_principals x))].
Definition acl_json (x : MemoryACL) : json := JObj (MemoryACL_material x).
Definition MemoryACL_fields (x : MemoryACL) : bool :=
  count_range 0 32 (acl_roles x) && forallb Identifier (acl_roles x)
  && count_range 0 64 (acl_principals x) && forallb Identifier (acl_principals x).

(** [MemoryACL(...)] with [normalize_acl] *)
Definition new_MemoryACL (a : MemoryACL) : res MemoryACL :=
  raise_if (negb (MemoryACL_fields a)) ValidationError "MemoryACL";;
  Ok {| acl_roles := sorted_set (acl_roles a); acl_principals := sorted_set (acl_principals a) |}.

(** [MemoryACL.permits] *)
Definition permits (a : MemoryACL) (roles : list string) (principal_ref : string) : bool :=
  (bool_decide (acl_roles a = []) && bool_decide (acl_principals a = []))
  || existsb (λ r, bool_decide (r ∈ roles)) (acl_roles a)
  || bool_decide (principal_ref ∈ acl_principals a).

Definition ErasableBlobReference_material (x : ErasableBlobReference) : payload :=
  [("tenant_id", JStr (blob_tenant_id x)); ("blob_ref", JStr (blob_blob_ref x));
   ("key_ref", JStr (blob_key_ref x)); ("key_version", JInt (blob_key_version x));
   ("content_digest", JStr (blob_content_digest x)); ("byte_count", JInt (blob_byte_count x))].
Definition blob_json (x : ErasableBlobReference) : json := JObj (ErasableBlobReference_material x).
Definition ErasableBlobReference_fields (x : ErasableBlobReference) : bool :=
  Identifier (blob_tenant_id x) && Identifier (blob_blob_ref x) && Identifier (blob_key_ref x)
  && (1 <=? blob_key_version x) && is_sha256_hex (blob_content_digest x)
  && in_range 0 67108864 (blob_byte_count x).

Definition MemoryCitation_material (x : MemoryCitation) : payload :=
  [("evidence_id", JStr (mc_evidence_id x)); ("source_id", JStr (mc_source_id x));
   ("locator", JStr (mc_locator x)); ("content_hash", JStr (mc_content_hash x));
   ("provenance_digest", JStr (mc_provenance_digest x))].
Definition memory_citation_json (x : MemoryCitation) : json := JObj (MemoryCitation_material x).
Definition MemoryCitation_fields (x : MemoryCitation) : bool :=
  Identifier (mc_evidence_id x) && Identifier (mc_source_id x)
  && length_between 1 1024 (mc_locator x) && is_sha256_hex (mc_content_hash x)
  && is_sha256_hex (mc_provenance_digest x).

Definition MemoryProvenance_material (x : MemoryProvenance) : payload :=
  [("tenant_id", JStr (mp_tenant_id x)); ("incident_id", JStr (mp_incident_id x));
   ("run_id", JStr (mp_run_id x)); ("source_id", JStr (mp_source_id x));
   ("source_type", JStr (mp_source_type x)); ("source_digest", JStr (mp_source_digest x));
   ("evidence_id", JStr (mp_evidence_id x)); ("locator", JStr (mp_locator x));
   ("content_hash", JStr (mp_content_hash x));
   ("provenance_digest", JStr (mp_provenance_digest x));
   ("observed_at", JStr (iso_z (mp_observed_at x)));
   ("ingested_at", JStr (iso_z (mp_ingested_at x)))].
Definition memory_provenance_json (x : MemoryProvenance) : json := JObj (MemoryProvenance_material x).
Definition MemoryProvenance_fields (x : MemoryProvenance) : bool :=
  Identifier (mp_tenant_id x) && Identifier (mp_incident_id x) && Identifier (mp_run_id x)
  && Identifier (mp_source_id x) && Identifier (mp_source_type x)
  && is_sha256_hex (mp_source_digest x) && Identifier (mp_evidence_id x)
  && length_between 1 1024 (mp_locator x) && is_sha256_hex (mp_content_hash x)
  && is_sha256_hex (mp_provenance_digest x).

Definition RetentionBinding_material (x : RetentionBinding) : payload :=
  [("policy_ref", JStr (rb_policy_ref x)); ("expires_at", JStr (iso_z (rb_expires_at x)));
   ("legal_hold_refs", strings_json (rb_legal_hold_refs x))].
Definition retention_json (x : RetentionBinding) : json := JObj (RetentionBinding_material x).
Definition RetentionBinding_fields (x : RetentionBinding) : bool :=
  Identifier (rb_policy_ref x)
  && count_range 0 16 (rb_legal_hold_refs x) && forallb Identifier (rb_legal_hold_refs x).

(** [RetentionBinding.held] *)
Definition held (r : RetentionBinding) : bool := negb (bool_decide (rb_legal_hold_refs r = [])).

Definition MemoryRecord_material (x : MemoryRecord) : payload :=
  [("schema_version", JInt 1); ("memory_id", JStr (mr_memory_id x));
   ("tenant_id", JStr (mr_tenant_id x)); ("tier", JStr (tier_value (mr_tier x)));
   ("status", JStr (memory_status_value (mr_status x))); ("incident_id", JStr (mr_incident_id x));
   ("run_id", JStr (mr_run_id x)); ("source_type", JStr (mr_source_type x));
   ("provenance", memory_provenance_json (mr_provenance x));
   ("citations", JList (memory_citation_json <$> mr_citations x)); ("acl", acl_json (mr_acl x));
   ("classification", JStr (classification_value (mr_classification x)));
   ("trust", JStr (trust_value (mr_trust x))); ("schema_name", JStr (mr_schema_name x));
   ("schema_revision", JInt (mr_schema_revision x));
   ("chunker_version", JStr (mr_chunker_version x));
   ("embedder_model", JStr (mr_embedder_model x));
   ("embedder_version", JStr (mr_embedder_version x));
   ("embedding_dimensions", JInt (mr_embedding_dimensions x));
   ("content_digest", JStr (mr_content_digest x)); ("quality", float_json (mr_quality x));
   ("confidence", float_json (mr_confidence x)); ("retention", retention_json (mr_retention x));
   ("blob", blob_json (mr_blob x)); ("supersedes", strings_json (mr_supersedes x));
   ("superseded_by", opt_json (mr_superseded_by x));
   ("tombstone_reason", opt_json (mr_tombstone_reason x));
   ("created_at", JStr (iso_z (mr_created_at x)));
   ("accepted_at", opt_json (iso_z <$> mr_accepted_at x))].
Definition memory_record_json (x : MemoryRecord) : json := JObj (MemoryRecord_material x).
Definition MemoryRecord_fields (x : MemoryRecord) : bool :=
  Identifier (mr_memory_id x) && Identifier (mr_tenant_id x) && Identifier (mr_incident_id x)
  && Identifier (mr_run_id x) && Identifier (mr_source_type x)
  && MemoryProvenance_fields (mr_provenance x)
  && count_range 1 64 (mr_citations x) && forallb MemoryCitation_fields (mr_citations x)
  && MemoryACL_fields (mr_acl x) && Identifier (mr_schema_name x)
  && in_range 1 1000 (mr_schema_revision x) && Identifier (mr_chunker_version x)
  && Identifier (mr_embedder_model x) && Identifier (mr_embedder_version x)
  && in_range 2 4096 (mr_embedding_dimensions x) && is_sha256_hex (mr_content_digest x)
  && unit_interval (mr_quality x) && unit_interval (mr_confidence x)
  && RetentionBinding_fields (mr_retention x) && ErasableBlobReference_fields (mr_blob x)
  && count_range 0 64 (mr_supersedes x) && forallb Identifier (mr_supersedes x)
  && opt_Identifier (mr_superseded_by x) && opt_Identifier (mr_tombstone_reason x)
  && is_sha256_hex (mr_canonical_digest x).

(** [memory_digest] *)
Definition memory_digest (r : MemoryRecord) : string := json_digest (JObj (MemoryRecord_material r)).

Definition citation_leb (a b : MemoryCitation) : bool :=
  let key c := [mc_evidence_id c; mc_source_id c; mc_locator c; mc_content_hash c] in
  (fix go k1 k2 := match k1, k2 with
   | x :: k1, y :: k2 => if bool_decide (x = y) then go k1 k2 else str_leb x y
   | _, _ => true
   end) (key a) (key b).

(** [order_citations]: citations that agree on the sort key keep the order of the input; the
    code leaves their order to the iteration order of a set. *)
Definition order_citations (l : list MemoryCitation) : list MemoryCitation :=
  py_sorted citation_leb (remove_dups l).

(** [validate_bindings], on a record whose sequences are in order *)
Definition MemoryRecord_ok (r : MemoryRecord) : bool :=
  MemoryRecord_fields r
  && bool_decide (mp_tenant_id (mr_provenance r) = mr_tenant_id r)
  && bool_decide (mp_incident_id (mr_provenance r) = mr_incident_id r)
  && bool_decide (mp_run_id (mr_provenance r) = mr_run_id r)
  && bool_decide (blob_tenant_id (mr_blob r) = mr_tenant_id r)
  && bool_decide (blob_content_digest (mr_blob r) = mr_content_digest r)
  && match mr_citations r with
     | [] => false
     | c :: _ =>
         bool_decide (mc_evidence_id c = mp_evidence_id (mr_provenance r))
         && bool_decide (mc_source_id c = mp_source_id (mr_provenance r))
         && bool_decide (mc_locator c = mp_locator (mr_provenance r))
         && bool_decide (mc_content_hash c = mp_content_hash (mr_provenance r))
         && bool_decide (mc_provenance_digest c = mp_provenance_digest (mr_provenance r))
     end
  && bool_decide (mr_status r ∈ [MS_ACCEPTED; MS_ACTIVE] ↔ is_Some (mr_accepted_at r))
  && negb (bool_decide (mr_tier r = MT_WORKING) && bool_decide (mr_run_id r = ""))
  && bool_decide (mr_canonical_digest r = memory_digest r).

(** [MemoryRecord(...)] *)
Definition new_MemoryRecord (r : MemoryRecord) : res MemoryRecord :=
  validated MemoryRecord_ok "MemoryRecord"
    {| mr_memory_id := mr_memory_id r; mr_tenant_id := mr_tenant_id r; mr_tier := mr_tier r;
       mr_status := mr_status r; mr_incident_id := mr_incident_id r; mr_run_id := mr_run_id r;
       mr_source_type := mr_source_type r; mr_provenance := mr_provenance r;
       mr_citations := order_citations (mr_citations r); mr_acl := mr_acl r;
       mr_classification := mr_classification r; mr_trust := mr_trust r;
       mr_schema_name := mr_schema_name r; mr_schema_revision := mr_schema_revision r;
       mr_chunker_version := mr_chunker_version r; mr_embedder_model := mr_embedder_model r;
       mr_embedder_version := mr_embedder_version r;
       mr_embedding_dimensions := mr_embedding_dimensions r;
       mr_content_digest := mr_content_digest r; mr_quality := mr_quality r;
       mr_confidence := mr_confidence r; mr_retention := mr_retention r; mr_blob := mr_blob r;
       mr_supersedes := sorted_set (mr_supersedes r); mr_superseded_by := mr_superseded_by r;
       mr_tombstone_reason := mr_tombstone_reason r; mr_created_at := mr_created_at r;
       mr_accepted_at := mr_accepted_at r; mr_canonical_digest := mr_canonical_digest r |}.

Definition MemoryAcceptance_material (x : MemoryAcceptance) : payload :=
  [("decision_id", JStr (mac_decision_id x)); ("tenant_id", JStr (mac_tenant_id x));
   ("memory_id", JStr (mac_memory_id x));
   ("disposition", JStr (acceptance_value (mac_disposition x)));
   ("reviewer_ref", JStr (mac_reviewer_ref x));
   ("reviewer_kind", JStr (reviewer_value (mac_reviewer_kind x)));
   ("policy_id", JStr (mac_policy_id x)); ("policy_revision", JInt (mac_policy_revision x));
   ("policy_digest", JStr (mac_policy_digest x)); ("reason_code", JStr (mac_reason_code x));
   ("decided_at", JStr (iso_z (mac_decided_at x)))].
Definition MemoryAcceptance_fields (x : MemoryAcceptance) : bool :=
  Identifier (mac_decision_id x) && Identifier (mac_tenant_id x) && Identifier (mac_memory_id x)
  && Identifier (mac_reviewer_ref x) && Identifier (mac_policy_id x)
  && (1 <=? mac_policy_revision x) && is_sha256_hex (mac_policy_digest x)
  && Identifier (mac_reason_code x).

(** [MemoryAcceptance.digest] *)
Definition acceptance_digest (a : MemoryAcceptance) : string := json_digest (JObj (MemoryAcceptance_material a)).

Definition MemoryChunk_material (x : MemoryChunk) : payload :=
  [("chunk_id", JStr (ch_chunk_id x)); ("memory_id", JStr (ch_memory_id x));
   ("tenant_id", JStr (ch_tenant_id x)); ("ordinal", JInt (ch_ordinal x));
   ("text", JStr (ch_text x)); ("content_digest", JStr (ch_content_digest x));
   ("token_estimate", JInt (ch_token_estimate x)); ("byte_count", JInt (ch_byte_count x));
   ("citation", memory_citation_json (ch_citation x));
   ("chunker_version", JStr (ch_chunker_version x))].
Definition chunk_json (x : MemoryChunk) : json := JObj (MemoryChunk_material x).
Definition MemoryChunk_fields (x : MemoryChunk) : bool :=
  Identifier (ch_chunk_id x) && Identifier (ch_memory_id x) && Identifier (ch_tenant_id x)
  && in_range 0 10000 (ch_ordinal x) && length_between 1 _MAX_MEMORY_TEXT (ch_text x)
  && is_sha256_hex (ch_content_digest x) && in_range 1 32768 (ch_token_estimate x)
  && in_range 1 262144 (ch_byte_count x) && MemoryCitation_fields (ch_citation x)
  && Identifier (ch_chunker_version x).

(** [validate_content] *)
Definition MemoryChunk_ok (c : MemoryChunk) : bool :=
  MemoryChunk_fields c
  && bool_decide (hexdigest (utf8 (ch_text c)) = ch_content_digest c)
  && (byte_len (ch_text c) =? ch_byte_count c)
  && (token_estimate (ch_text c) =? ch_token_estimate c).

Definition new_MemoryChunk : MemoryChunk → res MemoryChunk := validated MemoryChunk_ok "MemoryChunk".

Definition EmbeddingSpec_material (x : EmbeddingSpec) : payload :=
  [("provider", JStr (sp_provider x)); ("model", JStr (sp_model x));
   ("version", JStr (sp_version x)); ("dimensions", JInt (sp_dimensions x));
   ("normalized", JBool true); ("timeout_seconds", float_json (sp_timeout_seconds x));
   ("maximum_attempts", JInt (sp_maximum_attempts x));
   ("maximum_batch_items", JInt (sp_maximum_batch_items x));
   ("maximum_batch_tokens", JInt (sp_maximum_batch_tokens x))].
Definition spec_json (x : EmbeddingSpec) : json := JObj (EmbeddingSpec_material x).
Definition EmbeddingSpec_fields (x : EmbeddingSpec) : bool :=
  Identifier (sp_provider x) && Identifier (sp_model x) && Identifier (sp_version x)
  && in_range 2 4096 (sp_dimensions x)
  && float_range (int_truediv 1 10) (float_of_int 120) (sp_timeout_seconds x)
  && in_range 1 3 (sp_maximum_attempts x) && in_range 1 256 (sp_maximum_batch_items x)
  && in_range 1 1000000 (sp_maximum_batch_tokens x).

(** [EmbeddingSpec.digest] *)
Definition spec_digest (s : EmbeddingSpec) : string := json_digest (spec_json s).

Definition EmbeddingRequest_material (x : EmbeddingRequest) : payload :=
  [("operation_id", JStr (erq_operation_id x)); ("tenant_id", JStr (erq_tenant_id x));
   ("run_id", JStr (erq_run_id x)); ("reservation_id", JStr (erq_reservation_id x));
   ("fence_token", JStr (erq_fence_token x)); ("spec", spec_json (erq_spec x));
   ("chunks", JList (chunk_json <$> erq_chunks x))].
Definition EmbeddingRequest_fields (x : EmbeddingRequest) : bool :=
  Identifier (erq_operation_id x) && Identifier (erq_tenant_id x) && Identifier (erq_run_id x)
  && Identifier (erq_reservation_id x) && Identifier (erq_fence_token x)
  && EmbeddingSpec_fields (erq_spec x)
  && count_range 1 256 (erq_chunks x) && forallb MemoryChunk_ok (erq_chunks x)
  && is_sha256_hex (erq_request_digest x).

(** [validate_request] *)
Definition EmbeddingRequest_ok (r : EmbeddingRequest) : bool :=
  EmbeddingRequest_fields r
  && forallb (λ c, bool_decide (ch_tenant_id c = erq_tenant_id r)) (erq_chunks r)
  && (zlen (erq_chunks r) <=? sp_maximum_batch_items (erq_spec r))
  && (foldr Z.add 0 (ch_token_estimate <$> erq_chunks r) <=? sp_maximum_batch_tokens (erq_spec r))
  && bool_decide (erq_request_digest r = json_digest (JObj (EmbeddingRequest_material r))).

Definition new_EmbeddingRequest : EmbeddingRequest → res EmbeddingRequest :=
  validated EmbeddingRequest_ok "EmbeddingRequest".

Definition EmbeddingVector_material (x : EmbeddingVector) : payload :=
  [("chunk_id", JStr (vec_chunk_id x)); ("content_digest", JStr (vec_content_digest x));
   ("values", JList (float_json <$> vec_values x))].
Definition vector_json (x : EmbeddingVector) : json := JObj (EmbeddingVector_material x).
Definition EmbeddingVector_fields (x : EmbeddingVector) : bool :=
  Identifier (vec_chunk_id x) && is_sha256_hex (vec_content_digest x)
  && count_range 2 4096 (vec_values x).

(** [finite_normalized] *)
Definition EmbeddingVector_ok (v : EmbeddingVector) : bool :=
  EmbeddingVector_fields v && forallb is_finite (vec_values v)
  && math_isclose (fsqrt (float_sum ((λ x, fmul x x) <$> vec_values v))) f_one f_1e6 f_1e6.

Definition new_EmbeddingVector : EmbeddingVector → res EmbeddingVector :=
  validated EmbeddingVector_ok "EmbeddingVector".

Definition EmbeddingResult_material (x : EmbeddingResult) : payload :=
  [("operation_id", JStr (ers_operation_id x)); ("request_digest", JStr (ers_request_digest x));
   ("spec_digest", JStr (ers_spec_digest x)); ("attempt", JInt (ers_attempt x));
   ("fence_token", JStr (ers_fence_token x)); ("vectors", JList (vector_json <$> ers_vectors x))].
Definition EmbeddingResult_fields (x : EmbeddingResult) : bool :=
  Identifier (ers_operation_id x) && is_sha256_hex (ers_request_digest x)
  && is_sha256_hex (ers_spec_digest x) && in_range 1 3 (ers_attempt x)
  && Identifier (ers_fence_token x)
  && count_range 1 256 (ers_vectors x) && forallb EmbeddingVector_ok (ers_vectors x)
  && is_sha256_hex (ers_result_digest x).

(** [validate_result] *)
Definition EmbeddingResult_ok (r : EmbeddingResult) : bool :=
  EmbeddingResult_fields r && bool_decide (ers_result_digest r = json_digest (JObj (EmbeddingResult_material r))).

Definition new_EmbeddingResult : EmbeddingResult → res EmbeddingResult :=
  validated EmbeddingResult_ok "EmbeddingResult".

Definition SummaryRequest_material (x : SummaryRequest) : payload :=
  [("operation_id", JStr (srq_operation_id x)); ("tenant_id", JStr (srq_tenant_id x));
   ("run_id", JStr (srq_run_id x)); ("source_chunks", JList (chunk_json <$> srq_source_chunks x));
   ("maximum_tokens", JInt (srq_maximum_tokens x));
   ("summarizer_model", JStr (srq_summarizer_model x));
   ("summarizer_version", JStr (srq_summarizer_version x)); ("depth", JInt (srq_depth x));
   ("fence_token", JStr (srq_fence_token x))].
Definition SummaryRequest_fields (x : SummaryRequest) : bool :=
  Identifier (srq_operation_id x) && Identifier (srq_tenant_id x) && Identifier (srq_run_id x)
  && count_range 1 256 (srq_source_chunks x) && forallb MemoryChunk_ok (srq_source_chunks x)
  && in_range 16 8192 (srq_maximum_tokens x) && Identifier (srq_summarizer_model x)
  && Identifier (srq_summarizer_version x) && in_range 1 4 (srq_depth x)
  && Identifier (srq_fence_token x) && is_sha256_hex (srq_request_digest x).

(** [validate_request] *)
Definition SummaryRequest_ok (r : SummaryRequest) : bool :=
  SummaryRequest_fields r
  && forallb (λ c, bool_decide (ch_tenant_id c = srq_tenant_id r)) (srq_source_chunks r)
  && bool_decide (srq_request_digest r = json_digest (JObj (SummaryRequest_material r))).

Definition SummaryClaim_material (x : SummaryClaim) : payload :=
  [("text", JStr (scl_text x)); ("citations", strings_json (scl_citations x))].
Definition claim_json (x : SummaryClaim) : json := JObj (SummaryClaim_material x).
Definition SummaryClaim_fields (x : SummaryClaim) : bool :=
  length_between 1 1024 (scl_text x)
  && count_range 1 32 (scl_citations x) && forallb Identifier (scl_citations x).

Definition SummaryResult_material (x : SummaryResult) : payload :=
  [("operation_id", JStr (srs_operation_id x)); ("request_digest", JStr (srs_request_digest x));
   ("summary", JStr (srs_summary x)); ("claims", JList (claim_json <$> srs_claims x));
   ("source_coverage", float_json (srs_source_coverage x));
   ("fallback_used", JBool (srs_fallback_used x)); ("fence_token", JStr (srs_fence_token x))].
Definition SummaryResult_fields (x : SummaryResult) : bool :=
  Identifier (srs_operation_id x) && is_sha256_hex (srs_request_digest x)
  && length_between 1 _MAX_MEMORY_TEXT (srs_summary x)
  && count_range 1 128 (srs_claims x) && forallb SummaryClaim_fields (srs_claims x)
  && unit_interval (srs_source_coverage x) && Identifier (srs_fence_token x)
  && is_sha256_hex (srs_result_digest x).

(** [validate_result] *)
Definition SummaryResult_ok (r : SummaryResult) : bool :=
  SummaryResult_fields r && bool_decide (srs_result_digest r = json_digest (JObj (SummaryResult_material r))).

Definition new_SummaryResult : SummaryResult → res SummaryResult :=
  validated SummaryResult_ok "SummaryResult".

Definition MemoryFact_material (x : MemoryFact) : payload :=
  [("schema_version", JInt 1); ("tenant_id", JStr (mfa_tenant_id x));
   ("memory_id", JStr (mfa_memory_id x)); ("sequence", JInt (mfa_sequence x));
   ("fact_id", JStr (mfa_fact_id x)); ("fact_type", JStr (memory_fact_value (mfa_fact_type x)));
   ("command_id", JStr (mfa_command_id x)); ("actor_ref", JStr (mfa_actor_ref x));
   ("recorded_at", JStr (iso_z (mfa_recorded_at x))); ("payload", JObj (mfa_payload x));
   ("previous_digest", JStr (mfa_previous_digest x))].
Definition MemoryFact_fields (x : MemoryFact) : bool :=
  Identifier (mfa_tenant_id x) && Identifier (mfa_memory_id x) && (1 <=? mfa_sequence x)
  && Identifier (mfa_fact_id x) && Identifier (mfa_command_id x) && Identifier (mfa_actor_ref x)
  && (zlen (mfa_payload x) <=? 32) && is_sha256_hex (mfa_previous_digest x)
  && is_sha256_hex (mfa_fact_digest x).

(** [bound_payload] *)
Definition sensitive : list string := ["text"; "query"; "prompt"; "completion"; "tenant_id"; "locator"].

Definition MemoryFact_ok (f : MemoryFact) : bool :=
  MemoryFact_fields f
  && (byte_len (py_str (JObj (py_sorted key_leb (mfa_payload f)))) <=? _MAX_FACT_BYTES)
  && negb (existsb (λ k, bool_decide (k ∈ sensitive)) (mfa_payload f).*1).

(** [MemoryFact(...)], on a payload that is in key order *)
Definition new_MemoryFact : MemoryFact → res MemoryFact := validated MemoryFact_ok "MemoryFact".

Definition MemoryOperationFact_material (x : MemoryOperationFact) : payload :=
  [("schema_version", JInt 1); ("tenant_id", JStr (mof_tenant_id x));
   ("operation_id", JStr (mof_operation_id x)); ("run_id", JStr (mof_run_id x));
   ("incident_id", JStr (mof_incident_id x)); ("sequence", JInt (mof_sequence x));
   ("fact_type", JStr (memory_fact_value (mof_fact_type x)));
   ("policy_digest", JStr (mof_policy_digest x)); ("query_digest", opt_json (mof_query_digest x));
   ("result_digest", opt_json (mof_result_digest x));
   ("recorded_at", JStr (iso_z (mof_recorded_at x)))].
Definition MemoryOperationFact_fields (x : MemoryOperationFact) : bool :=
  Identifier (mof_tenant_id x) && Identifier (mof_operation_id x) && Identifier (mof_run_id x)
  && Identifier (mof_incident_id x) && in_range 1 16 (mof_sequence x)
  && is_sha256_hex (mof_policy_digest x) && opt_ok (λ x, is_sha256_hex x) (mof_query_digest x)
  && opt_ok (λ x, is_sha256_hex x) (mof_result_digest x) && is_sha256_hex (mof_fact_digest x).

(** [validate_digest] *)
Definition MemoryOperationFact_ok (f : MemoryOperationFact) : bool :=
  MemoryOperationFact_fields f
  && bool_decide (mof_fact_digest f = json_digest (JObj (MemoryOperationFact_material f))).

Definition new_MemoryOperationFact : MemoryOperationFact → res MemoryOperationFact :=
  validated MemoryOperationFact_ok "MemoryOperationFact".

Definition MemoryProjection_fields (x : MemoryProjection) : bool :=
  Identifier (mpj_tenant_id x) && Identifier (mpj_memory_id x) && (1 <=? mpj_version x)
  && is_sha256_hex (mpj_record_digest x) && is_sha256_hex (mpj_last_fact_digest x)
  && in_range 0 10000 (mpj_chunk_count x) && in_range 0 16 (mpj_legal_hold_count x).

Definition new_MemoryProjection : MemoryProjection → res MemoryProjection :=
  validated MemoryProjection_fields "MemoryProjection".

Definition RetrievalPolicy_material (x : RetrievalPolicy) : payload :=
  [("policy_id", JStr (rpo_policy_id x)); ("revision", JInt (rpo_revision x));
   ("lexical_weight", float_json (rpo_lexical_weight x));
   ("vector_weight", float_json (rpo_vector_weight x));
   ("recency_weight", float_json (rpo_recency_weight x));
   ("quality_weight", float_json (rpo_quality_weight x));
   ("mmr_lambda", float_json (rpo_mmr_lambda x));
   ("maximum_candidates", JInt (rpo_maximum_candidates x)); ("top_k", JInt (rpo_top_k x));
   ("maximum_tokens", JInt (rpo_maximum_tokens x)); ("maximum_bytes", JInt (rpo_maximum_bytes x));
   ("cache_ttl_seconds", JInt (rpo_cache_ttl_seconds x));
   ("freshness_seconds", JInt (rpo_freshness_seconds x))].
Definition RetrievalPolicy_fields (x : RetrievalPolicy) : bool :=
  Identifier (rpo_policy_id x) && (1 <=? rpo_revision x) && unit_interval (rpo_lexical_weight x)
  && unit_interval (rpo_vector_weight x) && unit_interval (rpo_recency_weight x)
  && unit_interval (rpo_quality_weight x) && unit_interval (rpo_mmr_lambda x)
  && in_range 1 1000 (rpo_maximum_candidates x) && in_range 1 100 (rpo_top_k x)
  && in_range 16 32768 (rpo_maximum_tokens x) && in_range 256 262144 (rpo_maximum_bytes x)
  && in_range 0 3600 (rpo_cache_ttl_seconds x) && in_range 1 31536000 (rpo_freshness_seconds x).

(** [validate_weights] *)
Definition RetrievalPolicy_ok (p : RetrievalPolicy) : bool :=
  RetrievalPolicy_fields p
  && math_isclose (fadd (fadd (fadd (rpo_lexical_weight p) (rpo_vector_weight p)) (rpo_recency_weight p))
                     (rpo_quality_weight p)) f_one f_1e9 f_1e9
  && (rpo_top_k p <=? rpo_maximum_candidates p).

(** [RetrievalPolicy.digest] *)
Definition retrieval_policy_digest (p : RetrievalPolicy) : string := json_digest (JObj (RetrievalPolicy_material p)).

Definition RetrievalQuery_fields (x : RetrievalQuery) : bool :=
  Identifier (rq_query_id x) && Identifier (rq_tenant_id x) && Identifier (rq_run_id x)
  && Identifier (rq_incident_id x) && Identifier (rq_principal_ref x)
  && count_range 0 32 (rq_roles x) && forallb Identifier (rq_roles x)
  && count_range 1 4 (rq_allowed_classifications x) && length_between 1 8192 (rq_text x)
  && is_sha256_hex (rq_query_digest x) && RetrievalPolicy_ok (rq_policy x).

(** [validate_query] *)
Definition RetrievalQuery_ok (q : RetrievalQuery) : bool :=
  RetrievalQuery_fields q
  && match canonical_text (rq_text q) with
     | Ok s => bool_decide (rq_query_digest q = hexdigest (utf8 s))
     | Raise _ => false
     end.

Definition RetrievalHit_material (x : RetrievalHit) : payload :=
  [("memory_id", JStr (rh_memory_id x)); ("chunk_id", JStr (rh_chunk_id x));
   ("tier", JStr (tier_value (rh_tier x))); ("text", JStr (rh_text x));
   ("citation", memory_citation_json (rh_citation x));
   ("lexical_score", float_json (rh_lexical_score x));
   ("vector_score", float_json (rh_vector_score x));
   ("recency_score", float_json (rh_recency_score x));
   ("quality_score", float_json (rh_quality_score x));
   ("combined_score", float_json (rh_combined_score x)); ("stale", JBool (rh_stale x));
   ("contradiction_group", opt_json (rh_contradiction_group x))].
Definition hit_json (x : RetrievalHit) : json := JObj (RetrievalHit_material x).
Definition RetrievalHit_fields (x : RetrievalHit) : bool :=
  Identifier (rh_memory_id x) && Identifier (rh_chunk_id x)
  && length_between 1 _MAX_MEMORY_TEXT (rh_text x) && MemoryCitation_fields (rh_citation x)
  && unit_interval (rh_lexical_score x) && unit_interval (rh_vector_score x)
  && unit_interval (rh_recency_score x) && unit_interval (rh_quality_score x)
  && unit_interval (rh_combined_score x) && opt_Identifier (rh_contradiction_group x).

Definition new_RetrievalHit : RetrievalHit → res RetrievalHit := validated RetrievalHit_fields "RetrievalHit".

Definition RetrievalResult_material (x : RetrievalResult) : payload :=
  [("query_id", JStr (rr_query_id x)); ("query_digest", JStr (rr_query_digest x));
   ("policy_digest", JStr (rr_policy_digest x)); ("hits", JList (hit_json <$> rr_hits x));
   ("candidate_count", JInt (rr_candidate_count x)); ("token_count", JInt (rr_token_count x));
   ("byte_count", JInt (rr_byte_count x));
   ("insufficient_context", JBool (rr_insufficient_context x));
   ("cache_hit", JBool (rr_cache_hit x))].
Definition RetrievalResult_fields (x : RetrievalResult) : bool :=
  Identifier (rr_query_id x) && is_sha256_hex (rr_query_digest x)
  && is_sha256_hex (rr_policy_digest x)
  && count_range 0 100 (rr_hits x) && forallb RetrievalHit_fields (rr_hits x)
  && in_range 0 1000 (rr_candidate_count x) && in_range 0 32768 (rr_token_count x)
  && in_range 0 262144 (rr_byte_count x) && is_sha256_hex (rr_result_digest x).

Definition new_RetrievalResult : RetrievalResult → res RetrievalResult :=
  validated RetrievalResult_fields "RetrievalResult".
End memory.
