(* ===== verification/MemoryLedger.v ===== *)
(** * Memory ledgers ([memory.py], lines 500-527 and 572-760)

    The operation ledger, the record and fact ledger, and the fold from facts to the
    projection of a memory. *)

From S2P Require Import Prelude PyJson PyFloat PyTime PyText PyModel Domain Evidence MemoryData.

(** ** Operation facts *)

(** The facts of each operation, in order *)
Definition operation_table : Type := gmap (string * string) (list MemoryOperationFact).

Definition operation_facts (m : operation_table) (tenant_id operation_id : string) : list MemoryOperationFact :=
  default [] (m !! (tenant_id, operation_id)).

Definition append_operation (fact : MemoryOperationFact) : M operation_table unit :=
  let key := (mof_tenant_id fact, mof_operation_id fact) in
  m ← get;
  let facts := default [] (m !! key) in
  modify (λ m, <[key := facts]> m);;
  match facts with
  | [] =>
      lift (raise_if (negb (mof_sequence fact =? 1)) ConcurrencyConflict
              "memory operation must begin at sequence one");;
      modify (λ m, <[key := [fact]]> m)
  | _ :: _ =>
      if mof_sequence fact <=? zlen facts then
        match facts !! Z.to_nat (mof_sequence fact - 1) with
        | Some existing =>
            lift (raise_if (bool_decide (mof_fact_digest existing ≠ mof_fact_digest fact)) IdempotencyConflict
                    "memory operation fact replay changed")
        | None => lift (raise IndexError "list index out of range")
        end
      else
        lift (raise_if (negb (mof_sequence fact =? zlen facts + 1)) ConcurrencyConflict
                "memory operation sequence changed");;
        modify (λ m, <[key := facts ++ [fact]]> m)
  end.

(** ** The fold over memory facts *)

Definition _bounded_count (value : option json) (maximum : Z) : res Z :=
  match value with
  | Some (JInt z) =>
      raise_if (negb (in_range 0 maximum z)) IntegrityFailure "memory fact count is invalid";; Ok z
  | _ => raise IntegrityFailure "memory fact count is invalid"
  end.

Definition _ZERO_DIGEST : string := str_repeat 64 "0".

Section reduce.
Context {HDigest : Digest} {HFloat : FloatJson}.

(** The digest a fact must carry *)
Definition fact_digest (f : MemoryFact) : string := json_digest (JObj (MemoryFact_material f)).

(** What a fact changes: status, indexed, tombstoned, hold count, purged, erased, chunks *)
Record fold_state := {
  fs_status : MemoryStatus;
  fs_indexed : bool;
  fs_tombstoned : bool;
  fs_hold_count : Z;
  fs_derived_purged : bool;
  fs_blob_erased : bool;
  fs_chunk_count : Z
}.

Definition fold_start (current : option MemoryProjection) : fold_state :=
  match current with
  | None =>
      {| fs_status := MS_CANDIDATE; fs_indexed := false; fs_tombstoned := false; fs_hold_count := 0;
         fs_derived_purged := false; fs_blob_erased := false; fs_chunk_count := 0 |}
  | Some c =>
      {| fs_status := mpj_status c; fs_indexed := mpj_indexed c; fs_tombstoned := mpj_tombstoned c;
         fs_hold_count := mpj_legal_hold_count c; fs_derived_purged := mpj_derived_purged c;
         fs_blob_erased := mpj_blob_erased c; fs_chunk_count := mpj_chunk_count c |}
  end.

Definition set_status (status : MemoryStatus) (s : fold_state) : fold_state :=
  {| fs_status := status; fs_indexed := fs_indexed s; fs_tombstoned := fs_tombstoned s;
     fs_hold_count := fs_hold_count s; fs_derived_purged := fs_derived_purged s;
     fs_blob_erased := fs_blob_erased s; fs_chunk_count := fs_chunk_count s |}.
Definition set_hold (n : Z) (s : fold_state) : fold_state :=
  {| fs_status := fs_status s; fs_indexed := fs_indexed s; fs_tombstoned := fs_tombstoned s;
     fs_hold_count := n; fs_derived_purged := fs_derived_purged s;
     fs_blob_erased := fs_blob_erased s; fs_chunk_count := fs_chunk_count s |}.
Definition set_chunks (n : Z) (s : fold_state) : fold_state :=
  {| fs_status := fs_status s; fs_indexed := fs_indexed s; fs_tombstoned := fs_tombstoned s;
     fs_hold_count := fs_hold_count s; fs_derived_purged := fs_derived_purged s;
     fs_blob_erased := fs_blob_erased s; fs_chunk_count := n |}.

(** The [if]/[elif] chain of [reduce_memory] *)
Definition fold_fact (fact_type : MemoryFactType) (p : payload) (s : fold_state) : res fold_state :=
  match fact_type with
  | MF_CANDIDATE_ACCEPTED => Ok (set_status MS_ACCEPTED s)
  | MF_CANDIDATE_REJECTED => Ok (set_status MS_REJECTED s)
  | MF_CHUNK_COMPLETED =>
      n ← _bounded_count (dict_get "chunk_count" p) 10000; Ok (set_chunks n s)
  | MF_INDEX_COMPLETED =>
      raise_if (bool_decide (fs_status s ∉ [MS_ACCEPTED; MS_ACTIVE])) IntegrityFailure
        "unaccepted memory cannot be indexed";;
      Ok {| fs_status := MS_ACTIVE; fs_indexed := true; fs_tombstoned := fs_tombstoned s;
            fs_hold_count := fs_hold_count s; fs_derived_purged := fs_derived_purged s;
            fs_blob_erased := fs_blob_erased s; fs_chunk_count := fs_chunk_count s |}
  | MF_SUPERSEDED => Ok (set_status MS_SUPERSEDED s)
  | MF_TOMBSTONED | MF_RETENTION_EXPIRED | MF_DELETE_REQUESTED =>
      Ok {| fs_status := MS_TOMBSTONED; fs_indexed := fs_indexed s; fs_tombstoned := true;
            fs_hold_count := fs_hold_count s; fs_derived_purged := fs_derived_purged s;
            fs_blob_erased := fs_blob_erased s; fs_chunk_count := fs_chunk_count s |}
  | MF_LEGAL_HOLD_APPLIED => Ok (set_hold (Z.min 16 (fs_hold_count s + 1)) s)
  | MF_LEGAL_HOLD_RELEASED => Ok (set_hold (Z.max 0 (fs_hold_count s - 1)) s)
  | MF_DERIVED_PURGED =>
      raise_if (negb (fs_tombstoned s)) IntegrityFailure "derived memory purge requires a tombstone";;
      Ok {| fs_status := fs_status s; fs_indexed := false; fs_tombstoned := fs_tombstoned s;
            fs_hold_count := fs_hold_count s; fs_derived_purged := true;
            fs_blob_erased := fs_blob_erased s; fs_chunk_count := fs_chunk_count s |}
  | MF_CRYPTO_ERASED =>
      raise_if (negb (fs_derived_purged s) || negb (fs_hold_count s =? 0)) IntegrityFailure
        "crypto erasure requires purge and no legal hold";;
      Ok {| fs_status := MS_ERASED; fs_indexed := fs_indexed s; fs_tombstoned := fs_tombstoned s;
            fs_hold_count := fs_hold_count s; fs_derived_purged := fs_derived_purged s;
            fs_blob_erased := true; fs_chunk_count := fs_chunk_count s |}
  | _ => Ok s
  end.

Definition reduce_memory (current : option MemoryProjection) (fact : MemoryFact) (record : MemoryRecord)
    : res MemoryProjection :=
  let expected_sequence := match current with None => 1 | Some c => mpj_version c + 1 end in
  let expected_previous := match current with None => _ZERO_DIGEST | Some c => mpj_last_fact_digest c end in
  raise_if (negb (mfa_sequence fact =? expected_sequence)
            || bool_decide (mfa_previous_digest fact ≠ expected_previous)
            || bool_decide (mfa_tenant_id fact ≠ mr_tenant_id record)
            || bool_decide (mfa_memory_id fact ≠ mr_memory_id record)
            || bool_decide (mfa_fact_digest fact ≠ fact_digest fact)) IntegrityFailure
    "memory fact chain is invalid";;
  raise_if (bool_decide (current = None) && bool_decide (mfa_fact_type fact ≠ MF_CANDIDATE_PROPOSED))
    IntegrityFailure "memory lifecycle must begin with a candidate";;
  s ← fold_fact (mfa_fact_type fact) (mfa_payload fact) (fold_start current);
  new_MemoryProjection
    {| mpj_tenant_id := mfa_tenant_id fact; mpj_memory_id := mfa_memory_id fact;
       mpj_tier := mr_tier record; mpj_status := fs_status s; mpj_version := mfa_sequence fact;
       mpj_record_digest := mr_canonical_digest record; mpj_last_fact_digest := mfa_fact_digest fact;
       mpj_chunk_count := fs_chunk_count s; mpj_indexed := fs_indexed s;
       mpj_tombstoned := fs_tombstoned s; mpj_legal_hold_count := fs_hold_count s;
       mpj_derived_purged := fs_derived_purged s; mpj_blob_erased := fs_blob_erased s;
       mpj_updated_at := mfa_recorded_at fact |}.
End reduce.

(** ** The memory ledger *)

Record mledger := {
  _records : gmap (string * string) MemoryRecord;
  _mfacts : gmap (string * string) (list MemoryFact);
  _mcommands : gmap (string * string) string;
  _mprojections : gmap (string * string) MemoryProjection
}.

Definition empty_mledger : mledger :=
  {| _records := ∅; _mfacts := ∅; _mcommands := ∅; _mprojections := ∅ |}.

Definition mrecord (l : mledger) (tenant_id memory_id : string) : option MemoryRecord :=
  _records l !! (tenant_id, memory_id).
Definition mprojection (l : mledger) (tenant_id memory_id : string) : option MemoryProjection :=
  _mprojections l !! (tenant_id, memory_id).
Definition mfacts (l : mledger) (tenant_id memory_id : string) : list MemoryFact :=
  default [] (_mfacts l !! (tenant_id, memory_id)).

Definition put_record (record : MemoryRecord) : M mledger unit :=
  let key := (mr_tenant_id record, mr_memory_id record) in
  l ← get;
  match _records l !! key with
  | Some existing =>
      lift (raise_if (bool_decide (mr_canonical_digest existing ≠ mr_canonical_digest record)) IdempotencyConflict
              "memory record replay changed content")
  | None =>
      modify (λ l, {| _records := <[key := record]> (_records l); _mfacts := _mfacts l;
                      _mcommands := _mcommands l; _mprojections := _mprojections l |})
  end.

Section ledger.
Context {HDigest : Digest} {HFloat : FloatJson}.

Definition memory_fingerprint (fact_type : MemoryFactType) (memory_id : string) (p : payload) : string :=
  json_digest (JObj [("fact_type", JStr (memory_fact_value fact_type)); ("memory_id", JStr memory_id);
                     ("payload", JObj (py_sorted key_leb p))]).

(** The fact [append] records *)
Definition build_memory_fact (tenant_id memory_id : string) (sequence : Z) (previous : string)
    (fact_type : MemoryFactType) (command_id actor_ref : string) (recorded_at : datetime)
    (p : payload) : MemoryFact :=
  let fact digest :=
    {| mfa_tenant_id := tenant_id; mfa_memory_id := memory_id; mfa_sequence := sequence;
       mfa_fact_id := stable_id "memory-fact" [tenant_id; memory_id; str_of_int sequence; command_id] 32;
       mfa_fact_type := fact_type; mfa_command_id := command_id; mfa_actor_ref := actor_ref;
       mfa_recorded_at := recorded_at; mfa_payload := py_sorted key_leb p;
       mfa_previous_digest := previous; mfa_fact_digest := digest |} in
  fact (fact_digest (fact "")).

Definition commit_memory_fact (key command_key : string * string) (fingerprint : string)
    (fact : MemoryFact) (p : MemoryProjection) (l : mledger) : mledger :=
  {| _records := _records l;
     _mfacts := <[key := default [] (_mfacts l !! key) ++ [fact]]> (_mfacts l);
     _mcommands := <[command_key := fingerprint]> (_mcommands l);
     _mprojections := <[key := p]> (_mprojections l) |}.

(** [InMemoryMemoryLedger.append] *)
Definition mappend (tenant_id memory_id : string) (expected_version : Z) (fact_type : MemoryFactType)
    (command_id actor_ref : string) (recorded_at : datetime) (p : payload) : M mledger MemoryProjection :=
  let key := (tenant_id, memory_id) in
  let fingerprint := memory_fingerprint fact_type memory_id p in
  let command_key := (tenant_id, command_id) in
  l ← get;
  match _records l !! key with
  | None => lift (raise IntegrityFailure "memory record is missing")
  | Some record =>
      match _mcommands l !! command_key with
      | Some existing_command =>
          lift (raise_if (bool_decide (existing_command ≠ fingerprint)) IdempotencyConflict
                  "memory command replay changed");;
          lift (of_option (_mprojections l !! key) KeyError memory_id)
      | None =>
          let current := _mprojections l !! key in
          let version := match current with Some c => mpj_version c | None => 0 end in
          lift (raise_if (negb (version =? expected_version)) ConcurrencyConflict
                  "memory aggregate version changed");;
          let previous := match current with Some c => mpj_last_fact_digest c | None => _ZERO_DIGEST end in
          fact ← lift (new_MemoryFact
            (build_memory_fact tenant_id memory_id (version + 1) previous fact_type command_id actor_ref
               recorded_at p));
          projected ← lift (reduce_memory current fact record);
          modify (commit_memory_fact key command_key fingerprint fact projected);;
          mret projected
      end
  end.

Definition reduce_memory_opt (record : MemoryRecord) (current : option MemoryProjection) (fact : MemoryFact)
    : res (option MemoryProjection) :=
  p ← reduce_memory current fact record; Ok (Some p).

(** [InMemoryMemoryLedger.rebuild] *)
Definition mrebuild (tenant_id memory_id : string) : M mledger MemoryProjection :=
  let key := (tenant_id, memory_id) in
  l ← get;
  record ← lift (of_option (_records l !! key) IntegrityFailure "cannot rebuild unknown memory");
  o ← lift (foldM (reduce_memory_opt record) None (mfacts l tenant_id memory_id));
  p ← lift (of_option o IntegrityFailure "cannot rebuild memory without facts");
  modify (λ l, {| _records := _records l; _mfacts := _mfacts l; _mcommands := _mcommands l;
                  _mprojections := <[key := p]> (_mprojections l) |});;
  mret p.
End ledger.

#[global] Arguments reduce_memory : simpl never.
#[global] Arguments build_memory_fact : simpl never.
#[global] Arguments mappend : simpl never.
#[global] Arguments memory_fingerprint : simpl never.
