(* ===== verification/MemoryIndex.v ===== *)
(** * Embeddings and the hybrid index ([memory.py], lines 834-965, 1060-1210, 2144-2260, 2284-2288)

    The deterministic embedding adapter, the admission gateway around an embedding provider,
    and the lexical and vector index with its tenant-scoped cache.  A provider is a
    parameter: a function in a state monad of its own. *)

From S2P Require Import Prelude PyJson PyFloat PyTime PyText PyModel Domain Evidence MemoryData.

Section index.
Context {HDigest : Digest} {HFloat : FloatJson}.

(** ** Deterministic vectors *)

(** [int.from_bytes(digest[:4], "big")] and single bytes of a digest *)
Definition byte_at (i : nat) (s : string) : Z :=
  match String.get i s with Some c => char_code c | None => 0 end.

Definition int_of_4_bytes (s : string) : Z :=
  ((byte_at 0 s * 256 + byte_at 1 s) * 256 + byte_at 2 s) * 256 + byte_at 3 s.

Definition add_term (dimensions : Z) (values : list float) (term : string) : list float :=
  let digest := sha256_digest term in
  let index := Z.to_nat (int_of_4_bytes digest mod dimensions) in
  let sign := if Z.odd (byte_at 4 digest) then f_one else fopp f_one in
  alter (λ v, fadd v (fmul sign (fadd f_one (int_truediv (byte_at 5 digest) 255)))) index values.

Definition _deterministic_vector (text : string) (dimensions : Z) : res (list float) :=
  terms ← _terms text;
  let values := foldl (add_term dimensions) (replicate (Z.to_nat dimensions) f_zero) terms in
  let values := if existsb ftruthy values then values else <[0%nat := f_one]> values in
  let norm := fsqrt (float_sum ((λ v, fmul v v) <$> values)) in
  Ok ((λ v, fdiv v norm) <$> values).

Definition embed_chunk (dimensions : Z) (chunk : MemoryChunk) : res EmbeddingVector :=
  values ← _deterministic_vector (ch_text chunk) dimensions;
  new_EmbeddingVector
    {| vec_chunk_id := ch_chunk_id chunk; vec_content_digest := ch_content_digest chunk; vec_values := values |}.

Fixpoint embed_chunks (dimensions : Z) (chunks : list MemoryChunk) : res (list EmbeddingVector) :=
  match chunks with
  | [] => Ok []
  | chunk :: chunks =>
      v ← embed_chunk dimensions chunk; vs ← embed_chunks dimensions chunks; Ok (v :: vs)
  end.

(** [DeterministicEmbeddingAdapter.embed] *)
Definition deterministic_embed (dimensions : Z) (request : EmbeddingRequest) : res EmbeddingResult :=
  raise_if (bool_decide (sp_provider (erq_spec request) ≠ "fake")
            || negb (sp_dimensions (erq_spec request) =? dimensions)) PolicyDenied
    "deterministic adapter does not match embedding spec";;
  vectors ← embed_chunks dimensions (erq_chunks request);
  let result digest :=
    {| ers_operation_id := erq_operation_id request; ers_request_digest := erq_request_digest request;
       ers_spec_digest := spec_digest (erq_spec request); ers_attempt := 1;
       ers_fence_token := erq_fence_token request; ers_vectors := vectors; ers_result_digest := digest |} in
  new_EmbeddingResult (result (json_digest (JObj (EmbeddingResult_material (result ""))))).

(** ** ControlledEmbeddingGateway *)

Record gateway_limits := {
  gl_maximum_concurrency : Z;
  gl_maximum_calls : Z;
  gl_rate_limit_per_minute : Z;
  gl_circuit_failure_threshold : Z;
  gl_circuit_open_seconds : Z
}.

Definition gateway_limits_ok (g : gateway_limits) : bool :=
  in_range 1 256 (gl_maximum_concurrency g) && in_range 1 1000000 (gl_maximum_calls g)
  && in_range 1 100000 (gl_rate_limit_per_minute g) && in_range 1 100 (gl_circuit_failure_threshold g)
  && in_range 1 3600 (gl_circuit_open_seconds g).

(** The gateway's state, with the clock position and the provider's state *)
Record gateway (E : Type) := {
  gw_permits : Z;
  gw_remaining : Z;
  gw_windows : gmap string (list datetime);
  gw_failures : gmap string Z;
  gw_opened : gmap string datetime;
  gw_tick : nat;
  gw_provider : E
}.
Arguments gw_permits {E} _.
Arguments gw_remaining {E} _.
Arguments gw_windows {E} _.
Arguments gw_failures {E} _.
Arguments gw_opened {E} _.
Arguments gw_tick {E} _.
Arguments gw_provider {E} _.

Section gateway.
Context {E : Type} (limits : gateway_limits) (clock : nat → datetime)
  (adapter : EmbeddingRequest → M E EmbeddingResult).

Abbreviation G := (M (gateway E)).

Definition new_gateway (e : E) : res (gateway E) :=
  raise_if (negb (gateway_limits_ok limits)) ValueError "embedding gateway bounds are invalid";;
  Ok {| gw_permits := gl_maximum_concurrency limits; gw_remaining := gl_maximum_calls limits;
        gw_windows := ∅; gw_failures := ∅; gw_opened := ∅; gw_tick := 0; gw_provider := e |}.

Definition gw_now : G datetime := λ g,
  (Ok (clock (gw_tick g)),
   {| gw_permits := gw_permits g; gw_remaining := gw_remaining g; gw_windows := gw_windows g;
      gw_failures := gw_failures g; gw_opened := gw_opened g; gw_tick := S (gw_tick g);
      gw_provider := gw_provider g |}).

Definition set_permits (n : Z) (g : gateway E) : gateway E :=
  {| gw_permits := n; gw_remaining := gw_remaining g; gw_windows := gw_windows g;
     gw_failures := gw_failures g; gw_opened := gw_opened g; gw_tick := gw_tick g;
     gw_provider := gw_provider g |}.

(** [if not semaphore.acquire(blocking=False): raise ...; try: ... finally: release()] *)
Definition with_permit {A} (m : G A) : G A := λ g,
  if gw_permits g <=? 0 then (raise PolicyDenied "embedding concurrency exhausted", g)
  else let '(r, g') := m (set_permits (gw_permits g - 1) g) in (r, set_permits (gw_permits g' + 1) g').

Definition set_circuit (key : string) (failures : Z) (opened : option datetime) (g : gateway E) : gateway E :=
  {| gw_permits := gw_permits g; gw_remaining := gw_remaining g; gw_windows := gw_windows g;
     gw_failures := <[key := failures]> (gw_failures g);
     gw_opened := match opened with
                  | Some t => <[key := t]> (gw_opened g)
                  | None => delete key (gw_opened g)
                  end;
     gw_tick := gw_tick g; gw_provider := gw_provider g |}.

Definition set_window (tenant_id : string) (window : list datetime) (remaining : Z) (g : gateway E) : gateway E :=
  {| gw_permits := gw_permits g; gw_remaining := remaining;
     gw_windows := <[tenant_id := window]> (gw_windows g); gw_failures := gw_failures g;
     gw_opened := gw_opened g; gw_tick := gw_tick g; gw_provider := gw_provider g |}.

(** [while window and window[0] <= cutoff: window.popleft()] *)
Fixpoint drop_until (cutoff : datetime) (window : list datetime) : list datetime :=
  match window with
  | [] => []
  | t :: rest => if t <=? cutoff then drop_until cutoff rest else window
  end.

Definition circuit_key (request : EmbeddingRequest) : string :=
  erq_tenant_id request +:+ String "000" (spec_digest (erq_spec request)).

(** The first locked block of [embed]: circuit, rate and budget *)
Definition admit_call (request : EmbeddingRequest) (admitted_at : datetime) : G unit :=
  let key := circuit_key request in
  g ← get;
  match gw_opened g !! key with
  | Some opened =>
      lift (raise_if (admitted_at - opened <? seconds (gl_circuit_open_seconds limits)) PolicyDenied
              "embedding circuit is open");;
      modify (set_circuit key 0 None)
  | None => mret ()
  end;;
  g ← get;
  let window := drop_until (admitted_at - seconds 60) (default [] (gw_windows g !! erq_tenant_id request)) in
  modify (set_window (erq_tenant_id request) window (gw_remaining g));;
  lift (raise_if (gl_rate_limit_per_minute limits <=? zlen window) PolicyDenied "embedding rate limit exhausted");;
  lift (raise_if (gw_remaining g <=? 0) PolicyDenied "embedding budget exhausted");;
  modify (set_window (erq_tenant_id request) (window ++ [admitted_at]) (gw_remaining g - 1)).

(** [except (IntegrityFailure, PolicyDenied, ValueError)]; a [ValidationError] is one of the last *)
Definition counts_as_failure (k : ExnKind) : bool :=
  bool_decide (k ∈ [IntegrityFailure; PolicyDenied; ValueError; ValidationError]).

(** [self._adapter.embed(request)]: a failure is counted, and may open the circuit *)
Definition call_adapter (request : EmbeddingRequest) : G EmbeddingResult := λ g,
  let key := circuit_key request in
  let '(r, e) := adapter request (gw_provider g) in
  let g := {| gw_permits := gw_permits g; gw_remaining := gw_remaining g; gw_windows := gw_windows g;
              gw_failures := gw_failures g; gw_opened := gw_opened g; gw_tick := gw_tick g;
              gw_provider := e |} in
  match r with
  | Ok result => (Ok result, g)
  | Raise x =>
      if counts_as_failure (exn_kind x) then
        let failures := default 0 (gw_failures g !! key) + 1 in
        if gl_circuit_failure_threshold limits <=? failures then
          let '(_, g') := gw_now g in (Raise x, set_circuit key failures (Some (clock (gw_tick g))) g')
        else (Raise x, set_circuit key failures (gw_opened g !! key) g)
      else (Raise x, g)
  end.

Definition vector_bound (request : EmbeddingRequest) (vector : EmbeddingVector) : bool :=
  match dict_get (vec_chunk_id vector) (dict_update [] ((λ c, (ch_chunk_id c, c)) <$> erq_chunks request)) with
  | None => false
  | Some chunk =>
      bool_decide (vec_content_digest vector = ch_content_digest chunk)
      && (zlen (vec_values vector) =? sp_dimensions (erq_spec request))
  end.

(** The checks on a returned result *)
Definition check_result (request : EmbeddingRequest) (admitted_at completed_at : datetime)
    (result : EmbeddingResult) : res unit :=
  raise_if (fltb (sp_timeout_seconds (erq_spec request)) (int_truediv (completed_at - admitted_at) 1000000))
    IntegrityFailure "embedding provider exceeded timeout";;
  raise_if (negb (zlen (ers_vectors result) =? zlen (remove_dups (ch_chunk_id <$> erq_chunks request)))
            || bool_decide (ers_fence_token result ≠ erq_fence_token request)
            || bool_decide (ers_request_digest result ≠ erq_request_digest request)) IntegrityFailure
    "embedding provider returned an invalid binding";;
  raise_if (negb (forallb (vector_bound request) (ers_vectors result))) IntegrityFailure
    "embedding provider returned invalid vectors".

Definition gateway_embed (request : EmbeddingRequest) : G EmbeddingResult :=
  with_permit
    (admitted_at ← gw_now;
     admit_call request admitted_at;;
     result ← call_adapter request;
     completed_at ← gw_now;
     lift (check_result request admitted_at completed_at result);;
     modify (set_circuit (circuit_key request) 0 None);;
     mret result).
End gateway.

(** ** Scoring *)

(** [sum(min(count, terms[term]) for term, count in query_terms.items())] *)
Definition count_term (t : string) (l : list string) : Z :=
  zlen (List.filter (λ x, bool_decide (x = t)) l).
Definition term_overlap (query_terms terms : list string) : Z :=
  foldr Z.add 0 ((λ t, Z.min (count_term t query_terms) (count_term t terms)) <$> remove_dups query_terms).

Definition dot (a b : list float) : float := float_sum (zip_with fmul a b).

(** [_eligible] *)
Definition _eligible (item : IndexedChunk) (query : RetrievalQuery) : bool :=
  let record := ix_record item in
  bool_decide (mr_tenant_id record = rq_tenant_id query)
  && bool_decide (mr_status record ∈ [MS_ACCEPTED; MS_ACTIVE])
  && bool_decide (mr_classification record ∈ rq_allowed_classifications query)
  && permits (mr_acl record) (rq_roles query) (rq_principal_ref query)
  && match mr_accepted_at record with Some t => t <=? rq_as_of query | None => false end
  && (rq_as_of query <? rb_expires_at (mr_retention record))
  && bool_decide (mr_superseded_by record = None) && bool_decide (mr_tombstone_reason record = None).

(** [_score] *)
Definition _score (query : RetrievalQuery) (query_vector : list float) (query_terms : list string)
    (item : IndexedChunk) : res (IndexedChunk * RetrievalHit) :=
  terms ← _terms (ch_text (ix_chunk item));
  let policy := rq_policy query in
  let lexical := int_truediv (term_overlap query_terms terms) (Z.max (zlen query_terms) 1) in
  let cosine := dot query_vector (vec_values (ix_vector item)) in
  let vector := fclamp (fdiv (fadd cosine f_one) f_two) in
  let age := fmax f_zero (int_truediv (rq_as_of query - ix_indexed_at item) 1000000) in
  let recency := fmax f_zero (fsub f_one (fdiv age (float_of_int (rpo_freshness_seconds policy)))) in
  let quality := fdiv (fadd (mr_quality (ix_record item)) (mr_confidence (ix_record item))) f_two in
  let combined := fclamp (fadd (fadd (fadd (fmul lexical (rpo_lexical_weight policy))
                                           (fmul vector (rpo_vector_weight policy)))
                                     (fmul recency (rpo_recency_weight policy)))
                               (fmul quality (rpo_quality_weight policy))) in
  hit ← new_RetrievalHit
    {| rh_memory_id := mr_memory_id (ix_record item); rh_chunk_id := ch_chunk_id (ix_chunk item);
       rh_tier := mr_tier (ix_record item); rh_text := ch_text (ix_chunk item);
       rh_citation := ch_citation (ix_chunk item); rh_lexical_score := lexical;
       rh_vector_score := vector; rh_recency_score := recency; rh_quality_score := quality;
       rh_combined_score := combined;
       rh_stale := fltb (float_of_int (rpo_freshness_seconds policy)) age;
       rh_contradiction_group := None |};
  Ok (item, hit).

Fixpoint score_all (query : RetrievalQuery) (query_vector : list float) (query_terms : list string)
    (items : list IndexedChunk) : res (list (IndexedChunk * RetrievalHit)) :=
  match items with
  | [] => Ok []
  | item :: items =>
      s ← _score query query_vector query_terms item;
      ss ← score_all query query_vector query_terms items;
      Ok (s :: ss)
  end.

(** The sort key [(-combined_score, memory_id, ordinal, chunk_id)]: [a] does not come after [b] *)
Definition rank_leb (a b : IndexedChunk * RetrievalHit) : bool :=
  if negb (feqb (rh_combined_score a.2) (rh_combined_score b.2))
  then fltb (rh_combined_score b.2) (rh_combined_score a.2)
  else if bool_decide (mr_memory_id (ix_record a.1) ≠ mr_memory_id (ix_record b.1))
  then str_leb (mr_memory_id (ix_record a.1)) (mr_memory_id (ix_record b.1))
  else if negb (ch_ordinal (ix_chunk a.1) =? ch_ordinal (ix_chunk b.1))
  then ch_ordinal (ix_chunk a.1) <? ch_ordinal (ix_chunk b.1)
  else str_leb (ch_chunk_id (ix_chunk a.1)) (ch_chunk_id (ix_chunk b.1)).

(** ** Maximal marginal relevance *)

Definition similarity (pair chosen : IndexedChunk * RetrievalHit) : float :=
  fmax f_zero (dot (vec_values (ix_vector pair.1)) (vec_values (ix_vector chosen.1))).

(** The key of [max(remaining, key=...)] *)
Definition mmr_key (policy : RetrievalPolicy) (selected : list (IndexedChunk * RetrievalHit))
    (pair : IndexedChunk * RetrievalHit) : float * Z :=
  let nearest := match similarity pair <$> selected with
                 | [] => f_zero
                 | s :: ss => foldl fmax s ss
                 end in
  (fsub (fmul (rpo_mmr_lambda policy) (rh_combined_score pair.2))
        (fmul (fsub f_one (rpo_mmr_lambda policy)) nearest),
   - ch_ordinal (ix_chunk pair.1)).

(** [a > b] on the keys *)
Definition key_gtb (a b : float * Z) : bool := if feqb a.1 b.1 then b.2 <? a.2 else fltb b.1 a.1.

(** The index of the first maximal element, given the best seen so far *)
Fixpoint best_from {A} (key : A → float * Z) (best : nat) (best_key : float * Z) (i : nat) (l : list A) : nat :=
  match l with
  | [] => best
  | x :: l =>
      if key_gtb (key x) best_key then best_from key i (key x) (S i) l else best_from key best best_key (S i) l
  end.

Definition best_index {A} (key : A → float * Z) (l : list A) : nat :=
  match l with [] => 0%nat | x :: l => best_from key 0 (key x) 1 l end.

(** The loop of [_mmr]: [n] more selections; [remaining.remove(best)] removes the first
    element equal to [best], which is the one at its own index, the first with its key. *)
Fixpoint mmr_loop (policy : RetrievalPolicy) (n : nat)
    (selected remaining : list (IndexedChunk * RetrievalHit)) : list (IndexedChunk * RetrievalHit) :=
  match n with
  | O => selected
  | S n =>
      let i := best_index (mmr_key policy selected) remaining in
      match remaining !! i with
      | None => selected
      | Some best => mmr_loop policy n (selected ++ [best]) (delete i remaining)
      end
  end.

Definition _mmr (candidates : list (IndexedChunk * RetrievalHit)) (policy : RetrievalPolicy)
    : list (IndexedChunk * RetrievalHit) :=
  mmr_loop policy (Z.to_nat (rpo_top_k policy)) [] candidates.

(** ** InMemoryHybridIndex *)

Record hybrid_index := {
  hi_items : list ((string * string) * IndexedChunk);
  hi_cache : gmap (string * string * string) (datetime * RetrievalResult)
}.

Definition empty_index : hybrid_index := {| hi_items := []; hi_cache := ∅ |}.

Definition drop_tenant_cache (tenant_id : string) (h : hybrid_index) : hybrid_index :=
  {| hi_items := hi_items h; hi_cache := filter (λ kv, kv.1.1.1 ≠ tenant_id) (hi_cache h) |}.

Definition index_input_ok (item : IndexedChunk) : bool :=
  bool_decide (mr_tenant_id (ix_record item) = ch_tenant_id (ix_chunk item))
  && bool_decide (ch_chunk_id (ix_chunk item) = vec_chunk_id (ix_vector item))
  && bool_decide (ch_content_digest (ix_chunk item) = vec_content_digest (ix_vector item))
  && (zlen (vec_values (ix_vector item)) =? mr_embedding_dimensions (ix_record item))
  && bool_decide (mr_status (ix_record item) ∈ [MS_ACCEPTED; MS_ACTIVE]).

Definition index_item (item : IndexedChunk) : M hybrid_index unit :=
  lift (raise_if (negb (index_input_ok item)) IntegrityFailure "index input binding is invalid");;
  modify (λ h, drop_tenant_cache (mr_tenant_id (ix_record item))
    {| hi_items := dict_set (mr_tenant_id (ix_record item), ch_chunk_id (ix_chunk item)) item (hi_items h);
       hi_cache := hi_cache h |}).

Definition retrieval_cache_key (query : RetrievalQuery) : string * string * string :=
  (rq_tenant_id query, rq_query_digest query,
   json_digest (JObj [("policy", JStr (retrieval_policy_digest (rq_policy query)));
                      ("principal_ref", JStr (rq_principal_ref query));
                      ("roles", strings_json (rq_roles query));
                      ("classifications", strings_json
                         (py_sorted str_leb (classification_value <$> rq_allowed_classifications query)));
                      ("as_of", JStr (iso_z (rq_as_of query)))])).

Definition _claim_key (text : string) : res string :=
  terms ← _terms text; Ok (str_join (String "000" "") (take 4 terms)).

Definition set_contradiction (group : option string) (h : RetrievalHit) : RetrievalHit :=
  {| rh_memory_id := rh_memory_id h; rh_chunk_id := rh_chunk_id h; rh_tier := rh_tier h;
     rh_text := rh_text h; rh_citation := rh_citation h; rh_lexical_score := rh_lexical_score h;
     rh_vector_score := rh_vector_score h; rh_recency_score := rh_recency_score h;
     rh_quality_score := rh_quality_score h; rh_combined_score := rh_combined_score h;
     rh_stale := rh_stale h; rh_contradiction_group := group |}.

Record pack_state := {
  pk_hits : list RetrievalHit;
  pk_tokens : Z;
  pk_bytes : Z;
  pk_seen : list (string * string)
}.

(** [hits[index] = ...] for the earlier hits with the same claim *)
Fixpoint mark_contradictions (claim_key : string) (group : option string) (hits : list RetrievalHit)
    : res (list RetrievalHit) :=
  match hits with
  | [] => Ok []
  | h :: hits =>
      k ← _claim_key (rh_text h);
      more ← mark_contradictions claim_key group hits;
      Ok ((if bool_decide (k = claim_key) then set_contradiction group h else h) :: more)
  end.

(** One round of the loop over the selected hits *)
Definition pack_hit (query : RetrievalQuery) (s : pack_state) (selected : IndexedChunk * RetrievalHit)
    : res pack_state :=
  let '(item, hit) := selected in
  let policy := rq_policy query in
  let token_count := ch_token_estimate (ix_chunk item) in
  let chunk_bytes := ch_byte_count (ix_chunk item) in
  if (rpo_top_k policy <=? zlen (pk_hits s)) || (rpo_maximum_tokens policy <? pk_tokens s + token_count)
     || (rpo_maximum_bytes policy <? pk_bytes s + chunk_bytes) then Ok s
  else
    claim_key ← _claim_key (ch_text (ix_chunk item));
    let digest := ch_content_digest (ix_chunk item) in
    let contradicts := match dict_get claim_key (pk_seen s) with
                       | Some prior => bool_decide (prior ≠ digest)
                       | None => false
                       end in
    let contradiction :=
      if contradicts then Some (stable_id "contradiction" [rq_tenant_id query; claim_key] 24) else None in
    hits ← (if contradicts then mark_contradictions claim_key contradiction (pk_hits s) else Ok (pk_hits s));
    Ok {| pk_hits := hits ++ [set_contradiction contradiction hit];
          pk_tokens := pk_tokens s + token_count; pk_bytes := pk_bytes s + chunk_bytes;
          pk_seen := dict_set claim_key digest (pk_seen s) |}.

(** [cached[1].model_copy(update={"cache_hit": True})] *)
Definition as_cache_hit (r : RetrievalResult) : RetrievalResult :=
  {| rr_query_id := rr_query_id r; rr_query_digest := rr_query_digest r;
     rr_policy_digest := rr_policy_digest r; rr_hits := rr_hits r;
     rr_candidate_count := rr_candidate_count r; rr_token_count := rr_token_count r;
     rr_byte_count := rr_byte_count r; rr_insufficient_context := rr_insufficient_context r;
     rr_cache_hit := true; rr_result_digest := rr_result_digest r |}.

(** Rank, select and pack the eligible items *)
Definition search_items (query : RetrievalQuery) (query_vector : list float) (items : list IndexedChunk)
    : res RetrievalResult :=
  let policy := rq_policy query in
  let eligible := List.filter (λ item, _eligible item query
    && (zlen (vec_values (ix_vector item)) =? zlen query_vector)) items in
  query_terms ← _terms (rq_text query);
  scored ← score_all query query_vector query_terms eligible;
  let candidates := ztake (rpo_maximum_candidates policy) (py_sorted rank_leb scored) in
  packed ← foldM (pack_hit query) {| pk_hits := []; pk_tokens := 0; pk_bytes := 0; pk_seen := [] |}
             (_mmr candidates policy);
  let result digest :=
    {| rr_query_id := rq_query_id query; rr_query_digest := rq_query_digest query;
       rr_policy_digest := retrieval_policy_digest policy; rr_hits := pk_hits packed;
       rr_candidate_count := zlen candidates; rr_token_count := pk_tokens packed;
       rr_byte_count := pk_bytes packed; rr_insufficient_context := bool_decide (pk_hits packed = []);
       rr_cache_hit := false; rr_result_digest := digest |} in
  new_RetrievalResult (result (json_digest (JObj (RetrievalResult_material (result ""))))).

Definition set_cached (key : string * string * string) (entry : option (datetime * RetrievalResult))
    (h : hybrid_index) : hybrid_index :=
  {| hi_items := hi_items h;
     hi_cache := match entry with Some e => <[key := e]> (hi_cache h) | None => delete key (hi_cache h) end |}.

(** [InMemoryHybridIndex.retrieve] *)
Definition index_retrieve (query : RetrievalQuery) (query_vector : list float) : M hybrid_index RetrievalResult :=
  lift (raise_if ((zlen query_vector <? 2) || negb (forallb is_finite query_vector)) ValueError
          "query vector is invalid");;
  let cache_key := retrieval_cache_key query in
  h ← get;
  found ← match hi_cache h !! cache_key with
    | Some (until, cached) =>
        if rq_requested_at query <? until then mret (Some (as_cache_hit cached))
        else modify (set_cached cache_key None);; mret None
    | None => mret None
    end;
  match found with
  | Some result => mret result
  | None =>
      result ← lift (search_items query query_vector (hi_items h).*2);
      (if 0 <? rpo_cache_ttl_seconds (rq_policy query) then
         modify (set_cached cache_key
           (Some (rq_requested_at query + seconds (rpo_cache_ttl_seconds (rq_policy query)), result)))
       else mret ());;
      mret result
  end.

Definition of_memory (tenant_id memory_id : string) (item : IndexedChunk) : bool :=
  bool_decide (mr_tenant_id (ix_record item) = tenant_id) && bool_decide (mr_memory_id (ix_record item) = memory_id).

(** [InMemoryHybridIndex.purge]: the number of items removed *)
Definition index_purge (tenant_id memory_id : string) : M hybrid_index Z := λ h,
  (Ok (zlen (List.filter (λ kv, of_memory tenant_id memory_id kv.2) (hi_items h))),
   drop_tenant_cache tenant_id
     {| hi_items := List.filter (λ kv, negb (of_memory tenant_id memory_id kv.2)) (hi_items h);
        hi_cache := hi_cache h |}).

Definition invalidate_tenant (tenant_id : string) : M hybrid_index unit := modify (drop_tenant_cache tenant_id).
End index.
