(* ===== verification/MemoryFacts.v ===== *)
(** * The memory ledger: its invariant

    What one fact does to the projection of a memory, the shape of [append], and the
    invariant of the ledger: the stored projection is the replay of the facts, facts are
    numbered and chained by digest, and every recorded command is the command of a fact. *)

From S2P Require Import Prelude PyJson PyFloat PyTime PyText PyModel PyDigest Domain Evidence MemoryData MemoryLedger.

Section facts.
Context {HDigest : Digest} {HFloat : FloatJson}.

(** ** One fact *)

Lemma reduce_memory_ok c f r p :
  reduce_memory c f r = Ok p →
  mfa_sequence f = match c with None => 1 | Some c => mpj_version c + 1 end ∧
  mfa_previous_digest f = match c with None => _ZERO_DIGEST | Some c => mpj_last_fact_digest c end ∧
  mfa_tenant_id f = mr_tenant_id r ∧ mfa_memory_id f = mr_memory_id r ∧
  mfa_fact_digest f = fact_digest f ∧ (c = None → mfa_fact_type f = MF_CANDIDATE_PROPOSED) ∧
  ∃ s, fold_fact (mfa_fact_type f) (mfa_payload f) (fold_start c) = Ok s ∧
    p = {| mpj_tenant_id := mfa_tenant_id f; mpj_memory_id := mfa_memory_id f;
           mpj_tier := mr_tier r; mpj_status := fs_status s; mpj_version := mfa_sequence f;
           mpj_record_digest := mr_canonical_digest r; mpj_last_fact_digest := mfa_fact_digest f;
           mpj_chunk_count := fs_chunk_count s; mpj_indexed := fs_indexed s;
           mpj_tombstoned := fs_tombstoned s; mpj_legal_hold_count := fs_hold_count s;
           mpj_derived_purged := fs_derived_purged s; mpj_blob_erased := fs_blob_erased s;
           mpj_updated_at := mfa_recorded_at f |} ∧ MemoryProjection_fields p = true.
Proof.
  unfold reduce_memory. intros H.
  apply res_bind_ok in H as (? & H1%raise_if_ok & H). apply res_bind_ok in H as (? & H2%raise_if_ok & H).
  apply res_bind_ok in H as (s & Hs & H). apply validated_ok in H as [-> Hok]. py_bool.
  split_and!; try done.
  - intros ->. apply andb_false_iff in H2 as [H2|H2]; by py_bool.
  - by exists s.
Qed.

(** The flags a fact sets are never cleared; purging needs a tombstone, erasure a purge and
    no hold. *)
Definition flags_ok (s : fold_state) : Prop :=
  (fs_blob_erased s = true → fs_derived_purged s = true) ∧
  (fs_derived_purged s = true → fs_tombstoned s = true) ∧ 0 <= fs_hold_count s <= 16.

Definition flags_kept (s s' : fold_state) : Prop :=
  (fs_tombstoned s = true → fs_tombstoned s' = true) ∧
  (fs_derived_purged s = true → fs_derived_purged s' = true) ∧
  (fs_blob_erased s = true → fs_blob_erased s' = true).

Lemma fold_fact_flags ft p s s' :
  fold_fact ft p s = Ok s' → flags_ok s → flags_ok s' ∧ flags_kept s s'.
Proof.
  unfold flags_ok, flags_kept. intros H (H1 & H2 & H3).
  destruct s; simpl in *.
  destruct ft; cbn [fold_fact] in H; py_inv; py_bool; simpl in *; (split; [|naive_solver]);
    split_and!; (lia || naive_solver).
Qed.

(** How a projection evolves *)
Definition memory_follows (c p : MemoryProjection) : Prop :=
  mpj_tenant_id p = mpj_tenant_id c ∧ mpj_memory_id p = mpj_memory_id c ∧ mpj_tier p = mpj_tier c ∧
  mpj_record_digest p = mpj_record_digest c ∧ mpj_version c <= mpj_version p ∧
  (mpj_tombstoned c = true → mpj_tombstoned p = true) ∧
  (mpj_derived_purged c = true → mpj_derived_purged p = true) ∧
  (mpj_blob_erased c = true → mpj_blob_erased p = true).

#[export] Instance memory_follows_preorder : PreOrder memory_follows.
Proof.
  split.
  - intros c. unfold memory_follows. split_and!; try done; lia.
  - unfold memory_follows. intros a b c (?&?&?&?&?&?&?&?) (?&?&?&?&?&?&?&?). split_and!; try congruence; try lia; auto.
Qed.

Definition lifecycle_ok (p : MemoryProjection) : Prop :=
  (mpj_blob_erased p = true → mpj_derived_purged p = true) ∧
  (mpj_derived_purged p = true → mpj_tombstoned p = true) ∧
  0 <= mpj_legal_hold_count p <= 16 ∧ 1 <= mpj_version p.

(** What a projection says of the record and facts it is folded from *)
Definition projects (r : MemoryRecord) (p : MemoryProjection) : Prop :=
  mpj_tenant_id p = mr_tenant_id r ∧ mpj_memory_id p = mr_memory_id r ∧ mpj_tier p = mr_tier r ∧
  mpj_record_digest p = mr_canonical_digest r ∧ lifecycle_ok p.

Lemma memory_reduce_follows c f r p :
  projects r c → reduce_memory (Some c) f r = Ok p → projects r p ∧ memory_follows c p ∧ mpj_version p = mpj_version c + 1.
Proof.
  intros (P1 & P2 & P3 & P4 & L1 & L2 & L3 & L4) H.
  apply reduce_memory_ok in H as (Hs & _ & Ht & Hm & _ & _ & s & Hf & -> & _). simpl in *.
  apply fold_fact_flags in Hf as [(F1 & F2 & F3) (K1 & K2 & K3)]; [|exact (conj L1 (conj L2 L3))]. simpl in *.
  unfold projects, memory_follows, lifecycle_ok. simpl. split_and!; try done; try congruence; lia.
Qed.

Lemma reduce_first f r p : reduce_memory None f r = Ok p → projects r p ∧ mpj_version p = 1.
Proof.
  intros H. apply reduce_memory_ok in H as (Hs & _ & Ht & Hm & _ & _ & s & Hf & -> & _). simpl in *.
  apply fold_fact_flags in Hf as [(F1 & F2 & F3) _]; [|unfold flags_ok; simpl; split_and!; done].
  unfold projects, lifecycle_ok. simpl. split_and!; try done; lia.
Qed.

(** ** A history of facts *)

(** The facts are numbered from 1, each carries its own digest and its predecessor's. *)
Definition chained (t m : string) (fs : list MemoryFact) : Prop :=
  ∀ i f, fs !! i = Some f →
    mfa_tenant_id f = t ∧ mfa_memory_id f = m ∧ mfa_sequence f = Z.of_nat i + 1 ∧
    mfa_fact_digest f = fact_digest f ∧
    mfa_previous_digest f = match last (take i fs) with
                            | Some f' => mfa_fact_digest f'
                            | None => _ZERO_DIGEST
                            end.

Definition last_digest (fs : list MemoryFact) : string :=
  match last fs with Some f => mfa_fact_digest f | None => _ZERO_DIGEST end.

Lemma mchained_snoc t m fs f :
  chained t m fs → mfa_tenant_id f = t → mfa_memory_id f = m → mfa_sequence f = zlen fs + 1 →
  mfa_fact_digest f = fact_digest f → mfa_previous_digest f = last_digest fs →
  chained t m (fs ++ [f]).
Proof.
  intros Hc H1 H2 H3 H4 H5 i g Hg. apply lookup_app_Some in Hg as [Hg|[Hi Hg]].
  - rewrite take_app_le; [by apply Hc|]. apply lookup_lt_Some in Hg. lia.
  - apply list_lookup_singleton_Some in Hg as [Hi' <-]. assert (i = List.length fs) as -> by lia.
    rewrite take_app_length. done.
Qed.

(** The state a replay ends in *)
Definition replayed (r : MemoryRecord) (fs : list MemoryFact) (o : option MemoryProjection) : Prop :=
  foldM (reduce_memory_opt r) None fs = Ok o.

Lemma replayed_snoc r fs o f p :
  replayed r fs o → reduce_memory o f r = Ok p → replayed r (fs ++ [f]) (Some p).
Proof. unfold replayed. intros Ho Hr. rewrite foldM_app, Ho. simpl. unfold reduce_memory_opt at 1. by rewrite Hr. Qed.

Lemma replayed_app r fs gs p :
  replayed r (fs ++ gs) p → ∃ o, replayed r fs o ∧ foldM (reduce_memory_opt r) o gs = Ok p.
Proof. unfold replayed. rewrite foldM_app. intros (o & Ho & H)%res_bind_ok. eauto. Qed.

Lemma replay_from r gs : ∀ c o,
  projects r c → foldM (reduce_memory_opt r) (Some c) gs = Ok o →
  ∃ p, o = Some p ∧ projects r p ∧ memory_follows c p ∧ mpj_version p = mpj_version c + zlen gs.
Proof.
  induction gs as [|g gs IH]; intros c o Hc H; cbn [foldM] in H.
  - injection H as <-. exists c. split_and!; [done..|unfold zlen; simpl; lia].
  - apply res_bind_ok in H as (o1 & H1 & H). unfold reduce_memory_opt in H1.
    apply res_bind_ok in H1 as (p1 & Hp1 & [= <-]).
    destruct (memory_reduce_follows _ _ _ _ Hc Hp1) as (Hj & Hf & Hv).
    destruct (IH _ _ Hj H) as (p & -> & Hp & Hf' & Hv'). exists p.
    split_and!; [done..|by etrans|]. rewrite Hv', Hv. unfold zlen. simpl. lia.
Qed.

Lemma replayed_projects r fs o :
  replayed r fs o →
  match o with
  | Some p => projects r p ∧ mpj_version p = zlen fs
  | None => fs = []
  end.
Proof.
  unfold replayed. destruct fs as [|f fs]; cbn [foldM]; [by intros [= <-]|]. intros H.
  apply res_bind_ok in H as (o1 & H1 & H). unfold reduce_memory_opt in H1.
  apply res_bind_ok in H1 as (p1 & Hp1 & [= <-]). apply reduce_first in Hp1 as [Hp1 Hv].
  destruct (replay_from _ _ _ _ Hp1 H) as (p & -> & Hp & _ & Hv'). split; [done|].
  rewrite Hv', Hv. unfold zlen. simpl. lia.
Qed.

Lemma replayed_chained r fs o :
  replayed r fs o → chained (mr_tenant_id r) (mr_memory_id r) fs ∧
  match o with Some p => mpj_last_fact_digest p = last_digest fs | None => fs = [] end.
Proof.
  revert o. induction fs as [|f fs IH] using rev_ind; intros o H.
  { unfold replayed in H. injection H as <-. split; [by intros i f|done]. }
  apply replayed_app in H as (c & Hc & H). cbn [foldM] in H.
  apply res_bind_ok in H as (o1 & H1 & [= <-]). unfold reduce_memory_opt in H1.
  apply res_bind_ok in H1 as (p & Hp & [= <-]).
  destruct (IH _ Hc) as [Hch Hl]. pose proof (replayed_projects _ _ _ Hc) as Hv.
  apply reduce_memory_ok in Hp as (Hs & Hpr & Ht & Hm & Hd & _ & s & _ & -> & _). split.
  - apply mchained_snoc; [done..| |done|].
    + destruct c as [c|]; [destruct Hv as [_ <-]; done|]. subst fs. done.
    + rewrite Hpr. destruct c; [done|]. by subst fs.
  - unfold last_digest. by rewrite last_snoc.
Qed.

(** A fact of a history has left its mark. *)
Lemma replayed_mark r fs p (P : MemoryProjection → Prop) ft :
  (∀ c f q, mfa_fact_type f = ft → reduce_memory c f r = Ok q → P q) →
  (∀ c q, memory_follows c q → P c → P q) →
  replayed r fs (Some p) → ft ∈ (mfa_fact_type <$> fs) → P p.
Proof.
  intros Hset Hkeep H (f & -> & Hf)%list_elem_of_fmap. apply list_elem_of_split in Hf as (a & b & ->).
  apply replayed_app in H as (c & Hc & H). cbn [foldM] in H.
  apply res_bind_ok in H as (o1 & H1 & H). unfold reduce_memory_opt in H1.
  apply res_bind_ok in H1 as (q & Hq & [= <-]).
  assert (projects r q) as Hj.
  { destruct c; [|by eapply reduce_first].
    apply replayed_projects in Hc as [Hc _]. by apply (memory_reduce_follows _ _ _ _ Hc Hq). }
  destruct (replay_from _ _ _ _ Hj H) as (p' & [= <-] & _ & Hf & _). eauto.
Qed.

Lemma tombstone_marks r fs p :
  replayed r fs (Some p) → MF_TOMBSTONED ∈ (mfa_fact_type <$> fs) → mpj_tombstoned p = true.
Proof.
  apply (replayed_mark r fs p (λ p, mpj_tombstoned p = true)).
  - intros c f q Hft H. apply reduce_memory_ok in H as (_ & _ & _ & _ & _ & _ & s & Hs & -> & _).
    rewrite Hft in Hs. cbn [fold_fact] in Hs. by injection Hs as <-.
  - intros c q (_&_&_&_&_&H&_). done.
Qed.

Lemma purge_marks r fs p :
  replayed r fs (Some p) → MF_DERIVED_PURGED ∈ (mfa_fact_type <$> fs) → mpj_derived_purged p = true.
Proof.
  apply (replayed_mark r fs p (λ p, mpj_derived_purged p = true)).
  - intros c f q Hft H. apply reduce_memory_ok in H as (_ & _ & _ & _ & _ & _ & s & Hs & -> & _).
    rewrite Hft in Hs. cbn [fold_fact] in Hs. by py_inv.
  - intros c q (_&_&_&_&_&_&H&_). done.
Qed.

Lemma erase_marks r fs p :
  replayed r fs (Some p) → MF_CRYPTO_ERASED ∈ (mfa_fact_type <$> fs) → mpj_blob_erased p = true.
Proof.
  apply (replayed_mark r fs p (λ p, mpj_blob_erased p = true)).
  - intros c f q Hft H. apply reduce_memory_ok in H as (_ & _ & _ & _ & _ & _ & s & Hs & -> & _).
    rewrite Hft in Hs. cbn [fold_fact] in Hs. by py_inv.
  - intros c q (_&_&_&_&_&_&_&H). done.
Qed.

(** ** The ledger *)

(** A command of the ledger is the command of a fact of the memory it was given for. *)
Definition commanded (l : mledger) (t c fp : string) : Prop :=
  ∃ m f, f ∈ mfacts l t m ∧ mfa_command_id f = c ∧
    fp = memory_fingerprint (mfa_fact_type f) m (mfa_payload f).

Record mledger_inv (l : mledger) : Prop := {
  mi_records t m r : mrecord l t m = Some r → mr_tenant_id r = t ∧ mr_memory_id r = m;
  mi_replay t m r : mrecord l t m = Some r → replayed r (mfacts l t m) (mprojection l t m);
  mi_known t m : mrecord l t m = None → mfacts l t m = [] ∧ mprojection l t m = None;
  mi_commands t c fp : _mcommands l !! (t, c) = Some fp → commanded l t c fp;
  mi_recorded t m f : f ∈ mfacts l t m →
    _mcommands l !! (t, mfa_command_id f) = Some (memory_fingerprint (mfa_fact_type f) m (mfa_payload f));
  mi_payloads t m f : f ∈ mfacts l t m → json_wf (JObj (mfa_payload f)) = true
}.

Lemma empty_mledger_inv : mledger_inv empty_mledger.
Proof. split; try done; intros t m f Hf; by apply not_elem_of_nil in Hf. Qed.

(** Records, facts and commands are only added. *)
Definition mledger_grows (l l' : mledger) : Prop :=
  _records l ⊆ _records l' ∧ (∀ t m, mfacts l t m `prefix_of` mfacts l' t m) ∧ _mcommands l ⊆ _mcommands l'.

#[export] Instance mledger_grows_preorder : PreOrder mledger_grows.
Proof.
  split; [intros l; by split_and!|]. intros a b c (H1 & H2 & H3) (G1 & G2 & G3).
  split_and!; [by etrans| |by etrans]. intros t m. etrans; [apply H2|apply G2].
Qed.

(** [append] returns the current projection of a recorded command, or appends one fact. *)
Lemma mappend_run t m ver ft cmd actor at_ pl l :
  match mappend t m ver ft cmd actor at_ pl l with
  | (Raise e, l') => l' = l
  | (Ok p, l') =>
      ∃ r, mrecord l t m = Some r ∧
      (_mcommands l !! (t, cmd) = Some (memory_fingerprint ft m pl) ∧ mprojection l t m = Some p ∧ l' = l ∨
       _mcommands l !! (t, cmd) = None ∧ default 0 (mpj_version <$> mprojection l t m) = ver ∧
       let fact := build_memory_fact t m (ver + 1)
         (default _ZERO_DIGEST (mpj_last_fact_digest <$> mprojection l t m)) ft cmd actor at_ pl in
       MemoryFact_ok fact = true ∧ reduce_memory (mprojection l t m) fact r = Ok p ∧
       l' = commit_memory_fact (t, m) (t, cmd) (memory_fingerprint ft m pl) fact p l)
  end.
Proof.
  unfold mappend, mrecord, mprojection, get, lift, modify, mbind, M_bind, mret, M_ret, raise_if.
  destruct (_records l !! (t, m)) as [r|]; [|done].
  destruct (_mcommands l !! (t, cmd)) as [ex|].
  { case_bool_decide as Hex; [done|]. subst ex.
    destruct (_mprojections l !! (t, m)) as [p|]; [|done]. exists r. split; [done|]. by left. }
  assert (∀ o : option MemoryProjection, match o with Some c => mpj_version c | None => 0 end
    = default 0 (mpj_version <$> o)) as Ev by by intros [].
  assert (∀ o : option MemoryProjection, match o with Some c => mpj_last_fact_digest c | None => _ZERO_DIGEST end
    = default _ZERO_DIGEST (mpj_last_fact_digest <$> o)) as Ed by by intros [].
  rewrite Ev, Ed. destruct (negb _) eqn:Hv; [done|]. py_bool.
  destruct (new_MemoryFact _) as [fact|] eqn:Hf; [|done]. apply validated_ok in Hf as [-> Hok].
  destruct (reduce_memory _ _ _) as [p|] eqn:Hr; [|done].
  exists r. split; [done|]. right. subst ver. by split_and!.
Qed.

Lemma mfacts_commit t m ck fp f p l t' m' :
  mfacts (commit_memory_fact (t, m) ck fp f p l) t' m' =
  if decide ((t, m) = (t', m')) then mfacts l t m ++ [f] else mfacts l t' m'.
Proof. unfold mfacts, commit_memory_fact. simpl. rewrite lookup_insert. by case_decide; simplify_eq. Qed.

Lemma memory_fingerprint_sorted ft m pl :
  memory_fingerprint ft m (py_sorted key_leb pl) = memory_fingerprint ft m pl.
Proof. unfold memory_fingerprint. rewrite py_sorted_idem; [done|]. intros. apply key_leb_total. Qed.

Lemma sorted_payload_wf (p : payload) : json_wf (JObj p) = true → json_wf (JObj (py_sorted key_leb p)) = true.
Proof.
  cbn [json_wf]. intros H. apply andb_true_iff in H as [H1%bool_decide_eq_true H2]. apply andb_true_iff. split.
  - by apply bool_decide_eq_true, sorted_keys_NoDup.
  - rewrite <-H2. apply forallb_perm, py_sorted_perm.
Qed.

Lemma commit_memory_fact_inv t m r ver ft cmd actor at_ pl p l :
  mledger_inv l → json_wf (JObj pl) = true → mrecord l t m = Some r → _mcommands l !! (t, cmd) = None →
  let fact := build_memory_fact t m (ver + 1)
    (default _ZERO_DIGEST (mpj_last_fact_digest <$> mprojection l t m)) ft cmd actor at_ pl in
  reduce_memory (mprojection l t m) fact r = Ok p →
  mledger_inv (commit_memory_fact (t, m) (t, cmd) (memory_fingerprint ft m pl) fact p l).
Proof.
  intros [Hrec Hrep Hkn Hcmd Hrd Hwf] Hpl Hr Hnone fact Hred. split.
  - intros t' m' r'. apply Hrec.
  - intros t' m' r' Hr'. rewrite mfacts_commit. unfold mprojection, commit_memory_fact. simpl.
    rewrite lookup_insert. case_decide as E; [|by apply Hrep]. injection E as <- <-.
    assert (r' = r) as -> by (unfold mrecord, commit_memory_fact in *; simpl in *; congruence).
    apply (replayed_snoc _ _ (mprojection l t m)); [by apply Hrep|done].
  - intros t' m' Hn. rewrite mfacts_commit. unfold mprojection, commit_memory_fact. simpl.
    rewrite lookup_insert. case_decide as E; [|by apply Hkn]. injection E as <- <-.
    unfold mrecord, commit_memory_fact in *. simpl in *. congruence.
  - intros t' c fp Hk. unfold commanded. unfold commit_memory_fact in Hk. simpl in Hk.
    rewrite lookup_insert in Hk. case_decide as E.
    + injection E as <- <-. injection Hk as <-. exists m, fact. rewrite mfacts_commit, decide_True by done.
      split_and!; [|done|]; [rewrite elem_of_app, list_elem_of_singleton; by right|].
      symmetry. apply memory_fingerprint_sorted.
    + destruct (Hcmd _ _ _ Hk) as (m' & f & Hf & Hc & Hfp). exists m', f. split; [|done].
      rewrite mfacts_commit. case_decide; simplify_eq; [rewrite elem_of_app; by left|done].
  - intros t' m' f. rewrite mfacts_commit. unfold commit_memory_fact. simpl. rewrite lookup_insert.
    case_decide as E; intros Hf.
    + injection E as <- <-. apply elem_of_app in Hf as [Hf|Hf%list_elem_of_singleton].
      * rewrite decide_False; [by apply Hrd|]. intros [= E]. apply Hrd in Hf. congruence.
      * subst f. rewrite decide_True by done. f_equal. symmetry. apply memory_fingerprint_sorted.
    + apply Hrd in Hf. rewrite decide_False; [done|]. intros [= -> E']. rewrite <-E' in Hf. congruence.
  - intros t' m' f. rewrite mfacts_commit. case_decide as E; [|apply Hwf]. injection E as <- <-.
    intros [Hf|Hf%list_elem_of_singleton]%elem_of_app; [by apply (Hwf _ _ _ Hf)|]. subst f.
    by apply sorted_payload_wf.
Qed.

Lemma mappend_inv t m ver ft cmd actor at_ pl :
  json_wf (JObj pl) = true → preserves mledger_inv (mappend t m ver ft cmd actor at_ pl).
Proof.
  intros Hwf l Hl. pose proof (mappend_run t m ver ft cmd actor at_ pl l) as H.
  destruct (mappend _ _ _ _ _ _ _ _ l) as [[p|e] l']; simpl; [|by subst].
  destruct H as (r & Hr & [(_ & _ & ->)|(Hn & _ & _ & Hred & ->)]); [done|by eapply commit_memory_fact_inv].
Qed.

Lemma mappend_grows t m ver ft cmd actor at_ pl l : mledger_grows l (mappend t m ver ft cmd actor at_ pl l).2.
Proof.
  pose proof (mappend_run t m ver ft cmd actor at_ pl l) as H.
  destruct (mappend _ _ _ _ _ _ _ _ l) as [[p|e] l']; simpl; [|by subst].
  destruct H as (r & Hr & [(_ & _ & ->)|(Hn & _ & _ & Hred & ->)]); [done|]. split_and!.
  - done.
  - intros t' m'. rewrite mfacts_commit. case_decide; simplify_eq; [by apply prefix_app_r|done].
  - unfold commit_memory_fact. simpl. by apply insert_subseteq.
Qed.

Lemma put_record_inv r : preserves mledger_inv (put_record r).
Proof.
  intros l Hl. unfold put_record, get, lift, modify, mbind, M_bind. simpl.
  destruct (_records l !! _) as [ex|] eqn:Hex; [done|]. simpl. destruct Hl as [Hrec Hrep Hkn Hcmd Hrd Hwf]. split; try done.
  - intros t m r'. unfold mrecord. simpl. rewrite lookup_insert. case_decide; [|apply Hrec].
    intros [= <-]. by simplify_eq.
  - intros t m r' Hr'. unfold mrecord in Hr'. simpl in Hr'. rewrite lookup_insert in Hr'.
    case_decide as E; [|by apply Hrep]. injection E as <- <-. injection Hr' as <-.
    destruct (Hkn _ _ Hex) as [H1 H2]. unfold replayed, mfacts, mprojection in *. simpl. by rewrite H1, H2.
  - intros t m Hn. unfold mrecord in Hn. simpl in Hn. rewrite lookup_insert in Hn.
    case_decide; [done|by apply Hkn].
Qed.

Lemma put_record_grows r l : mledger_grows l (put_record r l).2.
Proof.
  unfold put_record, get, lift, modify, mbind, M_bind. simpl.
  destruct (_records l !! _) eqn:E; [done|]. split_and!; [by apply insert_subseteq|done|done].
Qed.

(** ** What growth keeps *)

Lemma grows_record l l' t m r : mledger_grows l l' → mrecord l t m = Some r → mrecord l' t m = Some r.
Proof. intros (H & _) Hr. by apply (lookup_weaken _ _ _ _ Hr). Qed.

Lemma known_record l t m p : mledger_inv l → mprojection l t m = Some p → ∃ r, mrecord l t m = Some r ∧ projects r p.
Proof.
  intros Hl Hp. destruct (mrecord l t m) as [r|] eqn:Hr.
  - exists r. split; [done|]. pose proof (mi_replay _ Hl _ _ _ Hr) as H. rewrite Hp in H.
    by apply replayed_projects in H as [H _].
  - apply (mi_known _ Hl) in Hr as [_ Hn]. congruence.
Qed.

Lemma grows_memory_follows l l' t m c :
  mledger_inv l → mledger_inv l' → mledger_grows l l' → mprojection l t m = Some c →
  ∃ p, mprojection l' t m = Some p ∧ memory_follows c p.
Proof.
  intros Hl Hl' Hg Hc. destruct (known_record _ _ _ _ Hl Hc) as (r & Hr & Hj).
  pose proof (mi_replay _ Hl' _ _ _ (grows_record _ _ _ _ _ Hg Hr)) as H'.
  pose proof (mi_replay _ Hl _ _ _ Hr) as H. rewrite Hc in H.
  destruct Hg as (_ & Hpre & _). destruct (Hpre t m) as [new Hnew].
  unfold replayed in H, H'. rewrite Hnew, foldM_app, H in H'. simpl in H'.
  destruct (replay_from _ _ _ _ Hj H') as (p & -> & _ & Hf & _). eauto.
Qed.

(** ** Fingerprints *)

Definition fingerprint_doc (ft : MemoryFactType) (m : string) (p : payload) : payload :=
  [("fact_type", JStr (memory_fact_value ft)); ("memory_id", JStr m); ("payload", JObj (py_sorted key_leb p))].

Lemma memory_fact_value_inj ft ft' : memory_fact_value ft = memory_fact_value ft' → ft = ft'.
Proof. by destruct ft, ft'. Qed.

(** Equal fingerprints: the same kind of fact, memory and payload, or a collision. *)
Lemma fingerprint_binds ft m p ft' m' p' :
  json_wf (JObj p) = true → json_wf (JObj p') = true →
  memory_fingerprint ft m p = memory_fingerprint ft' m' p' →
  collides (document (fingerprint_doc ft m p)) (document (fingerprint_doc ft' m' p')) ∨
  ft = ft' ∧ m = m' ∧
  ∀ k, jnorm <$> dict_get k (py_sorted key_leb p) = jnorm <$> dict_get k (py_sorted key_leb p').
Proof.
  intros W W' H. pose proof (sorted_payload_wf _ W) as S. pose proof (sorted_payload_wf _ W') as S'.
  apply digest_binds in H as [H|H].
  - by left.
  - right. pose proof (H "fact_type") as H1. pose proof (H "memory_id") as H2. pose proof (H "payload") as H3.
    cbn -[jnorm] in H1, H2, H3. apply (inj Some) in H1, H2, H3. injection H1 as H1. injection H2 as H2.
    split_and!; [by apply memory_fact_value_inj|done|]. cbn [json_wf] in S, S'. py_bool. by apply jnorm_members.
  - apply obj_wf; [reflexivity|]. cbn [forallb snd]. by rewrite S.
  - apply obj_wf; [reflexivity|]. cbn [forallb snd]. by rewrite S'.
Qed.
End facts.
