(* ===== verification/MemoryWorld.v ===== *)
(** * What a call to the memory services may do to the world

    [MemoryOrder P R]: a preorder kept by every primitive update of the services, the index
    being given only items with [P].  [run_memory_moves] lifts it to each method and
    [memory_steps_moves] to every sequence of calls. *)

From S2P Require Import Prelude PyJson PyFloat PyTime PyText PyModel PyDigest Domain Evidence MemoryData MemoryLedger MemoryText MemoryIndex MemoryService MemoryFacts.

Section world.
Context {HDigest : Digest} {HFloat : FloatJson} {E : Type}.
Context (clock : nat → datetime) (embedder : EmbeddingRequest → M E EmbeddingResult)
  (erase_blob : ErasableBlobReference → M E unit) (chunking : chunker).

Abbreviation W := (M (mworld E)).

Definition mmoves (R : mworld E → mworld E → Prop) {A} (m : W A) : Prop := ∀ w, R w (m w).2.

(** A query is an instance, and its instants are Python datetimes. *)
Definition query_ok (q : RetrievalQuery) : Prop := RetrievalQuery_ok q = true ∧ datetime_ok (rq_as_of q) = true.

Class MemoryOrder (P : IndexedChunk → Prop) (R : mworld E → mworld E → Prop) := {
  mo_preorder :: PreOrder R;
  mo_tick w t : R w (set_mw_tick t w);
  mo_put record : MemoryRecord_ok record = true → mmoves R (on_mledger (put_record record));
  mo_append t m ver ft cmd actor at_ pl : json_wf (JObj pl) = true →
    mmoves R (on_mledger (mappend t m ver ft cmd actor at_ pl));
  mo_replay t m : mmoves R (on_mledger (mrebuild t m));
  mo_operation f : mmoves R (on_operations (append_operation f));
  mo_index item : P item → mmoves R (on_index (index_item item));
  mo_purge t m : mmoves R (on_index (index_purge t m));
  mo_invalidate t : mmoves R (on_index (invalidate_tenant t));
  mo_retrieve q v : query_ok q → mmoves R (on_index (index_retrieve q v));
  mo_embed request : mmoves R (call_external (CallEmbed request) (embedder request))
}.

Create HintDb mmoves discriminated.

Section generic.
Context (R : mworld E → mworld E → Prop) {Hpre : PreOrder R} (Htick : ∀ w t, R w (set_mw_tick t w)).

Lemma mmoves_lift {A} (r : res A) : mmoves R (lift r : W A).
Proof. intros w. reflexivity. Qed.
Lemma mmoves_ret {A} (a : A) : mmoves R (mret a : W A).
Proof. intros w. reflexivity. Qed.
Lemma mmoves_get : mmoves R get.
Proof. intros w. reflexivity. Qed.
Lemma mmoves_now : mmoves R (m_now clock).
Proof. intros w. apply Htick. Qed.
Lemma mmoves_bind {A B} (m : W A) (k : A → W B) :
  mmoves R m → (∀ a, mmoves R (k a)) → mmoves R (m ≫= k).
Proof.
  intros Hm Hk w. unfold mbind, M_bind. specialize (Hm w).
  destruct (m w) as [[a|e] w1]; [|done]. etrans; [exact Hm|apply Hk].
Qed.
End generic.

#[local] Hint Resolve mmoves_lift mmoves_ret mmoves_get : mmoves.
#[local] Hint Resolve mo_put mo_replay mo_operation mo_index mo_purge mo_invalidate mo_retrieve mo_embed : mmoves.

(** ** The calls *)

Inductive memory_op :=
  | OpIngest (record : MemoryRecord) (evidence : NormalizedEvidence) (actor_ref : string)
      (acceptance : MemoryAcceptance) (spec : EmbeddingSpec)
  | OpRebuild (tenant_id memory_id rebuild_id : string) (evidence : NormalizedEvidence)
      (actor_ref : string) (spec : EmbeddingSpec)
  | OpErase (tenant_id memory_id actor_ref reason_code : string)
  | OpSupersede (replacement : MemoryRecord) (replaced : list string) (actor_ref : string)
  | OpHold (tenant_id memory_id hold_ref : string) (applied : bool) (actor_ref : string)
  | OpRetrieve (query : RetrievalQuery) (query_vector : list float)
  | OpControlRetrieve (dimensions : Z) (query : RetrievalQuery)
  | OpRecordContext (query : RetrievalQuery) (context : MemoryContext)
  | OpReplay (tenant_id memory_id : string)
  | OpInvalidate (tenant_id : string).

(** The world after a call, returned or raised *)
Definition run_memory (op : memory_op) (w : mworld E) : mworld E :=
  match op with
  | OpIngest record evidence actor acceptance spec =>
      (ingest clock embedder chunking record evidence actor acceptance spec w).2
  | OpRebuild t m rid evidence actor spec => (rebuild_derived clock embedder chunking t m rid evidence actor spec w).2
  | OpErase t m actor reason => (tombstone_and_erase clock erase_blob t m actor reason w).2
  | OpSupersede replacement replaced actor => (supersede clock replacement replaced actor w).2
  | OpHold t m ref applied actor => (set_legal_hold clock t m ref applied actor w).2
  | OpRetrieve q v => (service_retrieve clock q v w).2
  | OpControlRetrieve d q => (control_retrieve d q w).2
  | OpRecordContext q c => (record_context clock q c w).2
  | OpReplay t m => (on_mledger (mrebuild t m) w).2
  | OpInvalidate t => (on_index (invalidate_tenant t) w).2
  end.

(** Records and queries are instances, so their constructors validated them. *)
Definition memory_op_ok (op : memory_op) : Prop :=
  match op with
  | OpIngest record _ _ _ _ => MemoryRecord_ok record = true
  | OpRetrieve q _ | OpControlRetrieve _ q => query_ok q
  | _ => True
  end.

(** The items made from a record and valid chunks *)
Definition items_of (P : IndexedChunk → Prop) (record : MemoryRecord) : Prop :=
  ∀ item, ix_record item = record → MemoryChunk_ok (ix_chunk item) = true → P item.

(** What a call may index has [P]; an erasure, which also calls the blob store, moves by [R]. *)
Definition op_moves (P : IndexedChunk → Prop) (R : mworld E → mworld E → Prop) (op : memory_op) (w : mworld E) : Prop :=
  match op with
  | OpIngest record _ _ _ _ => items_of P record
  | OpRebuild t m _ _ _ _ => ∀ r, mrecord (mw_ledger w) t m = Some r → items_of P r
  | OpErase _ _ _ _ => R w (run_memory op w)
  | _ => True
  end.

(** ** Payloads *)

Lemma single_wf k v : json_wf v = true → json_wf (JObj [(k, v)]) = true.
Proof. intros H. apply obj_wf; [done|]. simpl. by rewrite H. Qed.

(** ** Chunks are validated *)

Lemma split_loop_ok c make words starts : ∀ ordinal chunks,
  (∀ i part chunk, make i part = Ok chunk → MemoryChunk_ok chunk = true) →
  split_loop c make words ordinal starts = Ok chunks → Forall (λ ch, MemoryChunk_ok ch = true) chunks.
Proof.
  induction starts as [|start starts IH]; intros ordinal chunks Hmake H; cbn [split_loop] in H.
  { injection H as <-. constructor. }
  case_bool_decide; [injection H as <-; constructor|].
  apply res_bind_ok in H as (? & _ & H). apply res_bind_ok in H as (chunk & Hc & H).
  apply Hmake in Hc. case_match.
  - injection H as <-. by repeat constructor.
  - apply res_bind_ok in H as (more & Hm & H). injection H as <-. constructor; [done|by eapply IH].
Qed.

Lemma chunk_split_ok c t m text citation chunks :
  chunk_split c t m text citation = Ok chunks → Forall (λ ch, MemoryChunk_ok ch = true) chunks.
Proof.
  unfold chunk_split. intros H. apply res_bind_ok in H as (s & _ & H). apply res_bind_ok in H as (? & _ & H).
  eapply split_loop_ok; [|exact H]. intros i part chunk Hc. by apply validated_ok in Hc as [-> Hc].
Qed.

(** ** Methods *)

Section moves.
Context (P : IndexedChunk → Prop) (R : mworld E → mworld E → Prop) `{!MemoryOrder P R}.

Lemma mmoves_bind_lift {A B} (r : res A) (k : A → W B) :
  (∀ a, r = Ok a → mmoves R (k a)) → mmoves R (lift r ≫= k).
Proof. intros H w. unfold mbind, M_bind, lift. destruct r; [by apply H|reflexivity]. Qed.

#[local] Ltac mwalk := repeat first
  [ solve [eauto with mmoves typeclass_instances]
  | apply (mmoves_bind R); [|intros; cbv zeta]
  | case_match ].

Lemma mmoves_m_append record expected ft suffix actor pl :
  json_wf (JObj pl) = true → mmoves R (m_append clock record expected ft suffix actor pl).
Proof.
  intros Hwf. apply mmoves_bind; [apply _|apply mmoves_now, mo_tick|]. intros at_. by apply mo_append.
Qed.
#[local] Hint Extern 1 (mmoves _ (m_append _ _ _ _ _ _ _)) =>
  apply mmoves_m_append; first [reflexivity | apply single_wf; reflexivity] : mmoves.

Lemma mmoves_clock : mmoves R (m_now clock).
Proof. apply mmoves_now, mo_tick. Qed.
#[local] Hint Resolve mmoves_clock : mmoves.

Lemma mmoves_append_each record actor pl types : ∀ p,
  json_wf (JObj pl) = true → mmoves R (append_each clock record actor pl p types).
Proof.
  induction types as [|t types IH]; intros p Hwf; cbn [append_each]; [mwalk|].
  apply mmoves_bind; [apply _|by apply mmoves_m_append|]. intros a. by apply IH.
Qed.
Lemma mmoves_index_chunks record at_ vectors chunks :
  items_of P record → Forall (λ ch, MemoryChunk_ok ch = true) chunks →
  mmoves R (index_chunks record at_ vectors chunks).
Proof.
  intros HP. induction 1 as [|c chunks Hc _ IH]; cbn [index_chunks]; [mwalk|].
  case_match; [|mwalk]. apply mmoves_bind; [apply _|apply mo_index; by apply HP|done].
Qed.
Lemma mmoves_stamp_chunks record vectors chunks : mmoves R (stamp_chunks clock record vectors chunks).
Proof. induction chunks as [|c chunks IH]; cbn [stamp_chunks]; mwalk. Qed.
Lemma mmoves_index_all items : Forall P items → mmoves R (index_all items).
Proof.
  induction 1 as [|i items Hi _ IH]; cbn [index_all]; [mwalk|].
  apply mmoves_bind; [apply _|by apply mo_index|done].
Qed.
Lemma stamp_chunks_ok record vectors chunks : ∀ (w : mworld E) items w',
  items_of P record → Forall (λ ch, MemoryChunk_ok ch = true) chunks →
  stamp_chunks clock record vectors chunks w = (Ok items, w') → Forall P items.
Proof.
  induction chunks as [|c chunks IH]; intros w items w' HP Hc H; cbn [stamp_chunks] in H.
  { injection H as <- <-. constructor. }
  apply Forall_cons in Hc as [Hc Hcs].
  inv_lift H v Hv. inv_bind H at_ w1 Hat. inv_bind H more w2 Hm. injection H as <- <-.
  constructor; [by apply HP|by eapply IH].
Qed.
Lemma mmoves_append_operation query id seq ft digest :
  mmoves R (_append_operation clock query id seq ft digest).
Proof. unfold _append_operation. mwalk. Qed.
#[local] Hint Resolve mmoves_append_each mmoves_index_chunks mmoves_stamp_chunks mmoves_append_operation : mmoves.

(** Walk through the binds; keep the equation of the chunks. *)
#[local] Ltac mwalk_chunks := repeat first
  [ solve [eauto with mmoves typeclass_instances]
  | apply mmoves_bind_lift; intros ?chunks ?%chunk_split_ok; cbv zeta
  | apply (mmoves_bind R); [|intros; cbv zeta]
  | case_match ].

Lemma mmoves_ingest record evidence actor acceptance spec :
  MemoryRecord_ok record = true → items_of P record →
  mmoves R (ingest clock embedder chunking record evidence actor acceptance spec).
Proof. intros Hok HP. unfold ingest. mwalk_chunks. Qed.

(** The indexing half of a rebuild *)
Lemma mmoves_stamp_and_index record vectors chunks t m (k : list IndexedChunk → W MemoryProjection) :
  items_of P record → Forall (λ ch, MemoryChunk_ok ch = true) chunks → (∀ items, mmoves R (k items)) →
  mmoves R (indexed ← stamp_chunks clock record vectors chunks;
            on_index (index_purge t m);; index_all indexed;; k indexed).
Proof.
  intros HP Hc Hk w. unfold mbind at 1, M_bind at 1. pose proof (mmoves_stamp_chunks record vectors chunks w) as H.
  destruct (stamp_chunks _ _ _ _ w) as [[items|e] w1] eqn:Hs; [|done]. etrans; [exact H|].
  apply mmoves_bind; [apply _|apply mo_purge|]. intros _. apply mmoves_bind; [apply _| |done].
  apply mmoves_index_all. by eapply stamp_chunks_ok.
Qed.
#[local] Hint Extern 2 (mmoves _ (stamp_chunks _ _ _ _ ≫= _)) =>
  eapply (mmoves_stamp_and_index _ _ _ _ _ (λ indexed, m_append _ _ _ _ _ _ _)) : mmoves.

Lemma rebuild_moves t m rid evidence actor spec w :
  (∀ r, mrecord (mw_ledger w) t m = Some r → items_of P r) →
  R w (rebuild_derived clock embedder chunking t m rid evidence actor spec w).2.
Proof.
  intros HP. unfold rebuild_derived. unfold mbind at 1, M_bind at 1, get at 1. cbv beta iota.
  destruct (mrecord (mw_ledger w) t m) as [r|]; [|reflexivity]. specialize (HP r eq_refl).
  match goal with |- R w (?f w).2 => enough (mmoves R f) as H by apply H end.
  apply mmoves_bind_lift. intros r' Hr'. injection Hr' as <-. mwalk_chunks.
Qed.
Lemma mmoves_require t m msg : mmoves R (require_memory t m msg).
Proof. unfold require_memory. mwalk. Qed.
#[local] Hint Resolve mmoves_require : mmoves.
Lemma mmoves_supersede_one replacement actor i : mmoves R (supersede_one clock replacement actor i).
Proof. unfold supersede_one. mwalk. Qed.
#[local] Hint Resolve mmoves_supersede_one : mmoves.
Lemma mmoves_supersede_all replacement actor ids : mmoves R (supersede_all clock replacement actor ids).
Proof. induction ids as [|i ids IH]; cbn [supersede_all]; mwalk. Qed.
#[local] Hint Resolve mmoves_supersede_all : mmoves.
Lemma mmoves_supersede replacement ids actor : mmoves R (supersede clock replacement ids actor).
Proof. unfold supersede. mwalk. Qed.
Lemma mmoves_hold t m ref applied actor : mmoves R (set_legal_hold clock t m ref applied actor).
Proof. unfold set_legal_hold. mwalk. Qed.
Lemma mmoves_service_retrieve q v : query_ok q → mmoves R (service_retrieve clock q v).
Proof. intros Hq. unfold service_retrieve. mwalk. Qed.
Lemma mmoves_control_retrieve d q : query_ok q → mmoves R (control_retrieve d q).
Proof. intros Hq. unfold control_retrieve. mwalk. Qed.
Lemma mmoves_record_context q c : mmoves R (record_context clock q c).
Proof. unfold record_context. mwalk. Qed.

Lemma run_memory_moves op w : memory_op_ok op → op_moves P R op w → R w (run_memory op w).
Proof.
  intros Hok Hop. destruct op; cbn [run_memory op_moves memory_op_ok] in *.
  - by apply mmoves_ingest.
  - by apply rebuild_moves.
  - done.
  - apply mmoves_supersede.
  - apply mmoves_hold.
  - by apply mmoves_service_retrieve.
  - by apply mmoves_control_retrieve.
  - apply mmoves_record_context.
  - apply mo_replay.
  - apply mo_invalidate.
Qed.
End moves.

(** [tombstone_and_erase], for a relation that does not depend on what is erased *)
Lemma mmoves_erase_if (R : mworld E → mworld E → Prop) {Hpre : PreOrder R} t m actor reason :
  (∀ w t, R w (set_mw_tick t w)) →
  (∀ t m ver ft cmd actor at_ pl, json_wf (JObj pl) = true → mmoves R (on_mledger (mappend t m ver ft cmd actor at_ pl))) →
  (∀ t m, mmoves R (on_index (index_purge t m))) →
  (∀ b, mmoves R (call_external (CallErase b) (erase_blob b))) →
  mmoves R (tombstone_and_erase clock erase_blob t m actor reason).
Proof.
  intros Htick Happend Hpurge Hcall. unfold tombstone_and_erase, require_memory, m_append.
  pose proof (mmoves_now R Htick) as Hnow.
  repeat first [ solve [eauto using single_wf with mmoves typeclass_instances]
               | apply (mmoves_bind R); [|intros; cbv zeta] | case_match ].
Qed.

(** ** Sequences of calls *)

Inductive memory_steps : mworld E → mworld E → Prop :=
  | memory_refl w : memory_steps w w
  | memory_step w op w' : memory_op_ok op → memory_steps (run_memory op w) w' → memory_steps w w'.

(** The items every call indexes: their chunk was validated. *)
Definition valid_item (item : IndexedChunk) : Prop := MemoryChunk_ok (ix_chunk item) = true.

Lemma op_moves_valid R op w :
  (∀ t m actor reason, mmoves R (tombstone_and_erase clock erase_blob t m actor reason)) → op_moves valid_item R op w.
Proof. intros H. destruct op; cbn [op_moves run_memory]; [by intros item _ Hc|by intros r _ item _ Hc|apply H|exact I..]. Qed.

Lemma memory_steps_moves R `{!MemoryOrder valid_item R} w w' :
  (∀ t m actor reason, mmoves R (tombstone_and_erase clock erase_blob t m actor reason)) →
  memory_steps w w' → R w w'.
Proof.
  intros Herase. induction 1 as [|w op w' Hok _ IH]; [reflexivity|].
  etrans; [|exact IH]. apply (run_memory_moves valid_item R op w Hok). by apply op_moves_valid.
Qed.

Lemma memory_steps_trans w1 w2 w3 : memory_steps w1 w2 → memory_steps w2 w3 → memory_steps w1 w3.
Proof. induction 1; [done|]. intros. econstructor; eauto. Qed.

Definition memory_initial (e : E) : mworld E :=
  {| mw_ledger := empty_mledger; mw_index := empty_index; mw_operations := ∅; mw_tick := 0;
     mw_log := []; mw_external := e |}.

Definition memory_reached (w : mworld E) : Prop := ∃ e, memory_steps (memory_initial e) w.

(** ** The ledger of a reachable world *)

Definition mledger_rel (w w' : mworld E) : Prop :=
  mledger_inv (mw_ledger w) → mledger_inv (mw_ledger w') ∧ mledger_grows (mw_ledger w) (mw_ledger w').

#[local] Instance mledger_rel_preorder : PreOrder mledger_rel.
Proof.
  split.
  - intros w H. split; [done|reflexivity].
  - intros a b c H1 H2 Ha. destruct (H1 Ha) as [Hb Hab]. destruct (H2 Hb) as [Hc Hbc].
    split; [done|by etrans].
Qed.

Lemma same_mledger w w' : mw_ledger w' = mw_ledger w → mledger_rel w w'.
Proof. intros H. unfold mledger_rel. rewrite H. intros. split; [done|reflexivity]. Qed.

Lemma call_external_snd {A} c (m : M E A) w :
  (call_external c m w).2 = set_mw_external (mw_log w ++ [c]) (m (mw_external w)).2 w.
Proof. unfold call_external. by destruct (m (mw_external w)). Qed.

(** [rebuild] writes the projection that is there. *)
Lemma mrebuild_run t m l :
  mledger_inv l →
  match mprojection l t m with
  | Some p => mrebuild t m l = (Ok p, l)
  | None => ∃ e, mrebuild t m l = (Raise e, l)
  end.
Proof.
  intros Hl. unfold mrebuild, get, lift, modify, mbind, M_bind, mret, M_ret.
  destruct (_records l !! (t, m)) as [r|] eqn:Hr.
  - pose proof (mi_replay _ Hl t m r Hr) as Hrep. unfold replayed in Hrep. simpl. rewrite Hrep.
    destruct (mprojection l t m) as [p|] eqn:Hp; simpl; [|eauto]. do 2 f_equal. destruct l. simpl in *.
    f_equal. by apply insert_id.
  - destruct (mi_known _ Hl t m Hr) as [_ ->]. simpl. eauto.
Qed.

Lemma mledger_rel_append t m ver ft cmd actor at_ pl :
  json_wf (JObj pl) = true → mmoves mledger_rel (on_mledger (mappend t m ver ft cmd actor at_ pl)).
Proof.
  intros Hwf w Hw. unfold on_mledger. rewrite zoom_snd. simpl.
  split; [by apply mappend_inv|apply mappend_grows].
Qed.

#[export] Instance mledger_rel_order P : MemoryOrder P mledger_rel.
Proof.
  split; intros *; try (intros w; unfold on_operations, on_index; rewrite ?zoom_snd, ?call_external_snd;
    by apply same_mledger).
  - apply _.
  - by apply same_mledger.
  - intros _ w Hw. unfold on_mledger. rewrite zoom_snd. simpl. split; [by apply put_record_inv|apply put_record_grows].
  - apply mledger_rel_append.
  - intros w Hw. unfold on_mledger. rewrite zoom_snd. simpl. pose proof (mrebuild_run t m _ Hw) as H.
    destruct (mprojection (mw_ledger w) t m); [rewrite H|destruct H as [e ->]]; done.
  - intros _ w. unfold on_index. rewrite zoom_snd. by apply same_mledger.
  - intros _ w. unfold on_index. rewrite zoom_snd. by apply same_mledger.
Qed.

Lemma mledger_rel_erase t m actor reason : mmoves mledger_rel (tombstone_and_erase clock erase_blob t m actor reason).
Proof.
  apply mmoves_erase_if.
  - apply _.
  - intros. by apply same_mledger.
  - intros. by apply mledger_rel_append.
  - intros * w. unfold on_index. rewrite zoom_snd. by apply same_mledger.
  - intros * w. rewrite call_external_snd. by apply same_mledger.
Qed.

Lemma later_mledger w w' : mledger_inv (mw_ledger w) → memory_steps w w' →
  mledger_inv (mw_ledger w') ∧ mledger_grows (mw_ledger w) (mw_ledger w').
Proof. intros Hw H. exact (memory_steps_moves mledger_rel w w' mledger_rel_erase H Hw). Qed.

Lemma reached_mledger w : memory_reached w → mledger_inv (mw_ledger w).
Proof. intros [e H]. eapply later_mledger; [|exact H]. apply empty_mledger_inv. Qed.
End world.
