(* ===== verification/MemoryAccess.v ===== *)
(** * The hybrid index: who may see what, and how much

    A search returns hits made from indexed items the querier may see, within the policy's
    bounds; the cache only holds results a search of the current items could return, and its
    key fixes everything eligibility depends on, or is a collision.  The invariant across calls:
    items are filed under their tenant and chunk, chunks are valid, and every change of a
    tenant's items drops that tenant's cached results. *)

From S2P Require Import Prelude PyJson PyTime PyText PyFloat PyModel PyDigest Domain Evidence MemoryData MemoryLedger MemoryText MemoryIndex MemoryService MemoryFacts MemoryWorld.

Section access.
Context {HDigest : Digest} {HFloat : FloatJson}.

(** ** Specification *)

(** The querier may see an item. *)
Record may_see (q : RetrievalQuery) (item : IndexedChunk) : Prop := {
  ms_tenant : mr_tenant_id (ix_record item) = rq_tenant_id q;
  ms_status : mr_status (ix_record item) ∈ [MS_ACCEPTED; MS_ACTIVE];
  ms_classification : mr_classification (ix_record item) ∈ rq_allowed_classifications q;
  ms_acl : acl_roles (mr_acl (ix_record item)) = [] ∧ acl_principals (mr_acl (ix_record item)) = [] ∨
    (∃ r, r ∈ acl_roles (mr_acl (ix_record item)) ∧ r ∈ rq_roles q) ∨
    rq_principal_ref q ∈ acl_principals (mr_acl (ix_record item));
  ms_accepted : ∃ t, mr_accepted_at (ix_record item) = Some t ∧ t <= rq_as_of q;
  ms_retained : rq_as_of q < rb_expires_at (mr_retention (ix_record item));
  ms_current : mr_superseded_by (ix_record item) = None ∧ mr_tombstone_reason (ix_record item) = None
}.

(** A hit shows the chunk of an item, with its citation. *)
Definition shows (item : IndexedChunk) (h : RetrievalHit) : Prop :=
  rh_memory_id h = mr_memory_id (ix_record item) ∧ rh_chunk_id h = ch_chunk_id (ix_chunk item) ∧
  rh_tier h = mr_tier (ix_record item) ∧ rh_text h = ch_text (ix_chunk item) ∧
  rh_citation h = ch_citation (ix_chunk item).

Lemma eligible_spec item q : _eligible item q = true ↔ may_see q item.
Proof.
  unfold _eligible, permits. split.
  - intros H. rewrite !andb_true_iff in H. destruct H as [[[[[[[H1 H2] H3] H4] H5] H6] H7] H8].
    py_bool. split; try done.
    + apply orb_true_iff in H4 as [[H4|H4]%orb_true_iff|H4].
      * py_bool. by left.
      * apply existsb_exists in H4 as (r & Hr%list_elem_of_In & Hq). py_bool. right. left. eauto.
      * py_bool. by do 2 right.
    + destruct (mr_accepted_at _) as [t|]; [|done]. py_bool. eauto.
  - intros [-> Hs Hc Ha (t & -> & Ht) Hr [-> ->]]. rewrite !bool_decide_eq_true_2 by done.
    rewrite (proj2 (Z.leb_le _ _) Ht), (proj2 (Z.ltb_lt _ _) Hr), !andb_true_r. simpl.
    destruct Ha as [[-> ->]|[(r & Hr1 & Hr2)|Hp]]; [done| |].
    + apply orb_true_iff. left. apply orb_true_iff. right. apply existsb_exists. exists r.
      split; [by apply list_elem_of_In|by apply bool_decide_eq_true].
    + apply orb_true_iff. right. by apply bool_decide_eq_true.
Qed.

(** ** Ranking and selection *)

Lemma score_ok q v terms item s : _score q v terms item = Ok s → s.1 = item ∧ shows item s.2.
Proof.
  unfold _score. intros H. apply res_bind_ok in H as (ts & _ & H).
  apply res_bind_ok in H as (h & Hh & H). injection H as <-. by apply validated_ok in Hh as [-> _].
Qed.

Lemma score_all_ok q v terms items : ∀ ss,
  score_all q v terms items = Ok ss → ∀ s, s ∈ ss → s.1 ∈ items ∧ shows s.1 s.2.
Proof.
  induction items as [|item items IH]; intros ss H s Hs; cbn [score_all] in H.
  { injection H as <-. by apply not_elem_of_nil in Hs. }
  apply res_bind_ok in H as (s1 & H1 & H). apply res_bind_ok in H as (ss1 & H2 & H). injection H as <-.
  apply score_ok in H1 as [<- Hsh]. apply elem_of_cons in Hs as [->|Hs]; [split; [by left|done]|].
  destruct (IH _ H2 _ Hs). split; [by right|done].
Qed.

Lemma mmr_loop_sub policy n : ∀ selected remaining,
  mmr_loop policy n selected remaining ⊆+ selected ++ remaining.
Proof.
  induction n as [|n IH]; intros selected remaining; cbn [mmr_loop]; [apply submseteq_inserts_r; reflexivity|].
  set (i := best_index _ _). destruct (remaining !! i) as [best|] eqn:Hi;
    [|apply submseteq_inserts_r; reflexivity].
  etrans; [apply IH|]. rewrite (delete_Permutation _ _ _ Hi) at 2. by rewrite <-app_assoc.
Qed.

(** [_mmr] selects distinct candidates. *)
Lemma mmr_sub candidates policy : _mmr candidates policy ⊆+ candidates.
Proof. apply mmr_loop_sub. Qed.

Lemma candidates_from q v terms items n ss s :
  score_all q v terms items = Ok ss → s ∈ _mmr (ztake n (py_sorted rank_leb ss)) (rq_policy q) →
  s.1 ∈ items ∧ shows s.1 s.2.
Proof.
  intros Hss Hs. apply (score_all_ok q v terms items ss Hss).
  rewrite <-(py_sorted_perm rank_leb ss). apply (elem_of_submseteq _ _ _ Hs).
  etrans; [apply mmr_sub|]. unfold ztake. apply sublist_submseteq, sublist_take.
Qed.

(** ** Packing *)

Definition hit_tokens (h : RetrievalHit) : Z := token_estimate (rh_text h).
Definition hit_bytes (h : RetrievalHit) : Z := byte_len (rh_text h).
Definition total (f : RetrievalHit → Z) (hits : list RetrievalHit) : Z := foldr Z.add 0 (f <$> hits).

Lemma total_app f a b : total f (a ++ b) = total f a + total f b.
Proof. unfold total. rewrite fmap_app. induction (f <$> a) as [|x l IH]; simpl; lia. Qed.

(** Two lists of hits that differ in their contradiction groups only *)
Definition same_hit (h h' : RetrievalHit) : Prop :=
  rh_memory_id h' = rh_memory_id h ∧ rh_chunk_id h' = rh_chunk_id h ∧ rh_tier h' = rh_tier h ∧
  rh_text h' = rh_text h ∧ rh_citation h' = rh_citation h.

Lemma mark_contradictions_same k g hits : ∀ hits', mark_contradictions k g hits = Ok hits' → Forall2 same_hit hits hits'.
Proof.
  induction hits as [|h hits IH]; intros hits' H; cbn [mark_contradictions] in H; [injection H as <-; constructor|].
  apply res_bind_ok in H as (k' & _ & H). apply res_bind_ok in H as (more & Hm & H). injection H as <-.
  constructor; [|by apply IH]. by case_bool_decide.
Qed.

Lemma same_hit_total f hits hits' :
  (∀ h h', same_hit h h' → f h' = f h) → Forall2 same_hit hits hits' → total f hits' = total f hits.
Proof. intros Hf. unfold total. induction 1 as [|h h' ? ? Hh _ IH]; [done|]. rewrite !fmap_cons. simpl. rewrite IH, (Hf _ _ Hh). lia. Qed.

Lemma same_hit_refl hits : Forall2 same_hit hits hits.
Proof. induction hits; by constructor. Qed.

(** What packing maintains: the hits show the items they were made from; counts are sums
    over the hits and within the policy's bounds. *)
Record packed_ok (policy : RetrievalPolicy) (items : list IndexedChunk) (s : pack_state) : Prop := {
  po_shows : Forall2 shows items (pk_hits s);
  po_tokens : pk_tokens s = total hit_tokens (pk_hits s);
  po_bytes : pk_bytes s = total hit_bytes (pk_hits s);
  po_max_tokens : pk_tokens s <= Z.max 0 (rpo_maximum_tokens policy);
  po_max_bytes : pk_bytes s <= Z.max 0 (rpo_maximum_bytes policy);
  po_count : zlen (pk_hits s) <= Z.max 0 (rpo_top_k policy)
}.

Lemma shows_same items hits hits' : Forall2 shows items hits → Forall2 same_hit hits hits' → Forall2 shows items hits'.
Proof.
  intros H. revert hits'. induction H as [|i h items hits Hi _ IH]; intros hits' H'; inversion H'; subst; constructor.
  - destruct Hi as (?&?&?&?&?). match goal with H : same_hit _ _ |- _ => destruct H as (?&?&?&?&?) end.
    split_and!; congruence.
  - by apply IH.
Qed.

Lemma valid_chunk_counts item : valid_item item →
  ch_token_estimate (ix_chunk item) = token_estimate (ch_text (ix_chunk item)) ∧
  ch_byte_count (ix_chunk item) = byte_len (ch_text (ix_chunk item)).
Proof. unfold valid_item, MemoryChunk_ok. intros H. py_bool. done. Qed.

Lemma pack_hit_ok q items s pair s' :
  packed_ok (rq_policy q) items s → valid_item pair.1 → shows pair.1 pair.2 → pack_hit q s pair = Ok s' →
  ∃ items', packed_ok (rq_policy q) items' s' ∧ (items' = items ∨ items' = items ++ [pair.1]).
Proof.
  destruct pair as [item hit]. simpl. intros Hs Hv Hsh H.
  destruct ((rpo_top_k (rq_policy q) <=? zlen (pk_hits s)) || _ || _) eqn:Hfull; [by injection H as <-; eauto|].
  apply res_bind_ok in H as (k & _ & H). set (contradicts := match dict_get k _ with Some _ => _ | None => _ end) in H.
  set (group := if contradicts then _ else _) in H.
  apply res_bind_ok in H as (hits & Hh & H). injection H as <-.
  assert (Forall2 same_hit (pk_hits s) hits) as Hsame.
  { destruct contradicts; [by eapply mark_contradictions_same|]. injection Hh as <-. apply same_hit_refl. }
  exists (items ++ [item]). split; [|by right]. py_bool. destruct Hs as [P1 P2 P3 P4 P5 P6].
  destruct (valid_chunk_counts _ Hv) as [Ht Hb].
  assert (total hit_tokens hits = total hit_tokens (pk_hits s)) as T1.
  { apply same_hit_total; [|done]. unfold hit_tokens. by intros h h' (_&_&_&->&_). }
  assert (total hit_bytes hits = total hit_bytes (pk_hits s)) as T2.
  { apply same_hit_total; [|done]. unfold hit_bytes. by intros h h' (_&_&_&->&_). }
  pose proof (Forall2_length _ _ _ Hsame) as Hlen. destruct Hsh as (S1&S2&S3&S4&S5).
  split; simpl; rewrite ?total_app, ?T1, ?T2; unfold total; simpl; unfold hit_tokens, hit_bytes in *; simpl.
  - apply Forall2_app; [by eapply shows_same|]. constructor; [|constructor]. by split_and!.
  - rewrite S4, <-Ht, P2. unfold total. lia.
  - rewrite S4, <-Hb, P3. unfold total. lia.
  - lia.
  - lia.
  - unfold zlen in *. rewrite length_app. simpl. lia.
Qed.

Lemma pack_all_ok q pairs : ∀ items s s',
  packed_ok (rq_policy q) items s → (∀ p, p ∈ pairs → valid_item p.1 ∧ shows p.1 p.2) →
  foldM (pack_hit q) s pairs = Ok s' →
  ∃ items', packed_ok (rq_policy q) items' s' ∧ ∀ i, i ∈ items' → i ∈ items ∨ i ∈ pairs.*1.
Proof.
  induction pairs as [|p pairs IH]; intros items s s' Hs Hp H; cbn [foldM] in H.
  { injection H as <-. exists items. auto. }
  apply res_bind_ok in H as (s1 & H1 & H). destruct (Hp p) as [Hv Hsh]; [by left|].
  destruct (pack_hit_ok _ _ _ _ _ Hs Hv Hsh H1) as (items1 & Hs1 & Hi1).
  destruct (IH _ _ _ Hs1 (λ x Hx, Hp x (list_elem_of_further _ _ _ Hx)) H) as (items' & Hs' & Hi').
  exists items'. split; [done|]. intros i Hi. destruct (Hi' i Hi) as [Hi2|Hi2]; [|right; by right].
  destruct Hi1 as [->| ->]; [by left|]. apply elem_of_app in Hi2 as [Hi2|Hi2%list_elem_of_singleton]; [by left|].
  right. subst. by left.
Qed.

(** ** A search *)

(** Every hit shows an item of the list the querier may see. *)
Definition sees_only (q : RetrievalQuery) (items : list IndexedChunk) (hits : list RetrievalHit) : Prop :=
  ∀ h, h ∈ hits → ∃ item, item ∈ items ∧ may_see q item ∧ shows item h.

(** The size of a result is what it says and within the bounds of a policy. *)
Definition result_bounded (p : RetrievalPolicy) (r : RetrievalResult) : Prop :=
  zlen (rr_hits r) <= rpo_top_k p ∧
  rr_token_count r = total hit_tokens (rr_hits r) ∧ rr_token_count r <= rpo_maximum_tokens p ∧
  rr_byte_count r = total hit_bytes (rr_hits r) ∧ rr_byte_count r <= rpo_maximum_bytes p ∧
  rr_candidate_count r <= rpo_maximum_candidates p.

Lemma search_ok q v items r :
  RetrievalQuery_ok q = true → Forall valid_item items → search_items q v items = Ok r →
  sees_only q items (rr_hits r) ∧ result_bounded (rq_policy q) r.
Proof.
  intros Hq Hv H. unfold search_items in H. set (eligible := List.filter _ items) in H.
  apply res_bind_ok in H as (terms & _ & H). apply res_bind_ok in H as (scored & Hsc & H).
  apply res_bind_ok in H as (packed & Hpk & H). apply validated_ok in H as [-> _].
  assert (∀ i, i ∈ eligible → i ∈ items ∧ may_see q i) as Hel.
  { intros i Hi. apply list_elem_of_In, filter_In in Hi as [Hi He]. py_bool.
    split; [by apply list_elem_of_In|by apply eligible_spec]. }
  assert (∀ p, p ∈ _mmr (ztake (rpo_maximum_candidates (rq_policy q)) (py_sorted rank_leb scored)) (rq_policy q) →
    valid_item p.1 ∧ shows p.1 p.2) as Hpairs.
  { intros p Hp. destruct (candidates_from _ _ _ _ _ _ _ Hsc Hp) as [[Hi _]%Hel Hs]. split; [|done].
    rewrite Forall_forall in Hv. by apply Hv. }
  unfold RetrievalQuery_ok, RetrievalQuery_fields, RetrievalPolicy_ok, RetrievalPolicy_fields, in_range in Hq. py_bool.
  set (start := Build_pack_state _ _ _ _) in Hpk.
  assert (packed_ok (rq_policy q) [] start) as Hstart.
  { by split; simpl; try done; unfold zlen; simpl; lia. }
  destruct (pack_all_ok q _ _ _ _ Hstart (λ p Hp, Hpairs p Hp) Hpk) as (its & [P1 P2 P3 P4 P5 P6] & Hits).
  split.
  - intros h Hh. simpl in Hh. apply list_elem_of_lookup in Hh as [n Hn].
    destruct (Forall2_lookup_r _ _ _ _ _ P1 Hn) as (i & Hi & Hs). apply list_elem_of_lookup_2 in Hi.
    destruct (Hits _ Hi) as [Hn'|Hc]; [by apply not_elem_of_nil in Hn'|].
    apply list_elem_of_fmap in Hc as (p & -> & Hp).
    destruct (candidates_from _ _ _ _ _ _ _ Hsc Hp) as [[? ?]%Hel _]. by exists p.1.
  - unfold result_bounded. simpl. split_and!; try done; try lia.
    rewrite ztake_nonneg by lia. unfold zlen. rewrite length_take. lia.
Qed.

(** ** The cache key *)

Definition cache_doc (q : RetrievalQuery) : payload :=
  [("policy", JStr (retrieval_policy_digest (rq_policy q))); ("principal_ref", JStr (rq_principal_ref q));
   ("roles", strings_json (rq_roles q));
   ("classifications", strings_json (py_sorted str_leb (classification_value <$> rq_allowed_classifications q)));
   ("as_of", JStr (iso_z (rq_as_of q)))].

(** Two documents that were hashed collide. *)
Definition keys_collide (q q' : RetrievalQuery) : Prop :=
  collides (document (cache_doc q)) (document (cache_doc q')) ∨
  collides (document (RetrievalPolicy_material (rq_policy q))) (document (RetrievalPolicy_material (rq_policy q'))).

Context {HLaws : FloatJsonLaws}.

Lemma classification_value_inj c c' : classification_value c = classification_value c' → c = c'.
Proof. by destruct c, c'. Qed.

Lemma cache_doc_wf q : json_wf (JObj (cache_doc q)) = true.
Proof. unfold cache_doc. members. Qed.
Lemma policy_material_wf p : json_wf (JObj (RetrievalPolicy_material p)) = true.
Proof. unfold RetrievalPolicy_material. members; apply float_json_wf. Qed.

Lemma cache_key_binds q q' :
  datetime_ok (rq_as_of q) = true → datetime_ok (rq_as_of q') = true →
  retrieval_cache_key q = retrieval_cache_key q' →
  keys_collide q q' ∨
  (∀ item, may_see q item → may_see q' item) ∧
  (∀ r, result_bounded (rq_policy q) r → result_bounded (rq_policy q') r).
Proof.
  intros D D' H. unfold retrieval_cache_key in H. injection H as Ht _ Hd.
  apply digest_binds in Hd as [Hd|Hk]; [by left; left| |apply cache_doc_wf..].
  pose proof (Hk "policy") as K1. pose proof (Hk "principal_ref") as K2. pose proof (Hk "roles") as K3.
  pose proof (Hk "classifications") as K4. pose proof (Hk "as_of") as K5.
  cbn -[jnorm] in K1, K2, K3, K4, K5. apply (inj Some) in K1, K2, K3, K4, K5.
  rewrite !jnorm_strings in K3, K4. apply strings_json_inj in K3, K4.
  injection K1 as K1. injection K2 as K2. injection K5 as K5.
  apply iso_z_inj in K5; [|done..].
  apply digest_binds in K1 as [?|Kp]; [by left; right| |apply policy_material_wf..].
  right. split.
  - intros item [S1 S2 S3 S4 S5 S6 S7].
    split; rewrite <-?Ht, <-?K2, <-?K3, <-?K5; try done.
    assert (∀ l l', py_sorted str_leb l = py_sorted str_leb l' → l ≡ₚ l') as Hperm.
    { intros l l' Hl. rewrite <-(py_sorted_perm str_leb l), Hl. apply py_sorted_perm. }
    apply Hperm in K4. apply (list_elem_of_fmap_2 classification_value) in S3. rewrite K4 in S3.
    apply list_elem_of_fmap in S3 as (c & Hc & S3). by apply classification_value_inj in Hc as ->.
  - intros r (B1 & B2 & B3 & B4 & B5 & B6).
    pose proof (Kp "maximum_candidates") as P1. pose proof (Kp "top_k") as P2.
    pose proof (Kp "maximum_tokens") as P3. pose proof (Kp "maximum_bytes") as P4.
    cbn in P1, P2, P3, P4. simplify_eq/=. unfold result_bounded. split_and!; try done; lia.
Qed.
End access.

Section cache.
Context {HDigest : Digest} {HFloat : FloatJson}.

(** What a search may return for a query *)
Definition result_ok (q : RetrievalQuery) (items : list IndexedChunk) (r : RetrievalResult) : Prop :=
  sees_only q items (rr_hits r) ∧ result_bounded (rq_policy q) r.

Record index_inv (h : hybrid_index) : Prop := {
  ii_keys k item : (k, item) ∈ hi_items h → k = (mr_tenant_id (ix_record item), ch_chunk_id (ix_chunk item));
  ii_nodup : NoDup (hi_items h).*1;
  ii_valid : Forall valid_item (hi_items h).*2;
  ii_cache key until r : hi_cache h !! key = Some (until, r) →
    ∃ q, key = retrieval_cache_key q ∧ query_ok q ∧ result_ok q (hi_items h).*2 r
}.

Lemma empty_index_inv : index_inv empty_index.
Proof.
  split; simpl; [|apply NoDup_nil_2|apply Forall_nil_2|done].
  intros k item H. by apply not_elem_of_nil in H.
Qed.

(** The items of one tenant *)
Definition tenant_items (t : string) (h : hybrid_index) : list IndexedChunk :=
  List.filter (λ item, bool_decide (mr_tenant_id (ix_record item) = t)) (hi_items h).*2.

Lemma sees_only_tenant q h hits :
  sees_only q (hi_items h).*2 hits ↔ sees_only q (tenant_items (rq_tenant_id q) h) hits.
Proof.
  unfold sees_only, tenant_items. split; intros H x Hx; destruct (H x Hx) as (item & Hi & Hs & Hsh);
    exists item; (split; [|done]).
  - apply list_elem_of_In, filter_In. split; [by apply list_elem_of_In|]. apply bool_decide_eq_true, Hs.
  - apply list_elem_of_In, filter_In in Hi as [Hi _]. by apply list_elem_of_In.
Qed.

(** Replacing the items of the dropped tenant only *)
Lemma drop_cache_inv t h items :
  index_inv h →
  (∀ k item, (k, item) ∈ items → k = (mr_tenant_id (ix_record item), ch_chunk_id (ix_chunk item))) →
  NoDup items.*1 → Forall valid_item items.*2 →
  (∀ t', t' ≠ t → tenant_items t' {| hi_items := items; hi_cache := hi_cache h |} = tenant_items t' h) →
  index_inv (drop_tenant_cache t {| hi_items := items; hi_cache := hi_cache h |}).
Proof.
  intros [_ _ _ Hc] Hk Hnd Hv Hsame. split; simpl; try done.
  intros key until r Hkey. apply map_lookup_filter_Some in Hkey as [Hkey Hne]. simpl in Hne.
  destruct (Hc _ _ _ Hkey) as (q & -> & Hq & Hs & Hb). exists q. split; [done|]. split; [done|].
  unfold result_ok. split; [|done]. apply (sees_only_tenant q {| hi_items := items; hi_cache := hi_cache h |}).
  rewrite Hsame by done. by apply sees_only_tenant.
Qed.

Lemma dict_set_elem {V} (k : string * string) (v : V) d x :
  x ∈ dict_set k v d → x = (k, v) ∨ x ∈ d.
Proof.
  induction d as [|[k' v'] d IH]; cbn [dict_set].
  - intros ->%list_elem_of_singleton. by left.
  - destruct (decide (k' = k)) as [E|E]; intros [->|H]%elem_of_cons.
    + left. by subst.
    + right. by right.
    + right. by left.
    + destruct (IH H); [by left|right; by right].
Qed.

Lemma index_item_inv item h :
  index_inv h → valid_item item → index_inv (index_item item h).2.
Proof.
  intros Hh Hv. unfold index_item, lift, modify, raise_if, mbind, M_bind. destruct (negb _); [done|]. simpl.
  set (key := (mr_tenant_id (ix_record item), ch_chunk_id (ix_chunk item))).
  apply drop_cache_inv; [done|..].
  - intros k i [[= -> ->]|Hi]%dict_set_elem; [done|by apply (ii_keys _ Hh)].
  - by apply dict_set_NoDup, ii_nodup.
  - rewrite Forall_forall. intros i Hi. apply list_elem_of_fmap in Hi as ([k i'] & -> & [[= -> ->]|Hi]%dict_set_elem); [done|].
    pose proof (ii_valid _ Hh) as Hall. rewrite Forall_forall in Hall. apply Hall, list_elem_of_fmap. by exists (k, i').
  - intros t Ht. unfold tenant_items. cbn [hi_items]. pose proof (ii_keys _ Hh) as Hk.
    induction (hi_items h) as [|[k i] d IH]; cbn [dict_set].
    + simpl. by rewrite bool_decide_eq_false_2.
    + destruct (decide (k = key)) as [E|E]; rewrite !fmap_cons; cbn [List.filter snd].
      * pose proof (Hk k i ltac:(by left)) as E'. rewrite E' in E. injection E as E1 _.
        rewrite !bool_decide_eq_false_2; [done|congruence|congruence].
      * rewrite IH; [done|]. intros k' i' Hi. apply Hk. by right.
Qed.

Lemma filter_fmap_snd {K} (f : IndexedChunk → bool) (l : list (K * IndexedChunk)) :
  (List.filter (λ kv, f kv.2) l).*2 = List.filter f l.*2.
Proof.
  induction l as [|[k i] l IH]; [done|]. rewrite fmap_cons. cbn [List.filter snd].
  destruct (f i); [rewrite fmap_cons|]; by rewrite IH.
Qed.

Lemma filter_none {A} (f : A → bool) l : (∀ x, x ∈ l → f x = false) → List.filter f l = [].
Proof.
  induction l as [|x l IH]; intros H; simpl; [done|]. rewrite (H x) by by left. apply IH. intros y Hy. apply H. by right.
Qed.

Lemma filter_filter_false (f g : IndexedChunk → bool) l :
  (∀ x, g x = true → f x = true) → List.filter g (List.filter f l) = List.filter g l.
Proof.
  intros H. induction l as [|x l IH]; simpl; [done|]. destruct (f x) eqn:Ef; simpl; rewrite IH; [done|].
  destruct (g x) eqn:Eg; [|done]. apply H in Eg. congruence.
Qed.

Lemma index_purge_inv t m h : index_inv h → index_inv (index_purge t m h).2.
Proof.
  intros Hh. unfold index_purge. cbn [snd]. apply drop_cache_inv; [done|..].
  - intros k i Hi. apply list_elem_of_In, filter_In in Hi as [Hi _]. by apply (ii_keys _ Hh), list_elem_of_In.
  - eapply sublist_NoDup; [apply (ii_nodup _ Hh)|]. apply fmap_sublist, filter_sublist.
  - pose proof (ii_valid _ Hh) as Hall. rewrite Forall_forall in *. intros i Hi. apply Hall.
    apply list_elem_of_fmap in Hi as (x & -> & Hx). apply list_elem_of_In, filter_In in Hx as [Hx _].
    apply list_elem_of_fmap. exists x. split; [done|by apply list_elem_of_In].
  - intros t' Ht. unfold tenant_items. simpl.
    rewrite (filter_fmap_snd (λ i, negb (of_memory t m i))). apply filter_filter_false.
    intros x Hx. py_bool. unfold of_memory. apply negb_true_iff, andb_false_iff. left.
    apply bool_decide_eq_false. congruence.
Qed.

Lemma invalidate_inv t h : index_inv h → index_inv (invalidate_tenant t h).2.
Proof.
  intros Hh. destruct h as [items c]. unfold invalidate_tenant, modify. simpl.
  apply (drop_cache_inv t {| hi_items := items; hi_cache := c |} items); [done|apply Hh..|done].
Qed.

(** A purge leaves nothing of the memory, and no cached result of the tenant. *)
Lemma purge_leaves_nothing t m h :
  (∀ item, item ∈ (hi_items (index_purge t m h).2).*2 → of_memory t m item = false) ∧
  (∀ key, key.1.1 = t → hi_cache (index_purge t m h).2 !! key = None).
Proof.
  unfold index_purge. cbn [snd]. split; simpl.
  - intros i Hi. rewrite (filter_fmap_snd (λ i, negb (of_memory t m i))) in Hi.
    apply list_elem_of_In, filter_In in Hi as [_ Hi]. by py_bool.
  - intros key Hkey. apply map_lookup_filter_None. right. intros x _ Hne. by destruct Hne.
Qed.

Context {HLaws : FloatJsonLaws}.

(** ** Retrieval *)

(** Storing or dropping a cache entry *)
Lemma set_cached_inv q until r h :
  index_inv h → query_ok q → result_ok q (hi_items h).*2 r →
  index_inv (set_cached (retrieval_cache_key q) (Some (until, r)) h).
Proof.
  intros [K N V C] Hq Hr. split; simpl; try done.
  intros key until' r' Hkey. rewrite lookup_insert in Hkey. case_decide as E; [|by eapply C].
  injection Hkey as <- <-. eauto.
Qed.

Lemma drop_cached_inv key h : index_inv h → index_inv (set_cached key None h).
Proof.
  intros [K N V C]. split; simpl; try done.
  intros key' until r Hkey. apply lookup_delete_Some in Hkey as [_ Hkey]. by eapply C.
Qed.

Lemma cached_result q until r h :
  index_inv h → query_ok q → hi_cache h !! retrieval_cache_key q = Some (until, r) →
  result_ok q (hi_items h).*2 (as_cache_hit r) ∨ ∃ q', keys_collide q' q.
Proof.
  intros Hh Hq Hc. destruct (ii_cache _ Hh _ _ _ Hc) as (q' & Hkey & Hq' & Hs & Hb).
  destruct (cache_key_binds q' q) as [?|[H1 H2]]; [apply Hq'|apply Hq|done|right; eauto|left].
  split; [|by apply H2]. intros x Hx. destruct (Hs x Hx) as (i & Hi & Hsee & Hsh). eauto.
Qed.

Lemma retrieve_items q v h : hi_items (index_retrieve q v h).2 = hi_items h.
Proof.
  unfold index_retrieve, lift, raise_if, mbind, M_bind, get, modify, mret, M_ret.
  destruct (_ || _); [done|]. destruct (hi_cache h !! retrieval_cache_key q) as [[until cached]|];
    [destruct (_ <? until); [done|]|]; (destruct (search_items _ _ _); [by destruct (0 <? _)|done]).
Qed.

(** A retrieval returns what a search of the current items could return, and keeps the
    invariant. *)
Lemma retrieve_run q v h :
  index_inv h → query_ok q →
  index_inv (index_retrieve q v h).2 ∧
  ∀ r, (index_retrieve q v h).1 = Ok r → result_ok q (hi_items h).*2 r ∨ ∃ q', keys_collide q' q.
Proof.
  intros Hh Hq. unfold index_retrieve, lift, raise_if, mbind, M_bind, get, modify, mret, M_ret.
  destruct (_ || _); [by split_and!|].
  assert (∀ r, search_items q v (hi_items h).*2 = Ok r → result_ok q (hi_items h).*2 r) as Hsearch.
  { intros r Hs. eapply search_ok; [apply Hq|by apply ii_valid|exact Hs]. }
  pose proof (drop_cached_inv (retrieval_cache_key q) h Hh) as Hdrop.
  destruct (hi_cache h !! retrieval_cache_key q) as [[until cached]|] eqn:Hc.
  - destruct (_ <? until).
    + split_and!; [done..|]. intros r [= <-]. by eapply cached_result.
    + destruct (search_items _ _ _) as [r0|e] eqn:Hs; [|by split_and!].
      destruct (0 <? _); simpl; (split; [|intros r [= <-]; by left; apply Hsearch]).
      * by apply set_cached_inv; auto.
      * done.
  - destruct (search_items _ _ _) as [r0|e] eqn:Hs; [|by split_and!].
    destruct (0 <? _); simpl; (split; [|intros r [= <-]; by left; apply Hsearch]).
    + by apply set_cached_inv; auto.
    + done.
Qed.
End cache.
