(* ===== verification/MemoryFixtures.v ===== *)
(** * A concrete memory to evaluate

    One piece of evidence and the record made from it, the deterministic embedding adapter as
    provider and a blob store whose erasure may fail the first time.  The witnesses run the
    services on them. *)

From S2P Require Import Prelude PyJson PyFloat PyTime PyText PyModel PyDigest Domain Evidence MemoryData MemoryLedger MemoryText MemoryIndex MemoryService MemoryFacts MemoryWorld Fixtures.

Section fixtures.
#[local] Existing Instance demo_digest.
#[local] Existing Instance demo_float.

Definition memory_text : string := "restart api pods after latency alarm in eu-west".

Definition memory_provenance : EvidenceProvenance :=
  {| ep_tenant_id := "tenant-a"; ep_incident_id := "inc-1"; ep_run_id := "run-1"; ep_source_id := "source-1";
     ep_source_kind := ESK_RUNBOOK; ep_source_trust := ST_OPERATOR_APPROVED; ep_source_digest := hexdigest "source";
     ep_query_id := "query-1"; ep_query_digest := hexdigest "query"; ep_page_number := 1; ep_locator := "runbook#1";
     ep_observed_at := demo_time; ep_retrieved_at := demo_time; ep_credential_version := None;
     ep_policy_revision := 1; ep_classification := DC_INTERNAL; ep_retention_ref := "retention-1";
     ep_raw_content_hash := hexdigest memory_text |}.

Definition memory_evidence : NormalizedEvidence :=
  {| ne_evidence_id := "evidence-1"; ne_tenant_id := "tenant-a"; ne_incident_id := "inc-1"; ne_kind := ESK_RUNBOOK;
     ne_summary := "restart"; ne_facts := []; ne_canonical_text := memory_text;
     ne_content_hash := hexdigest memory_text; ne_provenance := memory_provenance; ne_disposition := ED_ACCEPTED;
     ne_redaction_count := 0; ne_scanner_findings := []; ne_quarantine_reason := None; ne_duplicate_of := None |}.

Definition memory_spec : EmbeddingSpec :=
  {| sp_provider := "fake"; sp_model := "hash"; sp_version := "v1"; sp_dimensions := 2;
     sp_timeout_seconds := f_one; sp_maximum_attempts := 1; sp_maximum_batch_items := 16;
     sp_maximum_batch_tokens := 4096 |}.

Definition made_record : res MemoryRecord :=
  memory_record_from_evidence memory_evidence MT_SEMANTIC {| acl_roles := ["responder"]; acl_principals := [] |}
    "runbook" 1 chunker_version memory_spec f_one f_one
    {| rb_policy_ref := "retention-1"; rb_expires_at := demo_time + hours 24; rb_legal_hold_refs := [] |}
    "blob-1" "key-1" 1 demo_time.

Definition demo_record : MemoryRecord :=
  ltac:(let r := eval vm_compute in made_record in match r with Ok ?x => exact x end).

Example demo_record_made : made_record = Ok demo_record.
Proof. vm_compute. reflexivity. Qed.

Lemma demo_record_ok : MemoryRecord_ok demo_record = true.
Proof. vm_compute. reflexivity. Qed.

Definition demo_acceptance (disposition : AcceptanceDisposition) : MemoryAcceptance :=
  {| mac_decision_id := "decision-1"; mac_tenant_id := "tenant-a"; mac_memory_id := mr_memory_id demo_record;
     mac_disposition := disposition; mac_reviewer_ref := "reviewer-1"; mac_reviewer_kind := RK_human;
     mac_policy_id := "policy-1"; mac_policy_revision := 1; mac_policy_digest := hexdigest "policy";
     mac_reason_code := "reviewed"; mac_decided_at := demo_time |}.

(** ** Ports *)

Definition memory_clock (n : nat) : datetime := demo_time + seconds (Z.of_nat n).

(** The provider's state counts the calls to the blob store. *)
Definition demo_embedder (request : EmbeddingRequest) : M nat EmbeddingResult :=
  lift (deterministic_embed 2 request).
Definition failing_embedder (request : EmbeddingRequest) : M nat EmbeddingResult :=
  lift (raise EvidenceUnavailable "embedding provider is down").

Definition demo_erase (blob : ErasableBlobReference) : M nat unit := modify S.
(** The first call fails. *)
Definition flaky_erase (blob : ErasableBlobReference) : M nat unit :=
  n ← get; modify S;; lift (raise_if (n =? 0)%nat RepositoryUnavailable "blob store is down").

Definition demo_chunker : chunker := {| _maximum_tokens := 16; _overlap_tokens := 4; _maximum_chunks := 8 |}.

(** ** Calls *)

Definition demo_memory_id : string := mr_memory_id demo_record.

Definition op_ingest (disposition : AcceptanceDisposition) : memory_op :=
  OpIngest demo_record memory_evidence "actor-1" (demo_acceptance disposition) memory_spec.
Definition op_erase : memory_op := OpErase "tenant-a" demo_memory_id "actor-1" "user-request".
Definition op_hold (applied : bool) : memory_op := OpHold "tenant-a" demo_memory_id "hold-1" applied "actor-1".

Definition run_demo (embedder : EmbeddingRequest → M nat EmbeddingResult)
    (erase_blob : ErasableBlobReference → M nat unit) (ops : list memory_op) : mworld nat :=
  foldl (λ w op, run_memory memory_clock embedder erase_blob demo_chunker op w) (memory_initial 0%nat) ops.

Definition memory_op_okb (op : memory_op) : bool :=
  match op with
  | OpIngest record _ _ _ _ => MemoryRecord_ok record
  | OpRetrieve q _ | OpControlRetrieve _ q => RetrievalQuery_ok q && datetime_ok (rq_as_of q)
  | _ => true
  end.

Definition demo_state (w : mworld nat) : option (MemoryStatus * Z * bool * bool * Z) :=
  (λ p, (mpj_status p, mpj_version p, mpj_indexed p, mpj_blob_erased p, mpj_legal_hold_count p)) <$>
  mprojection (mw_ledger w) "tenant-a" demo_memory_id.

Example demo_ingested :
  demo_state (run_demo demo_embedder demo_erase [op_ingest AD_accept]) = Some (MS_ACTIVE, 10, true, false, 0).
Proof. vm_compute. reflexivity. Qed.

Example demo_erased :
  demo_state (run_demo demo_embedder demo_erase [op_ingest AD_accept; op_erase]) = Some (MS_ERASED, 13, false, true, 0).
Proof. vm_compute. reflexivity. Qed.

(** ** Queries *)

Definition demo_retrieval_policy : RetrievalPolicy :=
  {| rpo_policy_id := "retrieval-1"; rpo_revision := 1; rpo_lexical_weight := f_one; rpo_vector_weight := f_zero;
     rpo_recency_weight := f_zero; rpo_quality_weight := f_zero; rpo_mmr_lambda := f_one;
     rpo_maximum_candidates := 10; rpo_top_k := 3; rpo_maximum_tokens := 256; rpo_maximum_bytes := 4096;
     rpo_cache_ttl_seconds := 60; rpo_freshness_seconds := 3600 |}.

Definition demo_query (tenant_id role : string) : RetrievalQuery :=
  {| rq_query_id := "query-1"; rq_tenant_id := tenant_id; rq_run_id := "run-1"; rq_incident_id := "inc-1";
     rq_principal_ref := "alice"; rq_roles := [role]; rq_allowed_classifications := [DC_INTERNAL];
     rq_text := "restart api pods"; rq_query_digest := hexdigest "restart api pods";
     rq_requested_at := demo_time + seconds 60; rq_as_of := demo_time + seconds 60;
     rq_policy := demo_retrieval_policy |}.

Definition hit_ids (r : res RetrievalResult) : list string :=
  match r with Ok r => rh_memory_id <$> rr_hits r | Raise _ => [] end.

Example demo_retrieves :
  let w := run_demo demo_embedder demo_erase [op_ingest AD_accept] in
  RetrievalQuery_ok (demo_query "tenant-a" "responder") = true ∧
  hit_ids (service_retrieve memory_clock (demo_query "tenant-a" "responder") [f_one; f_zero] w).1 = [demo_memory_id] ∧
  hit_ids (service_retrieve memory_clock (demo_query "tenant-a" "guest") [f_one; f_zero] w).1 = [].
Proof. vm_compute. split_and!; reflexivity. Qed.
End fixtures.

Section reached.
#[local] Existing Instance demo_digest.
#[local] Existing Instance demo_float.
Context (embedder : EmbeddingRequest → M nat EmbeddingResult) (erase_blob : ErasableBlobReference → M nat unit).

Lemma run_demo_steps (ops : list memory_op) w :
  forallb memory_op_okb ops = true →
  memory_steps memory_clock embedder erase_blob demo_chunker w
    (foldl (λ w op, run_memory memory_clock embedder erase_blob demo_chunker op w) w ops).
Proof.
  revert w. induction ops as [|op ops IH]; intros w H; simpl in *; [constructor|]. py_bool.
  eapply (memory_step memory_clock embedder erase_blob demo_chunker w op); [|by apply IH].
  by destruct op; cbn in *; py_bool.
Qed.

Lemma run_demo_reached (ops : list memory_op) :
  forallb memory_op_okb ops = true →
  memory_reached memory_clock embedder erase_blob demo_chunker (run_demo embedder erase_blob ops).
Proof. intros H. exists 0%nat. by apply run_demo_steps. Qed.

Lemma run_demo_later (ops more : list memory_op) :
  forallb memory_op_okb more = true →
  memory_steps memory_clock embedder erase_blob demo_chunker (run_demo embedder erase_blob ops)
    (run_demo embedder erase_blob (ops ++ more)).
Proof. intros H. unfold run_demo. rewrite foldl_app. by apply run_demo_steps. Qed.
End reached.
