(* ===== verification/MemoryRetrieval.v ===== *)
(** * Retrieval over any sequence of calls

    The index invariant holds in every reachable world, so what a retrieval returns, from
    the cache or not, is within the querier's authority and the policy's bounds. *)

From S2P Require Import Prelude PyJson PyFloat PyTime PyText PyModel PyDigest Domain Evidence MemoryData MemoryLedger MemoryText MemoryIndex MemoryService MemoryFacts MemoryWorld MemoryAccess Fixtures MemoryFixtures.

Section retrieval.
Context {HDigest : Digest} {HFloat : FloatJson} {HLaws : FloatJsonLaws} {E : Type}.
Context (clock : nat → datetime) (embedder : EmbeddingRequest → M E EmbeddingResult)
  (erase_blob : ErasableBlobReference → M E unit) (chunking : chunker).

Abbreviation reached := (memory_reached clock embedder erase_blob chunking).
Abbreviation items w := (hi_items (mw_index w)).*2.

Definition index_rel (w w' : mworld E) : Prop := index_inv (mw_index w) → index_inv (mw_index w').

#[local] Instance index_rel_preorder : PreOrder index_rel.
Proof. split; [by intros w H|]. intros a b c H1 H2 H. auto. Qed.

Lemma same_index w w' : mw_index w' = mw_index w → index_rel w w'.
Proof. unfold index_rel. by intros ->. Qed.

#[local] Instance index_rel_order : MemoryOrder embedder valid_item index_rel.
Proof.
  split; intros *; try (intros w; unfold on_mledger, on_operations; rewrite ?zoom_snd, ?call_external_snd;
    by apply same_index).
  - apply _.
  - by apply same_index.
  - intros _ w. unfold on_mledger. rewrite zoom_snd. by apply same_index.
  - intros _ w. unfold on_mledger. rewrite zoom_snd. by apply same_index.
  - intros Hv w Hw. unfold on_index. rewrite zoom_snd. by apply index_item_inv.
  - intros w Hw. unfold on_index. rewrite zoom_snd. by apply index_purge_inv.
  - intros w Hw. unfold on_index. rewrite zoom_snd. by apply invalidate_inv.
  - intros Hq w Hw. unfold on_index. rewrite zoom_snd. by apply retrieve_run.
Qed.

Lemma index_rel_erase t m actor reason : mmoves index_rel (tombstone_and_erase clock erase_blob t m actor reason).
Proof.
  apply mmoves_erase_if.
  - apply _.
  - intros. by apply same_index.
  - intros * _ w. unfold on_mledger. rewrite zoom_snd. by apply same_index.
  - intros * w Hw. unfold on_index. rewrite zoom_snd. by apply index_purge_inv.
  - intros * w. rewrite call_external_snd. by apply same_index.
Qed.

Lemma later_index w w' :
  memory_steps clock embedder erase_blob chunking w w' → index_inv (mw_index w) → index_inv (mw_index w').
Proof. apply (memory_steps_moves clock embedder erase_blob chunking index_rel), index_rel_erase. Qed.

Lemma reached_index w : reached w → index_inv (mw_index w).
Proof. intros [e H]. eapply later_index; [exact H|]. apply empty_index_inv. Qed.

(** Both entry points return what the index returns. *)
Definition retrieves (q : RetrievalQuery) (w : mworld E) (r : RetrievalResult) : Prop :=
  (∃ v, (service_retrieve clock q v w).1 = Ok r) ∨ (∃ d, (control_retrieve d q w).1 = Ok r).

Lemma append_operation_index query id seq ft digest (w : mworld E) :
  mw_index (_append_operation clock query id seq ft digest w).2 = mw_index w.
Proof.
  unfold _append_operation, on_operations, lift, mbind, M_bind, m_now. cbn.
  destruct (new_MemoryOperationFact _); [|done]. by rewrite zoom_snd.
Qed.

Lemma retrieves_index q w r : retrieves q w r → ∃ v, (index_retrieve q v (mw_index w)).1 = Ok r.
Proof.
  intros [(v & H)|(d & H)].
  - exists v. unfold service_retrieve in H. pose proof (append_operation_index q (retrieval_operation_id q) 1
      MF_RETRIEVE_REQUESTED None w) as Hi. unfold mbind at 1, M_bind at 1 in H.
    destruct (_append_operation _ _ _ _ _ _ w) as [[[]|e] w1]; [|done]. cbn in Hi. rewrite <-Hi.
    unfold mbind at 1, M_bind at 1, on_index, zoom in H.
    destruct (index_retrieve q v (mw_index w1)) as [[r1|e] h1]; [|done].
    unfold mbind, M_bind, mret, M_ret in H. destruct (_append_operation _ _ _ _ _ _ _) as [[[]|e] w2]; by simplify_eq/=.
  - unfold control_retrieve, lift, mbind, M_bind, on_index, zoom in H.
    destruct (_deterministic_vector _ _) as [v|]; [|done]. exists v. cbn in H.
    by destruct (index_retrieve q v (mw_index w)).
Qed.

Lemma retrieves_ok q w r :
  reached w → query_ok q → retrieves q w r → result_ok q (items w) r ∨ ∃ q', keys_collide q' q.
Proof.
  intros Hw Hq (v & Hr)%retrieves_index.
  destruct (retrieve_run q v _ (reached_index w Hw) Hq) as (_ & H). by apply H.
Qed.


(** a retrieval stays within its policy: at most [top_k] hits from at most
    [maximum_candidates] candidates; the token and byte counts it reports are those of the
    texts it returns, and within the policy's bounds (or two cache keys collide). *)
Theorem retrieval_is_bounded q w r :
  reached w → query_ok q → retrieves q w r →
  result_bounded (rq_policy q) r ∨ ∃ q', keys_collide q' q.
Proof. intros Hw Hq Hr. destruct (retrieves_ok q w r Hw Hq Hr) as [[_ H]|H]; [by left|by right]. Qed.
End retrieval.

(** ** Witnesses *)

Section witnesses.
#[local] Existing Instance demo_digest.
#[local] Existing Instance demo_float.
#[local] Existing Instance demo_float_laws.

Definition demo_world : mworld nat := run_demo demo_embedder demo_erase [op_ingest AD_accept].

Lemma demo_world_reached : memory_reached memory_clock demo_embedder demo_erase demo_chunker demo_world.
Proof. apply run_demo_reached. vm_compute. reflexivity. Qed.

Lemma demo_query_ok : query_ok (demo_query "tenant-a" "responder").
Proof. split; vm_compute; reflexivity. Qed.

(** The query, and the same query again: the second answer comes from the cache. *)
Definition demo_queried : mworld nat :=
  run_demo demo_embedder demo_erase [op_ingest AD_accept; OpControlRetrieve 2 (demo_query "tenant-a" "responder")].

Lemma demo_queried_reached : memory_reached memory_clock demo_embedder demo_erase demo_chunker demo_queried.
Proof. apply run_demo_reached. vm_compute. reflexivity. Qed.

Definition demo_answer (w : mworld nat) : res RetrievalResult :=
  (control_retrieve 2 (demo_query "tenant-a" "responder") w).1.

Example demo_answers :
  (λ r, (hit_ids (Ok r), rr_cache_hit r)) <$> demo_answer demo_queried = Ok ([demo_memory_id], true).
Proof. vm_compute. reflexivity. Qed.

Definition demo_result : RetrievalResult :=
  ltac:(let r := eval vm_compute in (demo_answer demo_queried) in match r with Ok ?x => exact x end).

Lemma demo_answered : demo_answer demo_queried = Ok demo_result.
Proof. vm_compute. reflexivity. Qed.


Lemma retrieval_is_bounded_witness :
  result_bounded demo_retrieval_policy demo_result ∨ ∃ q', keys_collide q' (demo_query "tenant-a" "responder").
Proof.
  exact (retrieval_is_bounded memory_clock demo_embedder demo_erase demo_chunker
    (demo_query "tenant-a" "responder") demo_queried demo_result demo_queried_reached demo_query_ok
    (or_intror (ex_intro _ 2 demo_answered))).
Defined.
End witnesses.
