(* ===== verification/MemoryTextFacts.v ===== *)
(** * Chunks, contexts and summaries: what they guarantee

    Splitting loses no word; a context is within its budget, shows each hit at most once and
    keeps retrieved text inside its frame; a compacted summary is bound to its request and
    grounded in its sources. *)

From S2P Require Import Prelude PyJson PyFloat PyTime PyText PyModel Domain Evidence MemoryData MemoryLedger MemoryText Fixtures MemoryFixtures MemoryRetrieval.

(** ** Words *)

Definition is_word (w : string) : bool := negb (bool_decide (w = "")) && str_forallb (λ c, negb (is_space c)) w.

Lemma split_words_ok s :
  let '(w, ws) := split_words s in str_forallb (λ c, negb (is_space c)) w = true ∧ Forall (λ w, is_word w = true) ws.
Proof.
  induction s as [|c s IH]; [by repeat constructor|]. simpl. destruct (split_words s) as [w ws].
  destruct IH as [Hw Hws]. destruct (is_space c) eqn:Hc.
  - split; [done|]. destruct w; [done|]. by constructor.
  - split; [|done]. simpl. by rewrite Hc.
Qed.

Lemma str_split_words s : Forall (λ w, is_word w = true) (str_split s).
Proof.
  unfold str_split. pose proof (split_words_ok s) as H. destruct (split_words s) as [w ws]. destruct H as [Hw Hws].
  destruct w; [done|]. by constructor.
Qed.

Lemma str_app_nil_r (s : string) : s +:+ "" = s.
Proof. induction s as [|c s IH]; [done|]. change (String c (s +:+ "") = String c s). by rewrite IH. Qed.

Lemma split_words_app w s :
  str_forallb (λ c, negb (is_space c)) w = true →
  split_words (w +:+ s) = let '(v, vs) := split_words s in (w +:+ v, vs).
Proof.
  induction w as [|c w IH]; [intros _; change ("" +:+ s) with s; destruct (split_words s); reflexivity|]. simpl. rewrite andb_true_iff. intros [Hc Hw].
  change (String c w +:+ s) with (String c (w +:+ s)). cbn [split_words]. rewrite IH by done.
  apply negb_true_iff in Hc. rewrite Hc. by destruct (split_words s) as [v vs].
Qed.

(** Joining words with spaces and splitting gives them back. *)
Lemma split_join ws : Forall (λ w, is_word w = true) ws → str_split (str_join " " ws) = ws.
Proof.
  intros H. assert (split_words (str_join " " ws) = match ws with [] => ("", []) | w :: ws => (w, ws) end) as Hs.
  { induction H as [|w ws Hw Hws IH]; [done|]. unfold is_word in Hw. apply andb_true_iff in Hw as [Hne Hw]. py_bool.
    destruct ws as [|w' ws].
    - cbn [str_join]. rewrite <-(str_app_nil_r w) at 1. rewrite split_words_app by done. simpl. by rewrite str_app_nil_r.
    - change (str_join " " (w :: w' :: ws)) with (w +:+ String " " (str_join " " (w' :: ws))).
      rewrite split_words_app by done. cbn [split_words]. rewrite IH. simpl. rewrite str_app_nil_r.
      inversion Hws as [|? ? Hw' _]; subst. unfold is_word in Hw'. destruct w'; [done|reflexivity]. }
  unfold str_split. rewrite Hs. destruct H as [|w ws Hw _]; [done|]. unfold is_word in Hw. by destruct w.
Qed.

Section text.
Context {HDigest : Digest} {HFloat : FloatJson}.

(** ** The chunker *)

(** The words of a sequence of chunks: all of the first, then what each adds *)
Definition chunk_words (overlap : Z) (chunks : list MemoryChunk) : list string :=
  match chunks with
  | [] => []
  | c :: cs => str_split (ch_text c) ++ mjoin ((λ c, drop (Z.to_nat overlap) (str_split (ch_text c))) <$> cs)
  end.

(** Chunks are numbered from [n], belong to the memory, and hold at most the maximum of words. *)
Fixpoint numbered (c : chunker) (t m : string) (citation : MemoryCitation) (n : Z) (chunks : list MemoryChunk) : Prop :=
  match chunks with
  | [] => True
  | ch :: chunks =>
      (ch_ordinal ch = n ∧ ch_tenant_id ch = t ∧ ch_memory_id ch = m ∧ ch_citation ch = citation ∧
       MemoryChunk_ok ch = true ∧ (List.length (str_split (ch_text ch)) ≤ Z.to_nat (_maximum_tokens c))%nat) ∧
      numbered c t m citation (n + 1) chunks
  end.

Lemma window_words start size words :
  Forall (λ w, is_word w = true) words → Forall (λ w, is_word w = true) (window start size words).
Proof. intros H. by apply Forall_take, Forall_drop. Qed.

Lemma make_chunk_ok t m citation i part ch :
  make_chunk t m citation i part = Ok ch →
  ch_text ch = part ∧ ch_ordinal ch = i ∧ ch_tenant_id ch = t ∧ ch_memory_id ch = m ∧ ch_citation ch = citation ∧
  MemoryChunk_ok ch = true.
Proof. unfold make_chunk. intros H. by apply validated_ok in H as [-> H]. Qed.

Lemma join_words_empty ws : Forall (λ w, is_word w = true) ws → str_join " " ws = "" → ws = [].
Proof. intros H E. by rewrite <-(split_join ws H), E. Qed.

(** The loop from position [k]: the chunks it makes hold the words from there on. *)
Lemma split_loop_words c t m citation words n : ∀ k ordinal chunks,
  chunker_ok c = true → Forall (λ w, is_word w = true) words →
  let size := Z.to_nat (_maximum_tokens c) in let overlap := Z.to_nat (_overlap_tokens c) in
  let step := (size - overlap)%nat in
  (k * step < List.length words)%nat → (List.length words ≤ (k + n) * step)%nat →
  split_loop c (make_chunk t m citation) words ordinal ((λ i, i * step)%nat <$> seq k n) = Ok chunks →
  numbered c t m citation ordinal chunks ∧ ordinal + zlen chunks <= Z.max ordinal (_maximum_chunks c) ∧
  (∃ ch rest, chunks = ch :: rest ∧ str_split (ch_text ch) = window (k * step) size words) ∧
  chunk_words (_overlap_tokens c) chunks = drop (k * step) words.
Proof.
  intros k ordinal chunks Hc Hw size overlap step Hk Hn H. revert k ordinal chunks Hk Hn H.
  assert (overlap < size ∧ size = overlap + step)%nat as [Hlt Hsize].
  { unfold chunker_ok, in_range in Hc. py_bool. subst size overlap step. lia. }
  induction n as [|n IH]; intros k ordinal chunks Hk Hn H; [lia|]. cbn [seq fmap list_fmap split_loop] in H.
  fold size in H. pose proof (window_words (k * step) size words Hw) as Hwin.
  assert (List.length (window (k * step) size words) = Nat.min size (List.length words - k * step)) as Hlen
    by (unfold window; rewrite length_take, length_drop; lia).
  case_bool_decide as Hempty.
  { apply join_words_empty in Hempty; [|done]. rewrite Hempty in Hlen. simpl in Hlen. lia. }
  apply res_bind_ok in H as (? & Hmax%raise_if_ok & H). apply res_bind_ok in H as (ch & Hch & H). py_bool.
  apply make_chunk_ok in Hch as (Htext & Hord & Ht & Hm & Hcit & Hok).
  assert (str_split (ch_text ch) = window (k * step) size words) as Hsplit by (by rewrite Htext, split_join).
  case_match eqn:Hlast.
  - injection H as <-. apply Nat.leb_le in Hlast. split_and!.
    + cbn [numbered]. rewrite Hsplit, Hlen. split; [split_and!; done || (fold size; lia)|done].
    + unfold zlen. simpl. lia.
    + by exists ch, [].
    + simpl. rewrite Hsplit, app_nil_r. unfold window. rewrite take_ge; [done|]. rewrite length_drop. lia.
  - apply Nat.leb_gt in Hlast. apply res_bind_ok in H as (more & Hmore & H). injection H as <-.
    destruct (IH (S k) (ordinal + 1) more) as (Hnum & Hcount & (m1 & rest & -> & Hm1) & Hwords); [lia|lia|done|].
    split_and!.
    + cbn [numbered]. rewrite Hsplit, Hlen. split; [split_and!; done || (fold size; lia)|done].
    + unfold zlen in *. simpl in *. lia.
    + by eexists ch, _.
    + cbn [chunk_words] in Hwords |- *. rewrite fmap_cons, Hsplit.
      set (tail := _ <$> rest) in *. change (mjoin (?x :: tail)) with (x ++ mjoin tail). fold overlap.
      assert (overlap ≤ List.length (str_split (ch_text m1)))%nat as Hov.
      { rewrite Hm1. unfold window. rewrite length_take, length_drop. lia. }
      rewrite <-(drop_app_le _ (mjoin tail)) by done. rewrite Hwords, drop_drop. unfold window.
      replace (S k * step + overlap)%nat with (k * step + size)%nat by lia.
      rewrite <-(drop_drop words). by rewrite take_drop.
Qed.

(** C39: splitting a text into chunks loses no word and adds none: the words of the first chunk
    followed by those each later chunk adds after its overlap are the words of the canonical
    text.  The chunks are valid, numbered from 0, carry the citation, hold at most
    [maximum_tokens] words and are at most [maximum_chunks]. *)
Theorem chunking_round_trip c t m text citation chunks :
  chunker_ok c = true → chunk_split c t m text citation = Ok chunks →
  ∃ s, canonical_text text = Ok s ∧ chunk_words (_overlap_tokens c) chunks = str_split s ∧
    numbered c t m citation 0 chunks ∧ 1 <= zlen chunks <= _maximum_chunks c.
Proof.
  intros Hc H. unfold chunk_split in H. apply res_bind_ok in H as (s & Hs & H).
  apply res_bind_ok in H as (? & Hne%raise_if_ok & H). py_bool. exists s. split; [done|].
  set (words := str_split s) in *. unfold py_range in H.
  assert (0 < Z.to_nat (_maximum_tokens c - _overlap_tokens c) ∧
    Z.to_nat (_maximum_tokens c - _overlap_tokens c) = Z.to_nat (_maximum_tokens c) - Z.to_nat (_overlap_tokens c))%nat
    as [Hstep Heq].
  { unfold chunker_ok, in_range in Hc. py_bool. lia. }
  rewrite Heq in *. set (step := (_ - _)%nat) in *.
  assert (0 < List.length words)%nat by (destruct words; [done|simpl; lia]).
  assert (List.length words ≤ (0 + (List.length words + step - 1) / step) * step)%nat as Hcover.
  { pose proof (Nat.div_mod_eq (List.length words + step - 1) step).
    pose proof (Nat.mod_upper_bound (List.length words + step - 1) step ltac:(lia)). nia. }
  destruct (split_loop_words c t m citation words ((List.length words + step - 1) / step)%nat 0%nat 0 chunks Hc (str_split_words s)) as (H1 & H2 & (ch & rest & -> & _) & H3);
    [fold step; lia|exact Hcover|exact H|].
  split_and!; [done|done|unfold zlen; simpl; lia|].
  unfold chunker_ok, in_range in Hc. py_bool. lia.
Qed.

(** ** The order of consideration *)

Lemma lost_middle_loop_perm n : ∀ l r,
  r - l + 1 <= 2 * Z.of_nat n → lost_middle_loop n l r ≡ₚ seqZ l (r - l + 1).
Proof.
  induction n as [|n IH]; intros l r Hn; cbn [lost_middle_loop].
  { by rewrite seqZ_nil by lia. }
  destruct (Z.leb_spec l r); [|by rewrite seqZ_nil by lia].
  rewrite (seqZ_cons l) by lia. rewrite IH by lia. constructor. destruct (Z.eqb_spec r l) as [->|Hne].
  - simpl. by rewrite !seqZ_nil by lia.
  - replace (Z.pred (r - l + 1)) with ((r - 1 - (l + 1) + 1) + 1) by lia.
    rewrite (seqZ_app (Z.succ l) (r - 1 - (l + 1) + 1) 1) by lia. simpl.
    replace (Z.succ l + (r - 1 - (l + 1) + 1)) with r by lia. replace (l + 1) with (Z.succ l) by lia.
    by rewrite Permutation_app_comm.
Qed.

(** Looking up every position gives the list. *)
Lemma omap_positions {A} (l : list A) : omap (λ i, l !! Z.to_nat i) (seqZ 0 (zlen l)) = l.
Proof.
  assert (∀ pre, omap (λ i, (pre ++ l) !! Z.to_nat i)
            ((λ i, Z.of_nat i + 0) <$> seq (List.length pre) (List.length l)) = l) as H.
  { induction l as [|x l IH]; intros pre; [done|]. cbn [seq List.length fmap list_fmap omap list_omap].
    rewrite Z.add_0_r, Nat2Z.id, list_lookup_middle by done. f_equal. specialize (IH (pre ++ [x])).
    rewrite <-app_assoc, length_app, Nat.add_comm in IH. exact IH. }
  unfold zlen, seqZ. rewrite Nat2Z.id. exact (H []).
Qed.

Lemma every_hit_is_considered_perm result : ordered_hits result ≡ₚ rr_hits result.
Proof.
  unfold ordered_hits, _lost_middle_order. set (hits := rr_hits result).
  rewrite (lost_middle_loop_perm (Z.to_nat (zlen hits)) 0 (zlen hits - 1)) by (unfold zlen; lia).
  replace (zlen hits - 1 - 0 + 1) with (zlen hits) by lia. apply reflexive_eq.
  by apply omap_positions.
Qed.

Lemma lost_middle_loop_lookup n : ∀ l r i,
  r - l + 1 <= 2 * Z.of_nat n → 0 <= i < r - l + 1 →
  lost_middle_loop n l r !! Z.to_nat i = Some (if Z.even i then l + i / 2 else r - i / 2).
Proof.
  induction n as [|n IH]; intros l r i Hn Hi; [lia|]. cbn [lost_middle_loop].
  rewrite (proj2 (Z.leb_le l r)) by lia.
  destruct (decide (i = 0)) as [->|H0]; [change (Some l = Some (l + 0)); f_equal; lia|].
  replace (Z.to_nat i) with (S (Z.to_nat (i - 1))) by lia. cbn [lookup list_lookup].
  destruct (Z.eqb_spec r l) as [->|Hne]; [lia|].
  destruct (decide (i = 1)) as [->|H1]; [change (Some r = Some (r - 0)); f_equal; lia|].
  replace (Z.to_nat (i - 1)) with (S (Z.to_nat (i - 2))) by lia. simpl.
  rewrite IH by lia. replace (Z.even (i - 2)) with (Z.even i) by (rewrite Z.even_sub; by destruct (Z.even i)).
  replace ((i - 2) / 2) with (i / 2 - 1) by (replace (i - 2) with (i + -1 * 2) by lia; rewrite Z.div_add by lia; lia).
  f_equal. destruct (Z.even i); lia.
Qed.

(** The context builder considers every hit exactly once: [_lost_middle_order] ends with
    the positions of the result from both ends in turn (0, n-1, 1, n-2, ...), a permutation. *)
Theorem every_hit_is_considered n result :
  (∀ i, 0 <= i < n → _lost_middle_order n !! Z.to_nat i = Some (if Z.even i then i / 2 else n - 1 - i / 2)) ∧
  _lost_middle_order n ≡ₚ seqZ 0 n ∧ ordered_hits result ≡ₚ rr_hits result.
Proof.
  unfold _lost_middle_order. split_and!.
  - intros i Hi. rewrite lost_middle_loop_lookup by lia. by destruct (Z.even i).
  - rewrite lost_middle_loop_perm by lia. by replace (n - 1 - 0 + 1) with n by lia.
  - apply every_hit_is_considered_perm.
Qed.

(** ** The context builder *)

Definition hit_token_count (h : RetrievalHit) : Z := token_estimate (rh_text h).
(** The tokens of the hits of one tier *)
Definition tier_tokens (t : MemoryTier) (hits : list RetrievalHit) : Z :=
  sum_of (λ h, if decide (rh_tier h = t) then hit_token_count h else 0) hits.

(** The digest a hit is deduplicated by *)
Definition text_digest (h : RetrievalHit) : option string :=
  match canonical_text (rh_text h) with Ok s => Some (hexdigest (utf8 s)) | Raise _ => None end.

Record build_ok (b : ContextBudget) (s : build_state) : Prop := {
  bo_used t : bs_used s t = tier_tokens t (bs_chosen s);
  bo_tier t : bs_used s t <= per_tier b t;
  bo_bytes : framed_bytes (bs_chosen s) <= cb_maximum_bytes b;
  bo_seen : NoDup (text_digest <$> bs_chosen s);
  bo_digests h d : h ∈ bs_chosen s → text_digest h = Some d → d ∈ bs_seen s
}.

Lemma framed_bytes_sum hits : framed_bytes hits = sum_of (byte_len ∘ _frame_untrusted) hits.
Proof. reflexivity. Qed.

Lemma framed_bytes_snoc hits h : framed_bytes (hits ++ [h]) = framed_bytes hits + byte_len (_frame_untrusted h).
Proof. rewrite !framed_bytes_sum, sum_of_snoc. reflexivity. Qed.

Lemma consider_ok b s h s' :
  build_ok b s → consider b s h = Ok s' →
  build_ok b s' ∧ (bs_chosen s' = bs_chosen s ∨ bs_chosen s' = bs_chosen s ++ [h]).
Proof.
  intros Hs H. unfold consider in H. apply res_bind_ok in H as (n & Hn & H).
  destruct (_ || _) eqn:Hskip in H; [injection H as <-; auto|].
  destruct (_ <? _) eqn:Hbytes in H; [injection H as <-; auto|]. injection H as <-. py_bool.
  assert (text_digest h = Some (hexdigest (utf8 n))) as Hd by (unfold text_digest; by rewrite Hn).
  destruct Hs as [U T B N D]. split; [|by right]. split; simpl.
  - intros t. unfold tier_tokens. rewrite sum_of_snoc. fold (tier_tokens t (bs_chosen s)). rewrite U.
    unfold hit_token_count. destruct (decide (t = rh_tier h)) as [->|Hne].
    + by rewrite decide_True.
    + rewrite decide_False by done. lia.
  - intros t. destruct (decide (t = rh_tier h)) as [->|Hne]; [lia|apply T].
  - rewrite framed_bytes_snoc. lia.
  - rewrite fmap_app. apply NoDup_app. split_and!; [done| |apply NoDup_singleton].
    intros d Hin Hsing. apply list_elem_of_singleton in Hsing as ->. apply list_elem_of_fmap in Hin as (h' & Hh' & Hin).
    rewrite Hd in Hh'. symmetry in Hh'. by apply (D h' _ Hin) in Hh'.
  - intros h' d [Hin|Hin%list_elem_of_singleton]%elem_of_app Hh'; [right; by eapply D|].
    subst h'. rewrite Hd in Hh'. injection Hh' as <-. by left.
Qed.

Lemma consider_all_ok b hits : ∀ s s',
  build_ok b s → foldM (consider b) s hits = Ok s' →
  build_ok b s' ∧ ∃ more, bs_chosen s' = bs_chosen s ++ more ∧ sublist more hits.
Proof.
  induction hits as [|h hits IH]; intros s s' Hs H; cbn [foldM] in H.
  { injection H as <-. split; [done|]. exists []. by rewrite app_nil_r. }
  apply res_bind_ok in H as (s1 & H1 & H). destruct (consider_ok _ _ _ _ Hs H1) as [Hs1 Hc].
  destruct (IH _ _ Hs1 H) as (Hs' & more & Hmore & Hsub). split; [done|].
  destruct Hc as [Hc|Hc]; rewrite Hc in Hmore.
  - exists more. split; [done|by constructor].
  - exists (h :: more). split; [by rewrite Hmore, <-app_assoc|by constructor].
Qed.

Lemma mapM_res_ok {A B} (f : A → res B) l : ∀ l', mapM_res f l = Ok l' → Forall2 (λ x y, f x = Ok y) l l'.
Proof.
  induction l as [|x l IH]; intros l' H; cbn [mapM_res] in H; [injection H as <-; constructor|].
  apply res_bind_ok in H as (y & Hy & H). apply res_bind_ok in H as (ys & Hys & H). injection H as <-.
  constructor; [done|by apply IH].
Qed.

Lemma snippets_ok hits snippets :
  mapM_res (new_ContextSnippet ∘ snippet_of) hits = Ok snippets →
  snippets = snippet_of <$> hits ∧ Forall (λ s, ContextSnippet_ok s = true) snippets.
Proof.
  intros H. apply mapM_res_ok in H. induction H as [|h s hits snippets Hs _ [IH1 IH2]]; [done|].
  apply validated_ok in Hs as [-> Hok]. rewrite IH1 at 1. split; [done|by constructor].
Qed.

(** What a built context was built from *)
Lemma context_build_ok result b c :
  ContextBudget_ok b = true → context_build result b = Ok c →
  ∃ hits, sublist hits (ordered_hits result) ∧ mcx_snippets c = snippet_of <$> hits ∧
    Forall (λ s, ContextSnippet_ok s = true) (mcx_snippets c) ∧ NoDup (text_digest <$> hits) ∧
    (∀ t, tier_tokens t hits <= per_tier b t) ∧ framed_bytes hits <= cb_maximum_bytes b ∧
    mcx_token_count c = sum_of cs_token_count (mcx_snippets c) ∧
    mcx_byte_count c = sum_of (byte_len ∘ cs_framed_text) (mcx_snippets c).
Proof.
  intros Hb H. unfold context_build in H. apply res_bind_ok in H as (s & Hs & H).
  apply res_bind_ok in H as (snippets & Hsn & H). apply validated_ok in H as [-> _].
  apply snippets_ok in Hsn as [-> Hok]. apply consider_all_ok in Hs as ([U T B N _] & more & Hmore & Hsub).
  - simpl in Hmore. exists (bs_chosen s). rewrite Hmore in *. split_and!; try done.
    intros t. by rewrite <-U.
  - unfold ContextBudget_ok, in_range in Hb. py_bool. split; simpl; try done.
    + intros []; simpl; lia.
    + unfold framed_bytes. simpl. lia.
    + apply NoDup_nil_2.
    + intros h d Hh. by apply not_elem_of_nil in Hh.
Qed.

Lemma snippet_bytes hits :
  sum_of (byte_len ∘ cs_framed_text) (snippet_of <$> hits) = sum_of (byte_len ∘ _frame_untrusted) hits.
Proof.
  unfold sum_of. f_equal. rewrite <-list_fmap_compose. apply list_fmap_ext. intros i h _.
  unfold compose, snippet_of. cbn [cs_framed_text]. reflexivity.
Qed.

Lemma tokens_by_tier hits :
  sum_of cs_token_count (snippet_of <$> hits) =
  tier_tokens MT_WORKING hits + tier_tokens MT_EPISODIC hits + tier_tokens MT_SEMANTIC hits.
Proof.
  unfold tier_tokens, sum_of, hit_token_count. induction hits as [|h hits IH]; [done|].
  rewrite !fmap_cons. cbn [foldr]. rewrite IH. destruct h as [? ? t ? ? ? ? ? ? ? ? ?]. destruct t; simpl; lia.
Qed.

(** A built context is within its budget: the tokens of each tier within the tier's share,
    all of them within the total less the two reserves, the framed bytes within the byte
    bound; the counts are those of its snippets, and no two snippets show the same text. *)
Theorem context_is_bounded result b c :
  ContextBudget_ok b = true → context_build result b = Ok c →
  ∃ hits, hits ⊆+ rr_hits result ∧ mcx_snippets c = snippet_of <$> hits ∧ NoDup (text_digest <$> hits) ∧
    (∀ t, tier_tokens t hits <= per_tier b t) ∧
    mcx_token_count c = sum_of cs_token_count (mcx_snippets c) ∧
    mcx_token_count c + cb_reserved_system_tokens b + cb_reserved_safety_tokens b <= cb_total_tokens b ∧
    mcx_byte_count c = sum_of (byte_len ∘ cs_framed_text) (mcx_snippets c) ∧ mcx_byte_count c <= cb_maximum_bytes b.
Proof.
  intros Hb H. destruct (context_build_ok _ _ _ Hb H) as (hits & Hsub & Hsn & _ & Hnd & Htier & Hbytes & Ht & Hby).
  exists hits. split_and!; try done.
  - rewrite <-(every_hit_is_considered_perm result). by apply sublist_submseteq.
  - rewrite Ht, Hsn, tokens_by_tier. pose proof (Htier MT_WORKING). pose proof (Htier MT_EPISODIC).
    pose proof (Htier MT_SEMANTIC). unfold ContextBudget_ok in Hb. py_bool. simpl in *. lia.
  - rewrite Hby, Hsn, snippet_bytes, <-framed_bytes_sum. exact Hbytes.
Qed.

(** ** The frame *)

Fixpoint count_char (c : ascii) (s : string) : nat :=
  match s with "" => 0 | String x s => (if bool_decide (x = c) then 1 else 0) + count_char c s end.

Lemma count_char_app c s1 s2 : count_char c (s1 +:+ s2) = (count_char c s1 + count_char c s2)%nat.
Proof.
  induction s1 as [|x s1 IH]; [done|]. change (String x s1 +:+ s2) with (String x (s1 +:+ s2)).
  cbn [count_char]. rewrite IH. lia.
Qed.

Lemma count_char_none (f : ascii → bool) c s : str_forallb f s = true → f c = false → count_char c s = 0%nat.
Proof.
  intros H Hc. induction s as [|x s IH]; [done|]. simpl in H. apply andb_true_iff in H as [Hx Hs]. simpl.
  rewrite IH by done. case_bool_decide; [congruence|done].
Qed.

Definition markup (c : ascii) : Prop := c = "<"%char ∨ c = ">"%char.

Lemma escape_text_clean text c : markup c → count_char c (escape_text text) = 0%nat.
Proof.
  intros Hc. apply (count_char_none (λ x, negb (bool_decide (x = c)))); [|by rewrite bool_decide_eq_true_2].
  unfold escape_text. destruct Hc as [-> | ->].
  - apply replace_char_keeps; [done|]. by apply replace_char_absent.
  - by apply replace_char_absent.
Qed.

Lemma identifier_clean s c : Identifier s = true → markup c ∨ c = quote → count_char c s = 0%nat.
Proof.
  unfold Identifier. intros H Hc. py_bool. eapply count_char_none; [done|]. by destruct Hc as [[->| ->]| ->].
Qed.

Lemma hit_snippet_ids h : ContextSnippet_ok (snippet_of h) = true →
  Identifier (rh_chunk_id h) = true ∧ Identifier (mc_evidence_id (rh_citation h)) = true.
Proof.
  unfold ContextSnippet_ok, snippet_of, MemoryCitation_fields.
  cbn [cs_memory_id cs_chunk_id cs_framed_text cs_citation cs_token_count].
  rewrite !andb_true_iff. tauto.
Qed.

Lemma frame_count c h :
  count_char c (cs_framed_text (snippet_of h)) =
  (count_char c (rh_chunk_id h) + count_char c (mc_evidence_id (rh_citation h)) + count_char c (escape_text (rh_text h))
   + (count_char c "<untrusted-memory chunk= evidence=></untrusted-memory>" + 4 * count_char c (String quote "")
      + 2 * count_char c (String newline "")))%nat.
Proof.
  unfold snippet_of. cbn [cs_framed_text]. unfold _frame_untrusted. rewrite !count_char_app.
  change "<untrusted-memory chunk= evidence=></untrusted-memory>"
    with ("<untrusted-memory chunk=" +:+ (" evidence=" +:+ (">" +:+ "</untrusted-memory>"))).
  rewrite !count_char_app. lia.
Qed.

(** Retrieved text cannot leave its frame: each snippet of a built context is the opening tag
    with the chunk and the evidence it cites, the escaped text, and the closing tag; of the
    markup characters it has the two of each tag only, and of quotes only the four of the
    attributes, besides those of the text. *)
Theorem retrieved_text_stays_framed result b c s :
  ContextBudget_ok b = true → context_build result b = Ok c → s ∈ mcx_snippets c →
  ∃ h, h ∈ rr_hits result ∧ s = snippet_of h ∧
    cs_framed_text s =
      ("<untrusted-memory chunk=" +:+ String quote (rh_chunk_id h +:+ String quote (" evidence=" +:+
       String quote (mc_evidence_id (rh_citation h) +:+ String quote (">" +:+ String newline
       (escape_text (rh_text h) +:+ String newline "</untrusted-memory>"))))))%string ∧
    count_char "<" (cs_framed_text s) = 2%nat ∧ count_char ">" (cs_framed_text s) = 2%nat ∧
    count_char quote (cs_framed_text s) = (4 + count_char quote (escape_text (rh_text h)))%nat.
Proof.
  intros Hb H Hs. destruct (context_build_ok _ _ _ Hb H) as (hits & Hsub & Hsn & Hok & _).
  rewrite Forall_forall in Hok. pose proof (Hok s Hs) as Hsok. rewrite Hsn in Hs.
  apply list_elem_of_fmap in Hs as (h & -> & Hh). apply hit_snippet_ids in Hsok as [Hid Hev].
  assert (∀ c, markup c → (count_char c (rh_chunk_id h) + count_char c (mc_evidence_id (rh_citation h))
    + count_char c (escape_text (rh_text h)) = 0)%nat) as Hmarkup.
  { intros x Hx. rewrite escape_text_clean, !identifier_clean by auto. done. }
  exists h. split_and!.
  - rewrite <-(every_hit_is_considered_perm result). eapply elem_of_sublist; [exact Hh|exact Hsub].
  - reflexivity.
  - reflexivity.
  - rewrite frame_count, Hmarkup by (by left). reflexivity.
  - rewrite frame_count, Hmarkup by (by right). reflexivity.
  - rewrite frame_count, (identifier_clean _ quote Hid), (identifier_clean _ quote Hev) by (by right). simpl. lia.
Qed.

(** ** Compaction *)

(** The lower-cased canonical texts of the cited chunks, joined *)
Definition cited_text (chunks : list MemoryChunk) (ids : list string) (text : string) : Prop :=
  ∃ sources, Forall2 (λ c s, ∃ t, canonical_text (ch_text c) = Ok t ∧ s = (ch_chunk_id c, str_lower t)) chunks sources ∧
    text = str_join " " ((λ i, default "" (dict_get i (dict_update [] sources))) <$> ids).

(** Every term of a claim occurs in the text it cites. *)
Definition supported (chunks : list MemoryChunk) (claim : SummaryClaim) : Prop :=
  ∃ text words available, cited_text chunks (scl_citations claim) text ∧
    _terms (scl_text claim) = Ok words ∧ words ≠ [] ∧ _terms text = Ok available ∧ words ⊆ available.

(** A claim is the first sentence of the chunk it cites. *)
Definition extracted (chunks : list MemoryChunk) (claim : SummaryClaim) : Prop :=
  ∃ chunk, chunk ∈ chunks ∧ scl_citations claim = [ch_chunk_id chunk] ∧
    scl_text claim = str_strip (str_before "." (ch_text chunk)).

Lemma claim_supported_ok claim chunks : _claim_supported claim chunks = Ok true → supported chunks claim.
Proof.
  unfold _claim_supported. intros H. apply res_bind_ok in H as (sources & Hs & H).
  apply res_bind_ok in H as (words & Hw & H). case_bool_decide as Hne; [done|].
  apply res_bind_ok in H as (available & Ha & H). injection H as H.
  eexists _, words, available. split; [|split_and!; [done|done|exact Ha|]].
  - exists sources. split; [|reflexivity]. eapply Forall2_impl; [by apply mapM_res_ok|].
    intros c s0 H0. simpl in H0. apply res_bind_ok in H0 as (t & Ht & H0). injection H0 as <-. eauto.
  - intros w Hin. rewrite forallb_forall in H. apply list_elem_of_In, H in Hin. by py_bool.
Qed.

Lemma all_supported chunks claims : any_unsupported chunks claims = Ok false → ∀ claim, claim ∈ claims → supported chunks claim.
Proof.
  induction claims as [|x claims IH]; intros H claim Hc; [by apply not_elem_of_nil in Hc|].
  cbn [any_unsupported] in H. apply res_bind_ok in H as ([] & Hx & H); [|done].
  apply elem_of_cons in Hc as [->|Hc]; [by apply claim_supported_ok|by apply IH].
Qed.

Definition claim_tokens (claims : list SummaryClaim) : Z := sum_of (token_estimate ∘ scl_text) claims.

Lemma summarize_chunk_ok sources maximum acc chunk acc' :
  chunk ∈ sources → (∀ claim, claim ∈ acc.1 → extracted sources claim) → claim_tokens acc.1 + acc.2 = maximum → 0 <= acc.2 →
  summarize_chunk acc chunk = Ok acc' →
  (∀ claim, claim ∈ acc'.1 → extracted sources claim) ∧ claim_tokens acc'.1 + acc'.2 = maximum ∧ 0 <= acc'.2.
Proof.
  destruct acc as [claims remaining]. intros Hin He Ht Hr H. unfold summarize_chunk in H. simpl in He, Ht, Hr.
  case_bool_decide; [by injection H as <-|]. destruct (_ <? _) eqn:Hlt in H; [by injection H as <-|].
  apply res_bind_ok in H as (claim & Hc & H). apply validated_ok in Hc as [-> _]. injection H as <-. py_bool.
  cbn [fst snd]. split.
  2: { unfold claim_tokens in *. rewrite sum_of_snoc.
       change ((token_estimate ∘ scl_text) {| scl_text := ?x; scl_citations := _ |}) with (token_estimate x). lia. }
  intros claim [Hcl|Hcl%list_elem_of_singleton]%elem_of_app; [by apply He|]. subst. exists chunk. by split_and!.
Qed.

Lemma summarize_all_ok sources maximum chunks : ∀ acc acc',
  chunks ⊆ sources → (∀ claim, claim ∈ acc.1 → extracted sources claim) → claim_tokens acc.1 + acc.2 = maximum → 0 <= acc.2 →
  foldM summarize_chunk acc chunks = Ok acc' →
  (∀ claim, claim ∈ acc'.1 → extracted sources claim) ∧ claim_tokens acc'.1 <= maximum.
Proof.
  induction chunks as [|chunk chunks IH]; intros acc acc' Hsub He Ht Hr H; cbn [foldM] in H.
  { injection H as <-. split; [done|lia]. }
  apply res_bind_ok in H as (acc1 & H1 & H).
  destruct (summarize_chunk_ok sources maximum acc chunk acc1) as (He1 & Ht1 & Hr1); [set_solver|done..|].
  eapply (IH acc1 acc'); try done. set_solver.
Qed.

Lemma summarize_ok request r :
  0 <= srq_maximum_tokens request → summarize request = Ok r →
  srs_request_digest r = srq_request_digest request ∧ srs_fence_token r = srq_fence_token request ∧
  (∀ claim, claim ∈ srs_claims r → extracted (srq_source_chunks request) claim) ∧
  claim_tokens (srs_claims r) <= srq_maximum_tokens request.
Proof.
  intros Hm H. unfold summarize in H. apply res_bind_ok in H as (acc & Hacc & H).
  apply res_bind_ok in H as (? & _ & H). apply validated_ok in H as [-> _].
  destruct (summarize_all_ok (srq_source_chunks request) (srq_maximum_tokens request) _ ([], _) _ ltac:(done)
    (λ claim Hc, False_ind _ (not_elem_of_nil claim Hc)) eq_refl Hm Hacc) as [He Ht].
  by split_and!.
Qed.

Lemma cited_spec claims i : i ∈ cited claims ↔ ∃ claim, claim ∈ claims ∧ i ∈ scl_citations claim.
Proof. unfold cited. rewrite elem_of_remove_dups, list_elem_of_bind. naive_solver. Qed.

(** A compacted summary is grounded: it is bound to the request by digest and fence, covers
    at least the minimum of the sources and cites nothing else; each of its claims either has
    all its terms in the text it cites, or, in the fallback, is the first sentence of the chunk
    it cites, and the fallback's claims fit the token budget. *)
Theorem compaction_is_grounded {E} c (summarizer : SummaryRequest → M E SummaryResult) request e r e' :
  SummaryRequest_ok request = true → compact c summarizer request e = (Ok r, e') →
  srq_depth request <= _maximum_depth c ∧
  srs_request_digest r = srq_request_digest request ∧ srs_fence_token r = srq_fence_token request ∧
  fltb (srs_source_coverage r) (_minimum_coverage c) = false ∧
  (∀ claim i, claim ∈ srs_claims r → i ∈ scl_citations claim → i ∈ (ch_chunk_id <$> srq_source_chunks request)) ∧
  ((∀ claim, claim ∈ srs_claims r → supported (srq_source_chunks request) claim) ∨
   (∀ claim, claim ∈ srs_claims r → extracted (srq_source_chunks request) claim) ∧
   claim_tokens (srs_claims r) <= srq_maximum_tokens request).
Proof.
  intros Hok H. unfold compact in H. inv_lift H u Hd. apply raise_if_ok in Hd. inv_bind H answer w1 Hr.
  inv_lift H rejected Hrej. py_bool. split; [lia|]. destruct rejected.
  - inv_lift H fallback Hf. inv_lift H u2 Hcov. apply raise_if_ok in Hcov. injection H as <- _.
    assert (0 <= srq_maximum_tokens request) as Hm.
    { unfold SummaryRequest_ok, SummaryRequest_fields, in_range in Hok. py_bool. lia. }
    destruct (summarize_ok _ _ Hm Hf) as (H1 & H2 & H3 & H4). split_and!; try done; [|by right].
    intros claim i Hc Hi. destruct (H3 claim Hc) as (chunk & Hin & Hcit & _). rewrite Hcit in Hi.
    apply list_elem_of_singleton in Hi as ->. by apply list_elem_of_fmap_2.
  - injection H as <- _. unfold summary_rejected in Hrej. destruct (_ || _) eqn:Hbad in Hrej; [done|].
    py_bool. split_and!; try done; [|left; by apply all_supported].
    intros claim i Hc Hi. rewrite forallb_forall in *. 
    match goal with H : ∀ x, In x (cited _) → _ |- _ => specialize (H i); rename H into Hall end.
    assert (bool_decide (i ∈ (ch_chunk_id <$> srq_source_chunks request)) = true) as Hb; [|by py_bool].
    apply Hall, list_elem_of_In, cited_spec. eauto.
Qed.
End text.

(** ** Witnesses *)

Section witnesses.
#[local] Existing Instance demo_digest.
#[local] Existing Instance demo_float.

(** Thirty words: three chunks of at most sixteen, four of them shared with the chunk before *)
Definition demo_text : string :=
  str_join " " ((λ i, "word-" +:+ str_of_int (Z.of_nat i)) <$> seq 0 30).
Definition demo_citation : MemoryCitation :=
  match mr_citations demo_record with c :: _ => c | [] => Build_MemoryCitation "" "" "" "" "" end.
Definition demo_chunks : list MemoryChunk :=
  ltac:(let r := eval vm_compute in (chunk_split demo_chunker "tenant-a" demo_memory_id demo_text demo_citation) in
        match r with Ok ?x => exact x end).

Example demo_chunk_sizes : (List.length ∘ str_split ∘ ch_text) <$> demo_chunks = [16; 16; 6]%nat.
Proof. vm_compute. reflexivity. Qed.

Lemma demo_chunks_split : chunk_split demo_chunker "tenant-a" demo_memory_id demo_text demo_citation = Ok demo_chunks.
Proof. vm_compute. reflexivity. Qed.

Lemma chunking_round_trip_witness :
  chunker_ok demo_chunker = true ∧ ∃ s, canonical_text demo_text = Ok s ∧ chunk_words 4 demo_chunks = str_split s.
Proof.
  split; [reflexivity|].
  destruct (chunking_round_trip demo_chunker "tenant-a" demo_memory_id demo_text demo_citation demo_chunks eq_refl
    demo_chunks_split) as (s & H1 & H2 & _).
  exists s. split; [exact H1|exact H2].
Defined.

Definition demo_budget : ContextBudget :=
  {| cb_total_tokens := 512; cb_reserved_system_tokens := 64; cb_reserved_safety_tokens := 64; cb_working_tokens := 100;
     cb_episodic_tokens := 100; cb_semantic_tokens := 100; cb_maximum_bytes := 4096; cb_minimum_citations := 1 |}.
Definition demo_context : MemoryContext :=
  ltac:(let r := eval vm_compute in (context_build demo_result demo_budget) in match r with Ok ?x => exact x end).

Lemma demo_context_built : context_build demo_result demo_budget = Ok demo_context.
Proof. vm_compute. reflexivity. Qed.
Example demo_context_size : zlen (mcx_snippets demo_context) = 1.
Proof. reflexivity. Qed.

Lemma context_is_bounded_witness :
  ContextBudget_ok demo_budget = true ∧ mcx_byte_count demo_context <= 4096.
Proof.
  split; [reflexivity|].
  destruct (context_is_bounded demo_result demo_budget demo_context eq_refl demo_context_built)
    as (hits & _ & _ & _ & _ & _ & _ & _ & H).
  exact H.
Defined.

Lemma retrieved_text_stays_framed_witness :
  ∃ s, s ∈ mcx_snippets demo_context ∧ count_char "<" (cs_framed_text s) = 2%nat.
Proof.
  assert (∃ s, s ∈ mcx_snippets demo_context) as [s Hs] by (eexists; apply list_elem_of_here).
  exists s. split; [exact Hs|].
  destruct (retrieved_text_stays_framed demo_result demo_budget demo_context s eq_refl demo_context_built Hs)
    as (h & _ & _ & _ & H & _).
  exact H.
Defined.

Definition demo_summary_request : SummaryRequest :=
  let request digest :=
    {| srq_operation_id := "summary-1"; srq_tenant_id := "tenant-a"; srq_run_id := "run-1";
       srq_source_chunks := demo_chunks; srq_maximum_tokens := 128; srq_summarizer_model := "extract";
       srq_summarizer_version := "v1"; srq_depth := 1; srq_fence_token := "fence-1"; srq_request_digest := digest |} in
  request (json_digest (JObj (SummaryRequest_material (request "")))).
Definition demo_compactor : compactor := {| _minimum_coverage := int_truediv 1 2; _maximum_depth := 2 |}.
Definition demo_summarizer : SummaryRequest → M nat SummaryResult := λ r, lift (summarize r).

Lemma demo_summary_request_ok : SummaryRequest_ok demo_summary_request = true.
Proof. vm_compute. reflexivity. Qed.

Lemma demo_compacts : is_ok (compact demo_compactor demo_summarizer demo_summary_request 0%nat).1 = true.
Proof. vm_compute. reflexivity. Qed.

Lemma compaction_is_grounded_witness :
  ∃ r e, compact demo_compactor demo_summarizer demo_summary_request 0%nat = (Ok r, e) ∧
    srs_fence_token r = srq_fence_token demo_summary_request.
Proof.
  destruct (ok_pair _ demo_compacts) as (r & e & Hr). exists r, e. split; [exact Hr|].
  refine (proj1 (proj2 (proj2 (compaction_is_grounded demo_compactor demo_summarizer demo_summary_request 0%nat r e
    demo_summary_request_ok Hr)))).
Defined.
End witnesses.
