(* ===== verification/MemoryErasure.v ===== *)
(** * Erasure, holds and the history of a memory

    What a recorded command replays to, what an erasure did before it called the blob store,
    and what later calls can and cannot change. *)

From S2P Require Import Prelude PyJson PyFloat PyTime PyText PyModel PyDigest Domain Evidence MemoryData MemoryLedger MemoryText MemoryIndex MemoryService MemoryFacts MemoryWorld MemoryAccess MemoryRetrieval.

Section erasure.
Context {HDigest : Digest} {HFloat : FloatJson} {E : Type}.
Context (clock : nat → datetime) (embedder : EmbeddingRequest → M E EmbeddingResult)
  (erase_blob : ErasableBlobReference → M E unit) (chunking : chunker).

Abbreviation erase := (tombstone_and_erase clock erase_blob).

(** Two command fingerprints collide. *)
Definition fingerprints_collide : Prop :=
  ∃ ft m p ft' m' p', collides (document (fingerprint_doc ft m p)) (document (fingerprint_doc ft' m' p')).

(** ** Commands *)

Lemma recorded_type l t c ft m pl :
  mledger_inv l → json_wf (JObj pl) = true → _mcommands l !! (t, c) = Some (memory_fingerprint ft m pl) →
  ft ∈ (mfa_fact_type <$> mfacts l t m) ∨ fingerprints_collide.
Proof.
  intros Hl Hwf Hc. destruct (mi_commands _ Hl _ _ _ Hc) as (m' & f & Hf & _ & Hfp).
  apply fingerprint_binds in Hfp as [H|(-> & -> & _)]; [right|left|done|by apply (mi_payloads _ Hl _ _ _ Hf)].
  - red. eauto 10.
  - apply list_elem_of_fmap. eauto.
Qed.

(** An append that returns has its command recorded, and a record it is about. *)
Lemma mappend_returns t m ver ft cmd actor at_ pl l p l' :
  mappend t m ver ft cmd actor at_ pl l = (Ok p, l') →
  is_Some (mrecord l t m) ∧ _mcommands l' !! (t, cmd) = Some (memory_fingerprint ft m pl) ∧ mprojection l' t m = Some p.
Proof.
  intros H. pose proof (mappend_run t m ver ft cmd actor at_ pl l) as Hr. rewrite H in Hr.
  destruct Hr as (r & Hr & [(Hc & Hp & ->)|(_ & _ & _ & _ & ->)]); [by eauto|]. split; [by eauto|].
  unfold mprojection, commit_memory_fact. simpl. by rewrite !lookup_insert_eq.
Qed.

(** A recorded command replays to the current projection. *)
Lemma mappend_replay t m ver ft cmd actor at_ pl l p r :
  mrecord l t m = Some r → mprojection l t m = Some p →
  _mcommands l !! (t, cmd) = Some (memory_fingerprint ft m pl) →
  mappend t m ver ft cmd actor at_ pl l = (Ok p, l).
Proof.
  unfold mappend, mrecord, mprojection, get, lift, mbind, M_bind, raise_if. intros -> -> ->.
  by rewrite bool_decide_eq_false_2 by auto.
Qed.

(** A recorded command with another fingerprint is refused. *)
Lemma mappend_conflict t m ver ft cmd actor at_ pl l r fp :
  mrecord l t m = Some r → _mcommands l !! (t, cmd) = Some fp → fp ≠ memory_fingerprint ft m pl →
  ∃ e, mappend t m ver ft cmd actor at_ pl l = (Raise e, l) ∧ exn_kind e = IdempotencyConflict.
Proof.
  unfold mappend, mrecord, get, lift, mbind, M_bind, raise_if. intros -> -> Hne.
  rewrite bool_decide_eq_true_2 by done. eexists. split; [reflexivity|done].
Qed.

(** Facts that are not about holds keep the hold count. *)
Lemma append_keeps_holds t m ver ft cmd actor at_ pl l c p l' :
  ft ∉ [MF_LEGAL_HOLD_APPLIED; MF_LEGAL_HOLD_RELEASED] → mprojection l t m = Some c →
  mappend t m ver ft cmd actor at_ pl l = (Ok p, l') → mpj_legal_hold_count p = mpj_legal_hold_count c.
Proof.
  intros Hft Hc H. pose proof (mappend_run t m ver ft cmd actor at_ pl l) as Hr. rewrite H in Hr.
  destruct Hr as (r & Hr & [(_ & Hp & _)|(_ & _ & _ & Hred & _)]); [congruence|].
  rewrite Hc in Hred. apply reduce_memory_ok in Hred as (_ & _ & _ & _ & _ & _ & s & Hs & -> & _). simpl.
  change (mfa_fact_type _) with ft in Hs.
  destruct ft; cbn [fold_fact] in Hs; py_inv; try done; exfalso; apply Hft; set_solver.
Qed.

(** ** An append through the service *)

Lemma m_append_run record expected ft suffix actor pl (w : mworld E) :
  m_append clock record expected ft suffix actor pl w =
  let '(r, l) := mappend (mr_tenant_id record) (mr_memory_id record) expected ft (memory_command_id record suffix)
                   actor (clock (mw_tick w)) pl (mw_ledger w) in
  (r, set_mw_ledger l (set_mw_tick (S (mw_tick w)) w)).
Proof. unfold m_append, m_now, on_mledger, zoom, mbind, M_bind. simpl. by destruct (mappend _ _ _ _ _ _ _ _ _). Qed.

(** What an append leaves alone *)
Lemma m_append_frame record expected ft suffix actor pl (w : mworld E) :
  let w' := (m_append clock record expected ft suffix actor pl w).2 in
  mw_index w' = mw_index w ∧ mw_log w' = mw_log w ∧ mw_external w' = mw_external w.
Proof. rewrite m_append_run. by destruct (mappend _ _ _ _ _ _ _ _ _). Qed.

Lemma m_append_ledger record expected ft suffix actor pl (w : mworld E) :
  mledger_inv (mw_ledger w) → json_wf (JObj pl) = true →
  let w' := (m_append clock record expected ft suffix actor pl w).2 in
  mledger_inv (mw_ledger w') ∧ mledger_grows (mw_ledger w) (mw_ledger w').
Proof.
  intros Hw Hwf. rewrite m_append_run.
  pose proof (mappend_inv (mr_tenant_id record) (mr_memory_id record) expected ft (memory_command_id record suffix)
    actor (clock (mw_tick w)) pl Hwf _ Hw) as H1.
  pose proof (mappend_grows (mr_tenant_id record) (mr_memory_id record) expected ft (memory_command_id record suffix)
    actor (clock (mw_tick w)) pl (mw_ledger w)) as H2.
  by destruct (mappend _ _ _ _ _ _ _ _ _).
Qed.

(** The result of an append that returned *)
Lemma m_append_ok record expected ft suffix actor pl (w : mworld E) p w' :
  m_append clock record expected ft suffix actor pl w = (Ok p, w') →
  let t := mr_tenant_id record in let m := mr_memory_id record in
  _mcommands (mw_ledger w') !! (t, memory_command_id record suffix) = Some (memory_fingerprint ft m pl) ∧
  mprojection (mw_ledger w') t m = Some p.
Proof.
  rewrite m_append_run. intros H.
  destruct (mappend _ _ _ _ _ _ _ _ _) as [[q|e] l] eqn:Ha; [|done]. injection H as <- <-. simpl.
  by destruct (mappend_returns _ _ _ _ _ _ _ _ _ _ _ Ha) as (_ & Hc & Hp).
Qed.

(** An append that is not about holds keeps the hold count, returned or raised. *)
Lemma m_append_holds record expected ft suffix actor pl (w : mworld E) c :
  ft ∉ [MF_LEGAL_HOLD_APPLIED; MF_LEGAL_HOLD_RELEASED] →
  let t := mr_tenant_id record in let m := mr_memory_id record in
  mprojection (mw_ledger w) t m = Some c →
  ∃ p, mprojection (mw_ledger (m_append clock record expected ft suffix actor pl w).2) t m = Some p ∧
    mpj_legal_hold_count p = mpj_legal_hold_count c.
Proof.
  intros Hft t m Hc. rewrite m_append_run. pose proof (mappend_run t m expected ft (memory_command_id record suffix)
    actor (clock (mw_tick w)) pl (mw_ledger w)) as Hr. subst t m.
  destruct (mappend _ _ _ _ _ _ _ _ _) as [[q|e] l] eqn:Ha; simpl; [|subst; eauto].
  destruct (mappend_returns _ _ _ _ _ _ _ _ _ _ _ Ha) as (_ & _ & Hp). exists q. split; [done|].
  by eapply append_keeps_holds.
Qed.

Lemma require_memory_run t m msg (w : mworld E) :
  match require_memory t m msg w with
  | (Ok (r, p), w') => w' = w ∧ mrecord (mw_ledger w) t m = Some r ∧ mprojection (mw_ledger w) t m = Some p
  | (Raise _, w') => w' = w
  end.
Proof.
  unfold require_memory, get, lift, mbind, M_bind, mret, M_ret.
  destruct (mrecord _ t m) as [r|]; [|done]. by destruct (mprojection _ t m).
Qed.

Lemma require_memory_returns t m msg (w : mworld E) r p :
  mrecord (mw_ledger w) t m = Some r → mprojection (mw_ledger w) t m = Some p →
  require_memory t m msg w = (Ok (r, p), w).
Proof. unfold require_memory, get, lift, mbind, M_bind, mret, M_ret. by intros -> ->. Qed.

(** ** An erasure that reached the blob store *)

Definition purge_count (t m : string) (h : hybrid_index) : Z :=
  zlen (List.filter (λ kv, of_memory t m kv.2) (hi_items h)).

Definition tombstone_payload (reason : string) : payload := [("reason_code", JStr reason)].
Definition purge_payload (n : Z) : payload := [("purged_count", JInt n)].

Record erased_between (t m reason : string) (w w' : mworld E) (r : MemoryRecord) (p p' : MemoryProjection) : Prop := {
  eb_record : mrecord (mw_ledger w) t m = Some r;
  eb_projection : mprojection (mw_ledger w) t m = Some p;
  eb_free : mpj_legal_hold_count p = 0 ∧ held (mr_retention r) = false;
  eb_log : mw_log w' = mw_log w ++ [CallErase (mr_blob r)];
  eb_index : mw_index w' = (index_purge t m (mw_index w)).2;
  eb_ledger : mledger_inv (mw_ledger w');
  eb_tombstone : _mcommands (mw_ledger w') !! (t, memory_command_id r "tombstone")
    = Some (memory_fingerprint MF_TOMBSTONED m (tombstone_payload reason));
  eb_purge : _mcommands (mw_ledger w') !! (t, memory_command_id r "purge")
    = Some (memory_fingerprint MF_DERIVED_PURGED m (purge_payload (purge_count t m (mw_index w))));
  eb_after : mprojection (mw_ledger w') t m = Some p' ∧ mpj_legal_hold_count p' = 0
}.

Lemma grows_command l l' k fp : mledger_grows l l' → _mcommands l !! k = Some fp → _mcommands l' !! k = Some fp.
Proof. intros (_ & _ & H) Hk. by apply (lookup_weaken _ _ _ _ Hk). Qed.

(** Take the next append of the method body in [H]: its frame, its ledger, its holds. *)
#[local] Ltac append_step H A F L K w p w' :=
  match type of H with context [m_append clock ?r ?v ?ft ?sfx ?actor ?pl w] =>
    pose proof (m_append_frame r v ft sfx actor pl w) as F;
    pose proof (m_append_ledger r v ft sfx actor pl w) as L;
    pose proof (λ c N, m_append_holds r v ft sfx actor pl w c N) as K;
    destruct (m_append clock r v ft sfx actor pl w) as [[p|?] w'] eqn:A; cbn [snd] in F, L, K
  end.

(** An erasure raises without calling the blob store, or everything before the call was done. *)
Lemma erase_run t m actor reason w res w' :
  mledger_inv (mw_ledger w) → erase t m actor reason w = (res, w') →
  (∃ e, res = Raise e ∧ mw_log w' = mw_log w) ∨ ∃ r p p', erased_between t m reason w w' r p p'.
Proof.
  intros Hw H. unfold tombstone_and_erase in H. bind_step H.
  pose proof (require_memory_run t m "memory is missing" w) as Hreq.
  destruct (require_memory _ _ _ w) as [[[r p]|e] w0]; [|left; injection H as <- <-; subst; eauto].
  destruct Hreq as (-> & Hr & Hp). destruct (mi_records _ Hw _ _ _ Hr) as [Ht Hm]. cbn [fst snd] in H.
  bind_step H. unfold lift at 1, raise_if in H.
  destruct (_ || _) eqn:Hheld in H; [left; injection H as <- <-; eauto|]. py_bool.
  assert (MF_TOMBSTONED ∉ [MF_LEGAL_HOLD_APPLIED; MF_LEGAL_HOLD_RELEASED] ∧
          MF_DERIVED_PURGED ∉ [MF_LEGAL_HOLD_APPLIED; MF_LEGAL_HOLD_RELEASED] ∧
          MF_CRYPTO_ERASED ∉ [MF_LEGAL_HOLD_APPLIED; MF_LEGAL_HOLD_RELEASED]) as (N1 & N2 & N3) by set_solver.
  (* tombstone *)
  bind_step H. append_step H A1 F1 L1 K1 w p1 w1; specialize (L1 Hw eq_refl) as [V1 W1];
    destruct F1 as (I1 & G1 & _); [|left; injection H as <- <-; eauto].
  apply m_append_ok in A1 as (C1 & P1). rewrite Ht, Hm in *.
  destruct (K1 _ N1 Hp) as (? & E1 & K1'). rewrite P1 in E1. injection E1 as <-.
  (* purge *)
  bind_step H. unfold on_index at 1, zoom at 1, index_purge at 1 in H.
  fold (purge_count t m (mw_index w1)) in H. rewrite I1 in H. set (h := drop_tenant_cache _ _) in H.
  assert (h = (index_purge t m (mw_index w)).2) as Hh by done. clearbody h.
  set (w2 := set_mw_index h w1) in H. bind_step H.
  append_step H A2 F2 L2 K2 w2 p2 w3; specialize (L2 V1 eq_refl) as [V2 W2];
    destruct F2 as (I2 & G2 & _); [|left; injection H as <- <-; eexists; split; [done|by rewrite G2]].
  apply m_append_ok in A2 as (C2 & P2). rewrite Ht, Hm in *.
  destruct (K2 _ N2 P1) as (? & E2 & K2'). rewrite P2 in E2. injection E2 as <-.
  (* the call *)
  right. bind_step H. unfold call_external at 1 in H.
  destruct (erase_blob (mr_blob r) (mw_external w3)) as [[[]|e] ex].
  - cbv beta iota in H. set (w4 := set_mw_external (mw_log w3 ++ [CallErase (mr_blob r)]) ex w3) in H.
    append_step H A3 F3 L3 K3 w4 p3 w5; clear A3; specialize (L3 V2 eq_refl) as [V3 W3];
      destruct F3 as (I3 & G3 & _); rewrite Ht, Hm in *; destruct (K3 _ N3 P2) as (p' & E3 & K3');
      injection H as <- <-;
      (exists r, p, p'; split; try done;
        [rewrite G3; simpl; by rewrite G2, <-G1
        |rewrite I3; simpl; by rewrite I2
        |eapply grows_command; [exact W3|]; by eapply grows_command; [exact W2|]
        |by eapply grows_command; [exact W3|]
        |split; [done|congruence]]).
  - injection H as <- <-. exists r, p, p2. split; try done.
    + simpl. by rewrite G2, <-G1.
    + simpl. by rewrite I2.
    + by eapply grows_command; [exact W2|].
    + split; [done|congruence].
Qed.
End erasure.
