(* ===== verification/MemoryTheorems.v ===== *)
(** * The memory services over any sequence of calls

    The properties of the memory ledger, of holds and of erasure, for every world the
    services can reach, with their witnesses.  Then the embedding gateway: every call returns its
    permit; the provider is called at most [maximum_calls] times, and for one tenant at most
    [rate_limit_per_minute] times in any minute. *)

From S2P Require Import Prelude PyJson PyTime PyText PyFloat PyModel PyDigest Domain Fixtures Evidence MemoryData MemoryLedger MemoryText MemoryIndex MemoryService MemoryFacts MemoryWorld MemoryAccess MemoryFixtures MemoryRetrieval MemoryErasure.

Section theorems.
Context {HDigest : Digest} {HFloat : FloatJson} {E : Type}.
Context (clock : nat → datetime) (embedder : EmbeddingRequest → M E EmbeddingResult)
  (erase_blob : ErasableBlobReference → M E unit) (chunking : chunker).

Abbreviation reached := (memory_reached clock embedder erase_blob chunking).
Abbreviation later := (memory_steps clock embedder erase_blob chunking).
Abbreviation run := (run_memory clock embedder erase_blob chunking).
Abbreviation erase := (tombstone_and_erase clock erase_blob).
Abbreviation hold := (set_legal_hold clock).
Abbreviation items w := (hi_items (mw_index w)).*2.

(** ** The ledger *)

(** C31: the memory ledger is sound after any sequence of calls: the facts of a memory are
    numbered and chained by digest, the projection's version is their number and its digest
    the last one's, and [rebuild] folds them to the stored projection.  The projection has
    the record's tier and digest; an erased memory is purged, a purged one tombstoned, and
    its hold count is between 0 and 16. *)
Theorem memory_ledger_sound w t m p :
  reached w → mprojection (mw_ledger w) t m = Some p →
  chained t m (mfacts (mw_ledger w) t m) ∧ mpj_version p = zlen (mfacts (mw_ledger w) t m) ∧
  mpj_last_fact_digest p = last_digest (mfacts (mw_ledger w) t m) ∧
  mrebuild t m (mw_ledger w) = (Ok p, mw_ledger w) ∧
  ∃ r, mrecord (mw_ledger w) t m = Some r ∧ projects r p.
Proof.
  intros Hw Hp. apply reached_mledger in Hw. destruct (known_record _ _ _ _ Hw Hp) as (r & Hr & Hj).
  pose proof (mi_replay _ Hw _ _ _ Hr) as Hrep. rewrite Hp in Hrep.
  destruct (replayed_chained _ _ _ Hrep) as [Hc Hl]. destruct (replayed_projects _ _ _ Hrep) as [_ Hv].
  destruct (mi_records _ Hw _ _ _ Hr) as [Ht Hm]. rewrite Ht, Hm in Hc.
  pose proof (mrebuild_run t m _ Hw) as Hb. rewrite Hp in Hb. split_and!; [done..|]. eauto.
Qed.

(** C38: over any sequence of calls the projection of a memory keeps its identity, tier and
    record digest, its version never decreases, and being tombstoned, purged or erased is
    never undone. *)
Theorem memory_flags_are_final w w' t m c :
  reached w → later w w' → mprojection (mw_ledger w) t m = Some c →
  ∃ p, mprojection (mw_ledger w') t m = Some p ∧ memory_follows c p.
Proof.
  intros Hw Hl Hc. apply reached_mledger in Hw.
  destruct (later_mledger clock embedder erase_blob chunking w w' Hw Hl) as [Hw' Hg].
  exact (grows_memory_follows _ _ _ _ _ Hw Hw' Hg Hc).
Qed.

(** ** Holds *)

(** a hold reference counts once for ever: after a returned [set_legal_hold], applying (or
    releasing) the same reference again returns the current projection and leaves the ledger as
    it is, whatever calls came in between, so applying a hold that was released in between holds
    nothing. *)
Theorem reapplied_hold_is_ignored w t m hold_ref applied actor p w1 w2 actor' :
  reached w → hold t m hold_ref applied actor w = (Ok p, w1) → later w1 w2 →
  ∃ p2 w3, mprojection (mw_ledger w2) t m = Some p2 ∧
    hold t m hold_ref applied actor' w2 = (Ok p2, w3) ∧ mw_ledger w3 = mw_ledger w2.
Proof.
  intros Hw H Hl. apply reached_mledger in Hw.
  assert (mledger_inv (mw_ledger w1) ∧ mledger_grows (mw_ledger w) (mw_ledger w1)) as [Hw1 Hg1].
  { pose proof (mmoves_hold clock embedder valid_item mledger_rel t m hold_ref applied actor w Hw) as Hm.
    by rewrite H in Hm. }
  destruct (later_mledger clock embedder erase_blob chunking w1 w2 Hw1 Hl) as [Hw2 Hg2].
  unfold set_legal_hold in H. bind_step H. pose proof (require_memory_run t m "memory is missing" w) as Hreq.
  destruct (require_memory _ _ _ w) as [[[r c]|e] w0]; [|done]. destruct Hreq as (-> & Hr & Hc).
  destruct (mi_records _ Hw _ _ _ Hr) as [Ht Hm]. cbn [fst snd] in H.
  apply m_append_ok in H as (Hcmd & Hp). rewrite Ht, Hm in *.
  pose proof (grows_record _ _ _ _ _ Hg2 (grows_record _ _ _ _ _ Hg1 Hr)) as Hr2.
  pose proof (grows_command _ _ _ _ Hg2 Hcmd) as Hcmd2.
  destruct (grows_memory_follows _ _ _ _ _ Hw1 Hw2 Hg2 Hp) as (p2 & Hp2 & _).
  unfold set_legal_hold. erewrite M_bind_returns by exact (require_memory_returns _ _ _ _ _ _ Hr2 Hp2). cbn [fst snd].
  rewrite m_append_run, Ht, Hm. erewrite mappend_replay; [|exact Hr2|exact Hp2|exact Hcmd2]. eauto.
Qed.

(** ** Erasure *)

Definition embeds_only (w w' : mworld E) : Prop :=
  ∃ calls, mw_log w' = mw_log w ++ calls ∧ ∀ b, CallErase b ∉ calls.

#[local] Instance embeds_only_preorder : PreOrder embeds_only.
Proof.
  split.
  - intros w. exists []. split; [by rewrite app_nil_r|]. intros b. apply not_elem_of_nil.
  - intros a b c (l1 & E1 & N1) (l2 & E2 & N2). exists (l1 ++ l2). split; [by rewrite E2, E1, app_assoc|].
    intros x [Hx|Hx]%elem_of_app; [by apply (N1 x)|by apply (N2 x)].
Qed.

Lemma same_log_embeds w w' : mw_log w' = mw_log w → embeds_only w w'.
Proof. intros H. exists []. split; [by rewrite app_nil_r|]. intros b. apply not_elem_of_nil. Qed.

#[local] Instance embeds_only_order : MemoryOrder embedder (λ _, True) embeds_only.
Proof.
  split; intros *; try (intros; intros w; unfold on_mledger, on_operations, on_index; rewrite zoom_snd;
    by apply same_log_embeds).
  - apply _.
  - by apply same_log_embeds.
  - intros w. rewrite call_external_snd. exists [CallEmbed request]. split; [done|].
    intros b Hb%list_elem_of_singleton. done.
Qed.


(** ** After an erasure *)

Definition ingests (t m : string) (op : memory_op) : bool :=
  match op with
  | OpIngest record _ _ _ _ => bool_decide (mr_tenant_id record = t) && bool_decide (mr_memory_id record = m)
  | _ => false
  end.

(** Later calls, none of which ingests the memory *)
Inductive later_without (t m : string) : mworld E → mworld E → Prop :=
  | without_refl w : later_without t m w w
  | without_step w op w' : memory_op_ok op → ingests t m op = false →
      later_without t m (run op w) w' → later_without t m w w'.

Lemma without_later t m w w' : later_without t m w w' → later w w'.
Proof. induction 1; [constructor|by econstructor]. Qed.

(** The index has nothing of the memory. *)
Definition out (t m : string) (w : mworld E) : Prop := ∀ item, item ∈ items w → of_memory t m item = false.
Definition out_rel (t m : string) (w w' : mworld E) : Prop := out t m w → out t m w'.

#[local] Instance out_rel_preorder t m : PreOrder (out_rel t m).
Proof. split; [by intros w H|]. intros a b c H1 H2 H. by apply H2, H1. Qed.

Lemma same_items_out t m w w' : hi_items (mw_index w') = hi_items (mw_index w) → out_rel t m w w'.
Proof. unfold out_rel, out. by intros ->. Qed.

Lemma purge_out t m t' m' : mmoves (out_rel t m) (on_index (index_purge t' m')).
Proof.
  intros w Hw item Hi. unfold on_index in Hi. rewrite zoom_snd in Hi. cbn in Hi. apply Hw.
  rewrite (filter_fmap_snd (λ i, negb (of_memory t' m' i))) in Hi. apply list_elem_of_In, filter_In in Hi as [Hi _].
  by apply list_elem_of_In.
Qed.

#[local] Instance out_rel_order t m : MemoryOrder embedder (λ item, of_memory t m item = false) (out_rel t m).
Proof.
  split; intros *; try (intros; intros w; unfold on_mledger, on_operations; rewrite ?zoom_snd, ?call_external_snd;
    by apply same_items_out).
  - apply _.
  - by apply same_items_out.
  - intros Hitem w Hw. unfold on_index. rewrite zoom_snd. unfold index_item, lift, modify, raise_if, mbind, M_bind.
    destruct (negb _); [done|]. intros i Hi. cbn in Hi. apply list_elem_of_fmap in Hi as ([k i'] & -> & Hi).
    apply dict_set_elem in Hi as [[= -> ->]|Hi]; [done|]. apply Hw, list_elem_of_fmap. by exists (k, i').
  - apply purge_out.
  - intros Hq w. unfold on_index. rewrite zoom_snd. apply same_items_out. apply retrieve_items.
Qed.

(** A tombstoned memory is not rebuilt. *)
Lemma rebuild_tombstoned t m rid evidence actor spec w p :
  mprojection (mw_ledger w) t m = Some p → mpj_tombstoned p = true →
  (rebuild_derived clock embedder chunking t m rid evidence actor spec w).2 = w.
Proof.
  intros Hp Ht. unfold rebuild_derived, mbind at 1, M_bind at 1, get at 1.
  unfold mbind at 1, M_bind at 1, lift at 1. destruct (of_option (mrecord _ t m) _ _) as [r|e]; [|done].
  unfold mbind at 1, M_bind at 1, lift at 1. rewrite Hp. cbn [of_option].
  unfold mbind at 1, M_bind at 1, lift at 1, raise_if. by rewrite Ht, !orb_true_r.
Qed.

Lemma out_step t m w op p :
  mledger_inv (mw_ledger w) → mprojection (mw_ledger w) t m = Some p → mpj_tombstoned p = true →
  memory_op_ok op → ingests t m op = false → out_rel t m w (run op w).
Proof.
  intros Hw Hp Ht Hok Hin.
  assert (∀ r, (mr_tenant_id r = t ∧ mr_memory_id r = m → False) → items_of (λ item, of_memory t m item = false) r) as Hitems.
  { intros r Hr item <- _. unfold of_memory. apply andb_false_iff.
    destruct (decide (mr_tenant_id (ix_record item) = t)); [right|left]; apply bool_decide_eq_false; tauto. }
  assert (op_moves clock embedder erase_blob chunking (λ item, of_memory t m item = false) (out_rel t m) op w
          ∨ run op w = w) as [Hop| ->]; [| |reflexivity].
  - destruct op; simpl; try by left.
    + left. apply Hitems. intros [H1 H2]. simpl in Hin. by rewrite !bool_decide_eq_true_2 in Hin.
    + destruct (decide (tenant_id = t ∧ memory_id = m)) as [[-> ->]|Hne]; [right; by eapply rebuild_tombstoned|left].
      intros r Hr. apply Hitems. destruct (mi_records _ Hw _ _ _ Hr) as [<- <-]. tauto.
    + left. apply (mmoves_erase_if clock erase_blob (out_rel t m)).
      * intros. by apply same_items_out.
      * intros * _ w0. unfold on_mledger. rewrite zoom_snd. by apply same_items_out.
      * intros. apply purge_out.
      * intros b w0. rewrite call_external_snd. by apply same_items_out.
  - by apply (run_memory_moves clock embedder erase_blob chunking _ (out_rel t m)).
Qed.

Lemma stays_out t m w w' p :
  later_without t m w w' → mledger_inv (mw_ledger w) → mprojection (mw_ledger w) t m = Some p →
  mpj_tombstoned p = true → out t m w → out t m w'.
Proof.
  intros H. revert p. induction H as [w|w op w' Hok Hin _ IH]; intros p Hw Hp Ht Ho; [done|].
  assert (later w (run op w)) as Hstep by (econstructor; [done|constructor]).
  destruct (later_mledger clock embedder erase_blob chunking _ _ Hw Hstep) as [Hw1 Hg].
  destruct (grows_memory_follows _ _ _ _ _ Hw Hw1 Hg Hp) as (p1 & Hp1 & Hf).
  eapply IH; [done|exact Hp1|by apply Hf|]. by eapply out_step.
Qed.

Lemma erase_later t m actor reason w res w' : erase t m actor reason w = (res, w') → later w w'.
Proof.
  intros H. pose proof (memory_step clock embedder erase_blob chunking w (OpErase t m actor reason) w' I) as Hst.
  cbn [run_memory] in Hst. rewrite H in Hst. apply Hst. constructor.
Qed.

(** What an erasure that reached the blob store leaves behind *)
Lemma after_erasure t m actor reason w res w1 r p p' :
  mledger_inv (mw_ledger w) → erase t m actor reason w = (res, w1) → erased_between t m reason w w1 r p p' →
  fingerprints_collide ∨ (mpj_tombstoned p' = true ∧ out t m w1).
Proof.
  intros Hw Her [Hr Hp _ _ Hi Hw1 Ct _ [Hp' _]].
  destruct (recorded_type _ _ _ _ _ (tombstone_payload reason) Hw1 eq_refl Ct) as [Mt|?]; [right|by left].
  destruct (known_record _ _ _ _ Hw1 Hp') as (r' & Hr' & _).
  pose proof (mi_replay _ Hw1 _ _ _ Hr') as Hrep. rewrite Hp' in Hrep. split; [by eapply tombstone_marks|].
  unfold out. rewrite Hi. apply purge_leaves_nothing.
Qed.


(** An erasure is not resumed: once a [tombstone_and_erase] of an indexed memory reached the
    blob store, even if that call raised, every later one raises before the blob store, over any
    sequence of calls that does not ingest the memory again (or two fingerprints collide). *)
Theorem interrupted_erasure_is_stuck w t m actor reason res w1 w2 actor' reason' :
  reached w → erase t m actor reason w = (res, w1) → mw_log w1 ≠ mw_log w →
  1 <= purge_count t m (mw_index w) → later_without t m w1 w2 →
  (∃ e w3, erase t m actor' reason' w2 = (Raise e, w3) ∧ mw_log w3 = mw_log w2) ∨ fingerprints_collide.
Proof.
  intros Hw Her Hne Hn Hl. apply reached_mledger in Hw.
  destruct (erase_run _ _ _ _ _ _ _ _ _ Hw Her) as [(e & _ & Hs)|(r & c & p' & Hb)]; [done|].
  destruct (after_erasure _ _ _ _ _ _ _ _ _ _ Hw Her Hb) as [?|[Htomb Hout]]; [by right|].
  destruct Hb as [Hr _ _ _ _ Hw1 _ Cp [Hp' _]].
  destruct (later_mledger clock embedder erase_blob chunking w1 w2 Hw1 (without_later _ _ _ _ Hl)) as [Hw2 Hg2].
  pose proof (stays_out _ _ _ _ _ Hl Hw1 Hp' Htomb Hout) as Hout2.
  destruct (erase t m actor' reason' w2) as [res3 w3] eqn:Her2.
  destruct (erase_run _ _ _ _ _ _ _ _ _ Hw2 Her2) as [(e & -> & Hs)|(r2 & c2 & p2 & Hb2)]; [left; eauto|right].
  destruct (later_mledger clock embedder erase_blob chunking w w1 Hw (erase_later _ _ _ _ _ _ _ Her)) as [_ Hg1].
  destruct (later_mledger clock embedder erase_blob chunking w2 w3 Hw2 (erase_later _ _ _ _ _ _ _ Her2)) as [_ Hg3].
  destruct Hb2 as [Hr2 _ _ _ _ _ _ Cp2 _].
  rewrite (grows_record _ _ _ _ _ Hg2 (grows_record _ _ _ _ _ Hg1 Hr)) in Hr2. injection Hr2 as <-.
  apply (grows_command _ _ _ _ Hg2), (grows_command _ _ _ _ Hg3) in Cp. rewrite Cp in Cp2. injection Cp2 as Cp2.
  apply fingerprint_binds in Cp2 as [Hc|(_ & _ & Hk)]; [red; eauto 10| |done..].
  specialize (Hk "purged_count"). cbn in Hk. injection Hk as Hk. exfalso.
  assert (purge_count t m (mw_index w2) = 0) as Hz; [|lia].
  unfold purge_count, zlen. rewrite <-(length_fmap snd), (filter_fmap_snd (of_memory t m)).
  rewrite (filter_none (of_memory t m)); [done|]. exact Hout2.
Qed.
End theorems.

(** ** Witnesses *)

Section witnesses.
#[local] Existing Instance demo_digest.
#[local] Existing Instance demo_float.
#[local] Existing Instance demo_float_laws.

Abbreviation run_flaky := (run_memory memory_clock demo_embedder flaky_erase demo_chunker).
Abbreviation run_good := (run_memory memory_clock demo_embedder demo_erase demo_chunker).
Abbreviation reached_good := (memory_reached memory_clock demo_embedder demo_erase demo_chunker).
Abbreviation later_good := (memory_steps memory_clock demo_embedder demo_erase demo_chunker).

Lemma good_step (op : memory_op) (w : mworld nat) : memory_op_ok op → later_good w (run_good op w).
Proof. intros H. eapply memory_step; [exact H|constructor]. Qed.

Lemma good_reached (op : memory_op) (w : mworld nat) :
  memory_op_ok op → reached_good w → reached_good (run_good op w).
Proof. intros H [e He]. exists e. eapply memory_steps_trans; [exact He|by apply good_step]. Qed.

Lemma has_state (w : mworld nat) s : demo_state w = Some s → ∃ p, mprojection (mw_ledger w) "tenant-a" demo_memory_id = Some p.
Proof. unfold demo_state. destruct (mprojection _ _ _); [eauto|done]. Qed.

Lemma memory_ledger_sound_witness :
  ∃ p, mprojection (mw_ledger demo_world) "tenant-a" demo_memory_id = Some p ∧
    mrebuild "tenant-a" demo_memory_id (mw_ledger demo_world) = (Ok p, mw_ledger demo_world).
Proof.
  destruct (has_state demo_world (MS_ACTIVE, 10, true, false, 0)) as [p Hp]; [vm_compute; reflexivity|].
  exists p. split; [exact Hp|].
  refine (proj1 (proj2 (proj2 (proj2 (memory_ledger_sound memory_clock demo_embedder demo_erase demo_chunker
    demo_world "tenant-a" demo_memory_id p demo_world_reached Hp))))).
Defined.

Lemma memory_flags_are_final_witness :
  ∃ c p, mprojection (mw_ledger demo_world) "tenant-a" demo_memory_id = Some c ∧
    mprojection (mw_ledger (run_good op_erase demo_world)) "tenant-a" demo_memory_id = Some p ∧ memory_follows c p.
Proof.
  destruct (has_state demo_world (MS_ACTIVE, 10, true, false, 0)) as [c Hc]; [vm_compute; reflexivity|].
  destruct (memory_flags_are_final memory_clock demo_embedder demo_erase demo_chunker
    demo_world (run_good op_erase demo_world) "tenant-a" demo_memory_id c demo_world_reached (good_step op_erase demo_world I) Hc)
    as (p & Hp & Hf).
  exists c, p. split; [exact Hc|]. split; [exact Hp|exact Hf].
Defined.

(** Apply a hold, release it, apply it again. *)
Definition demo_hold (applied : bool) (w : mworld nat) : res MemoryProjection * mworld nat :=
  set_legal_hold memory_clock "tenant-a" demo_memory_id "hold-1" applied "actor-1" w.
Definition demo_released : mworld nat := run_good (op_hold false) (demo_hold true demo_world).2.

(** After the second application the hold count is 0, and the memory is erased. *)
Example reapplied_hold_holds_nothing :
  let w := (demo_hold true demo_released).2 in
  is_ok (demo_hold true demo_released).1 = true ∧
  demo_state w = Some (MS_ACTIVE, 12, true, false, 0) ∧
  demo_state (run_good op_erase w) = Some (MS_ERASED, 15, false, true, 0).
Proof. vm_compute. split_and!; reflexivity. Qed.

Lemma reapplied_hold_is_ignored_witness :
  ∃ p2 w3, mprojection (mw_ledger demo_released) "tenant-a" demo_memory_id = Some p2 ∧
    demo_hold true demo_released = (Ok p2, w3) ∧ mw_ledger w3 = mw_ledger demo_released.
Proof.
  destruct (returned (demo_hold true demo_world)) as [p Hp]; [vm_compute; reflexivity|].
  exact (reapplied_hold_is_ignored memory_clock demo_embedder demo_erase demo_chunker demo_world "tenant-a"
    demo_memory_id "hold-1" true "actor-1" p (demo_hold true demo_world).2 demo_released "actor-1"
    demo_world_reached Hp (good_step (op_hold false) _ I)).
Defined.


Definition demo_erasure (w : mworld nat) : res MemoryProjection * mworld nat :=
  tombstone_and_erase memory_clock demo_erase "tenant-a" demo_memory_id "actor-1" "user-request" w.

Definition demo_empty_result : RetrievalResult :=
  ltac:(let r := eval vm_compute in (demo_answer (demo_erasure demo_world).2) in match r with Ok ?x => exact x end).

Lemma demo_nothing_found : demo_answer (demo_erasure demo_world).2 = Ok demo_empty_result.
Proof. vm_compute. reflexivity. Qed.


(** The blob store fails once: the erasure raises, and so does every later one. *)
Definition flaky_world : mworld nat := run_flaky (op_ingest AD_accept) (memory_initial 0%nat).
Definition flaky_erasure (w : mworld nat) : res MemoryProjection * mworld nat :=
  tombstone_and_erase memory_clock flaky_erase "tenant-a" demo_memory_id "actor-1" "user-request" w.

Lemma flaky_world_reached : memory_reached memory_clock demo_embedder flaky_erase demo_chunker flaky_world.
Proof. exists 0%nat. apply (memory_step _ _ _ _ _ (op_ingest AD_accept)); [exact demo_record_ok|constructor]. Qed.

Example flaky_erasure_raises :
  raised_kind (flaky_erasure flaky_world).1 = Some RepositoryUnavailable ∧
  raised_kind (flaky_erasure (flaky_erasure flaky_world).2).1 = Some IdempotencyConflict.
Proof. vm_compute. split; reflexivity. Qed.

Lemma interrupted_erasure_is_stuck_witness :
  (∃ e w3, flaky_erasure (flaky_erasure flaky_world).2 = (Raise e, w3) ∧
     mw_log w3 = mw_log (flaky_erasure flaky_world).2) ∨ fingerprints_collide.
Proof.
  refine (interrupted_erasure_is_stuck memory_clock demo_embedder flaky_erase demo_chunker flaky_world "tenant-a"
    demo_memory_id "actor-1" "user-request" (flaky_erasure flaky_world).1 (flaky_erasure flaky_world).2
    (flaky_erasure flaky_world).2 "actor-1" "user-request" flaky_world_reached (surjective_pairing _) _ _
    (without_refl _ _ _ _ _ _ _)).
  - vm_compute. discriminate.
  - vm_compute. discriminate.
Defined.

(** ** Ingesting again *)

(** A candidate that was rejected and erased is accepted, indexed and retrieved all the same:
    [ingest] replays the recorded candidate and does not look at the tombstone. *)
Example erased_memory_is_resurrected :
  let w := run_demo demo_embedder demo_erase [op_ingest AD_reject; op_erase; op_ingest AD_accept] in
  demo_state w = Some (MS_ACTIVE, 14, true, true, 0) ∧
  hit_ids (demo_answer w) = [demo_memory_id].
Proof. vm_compute. split; reflexivity. Qed.

(** An ingestion whose embedding call raised is not resumed either: the fence token of the new
    request names the new version, so the recorded intent conflicts. *)
Definition flaky_embedder (request : EmbeddingRequest) : M nat EmbeddingResult :=
  n ← get; modify S;; if (n =? 0)%nat then failing_embedder request else demo_embedder request.

Example interrupted_ingest_is_stuck :
  let ingest_it := ingest memory_clock flaky_embedder demo_chunker demo_record memory_evidence "actor-1"
                     (demo_acceptance AD_accept) memory_spec in
  raised_kind (ingest_it (memory_initial 0%nat)).1 = Some EvidenceUnavailable ∧
  raised_kind (ingest_it (ingest_it (memory_initial 0%nat)).2).1 = Some IdempotencyConflict.
Proof. vm_compute. split; reflexivity. Qed.
End witnesses.

Section gateway.
Context {HDigest : Digest} {HFloat : FloatJson} {E : Type}.
Context (limits : gateway_limits) (clock : nat → datetime) (adapter : EmbeddingRequest → M E EmbeddingResult).

(** The adapter, with a count of its calls in the provider's state *)
Definition counted (request : EmbeddingRequest) : M (E * Z) EmbeddingResult := λ s,
  let '(r, e) := adapter request s.1 in (r, (e, s.2 + 1)).

Abbreviation G := (gateway (E * Z)).
Abbreviation embed := (gateway_embed limits clock counted).
Abbreviation rate := (gl_rate_limit_per_minute limits).

Definition calls (g : G) : Z := (gw_provider _ g).2.
Definition window_of (t : string) (g : G) : list datetime := default [] (gw_windows _ g !! t).

(** What an admitted or refused call leaves of the state the limits are about *)
Definition untouched (g g' : G) : Prop :=
  gw_permits _ g' = gw_permits _ g ∧ gw_remaining _ g' = gw_remaining _ g ∧ gw_windows _ g' = gw_windows _ g.

#[local] Instance untouched_preorder : PreOrder untouched.
Proof.
  split; [by intros g|]. unfold untouched. intros a b c (?&?&?) (?&?&?). split_and!; congruence.
Qed.

Definition refused (a : datetime) (g g' : G) : Prop :=
  gw_permits _ g' = gw_permits _ g ∧ gw_remaining _ g' = gw_remaining _ g ∧ gw_provider _ g' = gw_provider _ g ∧
  ∀ t, window_of t g' = window_of t g ∨ window_of t g' = drop_until (a - seconds 60) (window_of t g).

Definition admitted (t : string) (a : datetime) (g g' : G) : Prop :=
  gw_permits _ g' = gw_permits _ g ∧ gw_remaining _ g' = gw_remaining _ g - 1 ∧ 0 < gw_remaining _ g ∧
  zlen (drop_until (a - seconds 60) (window_of t g)) < rate ∧
  window_of t g' = drop_until (a - seconds 60) (window_of t g) ++ [a] ∧
  ∀ t', t' ≠ t → window_of t' g' = window_of t' g.

Lemma admit_run request a g :
  let '(r, g') := admit_call limits request a g in
  gw_tick _ g' = gw_tick _ g ∧ gw_provider _ g' = gw_provider _ g ∧
  match r with
  | Ok _ => admitted (erq_tenant_id request) a g g'
  | Raise _ => refused a g g'
  end.
Proof.
  unfold admit_call, get, lift, modify, mbind, M_bind, mret, M_ret, raise_if.
  assert (∀ g1 : G, gw_tick _ g1 = gw_tick _ g → gw_provider _ g1 = gw_provider _ g → untouched g g1 →
    let '(r, g') :=
      (let w := drop_until (a - seconds 60) (default [] (gw_windows _ g1 !! erq_tenant_id request)) in
       let g2 := set_window (erq_tenant_id request) w (gw_remaining _ g1) g1 in
       if rate <=? zlen w then (raise PolicyDenied "embedding rate limit exhausted", g2)
       else if gw_remaining _ g1 <=? 0 then (raise PolicyDenied "embedding budget exhausted", g2)
       else (Ok (), set_window (erq_tenant_id request) (w ++ [a]) (gw_remaining _ g1 - 1) g2)) in
    gw_tick _ g' = gw_tick _ g ∧ gw_provider _ g' = gw_provider _ g ∧
    match r with Ok _ => admitted (erq_tenant_id request) a g g' | Raise _ => refused a g g' end) as Hrest.
  { intros g1 Ht Hp (U1 & U2 & U3). cbv zeta. rewrite U3.
    change (default [] (gw_windows _ g !! erq_tenant_id request)) with (window_of (erq_tenant_id request) g).
    set (w := drop_until _ _).
    assert (∀ g2 w', (∀ t, window_of t (set_window (erq_tenant_id request) w' g2 g1) =
      if decide (erq_tenant_id request = t) then w' else window_of t g)) as Hwin.
    { intros g2 w' t. unfold window_of, set_window. simpl. rewrite U3, lookup_insert. by case_decide. }
    destruct (rate <=? zlen w) eqn:Hr; [|destruct (gw_remaining _ g1 <=? 0) eqn:Hb]; py_bool.
    - split; [exact Ht|]. split; [exact Hp|]. split; [exact U1|]. split; [done|]. split; [exact Hp|].
      intros t. rewrite Hwin. case_decide; [subst; by right|by left].
    - split; [exact Ht|]. split; [exact Hp|]. split; [exact U1|]. split; [done|]. split; [exact Hp|].
      intros t. rewrite Hwin. case_decide; [subst; by right|by left].
    - split; [exact Ht|]. split; [exact Hp|]. unfold admitted. cbn [gw_permits gw_remaining set_window].
      split; [exact U1|]. split; [lia|]. split; [lia|]. split; [exact Hr|]. split.
      + unfold window_of, set_window. cbn [gw_windows]. by rewrite lookup_insert_eq.
      + intros t' Ht'. unfold window_of, set_window. cbn [gw_windows]. by rewrite !lookup_insert_ne, U3. }
  destruct (gw_opened _ g !! circuit_key request) as [opened|].
  - destruct (_ <? seconds _).
    + cbv beta iota. unfold raise. cbv beta iota. do 5 (split; [done|]). intros t. by left.
    + specialize (Hrest (set_circuit (circuit_key request) 0 None g)). cbv zeta in Hrest.
      destruct (rate <=? _); [by apply Hrest|]. destruct (gw_remaining _ _ <=? 0); by apply Hrest.
  - specialize (Hrest g eq_refl eq_refl ltac:(reflexivity)). cbv zeta in Hrest.
    destruct (rate <=? _); [exact Hrest|]. destruct (gw_remaining _ _ <=? 0); exact Hrest.
Qed.

(** What follows an admission leaves the limits alone. *)
Lemma call_adapter_run request g :
  let '(r, g') := call_adapter limits clock counted request g in
  untouched g g' ∧ calls g' = calls g + 1 ∧ (gw_tick _ g ≤ gw_tick _ g')%nat.
Proof.
  unfold call_adapter, counted, calls. destruct (adapter request (gw_provider _ g).1) as [[result|x] e].
  - split_and!; simpl; lia || done.
  - destruct (counts_as_failure _); [|split_and!; simpl; lia || done].
    destruct (_ <=? _); simpl; split_and!; simpl; lia || done.
Qed.

(** One call of the gateway: refused, or admitted and passed to the provider once *)
Lemma embed_run request g res g' :
  embed request g = (res, g') → let a := clock (gw_tick _ g) in
  (g' = g ∨ gw_tick _ g < gw_tick _ g')%nat ∧
  (refused a g g' ∨ admitted (erq_tenant_id request) a g g' ∧ calls g' = calls g + 1).
Proof.
  intros H a. unfold gateway_embed, with_permit in H. destruct (gw_permits _ g <=? 0).
  { injection H as <- <-. split; [by left|]. left. do 3 (split; [done|]). intros t. by left. }
  set (g1 := set_permits (gw_permits _ g - 1) g) in H. bind_step H. unfold gw_now at 1 in H.
  set (g2 := Build_gateway _ _ _ _ _ _ _ _) in H. bind_step H. change (gw_tick _ g1) with (gw_tick _ g) in H.
  fold a in H. pose proof (admit_run request a g2) as Ha.
  destruct (admit_call limits request a g2) as [[[]|e] g3]; destruct Ha as (Ht & Hp & Ha).
  2: { injection H as <- <-. split; [right; cbn [gw_tick set_permits]; rewrite Ht; simpl; lia|]. left.
       destruct Ha as (H1 & H2 & _ & H4). split; [|split; [exact H2|split; [exact Hp|exact H4]]].
       cbn [gw_permits set_permits]. rewrite H1. simpl. lia. }
  bind_step H. pose proof (call_adapter_run request g3) as Hc.
  destruct (call_adapter limits clock counted request g3) as [r g4]. destruct Hc as ((C1 & C2 & C3) & Hcalls & Htick).
  assert (∀ g5, untouched g4 g5 → gw_provider _ g5 = gw_provider _ g4 → (gw_tick _ g4 ≤ gw_tick _ g5)%nat →
    let g' := set_permits (gw_permits _ g5 + 1) g5 in
    (g' = g ∨ gw_tick _ g < gw_tick _ g')%nat ∧
    (refused a g g' ∨ admitted (erq_tenant_id request) a g g' ∧ calls g' = calls g + 1)) as Hend.
  { intros g5 (U1 & U2 & U3) Hp5 Ht5. cbv zeta. split; [right; cbn [gw_tick set_permits]; simpl in Ht; lia|]. right.
    destruct Ha as (A1 & A2 & A3 & A4 & A5 & A6). unfold admitted, window_of, calls in *.
    cbn [gw_permits gw_remaining gw_windows gw_provider set_permits] in *.
    rewrite U1, U2, U3, C1, C2, C3, A1, A2, Hp5, Hcalls, Hp. simpl in *.
    split_and!; lia || done || apply A5 || apply A6. }
  destruct r as [result|x]; [|injection H as <- <-; exact (Hend g4 ltac:(reflexivity) eq_refl (le_n _))].
  bind_step H. unfold gw_now at 1 in H. set (g5 := Build_gateway _ _ _ _ _ _ _ _) in H.
  bind_step H. unfold lift at 1 in H. destruct (check_result _ _ _ _) as [[]|x]; injection H as <- <-.
  - apply (Hend (set_circuit (circuit_key request) 0 None g5)); [done|done|simpl; lia].
  - apply (Hend g5); [done|done|simpl; lia].
Qed.

(** ** Sequences of calls *)

Fixpoint run_embeds (requests : list EmbeddingRequest) (g : G) : G :=
  match requests with [] => g | r :: rs => run_embeds rs (embed r g).2 end.

(** The provider calls of a run: the tenant, and when the call was admitted *)
Definition admission (request : EmbeddingRequest) (g : G) : list (string * datetime) :=
  if calls g <? calls (embed request g).2 then [(erq_tenant_id request, clock (gw_tick _ g))] else [].

Fixpoint admissions (requests : list EmbeddingRequest) (g : G) : list (string * datetime) :=
  match requests with [] => [] | r :: rs => admission r g ++ admissions rs (embed r g).2 end.

(** When the calls of one tenant were admitted *)
Definition times (t : string) (l : list (string * datetime)) : list datetime :=
  (List.filter (λ x, bool_decide (x.1 = t)) l).*2.
Definition in_minute (T a : datetime) : bool := (T - seconds 60 <? a) && (a <=? T).
Definition calls_in_minute (t : string) (T : datetime) (l : list (string * datetime)) : Z :=
  zlen (List.filter (in_minute T) (times t l)).

Lemma times_app t a b : times t (a ++ b) = times t a ++ times t b.
Proof. unfold times. by rewrite List.filter_app, fmap_app. Qed.

Lemma drop_until_suffix cutoff w : ∃ dropped, w = dropped ++ drop_until cutoff w ∧ ∀ x, x ∈ dropped → x <= cutoff.
Proof.
  induction w as [|x w IH]; cbn [drop_until].
  - exists []. split; [done|]. intros x Hx. by apply not_elem_of_nil in Hx.
  - destruct (Z.leb_spec x cutoff).
    + destruct IH as (d & Hd & Hle). exists (x :: d). split; [simpl; by rewrite <-Hd|].
      intros y [->|Hy]%elem_of_cons; auto.
    + exists []. split; [done|]. intros y Hy. by apply not_elem_of_nil in Hy.
Qed.

Lemma filter_length_le {A} (f : A → bool) l : (List.length (List.filter f l) ≤ List.length l)%nat.
Proof. induction l as [|x l IH]; simpl; [lia|]. destruct (f x); simpl; lia. Qed.

Lemma filter_all_false {A} (f : A → bool) l : (∀ x, x ∈ l → f x = false) → List.filter f l = [].
Proof.
  induction l as [|x l IH]; intros H; simpl; [done|]. rewrite (H x) by by left. apply IH. intros y Hy. apply H. by right.
Qed.

Record limits_inv (past : list (string * datetime)) (g : G) : Prop := {
  li_calls : calls g = zlen past;
  li_budget : calls g + gw_remaining _ g = gl_maximum_calls limits;
  li_remaining : 0 <= gw_remaining _ g;
  li_permits : gw_permits _ g = gl_maximum_concurrency limits;
  li_past x : x ∈ past → x.2 <= clock (gw_tick _ g);
  li_window t : ∃ old, times t past = old ++ window_of t g ∧ ∀ x, x ∈ old → x <= clock (gw_tick _ g) - seconds 60;
  li_rate t T : calls_in_minute t T past <= rate
}.

Context (Hmono : ∀ i j, (i ≤ j)%nat → clock i <= clock j).

Lemma refused_inv past g g' a :
  limits_inv past g → refused a g g' → a = clock (gw_tick _ g) → (gw_tick _ g ≤ gw_tick _ g')%nat → limits_inv past g'.
Proof.
  intros [L1 L2 L3 L4 L5 L6 L7] (R1 & R2 & R3 & R4) -> Ht. apply Hmono in Ht.
  assert (calls g' = calls g) as Hc by (unfold calls; by rewrite R3).
  split; rewrite ?Hc, ?R1, ?R2; try done.
  - intros x Hx. apply L5 in Hx. lia.
  - intros t. destruct (L6 t) as (old & Hold & Hle). destruct (R4 t) as [->| ->].
    + exists old. split; [done|]. intros x Hx. apply Hle in Hx. lia.
    + destruct (drop_until_suffix (clock (gw_tick _ g) - seconds 60) (window_of t g)) as (d & Hd & Hdle).
      exists (old ++ d). rewrite Hold, Hd at 1. split; [by rewrite app_assoc|].
      intros x [Hx|Hx]%elem_of_app; [apply Hle in Hx|apply Hdle in Hx]; lia.
Qed.

Lemma admitted_inv past g g' t :
  limits_inv past g → admitted t (clock (gw_tick _ g)) g g' → calls g' = calls g + 1 →
  (gw_tick _ g ≤ gw_tick _ g')%nat → limits_inv (past ++ [(t, clock (gw_tick _ g))]) g'.
Proof.
  set (a := clock (gw_tick _ g)). intros [L1 L2 L3 L4 L5 L6 L7] (A1 & A2 & A3 & A4 & A5 & A6) Hc Ht. apply Hmono in Ht.
  fold a in Ht. destruct (L6 t) as (old & Hold & Hle).
  destruct (drop_until_suffix (a - seconds 60) (window_of t g)) as (d & Hd & Hdle).
  set (kept := drop_until (a - seconds 60) (window_of t g)) in *.
  assert (∀ t', times t' (past ++ [(t, a)]) = times t' past ++ (if bool_decide (t = t') then [a] else [])) as Htimes.
  { intros t'. rewrite times_app. f_equal. unfold times. simpl. by case_bool_decide. }
  split; rewrite ?Hc, ?A1, ?A2; try done; try lia.
  - rewrite L1. unfold zlen. rewrite length_app. simpl. lia.
  - intros x [Hx|Hx%list_elem_of_singleton]%elem_of_app; [apply L5 in Hx; fold a in Hx; lia|]. subst x. simpl. lia.
  - intros t'. rewrite Htimes. case_bool_decide as Et.
    + subst t'. exists (old ++ d). rewrite A5, Hold, Hd at 1. split; [by rewrite !app_assoc|].
      intros x [Hx|Hx]%elem_of_app; [apply Hle in Hx; fold a in Hx|apply Hdle in Hx]; lia.
    + rewrite app_nil_r, A6 by done. destruct (L6 t') as (old' & Ho & Hl). exists old'. split; [done|].
      intros x Hx. apply Hl in Hx. fold a in Hx. lia.
  - intros t' T. unfold calls_in_minute. rewrite Htimes. case_bool_decide as Et; [|rewrite app_nil_r; apply L7].
    subst t'. destruct (Z.le_gt_cases a T) as [HT|HT].
    + rewrite Hold, Hd, <-!app_assoc, !List.filter_app.
      rewrite (filter_all_false _ old), (filter_all_false _ d).
      * simpl. unfold zlen in *. pose proof (filter_length_le (in_minute T) (kept ++ [a])) as Hlen.
        rewrite List.filter_app in Hlen. rewrite !length_app in *. simpl in *. lia.
      * intros x Hx. apply Hdle in Hx. unfold in_minute. apply andb_false_iff. left. apply Z.ltb_ge. lia.
      * intros x Hx. apply Hle in Hx. fold a in Hx. unfold in_minute. apply andb_false_iff. left. apply Z.ltb_ge. lia.
    + rewrite List.filter_app. simpl. unfold in_minute at 2. rewrite (proj2 (Z.leb_gt a T)), andb_false_r by lia.
      rewrite app_nil_r. apply L7.
Qed.

Lemma embeds_inv requests : ∀ past g,
  limits_inv past g → limits_inv (past ++ admissions requests g) (run_embeds requests g).
Proof.
  induction requests as [|r rs IH]; intros past g Hg; cbn [admissions run_embeds]; [by rewrite app_nil_r|].
  rewrite app_assoc. apply IH. unfold admission. destruct (embed r g) as [res g'] eqn:He. cbn [snd].
  destruct (embed_run _ _ _ _ He) as [Ht [Hr|[Ha Hc]]].
  - assert (calls g' = calls g) as -> by (unfold calls; by destruct Hr as (_ & _ & -> & _)).
    rewrite Z.ltb_irrefl, app_nil_r. eapply refused_inv; [done..|]. destruct Ht as [->|?]; lia.
  - rewrite Hc, (proj2 (Z.ltb_lt _ _)) by lia. apply admitted_inv; try done. destruct Ht as [->|?]; lia.
Qed.

(** the embedding gateway keeps its limits over any sequence of calls and any provider: the
    provider is called once for each admitted request, at most [maximum_calls] times, and what
    remains of that budget is what was not called; with a clock that does not run backwards, the
    calls of one tenant in any minute are at most [rate_limit_per_minute]; and every permit is
    given back. *)
Theorem gateway_keeps_its_limits e g requests :
  new_gateway limits (e, 0) = Ok g →
  let g' := run_embeds requests g in
  calls g' = zlen (admissions requests g) ∧ calls g' + gw_remaining _ g' = gl_maximum_calls limits ∧
  0 <= gw_remaining _ g' ∧ gw_permits _ g' = gl_maximum_concurrency limits ∧
  ∀ t T, calls_in_minute t T (admissions requests g) <= rate.
Proof.
  intros Hg g'. unfold new_gateway in Hg. apply res_bind_ok in Hg as (? & Hok%raise_if_ok & Hg). injection Hg as <-.
  set (g0 := Build_gateway _ _ _ _ _ _ _ _) in *. unfold gateway_limits_ok, in_range in Hok. py_bool.
  assert (limits_inv [] g0) as Hstart.
  { split; simpl; try done; try lia.
    - intros y Hy. by apply not_elem_of_nil in Hy.
    - intros t. exists []. split; [|intros y Hy; by apply not_elem_of_nil in Hy]. by unfold window_of, g0, times.
    - intros t T. unfold calls_in_minute, zlen. simpl. lia. }
  apply (embeds_inv requests) in Hstart as [L1 L2 L3 L4 _ _ L7]. by split_and!.
Qed.
End gateway.

(** ** Witness *)

Section witness.
#[local] Existing Instance demo_digest.
#[local] Existing Instance demo_float.

Definition demo_gateway_limits : gateway_limits :=
  {| gl_maximum_concurrency := 2; gl_maximum_calls := 3; gl_rate_limit_per_minute := 1;
     gl_circuit_failure_threshold := 2; gl_circuit_open_seconds := 30 |}.

Definition demo_embedding_request : EmbeddingRequest :=
  ltac:(let r := eval vm_compute in
          (chunks ← chunk_split demo_chunker "tenant-a" demo_memory_id memory_text
                      (Build_MemoryCitation "evidence-1" "source-1" "runbook#1" (hexdigest "c") (hexdigest "p"));
           embedding_request demo_record "op-1" "reservation-1" "fence-1" memory_spec chunks) in
        match r with Ok ?x => exact x end).

(** Two requests within a minute: the second is refused. *)
Definition demo_requests : list EmbeddingRequest := [demo_embedding_request; demo_embedding_request].
Definition demo_provider (request : EmbeddingRequest) : M nat EmbeddingResult := lift (deterministic_embed 2 request).

Definition demo_gateway : gateway (nat * Z) :=
  {| gw_permits := 2; gw_remaining := 3; gw_windows := ∅; gw_failures := ∅; gw_opened := ∅; gw_tick := 0;
     gw_provider := (0%nat, 0) |}.

Example demo_admissions :
  admissions demo_gateway_limits memory_clock demo_provider demo_requests demo_gateway = [("tenant-a", demo_time)].
Proof. vm_compute. reflexivity. Qed.

Lemma memory_clock_mono i j : (i ≤ j)%nat → memory_clock i <= memory_clock j.
Proof. unfold memory_clock, seconds. unfold us_per_second. lia. Qed.

Lemma gateway_keeps_its_limits_witness :
  zlen (admissions demo_gateway_limits memory_clock demo_provider demo_requests demo_gateway) <= 3 ∧
  ∀ t T, calls_in_minute t T (admissions demo_gateway_limits memory_clock demo_provider demo_requests demo_gateway) <= 1.
Proof.
  destruct (gateway_keeps_its_limits demo_gateway_limits memory_clock demo_provider memory_clock_mono 0%nat demo_gateway
    demo_requests eq_refl) as (H1 & H2 & H3 & _ & H5).
  split; [|exact H5]. rewrite <-H1. cbn [gl_maximum_calls demo_gateway_limits] in H2. lia.
Defined.
End witness.
