(* ===== verification/ModelData.v ===== *)
(** * Model gateway contracts ([model_gateway.py], lines 38-429 and 1286-1321)

    Requests, provider results, prices, the catalogue, tenant policies, reservations and call
    records, with their JSON documents, digests and validators, and the cost arithmetic. *)

From S2P Require Import Prelude PyJson PyTime PyModel Domain Durability.

Definition _MAX_MESSAGE_BYTES : Z := 32768.
Definition _MAX_CONTEXT_BYTES : Z := 131072.
Definition _MAX_MESSAGES : Z := 64.
Definition _MAX_TOOLS : Z := 16.
Definition _MAX_ROUTES : Z := 8.
Definition _MONEY_SCALE : Z := 1000000.

(** ** Enumerations *)

Inductive ModelProvider := MP_FAKE | MP_OPENAI | MP_ANTHROPIC.
#[export] Instance ModelProvider_eq_dec : EqDecision ModelProvider.
Proof. solve_decision. Defined.

Definition provider_value (p : ModelProvider) : string :=
  match p with MP_FAKE => "fake" | MP_OPENAI => "openai" | MP_ANTHROPIC => "anthropic" end.

Inductive ModelRole := MR_SYSTEM | MR_USER | MR_ASSISTANT | MR_TOOL.
#[export] Instance ModelRole_eq_dec : EqDecision ModelRole.
Proof. solve_decision. Defined.

Definition role_value (r : ModelRole) : string :=
  match r with
  | MR_SYSTEM => "system" | MR_USER => "user" | MR_ASSISTANT => "assistant" | MR_TOOL => "tool"
  end.

Inductive DataClassification := DC_PUBLIC | DC_INTERNAL | DC_CONFIDENTIAL | DC_RESTRICTED.
#[export] Instance DataClassification_eq_dec : EqDecision DataClassification.
Proof. solve_decision. Defined.

Definition data_classification_value (c : DataClassification) : string :=
  match c with
  | DC_PUBLIC => "public" | DC_INTERNAL => "internal"
  | DC_CONFIDENTIAL => "confidential" | DC_RESTRICTED => "restricted"
  end.

Inductive ModelCapability := CAP_JSON_SCHEMA | CAP_TOOLS | CAP_VISION.
#[export] Instance ModelCapability_eq_dec : EqDecision ModelCapability.
Proof. solve_decision. Defined.

Definition capability_value (c : ModelCapability) : string :=
  match c with CAP_JSON_SCHEMA => "json_schema" | CAP_TOOLS => "tools" | CAP_VISION => "vision" end.

Inductive ModelFinishReason := FR_STOP | FR_TOOL_CALL | FR_LENGTH | FR_CONTENT_FILTER.
#[export] Instance ModelFinishReason_eq_dec : EqDecision ModelFinishReason.
Proof. solve_decision. Defined.

Inductive BillingDisposition := NOT_BILLED | BILLED | AMBIGUOUS.
#[export] Instance BillingDisposition_eq_dec : EqDecision BillingDisposition.
Proof. solve_decision. Defined.

Inductive ModelErrorCode :=
  | EC_AUTHENTICATION | EC_BAD_REQUEST | EC_CANCELLED | EC_CAPABILITY | EC_CIRCUIT_OPEN
  | EC_CONTENT_FILTER | EC_MALFORMED_RESPONSE | EC_POLICY_DENIED | EC_PRICING_UNKNOWN
  | EC_RATE_LIMITED | EC_TIMEOUT | EC_TRANSIENT | EC_UNAVAILABLE | EC_USAGE_EXCEEDED.
#[export] Instance ModelErrorCode_eq_dec : EqDecision ModelErrorCode.
Proof. solve_decision. Defined.

(** ** Requests *)

Inductive MessageContent :=
  | TextContent (type text : string)
  | JsonContent (type : string) (value : payload).

Definition content_ok (c : MessageContent) : bool :=
  match c with
  | TextContent type text => bool_decide (type = "text") && length_between 1 _MAX_MESSAGE_BYTES text
  | JsonContent type value => bool_decide (type = "json") && (zlen value <=? 64)
  end.

Definition content_json (c : MessageContent) : json :=
  match c with
  | TextContent type text => JObj [("type", JStr type); ("text", JStr text)]
  | JsonContent type value => JObj [("type", JStr type); ("value", JObj value)]
  end.

(** [len(_canonical_json(value))]: the text is ASCII, so bytes are characters *)
Definition json_bytes (v : json) : Z := str_len (canonical_json v).

Record ModelMessage := {
  mm_role : ModelRole;
  mm_content : list MessageContent;
  mm_name : option string;
  mm_tool_call_id : option string
}.

(** The field constraints and [bound_content] *)
Definition ModelMessage_ok (m : ModelMessage) : bool :=
  count_range 1 16 (mm_content m) && forallb content_ok (mm_content m)
  && opt_Identifier (mm_name m) && opt_Identifier (mm_tool_call_id m)
  && (json_bytes (JList (content_json <$> mm_content m)) <=? _MAX_MESSAGE_BYTES).

Definition message_json (m : ModelMessage) : json :=
  JObj [("role", JStr (role_value (mm_role m))); ("content", JList (content_json <$> mm_content m));
        ("name", opt_json (mm_name m)); ("tool_call_id", opt_json (mm_tool_call_id m))].

Record ToolDefinition := {
  td_name : string;
  td_description : string;
  td_input_schema : payload
}.

Definition object_schema (schema : payload) : bool :=
  bool_decide (dict_get "type" schema = Some (JStr "object")).

(** The field constraints and [require_object_schema], which also sorts the schema *)
Definition ToolDefinition_ok (t : ToolDefinition) : bool :=
  Identifier (td_name t) && length_between 1 512 (td_description t) && (zlen (td_input_schema t) <=? 64)
  && object_schema (td_input_schema t) && (json_bytes (JObj (td_input_schema t)) <=? 16384).

Definition new_ToolDefinition (t : ToolDefinition) : res ToolDefinition :=
  t ← validated ToolDefinition_ok "tool definition" t;
  Ok {| td_name := td_name t; td_description := td_description t;
        td_input_schema := sort_payload (td_input_schema t) |}.

Definition tool_json (t : ToolDefinition) : json :=
  JObj [("name", JStr (td_name t)); ("description", JStr (td_description t));
        ("input_schema", JObj (td_input_schema t))].

Record StructuredOutputDefinition := {
  so_name : string;
  so_json_schema : payload;
  so_strict : bool
}.

Definition StructuredOutputDefinition_ok (o : StructuredOutputDefinition) : bool :=
  Identifier (so_name o) && (zlen (so_json_schema o) <=? 128)
  && object_schema (so_json_schema o) && (json_bytes (JObj (so_json_schema o)) <=? 32768).

Definition new_StructuredOutputDefinition (o : StructuredOutputDefinition)
    : res StructuredOutputDefinition :=
  o ← validated StructuredOutputDefinition_ok "structured output" o;
  Ok {| so_name := so_name o; so_json_schema := sort_payload (so_json_schema o);
        so_strict := so_strict o |}.

Definition structured_output_json (o : StructuredOutputDefinition) : json :=
  JObj [("name", JStr (so_name o)); ("json_schema", JObj (so_json_schema o));
        ("strict", JBool (so_strict o))].

Record ModelCallBinding := {
  mb_tenant_id : string;
  mb_run_id : string;
  mb_call_id : string;
  mb_purpose : string;
  mb_data_classification : DataClassification;
  mb_risk : RiskLevel
}.

Definition ModelCallBinding_ok (b : ModelCallBinding) : bool :=
  Identifier (mb_tenant_id b) && Identifier (mb_run_id b) && Identifier (mb_call_id b)
  && Identifier (mb_purpose b).

Record ModelRequest := {
  mq_binding : ModelCallBinding;
  mq_messages : list ModelMessage;
  mq_max_output_tokens : Z;
  mq_temperature_milli : Z;
  mq_tools : list ToolDefinition;
  mq_allowed_tool_names : list string;
  mq_structured_output : option StructuredOutputDefinition
}.

Definition mq_tenant_id (q : ModelRequest) : string := mb_tenant_id (mq_binding q).
Definition mq_run_id (q : ModelRequest) : string := mb_run_id (mq_binding q).
Definition mq_call_id (q : ModelRequest) : string := mb_call_id (mq_binding q).

(** The field constraints, [require_unique_tool_names] and [bound_context]; the parts of a
    request are models of their own, validated when they are made. *)
Definition ModelRequest_ok (q : ModelRequest) : bool :=
  ModelCallBinding_ok (mq_binding q)
  && count_range 1 _MAX_MESSAGES (mq_messages q) && forallb ModelMessage_ok (mq_messages q)
  && in_range 1 32768 (mq_max_output_tokens q) && in_range 0 2000 (mq_temperature_milli q)
  && (zlen (mq_tools q) <=? _MAX_TOOLS) && forallb ToolDefinition_ok (mq_tools q)
  && (zlen (mq_allowed_tool_names q) <=? _MAX_TOOLS) && forallb Identifier (mq_allowed_tool_names q)
  && opt_ok StructuredOutputDefinition_ok (mq_structured_output q)
  && bool_decide (NoDup (td_name <$> mq_tools q))
  && (json_bytes (JList (message_json <$> mq_messages q)) <=? _MAX_CONTEXT_BYTES).

(** [ModelRequest(...)], with [normalize_tools] *)
Definition new_ModelRequest (q : ModelRequest) : res ModelRequest :=
  q ← validated ModelRequest_ok "model request" q;
  Ok {| mq_binding := mq_binding q; mq_messages := mq_messages q;
        mq_max_output_tokens := mq_max_output_tokens q; mq_temperature_milli := mq_temperature_milli q;
        mq_tools := mq_tools q; mq_allowed_tool_names := sorted_set (mq_allowed_tool_names q);
        mq_structured_output := mq_structured_output q |}.

Definition binding_json (b : ModelCallBinding) : json :=
  JObj [("tenant_id", JStr (mb_tenant_id b)); ("run_id", JStr (mb_run_id b));
        ("call_id", JStr (mb_call_id b)); ("purpose", JStr (mb_purpose b));
        ("data_classification", JStr (data_classification_value (mb_data_classification b)));
        ("risk", JStr (risk_value (mb_risk b)))].

Definition output_definition_json (o : option StructuredOutputDefinition) : json :=
  match o with Some o => structured_output_json o | None => JNull end.

Definition request_json (q : ModelRequest) : json :=
  JObj [("binding", binding_json (mq_binding q)); ("messages", JList (message_json <$> mq_messages q));
        ("max_output_tokens", JInt (mq_max_output_tokens q));
        ("temperature_milli", JInt (mq_temperature_milli q));
        ("tools", JList (tool_json <$> mq_tools q));
        ("allowed_tool_names", strings_json (mq_allowed_tool_names q));
        ("structured_output", output_definition_json (mq_structured_output q))].

Definition request_digest `{!Digest} (q : ModelRequest) : string := json_digest (request_json q).

(** [_conservative_tokens] *)
Definition _conservative_tokens (q : ModelRequest) : Z :=
  Z.max 1 ((json_bytes (JObj [("messages", JList (message_json <$> mq_messages q));
                              ("tools", JList (tool_json <$> mq_tools q));
                              ("structured_output", output_definition_json (mq_structured_output q))])
            + 2) / 3).

(** ** Provider results and prices *)

Record ModelUsage := {
  us_input_tokens : Z;
  us_output_tokens : Z;
  us_cache_read_tokens : Z;
  us_cache_write_tokens : Z;
  us_provider_reported : bool
}.
#[export] Instance ModelUsage_eq_dec : EqDecision ModelUsage.
Proof. solve_decision. Defined.

Definition ModelUsage_ok (u : ModelUsage) : bool :=
  in_range 0 10000000 (us_input_tokens u) && in_range 0 10000000 (us_output_tokens u)
  && in_range 0 10000000 (us_cache_read_tokens u) && in_range 0 10000000 (us_cache_write_tokens u).

Definition total_tokens (u : ModelUsage) : Z :=
  us_input_tokens u + us_output_tokens u + us_cache_read_tokens u + us_cache_write_tokens u.

Record SafetyAssessment := {
  sa_blocked : bool;
  sa_categories : list string;
  sa_provider_reported : bool
}.

Definition new_SafetyAssessment (a : SafetyAssessment) : res SafetyAssessment :=
  a ← validated (λ a, forallb Identifier (sa_categories a)) "safety assessment" a;
  Ok {| sa_blocked := sa_blocked a; sa_categories := sorted_set (sa_categories a);
        sa_provider_reported := sa_provider_reported a |}.

Record ProviderResult := {
  pr_structured_output : payload;
  pr_usage : ModelUsage;
  pr_finish_reason : ModelFinishReason;
  pr_safety : SafetyAssessment;
  pr_provider_request_ref : option string
}.

Definition ProviderResult_ok (r : ProviderResult) : bool :=
  (zlen (pr_structured_output r) <=? 128) && ModelUsage_ok (pr_usage r)
  && forallb Identifier (sa_categories (pr_safety r)) && opt_Identifier (pr_provider_request_ref r).

Record ModelPrice := {
  px_version : string;
  px_currency : string;
  px_input : Z;
  px_output : Z;
  px_cache_read : Z;
  px_cache_write : Z
}.

Definition ModelPrice_ok (p : ModelPrice) : bool :=
  Identifier (px_version p) && bool_decide (px_currency p = "USD")
  && in_range 0 (10 ^ 12) (px_input p) && in_range 0 (10 ^ 12) (px_output p)
  && in_range 0 (10 ^ 12) (px_cache_read p) && in_range 0 (10 ^ 12) (px_cache_write p).

(** [_round_cost]: the quotient by [_MONEY_SCALE] rounded up.  The decimal quotient is exact, as
    products of token counts and prices have fewer than the context's 28 digits. *)
Definition _round_cost (product : Z) : Z := - (- product / _MONEY_SCALE).

Definition maximum_cost_microunits (p : ModelPrice) (input_tokens output_tokens : Z) : Z :=
  _round_cost (input_tokens * px_input p + output_tokens * px_output p
               + input_tokens * px_cache_read p + input_tokens * px_cache_write p).

Definition actual_cost_microunits (p : ModelPrice) (u : ModelUsage) : Z :=
  _round_cost (us_input_tokens u * px_input p + us_output_tokens u * px_output p
               + us_cache_read_tokens u * px_cache_read p + us_cache_write_tokens u * px_cache_write p).

(** ** Catalogue and policy *)

Record CredentialReference := { cr_reference : string; cr_version : Z }.

Record ModelCatalogEntry := {
  ce_tenant_id : string;
  ce_provider : ModelProvider;
  ce_model : string;
  ce_region : string;
  ce_capabilities : list ModelCapability;
  ce_context_tokens : Z;
  ce_maximum_output_tokens : Z;
  ce_tokenizer : option string;
  ce_tokenizer_limitations : string;
  ce_usage_limitations : string;
  ce_price : ModelPrice;
  ce_credential : CredentialReference;
  ce_enabled : bool
}.

(** The field constraints and [reserve_catalog_separator] *)
Definition ModelCatalogEntry_ok (e : ModelCatalogEntry) : bool :=
  Identifier (ce_tenant_id e) && Identifier (ce_model e) && Identifier (ce_region e)
  && in_range 1 10000000 (ce_context_tokens e) && in_range 1 1000000 (ce_maximum_output_tokens e)
  && opt_Identifier (ce_tokenizer e) && length_between 1 512 (ce_tokenizer_limitations e)
  && length_between 1 512 (ce_usage_limitations e) && ModelPrice_ok (ce_price e)
  && Identifier (cr_reference (ce_credential e)) && (1 <=? cr_version (ce_credential e))
  && str_forallb (λ c, negb (bool_decide (c = ":"%char))) (ce_model e)
  && str_forallb (λ c, negb (bool_decide (c = ":"%char))) (ce_region e).

Definition catalog_key_of (provider : ModelProvider) (model region : string) : string :=
  provider_value provider +:+ ":" +:+ model +:+ ":" +:+ region.

Definition entry_key (e : ModelCatalogEntry) : string :=
  catalog_key_of (ce_provider e) (ce_model e) (ce_region e).

Record ModelRoute := {
  mt_provider : ModelProvider;
  mt_model : string;
  mt_region : string;
  mt_priority : Z
}.

Definition ModelRoute_ok (r : ModelRoute) : bool :=
  Identifier (mt_model r) && Identifier (mt_region r) && in_range 1 _MAX_ROUTES (mt_priority r).

Definition catalog_key (r : ModelRoute) : string :=
  catalog_key_of (mt_provider r) (mt_model r) (mt_region r).

Definition route_json (r : ModelRoute) : json :=
  JObj [("provider", JStr (provider_value (mt_provider r))); ("model", JStr (mt_model r));
        ("region", JStr (mt_region r)); ("priority", JInt (mt_priority r))].

(** The frozen sets of a policy are lists; they are only tested for membership and sorted. *)
Record TenantModelPolicy := {
  tm_tenant_id : string;
  tm_policy_id : string;
  tm_revision : Z;
  tm_allowed_providers : list ModelProvider;
  tm_allowed_models : list string;
  tm_allowed_regions : list string;
  tm_allowed_data_classifications : list DataClassification;
  tm_allowed_purposes : list string;
  tm_required_capabilities : list ModelCapability;
  tm_risk_ceiling : RiskLevel;
  tm_routes : list ModelRoute;
  tm_maximum_input_tokens : Z;
  tm_maximum_output_tokens : Z;
  tm_maximum_cost_microunits : Z;
  tm_maximum_calls_per_run : Z;
  tm_repair_attempts : Z;
  tm_fallback_on_ambiguous_billing : bool
}.

(** The field constraints and the unique priorities of [normalize_routes] *)
Definition TenantModelPolicy_ok (p : TenantModelPolicy) : bool :=
  Identifier (tm_tenant_id p) && Identifier (tm_policy_id p) && (1 <=? tm_revision p)
  && forallb Identifier (tm_allowed_models p) && forallb Identifier (tm_allowed_regions p)
  && forallb Identifier (tm_allowed_purposes p)
  && count_range 1 _MAX_ROUTES (tm_routes p) && forallb ModelRoute_ok (tm_routes p)
  && in_range 1 10000000 (tm_maximum_input_tokens p) && in_range 1 1000000 (tm_maximum_output_tokens p)
  && in_range 1 (10 ^ 12) (tm_maximum_cost_microunits p)
  && in_range 1 1000 (tm_maximum_calls_per_run p) && in_range 0 2 (tm_repair_attempts p)
  && bool_decide (NoDup (mt_priority <$> tm_routes p)).

(** Priorities are distinct, so they alone decide the order of the routes. *)
Definition route_leb (a b : ModelRoute) : bool := mt_priority a <=? mt_priority b.

Definition new_TenantModelPolicy (p : TenantModelPolicy) : res TenantModelPolicy :=
  p ← validated TenantModelPolicy_ok "tenant model policy" p;
  Ok {| tm_tenant_id := tm_tenant_id p; tm_policy_id := tm_policy_id p; tm_revision := tm_revision p;
        tm_allowed_providers := tm_allowed_providers p; tm_allowed_models := tm_allowed_models p;
        tm_allowed_regions := tm_allowed_regions p;
        tm_allowed_data_classifications := tm_allowed_data_classifications p;
        tm_allowed_purposes := tm_allowed_purposes p;
        tm_required_capabilities := tm_required_capabilities p;
        tm_risk_ceiling := tm_risk_ceiling p; tm_routes := py_sorted route_leb (tm_routes p);
        tm_maximum_input_tokens := tm_maximum_input_tokens p;
        tm_maximum_output_tokens := tm_maximum_output_tokens p;
        tm_maximum_cost_microunits := tm_maximum_cost_microunits p;
        tm_maximum_calls_per_run := tm_maximum_calls_per_run p;
        tm_repair_attempts := tm_repair_attempts p;
        tm_fallback_on_ambiguous_billing := tm_fallback_on_ambiguous_billing p |}.

Definition model_policy_material (p : TenantModelPolicy) : payload :=
  [("tenant_id", JStr (tm_tenant_id p)); ("policy_id", JStr (tm_policy_id p));
   ("revision", JInt (tm_revision p));
   ("allowed_providers", strings_json (sorted_set (provider_value <$> tm_allowed_providers p)));
   ("allowed_models", strings_json (sorted_set (tm_allowed_models p)));
   ("allowed_regions", strings_json (sorted_set (tm_allowed_regions p)));
   ("allowed_data_classifications",
      strings_json (sorted_set (data_classification_value <$> tm_allowed_data_classifications p)));
   ("allowed_purposes", strings_json (sorted_set (tm_allowed_purposes p)));
   ("required_capabilities", strings_json (sorted_set (capability_value <$> tm_required_capabilities p)));
   ("risk_ceiling", JStr (risk_value (tm_risk_ceiling p)));
   ("routes", JList (route_json <$> tm_routes p));
   ("maximum_input_tokens", JInt (tm_maximum_input_tokens p));
   ("maximum_output_tokens", JInt (tm_maximum_output_tokens p));
   ("maximum_cost_microunits", JInt (tm_maximum_cost_microunits p));
   ("maximum_calls_per_run", JInt (tm_maximum_calls_per_run p));
   ("repair_attempts", JInt (tm_repair_attempts p));
   ("fallback_on_ambiguous_billing", JBool (tm_fallback_on_ambiguous_billing p))].

Definition model_policy_digest `{!Digest} (p : TenantModelPolicy) : string :=
  json_digest (JObj (model_policy_material p)).

(** ** Reservations, records and views *)

Record ModelReservation := {
  mv_tenant_id : string;
  mv_run_id : string;
  mv_reservation_id : string;
  mv_requested_input_tokens : Z;
  mv_requested_output_tokens : Z;
  mv_reserved_cost_microunits : Z;
  mv_policy_id : string;
  mv_policy_revision : Z;
  mv_policy_digest : string;
  mv_created_at : datetime
}.
#[export] Instance ModelReservation_eq_dec : EqDecision ModelReservation.
Proof. solve_decision. Defined.

Definition ModelReservation_ok (v : ModelReservation) : bool :=
  Identifier (mv_tenant_id v) && Identifier (mv_run_id v) && Identifier (mv_reservation_id v)
  && (0 <=? mv_requested_input_tokens v) && (1 <=? mv_requested_output_tokens v)
  && (0 <=? mv_reserved_cost_microunits v) && Identifier (mv_policy_id v)
  && (1 <=? mv_policy_revision v) && is_sha256_hex (mv_policy_digest v).

Record ModelCallRecord := {
  mc_tenant_id : string;
  mc_run_id : string;
  mc_call_id : string;
  mc_attempt_id : string;
  mc_request_digest : string;
  mc_catalog_key : string;
  mc_price_version : string;
  mc_policy_revision : Z;
  mc_requested_at : datetime;
  mc_completed_at : option datetime;
  mc_outcome : string;
  mc_billing : BillingDisposition;
  mc_usage : option ModelUsage;
  mc_cost_microunits : option Z;
  mc_error_code : option ModelErrorCode
}.

Definition ModelCallRecord_ok (c : ModelCallRecord) : bool :=
  Identifier (mc_tenant_id c) && Identifier (mc_run_id c) && Identifier (mc_call_id c)
  && Identifier (mc_attempt_id c) && is_sha256_hex (mc_request_digest c)
  && Identifier (mc_catalog_key c) && Identifier (mc_price_version c) && (1 <=? mc_policy_revision c)
  && Identifier (mc_outcome c) && opt_ok ModelUsage_ok (mc_usage c)
  && opt_ok (λ z, 0 <=? z) (mc_cost_microunits c).

Record ModelUsageView := {
  uv_run_id : string;
  uv_reserved_cost_microunits : Z;
  uv_reconciled_cost_microunits : Z;
  uv_ambiguous_cost_microunits : Z;
  uv_input_tokens : Z;
  uv_output_tokens : Z;
  uv_call_count : Z
}.

Definition ModelUsageView_ok (v : ModelUsageView) : bool :=
  Identifier (uv_run_id v) && (0 <=? uv_reserved_cost_microunits v)
  && (0 <=? uv_reconciled_cost_microunits v) && (0 <=? uv_ambiguous_cost_microunits v)
  && (0 <=? uv_input_tokens v) && (0 <=? uv_output_tokens v) && (0 <=? uv_call_count v).

Record ProviderHealthView := {
  ph_provider : ModelProvider;
  ph_model : string;
  ph_region : string;
  ph_status : string;
  ph_observed_calls : Z;
  ph_failure_count : Z
}.

Definition ProviderHealthView_ok (v : ProviderHealthView) : bool :=
  Identifier (ph_model v) && Identifier (ph_region v)
  && bool_decide (ph_status v ∈ ["healthy"; "degraded"; "open"; "unknown"])
  && (0 <=? ph_observed_calls v) && (0 <=? ph_failure_count v).
