(* ===== verification/ModelStore.v ===== *)
(** * The model control store ([InMemoryModelControlStore] of [model_gateway.py])

    Policies, the catalogue, tenant budgets, and the ledger of reservations and call records.
    One definition per method. *)

From S2P Require Import Prelude PyJson PyTime PyModel Domain ModelData.

(** ** State *)

Record model_store := {
  _policies : gmap string TenantModelPolicy;
  _catalog : gmap (string * string) ModelCatalogEntry;
  _limits : gmap string Z;
  _reservations : list ((string * string) * ModelReservation);
  _records : list ((string * string) * ModelCallRecord);
  _finalized : gmap (string * string) bool
}.

(** [InMemoryModelControlStore(policies=..., catalog=..., tenant_cost_limits=...)]: a later
    policy or entry with the same key replaces an earlier one. *)
Definition new_model_store (policies : list TenantModelPolicy) (catalog : list ModelCatalogEntry)
    (tenant_cost_limits : gmap string Z) : model_store :=
  {| _policies := foldl (λ m p, <[tm_tenant_id p := p]> m) ∅ policies;
     _catalog := foldl (λ m e, <[(ce_tenant_id e, entry_key e) := e]> m) ∅ catalog;
     _limits := tenant_cost_limits; _reservations := []; _records := []; _finalized := ∅ |}.

Definition set_policies (f : gmap string TenantModelPolicy → gmap string TenantModelPolicy)
    (s : model_store) : model_store :=
  {| _policies := f (_policies s); _catalog := _catalog s; _limits := _limits s;
     _reservations := _reservations s; _records := _records s; _finalized := _finalized s |}.

Definition set_reservation (k : string * string) (v : ModelReservation) (s : model_store) : model_store :=
  {| _policies := _policies s; _catalog := _catalog s; _limits := _limits s;
     _reservations := dict_set k v (_reservations s); _records := _records s;
     _finalized := _finalized s |}.

Definition set_record (k : string * string) (c : ModelCallRecord) (s : model_store) : model_store :=
  {| _policies := _policies s; _catalog := _catalog s; _limits := _limits s;
     _reservations := _reservations s; _records := dict_set k c (_records s);
     _finalized := _finalized s |}.

Definition set_finalized (k : string * string) (b : bool) (s : model_store) : model_store :=
  {| _policies := _policies s; _catalog := _catalog s; _limits := _limits s;
     _reservations := _reservations s; _records := _records s;
     _finalized := <[k := b]> (_finalized s) |}.

Definition reservations (s : model_store) : list ModelReservation := (_reservations s).*2.
Definition records (s : model_store) : list ModelCallRecord := (_records s).*2.

Definition of_call (tenant_id call_id : string) (c : ModelCallRecord) : bool :=
  bool_decide (mc_tenant_id c = tenant_id) && bool_decide (mc_call_id c = call_id).

Definition is_ambiguous (c : ModelCallRecord) : bool := bool_decide (mc_billing c = AMBIGUOUS).
Definition is_billed (c : ModelCallRecord) : bool := bool_decide (mc_billing c = BILLED).

(** [record.cost_microunits or 0] *)
Definition cost_or_0 (c : ModelCallRecord) : Z := default 0 (mc_cost_microunits c).

(** ** Policies and catalogue *)

Definition current_policy (tenant_id : string) (s : model_store) : option TenantModelPolicy :=
  _policies s !! tenant_id.

Definition replace_policy (policy : TenantModelPolicy) : M model_store unit :=
  modify (set_policies (insert (tm_tenant_id policy) policy)).

Definition catalog_entry (tenant_id key : string) (s : model_store) : option ModelCatalogEntry :=
  _catalog s !! (tenant_id, key).

(** ** Budget *)

(** What a reservation counts against its tenant's budget: the reserved amount while an attempt
    may still be billed, then what was billed *)
Definition _consumed_cost (s : model_store) (v : ModelReservation) : Z :=
  match _finalized s !! (mv_tenant_id v, mv_reservation_id v) with
  | None | Some true => mv_reserved_cost_microunits v
  | Some false =>
      sum_of cost_or_0 (List.filter (λ c, of_call (mv_tenant_id v) (mv_reservation_id v) c && is_billed c)
                          (records s))
  end.

Definition tenant_consumed (s : model_store) (tenant_id : string) : Z :=
  sum_of (_consumed_cost s) (List.filter (λ v, bool_decide (mv_tenant_id v = tenant_id)) (reservations s)).

Definition run_calls (s : model_store) (tenant_id run_id : string) : Z :=
  zlen (List.filter (λ v, bool_decide (mv_tenant_id v = tenant_id) && bool_decide (mv_run_id v = run_id))
          (reservations s)).

Section digest.
Context `{!Digest}.

Definition same_reservation (q : ModelRequest) (policy : TenantModelPolicy) (maximum_input_tokens : Z)
    (v : ModelReservation) : bool :=
  (mv_requested_input_tokens v =? maximum_input_tokens)
  && (mv_requested_output_tokens v =? mq_max_output_tokens q)
  && bool_decide (mv_policy_id v = tm_policy_id policy)
  && (mv_policy_revision v =? tm_revision policy)
  && bool_decide (mv_policy_digest v = model_policy_digest policy).

Definition reserve (q : ModelRequest) (policy : TenantModelPolicy)
    (maximum_input_tokens maximum_cost_microunits : Z) (now : datetime) : M model_store ModelReservation :=
  let key := (mq_tenant_id q, mq_call_id q) in
  s ← get;
  match dict_get key (_reservations s) with
  | Some existing =>
      lift (raise_if (negb (same_reservation q policy maximum_input_tokens existing)) PolicyDenied
              "model reservation parameters changed");;
      mret existing
  | None =>
      lift (raise_if (tm_maximum_cost_microunits policy <? maximum_cost_microunits) PolicyDenied
              "model call exceeds policy cost ceiling");;
      lift (raise_if (default 0 (_limits s !! mq_tenant_id q)
                      <? tenant_consumed s (mq_tenant_id q) + maximum_cost_microunits) PolicyDenied
              "tenant model budget exhausted");;
      lift (raise_if (tm_maximum_calls_per_run policy <=? run_calls s (mq_tenant_id q) (mq_run_id q))
              PolicyDenied "model run call limit exhausted");;
      v ← lift (validated ModelReservation_ok "model reservation"
        {| mv_tenant_id := mq_tenant_id q; mv_run_id := mq_run_id q; mv_reservation_id := mq_call_id q;
           mv_requested_input_tokens := maximum_input_tokens;
           mv_requested_output_tokens := mq_max_output_tokens q;
           mv_reserved_cost_microunits := maximum_cost_microunits;
           mv_policy_id := tm_policy_id policy; mv_policy_revision := tm_revision policy;
           mv_policy_digest := model_policy_digest policy; mv_created_at := now |});
      modify (set_reservation key v);;
      mret v
  end.

(** The write-ahead intent of one attempt *)
Definition requested_record (v : ModelReservation) (q : ModelRequest) (entry : ModelCatalogEntry)
    (attempt_id : string) (now : datetime) : ModelCallRecord :=
  {| mc_tenant_id := mq_tenant_id q; mc_run_id := mq_run_id q; mc_call_id := mq_call_id q;
     mc_attempt_id := attempt_id; mc_request_digest := request_digest q;
     mc_catalog_key := entry_key entry; mc_price_version := px_version (ce_price entry);
     mc_policy_revision := mv_policy_revision v; mc_requested_at := now; mc_completed_at := None;
     mc_outcome := "requested"; mc_billing := AMBIGUOUS; mc_usage := None;
     mc_cost_microunits := None; mc_error_code := None |}.

Definition append_requested (v : ModelReservation) (q : ModelRequest) (entry : ModelCatalogEntry)
    (attempt_id : string) (now : datetime) : M model_store ModelCallRecord :=
  let key := (mq_tenant_id q, attempt_id) in
  s ← get;
  match dict_get key (_records s) with
  | Some existing =>
      lift (raise_if (bool_decide (mc_request_digest existing ≠ request_digest q)) PolicyDenied
              "model attempt id was reused with different input");;
      lift (raise PolicyDenied "model attempt already has durable intent; reconcile before retry")
  | None =>
      c ← lift (validated ModelCallRecord_ok "model call record"
                  (requested_record v q entry attempt_id now));
      modify (set_record key c);;
      mret c
  end.
End digest.

(** [current.model_copy(update={...})] *)
Definition settled (outcome : string) (billing : BillingDisposition) (usage : option ModelUsage)
    (cost_microunits : option Z) (error_code : option ModelErrorCode) (now : datetime)
    (c : ModelCallRecord) : ModelCallRecord :=
  {| mc_tenant_id := mc_tenant_id c; mc_run_id := mc_run_id c; mc_call_id := mc_call_id c;
     mc_attempt_id := mc_attempt_id c; mc_request_digest := mc_request_digest c;
     mc_catalog_key := mc_catalog_key c; mc_price_version := mc_price_version c;
     mc_policy_revision := mc_policy_revision c; mc_requested_at := mc_requested_at c;
     mc_completed_at := Some now; mc_outcome := outcome; mc_billing := billing; mc_usage := usage;
     mc_cost_microunits := cost_microunits; mc_error_code := error_code |}.

(** Whether some record of the call is still ambiguous *)
Definition call_ambiguous (s : model_store) (tenant_id call_id : string) : bool :=
  existsb is_ambiguous (List.filter (of_call tenant_id call_id) (records s)).

Definition reconcile (tenant_id attempt_id outcome : string) (billing : BillingDisposition)
    (usage : option ModelUsage) (cost_microunits : option Z) (error_code : option ModelErrorCode)
    (now : datetime) : M model_store ModelCallRecord :=
  lift (raise_if (bool_decide (billing = BILLED)
                  && (bool_decide (usage = None) || bool_decide (cost_microunits = None)))
          IntegrityFailure "billed model outcome requires usage and cost");;
  let key := (tenant_id, attempt_id) in
  s ← get;
  match dict_get key (_records s) with
  | None => lift (raise PolicyDenied "model attempt intent is unavailable")
  | Some current =>
      let updated := settled outcome billing usage cost_microunits error_code now current in
      match mc_completed_at current with
      | None => modify (set_record key updated);; mret updated
      | Some _ =>
          if is_ambiguous current && negb (bool_decide (billing = AMBIGUOUS)) then
            modify (set_record key updated);;
            let call_key := (tenant_id, mc_call_id current) in
            s ← get;
            (if bool_decide (is_Some (_finalized s !! call_key))
             then modify (set_finalized call_key (call_ambiguous s tenant_id (mc_call_id current)))
             else mret tt);;
            mret updated
          else mret current
      end
  end.

Definition finalize (v : ModelReservation) (now : datetime) : M model_store unit :=
  let key := (mv_tenant_id v, mv_reservation_id v) in
  s ← get;
  match _finalized s !! key with
  | Some _ => mret tt
  | None => modify (set_finalized key (call_ambiguous s (mv_tenant_id v) (mv_reservation_id v)))
  end.

(** ** Views *)

Definition usage (tenant_id run_id : string) (s : model_store) : res ModelUsageView :=
  let vs := List.filter (λ v, bool_decide (mv_tenant_id v = tenant_id) && bool_decide (mv_run_id v = run_id))
              (reservations s) in
  let cs := List.filter (λ c, bool_decide (mc_tenant_id c = tenant_id) && bool_decide (mc_run_id c = run_id))
              (records s) in
  let used := omap mc_usage cs in
  validated ModelUsageView_ok "usage view"
    {| uv_run_id := run_id;
       uv_reserved_cost_microunits := sum_of mv_reserved_cost_microunits vs;
       uv_reconciled_cost_microunits := sum_of cost_or_0 (List.filter is_billed cs);
       uv_ambiguous_cost_microunits := sum_of mv_reserved_cost_microunits
         (List.filter (λ v, existsb (λ c, bool_decide (mc_call_id c = mv_reservation_id v)
                                          && (is_ambiguous c || bool_decide (mc_completed_at c = None))) cs) vs);
       uv_input_tokens := sum_of us_input_tokens used;
       uv_output_tokens := sum_of us_output_tokens used;
       uv_call_count := zlen cs |}.

Definition route_health (tenant_id : string) (s : model_store) (r : ModelRoute) : res ProviderHealthView :=
  let cs := List.filter (λ c, bool_decide (mc_tenant_id c = tenant_id)
                              && bool_decide (mc_catalog_key c = catalog_key r)) (records s) in
  let failures := zlen (List.filter (λ c, bool_decide (is_Some (mc_error_code c))) cs) in
  validated ProviderHealthView_ok "provider health view"
    {| ph_provider := mt_provider r; ph_model := mt_model r; ph_region := mt_region r;
       ph_status := match cs with
                    | [] => "unknown"
                    | _ => if failures =? 0 then "healthy" else "degraded"
                    end;
       ph_observed_calls := zlen cs; ph_failure_count := failures |}.

Definition health (tenant_id : string) (s : model_store) : res (list ProviderHealthView) :=
  match current_policy tenant_id s with
  | None => Ok []
  | Some policy =>
      foldM (λ views r, v ← route_health tenant_id s r; Ok (views ++ [v])) [] (tm_routes policy)
  end.

Definition catalog (tenant_id : string) (s : model_store) : list ModelCatalogEntry :=
  match current_policy tenant_id s with
  | None => []
  | Some policy => omap (λ r, catalog_entry tenant_id (catalog_key r) s) (tm_routes policy)
  end.
