(* ===== verification/ModelCalls.v ===== *)
(** * The model gateway ([ModelGateway] of [model_gateway.py])

    [generate] as a thread over the operations the gateway performs on what threads share: the
    control store's methods (each under the store's lock), the gateway's own locked sections,
    the clock, the cancellation flag and the provider adapters. *)

From S2P Require Import Prelude PyJson PyTime PyModel PyProg Domain ModelData ModelStore.

(** ** Errors *)

Record ProviderInvocationError := {
  pe_code : ModelErrorCode;
  pe_retryable : bool;
  pe_billing : BillingDisposition
}.

(** What [generate] may raise: a provider error with its fields, or any other exception *)
Inductive model_exn :=
  | Provider (e : ProviderInvocationError)
  | Plain (e : exn).

(** What an adapter does: return a result, raise a typed error, or raise anything else *)
Inductive provider_outcome :=
  | Result (r : ProviderResult)
  | TypedError (e : ProviderInvocationError)
  | OtherError.

Definition provider_error (code : ModelErrorCode) (retryable : bool) (billing : BillingDisposition)
    : model_exn :=
  Provider {| pe_code := code; pe_retryable := retryable; pe_billing := billing |}.

(** The codes after which another route is tried and the circuit counts a failure *)
Definition transient_code (c : ModelErrorCode) : bool :=
  bool_decide (c ∈ [EC_RATE_LIMITED; EC_TIMEOUT; EC_TRANSIENT; EC_UNAVAILABLE]).

(** ** The gateway object *)

Record ModelGateway := {
  gw_adapters : list ModelProvider;
  gw_rate_limit : Z;
  gw_circuit_threshold : Z;
  gw_circuit_duration : Z
}.

Record gateway_state := {
  gs_permits : Z;
  gs_rate_windows : gmap string (list datetime);
  gs_circuit_failures : gmap string Z;
  gs_circuit_opened : gmap string datetime
}.

(** [ModelGateway(...)]; durations are in microseconds *)
Definition new_ModelGateway (adapters : list ModelProvider)
    (maximum_concurrency rate_limit_per_minute circuit_failure_threshold circuit_open_seconds : Z)
    : res (ModelGateway * gateway_state) :=
  raise_if (negb (in_range 1 1000 maximum_concurrency)) ValueError "model concurrency bound is invalid";;
  raise_if (negb (in_range 1 100000 rate_limit_per_minute)) ValueError "model rate bound is invalid";;
  Ok ({| gw_adapters := adapters; gw_rate_limit := rate_limit_per_minute;
         gw_circuit_threshold := circuit_failure_threshold;
         gw_circuit_duration := seconds circuit_open_seconds |},
      {| gs_permits := maximum_concurrency; gs_rate_windows := ∅; gs_circuit_failures := ∅;
         gs_circuit_opened := ∅ |}).

Definition set_gs_permits (n : Z) (g : gateway_state) : gateway_state :=
  {| gs_permits := n; gs_rate_windows := gs_rate_windows g;
     gs_circuit_failures := gs_circuit_failures g; gs_circuit_opened := gs_circuit_opened g |}.

Definition set_rate_window (tenant_id : string) (window : list datetime) (g : gateway_state) : gateway_state :=
  {| gs_permits := gs_permits g; gs_rate_windows := <[tenant_id := window]> (gs_rate_windows g);
     gs_circuit_failures := gs_circuit_failures g; gs_circuit_opened := gs_circuit_opened g |}.

Definition set_gs_circuit (key : string) (failures : Z) (opened : option datetime) (g : gateway_state)
    : gateway_state :=
  {| gs_permits := gs_permits g; gs_rate_windows := gs_rate_windows g;
     gs_circuit_failures := <[key := failures]> (gs_circuit_failures g);
     gs_circuit_opened := partial_alter (λ _, opened) key (gs_circuit_opened g) |}.

Definition model_circuit_key (tenant_id key : string) : string := tenant_id +:+ String "000" key.

(** [BoundedSemaphore.acquire(blocking=False)] *)
Definition acquire_permit (g : gateway_state) : bool * gateway_state :=
  if 0 <? gs_permits g then (true, set_gs_permits (gs_permits g - 1) g) else (false, g).

Definition release_permit (g : gateway_state) : gateway_state := set_gs_permits (gs_permits g + 1) g.

Fixpoint popleft_until (threshold : datetime) (window : list datetime) : list datetime :=
  match window with
  | [] => []
  | t :: rest => if t <=? threshold then popleft_until threshold rest else window
  end.

(** The locked section of [_check_rate]: whether the call is admitted *)
Definition check_rate (gw : ModelGateway) (tenant_id : string) (now : datetime) (g : gateway_state)
    : bool * gateway_state :=
  let window := popleft_until (now - seconds 60) (default [] (gs_rate_windows g !! tenant_id)) in
  if gw_rate_limit gw <=? zlen window then (false, set_rate_window tenant_id window g)
  else (true, set_rate_window tenant_id (window ++ [now]) g).

Definition _circuit_is_open (gw : ModelGateway) (tenant_id key : string) (now : datetime)
    (g : gateway_state) : bool * gateway_state :=
  let k := model_circuit_key tenant_id key in
  match gs_circuit_opened g !! k with
  | None => (false, g)
  | Some opened =>
      if gw_circuit_duration gw <=? now - opened then (false, set_gs_circuit k 0 None g) else (true, g)
  end.

Definition _mark_failure (gw : ModelGateway) (tenant_id key : string) (now : datetime)
    (g : gateway_state) : gateway_state :=
  let k := model_circuit_key tenant_id key in
  let failures := default 0 (gs_circuit_failures g !! k) + 1 in
  set_gs_circuit k failures
    (if gw_circuit_threshold gw <=? failures then Some now else gs_circuit_opened g !! k) g.

Definition _mark_success (tenant_id key : string) (g : gateway_state) : gateway_state :=
  set_gs_circuit (model_circuit_key tenant_id key) 0 None g.

(** ** Operations of a thread *)

(** [Invoke] carries the attempt it is made for; the adapter does not see it. *)
Inductive gateway_op : Set → Set :=
  | Cancelled : gateway_op bool
  | Now : gateway_op datetime
  | Acquire : gateway_op bool
  | Release : gateway_op unit
  | CurrentPolicy (tenant_id : string) : gateway_op (option TenantModelPolicy)
  | CatalogEntry (tenant_id key : string) : gateway_op (option ModelCatalogEntry)
  | CircuitIsOpen (tenant_id key : string) : gateway_op bool
  | CheckRate (tenant_id : string) (now : datetime) : gateway_op bool
  | Reserve (q : ModelRequest) (policy : TenantModelPolicy)
      (maximum_input_tokens maximum_cost_microunits : Z) (now : datetime)
      : gateway_op (res ModelReservation)
  | AppendRequested (v : ModelReservation) (q : ModelRequest) (entry : ModelCatalogEntry)
      (attempt_id : string) (now : datetime) : gateway_op (res ModelCallRecord)
  | Invoke (entry : ModelCatalogEntry) (q : ModelRequest) (attempt_id : string)
      : gateway_op provider_outcome
  | Reconcile (tenant_id attempt_id outcome : string) (billing : BillingDisposition)
      (usage : option ModelUsage) (cost_microunits : option Z) (error_code : option ModelErrorCode)
      (now : datetime) : gateway_op (res ModelCallRecord)
  | Finalize (v : ModelReservation) (now : datetime) : gateway_op unit
  | MarkFailure (tenant_id key : string) : gateway_op unit
  | MarkSuccess (tenant_id key : string) : gateway_op unit.

Notation P A := (prog gateway_op model_exn A).

Definition raises {A : Set} (k : ExnKind) (msg : string) : P A := Throw (Plain (Exn k msg)).

Definition of_res {A : Set} (r : res A) : P A :=
  match r with Ok a => Return a | Raise e => Throw (Plain e) end.

Definition guard (b : bool) (k : ExnKind) (msg : string) : P unit :=
  if b then raises k msg else Return tt.

Section gateway.
Context `{!Digest} (gw : ModelGateway).

(** [_require_policy] *)
Definition policy_refusal (q : ModelRequest) (policy : TenantModelPolicy) : option string :=
  let b := mq_binding q in
  if bool_decide (mb_purpose b ∉ tm_allowed_purposes policy)
  then Some "model purpose is not allowed"
  else if bool_decide (mb_data_classification b ∉ tm_allowed_data_classifications policy)
  then Some "model data classification is not allowed"
  else if risk_order (tm_risk_ceiling policy) <? risk_order (mb_risk b)
  then Some "model risk exceeds policy"
  else if tm_maximum_output_tokens policy <? mq_max_output_tokens q
  then Some "model output token request exceeds policy"
  else if bool_decide (list_to_set (mq_allowed_tool_names q) ≠ (list_to_set (td_name <$> mq_tools q) : gset string))
  then Some "model tool allowlist does not match definitions"
  else if existsb (λ m, bool_decide (mm_role m = MR_TOOL)) (mq_messages q)
  then Some "tool result messages are not supported by these adapters"
  else None.

Definition _require_policy (q : ModelRequest) : P TenantModelPolicy :=
  policy ←' call (CurrentPolicy (mq_tenant_id q));
  match policy with
  | None => raises PolicyDenied "no tenant model policy"
  | Some policy =>
      match policy_refusal q policy with
      | Some reason => raises PolicyDenied reason
      | None => Return policy
      end
  end.

(** [_eligible_entries] *)
Definition required_capabilities (q : ModelRequest) (policy : TenantModelPolicy) : list ModelCapability :=
  tm_required_capabilities policy ++ [CAP_JSON_SCHEMA]
  ++ match mq_tools q with [] => [] | _ => [CAP_TOOLS] end.

Definition entry_eligible (q : ModelRequest) (policy : TenantModelPolicy) (route : ModelRoute)
    (entry : ModelCatalogEntry) : bool :=
  bool_decide (ce_tenant_id entry = mq_tenant_id q) && bool_decide (entry_key entry = catalog_key route)
  && ce_enabled entry
  && bool_decide (ce_provider entry ∈ tm_allowed_providers policy)
  && bool_decide (ce_model entry ∈ tm_allowed_models policy)
  && bool_decide (ce_region entry ∈ tm_allowed_regions policy)
  && forallb (λ c, bool_decide (c ∈ ce_capabilities entry)) (required_capabilities q policy)
  && (_conservative_tokens q + mq_max_output_tokens q <=? ce_context_tokens entry)
  && (mq_max_output_tokens q <=? ce_maximum_output_tokens entry).

Definition eligible_entry (q : ModelRequest) (policy : TenantModelPolicy) (route : ModelRoute)
    : P (option ModelCatalogEntry) :=
  entry ←' call (CatalogEntry (mq_tenant_id q) (catalog_key route));
  Return (match entry with
          | Some entry => if entry_eligible q policy route entry then Some entry else None
          | None => None
          end).

Definition _eligible_entries (q : ModelRequest) (policy : TenantModelPolicy) : P (list ModelCatalogEntry) :=
  guard (tm_maximum_input_tokens policy <? _conservative_tokens q) PolicyDenied
    "model input token estimate exceeds policy" ;;'
  entries ←' each (eligible_entry q policy) (tm_routes policy);
  match omap id entries with
  | [] => raises PolicyDenied "no policy-eligible model route"
  | entries => Return entries
  end.

(** The entries whose circuit is closed *)
Definition closed_entry (tenant_id : string) (entry : ModelCatalogEntry) : P (option ModelCatalogEntry) :=
  open ←' call (CircuitIsOpen tenant_id (entry_key entry));
  Return (if (open : bool) then None else Some entry).

(** [_check_rate] *)
Definition _check_rate (tenant_id : string) : P unit :=
  now ←' call Now;
  admitted ←' call (CheckRate tenant_id now);
  if (admitted : bool) then Return tt else Throw (provider_error EC_RATE_LIMITED true NOT_BILLED).

Definition attempts_of (policy : TenantModelPolicy) : Z := 1 + tm_repair_attempts policy.

(** The cost of one attempt at most, over the entries *)
Definition attempt_cost (q : ModelRequest) (entries : list ModelCatalogEntry) : Z :=
  foldr Z.max 0 ((λ e, maximum_cost_microunits (ce_price e) (_conservative_tokens q)
                         (mq_max_output_tokens q)) <$> entries).

Definition maximum_cost (q : ModelRequest) (policy : TenantModelPolicy) (entries : list ModelCatalogEntry) : Z :=
  attempt_cost q entries * zlen entries * attempts_of policy.

Definition attempt_id_of (q : ModelRequest) (route_index repair_index : Z) : string :=
  mq_call_id q +:+ ":r" +:+ str_of_int route_index +:+ ":a" +:+ str_of_int (repair_index + 1).

Definition finalize_now (v : ModelReservation) : P unit :=
  now ←' call Now; call (Finalize v now).

(** Whether the policy is no longer the one the reservation was made under *)
Definition policy_changed (v : ModelReservation) (current : option TenantModelPolicy) : bool :=
  match current with
  | None => true
  | Some p => bool_decide (tm_policy_id p ≠ mv_policy_id v) || negb (tm_revision p =? mv_policy_revision v)
              || bool_decide (model_policy_digest p ≠ mv_policy_digest v)
  end.

(** The check before and after an attempt: the flag is read only when the policy is unchanged *)
Definition stale (q : ModelRequest) (v : ModelReservation) : P bool :=
  current ←' call (CurrentPolicy (mq_tenant_id q));
  if policy_changed v current then Return true else call Cancelled.

Definition stale_code : P ModelErrorCode :=
  cancelled ←' call Cancelled;
  Return (if (cancelled : bool) then EC_CANCELLED else EC_POLICY_DENIED).

(** [_invoke] *)
Definition _invoke (entry : ModelCatalogEntry) (q : ModelRequest) (attempt_id : string) : P ProviderResult :=
  if bool_decide (ce_provider entry ∉ gw_adapters gw)
  then Throw (provider_error EC_UNAVAILABLE false NOT_BILLED)
  else
    outcome ←' call (Invoke entry q attempt_id);
    match outcome with
    | Result r => Return r
    | TypedError e => Throw (Provider e)
    | OtherError => Throw (provider_error EC_UNAVAILABLE false AMBIGUOUS)
    end.

Definition reconcile_now (q : ModelRequest) (attempt_id outcome : string) (billing : BillingDisposition)
    (usage : option ModelUsage) (cost : option Z) (code : option ModelErrorCode) : P unit :=
  now ←' call Now;
  r ←' call (Reconcile (mq_tenant_id q) attempt_id outcome billing usage cost code now);
  of_res r ;;' Return tt.

(** [_record_failure] *)
Definition _record_failure (q : ModelRequest) (attempt_id : string) (entry : ModelCatalogEntry)
    (usage : option ModelUsage) (e : ProviderInvocationError) : P unit :=
  reconcile_now q attempt_id "failed" (pe_billing e) usage
    (actual_cost_microunits (ce_price entry) <$> usage) (Some (pe_code e)).

(** The bounds on what a provider may report *)
Definition usage_exceeded (q : ModelRequest) (v : ModelReservation) (entry : ModelCatalogEntry)
    (u : ModelUsage) : bool :=
  (mq_max_output_tokens q <? us_output_tokens u)
  || (mv_requested_input_tokens v <? us_input_tokens u + us_cache_read_tokens u + us_cache_write_tokens u)
  || (ce_context_tokens entry <? total_tokens u)
  || (mv_reserved_cost_microunits v <? actual_cost_microunits (ce_price entry) u).

Section typed.
(** [TypeAdapter(output_type).validate_python] *)
Context {T : Set} (validate : payload → option T).

(** The [try] block after the provider returned *)
Definition accept_result (q : ModelRequest) (v : ModelReservation) (entry : ModelCatalogEntry)
    (attempt_id : string) (r : ProviderResult) : P T :=
  let cost := actual_cost_microunits (ce_price entry) (pr_usage r) in
  changed ←' stale q v;
  if (changed : bool) then
    code ←' stale_code;
    reconcile_now q attempt_id "stale" BILLED (Some (pr_usage r)) (Some cost) (Some code) ;;'
    Throw (provider_error code false BILLED)
  else if usage_exceeded q v entry (pr_usage r) then Throw (provider_error EC_USAGE_EXCEEDED false BILLED)
  else if sa_blocked (pr_safety r) then Throw (provider_error EC_CONTENT_FILTER false BILLED)
  else if bool_decide (pr_finish_reason r ≠ FR_STOP) then Throw (provider_error EC_CAPABILITY false BILLED)
  else match validate (pr_structured_output r) with
       | Some parsed => Return parsed
       | None => raises ValidationError "output validation"
       end.

(** How an attempt ends when it does not raise: the answer, another attempt on the same route
    ([continue]), or the next route ([break]) with the failure *)
Inductive flow :=
  | Done (parsed : T)
  | Again (e : ProviderInvocationError)
  | NextRoute (e : ProviderInvocationError).

(** The [except] clauses; [usage] is the usage of the result, when there is one *)
Definition on_failure (q : ModelRequest) (policy : TenantModelPolicy) (v : ModelReservation)
    (entry : ModelCatalogEntry) (attempt_id : string) (last_attempt : bool) (usage : option ModelUsage)
    (x : model_exn) : P flow :=
  match x with
  | Plain (Exn ValidationError _) =>
      let e := {| pe_code := EC_MALFORMED_RESPONSE; pe_retryable := negb last_attempt;
                  pe_billing := BILLED |} in
      _record_failure q attempt_id entry usage e ;;'
      if pe_retryable e then Return (Again e)
      else finalize_now v ;;' Throw (Provider e)
  | Provider e =>
      _record_failure q attempt_id entry usage e ;;'
      (if transient_code (pe_code e) then call (MarkFailure (mq_tenant_id q) (entry_key entry))
       else Return tt) ;;'
      if (bool_decide (pe_billing e = AMBIGUOUS) && negb (tm_fallback_on_ambiguous_billing policy))
         || negb (pe_retryable e) || negb (transient_code (pe_code e))
      then finalize_now v ;;' Throw (Provider e)
      else Return (NextRoute e)
  | _ => Throw x
  end.

(** After the [try]: the completed attempt *)
Definition complete (q : ModelRequest) (v : ModelReservation) (entry : ModelCatalogEntry)
    (attempt_id : string) (r : ProviderResult) (parsed : T) : P flow :=
  reconcile_now q attempt_id "completed" BILLED (Some (pr_usage r))
    (Some (actual_cost_microunits (ce_price entry) (pr_usage r))) None ;;'
  call (MarkSuccess (mq_tenant_id q) (entry_key entry)) ;;'
  finalize_now v ;;'
  Return (Done parsed).

(** One round of the inner loop *)
Definition attempt (q : ModelRequest) (policy : TenantModelPolicy) (v : ModelReservation)
    (entry : ModelCatalogEntry) (route_index repair_index : Z) : P flow :=
  changed ←' stale q v;
  if (changed : bool) then
    finalize_now v ;;'
    code ←' stale_code;
    Throw (provider_error code false NOT_BILLED)
  else
    let attempt_id := attempt_id_of q route_index repair_index in
    let last_attempt := attempts_of policy <=? repair_index + 1 in
    now ←' call Now;
    c ←' call (AppendRequested v q entry attempt_id now);
    of_res c ;;'
    try_else (_invoke entry q attempt_id)
      (on_failure q policy v entry attempt_id last_attempt None)
      (λ r, try_else (accept_result q v entry attempt_id r)
              (on_failure q policy v entry attempt_id last_attempt (Some (pr_usage r)))
              (complete q v entry attempt_id r)).

(** [for repair_index in range(attempts)]: [n] more rounds *)
Fixpoint repairs (q : ModelRequest) (policy : TenantModelPolicy) (v : ModelReservation)
    (entry : ModelCatalogEntry) (route_index repair_index : Z) (n : nat)
    (failures : list ProviderInvocationError) : P (T + list ProviderInvocationError) :=
  match n with
  | O => Return (inr failures)
  | S n =>
      f ←' attempt q policy v entry route_index repair_index;
      match f with
      | Done parsed => Return (inl parsed)
      | Again e => repairs q policy v entry route_index (repair_index + 1) n (failures ++ [e])
      | NextRoute e => Return (inr (failures ++ [e]))
      end
  end.

(** [for route_index, entry in enumerate(entries, start=1)], and what follows the loop *)
Fixpoint routes (q : ModelRequest) (policy : TenantModelPolicy) (v : ModelReservation)
    (route_index : Z) (entries : list ModelCatalogEntry) (failures : list ProviderInvocationError) : P T :=
  match entries with
  | [] =>
      finalize_now v ;;'
      match last failures with
      | Some e => Throw (Provider e)
      | None => Throw (provider_error EC_UNAVAILABLE false NOT_BILLED)
      end
  | entry :: entries =>
      cancelled ←' call Cancelled;
      if (cancelled : bool) then
        finalize_now v ;;' Throw (provider_error EC_CANCELLED false NOT_BILLED)
      else
        r ←' repairs q policy v entry route_index 0 (Z.to_nat (attempts_of policy)) failures;
        match r with
        | inl parsed => Return parsed
        | inr failures => routes q policy v (route_index + 1) entries failures
        end
  end.

Definition _generate_admitted (q : ModelRequest) : P T :=
  policy ←' _require_policy q;
  circuit_entries ←' _eligible_entries q policy;
  closed ←' each (closed_entry (mq_tenant_id q)) circuit_entries;
  match omap id closed with
  | [] => Throw (provider_error EC_CIRCUIT_OPEN true NOT_BILLED)
  | entries =>
      _check_rate (mq_tenant_id q) ;;'
      now ←' call Now;
      r ←' call (Reserve q policy (_conservative_tokens q) (maximum_cost q policy entries) now);
      v ←' of_res r;
      routes q policy v 1 entries []
  end.

Definition generate (q : ModelRequest) : P T :=
  cancelled ←' call Cancelled;
  if (cancelled : bool) then Throw (provider_error EC_CANCELLED false NOT_BILLED)
  else
    acquired ←' call Acquire;
    if (acquired : bool) then finally (_generate_admitted q) Release
    else Throw (provider_error EC_RATE_LIMITED true NOT_BILLED).
End typed.

(** ** The world of the threads *)

(** What the environment answers: the time, the cancellation flag, the provider *)
Record answers := {
  an_now : datetime;
  an_cancelled : bool;
  an_outcome : ModelCatalogEntry → ModelRequest → provider_outcome
}.

(** The store, the gateway, and three records kept for the theorems: the policies installed so
    far, which thread appended an attempt, and the calls made to providers *)
Record model_world := {
  wd_store : model_store;
  wd_gateway : gateway_state;
  wd_installed : list TenantModelPolicy;
  wd_owner : gmap (string * string) nat;
  wd_calls : list ((string * string) * (ModelCatalogEntry * ModelRequest))
}.

Definition on_store (f : model_store → model_store) (w : model_world) : model_world :=
  {| wd_store := f (wd_store w); wd_gateway := wd_gateway w; wd_installed := wd_installed w;
     wd_owner := wd_owner w; wd_calls := wd_calls w |}.

Definition on_gateway (f : gateway_state → gateway_state) (w : model_world) : model_world :=
  {| wd_store := wd_store w; wd_gateway := f (wd_gateway w); wd_installed := wd_installed w;
     wd_owner := wd_owner w; wd_calls := wd_calls w |}.

Definition store_call {A : Set} (m : M model_store A) (w : model_world) : res A * model_world :=
  ((m (wd_store w)).1, on_store (λ s, (m s).2) w).

Definition owns (i : nat) (key : string * string) (appended : bool) (w : model_world) : model_world :=
  {| wd_store := wd_store w; wd_gateway := wd_gateway w; wd_installed := wd_installed w;
     wd_owner := if appended then <[key := i]> (wd_owner w) else wd_owner w; wd_calls := wd_calls w |}.

Definition handle (e : answers) (i : nat) (R : Set) (o : gateway_op R) (w : model_world) : R * model_world :=
  match o in gateway_op R return R * model_world with
  | Cancelled => (an_cancelled e, w)
  | Now => (an_now e, w)
  | Acquire => let '(b, g) := acquire_permit (wd_gateway w) in (b, on_gateway (λ _, g) w)
  | Release => (tt, on_gateway release_permit w)
  | CurrentPolicy t => (current_policy t (wd_store w), w)
  | CatalogEntry t key => (catalog_entry t key (wd_store w), w)
  | CircuitIsOpen t key =>
      let '(b, g) := _circuit_is_open gw t key (an_now e) (wd_gateway w) in (b, on_gateway (λ _, g) w)
  | CheckRate t now =>
      let '(b, g) := check_rate gw t now (wd_gateway w) in (b, on_gateway (λ _, g) w)
  | Reserve q policy tokens cost now => store_call (reserve q policy tokens cost now) w
  | AppendRequested v q entry attempt_id now =>
      let '(r, w) := store_call (append_requested v q entry attempt_id now) w in
      (r, owns i (mq_tenant_id q, attempt_id) (is_ok r) w)
  | Invoke entry q attempt_id =>
      (an_outcome e entry q,
       {| wd_store := wd_store w; wd_gateway := wd_gateway w; wd_installed := wd_installed w;
          wd_owner := wd_owner w; wd_calls := wd_calls w ++ [((mq_tenant_id q, attempt_id), (entry, q))] |})
  | Reconcile t attempt_id outcome billing usage cost code now =>
      store_call (reconcile t attempt_id outcome billing usage cost code now) w
  | Finalize v now => (tt, on_store (λ s, (finalize v now s).2) w)
  | MarkFailure t key => (tt, on_gateway (_mark_failure gw t key (an_now e)) w)
  | MarkSuccess t key => (tt, on_gateway (_mark_success t key) w)
  end.

(** An administrator installs a policy ([replace_policy]). *)
Definition install (p : TenantModelPolicy) (w : model_world) : model_world :=
  {| wd_store := (replace_policy p (wd_store w)).2; wd_gateway := wd_gateway w;
     wd_installed := p :: wd_installed w; wd_owner := wd_owner w; wd_calls := wd_calls w |}.

Definition model_start (policies : list TenantModelPolicy) (entries : list ModelCatalogEntry)
    (tenant_cost_limits : gmap string Z) (g : gateway_state) : model_world :=
  {| wd_store := new_model_store policies entries tenant_cost_limits; wd_gateway := g;
     wd_installed := policies; wd_owner := ∅; wd_calls := [] |}.
End gateway.
