(* ===== verification/ModelFacts.v ===== *)
(** * The model control store and the proof outline of [generate]

    Each method of the store as the list of its outcomes, and what no method ever undoes: a
    reservation keeps its terms, a call record keeps the intent it was appended with.  Then what
    a thread of [generate] knows at each point of the program, as an interface: [outline] asks
    one obligation per operation that matters, and [generate_safe] walks the program once.  Every
    property of concurrent calls is an instance. *)

From S2P Require Import Prelude PyJson PyTime PyModel PyProg Domain ModelData ModelStore ModelCalls.

Section facts.
Context `{!Digest}.

(** ** Outcomes *)

Definition fresh_reservation (q : ModelRequest) (p : TenantModelPolicy) (tokens cost : Z) (now : datetime)
    : ModelReservation :=
  {| mv_tenant_id := mq_tenant_id q; mv_run_id := mq_run_id q; mv_reservation_id := mq_call_id q;
     mv_requested_input_tokens := tokens; mv_requested_output_tokens := mq_max_output_tokens q;
     mv_reserved_cost_microunits := cost; mv_policy_id := tm_policy_id p;
     mv_policy_revision := tm_revision p; mv_policy_digest := model_policy_digest p;
     mv_created_at := now |}.

Inductive reserves (q : ModelRequest) (p : TenantModelPolicy) (tokens cost : Z) (now : datetime)
    (s : model_store) : res ModelReservation → model_store → Prop :=
  | reserve_refused e : reserves q p tokens cost now s (Raise e) s
  | reserve_existing v :
      dict_get (mq_tenant_id q, mq_call_id q) (_reservations s) = Some v →
      same_reservation q p tokens v = true →
      reserves q p tokens cost now s (Ok v) s
  | reserve_new :
      dict_get (mq_tenant_id q, mq_call_id q) (_reservations s) = None →
      cost ≤ tm_maximum_cost_microunits p →
      tenant_consumed s (mq_tenant_id q) + cost ≤ default 0 (_limits s !! mq_tenant_id q) →
      run_calls s (mq_tenant_id q) (mq_run_id q) < tm_maximum_calls_per_run p →
      reserves q p tokens cost now s (Ok (fresh_reservation q p tokens cost now))
        (set_reservation (mq_tenant_id q, mq_call_id q) (fresh_reservation q p tokens cost now) s).

Lemma reserve_run q p tokens cost now s :
  reserves q p tokens cost now s (reserve q p tokens cost now s).1 (reserve q p tokens cost now s).2.
Proof.
  unfold reserve, get, lift, modify, mbind, M_bind, mret, M_ret, raise_if, validated.
  destruct (dict_get _ _) as [v|] eqn:Hg; cbn.
  - destruct (same_reservation q p tokens v) eqn:Hs; cbn; by constructor.
  - destruct (_ <? cost) eqn:H1; cbn; [constructor|]. destruct (_ <? _ + _) eqn:H2; cbn; [constructor|].
    destruct (_ <=? _) eqn:H3; cbn; [constructor|].
    destruct (ModelReservation_ok _); cbn; [|constructor].
    apply Z.ltb_ge in H1, H2. apply Z.leb_gt in H3. by constructor.
Qed.

Inductive appends (v : ModelReservation) (q : ModelRequest) (e : ModelCatalogEntry) (a : string)
    (now : datetime) (s : model_store) : res ModelCallRecord → model_store → Prop :=
  | append_refused x : appends v q e a now s (Raise x) s
  | append_new :
      dict_get (mq_tenant_id q, a) (_records s) = None →
      appends v q e a now s (Ok (requested_record v q e a now))
        (set_record (mq_tenant_id q, a) (requested_record v q e a now) s).

Lemma append_run v q e a now s :
  appends v q e a now s (append_requested v q e a now s).1 (append_requested v q e a now s).2.
Proof.
  unfold append_requested, get, lift, modify, mbind, M_bind, mret, M_ret, raise_if, validated.
  destruct (dict_get _ _) as [c|] eqn:Hg; cbn; [destruct (bool_decide _); constructor|].
  destruct (ModelCallRecord_ok _); cbn; by constructor.
Qed.

Inductive reconciles (t a outcome : string) (billing : BillingDisposition) (u : option ModelUsage)
    (cost : option Z) (code : option ModelErrorCode) (now : datetime) (s : model_store)
    : res ModelCallRecord → model_store → Prop :=
  | reconcile_refused x : reconciles t a outcome billing u cost code now s (Raise x) s
  | reconcile_settled c :
      dict_get (t, a) (_records s) = Some c → is_Some (mc_completed_at c) →
      reconciles t a outcome billing u cost code now s (Ok c) s
  | reconcile_pending c :
      dict_get (t, a) (_records s) = Some c → mc_completed_at c = None →
      (billing = BILLED → is_Some u ∧ is_Some cost) →
      reconciles t a outcome billing u cost code now s (Ok (settled outcome billing u cost code now c))
        (set_record (t, a) (settled outcome billing u cost code now c) s)
  | reconcile_corrected c s' :
      dict_get (t, a) (_records s) = Some c → is_Some (mc_completed_at c) → mc_billing c = AMBIGUOUS →
      s' = set_record (t, a) (settled outcome billing u cost code now c) s ∨
      s' = set_finalized (t, mc_call_id c)
             (call_ambiguous (set_record (t, a) (settled outcome billing u cost code now c) s) t (mc_call_id c))
             (set_record (t, a) (settled outcome billing u cost code now c) s) →
      reconciles t a outcome billing u cost code now s (Ok (settled outcome billing u cost code now c)) s'.

Lemma reconcile_run t a outcome billing u cost code now s :
  reconciles t a outcome billing u cost code now s
    (reconcile t a outcome billing u cost code now s).1 (reconcile t a outcome billing u cost code now s).2.
Proof.
  unfold reconcile, get, lift, modify, mbind, M_bind, mret, M_ret, raise_if.
  destruct (bool_decide (billing = BILLED) && _) eqn:Hb; cbn; [constructor|].
  destruct (dict_get _ _) as [c|] eqn:Hg; cbn; [|constructor].
  destruct (mc_completed_at c) as [z|] eqn:Hc; cbn.
  - destruct (is_ambiguous c && _) eqn:Ha; cbn; [|by constructor].
    apply andb_true_iff in Ha as [Ha _]. apply bool_decide_eq_true in Ha.
    destruct (bool_decide (is_Some _)); cbn; (eapply reconcile_corrected; [done..|]); [by right|by left].
  - apply reconcile_pending; [done..|]. intros ->. rewrite bool_decide_true in Hb by done.
    apply orb_false_iff in Hb as [Hu Hcost]. apply bool_decide_eq_false in Hu, Hcost.
    split; by apply not_eq_None_Some.
Qed.

Lemma finalize_run v now s :
  (finalize v now s).2 = s ∧ is_Some (_finalized s !! (mv_tenant_id v, mv_reservation_id v)) ∨
  _finalized s !! (mv_tenant_id v, mv_reservation_id v) = None ∧
  (finalize v now s).2 = set_finalized (mv_tenant_id v, mv_reservation_id v)
    (call_ambiguous s (mv_tenant_id v) (mv_reservation_id v)) s.
Proof.
  unfold finalize, get, modify, mbind, M_bind, mret, M_ret.
  destruct (_finalized s !! _) eqn:Hf; cbn; [left; by split; [|eexists]|by right].
Qed.

(** ** What lasts *)

(** The fields of a record that its reconciliation does not touch *)
Definition intent_of (c : ModelCallRecord) : string * string * string * string * string * string :=
  (mc_tenant_id c, mc_run_id c, mc_call_id c, mc_attempt_id c, mc_request_digest c, mc_catalog_key c).

Record lasts (s s' : model_store) : Prop := {
  la_reservation k v : dict_get k (_reservations s) = Some v → dict_get k (_reservations s') = Some v;
  la_record k c : dict_get k (_records s) = Some c →
    ∃ c', dict_get k (_records s') = Some c' ∧ intent_of c' = intent_of c;
  la_catalog : _catalog s' = _catalog s;
  la_limits : _limits s' = _limits s
}.

#[export] Instance lasts_refl : Reflexive lasts.
Proof. intros s. split; eauto. Qed.

#[export] Instance lasts_trans : Transitive lasts.
Proof.
  intros s1 s2 s3 H1 H2. split.
  - intros k v Hv. by apply H2, H1.
  - intros k c Hc. destruct (la_record _ _ H1 k c Hc) as (c2 & Hc2 & E2).
    destruct (la_record _ _ H2 k c2 Hc2) as (c3 & Hc3 & E3). exists c3. by rewrite E3.
  - by rewrite (la_catalog _ _ H2), (la_catalog _ _ H1).
  - by rewrite (la_limits _ _ H2), (la_limits _ _ H1).
Qed.

Lemma lasts_set_reservation k v s :
  dict_get k (_reservations s) = None → lasts s (set_reservation k v s).
Proof.
  intros Hk. split; cbn; [|by eauto|done..]. intros k' v' Hv.
  rewrite dict_get_set_ne; [done|]. intros ->. congruence.
Qed.

Lemma lasts_set_record k c s :
  (∀ c0, dict_get k (_records s) = Some c0 → intent_of c = intent_of c0) → lasts s (set_record k c s).
Proof.
  intros Hk. split; cbn; [done| |done..]. intros k' c' Hc. destruct (decide (k = k')) as [->|Hne].
  - exists c. rewrite dict_get_set_eq. eauto.
  - exists c'. by rewrite dict_get_set_ne.
Qed.

Lemma lasts_set_finalized k b s : lasts s (set_finalized k b s).
Proof. split; cbn; eauto. Qed.

Lemma reserve_lasts q p tokens cost now s : lasts s (reserve q p tokens cost now s).2.
Proof.
  destruct (reserve_run q p tokens cost now s); [done..|]. by apply lasts_set_reservation.
Qed.

Lemma append_lasts v q e a now s : lasts s (append_requested v q e a now s).2.
Proof.
  destruct (append_run v q e a now s) as [x|Hn]; [done|]. apply lasts_set_record. congruence.
Qed.

Lemma reconcile_lasts t a outcome billing u cost code now s :
  lasts s (reconcile t a outcome billing u cost code now s).2.
Proof.
  destruct (reconcile_run t a outcome billing u cost code now s) as [x|c|c Hc|c s' Hc Hs Ha Hs']; [done..| |].
  - apply lasts_set_record. intros c0 Hc0. by simplify_eq.
  - assert (Hl : lasts s (set_record (t, a) (settled outcome billing u cost code now c) s)).
    { apply lasts_set_record. intros c0 Hc0. by simplify_eq. }
    destruct Hs' as [->| ->]; [done|]. etrans; [exact Hl|]. apply lasts_set_finalized.
Qed.

Lemma finalize_lasts v now s : lasts s (finalize v now s).2.
Proof. destruct (finalize_run v now s) as [[-> _]|[_ ->]]; [done|apply lasts_set_finalized]. Qed.

Lemma reserve_policies q p tokens cost now s : _policies (reserve q p tokens cost now s).2 = _policies s.
Proof. by destruct (reserve_run q p tokens cost now s). Qed.

Lemma append_policies v q e a now s : _policies (append_requested v q e a now s).2 = _policies s.
Proof. by destruct (append_run v q e a now s). Qed.

Lemma reconcile_policies t a outcome billing u cost code now s :
  _policies (reconcile t a outcome billing u cost code now s).2 = _policies s.
Proof.
  destruct (reconcile_run t a outcome billing u cost code now s) as [| | |c s' ??? [->| ->]]; done.
Qed.

Lemma finalize_policies v now s : _policies (finalize v now s).2 = _policies s.
Proof. by destruct (finalize_run v now s) as [[-> _]|[_ ->]]. Qed.

End facts.

(** The points of the program.  [left] is the number of attempts the reservation still pays for;
    [usage] is the usage the provider reported, when it answered. *)
Inductive stage :=
  | Chosen (p : TenantModelPolicy) (es : list ModelCatalogEntry)
  | Before
  | Holding (p : TenantModelPolicy) (es : list ModelCatalogEntry) (v : ModelReservation) (left : Z)
  | Intent (p : TenantModelPolicy) (es : list ModelCatalogEntry) (v : ModelReservation) (left : Z)
      (e : ModelCatalogEntry) (attempt_id : string)
  | Called (p : TenantModelPolicy) (es : list ModelCatalogEntry) (v : ModelReservation) (left : Z)
      (e : ModelCatalogEntry) (attempt_id : string) (usage : option ModelUsage)
  | Over
  | Failed (x : model_exn).

(** Operations that touch neither the store nor the call log *)
Definition quiet {R : Set} (o : gateway_op R) : bool :=
  match o with
  | Reserve _ _ _ _ _ | AppendRequested _ _ _ _ _ | Invoke _ _ _
  | Reconcile _ _ _ _ _ _ _ _ | Finalize _ _ => false
  | _ => true
  end.

Lemma eligible_key q p r e : entry_eligible q p r e = true → entry_key e = catalog_key r.
Proof. unfold entry_eligible. rewrite !andb_true_iff, !bool_decide_eq_true. tauto. Qed.

Lemma attempts_range p : TenantModelPolicy_ok p = true → 1 ≤ attempts_of p ≤ 3.
Proof.
  unfold TenantModelPolicy_ok, attempts_of, in_range. rewrite !andb_true_iff, !Z.leb_le. lia.
Qed.

Lemma routes_range p : TenantModelPolicy_ok p = true → zlen (tm_routes p) ≤ _MAX_ROUTES.
Proof.
  unfold TenantModelPolicy_ok, count_range, in_range. rewrite !andb_true_iff, !Z.leb_le. lia.
Qed.

Lemma quiet_world `{!Digest} gw e i R (o : gateway_op R) w :
  quiet o = true → ∃ f, (handle gw e i R o w).2 = on_gateway f w.
Proof.
  assert (Hid : w = on_gateway (λ g, g) w) by by destruct w.
  destruct o; intros Hq; try discriminate Hq; cbn; try (by eexists); try (exists (λ g, g); exact Hid).
  all: match goal with |- context [let '(_, _) := ?m in _] => destruct m end; cbn; by eexists.
Qed.

Section outline.
Context `{!Digest} (gw : ModelGateway) (legal : answers → Prop) (Inv : model_world → Prop)
  (G : nat → model_world → model_world → Prop).

(** Operation [o] of thread [i] leads from knowledge [K] to knowledge [K'] of its answer. *)
Definition leads (i : nat) {R : Set} (o : gateway_op R) (K : model_world → Prop)
    (K' : R → model_world → Prop) : Prop :=
  ∀ e w, legal e → Inv w → K w →
    K' (handle gw e i R o w).1 (handle gw e i R o w).2
    ∧ Inv (handle gw e i R o w).2 ∧ G i w (handle gw e i R o w).2.

(** What a result a provider may report satisfies *)
Definition outcome_usage (o : provider_outcome) : option ModelUsage :=
  match o with Result r => Some (pr_usage r) | _ => None end.

Record outline (i : nat) (q : ModelRequest) (K : stage → model_world → Prop) : Prop := {
  ol_stable s : stable Inv G i (K s);
  ol_quiet s R (o : gateway_op R) : quiet o = true → leads i o (K s) (λ _, K s);
  ol_policy w p : Inv w → K Before w → current_policy (mq_tenant_id q) (wd_store w) = Some p →
    policy_refusal q p = None → K (Chosen p []) w;
  ol_attempts p es w : Inv w → K (Chosen p es) w → 1 ≤ attempts_of p;
  ol_entry w p es r e : Inv w → K (Chosen p es) w → r ∈ tm_routes p →
    catalog_entry (mq_tenant_id q) (catalog_key r) (wd_store w) = Some e →
    entry_eligible q p r e = true → _conservative_tokens q ≤ tm_maximum_input_tokens p →
    (length es < length (tm_routes p))%nat → K (Chosen p (es ++ [e])) w;
  ol_filter w p es es' : Inv w → K (Chosen p es) w → sublist es' es → K (Chosen p es') w;
  ol_reserve p es now : es ≠ [] →
    leads i (Reserve q p (_conservative_tokens q) (maximum_cost q p es) now) (K (Chosen p es))
      (λ r, match r with
            | Ok v => K (Holding p es v (zlen es * attempts_of p))
            | Raise e => K (Failed (Plain e))
            end);
  ol_less w p es v n n' : Inv w → n' ≤ n → K (Holding p es v n) w → K (Holding p es v n') w;
  ol_append p es v n e ri rj now :
    e ∈ es → 1 ≤ n → 1 ≤ ri ≤ zlen es → 0 ≤ rj < attempts_of p →
    leads i (AppendRequested v q e (attempt_id_of q ri rj) now) (K (Holding p es v n))
      (λ r, match r with
            | Ok _ => K (Intent p es v n e (attempt_id_of q ri rj))
            | Raise x => K (Failed (Plain x))
            end);
  ol_invoke p es v n e a :
    leads i (Invoke e q a) (K (Intent p es v n e a)) (λ o, K (Called p es v n e a (outcome_usage o)));
  ol_missing w p es v n e a : Inv w → K (Intent p es v n e a) w → K (Called p es v n e a None) w;
  ol_stale p es v n e a u code now :
    leads i (Reconcile (mq_tenant_id q) a "stale" BILLED (Some u)
               (Some (actual_cost_microunits (ce_price e) u)) (Some code) now)
      (K (Called p es v n e a (Some u))) (λ _, K (Called p es v n e a (Some u)));
  ol_failed p es v n e a u billing code now :
    leads i (Reconcile (mq_tenant_id q) a "failed" billing u
               (actual_cost_microunits (ce_price e) <$> u) (Some code) now)
      (K (Called p es v n e a u))
      (λ r, match r with
            | Ok _ => K (Holding p es v (n - 1))
            | Raise x => K (Failed (Plain x))
            end);
  ol_completed p es v n e a u now :
    leads i (Reconcile (mq_tenant_id q) a "completed" BILLED (Some u)
               (Some (actual_cost_microunits (ce_price e) u)) None now)
      (K (Called p es v n e a (Some u)))
      (λ r, match r with
            | Ok _ => K (Holding p es v (n - 1))
            | Raise x => K (Failed (Plain x))
            end);
  ol_finalize p es v n now : 0 ≤ n → leads i (Finalize v now) (K (Holding p es v n)) (λ _, K Over);
  ol_refused x w : Inv w → K Before w → K (Failed x) w;
  ol_unchosen p es x w : Inv w → K (Chosen p es) w → K (Failed x) w;
  ol_plain p es v n e a u x w : Inv w → K (Called p es v n e a u) w → K (Failed (Plain x)) w;
  ol_over x w : Inv w → K Over w → K (Failed x) w
}.

Context (i : nat) (q : ModelRequest) (K : stage → model_world → Prop) (O : outline i q K).

Notation safely p s Q := (safe (handle gw) Inv legal G i p (K s) Q (λ x, K (Failed x))).

Notation ending p s Q Z := (safe (handle gw) Inv legal G i p (K s) Q Z).

(** An operation, then the rest, given what its answer tells *)
Lemma safe_op {A R : Set} (o : gateway_op R) (k : R → prog gateway_op model_exn A) s (s' : R → stage) Q Z :
  leads i o (K s) (λ r, K (s' r)) → (∀ r, ending (k r) (s' r) Q Z) → ending (Do o k) s Q Z.
Proof.
  intros Ho Hk. eapply safe_do with (P' := λ r, K (s' r)); [|exact Ho|exact Hk].
  intros r. apply (ol_stable _ _ _ O).
Qed.

Lemma safe_quiet {A R : Set} (o : gateway_op R) (k : R → prog gateway_op model_exn A) s Q Z :
  quiet o = true → (∀ r, ending (k r) s Q Z) → ending (Do o k) s Q Z.
Proof. intros Hq Hk. by apply safe_op with (s' := λ _, s); [apply (ol_quiet _ _ _ O)|]. Qed.

Lemma safe_throw {A : Set} (x : model_exn) s Q :
  (∀ w, Inv w → K s w → K (Failed x) w) → safely (Throw x : prog gateway_op model_exn A) s Q.
Proof. intros Hx w Hw Hk. by apply Hx. Qed.

(** A reading, and what its answer tells *)
Lemma safe_read {A R : Set} (o : gateway_op R) (k : R → prog gateway_op model_exn A)
    (f : model_world → R) s (s' : R → stage) Q Z :
  quiet o = true → (∀ e w, handle gw e i R o w = (f w, w)) →
  (∀ w, Inv w → K s w → K (s' (f w)) w) →
  (∀ r, ending (k r) (s' r) Q Z) → ending (Do o k) s Q Z.
Proof.
  intros Hq Hf Hs Hk. apply safe_op with (s' := s'); [|done].
  intros e w He Hw Hkw. destruct (ol_quiet _ _ _ O s R o Hq e w He Hw Hkw) as (H1 & H2 & H3).
  rewrite Hf in *. cbn in *. split; [by apply Hs|done].
Qed.

Lemma finalize_now_safe {A : Set} (k : unit → prog gateway_op model_exn A) p es v n Q :
  0 ≤ n → (∀ u, safely (k u) Over Q) → safely (then_ (finalize_now v) k) (Holding p es v n) Q.
Proof.
  intros Hn Hk. apply safe_quiet; [done|]. intros now.
  apply safe_op with (s' := λ _, Over); [by apply (ol_finalize _ _ _ O)|done].
Qed.

(** A reconciliation at the current time, whose raise ends the thread *)
Lemma reconcile_now_safe {A : Set} (k : unit → prog gateway_op model_exn A) a outcome billing u cost code s s' Q :
  (∀ now, leads i (Reconcile (mq_tenant_id q) a outcome billing u cost code now) (K s)
     (λ r, match r with Ok _ => K s' | Raise x => K (Failed (Plain x)) end)) →
  (∀ t, safely (k t) s' Q) →
  safely (then_ (reconcile_now q a outcome billing u cost code) k) s Q.
Proof.
  intros Hr Hk. apply safe_quiet; [done|]. intros now.
  apply safe_op with (s' := λ r, match r with Ok _ => s' | Raise x => Failed (Plain x) end).
  - intros e w He Hw Hkw. destruct (Hr now e w He Hw Hkw) as (H1 & H2 & H3).
    split; [|done]. by destruct (handle gw e i _ _ w).1.
  - intros [c|x]; [apply Hk|]. by apply safe_throw.
Qed.

(** ** Choosing the entries *)

Lemma eligible_safe p rs acc :
  (∀ r, r ∈ rs → r ∈ tm_routes p) → _conservative_tokens q ≤ tm_maximum_input_tokens p →
  (length acc + length rs ≤ length (tm_routes p))%nat →
  safely (each (eligible_entry q p) rs) (Chosen p acc) (λ l, K (Chosen p (acc ++ omap id l))).
Proof.
  intros Hrs Ht. revert acc. induction rs as [|r rs IH]; intros acc Hlen.
  - intros w Hw Hk. by rewrite app_nil_r.
  - apply safe_read with (f := λ w, catalog_entry (mq_tenant_id q) (catalog_key r) (wd_store w))
      (s' := λ o, match o with
                  | Some e => if entry_eligible q p r e then Chosen p (acc ++ [e]) else Chosen p acc
                  | None => Chosen p acc
                  end); [done..| |].
    + intros w Hw Hk. destruct (catalog_entry _ _ _) as [e|] eqn:Hc; [|done].
      destruct (entry_eligible q p r e) eqn:He; [|done].
      apply (ol_entry _ _ _ O _ _ _ r); [done..| |done|done|done|cbn in Hlen; lia]. apply Hrs. by left.
    + assert (Hrs' : ∀ r', r' ∈ rs → r' ∈ tm_routes p) by (intros; apply Hrs; by right).
      intros [e|]; [destruct (entry_eligible q p r e)|]; cbn -[each];
        (eapply safe_then; [apply (IH Hrs'); rewrite ?length_app; cbn in *; lia|]);
        intros l w Hw Hk; cbn; [|done..].
      by rewrite <- app_assoc in Hk.
Qed.

Lemma closed_safe p es l :
  sublist l es →
  safely (each (closed_entry (mq_tenant_id q)) l) (Chosen p es)
    (λ r w, sublist (omap id r) l ∧ K (Chosen p es) w).
Proof.
  intros Hsub. induction l as [|e l IH].
  - intros w Hw Hk. done.
  - apply safe_quiet; [done|]. intros open. cbn -[each]. eapply safe_then.
    + apply IH. etrans; [|exact Hsub]. by constructor.
    + intros r w Hw [Hr Hk]. split; [|done]. destruct open; cbn; by constructor.
Qed.

(** ** Attempts *)

Section attempts.
Context {T : Set} (validate : payload → option T).

Definition flow_ends (p : TenantModelPolicy) (es : list ModelCatalogEntry) (v : ModelReservation)
    (n : Z) (f : @flow T) : model_world → Prop :=
  match f with Done _ => K Over | _ => K (Holding p es v (n - 1)) end.

Lemma stale_safe {A : Set} (k : bool → prog gateway_op model_exn A) v s Q Z :
  (∀ b, ending (k b) s Q Z) → ending (then_ (stale q v) k) s Q Z.
Proof.
  intros Hk. apply safe_quiet; [done|]. intros p. destruct (policy_changed v p); [apply Hk|].
  by apply safe_quiet.
Qed.

Lemma stale_code_safe {A : Set} (k : ModelErrorCode → prog gateway_op model_exn A) s Q Z :
  (∀ c, ending (k c) s Q Z) → ending (then_ stale_code k) s Q Z.
Proof. intros Hk. by apply safe_quiet. Qed.

Lemma on_failure_safe p es v n e a last u x :
  1 ≤ n →
  safely (on_failure (T := T) q p v e a last u x) (Called p es v n e a u) (flow_ends p es v n).
Proof.
  intros Hn.
  assert (Hf : ∀ pe k, (∀ t, safely (k t) (Holding p es v (n - 1)) (flow_ends p es v n)) →
    safely (then_ (_record_failure q a e u pe) k) (Called p es v n e a u) (flow_ends p es v n)).
  { intros pe k Hk. eapply reconcile_now_safe; [|exact Hk]. intros now. apply (ol_failed _ _ _ O). }
  assert (Ht : ∀ pe, safely (then_ (finalize_now v) (λ _, Throw (Provider pe)))
    (Holding p es v (n - 1)) (flow_ends p es v n)).
  { intros pe. apply finalize_now_safe; [lia|]. intros _. apply safe_throw. apply (ol_over _ _ _ O). }
  destruct x as [pe|[k msg]]; cbn [on_failure].
  - apply Hf. intros _.
    assert (Hr : ∀ b : bool, safely (if b then then_ (finalize_now v) (λ _, Throw (Provider pe))
      else Return (NextRoute pe)) (Holding p es v (n - 1)) (flow_ends p es v n)).
    { intros []; [apply Ht|]. by intros w Hw Hk. }
    destruct (transient_code (pe_code pe)); [|apply Hr].
    apply safe_quiet; [done|]. intros _. apply Hr.
  - destruct k; try (apply safe_throw; apply (ol_plain _ _ _ O)).
    apply Hf. intros _. destruct last; cbn [pe_retryable negb]; [apply Ht|]. by intros w Hw Hk.
Qed.

Lemma accept_result_safe p es v n e a r :
  ending (accept_result validate q v e a r) (Called p es v n e a (Some (pr_usage r)))
    (λ _, K (Called p es v n e a (Some (pr_usage r))))
    (λ _, K (Called p es v n e a (Some (pr_usage r)))).
Proof.
  unfold accept_result. apply stale_safe. intros [].
  - apply stale_code_safe. intros c. apply safe_quiet; [done|]. intros now.
    apply safe_op with (s' := λ _, Called p es v n e a (Some (pr_usage r))); [apply (ol_stale _ _ _ O)|].
    intros [x|x]; by intros w Hw Hk.
  - do 3 (case_match; [by intros w Hw Hk|]). by case_match; intros w Hw Hk.
Qed.

Lemma complete_safe p es v n e a r parsed :
  1 ≤ n →
  safely (complete q v e a r parsed) (Called p es v n e a (Some (pr_usage r))) (flow_ends p es v n).
Proof.
  intros Hn. eapply reconcile_now_safe; [intros now; apply (ol_completed _ _ _ O)|]. intros _.
  apply safe_quiet; [done|]. intros _. apply finalize_now_safe; [lia|]. intros _. by intros w Hw Hk.
Qed.

Lemma attempt_safe p es v n e ri rj :
  1 ≤ n → e ∈ es → 1 ≤ ri ≤ zlen es → 0 ≤ rj < attempts_of p →
  safely (attempt gw validate q p v e ri rj) (Holding p es v n) (flow_ends p es v n).
Proof.
  intros Hn He Hri Hrj. unfold attempt. apply stale_safe. intros [].
  - apply finalize_now_safe; [lia|]. intros _. apply stale_code_safe. intros c.
    apply safe_throw. apply (ol_over _ _ _ O).
  - apply safe_quiet; [done|]. intros now. set (a := attempt_id_of q ri rj).
    apply safe_op with (s' := λ r, match r with
                                   | Ok _ => Intent p es v n e a
                                   | Raise x => Failed (Plain x)
                                   end).
    { intros an w Ha Hw Hk. destruct (ol_append _ _ _ O p es v n e ri rj now He Hn Hri Hrj an w Ha Hw Hk) as (H1 & H2 & H3).
      split; [|done]. by destruct (handle gw an i _ _ w).1. }
    intros [c|x]; [|by apply safe_throw].
    apply (safe_try _ _ _ _ i _ _ _ _ (λ r, K (Called p es v n e a (Some (pr_usage r))))
             (λ _, K (Called p es v n e a None))).
    + unfold _invoke. case_match.
      * intros w Hw Hk. by apply (ol_missing _ _ _ O).
      * apply safe_op with (s' := λ o, Called p es v n e a (outcome_usage o)); [apply (ol_invoke _ _ _ O)|].
        intros [r|pe|]; by intros w Hw Hk.
    + intros r. apply (safe_try _ _ _ _ i _ _ _ _ (λ _, K (Called p es v n e a (Some (pr_usage r))))
                         (λ _, K (Called p es v n e a (Some (pr_usage r))))).
      * apply accept_result_safe.
      * intros parsed. by apply complete_safe.
      * intros x. by apply on_failure_safe.
    + intros x. by apply on_failure_safe.
Qed.

Lemma repairs_safe p es v n e ri rj (m : nat) failures :
  e ∈ es → Z.of_nat m ≤ n → 1 ≤ ri ≤ zlen es → 0 ≤ rj → rj + Z.of_nat m ≤ attempts_of p →
  safely (repairs gw validate q p v e ri rj m failures) (Holding p es v n)
    (λ r, match r with inl _ => K Over | inr _ => K (Holding p es v (n - Z.of_nat m)) end).
Proof.
  intros He. revert rj n failures. induction m as [|m IH]; intros rj n failures Hm Hri Hrj Hrm.
  - intros w Hw Hk. by rewrite Z.sub_0_r.
  - cbn [repairs]. eapply safe_then; [apply attempt_safe; [lia|done|done|lia]|]. intros [parsed|pe|pe].
    + by intros w Hw Hk.
    + eapply safe_weaken; [apply (IH (rj + 1) (n - 1)); [lia|done|lia..]|done| |done].
      intros [?|?] w Hw Hk; [done|]. by replace (n - Z.of_nat (S m)) with (n - 1 - Z.of_nat m) by lia.
    + intros w Hw Hk. cbn in *. apply (ol_less _ _ _ O _ _ _ _ (n - 1)); [done|lia|done].
Qed.

Lemma routes_safe p es v n ri rest failures :
  sublist rest es → 0 ≤ attempts_of p → zlen rest * attempts_of p ≤ n →
  1 ≤ ri → ri - 1 + zlen rest ≤ zlen es →
  safely (routes gw validate q p v ri rest failures) (Holding p es v n) (λ _, K Over).
Proof.
  revert ri n failures. induction rest as [|e rest IH]; intros ri n failures Hsub Ha Hn Hri Hlr.
  - apply finalize_now_safe; [done|]. intros _.
    destruct (last failures); apply safe_throw; apply (ol_over _ _ _ O).
  - cbn [routes]. apply safe_quiet; [done|].
    assert (zlen (e :: rest) = zlen rest + 1) as Hlen by (unfold zlen; cbn; lia).
    rewrite Hlen in Hn, Hlr. assert (0 ≤ zlen rest) by (unfold zlen; lia). intros [].
    + apply finalize_now_safe; [nia|]. intros _. apply safe_throw. apply (ol_over _ _ _ O).
    + eapply safe_then.
      * apply repairs_safe; [|rewrite Z2Nat.id by done; nia|lia|done|lia].
        apply elem_of_sublist with (l1 := e :: rest); [by left|done].
      * intros [parsed|fs]; [by intros w Hw Hk|]. rewrite Z2Nat.id by done.
        apply IH; [|done|lia..]. etrans; [|exact Hsub]. by constructor.
Qed.

Lemma reserved_safe p es :
  es ≠ [] →
  safely (then_ (_check_rate (mq_tenant_id q)) (λ _, then_ (call Now) (λ now,
            then_ (call (Reserve q p (_conservative_tokens q) (maximum_cost q p es) now)) (λ r,
              then_ (of_res r) (λ v, routes gw validate q p v 1 es [])))))
    (Chosen p es) (λ _, K Over).
Proof.
  intros Hne. apply safe_pure with (φ := 1 ≤ attempts_of p); [apply (ol_attempts _ _ _ O)|]. intros Ha.
  apply safe_quiet; [done|]. intros now. apply safe_quiet; [done|]. intros [].
  - apply safe_quiet; [done|]. intros now'.
    apply safe_op with (s' := λ r, match r with
                                   | Ok v => Holding p es v (zlen es * attempts_of p)
                                   | Raise x => Failed (Plain x)
                                   end).
    { intros an w Hl Hw Hk. destruct (ol_reserve _ _ _ O p es now' Hne an w Hl Hw Hk) as (H1 & H2 & H3).
      split; [|done]. by destruct (handle gw an i _ _ w).1. }
    intros [v|x]; [|by apply safe_throw]. apply routes_safe; [done|lia..].
  - apply safe_throw. apply (ol_unchosen _ _ _ O).
Qed.

Lemma chosen_safe p :
  safely (then_ (_eligible_entries q p) (λ circuit_entries,
            then_ (each (closed_entry (mq_tenant_id q)) circuit_entries) (λ closed,
              match omap id closed with
              | [] => Throw (provider_error EC_CIRCUIT_OPEN true NOT_BILLED)
              | entries =>
                  then_ (_check_rate (mq_tenant_id q)) (λ _, then_ (call Now) (λ now,
                    then_ (call (Reserve q p (_conservative_tokens q) (maximum_cost q p entries) now)) (λ r,
                      then_ (of_res r) (λ v, routes gw validate q p v 1 entries []))))
              end)))
    (Chosen p []) (λ _, K Over).
Proof.
  unfold _eligible_entries, guard. destruct (_ <? _) eqn:Ht.
  { apply safe_throw. apply (ol_unchosen _ _ _ O). }
  apply Z.ltb_ge in Ht. cbn [then_]. apply safe_then with (Q := λ es, K (Chosen p es)).
  - eapply safe_then; [by apply eligible_safe; [|done|cbn; lia]|]. intros l. cbn beta.
    destruct (omap id l) as [|e es] eqn:El; cbn [app].
    + apply safe_throw. apply (ol_unchosen _ _ _ O).
    + by intros w Hw Hk.
  - intros es. cbn beta. eapply safe_then; [by apply closed_safe|]. intros closed.
    apply safe_pure with (φ := sublist (omap id closed) es); [by intros w _ [Hs _]|]. intros Hsub.
    apply safe_weaken with (P := K (Chosen p (omap id closed))) (Q := λ _, K Over) (Z := λ x, K (Failed x));
      [|intros w Hw [_ Hk]; by apply (ol_filter _ _ _ O w p es)|done..].
    destruct (omap id closed) as [|e es'] eqn:El.
    + apply safe_throw. apply (ol_unchosen _ _ _ O).
    + by apply reserved_safe.
Qed.

Lemma generate_admitted_safe :
  safely (_generate_admitted gw validate q) Before (λ _, K Over).
Proof.
  unfold _generate_admitted, _require_policy.
  apply safe_read with (f := λ w, current_policy (mq_tenant_id q) (wd_store w))
    (s' := λ o, match o with
                | Some p => if policy_refusal q p then Before else Chosen p []
                | None => Before
                end); [done..| |].
  - intros w Hw Hk. destruct (current_policy _ _) as [p|] eqn:Hp; [|done].
    destruct (policy_refusal q p) eqn:Hr; [done|]. by apply (ol_policy _ _ _ O).
  - intros [p|]; [|apply safe_throw; apply (ol_refused _ _ _ O)].
    cbn [then_ call]. destruct (policy_refusal q p) as [reason|].
    + apply safe_throw. apply (ol_refused _ _ _ O).
    + apply chosen_safe.
Qed.

(** A thread of [generate] keeps the invariant and its guarantee, and ends as the outline says. *)
Lemma generate_safe :
  safely (generate gw validate q) Before (λ _, K Over).
Proof.
  apply safe_quiet; [done|]. intros []; [apply safe_throw; apply (ol_refused _ _ _ O)|].
  apply safe_quiet; [done|]. intros []; [|apply safe_throw; apply (ol_refused _ _ _ O)].
  eapply safe_try; [apply generate_admitted_safe|..].
  - intros a. apply safe_quiet; [done|]. intros _. by intros w Hw Hk.
  - intros x. apply safe_quiet; [done|]. intros _. by intros w Hw Hk.
Qed.
End attempts.
End outline.
