(* ===== verification/ModelOnce.v ===== *)
(** * Provider calls: authorised, written ahead, made once

    Over any interleaving of any calls of [generate], also calls that share a call id: what holds
    of every call made to a provider. *)

From S2P Require Import Prelude PyJson PyTime PyModel PyProg Domain ModelData ModelStore ModelCalls ModelFacts.

Section once.
Context `{!Digest} (gw : ModelGateway).

(** ** The property *)

(** Policy [p] was installed for the tenant of [q] and lets [q] use every entry of [es]. *)
Record permitted (q : ModelRequest) (p : TenantModelPolicy) (es : list ModelCatalogEntry)
    (w : model_world) : Prop := {
  pm_installed : p ∈ wd_installed w;
  pm_tenant : tm_tenant_id p = mq_tenant_id q;
  pm_valid : TenantModelPolicy_ok p = true;
  pm_request : policy_refusal q p = None;
  pm_count : (length es ≤ length (tm_routes p))%nat;
  pm_entries : Forall (λ e,
    _catalog (wd_store w) !! (mq_tenant_id q, entry_key e) = Some e ∧
    _conservative_tokens q ≤ tm_maximum_input_tokens p ∧
    ∃ r, r ∈ tm_routes p ∧ entry_eligible q p r e = true) es
}.

(** The reservation of the call was made under [p] for the tokens of [q]. *)
Definition reserved (q : ModelRequest) (p : TenantModelPolicy) (v : ModelReservation) (w : model_world) : Prop :=
  dict_get (mq_tenant_id q, mq_call_id q) (_reservations (wd_store w)) = Some v ∧
  same_reservation q p (_conservative_tokens q) v = true.

(** The record of the attempt, appended before the call *)
Definition written (q : ModelRequest) (e : ModelCatalogEntry) (a : string) (w : model_world) : Prop :=
  ∃ c, dict_get (mq_tenant_id q, a) (_records (wd_store w)) = Some c ∧
    intent_of c = (mq_tenant_id q, mq_run_id q, mq_call_id q, a, request_digest q, entry_key e).

(** Attempts are numbered by route and repair. *)
Definition numbered (q : ModelRequest) (a : string) : Prop :=
  ∃ ri rj, 1 ≤ ri ≤ _MAX_ROUTES ∧ 0 ≤ rj ≤ 2 ∧ a = attempt_id_of q ri rj.

Definition authorised (w : model_world) (x : (string * string) * (ModelCatalogEntry * ModelRequest)) : Prop :=
  let '((t, a), (e, q)) := x in
  t = mq_tenant_id q ∧ numbered q a ∧ written q e a w ∧ is_Some (wd_owner w !! (t, a)) ∧
  ∃ p v, permitted q p [e] w ∧ reserved q p v w.

(** ** The invariant *)

Record once_inv (w : model_world) : Prop := {
  oi_policies t p : _policies (wd_store w) !! t = Some p →
    p ∈ wd_installed w ∧ tm_tenant_id p = t ∧ TenantModelPolicy_ok p = true;
  oi_owner k : dict_get k (_records (wd_store w)) = None → wd_owner w !! k = None;
  oi_once : NoDup (wd_calls w).*1;
  oi_calls : Forall (authorised w) (wd_calls w)
}.

(** What every step keeps *)
Record wgrows (w w' : model_world) : Prop := {
  wg_store : lasts (wd_store w) (wd_store w');
  wg_installed p : p ∈ wd_installed w → p ∈ wd_installed w';
  wg_owner k j : wd_owner w !! k = Some j → wd_owner w' !! k = Some j
}.

(** Thread [i] only makes calls for attempts it appended. *)
Definition once_step (i : nat) (w w' : model_world) : Prop :=
  wgrows w w' ∧
  ∃ new, wd_calls w' = wd_calls w ++ new ∧ ∀ x, x ∈ new → wd_owner w !! x.1 = Some i.

Lemma permitted_grows q p es w w' : wgrows w w' → permitted q p es w → permitted q p es w'.
Proof.
  intros Hw [H1 H2 H3 H4 H5 H6]. split; [by apply Hw|done..|].
  by rewrite (la_catalog _ _ (wg_store _ _ Hw)).
Qed.

Lemma reserved_grows q p v w w' : wgrows w w' → reserved q p v w → reserved q p v w'.
Proof. intros Hw [H1 H2]. split; [|done]. by apply (wg_store _ _ Hw). Qed.

Lemma written_grows q e a w w' : wgrows w w' → written q e a w → written q e a w'.
Proof.
  intros Hw (c & Hc & Hi). destruct (la_record _ _ (wg_store _ _ Hw) _ _ Hc) as (c' & Hc' & Hi').
  exists c'. by rewrite Hi'.
Qed.

Lemma authorised_grows w w' x : wgrows w w' → authorised w x → authorised w' x.
Proof.
  destruct x as [[t a] [e q]]. intros Hw (-> & Ha & H1 & [j H2] & p & v & H3 & H4).
  do 2 (split; [done|]). split; [by eapply written_grows|]. split; [exists j; by apply Hw|].
  exists p, v. split; [by eapply permitted_grows|by eapply reserved_grows].
Qed.

(** ** What a thread knows *)

Definition once_stage (i : nat) (q : ModelRequest) (s : stage) (w : model_world) : Prop :=
  match s with
  | Before | Over | Failed _ => True
  | Chosen p es => permitted q p es w
  | Holding p es v _ => permitted q p es w ∧ reserved q p v w
  | Called p es v _ _ _ _ => permitted q p es w ∧ reserved q p v w
  | Intent p es v _ e a =>
      permitted q p es w ∧ reserved q p v w ∧ e ∈ es ∧ numbered q a ∧ written q e a w
      ∧ wd_owner w !! (mq_tenant_id q, a) = Some i ∧ (mq_tenant_id q, a) ∉ (wd_calls w).*1
  end.

Lemma once_stage_stable i q s : stable once_inv once_step i (once_stage i q s).
Proof.
  intros w w' Hw Hk [Hw' [->|(j & Hj & Hg & new & Hcalls & Hnew)]]; [done|].
  destruct s; cbn in *; try done.
  - by eapply permitted_grows.
  - destruct Hk as [H1 H2]. split; [by eapply permitted_grows|by eapply reserved_grows].
  - destruct Hk as (H1 & H2 & H3 & Ha & H4 & H5 & H6).
    split; [by eapply permitted_grows|]. split; [by eapply reserved_grows|]. do 2 (split; [done|]).
    split; [by eapply written_grows|]. split; [by apply Hg|].
    rewrite Hcalls, fmap_app, elem_of_app. intros [?|(x & Hx & Hin)%list_elem_of_fmap]; [done|].
    apply Hnew in Hin. rewrite <- Hx in Hin. congruence.
  - destruct Hk as [H1 H2]. split; [by eapply permitted_grows|by eapply reserved_grows].
Qed.

(** A step that keeps the call log: what to check *)
Lemma once_quietly i w w' :
  once_inv w → wgrows w w' → wd_calls w' = wd_calls w → _policies (wd_store w') = _policies (wd_store w) →
  (∀ k, dict_get k (_records (wd_store w')) = None → wd_owner w' !! k = None) →
  once_inv w' ∧ once_step i w w'.
Proof.
  intros [H1 H2 H3 H4] Hg Hc Hp Ho. split.
  - split; [|done|by rewrite Hc|].
    + intros t p. rewrite Hp. intros Ht%H1. destruct Ht as (? & ? & ?). by split; [apply Hg|].
    + rewrite Hc. eapply Forall_impl; [exact H4|]. intros x. by apply authorised_grows.
  - split; [done|]. exists []. rewrite app_nil_r. by split; [|intros x ?%elem_of_nil].
Qed.

Lemma on_gateway_once i f w : once_inv w → once_inv (on_gateway f w) ∧ once_step i w (on_gateway f w).
Proof. intros Hw. apply once_quietly; [done|by split|done..|apply Hw]. Qed.

(** A store method that appends no record *)
Lemma on_store_once i f w :
  once_inv w → lasts (wd_store w) (f (wd_store w)) → _policies (f (wd_store w)) = _policies (wd_store w) →
  once_inv (on_store f w) ∧ once_step i w (on_store f w).
Proof.
  intros Hw Hl Hp. apply once_quietly; [done|by split|done..|]. intros k Hk. cbn in *.
  apply Hw. destruct (dict_get k (_records (wd_store w))) as [c|] eqn:Hc; [|done].
  destruct (la_record _ _ Hl k c Hc) as (c' & Hc' & _). congruence.
Qed.

(** ** The outline *)

Definition any_answer (e : answers) : Prop := True.

Notation leads_once i o K K' := (leads gw any_answer once_inv once_step i o K K').

Lemma quiet_once i q s R (o : gateway_op R) :
  quiet o = true → leads_once i o (once_stage i q s) (λ _, once_stage i q s).
Proof.
  intros Hq e w _ Hw Hk. destruct (quiet_world gw e i R o w Hq) as [f ->].
  destruct (on_gateway_once i f w Hw) as [H1 H2]. split; [|done].
  assert (Hp : ∀ p es, permitted q p es w → permitted q p es (on_gateway f w)).
  { intros p es. by apply permitted_grows. }
  destruct s; cbn in *; naive_solver.
Qed.

Lemma reserve_once i q p es now :
  leads_once i (Reserve q p (_conservative_tokens q) (maximum_cost q p es) now) (once_stage i q (Chosen p es))
    (λ r, match r with
          | Ok v => once_stage i q (Holding p es v (zlen es * attempts_of p))
          | Raise e => once_stage i q (Failed (Plain e))
          end).
Proof.
  intros e w _ Hw Hk. cbn.
  pose proof (on_store_once i (λ s, (reserve q p (_conservative_tokens q) (maximum_cost q p es) now s).2)
    w Hw (reserve_lasts _ _ _ _ _ _) (reserve_policies _ _ _ _ _ _)) as [H1 H2].
  split; [|done]. assert (Hg := proj1 H2). eapply permitted_grows in Hk; [|exact Hg]. clear H1 H2 Hg.
  revert Hk. unfold store_call, on_store. cbn.
  destruct (reserve_run q p (_conservative_tokens q) (maximum_cost q p es) now (wd_store w)) as [x|v Hv Hs|Hn];
    intros Hk; cbn; [done|by split; [|split]|].
  split; [done|]. split; cbn; [by rewrite dict_get_set_eq|].
  unfold same_reservation. cbn. rewrite !Z.eqb_refl, !bool_decide_true by done. done.
Qed.

Lemma append_once i q p es v n e a now :
  e ∈ es → numbered q a →
  leads_once i (AppendRequested v q e a now) (once_stage i q (Holding p es v n))
    (λ r, match r with
          | Ok _ => once_stage i q (Intent p es v n e a)
          | Raise x => once_stage i q (Failed (Plain x))
          end).
Proof.
  intros He Ha an w _ Hw [Hk1 Hk2]. unfold handle, store_call, on_store. cbn.
  pose proof (append_lasts v q e a now (wd_store w)) as Hl.
  pose proof (append_policies v q e a now (wd_store w)) as Hp. revert Hl Hp.
  destruct (append_run v q e a now (wd_store w)) as [x|Hn]; intros Hl Hp; cbn.
  - split; [done|]. apply once_quietly; [done|by split|done..|apply Hw].
  - assert (Ho : wd_owner w !! (mq_tenant_id q, a) = None) by (by apply (oi_owner _ Hw)).
    assert (Hout : (mq_tenant_id q, a) ∉ (wd_calls w).*1).
    { intros (x & Hx & Hin)%list_elem_of_fmap. pose proof (oi_calls _ Hw) as Hall.
      rewrite Forall_forall in Hall. specialize (Hall x Hin). destruct x as [[t b] [e' q']].
      cbn in Hx. injection Hx as <- <-. destruct Hall as (_ & _ & _ & [j Hj] & _). congruence. }
    set (w' := owns i _ true _). assert (Hg : wgrows w w').
    { split; [done|done|]. intros k j Hj. cbn. rewrite lookup_insert_ne; [done|]. intros <-. congruence. }
    split.
    + split; [by eapply permitted_grows|]. split; [by eapply reserved_grows|]. do 2 (split; [done|]).
      split; [exists (requested_record v q e a now); split; [apply dict_get_set_eq|done]|].
      split; [apply lookup_insert_eq|done].
    + apply once_quietly; [done|done|done..|]. intros k Hk. cbn in *.
      destruct (decide ((mq_tenant_id q, a) = k)) as [<-|Hne]; [by rewrite dict_get_set_eq in Hk|].
      rewrite lookup_insert_ne by done. apply Hw. by rewrite dict_get_set_ne in Hk.
Qed.

Lemma invoke_once i q p es v n e a :
  leads_once i (Invoke e q a) (once_stage i q (Intent p es v n e a))
    (λ o, once_stage i q (Called p es v n e a (outcome_usage o))).
Proof.
  intros an w _ [H1 H2 H3 H4] (Hk1 & Hk2 & He & Ha & Hwr & Ho & Hout). cbn.
  assert (Hg : ∀ w', wd_store w' = wd_store w → wd_installed w' = wd_installed w →
    wd_owner w' = wd_owner w → wgrows w w').
  { intros w' E1 E2 E3. split; [by rewrite E1|by rewrite E2|by rewrite E3]. }
  split; [split; [by eapply permitted_grows, Hk1; apply Hg|done]|]. split; [split; cbn; [done|done|..]|].
  - rewrite fmap_app. apply NoDup_app. split; [done|]. split; [|apply NoDup_singleton].
    by intros k Hin ->%list_elem_of_singleton.
  - apply Forall_app. split; [eapply Forall_impl; [exact H4|]; intros x; by apply authorised_grows, Hg|].
    apply Forall_singleton. do 3 (split; [done|]). split; [by eexists|]. exists p, v.
    split; [|done]. destruct Hk1 as [P1 P2 P3 P4 P5 P6]. split; [done..| |].
    + cbn. etrans; [|exact P5]. destruct es; [by apply not_elem_of_nil in He|cbn; lia].
    + rewrite Forall_forall in P6. apply Forall_singleton. by apply P6.
  - split; [by apply Hg|]. eexists. split; [done|]. by intros x ->%list_elem_of_singleton.
Qed.

(** Settling a record moves nothing that matters here. *)
Lemma reconcile_once i q p es v t a outcome billing u cost code now (s : stage) :
  (∀ w, once_stage i q s w → permitted q p es w ∧ reserved q p v w) →
  leads_once i (Reconcile t a outcome billing u cost code now) (once_stage i q s)
    (λ _ w, permitted q p es w ∧ reserved q p v w).
Proof.
  intros Hs e w _ Hw [Hk1 Hk2]%Hs. cbn.
  pose proof (on_store_once i (λ s, (reconcile t a outcome billing u cost code now s).2)
    w Hw (reconcile_lasts _ _ _ _ _ _ _ _ _) (reconcile_policies _ _ _ _ _ _ _ _ _)) as [H1 H2].
  split; [|done]. split; [by eapply permitted_grows, Hk1; apply H2|by eapply reserved_grows, Hk2; apply H2].
Qed.

Lemma leads_weaken i R (o : gateway_op R) K (K1 K2 : R → model_world → Prop) :
  leads_once i o K K1 → (∀ r w, K1 r w → K2 r w) → leads_once i o K K2.
Proof. intros H1 H2 e w He Hw Hk. destruct (H1 e w He Hw Hk) as (? & ? & ?). eauto. Qed.

Lemma once_outline i q : outline gw any_answer once_inv once_step i q (once_stage i q).
Proof.
  split.
  - apply once_stage_stable.
  - apply quiet_once.
  - intros w p Hw _ Hp Hr. destruct (oi_policies _ Hw _ _ Hp) as (? & ? & ?). split; [done..|cbn; lia|done].
  - intros p es w _ Hk. apply attempts_range. by apply (pm_valid _ _ _ _ Hk).
  - intros w p es r e _ [P1 P2 P3 P4 P5 P6] Hr Hc He Ht Hlen. split; [done..| |].
    { rewrite length_app. cbn. lia. }
    apply Forall_app.
    split; [done|]. apply Forall_singleton.
    rewrite (eligible_key _ _ _ _ He).
    split; [done|]. split; [done|]. by exists r.
  - intros w p es es' _ [P1 P2 P3 P4 P5 P6] Hsub. split; [done..| |].
    { apply sublist_length in Hsub. lia. }
    rewrite Forall_forall in *. intros e He. apply P6. by eapply elem_of_sublist.
  - intros p es now _. apply reserve_once.
  - done.
  - intros p es v n e ri rj now He _ Hri Hrj an w Hl Hw Hk.
    apply append_once; [done| |done..]. destruct Hk as [Hp _]. exists ri, rj.
    pose proof (attempts_range _ (pm_valid _ _ _ _ Hp)). pose proof (pm_count _ _ _ _ Hp).
    pose proof (routes_range _ (pm_valid _ _ _ _ Hp)). unfold zlen in *. split; [lia|]. split; [lia|done].
  - intros p es v n e a. apply invoke_once.
  - intros w p es v n e a _ (H1 & H2 & _). by split.
  - intros p es v n e a u code now. by apply reconcile_once.
  - intros p es v n e a u billing code now. eapply leads_weaken; [by apply reconcile_once|]. by intros [] w.
  - intros p es v n e a u now. eapply leads_weaken; [by apply reconcile_once|]. by intros [] w.
  - intros p es v n now _ e w _ Hw _. cbn. split; [done|].
    apply (on_store_once i (λ s, (finalize v now s).2)); [done|apply finalize_lasts|apply finalize_policies].
  - done.
  - done.
  - done.
  - done.
Qed.

(** ** Every pool *)

Context {T : Set} (validate : payload → option T).

(** The threads of [generate], one per request *)
Definition model_pool (calls : list ModelRequest) : list (prog gateway_op model_exn T) :=
  generate gw validate <$> calls.

(** A step of a thread with legal answers, or the installation of a valid policy *)
Definition model_move (legal : answers → Prop) (m : move (W := model_world) (E := answers)) : Prop :=
  match m with
  | Thread i e => legal e
  | Outside f => ∃ p, TenantModelPolicy_ok p = true ∧ f = install p
  end.

Lemma install_once i p w :
  TenantModelPolicy_ok p = true → once_inv w → once_inv (install p w) ∧ once_step i w (install p w).
Proof.
  intros Hp [H1 H2 H3 H4]. assert (Hg : wgrows w (install p w)).
  { split; [by split; eauto|intros p' ?; by right|done]. }
  split; [split; cbn; [|done|done|]|].
  - intros t p'. destruct (decide (tm_tenant_id p = t)) as [<-|Hne].
    + rewrite lookup_insert_eq. intros [= <-]. by split; [left|].
    + rewrite lookup_insert_ne by done. intros (? & ? & ?)%H1. by split; [right|].
  - eapply Forall_impl; [exact H4|]. intros x. by apply authorised_grows.
  - split; [done|]. exists []. rewrite app_nil_r. by split; [|intros x ?%elem_of_nil].
Qed.

Lemma new_store_policies ps es limits t p :
  _policies (new_model_store ps es limits) !! t = Some p → p ∈ ps ∧ tm_tenant_id p = t.
Proof.
  intros Hp. cbn in Hp. apply (foldl_insert_lookup tm_tenant_id id) in Hp as [Hp|(p' & Hin & -> & ->)]; [|done].
  by rewrite lookup_empty in Hp.
Qed.

Lemma start_once ps es limits g :
  Forall (λ p, TenantModelPolicy_ok p = true) ps → once_inv (model_start ps es limits g).
Proof.
  intros Hps. split; cbn; [|done|constructor|constructor].
  intros t p Hp. destruct (new_store_policies ps es limits t p Hp) as [Hin Ht].
  rewrite Forall_forall in Hps. split; [done|]. split; [done|]. by apply Hps.
Qed.

(** The reasoning principle for pools of [generate]: the start satisfies the invariant and what the
    threads know before they run, and every thread has an outline. *)
Lemma model_pool_safe (legal : answers → Prop) Inv G (K : nat → ModelRequest → stage → model_world → Prop)
    calls ms w :
  Forall (model_move legal) ms → Inv w →
  (∀ i q, calls !! i = Some q → outline gw legal Inv G i q (K i q) ∧ K i q Before w) →
  (∀ p w, TenantModelPolicy_ok p = true → Inv w → Inv (install p w) ∧ ∀ i, G i w (install p w)) →
  let '(threads, w') := run_pool (handle gw) ms (model_pool calls, w) in
  Inv w' ∧ ∀ i q, calls !! i = Some q →
    (∀ a, threads !! i = Some (Return a) → K i q Over w') ∧
    (∀ x, threads !! i = Some (Throw x) → K i q (Failed x) w').
Proof.
  intros Hms Hw Hcalls Hinstall.
  set (KQ := λ i s w, ∀ q, calls !! i = Some q → K i q s w).
  assert (Hsafe : pool_safe (handle gw) Inv legal G (λ i (_ : T), KQ i Over) (λ i x, KQ i (Failed x))
    (run_pool (handle gw) ms (model_pool calls, w))).
  { apply (run_pool_safe _ _ _ _ (model_move legal)); [|intros f [p [Hp ->]] w0 Hw0|done|split; [done|]].
    - done.
    - by apply Hinstall.
    - intros i t. cbn. unfold model_pool. rewrite list_lookup_fmap. intros (q & Hq & ->)%fmap_Some.
      destruct (Hcalls i q Hq) as [Ho Hk]. exists (K i q Before).
      split; [apply (ol_stable _ _ _ _ _ _ _ Ho)|]. split; [done|].
      eapply safe_weaken; [apply generate_safe, Ho|done|..].
      + intros a w1 _ H1 q' Hq'. by simplify_eq.
      + intros x w1 _ H1 q' Hq'. by simplify_eq. }
  destruct (run_pool _ _ _) as [threads w']. destruct Hsafe as [Hi Hs]. split; [done|].
  intros i q Hq. split; intros y Hy; destruct (Hs i _ Hy) as (P & _ & HP & Hp); by apply (Hp w' Hi HP).
Qed.

Lemma pool_once ps es limits g calls ms :
  Forall (λ p, TenantModelPolicy_ok p = true) ps → Forall (model_move any_answer) ms →
  once_inv (run_pool (handle gw) ms (model_pool calls, model_start ps es limits g)).2.
Proof.
  intros Hps Hms.
  pose proof (model_pool_safe any_answer once_inv once_step once_stage calls ms (model_start ps es limits g)
    Hms (start_once _ _ _ _ Hps)) as Hsafe.
  destruct (run_pool _ _ _) as [threads w]. apply Hsafe.
  - intros i q _. split; [apply once_outline|done].
  - intros p w0 Hp Hw0. split; [by apply (install_once 0 p)|]. intros i. by apply install_once.
Qed.

(** ** How many calls *)

(** The attempts a call id can have *)
Definition call_attempts (t : string) (q : ModelRequest) : list (string * string) :=
  ri ← seqZ 1 _MAX_ROUTES; (λ rj, (t, attempt_id_of q ri rj)) <$> seqZ 0 3.

Lemma call_attempts_numbered q a : numbered q a → (mq_tenant_id q, a) ∈ call_attempts (mq_tenant_id q) q.
Proof.
  intros (ri & rj & Hri & Hrj & ->). apply list_elem_of_bind. exists ri. split.
  - apply list_elem_of_fmap. exists rj. split; [done|]. apply elem_of_seqZ. lia.
  - apply elem_of_seqZ. unfold _MAX_ROUTES in *. lia.
Qed.

Lemma calls_bounded w t c :
  once_inv w →
  zlen (List.filter (λ x, bool_decide (mq_tenant_id x.2.2 = t) && bool_decide (mq_call_id x.2.2 = c))
          (wd_calls w)) ≤ 24.
Proof.
  intros [_ _ Hnd Hall]. set (mine := List.filter _ _).
  assert (Hmine : ∀ x, x ∈ mine → x ∈ wd_calls w ∧ mq_tenant_id x.2.2 = t ∧ mq_call_id x.2.2 = c).
  { intros x (H1 & H2)%list_elem_of_In%filter_In. apply andb_true_iff in H2 as [H2 H3].
    apply bool_decide_eq_true in H2, H3. by split; [apply list_elem_of_In|]. }
  assert (Hnd' : NoDup mine.*1).
  { eapply sublist_NoDup; [exact Hnd|]. apply fmap_sublist, filter_sublist. }
  destruct mine as [|x0 mine0] eqn:E; [done|]. rewrite <- E in *.
  assert (Hx0 : x0 ∈ mine) by (rewrite E; by left).
  assert (Hsub : mine.*1 ⊆+ call_attempts t x0.2.2).
  { apply NoDup_submseteq; [done|]. intros k (x & -> & Hx)%list_elem_of_fmap.
    destruct (Hmine x Hx) as (Hin & Ht & Hc). rewrite Forall_forall in Hall. specialize (Hall x Hin).
    destruct x as [[t' a] [e q]]. cbn in *. destruct Hall as (-> & Hn & _).
    destruct (Hmine x0 Hx0) as (_ & Ht0 & Hc0). rewrite Ht.
    apply call_attempts_numbered in Hn. rewrite Ht in Hn.
    replace (call_attempts t x0.2.2) with (call_attempts t q); [done|].
    unfold call_attempts, attempt_id_of. by rewrite Hc, Hc0. }
  apply submseteq_length in Hsub. rewrite length_fmap in Hsub. unfold zlen.
  change (length (call_attempts t x0.2.2)) with 24%nat in Hsub. lia.
Qed.

End once.
