(* ===== verification/ModelBudget.v ===== *)
(** * The model budget under concurrency

    Over any interleaving of calls of [generate] with call ids of their own, no tenant's
    reservations consume more than its budget, and a call that ended leaves nothing open. *)

From S2P Require Import Prelude PyJson PyTime PyModel PyProg Domain ModelData ModelStore ModelCalls ModelFacts ModelOnce.

(** ** Filtered dicts *)

Section filter_dict.
Context {K V : Type} `{!EqDecision K} (f : K * V → bool).

Lemma sum_of_set (g : K * V → Z) k v (d : list (K * V)) :
  sum_of g (dict_set k v d)
  = sum_of g d + g (k, v) - match dict_get k d with Some v0 => g (k, v0) | None => 0 end.
Proof.
  induction d as [|[k' v'] d IH]; cbn [dict_set dict_get]; [cbn; lia|].
  destruct (decide (k' = k)) as [->|Hne]; rewrite !sum_of_cons; [lia|]. rewrite IH. lia.
Qed.

Lemma dict_set_cases k v (d : list (K * V)) x :
  x ∈ dict_set k v d → NoDup d.*1 → x = (k, v) ∨ x ∈ d ∧ x.1 ≠ k.
Proof.
  induction d as [|[k' v'] d IH]; cbn; [intros ->%list_elem_of_singleton; by left|].
  intros Hx [Hn Hnd]%NoDup_cons. destruct (decide (k' = k)) as [->|Hne].
  - apply elem_of_cons in Hx as [->|Hx]; [by left|]. right. split; [by right|]. intros <-. apply Hn.
    apply list_elem_of_fmap. by exists x.
  - apply elem_of_cons in Hx as [->|Hx]; [right; split; [by left|done]|].
    destruct (IH Hx Hnd) as [->|[??]]; [by left|right; split; [by right|done]].
Qed.

Lemma filter_dict_set_in k v (d : list (K * V)) :
  f (k, v) = true → (∀ v0, dict_get k d = Some v0 → f (k, v0) = true) →
  List.filter f (dict_set k v d) = dict_set k v (List.filter f d).
Proof.
  intros Hv. induction d as [|[k' v'] d IH]; cbn [dict_get dict_set]; intros Hold; [cbn; by rewrite Hv|].
  destruct (decide (k' = k)) as [->|Hne]; cbn.
  - rewrite Hv, (Hold v') by done. cbn. by rewrite decide_True.
  - rewrite (IH Hold). destruct (f (k', v')); cbn; by rewrite ?decide_False.
Qed.

Lemma filter_dict_set_out k v (d : list (K * V)) :
  f (k, v) = false → (∀ v0, dict_get k d = Some v0 → f (k, v0) = false) →
  List.filter f (dict_set k v d) = List.filter f d.
Proof.
  intros Hv. induction d as [|[k' v'] d IH]; cbn [dict_get dict_set]; intros Hold; [cbn; by rewrite Hv|].
  destruct (decide (k' = k)) as [->|Hne]; cbn.
  - by rewrite Hv, (Hold v').
  - by rewrite (IH Hold).
Qed.

Lemma elem_of_dict_set k v (d : list (K * V)) x : x ∈ dict_set k v d → x ∈ d ∨ x = (k, v).
Proof.
  induction d as [|[k' v'] d IH]; cbn; [intros ->%list_elem_of_singleton; by right|].
  destruct (decide (k' = k)) as [->|Hne]; intros [->|Hx]%elem_of_cons; [by right|left; by right|left; by left|].
  destruct (IH Hx) as [?|?]; [left; by right|by right].
Qed.

Lemma dict_get_NoDup k v (d : list (K * V)) : NoDup d.*1 → (k, v) ∈ d → dict_get k d = Some v.
Proof.
  induction d as [|[k' v'] d IH]; cbn; [intros _ []%not_elem_of_nil|].
  intros [Hn Hnd]%NoDup_cons [[= -> ->]|Hin]%elem_of_cons; [by rewrite decide_True|].
  rewrite decide_False; [by apply IH|]. intros ->. apply Hn. apply list_elem_of_fmap. by exists (k, v).
Qed.

Lemma dict_get_filter k v (d : list (K * V)) :
  NoDup d.*1 → dict_get k (List.filter f d) = Some v → dict_get k d = Some v ∧ f (k, v) = true.
Proof.
  intros Hnd Hg. apply dict_get_elem, list_elem_of_In, filter_In in Hg as [Hin Hf].
  split; [|done]. by apply dict_get_NoDup; [|apply list_elem_of_In].
Qed.
End filter_dict.

(** ** One call's part of the store *)

Notation call_key := (string * string)%type.

Definition call_of (q : ModelRequest) : call_key := (mq_tenant_id q, mq_call_id q).
Definition key_of (v : ModelReservation) : call_key := (mv_tenant_id v, mv_reservation_id v).
Definition in_call (k : call_key) (x : (string * string) * ModelCallRecord) : bool := of_call k.1 k.2 x.2.
Definition own_records (k : call_key) (s : model_store) : list ((string * string) * ModelCallRecord) :=
  List.filter (in_call k) (_records s).

Definition billed_cost (x : (string * string) * ModelCallRecord) : Z :=
  if is_billed x.2 then cost_or_0 x.2 else 0.

(** What the provider charged for a call so far *)
Definition billed (k : call_key) (s : model_store) : Z := sum_of billed_cost (own_records k s).

Definition same_call (k : call_key) (s s' : model_store) : Prop :=
  dict_get k (_reservations s') = dict_get k (_reservations s)
  ∧ _finalized s' !! k = _finalized s !! k ∧ own_records k s' = own_records k s.

Lemma consumed_billed s v :
  _consumed_cost s v = match _finalized s !! key_of v with
                       | None | Some true => mv_reserved_cost_microunits v
                       | Some false => billed (key_of v) s
                       end.
Proof.
  unfold _consumed_cost, billed, own_records, records, key_of.
  destruct (_finalized s !! _) as [[]|]; [done| |done].
  rewrite !sum_of_filter. induction (_records s) as [|[k c] l IH]; [done|].
  cbn [fmap list_fmap snd]. rewrite !sum_of_cons. cbn [fmap] in IH. rewrite IH.
  unfold billed_cost, in_call. cbn [fst snd]. by destruct (of_call _ _ c), (is_billed c).
Qed.

Lemma tenant_consumed_sum s t :
  tenant_consumed s t
  = sum_of (λ v, if bool_decide (mv_tenant_id v = t) then _consumed_cost s v else 0) (_reservations s).*2.
Proof. apply sum_of_filter. Qed.

Lemma consumed_same s s' v : same_call (key_of v) s s' → _consumed_cost s' v = _consumed_cost s v.
Proof. intros (_ & Hf & Ho). rewrite !consumed_billed. unfold billed. by rewrite Hf, Ho. Qed.

Lemma consumed_le s s' t :
  _reservations s' = _reservations s →
  (∀ v, v ∈ reservations s → _consumed_cost s' v ≤ _consumed_cost s v) →
  tenant_consumed s' t ≤ tenant_consumed s t.
Proof.
  intros Hr Hv. unfold tenant_consumed, reservations in *. rewrite Hr. apply sum_of_le.
  intros v (Hin & _)%list_elem_of_In%filter_In. apply Hv. by apply list_elem_of_In.
Qed.

(** ** Cost *)

Lemma round_cost_mono x y : x ≤ y → _round_cost x ≤ _round_cost y.
Proof.
  intros Hxy. unfold _round_cost. assert (- y / _MONEY_SCALE ≤ - x / _MONEY_SCALE); [|lia].
  apply Z.div_le_mono; unfold _MONEY_SCALE; lia.
Qed.

(** A provider that reports no more than what was asked for *)
Definition within_request (q : ModelRequest) (u : ModelUsage) : Prop :=
  ModelUsage_ok u = true ∧ us_output_tokens u ≤ mq_max_output_tokens q ∧
  us_input_tokens u + us_cache_read_tokens u + us_cache_write_tokens u ≤ _conservative_tokens q.

Lemma foldr_max_nonneg (l : list Z) : 0 ≤ foldr Z.max 0 l.
Proof. induction l; cbn; lia. Qed.

Lemma foldr_max_le (l : list Z) x : x ∈ l → x ≤ foldr Z.max 0 l.
Proof. induction l as [|y l IH]; cbn; [intros []%not_elem_of_nil|intros [->|H]%elem_of_cons; [lia|]]. specialize (IH H). lia. Qed.

Lemma cost_within q es e u :
  e ∈ es → ModelPrice_ok (ce_price e) = true → within_request q u →
  actual_cost_microunits (ce_price e) u ≤ attempt_cost q es.
Proof.
  intros He Hp (Hu & Ho & Hi).
  assert (actual_cost_microunits (ce_price e) u
    ≤ maximum_cost_microunits (ce_price e) (_conservative_tokens q) (mq_max_output_tokens q)).
  { unfold actual_cost_microunits, maximum_cost_microunits. apply round_cost_mono.
    unfold ModelPrice_ok, in_range in Hp. unfold ModelUsage_ok, in_range in Hu.
    rewrite !andb_true_iff, !Z.leb_le in *. nia. }
  etrans; [done|]. apply foldr_max_le. apply list_elem_of_fmap. by exists e.
Qed.

(** ** The invariant *)

Section budget.
Context `{!Digest} (gw : ModelGateway) (calls : list ModelRequest) (limits : gmap string Z).
Context (distinct : NoDup (call_of <$> calls)).

Record budget_inv (w : model_world) : Prop := {
  bi_policies t p : _policies (wd_store w) !! t = Some p → TenantModelPolicy_ok p = true;
  bi_catalog k e : _catalog (wd_store w) !! k = Some e → ModelPrice_ok (ce_price e) = true;
  bi_reservations : Forall (λ x, x.1 = key_of x.2) (_reservations (wd_store w));
  bi_reservation_keys : NoDup (_reservations (wd_store w)).*1;
  bi_record_keys : NoDup (_records (wd_store w)).*1;
  bi_limits : _limits (wd_store w) = limits;
  bi_budget t : tenant_consumed (wd_store w) t ≤ Z.max 0 (default 0 (limits !! t))
}.

(** Thread [i] leaves the calls of the others alone. *)
Definition budget_step (i : nat) (w w' : model_world) : Prop :=
  ∀ j q, j ≠ i → calls !! j = Some q → same_call (call_of q) (wd_store w) (wd_store w').

Definition honest (e : answers) : Prop :=
  ∀ entry q r, q ∈ calls → an_outcome e entry q = Result r → within_request q (pr_usage r).

(** A store update by the thread of call [k] *)
Record own_step (k : call_key) (s s' : model_store) : Prop := {
  os_policies : _policies s' = _policies s;
  os_catalog : _catalog s' = _catalog s;
  os_limits : _limits s' = _limits s;
  os_others k' : k' ≠ k → same_call k' s s';
  os_record_keys : NoDup (_records s).*1 → NoDup (_records s').*1
}.

Lemma own_step_refl k s : own_step k s s.
Proof. by split. Qed.

Lemma others_distinct i q j q' : calls !! i = Some q → calls !! j = Some q' → j ≠ i → call_of q' ≠ call_of q.
Proof.
  intros Hi Hj Hne Heq. apply Hne. eapply (NoDup_lookup _ _ _ (call_of q') distinct).
  - rewrite list_lookup_fmap, Hj. done.
  - rewrite list_lookup_fmap, Hi. cbn. by rewrite Heq.
Qed.

(** An update that keeps the reservations keeps the invariant when the call's own reservation
    consumes no more than before. *)
Lemma own_step_inv i q f w :
  calls !! i = Some q → budget_inv w → own_step (call_of q) (wd_store w) (f (wd_store w)) →
  _reservations (f (wd_store w)) = _reservations (wd_store w) →
  (∀ v, v ∈ reservations (wd_store w) → key_of v = call_of q →
     _consumed_cost (f (wd_store w)) v ≤ _consumed_cost (wd_store w) v) →
  budget_inv (on_store f w) ∧ budget_step i w (on_store f w).
Proof.
  intros Hi [B1 B2 B3 B4 B5 B7 B6] [O1 O2 O3 O4 O5] Hr Hown. split.
  - split; cbn; rewrite ?O1, ?O2, ?O3, ?Hr; auto. intros t. etrans; [|apply B6].
    apply consumed_le; [done|]. intros v Hv. destruct (decide (key_of v = call_of q)) as [E|E]; [auto|].
    by rewrite (consumed_same _ _ _ (O4 _ E)).
  - intros j q' Hne Hj. apply O4. by eapply others_distinct.
Qed.

(** ** What a thread knows *)

Definition closed_records (k : call_key) (s : model_store) : Prop :=
  Forall (λ x, is_Some (mc_completed_at x.2)) (own_records k s).

(** The reservation [v] is open and still pays for [n] attempts. *)
Definition open (q : ModelRequest) (es : list ModelCatalogEntry) (v : ModelReservation) (n : Z)
    (s : model_store) : Prop :=
  dict_get (call_of q) (_reservations s) = Some v ∧ _finalized s !! call_of q = None ∧
  billed (call_of q) s + attempt_cost q es * n ≤ mv_reserved_cost_microunits v ∧
  Forall (λ e, ModelPrice_ok (ce_price e) = true) es.

(** Its attempt [a] is pending, and is the only one. *)
Definition pending (q : ModelRequest) (a : string) (s : model_store) : Prop :=
  (∃ c, dict_get (mq_tenant_id q, a) (own_records (call_of q) s) = Some c
        ∧ mc_completed_at c = None ∧ mc_billing c = AMBIGUOUS) ∧
  Forall (λ x, x.1 = (mq_tenant_id q, a) ∨ is_Some (mc_completed_at x.2)) (own_records (call_of q) s).

(** Its attempt [a] is settled for good. *)
Definition settled_for_good (q : ModelRequest) (a : string) (s : model_store) : Prop :=
  (∃ c, dict_get (mq_tenant_id q, a) (own_records (call_of q) s) = Some c
        ∧ is_Some (mc_completed_at c) ∧ mc_billing c ≠ AMBIGUOUS) ∧
  closed_records (call_of q) s.

Definition closed (k : call_key) (s : model_store) : Prop :=
  is_Some (_finalized s !! k) ∧ closed_records k s.

Definition budget_stage (q : ModelRequest) (st : stage) (w : model_world) : Prop :=
  let s := wd_store w in
  let k := call_of q in
  match st with
  | Before => dict_get k (_reservations s) = None ∧ _finalized s !! k = None ∧ own_records k s = []
  | Chosen p es =>
      (dict_get k (_reservations s) = None ∧ _finalized s !! k = None ∧ own_records k s = [])
      ∧ TenantModelPolicy_ok p = true ∧ Forall (λ e, ModelPrice_ok (ce_price e) = true) es
  | Holding p es v n => open q es v n s ∧ closed_records k s
  | Intent p es v n e a => open q es v n s ∧ e ∈ es ∧ pending q a s
  | Called p es v n e a u =>
      e ∈ es ∧ (∀ u', u = Some u' → within_request q u') ∧
      (open q es v n s ∧ pending q a s ∨ open q es v (n - 1) s ∧ settled_for_good q a s)
  | Over => closed k s
  | Failed (Provider _) => dict_get k (_reservations s) = None ∨ closed k s
  | Failed (Plain _) => True
  end.

Lemma budget_stage_same q st w w' :
  same_call (call_of q) (wd_store w) (wd_store w') → budget_stage q st w → budget_stage q st w'.
Proof.
  intros (Hr & Hf & Ho).
  destruct st as [| | | | | |[]];
    unfold budget_stage, open, pending, settled_for_good, closed, closed_records, billed;
    rewrite ?Hr, ?Hf, ?Ho; auto.
Qed.

Lemma budget_stage_stable i q st :
  calls !! i = Some q → stable budget_inv budget_step i (budget_stage q st).
Proof.
  intros Hi w w' _ Hk [_ [->|(j & Hj & Hg)]]; [done|].
  eapply budget_stage_same; [|exact Hk]. by apply (Hg i q).
Qed.

Notation leads_budget i o K K' := (leads gw honest budget_inv budget_step i o K K').

(** A step that leaves the store as it is *)
Lemma same_store_budget i w w' :
  wd_store w' = wd_store w → budget_inv w → budget_inv w' ∧ budget_step i w w'.
Proof.
  intros Hs [B1 B2 B3 B4 B5 B7 B6]. split; [split; rewrite Hs; auto|].
  intros j q _ _. by rewrite Hs.
Qed.

Lemma quiet_budget i q st R (o : gateway_op R) :
  quiet o = true → leads_budget i o (budget_stage q st) (λ _, budget_stage q st).
Proof.
  intros Hq e w _ Hw Hk. destruct (quiet_world gw e i R o w Hq) as [f ->].
  split; [|by apply same_store_budget]. eapply budget_stage_same; [|exact Hk]. done.
Qed.

(** ** The updates of a thread *)

Lemma in_call_true k c : of_call k.1 k.2 c = true ↔ k = (mc_tenant_id c, mc_call_id c).
Proof.
  unfold of_call. rewrite andb_true_iff, !bool_decide_eq_true. destruct k; cbn. split; [intros [-> ->]|intros [= -> ->]]; done.
Qed.

Lemma own_step_record k ka c s :
  of_call k.1 k.2 c = true → (∀ c0, dict_get ka (_records s) = Some c0 → of_call k.1 k.2 c0 = true) →
  own_step k s (set_record ka c s) ∧
  own_records k (set_record ka c s) = dict_set ka c (own_records k s).
Proof.
  intros Hc Hold. split; [|by apply filter_dict_set_in].
  split; [done..| |cbn; apply dict_set_NoDup]. intros k' Hne. split; [done|]. split; [done|].
  assert (Hout : ∀ c', of_call k.1 k.2 c' = true → of_call k'.1 k'.2 c' = false).
  { intros c' Hc'%in_call_true. apply not_true_is_false. intros Hk'%in_call_true. congruence. }
  apply filter_dict_set_out; [by apply Hout|]. intros c0 H0. by apply Hout, Hold.
Qed.

Lemma own_step_finalized k b s : own_step k s (set_finalized k b s).
Proof.
  split; [done..| |done]. intros k' Hne. split; [done|]. split; [|done]. cbn. by rewrite lookup_insert_ne.
Qed.

Lemma own_record k a c s :
  NoDup (_records s).*1 → dict_get (k.1, a) (own_records k s) = Some c →
  dict_get (k.1, a) (_records s) = Some c ∧ of_call k.1 k.2 c = true.
Proof. intros Hnd Hc. by apply (dict_get_filter (in_call k)) in Hc. Qed.

(** A store call of thread [i] whose outcome keeps the reservation open *)
Lemma open_consumes q es v n s v' :
  open q es v n s → NoDup (_reservations s).*1 → Forall (λ x, x.1 = key_of x.2) (_reservations s) →
  v' ∈ reservations s → key_of v' = call_of q → v' = v.
Proof.
  intros (Hv & _) Hnd Hall Hin Hk. unfold reservations in Hin. apply list_elem_of_fmap in Hin as ([k x] & -> & Hin).
  rewrite Forall_forall in Hall. pose proof (Hall _ Hin) as E. cbn in *. subst k.
  apply dict_get_NoDup in Hin; [|done]. rewrite Hk in Hin. congruence.
Qed.

Lemma reserve_budget i q p es now :
  calls !! i = Some q →
  leads_budget i (Reserve q p (_conservative_tokens q) (maximum_cost q p es) now) (budget_stage q (Chosen p es))
    (λ r, match r with
          | Ok v => budget_stage q (Holding p es v (zlen es * attempts_of p))
          | Raise e => budget_stage q (Failed (Plain e))
          end).
Proof.
  intros Hi an w _ Hw ((Hn & Hf & Ho) & Hp & Hes). unfold handle, store_call, on_store. cbn.
  destruct (reserve_run q p (_conservative_tokens q) (maximum_cost q p es) now (wd_store w))
    as [x|v Hv|_ Hmax Hbudget Hcalls]; cbn.
  - split; [done|]. by apply same_store_budget.
  - unfold call_of in Hn. congruence.
  - set (v := fresh_reservation q p _ _ now) in *. destruct Hw as [B1 B2 B3 B4 B5 B7 B6].
    assert (Hsame : ∀ k, k ≠ call_of q → same_call k (wd_store w) (set_reservation (call_of q) v (wd_store w))).
    { intros k Hne. split; [|done]. cbn. by rewrite dict_get_set_ne. }
    split; [|split].
    + split; [|unfold closed_records; change (own_records _ _) with (own_records (call_of q) (wd_store w)); by rewrite Ho].
      split; [apply dict_get_set_eq|]. split; [done|]. split; [|done].
      unfold billed. change (own_records _ _) with (own_records (call_of q) (wd_store w)). rewrite Ho.
      cbn. unfold maximum_cost. lia.
    + split; cbn -[tenant_consumed]; [done|done| | |done|done|].
      * rewrite Forall_forall in *. intros x Hx.
        apply (elem_of_dict_set (mq_tenant_id q, mq_call_id q) v) in Hx as [Hx| ->]; [by apply B3|done].
      * by apply dict_set_NoDup.
      * intros t. specialize (B6 t). rewrite B7 in Hbudget. rewrite tenant_consumed_sum in B6, Hbudget |- *.
        cbn [_reservations set_reservation]. rewrite sum_of_dict_set.
        change (mq_tenant_id q, mq_call_id q) with (call_of q). rewrite Hn.
        rewrite (sum_of_ext _ (λ v, if bool_decide (mv_tenant_id v = t) then _consumed_cost (wd_store w) v else 0)) by done.
        case_bool_decide as Ht; [|lia]. change (mq_tenant_id q = t) in Ht. subst t.
        unfold _consumed_cost at 2. cbn. unfold call_of in Hf. rewrite Hf. cbn. lia.
    + intros j q' Hne Hj. apply Hsame. by eapply others_distinct.
Qed.

(** The call's own record [a] is set while its reservation is open. *)
Lemma own_record_step i q es v n a c w :
  calls !! i = Some q → budget_inv w → open q es v n (wd_store w) →
  of_call (mq_tenant_id q) (mq_call_id q) c = true →
  (∀ c0, dict_get (mq_tenant_id q, a) (_records (wd_store w)) = Some c0 →
     of_call (mq_tenant_id q) (mq_call_id q) c0 = true) →
  budget_inv (on_store (set_record (mq_tenant_id q, a) c) w)
  ∧ budget_step i w (on_store (set_record (mq_tenant_id q, a) c) w)
  ∧ own_records (call_of q) (set_record (mq_tenant_id q, a) c (wd_store w))
    = dict_set (mq_tenant_id q, a) c (own_records (call_of q) (wd_store w)).
Proof.
  intros Hi Hw Hopen Hc Hold.
  destruct (own_step_record (call_of q) (mq_tenant_id q, a) c (wd_store w) Hc Hold) as [Hstep Ho].
  destruct (own_step_inv i q (set_record (mq_tenant_id q, a) c) w) as [H1 H2]; [done..| |by split].
  intros v' Hv' Hk. rewrite !consumed_billed, Hk. destruct Hopen as (_ & Hf & _). cbn. by rewrite Hf.
Qed.

Lemma append_budget i q p es v n e a now :
  calls !! i = Some q → e ∈ es →
  leads_budget i (AppendRequested v q e a now) (budget_stage q (Holding p es v n))
    (λ r, match r with
          | Ok _ => budget_stage q (Intent p es v n e a)
          | Raise x => budget_stage q (Failed (Plain x))
          end).
Proof.
  intros Hi He an w _ Hw [Hopen Hcl]. unfold handle, store_call, on_store. cbn.
  destruct (append_run v q e a now (wd_store w)) as [x|Hn]; cbn.
  - split; [done|]. by apply same_store_budget.
  - set (c := requested_record v q e a now).
    assert (Hc : of_call (mq_tenant_id q) (mq_call_id q) c = true) by (unfold of_call; cbn; by rewrite !bool_decide_true).
    destruct (own_record_step i q es v n a c w Hi Hw Hopen Hc) as (H1 & H2 & Ho); [congruence|].
    assert (Hnone : dict_get (mq_tenant_id q, a) (own_records (call_of q) (wd_store w)) = None).
    { destruct (dict_get _ (own_records _ _)) as [c0|] eqn:Hg; [|done].
      apply (own_record (call_of q)) in Hg as [Hg _]; [|apply Hw]. cbn in Hg. congruence. }
    split; [|split; [by apply (same_store_budget i (on_store (set_record (mq_tenant_id q, a) c) w))|exact H2]].
    destruct Hopen as (Hv & Hf & Hb & Hp). split; [split; [done|]; split; [done|]; split; [|done]|].
    + unfold billed in *. cbn -[own_records]. rewrite Ho, sum_of_set, Hnone.
      assert (billed_cost (mq_tenant_id q, a, c) = 0) as -> by done. lia.
    + split; [done|]. unfold pending. cbn -[own_records]. rewrite Ho. split.
      * exists c. split; [apply dict_get_set_eq|done].
      * rewrite Forall_forall. intros x Hx. apply elem_of_dict_set in Hx as [Hx| ->]; [right|by left].
        unfold closed_records in Hcl. rewrite Forall_forall in Hcl. by apply Hcl.
Qed.

Lemma invoke_budget i q p es v n e a :
  calls !! i = Some q →
  leads_budget i (Invoke e q a) (budget_stage q (Intent p es v n e a))
    (λ o, budget_stage q (Called p es v n e a (outcome_usage o))).
Proof.
  intros Hi an w Hh Hw (Hopen & He & Hp). split; [|by apply same_store_budget].
  split; [done|]. split; [|by left]. cbn. intros u Hu.
  destruct (an_outcome an e q) as [r| |] eqn:Ho; [|done..]. cbn in Hu. injection Hu as <-.
  eapply Hh; [|exact Ho]. by eapply list_elem_of_lookup_2.
Qed.

(** Settling the pending attempt, or finding it settled *)
Lemma reconcile_budget i q p es v n e a u outcome billing cost code now :
  calls !! i = Some q → cost = actual_cost_microunits (ce_price e) <$> u →
  leads_budget i (Reconcile (mq_tenant_id q) a outcome billing u cost code now)
    (budget_stage q (Called p es v n e a u))
    (λ r w, match r with
            | Ok _ => open q es v (n - 1) (wd_store w) ∧ closed_records (call_of q) (wd_store w)
                      ∧ (billing ≠ AMBIGUOUS → settled_for_good q a (wd_store w))
            | Raise _ => budget_stage q (Called p es v n e a u) w
            end).
Proof.
  intros Hi Hcost an w _ Hw Hk. unfold handle, store_call, on_store. cbn.
  pose proof Hk as (He & Hu & Hcase).
  assert (Hown : ∀ c, dict_get (mq_tenant_id q, a) (_records (wd_store w)) = Some c →
    ∀ c0, dict_get (mq_tenant_id q, a) (own_records (call_of q) (wd_store w)) = Some c0 →
    c0 = c ∧ of_call (mq_tenant_id q) (mq_call_id q) c = true).
  { intros c Hc c0 H0. apply (own_record (call_of q)) in H0 as [H0 Hof]; [|apply Hw]. cbn in *. simplify_eq. done. }
  destruct (reconcile_run (mq_tenant_id q) a outcome billing u cost code now (wd_store w))
    as [x|c Hc Hdone|c Hc Hpend Hbill|c s' Hc Hdone Ham _]; cbn.
  - split; [done|]. by apply same_store_budget.
  - split; [|by apply same_store_budget].
    destruct Hcase as [(_ & (c0 & H0 & Hp0 & _) & _)|(Hopen & Hset)].
    + destruct (Hown c Hc c0 H0) as [-> _]. rewrite Hp0 in Hdone. by destruct Hdone.
    + split; [done|]. split; [apply Hset|done].
  - destruct Hcase as [(Hopen & (c0 & H0 & Hp0 & Hb0) & Hall)|(_ & (c0 & H0 & Hd0 & _) & _)].
    2: { destruct (Hown c Hc c0 H0) as [-> _]. rewrite Hpend in Hd0. by destruct Hd0. }
    destruct (Hown c Hc c0 H0) as [-> Hof].
    set (c' := settled outcome billing u cost code now c).
    destruct (own_record_step i q es v n a c' w Hi Hw Hopen Hof) as (H1 & H2 & Ho); [congruence|].
    split; [|by split]. destruct Hopen as (Hv & Hf & Hb & Hp).
    assert (Hcl : closed_records (call_of q) (set_record (mq_tenant_id q, a) c' (wd_store w))).
    { unfold closed_records. rewrite Ho. rewrite Forall_forall. intros x Hx. rewrite Forall_forall in Hall.
      apply dict_set_cases in Hx as [->|[Hx Hne]]; [by exists now| |].
      - by destruct (Hall x Hx).
      - eapply sublist_NoDup; [apply (bi_record_keys _ Hw)|]. apply fmap_sublist, filter_sublist. }
    split; [split; [done|]; split; [done|]; split; [|done]|split; [done|]].
    + unfold billed in *. cbn -[own_records]. rewrite Ho, sum_of_set, H0.
      assert (billed_cost (mq_tenant_id q, a, c) = 0) as ->.
      { unfold billed_cost, is_billed. cbn. by rewrite Hb0. }
      assert (billed_cost (mq_tenant_id q, a, c') ≤ attempt_cost q es); [|lia].
      unfold billed_cost, is_billed, cost_or_0. subst c' cost. cbn.
      pose proof (foldr_max_nonneg ((λ e, maximum_cost_microunits (ce_price e) (_conservative_tokens q)
        (mq_max_output_tokens q)) <$> es)). unfold attempt_cost.
      case_bool_decide; [|done]. destruct u as [u|]; cbn; [|done].
      apply (cost_within q es); [done| |by apply Hu]. rewrite Forall_forall in Hp. by apply Hp.
    + intros Hne. split; [|done]. exists c'. cbn -[own_records]. rewrite Ho. split; [apply dict_get_set_eq|].
      split; [by eexists|done].
  - destruct Hcase as [(_ & (c0 & H0 & Hp0 & _) & _)|(_ & (c0 & H0 & _ & Hna) & _)];
      destruct (Hown c Hc c0 H0) as [-> _]; [rewrite Hp0 in Hdone; by destruct Hdone|done].
Qed.

Lemma finalize_budget i q p es v n now :
  calls !! i = Some q → 0 ≤ n →
  leads_budget i (Finalize v now) (budget_stage q (Holding p es v n)) (λ _, budget_stage q Over).
Proof.
  intros Hi Hn an w _ Hw [Hopen Hcl]. pose proof Hopen as (Hv & Hf & Hb & Hp).
  assert (Hk : key_of v = call_of q).
  { pose proof (bi_reservations _ Hw) as Hall. rewrite Forall_forall in Hall.
    by apply dict_get_elem, Hall in Hv. }
  cbn. assert (Hfin : (finalize v now (wd_store w)).2
    = set_finalized (call_of q) (call_ambiguous (wd_store w) (mv_tenant_id v) (mv_reservation_id v)) (wd_store w)).
  { destruct (finalize_run v now (wd_store w)) as [[_ [b Hs]]|[_ ->]]; change (mv_tenant_id v, mv_reservation_id v) with (key_of v) in *;
      rewrite Hk in *; [congruence|done]. }
  split.
  - split; cbn -[own_records]; rewrite Hfin; [|done]. eexists. apply lookup_insert_eq.
  - destruct (own_step_inv i q (λ s, (finalize v now s).2) w) as [H1 H2]; [done|done|..]; rewrite ?Hfin; [apply own_step_finalized|done| |by split].
    intros v' Hv' Hk'. pose proof (open_consumes _ _ _ _ _ _ Hopen (bi_reservation_keys _ Hw) (bi_reservations _ Hw) Hv' Hk') as ->.
    rewrite !consumed_billed, Hk, Hf. cbn. rewrite lookup_insert_eq.
    destruct (call_ambiguous _ _ _); [done|]. change (billed (call_of q) (wd_store w) ≤ mv_reserved_cost_microunits v).
    pose proof (foldr_max_nonneg ((λ e, maximum_cost_microunits (ce_price e) (_conservative_tokens q)
      (mq_max_output_tokens q)) <$> es)). unfold attempt_cost in Hb. nia.
Qed.

Lemma budget_outline i q : calls !! i = Some q →
  outline gw honest budget_inv budget_step i q (budget_stage q).
Proof.
  intros Hi. split.
  - intros st. by apply budget_stage_stable.
  - intros st R o. by apply quiet_budget.
  - intros w p Hw Hk Hp _. split; [done|]. split; [by eapply bi_policies|done].
  - intros p es w _ (_ & Hp & _). by apply attempts_range.
  - intros w p es r e Hw (H1 & H2 & H3) _ Hc _ _ _. split; [done|]. split; [done|].
    apply Forall_app. split; [done|]. apply Forall_singleton. by eapply (bi_catalog _ Hw).
  - intros w p es es' _ (H1 & H2 & H3) Hsub. split; [done|]. split; [done|].
    rewrite Forall_forall in *. intros e He. apply H3. by eapply elem_of_sublist.
  - intros p es now _. by apply reserve_budget.
  - intros w p es v n n' _ Hle [(H1 & H2 & H3 & H4) Hcl]. split; [|done].
    split; [done|]. split; [done|]. split; [|done].
    assert (0 ≤ attempt_cost q es) by apply foldr_max_nonneg. nia.
  - intros p es v n e ri rj now He _ _ _. by apply append_budget.
  - intros p es v n e a. by apply invoke_budget.
  - intros w p es v n e a _ (H1 & H2 & H3). split; [done|]. split; [done|]. by left.
  - intros p es v n e a u code now an w Hl Hw Hk. pose proof Hk as (He & Hu & _).
    destruct (reconcile_budget i q p es v n e a (Some u) "stale" BILLED _ (Some code) now Hi eq_refl an w Hl Hw Hk)
      as (H1 & H2 & H3). split; [|done].
    destruct (handle gw an i _ _ w) as [[c|x] w']; [|done]. destruct H1 as (H4 & H5 & H6).
    split; [done|]. split; [done|]. right. split; [done|]. by apply H6.
  - intros p es v n e a u billing code now an w Hl Hw Hk.
    destruct (reconcile_budget i q p es v n e a u "failed" billing _ (Some code) now Hi eq_refl an w Hl Hw Hk)
      as (H1 & H2 & H3). split; [|done].
    destruct (handle gw an i _ _ w) as [[c|x] w']; [|done]. by destruct H1 as (H4 & H5 & _).
  - intros p es v n e a u now an w Hl Hw Hk.
    destruct (reconcile_budget i q p es v n e a (Some u) "completed" BILLED _ None now Hi eq_refl an w Hl Hw Hk)
      as (H1 & H2 & H3). split; [|done].
    destruct (handle gw an i _ _ w) as [[c|x] w']; [|done]. by destruct H1 as (H4 & H5 & _).
  - intros p es v n now Hn. by apply (finalize_budget i q p es).
  - intros [e|e] w _ (H1 & _); [by left|done].
  - intros p es [e|e] w _ ((H1 & _) & _); [by left|done].
  - done.
  - intros [e|e] w _ Hk; [by right|done].
Qed.

(** ** Every pool *)

Lemma install_budget p w :
  TenantModelPolicy_ok p = true → budget_inv w → budget_inv (install p w) ∧ ∀ i, budget_step i w (install p w).
Proof.
  intros Hp [B1 B2 B3 B4 B5 B7 B6]. split; [split; cbn -[tenant_consumed]; auto|done].
  intros t p'. destruct (decide (tm_tenant_id p = t)) as [<-|Hne].
  - rewrite lookup_insert_eq. by intros [= <-].
  - rewrite lookup_insert_ne by done. apply B1.
Qed.

Lemma start_budget ps es g :
  Forall (λ p, TenantModelPolicy_ok p = true) ps → Forall (λ e, ModelCatalogEntry_ok e = true) es →
  budget_inv (model_start ps es limits g).
Proof.
  intros Hps Hes. split; cbn -[tenant_consumed]; [| |constructor|constructor|constructor|done|].
  - intros t p Hp. destruct (new_store_policies ps es limits t p Hp) as [Hin _].
    rewrite Forall_forall in Hps. by apply Hps.
  - intros k e Hk. apply (foldl_insert_lookup (λ e, (ce_tenant_id e, entry_key e)) id) in Hk as [Hk|(e' & Hin & _ & ->)];
      [by rewrite lookup_empty in Hk|].
    rewrite Forall_forall in Hes. specialize (Hes _ Hin). unfold ModelCatalogEntry_ok in Hes.
    rewrite !andb_true_iff in Hes. tauto.
  - intros t. change (tenant_consumed _ t) with 0. lia.
Qed.

Context {T : Set} (validate : payload → option T).

Lemma pool_budget ps es g ms :
  Forall (λ p, TenantModelPolicy_ok p = true) ps → Forall (λ e, ModelCatalogEntry_ok e = true) es →
  Forall (model_move honest) ms →
  let '(threads, w) := run_pool (handle gw) ms (model_pool gw validate calls, model_start ps es limits g) in
  budget_inv w ∧ ∀ i q, calls !! i = Some q →
    (∀ a, threads !! i = Some (Return a) → closed (call_of q) (wd_store w)) ∧
    (∀ e, threads !! i = Some (Throw (Provider e)) →
       dict_get (call_of q) (_reservations (wd_store w)) = None ∨ closed (call_of q) (wd_store w)).
Proof.
  intros Hps Hes Hms.
  pose proof (model_pool_safe gw validate honest budget_inv budget_step (λ _, budget_stage) calls ms
    (model_start ps es limits g) Hms (start_budget _ _ _ Hps Hes)) as Hsafe.
  destruct (run_pool _ _ _) as [threads w]. destruct Hsafe as [Hi Hends].
  - intros i q Hi. by split; [apply budget_outline|].
  - apply install_budget.
  - split; [done|]. intros i q Hq. destruct (Hends i q Hq) as [H1 H2]. split; [exact H1|]. intros e. apply (H2 (Provider e)).
Qed.
End budget.
