(* ===== verification/ModelTheorems.v ===== *)
(** * What the model gateway promises under concurrency

    Properties of every interleaving of calls of [generate] with policy changes, for every clock,
    cancellation and provider, with their witnesses; then two runs that show what the budget
    property does not cover.  The file begins with the gateway the witnesses evaluate: one tenant
    with a budget, two routes, and providers that answer, fail or overrun. *)

From S2P Require Import Prelude PyJson PyTime PyModel PyProg Domain Fixtures ModelData ModelStore ModelCalls ModelFacts ModelOnce ModelBudget.

Definition demo_price : ModelPrice :=
  {| px_version := "price-1"; px_currency := "USD"; px_input := 1000000; px_output := 2000000;
     px_cache_read := 0; px_cache_write := 0 |}.

Definition demo_entry (provider : ModelProvider) : ModelCatalogEntry :=
  {| ce_tenant_id := "tenant-a"; ce_provider := provider; ce_model := "model-1"; ce_region := "eu";
     ce_capabilities := [CAP_JSON_SCHEMA]; ce_context_tokens := 10000; ce_maximum_output_tokens := 1000;
     ce_tokenizer := None; ce_tokenizer_limitations := "estimate"; ce_usage_limitations := "none";
     ce_price := demo_price; ce_credential := {| cr_reference := "secret-1"; cr_version := 1 |};
     ce_enabled := true |}.

Definition demo_route (provider : ModelProvider) (priority : Z) : ModelRoute :=
  {| mt_provider := provider; mt_model := "model-1"; mt_region := "eu"; mt_priority := priority |}.

Definition demo_policy : TenantModelPolicy :=
  {| tm_tenant_id := "tenant-a"; tm_policy_id := "policy-1"; tm_revision := 1;
     tm_allowed_providers := [MP_FAKE; MP_OPENAI]; tm_allowed_models := ["model-1"];
     tm_allowed_regions := ["eu"]; tm_allowed_data_classifications := [DC_INTERNAL];
     tm_allowed_purposes := ["incident-response"]; tm_required_capabilities := [];
     tm_risk_ceiling := RMedium; tm_routes := [demo_route MP_FAKE 1; demo_route MP_OPENAI 2];
     tm_maximum_input_tokens := 5000; tm_maximum_output_tokens := 1000;
     tm_maximum_cost_microunits := 10000; tm_maximum_calls_per_run := 10; tm_repair_attempts := 1;
     tm_fallback_on_ambiguous_billing := false |}.

Definition demo_model_request (call_id : string) : ModelRequest :=
  {| mq_binding := {| mb_tenant_id := "tenant-a"; mb_run_id := "run-1"; mb_call_id := call_id;
                      mb_purpose := "incident-response"; mb_data_classification := DC_INTERNAL;
                      mb_risk := RMedium |};
     mq_messages := [{| mm_role := MR_USER; mm_content := [TextContent "text" "hello"];
                        mm_name := None; mm_tool_call_id := None |}];
     mq_max_output_tokens := 100; mq_temperature_milli := 0; mq_tools := [];
     mq_allowed_tool_names := []; mq_structured_output := None |}.

Definition demo_usage : ModelUsage :=
  {| us_input_tokens := 30; us_output_tokens := 100; us_cache_read_tokens := 0;
     us_cache_write_tokens := 0; us_provider_reported := true |}.

Definition demo_result : ProviderResult :=
  {| pr_structured_output := [("answer", JInt 1)]; pr_usage := demo_usage; pr_finish_reason := FR_STOP;
     pr_safety := {| sa_blocked := false; sa_categories := []; sa_provider_reported := false |};
     pr_provider_request_ref := None |}.

Definition demo_validate (p : payload) : option Z :=
  match dict_get "answer" p with Some (JInt z) => Some z | _ => None end.

Definition demo_gateway : ModelGateway :=
  {| gw_adapters := [MP_FAKE; MP_OPENAI]; gw_rate_limit := 60; gw_circuit_threshold := 3;
     gw_circuit_duration := seconds 30 |}.

Definition demo_gateway_state : gateway_state :=
  {| gs_permits := 8; gs_rate_windows := ∅; gs_circuit_failures := ∅; gs_circuit_opened := ∅ |}.

Section demo.
#[local] Existing Instance demo_digest.

Definition demo_answer (outcome : provider_outcome) (cancelled : bool) : answers :=
  {| an_now := demo_time; an_cancelled := cancelled; an_outcome := λ _ _, outcome |}.

Definition demo_policies : list TenantModelPolicy := [demo_policy].
Definition demo_entries : list ModelCatalogEntry := [demo_entry MP_FAKE; demo_entry MP_OPENAI].

(** A budget of 1000 microunits: a call reserves 988 of them. *)
Definition demo_limits : gmap string Z := {[ "tenant-a" := 1000 ]}.

Definition demo_pool_run (ms : list move) (calls : list ModelRequest) :
    list (prog gateway_op model_exn Z) * model_world :=
  run_pool (handle demo_gateway) ms
    (model_pool demo_gateway demo_validate calls,
     model_start demo_policies demo_entries demo_limits demo_gateway_state).

(** [n] steps of thread [i] *)
Definition steps_of (i n : nat) (outcome : provider_outcome) (cancelled : bool) : list (move (W := model_world)) :=
  replicate n (Thread i (demo_answer outcome cancelled)).

(** Two calls in lockstep, then to their ends *)
Definition demo_calls : list ModelRequest := [demo_model_request "call-1"; demo_model_request "call-2"].

Definition demo_moves : list move :=
  mjoin (replicate 12 (steps_of 0 1 (Result demo_result) false ++ steps_of 1 1 (Result demo_result) false))
  ++ steps_of 0 20 (Result demo_result) false.

Definition demo_pool : list (prog gateway_op model_exn Z) * model_world := demo_pool_run demo_moves demo_calls.

Example demo_policies_ok : Forall (λ p, TenantModelPolicy_ok p = true) demo_policies.
Proof. repeat constructor. Qed.

Example demo_entries_ok : Forall (λ e, ModelCatalogEntry_ok e = true) demo_entries.
Proof. repeat constructor. Qed.

Example demo_calls_distinct : NoDup (call_of <$> demo_calls).
Proof. apply (bool_decide_unpack _). vm_compute. exact I. Qed.

Lemma demo_moves_legal legal : legal (demo_answer (Result demo_result) false) → Forall (model_move legal) demo_moves.
Proof. intros Ha. by repeat constructor. Qed.

Lemma demo_answer_honest c : honest demo_calls (demo_answer (Result demo_result) c).
Proof.
  intros entry q r Hq Hr. cbn in Hr. injection Hr as <-.
  apply elem_of_cons in Hq as [->|Hq]; [by vm_compute|]. apply list_elem_of_singleton in Hq as ->. by vm_compute.
Qed.

(** One call is answered, the other refused for the budget. *)
Example demo_pool_ends :
  (zlen (wd_calls demo_pool.2) =? 1) && (tenant_consumed (wd_store demo_pool.2) "tenant-a" =? 230)
  && match demo_pool.1 with [Return 1; Throw (Plain (Exn PolicyDenied _))] => true | _ => false end = true.
Proof. vm_compute. reflexivity. Qed.
End demo.

Section theorems.
Context `{!Digest} (gw : ModelGateway) {T : Set} (validate : payload → option T).

(** C19: Every call made to a model provider, over any interleaving of any calls of [generate] and
    any policy changes, was authorised and written ahead: the tenant had installed a valid
    policy that permits the request (purpose, classification, risk, sizes, tools) and the called
    entry (enabled, allowed provider, model and region, capabilities, context), the call's
    reservation was made under that policy and for the request's own sizes, and the attempt has a record,
    appended before the call, with the digest of the request and the entry's key.  No
    attempt is called twice, even when calls share a call id. *)
Theorem provider_calls_are_authorised policies entries limits g calls ms :
  Forall (λ p, TenantModelPolicy_ok p = true) policies → Forall (model_move any_answer) ms →
  let '(_, w) := run_pool (handle gw) ms (model_pool gw validate calls, model_start policies entries limits g) in
  Forall (authorised w) (wd_calls w) ∧ NoDup (wd_calls w).*1.
Proof.
  intros Hps Hms. pose proof (pool_once gw validate policies entries limits g calls ms Hps Hms) as Hi.
  destruct (run_pool _ _ _) as [threads w]. by destruct Hi.
Qed.

(** However often a call id is retried, and by however many threads at once, the provider is
    called for it at most 24 times: eight routes with three attempts each. *)
Theorem provider_calls_are_bounded policies entries limits g calls ms t c :
  Forall (λ p, TenantModelPolicy_ok p = true) policies → Forall (model_move any_answer) ms →
  let '(_, w) := run_pool (handle gw) ms (model_pool gw validate calls, model_start policies entries limits g) in
  zlen (List.filter (λ x, bool_decide (mq_tenant_id x.2.2 = t) && bool_decide (mq_call_id x.2.2 = c))
          (wd_calls w)) ≤ 24.
Proof.
  intros Hps Hms. pose proof (pool_once gw validate policies entries limits g calls ms Hps Hms) as Hi.
  destruct (run_pool _ _ _) as [threads w]. by apply calls_bounded.
Qed.

(** C18: No tenant overspends its budget: over any interleaving of calls with call ids of their
    own, with providers that bill no more tokens than were asked for, what the reservations of a
    tenant consume (the reserved amount while an attempt may still be billed, then what
    was billed) never exceeds the tenant's limit. *)
Theorem model_budget_is_kept policies entries limits g calls ms t :
  Forall (λ p, TenantModelPolicy_ok p = true) policies → Forall (λ e, ModelCatalogEntry_ok e = true) entries →
  NoDup (call_of <$> calls) → Forall (model_move (honest calls)) ms →
  let '(_, w) := run_pool (handle gw) ms (model_pool gw validate calls, model_start policies entries limits g) in
  tenant_consumed (wd_store w) t ≤ Z.max 0 (default 0 (limits !! t)).
Proof.
  intros Hps Hes Hd Hms. pose proof (pool_budget gw calls limits Hd validate policies entries g ms Hps Hes Hms) as Hi.
  destruct (run_pool _ _ _) as [threads w]. apply (bi_budget _ _ (proj1 Hi)).
Qed.

(** A call leaves nothing open: once its thread returned an answer or raised a provider error,
    either it never got a reservation or the reservation is finalised and every attempt of
    the call has its completion recorded. *)
Theorem ended_calls_are_settled policies entries limits g calls ms i q :
  Forall (λ p, TenantModelPolicy_ok p = true) policies → Forall (λ e, ModelCatalogEntry_ok e = true) entries →
  NoDup (call_of <$> calls) → Forall (model_move (honest calls)) ms → calls !! i = Some q →
  let '(threads, w) := run_pool (handle gw) ms (model_pool gw validate calls, model_start policies entries limits g) in
  (∀ a, threads !! i = Some (Return a) → closed (call_of q) (wd_store w)) ∧
  (∀ e, threads !! i = Some (Throw (Provider e)) →
     dict_get (call_of q) (_reservations (wd_store w)) = None ∨ closed (call_of q) (wd_store w)).
Proof.
  intros Hps Hes Hd Hms Hi. pose proof (pool_budget gw calls limits Hd validate policies entries g ms Hps Hes Hms) as Hp.
  destruct (run_pool _ _ _) as [threads w]. by apply (proj2 Hp).
Qed.
End theorems.

(** ** Evaluations *)

Section witnesses.
#[local] Existing Instance demo_digest.

Lemma demo_called : zlen (wd_calls demo_pool.2) = 1.
Proof. vm_compute. reflexivity. Qed.

Lemma provider_calls_are_authorised_witness :
  zlen (wd_calls demo_pool.2) = 1 ∧
  let '(_, w) := demo_pool_run demo_moves demo_calls in
  Forall (authorised w) (wd_calls w) ∧ NoDup (wd_calls w).*1.
Proof.
  split; [exact demo_called|].
  unfold demo_pool_run. pose proof (provider_calls_are_authorised demo_gateway demo_validate demo_policies demo_entries demo_limits
           demo_gateway_state demo_calls demo_moves demo_policies_ok (demo_moves_legal any_answer I)) as Hw.
  exact Hw.
Defined.

Lemma provider_calls_are_bounded_witness :
  let '(_, w) := demo_pool_run demo_moves demo_calls in
  zlen (List.filter (λ x, bool_decide (mq_tenant_id x.2.2 = "tenant-a") && bool_decide (mq_call_id x.2.2 = "call-1"))
          (wd_calls w)) ≤ 24.
Proof.
  unfold demo_pool_run. pose proof (provider_calls_are_bounded demo_gateway demo_validate demo_policies demo_entries demo_limits
           demo_gateway_state demo_calls demo_moves "tenant-a" "call-1" demo_policies_ok
           (demo_moves_legal any_answer I)) as Hw.
  exact Hw.
Defined.

Lemma model_budget_is_kept_witness :
  let '(_, w) := demo_pool_run demo_moves demo_calls in
  tenant_consumed (wd_store w) "tenant-a" ≤ Z.max 0 (default 0 (demo_limits !! "tenant-a")).
Proof.
  unfold demo_pool_run. pose proof (model_budget_is_kept demo_gateway demo_validate demo_policies demo_entries demo_limits
           demo_gateway_state demo_calls demo_moves "tenant-a" demo_policies_ok demo_entries_ok
           demo_calls_distinct (demo_moves_legal (honest demo_calls) (demo_answer_honest false))) as Hw.
  exact Hw.
Defined.

Lemma ended_calls_are_settled_witness :
  let '(threads, w) := demo_pool_run demo_moves demo_calls in
  (∀ a, threads !! 0%nat = Some (Return a) → closed (call_of (demo_model_request "call-1")) (wd_store w)) ∧
  (∀ e, threads !! 0%nat = Some (Throw (Provider e)) →
     dict_get (call_of (demo_model_request "call-1")) (_reservations (wd_store w)) = None
     ∨ closed (call_of (demo_model_request "call-1")) (wd_store w)).
Proof.
  unfold demo_pool_run. pose proof (ended_calls_are_settled demo_gateway demo_validate demo_policies demo_entries demo_limits
           demo_gateway_state demo_calls demo_moves 0%nat (demo_model_request "call-1") demo_policies_ok
           demo_entries_ok demo_calls_distinct
           (demo_moves_legal (honest demo_calls) (demo_answer_honest false)) eq_refl) as Hw.
  exact Hw.
Defined.

(** ** What the budget does not cover *)

(** A call cancelled after its reservation is finalised with nothing to pay.  Meanwhile another
    call reserves the budget; then the first is retried under its call id: [reserve] returns the
    old reservation without looking at the budget, and the answer is billed on top. *)
Definition retry_moves : list move :=
  steps_of 0 12 (Result demo_result) false ++ steps_of 0 4 (Result demo_result) true
  ++ steps_of 1 12 (Result demo_result) false ++ steps_of 2 40 (Result demo_result) false.

Definition retried_calls : list ModelRequest :=
  [demo_model_request "call-1"; demo_model_request "call-2"; demo_model_request "call-1"].

Lemma retried_call_escapes_budget :
  tenant_consumed (wd_store (demo_pool_run retry_moves retried_calls).2) "tenant-a" = 1218
  ∧ demo_limits !! "tenant-a" = Some 1000.
Proof. split; vm_compute; reflexivity. Qed.

(** An adapter error marked as billed carries no usage: recording it raises, the attempt stays pending
    and the reservation is never finalised. *)
Definition billed_error : provider_outcome :=
  TypedError {| pe_code := EC_TIMEOUT; pe_retryable := true; pe_billing := BILLED |}.

Lemma billed_error_strands_reservation :
  let r := demo_pool_run (steps_of 0 40 billed_error false) [demo_model_request "call-1"] in
  match r.1 with [Throw (Plain (Exn IntegrityFailure _))] => true | _ => false end = true
  ∧ bool_decide (mc_completed_at <$> records (wd_store r.2) = [None]) = true
  ∧ bool_decide (_finalized (wd_store r.2) = ∅) = true.
Proof. vm_compute. repeat split. Qed.

(** A call id of the greatest length: the attempt id is longer than an identifier, so the record is
    refused after the reservation was made. *)
Definition long_call : ModelRequest := demo_model_request (str_repeat 128 "c").

Lemma long_call_id_strands_reservation :
  let r := demo_pool_run (steps_of 0 40 (Result demo_result) false) [long_call] in
  match r.1 with [Throw (Plain (Exn ValidationError _))] => true | _ => false end = true
  ∧ zlen (wd_calls r.2) = 0 ∧ tenant_consumed (wd_store r.2) "tenant-a" = 988
  ∧ bool_decide (_finalized (wd_store r.2) = ∅) = true.
Proof. vm_compute. repeat split. Qed.
End witnesses.
