(* ===== verification/SandboxText.v ===== *)
(** * Text the sandbox accepts ([sandbox.py], lines 36-174, 292-324 and 1388-1403)

    Safe text, portable relative paths, environment names, secret literals, images, argument
    vectors, egress hosts and egress URLs.  Patterns are [PyText.regex] terms with the shape of
    the source's expressions. *)

From S2P Require Import Prelude PyJson PyTime PyText PyModel Domain.

(** ** Character tests *)

(** [_BIDI] and the category [Cs] hold only code points above 255; below, the category [Cc] is
    the two control ranges and [Cf] the soft hyphen.  Every string of code points up to 255 is
    its own NFC form. *)
Definition unsafe_char (c : ascii) : bool :=
  code_in 0 31 c || code_in 127 159 c || code_in 173 173 c.

Definition _safe_text (value label : string) (maximum : Z) : res string :=
  raise_if (negb (length_between 1 maximum value)) ValueError
    (label +:+ " is outside its length bound");;
  raise_if (negb (str_forallb (λ c, negb (unsafe_char c)) value)) ValueError
    (label +:+ " contains control or bidirectional characters");;
  Ok value.

(** ** Paths *)

Definition device_numbers : list string := ["1"; "2"; "3"; "4"; "5"; "6"; "7"; "8"; "9"].

Definition _DEVICE_NAMES : list string :=
  ["con"; "prn"; "aux"; "nul"] ++ ((λ i, "com" +:+ i) <$> device_numbers)
  ++ ((λ i, "lpt" +:+ i) <$> device_numbers).

Definition dot_or_space (c : ascii) : bool := bool_decide (c = " "%char ∨ c = "."%char).

Definition path_parts (value : string) : list string := split_on "/" value.

Definition validate_relative_path (value : string) : res string :=
  _safe_text value "path" 512;;
  raise_if (String.prefix "/" value || String.prefix "\" value || str_contains "\" value
            || str_contains "//" value || ends_with "/" value) ValueError
    "path must be a normalized relative POSIX path";;
  let parts := path_parts value in
  raise_if (existsb (λ part, bool_decide (part ∈ [""; "."; ".."])) parts) ValueError
    "path traversal is prohibited";;
  raise_if (existsb (λ part, bool_decide
      (str_lower (str_before "." (rstrip_chars dot_or_space part)) ∈ _DEVICE_NAMES)) parts) ValueError
    "device paths are prohibited";;
  raise_if (existsb (λ part, bool_decide (part ≠ rstrip_chars dot_or_space part)) parts) ValueError
    "ambiguous path suffix is prohibited";;
  Ok value.

Definition relative_path_ok (value : string) : bool := is_ok (validate_relative_path value).

(** ** Names and values of the environment *)

Definition is_upper (c : ascii) : bool := char_in_range "A" "Z" c.
Definition is_lower (c : ascii) : bool := char_in_range "a" "z" c.
Definition one_of (cs : list ascii) (c : ascii) : bool := bool_decide (c ∈ cs).

Definition _ENV_NAME : regex :=
  RSeq (RChar is_upper) (RRepeat (RChar (λ c, is_upper c || is_digit c || one_of ["_"%char] c)) 0 (Some 63%nat)).

Definition _SECRET_NAME : regex :=
  RAny (RLit caseless <$>
    ["TOKEN"; "SECRET"; "PASSWORD"; "PASSWD"; "PRIVATE_KEY"; "API_KEY"; "CREDENTIAL"]).

Definition not_newline (c : ascii) : bool := negb (bool_decide (c = newline)).

(** Under [re.I] a class of letters holds both cases. *)
Definition _SECRET_VALUE : regex :=
  RAny
    [RSeqs [RLit exactly "-----"; RLit caseless "BEGIN "; RStar (RChar not_newline);
            RLit caseless "PRIVATE KEY"; RLit exactly "-----"];
     RSeqs [RLit caseless "gh"; RChar (λ c, one_of ["o"; "p"; "s"; "u"]%char (lower_char c));
            RLit exactly "_"; RRepeat (RChar is_alnum) 20 None];
     RSeqs [RAlt (RLit caseless "AKIA") (RLit caseless "ASIA"); RRepeat (RChar is_alnum) 16 (Some 16%nat)];
     RSeqs [RAny [RSeqs [RLit caseless "api"; ROpt (RChar (one_of ["_"; "-"]%char)); RLit caseless "key"];
                  RLit caseless "password"; RLit caseless "secret"; RLit caseless "token"];
            RStar (RChar is_space); RChar (one_of [":"; "="]%char); RStar (RChar is_space);
            RRepeat (RChar (λ c, negb (is_space c))) 8 None]].

Definition env_name_ok (value : string) : bool := re_fullmatch _ENV_NAME value.

Definition variable_name_ok (value : string) : bool :=
  env_name_ok value && negb (re_search _SECRET_NAME value).

Definition variable_value_ok (value : string) : bool :=
  is_ok (_safe_text (if decide (value = "") then "x" else value) "environment value" 2048)
  && negb (re_search _SECRET_VALUE value).

(** ** Images *)

Definition lower_alnum (c : ascii) : bool := is_lower c || is_digit c.

(** [(?P<registry>...)] *)
Definition registry_pattern : regex :=
  RSeqs [RChar lower_alnum;
         ROpt (RSeq (RStar (RChar (λ c, lower_alnum c || one_of ["."; "-"]%char c))) (RChar lower_alnum));
         ROpt (RSeq (RLit exactly ":") (RRepeat (RChar is_digit) 1 (Some 5%nat)))].

Definition repository_pattern : regex :=
  RSeq (RPlus (RChar lower_alnum))
       (RStar (RSeq (RChar (one_of ["."; "_"; "/"; "-"]%char)) (RPlus (RChar lower_alnum)))).

Definition _OCI_IMAGE : regex :=
  RSeqs [registry_pattern; RLit exactly "/"; repository_pattern; RLit exactly "@sha256:";
         RRepeat (RChar is_hex_lower) 64 (Some 64%nat)].

Definition image_ok (value : string) : bool := re_fullmatch _OCI_IMAGE value.

(** [image.group("registry")]: the registry holds no slash, so the group ends at the first
    one ([SandboxFacts.image_parts]). *)
Definition image_registry (value : string) : string := str_before "/" value.

(** [spec.image.rsplit("@sha256:", maxsplit=1)[1]] *)
Definition image_digest_of (value : string) : res string :=
  of_option (after_last "@sha256:" value) IndexError "list index out of range".

(** ** Argument vectors *)

Definition _SHELLS : list string :=
  ["ash"; "bash"; "busybox"; "cmd"; "dash"; "fish"; "ksh"; "powershell"; "pwsh"; "sh"; "zsh"].

Definition _SHELL_META : regex :=
  RAny [RLit exactly "`"; RLit exactly "$("; RLit exactly "${"; RLit exactly "&&"; RLit exactly "||";
        RChar (one_of [";"%char; carriage_return; newline; "000"%char])].

Definition command_flags : list string := ["-c"; "/c"; "-command"; "-encodedcommand"].

Definition executable_name (token : string) : string := str_lower (rsplit_last "/" token).

Definition argv_token_ok (token : string) : bool :=
  is_ok (_safe_text token "argv token" 4096) && negb (re_search _SHELL_META token).

(** [value[0]] is there: the field has at least one token. *)
Definition argv_ok (value : list string) : bool :=
  match value with
  | [] => false
  | command :: arguments =>
      forallb argv_token_ok value
      && bool_decide (executable_name command ∉ _SHELLS)
      && negb (existsb (λ token, bool_decide (token ∈ command_flags)) arguments)
  end.

(** ** Egress hosts *)

(** An octet of [ipaddress.IPv4Address]: one to three digits, no leading zero, at most 255 *)
Definition octet_ok (s : string) : bool :=
  length_between 1 3 s && str_forallb is_digit s
  && ((str_len s =? 1) || negb (String.prefix "0" s))
  && match num_of_text s with Some (JInt n) => n <=? 255 | _ => false end.

(** [ipaddress.ip_address] accepts the text.  An IPv6 literal holds a colon, which no label of
    [host_ok] may: both ways the validator raises. *)
Definition is_ip_literal (s : string) : bool :=
  let octets := split_on "." s in
  (zlen octets =? 4) && forallb octet_ok octets.

Definition label_char (c : ascii) : bool := lower_alnum c || bool_decide (c = "-"%char).

Definition label_ok (label : string) : bool :=
  length_between 1 63 label && negb (String.prefix "-" label) && negb (ends_with "-" label)
  && str_forallb label_char label.

Definition exact_public_dns_name (value : string) : res string :=
  _safe_text value "egress host" 253;;
  let lowered := str_lower value in
  raise_if (bool_decide (value ≠ lowered) || ends_with "." lowered || str_contains "*" lowered) ValueError
    "egress host must be an exact lowercase DNS name";;
  raise_if (is_ip_literal lowered) ValueError "literal IP egress destinations are prohibited";;
  raise_if (negb (str_contains "." lowered) || bool_decide (lowered = "localhost")
            || existsb (λ suffix, ends_with suffix lowered) [".local"; ".internal"; ".localhost"]
            || negb (forallb label_ok (split_on "." lowered))) ValueError
    "egress host is not a public exact DNS name";;
  Ok lowered.

(** ** Egress URLs ([parse_exact_destination])

    [urllib.parse.urlsplit] on text of code points up to 255: the parts the function reads. *)

Record SplitResult := {
  us_scheme : string;
  us_netloc : string;
  us_path : string;
  us_query : string;
  us_fragment : string
}.

Definition scheme_char (c : ascii) : bool :=
  is_alnum c || one_of ["+"; "-"; "."]%char c.

(** [s.partition(c)], as the text before and, when [c] occurs, the text after *)
Fixpoint partition (c : ascii) (s : string) : string * option string :=
  match s with
  | "" => ("", None)
  | String x s =>
      if bool_decide (x = c) then ("", Some s)
      else let '(a, b) := partition c s in (String x a, b)
  end.

(** [_splitnetloc(url, 2)]: up to the first of [/?#] *)
Fixpoint split_netloc (s : string) : string * string :=
  match s with
  | "" => ("", "")
  | String c t =>
      if one_of ["/"; "?"; "#"]%char c then ("", s)
      else let '(a, b) := split_netloc t in (String c a, b)
  end.

Definition url_scheme (url : string) : string * string :=
  match partition ":" url with
  | (scheme, Some rest) =>
      match scheme with
      | "" => ("", url)
      | String c _ =>
          if (is_upper c || is_lower c) && str_forallb scheme_char scheme
          then (str_lower scheme, rest) else ("", url)
      end
  | (_, None) => ("", url)
  end.

Definition url_tail (s : string) : string * string * string :=
  let '(body, fragment) := partition "#" s in
  let '(path, query) := partition "?" body in
  (path, default "" query, default "" fragment).

Definition is_hex_any (c : ascii) : bool := is_hex_lower (lower_char c).

(** [netloc.rpartition("@")]: whether there is user information, and what follows it *)
Definition host_info (netloc : string) : bool * string :=
  match after_last "@" netloc with Some rest => (true, rest) | None => (false, netloc) end.

(** [_check_bracketed_host].  Of the texts [ipaddress.ip_address] accepts, those without a colon
    are IPv4 addresses, which are refused.  A text with a colon is let through here: no host
    with one passes [exact_public_dns_name]. *)
Definition bracketed_host_ok (host : string) : bool :=
  if String.prefix "v" host then
    re_fullmatch (RSeqs [RLit exactly "v"; RPlus (RChar is_hex_any); RLit exactly ".";
                         RPlus (RChar not_newline)]) host
  else str_contains ":" host.

(** [_check_bracketed_netloc] *)
Definition bracketed_netloc_ok (netloc : string) : bool :=
  match partition "[" (host_info netloc).2 with
  | (before, Some bracketed) =>
      let '(host, port) := partition "]" bracketed in
      let port := default "" port in
      bool_decide (before = "") && (bool_decide (port = "") || String.prefix ":" port)
      && bracketed_host_ok host
  | (rest, None) => bracketed_host_ok (partition ":" rest).1
  end.

Definition netloc_ok (netloc : string) : bool :=
  match str_contains "[" netloc, str_contains "]" netloc with
  | false, false => true
  | true, true => bracketed_netloc_ok netloc
  | _, _ => false
  end.

Definition urlsplit (url : string) : res SplitResult :=
  let url := lstrip_chars (code_in 0 32) url in
  let url := str_filter (λ c, negb (one_of [tab; carriage_return; newline] c)) url in
  let '(scheme, rest) := url_scheme url in
  let '(netloc, rest) :=
    if String.prefix "//" rest then split_netloc (str_drop 2 rest) else ("", rest) in
  raise_if (negb (netloc_ok netloc)) ValueError "Invalid IPv6 URL";;
  let '(path, query, fragment) := url_tail rest in
  Ok {| us_scheme := scheme; us_netloc := netloc; us_path := path; us_query := query;
        us_fragment := fragment |}.

(** [_hostinfo]: the host and, unless it is empty, the text of the port *)
Definition host_and_port (netloc : string) : string * option string :=
  let hostinfo := (host_info netloc).2 in
  let '(host, port) :=
    match partition "[" hostinfo with
    | (_, Some bracketed) =>
        let '(host, rest) := partition "]" bracketed in
        (host, (partition ":" (default "" rest)).2)
    | (_, None) => partition ":" hostinfo
    end in
  (host, match port with Some "" => None | p => p end).

(** [parts.hostname]: in lower case up to a zone *)
Definition url_hostname (host : string) : string :=
  match partition "%" host with
  | (name, Some zone) => str_lower name +:+ "%" +:+ zone
  | (name, None) => str_lower name
  end.

Fixpoint digits_value (acc : Z) (s : string) : Z :=
  match s with "" => acc | String c s => digits_value (10 * acc + (char_code c - 48)) s end.

(** [parts.port] *)
Definition url_port (port : option string) : res (option Z) :=
  match port with
  | None => Ok None
  | Some s =>
      raise_if (negb (str_forallb is_digit s)) ValueError "Port could not be cast to integer value";;
      raise_if (65535 <? digits_value 0 s) ValueError "Port out of range 0-65535";;
      Ok (Some (digits_value 0 s))
  end.

(** The host of an exact HTTPS origin *)
Definition exact_origin_host (url : string) : res string :=
  parts ← urlsplit url;
  let '(host, port) := host_and_port (us_netloc parts) in
  raise_if (bool_decide (us_scheme parts ≠ "https") || bool_decide (host = "")
            || (host_info (us_netloc parts)).1
            || bool_decide (us_path parts ∉ [""; "/"]) || bool_decide (us_query parts ≠ "")
            || bool_decide (us_fragment parts ≠ "")) ValueError
    "egress destination must be an exact HTTPS origin";;
  port ← url_port port;
  (* [(parts.port or 443) != 443]: 0 is false *)
  raise_if (match port with Some p => negb ((p =? 0) || (p =? 443)) | None => false end) ValueError
    "egress destination must be an exact HTTPS origin";;
  Ok (url_hostname host).

(** ** Examples *)

Example path_accepted : relative_path_ok "reports/2024/summary.json" = true.
Proof. vm_compute. reflexivity. Qed.
Example paths_refused :
  forallb (λ p, negb (relative_path_ok p))
    ["../etc/passwd"; "/etc/passwd"; "a//b"; "a/"; "a/./b"; "a/.../b"; "c\d"; "src/NUL.txt"; "lpt1 "; ""] = true.
Proof. vm_compute. reflexivity. Qed.
Example image_accepted :
  image_ok ("ghcr.io:443/acme/runner-1.2@sha256:" +:+ str_repeat 64 "a") = true
  ∧ image_registry ("ghcr.io:443/acme/runner-1.2@sha256:" +:+ str_repeat 64 "a") = "ghcr.io:443".
Proof. vm_compute. split; reflexivity. Qed.
Example images_refused :
  forallb (λ p, negb (image_ok p))
    ["ghcr.io/acme/runner:latest"; "ghcr.io/acme/runner@sha256:abc"; "-x/a@sha256:" +:+ str_repeat 64 "a";
     "ghcr.io/acme//runner@sha256:" +:+ str_repeat 64 "a"] = true.
Proof. vm_compute. reflexivity. Qed.
Example argv_examples :
  argv_ok ["/usr/bin/python3"; "-m"; "pytest"] = true ∧ argv_ok ["/bin/BASH"; "x"] = false
  ∧ argv_ok ["python3"; "-c"; "x"] = false ∧ argv_ok ["echo"; "$(id)"] = false.
Proof. vm_compute. done. Qed.
Example secret_examples :
  variable_value_ok "info" = true ∧ variable_value_ok "" = true ∧ variable_value_ok "Api-Key = abcdefgh1" = false
  ∧ variable_name_ok "LOG_LEVEL" = true ∧ variable_name_ok "AWS_SECRET" = false.
Proof. vm_compute. done. Qed.
Example host_examples :
  exact_public_dns_name "api.example.com" = Ok "api.example.com"
  ∧ is_ok (exact_public_dns_name "10.0.0.1") = false ∧ is_ok (exact_public_dns_name "db.internal") = false.
Proof. vm_compute. done. Qed.
Example url_examples :
  exact_origin_host "https://API.example.com:443/" = Ok "api.example.com"
  ∧ is_ok (exact_origin_host "https://u@api.example.com") = false
  ∧ is_ok (exact_origin_host "https://api.example.com:8443") = false
  ∧ is_ok (exact_origin_host "http://api.example.com") = false
  ∧ is_ok (exact_origin_host "https://[::1") = false
  ∧ exact_origin_host "https://[v1.example.com]" = Ok "v1.example.com"
  ∧ exact_origin_host "https://api.example.com:0" = Ok "api.example.com".
Proof. vm_compute. done. Qed.

#[global] Arguments validate_relative_path : simpl never.
#[global] Arguments _safe_text : simpl never.
#[global] Arguments exact_public_dns_name : simpl never.
#[global] Arguments exact_origin_host : simpl never.
