(* ===== verification/SandboxData.v ===== *)
(** * Sandbox contracts ([sandbox.py], lines 95-125 and 177-802)

    The enumerations and records of a sandbox execution with their validators, JSON documents
    and digests.  A field whose [Literal] type has one value is not a field of the record; it
    appears in the documents. *)

From S2P Require Import Prelude PyJson PyTime PyText PyModel Domain SandboxText.

(** ** Enumerations *)

Inductive SandboxPurpose := SP_ANALYSIS | SP_TESTING | SP_PATCH_PREPARATION.
#[export] Instance SandboxPurpose_eq_dec : EqDecision SandboxPurpose.
Proof. solve_decision. Defined.
Definition purpose_value (p : SandboxPurpose) : string :=
  match p with
  | SP_ANALYSIS => "analysis" | SP_TESTING => "testing" | SP_PATCH_PREPARATION => "patch_preparation"
  end.

Inductive NetworkMode := NM_NONE | NM_EXACT_DESTINATIONS.
#[export] Instance NetworkMode_eq_dec : EqDecision NetworkMode.
Proof. solve_decision. Defined.
Definition network_mode_value (m : NetworkMode) : string :=
  match m with NM_NONE => "none" | NM_EXACT_DESTINATIONS => "exact_destinations" end.

Inductive NetworkEnforcement := KUBERNETES_NETWORK_POLICY | EXTERNAL_EGRESS_PROXY_REQUIRED.
#[export] Instance NetworkEnforcement_eq_dec : EqDecision NetworkEnforcement.
Proof. solve_decision. Defined.
Definition enforcement_value (e : NetworkEnforcement) : string :=
  match e with
  | KUBERNETES_NETWORK_POLICY => "kubernetes-network-policy"
  | EXTERNAL_EGRESS_PROXY_REQUIRED => "external-egress-proxy-required"
  end.

Inductive SandboxOutcome :=
  | SO_SUCCEEDED | SO_FAILED | SO_TIMED_OUT | SO_OOM_KILLED | SO_VIOLATION | SO_CANCELLED.
#[export] Instance SandboxOutcome_eq_dec : EqDecision SandboxOutcome.
Proof. solve_decision. Defined.
Definition sandbox_outcome_value (o : SandboxOutcome) : string :=
  match o with
  | SO_SUCCEEDED => "succeeded" | SO_FAILED => "failed" | SO_TIMED_OUT => "timed_out"
  | SO_OOM_KILLED => "oom_killed" | SO_VIOLATION => "violation" | SO_CANCELLED => "cancelled"
  end.

Inductive ArtifactDisposition := AD_ACCEPTED | AD_REDACTED | AD_QUARANTINED.
#[export] Instance ArtifactDisposition_eq_dec : EqDecision ArtifactDisposition.
Proof. solve_decision. Defined.
Definition artifact_disposition_value (d : ArtifactDisposition) : string :=
  match d with AD_ACCEPTED => "accepted" | AD_REDACTED => "redacted" | AD_QUARANTINED => "quarantined" end.

Inductive BackendObservationState :=
  | BO_ABSENT | BO_PROVISIONING | BO_RUNNING | BO_TERMINAL | BO_CONFLICT | BO_UNKNOWN.
#[export] Instance BackendObservationState_eq_dec : EqDecision BackendObservationState.
Proof. solve_decision. Defined.

Inductive SandboxStatus :=
  | SS_REQUESTED | SS_POLICY_APPROVED | SS_CLAIMED | SS_PROVISIONING | SS_RUNNING | SS_CAPTURING
  | SS_COMPLETED | SS_FAILED | SS_TIMED_OUT | SS_OOM_KILLED | SS_VIOLATION | SS_CANCELLED
  | SS_ATTESTED | SS_CLEANING | SS_CLEANED | SS_QUARANTINED | SS_RECONCILING.
#[export] Instance SandboxStatus_eq_dec : EqDecision SandboxStatus.
Proof. solve_decision. Defined.

(** ** Inputs, mounts, secrets, environment *)

Definition kib : Z := 1024.
Definition mib : Z := 1024 * 1024.

Record ContentInput := {
  ci_tenant_id : string;
  ci_logical_path : string;
  ci_content_hash : string;
  ci_size_bytes : Z;
  ci_media_type : string;
  ci_object_ref : string
}.

Definition ContentInput_ok (c : ContentInput) : bool :=
  Identifier (ci_tenant_id c) && relative_path_ok (ci_logical_path c)
  && is_sha256_hex (ci_content_hash c) && in_range 0 (64 * mib) (ci_size_bytes c)
  && length_between 3 128 (ci_media_type c) && Identifier (ci_object_ref c).

Definition input_json (c : ContentInput) : json :=
  JObj [("tenant_id", JStr (ci_tenant_id c)); ("logical_path", JStr (ci_logical_path c));
        ("content_hash", JStr (ci_content_hash c)); ("size_bytes", JInt (ci_size_bytes c));
        ("media_type", JStr (ci_media_type c)); ("object_ref", JStr (ci_object_ref c))].

Record MountReference := { mr_source_ref : string; mr_target_path : string }.

Definition MountReference_ok (m : MountReference) : bool :=
  Identifier (mr_source_ref m) && relative_path_ok (mr_target_path m).

Definition mount_json (m : MountReference) : json :=
  JObj [("source_ref", JStr (mr_source_ref m)); ("target_path", JStr (mr_target_path m));
        ("read_only", JBool true)].

Record SecretReference := { se_reference : string; se_version : Z; se_env_name : string }.

Definition SecretReference_ok (s : SecretReference) : bool :=
  Identifier (se_reference s) && (1 <=? se_version s) && env_name_ok (se_env_name s).

Definition secret_json (s : SecretReference) : json :=
  JObj [("reference", JStr (se_reference s)); ("version", JInt (se_version s));
        ("env_name", JStr (se_env_name s))].

Record EnvironmentVariable := { en_name : string; en_value : string }.

Definition EnvironmentVariable_ok (e : EnvironmentVariable) : bool :=
  length_between 0 2048 (en_value e) && variable_name_ok (en_name e) && variable_value_ok (en_value e).

Definition variable_json (e : EnvironmentVariable) : json :=
  JObj [("name", JStr (en_name e)); ("value", JStr (en_value e))].

(** ** Network *)

Record EgressDestination := { eg_host : string }.
#[export] Instance EgressDestination_eq_dec : EqDecision EgressDestination.
Proof. solve_decision. Defined.

(** The validator returns the lowered host, and refuses one that is not in lower case. *)
Definition EgressDestination_ok (e : EgressDestination) : bool :=
  is_ok (exact_public_dns_name (eg_host e)).

Definition new_EgressDestination (host : string) : res EgressDestination :=
  validated EgressDestination_ok "EgressDestination" {| eg_host := host |}.

Definition parse_exact_destination (url : string) : res EgressDestination :=
  host ← exact_origin_host url; new_EgressDestination host.

Definition destination_json (e : EgressDestination) : json :=
  JObj [("scheme", JStr "https"); ("host", JStr (eg_host e)); ("port", JInt 443)].

Record SandboxNetworkPolicy := {
  nw_mode : NetworkMode;
  nw_destinations : list EgressDestination;
  nw_enforcement : NetworkEnforcement
}.

Definition SandboxNetworkPolicy_ok (n : SandboxNetworkPolicy) : bool :=
  count_range 0 16 (nw_destinations n) && forallb EgressDestination_ok (nw_destinations n)
  && match nw_mode n with
     | NM_NONE => bool_decide (nw_destinations n = [])
     | NM_EXACT_DESTINATIONS => negb (bool_decide (nw_destinations n = []))
     end
  && bool_decide (NoDup (nw_destinations n)).

Definition network_json (n : SandboxNetworkPolicy) : json :=
  JObj [("mode", JStr (network_mode_value (nw_mode n)));
        ("destinations", JList (destination_json <$> nw_destinations n));
        ("enforcement", JStr (enforcement_value (nw_enforcement n)))].

(** ** Resources and confinement *)

Record SandboxResources := {
  sr_cpu_millicores : Z;
  sr_memory_mib : Z;
  sr_pid_limit : Z;
  sr_ephemeral_storage_mib : Z;
  sr_timeout_seconds : Z;
  sr_output_bytes : Z;
  sr_output_files : Z;
  sr_output_file_bytes : Z
}.

Definition SandboxResources_ok (r : SandboxResources) : bool :=
  in_range 50 8000 (sr_cpu_millicores r) && in_range 64 32768 (sr_memory_mib r)
  && in_range 16 1024 (sr_pid_limit r) && in_range 64 32768 (sr_ephemeral_storage_mib r)
  && in_range 1 3600 (sr_timeout_seconds r) && in_range kib (64 * mib) (sr_output_bytes r)
  && in_range 1 1000 (sr_output_files r) && in_range 1 (16 * mib) (sr_output_file_bytes r)
  && (sr_output_file_bytes r <=? sr_output_bytes r).

Definition resources_json (r : SandboxResources) : json :=
  JObj [("cpu_millicores", JInt (sr_cpu_millicores r)); ("memory_mib", JInt (sr_memory_mib r));
        ("pid_limit", JInt (sr_pid_limit r));
        ("ephemeral_storage_mib", JInt (sr_ephemeral_storage_mib r));
        ("timeout_seconds", JInt (sr_timeout_seconds r)); ("output_bytes", JInt (sr_output_bytes r));
        ("output_files", JInt (sr_output_files r));
        ("output_file_bytes", JInt (sr_output_file_bytes r))].

Record SandboxSecurityContext := {
  sy_run_as_user : Z;
  sy_run_as_group : Z;
  sy_fs_group : Z;
  sy_capabilities_drop : list string;
  sy_apparmor_profile : string
}.

Definition SandboxSecurityContext_ok (s : SandboxSecurityContext) : bool :=
  in_range 10000 65535 (sy_run_as_user s) && in_range 10000 65535 (sy_run_as_group s)
  && in_range 10000 65535 (sy_fs_group s) && bool_decide (sy_capabilities_drop s = ["ALL"])
  && Identifier (sy_apparmor_profile s).

Definition security_json (s : SandboxSecurityContext) : json :=
  JObj [("run_as_user", JInt (sy_run_as_user s)); ("run_as_group", JInt (sy_run_as_group s));
        ("fs_group", JInt (sy_fs_group s)); ("run_as_non_root", JBool true);
        ("read_only_root_filesystem", JBool true); ("allow_privilege_escalation", JBool false);
        ("privileged", JBool false); ("capabilities_drop", strings_json (sy_capabilities_drop s));
        ("seccomp_profile", JStr "RuntimeDefault");
        ("apparmor_profile", JStr (sy_apparmor_profile s)); ("no_new_privileges", JBool true);
        ("host_network", JBool false); ("host_pid", JBool false); ("host_ipc", JBool false);
        ("automount_service_account_token", JBool false)].

Record OutputExpectation := {
  ox_logical_path : string;
  ox_media_types : list string;
  ox_required : bool
}.

Definition media_type_ok (item : string) : bool :=
  length_between 1 128 item && bool_decide (item = str_lower item) && str_contains "/" item.

Definition OutputExpectation_ok (o : OutputExpectation) : bool :=
  relative_path_ok (ox_logical_path o) && count_range 1 8 (ox_media_types o)
  && forallb media_type_ok (ox_media_types o).

Definition new_OutputExpectation (o : OutputExpectation) : res OutputExpectation :=
  o ← validated OutputExpectation_ok "OutputExpectation" o;
  Ok {| ox_logical_path := ox_logical_path o; ox_media_types := sorted_set (ox_media_types o);
        ox_required := ox_required o |}.

Definition expectation_json (o : OutputExpectation) : json :=
  JObj [("logical_path", JStr (ox_logical_path o)); ("media_types", strings_json (ox_media_types o));
        ("required", JBool (ox_required o))].

Record RetryAndCleanup := {
  rt_maximum_attempts : Z;
  rt_cleanup_timeout_seconds : Z;
  rt_retain_failed_seconds : Z
}.

Definition RetryAndCleanup_ok (r : RetryAndCleanup) : bool :=
  in_range 1 5 (rt_maximum_attempts r) && in_range 10 900 (rt_cleanup_timeout_seconds r)
  && in_range 0 86400 (rt_retain_failed_seconds r).

Definition retry_json (r : RetryAndCleanup) : json :=
  JObj [("retry_owner", JStr "temporal"); ("maximum_attempts", JInt (rt_maximum_attempts r));
        ("observe_before_create", JBool true); ("stale_attempt_fencing", JBool true);
        ("cleanup_required", JBool true);
        ("cleanup_timeout_seconds", JInt (rt_cleanup_timeout_seconds r));
        ("retain_failed_seconds", JInt (rt_retain_failed_seconds r))].

(** ** Approval, specification, request *)

Record SandboxApprovalBinding := {
  sb_tenant_id : string;
  sb_run_id : string;
  sb_task_id : string;
  sb_remediation_plan_id : string;
  sb_remediation_action_id : string;
  sb_remediation_plan_digest : string;
  sb_remediation_action_digest : string;
  sb_approval_id : string;
  sb_approval_digest : string;
  sb_approval_policy_digest : string;
  sb_approval_expires_at : datetime
}.
#[export] Instance SandboxApprovalBinding_eq_dec : EqDecision SandboxApprovalBinding.
Proof. solve_decision. Defined.

Definition SandboxApprovalBinding_ok (a : SandboxApprovalBinding) : bool :=
  forallb Identifier [sb_tenant_id a; sb_run_id a; sb_task_id a; sb_remediation_plan_id a;
                      sb_remediation_action_id a; sb_approval_id a]
  && forallb is_sha256_hex [sb_remediation_plan_digest a; sb_remediation_action_digest a;
                            sb_approval_digest a; sb_approval_policy_digest a].

Definition binding_json (a : SandboxApprovalBinding) : json :=
  JObj [("tenant_id", JStr (sb_tenant_id a)); ("run_id", JStr (sb_run_id a));
        ("task_id", JStr (sb_task_id a)); ("remediation_plan_id", JStr (sb_remediation_plan_id a));
        ("remediation_action_id", JStr (sb_remediation_action_id a));
        ("remediation_plan_digest", JStr (sb_remediation_plan_digest a));
        ("remediation_action_digest", JStr (sb_remediation_action_digest a));
        ("approval_id", JStr (sb_approval_id a)); ("approval_digest", JStr (sb_approval_digest a));
        ("approval_policy_digest", JStr (sb_approval_policy_digest a));
        ("approval_expires_at", JStr (iso_z (sb_approval_expires_at a)))].

Record SandboxSpec := {
  ss_spec_version : string;
  ss_tenant_id : string;
  ss_run_id : string;
  ss_task_id : string;
  ss_purpose : SandboxPurpose;
  ss_risk : RiskLevel;
  ss_approval : SandboxApprovalBinding;
  ss_image : string;
  ss_argv : list string;
  ss_inputs : list ContentInput;
  ss_mounts : list MountReference;
  ss_environment : list EnvironmentVariable;
  ss_secrets : list SecretReference;
  ss_network : SandboxNetworkPolicy;
  ss_resources : SandboxResources;
  ss_security : SandboxSecurityContext;
  ss_required_runtime_class : string;
  ss_required_admission_policies : list string;
  ss_expected_outputs : list OutputExpectation;
  ss_retry : RetryAndCleanup;
  ss_spec_digest : string
}.

Definition spec_material (s : SandboxSpec) : payload :=
  [("schema_version", JInt 1); ("spec_version", JStr (ss_spec_version s));
   ("tenant_id", JStr (ss_tenant_id s)); ("run_id", JStr (ss_run_id s));
   ("task_id", JStr (ss_task_id s)); ("purpose", JStr (purpose_value (ss_purpose s)));
   ("risk", JStr (risk_value (ss_risk s))); ("approval", binding_json (ss_approval s));
   ("image", JStr (ss_image s)); ("argv", strings_json (ss_argv s));
   ("working_directory", JStr "workspace"); ("inputs", JList (input_json <$> ss_inputs s));
   ("mounts", JList (mount_json <$> ss_mounts s));
   ("environment", JList (variable_json <$> ss_environment s));
   ("secrets", JList (secret_json <$> ss_secrets s)); ("network", network_json (ss_network s));
   ("resources", resources_json (ss_resources s)); ("security", security_json (ss_security s));
   ("required_runtime_class", JStr (ss_required_runtime_class s));
   ("required_admission_policies", strings_json (ss_required_admission_policies s));
   ("expected_outputs", JList (expectation_json <$> ss_expected_outputs s));
   ("retry", retry_json (ss_retry s))].

Definition spec_json (s : SandboxSpec) : json :=
  JObj (spec_material s ++ [("spec_digest", JStr (ss_spec_digest s))]).

Definition spec_paths (s : SandboxSpec) : list string :=
  (ci_logical_path <$> ss_inputs s) ++ (mr_target_path <$> ss_mounts s)
  ++ (ox_logical_path <$> ss_expected_outputs s).

Definition spec_env_names (s : SandboxSpec) : list string :=
  (en_name <$> ss_environment s) ++ (se_env_name <$> ss_secrets s).

Record SandboxExecutionRequest := {
  sx_execution_id : string;
  sx_tenant_id : string;
  sx_run_id : string;
  sx_task_id : string;
  sx_spec : SandboxSpec;
  sx_spec_digest : string;
  sx_policy_digest : string;
  sx_approval_digest : string;
  sx_idempotency_key : string;
  sx_attempt : Z;
  sx_fence_token : string;
  sx_requested_at : datetime;
  sx_request_digest : string
}.

Definition sandbox_request_material (q : SandboxExecutionRequest) : payload :=
  [("schema_version", JInt 1); ("execution_id", JStr (sx_execution_id q));
   ("tenant_id", JStr (sx_tenant_id q)); ("run_id", JStr (sx_run_id q));
   ("task_id", JStr (sx_task_id q)); ("spec", spec_json (sx_spec q));
   ("spec_digest", JStr (sx_spec_digest q)); ("policy_digest", JStr (sx_policy_digest q));
   ("approval_digest", JStr (sx_approval_digest q)); ("idempotency_key", JStr (sx_idempotency_key q));
   ("attempt", JInt (sx_attempt q)); ("fence_token", JStr (sx_fence_token q));
   ("requested_at", JStr (iso_z (sx_requested_at q)))].

(** ** Backend, artifacts, results, attestations *)

Record BackendObservation := {
  bo_execution_id : string;
  bo_state : BackendObservationState;
  bo_provider_uid : option string;
  bo_attempt : Z;
  bo_fence_token : string;
  bo_observed_at : datetime
}.

Definition BackendObservation_ok (b : BackendObservation) : bool :=
  Identifier (bo_execution_id b) && opt_ok Identifier (bo_provider_uid b)
  && in_range 1 16 (bo_attempt b) && Identifier (bo_fence_token b).

Record BackendExecution := {
  be_execution_id : string;
  be_provider_ref : string;
  be_provider_uid : string;
  be_attempt : Z;
  be_fence_token : string;
  be_provisioned_at : datetime
}.

Definition BackendExecution_ok (b : BackendExecution) : bool :=
  forallb Identifier [be_execution_id b; be_provider_ref b; be_provider_uid b; be_fence_token b]
  && in_range 1 16 (be_attempt b).

Record ArtifactRecord := {
  af_artifact_id : string;
  af_tenant_id : string;
  af_run_id : string;
  af_task_id : string;
  af_execution_id : string;
  af_logical_path : string;
  af_media_type : string;
  af_content_hash : string;
  af_size_bytes : Z;
  af_disposition : ArtifactDisposition;
  af_redaction_count : Z;
  af_scanner_codes : list string;
  af_object_ref : option string;
  af_retention_expires_at : datetime;
  af_canonical_digest : string
}.
#[export] Instance ArtifactRecord_eq_dec : EqDecision ArtifactRecord.
Proof. solve_decision. Defined.

Definition artifact_material (a : ArtifactRecord) : payload :=
  [("schema_version", JInt 1); ("artifact_id", JStr (af_artifact_id a));
   ("tenant_id", JStr (af_tenant_id a)); ("run_id", JStr (af_run_id a));
   ("task_id", JStr (af_task_id a)); ("execution_id", JStr (af_execution_id a));
   ("logical_path", JStr (af_logical_path a)); ("media_type", JStr (af_media_type a));
   ("content_hash", JStr (af_content_hash a)); ("size_bytes", JInt (af_size_bytes a));
   ("disposition", JStr (artifact_disposition_value (af_disposition a)));
   ("redaction_count", JInt (af_redaction_count a));
   ("scanner_codes", strings_json (af_scanner_codes a)); ("object_ref", opt_json (af_object_ref a));
   ("retention_expires_at", JStr (iso_z (af_retention_expires_at a)))].

Definition artifact_json (a : ArtifactRecord) : json :=
  JObj (artifact_material a ++ [("canonical_digest", JStr (af_canonical_digest a))]).

Record ArtifactManifest := {
  am_tenant_id : string;
  am_run_id : string;
  am_task_id : string;
  am_execution_id : string;
  am_artifacts : list ArtifactRecord;
  am_total_bytes : Z;
  am_generated_at : datetime;
  am_manifest_digest : string
}.

Definition manifest_material (m : ArtifactManifest) : payload :=
  [("schema_version", JInt 1); ("tenant_id", JStr (am_tenant_id m)); ("run_id", JStr (am_run_id m));
   ("task_id", JStr (am_task_id m)); ("execution_id", JStr (am_execution_id m));
   ("artifacts", JList (artifact_json <$> am_artifacts m)); ("total_bytes", JInt (am_total_bytes m));
   ("generated_at", JStr (iso_z (am_generated_at m)))].

Record SandboxResult := {
  su_tenant_id : string;
  su_run_id : string;
  su_task_id : string;
  su_execution_id : string;
  su_request_digest : string;
  su_spec_digest : string;
  su_policy_digest : string;
  su_approval_digest : string;
  su_provider_uid : string;
  su_attempt : Z;
  su_fence_token : string;
  su_outcome : SandboxOutcome;
  su_exit_code : option Z;
  su_output_bytes : Z;
  su_output_files : Z;
  su_started_at : datetime;
  su_completed_at : datetime;
  su_detail_code : string;
  su_manifest_digest : option string;
  su_result_digest : string
}.

Definition result_material (r : SandboxResult) : payload :=
  [("schema_version", JInt 1); ("tenant_id", JStr (su_tenant_id r)); ("run_id", JStr (su_run_id r));
   ("task_id", JStr (su_task_id r)); ("execution_id", JStr (su_execution_id r));
   ("request_digest", JStr (su_request_digest r)); ("spec_digest", JStr (su_spec_digest r));
   ("policy_digest", JStr (su_policy_digest r)); ("approval_digest", JStr (su_approval_digest r));
   ("provider_uid", JStr (su_provider_uid r)); ("attempt", JInt (su_attempt r));
   ("fence_token", JStr (su_fence_token r)); ("outcome", JStr (sandbox_outcome_value (su_outcome r)));
   ("exit_code", opt_int_json (su_exit_code r)); ("output_bytes", JInt (su_output_bytes r));
   ("output_files", JInt (su_output_files r)); ("started_at", JStr (iso_z (su_started_at r)));
   ("completed_at", JStr (iso_z (su_completed_at r))); ("detail_code", JStr (su_detail_code r));
   ("manifest_digest", opt_json (su_manifest_digest r))].

Record SandboxAttestation := {
  at_tenant_id : string;
  at_execution_id : string;
  at_request_digest : string;
  at_result_digest : string;
  at_spec_digest : string;
  at_policy_digest : string;
  at_approval_digest : string;
  at_image_digest : string;
  at_provider_uid : string;
  at_runtime_class : string;
  at_node_attestation_ref : string;
  at_admitted_policy_refs : list string;
  at_attested_at : datetime;
  at_attestation_digest : string
}.

Definition attestation_material (a : SandboxAttestation) : payload :=
  [("schema_version", JInt 1); ("tenant_id", JStr (at_tenant_id a));
   ("execution_id", JStr (at_execution_id a)); ("request_digest", JStr (at_request_digest a));
   ("result_digest", JStr (at_result_digest a)); ("spec_digest", JStr (at_spec_digest a));
   ("policy_digest", JStr (at_policy_digest a)); ("approval_digest", JStr (at_approval_digest a));
   ("image_digest", JStr (at_image_digest a)); ("provider_uid", JStr (at_provider_uid a));
   ("runtime_class", JStr (at_runtime_class a));
   ("node_attestation_ref", JStr (at_node_attestation_ref a));
   ("admitted_policy_refs", strings_json (at_admitted_policy_refs a));
   ("attested_at", JStr (iso_z (at_attested_at a)))].

(** ** Policies *)

Record SandboxPolicy := {
  sp_tenant_id : string;
  sp_policy_id : string;
  sp_revision : Z;
  sp_enabled : bool;
  sp_allowed_image_digests : list string;
  sp_allowed_registries : list string;
  sp_allowed_commands : list string;
  sp_allowed_purposes : list SandboxPurpose;
  sp_allowed_mount_prefixes : list string;
  sp_allowed_secret_refs : list string;
  sp_allowed_egress : list EgressDestination;
  sp_allowed_approval_policy_digests : list string;
  sp_maximum_resources : SandboxResources;
  sp_maximum_concurrency : Z;
  sp_maximum_lifetime_seconds : Z;
  sp_maximum_risk : RiskLevel;
  sp_require_runtime_class : string;
  sp_require_admission_policies : list string;
  sp_policy_digest : string
}.

Definition sandbox_policy_material (p : SandboxPolicy) : payload :=
  [("schema_version", JInt 1); ("tenant_id", JStr (sp_tenant_id p));
   ("policy_id", JStr (sp_policy_id p)); ("revision", JInt (sp_revision p));
   ("enabled", JBool (sp_enabled p));
   ("allowed_image_digests", strings_json (sp_allowed_image_digests p));
   ("allowed_registries", strings_json (sp_allowed_registries p));
   ("allowed_commands", strings_json (sp_allowed_commands p));
   ("allowed_purposes", strings_json (purpose_value <$> sp_allowed_purposes p));
   ("allowed_mount_prefixes", strings_json (sp_allowed_mount_prefixes p));
   ("allowed_secret_refs", strings_json (sp_allowed_secret_refs p));
   ("allowed_egress", JList (destination_json <$> sp_allowed_egress p));
   ("allowed_approval_policy_digests", strings_json (sp_allowed_approval_policy_digests p));
   ("maximum_resources", resources_json (sp_maximum_resources p));
   ("maximum_concurrency", JInt (sp_maximum_concurrency p));
   ("maximum_lifetime_seconds", JInt (sp_maximum_lifetime_seconds p));
   ("maximum_risk", JStr (risk_value (sp_maximum_risk p)));
   ("require_runtime_class", JStr (sp_require_runtime_class p));
   ("require_admission_policies", strings_json (sp_require_admission_policies p))].

(** [safe_prefixes] *)
Definition with_sorted_prefixes (p : SandboxPolicy) : SandboxPolicy :=
  {| sp_tenant_id := sp_tenant_id p; sp_policy_id := sp_policy_id p; sp_revision := sp_revision p;
     sp_enabled := sp_enabled p; sp_allowed_image_digests := sp_allowed_image_digests p;
     sp_allowed_registries := sp_allowed_registries p; sp_allowed_commands := sp_allowed_commands p;
     sp_allowed_purposes := sp_allowed_purposes p;
     sp_allowed_mount_prefixes := sorted_set (sp_allowed_mount_prefixes p);
     sp_allowed_secret_refs := sp_allowed_secret_refs p; sp_allowed_egress := sp_allowed_egress p;
     sp_allowed_approval_policy_digests := sp_allowed_approval_policy_digests p;
     sp_maximum_resources := sp_maximum_resources p; sp_maximum_concurrency := sp_maximum_concurrency p;
     sp_maximum_lifetime_seconds := sp_maximum_lifetime_seconds p; sp_maximum_risk := sp_maximum_risk p;
     sp_require_runtime_class := sp_require_runtime_class p;
     sp_require_admission_policies := sp_require_admission_policies p;
     sp_policy_digest := sp_policy_digest p |}.

(** ** Constructors: validators and digests ([canonical_digest]) *)

Section constructors.
Context {HDigest : Digest}.

Definition canonical_digest (material : payload) : string := json_digest (JObj material).

Definition SandboxSpec_ok (s : SandboxSpec) : bool :=
  forallb Identifier [ss_spec_version s; ss_tenant_id s; ss_run_id s; ss_task_id s;
                      ss_required_runtime_class s]
  && SandboxApprovalBinding_ok (ss_approval s) && image_ok (ss_image s)
  && count_range 1 64 (ss_argv s) && argv_ok (ss_argv s)
  && count_range 0 256 (ss_inputs s) && forallb ContentInput_ok (ss_inputs s)
  && count_range 0 32 (ss_mounts s) && forallb MountReference_ok (ss_mounts s)
  && count_range 0 64 (ss_environment s) && forallb EnvironmentVariable_ok (ss_environment s)
  && count_range 0 16 (ss_secrets s) && forallb SecretReference_ok (ss_secrets s)
  && SandboxNetworkPolicy_ok (ss_network s) && SandboxResources_ok (ss_resources s)
  && SandboxSecurityContext_ok (ss_security s)
  && count_range 1 16 (ss_required_admission_policies s)
  && forallb Identifier (ss_required_admission_policies s)
  && count_range 1 64 (ss_expected_outputs s) && forallb OutputExpectation_ok (ss_expected_outputs s)
  && RetryAndCleanup_ok (ss_retry s) && is_sha256_hex (ss_spec_digest s)
  (* exact_bindings_and_uniqueness *)
  && bool_decide (sb_tenant_id (ss_approval s) = ss_tenant_id s)
  && bool_decide (sb_run_id (ss_approval s) = ss_run_id s)
  && bool_decide (sb_task_id (ss_approval s) = ss_task_id s)
  && bool_decide (NoDup (spec_paths s)) && bool_decide (NoDup (spec_env_names s))
  && forallb (λ i, bool_decide (ci_tenant_id i = ss_tenant_id s)) (ss_inputs s)
  && bool_decide (NoDup (ss_required_admission_policies s))
  && (sum_of ci_size_bytes (ss_inputs s) <=? 128 * mib)
  && bool_decide (ss_spec_digest s = canonical_digest (spec_material s)).

Definition new_SandboxSpec (s : SandboxSpec) : res SandboxSpec :=
  validated SandboxSpec_ok "SandboxSpec" s.

Definition SandboxExecutionRequest_ok (q : SandboxExecutionRequest) : bool :=
  forallb Identifier [sx_execution_id q; sx_tenant_id q; sx_run_id q; sx_task_id q;
                      sx_idempotency_key q; sx_fence_token q]
  && SandboxSpec_ok (sx_spec q)
  && forallb is_sha256_hex [sx_spec_digest q; sx_policy_digest q; sx_approval_digest q; sx_request_digest q]
  && in_range 1 16 (sx_attempt q)
  && bool_decide (ss_tenant_id (sx_spec q) = sx_tenant_id q)
  && bool_decide (ss_run_id (sx_spec q) = sx_run_id q)
  && bool_decide (ss_task_id (sx_spec q) = sx_task_id q)
  && bool_decide (ss_spec_digest (sx_spec q) = sx_spec_digest q)
  && bool_decide (sb_approval_digest (ss_approval (sx_spec q)) = sx_approval_digest q)
  && bool_decide (sx_request_digest q = canonical_digest (sandbox_request_material q)).

Definition new_SandboxExecutionRequest (q : SandboxExecutionRequest) : res SandboxExecutionRequest :=
  validated SandboxExecutionRequest_ok "SandboxExecutionRequest" q.

Definition ArtifactRecord_ok (a : ArtifactRecord) : bool :=
  forallb Identifier [af_artifact_id a; af_tenant_id a; af_run_id a; af_task_id a; af_execution_id a]
  && relative_path_ok (af_logical_path a) && is_sha256_hex (af_content_hash a)
  && in_range 0 (16 * mib) (af_size_bytes a) && in_range 0 10000 (af_redaction_count a)
  && count_range 0 32 (af_scanner_codes a) && forallb Identifier (af_scanner_codes a)
  && opt_ok Identifier (af_object_ref a) && is_sha256_hex (af_canonical_digest a)
  && negb (bool_decide (af_disposition a = AD_QUARANTINED) && bool_decide (is_Some (af_object_ref a)))
  && bool_decide (af_canonical_digest a = canonical_digest (artifact_material a)).

Definition artifact_leb (a b : ArtifactRecord) : bool := str_leb (af_logical_path a) (af_logical_path b).

Definition ArtifactManifest_ok (m : ArtifactManifest) : bool :=
  forallb Identifier [am_tenant_id m; am_run_id m; am_task_id m; am_execution_id m]
  && count_range 0 1000 (am_artifacts m) && forallb ArtifactRecord_ok (am_artifacts m)
  && in_range 0 (64 * mib) (am_total_bytes m) && is_sha256_hex (am_manifest_digest m)
  && bool_decide (py_sorted artifact_leb (am_artifacts m) = am_artifacts m)
  && (am_total_bytes m =? sum_of af_size_bytes (am_artifacts m))
  && forallb (λ a, bool_decide (af_tenant_id a = am_tenant_id m ∧ af_run_id a = am_run_id m
                                ∧ af_task_id a = am_task_id m ∧ af_execution_id a = am_execution_id m))
       (am_artifacts m)
  && bool_decide (am_manifest_digest m = canonical_digest (manifest_material m)).

Definition new_ArtifactManifest (m : ArtifactManifest) : res ArtifactManifest :=
  validated ArtifactManifest_ok "ArtifactManifest" m.

Definition SandboxResult_ok (r : SandboxResult) : bool :=
  forallb Identifier [su_tenant_id r; su_run_id r; su_task_id r; su_execution_id r; su_provider_uid r;
                      su_fence_token r; su_detail_code r]
  && forallb is_sha256_hex [su_request_digest r; su_spec_digest r; su_policy_digest r;
                            su_approval_digest r; su_result_digest r]
  && in_range 1 16 (su_attempt r) && opt_ok (in_range 0 255) (su_exit_code r)
  && in_range 0 (64 * mib) (su_output_bytes r) && in_range 0 1000 (su_output_files r)
  && opt_ok is_sha256_hex (su_manifest_digest r)
  && (su_started_at r <=? su_completed_at r)
  && negb (bool_decide (su_outcome r = SO_SUCCEEDED) && bool_decide (su_exit_code r ≠ Some 0))
  && bool_decide (su_result_digest r = canonical_digest (result_material r)).

Definition new_SandboxResult (r : SandboxResult) : res SandboxResult :=
  validated SandboxResult_ok "SandboxResult" r.

Definition SandboxAttestation_ok (a : SandboxAttestation) : bool :=
  forallb Identifier [at_tenant_id a; at_execution_id a; at_provider_uid a; at_runtime_class a;
                      at_node_attestation_ref a]
  && forallb is_sha256_hex [at_request_digest a; at_result_digest a; at_spec_digest a; at_policy_digest a;
                            at_approval_digest a; at_image_digest a; at_attestation_digest a]
  && count_range 1 16 (at_admitted_policy_refs a) && forallb Identifier (at_admitted_policy_refs a)
  && bool_decide (at_attestation_digest a = canonical_digest (attestation_material a)).

Definition new_SandboxAttestation (a : SandboxAttestation) : res SandboxAttestation :=
  validated SandboxAttestation_ok "SandboxAttestation" a.

(** The constraints on a policy whose mount prefixes are sorted *)
Definition SandboxPolicy_ok (p : SandboxPolicy) : bool :=
  forallb Identifier [sp_tenant_id p; sp_policy_id p; sp_require_runtime_class p]
  && (1 <=? sp_revision p) && forallb is_sha256_hex (sp_allowed_image_digests p)
  && forallb relative_path_ok (sp_allowed_mount_prefixes p)
  && forallb Identifier (sp_allowed_secret_refs p) && forallb EgressDestination_ok (sp_allowed_egress p)
  && forallb is_sha256_hex (sp_allowed_approval_policy_digests p)
  && SandboxResources_ok (sp_maximum_resources p) && in_range 0 100 (sp_maximum_concurrency p)
  && in_range 1 3600 (sp_maximum_lifetime_seconds p)
  && count_range 1 16 (sp_require_admission_policies p)
  && forallb Identifier (sp_require_admission_policies p) && is_sha256_hex (sp_policy_digest p)
  && bool_decide (sp_policy_digest p = canonical_digest (sandbox_policy_material p)).

Definition new_SandboxPolicy (p : SandboxPolicy) : res SandboxPolicy :=
  validated SandboxPolicy_ok "SandboxPolicy" (with_sorted_prefixes p).
End constructors.

(** ** [SandboxPolicy.authorize] *)

Definition allowed_risks (maximum : RiskLevel) : list string :=
  [risk_value RLow]
  ++ (if bool_decide (maximum ∈ [RMedium; RHigh]) then [risk_value RMedium] else [])
  ++ (if bool_decide (maximum = RHigh) then [risk_value RHigh] else []).

Definition within_ceilings (requested ceilings : SandboxResources) : bool :=
  negb (existsb id
    [sr_cpu_millicores ceilings <? sr_cpu_millicores requested;
     sr_memory_mib ceilings <? sr_memory_mib requested;
     sr_pid_limit ceilings <? sr_pid_limit requested;
     sr_ephemeral_storage_mib ceilings <? sr_ephemeral_storage_mib requested;
     sr_timeout_seconds ceilings <? sr_timeout_seconds requested;
     sr_output_bytes ceilings <? sr_output_bytes requested;
     sr_output_files ceilings <? sr_output_files requested;
     sr_output_file_bytes ceilings <? sr_output_file_bytes requested]).

Definition under_prefix (path prefix : string) : bool :=
  bool_decide (path = prefix) || String.prefix (prefix +:+ "/") path.

Definition policy_authorize (p : SandboxPolicy) (spec : SandboxSpec) (active_executions : Z)
    (now : datetime) : res unit :=
  raise_if (negb (sp_enabled p) || bool_decide (sp_tenant_id p ≠ ss_tenant_id spec)) PolicyDenied
    "sandbox policy is disabled or tenant-mismatched";;
  raise_if (negb (image_ok (ss_image spec))) PolicyDenied "sandbox image is not immutable";;
  image_digest ← image_digest_of (ss_image spec);
  command ← of_option (head (ss_argv spec)) IndexError "tuple index out of range";
  raise_if (bool_decide (image_digest ∉ sp_allowed_image_digests p)
            || bool_decide (image_registry (ss_image spec) ∉ sp_allowed_registries p)
            || bool_decide (command ∉ sp_allowed_commands p)
            || bool_decide (ss_purpose spec ∉ sp_allowed_purposes p)
            || bool_decide (sb_approval_policy_digest (ss_approval spec)
                            ∉ sp_allowed_approval_policy_digests p)
            || bool_decide (ss_required_runtime_class spec ≠ sp_require_runtime_class p)
            || bool_decide (ss_required_admission_policies spec ≠ sp_require_admission_policies p)
            || bool_decide (risk_value (ss_risk spec) ∉ allowed_risks (sp_maximum_risk p))) PolicyDenied
    "sandbox request is not allowlisted";;
  raise_if (sb_approval_expires_at (ss_approval spec) <=? now) PolicyDenied "sandbox approval expired";;
  raise_if (sp_maximum_concurrency p <=? active_executions) PolicyDenied
    "sandbox concurrency quota exhausted";;
  raise_if (sp_maximum_lifetime_seconds p <? sr_timeout_seconds (ss_resources spec)) PolicyDenied
    "sandbox lifetime exceeds policy";;
  raise_if (negb (within_ceilings (ss_resources spec) (sp_maximum_resources p))) PolicyDenied
    "sandbox resource request exceeds policy";;
  raise_if (existsb (λ m, negb (existsb (under_prefix (mr_target_path m)) (sp_allowed_mount_prefixes p)))
              (ss_mounts spec)) PolicyDenied
    "sandbox mount is not allowlisted";;
  raise_if (existsb (λ s, bool_decide (se_reference s ∉ sp_allowed_secret_refs p)) (ss_secrets spec))
    PolicyDenied "sandbox secret reference is not allowlisted";;
  raise_if (bool_decide (nw_mode (ss_network spec) = NM_EXACT_DESTINATIONS)
            && existsb (λ d, bool_decide (d ∉ sp_allowed_egress p)) (nw_destinations (ss_network spec)))
    PolicyDenied "sandbox egress destination is not allowlisted".

#[global] Arguments policy_authorize : simpl never.
#[global] Arguments canonical_digest : simpl never.
