(* ===== verification/SandboxLedger.v ===== *)
(** * The sandbox ledger ([sandbox.py], lines 805-1086)

    [InMemorySandboxLedger]: the facts of each execution, the projection [reduce_sandbox] folds
    them to, and the table of recorded commands. *)

From S2P Require Import Prelude PyJson PyTime PyText PyModel Domain Durability SandboxText SandboxData.

Definition _MAX_FACTS : Z := 512.

Inductive SandboxFactType :=
  | XF_REQUEST_RECORDED | XF_POLICY_DECIDED | XF_APPROVAL_BOUND | XF_CLAIMED | XF_PROVISION_REQUESTED
  | XF_PROVISIONED | XF_STARTED | XF_OUTPUT_CAPTURE_REQUESTED | XF_ARTIFACT_RECORDED | XF_COMPLETED
  | XF_FAILED | XF_TIMED_OUT | XF_OOM_KILLED | XF_VIOLATION | XF_CANCELLATION_REQUESTED | XF_CANCELLED
  | XF_ATTESTED | XF_CLEANUP_REQUESTED | XF_CLEANED | XF_QUARANTINED | XF_RECONCILIATION_STARTED
  | XF_RECONCILIATION_RESOLVED.
#[export] Instance SandboxFactType_eq_dec : EqDecision SandboxFactType.
Proof. solve_decision. Defined.

Definition sandbox_fact_value (t : SandboxFactType) : string :=
  match t with
  | XF_REQUEST_RECORDED => "sandbox.request_recorded"
  | XF_POLICY_DECIDED => "sandbox.policy_decided"
  | XF_APPROVAL_BOUND => "sandbox.approval_bound"
  | XF_CLAIMED => "sandbox.claimed"
  | XF_PROVISION_REQUESTED => "sandbox.provision_requested"
  | XF_PROVISIONED => "sandbox.provisioned"
  | XF_STARTED => "sandbox.started"
  | XF_OUTPUT_CAPTURE_REQUESTED => "sandbox.output_capture_requested"
  | XF_ARTIFACT_RECORDED => "sandbox.artifact_recorded"
  | XF_COMPLETED => "sandbox.completed"
  | XF_FAILED => "sandbox.failed"
  | XF_TIMED_OUT => "sandbox.timed_out"
  | XF_OOM_KILLED => "sandbox.oom_killed"
  | XF_VIOLATION => "sandbox.violation"
  | XF_CANCELLATION_REQUESTED => "sandbox.cancellation_requested"
  | XF_CANCELLED => "sandbox.cancelled"
  | XF_ATTESTED => "sandbox.attested"
  | XF_CLEANUP_REQUESTED => "sandbox.cleanup_requested"
  | XF_CLEANED => "sandbox.cleaned"
  | XF_QUARANTINED => "sandbox.quarantined"
  | XF_RECONCILIATION_STARTED => "sandbox.reconciliation_started"
  | XF_RECONCILIATION_RESOLVED => "sandbox.reconciliation_resolved"
  end.

Record SandboxFact := {
  xf_tenant_id : string;
  xf_execution_id : string;
  xf_sequence : Z;
  xf_fact_id : string;
  xf_fact_type : SandboxFactType;
  xf_command_id : string;
  xf_actor_ref : string;
  xf_recorded_at : datetime;
  xf_payload : payload;
  xf_previous_digest : string;
  xf_canonical_digest : string
}.

Definition SandboxFact_ok (f : SandboxFact) : bool :=
  forallb Identifier [xf_tenant_id f; xf_execution_id f; xf_fact_id f; xf_command_id f; xf_actor_ref f]
  && (1 <=? xf_sequence f) && count_range 0 32 (xf_payload f)
  && is_sha256_hex (xf_previous_digest f) && is_sha256_hex (xf_canonical_digest f).

Definition new_SandboxFact (f : SandboxFact) : res SandboxFact := validated SandboxFact_ok "SandboxFact" f.

(** [fact.model_dump(mode="json", exclude={"canonical_digest"})], and the material [append]
    computes the digest of: the two are the same document. *)
Definition sandbox_fact_material (f : SandboxFact) : payload :=
  [("schema_version", JInt 1); ("tenant_id", JStr (xf_tenant_id f));
   ("execution_id", JStr (xf_execution_id f)); ("sequence", JInt (xf_sequence f));
   ("fact_id", JStr (xf_fact_id f)); ("fact_type", JStr (sandbox_fact_value (xf_fact_type f)));
   ("command_id", JStr (xf_command_id f)); ("actor_ref", JStr (xf_actor_ref f));
   ("recorded_at", JStr (iso_z (xf_recorded_at f))); ("payload", JObj (xf_payload f));
   ("previous_digest", JStr (xf_previous_digest f))].

Record SandboxProjection := {
  xp_tenant_id : string;
  xp_execution_id : string;
  xp_run_id : string;
  xp_task_id : string;
  xp_status : SandboxStatus;
  xp_version : Z;
  xp_request_digest : string;
  xp_spec_digest : string;
  xp_policy_digest : string;
  xp_approval_digest : string;
  xp_fence_token : string;
  xp_provider_uid : option string;
  xp_result_digest : option string;
  xp_manifest_digest : option string;
  xp_attestation_digest : option string;
  xp_cleanup_complete : bool;
  xp_last_fact_digest : string;
  xp_updated_at : datetime
}.

Definition SandboxProjection_ok (p : SandboxProjection) : bool :=
  forallb Identifier [xp_tenant_id p; xp_execution_id p; xp_run_id p; xp_task_id p; xp_fence_token p]
  && (1 <=? xp_version p)
  && forallb is_sha256_hex [xp_request_digest p; xp_spec_digest p; xp_policy_digest p;
                            xp_approval_digest p; xp_last_fact_digest p]
  && opt_ok Identifier (xp_provider_uid p)
  && forallb (opt_ok is_sha256_hex) [xp_result_digest p; xp_manifest_digest p; xp_attestation_digest p].

Definition new_SandboxProjection (p : SandboxProjection) : res SandboxProjection :=
  validated SandboxProjection_ok "SandboxProjection" p.

(** [_STATUS_BY_FACT] *)
Definition status_by_fact (t : SandboxFactType) : SandboxStatus :=
  match t with
  | XF_REQUEST_RECORDED => SS_REQUESTED
  | XF_POLICY_DECIDED => SS_POLICY_APPROVED
  | XF_APPROVAL_BOUND => SS_POLICY_APPROVED
  | XF_CLAIMED => SS_CLAIMED
  | XF_PROVISION_REQUESTED => SS_PROVISIONING
  | XF_PROVISIONED => SS_PROVISIONING
  | XF_STARTED => SS_RUNNING
  | XF_OUTPUT_CAPTURE_REQUESTED => SS_CAPTURING
  | XF_ARTIFACT_RECORDED => SS_CAPTURING
  | XF_COMPLETED => SS_COMPLETED
  | XF_FAILED => SS_FAILED
  | XF_TIMED_OUT => SS_TIMED_OUT
  | XF_OOM_KILLED => SS_OOM_KILLED
  | XF_VIOLATION => SS_VIOLATION
  | XF_CANCELLATION_REQUESTED => SS_CANCELLED
  | XF_CANCELLED => SS_CANCELLED
  | XF_ATTESTED => SS_ATTESTED
  | XF_CLEANUP_REQUESTED => SS_CLEANING
  | XF_CLEANED => SS_CLEANED
  | XF_QUARANTINED => SS_QUARANTINED
  | XF_RECONCILIATION_STARTED => SS_RECONCILING
  | XF_RECONCILIATION_RESOLVED => SS_RECONCILING
  end.

(** ** The fold *)

Definition required_members : list string :=
  ["run_id"; "task_id"; "request_digest"; "spec_digest"; "policy_digest"; "approval_digest"; "fence_token"].

(** [str(fact.payload[key])] for a member that is there *)
Definition member_str (key : string) (p : payload) : string :=
  match dict_get key p with Some v => py_str v | None => "" end.

(** [update[key] = str(fact.payload[key])] when the payload has the key *)
Definition member_or (key : string) (p : payload) (old : option string) : option string :=
  match dict_get key p with Some v => Some (py_str v) | None => old end.

Section ledger.
Context {HDigest : Digest}.

Definition reduce_sandbox (current : option SandboxProjection) (fact : SandboxFact)
    : res SandboxProjection :=
  let p := xf_payload fact in
  raise_if (bool_decide (xf_canonical_digest fact ≠ canonical_digest (sandbox_fact_material fact)))
    IntegrityFailure "sandbox fact digest mismatch";;
  match current with
  | None =>
      raise_if (bool_decide (xf_fact_type fact ≠ XF_REQUEST_RECORDED) || negb (xf_sequence fact =? 1))
        IntegrityFailure "sandbox aggregate must begin with a request";;
      raise_if (negb (forallb (λ k, bool_decide (is_Some (dict_get k p))) required_members))
        IntegrityFailure "sandbox request fact is incomplete";;
      new_SandboxProjection
        {| xp_tenant_id := xf_tenant_id fact; xp_execution_id := xf_execution_id fact;
           xp_run_id := member_str "run_id" p; xp_task_id := member_str "task_id" p;
           xp_status := SS_REQUESTED; xp_version := 1;
           xp_request_digest := member_str "request_digest" p;
           xp_spec_digest := member_str "spec_digest" p;
           xp_policy_digest := member_str "policy_digest" p;
           xp_approval_digest := member_str "approval_digest" p;
           xp_fence_token := member_str "fence_token" p; xp_provider_uid := None;
           xp_result_digest := None; xp_manifest_digest := None; xp_attestation_digest := None;
           xp_cleanup_complete := false; xp_last_fact_digest := xf_canonical_digest fact;
           xp_updated_at := xf_recorded_at fact |}
  | Some c =>
      raise_if (bool_decide (xp_tenant_id c ≠ xf_tenant_id fact)
                || bool_decide (xp_execution_id c ≠ xf_execution_id fact)
                || negb (xf_sequence fact =? xp_version c + 1)
                || bool_decide (xf_previous_digest fact ≠ xp_last_fact_digest c))
        IntegrityFailure "sandbox fact chain is invalid";;
      Ok {| xp_tenant_id := xp_tenant_id c; xp_execution_id := xp_execution_id c;
            xp_run_id := xp_run_id c; xp_task_id := xp_task_id c;
            xp_status := status_by_fact (xf_fact_type fact); xp_version := xf_sequence fact;
            xp_request_digest := xp_request_digest c; xp_spec_digest := xp_spec_digest c;
            xp_policy_digest := xp_policy_digest c; xp_approval_digest := xp_approval_digest c;
            xp_fence_token := xp_fence_token c;
            xp_provider_uid := member_or "provider_uid" p (xp_provider_uid c);
            xp_result_digest := member_or "result_digest" p (xp_result_digest c);
            xp_manifest_digest := member_or "manifest_digest" p (xp_manifest_digest c);
            xp_attestation_digest := member_or "attestation_digest" p (xp_attestation_digest c);
            xp_cleanup_complete := xp_cleanup_complete c || bool_decide (xf_fact_type fact = XF_CLEANED);
            xp_last_fact_digest := xf_canonical_digest fact; xp_updated_at := xf_recorded_at fact |}
  end.

(** ** The ledger *)

Record xledger := {
  _facts : gmap (string * string) (list SandboxFact);
  _projections : gmap (string * string) SandboxProjection;
  _commands : gmap (string * string) (string * string)
}.

Definition empty_xledger : xledger := {| _facts := ∅; _projections := ∅; _commands := ∅ |}.

Definition xprojection (l : xledger) (tenant_id execution_id : string) : option SandboxProjection :=
  _projections l !! (tenant_id, execution_id).

Definition xfacts (l : xledger) (tenant_id execution_id : string) : list SandboxFact :=
  default [] (_facts l !! (tenant_id, execution_id)).

(** [self._facts.setdefault(key, [])] *)
Definition xsetdefault (key : string * string) (l : xledger) : xledger :=
  {| _facts := match _facts l !! key with Some _ => _facts l | None => <[key := []]> (_facts l) end;
     _projections := _projections l; _commands := _commands l |}.

Definition xfingerprint (fact_type : SandboxFactType) (p : payload) : string :=
  canonical_digest [("fact_type", JStr (sandbox_fact_value fact_type)); ("payload", JObj p)].

(** The fact an append records *)
Definition build_sandbox_fact (tenant_id execution_id : string) (sequence : Z) (previous : string)
    (fact_type : SandboxFactType) (command_id actor : string) (recorded_at : datetime) (p : payload)
    : SandboxFact :=
  let fact digest :=
    {| xf_tenant_id := tenant_id; xf_execution_id := execution_id; xf_sequence := sequence;
       xf_fact_id := stable_id "sandbox-fact" [tenant_id; execution_id; str_of_int sequence; command_id] 32;
       xf_fact_type := fact_type; xf_command_id := command_id; xf_actor_ref := actor;
       xf_recorded_at := recorded_at; xf_payload := sort_payload p; xf_previous_digest := previous;
       xf_canonical_digest := digest |} in
  fact (canonical_digest (sandbox_fact_material (fact ""))).

Definition xcommit (key command_key : string * string) (execution_id fingerprint : string)
    (fact : SandboxFact) (p : SandboxProjection) (l : xledger) : xledger :=
  {| _facts := <[key := default [] (_facts l !! key) ++ [fact]]> (_facts l);
     _projections := <[key := p]> (_projections l);
     _commands := <[command_key := (execution_id, fingerprint)]> (_commands l) |}.

Definition xappend (tenant_id execution_id : string) (expected_version : Z)
    (fact_type : SandboxFactType) (command_id actor : string) (recorded_at : datetime)
    (p : payload) : M xledger SandboxProjection :=
  let key := (tenant_id, execution_id) in
  let fingerprint := xfingerprint fact_type p in
  l ← get;
  match _commands l !! (tenant_id, command_id) with
  | Some prior =>
      lift (raise_if (bool_decide (prior ≠ (execution_id, fingerprint))) IdempotencyConflict
              "sandbox command replay changed input");;
      lift (of_option (_projections l !! key) KeyError execution_id)
  | None =>
      modify (xsetdefault key);;
      let fs := default [] (_facts l !! key) in
      lift (raise_if (negb (zlen fs =? expected_version)) ConcurrencyConflict
              "sandbox aggregate version changed");;
      lift (raise_if (_MAX_FACTS <=? zlen fs) IntegrityFailure "sandbox fact bound exceeded");;
      let previous := match last fs with Some f => xf_canonical_digest f | None => _ZERO_HASH end in
      fact ← lift (new_SandboxFact
        (build_sandbox_fact tenant_id execution_id (zlen fs + 1) previous fact_type command_id actor recorded_at p));
      projected ← lift (reduce_sandbox (_projections l !! key) fact);
      modify (xcommit key (tenant_id, command_id) execution_id fingerprint fact projected);;
      mret projected
  end.

Definition xreduce (current : option SandboxProjection) (fact : SandboxFact)
    : res (option SandboxProjection) :=
  p ← reduce_sandbox current fact; Ok (Some p).

Definition xrebuild (l : xledger) (tenant_id execution_id : string) : res SandboxProjection :=
  o ← foldM xreduce None (xfacts l tenant_id execution_id);
  of_option o IntegrityFailure "cannot rebuild an unknown sandbox execution".
End ledger.

#[global] Arguments reduce_sandbox : simpl never.
#[global] Arguments build_sandbox_fact : simpl never.
#[global] Arguments xappend : simpl never.
#[global] Arguments xfingerprint : simpl never.
