(* ===== verification/SandboxService.v ===== *)
(** * Sandbox stores and control service ([sandbox.py], lines 1089-1385)

    [InMemorySandboxQuota], [InMemorySandboxClaims] and [SandboxControlService]. *)

From S2P Require Import Prelude PyJson PyTime PyText PyModel Domain Durability Authorization SandboxText SandboxData SandboxLedger.

(** ** Quota *)

Record SandboxQuotaDecision := {
  qd_allowed : bool;
  qd_reservation_id : string;
  qd_units : Z;
  qd_reason : string
}.

Definition SandboxQuotaDecision_ok (d : SandboxQuotaDecision) : bool :=
  Identifier (qd_reservation_id d) && (1 <=? qd_units d) && Identifier (qd_reason d).

Record xquota := {
  _remaining : gmap string Z;
  _reservations : gmap (string * string) SandboxQuotaDecision
}.

Definition new_xquota (limits : gmap string Z) : xquota := {| _remaining := limits; _reservations := ∅ |}.

Definition quota_left (q : xquota) (tenant_id : string) : Z := default 0 (_remaining q !! tenant_id).

Definition xquota_reserve (tenant_id execution_id reservation_id policy_digest : string) (units : Z)
    (requested_at : datetime) : M xquota SandboxQuotaDecision :=
  lift (raise_if (units <? 1) ValueError "sandbox quota units must be positive");;
  let key := (tenant_id, reservation_id) in
  q ← get;
  match _reservations q !! key with
  | Some existing => mret existing
  | None =>
      let remaining := quota_left q tenant_id in
      let allowed := units <=? remaining in
      decision ← lift (validated SandboxQuotaDecision_ok "SandboxQuotaDecision"
        {| qd_allowed := allowed; qd_reservation_id := reservation_id; qd_units := units;
           qd_reason := if allowed then "reserved" else "sandbox_quota_exhausted" |});
      modify (λ q, {| _remaining := _remaining q; _reservations := <[key := decision]> (_reservations q) |});;
      (if allowed
       then modify (λ q, {| _remaining := <[tenant_id := remaining - units]> (_remaining q);
                            _reservations := _reservations q |})
       else mret ());;
      mret decision
  end.

(** ** Claims *)

Record SandboxClaim := {
  sc_request_digest : string;
  sc_spec_digest : string;
  sc_policy_digest : string;
  sc_approval_digest : string;
  sc_attempt : Z;
  sc_fence_token : string;
  sc_claim_token : string;
  sc_claim_until : datetime;
  sc_worker_ref : string;
  sc_result_digest : option string
}.

Definition SandboxClaim_ok (c : SandboxClaim) : bool :=
  forallb is_sha256_hex [sc_request_digest c; sc_spec_digest c; sc_policy_digest c; sc_approval_digest c]
  && in_range 1 16 (sc_attempt c)
  && forallb Identifier [sc_fence_token c; sc_claim_token c; sc_worker_ref c]
  && opt_ok is_sha256_hex (sc_result_digest c).

Definition with_result (digest : string) (c : SandboxClaim) : SandboxClaim :=
  {| sc_request_digest := sc_request_digest c; sc_spec_digest := sc_spec_digest c;
     sc_policy_digest := sc_policy_digest c; sc_approval_digest := sc_approval_digest c;
     sc_attempt := sc_attempt c; sc_fence_token := sc_fence_token c;
     sc_claim_token := sc_claim_token c; sc_claim_until := sc_claim_until c;
     sc_worker_ref := sc_worker_ref c; sc_result_digest := Some digest |}.

Abbreviation claims := (gmap (string * string) SandboxClaim).

Section stores.
Context {HDigest : Digest}.

Definition claim_token_of (request : SandboxExecutionRequest) (worker_ref : string) : string :=
  stable_id "sandbox-claim"
    [sx_tenant_id request; sx_execution_id request; worker_ref; str_of_int (sx_attempt request);
     sx_fence_token request] 40.

Definition build_claim (request : SandboxExecutionRequest) (worker_ref : string) (claim_until : datetime)
    : SandboxClaim :=
  {| sc_request_digest := sx_request_digest request; sc_spec_digest := sx_spec_digest request;
     sc_policy_digest := sx_policy_digest request; sc_approval_digest := sx_approval_digest request;
     sc_attempt := sx_attempt request; sc_fence_token := sx_fence_token request;
     sc_claim_token := claim_token_of request worker_ref; sc_claim_until := claim_until;
     sc_worker_ref := worker_ref; sc_result_digest := None |}.

Definition same_binding (current : SandboxClaim) (request : SandboxExecutionRequest) : bool :=
  bool_decide (sc_spec_digest current = sx_spec_digest request)
  && bool_decide (sc_policy_digest current = sx_policy_digest request)
  && bool_decide (sc_approval_digest current = sx_approval_digest request)
  && bool_decide (sc_fence_token current = sx_fence_token request).

Definition store_claim (key : string * string) (request : SandboxExecutionRequest) (worker_ref : string)
    (claim_until : datetime) : M claims SandboxClaim :=
  claimed ← lift (validated SandboxClaim_ok "SandboxClaim" (build_claim request worker_ref claim_until));
  modify (λ cs, <[key := claimed]> cs);;
  mret claimed.

Definition xclaim (request : SandboxExecutionRequest) (worker_ref : string) (now claim_until : datetime)
    : M claims SandboxClaim :=
  lift (raise_if (claim_until <=? now) ValueError "sandbox claim expiry must follow claim time");;
  let key := (sx_tenant_id request, sx_execution_id request) in
  cs ← get;
  match cs !! key with
  | None => store_claim key request worker_ref claim_until
  | Some current =>
      lift (raise_if (negb (same_binding current request)) SandboxRejected
              "sandbox claim exact binding changed");;
      match sc_result_digest current with
      | Some _ => mret current
      | None =>
          lift (raise_if ((now <? sc_claim_until current)
                          && bool_decide (sc_claim_token current ≠ claim_token_of request worker_ref))
                  ConcurrencyConflict "sandbox execution is actively claimed");;
          lift (raise_if ((sc_claim_until current <=? now) && (sx_attempt request <=? sc_attempt current))
                  ConcurrencyConflict "sandbox retry attempt did not advance");;
          store_claim key request worker_ref claim_until
      end
  end.

(** [complete] ignores its [now]. *)
Definition xcomplete (result : SandboxResult) (claim_token : string) (now : datetime) : M claims unit :=
  let key := (su_tenant_id result, su_execution_id result) in
  cs ← get;
  match cs !! key with
  | None => lift (raise ConcurrencyConflict "stale sandbox completion rejected")
  | Some current =>
      lift (raise_if (bool_decide (sc_claim_token current ≠ claim_token)
                      || bool_decide (sc_fence_token current ≠ su_fence_token result)
                      || negb (sc_attempt current =? su_attempt result))
              ConcurrencyConflict "stale sandbox completion rejected");;
      match sc_result_digest current with
      | Some d =>
          lift (raise_if (bool_decide (d ≠ su_result_digest result)) IdempotencyConflict
                  "sandbox result changed on replay")
      | None => modify (λ cs, <[key := with_result (su_result_digest result) current]> cs)
      end
  end.

(** ** The control service

    The application policy, the approval reader and the clock are ports.  Each call of [request]
    asks the policy and the approvals once and reads the clock five times; the ports may answer
    differently at every call. *)

Record sworld := { sw_quota : xquota; sw_ledger : xledger }.

Definition put_quota (q : xquota) (w : sworld) : sworld := {| sw_quota := q; sw_ledger := sw_ledger w |}.
Definition put_ledger (l : xledger) (w : sworld) : sworld := {| sw_quota := sw_quota w; sw_ledger := l |}.

Record sandbox_ports := {
  application_policy : IdentityContext → Action → string → string → RiskLevel → PolicyDecision;
  current_approval : string → string → option SandboxApprovalBinding;
  clock : nat → datetime
}.

Definition request_payload (request : SandboxExecutionRequest) : payload :=
  [("run_id", JStr (sx_run_id request)); ("task_id", JStr (sx_task_id request));
   ("request_digest", JStr (sx_request_digest request)); ("spec_digest", JStr (sx_spec_digest request));
   ("policy_digest", JStr (sx_policy_digest request));
   ("approval_digest", JStr (sx_approval_digest request));
   ("fence_token", JStr (sx_fence_token request))].

Definition decision_payload (policy : SandboxPolicy) : payload :=
  [("policy_id", JStr (sp_policy_id policy)); ("policy_revision", JInt (sp_revision policy));
   ("policy_digest", JStr (sp_policy_digest policy))].

Definition binding_payload (request : SandboxExecutionRequest) : payload :=
  let approval := ss_approval (sx_spec request) in
  [("approval_id", JStr (sb_approval_id approval)); ("approval_digest", JStr (sx_approval_digest request));
   ("remediation_plan_digest", JStr (sb_remediation_plan_digest approval));
   ("remediation_action_digest", JStr (sb_remediation_action_digest approval))].

(** The checks of [request] up to the quota *)
Definition request_checks (policy : SandboxPolicy) (ports : sandbox_ports) (identity : IdentityContext)
    (request : SandboxExecutionRequest) (active_executions : Z) : res unit :=
  raise_if (bool_decide (ic_tenant_id identity ≠ sx_tenant_id request)) PolicyDenied
    "sandbox tenant mismatch";;
  let decision := application_policy ports identity SANDBOX_EXECUTE (sx_tenant_id request)
    "incident-response" (ss_risk (sx_spec request)) in
  raise_if (negb (pd_allowed decision)) PolicyDenied "sandbox application authorization denied";;
  raise_if (bool_decide (sx_policy_digest request ≠ sp_policy_digest policy)) PolicyDenied
    "sandbox policy changed after request creation";;
  raise_if (bool_decide (current_approval ports (sx_tenant_id request)
                           (sb_approval_id (ss_approval (sx_spec request)))
                         ≠ Some (ss_approval (sx_spec request)))) PolicyDenied
    "sandbox approval binding changed";;
  policy_authorize policy (sx_spec request) active_executions (clock ports 0).

Definition reservation_of (request : SandboxExecutionRequest) : string :=
  stable_id "sandbox-quota" [sx_tenant_id request; sx_idempotency_key request] 40.

Definition ledger_call {A} : M xledger A → M sworld A := zoom sw_ledger put_ledger.

Definition request (policy : SandboxPolicy) (ports : sandbox_ports) (identity : IdentityContext)
    (request : SandboxExecutionRequest) (active_executions : Z) (command_id : string)
    : M sworld SandboxProjection :=
  lift (request_checks policy ports identity request active_executions);;
  let t := sx_tenant_id request in
  let x := sx_execution_id request in
  reservation ← zoom sw_quota put_quota
    (xquota_reserve t x (reservation_of request) (sx_policy_digest request) 1 (clock ports 1));
  lift (raise_if (negb (qd_allowed reservation)) PolicyDenied "sandbox execution quota exhausted");;
  let actor := actor_ref identity in
  projection ← ledger_call
    (xappend t x 0 XF_REQUEST_RECORDED command_id actor (clock ports 2) (request_payload request));
  projection ← ledger_call
    (xappend t x (xp_version projection) XF_POLICY_DECIDED (command_id +:+ "-policy") actor (clock ports 3)
       (decision_payload policy));
  ledger_call
    (xappend t x (xp_version projection) XF_APPROVAL_BOUND (command_id +:+ "-approval") actor
       (clock ports 4) (binding_payload request)).
End stores.

#[global] Arguments xquota_reserve : simpl never.
#[global] Arguments xclaim : simpl never.
#[global] Arguments xcomplete : simpl never.
#[global] Arguments request : simpl never.
#[global] Arguments request_checks : simpl never.
