(* ===== verification/SandboxFacts.v ===== *)
(** * Sandbox texts, policy and ledger: the facts

    What an accepted path, image or prefix test means; what one append does, the invariant every
    sequence of appends keeps, and what may change in a projection from one moment to a later
    one. *)

From S2P Require Import Prelude PyJson PyTime PyText PyModel Domain Durability SandboxText SandboxData SandboxLedger.

(** ** Paths

    POSIX resolution of a path below a root: an absolute path forgets the root, empty and [.]
    components stay, [..] goes up. *)

Definition resolve_part (at_ : list string) (part : string) : list string :=
  if decide (part = "" ∨ part = ".") then at_
  else if decide (part = "..") then take (length at_ - 1) at_
  else at_ ++ [part].

Definition resolve (root : list string) (path : string) : list string :=
  foldl resolve_part (if String.prefix "/" path then [] else root) (path_parts path).

Definition plain_part (part : string) : Prop := part ≠ "" ∧ part ≠ "." ∧ part ≠ "..".

Lemma resolve_plain parts root : Forall plain_part parts → foldl resolve_part root parts = root ++ parts.
Proof.
  revert root. induction parts as [|p ps IH]; intros root H; simpl; [by rewrite app_nil_r|].
  apply Forall_cons in H as [(H1 & H2 & H3) H]. rewrite IH by done. unfold resolve_part.
  rewrite decide_False by naive_solver. rewrite decide_False by done. by rewrite <-app_assoc.
Qed.

Lemma path_ok_inv p : relative_path_ok p = true →
  String.prefix "/" p = false ∧ Forall plain_part (path_parts p) ∧
  str_forallb (λ c, negb (unsafe_char c)) p = true ∧ str_contains "\" p = false ∧ 1 <= str_len p <= 512.
Proof.
  unfold relative_path_ok. rewrite is_ok_inv. unfold validate_relative_path, _safe_text. intros [q H].
  py_inv. py_bool. split_and!; try done.
  - apply Forall_forall. intros part Hq.
    match goal with H : existsb (λ part, bool_decide (part ∈ _)) _ = false |- _ =>
      pose proof (existsb_false _ _ part H Hq) as Hn end.
    cbv beta in Hn. py_bool. unfold plain_part. set_solver.
  - unfold length_between in *. py_bool. lia.
  - unfold length_between in *. py_bool. lia.
Qed.

Lemma resolve_ok root p : relative_path_ok p = true → resolve root p = root ++ path_parts p.
Proof.
  intros Hp. apply path_ok_inv in Hp as (Hp & Hf & _). unfold resolve. rewrite Hp.
  by apply resolve_plain.
Qed.

(** The prefix test on texts is the prefix order on components. *)
Lemma under_prefix_parts path prefix :
  under_prefix path prefix = true ↔ path_parts prefix `prefix_of` path_parts path.
Proof.
  unfold under_prefix, path_parts. rewrite orb_true_iff, bool_decide_eq_true, prefix_split. split.
  - intros [->|[t ->]]; [done|]. rewrite str_app_assoc.
    change ("/" +:+ t) with (String "/" t). rewrite split_on_app. by apply prefix_app_r.
  - intros [more Hm]. destruct more as [|q more].
    + left. rewrite app_nil_r in Hm. by eapply split_on_inj.
    + right. exists (str_join "/" (q :: more)). rewrite <-(join_split "/" path), Hm.
      rewrite join_app_sep by (done || apply split_on_nonempty). by rewrite join_split, str_app_assoc.
Qed.

(** ** Images *)

Definition no_char (c : ascii) (s : string) : bool := str_forallb (λ x, negb (bool_decide (x = c))) s.

Lemma no_char_app c s1 s2 : no_char c (s1 +:+ s2) = no_char c s1 && no_char c s2.
Proof. apply str_forallb_app. Qed.

Lemma str_before_app c s t : no_char c s = true → str_before c (s +:+ String c t) = s.
Proof.
  unfold no_char. induction s as [|x s IH]; simpl; [by rewrite bool_decide_eq_true_2|].
  rewrite andb_true_iff. intros [Hx Hs]. py_bool. rewrite bool_decide_eq_false_2 by done.
  f_equal. by apply IH.
Qed.

(** The words of a pattern over characters with property [f] have it throughout. *)
Fixpoint all_chars (f : ascii → Prop) (r : regex) : Prop :=
  match r with
  | RChar g => ∀ c, g c = true → f c
  | RSeq a b | RAlt a b => all_chars f a ∧ all_chars f b
  | REmpty | RBoundary => True
  | RRepeat a _ _ => all_chars f a
  end.

Lemma forallb_join (f : ascii → bool) ss :
  Forall (λ s, str_forallb f s = true) ss → str_forallb f (str_join "" ss) = true.
Proof.
  induction 1 as [|s ss Hs _ IH]; [done|]. by rewrite join_cons, str_forallb_app, Hs, IH.
Qed.

Lemma lang_chars (f : ascii → bool) r : ∀ s,
  lang r s → all_chars (λ c, f c = true) r → str_forallb f s = true.
Proof.
  induction r as [g|a IHa b IHb|a IHa b IHb| | |a IHa lo hi]; intros s Hl Hr; inversion Hl; subst; simpl in *; auto.
  - by rewrite Hr.
  - rewrite str_forallb_app, IHa, IHb; naive_solver.
  - naive_solver.
  - naive_solver.
  - apply forallb_join. eapply Forall_impl; [done|]. eauto.
Qed.

Lemma lang_lit s w : lang (RLit exactly s) w → w = s.
Proof.
  revert w. induction s as [|c s IH]; intros w Hw; inversion Hw; subst; [done|].
  match goal with H : lang (RChar _) _ |- _ => inversion H; subst end.
  unfold exactly in *. py_bool. subst. simpl. f_equal. by apply IH.
Qed.

Lemma lang_seq_inv r1 r2 s : lang (RSeq r1 r2) s → ∃ s1 s2, s = s1 +:+ s2 ∧ lang r1 s1 ∧ lang r2 s2.
Proof. intros H. inversion H; subst. eauto. Qed.

Lemma lang_hex s : lang (RRepeat (RChar is_hex_lower) 64 (Some 64%nat)) s → is_sha256_hex s = true.
Proof.
  intros H. pose proof (lang_chars is_hex_lower _ _ H ltac:(by simpl)) as Hc.
  inversion H as [| | | | | |r lo hi ss Hss Hlo Hhi]; subst. unfold is_sha256_hex. rewrite Hc, andb_true_r.
  assert (length ss = 64)%nat as Hl by (pose proof (Hhi 64%nat eq_refl (le_n 64)); lia). clear -Hl Hss.
  apply Nat.eqb_eq. rewrite <-Hl. clear Hl. induction Hss as [|x ss Hx _ IH]; [done|].
  inversion Hx; subst. rewrite join_cons, str_app_length, IH. done.
Qed.

(** An accepted image is a registry, a repository and a digest. *)
Lemma image_parts image : image_ok image = true →
  ∃ repository digest,
    image = image_registry image +:+ "/" +:+ repository +:+ "@sha256:" +:+ digest ∧
    no_char "/" (image_registry image) = true ∧ is_sha256_hex digest = true.
Proof.
  intros H. apply fullmatch_lang in H. unfold _OCI_IMAGE, RSeqs in H. cbn [foldr] in H.
  apply lang_seq_inv in H as (reg & s1 & -> & Hreg & H).
  apply lang_seq_inv in H as (sl & s2 & -> & Hsl & H). apply lang_lit in Hsl as ->.
  apply lang_seq_inv in H as (repo & s3 & -> & Hrepo & H).
  apply lang_seq_inv in H as (at_ & s4 & -> & Hat & H). apply lang_lit in Hat as ->.
  apply lang_seq_inv in H as (dg & s5 & -> & Hdg & H). inversion H; subst. rewrite str_app_nil.
  assert (no_char "/" reg = true) as Hno.
  { eapply lang_chars; [exact Hreg|]. unfold registry_pattern, RSeqs, ROpt, RStar. cbn [foldr all_chars RLit].
    split_and!; try done; intros c Hc; (destruct (bool_decide (c = "/"%char)) eqn:E; [|done]);
      py_bool; subst c; by vm_compute in Hc. }
  assert (image_registry (reg +:+ "/" +:+ repo +:+ "@sha256:" +:+ dg) = reg) as Hr.
  { unfold image_registry. change ("/" +:+ ?x) with (String "/" x). by apply str_before_app. }
  exists repo, dg. rewrite Hr. split_and!; [done|done|]. by apply lang_hex.
Qed.

Lemma after_last_none sep s : (∀ a b, s ≠ a +:+ sep +:+ b) → after_last sep s = None.
Proof.
  induction s as [|c s IH]; intros Hn; [done|]. cbn [after_last]. rewrite IH.
  - destruct (String.prefix sep (String c s)) eqn:Hp; [|done]. apply prefix_split in Hp as [t Ht].
    by destruct (Hn "" t).
  - intros a b ->. by apply (Hn (String c a) b).
Qed.

Lemma after_last_app sep a b :
  sep ≠ "" → (∀ x y, (str_drop 1 sep +:+ b) ≠ x +:+ sep +:+ y) → after_last sep (a +:+ sep +:+ b) = Some b.
Proof.
  intros Hsep Hn. induction a as [|c a IH].
  - destruct sep as [|c sep]; [done|]. change ("" +:+ ?x) with x.
    change (String c sep +:+ b) with (String c (sep +:+ b)). simpl in Hn. cbn [after_last].
    rewrite after_last_none by done.
    assert (String.prefix (String c sep) (String c (sep +:+ b)) = true) as ->.
    { apply prefix_split. by exists b. }
    change (String c (sep +:+ b)) with (String c sep +:+ b). by rewrite str_drop_app.
  - change (String c a +:+ ?x) with (String c (a +:+ x)). cbn [after_last]. by rewrite IH.
Qed.

Lemma no_at_after x c y s : no_char c s = true → s ≠ x +:+ String c y.
Proof.
  intros Hs ->. rewrite no_char_app in Hs. unfold no_char at 2 in Hs. cbn [str_forallb] in Hs.
  rewrite bool_decide_eq_true_2 in Hs by done. by destruct (no_char c x).
Qed.

Lemma image_digest_parts prefix digest :
  is_sha256_hex digest = true → image_digest_of (prefix +:+ "@sha256:" +:+ digest) = Ok digest.
Proof.
  intros Hd. unfold image_digest_of. rewrite after_last_app; [done|done|].
  intros x y. apply no_at_after. rewrite no_char_app. apply andb_true_iff. split; [done|].
  unfold is_sha256_hex in Hd. apply andb_true_iff in Hd as [_ Hd].
  eapply str_forallb_impl; [|exact Hd]. intros c. by ascii_cases c.
Qed.

(** ** The policy *)

Definition image_text (registry repository digest : string) : string :=
  registry +:+ "/" +:+ repository +:+ "@sha256:" +:+ digest.

Lemma image_text_registry registry repository digest :
  no_char "/" registry = true → image_registry (image_text registry repository digest) = registry.
Proof.
  intros H. unfold image_registry, image_text.
  change ("/" +:+ ?x) with (String "/" x). by apply str_before_app.
Qed.

Lemma image_text_digest registry repository digest :
  is_sha256_hex digest = true → image_digest_of (image_text registry repository digest) = Ok digest.
Proof.
  intros H. unfold image_text. rewrite <-(str_app_assoc "/"), <-str_app_assoc.
  by apply image_digest_parts.
Qed.

(** What an enabled policy allows *)
Record sandbox_permitted (p : SandboxPolicy) (s : SandboxSpec) (active : Z) (now : datetime) : Prop := {
  pm_tenant : sp_enabled p = true ∧ sp_tenant_id p = ss_tenant_id s;
  pm_image : image_ok (ss_image s) = true ∧
    ∃ registry repository digest,
      ss_image s = image_text registry repository digest ∧ no_char "/" registry = true ∧
      is_sha256_hex digest = true ∧ registry ∈ sp_allowed_registries p ∧
      digest ∈ sp_allowed_image_digests p;
  pm_command : ∃ command arguments, ss_argv s = command :: arguments ∧ command ∈ sp_allowed_commands p;
  pm_purpose : ss_purpose s ∈ sp_allowed_purposes p;
  pm_approval : sb_approval_policy_digest (ss_approval s) ∈ sp_allowed_approval_policy_digests p ∧
                now < sb_approval_expires_at (ss_approval s);
  pm_runtime : ss_required_runtime_class s = sp_require_runtime_class p ∧
               ss_required_admission_policies s = sp_require_admission_policies p;
  pm_risk : risk_order (ss_risk s) <= risk_order (sp_maximum_risk p);
  pm_concurrency : active < sp_maximum_concurrency p;
  pm_lifetime : sr_timeout_seconds (ss_resources s) <= sp_maximum_lifetime_seconds p;
  pm_resources : Forall (λ field, field (ss_resources s) <= field (sp_maximum_resources p))
    [sr_cpu_millicores; sr_memory_mib; sr_pid_limit; sr_ephemeral_storage_mib; sr_timeout_seconds;
     sr_output_bytes; sr_output_files; sr_output_file_bytes];
  pm_mounts m : m ∈ ss_mounts s →
    ∃ prefix, prefix ∈ sp_allowed_mount_prefixes p ∧ path_parts prefix `prefix_of` path_parts (mr_target_path m);
  pm_secrets r : r ∈ ss_secrets s → se_reference r ∈ sp_allowed_secret_refs p;
  pm_egress d : nw_mode (ss_network s) = NM_EXACT_DESTINATIONS → d ∈ nw_destinations (ss_network s) →
    d ∈ sp_allowed_egress p
}.

Lemma allowed_risks_order r maximum : risk_value r ∈ allowed_risks maximum ↔ risk_order r <= risk_order maximum.
Proof.
  rewrite <-(bool_decide_spec (risk_value r ∈ _)), <-Z.leb_le.
  destruct r, maximum; vm_compute; by split.
Qed.

Lemma within_ceilings_le a b : within_ceilings a b = true ↔
  Forall (λ field, field a <= field b)
    [sr_cpu_millicores; sr_memory_mib; sr_pid_limit; sr_ephemeral_storage_mib; sr_timeout_seconds;
     sr_output_bytes; sr_output_files; sr_output_file_bytes].
Proof.
  unfold within_ceilings. cbn [existsb id]. rewrite negb_true_iff, !orb_false_iff, !Forall_cons, !Z.ltb_ge.
  naive_solver.
Qed.

Lemma existsb_negb {A} (f : A → bool) l : existsb (λ x, negb (f x)) l = false ↔ ∀ x, x ∈ l → f x = true.
Proof.
  induction l as [|y l IH]; simpl; [set_solver|]. rewrite orb_false_iff, negb_false_iff, IH.
  setoid_rewrite elem_of_cons. naive_solver.
Qed.

Lemma existsb_not_in {A B} `{!EqDecision B} (g : A → B) (allowed : list B) l :
  existsb (λ x, bool_decide (g x ∉ allowed)) l = false ↔ ∀ x, x ∈ l → g x ∈ allowed.
Proof.
  induction l as [|y l IH]; simpl; [set_solver|]. rewrite orb_false_iff, bool_decide_eq_false, IH.
  setoid_rewrite elem_of_cons. split.
  - intros [H1 H2] x [->|Hx]; [by apply dec_stable|auto].
  - intros H. split; [|auto]. intros Hn. apply Hn. auto.
Qed.

Lemma existsb_is_in {A} (f : A → bool) l : existsb f l = true ↔ ∃ x, x ∈ l ∧ f x = true.
Proof. rewrite existsb_exists. setoid_rewrite list_elem_of_In. done. Qed.

Lemma mounts_allowed p s :
  existsb (λ m, negb (existsb (under_prefix (mr_target_path m)) (sp_allowed_mount_prefixes p))) (ss_mounts s) = false ↔
  ∀ m, m ∈ ss_mounts s →
    ∃ prefix, prefix ∈ sp_allowed_mount_prefixes p ∧ path_parts prefix `prefix_of` path_parts (mr_target_path m).
Proof.
  rewrite existsb_negb. setoid_rewrite existsb_is_in. by setoid_rewrite under_prefix_parts.
Qed.

Lemma permitted_authorize p s active now :
  sandbox_permitted p s active now → policy_authorize p s active now = Ok ().
Proof.
  intros [[He Ht] [Hi (rg & rp & dg & Him & Hno & Hsha & Hrg & Hdg)] (cmd & args & Hargv & Hcmd)
          Hpu [Hap Hexp] [Hrt Had] Hrisk Hact Hlife Hres Hm Hs Hd].
  unfold policy_authorize. rewrite He, (bool_decide_eq_false_2 (sp_tenant_id p ≠ _)) by (intros Hn; by apply Hn).
  rewrite Hi. simpl.
  rewrite Him, image_text_digest, Hargv, image_text_registry by done. simpl.
  apply allowed_risks_order in Hrisk. 
  repeat rewrite (bool_decide_eq_false_2 (_ ∉ _)) by (intros Hn; by apply Hn).
  repeat rewrite (bool_decide_eq_false_2 (_ ≠ _)) by (intros Hn; by apply Hn). simpl.
  replace (_ <=? now) with false by (symmetry; apply Z.leb_gt; done).
  replace (_ <=? active) with false by (symmetry; apply Z.leb_gt; done).
  replace (_ <? _) with false by (symmetry; apply Z.ltb_ge; done). simpl.
  apply within_ceilings_le in Hres. rewrite Hres. simpl.
  apply mounts_allowed in Hm. rewrite Hm. simpl.
  apply (existsb_not_in se_reference) in Hs. rewrite Hs. simpl.
  case_bool_decide as Hmode; [|done]. simpl.
  enough (existsb (λ d, bool_decide (d ∉ sp_allowed_egress p)) (nw_destinations (ss_network s)) = false) as -> by done.
  apply (existsb_not_in (λ d, d)). auto.
Qed.

Lemma authorize_permitted p s active now :
  policy_authorize p s active now = Ok () → sandbox_permitted p s active now.
Proof.
  unfold policy_authorize. intros H.
  apply res_bind_ok in H as (u1 & H1 & H). apply res_bind_ok in H as (u2 & H2 & H).
  apply res_bind_ok in H as (dg & Hdg & H). apply res_bind_ok in H as (cmd & Hcmd & H).
  apply res_bind_ok in H as (u3 & H3 & H). apply res_bind_ok in H as (u4 & H4 & H).
  apply res_bind_ok in H as (u5 & H5 & H). apply res_bind_ok in H as (u6 & H6 & H).
  apply res_bind_ok in H as (u7 & H7 & H). apply res_bind_ok in H as (u8 & H8 & H).
  apply res_bind_ok in H as (u9 & H9 & H).
  repeat match goal with H : raise_if _ _ _ = Ok _ |- _ => apply raise_if_ok in H end.
  rewrite !orb_false_iff in H3. destruct H3 as [[[[[[[G1 G2] G3] G4] G5] G6] G7] G8]. py_bool.
  rewrite ?bool_decide_eq_false in *.
  destruct (image_parts _ H2) as (repo & dg' & Him & Hno & Hsha).
  assert (dg' = dg) as ->.
  { rewrite Him in Hdg. fold (image_text (image_registry (ss_image s)) repo dg') in Hdg.
    rewrite image_text_digest in Hdg by done. by injection Hdg. }
  split; try done.
  - split; [done|]. by exists (image_registry (ss_image s)), repo, dg.
  - destruct (ss_argv s) as [|c args]; [done|]. injection Hcmd as ->. by exists cmd, args.
  - by apply allowed_risks_order.
  - by apply within_ceilings_le.
  - by apply mounts_allowed.
  - by apply (existsb_not_in se_reference).
  - intros d Hmode Hin. apply andb_false_iff in H as [H|H]; [by rewrite Hmode in H|].
    by apply (proj1 (existsb_not_in (λ d, d) _ _) H).
Qed.

(** [later p p']: the same request, further on *)
Record later (p p' : SandboxProjection) : Prop := {
  la_version : xp_version p <= xp_version p';
  la_request : xp_tenant_id p' = xp_tenant_id p ∧ xp_execution_id p' = xp_execution_id p ∧
               xp_run_id p' = xp_run_id p ∧ xp_task_id p' = xp_task_id p ∧
               xp_request_digest p' = xp_request_digest p ∧ xp_spec_digest p' = xp_spec_digest p ∧
               xp_policy_digest p' = xp_policy_digest p ∧ xp_approval_digest p' = xp_approval_digest p ∧
               xp_fence_token p' = xp_fence_token p;
  la_known : (is_Some (xp_provider_uid p) → is_Some (xp_provider_uid p')) ∧
             (is_Some (xp_result_digest p) → is_Some (xp_result_digest p')) ∧
             (is_Some (xp_manifest_digest p) → is_Some (xp_manifest_digest p')) ∧
             (is_Some (xp_attestation_digest p) → is_Some (xp_attestation_digest p'));
  la_cleanup : xp_cleanup_complete p = true → xp_cleanup_complete p' = true
}.

#[export] Instance later_preorder : PreOrder later.
Proof.
  split.
  - intros p. by split.
  - intros a b c [V1 R1 K1 C1] [V2 R2 K2 C2]. split; [lia|naive_solver congruence|naive_solver|auto].
Qed.

Lemma member_or_some key p old : is_Some old → is_Some (member_or key p old).
Proof. unfold member_or. destruct (dict_get key p); eauto. Qed.

Section facts.
Context {HDigest : Digest}.

Lemma reduce_digest o f p : reduce_sandbox o f = Ok p → xf_canonical_digest f = canonical_digest (sandbox_fact_material f).
Proof. unfold reduce_sandbox. intros H. apply res_bind_ok in H as (u & H & _). py_inv. by py_bool. Qed.

Lemma xreduce_some c f p : reduce_sandbox (Some c) f = Ok p →
  xf_sequence f = xp_version c + 1 ∧ xf_previous_digest f = xp_last_fact_digest c ∧
  xp_version p = xf_sequence f ∧ xp_last_fact_digest p = xf_canonical_digest f ∧
  xp_status p = status_by_fact (xf_fact_type f) ∧ later c p.
Proof.
  unfold reduce_sandbox. intros H. apply res_bind_ok in H as (u & _ & H).
  apply res_bind_ok in H as (u' & Hg & H). injection H as <-. py_inv. py_bool.
  simpl. split_and!; try done. split; simpl.
  - lia.
  - done.
  - split_and!; apply member_or_some.
  - by intros ->.
Qed.

Lemma xreduce_none f p : reduce_sandbox None f = Ok p →
  xf_fact_type f = XF_REQUEST_RECORDED ∧ xf_sequence f = 1 ∧ xp_status p = SS_REQUESTED ∧ xp_version p = 1 ∧
  xp_last_fact_digest p = xf_canonical_digest f ∧ xp_tenant_id p = xf_tenant_id f ∧
  xp_execution_id p = xf_execution_id f ∧
  xp_request_digest p = member_str "request_digest" (xf_payload f) ∧
  xp_policy_digest p = member_str "policy_digest" (xf_payload f) ∧
  xp_approval_digest p = member_str "approval_digest" (xf_payload f).
Proof.
  unfold reduce_sandbox. intros H. apply res_bind_ok in H as (u & _ & H).
  apply res_bind_ok in H as (u' & Hg & H). apply res_bind_ok in H as (u'' & _ & H).
  apply validated_ok in H as [-> _]. py_inv. py_bool. done.
Qed.

Lemma xreduce_ok o f o' : xreduce o f = Ok o' ↔ ∃ p, reduce_sandbox o f = Ok p ∧ o' = Some p.
Proof. unfold xreduce. rewrite res_bind_ok. naive_solver. Qed.

Lemma xreplay_version fs : ∀ o,
  foldM xreduce None fs = Ok o →
  match o with
  | None => fs = []
  | Some p => xp_version p = zlen fs ∧ Some (xp_last_fact_digest p) = xf_canonical_digest <$> last fs
  end.
Proof.
  induction fs as [|f fs IH] using rev_ind; intros o H; [by injection H as <-|].
  rewrite foldM_app in H. apply res_bind_ok in H as (o1 & H1 & H). apply IH in H1.
  cbn [foldM] in H. apply res_bind_ok in H as (o2 & H2 & H). injection H as <-.
  apply xreduce_ok in H2 as (p & Hp & ->). rewrite last_snoc. unfold zlen in *. rewrite length_app. simpl.
  destruct o1 as [c|].
  - destruct H1 as [Hv _]. apply xreduce_some in Hp as (Hs & _ & Hpv & Hpd & _). rewrite Hpd. split; [lia|done].
  - subst fs. apply xreduce_none in Hp as (_ & _ & _ & Hpv & Hpd & _). by rewrite Hpd.
Qed.

Lemma replay_later fs : ∀ c o, foldM xreduce (Some c) fs = Ok o → ∃ p, o = Some p ∧ later c p.
Proof.
  induction fs as [|f fs IH]; intros c o H; cbn [foldM] in H.
  - injection H as <-. by exists c.
  - apply res_bind_ok in H as (o1 & H1 & H). apply xreduce_ok in H1 as (p1 & Hp1 & ->).
    apply IH in H as (p & -> & Hf). exists p. split; [done|].
    apply xreduce_some in Hp1 as (_ & _ & _ & _ & _ & Hl). by etrans.
Qed.

(** ** Append, spelled out *)

Definition previous_of (fs : list SandboxFact) : string :=
  match last fs with Some f => xf_canonical_digest f | None => _ZERO_HASH end.

Lemma xappend_run t x ver ft cmd actor at_ pl l :
  match xappend t x ver ft cmd actor at_ pl l with
  | (Raise e, l') => l' = l ∨ l' = xsetdefault (t, x) l
  | (Ok pj, l') =>
      (_commands l !! (t, cmd) = Some (x, xfingerprint ft pl) ∧ xprojection l t x = Some pj ∧ l' = l) ∨
      (_commands l !! (t, cmd) = None ∧ zlen (xfacts l t x) = ver ∧ ver < _MAX_FACTS ∧
       let fact := build_sandbox_fact t x (ver + 1) (previous_of (xfacts l t x)) ft cmd actor at_ pl in
       SandboxFact_ok fact = true ∧ reduce_sandbox (xprojection l t x) fact = Ok pj ∧
       l' = xcommit (t, x) (t, cmd) x (xfingerprint ft pl) fact pj l)
  end.
Proof.
  unfold xappend, xfacts, xprojection, get, lift, modify, mbind, M_bind, mret, M_ret.
  destruct (_commands l !! (t, cmd)) as [ex|] eqn:Hc.
  { unfold raise_if. case_bool_decide as Hex; [by left|]. subst ex.
    destruct (_projections l !! (t, x)) as [pj|] eqn:Hp; simpl; [|by left]. by left. }
  unfold raise_if. destruct (negb _) eqn:Hv; [by right|].
  destruct (_MAX_FACTS <=? _) eqn:Hm; [by right|]. py_bool.
  destruct (new_SandboxFact _) as [fact|] eqn:Hf; [|by right].
  apply validated_ok in Hf as [-> Hok].
  destruct (reduce_sandbox _ _) as [pj|] eqn:Hr; [|by right]. right.
  subst ver. split_and!; try done; try lia.
  unfold xcommit, xsetdefault. simpl.
  destruct (_facts l !! (t, x)) eqn:Hfs; [by rewrite Hfs|].
  by rewrite lookup_insert_eq, insert_insert_eq.
Qed.

(** ** The invariant *)

(** Facts of execution [x] of tenant [t], numbered from 1, each with the digest of its
    predecessor and its own *)
Definition xchained (t x : string) (fs : list SandboxFact) : Prop :=
  ∀ i f, fs !! i = Some f →
    xf_tenant_id f = t ∧ xf_execution_id f = x ∧ xf_sequence f = Z.of_nat i + 1 ∧
    xf_canonical_digest f = canonical_digest (sandbox_fact_material f) ∧
    xf_previous_digest f = previous_of (take i fs).

Record xledger_inv (l : xledger) : Prop := {
  xi_replay t x : foldM xreduce None (xfacts l t x) = Ok (xprojection l t x);
  xi_bound t x : zlen (xfacts l t x) <= _MAX_FACTS;
  xi_chained t x : xchained t x (xfacts l t x);
  xi_commands t c x fp : _commands l !! (t, c) = Some (x, fp) →
    ∃ f, f ∈ xfacts l t x ∧ xf_command_id f = c
}.

Lemma empty_xledger_inv : xledger_inv empty_xledger.
Proof. by split. Qed.

Lemma xfacts_setdefault key l t x : xfacts (xsetdefault key l) t x = xfacts l t x.
Proof.
  unfold xfacts, xsetdefault. simpl. destruct (_facts l !! key) eqn:Hk; [done|].
  rewrite lookup_insert. case_decide; simplify_eq; [by rewrite Hk|done].
Qed.

Lemma xfacts_commit t x ck fp f pj l t' x' :
  xfacts (xcommit (t, x) ck x fp f pj l) t' x' =
  if decide ((t, x) = (t', x')) then xfacts l t x ++ [f] else xfacts l t' x'.
Proof. unfold xfacts, xcommit. simpl. rewrite lookup_insert. by case_decide; simplify_eq. Qed.

Lemma xchained_snoc t x fs f :
  xchained t x fs → xf_tenant_id f = t → xf_execution_id f = x → xf_sequence f = zlen fs + 1 →
  xf_canonical_digest f = canonical_digest (sandbox_fact_material f) →
  xf_previous_digest f = previous_of fs → xchained t x (fs ++ [f]).
Proof.
  intros Hc H1 H2 H3 H4 H5 i g Hg. apply lookup_app_Some in Hg as [Hg|[Hi Hg]].
  - rewrite take_app_le; [by apply Hc|]. apply lookup_lt_Some in Hg. lia.
  - apply list_lookup_singleton_Some in Hg as [Hi' <-]. assert (i = List.length fs) as -> by lia.
    rewrite take_app_length. done.
Qed.

Lemma xcommit_inv t x ver ft cmd actor at_ pl pj l :
  xledger_inv l → zlen (xfacts l t x) = ver → ver < _MAX_FACTS →
  let fact := build_sandbox_fact t x (ver + 1) (previous_of (xfacts l t x)) ft cmd actor at_ pl in
  reduce_sandbox (xprojection l t x) fact = Ok pj →
  xledger_inv (xcommit (t, x) (t, cmd) x (xfingerprint ft pl) fact pj l).
Proof.
  intros [Hr Hb Hc Hcmd] Hver Hmax fact Hred. split.
  - intros t' x'. rewrite xfacts_commit. unfold xprojection, xcommit. simpl.
    rewrite lookup_insert. case_decide as E; [|apply Hr]. injection E as <- <-.
    rewrite foldM_app, Hr. simpl. unfold xreduce at 1. by rewrite Hred.
  - intros t' x'. rewrite xfacts_commit. case_decide; [|apply Hb]. unfold zlen in *.
    rewrite length_app. simpl. lia.
  - intros t' x'. rewrite xfacts_commit. case_decide as E; [|apply Hc]. injection E as <- <-.
    apply xchained_snoc; try done. by rewrite Hver.
  - intros t' c x' fp Hk. unfold xcommit in Hk. simpl in Hk. rewrite xfacts_commit.
    rewrite lookup_insert in Hk. case_decide as E; simplify_eq.
    + rewrite decide_True by done. exists fact. rewrite elem_of_app, list_elem_of_singleton. auto.
    + destruct (Hcmd _ _ _ _ Hk) as (g & Hg & Hgc). exists g. split; [|done].
      case_decide; simplify_eq; [rewrite elem_of_app; by left|done].
Qed.

Lemma xsetdefault_inv key l : xledger_inv l → xledger_inv (xsetdefault key l).
Proof. intros [Hr Hb Hc Hcmd]. split; intros *; rewrite xfacts_setdefault; auto. apply Hcmd. Qed.

Lemma xappend_inv t x ver ft cmd actor at_ pl : preserves xledger_inv (xappend t x ver ft cmd actor at_ pl).
Proof.
  intros l Hl. pose proof (xappend_run t x ver ft cmd actor at_ pl l) as H.
  destruct (xappend _ _ _ _ _ _ _ _ l) as [[pj|e] l']; simpl.
  - destruct H as [(_ & _ & ->)|(Hn & Hv & Hm & _ & Hred & ->)]; [done|by apply xcommit_inv].
  - destruct H as [->| ->]; [done|by apply xsetdefault_inv].
Qed.

(** Facts and commands only grow. *)
Definition xgrows (l l' : xledger) : Prop :=
  (∀ t x, xfacts l t x `prefix_of` xfacts l' t x) ∧ _commands l ⊆ _commands l'.

#[export] Instance xgrows_preorder : PreOrder xgrows.
Proof.
  split.
  - by split.
  - intros a b c [H1 H2] [H3 H4]. split; [intros t x; etrans; [apply H1|apply H3]|by etrans].
Qed.

Lemma xappend_grows t x ver ft cmd actor at_ pl l : xgrows l (xappend t x ver ft cmd actor at_ pl l).2.
Proof.
  pose proof (xappend_run t x ver ft cmd actor at_ pl l) as H.
  destruct (xappend _ _ _ _ _ _ _ _ l) as [[pj|e] l']; simpl.
  - destruct H as [(_ & _ & ->)|(Hn & _ & _ & _ & _ & ->)]; [done|]. split.
    + intros t' x'. rewrite xfacts_commit. case_decide; simplify_eq; [by apply prefix_app_r|done].
    + unfold xcommit. simpl. by apply insert_subseteq.
  - destruct H as [->| ->]; [done|]. split; [|done]. intros t' x'. by rewrite xfacts_setdefault.
Qed.

Lemma grows_later l l' t x c :
  xledger_inv l → xledger_inv l' → xgrows l l' → xprojection l t x = Some c →
  ∃ c', xprojection l' t x = Some c' ∧ later c c'.
Proof.
  intros Hl Hl' [Hg _] Hc. destruct (Hg t x) as [new Hnew].
  pose proof (xi_replay _ Hl t x) as H1. pose proof (xi_replay _ Hl' t x) as H2.
  rewrite Hnew, foldM_app, H1, Hc in H2. cbn [mbind res_bind] in H2.
  apply replay_later in H2 as (c' & -> & Hf). eauto.
Qed.

(** ** Sequences of appends *)

Record append_call := {
  ac_tenant : string; ac_execution : string; ac_expected : Z; ac_type : SandboxFactType;
  ac_command : string; ac_actor : string; ac_at : datetime; ac_payload : payload
}.

Definition run_append (l : xledger) (c : append_call) : xledger :=
  (xappend (ac_tenant c) (ac_execution c) (ac_expected c) (ac_type c) (ac_command c) (ac_actor c)
     (ac_at c) (ac_payload c) l).2.

Definition run_appends (l : xledger) (cs : list append_call) : xledger := foldl run_append l cs.

Lemma run_appends_inv cs : ∀ l, xledger_inv l → xledger_inv (run_appends l cs).
Proof. induction cs as [|c cs IH]; intros l Hl; [done|]. apply IH. by apply xappend_inv. Qed.

Lemma run_appends_grows cs : ∀ l, xgrows l (run_appends l cs).
Proof.
  induction cs as [|c cs IH]; intros l; [done|]. etrans; [|apply (IH (run_append l c))]. apply xappend_grows.
Qed.
End facts.
