(* ===== verification/SandboxWorld.v ===== *)
(** * Sandbox stores over sequences of calls

    Claims and their fencing; the quota's account; the control service together with the
    components that append to its ledger. *)

From S2P Require Import Prelude QuotaFacts PyJson PyTime PyText PyModel Domain Durability Authorization SandboxText SandboxData SandboxLedger SandboxService SandboxFacts.

(** ** Claims *)

(** [claim_follows c c']: [c'] is a later state of the claim [c]. *)
Record claim_follows (c c' : SandboxClaim) : Prop := {
  cf_binding : sc_spec_digest c' = sc_spec_digest c ∧ sc_policy_digest c' = sc_policy_digest c ∧
               sc_approval_digest c' = sc_approval_digest c ∧ sc_fence_token c' = sc_fence_token c;
  cf_attempt : sc_attempt c <= sc_attempt c';
  cf_takeover : sc_claim_token c' ≠ sc_claim_token c → sc_attempt c < sc_attempt c';
  cf_final d : sc_result_digest c = Some d → c' = c
}.

#[export] Instance claim_follows_preorder : PreOrder claim_follows.
Proof.
  split.
  - intros c. by split.
  - intros a b c [B1 A1 T1 F1] [B2 A2 T2 F2]. split.
    + naive_solver congruence.
    + lia.
    + intros Hne. destruct (decide (sc_claim_token b = sc_claim_token a)) as [He|Hn].
      * rewrite <-He in Hne. specialize (T2 Hne). lia.
      * specialize (T1 Hn). lia.
    + intros d Hd. pose proof (F1 d Hd) as ->. by apply (F2 d).
Qed.

Section claims.
Context {HDigest : Digest}.

Inductive claim_op :=
  | OpClaim (q : SandboxExecutionRequest) (worker_ref : string) (now claim_until : datetime)
  | OpComplete (r : SandboxResult) (claim_token : string) (now : datetime).

Definition run_claim_op (cs : claims) (o : claim_op) : claims :=
  match o with
  | OpClaim q w now until => (xclaim q w now until cs).2
  | OpComplete r token now => (xcomplete r token now cs).2
  end.

Definition run_claim_ops (cs : claims) (ops : list claim_op) : claims := foldl run_claim_op cs ops.

Definition token_text (t x w : string) (attempt : Z) (fence : string) : string :=
  stable_id "sandbox-claim" [t; x; w; str_of_int attempt; fence] 40.

(** Two different attempts at one execution share a claim token: a collision of the first 40
    digits of the digest. *)
Definition shared_token (t x : string) : Prop :=
  ∃ w a f w' a' f', a ≠ a' ∧ token_text t x w a f = token_text t x w' a' f'.

Definition claims_inv (cs : claims) : Prop :=
  ∀ t x c, cs !! (t, x) = Some c →
    sc_claim_token c = token_text t x (sc_worker_ref c) (sc_attempt c) (sc_fence_token c).

(** A claim is kept, or replaced by that of the request. *)
Lemma xclaim_run q w now until cs :
  let key := (sx_tenant_id q, sx_execution_id q) in
  (xclaim q w now until cs).2 = cs ∨
  (is_ok (xclaim q w now until cs).1 = true ∧
   (xclaim q w now until cs).2 = <[key := build_claim q w until]> cs ∧ now < until ∧
   ∀ c, cs !! key = Some c →
     sc_result_digest c = None ∧ same_binding c q = true ∧
     (now < sc_claim_until c → sc_claim_token c = claim_token_of q w) ∧
     (sc_claim_until c <= now → sc_attempt c < sx_attempt q)).
Proof.
  unfold xclaim, store_claim, lift, get, modify, mbind, M_bind, mret, M_ret, raise_if.
  destruct (Z.leb_spec until now) as [Hu|Hu]; [by left|].
  destruct (cs !! (sx_tenant_id q, sx_execution_id q)) as [c|] eqn:Hc.
  - destruct (same_binding c q) eqn:Hb; [|by left]. simpl.
    destruct (sc_result_digest c) eqn:Hr; [by left|].
    destruct ((now <? sc_claim_until c) && _) eqn:H1; [by left|].
    destruct ((sc_claim_until c <=? now) && _) eqn:H2; [by left|].
    destruct (validated _ _ _) as [c'|] eqn:Hv; [|by left]. apply validated_ok in Hv as [-> _].
    right. split_and!; try done. intros c0 [= <-]. split_and!; try done.
    + intros Hlt. apply andb_false_iff in H1 as [H1|H1]; py_bool; [lia|done].
    + intros Hle. apply andb_false_iff in H2 as [H2|H2]; py_bool; [lia|done].
  - destruct (validated _ _ _) as [c'|] eqn:Hv; [|by left]. apply validated_ok in Hv as [-> _].
    right. split_and!; try done.
Qed.

Lemma xcomplete_run r token now cs :
  let key := (su_tenant_id r, su_execution_id r) in
  (xcomplete r token now cs).2 = cs ∨
  (is_ok (xcomplete r token now cs).1 = true ∧
   ∃ c, cs !! key = Some c ∧ sc_result_digest c = None ∧
     (xcomplete r token now cs).2 = <[key := with_result (su_result_digest r) c]> cs).
Proof.
  unfold xcomplete, lift, get, modify, mbind, M_bind, mret, M_ret, raise_if.
  destruct (cs !! (su_tenant_id r, su_execution_id r)) as [c|] eqn:Hc; [|by left].
  destruct (bool_decide _ || _ || _); [by left|]. simpl.
  destruct (sc_result_digest c) eqn:Hr; [case_bool_decide; by left|]. right. eauto.
Qed.

(** Who may complete *)
Lemma xcomplete_ok r token now cs :
  is_ok (xcomplete r token now cs).1 = true →
  ∃ c, cs !! (su_tenant_id r, su_execution_id r) = Some c ∧ sc_claim_token c = token ∧
       sc_fence_token c = su_fence_token r ∧ sc_attempt c = su_attempt r ∧
       (sc_result_digest c = None ∨ sc_result_digest c = Some (su_result_digest r)).
Proof.
  unfold xcomplete, lift, get, modify, mbind, M_bind, mret, M_ret, raise_if.
  destruct (cs !! (su_tenant_id r, su_execution_id r)) as [c|] eqn:Hc; [|done].
  destruct (bool_decide _ || _ || _) eqn:Hg; [done|]. rewrite !orb_false_iff in Hg.
  destruct Hg as [[G1 G2] G3]. py_bool. simpl. intros H. exists c. split_and!; try done.
  destruct (sc_result_digest c) as [d|]; [|by left]. case_bool_decide as Hd; [done|]. right. by f_equal.
Qed.

Lemma build_claim_token q w until :
  sc_claim_token (build_claim q w until) =
  token_text (sx_tenant_id q) (sx_execution_id q) w (sx_attempt q) (sx_fence_token q).
Proof. done. Qed.

Lemma run_claim_op_inv cs o : claims_inv cs → claims_inv (run_claim_op cs o).
Proof.
  intros Hi. destruct o as [q w now until|r token now]; simpl.
  - destruct (xclaim_run q w now until cs) as [->|(_ & -> & _)]; [done|].
    intros t x c. rewrite lookup_insert. case_decide as E; [|apply Hi]. by intros [= <-]; simplify_eq.
  - destruct (xcomplete_run r token now cs) as [->|(_ & c0 & Hc0 & _ & ->)]; [done|].
    intros t x c. rewrite lookup_insert. case_decide as E; [|apply Hi]. injection E as <- <-.
    intros [= <-]. simpl. by apply Hi.
Qed.

Lemma run_claim_op_follows cs o t x c :
  claims_inv cs → cs !! (t, x) = Some c →
  shared_token t x ∨ ∃ c', run_claim_op cs o !! (t, x) = Some c' ∧ claim_follows c c'.
Proof.
  intros Hi Hc. destruct o as [q w now until|r token now]; simpl.
  - destruct (xclaim_run q w now until cs) as [->|(_ & -> & Hnow & Hq)]; [right; by exists c|].
    rewrite lookup_insert. case_decide as E; [|right; by exists c]. injection E as <- <-.
    destruct (Hq _ Hc) as (Hr & Hb & Hact & Hexp).
    unfold same_binding in Hb. rewrite !andb_true_iff, !bool_decide_eq_true in Hb.
    destruct Hb as [[[B1 B2] B3] B4].
    destruct (Z.lt_ge_cases now (sc_claim_until c)) as [Hlt|Hge].
    + specialize (Hact Hlt). destruct (decide (sc_attempt c = sx_attempt q)) as [Ha|Ha].
      * right. exists (build_claim q w until). split; [done|]. split; simpl; try done; try lia.
        by rewrite Hr.
      * left. exists (sc_worker_ref c), (sc_attempt c), (sc_fence_token c), w, (sx_attempt q), (sx_fence_token q).
        split; [done|]. rewrite <-(Hi _ _ _ Hc). exact Hact.
    + specialize (Hexp Hge). right. exists (build_claim q w until). split; [done|].
      split; simpl; try done; try lia. by rewrite Hr.
  - destruct (xcomplete_run r token now cs) as [->|(_ & c0 & Hc0 & Hr & ->)]; [right; by exists c|].
    rewrite lookup_insert. case_decide as E; [|right; by exists c]. injection E as <- <-.
    rewrite Hc in Hc0. injection Hc0 as <-. right. eexists. split; [done|].
    split; simpl; try done. by rewrite Hr.
Qed.

Lemma run_claim_ops_inv ops : ∀ cs, claims_inv cs → claims_inv (run_claim_ops cs ops).
Proof. induction ops as [|o ops IH]; intros cs Hi; [done|]. apply IH. by apply run_claim_op_inv. Qed.

Lemma run_claim_ops_follows ops t x : ∀ cs c,
  claims_inv cs → cs !! (t, x) = Some c →
  shared_token t x ∨ ∃ c', run_claim_ops cs ops !! (t, x) = Some c' ∧ claim_follows c c'.
Proof.
  induction ops as [|o ops IH]; intros cs c Hi Hc; [right; by exists c|].
  destruct (run_claim_op_follows cs o t x c Hi Hc) as [|(c1 & Hc1 & H1)]; [by left|].
  destruct (IH _ c1 (run_claim_op_inv _ o Hi) Hc1) as [|(c2 & Hc2 & H2)]; [by left|].
  right. exists c2. split; [done|]. by etrans.
Qed.

Lemma empty_claims_inv : claims_inv ∅.
Proof. intros t x c. by rewrite lookup_empty. Qed.

(** ** Quota *)

Definition xspent (t : string) (q : xquota) : Z := granted qd_units qd_allowed t (_reservations q).

Definition xquota_inv (limits : gmap string Z) (q : xquota) : Prop :=
  balanced qd_units qd_allowed limits (_remaining q) (_reservations q).

Lemma new_xquota_inv limits : xquota_inv limits (new_xquota limits).
Proof. apply balanced_init. Qed.

(** What a reservation does *)
Lemma xquota_reserve_run t x id pd units at_ q :
  match xquota_reserve t x id pd units at_ q with
  | (Raise _, q') => q' = q
  | (Ok d, q') => _reservations q' !! (t, id) = Some d ∧ _reservations q ⊆ _reservations q'
  end.
Proof.
  unfold xquota_reserve, lift, get, modify, mbind, M_bind, mret, M_ret, raise_if.
  destruct (units <? 1); [done|].
  destruct (_reservations q !! (t, id)) as [d|] eqn:Hk; [done|].
  destruct (validated _ _ _) as [d|]; [|done].
  destruct (units <=? quota_left q t); simpl; rewrite lookup_insert_eq; (split; [done|]);
    by apply insert_subseteq.
Qed.

Lemma xquota_reserve_inv limits t x id pd units at_ :
  preserves (xquota_inv limits) (xquota_reserve t x id pd units at_).
Proof.
  intros q Hq. unfold xquota_reserve, lift, get, modify, mbind, M_bind, mret, M_ret, raise_if.
  destruct (Z.ltb_spec units 1) as [Hu|Hu]; [done|].
  destruct (_reservations q !! (t, id)) as [d|] eqn:Hk; [done|].
  destruct (validated _ _ _) as [d|] eqn:Hd; [|done].
  apply validated_ok in Hd as [-> _].
  destruct (Z.leb_spec units (quota_left q t)) as [Hr|Hr]; simpl.
  - by apply (balanced_grant qd_units qd_allowed _ _ _ _ _
      {| qd_allowed := true; qd_reservation_id := id; qd_units := units; qd_reason := "reserved" |}).
  - by apply balanced_refuse.
Qed.

(** ** The control service among the writers of its ledger *)

Inductive sandbox_move :=
  | MRequest (policy : SandboxPolicy) (ports : sandbox_ports) (identity : IdentityContext)
      (q : SandboxExecutionRequest) (active : Z) (command_id : string)
  | MReserve (t x id pd : string) (units : Z) (at_ : datetime)
  | MAppend (c : append_call).

Definition run_move (w : sworld) (m : sandbox_move) : sworld :=
  match m with
  | MRequest policy ports identity q active cmd => (request policy ports identity q active cmd w).2
  | MReserve t x id pd units at_ => put_quota (xquota_reserve t x id pd units at_ (sw_quota w)).2 w
  | MAppend c => put_ledger (run_append (sw_ledger w) c) w
  end.

Definition new_sworld (limits : gmap string Z) : sworld :=
  {| sw_quota := new_xquota limits; sw_ledger := empty_xledger |}.

Definition run_moves (limits : gmap string Z) (ms : list sandbox_move) : sworld :=
  foldl run_move (new_sworld limits) ms.

(** What [request] does once its checks passed and its unit was granted *)
Definition record_request (policy : SandboxPolicy) (ports : sandbox_ports) (identity : IdentityContext)
    (q : SandboxExecutionRequest) (cmd : string) : M xledger SandboxProjection :=
  let t := sx_tenant_id q in
  let x := sx_execution_id q in
  let actor := actor_ref identity in
  projection ← xappend t x 0 XF_REQUEST_RECORDED cmd actor (clock ports 2) (request_payload q);
  projection ← xappend t x (xp_version projection) XF_POLICY_DECIDED (cmd +:+ "-policy") actor
    (clock ports 3) (decision_payload policy);
  xappend t x (xp_version projection) XF_APPROVAL_BOUND (cmd +:+ "-approval") actor
    (clock ports 4) (binding_payload q).

Definition reserve_of (ports : sandbox_ports) (q : SandboxExecutionRequest) (u : xquota)
    : res SandboxQuotaDecision * xquota :=
  xquota_reserve (sx_tenant_id q) (sx_execution_id q) (reservation_of q) (sx_policy_digest q) 1
    (clock ports 1) u.

(** Checks passed and a unit granted, [request] is its three appends. *)
Lemma request_goes_on policy ports identity q active cmd w d u :
  request_checks policy ports identity q active = Ok () → reserve_of ports q (sw_quota w) = (Ok d, u) →
  qd_allowed d = true →
  request policy ports identity q active cmd w =
    ((record_request policy ports identity q cmd (sw_ledger w)).1,
     {| sw_quota := u; sw_ledger := (record_request policy ports identity q cmd (sw_ledger w)).2 |}).
Proof.
  intros Hc Hu Hd. unfold request, zoom, ledger_call, lift, mbind, M_bind, raise_if. rewrite Hc.
  unfold reserve_of in Hu. rewrite Hu, Hd. simpl. unfold record_request, ledger_call, zoom, mbind, M_bind. simpl.
  destruct (xappend _ _ 0 _ _ _ _ _ _) as [[p1|e1] l1]; [|done]. simpl.
  destruct (xappend _ _ (xp_version p1) _ _ _ _ _ _) as [[p2|e2] l2]; [|done]. simpl.
  by destruct (xappend _ _ (xp_version p2) _ _ _ _ _ _) as [[p3|e3] l3].
Qed.

(** A call of [request] raises before the ledger is touched, or passed its checks, got its
    unit and went on to the three appends. *)
Lemma request_run policy ports identity q active cmd w :
  let r := request policy ports identity q active cmd w in
  let u := reserve_of ports q (sw_quota w) in
  (is_ok r.1 = false ∧ (r.2 = w ∨ r.2 = put_quota u.2 w)) ∨
  (request_checks policy ports identity q active = Ok () ∧ (∃ d, u.1 = Ok d ∧ qd_allowed d = true) ∧
   r = ((record_request policy ports identity q cmd (sw_ledger w)).1,
        {| sw_quota := u.2; sw_ledger := (record_request policy ports identity q cmd (sw_ledger w)).2 |})).
Proof.
  intros r u. subst r u. destruct (request_checks policy ports identity q active) as [[]|e] eqn:Hc.
  - destruct (reserve_of ports q (sw_quota w)) as [[d|e] u] eqn:Hu; [destruct (qd_allowed d) eqn:Hd|].
    + right. rewrite (request_goes_on _ _ _ _ _ _ _ d u) by done. eauto.
    + left. unfold request, zoom, lift, mbind, M_bind, raise_if. rewrite Hc.
      unfold reserve_of in Hu. rewrite Hu, Hd. simpl. auto.
    + left. unfold request, zoom, lift, mbind, M_bind. rewrite Hc.
      unfold reserve_of in Hu. rewrite Hu. simpl. auto.
  - left. unfold request, lift, mbind, M_bind. rewrite Hc. simpl. auto.
Qed.

Lemma request_checks_ok policy ports identity q active :
  request_checks policy ports identity q active = Ok () →
  ic_tenant_id identity = sx_tenant_id q ∧
  pd_allowed (application_policy ports identity SANDBOX_EXECUTE (sx_tenant_id q) "incident-response"
                (ss_risk (sx_spec q))) = true ∧
  sx_policy_digest q = sp_policy_digest policy ∧
  current_approval ports (sx_tenant_id q) (sb_approval_id (ss_approval (sx_spec q)))
    = Some (ss_approval (sx_spec q)) ∧
  sandbox_permitted policy (sx_spec q) active (clock ports 0).
Proof.
  unfold request_checks. intros H. py_inv. apply authorize_permitted in H. py_bool.
  repeat match goal with H : ¬ (_ ≠ _) |- _ => apply dec_stable in H end. done.
Qed.

(** ** Where a projection comes from *)

Lemma xprojection_setdefault key l t x : xprojection (xsetdefault key l) t x = xprojection l t x.
Proof. done. Qed.

(** An append leaves a projection as it was, moves it on, or begins it with a request fact. *)
Lemma xappend_origin t x ver ft cmd actor at_ pl l t' x' p' :
  xprojection (xappend t x ver ft cmd actor at_ pl l).2 t' x' = Some p' →
  (∃ p, xprojection l t' x' = Some p ∧ later p p') ∨
  ((t', x') = (t, x) ∧ ft = XF_REQUEST_RECORDED ∧
   xp_request_digest p' = member_str "request_digest" (sort_payload pl) ∧
   xp_policy_digest p' = member_str "policy_digest" (sort_payload pl) ∧
   xp_approval_digest p' = member_str "approval_digest" (sort_payload pl)).
Proof.
  pose proof (xappend_run t x ver ft cmd actor at_ pl l) as H.
  destruct (xappend _ _ _ _ _ _ _ _ l) as [[pj|e] l']; simpl; intros Hp.
  - destruct H as [(_ & _ & ->)|(_ & _ & _ & _ & Hred & ->)]; [left; by exists p'|].
    unfold xprojection, xcommit in Hp. simpl in Hp. rewrite lookup_insert in Hp.
    case_decide as E; [|left; by exists p']. injection Hp as <-. symmetry in E.
    destruct (xprojection l t x) as [p|] eqn:Hc.
    + left. exists p. injection E as -> ->. split; [done|]. by apply xreduce_some in Hred as (_ & _ & _ & _ & _ & Hl).
    + right. apply xreduce_none in Hred as (Hft & _ & _ & _ & _ & _ & _ & H1 & H2 & H3). done.
  - left. exists p'. destruct H as [->| ->]; by (split; [exact Hp|]).
Qed.

Lemma xappend_origin_other t x ver ft cmd actor at_ pl l t' x' p' :
  ft ≠ XF_REQUEST_RECORDED →
  xprojection (xappend t x ver ft cmd actor at_ pl l).2 t' x' = Some p' →
  ∃ p, xprojection l t' x' = Some p ∧ later p p'.
Proof. intros Hft H. by destruct (xappend_origin _ _ _ _ _ _ _ _ _ _ _ _ H) as [|(_ & ? & _)]. Qed.

Lemma record_request_origin policy ports identity q cmd l t x p' :
  xprojection (record_request policy ports identity q cmd l).2 t x = Some p' →
  (∃ p, xprojection l t x = Some p ∧ later p p') ∨
  ((t, x) = (sx_tenant_id q, sx_execution_id q) ∧ xp_request_digest p' = sx_request_digest q ∧
   xp_policy_digest p' = sx_policy_digest q ∧ xp_approval_digest p' = sx_approval_digest q).
Proof.
  unfold record_request, mbind, M_bind.
  destruct (xappend _ _ 0 _ _ _ _ _ l) as [r1 l1] eqn:H1.
  assert (∀ p1, xprojection l1 t x = Some p1 → later p1 p' →
    (∃ p, xprojection l t x = Some p ∧ later p p') ∨
    ((t, x) = (sx_tenant_id q, sx_execution_id q) ∧ xp_request_digest p' = sx_request_digest q ∧
     xp_policy_digest p' = sx_policy_digest q ∧ xp_approval_digest p' = sx_approval_digest q)) as Hfirst.
  { intros p1 Hp1 Hl. replace l1 with (r1, l1).2 in Hp1 by done. rewrite <-H1 in Hp1.
    apply xappend_origin in Hp1 as [(p & Hp & Hl')|(Hk & _ & D1 & D2 & D3)].
    - left. exists p. split; [done|]. by etrans.
    - right. destruct Hl as [_ (_ & _ & _ & _ & E1 & _ & E2 & E3 & _) _ _]. rewrite E1, E2, E3, D1, D2, D3. done. }
  destruct r1 as [p1|e1]; [|by intros Hp; apply (Hfirst p')].
  destruct (xappend _ _ (xp_version p1) _ _ _ _ _ l1) as [r2 l2] eqn:H2.
  assert (∀ p2, xprojection l2 t x = Some p2 → ∃ p, xprojection l1 t x = Some p ∧ later p p2) as Hsecond.
  { intros p2 Hp2. replace l2 with (r2, l2).2 in Hp2 by done. rewrite <-H2 in Hp2.
    by apply xappend_origin_other in Hp2. }
  destruct r2 as [p2|e2].
  - intros Hp. apply xappend_origin_other in Hp as (p3 & Hp3 & Hl3); [|done].
    destruct (Hsecond _ Hp3) as (p4 & Hp4 & Hl4). apply (Hfirst p4); [done|]. by etrans.
  - intros Hp. destruct (Hsecond _ Hp) as (p4 & Hp4 & Hl4). by apply (Hfirst p4).
Qed.

(** The request a projection was sanctioned by *)
Record sanctioned (policy : SandboxPolicy) (ports : sandbox_ports) (identity : IdentityContext)
    (q : SandboxExecutionRequest) (active : Z) (u : xquota) (t x : string) (p : SandboxProjection) : Prop := {
  sn_key : (t, x) = (sx_tenant_id q, sx_execution_id q);
  sn_checks : request_checks policy ports identity q active = Ok ();
  sn_unit : ∃ d, _reservations u !! (t, reservation_of q) = Some d ∧ qd_allowed d = true;
  sn_digests : xp_request_digest p = sx_request_digest q ∧ xp_policy_digest p = sx_policy_digest q ∧
               xp_approval_digest p = sx_approval_digest q
}.

Lemma sanctioned_later policy ports identity q active u u' t x p p' :
  sanctioned policy ports identity q active u t x p → _reservations u ⊆ _reservations u' → later p p' →
  sanctioned policy ports identity q active u' t x p'.
Proof.
  intros [Hk Hc (d & Hd & Ha) (D1 & D2 & D3)] Hu [_ (_ & _ & _ & _ & E1 & _ & E2 & E3 & _) _ _]. split; try done.
  - exists d. split; [|done]. by eapply lookup_weaken.
  - rewrite E1, E2, E3. done.
Qed.

Definition forges_no_request (m : sandbox_move) : Prop :=
  match m with MAppend c => ac_type c ≠ XF_REQUEST_RECORDED | _ => True end.

Lemma run_move_reservations w m : _reservations (sw_quota w) ⊆ _reservations (sw_quota (run_move w m)).
Proof.
  destruct m as [policy ports identity q active cmd|t x id pd units at_|c]; simpl; [| |done].
  - assert (_reservations (sw_quota w) ⊆ _reservations (reserve_of ports q (sw_quota w)).2) as Hu.
    { unfold reserve_of. pose proof (xquota_reserve_run (sx_tenant_id q) (sx_execution_id q) (reservation_of q)
        (sx_policy_digest q) 1 (clock ports 1) (sw_quota w)) as H.
      destruct (xquota_reserve _ _ _ _ _ _ _) as [[d|e] u]; simpl; [apply H|by rewrite H]. }
    destruct (request_run policy ports identity q active cmd w) as [[_ [->| ->]]|(_ & _ & ->)]; simpl; done.
  - pose proof (xquota_reserve_run t x id pd units at_ (sw_quota w)) as H.
    destruct (xquota_reserve _ _ _ _ _ _ _) as [[d|e] u]; simpl; [apply H|by rewrite H].
Qed.

(** One move: a projection goes on, or its request was just sanctioned. *)
Lemma run_move_origin w m t x p' :
  forges_no_request m → xprojection (sw_ledger (run_move w m)) t x = Some p' →
  (∃ p, xprojection (sw_ledger w) t x = Some p ∧ later p p') ∨
  ∃ policy ports identity q active cmd,
    m = MRequest policy ports identity q active cmd ∧
    sanctioned policy ports identity q active (sw_quota (run_move w m)) t x p'.
Proof.
  intros Hf Hp. destruct m as [policy ports identity q active cmd|t0 x0 id pd units at_|c]; simpl in *.
  - destruct (request_run policy ports identity q active cmd w) as [[_ Hr]|(Hc & (d & Hd & Ha) & Hr)].
    + left. exists p'. destruct Hr as [Hr|Hr]; rewrite Hr in Hp; by split.
    + rewrite Hr in Hp |- *. simpl in *. apply record_request_origin in Hp as [|(Hk & Hdg)]; [by left|].
      right. exists policy, ports, identity, q, active, cmd. split; [done|]. split; try done.
      exists d. split; [|done]. pose proof (xquota_reserve_run (sx_tenant_id q) (sx_execution_id q) (reservation_of q)
        (sx_policy_digest q) 1 (clock ports 1) (sw_quota w)) as H. unfold reserve_of in *. injection Hk as -> ->.
      destruct (xquota_reserve _ _ _ _ _ _ _) as [[d'|e] u]; simpl in *; [|done]. injection Hd as ->. apply H.
  - left. by exists p'.
  - left. by eapply xappend_origin_other.
Qed.

Lemma run_moves_snoc limits ms m : run_moves limits (ms ++ [m]) = run_move (run_moves limits ms) m.
Proof. unfold run_moves. by rewrite foldl_app. Qed.

Lemma run_moves_sanctioned limits ms t x p :
  Forall forges_no_request ms → xprojection (sw_ledger (run_moves limits ms)) t x = Some p →
  ∃ policy ports identity q active cmd,
    MRequest policy ports identity q active cmd ∈ ms ∧
    sanctioned policy ports identity q active (sw_quota (run_moves limits ms)) t x p.
Proof.
  revert p. induction ms as [|m ms IH] using rev_ind; intros p Hf Hp; [done|].
  apply Forall_app in Hf as [Hf Hm]. apply Forall_cons in Hm as [Hm _]. rewrite run_moves_snoc in *.
  apply run_move_origin in Hp; [|exact Hm].
  destruct Hp as [(p0 & Hp0 & Hl)|(policy & ports & identity & q & active & cmd & -> & Hs)].
  - destruct (IH _ Hf Hp0) as (policy & ports & identity & q & active & cmd & Hin & Hs).
    exists policy, ports, identity, q, active, cmd. split; [apply elem_of_app; by left|].
    eapply sanctioned_later; [done|apply run_move_reservations|done].
  - exists policy, ports, identity, q, active, cmd. split; [apply elem_of_app; right; by left|done].
Qed.

Lemma run_move_quota limits w m : xquota_inv limits (sw_quota w) → xquota_inv limits (sw_quota (run_move w m)).
Proof.
  intros Hq. destruct m as [policy ports identity q active cmd|t x id pd units at_|c]; simpl; [| |done].
  - destruct (request_run policy ports identity q active cmd w) as [[_ [->| ->]]|(_ & _ & ->)]; simpl;
      [done| |]; by apply xquota_reserve_inv.
  - by apply xquota_reserve_inv.
Qed.

Lemma record_request_inv policy ports identity q cmd : preserves xledger_inv (record_request policy ports identity q cmd).
Proof. apply preserves_bind; [apply xappend_inv|intros ?]. apply preserves_bind; [apply xappend_inv|intros ?]. apply xappend_inv. Qed.

Lemma run_move_ledger w m : xledger_inv (sw_ledger w) → xledger_inv (sw_ledger (run_move w m)).
Proof.
  intros Hl. destruct m as [policy ports identity q active cmd|t x id pd units at_|c]; simpl; [|done|by apply xappend_inv].
  destruct (request_run policy ports identity q active cmd w) as [[_ [->| ->]]|(_ & _ & ->)]; simpl; [done|done|].
  by apply record_request_inv.
Qed.

Lemma run_moves_inv limits ms :
  xquota_inv limits (sw_quota (run_moves limits ms)) ∧ xledger_inv (sw_ledger (run_moves limits ms)).
Proof.
  induction ms as [|m ms [IH1 IH2]] using rev_ind; [split; [apply new_xquota_inv|apply empty_xledger_inv]|].
  rewrite run_moves_snoc. split; [by apply run_move_quota|by apply run_move_ledger].
Qed.
End claims.
