(* ===== verification/SandboxTheorems.v ===== *)
(** * What the sandbox promises

    Paths stay inside their root; the policy is the allow-list it looks like; every recorded
    execution was sanctioned; the ledger, the quota and the claims keep their accounts.  The
    file begins with the concrete sandbox the witnesses evaluate: a policy, a specification it
    permits, requests of two attempts, a result. *)

From S2P Require Import Prelude PyJson PyTime PyText PyModel QuotaFacts Domain Durability Fixtures Authorization SandboxText SandboxData SandboxLedger SandboxService SandboxFacts SandboxWorld.

Definition hex_of (c : ascii) : string := str_repeat 64 c.

Definition demo_binding : SandboxApprovalBinding :=
  {| sb_tenant_id := "tenant-a"; sb_run_id := "run-1"; sb_task_id := "task-1";
     sb_remediation_plan_id := "plan-1"; sb_remediation_action_id := "action-1";
     sb_remediation_plan_digest := hex_of "1"; sb_remediation_action_digest := hex_of "2";
     sb_approval_id := "approval-1"; sb_approval_digest := hex_of "3";
     sb_approval_policy_digest := hex_of "4"; sb_approval_expires_at := demo_time + hours 1 |}.

Definition demo_resources : SandboxResources :=
  {| sr_cpu_millicores := 500; sr_memory_mib := 512; sr_pid_limit := 64; sr_ephemeral_storage_mib := 512;
     sr_timeout_seconds := 300; sr_output_bytes := 65536; sr_output_files := 8;
     sr_output_file_bytes := 4096 |}.

Section demo.
#[local] Existing Instance demo_digest.

(** The specification with a given digest, and the one with its own *)
Definition spec_with (digest : string) : SandboxSpec :=
  {| ss_spec_version := "v1"; ss_tenant_id := "tenant-a"; ss_run_id := "run-1"; ss_task_id := "task-1";
     ss_purpose := SP_TESTING; ss_risk := RMedium; ss_approval := demo_binding;
     ss_image := "ghcr.io/acme/runner@sha256:" +:+ hex_of "a"; ss_argv := ["python3"; "-m"; "pytest"];
     ss_inputs := [{| ci_tenant_id := "tenant-a"; ci_logical_path := "input/app.tar";
                      ci_content_hash := hex_of "5"; ci_size_bytes := 1000;
                      ci_media_type := "application/x-tar"; ci_object_ref := "object-1" |}];
     ss_mounts := [{| mr_source_ref := "source-1"; mr_target_path := "data/fixtures" |}];
     ss_environment := [{| en_name := "LOG_LEVEL"; en_value := "info" |}];
     ss_secrets := [{| se_reference := "secret-1"; se_version := 1; se_env_name := "REGISTRY_AUTH" |}];
     ss_network := {| nw_mode := NM_NONE; nw_destinations := []; nw_enforcement := KUBERNETES_NETWORK_POLICY |};
     ss_resources := demo_resources;
     ss_security := {| sy_run_as_user := 10001; sy_run_as_group := 10001; sy_fs_group := 10001;
                       sy_capabilities_drop := ["ALL"]; sy_apparmor_profile := "runtime-default" |};
     ss_required_runtime_class := "kata"; ss_required_admission_policies := ["admission-1"];
     ss_expected_outputs := [{| ox_logical_path := "reports/junit.xml"; ox_media_types := ["text/xml"];
                                ox_required := true |}];
     ss_retry := {| rt_maximum_attempts := 3; rt_cleanup_timeout_seconds := 60;
                    rt_retain_failed_seconds := 0 |};
     ss_spec_digest := digest |}.

Definition demo_spec : SandboxSpec := spec_with (canonical_digest (spec_material (spec_with ""))).

Example demo_spec_ok : new_SandboxSpec demo_spec = Ok demo_spec.
Proof. vm_compute. reflexivity. Qed.

Definition policy_with (digest : string) : SandboxPolicy :=
  {| sp_tenant_id := "tenant-a"; sp_policy_id := "sandbox-policy-1"; sp_revision := 1; sp_enabled := true;
     sp_allowed_image_digests := [hex_of "a"]; sp_allowed_registries := ["ghcr.io"];
     sp_allowed_commands := ["python3"]; sp_allowed_purposes := [SP_ANALYSIS; SP_TESTING];
     sp_allowed_mount_prefixes := ["data"]; sp_allowed_secret_refs := ["secret-1"]; sp_allowed_egress := [];
     sp_allowed_approval_policy_digests := [hex_of "4"]; sp_maximum_resources := demo_resources;
     sp_maximum_concurrency := 2; sp_maximum_lifetime_seconds := 600; sp_maximum_risk := RMedium;
     sp_require_runtime_class := "kata"; sp_require_admission_policies := ["admission-1"];
     sp_policy_digest := digest |}.

Definition demo_sandbox_policy : SandboxPolicy :=
  policy_with (canonical_digest (sandbox_policy_material (policy_with ""))).

Example demo_sandbox_policy_ok : new_SandboxPolicy demo_sandbox_policy = Ok demo_sandbox_policy.
Proof. vm_compute. reflexivity. Qed.

Definition request_with (execution : string) (attempt : Z) (digest : string) : SandboxExecutionRequest :=
  {| sx_execution_id := execution; sx_tenant_id := "tenant-a"; sx_run_id := "run-1"; sx_task_id := "task-1";
     sx_spec := demo_spec; sx_spec_digest := ss_spec_digest demo_spec;
     sx_policy_digest := sp_policy_digest demo_sandbox_policy; sx_approval_digest := hex_of "3";
     sx_idempotency_key := "key-1"; sx_attempt := attempt; sx_fence_token := "fence-1";
     sx_requested_at := demo_time; sx_request_digest := digest |}.

Definition demo_attempt (execution : string) (attempt : Z) : SandboxExecutionRequest :=
  request_with execution attempt (canonical_digest (sandbox_request_material (request_with execution attempt ""))).

Definition demo_execution : SandboxExecutionRequest := demo_attempt "exec-1" 1.

Example demo_execution_ok : new_SandboxExecutionRequest demo_execution = Ok demo_execution.
Proof. vm_compute. reflexivity. Qed.

Definition result_with (attempt : Z) (outcome : SandboxOutcome) (digest : string) : SandboxResult :=
  {| su_tenant_id := "tenant-a"; su_run_id := "run-1"; su_task_id := "task-1"; su_execution_id := "exec-1";
     su_request_digest := sx_request_digest (demo_attempt "exec-1" attempt);
     su_spec_digest := ss_spec_digest demo_spec; su_policy_digest := sp_policy_digest demo_sandbox_policy;
     su_approval_digest := hex_of "3"; su_provider_uid := "uid-1"; su_attempt := attempt;
     su_fence_token := "fence-1"; su_outcome := outcome; su_exit_code := Some 0; su_output_bytes := 10;
     su_output_files := 1; su_started_at := demo_time; su_completed_at := demo_time + seconds 9;
     su_detail_code := "done"; su_manifest_digest := None; su_result_digest := digest |}.

Definition demo_outcome (attempt : Z) : SandboxResult :=
  result_with attempt SO_SUCCEEDED (canonical_digest (result_material (result_with attempt SO_SUCCEEDED ""))).

Example demo_outcome_ok : new_SandboxResult (demo_outcome 1) = Ok (demo_outcome 1).
Proof. vm_compute. reflexivity. Qed.

Definition demo_ports : sandbox_ports :=
  {| application_policy identity action tenant purpose risk :=
       {| pd_allowed := bool_decide (action = SANDBOX_EXECUTE); pd_policy_id := "policy-1";
          pd_policy_revision := 1; pd_purpose := purpose; pd_risk := risk; pd_reason := "explicit_current_grant" |};
     current_approval tenant approval := if decide (approval = "approval-1") then Some demo_binding else None;
     clock n := demo_time + seconds (Z.of_nat n) |}.

Definition demo_move (q : SandboxExecutionRequest) (command_id : string) : sandbox_move :=
  MRequest demo_sandbox_policy demo_ports demo_identity q 0 command_id.

Definition fact_move (ft : SandboxFactType) (version : Z) (command_id : string) : sandbox_move :=
  MAppend {| ac_tenant := "tenant-a"; ac_execution := "exec-1"; ac_expected := version; ac_type := ft;
             ac_command := command_id; ac_actor := "worker-1"; ac_at := demo_time + seconds 10;
             ac_payload := [] |}.

Definition demo_limits : gmap string Z := {["tenant-a" := 1]}.

(** One request, then the life of its execution *)
Definition demo_moves : list sandbox_move :=
  [demo_move demo_execution "command-1"; fact_move XF_CLAIMED 3 "claim"; fact_move XF_STARTED 4 "start";
   fact_move XF_COMPLETED 5 "done"; fact_move XF_CLEANED 6 "clean"].

Example demo_moves_run :
  xp_status <$> xprojection (sw_ledger (run_moves demo_limits demo_moves)) "tenant-a" "exec-1" = Some SS_CLEANED.
Proof. vm_compute. reflexivity. Qed.

(** Two workers: the first claims, its lease ends, the second takes over with the next attempt *)
Definition demo_claim_one : claim_op :=
  OpClaim (demo_attempt "exec-1" 1) "worker-a" demo_time (demo_time + seconds 30).
Definition demo_claim_two : claim_op :=
  OpClaim (demo_attempt "exec-1" 2) "worker-b" (demo_time + seconds 31) (demo_time + seconds 61).
End demo.

(** C32: an accepted path stays inside whatever root it is resolved under: it resolves to the
    root followed by its own components, of which there is at least one and none of which is
    empty, [.] or [..]; two accepted paths that resolve to the same place are equal. *)
Theorem sandbox_paths_stay_inside root path :
  relative_path_ok path = true →
  resolve root path = root ++ path_parts path ∧ path_parts path ≠ [] ∧ Forall plain_part (path_parts path) ∧
  validate_relative_path path = Ok path ∧
  ∀ path', relative_path_ok path' = true → resolve root path' = resolve root path → path' = path.
Proof.
  intros Hp. pose proof (path_ok_inv _ Hp) as (_ & Hf & _). split_and!; try done.
  - by apply resolve_ok.
  - apply split_on_nonempty.
  - apply is_ok_inv in Hp as [q Hq]. rewrite Hq. f_equal. unfold validate_relative_path in Hq. by py_inv.
  - intros path' Hp' He. rewrite !resolve_ok in He by done. apply app_inv_head in He. by eapply split_on_inj.
Qed.

Section theorems.
Context {HDigest : Digest}.

(** C26: [SandboxPolicy.authorize] returns exactly for the specifications the policy lists:
    enabled policy of the tenant, image of an allowed registry with an allowed digest, allowed
    command, purpose, approval policy, secrets and egress, required runtime and admission
    policies, risk, lifetime, concurrency and every resource within the maximum, unexpired
    approval, mounts inside the allowed directories.  What it refuses of a valid specification
    it refuses with [PolicyDenied]. *)
Theorem sandbox_policy_is_exact policy spec active now :
  (policy_authorize policy spec active now = Ok () ↔ sandbox_permitted policy spec active now) ∧
  (∀ e, SandboxSpec_ok spec = true → policy_authorize policy spec active now = Raise e → exn_kind e = PolicyDenied).
Proof.
  split; [split; [apply authorize_permitted|apply permitted_authorize]|].
  intros e Hs Hr. unfold SandboxSpec_ok in Hs. repeat (apply andb_true_iff in Hs as [Hs ?]).
  match goal with H : image_ok _ = true |- _ => destruct (image_parts _ H) as (repo & dg & Him & Hno & Hsha) end.
  match goal with H : argv_ok _ = true |- _ => destruct (ss_argv spec) as [|cmd args] eqn:Hargv; [done|] end.
  unfold policy_authorize in Hr.
  assert (image_digest_of (ss_image spec) = Ok dg) as Hd by (rewrite Him; by apply image_text_digest).
  rewrite Hd, Hargv in Hr. unfold raise_if in Hr. simpl in Hr.
  repeat match type of Hr with context [if ?b then _ else _] => destruct b; [by injection Hr as <-|]; simpl in Hr end.
  done.
Qed.


(** the sandbox ledger is sound after any sequence of calls: the facts of an execution are
    numbered, chained by digest and at most [_MAX_FACTS]; replaying them gives the stored
    projection, whose version is their number; and whatever is called next, the facts stay, the
    projection keeps its request, policy and approval, and a finished cleanup stays finished. *)
Theorem sandbox_ledger_sound limits ms t x :
  let l := sw_ledger (run_moves limits ms) in
  xchained t x (xfacts l t x) ∧ zlen (xfacts l t x) <= _MAX_FACTS ∧
  (xprojection l t x = None → xfacts l t x = []) ∧
  ∀ p, xprojection l t x = Some p →
    xrebuild l t x = Ok p ∧ xp_version p = zlen (xfacts l t x) ∧
    ∀ calls, let l' := run_appends l calls in
      xfacts l t x `prefix_of` xfacts l' t x ∧ ∃ p', xprojection l' t x = Some p' ∧ later p p'.
Proof.
  intros l. destruct (run_moves_inv limits ms) as [_ Hl]. fold l in Hl. pose proof Hl as [Hrep Hb Hch _].
  pose proof (xreplay_version _ _ (Hrep t x)) as Hv. split_and!; [done|done| |].
  - intros Hn. by rewrite Hn in Hv.
  - intros p Hp. rewrite Hp in Hv. split_and!; [unfold xrebuild; by rewrite Hrep, Hp|apply Hv|].
    intros calls l'. pose proof (run_appends_grows calls l) as Hg. split; [apply Hg|].
    eapply grows_later; [exact Hl|by apply run_appends_inv|done|done].
Qed.

(** Claims are fenced.  Over any sequence of claims and completions, the claim of an
    execution keeps its specification, policy, approval and fence; its attempt never goes back,
    and advances when another worker takes over; a recorded result is final.  A completion is
    accepted only from the token and attempt that hold the claim, so an attempt that was
    overtaken is refused with [ConcurrencyConflict]; while a lease runs nobody else claims.
    Otherwise two attempts at the execution share a claim token, a collision of the digest. *)
Theorem sandbox_claims_are_fenced before ops t x c :
  let cs := run_claim_ops ∅ before in
  let cs' := run_claim_ops cs ops in
  cs !! (t, x) = Some c →
  shared_token t x ∨
  ∃ c', cs' !! (t, x) = Some c' ∧ claim_follows c c' ∧
    (∀ r token now, (su_tenant_id r, su_execution_id r) = (t, x) →
       (is_ok (xcomplete r token now cs').1 = true →
          token = sc_claim_token c' ∧ su_attempt r = sc_attempt c' ∧ su_fence_token r = sc_fence_token c) ∧
       (su_attempt r < sc_attempt c' →
          xcomplete r token now cs' = (raise ConcurrencyConflict "stale sandbox completion rejected", cs'))) ∧
    (∀ q w now until, (sx_tenant_id q, sx_execution_id q) = (t, x) → now < sc_claim_until c' →
       sc_result_digest c' = None → claim_token_of q w ≠ sc_claim_token c' →
       is_ok (xclaim q w now until cs').1 = false).
Proof.
  intros cs cs' Hc. pose proof (run_claim_ops_inv before ∅ empty_claims_inv) as Hi.
  destruct (run_claim_ops_follows ops t x _ _ Hi Hc) as [Hs|(c' & Hc' & Hf)]; [by left|].
  right. exists c'. split; [done|]. split; [done|]. change (cs' !! (t, x) = Some c') in Hc'. clearbody cs'. split.
  - intros r token now Hk. split.
    + intros Hok. apply xcomplete_ok in Hok as (c0 & Hc0 & Ht & Hfence & Ha & _). rewrite Hk in Hc0.
      rewrite Hc' in Hc0. injection Hc0 as <-. destruct Hf as [(_ & _ & _ & Hb) _ _ _]. by rewrite <-Hfence, Hb.
    + intros Hlt. unfold xcomplete, lift, get, mbind, M_bind, raise_if. rewrite Hk, Hc'.
      replace (sc_attempt c' =? su_attempt r) with false by (symmetry; apply Z.eqb_neq; lia).
      by rewrite orb_true_r.
  - intros q w now until Hk Hlt Hr Hne. unfold xclaim, lift, get, mbind, M_bind, raise_if. rewrite Hk.
    destruct (until <=? now); [done|]. rewrite Hc', Hr. destruct (same_binding c' q); [|done]. simpl.
    replace (now <? sc_claim_until c') with true by (symmetry; apply Z.ltb_lt; lia).
    by rewrite bool_decide_eq_true_2.
Qed.

(** The sandbox quota is never overspent: over any sequence of calls the units granted to a
    tenant and those that remain add up to its limit. *)
Theorem sandbox_quota_is_kept limits ms t :
  0 <= default 0 (limits !! t) →
  quota_left (sw_quota (run_moves limits ms)) t + xspent t (sw_quota (run_moves limits ms))
    = default 0 (limits !! t) ∧
  0 <= xspent t (sw_quota (run_moves limits ms)) <= default 0 (limits !! t).
Proof.
  intros Hl. destruct (run_moves_inv limits ms) as [Hq _]. split; [apply Hq|]. by eapply balanced_bounded.
Qed.

(** ** Replays *)

Lemma command_replays t x ft cmd pl l p :
  _commands l !! (t, cmd) = Some (x, xfingerprint ft pl) → xprojection l t x = Some p →
  ∀ ver actor at_, xappend t x ver ft cmd actor at_ pl l = (Ok p, l).
Proof.
  intros Hc Hp ver actor at_. unfold xappend, get, lift, mbind, M_bind, raise_if. rewrite Hc.
  rewrite bool_decide_eq_false_2 by (intros Hn; by apply Hn). unfold xprojection in Hp. by rewrite Hp.
Qed.

Lemma appended_command t x ver ft cmd actor at_ pl l p l' :
  xappend t x ver ft cmd actor at_ pl l = (Ok p, l') →
  _commands l' !! (t, cmd) = Some (x, xfingerprint ft pl) ∧ xprojection l' t x = Some p ∧ xgrows l l'.
Proof.
  intros H. pose proof (xappend_run t x ver ft cmd actor at_ pl l) as Hr.
  pose proof (xappend_grows t x ver ft cmd actor at_ pl l) as Hg. rewrite H in Hr, Hg. simpl in Hg.
  destruct Hr as [(Hc & Hp & ->)|(_ & _ & _ & _ & _ & ->)]; [done|].
  split_and!; [|unfold xprojection|done]; simpl; by rewrite lookup_insert_eq.
Qed.

Lemma reservation_replays t x id pd units at_ q d :
  1 <= units → _reservations q !! (t, id) = Some d → xquota_reserve t x id pd units at_ q = (Ok d, q).
Proof.
  intros Hu Hk. unfold xquota_reserve, get, lift, mbind, M_bind, mret, M_ret, raise_if.
  destruct (Z.ltb_spec units 1); [lia|]. by rewrite Hk.
Qed.

Lemma run_move_grows w m : xgrows (sw_ledger w) (sw_ledger (run_move w m)).
Proof.
  destruct m as [policy ports identity q active cmd|t x id pd units at_|c]; simpl; [|done|apply xappend_grows].
  destruct (request_run policy ports identity q active cmd w) as [[_ [->| ->]]|(_ & _ & ->)]; simpl; [done|done|].
  unfold record_request, mbind, M_bind.
  pose proof (xappend_grows (sx_tenant_id q) (sx_execution_id q) 0 XF_REQUEST_RECORDED cmd (actor_ref identity)
    (clock ports 2) (request_payload q) (sw_ledger w)) as H1.
  destruct (xappend _ _ 0 _ _ _ _ _ _) as [[p1|e1] l1]; [|done]. simpl in H1.
  pose proof (xappend_grows (sx_tenant_id q) (sx_execution_id q) (xp_version p1) XF_POLICY_DECIDED
    (cmd +:+ "-policy") (actor_ref identity) (clock ports 3) (decision_payload policy) l1) as H2.
  destruct (xappend _ _ (xp_version p1) _ _ _ _ _ _) as [[p2|e2] l2]; [|by etrans]. simpl in H2.
  etrans; [exact H1|]. etrans; [exact H2|]. apply xappend_grows.
Qed.

Lemma foldl_move_grows ms : ∀ w,
  xgrows (sw_ledger w) (sw_ledger (foldl run_move w ms)) ∧
  _reservations (sw_quota w) ⊆ _reservations (sw_quota (foldl run_move w ms)).
Proof.
  induction ms as [|m ms IH]; intros w; [done|]. simpl. destruct (IH (run_move w m)) as [H1 H2].
  split; (etrans; [|eassumption]); [apply run_move_grows|apply run_move_reservations].
Qed.

(** a request that returned can be repeated: after any further calls, the same request under
    the same policy and command id, if its checks still pass, returns the current projection of
    the execution and changes nothing, neither facts nor quota. *)
Theorem sandbox_request_is_idempotent limits before policy ports identity q active cmd after ports' identity' active' :
  let w := run_moves limits before in
  let w' := foldl run_move (run_move w (MRequest policy ports identity q active cmd)) after in
  is_ok (request policy ports identity q active cmd w).1 = true →
  request_checks policy ports' identity' q active' = Ok () →
  ∃ p, xprojection (sw_ledger w') (sx_tenant_id q) (sx_execution_id q) = Some p ∧
       request policy ports' identity' q active' cmd w' = (Ok p, w').
Proof.
  intros w w' Hok Hchecks. set (t := sx_tenant_id q). set (x := sx_execution_id q).
  destruct (request_run policy ports identity q active cmd w) as [[Hn _]|(_ & (d & Hd & Ha) & Hr)]; [congruence|].
  rewrite Hr in Hok. simpl in Hok. apply returned in Hok as [p Hp].
  set (l := (record_request policy ports identity q cmd (sw_ledger w)).2) in *.
  unfold record_request in Hp. fold t x in Hp.
  inv_bind Hp p1 l1 H1. inv_bind Hp p2 l2 H2.
  apply appended_command in H1 as (C1 & _ & _). apply appended_command in H2 as (C2 & _ & G2).
  apply appended_command in Hp as (C3 & P3 & G3).
  pose proof (foldl_move_grows after (run_move w (MRequest policy ports identity q active cmd))) as [HG HR].
  fold w' in HG, HR. cbn [run_move] in HG, HR. rewrite Hr in HG, HR. simpl in HG, HR. fold l in HG.
  assert (∃ p', xprojection (sw_ledger w') t x = Some p') as [p' Hp'].
  { destruct (grows_later l (sw_ledger w') t x p) as (p' & Hp' & _); [| |done|done|by exists p'].
    - apply record_request_inv. apply run_moves_inv.
    - unfold w'. replace (foldl run_move _ after) with (run_moves limits (before ++ [MRequest policy ports identity q active cmd] ++ after)).
      + apply run_moves_inv.
      + unfold run_moves. by rewrite !foldl_app. }
  exists p'. split; [done|].
  assert (_reservations (sw_quota w') !! (t, reservation_of q) = Some d) as Hres.
  { eapply lookup_weaken; [|exact HR]. unfold reserve_of in *. fold t x in Hd |- *.
    pose proof (xquota_reserve_run t x (reservation_of q) (sx_policy_digest q) 1 (clock ports 1) (sw_quota w)) as Hrun.
    destruct (xquota_reserve _ _ _ _ _ _ _) as [[d'|] u]; [|done]. injection Hd as ->. apply Hrun. }
  rewrite (request_goes_on _ _ _ _ _ _ _ d (sw_quota w')); [|done|by apply reservation_replays|done].
  assert (record_request policy ports' identity' q cmd (sw_ledger w') = (Ok p', sw_ledger w')) as ->; [|by destruct w'].
  assert (_commands l1 ⊆ _commands (sw_ledger w')) as G1' by (etrans; [apply G2|]; etrans; [apply G3|apply HG]).
  assert (_commands l2 ⊆ _commands (sw_ledger w')) as G2' by (etrans; [apply G3|apply HG]).
  unfold record_request. fold t x.
  rewrite (M_bind_returns _ _ _ p' (sw_ledger w'))
    by (apply command_replays; [by eapply lookup_weaken; [exact C1|]|done]).
  rewrite (M_bind_returns _ _ _ p' (sw_ledger w'))
    by (apply command_replays; [by eapply lookup_weaken; [exact C2|]|done]).
  apply command_replays; [|done]. eapply lookup_weaken; [exact C3|apply HG].
Qed.
End theorems.

Section witnesses.
#[local] Existing Instance demo_digest.

Lemma sandbox_paths_stay_inside_witness :
  resolve ["srv"; "sandbox"] "reports/junit.xml" = ["srv"; "sandbox"; "reports"; "junit.xml"].
Proof.
  pose proof (sandbox_paths_stay_inside ["srv"; "sandbox"] "reports/junit.xml" ltac:(vm_compute; reflexivity)) as Hw.
  exact (proj1 Hw).
Defined.

Example sandbox_policy_permits : sandbox_permitted demo_sandbox_policy demo_spec 0 demo_time.
Proof. apply sandbox_policy_is_exact. vm_compute. reflexivity. Qed.

Definition demo_status (ms : list sandbox_move) (x : string) : option SandboxStatus :=
  xp_status <$> xprojection (sw_ledger (run_moves demo_limits ms)) "tenant-a" x.

Lemma demo_recorded : is_Some (xprojection (sw_ledger (run_moves demo_limits demo_moves)) "tenant-a" "exec-1").
Proof. vm_compute. eauto. Qed.

Lemma demo_moves_forge_none : Forall forges_no_request demo_moves.
Proof. unfold demo_moves. repeat (constructor; [vm_compute; done|]). constructor. Qed.


Lemma demo_claimed_one : is_Some (run_claim_ops ∅ [demo_claim_one] !! ("tenant-a", "exec-1")).
Proof. vm_compute. eauto. Qed.

Lemma sandbox_claims_are_fenced_witness :
  shared_token "tenant-a" "exec-1" ∨
  ∃ c', run_claim_ops (run_claim_ops ∅ [demo_claim_one]) [demo_claim_two] !! ("tenant-a", "exec-1") = Some c'.
Proof.
  destruct demo_claimed_one as [c Hc].
  pose proof (sandbox_claims_are_fenced [demo_claim_one] [demo_claim_two] "tenant-a" "exec-1" c Hc) as Hw.
  destruct Hw as [Hw|(c' & Hc' & _)]; [left; exact Hw|right; exists c'; exact Hc'].
Defined.

(** The overtaken worker is refused, the new one completes. *)
Example overtaken_worker_is_refused :
  let cs := run_claim_ops ∅ [demo_claim_one; demo_claim_two] in
  let token q w := claim_token_of q w in
  is_ok (xcomplete (demo_outcome 1) (token (demo_attempt "exec-1" 1) "worker-a") (demo_time + seconds 40) cs).1 = false ∧
  is_ok (xcomplete (demo_outcome 2) (token (demo_attempt "exec-1" 2) "worker-b") (demo_time + seconds 40) cs).1 = true.
Proof. vm_compute. done. Qed.

Lemma sandbox_quota_is_kept_witness :
  quota_left (sw_quota (run_moves demo_limits demo_moves)) "tenant-a"
  + xspent "tenant-a" (sw_quota (run_moves demo_limits demo_moves)) = 1.
Proof.
  pose proof (sandbox_quota_is_kept demo_limits demo_moves "tenant-a" ltac:(vm_compute; discriminate)) as Hw.
  exact (proj1 Hw).
Defined.

Lemma demo_request_runs :
  is_ok (request demo_sandbox_policy demo_ports demo_identity demo_execution 0 "command-1" (run_moves demo_limits [])).1 = true.
Proof. vm_compute. reflexivity. Qed.

Lemma demo_checks_pass : request_checks demo_sandbox_policy demo_ports demo_identity demo_execution 1 = Ok ().
Proof. vm_compute. reflexivity. Qed.

Lemma sandbox_request_is_idempotent_witness :
  ∃ p, xprojection (sw_ledger (run_moves demo_limits demo_moves)) "tenant-a" "exec-1" = Some p.
Proof.
  pose proof (sandbox_request_is_idempotent demo_limits [] demo_sandbox_policy demo_ports demo_identity
    demo_execution 0 "command-1" (tail demo_moves) demo_ports demo_identity 1 demo_request_runs demo_checks_pass) as Hw.
  destruct Hw as (p & Hp & _). exists p. exact Hp.
Defined.

(** ** What the model shows *)

(** The reservation names the idempotency key and not the execution: two executions that share
    a key use one unit. *)
Lemma one_unit_two_executions :
  let ms := [demo_move (demo_attempt "exec-1" 1) "command-1"; demo_move (demo_attempt "exec-2" 1) "command-2"] in
  demo_limits !! "tenant-a" = Some 1 ∧
  demo_status ms "exec-1" = Some SS_POLICY_APPROVED ∧ demo_status ms "exec-2" = Some SS_POLICY_APPROVED.
Proof. vm_compute. done. Qed.

(** No table restricts the order of facts: after a failure a completion is appended, and a
    cleaned execution runs again. *)
Lemma failed_execution_completes :
  let ms := [demo_move demo_execution "command-1"; fact_move XF_FAILED 3 "failed"] in
  demo_status ms "exec-1" = Some SS_FAILED ∧
  demo_status (ms ++ [fact_move XF_COMPLETED 4 "completed"]) "exec-1" = Some SS_COMPLETED ∧
  demo_status (demo_moves ++ [fact_move XF_STARTED 7 "restart"]) "exec-1" = Some SS_RUNNING.
Proof. vm_compute. done. Qed.

(** [complete] drops its clock: an expired claim that nobody took over still completes. *)
Lemma expired_claim_completes :
  let cs := run_claim_ops ∅ [demo_claim_one] in
  is_ok (xcomplete (demo_outcome 1) (claim_token_of (demo_attempt "exec-1" 1) "worker-a")
           (demo_time + hours 100) cs).1 = true.
Proof. vm_compute. reflexivity. Qed.

(** [parts.port or 443] takes port 0 for the default. *)
Lemma port_zero_is_accepted :
  parse_exact_destination "https://api.example.com:0" = Ok {| eg_host := "api.example.com" |} ∧
  is_ok (parse_exact_destination "https://api.example.com:8443") = false.
Proof. vm_compute. done. Qed.
End witnesses.
