(* ===== verification/SandboxWorkflow.v ===== *)
(** * The sandbox workflow ([sandbox_temporal.py], lines 47-473 and 607-619)

    [AegisSandboxWorkflow.run] as a thread ([PyProg]): its operations are the reads and writes of
    the workflow object, the Activities it awaits and the condition it waits for.  Signals are
    moves of the environment: they change the object between the operations of the thread.  The
    world keeps, next to the object, the trace of Activities with their answers.  Activities,
    with Temporal's retries, are outside Python: any answer may come. *)

From S2P Require Import Prelude PyJson PyTime PyText PyModel PyProg Domain.

(** ** Messages *)

Record SandboxWorkflowInput := {
  wi_tenant_ref : string;
  wi_actor_ref : string;
  wi_request_ref : string;
  wi_execution_id : string;
  wi_workflow_id : string;
  wi_attempt : Z;
  wi_execution_timeout_seconds : Z;
  wi_reconciliation_timeout_seconds : Z;
  wi_cleanup_timeout_seconds : Z
}.

Definition SandboxWorkflowInput_ok (v : SandboxWorkflowInput) : bool :=
  OpaqueReference (wi_tenant_ref v)
  && forallb Identifier [wi_actor_ref v; wi_request_ref v; wi_execution_id v; wi_workflow_id v]
  && in_range 1 16 (wi_attempt v) && in_range 1 3600 (wi_execution_timeout_seconds v)
  && in_range 30 86400 (wi_reconciliation_timeout_seconds v)
  && in_range 10 900 (wi_cleanup_timeout_seconds v).

Record SandboxActivityInput := {
  wa_tenant_ref : string;
  wa_actor_ref : string;
  wa_request_ref : string;
  wa_execution_id : string;
  wa_operation_id : string;
  wa_attempt : Z;
  wa_command_ref : option string
}.

Definition SandboxActivityInput_ok (a : SandboxActivityInput) : bool :=
  OpaqueReference (wa_tenant_ref a)
  && forallb Identifier [wa_actor_ref a; wa_request_ref a; wa_execution_id a; wa_operation_id a]
  && in_range 1 16 (wa_attempt a) && opt_ok Identifier (wa_command_ref a).

Inductive activity_outcome :=
  | AO_recorded | AO_authorized | AO_claimed | AO_absent | AO_provisioned | AO_running | AO_succeeded
  | AO_failed | AO_timed_out | AO_oom_killed | AO_violation | AO_cancelled | AO_captured
  | AO_quarantined | AO_attested | AO_cleaned | AO_ambiguous | AO_reconciled | AO_orphan_redriven
  | AO_duplicate.
#[export] Instance activity_outcome_eq_dec : EqDecision activity_outcome.
Proof. solve_decision. Defined.

Record SandboxActivityOutcome := {
  oc_outcome : activity_outcome;
  oc_result_ref : option string;
  oc_provider_ref : option string
}.

Definition SandboxActivityOutcome_ok (o : SandboxActivityOutcome) : bool :=
  opt_ok Identifier (oc_result_ref o) && opt_ok Identifier (oc_provider_ref o).

Inductive workflow_status :=
  | WS_succeeded | WS_failed | WS_timed_out | WS_oom_killed | WS_violation | WS_cancelled
  | WS_quarantined | WS_escalated.
#[export] Instance workflow_status_eq_dec : EqDecision workflow_status.
Proof. solve_decision. Defined.

Definition workflow_status_value (s : workflow_status) : string :=
  match s with
  | WS_succeeded => "succeeded" | WS_failed => "failed" | WS_timed_out => "timed_out"
  | WS_oom_killed => "oom_killed" | WS_violation => "violation" | WS_cancelled => "cancelled"
  | WS_quarantined => "quarantined" | WS_escalated => "escalated"
  end.

Record SandboxWorkflowResult := {
  wr_execution_id : string;
  wr_status : workflow_status;
  wr_result_ref : option string;
  wr_failure_code : option string
}.

Definition SandboxWorkflowResult_ok (r : SandboxWorkflowResult) : bool :=
  Identifier (wr_execution_id r) && opt_ok Identifier (wr_result_ref r) && opt_ok Identifier (wr_failure_code r).

Record SandboxOperationalState := {
  os_stage : string;
  os_cancellation_requested : bool;
  os_reconciliation_signal_count : Z;
  os_orphan_redrive_signal_count : Z
}.

(** ** The workflow object and its signals *)

Record workflow := {
  wf_stage : string;
  wf_cancel_command : option string;
  wf_reconcile_commands : list string;
  wf_orphan_commands : list string;
  wf_seen_commands : list string
}.

Definition new_workflow : workflow :=
  {| wf_stage := "created"; wf_cancel_command := None; wf_reconcile_commands := [];
     wf_orphan_commands := []; wf_seen_commands := [] |}.

Definition request_cancel (command_ref : string) (w : workflow) : workflow :=
  if bool_decide (command_ref ∈ wf_seen_commands w) || bool_decide (is_Some (wf_cancel_command w)) then w
  else if 64 <=? zlen (wf_seen_commands w) then w
  else {| wf_stage := wf_stage w; wf_cancel_command := Some command_ref;
          wf_reconcile_commands := wf_reconcile_commands w; wf_orphan_commands := wf_orphan_commands w;
          wf_seen_commands := command_ref :: wf_seen_commands w |}.

Definition reconcile_sandbox (command_ref : string) (w : workflow) : workflow :=
  if bool_decide (command_ref ∈ wf_seen_commands w) || (64 <=? zlen (wf_seen_commands w)) then w
  else {| wf_stage := wf_stage w; wf_cancel_command := wf_cancel_command w;
          wf_reconcile_commands := wf_reconcile_commands w ++ [command_ref];
          wf_orphan_commands := wf_orphan_commands w;
          wf_seen_commands := command_ref :: wf_seen_commands w |}.

Definition redrive_orphan (command_ref : string) (w : workflow) : workflow :=
  if bool_decide (command_ref ∈ wf_seen_commands w) || (64 <=? zlen (wf_seen_commands w)) then w
  else {| wf_stage := wf_stage w; wf_cancel_command := wf_cancel_command w;
          wf_reconcile_commands := wf_reconcile_commands w;
          wf_orphan_commands := wf_orphan_commands w ++ [command_ref];
          wf_seen_commands := command_ref :: wf_seen_commands w |}.

Definition operational_state (w : workflow) : SandboxOperationalState :=
  {| os_stage := wf_stage w; os_cancellation_requested := bool_decide (is_Some (wf_cancel_command w));
     os_reconciliation_signal_count := zlen (wf_reconcile_commands w);
     os_orphan_redrive_signal_count := zlen (wf_orphan_commands w) |}.

(** ** Operations *)

(** What the thread may raise: [ActivityError] with the type of its cause, [ApplicationError]
    with its type, the cancellation of the workflow itself, and any other Python exception *)
Inductive wf_exn :=
  | ActivityError (cause_type : option string)
  | ApplicationError (type_ : option string)
  | CancelledError
  | Defect (e : exn).

Inductive activity_name :=
  | RECORD_REQUEST | AUTHORIZE_AND_CLAIM | PROVISION | WAIT_FOR_COMPLETION | CAPTURE_OUTPUTS | ATTEST
  | CLEANUP | CANCEL | RECONCILE | REDRIVE_ORPHAN.
#[export] Instance activity_name_eq_dec : EqDecision activity_name.
Proof. solve_decision. Defined.

Definition activity_value (a : activity_name) : string :=
  match a with
  | RECORD_REQUEST => "aegis.sandbox.record_request"
  | AUTHORIZE_AND_CLAIM => "aegis.sandbox.authorize_and_claim"
  | PROVISION => "aegis.sandbox.provision"
  | WAIT_FOR_COMPLETION => "aegis.sandbox.wait_for_completion"
  | CAPTURE_OUTPUTS => "aegis.sandbox.capture_outputs"
  | ATTEST => "aegis.sandbox.attest"
  | CLEANUP => "aegis.sandbox.cleanup"
  | CANCEL => "aegis.sandbox.cancel"
  | RECONCILE => "aegis.sandbox.reconcile"
  | REDRIVE_ORPHAN => "aegis.sandbox.redrive_orphan"
  end.

Inductive activity_answer :=
  | Answered (o : SandboxActivityOutcome)
  | Refused (x : wf_exn).

Inductive wait_answer := Woken | TimedOut | WaitCancelled.

Inductive wf_op : Set → Set :=
  | SetStage (stage : string) : wf_op unit
  | CancelCommand : wf_op (option string)
  | HasOrphans : wf_op bool
  | PopOrphan : wf_op (option string)
  | PopReconcile : wf_op (option string)
  | ExecuteActivity (name : activity_name) (input : SandboxActivityInput) (start_to_close : Z)
      (heartbeat : option Z) : wf_op activity_answer
  | WaitCondition (timeout : Z) : wf_op wait_answer.

Definition entry : Set := (activity_name * SandboxActivityInput * activity_answer)%type.

Record wf_world := { ww_flow : workflow; ww_trace : list entry }.

Definition on_flow (f : workflow → workflow) (w : wf_world) : wf_world :=
  {| ww_flow := f (ww_flow w); ww_trace := ww_trace w |}.

Definition set_stage (s : string) (w : workflow) : workflow :=
  {| wf_stage := s; wf_cancel_command := wf_cancel_command w;
     wf_reconcile_commands := wf_reconcile_commands w; wf_orphan_commands := wf_orphan_commands w;
     wf_seen_commands := wf_seen_commands w |}.
Definition set_orphans (l : list string) (w : workflow) : workflow :=
  {| wf_stage := wf_stage w; wf_cancel_command := wf_cancel_command w;
     wf_reconcile_commands := wf_reconcile_commands w; wf_orphan_commands := l;
     wf_seen_commands := wf_seen_commands w |}.
Definition set_reconciles (l : list string) (w : workflow) : workflow :=
  {| wf_stage := wf_stage w; wf_cancel_command := wf_cancel_command w;
     wf_reconcile_commands := l; wf_orphan_commands := wf_orphan_commands w;
     wf_seen_commands := wf_seen_commands w |}.

(** The condition [_reconcile_ambiguous] waits for *)
Definition command_waiting (w : workflow) : bool :=
  negb (bool_decide (wf_reconcile_commands w = [])) || negb (bool_decide (wf_orphan_commands w = []))
  || bool_decide (is_Some (wf_cancel_command w)).

(** What the environment answers: the end of an Activity; whether a wait that is not woken
    times out or is cancelled *)
Record wf_env := { en_activity : activity_answer; en_cancelled : bool }.

Definition handle (e : wf_env) (i : nat) (R : Set) (o : wf_op R) (w : wf_world) : R * wf_world :=
  match o in wf_op R return R * wf_world with
  | SetStage s => ((), on_flow (set_stage s) w)
  | CancelCommand => (wf_cancel_command (ww_flow w), w)
  | HasOrphans => (negb (bool_decide (wf_orphan_commands (ww_flow w) = [])), w)
  | PopOrphan =>
      match wf_orphan_commands (ww_flow w) with
      | c :: l => (Some c, on_flow (set_orphans l) w)
      | [] => (None, w)
      end
  | PopReconcile =>
      match wf_reconcile_commands (ww_flow w) with
      | c :: l => (Some c, on_flow (set_reconciles l) w)
      | [] => (None, w)
      end
  | ExecuteActivity name input _ _ =>
      (en_activity e, {| ww_flow := ww_flow w; ww_trace := ww_trace w ++ [(name, input, en_activity e)] |})
  | WaitCondition _ =>
      (if command_waiting (ww_flow w) then Woken else if en_cancelled e then WaitCancelled else TimedOut, w)
  end.

(** ** The thread *)

Definition wprog := prog wf_op wf_exn.

Definition stage (s : string) : wprog unit := call (SetStage s).

(** A Pydantic constructor in the workflow: what it raises is neither an [ActivityError] nor an
    [ApplicationError]. *)
Definition built {A : Set} (r : res A) : wprog A :=
  match r with Ok a => Return a | Raise e => Throw (Defect e) end.

Definition minutes (n : Z) : Z := n * 60 * us_per_second.

Definition _activity (name : activity_name) (input : SandboxActivityInput) (start_to_close : Z)
    (heartbeat : option Z) : wprog SandboxActivityOutcome :=
  Do (ExecuteActivity name input start_to_close heartbeat) (λ a,
    match a with Answered o => Return o | Refused x => Throw x end).

Definition _input (value : SandboxWorkflowInput) (operation : string) (command_ref : option string)
    : wprog SandboxActivityInput :=
  built (validated SandboxActivityInput_ok "SandboxActivityInput"
    {| wa_tenant_ref := wi_tenant_ref value; wa_actor_ref := wi_actor_ref value;
       wa_request_ref := wi_request_ref value; wa_execution_id := wi_execution_id value;
       wa_operation_id := wi_execution_id value +:+ "-" +:+ operation; wa_attempt := wi_attempt value;
       wa_command_ref := command_ref |}).

Definition new_result (r : SandboxWorkflowResult) : wprog SandboxWorkflowResult :=
  built (validated SandboxWorkflowResult_ok "SandboxWorkflowResult" r).

Definition failure_text (code : string) : string := replace_char " " "_" (str_take 128 code).

Definition _failed (value : SandboxWorkflowInput) (code : string) : wprog SandboxWorkflowResult :=
  new_result {| wr_execution_id := wi_execution_id value; wr_status := WS_failed; wr_result_ref := None;
                wr_failure_code := Some (failure_text code) |}.

(** [_activity_failure_code] and [_application_failure_code] *)
Definition failure_code (type_ : option string) (otherwise : string) : string :=
  match type_ with
  | Some s => if decide (s = "") then otherwise else failure_text s
  | None => otherwise
  end.

(** [await self._activity(name, self._input(value, operation), ...)] *)
Definition run_activity (value : SandboxWorkflowInput) (name : activity_name) (operation : string)
    (command_ref : option string) (start_to_close : Z) (heartbeat : option Z) : wprog SandboxActivityOutcome :=
  input ←' _input value operation command_ref;
  _activity name input start_to_close heartbeat.

Definition _require (value : SandboxWorkflowInput) (name : activity_name) (operation : string)
    (allowed : list activity_outcome) : wprog SandboxActivityOutcome :=
  result ←' run_activity value name operation None (minutes 2) None;
  if decide (oc_outcome result ∈ allowed) then Return result
  else Throw (ApplicationError (Some "IntegrityFailure")).

Definition _cancel_if_requested (value : SandboxWorkflowInput) : wprog (option SandboxWorkflowResult) :=
  cancel_command ←' call CancelCommand;
  match cancel_command with
  | None => Return None
  | Some command =>
      stage "cancelling";;'
      outcome ←' run_activity value CANCEL "cancel" (Some command) (minutes 2) None;
      if decide (oc_outcome outcome ∈ [AO_cancelled; AO_absent; AO_duplicate]) then
        r ←' new_result {| wr_execution_id := wi_execution_id value; wr_status := WS_cancelled;
                           wr_result_ref := oc_result_ref outcome;
                           wr_failure_code := Some "sandbox_cancelled" |};
        Return (Some r)
      else
        r ←' _failed value "cancel_failed";
        Return (Some r)
  end.

(** [l.pop(0)] *)
Definition popped (c : option string) : wprog string :=
  match c with Some c => Return c | None => Throw (Defect (Exn IndexError "pop from empty list")) end.

Definition _reconcile_ambiguous (value : SandboxWorkflowInput) : wprog SandboxActivityOutcome :=
  stage "waiting_for_reconciliation";;'
  woken ←' call (WaitCondition (seconds (wi_reconciliation_timeout_seconds value)));
  match woken with
  | TimedOut => Throw (ApplicationError (Some "SandboxAmbiguous"))
  | WaitCancelled => Throw CancelledError
  | Woken =>
      cancel_command ←' call CancelCommand;
      match cancel_command with
      | Some command => run_activity value CANCEL "cancel" (Some command) (minutes 2) None
      | None =>
          orphans ←' call HasOrphans;
          if (orphans : bool) then
            command ←' call PopOrphan;
            command ←' popped command;
            run_activity value REDRIVE_ORPHAN "orphan-redrive" (Some command) (minutes 2) None
          else
            command ←' call PopReconcile;
            command ←' popped command;
            stage "reconciling";;'
            run_activity value RECONCILE "reconcile" (Some command) (minutes 2) None
      end
  end.

Definition status_of_outcome (o : activity_outcome) : option workflow_status :=
  match o with
  | AO_succeeded => Some WS_succeeded
  | AO_failed => Some WS_failed
  | AO_timed_out => Some WS_timed_out
  | AO_oom_killed => Some WS_oom_killed
  | AO_violation => Some WS_violation
  | AO_cancelled => Some WS_cancelled
  | AO_quarantined => Some WS_quarantined
  | _ => None
  end.

Definition _handle_execution (value : SandboxWorkflowInput) (outcome : SandboxActivityOutcome)
    : wprog SandboxWorkflowResult :=
  outcome ←' (if decide (oc_outcome outcome = AO_ambiguous) then _reconcile_ambiguous value else Return outcome);
  match status_of_outcome (oc_outcome outcome) with
  | Some status =>
      new_result {| wr_execution_id := wi_execution_id value; wr_status := status;
                    wr_result_ref := oc_result_ref outcome;
                    wr_failure_code := if decide (status = WS_succeeded) then None
                                       else Some ("sandbox_" +:+ workflow_status_value status) |}
  | None => _failed value "invalid_execution_outcome"
  end.

(** Provisioning: [None] to go on *)
Definition provision_stage (value : SandboxWorkflowInput) : wprog (option SandboxWorkflowResult) :=
  stage "provisioning";;'
  provision ←' run_activity value PROVISION "provision" None (minutes 5) (Some (seconds 30));
  provision ←' (if decide (oc_outcome provision = AO_ambiguous) then _reconcile_ambiguous value else Return provision);
  if decide (oc_outcome provision ∈ [AO_provisioned; AO_running; AO_duplicate]) then Return None
  else r ←' _failed value "provision_failed"; Return (Some r).

Definition wait_stage (value : SandboxWorkflowInput) : wprog SandboxWorkflowResult :=
  stage "waiting";;'
  execution ←' run_activity value WAIT_FOR_COMPLETION "wait" None
    (seconds (wi_execution_timeout_seconds value + 60)) (Some (seconds 30));
  _handle_execution value execution.

(** [a or b or c] *)
Definition first_some (l : list (option string)) : option string :=
  foldr (λ o acc, match o with Some s => Some s | None => acc end) None l.

Definition capture_stage (value : SandboxWorkflowInput) (terminal : SandboxWorkflowResult)
    : wprog SandboxWorkflowResult :=
  stage "capturing_outputs";;'
  capture ←' run_activity value CAPTURE_OUTPUTS "capture" None (minutes 5) (Some (seconds 30));
  if decide (oc_outcome capture = AO_quarantined) then
    new_result {| wr_execution_id := wi_execution_id value; wr_status := WS_quarantined;
                  wr_result_ref := oc_result_ref capture; wr_failure_code := Some "artifact_quarantined" |}
  else if decide (oc_outcome capture ∉ [AO_captured; AO_duplicate]) then _failed value "capture_failed"
  else
    stage "attesting";;'
    attestation ←' run_activity value ATTEST "attest" None (minutes 2) None;
    if decide (oc_outcome attestation ∉ [AO_attested; AO_duplicate]) then _failed value "attestation_failed"
    else Return
      {| wr_execution_id := wr_execution_id terminal; wr_status := wr_status terminal;
         wr_result_ref := first_some [oc_result_ref attestation; oc_result_ref capture; wr_result_ref terminal];
         wr_failure_code := wr_failure_code terminal |}.

(** The body of the [try] *)
Definition lifecycle (value : SandboxWorkflowInput) : wprog SandboxWorkflowResult :=
  stage "recording_request";;'
  _require value RECORD_REQUEST "record-request" [AO_recorded; AO_duplicate];;'
  stage "authorizing_and_claiming";;'
  _require value AUTHORIZE_AND_CLAIM "authorize-claim" [AO_authorized; AO_claimed; AO_duplicate];;'
  terminal ←' _cancel_if_requested value;
  terminal ←' (match terminal with Some t => Return (Some t) | None => provision_stage value end);
  cancelled ←' _cancel_if_requested value;
  terminal ←' (match cancelled, terminal with
               | Some t, _ => Return t
               | None, Some t => Return t
               | None, None => wait_stage value
               end);
  if decide (wr_status terminal = WS_succeeded) then capture_stage value terminal else Return terminal.

(** The [except] clauses *)
Definition on_error (value : SandboxWorkflowInput) (x : wf_exn) : wprog SandboxWorkflowResult :=
  match x with
  | ActivityError t => _failed value (failure_code t "activity_failed")
  | ApplicationError t => _failed value (failure_code t "workflow_failed")
  | x => Throw x
  end.

(** The [finally] block, from a terminal result *)
Definition cleanup_stage (value : SandboxWorkflowInput) (terminal : SandboxWorkflowResult)
    : wprog SandboxWorkflowResult :=
  try_else
    (stage "cleaning";;'
     cleanup ←' run_activity value CLEANUP "cleanup" None (seconds (wi_cleanup_timeout_seconds value))
       (Some (seconds 30));
     if decide (oc_outcome cleanup = AO_ambiguous) then
       _reconcile_ambiguous value;;'
       Return terminal
     else if decide (oc_outcome cleanup ∉ [AO_cleaned; AO_absent; AO_duplicate]) then
       _failed value "cleanup_failed"
     else Return terminal)
    (λ x, match x with
          | ActivityError _ | ApplicationError _ => _failed value "cleanup_failed"
          | x => Throw x
          end)
    Return.

(** The block also runs when an exception is passing; what it makes of [terminal] is then lost. *)
Definition no_result (value : SandboxWorkflowInput) : SandboxWorkflowResult :=
  {| wr_execution_id := wi_execution_id value; wr_status := WS_failed; wr_result_ref := None;
     wr_failure_code := None |}.

Definition run (value : SandboxWorkflowInput) : wprog SandboxWorkflowResult :=
  terminal ←' try_else (try_else (lifecycle value) (on_error value) Return)
    (λ x, cleanup_stage value (no_result value);;' Throw x)
    (cleanup_stage value);
  stage (workflow_status_value (wr_status terminal));;'
  Return terminal.

(** ** Schedules *)

Inductive signal := RequestCancel (c : string) | ReconcileSandbox (c : string) | RedriveOrphan (c : string).

Definition deliver (s : signal) : workflow → workflow :=
  match s with
  | RequestCancel c => request_cancel c
  | ReconcileSandbox c => reconcile_sandbox c
  | RedriveOrphan c => redrive_orphan c
  end.

Inductive turn := Step (e : wf_env) | Signalled (s : signal).

Definition move_of (t : turn) : move (W := wf_world) (E := wf_env) :=
  match t with Step e => Thread 0 e | Signalled s => Outside (on_flow (deliver s)) end.

Definition new_world : wf_world := {| ww_flow := new_workflow; ww_trace := [] |}.

(** The workflow after a schedule of steps and signals *)
Definition run_workflow (value : SandboxWorkflowInput) (turns : list turn)
    : list (wprog SandboxWorkflowResult) * wf_world :=
  run_pool handle (move_of <$> turns) ([run value], new_world).
