(* ===== verification/SandboxWorkflowFacts.v ===== *)
(** * The sandbox workflow: what its trace may be

    A small calculus over [PyProg.safe]: [spec p Post Exc] says which Activities a part of the
    workflow may append to the trace before it returns or raises, whatever signals arrive
    meanwhile.  One lemma per function of the workflow. *)

From S2P Require Import Prelude PyJson PyTime PyText PyModel PyProg Domain SandboxWorkflow.

(** ** The environment *)

(** An error type whose text may be a failure code: class names are. *)
Definition plain_type (t : option string) : Prop :=
  ∀ s, t = Some s → s ≠ "" → Identifier (failure_text s) = true.

Definition legal_answer (a : activity_answer) : Prop :=
  match a with
  | Answered o => SandboxActivityOutcome_ok o = true
  | Refused (ActivityError t) => plain_type t
  | Refused CancelledError => True
  | Refused _ => False
  end.

(** What Activities may answer: outcomes that passed their validator, Activity errors and
    cancellation *)
Definition legal (e : wf_env) : Prop := legal_answer (en_activity e).

Definition commands_ok (w : workflow) : Prop :=
  opt_ok Identifier (wf_cancel_command w) = true ∧ Forall (λ c, Identifier c = true) (wf_reconcile_commands w)
  ∧ Forall (λ c, Identifier c = true) (wf_orphan_commands w).

Definition flow_inv (w : wf_world) : Prop := commands_ok (ww_flow w).

(** What a signal may change *)
Definition flow_grows (f f' : workflow) : Prop :=
  (is_Some (wf_cancel_command f) → wf_cancel_command f' = wf_cancel_command f) ∧
  wf_reconcile_commands f `prefix_of` wf_reconcile_commands f' ∧
  wf_orphan_commands f `prefix_of` wf_orphan_commands f'.

Definition changes (i : nat) (w w' : wf_world) : Prop :=
  i = O ∨ (ww_trace w' = ww_trace w ∧ flow_grows (ww_flow w) (ww_flow w')).

Definition signal_ok (s : signal) : Prop :=
  match s with RequestCancel c | ReconcileSandbox c | RedriveOrphan c => Identifier c = true end.

Lemma deliver_grows s f : flow_grows f (deliver s f).
Proof.
  unfold flow_grows. destruct s as [c|c|c]; simpl;
    unfold request_cancel, reconcile_sandbox, redrive_orphan.
  - destruct (_ || _) eqn:Hg; [done|]. destruct (64 <=? _); [done|]. simpl.
    apply orb_false_iff in Hg as [_ Hg]. py_bool. split_and!; [|done|done]. intros Hs. by destruct Hg.
  - destruct (_ || _); [done|]. simpl. split_and!; [done|by apply prefix_app_r|done].
  - destruct (_ || _); [done|]. simpl. split_and!; [done|done|by apply prefix_app_r].
Qed.

Lemma deliver_ok s f : signal_ok s → commands_ok f → commands_ok (deliver s f).
Proof.
  intros Hs (H1 & H2 & H3). destruct s as [c|c|c]; simpl in *;
    unfold request_cancel, reconcile_sandbox, redrive_orphan, commands_ok.
  - destruct (_ || _); [done|]. destruct (64 <=? _); done.
  - destruct (_ || _); [done|]. simpl. split_and!; [done| |done]. apply Forall_app. by repeat constructor.
  - destruct (_ || _); [done|]. simpl. split_and!; [done|done|]. apply Forall_app. by repeat constructor.
Qed.

(** ** The calculus *)

Notation wsafe := (safe handle flow_inv legal changes 0).

Definition at_trace (tr : list entry) (w : wf_world) : Prop := ww_trace w = tr.

Lemma at_trace_stable tr : stable flow_inv changes 0 (at_trace tr).
Proof.
  intros w w' _ Hw [_ [->|(j & Hj & [->|[Ht _]])]]; [done|done|]. unfold at_trace in *. congruence.
Qed.

Definition spec {A : Set} (p : wprog A) (Post : A → list entry → Prop) (Exc : wf_exn → list entry → Prop) : Prop :=
  ∀ tr, wsafe p (at_trace tr) (λ a w, ∃ l, ww_trace w = tr ++ l ∧ Post a l)
                              (λ x w, ∃ l, ww_trace w = tr ++ l ∧ Exc x l).

Lemma spec_weaken {A : Set} (p : wprog A) (Post Post' : A → list entry → Prop) (Exc Exc' : wf_exn → list entry → Prop) :
  spec p Post Exc → (∀ a l, Post a l → Post' a l) → (∀ x l, Exc x l → Exc' x l) → spec p Post' Exc'.
Proof. intros H HP HE tr. eapply safe_weaken; [apply H|done| |]; naive_solver. Qed.

Lemma spec_ret {A : Set} (a : A) (Post : A → list entry → Prop) Exc : Post a [] → spec (Return a) Post Exc.
Proof. intros H tr w _ Hw. exists []. by rewrite app_nil_r. Qed.

Lemma spec_throw {A : Set} x (Post : A → list entry → Prop) (Exc : wf_exn → list entry → Prop) :
  Exc x [] → spec (Throw x) Post Exc.
Proof. intros H tr w _ Hw. exists []. by rewrite app_nil_r. Qed.

(** From what is known of the trace so far *)
Lemma safe_from {A : Set} (p : wprog A) tr (K : list entry → Prop) Post Exc :
  (∀ l, K l → wsafe p (at_trace (tr ++ l)) Post Exc) →
  wsafe p (λ w, ∃ l, ww_trace w = tr ++ l ∧ K l) Post Exc.
Proof.
  intros H. destruct p as [a|x|R o k].
  - intros w Hi (l & Hl & Hk). by apply (H l Hk).
  - intros w Hi (l & Hl & Hk). by apply (H l Hk).
  - intros e w He Hi (l & Hl & Hk). by apply (H l Hk).
Qed.

Lemma spec_then {A B : Set} (p : wprog A) (f : A → wprog B) (Mid : A → list entry → Prop) (Post : B → list entry → Prop)
    (Exc Exc' : wf_exn → list entry → Prop) :
  spec p Mid Exc → (∀ x l, Exc x l → Exc' x l) →
  (∀ a l, Mid a l → spec (f a) (λ b l', Post b (l ++ l')) (λ x l', Exc' x (l ++ l'))) →
  spec (then_ p f) Post Exc'.
Proof.
  intros Hp He Hf tr. eapply safe_then.
  - eapply safe_weaken; [apply Hp|done|done|]. naive_solver.
  - intros a. apply safe_from. intros l Hl. eapply safe_weaken; [apply (Hf a l Hl)|done| |].
    + intros b w _ (l' & Hw & Hb). exists (l ++ l'). by rewrite app_assoc.
    + intros x w _ (l' & Hw & Hb). exists (l ++ l'). by rewrite app_assoc.
Qed.

Lemma spec_try {A B : Set} (p : wprog A) h (f : A → wprog B) (Mid : A → list entry → Prop) (Exc : wf_exn → list entry → Prop)
    (Post : B → list entry → Prop) (Exc' : wf_exn → list entry → Prop) :
  spec p Mid Exc →
  (∀ a l, Mid a l → spec (f a) (λ b l', Post b (l ++ l')) (λ x l', Exc' x (l ++ l'))) →
  (∀ x l, Exc x l → spec (h x) (λ b l', Post b (l ++ l')) (λ y l', Exc' y (l ++ l'))) →
  spec (try_else p h f) Post Exc'.
Proof.
  intros Hp Hf Hh tr. eapply safe_try; [apply Hp| |].
  - intros a. apply safe_from. intros l Hl. eapply safe_weaken; [apply (Hf a l Hl)|done| |];
      intros b w _ (l' & Hw & Hb); exists (l ++ l'); by rewrite app_assoc.
  - intros x. apply safe_from. intros l Hl. eapply safe_weaken; [apply (Hh x l Hl)|done| |];
      intros b w _ (l' & Hw & Hb); exists (l ++ l'); by rewrite app_assoc.
Qed.

(** An operation that leaves the trace and the commands alone *)
Lemma spec_quiet {A R : Set} (o : wf_op R) (k : R → wprog A) Post Exc :
  (∀ e w, flow_inv w → ww_trace (handle e 0 R o w).2 = ww_trace w ∧ flow_inv (handle e 0 R o w).2) →
  (∀ r, spec (k r) Post Exc) → spec (Do o k) Post Exc.
Proof.
  intros Ho Hk tr. apply safe_do with (P' := λ _, at_trace tr).
  - intros r. apply at_trace_stable.
  - intros e w _ Hi Hw. destruct (Ho e w Hi) as [Ht Hi']. split_and!; [|done|by left].
    unfold at_trace in *. congruence.
  - intros r. apply Hk.
Qed.

Lemma spec_stage s {A : Set} (k : unit → wprog A) Post Exc : spec (k ()) Post Exc → spec (Do (SetStage s) k) Post Exc.
Proof. intros H. apply spec_quiet; [done|]. by intros []. Qed.

(** ** One Activity *)

Definition answered (name : activity_name) (o : SandboxActivityOutcome) (l : list entry) : Prop :=
  SandboxActivityOutcome_ok o = true ∧ ∃ input, l = [(name, input, Answered o)].

Definition refused (name : activity_name) (x : wf_exn) (l : list entry) : Prop :=
  legal_answer (Refused x) ∧ ∃ input, l = [(name, input, Refused x)].

Lemma spec_activity name input start heartbeat :
  spec (_activity name input start heartbeat) (answered name) (refused name).
Proof.
  intros tr e w He Hi Hw. exists (at_trace (tr ++ [(name, input, en_activity e)])).
  split; [apply at_trace_stable|]. split; [by unfold at_trace in *; simpl; rewrite Hw|].
  split; [done|]. split; [by left|]. simpl. unfold legal in He.
  destruct (en_activity e) as [o|x] eqn:Ha; intros w' _ Hw';
    (eexists [(name, input, _)]; split; [exact Hw'|split; [exact He|by eexists]]).
Qed.

Section value.
Context (value : SandboxWorkflowInput) (Hvalue : SandboxWorkflowInput_ok value = true).
(** Room for the longest operation name, [-authorize-claim] *)
Context (Hroom : str_len (wi_execution_id value) <= 112).

Lemma value_ids :
  Identifier (wi_execution_id value) = true ∧ OpaqueReference (wi_tenant_ref value) = true ∧
  Identifier (wi_actor_ref value) = true ∧ Identifier (wi_request_ref value) = true ∧
  in_range 1 16 (wi_attempt value) = true.
Proof.
  revert Hvalue. unfold SandboxWorkflowInput_ok. cbn [forallb]. rewrite !andb_true_iff. tauto.
Qed.

Definition operation_ok (operation : string) : bool :=
  (str_len operation <=? 15) && str_forallb is_identifier_char operation.

Lemma operation_id_ok operation :
  operation_ok operation = true → Identifier (wi_execution_id value +:+ "-" +:+ operation) = true.
Proof.
  intros [Hl Hc]%andb_true_iff. apply Z.leb_le in Hl. destruct value_ids as [Hid _]. unfold Identifier, length_between in *.
  rewrite !str_forallb_app, Hc. rewrite !andb_true_iff, !Z.leb_le in *. destruct Hid as [[H1 H2] H3].
  unfold str_len in *. rewrite !str_app_length. simpl. split_and!; try done; lia.
Qed.

Definition command_ok (c : option string) : Prop := opt_ok Identifier c = true.

Lemma spec_run_activity name operation command start heartbeat :
  operation_ok operation = true → command_ok command →
  spec (run_activity value name operation command start heartbeat) (answered name) (refused name).
Proof.
  intros Hop Hcmd. unfold run_activity, _input.
  rewrite validated_returns; [apply spec_activity|]. destruct value_ids as (H1 & H2 & H3 & H4 & H5).
  unfold SandboxActivityInput_ok. cbn [forallb]. simpl. rewrite H1, H2, H3, H4, H5, operation_id_ok by done.
  by rewrite Hcmd.
Qed.

(** ** Results *)

Lemma spec_failed code :
  Identifier (failure_text code) = true →
  spec (_failed value code) (λ r l, wr_status r = WS_failed ∧ l = []) (λ _ _, False).
Proof.
  intros Hc. unfold _failed, new_result. rewrite validated_returns; [by apply spec_ret|].
  unfold SandboxWorkflowResult_ok. simpl. destruct value_ids as [-> _]. by rewrite Hc.
Qed.

Lemma spec_new_result status ref code :
  opt_ok Identifier ref = true → opt_ok Identifier code = true →
  spec (new_result {| wr_execution_id := wi_execution_id value; wr_status := status; wr_result_ref := ref;
                      wr_failure_code := code |})
    (λ r l, wr_status r = status ∧ l = []) (λ _ _, False).
Proof.
  intros Hr Hc. unfold new_result. rewrite validated_returns; [by apply spec_ret|].
  unfold SandboxWorkflowResult_ok. simpl. destruct value_ids as [-> _]. by rewrite Hr, Hc.
Qed.

Lemma outcome_ref o : SandboxActivityOutcome_ok o = true → opt_ok Identifier (oc_result_ref o) = true.
Proof. unfold SandboxActivityOutcome_ok. by intros [? _]%andb_true_iff. Qed.

(** ** What may fail *)

(** The exceptions the [except] clauses see, and cancellation *)
Definition expected (x : wf_exn) : Prop :=
  match x with
  | ActivityError t | ApplicationError t => plain_type t
  | CancelledError => True
  | Defect _ => False
  end.

Lemma legal_expected x : legal_answer (Refused x) → expected x.
Proof. by destruct x. Qed.

(** ** Reconciliation

    At most one Activity, one of three. *)

Definition reconciling : list activity_name := [CANCEL; REDRIVE_ORPHAN; RECONCILE].

Definition reconciled (o : SandboxActivityOutcome) (l : list entry) : Prop :=
  ∃ name, name ∈ reconciling ∧ answered name o l.

Definition unreconciled (x : wf_exn) (l : list entry) : Prop :=
  expected x ∧ (l = [] ∨ ∃ name, name ∈ reconciling ∧ refused name x l).

(** Some command waits, and the trace is [tr]. *)
Definition waiting (tr : list entry) (K : workflow → Prop) (w : wf_world) : Prop :=
  at_trace tr w ∧ K (ww_flow w).

Definition keeps (K : workflow → Prop) : Prop := ∀ f f', flow_grows f f' → K f → K f'.

Lemma waiting_stable tr K : keeps K → stable flow_inv changes 0 (waiting tr K).
Proof.
  intros HK w w' Hi [Ht Hw] Hr. split; [by eapply at_trace_stable|].
  destruct Hr as [_ [->|(j & Hj & [->|[_ Hg]])]]; [done|done|by eapply HK].
Qed.

Lemma spec_reconcile_activity name operation command start heartbeat :
  name ∈ reconciling → operation_ok operation = true → command_ok command →
  spec (run_activity value name operation command start heartbeat) reconciled unreconciled.
Proof.
  intros Hn Hop Hc. eapply spec_weaken; [by apply spec_run_activity| |].
  - intros o l Ho. by exists name.
  - intros x l Hx. split; [apply legal_expected, Hx|]. right. by exists name.
Qed.

Definition has_orphans (f : workflow) : Prop := wf_orphan_commands f ≠ [].
Definition has_command (f : workflow) : Prop :=
  wf_reconcile_commands f ≠ [] ∨ wf_orphan_commands f ≠ [] ∨ is_Some (wf_cancel_command f).
Definition has_reconcile (f : workflow) : Prop := wf_reconcile_commands f ≠ [].
Definition no_cancel_left (f : workflow) : Prop := wf_reconcile_commands f ≠ [] ∨ wf_orphan_commands f ≠ [].

Lemma prefix_nonempty {A} (l l' : list A) : l `prefix_of` l' → l ≠ [] → l' ≠ [].
Proof. intros [k ->] Hl. by destruct l. Qed.

Lemma has_orphans_keeps : keeps has_orphans.
Proof. intros f f' (_ & _ & Ho). by apply prefix_nonempty. Qed.
Lemma has_reconcile_keeps : keeps has_reconcile.
Proof. intros f f' (_ & Hr & _). by apply prefix_nonempty. Qed.
Lemma no_cancel_left_keeps : keeps no_cancel_left.
Proof. intros f f' (_ & Hr & Ho) [H|H]; [left|right]; by eapply prefix_nonempty. Qed.
Lemma has_command_keeps : keeps has_command.
Proof.
  intros f f' (Hc & Hr & Ho) [H|[H|H]]; [left|right; left|right; right]; try by eapply prefix_nonempty.
  by rewrite Hc.
Qed.

Lemma command_waiting_true f : command_waiting f = true → has_command f.
Proof. unfold command_waiting. rewrite !orb_true_iff, !negb_true_iff, !bool_decide_eq_false, bool_decide_eq_true. unfold has_command. tauto. Qed.
(** A step from knowledge of the commands to more knowledge of them *)
Lemma safe_waiting {A R : Set} (o : wf_op R) (k : R → wprog A) tr (K : workflow → Prop) (K' : R → workflow → Prop) Post Exc :
  (∀ r, keeps (K' r)) →
  (∀ e w, flow_inv w → K (ww_flow w) →
     ww_trace (handle e 0 R o w).2 = ww_trace w ∧ flow_inv (handle e 0 R o w).2 ∧
     K' (handle e 0 R o w).1 (ww_flow (handle e 0 R o w).2)) →
  (∀ r, wsafe (k r) (waiting tr (K' r)) Post Exc) → wsafe (Do o k) (waiting tr K) Post Exc.
Proof.
  intros HK Ho Hk. apply safe_do with (P' := λ r, waiting tr (K' r)).
  - intros r. by apply waiting_stable.
  - intros e w _ Hi [Ht Hw]. destruct (Ho e w Hi Hw) as (H1 & H2 & H3). split_and!; [|done|by left].
    split; [unfold at_trace in *; congruence|done].
  - done.
Qed.

(** Forget the commands *)
Lemma waiting_spec {A : Set} (p : wprog A) tr K Post Exc :
  spec p Post Exc → wsafe p (waiting tr K) (λ a w, ∃ l, ww_trace w = tr ++ l ∧ Post a l)
                                           (λ x w, ∃ l, ww_trace w = tr ++ l ∧ Exc x l).
Proof. intros H. eapply safe_weaken; [apply (H tr)| |done|done]. by intros w _ [Hw _]. Qed.

(** What is known of a popped command *)
Definition popped_ok (c : option string) (f : workflow) : Prop := ∃ s, c = Some s ∧ Identifier s = true.

Lemma popped_ok_keeps c : keeps (popped_ok c).
Proof. by intros f f' _. Qed.

Lemma popped_command {A : Set} (c : option string) tr (k : string → wprog A) Post Exc :
  (∀ s, Identifier s = true → wsafe (k s) (at_trace tr) Post Exc) →
  wsafe (then_ (popped c) k) (waiting tr (popped_ok c)) Post Exc.
Proof.
  intros Hk. apply safe_pure with (φ := ∃ s, c = Some s ∧ Identifier s = true).
  - by intros w _ [_ Hp].
  - intros (s & -> & Hs). simpl. eapply safe_weaken; [by apply Hk| |done|done]. by intros w _ [Hw _].
Qed.

Lemma orphan_case tr :
  wsafe (command ←' call PopOrphan; command ←' popped command;
         run_activity value REDRIVE_ORPHAN "orphan-redrive" (Some command) (minutes 2) None)
    (waiting tr has_orphans)
    (λ a w, ∃ l, ww_trace w = tr ++ l ∧ reconciled a l) (λ x w, ∃ l, ww_trace w = tr ++ l ∧ unreconciled x l).
Proof.
  cbn [then_ call]. apply safe_waiting with (K' := popped_ok); [apply popped_ok_keeps| |].
  - intros e w Hi Hw. destruct w as [f tr']. unfold has_orphans in Hw. simpl in *.
    unfold flow_inv, commands_ok in *. simpl in *.
    destruct (wf_orphan_commands f) as [|c l] eqn:Hl; [done|]. destruct Hi as (H1 & H2 & H3).
    apply Forall_cons in H3 as [Hc H3]. simpl. split_and!; try done. by exists c.
  - intros c. apply popped_command. intros s Hs.
    by apply (spec_reconcile_activity REDRIVE_ORPHAN); [right; left| |].
Qed.

Lemma reconcile_case tr :
  wsafe (command ←' call PopReconcile; command ←' popped command; stage "reconciling";;'
         run_activity value RECONCILE "reconcile" (Some command) (minutes 2) None)
    (waiting tr has_reconcile)
    (λ a w, ∃ l, ww_trace w = tr ++ l ∧ reconciled a l) (λ x w, ∃ l, ww_trace w = tr ++ l ∧ unreconciled x l).
Proof.
  cbn [then_ call]. apply safe_waiting with (K' := popped_ok); [apply popped_ok_keeps| |].
  - intros e w Hi Hw. destruct w as [f tr']. unfold has_reconcile in Hw. simpl in *.
    unfold flow_inv, commands_ok in *. simpl in *.
    destruct (wf_reconcile_commands f) as [|c l] eqn:Hl; [done|]. destruct Hi as (H1 & H2 & H3).
    apply Forall_cons in H2 as [Hc H2]. simpl. split_and!; try done. by exists c.
  - intros c. apply popped_command. intros s Hs. apply (spec_stage "reconciling").
    by apply (spec_reconcile_activity RECONCILE); [right; right; left| |].
Qed.

Definition cancel_known (c : option string) (f : workflow) : Prop :=
  match c with Some s => Identifier s = true | None => no_cancel_left f end.
Definition orphans_known (b : bool) (f : workflow) : Prop := if b then has_orphans f else has_reconcile f.

Lemma cancel_known_keeps c : keeps (cancel_known c).
Proof. destruct c; [by intros f f' _|apply no_cancel_left_keeps]. Qed.
Lemma orphans_known_keeps b : keeps (orphans_known b).
Proof. destruct b; [apply has_orphans_keeps|apply has_reconcile_keeps]. Qed.

Lemma command_case tr :
  wsafe (cancel_command ←' call CancelCommand;
         match cancel_command with
         | Some command => run_activity value CANCEL "cancel" (Some command) (minutes 2) None
         | None =>
             orphans ←' call HasOrphans;
             if (orphans : bool) then
               command ←' call PopOrphan; command ←' popped command;
               run_activity value REDRIVE_ORPHAN "orphan-redrive" (Some command) (minutes 2) None
             else
               command ←' call PopReconcile; command ←' popped command; stage "reconciling";;'
               run_activity value RECONCILE "reconcile" (Some command) (minutes 2) None
         end)
    (waiting tr has_command)
    (λ a w, ∃ l, ww_trace w = tr ++ l ∧ reconciled a l) (λ x w, ∃ l, ww_trace w = tr ++ l ∧ unreconciled x l).
Proof.
  cbn [then_ call]. apply safe_waiting with (K' := cancel_known); [apply cancel_known_keeps| |].
  - intros e w Hi Hw. simpl. split_and!; [done|done|]. destruct Hi as (H1 & _ & _). unfold has_command in Hw.
    destruct (wf_cancel_command (ww_flow w)) as [s|]; [done|]. simpl. destruct Hw as [|[|[? ?]]]; [by left|by right|done].
  - intros [s|].
    + apply safe_pure with (φ := Identifier s = true); [by intros w _ [_ Hs]|]. intros Hs. apply waiting_spec.
      by apply spec_reconcile_activity; [left| |].
    + cbn [then_ call]. apply safe_waiting with (K' := orphans_known); [apply orphans_known_keeps| |].
      * intros e w Hi Hw. simpl. split_and!; [done|done|]. unfold cancel_known, no_cancel_left in Hw.
        case_bool_decide as Ho; simpl; unfold has_orphans, has_reconcile; naive_solver.
      * intros [|]; [apply orphan_case|apply reconcile_case].
Qed.

Definition wait_known (a : wait_answer) (f : workflow) : Prop :=
  match a with Woken => has_command f | _ => True end.

Lemma spec_reconcile : spec (_reconcile_ambiguous value) reconciled unreconciled.
Proof.
  unfold _reconcile_ambiguous, stage. cbn [then_ call]. apply spec_stage. intros tr.
  apply safe_weaken with (P := waiting tr (λ _, True))
    (Q := λ a w, ∃ l, ww_trace w = tr ++ l ∧ reconciled a l)
    (Z := λ x w, ∃ l, ww_trace w = tr ++ l ∧ unreconciled x l); [|by intros w _ Hw|done|done].
  apply safe_waiting with (K' := wait_known).
  - intros []; [apply has_command_keeps|by intros f f'..].
  - intros e w Hi _. simpl. split_and!; [done|done|].
    destruct (command_waiting (ww_flow w)) eqn:Hc; [by apply command_waiting_true|by destruct (en_cancelled e)].
  - intros [].
    + apply command_case.
    + apply waiting_spec, spec_throw. split; [|by left]. intros s [= <-] _. reflexivity.
    + apply waiting_spec, spec_throw. by split; [|left].
Qed.

(** ** The shape of the trace *)

Definition no_cleanup (l : list entry) : Prop := Forall (λ e, e.1.1 ≠ CLEANUP) l.

(** At most [n] Activities, none of them the cleanup *)
Definition bounded (n : nat) (l : list entry) : Prop := (length l ≤ n)%nat ∧ no_cleanup l.

Lemma bounded_app n m l l' : bounded n l → bounded m l' → bounded (n + m) (l ++ l').
Proof. intros [H1 H2] [H3 H4]. split; [rewrite length_app; lia|by apply Forall_app]. Qed.

Lemma bounded_mono n m l : (n ≤ m)%nat → bounded n l → bounded m l.
Proof. intros Hn [H1 H2]. split; [lia|done]. Qed.

Lemma bounded_nil n : bounded n [].
Proof. split; [simpl; lia|constructor]. Qed.

(** An Activity of that name that answered with one of these outcomes *)
Definition done_with (name : activity_name) (ok : list activity_outcome) (e : entry) : Prop :=
  ∃ input o, e = (name, input, Answered o) ∧ oc_outcome o ∈ ok.

(** The Activity answered so, or was ambiguous and a reconciliation answered so. *)
Definition settled (name : activity_name) (ok : list activity_outcome) (l : list entry) : Prop :=
  (∃ e, l = [e] ∧ done_with name ok e) ∨
  ∃ e e' name', l = [e; e'] ∧ done_with name [AO_ambiguous] e ∧ name' ∈ reconciling ∧ done_with name' ok e'.

(** The trace of an execution that succeeded, up to its cleanup *)
Definition completed (l : list entry) : Prop :=
  ∃ record claim provision wait capture attest,
    l = record :: claim :: provision ++ wait ++ [capture; attest] ∧
    done_with RECORD_REQUEST [AO_recorded; AO_duplicate] record ∧
    done_with AUTHORIZE_AND_CLAIM [AO_authorized; AO_claimed; AO_duplicate] claim ∧
    settled PROVISION [AO_provisioned; AO_running; AO_duplicate] provision ∧
    settled WAIT_FOR_COMPLETION [AO_succeeded] wait ∧
    done_with CAPTURE_OUTPUTS [AO_captured; AO_duplicate] capture ∧
    done_with ATTEST [AO_attested; AO_duplicate] attest.

Definition failing (n : nat) (x : wf_exn) (l : list entry) : Prop := expected x ∧ bounded n l.

Lemma answered_bounded name o l : name ≠ CLEANUP → answered name o l → bounded 1 l.
Proof. intros Hn (_ & input & ->). split; [simpl; lia|]. by repeat constructor. Qed.

Lemma refused_failing name x l : name ≠ CLEANUP → refused name x l → failing 1 x l.
Proof. intros Hn (Hx & input & ->). split; [by apply legal_expected|]. split; [simpl; lia|]. by repeat constructor. Qed.

Lemma reconciling_not_cleanup name : name ∈ reconciling → name ≠ CLEANUP.
Proof. clear. unfold reconciling. set_solver. Qed.

Lemma reconciled_bounded o l : reconciled o l → bounded 1 l.
Proof. intros (name & Hn & Ho). eapply answered_bounded; [by apply reconciling_not_cleanup|done]. Qed.

Lemma unreconciled_failing x l : unreconciled x l → failing 1 x l.
Proof.
  intros [Hx [->|(name & Hn & Hr)]]; [by split; [|apply bounded_nil]|].
  eapply refused_failing; [by apply reconciling_not_cleanup|done].
Qed.

Lemma failing_app n m x l l' : bounded n l → failing m x l' → failing (n + m) x (l ++ l').
Proof. intros H1 [H2 H3]. split; [done|by apply bounded_app]. Qed.

Lemma failing_mono n m x l : (n ≤ m)%nat → failing n x l → failing m x l.
Proof. intros Hn [H1 H2]. split; [done|by eapply bounded_mono]. Qed.

(** Sequencing with bounds: the first part appends at most [n] Activities. *)
Lemma spec_seq {A B : Set} n m k (p : wprog A) (f : A → wprog B) (Mid : A → list entry → Prop) (Post : B → list entry → Prop) :
  (n + m ≤ k)%nat → spec p Mid (failing n) → (∀ a l, Mid a l → bounded n l) →
  (∀ a l, Mid a l → spec (f a) (λ b l', Post b (l ++ l')) (failing m)) →
  spec (then_ p f) Post (failing k).
Proof.
  intros Hk Hp Hb Hf. eapply spec_then; [exact Hp| |].
  - intros x l. apply failing_mono. lia.
  - intros a l Hl. eapply spec_weaken; [by apply Hf|done|]. intros x l' Hx.
    eapply failing_mono; [exact Hk|]. apply failing_app; [by eapply Hb|done].
Qed.

(** An Activity, reconciled if its answer is ambiguous *)
Lemma spec_settle {A : Set} name operation command start heartbeat (k : SandboxActivityOutcome → wprog A)
    (Post : A → list entry → Prop) m n :
  name ≠ CLEANUP → operation_ok operation = true → command_ok command → (2 + m ≤ n)%nat →
  (∀ o l, bounded 2 l → SandboxActivityOutcome_ok o = true → (∀ ok, oc_outcome o ∈ ok → settled name ok l) →
     spec (k o) (λ a l', Post a (l ++ l')) (failing m)) →
  spec (o ←' run_activity value name operation command start heartbeat;
        o ←' (if decide (oc_outcome o = AO_ambiguous) then _reconcile_ambiguous value else Return o); k o)
    Post (failing n).
Proof.
  intros Hn Hop Hcmd Hm Hk. apply (spec_seq 1 (1 + m)) with (Mid := answered name); [lia| | |].
  - eapply spec_weaken; [by apply spec_run_activity|done|]. intros x l. by apply refused_failing.
  - intros o l. by apply answered_bounded.
  - intros o l Ho. pose proof (answered_bounded _ _ _ Hn Ho) as Hb. destruct Ho as (Hok & input & ->).
    destruct (decide (oc_outcome o = AO_ambiguous)) as [Ha|Ha].
    + apply (spec_seq 1 m) with (Mid := reconciled); [lia| |exact reconciled_bounded|].
      * eapply spec_weaken; [apply spec_reconcile|done|]. apply unreconciled_failing.
      * intros o' l' Hr. pose proof (reconciled_bounded _ _ Hr) as Hb'.
        destruct Hr as (name' & Hn' & Hok' & input' & ->).
        eapply spec_weaken; [apply (Hk o' ([(name, input, Answered o)] ++ [(name', input', Answered o')]))| |done].
        -- apply (bounded_app 1 1); done.
        -- done.
        -- intros ok Hin. right. eexists _, _, name'. split; [done|]. split; [|split; [done|]].
           ++ exists input, o. split; [done|]. rewrite Ha. by left.
           ++ by exists input', o'.
        -- intros a l'. by rewrite app_assoc.
    + eapply spec_weaken; [apply (Hk o [(name, input, Answered o)])| |].
      * eapply bounded_mono; [|exact Hb]. lia.
      * done.
      * intros ok Hin. left. eexists. split; [done|]. by exists input, o.
      * done.
      * intros x l'. apply failing_mono. lia.
Qed.

(** ** The stages *)

Lemma spec_require name operation allowed :
  name ≠ CLEANUP → operation_ok operation = true →
  spec (_require value name operation allowed) (λ _ l, bounded 1 l ∧ ∃ e, l = [e] ∧ done_with name allowed e) (failing 1).
Proof.
  intros Hn Hop. unfold _require. eapply spec_then with (Mid := answered name) (Exc := refused name).
  - by apply spec_run_activity.
  - intros x l. by apply refused_failing.
  - intros o l Ho. pose proof (answered_bounded _ _ _ Hn Ho) as Hb. destruct Ho as (Hok & input & ->).
    destruct (decide (oc_outcome o ∈ allowed)) as [Hin|Hin].
    + apply spec_ret. rewrite app_nil_r. split; [done|]. eexists. split; [done|]. by exists input, o.
    + apply spec_throw. rewrite app_nil_r. split; [|done]. intros s [= <-] _. reflexivity.
Qed.

(** A result after what came before *)
Lemma spec_result {A : Set} (p : wprog A) (Post Post' : A → list entry → Prop) n :
  spec p Post (λ _ _, False) → (∀ a l, Post a l → Post' a l) → spec p Post' (failing n).
Proof. intros H HP. eapply spec_weaken; [exact H|done|done]. Qed.

Lemma spec_cancel : spec (_cancel_if_requested value)
  (λ r l, bounded 1 l ∧ match r with Some t => wr_status t ≠ WS_succeeded | None => l = [] end) (failing 1).
Proof.
  intros tr. unfold _cancel_if_requested, stage. cbn [then_ call].
  apply safe_do with (P' := λ c, waiting tr (λ _, command_ok c)).
  - intros c. apply waiting_stable. by intros f f' _.
  - intros e w _ Hi Hw. split_and!; [|done|by left]. split; [exact Hw|]. by destruct Hi.
  - intros [command|].
    + apply safe_pure with (φ := command_ok (Some command)); [by intros w _ [_ Hc]|]. intros Hc.
      apply waiting_spec. apply spec_stage.
      eapply spec_then with (Mid := answered CANCEL) (Exc := refused CANCEL); [by apply spec_run_activity| |].
      { intros x l. by apply refused_failing. }
      intros o l Ho. pose proof (answered_bounded CANCEL o l ltac:(done) Ho) as Hb. destruct Ho as (Hok & input & ->).
      destruct (decide (oc_outcome o ∈ _)).
      * eapply spec_then; [apply spec_new_result; [exact (outcome_ref o Hok)|reflexivity]|done|].
        intros r l [Hr ->]. apply spec_ret. rewrite !app_nil_r. split; [done|]. by rewrite Hr.
      * eapply spec_then; [apply spec_failed; reflexivity|done|].
        intros r l [Hr ->]. apply spec_ret. rewrite !app_nil_r. split; [done|]. by rewrite Hr.
    + apply waiting_spec, spec_ret. split; [apply bounded_nil|done].
Qed.

Lemma spec_provision : spec (provision_stage value)
  (λ r l, bounded 2 l ∧ match r with
     | Some t => wr_status t ≠ WS_succeeded
     | None => settled PROVISION [AO_provisioned; AO_running; AO_duplicate] l
     end) (failing 2).
Proof.
  unfold provision_stage, stage. cbn [then_ call]. apply spec_stage.
  apply (spec_settle PROVISION) with (m := O); [done|reflexivity|done|lia|].
  intros o l Hb Hok Hs. destruct (decide (oc_outcome o ∈ _)) as [Hin|Hin].
  - apply spec_ret. rewrite app_nil_r. split; [done|by apply Hs].
  - eapply spec_then; [apply spec_failed; reflexivity|done|].
    intros r l' [Hr ->]. apply spec_ret. rewrite !app_nil_r. split; [done|]. by rewrite Hr.
Qed.

Lemma spec_wait : spec (wait_stage value)
  (λ t l, bounded 2 l ∧ (wr_status t = WS_succeeded → settled WAIT_FOR_COMPLETION [AO_succeeded] l)) (failing 2).
Proof.
  unfold wait_stage, stage, _handle_execution. cbn [then_ call]. apply spec_stage.
  apply (spec_settle WAIT_FOR_COMPLETION) with (m := O); [done|reflexivity|done|lia|].
  intros o l Hb Hok Hs. destruct (status_of_outcome (oc_outcome o)) as [status|] eqn:Ho.
  - eapply spec_result; [apply spec_new_result; [exact (outcome_ref o Hok)|]|].
    + destruct (decide (status = WS_succeeded)); [done|]. by destruct status.
    + intros r l' [Hr ->]. rewrite app_nil_r. split; [done|]. intros Hw. apply Hs.
      rewrite <-Hr, Hw in Ho. assert (oc_outcome o = AO_succeeded) as -> by (revert Ho; by destruct (oc_outcome o)).
      by left.
  - eapply spec_result; [apply spec_failed; reflexivity|]. intros r l' [Hr ->]. rewrite app_nil_r.
    split; [done|]. by rewrite Hr.
Qed.

Definition captured (l : list entry) : Prop :=
  ∃ capture attest, l = [capture; attest] ∧ done_with CAPTURE_OUTPUTS [AO_captured; AO_duplicate] capture ∧
    done_with ATTEST [AO_attested; AO_duplicate] attest.

Lemma spec_capture t : spec (capture_stage value t)
  (λ t' l, bounded 2 l ∧ (wr_status t' = WS_succeeded → captured l)) (failing 2).
Proof.
  unfold capture_stage, stage. cbn [then_ call]. apply spec_stage.
  apply (spec_seq 1 1) with (Mid := answered CAPTURE_OUTPUTS); [lia| | |].
  - eapply spec_weaken; [by apply spec_run_activity|done|]. intros x l. by apply refused_failing.
  - intros o l. by apply answered_bounded.
  - intros o l Ho. pose proof (answered_bounded CAPTURE_OUTPUTS o l ltac:(done) Ho) as Hb.
    assert (Hb2 : bounded 2 l) by (eapply bounded_mono; [|exact Hb]; lia).
    destruct Ho as (Hok & input & ->).
    destruct (decide (oc_outcome o = AO_quarantined)).
    { eapply spec_result; [apply spec_new_result; [exact (outcome_ref o Hok)|reflexivity]|].
      intros r l' [Hr ->]. rewrite app_nil_r. split; [done|]. by rewrite Hr. }
    destruct (decide (oc_outcome o ∉ _)) as [Hin|Hin].
    { eapply spec_result; [apply spec_failed; reflexivity|].
      intros r l' [Hr ->]. rewrite app_nil_r. split; [done|]. by rewrite Hr. }
    apply dec_stable in Hin. apply spec_stage.
    eapply spec_then with (Mid := answered ATTEST) (Exc := refused ATTEST); [by apply spec_run_activity| |].
    { intros x l'. by apply refused_failing. }
    intros o' l' Ho'. pose proof (answered_bounded ATTEST o' l' ltac:(done) Ho') as Hb'. destruct Ho' as (Hok' & input' & ->).
    assert (bounded 2 ([(CAPTURE_OUTPUTS, input, Answered o)] ++ [(ATTEST, input', Answered o')]))
      by (apply (bounded_app 1 1); done).
    destruct (decide (oc_outcome o' ∉ _)) as [Hin'|Hin'].
    { eapply spec_weaken; [apply spec_failed; reflexivity| |done].
      intros r l' [Hr ->]. rewrite app_nil_r. split; [done|]. by rewrite Hr. }
    apply dec_stable in Hin'. apply spec_ret. rewrite app_nil_r. split; [done|]. intros _.
    eexists _, _. split; [done|]. split; [by exists input, o|by exists input', o'].
Qed.

(** ** The whole *)

Lemma spec_provisioned (terminal : option SandboxWorkflowResult) :
  (∀ t, terminal = Some t → wr_status t ≠ WS_succeeded) →
  spec (match terminal with Some t => Return (Some t) | None => provision_stage value end)
    (λ r l, bounded 2 l ∧ match r with
       | Some t => wr_status t ≠ WS_succeeded
       | None => terminal = None ∧ settled PROVISION [AO_provisioned; AO_running; AO_duplicate] l
       end) (failing 2).
Proof.
  intros Ht. destruct terminal as [t|].
  - apply spec_ret. split; [apply bounded_nil|]. by apply Ht.
  - eapply spec_weaken; [apply spec_provision| |done]. intros [t|] l [Hb H]; split; done.
Qed.

Lemma spec_waited (cancelled terminal : option SandboxWorkflowResult) :
  (∀ t, cancelled = Some t → wr_status t ≠ WS_succeeded) → (∀ t, terminal = Some t → wr_status t ≠ WS_succeeded) →
  spec (match cancelled, terminal with
        | Some t, _ => Return t
        | None, Some t => Return t
        | None, None => wait_stage value
        end)
    (λ t l, bounded 2 l ∧ (wr_status t = WS_succeeded →
       cancelled = None ∧ terminal = None ∧ settled WAIT_FOR_COMPLETION [AO_succeeded] l)) (failing 2).
Proof.
  intros Hc Ht. destruct cancelled as [t|]; [|destruct terminal as [t|]].
  - apply spec_ret. split; [apply bounded_nil|]. intros Hs. by destruct (Hc t eq_refl).
  - apply spec_ret. split; [apply bounded_nil|]. intros Hs. by destruct (Ht t eq_refl).
  - eapply spec_weaken; [apply spec_wait| |done]. intros t l [Hb H]. split; [done|]. auto.
Qed.

Lemma spec_lifecycle : spec (lifecycle value)
  (λ t l, bounded 10 l ∧ (wr_status t = WS_succeeded → completed l)) (failing 10).
Proof.
  unfold lifecycle, stage. cbn [then_ call]. apply spec_stage.
  eapply (spec_seq 1 9); [lia|by apply spec_require|by intros ? ? [? _]|].
  intros _ l1 (B1 & e1 & -> & D1). apply spec_stage.
  eapply (spec_seq 1 8); [lia|by apply spec_require|by intros ? ? [? _]|].
  intros _ l2 (B2 & e2 & -> & D2).
  eapply (spec_seq 1 7); [lia|apply spec_cancel|by intros ? ? [? _]|].
  intros c1 l3 [B3 C1].
  eapply (spec_seq 2 5); [lia|apply spec_provisioned|by intros ? ? [? _]|].
  { intros t ->. exact C1. }
  intros r l4 [B4 R].
  eapply (spec_seq 1 4); [lia|apply spec_cancel|by intros ? ? [? _]|].
  intros c2 l5 [B5 C2].
  eapply (spec_seq 2 2); [lia|apply spec_waited|by intros ? ? [? _]|].
  { intros t ->. exact C2. }
  { intros t ->. exact R. }
  intros t l6 [B6 W].
  assert (HB : ∀ l', bounded 2 l' → bounded 10 ([e1] ++ [e2] ++ l3 ++ l4 ++ l5 ++ l6 ++ l')).
  { intros l' B7. change 10%nat with (1 + (1 + (1 + (2 + (1 + (2 + 2))))))%nat.
    by repeat (apply bounded_app; [done|]). }
  destruct (decide (wr_status t = WS_succeeded)) as [Hs|Hs].
  - destruct (W Hs) as (-> & -> & HW). destruct R as [-> HP]. subst l3 l5.
    eapply spec_weaken; [apply spec_capture| |done]. intros t' l7 [B7 Hcap]. split; [by apply HB|].
    intros Hs'. destruct (Hcap Hs') as (c & a & -> & Hc & Ha). by exists e1, e2, l4, l6, c, a.
  - apply spec_ret. split; [by apply HB, bounded_nil|]. intros Hs'. done.
Qed.

Lemma failure_text_id s : Identifier s = true → failure_text s = s.
Proof.
  unfold Identifier, length_between, failure_text. rewrite !andb_true_iff, !Z.leb_le. intros [[_ Hl] Hc].
  unfold str_len in Hl. assert (String.length s ≤ 128)%nat as Hn by lia. clear Hl. revert Hn Hc.
  generalize 128%nat. induction s as [|c s IH]; intros [|n] Hn Hc; try done; [simpl in Hn; lia|].
  simpl in Hc. apply andb_true_iff in Hc as [Hx Hc]. cbn [str_take replace_char].
  rewrite bool_decide_eq_false_2 by (intros ->; by vm_compute in Hx). f_equal. apply IH; [simpl in Hn; lia|done].
Qed.

Lemma failure_code_ok type_ otherwise :
  plain_type type_ → Identifier otherwise = true →
  Identifier (failure_text (failure_code type_ otherwise)) = true.
Proof.
  intros Ht Ho. unfold failure_code. destruct type_ as [s|]; [destruct (decide (s = "")) as [|Hs]|].
  - by rewrite failure_text_id.
  - by rewrite failure_text_id; apply (Ht s).
  - by rewrite failure_text_id.
Qed.

Definition cancelled_only (x : wf_exn) (l : list entry) : Prop := x = CancelledError ∧ l = [].

Lemma spec_on_error x : expected x →
  spec (on_error value x) (λ r l, wr_status r = WS_failed ∧ l = []) cancelled_only.
Proof.
  intros Hx. destruct x as [t|t| |e]; simpl; [| | |done].
  - eapply spec_weaken; [apply spec_failed, failure_code_ok; done|done|done].
  - eapply spec_weaken; [apply spec_failed, failure_code_ok; done|done|done].
  - by apply spec_throw.
Qed.

(** The cleanup Activity, and at most one reconciliation after it *)
Definition cleanup_ended (l : list entry) : Prop :=
  ∃ input answer after, l = (CLEANUP, input, answer) :: after ∧
    (after = [] ∨ ∃ e, after = [e] ∧ e.1.1 ∈ reconciling).

(** The cleanup Activity answered so. *)
Definition cleanup_answered (ok : list activity_outcome) (l : list entry) : Prop :=
  ∃ e after, l = e :: after ∧ done_with CLEANUP ok e.

Definition finished (t t' : SandboxWorkflowResult) (l : list entry) : Prop :=
  cleanup_ended l ∧ (wr_status t' = WS_succeeded →
    t' = t ∧ cleanup_answered [AO_cleaned; AO_absent; AO_duplicate; AO_ambiguous] l).

Lemma spec_cleanup t : spec (cleanup_stage value t) (finished t) (λ x l, x = CancelledError ∧ cleanup_ended l).
Proof.
  unfold cleanup_stage. apply spec_try with (Mid := finished t) (Exc := λ x l, expected x ∧ cleanup_ended l).
  - unfold stage. cbn [then_ call]. apply spec_stage.
    eapply spec_then with (Mid := answered CLEANUP) (Exc := refused CLEANUP); [by apply spec_run_activity| |].
    { intros x l (Hx & input & ->). split; [by apply legal_expected|]. exists input, (Refused x), []. auto. }
    intros o l (Hok & input & ->).
    assert (Hans : ∀ after ok, oc_outcome o ∈ ok → cleanup_answered ok ((CLEANUP, input, Answered o) :: after)).
    { intros after ok Hin. eexists _, _. split; [done|]. by exists input, o. }
    destruct (decide (oc_outcome o = AO_ambiguous)) as [Ha|Ha].
    + eapply spec_then; [apply spec_reconcile| |].
      * intros x l [Hx Hl]. split; [done|]. exists input, (Answered o), l. split; [done|].
        destruct Hl as [->|(name & Hn & _ & i & ->)]; [by left|right; eauto].
      * intros o' l (name & Hn & _ & i & ->). apply spec_ret. split.
        -- exists input, (Answered o). eexists. split; [done|]. right. eauto.
        -- intros _. split; [done|]. apply Hans. rewrite Ha. set_solver.
    + assert (He : cleanup_ended [(CLEANUP, input, Answered o)]) by (exists input, (Answered o), []; auto).
      destruct (decide (oc_outcome o ∉ _)) as [Hin|Hin].
      * eapply spec_weaken; [apply spec_failed; reflexivity| |done]. intros r l [Hr ->].
        rewrite app_nil_r. split; [done|]. by rewrite Hr.
      * apply dec_stable in Hin. apply spec_ret. rewrite app_nil_r. split; [done|]. intros _. split; [done|].
        apply Hans. set_solver.
  - intros t' l Hl. apply spec_ret. by rewrite app_nil_r.
  - intros x l [Hx Hl]. destruct x as [ty|ty| |e]; [| | |done].
    3: by apply spec_throw; rewrite app_nil_r.
    all: eapply spec_weaken; [apply spec_failed; reflexivity| |done]; intros r l' [Hr ->];
      rewrite app_nil_r; split; [done|]; by rewrite Hr.
Qed.

(** The trace of the whole workflow, and what success means for it *)
Definition whole (t : option SandboxWorkflowResult) (l : list entry) : Prop :=
  ∃ before cleanup, l = before ++ cleanup ∧ bounded 10 before ∧ cleanup_ended cleanup ∧
    ∀ r, t = Some r → wr_status r = WS_succeeded →
      completed before ∧ cleanup_answered [AO_cleaned; AO_absent; AO_duplicate; AO_ambiguous] cleanup.

Lemma spec_run : spec (run value) (λ t l, whole (Some t) l) (λ x l, x = CancelledError ∧ whole None l).
Proof.
  unfold run. eapply spec_then with (Mid := λ t l, whole (Some t) l) (Exc := λ x l, x = CancelledError ∧ whole None l); [|done|].
  - apply spec_try with (Mid := λ t l, bounded 10 l ∧ (wr_status t = WS_succeeded → completed l))
      (Exc := λ x l, x = CancelledError ∧ bounded 10 l).
    + apply spec_try with (Mid := λ t l, bounded 10 l ∧ (wr_status t = WS_succeeded → completed l)) (Exc := failing 10).
      * apply spec_lifecycle.
      * intros t l Hl. apply spec_ret. by rewrite app_nil_r.
      * intros x l [Hx Hl]. eapply spec_weaken; [by apply spec_on_error| |].
        -- intros r l' [Hr ->]. rewrite app_nil_r. split; [done|]. by rewrite Hr.
        -- intros y l' [-> ->]. by rewrite app_nil_r.
    + intros t l [Hb Hs]. eapply spec_weaken; [apply spec_cleanup| |].
      * intros t' l' [He Hf]. exists l, l'. split_and!; [done|done|done|]. intros r [= <-] Hr.
        destruct (Hf Hr) as [-> Ha]. auto.
      * intros x l' [-> He]. split; [done|]. by exists l, l'.
    + intros x l [-> Hb]. eapply spec_then; [apply spec_cleanup| |].
      * intros y l' [-> He]. split; [done|]. by exists l, l'.
      * intros t' l' [He _]. apply spec_throw. split; [done|]. rewrite app_nil_r. by exists l, l'.
  - intros t l Hl. unfold stage. cbn [then_ call]. apply spec_stage, spec_ret. by rewrite app_nil_r.
Qed.
End value.
