(* ===== verification/SandboxWorkflowTheorems.v ===== *)
(** * What the sandbox workflow promises

    It ends, it always cleans up, and it reports success only for a complete execution. *)

From S2P Require Import Prelude PyJson PyTime PyText PyModel PyProg Domain SandboxWorkflow SandboxWorkflowFacts.

(** A step with a legal answer, or a signal with a valid command *)
Definition turn_ok (t : turn) : Prop :=
  match t with Step e => legal e | Signalled s => signal_ok s end.

Definition allowed (m : move (W := wf_world) (E := wf_env)) : Prop := ∃ t, m = move_of t ∧ turn_ok t.

Lemma turns_allowed turns : Forall turn_ok turns → Forall allowed (move_of <$> turns).
Proof. intros H. apply Forall_fmap. eapply Forall_impl; [exact H|]. intros t Ht. by exists t. Qed.

Lemma allowed_thread i e : allowed (Thread i e) → legal e.
Proof. intros (t & Ht & Hok). destruct t as [e'|s]; [by injection Ht as _ ->|done]. Qed.

Lemma allowed_outside f : allowed (Outside f) → ∀ w, flow_inv w → flow_inv (f w) ∧ ∀ i, changes i w (f w).
Proof.
  intros (t & Ht & Hok) w Hw. destruct t as [e|s]; [done|]. injection Ht as ->. split.
  - unfold flow_inv, on_flow. simpl. by apply deliver_ok.
  - intros i. right. split; [done|]. apply deliver_grows.
Qed.

(** What any schedule leads to *)
Lemma workflow_outcome value turns :
  SandboxWorkflowInput_ok value = true → str_len (wi_execution_id value) <= 112 → Forall turn_ok turns →
  let s := run_workflow value turns in
  (∀ t, s.1 !! 0%nat = Some (Return t) → whole (Some t) (ww_trace s.2)) ∧
  (∀ x, s.1 !! 0%nat = Some (Throw x) → x = CancelledError ∧ whole None (ww_trace s.2)).
Proof.
  intros Hv Hr Ht s.
  pose (Q := λ (i : nat) (t : SandboxWorkflowResult) (w : wf_world), whole (Some t) (ww_trace w)).
  pose (Z := λ (i : nat) (x : wf_exn) (w : wf_world), x = CancelledError ∧ whole None (ww_trace w)).
  assert (Hsafe : pool_safe handle flow_inv legal changes Q Z s).
  { apply (run_pool_safe handle flow_inv legal changes allowed allowed_thread allowed_outside); [by apply turns_allowed|].
    split; [split_and!; [done|constructor|constructor]|]. intros i p Hp.
    destruct i as [|i]; [|by destruct i]. injection Hp as <-.
    exists (at_trace []). split; [apply at_trace_stable|]. split; [done|].
    eapply safe_weaken; [apply (spec_run value Hv Hr [])|done| |].
    - intros t w _ (l & Hl & Hw). unfold Q. by rewrite Hl.
    - intros x w _ (l & Hl & Hw). unfold Z. by rewrite Hl. }
  destruct Hsafe as [Hi Hp]. split.
  - intros t Hs. destruct (Hp _ _ Hs) as (P & _ & HP & Hq). by apply (Hq s.2).
  - intros x Hs. destruct (Hp _ _ Hs) as (P & _ & HP & Hq). by apply (Hq s.2).
Qed.

Definition cleanups (l : list entry) : nat := length (List.filter (λ e, bool_decide (e.1.1 = CLEANUP)) l).

Lemma cleanups_app l l' : cleanups (l ++ l') = (cleanups l + cleanups l')%nat.
Proof. unfold cleanups. by rewrite List.filter_app, length_app. Qed.

Lemma no_cleanups l : no_cleanup l → cleanups l = O.
Proof. unfold cleanups. induction 1 as [|e l He _ IH]; [done|]. simpl. by rewrite bool_decide_eq_false_2. Qed.

Lemma cleanup_ended_facts l : cleanup_ended l → cleanups l = 1%nat ∧ (length l ≤ 2)%nat ∧
  Forall (λ e, e.1.1 ∈ CLEANUP :: reconciling) l.
Proof.
  intros (input & a & after & -> & [->|(e & -> & He)]).
  - split_and!; [done|simpl; lia|]. repeat constructor.
  - unfold cleanups. simpl. rewrite bool_decide_eq_false_2 by (by apply reconciling_not_cleanup).
    split_and!; [done|simpl; lia|]. apply Forall_cons. split; [by left|]. apply Forall_cons. split; [by right|done].
Qed.


(** C33: success is only reported for a complete execution: the request was recorded, claimed,
    provisioned, ran to success, its outputs were captured and attested, in this order, with
    nothing else in between but the reconciliation of an ambiguous answer; no cancellation was
    asked before; and the cleanup answered cleaned, absent, duplicate or ambiguous. *)
Theorem sandbox_success_is_complete value turns t :
  SandboxWorkflowInput_ok value = true → str_len (wi_execution_id value) <= 112 → Forall turn_ok turns →
  (run_workflow value turns).1 !! 0%nat = Some (Return t) → wr_status t = WS_succeeded →
  ∃ before cleanup, ww_trace (run_workflow value turns).2 = before ++ cleanup ∧ completed before ∧
    cleanup_answered [AO_cleaned; AO_absent; AO_duplicate; AO_ambiguous] cleanup.
Proof.
  intros Hv Hr Ht Hp Hs. destruct (workflow_outcome value turns Hv Hr Ht) as [HR _].
  destruct (HR t Hp) as (before & cleanup & Hl & _ & _ & Hw). exists before, cleanup.
  destruct (Hw t eq_refl Hs). done.
Qed.

(** ** Termination *)

Lemma ends_stage s : ends_within (stage s) 1.
Proof. intros []. done. Qed.

Lemma ends_built {A : Set} (r : res A) : ends_within (X := wf_exn) (op := wf_op) (built r) 0.
Proof. by destruct r. Qed.

Lemma ends_call {R : Set} (o : wf_op R) : ends_within (X := wf_exn) (call o) 1.
Proof. by intros r. Qed.

Ltac ends := repeat match goal with
  | |- ends_within (if ?b then _ else _) _ => destruct b
  | |- ends_within (match ?x with _ => _ end) _ => destruct x
  | |- ends_within (Return _) _ => exact I
  | |- ends_within (Throw _) _ => exact I
  end.

Section ends.
Context (value : SandboxWorkflowInput).

Lemma ends_run_activity name operation command start heartbeat :
  ends_within (run_activity value name operation command start heartbeat) 1.
Proof. apply (ends_within_then _ _ 1 0); [apply ends_built|]. intros input a. by destruct a. Qed.

Lemma ends_failed code : ends_within (_failed value code) 0.
Proof. apply ends_built. Qed.

Lemma ends_result_then {A : Set} (p : wprog SandboxWorkflowResult) (f : SandboxWorkflowResult → wprog A) n :
  ends_within p 0 → (∀ r, ends_within (f r) n) → ends_within (then_ p f) n.
Proof. intros Hp Hf. by apply (ends_within_then _ _ n 0). Qed.

Lemma ends_require name operation ok : ends_within (_require value name operation ok) 1.
Proof. apply (ends_within_then _ _ 0 1); [apply ends_run_activity|]. intros o. ends. Qed.

Lemma ends_popped {A : Set} c (k : string → wprog A) n : (∀ s, ends_within (k s) n) → ends_within (then_ (popped c) k) n.
Proof. intros H. apply (ends_within_then _ _ n 0); [by destruct c|done]. Qed.

Lemma ends_reconcile : ends_within (_reconcile_ambiguous value) 7.
Proof.
  apply (ends_within_then _ _ 6 1); [apply ends_stage|]. intros _.
  apply (ends_within_then _ _ 5 1); [apply ends_call|]. intros a. destruct a; [|done|done].
  apply (ends_within_then _ _ 4 1); [apply ends_call|]. intros c. destruct c as [c|].
  { eapply ends_within_mono; [|apply ends_run_activity]. lia. }
  apply (ends_within_then _ _ 3 1); [apply ends_call|]. intros b. destruct b.
  - apply (ends_within_then _ _ 2 1); [apply ends_call|]. intros c. apply ends_popped. intros s.
    eapply ends_within_mono; [|apply ends_run_activity]. lia.
  - apply (ends_within_then _ _ 2 1); [apply ends_call|]. intros c. apply ends_popped. intros s.
    apply (ends_within_then _ _ 1 1); [apply ends_stage|]. intros _. apply ends_run_activity.
Qed.

Lemma ends_reconcile_if {A : Set} o (k : SandboxActivityOutcome → wprog A) n :
  (∀ o, ends_within (k o) n) →
  ends_within (o ←' (if decide (oc_outcome o = AO_ambiguous) then _reconcile_ambiguous value else Return o); k o) (7 + n).
Proof.
  intros Hk. apply (ends_within_then _ _ n 7); [|done]. destruct (decide _); [apply ends_reconcile|done].
Qed.

Lemma ends_cancel : ends_within (_cancel_if_requested value) 3.
Proof.
  apply (ends_within_then _ _ 2 1); [apply ends_call|]. intros c. destruct c as [c|]; [|done].
  apply (ends_within_then _ _ 1 1); [apply ends_stage|]. intros _.
  apply (ends_within_then _ _ 0 1); [apply ends_run_activity|]. intros o.
  destruct (decide _); apply ends_result_then; (apply ends_built || done).
Qed.

Lemma ends_provision : ends_within (provision_stage value) 9.
Proof.
  apply (ends_within_then _ _ 8 1); [apply ends_stage|]. intros _.
  apply (ends_within_then _ _ 7 1); [apply ends_run_activity|]. intros o.
  apply (ends_reconcile_if o _ 0). intros o'. destruct (decide _); [done|].
  apply ends_result_then; [apply ends_built|done].
Qed.

Lemma ends_wait : ends_within (wait_stage value) 9.
Proof.
  apply (ends_within_then _ _ 8 1); [apply ends_stage|]. intros _.
  apply (ends_within_then _ _ 7 1); [apply ends_run_activity|]. intros o.
  apply (ends_reconcile_if o _ 0). intros o'. destruct (status_of_outcome _); apply ends_built.
Qed.

Lemma ends_capture t : ends_within (capture_stage value t) 4.
Proof.
  apply (ends_within_then _ _ 3 1); [apply ends_stage|]. intros _.
  apply (ends_within_then _ _ 2 1); [apply ends_run_activity|]. intros o.
  destruct (decide (oc_outcome o = AO_quarantined)); [eapply ends_within_mono; [|apply ends_built]; lia|].
  destruct (decide (oc_outcome o ∉ _)); [eapply ends_within_mono; [|apply ends_failed]; lia|].
  apply (ends_within_then _ _ 1 1); [apply ends_stage|]. intros _.
  apply (ends_within_then _ _ 0 1); [apply ends_run_activity|]. intros o'.
  destruct (decide _); [apply ends_failed|done].
Qed.

Lemma ends_lifecycle : ends_within (lifecycle value) 32.
Proof.
  apply (ends_within_then _ _ 31 1); [apply ends_stage|]. intros _.
  apply (ends_within_then _ _ 30 1); [apply ends_require|]. intros _.
  apply (ends_within_then _ _ 29 1); [apply ends_stage|]. intros _.
  apply (ends_within_then _ _ 28 1); [apply ends_require|]. intros _.
  apply (ends_within_then _ _ 25 3); [apply ends_cancel|]. intros c.
  apply (ends_within_then _ _ 16 9); [destruct c; [done|apply ends_provision]|]. intros r.
  apply (ends_within_then _ _ 13 3); [apply ends_cancel|]. intros c'.
  apply (ends_within_then _ _ 4 9); [destruct c'; [done|destruct r; [done|apply ends_wait]]|]. intros t.
  destruct (decide _); [apply ends_capture|done].
Qed.

Lemma ends_cleanup t : ends_within (cleanup_stage value t) 9.
Proof.
  apply (ends_within_try _ _ _ 0 9); [|done|intros x; destruct x; (apply ends_failed || done)].
  apply (ends_within_then _ _ 8 1); [apply ends_stage|]. intros _.
  apply (ends_within_then _ _ 7 1); [apply ends_run_activity|]. intros o.
  destruct (decide (oc_outcome o = AO_ambiguous)).
  - apply (ends_within_then _ _ 0 7); [apply ends_reconcile|done].
  - destruct (decide _); [eapply ends_within_mono; [|apply ends_failed]; lia|done].
Qed.

Lemma ends_run : ends_within (run value) 42.
Proof.
  apply (ends_within_then _ _ 1 41).
  - apply (ends_within_try _ _ _ 9 32).
    + apply (ends_within_try _ _ _ 0 32); [apply ends_lifecycle|done|].
      intros x. destruct x; (apply ends_failed || done).
    + intros t. apply ends_cleanup.
    + intros x. apply (ends_within_then _ _ 0 9); [apply ends_cleanup|done].
  - intros t. apply (ends_within_then _ _ 0 1); [apply ends_stage|done].
Qed.
End ends.

Definition steps (turns : list turn) : nat :=
  length (List.filter (λ t, match t with Step _ => true | Signalled _ => false end) turns).

Lemma steps_all_turns turns : steps_of 0 (move_of <$> turns) = steps turns.
Proof.
  unfold steps_of, steps. induction turns as [|t turns IH]; [done|]. destruct t as [e|s]; simpl; [f_equal|]; exact IH.
Qed.

(** The workflow ends: after 42 of its own steps it has returned or raised, whatever was
    answered and however many signals came in between. *)
Theorem sandbox_workflow_ends value turns :
  (42 ≤ steps turns)%nat → ∃ p, (run_workflow value turns).1 !! 0%nat = Some p ∧ ended p = true.
Proof.
  intros Hs. eapply (run_pool_ends handle _ 0); [done|apply ends_run|]. by rewrite steps_all_turns.
Qed.

(** ** Concrete runs *)

Definition demo_input : SandboxWorkflowInput :=
  {| wi_tenant_ref := "tenant-a"; wi_actor_ref := "actor-1"; wi_request_ref := "request-1";
     wi_execution_id := "exec-1"; wi_workflow_id := "workflow-1"; wi_attempt := 1;
     wi_execution_timeout_seconds := 300; wi_reconciliation_timeout_seconds := 900;
     wi_cleanup_timeout_seconds := 300 |}.

Definition answer (o : activity_outcome) : turn :=
  Step {| en_activity := Answered {| oc_outcome := o; oc_result_ref := None; oc_provider_ref := None |};
          en_cancelled := false |}.

(** Each outcome answers the next Activity; the other steps do not look at it. *)
Definition steps_with (l : list (nat * activity_outcome)) : list turn :=
  l ≫= λ '(n, o), repeat (answer o) n.

Definition demo_success : list turn :=
  steps_with [(2, AO_recorded); (2, AO_claimed); (3, AO_provisioned); (3, AO_succeeded); (2, AO_captured);
              (2, AO_attested); (2, AO_cleaned); (30, AO_cleaned)]%nat.

Definition returned_status (s : list (wprog SandboxWorkflowResult) * wf_world) : option workflow_status :=
  match s.1 with [Return t] => Some (wr_status t) | _ => None end.

Example demo_succeeds : returned_status (run_workflow demo_input demo_success) = Some WS_succeeded.
Proof. vm_compute. reflexivity. Qed.

Lemma steps_with_ok l : Forall turn_ok (steps_with l).
Proof.
  apply Forall_forall. intros t Ht. apply list_elem_of_bind in Ht as ([n o] & Ht & _).
  apply list_elem_of_In in Ht. apply repeat_spec in Ht as ->. reflexivity.
Qed.

Definition demo_end : wprog SandboxWorkflowResult := default (Throw CancelledError) ((run_workflow demo_input demo_success).1 !! 0%nat).

Lemma demo_end_is : (run_workflow demo_input demo_success).1 !! 0%nat = Some demo_end.
Proof. vm_compute. reflexivity. Qed.

Lemma demo_end_ended : ended demo_end = true.
Proof. vm_compute. reflexivity. Qed.

Lemma demo_input_ok : SandboxWorkflowInput_ok demo_input = true.
Proof. vm_compute. reflexivity. Qed.

Lemma demo_input_room : str_len (wi_execution_id demo_input) <= 112.
Proof. vm_compute. discriminate. Qed.


Definition demo_result : SandboxWorkflowResult :=
  {| wr_execution_id := "exec-1"; wr_status := WS_succeeded; wr_result_ref := None; wr_failure_code := None |}.

Lemma demo_end_result : (run_workflow demo_input demo_success).1 !! 0%nat = Some (Return demo_result).
Proof. vm_compute. reflexivity. Qed.

Lemma sandbox_success_is_complete_witness :
  ∃ before cleanup, ww_trace (run_workflow demo_input demo_success).2 = before ++ cleanup ∧ completed before.
Proof.
  pose proof (sandbox_success_is_complete demo_input demo_success demo_result demo_input_ok demo_input_room
    (steps_with_ok _) demo_end_result eq_refl) as Hw.
  destruct Hw as (before & cleanup & Ht & Hc & _). exists before, cleanup. split; [exact Ht|exact Hc].
Defined.

Lemma demo_success_steps : (42 ≤ steps demo_success)%nat.
Proof. vm_compute. repeat constructor. Qed.

Lemma sandbox_workflow_ends_witness : ∃ p, (run_workflow demo_input demo_success).1 !! 0%nat = Some p ∧ ended p = true.
Proof. exact (sandbox_workflow_ends demo_input demo_success demo_success_steps). Defined.

(** ** What the model shows *)

(** An ambiguous cleanup whose reconciliation stays ambiguous does not spoil the success. *)
Lemma ambiguous_cleanup_succeeds :
  let turns := Signalled (ReconcileSandbox "command-1")
    :: steps_with [(2, AO_recorded); (2, AO_claimed); (3, AO_provisioned); (3, AO_succeeded); (2, AO_captured);
                   (2, AO_attested); (30, AO_ambiguous)]%nat in
  returned_status (run_workflow demo_input turns) = Some WS_succeeded ∧
  (λ e : entry, (e.1.1, match e.2 with Answered o => Some (oc_outcome o) | Refused _ => None end))
    <$> last (ww_trace (run_workflow demo_input turns).2) = Some (RECONCILE, Some AO_ambiguous).
Proof. vm_compute. done. Qed.

(** The operation id appends up to 16 characters to an execution id that may have 128: with a
    long one the input of the first Activity is refused, and so is the cleanup's, with an
    exception the workflow does not catch. *)
Lemma long_execution_id_is_not_cleaned :
  let value := {| wi_tenant_ref := "tenant-a"; wi_actor_ref := "actor-1"; wi_request_ref := "request-1";
                  wi_execution_id := str_repeat 128 "x"; wi_workflow_id := "workflow-1"; wi_attempt := 1;
                  wi_execution_timeout_seconds := 300; wi_reconciliation_timeout_seconds := 900;
                  wi_cleanup_timeout_seconds := 300 |} in
  let s := run_workflow value (steps_with [(42, AO_duplicate)]%nat) in
  SandboxWorkflowInput_ok value = true ∧ ww_trace s.2 = [] ∧
  match s.1 with [Throw (Defect e)] => exn_kind e = ValidationError | _ => False end.
Proof. vm_compute. done. Qed.

(** Commands of every kind count against one bound of 64: a cancellation after that many is
    dropped. *)
Lemma late_cancellation_is_dropped :
  let w := foldl (λ w n, reconcile_sandbox ("command-" +:+ str_of_int (Z.of_nat n)) w) new_workflow (seq 0 64) in
  os_cancellation_requested (operational_state (request_cancel "cancel-1" w)) = false.
Proof. vm_compute. reflexivity. Qed.
