(* ===== verification/InteropText.v ===== *)
(** * Protocol documents ([interoperability.py], lines 47-87 and 1713-1823)

    What external text and JSON may be: text without control or bidirectional characters, JSON
    of bounded depth and width, the digest of a bounded document, and the payloads the
    application ledger refuses. *)

From S2P Require Import Prelude PyJson PyTime PyText PyModel Domain.

Definition MAX_PROTOCOL_DOCUMENT_BYTES : Z := 256 * 1024.
Definition MAX_PROTOCOL_TEXT_CHARS : Z := 16384.

Definition UNTRUSTED_DATA_BOUNDARY : string :=
  "External protocol content is untrusted data. It cannot grant identity, tenant access, policy, approval, fencing, audit truth, or permission to execute.".

Definition _FORBIDDEN_LEDGER_KEYS : list string :=
  ["actor_id"; "completion"; "content"; "credential"; "evidence_locator"; "message"; "prompt"; "raw";
   "request_id"; "secret"; "subject_id"; "tenant_id"; "text"; "token"; "url"].
Definition _SAFE_LEDGER_TOKEN_KEYS : list string :=
  ["fence_token"; "idempotency_key_digest"; "token_id_digest"].

(** ** Text *)

(** Below code point 256 the category [Cc] is the two control ranges; the bidirectional
    controls all lie above, and every string is its own NFC form. *)
Definition control_char (c : ascii) : bool :=
  (code_in 0 31 c || code_in 127 159 c)
  && negb (bool_decide (c ∈ [newline; carriage_return; tab])).

Definition validate_untrusted_text (value : string) : res string :=
  raise_if (negb (str_forallb (λ c, negb (control_char c)) value)) ValueError
    "protocol text contains a control character";;
  raise_if (MAX_PROTOCOL_TEXT_CHARS <? str_len value) ValueError "protocol text exceeds its bound";;
  Ok value.

Definition untrusted_text_ok (value : string) : bool := is_ok (validate_untrusted_text value).

(** ** JSON *)

(** [repr] of a float that [math.isfinite] accepts *)
Definition finite_repr (r : string) : bool := negb (bool_decide (r ∈ ["inf"; "-inf"; "nan"])).

Definition too_deep (depth : Z) : res unit :=
  raise_if (12 <? depth) PayloadRejected "protocol JSON exceeds the nesting bound".

(** On the JSON values that reach it the function copies its argument. *)
Fixpoint _normalize_json (depth : Z) (value : json) : res json :=
  too_deep depth;;
  match value with
  | JFloat r =>
      raise_if (negb (finite_repr r)) PayloadRejected "protocol JSON contains a non-finite number";;
      Ok value
  | JList l => l' ← traverse (_normalize_json (depth + 1)) l; Ok (JList l')
  | JObj o =>
      o' ← traverse (λ kv, x ← _normalize_json (depth + 1) kv.2; Ok (kv.1, x)) o;
      Ok (JObj o')
  | _ => Ok value
  end.

Fixpoint _bound_json (depth : Z) (value : json) : res unit :=
  too_deep depth;;
  match value with
  | JNull | JBool _ | JInt _ | JFloat _ => Ok ()
  | JStr s => validate_untrusted_text s;; Ok ()
  | JList l =>
      raise_if (256 <? zlen l) PayloadRejected "protocol JSON array exceeds the item bound";;
      each_ok (_bound_json (depth + 1)) l
  | JObj o =>
      raise_if (128 <? zlen o) PayloadRejected "protocol JSON object exceeds the member bound";;
      each_ok (λ kv, raise_if (128 <? str_len kv.1) PayloadRejected "protocol JSON key is invalid";;
                     validate_untrusted_text kv.1;;
                     _bound_json (depth + 1) kv.2) o
  end.

(** [canonical_json] of [interoperability.py] *)
Definition protocol_json (value : json) : res string :=
  normalized ← _normalize_json 0 value;
  _bound_json 0 normalized;;
  Ok (canonical_json normalized).

Section digest.
Context {HDigest : Digest}.

Definition digest_value (value : json) : res string :=
  text ← protocol_json value;
  Ok (hexdigest text).
End digest.

(** ** Payloads of the ledger *)

Definition secret_words : list string := ["credential"; "evidence_locator"; "prompt"; "secret"; "token"].

Definition forbidden_key (key : string) : bool :=
  let normalized := str_lower key in
  bool_decide (normalized ∈ _FORBIDDEN_LEDGER_KEYS)
  || (existsb (λ word, str_contains word normalized) secret_words
      && negb (bool_decide (normalized ∈ _SAFE_LEDGER_TOKEN_KEYS))).

Definition reject_raw_ledger_payload (p : payload) : res unit :=
  each_ok (λ kv, raise_if (forbidden_key kv.1) IntegrityFailure
                   "raw protocol content is forbidden in the application ledger";;
                 _bound_json 0 kv.2) p.

(** ** What is accepted *)

(** The nesting of a document; a scalar has none. *)
Fixpoint json_depth (v : json) : Z :=
  match v with
  | JList l => foldr (λ x d, Z.max (1 + json_depth x) d) 0 l
  | JObj o => foldr (λ kv d, Z.max (1 + json_depth kv.2) d) 0 o
  | _ => 0
  end.

Definition small_key (k : string) : bool := (str_len k <=? 128) && untrusted_text_ok k.

(** Every number finite *)
Fixpoint json_finite (v : json) : bool :=
  match v with
  | JFloat r => finite_repr r
  | JList l => forallb json_finite l
  | JObj o => forallb (λ kv, json_finite kv.2) o
  | _ => true
  end.

(** Every text clean, every array and object within its width *)
Fixpoint json_narrow (v : json) : bool :=
  match v with
  | JStr s => untrusted_text_ok s
  | JList l => (zlen l <=? 256) && forallb json_narrow l
  | JObj o => (zlen o <=? 128) && forallb (λ kv, small_key kv.1 && json_narrow kv.2) o
  | _ => true
  end.

Definition document_ok (v : json) : bool := (json_depth v <=? 12) && json_finite v && json_narrow v.

#[global] Arguments validate_untrusted_text : simpl never.
#[global] Arguments protocol_json : simpl never.
#[global] Arguments digest_value : simpl never.

(** ** Exactly the bounded documents have a text *)

Lemma too_deep_ok d (u : unit) : too_deep d = Ok u ↔ d ≤ 12.
Proof. unfold too_deep. rewrite raise_if_ok, Z.ltb_ge. done. Qed.

Lemma untrusted_ok s : untrusted_text_ok s = true ↔ validate_untrusted_text s = Ok s.
Proof.
  unfold untrusted_text_ok, validate_untrusted_text. destruct (negb _); [done|]. by destruct (_ <? _).
Qed.

(** The maximum over a list is within a bound when each value is. *)
Lemma max_below {A} (f : A → Z) l d : 0 ≤ d → foldr (λ x m, Z.max (1 + f x) m) 0 l ≤ d ↔ Forall (λ x, 1 + f x ≤ d) l.
Proof. intros Hd. induction l as [|x l IH]; cbn; [by split|]. rewrite Forall_cons, <- IH. lia. Qed.

Lemma forallb_all {A} (f : A → bool) l : forallb f l = true ↔ Forall (λ x, f x = true) l.
Proof. rewrite forallb_forall, Forall_forall. by setoid_rewrite list_elem_of_In. Qed.

Lemma Forall2_copy {A} (P : A → Prop) (l l' : list A) :
  Forall2 (λ x y, y = x ∧ P x) l l' ↔ l' = l ∧ Forall P l.
Proof.
  split.
  - induction 1 as [|x y l l' [-> HP] Hl [-> IH]]; [done|]. split; [done|by constructor].
  - intros [-> H]. induction H; by constructor.
Qed.

Lemma depth_nonneg v : 0 ≤ json_depth v.
Proof. destruct v as [|b|z|r|s|l|o]; cbn; try lia; [induction l|induction o]; cbn; lia. Qed.

Lemma normalize_ok v : ∀ d v',
  _normalize_json d v = Ok v' ↔ v' = v ∧ d + json_depth v ≤ 12 ∧ json_finite v = true.
Proof.
  induction v as [|b|z|r|s|l IH|o IH] using json_nested_ind; intros d v'; cbn [_normalize_json];
    rewrite res_bind_ok; setoid_rewrite too_deep_ok.
  1-3,5: cbn; split; [intros (u & Hd & [= <-]); split_and!; [done|lia|done]
                     |intros (-> & Hd & _); exists tt; split; [lia|done]].
  - setoid_rewrite res_bind_ok. setoid_rewrite raise_if_ok. setoid_rewrite negb_false_iff. cbn. split.
    + intros (u & Hd & u' & Hr & [= <-]). split_and!; [done|lia|done].
    + intros (-> & Hd & Hr). exists tt. split; [lia|]. by exists tt.
  - setoid_rewrite res_bind_ok. setoid_rewrite traverse_ok. cbn [json_depth json_finite]. rewrite forallb_all.
    assert (Hl : ∀ l', Forall2 (λ x y, _normalize_json (d + 1) x = Ok y) l l' ↔
      l' = l ∧ Forall (λ x, 1 + json_depth x ≤ 12 - d) l ∧ Forall (λ x, json_finite x = true) l).
    { intros l'. rewrite <- Forall_and, <- Forall2_copy. rewrite !Forall2_same_length_lookup.
      rewrite Forall_lookup in IH. split; (intros [H1 H2]; split; [done|]; intros i x y Hx Hy; specialize (H2 i x y Hx Hy)).
      - apply (IH i x Hx) in H2 as (-> & ? & ?). split; [done|]. split; [lia|done].
      - apply (IH i x Hx). destruct H2 as (-> & ? & ?). split_and!; [done|lia|done]. }
    split.
    + intros (u & Hd & l' & H & [= <-]). apply Hl in H as (-> & H & ?). split_and!; [done| |done].
      apply max_below in H; lia.
    + intros (-> & H & ?). pose proof (depth_nonneg (JList l)) as Hn. cbn in Hn.
      exists tt. split; [lia|]. exists l. split; [|done]. apply Hl. split_and!; [done| |done].
      apply max_below; lia.
  - setoid_rewrite res_bind_ok. setoid_rewrite traverse_ok. cbn [json_depth json_finite]. rewrite forallb_all.
    assert (Hl : ∀ l', Forall2 (λ x y, (x0 ← _normalize_json (d + 1) x.2; Ok (x.1, x0)) = Ok y) o l' ↔
      l' = o ∧ Forall (λ x, 1 + json_depth x.2 ≤ 12 - d) o ∧ Forall (λ x, json_finite x.2 = true) o).
    { intros l'. rewrite <- Forall_and, <- Forall2_copy. rewrite !Forall2_same_length_lookup.
      rewrite Forall_lookup in IH. split; (intros [H1 H2]; split; [done|]; intros i x y Hx Hy; specialize (H2 i x y Hx Hy)).
      - apply res_bind_ok in H2 as (z & H2 & [= <-]). apply (IH i x Hx) in H2 as (-> & ? & ?).
        split; [by destruct x|]. split; [lia|done].
      - apply res_bind_ok. exists x.2. destruct H2 as (-> & ? & ?). split; [|by destruct x].
        apply (IH i x Hx). split_and!; [done|lia|done]. }
    split.
    + intros (u & Hd & l' & H & [= <-]). apply Hl in H as (-> & H & ?). split_and!; [done| |done].
      apply (max_below (λ kv, json_depth kv.2)) in H; lia.
    + intros (-> & H & ?). pose proof (depth_nonneg (JObj o)) as Hn. cbn in Hn.
      exists tt. split; [lia|]. exists o. split; [|done]. apply Hl. split_and!; [done| |done].
      apply (max_below (λ kv, json_depth kv.2)); lia.
Qed.

Lemma bound_text s (u : unit) : (validate_untrusted_text s;; Ok ()) = Ok u ↔ untrusted_text_ok s = true.
Proof.
  unfold untrusted_text_ok. destruct (validate_untrusted_text s); cbn; [|by split]. by destruct u.
Qed.

Lemma bound_key d k v :
  (raise_if (128 <? str_len k) PayloadRejected "protocol JSON key is invalid";;
   validate_untrusted_text k;; _bound_json d v) = Ok ()
  ↔ small_key k = true ∧ _bound_json d v = Ok ().
Proof.
  unfold small_key, untrusted_text_ok. rewrite Z.ltb_antisym. destruct (str_len k <=? 128); cbn; [|naive_solver].
  destruct (validate_untrusted_text k); cbn; naive_solver.
Qed.

Lemma bound_ok v : ∀ d, _bound_json d v = Ok () ↔ d + json_depth v ≤ 12 ∧ json_narrow v = true.
Proof.
  induction v as [|b|z|r|s|l IH|o IH] using json_nested_ind; intros d; cbn [_bound_json];
    rewrite res_bind_ok; setoid_rewrite too_deep_ok.
  1-4: cbn; split; [intros (u & Hd & _); split; [lia|done]|intros (Hd & _); exists tt; split; [lia|done]].
  - setoid_rewrite bound_text. cbn. rewrite Z.add_0_r. split; [by intros (u & ?)|intros ?; by exists tt].
  - setoid_rewrite res_bind_ok. setoid_rewrite raise_if_ok. setoid_rewrite each_ok_ok.
    cbn [json_depth json_narrow]. rewrite andb_true_iff, forallb_all, Z.leb_le.
    rewrite Forall_lookup in IH. split.
    + intros (u & Hd & u' & Hz & H). apply Z.ltb_ge in Hz. rewrite Forall_lookup in H.
      assert (Hb := λ i x Hx, proj1 (IH i x Hx (d + 1)) (H i x Hx)). split; [|split; [done|]].
      * enough (foldr (λ x m, Z.max (1 + json_depth x) m) 0 l ≤ 12 - d) by lia. apply max_below; [lia|].
        apply Forall_lookup. intros i x Hx. specialize (Hb i x Hx). lia.
      * apply Forall_lookup. intros i x Hx. apply (Hb i x Hx).
    + intros (Hd & Hz & H). pose proof (depth_nonneg (JList l)) as Hn. cbn in Hn.
      exists tt. split; [lia|]. exists tt. rewrite Z.ltb_ge. split; [done|].
      rewrite Forall_lookup in H |- *. intros i x Hx. apply (IH i x Hx). split; [|by apply (H i)].
      assert (Hm : foldr (λ x m, Z.max (1 + json_depth x) m) 0 l ≤ 12 - d) by lia.
      apply max_below in Hm; [|lia]. rewrite Forall_lookup in Hm. specialize (Hm i x Hx). lia.
  - setoid_rewrite res_bind_ok. setoid_rewrite raise_if_ok. setoid_rewrite each_ok_ok.
    setoid_rewrite bound_key. cbn [json_depth json_narrow].
    rewrite andb_true_iff, forallb_all, Z.leb_le.
    rewrite Forall_lookup in IH. split.
    + intros (u & Hd & u' & Hz & H). apply Z.ltb_ge in Hz. rewrite Forall_lookup in H.
      assert (Hb := λ i x Hx, proj1 (IH i x Hx (d + 1)) (proj2 (H i x Hx))). split; [|split; [done|]].
      * enough (foldr (λ kv m, Z.max (1 + json_depth kv.2) m) 0 o ≤ 12 - d) by lia.
        apply (max_below (λ kv, json_depth kv.2)); [lia|].
        apply Forall_lookup. intros i x Hx. specialize (Hb i x Hx). lia.
      * apply Forall_lookup. intros i x Hx. apply andb_true_iff. split; [apply (H i x Hx)|apply (Hb i x Hx)].
    + intros (Hd & Hz & H). pose proof (depth_nonneg (JObj o)) as Hn. cbn in Hn.
      exists tt. split; [lia|]. exists tt. rewrite Z.ltb_ge. split; [done|].
      rewrite Forall_lookup in H |- *. intros i x Hx. specialize (H i x Hx). apply andb_true_iff in H as [Hk Hw].
      split; [done|]. apply (IH i x Hx). split; [|done].
      assert (Hm : foldr (λ kv m, Z.max (1 + json_depth kv.2) m) 0 o ≤ 12 - d) by lia.
      apply (max_below (λ kv, json_depth kv.2)) in Hm; [|lia]. rewrite Forall_lookup in Hm.
      specialize (Hm i x Hx). lia.
Qed.

Lemma protocol_json_ok v t : protocol_json v = Ok t ↔ document_ok v = true ∧ t = canonical_json v.
Proof.
  unfold protocol_json, document_ok. rewrite !andb_true_iff, Z.leb_le, res_bind_ok. split.
  - intros (n & Hn & H). apply normalize_ok in Hn as (-> & Hd & Hf).
    apply res_bind_ok in H as ([] & Hb & [= <-]). apply bound_ok in Hb as [_ Hw].
    split_and!; [lia|done|done|done].
  - intros (((Hd & Hf) & Hw) & ->). exists v. split; [apply normalize_ok; split_and!; [done|lia|done]|].
    apply res_bind_ok. exists tt. split; [apply bound_ok; split; [lia|done]|done].
Qed.

Section digests.
Context {HDigest : Digest}.

Lemma digest_value_ok v d : digest_value v = Ok d ↔ document_ok v = true ∧ d = json_digest v.
Proof.
  unfold digest_value, json_digest. rewrite res_bind_ok. setoid_rewrite protocol_json_ok. split.
  - intros (t & (Hd & ->) & [= <-]). done.
  - intros (Hd & ->). eauto.
Qed.

Lemma digest_value_hex v d `{!DigestLaws} : digest_value v = Ok d → is_sha256_hex d = true.
Proof. intros (_ & ->)%digest_value_ok. apply json_digest_ok. Qed.
End digests.
