(* ===== verification/InteropData.v ===== *)
(** * Protocol contracts ([interoperability.py], lines 89-541)

    Principals, capabilities, messages, artifacts, tasks, statuses, agent cards and trust
    entries: the data external protocols exchange with the application, each with its
    constraints, its validators and its JSON document. *)

From S2P Require Import Prelude PyJson PyTime PyText PyModel Domain InteropText.

(** ** Enumerations *)

Inductive ProtocolKind := PK_MCP | PK_A2A.
#[export] Instance ProtocolKind_eq_dec : EqDecision ProtocolKind.
Proof. solve_decision. Defined.
Definition protocol_value (k : ProtocolKind) : string := match k with PK_MCP => "mcp" | PK_A2A => "a2a" end.

Inductive TransportKind := TK_STDIO | TK_STREAMABLE_HTTP | TK_JSON_RPC_HTTP | TK_GRPC.
#[export] Instance TransportKind_eq_dec : EqDecision TransportKind.
Proof. solve_decision. Defined.
Definition transport_value (k : TransportKind) : string :=
  match k with
  | TK_STDIO => "stdio" | TK_STREAMABLE_HTTP => "streamable-http" | TK_JSON_RPC_HTTP => "json-rpc-http"
  | TK_GRPC => "grpc"
  end.

Inductive TrustTier := TT_INTERNAL | TT_PARTNER | TT_RESTRICTED.
#[export] Instance TrustTier_eq_dec : EqDecision TrustTier.
Proof. solve_decision. Defined.
Definition tier_value (t : TrustTier) : string :=
  match t with TT_INTERNAL => "internal" | TT_PARTNER => "partner" | TT_RESTRICTED => "restricted" end.

Inductive TrustStatus :=
  | TS_PENDING_REVIEW | TS_ACTIVE | TS_QUARANTINED | TS_REVOKED | TS_EXPIRED | TS_EMERGENCY_DISABLED.
#[export] Instance TrustStatus_eq_dec : EqDecision TrustStatus.
Proof. solve_decision. Defined.
Definition trust_status_value (s : TrustStatus) : string :=
  match s with
  | TS_PENDING_REVIEW => "pending-review" | TS_ACTIVE => "active" | TS_QUARANTINED => "quarantined"
  | TS_REVOKED => "revoked" | TS_EXPIRED => "expired" | TS_EMERGENCY_DISABLED => "emergency-disabled"
  end.

Inductive DataClassification := DC_PUBLIC | DC_INTERNAL | DC_CONFIDENTIAL | DC_RESTRICTED.
#[export] Instance DataClassification_eq_dec : EqDecision DataClassification.
Proof. solve_decision. Defined.
Definition classification_value (c : DataClassification) : string :=
  match c with
  | DC_PUBLIC => "public" | DC_INTERNAL => "internal" | DC_CONFIDENTIAL => "confidential"
  | DC_RESTRICTED => "restricted"
  end.

Inductive CapabilityOperation := CO_READ | CO_INVESTIGATE | CO_PROPOSE | CO_STATUS.
#[export] Instance CapabilityOperation_eq_dec : EqDecision CapabilityOperation.
Proof. solve_decision. Defined.
Definition operation_value (o : CapabilityOperation) : string :=
  match o with
  | CO_READ => "read" | CO_INVESTIGATE => "investigate" | CO_PROPOSE => "propose" | CO_STATUS => "status"
  end.

Inductive TaskState :=
  | TA_SUBMITTED | TA_WORKING | TA_INPUT_REQUIRED | TA_COMPLETED | TA_FAILED | TA_CANCELLED
  | TA_RECONCILIATION_REQUIRED | TA_QUARANTINED.
#[export] Instance TaskState_eq_dec : EqDecision TaskState.
Proof. solve_decision. Defined.
Definition task_state_value (s : TaskState) : string :=
  match s with
  | TA_SUBMITTED => "submitted" | TA_WORKING => "working" | TA_INPUT_REQUIRED => "input-required"
  | TA_COMPLETED => "completed" | TA_FAILED => "failed" | TA_CANCELLED => "cancelled"
  | TA_RECONCILIATION_REQUIRED => "reconciliation-required" | TA_QUARANTINED => "quarantined"
  end.

Inductive InvocationState :=
  | IV_REQUESTED | IV_CLAIMED | IV_SUCCEEDED | IV_FAILED | IV_AMBIGUOUS | IV_CANCELLED | IV_RECONCILED
  | IV_QUARANTINED.
#[export] Instance InvocationState_eq_dec : EqDecision InvocationState.
Proof. solve_decision. Defined.
Definition invocation_state_value (s : InvocationState) : string :=
  match s with
  | IV_REQUESTED => "requested" | IV_CLAIMED => "claimed" | IV_SUCCEEDED => "succeeded"
  | IV_FAILED => "failed" | IV_AMBIGUOUS => "ambiguous" | IV_CANCELLED => "cancelled"
  | IV_RECONCILED => "reconciled" | IV_QUARANTINED => "quarantined"
  end.

Inductive ErrorClass :=
  | EK_AUTHENTICATION | EK_AUTHORIZATION | EK_VALIDATION | EK_CAPACITY | EK_TIMEOUT | EK_DEPENDENCY
  | EK_CONFLICT | EK_CANCELLED | EK_INTEGRITY | EK_AMBIGUOUS.

(** [tuple(sorted(set(value), key=str))] *)
Definition sorted_values {A} `{!EqDecision A} (value : A → string) (l : list A) : list A :=
  py_sorted (λ a b, str_leb (value a) (value b)) (remove_dups l).

(** What a validator raises: a [ValueError] becomes the model's [ValidationError], any other
    exception passes. *)
Definition in_validator {A} (name : string) (r : res A) : res A :=
  match r with
  | Raise e => if decide (exn_kind e = ValueError) then raise ValidationError name else Raise e
  | Ok a => Ok a
  end.

(** [lo <= n <= hi] on the bytes of a document *)
Definition document_bytes (lo n : Z) : bool := in_range lo MAX_PROTOCOL_DOCUMENT_BYTES n.

(** The pattern of media types *)
Definition media_char (c : ascii) : bool :=
  char_in_range "a" "z" c || is_digit c || bool_decide (c ∈ ["."; "+"; "-"]%char).
Definition MEDIA_TYPE : regex := RSeqs [RPlus (RChar media_char); RLit exactly "/"; RPlus (RChar media_char)].

(** ** Principals and capabilities *)

Inductive principal_kind := K_human | K_workload | K_external_agent.
#[export] Instance principal_kind_eq_dec : EqDecision principal_kind.
Proof. solve_decision. Defined.

Record PrincipalContract := {
  pn_principal_ref : string;
  pn_kind : principal_kind;
  pn_issuer_digest : string;
  pn_audience : string;
  pn_scopes : list string;
  pn_tenant_ref : string;
  pn_purpose : string;
  pn_proof_digest : string;
  pn_authenticated_at : datetime;
  pn_expires_at : datetime
}.

Definition PrincipalContract_ok (p : PrincipalContract) : bool :=
  forallb Identifier [pn_principal_ref p; pn_audience p; pn_purpose p]
  && forallb is_sha256_hex [pn_issuer_digest p; pn_proof_digest p]
  && forallb Identifier (pn_scopes p) && count_range 0 32 (pn_scopes p)
  && negb (bool_decide (pn_scopes p = []))
  && OpaqueReference (pn_tenant_ref p)
  && (pn_authenticated_at p <? pn_expires_at p).

(** With [normalize_scopes] *)
Definition new_PrincipalContract (p : PrincipalContract) : res PrincipalContract :=
  validated PrincipalContract_ok "PrincipalContract" p;;
  Ok {| pn_principal_ref := pn_principal_ref p; pn_kind := pn_kind p;
        pn_issuer_digest := pn_issuer_digest p; pn_audience := pn_audience p;
        pn_scopes := sorted_set (pn_scopes p); pn_tenant_ref := pn_tenant_ref p;
        pn_purpose := pn_purpose p; pn_proof_digest := pn_proof_digest p;
        pn_authenticated_at := pn_authenticated_at p; pn_expires_at := pn_expires_at p |}.

Record CapabilityContract := {
  cp_capability_id : string;
  cp_protocol : ProtocolKind;
  cp_operation : CapabilityOperation;
  cp_resource_kind : string;
  cp_risk : RiskLevel;
  cp_input_schema_digest : string;
  cp_output_schema_digest : string;
  cp_maximum_input_bytes : Z;
  cp_maximum_output_bytes : Z
}.

Definition CapabilityContract_ok (c : CapabilityContract) : bool :=
  forallb Identifier [cp_capability_id c; cp_resource_kind c]
  && forallb is_sha256_hex [cp_input_schema_digest c; cp_output_schema_digest c]
  && document_bytes 1 (cp_maximum_input_bytes c) && document_bytes 1 (cp_maximum_output_bytes c).

(** [requires_application_authorization], [permits_approval] and [permits_effect] are fixed. *)
Definition capability_json (c : CapabilityContract) : json :=
  JObj [("schema_version", JInt 1); ("capability_id", JStr (cp_capability_id c));
        ("protocol", JStr (protocol_value (cp_protocol c)));
        ("operation", JStr (operation_value (cp_operation c)));
        ("resource_kind", JStr (cp_resource_kind c)); ("risk", JStr (risk_value (cp_risk c)));
        ("input_schema_digest", JStr (cp_input_schema_digest c));
        ("output_schema_digest", JStr (cp_output_schema_digest c));
        ("maximum_input_bytes", JInt (cp_maximum_input_bytes c));
        ("maximum_output_bytes", JInt (cp_maximum_output_bytes c));
        ("requires_application_authorization", JBool true); ("permits_approval", JBool false);
        ("permits_effect", JBool false)].

Record ResourceContract := {
  rs_resource_ref : string;
  rs_resource_kind : string;
  rs_media_type : string;
  rs_content_digest : string;
  rs_size_bytes : Z;
  rs_classification : DataClassification;
  rs_redacted : bool;
  rs_provenance_digest : string;
  rs_expires_at : datetime
}.

Definition ResourceContract_ok (r : ResourceContract) : bool :=
  OpaqueReference (rs_resource_ref r) && Identifier (rs_resource_kind r)
  && re_fullmatch MEDIA_TYPE (rs_media_type r)
  && forallb is_sha256_hex [rs_content_digest r; rs_provenance_digest r]
  && document_bytes 0 (rs_size_bytes r).

Record ToolContract := {
  tl_tool_id : string;
  tl_capability_id : string;
  tl_name : string;
  tl_description_digest : string;
  tl_input_schema_digest : string;
  tl_output_schema_digest : string;
  tl_risk : RiskLevel;
  tl_idempotent : bool
}.

Definition tool_name_char (c : ascii) : bool :=
  char_in_range "a" "z" c || is_digit c || bool_decide (c ∈ ["."; "_"; "-"]%char).

Definition ToolContract_ok (t : ToolContract) : bool :=
  forallb Identifier [tl_tool_id t; tl_capability_id t]
  && length_between 1 128 (tl_name t) && str_forallb tool_name_char (tl_name t)
  && forallb is_sha256_hex [tl_description_digest t; tl_input_schema_digest t; tl_output_schema_digest t].

(** ** Messages and artifacts *)

Record CitationContract := {
  ct_evidence_id : string;
  ct_locator_digest : string;
  ct_content_hash : string;
  ct_provenance_digest : string
}.

Definition CitationContract_ok (c : CitationContract) : bool :=
  Identifier (ct_evidence_id c)
  && forallb is_sha256_hex [ct_locator_digest c; ct_content_hash c; ct_provenance_digest c].

Definition citation_json (c : CitationContract) : json :=
  JObj [("schema_version", JInt 1); ("evidence_id", JStr (ct_evidence_id c));
        ("locator_digest", JStr (ct_locator_digest c)); ("content_hash", JStr (ct_content_hash c));
        ("provenance_digest", JStr (ct_provenance_digest c))].

Inductive part_kind := PT_text | PT_data | PT_resource_ref.
#[export] Instance part_kind_eq_dec : EqDecision part_kind.
Proof. solve_decision. Defined.
Definition part_kind_value (k : part_kind) : string :=
  match k with PT_text => "text" | PT_data => "data" | PT_resource_ref => "resource-ref" end.

Record MessagePart := {
  mp_part_id : string;
  mp_kind : part_kind;
  mp_media_type : string;
  mp_text : option string;
  mp_data : option payload;
  mp_resource_ref : option string;
  mp_content_digest : string;
  mp_redacted : bool
}.

(** The field constraints and [validate_text] *)
Definition MessagePart_fields (p : MessagePart) : bool :=
  Identifier (mp_part_id p) && re_fullmatch MEDIA_TYPE (mp_media_type p)
  && opt_ok (λ t, (str_len t <=? MAX_PROTOCOL_TEXT_CHARS) && untrusted_text_ok t) (mp_text p)
  && opt_ok (count_range 0 64) (mp_data p)
  && opt_ok OpaqueReference (mp_resource_ref p)
  && is_sha256_hex (mp_content_digest p).

(** [self.text or self.data or self.resource_ref]: empty text and an empty object are passed over. *)
Definition part_value (p : MessagePart) : json :=
  match mp_text p, mp_data p with
  | Some (String c t), _ => JStr (String c t)
  | _, Some (kv :: o) => JObj (kv :: o)
  | _, _ => opt_json (mp_resource_ref p)
  end.

Definition part_populated (p : MessagePart) : list bool :=
  [bool_decide (is_Some (mp_text p)); bool_decide (is_Some (mp_data p));
   bool_decide (is_Some (mp_resource_ref p))].

Definition part_expected (p : MessagePart) : bool :=
  match mp_kind p with
  | PT_text => bool_decide (is_Some (mp_text p))
  | PT_data => bool_decide (is_Some (mp_data p))
  | PT_resource_ref => bool_decide (is_Some (mp_resource_ref p))
  end.

Definition part_json (p : MessagePart) : json :=
  JObj [("part_id", JStr (mp_part_id p)); ("kind", JStr (part_kind_value (mp_kind p)));
        ("media_type", JStr (mp_media_type p)); ("text", opt_json (mp_text p));
        ("data", match mp_data p with Some o => JObj o | None => JNull end);
        ("resource_ref", opt_json (mp_resource_ref p)); ("content_digest", JStr (mp_content_digest p));
        ("redacted", JBool (mp_redacted p))].

Inductive message_role := RO_user | RO_agent.
Definition role_value (r : message_role) : string := match r with RO_user => "user" | RO_agent => "agent" end.

Record MessageContract := {
  mg_message_id : string;
  mg_role : message_role;
  mg_parts : list MessagePart;
  mg_citations : list CitationContract;
  mg_created_at : datetime
}.

Definition MessageContract_ok (m : MessageContract) : bool :=
  Identifier (mg_message_id m) && count_range 1 32 (mg_parts m) && count_range 0 64 (mg_citations m).

Definition message_json (m : MessageContract) : json :=
  JObj [("schema_version", JInt 1); ("message_id", JStr (mg_message_id m));
        ("role", JStr (role_value (mg_role m))); ("parts", JList (part_json <$> mg_parts m));
        ("citations", JList (citation_json <$> mg_citations m));
        ("created_at", JStr (iso_z (mg_created_at m)));
        ("untrusted_data_boundary", JStr UNTRUSTED_DATA_BOUNDARY)].

Inductive artifact_kind := AK_investigation_finding | AK_status_report | AK_evidence_summary | AK_proposal.
#[export] Instance artifact_kind_eq_dec : EqDecision artifact_kind.
Proof. solve_decision. Defined.
Definition artifact_kind_value (k : artifact_kind) : string :=
  match k with
  | AK_investigation_finding => "investigation-finding" | AK_status_report => "status-report"
  | AK_evidence_summary => "evidence-summary" | AK_proposal => "proposal"
  end.

Record ArtifactContract := {
  af_artifact_id : string;
  af_task_id : string;
  af_kind : artifact_kind;
  af_parts : list MessagePart;
  af_citations : list CitationContract;
  af_producer_peer_id : string;
  af_card_digest : string;
  af_capability_digest : string;
  af_artifact_digest : string;
  af_created_at : datetime
}.

Definition ArtifactContract_fields (a : ArtifactContract) : bool :=
  forallb Identifier [af_artifact_id a; af_task_id a; af_producer_peer_id a]
  && count_range 1 32 (af_parts a) && count_range 0 64 (af_citations a)
  && forallb is_sha256_hex [af_card_digest a; af_capability_digest a; af_artifact_digest a].

(** [model_dump(mode="json", exclude={"artifact_digest"})] *)
Definition artifact_members (a : ArtifactContract) : payload :=
  [("schema_version", JInt 1); ("artifact_id", JStr (af_artifact_id a)); ("task_id", JStr (af_task_id a));
   ("kind", JStr (artifact_kind_value (af_kind a))); ("parts", JList (part_json <$> af_parts a));
   ("citations", JList (citation_json <$> af_citations a));
   ("producer_peer_id", JStr (af_producer_peer_id a)); ("card_digest", JStr (af_card_digest a));
   ("capability_digest", JStr (af_capability_digest a)); ("created_at", JStr (iso_z (af_created_at a)))].

Definition artifact_json (a : ArtifactContract) : json :=
  JObj (("artifact_digest", JStr (af_artifact_digest a)) :: artifact_members a).

(** Findings and proposals cite their evidence. *)
Definition must_cite (k : artifact_kind) : bool := bool_decide (k ∈ [AK_investigation_finding; AK_proposal]).

Section content.
Context {HDigest : Digest}.

(** [MessagePart(...)]: the constraints, then [validate_shape_and_digest] *)
Definition new_MessagePart (p : MessagePart) : res MessagePart :=
  validated MessagePart_fields "MessagePart" p;;
  in_validator "MessagePart"
    (raise_if (negb (sum_of Z.b2z (part_populated p) =? 1)) ValueError
       "message part must contain exactly one value";;
     raise_if (negb (part_expected p)) ValueError "message part kind does not match its value";;
     d ← digest_value (part_value p);
     raise_if (bool_decide (d ≠ mp_content_digest p)) ValueError
       "message part digest does not match canonical content";;
     _bound_json 0 (part_value p));;
  Ok p.

Definition new_ArtifactContract (a : ArtifactContract) : res ArtifactContract :=
  validated ArtifactContract_fields "ArtifactContract" a;;
  in_validator "ArtifactContract"
    (d ← digest_value (JObj (artifact_members a));
     raise_if (bool_decide (d ≠ af_artifact_digest a)) ValueError
       "artifact digest does not match canonical content";;
     raise_if (must_cite (af_kind a) && bool_decide (length (af_citations a) = O)) ValueError
       "findings and proposals require evidence citations");;
  Ok a.
End content.

(** ** Tasks, statuses and errors *)

Record TaskContract := {
  tk_task_id : string;
  tk_protocol : ProtocolKind;
  tk_peer_id : string;
  tk_capability_id : string;
  tk_tenant_ref : string;
  tk_principal_ref : string;
  tk_purpose : string;
  tk_request_digest : string;
  tk_idempotency_key_digest : string;
  tk_policy_digest : string;
  tk_trust_revision : Z;
  tk_fence_token : string;
  tk_state : TaskState;
  tk_created_at : datetime;
  tk_updated_at : datetime;
  tk_expires_at : datetime;
  tk_result_digest : option string;
  tk_error_code : option string
}.

Definition TaskContract_ok (t : TaskContract) : bool :=
  forallb Identifier [tk_task_id t; tk_peer_id t; tk_capability_id t; tk_principal_ref t; tk_purpose t;
                      tk_fence_token t]
  && OpaqueReference (tk_tenant_ref t)
  && forallb is_sha256_hex [tk_request_digest t; tk_idempotency_key_digest t; tk_policy_digest t]
  && (1 <=? tk_trust_revision t)
  && opt_ok is_sha256_hex (tk_result_digest t) && opt_Identifier (tk_error_code t)
  && (tk_created_at t <=? tk_updated_at t) && (tk_updated_at t <? tk_expires_at t).

Definition new_TaskContract (t : TaskContract) : res TaskContract := validated TaskContract_ok "TaskContract" t.

(** [task.model_copy(update={"state": ..., "updated_at": ..., "result_digest": ...})] *)
Definition task_with (state : TaskState) (at_ : datetime) (result : option string) (t : TaskContract)
    : TaskContract :=
  {| tk_task_id := tk_task_id t; tk_protocol := tk_protocol t; tk_peer_id := tk_peer_id t;
     tk_capability_id := tk_capability_id t; tk_tenant_ref := tk_tenant_ref t;
     tk_principal_ref := tk_principal_ref t; tk_purpose := tk_purpose t;
     tk_request_digest := tk_request_digest t; tk_idempotency_key_digest := tk_idempotency_key_digest t;
     tk_policy_digest := tk_policy_digest t; tk_trust_revision := tk_trust_revision t;
     tk_fence_token := tk_fence_token t; tk_state := state; tk_created_at := tk_created_at t;
     tk_updated_at := at_; tk_expires_at := tk_expires_at t; tk_result_digest := result;
     tk_error_code := tk_error_code t |}.

Record StatusContract := {
  st_state : TaskState;
  st_progress_percent : Z;
  st_sequence : Z;
  st_retry_after_seconds : option Z;
  st_status_digest : string;
  st_occurred_at : datetime
}.

Definition StatusContract_ok (s : StatusContract) : bool :=
  in_range 0 100 (st_progress_percent s) && in_range 1 10000 (st_sequence s)
  && opt_ok (in_range 1 300) (st_retry_after_seconds s) && is_sha256_hex (st_status_digest s).

Definition new_StatusContract (s : StatusContract) : res StatusContract :=
  validated StatusContract_ok "StatusContract" s.

Definition status_json (s : StatusContract) : json :=
  JObj [("schema_version", JInt 1); ("state", JStr (task_state_value (st_state s)));
        ("progress_percent", JInt (st_progress_percent s)); ("sequence", JInt (st_sequence s));
        ("retry_after_seconds", opt_int_json (st_retry_after_seconds s));
        ("status_digest", JStr (st_status_digest s)); ("occurred_at", JStr (iso_z (st_occurred_at s)))].

Record ErrorContract := {
  er_error_class : ErrorClass;
  er_code : string;
  er_retryable : bool;
  er_ambiguous : bool;
  er_safe_message : string;
  er_detail_digest : string
}.

Definition ErrorContract_ok (e : ErrorContract) : bool :=
  Identifier (er_code e) && length_between 1 300 (er_safe_message e)
  && untrusted_text_ok (er_safe_message e) && is_sha256_hex (er_detail_digest e).

Record IdempotencyContract := {
  ik_key_digest : string;
  ik_request_digest : string;
  ik_operation_id : string;
  ik_attempt : Z;
  ik_fence_token : string
}.

Definition IdempotencyContract_ok (i : IdempotencyContract) : bool :=
  forallb is_sha256_hex [ik_key_digest i; ik_request_digest i]
  && forallb Identifier [ik_operation_id i; ik_fence_token i] && in_range 1 3 (ik_attempt i).

Inductive policy_decision := PD_allow | PD_deny.
#[export] Instance policy_decision_eq_dec : EqDecision policy_decision.
Proof. solve_decision. Defined.

Record PolicyContract := {
  po_policy_id : string;
  po_revision : Z;
  po_decision : policy_decision;
  po_capability_id : string;
  po_principal_ref : string;
  po_peer_id : string;
  po_purpose : string;
  po_risk : RiskLevel;
  po_maximum_cost_units : Z;
  po_reason_code : string;
  po_policy_digest : string
}.

Definition PolicyContract_ok (p : PolicyContract) : bool :=
  forallb Identifier [po_policy_id p; po_capability_id p; po_principal_ref p; po_peer_id p; po_purpose p;
                      po_reason_code p]
  && (1 <=? po_revision p) && in_range 0 1000000 (po_maximum_cost_units p)
  && is_sha256_hex (po_policy_digest p).

Record AuditContract := {
  au_audit_ref : string;
  au_event_type : string;
  au_actor_ref : string;
  au_peer_id : string;
  au_operation_ref : string;
  au_outcome : string;
  au_event_digest : string;
  au_recorded_at : datetime
}.

Definition AuditContract_ok (a : AuditContract) : bool :=
  forallb Identifier [au_audit_ref a; au_event_type a; au_actor_ref a; au_peer_id a; au_operation_ref a;
                      au_outcome a] && is_sha256_hex (au_event_digest a).

(** ** Agent cards *)

Record AgentSkillContract := {
  sk_skill_id : string;
  sk_name : string;
  sk_description_digest : string;
  sk_capability_id : string;
  sk_input_modes : list string;
  sk_output_modes : list string;
  sk_risk : RiskLevel
}.

Definition modes_ok (modes : list string) : bool :=
  count_range 1 8 modes && forallb (length_between 0 128) modes.

Definition AgentSkillContract_ok (s : AgentSkillContract) : bool :=
  forallb Identifier [sk_skill_id s; sk_capability_id s]
  && length_between 1 80 (sk_name s) && untrusted_text_ok (sk_name s)
  && is_sha256_hex (sk_description_digest s) && modes_ok (sk_input_modes s) && modes_ok (sk_output_modes s).

Definition skill_json (s : AgentSkillContract) : json :=
  JObj [("skill_id", JStr (sk_skill_id s)); ("name", JStr (sk_name s));
        ("description_digest", JStr (sk_description_digest s)); ("capability_id", JStr (sk_capability_id s));
        ("input_modes", strings_json (sk_input_modes s)); ("output_modes", strings_json (sk_output_modes s));
        ("risk", JStr (risk_value (sk_risk s))); ("permits_effect", JBool false)].

Inductive auth_scheme := AS_oauth2 | AS_mutual_tls.
#[export] Instance auth_scheme_eq_dec : EqDecision auth_scheme.
Proof. solve_decision. Defined.
Definition auth_scheme_value (s : auth_scheme) : string :=
  match s with AS_oauth2 => "oauth2" | AS_mutual_tls => "mutual-tls" end.

Record AgentCardContract := {
  ac_peer_id : string;
  ac_protocol_version : string;
  ac_card_version : Z;
  ac_name : string;
  ac_description_digest : string;
  ac_endpoint_origin_digest : string;
  ac_interface_origin_digests : list string;
  ac_interface_endpoint_digests : list string;
  ac_transports : list TransportKind;
  ac_auth_schemes : list auth_scheme;
  ac_skills : list AgentSkillContract;
  ac_extensions : list string;
  ac_issued_at : datetime;
  ac_expires_at : datetime;
  ac_key_digest : string;
  ac_signature_digest : string;
  ac_card_digest : string
}.

Definition AgentCardContract_fields (c : AgentCardContract) : bool :=
  forallb Identifier [ac_peer_id c; ac_protocol_version c] && (1 <=? ac_card_version c)
  && length_between 1 80 (ac_name c)
  && forallb is_sha256_hex [ac_description_digest c; ac_endpoint_origin_digest c; ac_key_digest c;
                            ac_signature_digest c; ac_card_digest c]
  && forallb is_sha256_hex (ac_interface_origin_digests c) && count_range 1 8 (ac_interface_origin_digests c)
  && forallb is_sha256_hex (ac_interface_endpoint_digests c) && count_range 1 8 (ac_interface_endpoint_digests c)
  && count_range 1 4 (ac_transports c) && count_range 1 2 (ac_auth_schemes c)
  && count_range 1 16 (ac_skills c)
  && forallb Identifier (ac_extensions c) && count_range 0 16 (ac_extensions c).

(** [normalize_card_sets] *)
Definition normalize_card_sets (c : AgentCardContract) : AgentCardContract :=
  {| ac_peer_id := ac_peer_id c; ac_protocol_version := ac_protocol_version c;
     ac_card_version := ac_card_version c; ac_name := ac_name c;
     ac_description_digest := ac_description_digest c;
     ac_endpoint_origin_digest := ac_endpoint_origin_digest c;
     ac_interface_origin_digests := sorted_set (ac_interface_origin_digests c);
     ac_interface_endpoint_digests := sorted_set (ac_interface_endpoint_digests c);
     ac_transports := sorted_values transport_value (ac_transports c);
     ac_auth_schemes := sorted_values auth_scheme_value (ac_auth_schemes c);
     ac_skills := ac_skills c; ac_extensions := sorted_set (ac_extensions c);
     ac_issued_at := ac_issued_at c; ac_expires_at := ac_expires_at c; ac_key_digest := ac_key_digest c;
     ac_signature_digest := ac_signature_digest c; ac_card_digest := ac_card_digest c |}.

(** [model_dump(mode="json", exclude={"card_digest", "signature_digest"})] *)
Definition card_material (c : AgentCardContract) : json :=
  JObj [("schema_version", JInt 1); ("peer_id", JStr (ac_peer_id c));
        ("protocol_version", JStr (ac_protocol_version c)); ("card_version", JInt (ac_card_version c));
        ("name", JStr (ac_name c)); ("description_digest", JStr (ac_description_digest c));
        ("endpoint_origin_digest", JStr (ac_endpoint_origin_digest c));
        ("interface_origin_digests", strings_json (ac_interface_origin_digests c));
        ("interface_endpoint_digests", strings_json (ac_interface_endpoint_digests c));
        ("transports", strings_json (transport_value <$> ac_transports c));
        ("auth_schemes", strings_json (auth_scheme_value <$> ac_auth_schemes c));
        ("skills", JList (skill_json <$> ac_skills c)); ("extensions", strings_json (ac_extensions c));
        ("issued_at", JStr (iso_z (ac_issued_at c))); ("expires_at", JStr (iso_z (ac_expires_at c)));
        ("key_digest", JStr (ac_key_digest c))].

Definition new_AgentCardContract {HDigest : Digest} (c : AgentCardContract) : res AgentCardContract :=
  validated AgentCardContract_fields "AgentCardContract" c;;
  let c := normalize_card_sets c in
  in_validator "AgentCardContract"
    (raise_if (ac_expires_at c <=? ac_issued_at c) ValueError "agent card expiry must follow issue time";;
     d ← digest_value (card_material c);
     raise_if (bool_decide (d ≠ ac_card_digest c)) ValueError
       "agent card digest does not match canonical content");;
  Ok c.

(** ** Trust entries *)

Inductive environment := EN_development | EN_test | EN_staging | EN_production.
#[export] Instance environment_eq_dec : EqDecision environment.
Proof. solve_decision. Defined.
Definition environment_value (e : environment) : string :=
  match e with
  | EN_development => "development" | EN_test => "test" | EN_staging => "staging"
  | EN_production => "production"
  end.

Record TrustEntry := {
  te_peer_id : string;
  te_protocol : ProtocolKind;
  te_owner_ref : string;
  te_environment : environment;
  te_trust_tier : TrustTier;
  te_status : TrustStatus;
  te_revision : Z;
  te_expires_at : datetime;
  te_review_after : datetime;
  te_card_digest : option string;
  te_schema_digest : string;
  te_certificate_digest : option string;
  te_key_digest : option string;
  te_allowed_classifications : list DataClassification;
  te_allowed_risks : list RiskLevel;
  te_allowed_capabilities : list string;
  te_allowed_transports : list TransportKind;
  te_egress_origins : list string;
  te_maximum_request_bytes : Z;
  te_maximum_response_bytes : Z;
  te_maximum_requests_per_minute : Z;
  te_maximum_cost_units_per_hour : Z;
  te_change_digest : string;
  te_reviewed_by : list string;
  te_reviewed_at : option datetime
}.
#[export] Instance TrustEntry_eq_dec : EqDecision TrustEntry.
Proof. solve_decision. Defined.

Definition origin_char (c : ascii) : bool := is_alnum c || bool_decide (c ∈ ["."; "-"]%char).
(** The pattern of [egress_origins] *)
Definition EGRESS_ORIGIN : regex :=
  RSeqs [RLit exactly "https://"; RChar is_alnum; RStar (RChar origin_char);
         ROpt (RSeq (RLit exactly ":") (RPlus (RChar is_digit)))].

Definition TrustEntry_fields (e : TrustEntry) : bool :=
  forallb Identifier [te_peer_id e; te_owner_ref e] && (1 <=? te_revision e)
  && forallb is_sha256_hex [te_schema_digest e; te_change_digest e]
  && forallb (opt_ok is_sha256_hex) [te_card_digest e; te_certificate_digest e; te_key_digest e]
  && count_range 1 4 (te_allowed_classifications e) && count_range 1 3 (te_allowed_risks e)
  && forallb Identifier (te_allowed_capabilities e) && count_range 1 32 (te_allowed_capabilities e)
  && count_range 1 4 (te_allowed_transports e)
  && forallb (re_fullmatch EGRESS_ORIGIN) (te_egress_origins e) && count_range 0 8 (te_egress_origins e)
  && document_bytes 1024 (te_maximum_request_bytes e) && document_bytes 1024 (te_maximum_response_bytes e)
  && in_range 1 10000 (te_maximum_requests_per_minute e)
  && in_range 0 1000000 (te_maximum_cost_units_per_hour e)
  && forallb Identifier (te_reviewed_by e) && count_range 0 8 (te_reviewed_by e).

(** A transport other than stdio *)
Definition networked (e : TrustEntry) : bool :=
  existsb (λ t, bool_decide (t ≠ TK_STDIO)) (te_allowed_transports e).

(** [validate_trust_shape] *)
Definition trust_shape_ok (e : TrustEntry) : bool :=
  (te_review_after e <? te_expires_at e)
  && negb (networked e && bool_decide (te_egress_origins e = []))
  && negb (bool_decide (te_environment e = EN_production) && networked e
           && (bool_decide (te_certificate_digest e = None) || bool_decide (te_key_digest e = None)))
  && negb (bool_decide (te_protocol e = PK_A2A) && bool_decide (te_card_digest e = None))
  && negb (bool_decide (te_status e = TS_ACTIVE)
           && (bool_decide (te_reviewed_by e = []) || bool_decide (te_reviewed_at e = None))).

(** [entry.model_copy(update=...)] of the members a review changes *)
Definition entry_with (status : TrustStatus) (revision : Z) (reviewed_by : list string)
    (reviewed_at : option datetime) (change_digest : string) (e : TrustEntry) : TrustEntry :=
  {| te_peer_id := te_peer_id e; te_protocol := te_protocol e; te_owner_ref := te_owner_ref e;
     te_environment := te_environment e; te_trust_tier := te_trust_tier e; te_status := status;
     te_revision := revision; te_expires_at := te_expires_at e; te_review_after := te_review_after e;
     te_card_digest := te_card_digest e; te_schema_digest := te_schema_digest e;
     te_certificate_digest := te_certificate_digest e; te_key_digest := te_key_digest e;
     te_allowed_classifications := te_allowed_classifications e; te_allowed_risks := te_allowed_risks e;
     te_allowed_capabilities := te_allowed_capabilities e;
     te_allowed_transports := te_allowed_transports e; te_egress_origins := te_egress_origins e;
     te_maximum_request_bytes := te_maximum_request_bytes e;
     te_maximum_response_bytes := te_maximum_response_bytes e;
     te_maximum_requests_per_minute := te_maximum_requests_per_minute e;
     te_maximum_cost_units_per_hour := te_maximum_cost_units_per_hour e;
     te_change_digest := change_digest; te_reviewed_by := reviewed_by; te_reviewed_at := reviewed_at |}.

Definition normalize_entry_sets (e : TrustEntry) : TrustEntry :=
  {| te_peer_id := te_peer_id e; te_protocol := te_protocol e; te_owner_ref := te_owner_ref e;
     te_environment := te_environment e; te_trust_tier := te_trust_tier e; te_status := te_status e;
     te_revision := te_revision e; te_expires_at := te_expires_at e; te_review_after := te_review_after e;
     te_card_digest := te_card_digest e; te_schema_digest := te_schema_digest e;
     te_certificate_digest := te_certificate_digest e; te_key_digest := te_key_digest e;
     te_allowed_classifications := sorted_values classification_value (te_allowed_classifications e);
     te_allowed_risks := sorted_values risk_value (te_allowed_risks e);
     te_allowed_capabilities := sorted_set (te_allowed_capabilities e);
     te_allowed_transports := sorted_values transport_value (te_allowed_transports e);
     te_egress_origins := sorted_set (te_egress_origins e);
     te_maximum_request_bytes := te_maximum_request_bytes e;
     te_maximum_response_bytes := te_maximum_response_bytes e;
     te_maximum_requests_per_minute := te_maximum_requests_per_minute e;
     te_maximum_cost_units_per_hour := te_maximum_cost_units_per_hour e;
     te_change_digest := te_change_digest e; te_reviewed_by := sorted_set (te_reviewed_by e);
     te_reviewed_at := te_reviewed_at e |}.

Definition new_TrustEntry (e : TrustEntry) : res TrustEntry :=
  validated TrustEntry_fields "TrustEntry" e;;
  validated trust_shape_ok "TrustEntry" (normalize_entry_sets e).

Definition entry_json (e : TrustEntry) : json :=
  JObj [("schema_version", JInt 1); ("peer_id", JStr (te_peer_id e));
        ("protocol", JStr (protocol_value (te_protocol e))); ("owner_ref", JStr (te_owner_ref e));
        ("environment", JStr (environment_value (te_environment e)));
        ("trust_tier", JStr (tier_value (te_trust_tier e)));
        ("status", JStr (trust_status_value (te_status e))); ("revision", JInt (te_revision e));
        ("expires_at", JStr (iso_z (te_expires_at e))); ("review_after", JStr (iso_z (te_review_after e)));
        ("card_digest", opt_json (te_card_digest e)); ("schema_digest", JStr (te_schema_digest e));
        ("certificate_digest", opt_json (te_certificate_digest e)); ("key_digest", opt_json (te_key_digest e));
        ("allowed_classifications", strings_json (classification_value <$> te_allowed_classifications e));
        ("allowed_risks", strings_json (risk_value <$> te_allowed_risks e));
        ("allowed_capabilities", strings_json (te_allowed_capabilities e));
        ("allowed_transports", strings_json (transport_value <$> te_allowed_transports e));
        ("egress_origins", strings_json (te_egress_origins e));
        ("maximum_request_bytes", JInt (te_maximum_request_bytes e));
        ("maximum_response_bytes", JInt (te_maximum_response_bytes e));
        ("maximum_requests_per_minute", JInt (te_maximum_requests_per_minute e));
        ("maximum_cost_units_per_hour", JInt (te_maximum_cost_units_per_hour e));
        ("change_digest", JStr (te_change_digest e)); ("reviewed_by", strings_json (te_reviewed_by e));
        ("reviewed_at", match te_reviewed_at e with Some t => JStr (iso_z t) | None => JNull end)].
