(* ===== verification/InteropTrust.v ===== *)
(** * Trust in peers and workloads ([interoperability.py], lines 543-908)

    [TrustRegistry], the append-only history of each peer's trust, and
    [WorkloadIdentityValidator] over a replay cache. *)

From S2P Require Import Prelude PyJson PyTime PyText PyModel Domain InteropText InteropData.

(** ** The registry *)

(** [self._entries]; a peer without history and a peer with an empty one are the same. *)
Abbreviation registry := (gmap string (list TrustEntry)).

Definition history (r : registry) (peer_id : string) : list TrustEntry := default [] (r !! peer_id).

Definition _current (r : registry) (peer_id : string) : option TrustEntry := last (history r peer_id).

Definition add_entry (peer_id : string) (e : TrustEntry) (r : registry) : registry :=
  <[peer_id := history r peer_id ++ [e]]> r.

Definition register (entry : TrustEntry) : M registry TrustEntry :=
  r ← get;
  let current := _current r (te_peer_id entry) in
  let expected := match current with Some c => te_revision c + 1 | None => 1 end in
  lift (raise_if (negb (te_revision entry =? expected)) ConcurrencyConflict "peer trust revision is stale");;
  lift (raise_if (match current with Some c => bool_decide (te_protocol c ≠ te_protocol entry) | None => false end)
          IntegrityFailure "peer protocol cannot change in place");;
  lift (raise_if (bool_decide (te_status entry ≠ TS_PENDING_REVIEW)) PolicyDenied
          "new or changed trust must await review");;
  modify (add_entry (te_peer_id entry) entry);;
  mret entry.

Definition terminal_trust (s : TrustStatus) : bool := bool_decide (s ∈ [TS_REVOKED; TS_EMERGENCY_DISABLED]).

Section reviews.
Context {HDigest : Digest}.

(** The document of a review, whose digest the new entry carries *)
Definition change_document (current : TrustEntry) (reviewer_ref : string) (target : TrustStatus) : json :=
  JObj [("previous", JStr (te_change_digest current)); ("revision", JInt (te_revision current + 1));
        ("reviewer_ref", JStr reviewer_ref); ("status", JStr (trust_status_value target))].

Definition _transition (peer_id : string) (expected_revision : Z) (now : datetime) (target : TrustStatus)
    (reviewer_ref typed_confirmation required_confirmation : string) : M registry TrustEntry :=
  lift (raise_if (bool_decide (typed_confirmation ≠ required_confirmation)) PayloadRejected
          "typed trust confirmation is invalid");;
  r ← get;
  current ← lift (of_option (_current r peer_id) PolicyDenied "peer is unavailable");
  lift (raise_if (negb (te_revision current =? expected_revision)) ConcurrencyConflict
          "peer trust revision is stale");;
  lift (raise_if (bool_decide (target = TS_ACTIVE) && bool_decide (te_status current ≠ TS_PENDING_REVIEW))
          PolicyDenied "only pending trust can be activated");;
  lift (raise_if (bool_decide (target ≠ TS_ACTIVE) && terminal_trust (te_status current)) PolicyDenied
          "terminal peer trust cannot transition");;
  digest ← lift (digest_value (change_document current reviewer_ref target));
  let updated := entry_with target (te_revision current + 1)
                   (sorted_set (te_reviewed_by current ++ [reviewer_ref])) (Some now) digest current in
  modify (add_entry peer_id updated);;
  mret updated.

Definition review (peer_id : string) (expected_revision : Z) (reviewer_ref : string) (now : datetime)
    (typed_confirmation : string) : M registry TrustEntry :=
  _transition peer_id expected_revision now TS_ACTIVE reviewer_ref typed_confirmation ("TRUST " +:+ peer_id).

Definition quarantine (peer_id : string) (expected_revision : Z) (reviewer_ref : string) (now : datetime)
    (typed_confirmation : string) : M registry TrustEntry :=
  _transition peer_id expected_revision now TS_QUARANTINED reviewer_ref typed_confirmation
    ("QUARANTINE " +:+ peer_id).

Definition revoke (peer_id : string) (expected_revision : Z) (reviewer_ref : string) (now : datetime)
    (typed_confirmation : string) : M registry TrustEntry :=
  _transition peer_id expected_revision now TS_REVOKED reviewer_ref typed_confirmation ("REVOKE " +:+ peer_id).

Definition emergency_disable (peer_id : string) (expected_revision : Z) (reviewer_ref : string) (now : datetime)
    (typed_confirmation : string) : M registry TrustEntry :=
  _transition peer_id expected_revision now TS_EMERGENCY_DISABLED reviewer_ref typed_confirmation
    ("DISABLE " +:+ peer_id).

(** What operators do to the registry *)
Inductive trust_op :=
  | Register (entry : TrustEntry)
  | Review (peer_id : string) (expected_revision : Z) (reviewer_ref : string) (now : datetime)
      (typed_confirmation : string)
  | Quarantine (peer_id : string) (expected_revision : Z) (reviewer_ref : string) (now : datetime)
      (typed_confirmation : string)
  | Revoke (peer_id : string) (expected_revision : Z) (reviewer_ref : string) (now : datetime)
      (typed_confirmation : string)
  | EmergencyDisable (peer_id : string) (expected_revision : Z) (reviewer_ref : string) (now : datetime)
      (typed_confirmation : string).

Definition run_trust_op (o : trust_op) : M registry TrustEntry :=
  match o with
  | Register entry => register entry
  | Review p v by_ now text => review p v by_ now text
  | Quarantine p v by_ now text => quarantine p v by_ now text
  | Revoke p v by_ now text => revoke p v by_ now text
  | EmergencyDisable p v by_ now text => emergency_disable p v by_ now text
  end.

Definition run_trust (ops : list trust_op) (r : registry) : registry :=
  foldl (λ r o, (run_trust_op o r).2) r ops.
End reviews.

Definition require_active (r : registry) (peer_id : string) (protocol : ProtocolKind) (capability_id : string)
    (risk : RiskLevel) (classification : DataClassification) (now : datetime) : res TrustEntry :=
  match _current r peer_id with
  | None => raise PolicyDenied "peer is not registered for this protocol"
  | Some current =>
      raise_if (bool_decide (te_protocol current ≠ protocol)) PolicyDenied
        "peer is not registered for this protocol";;
      raise_if (bool_decide (te_status current ≠ TS_ACTIVE)) PolicyDenied "peer trust is not active";;
      raise_if ((te_expires_at current <=? now) || (te_review_after current <=? now)) PolicyDenied
        "peer trust review is expired";;
      raise_if (bool_decide (capability_id ∉ te_allowed_capabilities current)) PolicyDenied
        "peer capability is not allowed";;
      raise_if (bool_decide (risk ∉ te_allowed_risks current)) PolicyDenied "peer risk is not allowed";;
      raise_if (bool_decide (classification ∉ te_allowed_classifications current)) PolicyDenied
        "peer classification is not allowed";;
      Ok current
  end.

(** ** Replay caches *)

(** [ReplayCache]: a port with a state of its own *)
Class ReplayCache (C : Type) := {
  distributed : bool;
  consume : string → datetime → M C bool
}.

(** [InMemoryReplayCache]: the entries in insertion order *)
Record memory_cache := { mc_maximum_entries : Z; mc_entries : list (string * datetime) }.

Definition new_InMemoryReplayCache (maximum_entries : Z) : res memory_cache :=
  raise_if (maximum_entries <? 1) ValueError "replay cache bound is invalid";;
  Ok {| mc_maximum_entries := maximum_entries; mc_entries := [] |}.

(** [min(entries, key=entries.__getitem__)]: the first of the entries that expire soonest *)
Fixpoint soonest (first : string * datetime) (rest : list (string * datetime)) : string :=
  match rest with
  | [] => first.1
  | kv :: rest => if kv.2 <? first.2 then soonest kv rest else soonest first rest
  end.

Definition evict (entries : list (string * datetime)) : list (string * datetime) :=
  match entries with
  | [] => []
  | first :: rest => List.filter (λ kv, negb (bool_decide (kv.1 = soonest first rest))) entries
  end.

Definition memory_consume (token_id_digest : string) (expires_at : datetime) : M memory_cache bool :=
  c ← get;
  match dict_get token_id_digest (mc_entries c) with
  | Some _ => mret false
  | None =>
      let entries := if mc_maximum_entries c <=? zlen (mc_entries c) then evict (mc_entries c)
                     else mc_entries c in
      modify (λ c, {| mc_maximum_entries := mc_maximum_entries c;
                      mc_entries := dict_set token_id_digest expires_at entries |});;
      mret true
  end.

#[export] Instance memory_replay_cache : ReplayCache memory_cache :=
  {| distributed := false; consume := memory_consume |}.

(** ** Workload identities *)

Record WorkloadIdentityAssertion := {
  wa_principal_ref : string;
  wa_issuer_digest : string;
  wa_audience : string;
  wa_scopes : list string;
  wa_tenant_ref : string;
  wa_purpose : string;
  wa_token_id_digest : string;
  wa_proof_digest : string;
  wa_confirmation_digest : string;
  wa_issued_at : datetime;
  wa_expires_at : datetime
}.

Definition WorkloadIdentityAssertion_ok (a : WorkloadIdentityAssertion) : bool :=
  forallb Identifier [wa_principal_ref a; wa_audience a; wa_purpose a]
  && forallb is_sha256_hex [wa_issuer_digest a; wa_token_id_digest a; wa_proof_digest a;
                            wa_confirmation_digest a]
  && forallb Identifier (wa_scopes a) && count_range 1 32 (wa_scopes a) && OpaqueReference (wa_tenant_ref a)
  && (wa_issued_at a <? wa_expires_at a).

(** With [normalize_assertion_scopes] *)
Definition new_WorkloadIdentityAssertion (a : WorkloadIdentityAssertion) : res WorkloadIdentityAssertion :=
  validated WorkloadIdentityAssertion_ok "WorkloadIdentityAssertion" a;;
  Ok {| wa_principal_ref := wa_principal_ref a; wa_issuer_digest := wa_issuer_digest a;
        wa_audience := wa_audience a; wa_scopes := sorted_set (wa_scopes a); wa_tenant_ref := wa_tenant_ref a;
        wa_purpose := wa_purpose a; wa_token_id_digest := wa_token_id_digest a;
        wa_proof_digest := wa_proof_digest a; wa_confirmation_digest := wa_confirmation_digest a;
        wa_issued_at := wa_issued_at a; wa_expires_at := wa_expires_at a |}.

Record WorkloadIdentityPolicy := {
  wp_audience : string;
  wp_allowed_issuer_digests : list string;
  wp_required_scopes : list string;
  wp_allowed_purposes : list string;
  wp_maximum_lifetime_seconds : Z;
  wp_require_mutual_tls : bool;
  wp_allowed_principals : list string
}.

Definition WorkloadIdentityPolicy_ok (p : WorkloadIdentityPolicy) : bool :=
  Identifier (wp_audience p)
  && forallb is_sha256_hex (wp_allowed_issuer_digests p) && count_range 1 16 (wp_allowed_issuer_digests p)
  && forallb Identifier (wp_required_scopes p) && count_range 1 16 (wp_required_scopes p)
  && forallb Identifier (wp_allowed_purposes p) && count_range 1 16 (wp_allowed_purposes p)
  && in_range 30 3600 (wp_maximum_lifetime_seconds p)
  && forallb Identifier (wp_allowed_principals p) && count_range 1 128 (wp_allowed_principals p).

Section validator.
Context {C : Type} `{!ReplayCache C} (policy : WorkloadIdentityPolicy) (production mutual_tls_ready : bool).

Definition ready : bool :=
  if negb production then true
  else distributed && mutual_tls_ready && wp_require_mutual_tls policy.

(** [hmac.compare_digest] on strings, which must be ASCII *)
Definition compare_digest (a b : string) : res bool :=
  raise_if (negb (str_forallb (code_in 0 127) a && str_forallb (code_in 0 127) b)) TypeError
    "comparing strings with non-ASCII characters is not supported";;
  Ok (bool_decide (a = b)).

(** The checks of [validate] before the replay cache is asked.  The lifetime is a float of
    seconds, exact against the integral maximum. *)
Definition assertion_checks (assertion : WorkloadIdentityAssertion)
    (expected_tenant_ref expected_purpose channel_binding_digest : string) (now : datetime) : res unit :=
  raise_if (negb ready) RepositoryUnavailable
    "production workload identity requires distributed replay and mTLS";;
  raise_if (bool_decide (wa_issuer_digest assertion ∉ wp_allowed_issuer_digests policy)) AuthenticationFailed
    "workload issuer is not trusted";;
  raise_if (bool_decide (wa_audience assertion ≠ wp_audience policy)) AuthenticationFailed
    "workload audience is invalid";;
  raise_if (bool_decide (wa_principal_ref assertion ∉ wp_allowed_principals policy)) PolicyDenied
    "workload principal is not allowed";;
  raise_if (bool_decide (wa_tenant_ref assertion ≠ expected_tenant_ref)) PolicyDenied
    "workload tenant binding is invalid";;
  raise_if (bool_decide (wa_purpose assertion ≠ expected_purpose)
            || bool_decide (wa_purpose assertion ∉ wp_allowed_purposes policy)) PolicyDenied
    "workload purpose is not allowed";;
  raise_if (negb (forallb (λ s, bool_decide (s ∈ wa_scopes assertion)) (wp_required_scopes policy))) PolicyDenied
    "workload scopes are insufficient";;
  same ← compare_digest (wa_confirmation_digest assertion) channel_binding_digest;
  raise_if (negb same) AuthenticationFailed "workload proof is not channel-bound";;
  raise_if ((now <? wa_issued_at assertion) || (wa_expires_at assertion <=? now)) AuthenticationFailed
    "workload assertion is outside its validity";;
  raise_if (seconds (wp_maximum_lifetime_seconds policy) <? wa_expires_at assertion - wa_issued_at assertion)
    AuthenticationFailed "workload assertion lifetime is too long".

Definition validate (assertion : WorkloadIdentityAssertion)
    (expected_tenant_ref expected_purpose channel_binding_digest : string) (now : datetime)
    : M C PrincipalContract :=
  lift (assertion_checks assertion expected_tenant_ref expected_purpose channel_binding_digest now);;
  fresh ← consume (wa_token_id_digest assertion) (wa_expires_at assertion);
  lift (raise_if (negb fresh) AuthenticationFailed "workload assertion replay was detected");;
  lift (new_PrincipalContract
    {| pn_principal_ref := wa_principal_ref assertion; pn_kind := K_workload;
       pn_issuer_digest := wa_issuer_digest assertion; pn_audience := wa_audience assertion;
       pn_scopes := wa_scopes assertion; pn_tenant_ref := wa_tenant_ref assertion;
       pn_purpose := wa_purpose assertion; pn_proof_digest := wa_proof_digest assertion;
       pn_authenticated_at := now; pn_expires_at := wa_expires_at assertion |}).
End validator.

#[global] Arguments _transition : simpl never.
#[global] Arguments require_active : simpl never.
