(* ===== verification/InteropLedger.v ===== *)
(** * The invocation ledger, the quota and the circuit ([interoperability.py], lines 911-1183)

    [InteroperabilityLedger]: a digest chain of facts per operation with the current projection,
    [InvocationQuota] and [CircuitBreaker].  Each method runs under its object's lock. *)

From S2P Require Import Prelude PyJson PyTime PyText PyFloat PyModel Domain InteropText InteropData.

(** ** Facts *)

Inductive InteroperabilityFactType :=
  | IF_TRUST_REGISTERED | IF_TRUST_REVIEWED | IF_TRUST_QUARANTINED | IF_TRUST_REVOKED
  | IF_INVOCATION_REQUESTED | IF_INVOCATION_CLAIMED | IF_INVOCATION_SUCCEEDED | IF_INVOCATION_FAILED
  | IF_INVOCATION_AMBIGUOUS | IF_INVOCATION_RECONCILED | IF_TASK_CANCEL_REQUESTED | IF_TASK_CANCELLED
  | IF_ARTIFACT_ACCEPTED | IF_ARTIFACT_QUARANTINED | IF_PROPOSAL_SUBMITTED.
#[export] Instance InteroperabilityFactType_eq_dec : EqDecision InteroperabilityFactType.
Proof. solve_decision. Defined.

Definition interop_fact_value (t : InteroperabilityFactType) : string :=
  match t with
  | IF_TRUST_REGISTERED => "interop.trust_registered"
  | IF_TRUST_REVIEWED => "interop.trust_reviewed"
  | IF_TRUST_QUARANTINED => "interop.trust_quarantined"
  | IF_TRUST_REVOKED => "interop.trust_revoked"
  | IF_INVOCATION_REQUESTED => "interop.invocation_requested"
  | IF_INVOCATION_CLAIMED => "interop.invocation_claimed"
  | IF_INVOCATION_SUCCEEDED => "interop.invocation_succeeded"
  | IF_INVOCATION_FAILED => "interop.invocation_failed"
  | IF_INVOCATION_AMBIGUOUS => "interop.invocation_ambiguous"
  | IF_INVOCATION_RECONCILED => "interop.invocation_reconciled"
  | IF_TASK_CANCEL_REQUESTED => "interop.task_cancel_requested"
  | IF_TASK_CANCELLED => "interop.task_cancelled"
  | IF_ARTIFACT_ACCEPTED => "interop.artifact_accepted"
  | IF_ARTIFACT_QUARANTINED => "interop.artifact_quarantined"
  | IF_PROPOSAL_SUBMITTED => "interop.proposal_submitted"
  end.

Record InteroperabilityFact := {
  if_fact_id : string;
  if_operation_id : string;
  if_sequence : Z;
  if_fact_type : InteroperabilityFactType;
  if_command_ref : string;
  if_actor_ref : string;
  if_peer_id : string;
  if_payload : payload;
  if_previous_digest : string;
  if_fact_digest : string;
  if_recorded_at : datetime
}.

Definition InteroperabilityFact_fields (f : InteroperabilityFact) : bool :=
  forallb Identifier [if_fact_id f; if_operation_id f; if_command_ref f; if_actor_ref f; if_peer_id f]
  && in_range 1 128 (if_sequence f) && count_range 0 32 (if_payload f)
  && forallb is_sha256_hex [if_previous_digest f; if_fact_digest f].

(** [fact.model_dump(mode="json", exclude={"fact_digest"})], and the material [append] digests:
    the two are the same document. *)
Definition interop_material (f : InteroperabilityFact) : json :=
  JObj [("schema_version", JInt 1); ("fact_id", JStr (if_fact_id f));
        ("operation_id", JStr (if_operation_id f)); ("sequence", JInt (if_sequence f));
        ("fact_type", JStr (interop_fact_value (if_fact_type f)));
        ("command_ref", JStr (if_command_ref f)); ("actor_ref", JStr (if_actor_ref f));
        ("peer_id", JStr (if_peer_id f)); ("payload", JObj (if_payload f));
        ("previous_digest", JStr (if_previous_digest f)); ("recorded_at", JStr (iso_z (if_recorded_at f)))].

Record InvocationProjection := {
  ip_operation_id : string;
  ip_tenant_ref : string;
  ip_peer_id : string;
  ip_protocol : ProtocolKind;
  ip_capability_id : string;
  ip_risk : RiskLevel;
  ip_state : InvocationState;
  ip_version : Z;
  ip_request_digest : string;
  ip_trust_digest : string;
  ip_policy_digest : string;
  ip_trust_revision : Z;
  ip_fence_token : string;
  ip_cursor_digest : option string;
  ip_result_digest : option string;
  ip_error_code : option string;
  ip_ambiguous : bool;
  ip_cancellation_requested : bool;
  ip_updated_at : datetime
}.
#[export] Instance InvocationProjection_eq_dec : EqDecision InvocationProjection.
Proof. solve_decision. Defined.

Definition InvocationProjection_ok (p : InvocationProjection) : bool :=
  forallb Identifier [ip_operation_id p; ip_peer_id p; ip_capability_id p; ip_fence_token p]
  && OpaqueReference (ip_tenant_ref p) && (1 <=? ip_version p)
  && forallb is_sha256_hex [ip_request_digest p; ip_trust_digest p; ip_policy_digest p]
  && (1 <=? ip_trust_revision p)
  && forallb (opt_ok is_sha256_hex) [ip_cursor_digest p; ip_result_digest p]
  && opt_Identifier (ip_error_code p).

Definition new_InvocationProjection (p : InvocationProjection) : res InvocationProjection :=
  validated InvocationProjection_ok "InvocationProjection" p.

Definition projection_json (p : InvocationProjection) : json :=
  JObj [("operation_id", JStr (ip_operation_id p)); ("tenant_ref", JStr (ip_tenant_ref p));
        ("peer_id", JStr (ip_peer_id p)); ("protocol", JStr (protocol_value (ip_protocol p)));
        ("capability_id", JStr (ip_capability_id p)); ("risk", JStr (risk_value (ip_risk p)));
        ("state", JStr (invocation_state_value (ip_state p))); ("version", JInt (ip_version p));
        ("request_digest", JStr (ip_request_digest p)); ("trust_digest", JStr (ip_trust_digest p));
        ("policy_digest", JStr (ip_policy_digest p)); ("trust_revision", JInt (ip_trust_revision p));
        ("fence_token", JStr (ip_fence_token p)); ("cursor_digest", opt_json (ip_cursor_digest p));
        ("result_digest", opt_json (ip_result_digest p)); ("error_code", opt_json (ip_error_code p));
        ("ambiguous", JBool (ip_ambiguous p)); ("cancellation_requested", JBool (ip_cancellation_requested p));
        ("updated_at", JStr (iso_z (ip_updated_at p)))].

(** [projection.model_copy(update=...)] of the members an invocation changes *)
Definition projection_with (state : InvocationState) (version : Z) (result error : option string)
    (ambiguous cancellation_requested : bool) (at_ : datetime) (p : InvocationProjection)
    : InvocationProjection :=
  {| ip_operation_id := ip_operation_id p; ip_tenant_ref := ip_tenant_ref p; ip_peer_id := ip_peer_id p;
     ip_protocol := ip_protocol p; ip_capability_id := ip_capability_id p; ip_risk := ip_risk p;
     ip_state := state; ip_version := version; ip_request_digest := ip_request_digest p;
     ip_trust_digest := ip_trust_digest p; ip_policy_digest := ip_policy_digest p;
     ip_trust_revision := ip_trust_revision p; ip_fence_token := ip_fence_token p;
     ip_cursor_digest := ip_cursor_digest p; ip_result_digest := result; ip_error_code := error;
     ip_ambiguous := ambiguous; ip_cancellation_requested := cancellation_requested;
     ip_updated_at := at_ |}.

(** ** The ledger *)

(** [_facts] is a [defaultdict]: an operation without facts and one with an empty list are the
    same. *)
Record interop_ledger := {
  il_facts : gmap string (list InteroperabilityFact);
  il_commands : gmap string (string * string);
  il_projections : gmap string InvocationProjection
}.

Definition new_InteroperabilityLedger : interop_ledger :=
  {| il_facts := ∅; il_commands := ∅; il_projections := ∅ |}.

Definition op_facts (l : interop_ledger) (operation_id : string) : list InteroperabilityFact :=
  default [] (il_facts l !! operation_id).

Definition op_projection (l : interop_ledger) (operation_id : string) : option InvocationProjection :=
  il_projections l !! operation_id.

(** ["0" * 64] *)
Definition ZERO_DIGEST : string := str_repeat 64 "0".

Definition chain_head (facts : list InteroperabilityFact) : string :=
  match last facts with Some f => if_fact_digest f | None => ZERO_DIGEST end.

(** The version a projection must have to replace the current one *)
Definition expected_version (current : option InvocationProjection) : Z :=
  match current with Some c => ip_version c + 1 | None => 1 end.

(** The last lines of [append], under the lock *)
Definition interop_commit (operation_id command_ref payload_digest : string) (fact : InteroperabilityFact)
    (projection : option InvocationProjection) (l : interop_ledger) : interop_ledger :=
  {| il_facts := <[operation_id := op_facts l operation_id ++ [fact]]> (il_facts l);
     il_commands := <[command_ref := (operation_id, payload_digest)]> (il_commands l);
     il_projections := match projection with
                       | Some p => <[operation_id := p]> (il_projections l)
                       | None => il_projections l
                       end |}.

Section ledger.
Context {HDigest : Digest}.

Definition new_InteroperabilityFact (f : InteroperabilityFact) : res InteroperabilityFact :=
  validated InteroperabilityFact_fields "InteroperabilityFact" f;;
  in_validator "InteroperabilityFact"
    (reject_raw_ledger_payload (if_payload f);;
     d ← digest_value (interop_material f);
     raise_if (bool_decide (d ≠ if_fact_digest f)) ValueError "interoperability fact digest is invalid");;
  Ok f.

Definition build_interop_fact (operation_id : string) (facts : list InteroperabilityFact)
    (fact_type : InteroperabilityFactType) (command_ref actor_ref peer_id : string) (p : payload)
    (recorded_at : datetime) : res InteroperabilityFact :=
  let sequence := zlen facts + 1 in
  let fact digest :=
    {| if_fact_id := "interop-fact-" +:+ operation_id +:+ "-" +:+ str_of_int sequence;
       if_operation_id := operation_id; if_sequence := sequence; if_fact_type := fact_type;
       if_command_ref := command_ref; if_actor_ref := actor_ref; if_peer_id := peer_id; if_payload := p;
       if_previous_digest := chain_head facts; if_fact_digest := digest; if_recorded_at := recorded_at |} in
  digest ← digest_value (interop_material (fact ""));
  new_InteroperabilityFact (fact digest).

Definition interop_append (operation_id : string) (fact_type : InteroperabilityFactType)
    (command_ref actor_ref peer_id : string) (p : payload) (recorded_at : datetime)
    (projection : option InvocationProjection) : M interop_ledger InteroperabilityFact :=
  lift (reject_raw_ledger_payload p);;
  payload_digest ← lift (digest_value (JObj p));
  l ← get;
  let current := op_projection l operation_id in
  match il_commands l !! command_ref with
  | Some existing_command =>
      lift (raise_if (bool_decide (existing_command ≠ (operation_id, payload_digest))) IdempotencyConflict
              "interoperability command conflicts with an existing fact");;
      lift (match projection with
            | Some new =>
                raise_if (match current with
                          | None => true
                          | Some c => negb (ip_version new =? ip_version c + 1)
                          end) ConcurrencyConflict "duplicate interoperability claim is stale"
            | None => Ok ()
            end);;
      lift (of_option (head (List.filter (λ f, bool_decide (if_command_ref f = command_ref))
                               (op_facts l operation_id))) StopIteration "")
  | None =>
      fact ← lift (build_interop_fact operation_id (op_facts l operation_id) fact_type command_ref actor_ref
                     peer_id p recorded_at);
      lift (match projection with
            | Some new =>
                raise_if (negb (ip_version new =? expected_version current)) ConcurrencyConflict
                  "interoperability projection version is stale"
            | None => Ok ()
            end);;
      modify (interop_commit operation_id command_ref payload_digest fact projection);;
      mret fact
  end.

(** One turn of the loop of [verify]: the expected sequence and previous digest, or the verdict *)
Fixpoint verify_facts (expected_sequence : Z) (previous : string) (facts : list InteroperabilityFact)
    : res bool :=
  match facts with
  | [] => Ok true
  | fact :: facts =>
      if negb (if_sequence fact =? expected_sequence) || bool_decide (if_previous_digest fact ≠ previous)
      then Ok false
      else
        d ← digest_value (interop_material fact);
        if bool_decide (d ≠ if_fact_digest fact) then Ok false
        else verify_facts (expected_sequence + 1) (if_fact_digest fact) facts
  end.

Definition interop_verify (l : interop_ledger) (operation_id : string) : res bool :=
  verify_facts 1 ZERO_DIGEST (op_facts l operation_id).
End ledger.

(** ** The quota *)

Record invocation_quota := {
  iq_request_limit : Z;
  iq_cost_limit : Z;
  iq_usage : gmap string (Z * Z);
  iq_reservations : gmap string (string * Z)
}.

Definition new_InvocationQuota (request_limit cost_limit : Z) : res invocation_quota :=
  raise_if ((request_limit <? 1) || (cost_limit <? 0)) ValueError "invocation quota is invalid";;
  Ok {| iq_request_limit := request_limit; iq_cost_limit := cost_limit; iq_usage := ∅;
        iq_reservations := ∅ |}.

Definition usage (q : invocation_quota) (tenant_ref : string) : Z * Z := default (0, 0) (iq_usage q !! tenant_ref).

Definition invocation_reserve (tenant_ref reservation_id : string) (cost_units : Z) : M invocation_quota unit :=
  lift (raise_if (cost_units <? 0) ValueError "cost reservation cannot be negative");;
  q ← get;
  match iq_reservations q !! reservation_id with
  | Some existing =>
      lift (raise_if (bool_decide (existing ≠ (tenant_ref, cost_units))) IdempotencyConflict
              "quota reservation conflicts")
  | None =>
      let '(requests, cost) := usage q tenant_ref in
      lift (raise_if ((iq_request_limit q <? requests + 1) || (iq_cost_limit q <? cost + cost_units))
              PolicyDenied "interoperability quota is exhausted");;
      modify (λ q, {| iq_request_limit := iq_request_limit q; iq_cost_limit := iq_cost_limit q;
                      iq_usage := <[tenant_ref := (requests + 1, cost + cost_units)]> (iq_usage q);
                      iq_reservations := <[reservation_id := (tenant_ref, cost_units)]> (iq_reservations q) |})
  end.

(** ** The circuit *)

Record circuit_breaker := {
  cb_failure_threshold : Z;
  cb_cooldown_seconds : float;
  cb_failures : gmap string Z;
  cb_opened_at : gmap string float
}.

Definition new_CircuitBreaker (failure_threshold : Z) (cooldown_seconds : float) : res circuit_breaker :=
  raise_if ((failure_threshold <? 1) || (20 <? failure_threshold)) ValueError "circuit threshold is invalid";;
  raise_if (fleb cooldown_seconds f_zero || fltb (float_of_int 3600) cooldown_seconds) ValueError
    "circuit cooldown is invalid";;
  Ok {| cb_failure_threshold := failure_threshold; cb_cooldown_seconds := cooldown_seconds;
        cb_failures := ∅; cb_opened_at := ∅ |}.

Definition failures (c : circuit_breaker) (peer_id : string) : Z := default 0 (cb_failures c !! peer_id).

Definition set_breaker (peer_id : string) (count : Z) (opened : option float) (c : circuit_breaker)
    : circuit_breaker :=
  {| cb_failure_threshold := cb_failure_threshold c; cb_cooldown_seconds := cb_cooldown_seconds c;
     cb_failures := <[peer_id := count]> (cb_failures c);
     cb_opened_at := partial_alter (λ _, opened) peer_id (cb_opened_at c) |}.

(** [clock] is what [self._clock()] returns, if it is read. *)
Definition circuit_allow (peer_id : string) (clock : float) (c : circuit_breaker) : bool * circuit_breaker :=
  if failures c peer_id <? cb_failure_threshold c then (true, c)
  else match cb_opened_at c !! peer_id with
       | Some opened_at =>
           if fleb (cb_cooldown_seconds c) (fsub clock opened_at)
           then (true, set_breaker peer_id (cb_failure_threshold c - 1) None c)
           else (false, c)
       | None => (false, c)
       end.

Definition circuit_record (peer_id : string) (success : bool) (clock : float) (c : circuit_breaker)
    : circuit_breaker :=
  if success then set_breaker peer_id 0 None c
  else
    let count := failures c peer_id + 1 in
    let opened := cb_opened_at c !! peer_id in
    set_breaker peer_id count
      (if cb_failure_threshold c <=? count
       then match opened with Some t => Some t | None => Some clock end
       else opened) c.

#[global] Arguments interop_append : simpl never.
#[global] Arguments build_interop_fact : simpl never.
#[global] Arguments invocation_reserve : simpl never.
