(* ===== verification/InteropGateway.v ===== *)
(** * The external invocation gateway ([ExternalInvocationGateway] of [interoperability.py])

    [invoke], [reconcile] and [cancel] as threads over the operations they perform on what
    threads share: the registry, the ledger, the quota and the circuit (each call under its
    object's lock), the clock, the policy port and the protocol transport. *)

From S2P Require Import Prelude PyJson PyTime PyText PyFloat PyModel PyProg Domain InteropText InteropData InteropTrust InteropLedger.

(** What a transport returns *)
Abbreviation peer_result := (StatusContract * list ArtifactContract)%type.

(** ** Operations of a thread *)

Inductive interop_op : Set → Set :=
  | CircuitAllow (peer_id : string) : interop_op bool
  | CircuitRecord (peer_id : string) (success : bool) : interop_op unit
  | Now : interop_op datetime
  | Cancelled : interop_op bool
  | Projection (operation_id : string) : interop_op (option InvocationProjection)
  | RequireActive (peer_id : string) (protocol : ProtocolKind) (capability_id : string) (risk : RiskLevel)
      (classification : DataClassification) (now : datetime) : interop_op (res TrustEntry)
  | GetPeer (peer_id : string) : interop_op (option TrustEntry)
  | Authorize (principal : PrincipalContract) (peer : TrustEntry) (capability : CapabilityContract)
      (request_digest : string) : interop_op (res PolicyContract)
  | ReserveQuota (tenant_ref reservation_id : string) (cost_units : Z) : interop_op (res unit)
  | Append (operation_id : string) (fact_type : InteroperabilityFactType)
      (command_ref actor_ref peer_id : string) (p : payload) (recorded_at : datetime)
      (projection : option InvocationProjection) : interop_op (res InteroperabilityFact)
  | TransportInvoke (peer : TrustEntry) (task : TaskContract) (message : MessageContract)
      (timeout_seconds : float) : interop_op (res peer_result)
  | TransportReconcile (peer : TrustEntry) (task : TaskContract) (timeout_seconds : float)
      : interop_op (res peer_result)
  | TransportCancel (peer : TrustEntry) (task : TaskContract) (timeout_seconds : float)
      : interop_op (res StatusContract).

Notation P A := (prog interop_op exn A).

Definition of_res {A : Set} (r : res A) : P A :=
  match r with Ok a => Return a | Raise e => Throw e end.

(** An operation whose answer may be an exception *)
Definition try_call {A : Set} (o : interop_op (res A)) : P A := r ←' call o; of_res r.

Definition guard (b : bool) (k : ExnKind) (msg : string) : P unit :=
  if b then Throw (Exn k msg) else Return tt.

(** [_task_state] *)
Definition _task_state (state : InvocationState) : TaskState :=
  match state with
  | IV_REQUESTED => TA_SUBMITTED
  | IV_CLAIMED => TA_WORKING
  | IV_SUCCEEDED => TA_COMPLETED
  | IV_FAILED => TA_FAILED
  | IV_AMBIGUOUS => TA_RECONCILIATION_REQUIRED
  | IV_CANCELLED => TA_CANCELLED
  | IV_RECONCILED => TA_COMPLETED
  | IV_QUARANTINED => TA_QUARANTINED
  end.

Record InvocationResult := {
  ir_task : TaskContract;
  ir_status : StatusContract;
  ir_artifacts : list ArtifactContract;
  ir_replayed : bool
}.

Definition InvocationResult_ok (r : InvocationResult) : bool := count_range 0 64 (ir_artifacts r).

Definition new_InvocationResult (r : InvocationResult) : res InvocationResult :=
  validated InvocationResult_ok "InvocationResult" r.

Record invoke_args := {
  iv_principal : PrincipalContract;
  iv_capability : CapabilityContract;
  iv_peer_id : string;
  iv_message : MessageContract;
  iv_operation_id : string;
  iv_command_ref : string;
  iv_idempotency_key : string;
  iv_tenant_ref : string;
  iv_classification : DataClassification;
  iv_cost_units : Z;
  iv_timeout_seconds : float
}.

(** The exceptions after which the peer may have acted *)
Definition transport_ambiguous (x : exn) : bool :=
  bool_decide (exn_kind x ∈ [AmbiguousTransportError; TimeoutError; ConnectionError]).

Section gateway.
Context {HDigest : Digest}.

Definition _task_from_projection (projection : InvocationProjection) (principal : PrincipalContract)
    (idempotency_key : string) (now : datetime) : res TaskContract :=
  key_digest ← digest_value (JStr idempotency_key);
  new_TaskContract
    {| tk_task_id := "interop-task-" +:+ ip_operation_id projection; tk_protocol := ip_protocol projection;
       tk_peer_id := ip_peer_id projection; tk_capability_id := ip_capability_id projection;
       tk_tenant_ref := ip_tenant_ref projection; tk_principal_ref := pn_principal_ref principal;
       tk_purpose := pn_purpose principal; tk_request_digest := ip_request_digest projection;
       tk_idempotency_key_digest := key_digest; tk_policy_digest := ip_policy_digest projection;
       tk_trust_revision := ip_trust_revision projection; tk_fence_token := ip_fence_token projection;
       tk_state := _task_state (ip_state projection); tk_created_at := now; tk_updated_at := now;
       tk_expires_at := pn_expires_at principal; tk_result_digest := ip_result_digest projection;
       tk_error_code := ip_error_code projection |}.

(** One artifact of [_validate_result]: its size when its provenance and pins are right *)
Definition check_artifact (peer : TrustEntry) (capability : CapabilityContract) (task : TaskContract)
    (total : Z) (artifact : ArtifactContract) : res Z :=
  raise_if (bool_decide (af_task_id artifact ≠ tk_task_id task)
            || bool_decide (af_producer_peer_id artifact ≠ te_peer_id peer)) PayloadRejected
    "peer artifact provenance is invalid";;
  raise_if (bool_decide (Some (af_card_digest artifact) ≠ te_card_digest peer)
            && bool_decide (te_protocol peer = PK_A2A)) PayloadRejected "peer artifact card pin is invalid";;
  capability_digest ← digest_value (capability_json capability);
  raise_if (bool_decide (af_capability_digest artifact ≠ capability_digest)) PayloadRejected
    "peer artifact capability pin is invalid";;
  text ← protocol_json (artifact_json artifact);
  Ok (total + str_len text).

Definition _validate_result (peer : TrustEntry) (capability : CapabilityContract) (task : TaskContract)
    (status : StatusContract) (artifacts : list ArtifactContract) : res unit :=
  raise_if (bool_decide (st_state status ≠ TA_COMPLETED)) PayloadRejected
    "peer did not return a completed task";;
  raise_if (64 <? zlen artifacts) PayloadRejected "peer returned too many artifacts";;
  total ← foldM (check_artifact peer capability task) 0 artifacts;
  raise_if (te_maximum_response_bytes peer <? total) PayloadRejected
    "peer artifacts exceed the response bound".

(** The document a result digest covers *)
Definition result_document (status : StatusContract) (artifacts : list ArtifactContract) : json :=
  JObj [("artifacts", JList (artifact_json <$> artifacts)); ("status", status_json status)].

Definition result_payload (artifacts : list ArtifactContract) (result_digest : string)
    (status : StatusContract) : payload :=
  [("artifact_count", JInt (zlen artifacts)); ("result_digest", JStr result_digest);
   ("status_digest", JStr (st_status_digest status))].

Definition invocation_result (task : TaskContract) (status : StatusContract)
    (artifacts : list ArtifactContract) (replayed : bool) : P InvocationResult :=
  of_res (new_InvocationResult {| ir_task := task; ir_status := status; ir_artifacts := artifacts;
                                  ir_replayed := replayed |}).

(** ** Cancelling *)

Definition settled_state (s : InvocationState) : bool :=
  bool_decide (s ∈ [IV_SUCCEEDED; IV_FAILED; IV_CANCELLED; IV_RECONCILED; IV_QUARANTINED]).

(** [model_copy(update={"state": ..., "version": ..., "updated_at": ...})] *)
Definition moved (state : InvocationState) (version : Z) (at_ : datetime) (p : InvocationProjection)
    : InvocationProjection :=
  projection_with state version (ip_result_digest p) (ip_error_code p) (ip_ambiguous p)
    (ip_cancellation_requested p) at_ p.

Definition cancel_requested (at_ : datetime) (p : InvocationProjection) : InvocationProjection :=
  projection_with (ip_state p) (ip_version p + 1) (ip_result_digest p) (ip_error_code p) (ip_ambiguous p)
    true at_ p.

Definition cancel (principal : PrincipalContract) (operation_id command_ref : string)
    (timeout_seconds : float) : P InvocationResult :=
  found ←' call (Projection operation_id);
  match found with
  | None => Throw (Exn PolicyDenied "invocation is unavailable")
  | Some current =>
      guard (bool_decide (ip_tenant_ref current ≠ pn_tenant_ref principal)) PolicyDenied
        "invocation tenant binding is invalid" ;;'
      guard (settled_state (ip_state current)) PolicyDenied "terminal invocation cannot be cancelled" ;;'
      now ←' call Now;
      found ←' call (GetPeer (ip_peer_id current));
      match found with
      | None => Throw (Exn PolicyDenied "peer is unavailable")
      | Some peer =>
          let requested := cancel_requested now current in
          try_call (Append operation_id IF_TASK_CANCEL_REQUESTED command_ref (pn_principal_ref principal)
                      (ip_peer_id current)
                      [("fence_token", JStr (ip_fence_token current));
                       ("request_digest", JStr (ip_request_digest current))] now (Some requested)) ;;'
          task ←' of_res (_task_from_projection requested principal operation_id now);
          status ←' try_call (TransportCancel peer task timeout_seconds);
          guard (bool_decide (st_state status ≠ TA_CANCELLED)) ReconciliationRequired
            "peer cancellation is not confirmed" ;;'
          cancelled_at ←' call Now;
          try_call (Append operation_id IF_TASK_CANCELLED (command_ref +:+ "-confirmed")
                      (pn_principal_ref principal) (ip_peer_id current)
                      [("status_digest", JStr (st_status_digest status))] cancelled_at
                      (Some (moved IV_CANCELLED (ip_version requested + 1) cancelled_at requested))) ;;'
          invocation_result (task_with TA_CANCELLED cancelled_at (tk_result_digest task) task) status [] false
      end
  end.

(** ** Reconciling *)

Definition reconcile (principal : PrincipalContract) (operation_id command_ref : string)
    (classification : DataClassification) (timeout_seconds : float) : P InvocationResult :=
  found ←' call (Projection operation_id);
  match found with
  | None => Throw (Exn PolicyDenied "only ambiguous invocations can be reconciled")
  | Some current =>
      guard (bool_decide (ip_state current ≠ IV_AMBIGUOUS)) PolicyDenied
        "only ambiguous invocations can be reconciled" ;;'
      guard (bool_decide (ip_tenant_ref current ≠ pn_tenant_ref principal)) PolicyDenied
        "invocation tenant binding is invalid" ;;'
      now ←' call Now;
      peer ←' try_call (RequireActive (ip_peer_id current) (ip_protocol current) (ip_capability_id current)
                          (ip_risk current) classification now);
      trust_digest ←' of_res (digest_value (entry_json peer));
      guard (bool_decide (trust_digest ≠ ip_trust_digest current)) PolicyDenied
        "peer trust changed before reconciliation" ;;'
      task ←' of_res (_task_from_projection current principal operation_id now);
      found ←' try_call (TransportReconcile peer task timeout_seconds);
      let '(status, artifacts) := found : peer_result in
      guard (negb (bool_decide (st_state status ∈ [TA_COMPLETED; TA_FAILED]))) ReconciliationRequired
        "peer reconciliation remains inconclusive" ;;'
      result_digest ←' of_res (digest_value (result_document status artifacts));
      try_call (Append operation_id IF_INVOCATION_RECONCILED command_ref (pn_principal_ref principal)
                  (ip_peer_id current) (result_payload artifacts result_digest status) now
                  (Some (projection_with IV_RECONCILED (ip_version current + 1) (Some result_digest)
                           (ip_error_code current) false (ip_cancellation_requested current) now current))) ;;'
      invocation_result (task_with (st_state status) now (Some result_digest) task) status artifacts false
  end.

(** ** Invoking *)

Section invoke.
Context (a : invoke_args).

(** The answer to an operation the ledger already knows *)
Definition replay (existing : InvocationProjection) (request_digest : string) (now : datetime)
    : P InvocationResult :=
  guard (bool_decide (ip_tenant_ref existing ≠ pn_tenant_ref (iv_principal a))) PolicyDenied
    "invocation tenant binding is invalid" ;;'
  guard (bool_decide (ip_request_digest existing ≠ request_digest)) IdempotencyConflict
    "operation ID has a different request" ;;'
  guard (bool_decide (ip_state existing = IV_AMBIGUOUS)) ReconciliationRequired
    "ambiguous invocation requires reconciliation" ;;'
  status_digest ←' of_res (digest_value (projection_json existing));
  status ←' of_res (new_StatusContract
    {| st_state := _task_state (ip_state existing);
       st_progress_percent := if decide (ip_state existing = IV_SUCCEEDED) then 100 else 0;
       st_sequence := ip_version existing; st_retry_after_seconds := None;
       st_status_digest := status_digest; st_occurred_at := ip_updated_at existing |});
  task ←' of_res (_task_from_projection existing (iv_principal a) (iv_idempotency_key a) now);
  invocation_result task status [] true.

Definition reservation_id_of : string := "interop-reservation-" +:+ iv_operation_id a.
Definition fence_of : string := "interop-fence-" +:+ iv_operation_id a +:+ "-1".

Definition build_task (request_digest : string) (policy : PolicyContract) (peer : TrustEntry) (now : datetime)
    : res TaskContract :=
  key_digest ← digest_value (JStr (iv_idempotency_key a));
  new_TaskContract
    {| tk_task_id := "interop-task-" +:+ iv_operation_id a; tk_protocol := cp_protocol (iv_capability a);
       tk_peer_id := iv_peer_id a; tk_capability_id := cp_capability_id (iv_capability a);
       tk_tenant_ref := iv_tenant_ref a; tk_principal_ref := pn_principal_ref (iv_principal a);
       tk_purpose := pn_purpose (iv_principal a); tk_request_digest := request_digest;
       tk_idempotency_key_digest := key_digest; tk_policy_digest := po_policy_digest policy;
       tk_trust_revision := te_revision peer; tk_fence_token := fence_of; tk_state := TA_SUBMITTED;
       tk_created_at := now; tk_updated_at := now; tk_expires_at := pn_expires_at (iv_principal a);
       tk_result_digest := None; tk_error_code := None |}.

Definition build_requested (request_digest trust_digest : string) (policy : PolicyContract) (peer : TrustEntry)
    (now : datetime) : res InvocationProjection :=
  new_InvocationProjection
    {| ip_operation_id := iv_operation_id a; ip_tenant_ref := iv_tenant_ref a; ip_peer_id := iv_peer_id a;
       ip_protocol := cp_protocol (iv_capability a); ip_capability_id := cp_capability_id (iv_capability a);
       ip_risk := cp_risk (iv_capability a); ip_state := IV_REQUESTED; ip_version := 1;
       ip_request_digest := request_digest; ip_trust_digest := trust_digest;
       ip_policy_digest := po_policy_digest policy; ip_trust_revision := te_revision peer;
       ip_fence_token := fence_of; ip_cursor_digest := None; ip_result_digest := None;
       ip_error_code := None; ip_ambiguous := false; ip_cancellation_requested := false;
       ip_updated_at := now |}.

Definition requested_payload (task : TaskContract) (policy : PolicyContract)
    (request_digest trust_digest : string) : payload :=
  [("capability_id", JStr (cp_capability_id (iv_capability a))); ("cost_units", JInt (iv_cost_units a));
   ("idempotency_key_digest", JStr (tk_idempotency_key_digest task));
   ("policy_digest", JStr (po_policy_digest policy)); ("request_digest", JStr request_digest);
   ("reservation_ref", JStr reservation_id_of); ("trust_digest", JStr trust_digest)].

Definition claim_payload (peer : TrustEntry) (request_digest : string) : payload :=
  [("fence_token", JStr fence_of); ("request_digest", JStr request_digest);
   ("trust_revision", JInt (te_revision peer))].

(** An append of this invocation: [command_ref] is the caller's with a suffix *)
Definition record (fact_type : InteroperabilityFactType) (suffix : string) (p : payload) (at_ : datetime)
    (projection : InvocationProjection) : P InteroperabilityFact :=
  try_call (Append (iv_operation_id a) fact_type (iv_command_ref a +:+ suffix)
              (pn_principal_ref (iv_principal a)) (iv_peer_id a) p at_ (Some projection)).

(** The [except] clauses *)
Definition on_fault (claimed : InvocationProjection) (request_digest : string) (x : exn)
    : P InvocationResult :=
  call (CircuitRecord (iv_peer_id a) false) ;;'
  at_ ←' call Now;
  if transport_ambiguous x then
    record IF_INVOCATION_AMBIGUOUS "-ambiguous"
      [("error_code", JStr "transport-ambiguous"); ("fence_token", JStr fence_of);
       ("request_digest", JStr request_digest)] at_
      (projection_with IV_AMBIGUOUS 3 (ip_result_digest claimed) (Some "transport-ambiguous") true
         (ip_cancellation_requested claimed) at_ claimed) ;;'
    Throw (Exn ReconciliationRequired "protocol outcome is ambiguous; observe before retry")
  else
    record IF_INVOCATION_FAILED "-failed"
      [("error_code", JStr "peer-result-rejected"); ("request_digest", JStr request_digest)] at_
      (projection_with IV_FAILED 3 (ip_result_digest claimed) (Some "peer-result-rejected")
         (ip_ambiguous claimed) (ip_cancellation_requested claimed) at_ claimed) ;;'
    Throw x.

(** What follows a result that was accepted *)
Definition complete (task : TaskContract) (claimed : InvocationProjection) (found : peer_result)
    : P InvocationResult :=
  let '(status, artifacts) := found in
  call (CircuitRecord (iv_peer_id a) true) ;;'
  result_digest ←' of_res (digest_value (result_document status artifacts));
  completed_at ←' call Now;
  record IF_INVOCATION_SUCCEEDED "-succeeded" (result_payload artifacts result_digest status) completed_at
    (projection_with IV_SUCCEEDED 3 (Some result_digest) (ip_error_code claimed) (ip_ambiguous claimed)
       (ip_cancellation_requested claimed) completed_at claimed) ;;'
  invocation_result (task_with TA_COMPLETED completed_at (Some result_digest) task) status artifacts false.

(** The body of the [try]: the call and the checks of its result *)
Definition call_peer (peer : TrustEntry) (task : TaskContract) : P peer_result :=
  found ←' try_call (TransportInvoke peer task (iv_message a) (iv_timeout_seconds a));
  of_res (_validate_result peer (iv_capability a) task found.1 found.2) ;;'
  Return found.

(** From the recorded request to the end *)
Definition claim_and_call (peer : TrustEntry) (task : TaskContract) (requested : InvocationProjection)
    (request_digest : string) : P InvocationResult :=
  stop ←' call Cancelled;
  if (stop : bool) then
    cancel (iv_principal a) (iv_operation_id a) (iv_command_ref a +:+ "-cancel") (iv_timeout_seconds a)
  else
    claimed_at ←' call Now;
    let claimed := moved IV_CLAIMED 2 claimed_at requested in
    record IF_INVOCATION_CLAIMED "-claim" (claim_payload peer request_digest) claimed_at claimed ;;'
    try_else (call_peer peer task) (on_fault claimed request_digest) (complete task claimed).

(** From the trust check to the recorded request *)
Definition open_invocation (request_digest : string) (now : datetime) : P InvocationResult :=
  peer ←' try_call (RequireActive (iv_peer_id a) (cp_protocol (iv_capability a))
                      (cp_capability_id (iv_capability a)) (cp_risk (iv_capability a))
                      (iv_classification a) now);
  policy ←' try_call (Authorize (iv_principal a) peer (iv_capability a) request_digest);
  guard (bool_decide (po_decision policy ≠ PD_allow)) PolicyDenied
    "application protocol policy denied the invocation" ;;'
  try_call (ReserveQuota (iv_tenant_ref a) reservation_id_of (iv_cost_units a)) ;;'
  trust_digest ←' of_res (digest_value (entry_json peer));
  task ←' of_res (build_task request_digest policy peer now);
  requested ←' of_res (build_requested request_digest trust_digest policy peer now);
  record IF_INVOCATION_REQUESTED "" (requested_payload task policy request_digest trust_digest) now requested ;;'
  claim_and_call peer task requested request_digest.

Definition invoke : P InvocationResult :=
  guard (bool_decide (pn_tenant_ref (iv_principal a) ≠ iv_tenant_ref a)) PolicyDenied
    "principal tenant reference does not match invocation" ;;'
  guard (fleb (iv_timeout_seconds a) f_zero || fltb (float_of_int 120) (iv_timeout_seconds a)) PayloadRejected
    "protocol timeout is outside the bound" ;;'
  allowed ←' call (CircuitAllow (iv_peer_id a));
  guard (negb allowed) RepositoryUnavailable "peer circuit is open" ;;'
  now ←' call Now;
  request_digest ←' of_res (digest_value (message_json (iv_message a)));
  existing ←' call (Projection (iv_operation_id a));
  match existing with
  | Some existing => replay existing request_digest now
  | None => open_invocation request_digest now
  end.
End invoke.

(** ** Threads and their world *)

Record answers := {
  an_now : datetime;
  an_clock : float;
  an_cancelled : bool;
  an_policy : PrincipalContract → TrustEntry → CapabilityContract → string → res PolicyContract;
  an_invoke : TrustEntry → TaskContract → MessageContract → res peer_result;
  an_reconcile : TrustEntry → TaskContract → res peer_result;
  an_cancel : TrustEntry → TaskContract → res StatusContract
}.

(** A call of a port, with its answer *)
Inductive port_call :=
  | Asked (principal : PrincipalContract) (peer : TrustEntry) (capability : CapabilityContract)
      (request_digest : string) (answer : res PolicyContract)
  | Sent (peer : TrustEntry) (task : TaskContract) (message : MessageContract) (answer : res peer_result)
  | Observed (peer : TrustEntry) (task : TaskContract) (answer : res peer_result)
  | Stopped (peer : TrustEntry) (task : TaskContract) (answer : res StatusContract).

(** The shared objects, with two histories that no code reads: the port calls of each thread and
    the thread whose append opened each operation. *)
Record interop_world := {
  iw_registry : registry;
  iw_ledger : interop_ledger;
  iw_quota : invocation_quota;
  iw_circuit : circuit_breaker;
  iw_log : list (nat * port_call);
  iw_opened : gmap string nat
}.

Definition put_registry (r : registry) (w : interop_world) : interop_world :=
  {| iw_registry := r; iw_ledger := iw_ledger w; iw_quota := iw_quota w; iw_circuit := iw_circuit w;
     iw_log := iw_log w; iw_opened := iw_opened w |}.
Definition put_quota (q : invocation_quota) (w : interop_world) : interop_world :=
  {| iw_registry := iw_registry w; iw_ledger := iw_ledger w; iw_quota := q; iw_circuit := iw_circuit w;
     iw_log := iw_log w; iw_opened := iw_opened w |}.
Definition put_circuit (c : circuit_breaker) (w : interop_world) : interop_world :=
  {| iw_registry := iw_registry w; iw_ledger := iw_ledger w; iw_quota := iw_quota w; iw_circuit := c;
     iw_log := iw_log w; iw_opened := iw_opened w |}.
Definition log_call (i : nat) (c : port_call) (w : interop_world) : interop_world :=
  {| iw_registry := iw_registry w; iw_ledger := iw_ledger w; iw_quota := iw_quota w;
     iw_circuit := iw_circuit w; iw_log := iw_log w ++ [(i, c)]; iw_opened := iw_opened w |}.

(** An append of thread [i]; the first projection of an operation is marked as its own. *)
Definition put_ledger (i : nat) (operation_id : string) (l : interop_ledger) (w : interop_world) : interop_world :=
  {| iw_registry := iw_registry w; iw_ledger := l; iw_quota := iw_quota w; iw_circuit := iw_circuit w;
     iw_log := iw_log w;
     iw_opened := match op_projection (iw_ledger w) operation_id, op_projection l operation_id with
                  | None, Some _ => <[operation_id := i]> (iw_opened w)
                  | _, _ => iw_opened w
                  end |}.

Definition handle (e : answers) (i : nat) (R : Set) (o : interop_op R) (w : interop_world) : R * interop_world :=
  match o in interop_op R return R * interop_world with
  | CircuitAllow peer_id =>
      let '(b, c) := circuit_allow peer_id (an_clock e) (iw_circuit w) in (b, put_circuit c w)
  | CircuitRecord peer_id success =>
      (tt, put_circuit (circuit_record peer_id success (an_clock e) (iw_circuit w)) w)
  | Now => (an_now e, w)
  | Cancelled => (an_cancelled e, w)
  | Projection operation_id => (op_projection (iw_ledger w) operation_id, w)
  | RequireActive peer_id protocol capability_id risk classification now =>
      (require_active (iw_registry w) peer_id protocol capability_id risk classification now, w)
  | GetPeer peer_id => (_current (iw_registry w) peer_id, w)
  | Authorize principal peer capability request_digest =>
      let answer := an_policy e principal peer capability request_digest in
      (answer, log_call i (Asked principal peer capability request_digest answer) w)
  | ReserveQuota tenant_ref reservation_id cost_units =>
      let '(r, q) := invocation_reserve tenant_ref reservation_id cost_units (iw_quota w) in (r, put_quota q w)
  | Append operation_id fact_type command_ref actor_ref peer_id p recorded_at projection =>
      let '(r, l) := interop_append operation_id fact_type command_ref actor_ref peer_id p recorded_at
                       projection (iw_ledger w) in
      (r, put_ledger i operation_id l w)
  | TransportInvoke peer task message timeout_seconds =>
      let answer := an_invoke e peer task message in (answer, log_call i (Sent peer task message answer) w)
  | TransportReconcile peer task timeout_seconds =>
      let answer := an_reconcile e peer task in (answer, log_call i (Observed peer task answer) w)
  | TransportCancel peer task timeout_seconds =>
      let answer := an_cancel e peer task in (answer, log_call i (Stopped peer task answer) w)
  end.

(** The calls a caller makes of the gateway *)
Inductive gateway_call :=
  | InvokeCall (a : invoke_args)
  | ReconcileCall (principal : PrincipalContract) (operation_id command_ref : string)
      (classification : DataClassification) (timeout_seconds : float)
  | CancelCall (principal : PrincipalContract) (operation_id command_ref : string) (timeout_seconds : float).

Definition thread_of (c : gateway_call) : P InvocationResult :=
  match c with
  | InvokeCall a => invoke a
  | ReconcileCall principal operation_id command_ref classification timeout_seconds =>
      reconcile principal operation_id command_ref classification timeout_seconds
  | CancelCall principal operation_id command_ref timeout_seconds =>
      cancel principal operation_id command_ref timeout_seconds
  end.

Inductive turn := Step (i : nat) (e : answers) | Operator (o : trust_op).

Definition move_of (t : turn) : move (W := interop_world) (E := answers) :=
  match t with
  | Step i e => Thread i e
  | Operator o => Outside (λ w, put_registry (run_trust_op o (iw_registry w)).2 w)
  end.

Definition interop_start (r : registry) (q : invocation_quota) (c : circuit_breaker) : interop_world :=
  {| iw_registry := r; iw_ledger := new_InteroperabilityLedger; iw_quota := q; iw_circuit := c;
     iw_log := []; iw_opened := ∅ |}.

(** The gateway after a schedule of steps and operator actions *)
Definition run_gateway (calls : list gateway_call) (turns : list turn) (w : interop_world)
    : list (P InvocationResult) * interop_world :=
  run_pool handle (move_of <$> turns) (thread_of <$> calls, w).
End gateway.
