(* ===== verification/InteropFacts.v ===== *)
(** * The invariants of the interoperability stores

    What an append does, that every operation keeps a verified chain whose commands name its
    facts, and that the quota's usage is the sum of its reservations.  How a peer's history may
    continue and where an active entry comes from, what an accepted token says about the cache,
    and the circuit as an automaton per peer. *)

From S2P Require Import Prelude PyJson PyTime PyText PyFloat PyModel PyDigest Domain InteropText InteropData InteropTrust InteropLedger.

Section ledger.
Context {HDigest : Digest} {HLaws : DigestLaws}.

(** ** One append *)

Definition fresh_append (operation_id : string) (ft : InteroperabilityFactType) (c actor peer : string)
    (p : payload) (at_ : datetime) (proj : option InvocationProjection) (l : interop_ledger)
    (f : InteroperabilityFact) (l' : interop_ledger) : Prop :=
  il_commands l !! c = None ∧
  build_interop_fact operation_id (op_facts l operation_id) ft c actor peer p at_ = Ok f ∧
  (∀ new, proj = Some new → ip_version new = expected_version (op_projection l operation_id)) ∧
  ∃ d, digest_value (JObj p) = Ok d ∧ l' = interop_commit operation_id c d f proj l.

Definition repeated_append (operation_id c : string) (p : payload) (proj : option InvocationProjection)
    (l : interop_ledger) (f : InteroperabilityFact) : Prop :=
  ∃ d, digest_value (JObj p) = Ok d ∧ il_commands l !! c = Some (operation_id, d) ∧
  (∀ new, proj = Some new →
     ∃ current, op_projection l operation_id = Some current ∧ ip_version new = ip_version current + 1) ∧
  f ∈ op_facts l operation_id ∧ if_command_ref f = c.

Lemma interop_append_run operation_id ft c actor peer p at_ proj l r l' :
  interop_append operation_id ft c actor peer p at_ proj l = (r, l') →
  match r with
  | Raise _ => l' = l
  | Ok f => fresh_append operation_id ft c actor peer p at_ proj l f l'
            ∨ (l' = l ∧ repeated_append operation_id c p proj l f)
  end.
Proof.
  unfold interop_append. intros H. bind_step H. unfold lift in H at 1.
  destruct (reject_raw_ledger_payload p) as [[]|e]; [|by simplify_eq].
  bind_step H. unfold lift in H at 1. destruct (digest_value (JObj p)) as [d|e] eqn:Hd; [|by simplify_eq].
  bind_step H. unfold get in H at 1. destruct (il_commands l !! c) as [prior|] eqn:Hc.
  - bind_step H. unfold lift in H at 1. destruct (raise_if _ _ _) as [[]|e] eqn:Hp; [|by simplify_eq].
    apply raise_if_ok in Hp. py_bool. subst prior.
    bind_step H. unfold lift in H at 1.
    assert (Hv : ∀ e, match proj with
      | Some new => raise_if match op_projection l operation_id with
                             | Some c0 => negb (ip_version new =? ip_version c0 + 1) | None => true end
                     ConcurrencyConflict "duplicate interoperability claim is stale"
      | None => Ok () end = Ok e → ∀ new, proj = Some new →
      ∃ current, op_projection l operation_id = Some current ∧ ip_version new = ip_version current + 1).
    { intros e He new ->. apply raise_if_ok in He. destruct (op_projection l operation_id); [|done].
      py_bool. eauto. }
    destruct (match proj with Some _ => _ | None => _ end) as [[]|e]; [|by simplify_eq].
    unfold lift, of_option in H. destruct (head _) as [f|] eqn:Hf; [|by injection H as <- <-].
    injection H as <- <-. right. split; [done|]. exists d. split_and!; [done|done|by apply (Hv tt)|..].
    all: destruct (List.filter _ _) as [|x xs] eqn:Hx; [done|]; injection Hf as ->.
    all: assert (Hin : In f (f :: xs)) by (by left); rewrite <- Hx in Hin; apply filter_In in Hin as [Hin Hb].
    + by apply list_elem_of_In.
    + by py_bool.
  - bind_step H. unfold lift in H at 1. destruct (build_interop_fact _ _ _ _ _ _ _ _) as [f|e] eqn:Hf; [|by simplify_eq].
    bind_step H. unfold lift in H at 1.
    assert (Hv : ∀ e, match proj with
      | Some new => raise_if (negb (ip_version new =? expected_version (op_projection l operation_id)))
                     ConcurrencyConflict "interoperability projection version is stale"
      | None => Ok () end = Ok e → ∀ new, proj = Some new →
      ip_version new = expected_version (op_projection l operation_id)).
    { intros e He new ->. apply raise_if_ok in He. by py_bool. }
    destruct (match proj with Some _ => _ | None => _ end) as [[]|e]; [|by simplify_eq].
    cbn in H. injection H as <- <-. left. split_and!; [done|done|by apply (Hv tt)|]. by exists d.
Qed.

(** ** A fact as built *)

Definition interop_fact (operation_id : string) (facts : list InteroperabilityFact)
    (ft : InteroperabilityFactType) (c actor peer : string) (p : payload) (at_ : datetime) (digest : string)
    : InteroperabilityFact :=
  {| if_fact_id := "interop-fact-" +:+ operation_id +:+ "-" +:+ str_of_int (zlen facts + 1);
     if_operation_id := operation_id; if_sequence := zlen facts + 1; if_fact_type := ft; if_command_ref := c;
     if_actor_ref := actor; if_peer_id := peer; if_payload := p; if_previous_digest := chain_head facts;
     if_fact_digest := digest; if_recorded_at := at_ |}.

Lemma build_fact_ok operation_id facts ft c actor peer p at_ f :
  build_interop_fact operation_id facts ft c actor peer p at_ = Ok f →
  f = interop_fact operation_id facts ft c actor peer p at_ (if_fact_digest f) ∧
  digest_value (interop_material f) = Ok (if_fact_digest f) ∧ zlen facts < 128.
Proof.
  unfold build_interop_fact. intros H. apply res_bind_ok in H as (d & Hd & H).
  unfold new_InteroperabilityFact in H. apply res_bind_ok in H as (g & Hg & H).
  apply validated_ok in Hg as [-> Hg]. apply res_bind_ok in H as ([] & _ & [= <-]).
  split; [done|]. split; [exact Hd|].
  unfold InteroperabilityFact_fields, in_range in Hg. cbn [if_sequence] in Hg. py_bool. lia.
Qed.

(** ** The invariant *)

Record ledger_sound (l : interop_ledger) : Prop := {
  ls_chain op : verify_facts 1 ZERO_DIGEST (op_facts l op) = Ok true ∧ zlen (op_facts l op) ≤ 128;
  ls_names op f : f ∈ op_facts l op →
    if_operation_id f = op ∧ ∃ d, digest_value (JObj (if_payload f)) = Ok d ∧
    il_commands l !! if_command_ref f = Some (op, d);
  ls_commands c op d : il_commands l !! c = Some (op, d) →
    ∃ f, f ∈ op_facts l op ∧ if_command_ref f = c ∧ digest_value (JObj (if_payload f)) = Ok d;
  ls_version op p : op_projection l op = Some p → 1 ≤ ip_version p ≤ zlen (op_facts l op)
}.

Lemma empty_ledger_sound : ledger_sound new_InteroperabilityLedger.
Proof.
  split; [by intros op| |by intros c op d; simpl; rewrite lookup_empty|].
  2: by intros op p; unfold op_projection; simpl; rewrite lookup_empty.
  intros op f Hf. by apply not_elem_of_nil in Hf.
Qed.

Lemma verify_snoc facts f : ∀ n d,
  verify_facts n d facts = Ok true →
  if_sequence f = n + zlen facts → if_previous_digest f = (match last facts with Some g => if_fact_digest g | None => d end) →
  digest_value (interop_material f) = Ok (if_fact_digest f) →
  verify_facts n d (facts ++ [f]) = Ok true.
Proof.
  induction facts as [|g facts IH]; intros n d H Hs Hp Hd.
  - cbn in *. unfold zlen in Hs. cbn in Hs. rewrite Hs, Hp, Z.add_0_r, Z.eqb_refl, bool_decide_eq_false_2 by tauto.
    cbn. rewrite Hd. cbn. by rewrite bool_decide_eq_false_2 by tauto.
  - cbn [verify_facts app] in *. destruct (negb _ || _); [done|].
    apply res_bind_ok in H as (d' & Hd' & H). rewrite Hd'. cbn.
    case_bool_decide; [done|]. apply IH; [done| | |done].
    + rewrite Hs. unfold zlen. cbn. lia.
    + rewrite Hp. destruct facts as [|h facts]; [done|]. simpl. destruct (last (h :: facts)) eqn:E; [done|]. by apply last_None in E.
Qed.

Lemma interop_facts_commit op c d f proj l op' :
  op_facts (interop_commit op c d f proj l) op' = op_facts l op' ++ (if decide (op' = op) then [f] else []).
Proof.
  unfold op_facts, interop_commit. cbn. rewrite lookup_insert.
  destruct (decide (op = op')) as [->|Hne]; [by rewrite decide_True|].
  by rewrite decide_False, app_nil_r.
Qed.

Lemma projection_commit op c d f proj l op' :
  op_projection (interop_commit op c d f proj l) op' =
  match proj with Some p => if decide (op' = op) then Some p else op_projection l op' | None => op_projection l op' end.
Proof.
  unfold op_projection. destruct proj; cbn; [|done]. rewrite lookup_insert.
  destruct (decide (op = op')) as [->|Hne]; [by rewrite decide_True|]. by rewrite decide_False.
Qed.

Lemma fresh_append_sound op ft c actor peer p at_ proj l f l' :
  ledger_sound l → fresh_append op ft c actor peer p at_ proj l f l' → ledger_sound l'.
Proof.
  intros [Hch Hn Hc Hv] (Hnew & Hf & Hp & d & Hd & ->). apply build_fact_ok in Hf as (Ef & Hdf & Hlen).
  assert (Hop : if_operation_id f = op ∧ if_command_ref f = c ∧ if_payload f = p) by (by rewrite Ef).
  destruct Hop as (Hop & Hcf & Hpf). split.
  - intros op'. rewrite interop_facts_commit. destruct (decide (op' = op)) as [->|]; [|by rewrite app_nil_r].
    destruct (Hch op) as [Hok Hl]. split; [|unfold zlen in *; rewrite length_app; cbn; lia].
    apply verify_snoc; [done|by rewrite Ef; cbn; lia| |done]. by rewrite Ef.
  - intros op' g. rewrite interop_facts_commit, elem_of_app. cbn [interop_commit il_commands]. intros [Hg|Hg].
    + destruct (Hn op' g Hg) as (Ho & d' & Hd' & Hcmd). split; [done|]. exists d'. split; [done|].
      rewrite lookup_insert_ne; [done|]. intros ->. congruence.
    + case_decide; [|by apply not_elem_of_nil in Hg]. apply list_elem_of_singleton in Hg as ->. subst op'.
      split; [done|]. exists d. rewrite Hpf, Hcf, lookup_insert_eq. done.
  - intros c' op' d'. cbn [interop_commit il_commands]. rewrite lookup_insert. case_decide as Hcc.
    + intros [= <- <-]. exists f. rewrite interop_facts_commit, decide_True by done. split_and!; [|congruence|congruence].
      apply elem_of_app. right. by left.
    + intros H. destruct (Hc c' op' d' H) as (g & Hg & ?). exists g. split; [|done].
      rewrite interop_facts_commit. apply elem_of_app. by left.
  - intros op' q. rewrite projection_commit, interop_facts_commit. unfold zlen. rewrite length_app.
    assert (Hold : ∀ q, op_projection l op' = Some q → 1 ≤ ip_version q ≤ Z.of_nat (length (op_facts l op') + length (if decide (op' = op) then [f] else []))).
    { intros q' Hq. specialize (Hv op' q' Hq). unfold zlen in Hv. lia. }
    destruct proj as [new|]; [|apply Hold]. destruct (decide (op' = op)) as [->|]; [|apply Hold].
    intros [= <-]. specialize (Hp new eq_refl). cbn. unfold expected_version in Hp.
    destruct (op_projection l op) as [cur|] eqn:E; [specialize (Hv op cur E); unfold zlen in Hv|]; lia.
Qed.

Lemma append_sound op ft c actor peer p at_ proj :
  preserves ledger_sound (interop_append op ft c actor peer p at_ proj).
Proof.
  intros l Hl. destruct (interop_append _ _ _ _ _ _ _ _ l) as [r l'] eqn:H. apply interop_append_run in H.
  destruct r as [f|e]; [|by subst]. destruct H as [H|[-> _]]; [|done]. by eapply fresh_append_sound.
Qed.

(** What an append leaves: nothing is lost. *)
Definition ledger_grows (l l' : interop_ledger) : Prop :=
  (∀ op, op_facts l op `prefix_of` op_facts l' op) ∧ il_commands l ⊆ il_commands l' ∧
  (∀ op, is_Some (op_projection l op) → is_Some (op_projection l' op)).

#[export] Instance ledger_grows_preorder : PreOrder ledger_grows.
Proof.
  split; [by intros x; split_and!|]. intros l1 l2 l3 (H1 & H2 & H3) (H4 & H5 & H6).
  split_and!; [intros op; etrans; [apply H1|apply H4]|by transitivity (il_commands l2)|by intros op Ho; apply H6, H3].
Qed.

Lemma append_grows op ft c actor peer p at_ proj l :
  ledger_grows l (interop_append op ft c actor peer p at_ proj l).2.
Proof.
  destruct (interop_append _ _ _ _ _ _ _ _ l) as [r l'] eqn:H. apply interop_append_run in H. cbn.
  destruct r as [f|e]; [|by subst]. destruct H as [(Hnew & _ & _ & d & _ & ->)|[-> _]]; [|done]. split_and!.
  - intros op'. rewrite interop_facts_commit. by eexists.
  - cbn. by apply insert_subseteq.
  - intros op'. rewrite projection_commit. destruct proj; [|done]. intros ?. by destruct (decide _).
Qed.

(** The fact an append returns is in the ledger under its command, with a payload of its digest. *)
Definition recorded (l : interop_ledger) (op c : string) (p : payload) : Prop :=
  ∃ f, f ∈ op_facts l op ∧ if_command_ref f = c ∧ digest_value (JObj (if_payload f)) = digest_value (JObj p).

Lemma append_recorded op ft c actor peer p at_ proj l f l' :
  ledger_sound l → interop_append op ft c actor peer p at_ proj l = (Ok f, l') → recorded l' op c p.
Proof.
  intros Hl H. apply interop_append_run in H. destruct H as [(_ & Hf & _ & d & Hd & ->)|(-> & d & Hd & Hc & _ & Hin & Hcf)].
  - apply build_fact_ok in Hf as (Ef & _). exists f. rewrite interop_facts_commit, decide_True by done. split_and!.
    + apply elem_of_app. right. by left.
    + by rewrite Ef.
    + by rewrite Ef.
  - exists f. split_and!; [done|done|]. destruct (ls_names _ Hl op f Hin) as (_ & d' & Hd' & Hc').
    rewrite Hcf, Hc in Hc'. congruence.
Qed.

(** The first projection of an operation is recorded by a fact of its own. *)
Lemma append_opens op ft c actor peer p at_ new l f l' :
  ledger_sound l → ip_version new = 1 →
  interop_append op ft c actor peer p at_ (Some new) l = (Ok f, l') →
  op_projection l op = None ∧ op_projection l' op = Some new ∧
  f = interop_fact op (op_facts l op) ft c actor peer p at_ (if_fact_digest f) ∧ f ∈ op_facts l' op.
Proof.
  intros Hl Hv H. apply interop_append_run in H. destruct H as [(_ & Hf & Hp & d & Hd & ->)|(-> & d & Hd & Hc & Hp & _)].
  - apply build_fact_ok in Hf as (Ef & _). specialize (Hp new eq_refl). rewrite Hv in Hp.
    split_and!; [| |exact Ef|].
    + unfold expected_version in Hp. destruct (op_projection l op) as [cur|] eqn:E; [|done].
      pose proof (ls_version _ Hl op cur E). lia.
    + by rewrite projection_commit, decide_True.
    + rewrite interop_facts_commit, decide_True by done. apply elem_of_app. right. by left.
  - destruct (Hp new eq_refl) as (cur & E & Hcur). pose proof (ls_version _ Hl op cur E). lia.
Qed.
End ledger.

(** ** The quota *)

(** The requests and units of a reservation, when it is the tenant's *)
Definition reserved_units (tenant_ref : string) (v : string * Z) : Z := if decide (v.1 = tenant_ref) then v.2 else 0.
Definition reserved_requests (tenant_ref : string) (v : string * Z) : Z := if decide (v.1 = tenant_ref) then 1 else 0.

Definition total_of (f : string * Z → Z) (m : gmap string (string * Z)) : Z :=
  map_fold (λ _ v acc, f v + acc) 0 m.

Record quota_sound (q : invocation_quota) : Prop := {
  qs_usage t : usage q t = (total_of (reserved_requests t) (iq_reservations q),
                            total_of (reserved_units t) (iq_reservations q));
  qs_limits t : (usage q t).1 ≤ Z.max 0 (iq_request_limit q) ∧ (usage q t).2 ≤ Z.max 0 (iq_cost_limit q);
  qs_nonneg id v : iq_reservations q !! id = Some v → 0 ≤ v.2
}.

Lemma total_insert f m id v : m !! id = None → total_of f (<[id := v]> m) = f v + total_of f m.
Proof. intros H. unfold total_of. rewrite map_fold_insert_L; [done| |done]. intros. lia. Qed.

Lemma new_quota_sound requests cost q : new_InvocationQuota requests cost = Ok q → quota_sound q.
Proof.
  unfold new_InvocationQuota. intros H. apply res_bind_ok in H as (u & _ & [= <-]).
  split; [done| |done]. intros t. unfold usage. simpl. rewrite lookup_empty. simpl. lia.
Qed.

Lemma invocation_reserve_run t id units q r q' :
  invocation_reserve t id units q = (r, q') →
  match r with
  | Raise _ => q' = q
  | Ok _ => 0 ≤ units ∧
      ((iq_reservations q !! id = Some (t, units) ∧ q' = q)
       ∨ (iq_reservations q !! id = None ∧ (usage q t).1 + 1 ≤ iq_request_limit q ∧
          (usage q t).2 + units ≤ iq_cost_limit q ∧
          q' = {| iq_request_limit := iq_request_limit q; iq_cost_limit := iq_cost_limit q;
                  iq_usage := <[t := ((usage q t).1 + 1, (usage q t).2 + units)]> (iq_usage q);
                  iq_reservations := <[id := (t, units)]> (iq_reservations q) |}))
  end.
Proof.
  unfold invocation_reserve. intros H. bind_step H. unfold lift in H at 1.
  destruct (units <? 0) eqn:Hu; cbn in H; [by simplify_eq|]. apply Z.ltb_ge in Hu.
  bind_step H. unfold get in H at 1.
  destruct (iq_reservations q !! id) as [old|] eqn:Hid; cbn in H.
  - unfold lift in H. destruct (bool_decide _) eqn:Hb; cbn in H; simplify_eq; [done|]. py_bool. subst old. by auto.
  - destruct (usage q t) as [requests cost] eqn:Hq. bind_step H. unfold lift in H.
    destruct (_ || _) eqn:Hb; cbn in H; injection H as <- <-; [done|]. py_bool. split; [done|]. by right.
Qed.

Lemma reserve_sound t id units : preserves quota_sound (invocation_reserve t id units).
Proof.
  intros q Hq. destruct (invocation_reserve t id units q) as [r q'] eqn:H. apply invocation_reserve_run in H. cbn.
  destruct r as [u|e]; [|by subst]. destruct H as [Hu [[_ ->]|(Hid & Hr & Hc & ->)]]; [done|].
  destruct Hq as [Hus Hl Hn]. split.
  - intros t'. cbn. rewrite !total_insert by done. unfold usage at 1. cbn. rewrite lookup_insert.
    unfold reserved_requests at 1, reserved_units at 1. cbn.
    destruct (decide (t = t')) as [->|]; cbn.
    + rewrite (Hus t'). cbn. f_equal; lia.
    + exact (Hus t').
  - intros t'. set (uq := usage q t) in *. unfold usage at 1 2. simpl. rewrite lookup_insert.
    destruct (decide (t = t')); simpl; [lia|apply Hl].
  - intros id' v. cbn. rewrite lookup_insert. case_decide; [by intros [= <-]|apply Hn].
Qed.

Lemma reserve_grows t id units q : iq_reservations q ⊆ iq_reservations (invocation_reserve t id units q).2.
Proof.
  destruct (invocation_reserve t id units q) as [r q'] eqn:H. apply invocation_reserve_run in H. cbn.
  destruct r as [u|e]; [|by subst]. destruct H as [Hu [[_ ->]|(Hid & _ & _ & ->)]]; [done|].
  cbn. by apply insert_subseteq.
Qed.

Section registry.
Context {HDigest : Digest}.

(** ** One operation *)

(** The entry a review makes of the current one *)
Definition reviewed (c : TrustEntry) (target : TrustStatus) (reviewer : string) (at_ : datetime) (d : string)
    : TrustEntry :=
  entry_with target (te_revision c + 1) (sorted_set (te_reviewed_by c ++ [reviewer])) (Some at_) d c.

(** [continues ops h e]: entry [e] may follow history [h] of its peer, by one of [ops]. *)
Inductive continues (ops : list trust_op) (peer : string) (h : list TrustEntry) : TrustEntry → Prop :=
  | continues_registered e :
      Register e ∈ ops → te_peer_id e = peer → te_status e = TS_PENDING_REVIEW →
      te_revision e = zlen h + 1 → (∀ c, last h = Some c → te_protocol c = te_protocol e) →
      continues ops peer h e
  | continues_reviewed c reviewer at_ d :
      last h = Some c → te_status c = TS_PENDING_REVIEW →
      Review peer (te_revision c) reviewer at_ ("TRUST " +:+ peer) ∈ ops →
      continues ops peer h (reviewed c TS_ACTIVE reviewer at_ d)
  | continues_stopped c target reviewer at_ d :
      last h = Some c → target ∈ [TS_QUARANTINED; TS_REVOKED; TS_EMERGENCY_DISABLED] →
      terminal_trust (te_status c) = false → continues ops peer h (reviewed c target reviewer at_ d).

(** Every entry continues the history before it, with the next revision. *)
Definition history_sound (ops : list trust_op) (r : registry) : Prop :=
  ∀ peer h1 e h2, history r peer = h1 ++ e :: h2 →
    continues ops peer h1 e ∧ te_peer_id e = peer ∧ te_revision e = zlen h1 + 1.

Lemma history_add peer e r p :
  history (add_entry peer e r) p = history r p ++ (if decide (p = peer) then [e] else []).
Proof.
  unfold add_entry, history at 1. rewrite lookup_insert. destruct (decide (peer = p)) as [->|Hne].
  - by rewrite decide_True.
  - by rewrite decide_False, app_nil_r.
Qed.

Lemma continues_more ops o peer h e : continues ops peer h e → continues (ops ++ [o]) peer h e.
Proof.
  intros [e' Ho ? ? ? ?|c by_ at_ d ? ? Ho|c t by_ at_ d ? ? ?].
  - apply continues_registered; [apply elem_of_app; by left|done..].
  - apply continues_reviewed; [done|done|apply elem_of_app; by left].
  - by apply continues_stopped.
Qed.

(** An entry added to the peer's own history *)
Lemma history_sound_add ops o peer e r :
  history_sound ops r → continues (ops ++ [o]) peer (history r peer) e → te_peer_id e = peer →
  te_revision e = zlen (history r peer) + 1 → history_sound (ops ++ [o]) (add_entry peer e r).
Proof.
  intros Hr He Hp Hv p h1 x h2. rewrite history_add. case_decide as Hd.
  - rewrite Hd. intros H. apply app_eq_app in H as (k & [[Hh Hk]|[-> Hk]]).
    + destruct k as [|y k]; cbn in Hk.
      * injection Hk as -> ->. rewrite app_nil_r in Hh. by subst h1.
      * injection Hk as <- ->. destruct (Hr peer h1 x k Hh) as (H1 & H2 & H3).
        split_and!; [by apply continues_more|done|done].
    + destruct k as [|y k]; [|by destruct k]. injection Hk as <- <-. by rewrite app_nil_r.
  - rewrite app_nil_r. intros H. destruct (Hr _ h1 x h2 H) as (H1 & H2 & H3).
    split_and!; [by apply continues_more|done|done].
Qed.

Lemma history_sound_more ops o r : history_sound ops r → history_sound (ops ++ [o]) r.
Proof.
  intros Hr p h1 e h2 H. destruct (Hr p h1 e h2 H) as (H1 & H2 & H3).
  split_and!; [by apply continues_more|done|done].
Qed.

Lemma current_revision ops r peer c :
  history_sound ops r → last (history r peer) = Some c →
  te_revision c = zlen (history r peer) ∧ te_peer_id c = peer.
Proof.
  intros Hr Hc. apply last_Some in Hc as [h Hh]. destruct (Hr peer h c [] Hh) as (_ & ? & ->).
  split; [|done]. rewrite Hh. unfold zlen. rewrite length_app. cbn. lia.
Qed.

Lemma register_run entry r res r' :
  register entry r = (res, r') →
  (r' = r ∧ is_ok res = false) ∨
  (res = Ok entry ∧ r' = add_entry (te_peer_id entry) entry r ∧ te_status entry = TS_PENDING_REVIEW ∧
   te_revision entry = match last (history r (te_peer_id entry)) with Some c => te_revision c + 1 | None => 1 end ∧
   ∀ c, last (history r (te_peer_id entry)) = Some c → te_protocol c = te_protocol entry).
Proof.
  unfold register. intros H. bind_step H. unfold get in H at 1.
  bind_step H. unfold lift in H at 1. destruct (negb _) eqn:H1; cbn in H; [injection H as <- <-; by left|].
  bind_step H. unfold lift in H at 1. unfold _current in *.
  match type of H with context [raise_if ?b IntegrityFailure _] => destruct b eqn:H2 end; cbn in H; [injection H as <- <-; by left|].
  bind_step H. unfold lift in H at 1. destruct (bool_decide _) eqn:H3; cbn in H; [injection H as <- <-; by left|].
  injection H as <- <-. right. py_bool. split_and!; [done|done|done|done|].
  intros c Hc. rewrite Hc in H2. by py_bool.
Qed.

Lemma transition_run peer v now target reviewer text wanted r res r' :
  _transition peer v now target reviewer text wanted r = (res, r') →
  (r' = r ∧ is_ok res = false) ∨
  ∃ c d, last (history r peer) = Some c ∧ te_revision c = v ∧ text = wanted ∧
    (target = TS_ACTIVE → te_status c = TS_PENDING_REVIEW) ∧
    (target ≠ TS_ACTIVE → terminal_trust (te_status c) = false) ∧
    res = Ok (reviewed c target reviewer now d) ∧ r' = add_entry peer (reviewed c target reviewer now d) r.
Proof.
  unfold _transition, _current. intros H. bind_step H. unfold lift in H at 1.
  destruct (bool_decide _) eqn:H1; cbn in H; [injection H as <- <-; by left|].
  bind_step H. unfold get in H at 1. bind_step H. unfold lift in H at 1.
  destruct (last (history r peer)) as [c|] eqn:Hc; cbn [of_option] in H; [|injection H as <- <-; by left].
  bind_step H. unfold lift in H at 1. destruct (negb _) eqn:H2; cbn in H; [injection H as <- <-; by left|].
  bind_step H. unfold lift in H at 1.
  destruct (bool_decide (target = TS_ACTIVE) && _) eqn:H3; cbn in H; [injection H as <- <-; by left|].
  bind_step H. unfold lift in H at 1.
  destruct (bool_decide (target ≠ TS_ACTIVE) && _) eqn:H4; cbn in H; [injection H as <- <-; by left|].
  bind_step H. unfold lift in H at 1. destruct (digest_value _) as [d|e]; cbn in H; [|injection H as <- <-; by left].
  injection H as <- <-. right. exists c, d. py_bool.
  apply andb_false_iff in H3, H4. split_and!; try done.
  - intros Ht. destruct H3; py_bool; [done|done].
  - intros Ht. destruct H4; py_bool; [done|done].
Qed.

Lemma transition_sound ops o peer v now target reviewer text wanted r :
  history_sound ops r →
  target ∈ [TS_ACTIVE; TS_QUARANTINED; TS_REVOKED; TS_EMERGENCY_DISABLED] →
  (target = TS_ACTIVE → wanted = "TRUST " +:+ peer ∧ o = Review peer v reviewer now text) →
  history_sound (ops ++ [o]) (_transition peer v now target reviewer text wanted r).2.
Proof.
  intros Hr Ht Ho. destruct (_transition _ _ _ _ _ _ _ r) as [res r'] eqn:H. cbn.
  apply transition_run in H as [[-> _]|(c & d & Hc & Hv & -> & Ha & Hs & _ & ->)]; [by apply history_sound_more|].
  destruct (current_revision _ _ _ _ Hr Hc) as [Hrev Hp].
  apply history_sound_add; [done| |done|by cbn; rewrite Hrev].
  destruct (decide (target = TS_ACTIVE)) as [->|Hne].
  - destruct (Ho eq_refl) as [-> ->]. apply continues_reviewed; [done|by apply Ha|]. rewrite Hv.
    apply elem_of_app. right. by left.
  - apply continues_stopped; [done|set_solver|by apply Hs].
Qed.

Lemma run_trust_op_sound ops o r : history_sound ops r → history_sound (ops ++ [o]) (run_trust_op o r).2.
Proof.
  intros Hr. destruct o as [e|p v by_ now text|p v by_ now text|p v by_ now text|p v by_ now text]; cbn [run_trust_op].
  - destruct (register e r) as [res r'] eqn:H. cbn. apply register_run in H as [[-> _]|(_ & -> & Hs & Hv & Hp)];
      [by apply history_sound_more|].
    assert (Hrev : te_revision e = zlen (history r (te_peer_id e)) + 1).
    { rewrite Hv. destruct (last (history r (te_peer_id e))) as [c|] eqn:Hc.
      - by destruct (current_revision _ _ _ _ Hr Hc) as [-> _].
      - apply last_None in Hc. by rewrite Hc. }
    apply history_sound_add; [done| |done|done].
    apply continues_registered; [apply elem_of_app; right; by left|done..].
  - apply transition_sound; [done|set_solver|done].
  - apply transition_sound; [done|set_solver|done].
  - apply transition_sound; [done|set_solver|done].
  - apply transition_sound; [done|set_solver|done].
Qed.

Lemma run_trust_sound ops : history_sound ops (run_trust ops ∅).
Proof.
  induction ops as [|o ops IH] using rev_ind.
  - intros p h1 e h2 H. unfold run_trust, history in H. cbn in H. rewrite lookup_empty in H. by destruct h1.
  - unfold run_trust. rewrite foldl_snoc. by apply run_trust_op_sound.
Qed.

(** ** Active entries *)

Lemma require_active_ok r peer protocol cap risk cls now e :
  require_active r peer protocol cap risk cls now = Ok e →
  last (history r peer) = Some e ∧ te_protocol e = protocol ∧ te_status e = TS_ACTIVE ∧
  now < te_expires_at e ∧ now < te_review_after e ∧ cap ∈ te_allowed_capabilities e ∧
  risk ∈ te_allowed_risks e ∧ cls ∈ te_allowed_classifications e.
Proof.
  unfold require_active, _current. destruct (last (history r peer)) as [c|]; [|done]. intros H. py_inv. by py_bool.
Qed.

(** Histories only grow. *)
Definition registry_grows (r r' : registry) : Prop := ∀ peer, history r peer `prefix_of` history r' peer.

Lemma run_trust_op_grows o r : registry_grows r (run_trust_op o r).2.
Proof.
  assert (Ha : ∀ p e, registry_grows r (add_entry p e r)).
  { intros p e q. rewrite history_add. by eexists. }
  assert (Ht : ∀ p v now t by_ x y, registry_grows r (_transition p v now t by_ x y r).2).
  { intros. destruct (_transition _ _ _ _ _ _ _ r) as [res r'] eqn:H.
    apply transition_run in H as [[-> _]|(c & d & _ & _ & _ & _ & _ & _ & ->)]; [by intros q|apply Ha]. }
  destruct o; cbn [run_trust_op]; try apply Ht.
  destruct (register _ r) as [res r'] eqn:H. apply register_run in H as [[-> _]|(_ & -> & _)]; [by intros q|apply Ha].
Qed.
End registry.

(** ** The replay cache *)

(** [crowded n accepted kv]: [n] accepted tokens that expire no earlier than [kv] *)
Definition crowded (n : Z) (accepted : list (string * datetime)) (kv : string * datetime) : Prop :=
  ∃ D : list (string * datetime), NoDup D.*1 ∧ n ≤ zlen D ∧ ∀ d, d ∈ D → d ∈ accepted ∧ kv.2 ≤ d.2.

(** Every accepted token is in the cache or was crowded out of it. *)
Definition cache_sound (accepted : list (string * datetime)) (c : memory_cache) : Prop :=
  NoDup (mc_entries c).*1 ∧ (∀ kv, kv ∈ mc_entries c → kv ∈ accepted) ∧
  ∀ kv, kv ∈ accepted → kv ∈ mc_entries c ∨ crowded (mc_maximum_entries c) accepted kv.

Lemma crowded_more n accepted kv x : crowded n accepted kv → crowded n (accepted ++ [x]) kv.
Proof.
  intros (D & H1 & H2 & H3). exists D. split_and!; [done|done|]. intros d Hd.
  destruct (H3 d Hd). split; [apply elem_of_app; by left|done].
Qed.

Lemma soonest_min rest : ∀ first,
  ∃ x, (soonest first rest, x) ∈ first :: rest ∧ ∀ kv, kv ∈ first :: rest → x ≤ kv.2.
Proof.
  induction rest as [|kv rest IH]; intros first; cbn.
  - exists first.2. split; [destruct first; by left|]. by intros kv ->%list_elem_of_singleton.
  - destruct (Z.ltb_spec kv.2 first.2) as [Hlt|Hge].
    + destruct (IH kv) as (x & Hx & Hmin). exists x. split; [by right|].
      intros q [->|Hq]%elem_of_cons; [specialize (Hmin kv ltac:(by left)); lia|by apply Hmin].
    + destruct (IH first) as (x & Hx & Hmin). exists x. split.
      * apply elem_of_cons in Hx as [Hx|Hx]; [rewrite Hx; by left|by do 2 right].
      * intros q [->|[->|Hq]%elem_of_cons]%elem_of_cons.
        -- by apply Hmin; left.
        -- specialize (Hmin first ltac:(by left)). lia.
        -- by apply Hmin; right.
Qed.

Lemma NoDup_keys {V} (l : list (string * V)) k v v' : NoDup l.*1 → (k, v) ∈ l → (k, v') ∈ l → v = v'.
Proof.
  induction l as [|[k0 v0] l IH]; [by intros _ ?%not_elem_of_nil|]. cbn. intros [Hk Hnd]%NoDup_cons.
  assert (Hin : ∀ w, (k0, w) ∈ l → False).
  { intros w Hw. apply Hk, list_elem_of_fmap. by exists (k0, w). }
  intros [[= -> ->]|H1]%elem_of_cons [[= ->]|H2]%elem_of_cons; [done|by destruct (Hin v')| |by apply IH].
  by destruct (Hin v).
Qed.

Lemma evict_spec l kv :
  NoDup l.*1 → kv ∈ l → kv ∈ evict l ∨ ∀ kv', kv' ∈ l → kv.2 ≤ kv'.2.
Proof.
  intros Hnd Hkv. destruct l as [|first rest]; [by apply not_elem_of_nil in Hkv|].
  destruct (soonest_min rest first) as (x & Hx & Hmin). unfold evict.
  destruct (decide (kv.1 = soonest first rest)) as [He|He].
  - right. destruct kv as [k v]. cbn in He. rewrite <- He in Hx.
    by rewrite (NoDup_keys (first :: rest) _ _ _ Hnd Hkv Hx).
  - left. apply list_elem_of_In, filter_In. split; [by apply list_elem_of_In|]. by rewrite bool_decide_eq_false_2.
Qed.

Lemma filter_keys_NoDup {V} (f : string * V → bool) l : NoDup l.*1 → NoDup (List.filter f l).*1.
Proof.
  intros H. eapply sublist_NoDup; [exact H|]. apply fmap_sublist, filter_sublist.
Qed.

Lemma memory_consume_run t x c b c' :
  memory_consume t x c = (Ok b, c') →
  (b = false ∧ c' = c ∧ t ∈ (mc_entries c).*1) ∨
  (b = true ∧ t ∉ (mc_entries c).*1 ∧ mc_maximum_entries c' = mc_maximum_entries c ∧
   mc_entries c' = (if mc_maximum_entries c <=? zlen (mc_entries c) then evict (mc_entries c)
                    else mc_entries c) ++ [(t, x)]).
Proof.
  unfold memory_consume. intros H. bind_step H. unfold get in H at 1.
  destruct (dict_get t (mc_entries c)) as [y|] eqn:Ht.
  - injection H as <- <-. left. split_and!; [done|done|]. apply dict_get_elem in Ht.
    apply list_elem_of_fmap. by exists (t, y).
  - injection H as <- <-. right. apply dict_get_None in Ht. split_and!; [done|done|done|]. cbn.
    set (l := if mc_maximum_entries c <=? zlen (mc_entries c) then evict (mc_entries c) else mc_entries c).
    assert (Hl : t ∉ l.*1).
    { intros Hin. apply Ht. subst l. destruct (_ <=? _); [|done]. unfold evict in Hin.
      destruct (mc_entries c) as [|f r]; [done|].
      eapply elem_of_sublist; [exact Hin|]. apply fmap_sublist, filter_sublist. }
    clearbody l. clear -Hl. induction l as [|[k v] l IH]; cbn in *; [done|].
    apply not_elem_of_cons in Hl as [Hne Hl]. rewrite decide_False by congruence. f_equal. by apply IH.
Qed.

Lemma consume_sound accepted t x c b c' :
  cache_sound accepted c → memory_consume t x c = (Ok b, c') →
  cache_sound (if b then accepted ++ [(t, x)] else accepted) c' ∧
  mc_maximum_entries c' = mc_maximum_entries c ∧
  (b = true → ∀ y, (t, y) ∈ accepted → crowded (mc_maximum_entries c) accepted (t, y)).
Proof.
  intros (Hnd & Hin & Hacc) H. apply memory_consume_run in H as [(-> & -> & _)|(-> & Ht & Hm & He)]; [done|].
  assert (Hold : ∀ y, (t, y) ∈ accepted → crowded (mc_maximum_entries c) accepted (t, y)).
  { intros y Hy. destruct (Hacc _ Hy) as [Hc|Hc]; [|done]. destruct Ht. apply list_elem_of_fmap. by exists (t, y). }
  split; [|split; [done|auto]]. set (l := if mc_maximum_entries c <=? zlen (mc_entries c) then evict (mc_entries c) else mc_entries c) in He.
  assert (Hl : sublist l (mc_entries c)).
  { subst l. destruct (_ <=? _); [|done]. unfold evict. destruct (mc_entries c); [done|]. apply filter_sublist. }
  split_and!.
  - rewrite He, fmap_app. apply NoDup_app. split_and!.
    + eapply sublist_NoDup; [exact Hnd|]. by apply fmap_sublist.
    + intros k Hk Hk'. apply list_elem_of_singleton in Hk' as ->. apply Ht.
      eapply elem_of_sublist; [exact Hk|]. by apply fmap_sublist.
    + apply NoDup_singleton.
  - intros kv. rewrite He, !elem_of_app. intros [Hk|Hk]; [left|by right].
    apply Hin. by eapply elem_of_sublist.
  - intros kv Hk. rewrite He, Hm, elem_of_app. apply elem_of_app in Hk as [Hk|Hk]; [|left; by right].
    destruct (Hacc kv Hk) as [Hc|Hc]; [|right; by apply crowded_more].
    subst l. destruct (Z.leb_spec (mc_maximum_entries c) (zlen (mc_entries c))) as [Hfull|]; [|left; by left].
    destruct (evict_spec _ kv Hnd Hc) as [Hev|Hmin]; [left; by left|]. right. apply crowded_more.
    exists (mc_entries c). split_and!; [done|done|]. intros d Hd. split; [by apply Hin|by apply Hmin].
Qed.

(** ** The circuit as an automaton per peer *)

Inductive gate := Closed (count : Z) | Open (since : float).

Inductive gate_event := Allow (clock : float) | Record (success : bool) (clock : float).

(** What a peer's events do to its gate; [Allow] is answered. *)
Definition gate_step (threshold : Z) (cooldown : float) (ev : gate_event) (g : gate) : option bool * gate :=
  match ev, g with
  | Allow _, Closed _ => (Some true, g)
  | Allow clock, Open since =>
      if fleb cooldown (fsub clock since) then (Some true, Closed (threshold - 1)) else (Some false, g)
  | Record true _, _ => (None, Closed 0)
  | Record false clock, Closed count =>
      (None, if threshold <=? count + 1 then Open clock else Closed (count + 1))
  | Record false _, Open _ => (None, g)
  end.

Definition circuit_step (peer : string) (ev : gate_event) (c : circuit_breaker) : option bool * circuit_breaker :=
  match ev with
  | Allow clock => let '(b, c) := circuit_allow peer clock c in (Some b, c)
  | Record success clock => (None, circuit_record peer success clock c)
  end.

(** The gate a circuit breaker shows for a peer *)
Definition gate_of (c : circuit_breaker) (peer : string) : gate :=
  match cb_opened_at c !! peer with Some since => Open since | None => Closed (failures c peer) end.

(** The counts stand below the threshold exactly for the closed gates. *)
Definition circuit_sound (c : circuit_breaker) : Prop :=
  1 ≤ cb_failure_threshold c ∧
  ∀ peer, is_Some (cb_opened_at c !! peer) ↔ cb_failure_threshold c ≤ failures c peer.

Lemma new_circuit_sound t cd c : new_CircuitBreaker t cd = Ok c → circuit_sound c ∧ ∀ p, gate_of c p = Closed 0.
Proof.
  unfold new_CircuitBreaker. intros H. py_inv. py_bool. split; [split; [cbn; lia|]|done].
  intros p. unfold failures. cbn. rewrite !lookup_empty. cbn. split; [by intros [? ?]|lia].
Qed.

Lemma set_breaker_sound p n o c :
  circuit_sound c → (is_Some o ↔ cb_failure_threshold c ≤ n) → circuit_sound (set_breaker p n o c).
Proof.
  intros [Ht Hc] Ho. split; [done|]. intros q. unfold failures, set_breaker. cbn.
  destruct (decide (p = q)) as [->|Hne].
  - by rewrite lookup_insert_eq, lookup_partial_alter_eq.
  - rewrite lookup_insert_ne, lookup_partial_alter_ne by done. apply Hc.
Qed.

Lemma gate_of_set p n o c q :
  gate_of (set_breaker p n o c) q =
  if decide (q = p) then match o with Some t => Open t | None => Closed n end else gate_of c q.
Proof.
  unfold gate_of, failures, set_breaker. cbn. destruct (decide (q = p)) as [->|Hne].
  - by rewrite lookup_insert_eq, lookup_partial_alter_eq.
  - by rewrite lookup_insert_ne, lookup_partial_alter_ne by done.
Qed.

Lemma circuit_step_gate p ev c :
  circuit_sound c →
  let '(b, c') := circuit_step p ev c in
  circuit_sound c' ∧ cb_failure_threshold c' = cb_failure_threshold c ∧
  cb_cooldown_seconds c' = cb_cooldown_seconds c ∧
  (b, gate_of c' p) = gate_step (cb_failure_threshold c) (cb_cooldown_seconds c) ev (gate_of c p) ∧
  ∀ q, q ≠ p → gate_of c' q = gate_of c q.
Proof.
  intros Hc. pose proof Hc as [Ht Hp]. specialize (Hp p). destruct ev as [clock|[] clock]; cbn.
  - unfold circuit_allow. destruct (Z.ltb_spec (failures c p) (cb_failure_threshold c)) as [Hlt|Hge].
    + split_and!; [done..| |done]. unfold gate_of. destruct (cb_opened_at c !! p) as [since|] eqn:E; [|done].
      apply proj1 in Hp. specialize (Hp ltac:(done)). lia.
    + apply Hp in Hge as [since E]. unfold gate_of at 2. rewrite E. cbn.
      destruct (fleb _ _) eqn:Hf.
      * split_and!; [|done|done|rewrite gate_of_set, decide_True by done; done|
          intros q Hq; by rewrite gate_of_set, decide_False].
        apply set_breaker_sound; [done|]. split; [by intros [? ?]|lia].
      * split_and!; [done..| |done]. unfold gate_of. by rewrite E.
  - split_and!; [|done|done|by rewrite gate_of_set, decide_True by done|
      intros q Hq; by rewrite gate_of_set, decide_False].
    apply set_breaker_sound; [done|]. split; [by intros [? ?]|lia].
  - split_and!; [|done|done| |intros q Hq; by rewrite gate_of_set, decide_False].
    + apply set_breaker_sound; [done|]. destruct (Z.leb_spec (cb_failure_threshold c) (failures c p + 1)).
      * split; [done|]. by destruct (cb_opened_at c !! p).
      * rewrite Hp. lia.
    + rewrite gate_of_set, decide_True by done. unfold gate_of.
      destruct (cb_opened_at c !! p) as [since|] eqn:E.
      * assert (cb_failure_threshold c ≤ failures c p) by (apply Hp; done).
        destruct (Z.leb_spec (cb_failure_threshold c) (failures c p + 1)); [done|lia].
      * by destruct (_ <=? _).
Qed.
