(* ===== verification/InteropSafety.v ===== *)
(** * What a gateway thread may do

    The invariant of the shared world, what each operation of a thread keeps of it, and the proof
    that the threads of [invoke], [reconcile] and [cancel] keep it: a peer is only called for an
    invocation that trust, policy, quota and ledger sanctioned. *)

From S2P Require Import Prelude PyJson PyTime PyText PyFloat PyModel PyProg Domain InteropText InteropData InteropTrust InteropLedger InteropGateway InteropFacts.

Section world.
Context {HDigest : Digest} {HLaws : DigestLaws} (calls : list gateway_call).

(** ** What holds of the shared world *)

(** An entry of the peer's history that [require_active] accepts at [now] *)
Definition trusted (a : invoke_args) (r : registry) (peer : TrustEntry) (now : datetime) : Prop :=
  peer ∈ history r (iv_peer_id a) ∧ te_protocol peer = cp_protocol (iv_capability a) ∧
  te_status peer = TS_ACTIVE ∧ now < te_expires_at peer ∧ now < te_review_after peer ∧
  cp_capability_id (iv_capability a) ∈ te_allowed_capabilities peer ∧
  cp_risk (iv_capability a) ∈ te_allowed_risks peer ∧ iv_classification a ∈ te_allowed_classifications peer.

(** The fact of a recorded request *)
Definition requested_fact (a : invoke_args) (p : payload) (now : datetime) (f : InteroperabilityFact) : Prop :=
  if_fact_type f = IF_INVOCATION_REQUESTED ∧ if_command_ref f = iv_command_ref a +:+ "" ∧
  if_actor_ref f = pn_principal_ref (iv_principal a) ∧ if_peer_id f = iv_peer_id a ∧ if_payload f = p ∧
  if_recorded_at f = now.

(** All that precedes a call of the peer by thread [i] *)
Definition sanctioned (w : interop_world) (i : nat) (peer : TrustEntry) (task : TaskContract)
    (message : MessageContract) : Prop :=
  ∃ a policy d td,
    calls !! i = Some (InvokeCall a) ∧ message = iv_message a ∧
    pn_tenant_ref (iv_principal a) = iv_tenant_ref a ∧
    digest_value (message_json message) = Ok d ∧ digest_value (entry_json peer) = Ok td ∧
    build_task a d policy peer (tk_created_at task) = Ok task ∧
    trusted a (iw_registry w) peer (tk_created_at task) ∧
    (i, Asked (iv_principal a) peer (iv_capability a) d (Ok policy)) ∈ iw_log w ∧
    po_decision policy = PD_allow ∧
    iq_reservations (iw_quota w) !! reservation_id_of a = Some (iv_tenant_ref a, iv_cost_units a) ∧
    iw_opened w !! iv_operation_id a = Some i ∧
    (∃ f, f ∈ op_facts (iw_ledger w) (iv_operation_id a) ∧
          requested_fact a (requested_payload a task policy d td) (tk_created_at task) f) ∧
    recorded (iw_ledger w) (iv_operation_id a) (iv_command_ref a +:+ "-claim") (claim_payload a peer d).

(** The threads that called a peer, in order *)
Definition sender (ev : nat * port_call) : option nat :=
  match ev.2 with Sent _ _ _ _ => Some ev.1 | _ => None end.
Definition senders (w : interop_world) : list nat := omap sender (iw_log w).

Record sound (w : interop_world) : Prop := {
  sd_ledger : ledger_sound (iw_ledger w);
  sd_quota : quota_sound (iw_quota w);
  sd_opened op i : iw_opened w !! op = Some i → is_Some (op_projection (iw_ledger w) op);
  sd_once : NoDup (senders w);
  sd_sent i peer task message answer :
    (i, Sent peer task message answer) ∈ iw_log w → sanctioned w i peer task message
}.

(** Nothing recorded is lost, and the calls added are those of thread [i]. *)
Definition grows (i : nat) (w w' : interop_world) : Prop :=
  registry_grows (iw_registry w) (iw_registry w') ∧ ledger_grows (iw_ledger w) (iw_ledger w') ∧
  iq_reservations (iw_quota w) ⊆ iq_reservations (iw_quota w') ∧ iw_opened w ⊆ iw_opened w' ∧
  ∃ l, iw_log w' = iw_log w ++ l ∧ Forall (λ ev, ev.1 = i) l.

(** A fact that lasts *)
Definition lasting (P : interop_world → Prop) : Prop := ∀ j w w', grows j w w' → P w → P w'.

Lemma lasting_and P Q : lasting P → lasting Q → lasting (λ w, P w ∧ Q w).
Proof. intros HP HQ j w w' Hg [H1 H2]. split; [by eapply HP|by eapply HQ]. Qed.

Lemma lasting_pure (φ : Prop) : lasting (λ _, φ).
Proof. by intros j w w' _ H. Qed.

Lemma lasting_exists {A} (P : A → interop_world → Prop) : (∀ x, lasting (P x)) → lasting (λ w, ∃ x, P x w).
Proof. intros HP j w w' Hg [x Hx]. exists x. by eapply HP. Qed.

Lemma lasting_log ev : lasting (λ w, ev ∈ iw_log w).
Proof. intros j w w' (_ & _ & _ & _ & l & -> & _) H. apply elem_of_app. by left. Qed.

Lemma lasting_history peer e : lasting (λ w, e ∈ history (iw_registry w) peer).
Proof. intros j w w' (H & _) He. destruct (H peer) as [k ->]. apply elem_of_app. by left. Qed.

Lemma lasting_trusted a peer now : lasting (λ w, trusted a (iw_registry w) peer now).
Proof. apply lasting_and; [apply lasting_history|apply lasting_pure]. Qed.

Lemma lasting_fact op f : lasting (λ w, f ∈ op_facts (iw_ledger w) op).
Proof. intros j w w' (_ & (H & _) & _) Hf. destruct (H op) as [k ->]. apply elem_of_app. by left. Qed.

Lemma lasting_recorded op c p : lasting (λ w, recorded (iw_ledger w) op c p).
Proof. apply lasting_exists. intros f. apply lasting_and; [apply lasting_fact|apply lasting_pure]. Qed.

Lemma lasting_reserved id v : lasting (λ w, iq_reservations (iw_quota w) !! id = Some v).
Proof. intros j w w' (_ & _ & H & _) Hv. by eapply lookup_weaken. Qed.

Lemma lasting_opened op i : lasting (λ w, iw_opened w !! op = Some i).
Proof. intros j w w' (_ & _ & _ & H & _) Hv. by eapply lookup_weaken. Qed.

Lemma lasting_sanctioned i peer task message : lasting (λ w, sanctioned w i peer task message).
Proof.
  do 4 (apply lasting_exists; intros ?).
  repeat (apply lasting_and; [first [apply lasting_log|apply lasting_trusted|apply lasting_reserved
    |apply lasting_opened|apply lasting_pure|apply lasting_exists; intros f;
     apply lasting_and; [apply lasting_fact|apply lasting_pure]]|]).
  apply lasting_recorded.
Qed.

Lemma grows_refl i w : grows i w w.
Proof. split_and!; [by intros p|done|done|done|]. exists []. by rewrite app_nil_r. Qed.
End world.

Create HintDb lasting discriminated.
#[export] Hint Resolve lasting_and lasting_pure lasting_exists lasting_log lasting_history lasting_trusted
  lasting_fact lasting_recorded lasting_reserved lasting_opened lasting_sanctioned : lasting.

Section steps.
Context {HDigest : Digest} {HLaws : DigestLaws} (calls : list gateway_call).

(** ** Operations *)

(** Every operation but the call of the peer *)
Definition quiet {R : Set} (o : interop_op R) : bool :=
  match o with TransportInvoke _ _ _ _ => false | _ => true end.

Lemma put_ledger_grows i op l w :
  sound calls w → ledger_grows (iw_ledger w) l → grows i w (put_ledger i op l w).
Proof.
  intros Hw Hl. split_and!; [by intros p|done|done| |exists []; by rewrite app_nil_r]. cbn.
  destruct (op_projection (iw_ledger w) op) eqn:E; [done|]. destruct (op_projection l op); [|done].
  apply insert_subseteq. destruct (iw_opened w !! op) as [j|] eqn:Ho; [|done].
  apply (sd_opened _ _ Hw) in Ho as [? ?]. congruence.
Qed.

Lemma log_grows i ev w : grows i w (log_call i ev w).
Proof. split_and!; [by intros p|done|done|done|]. exists [(i, ev)]. split; [done|by repeat constructor]. Qed.

Lemma sent_more w w' i :
  sound calls w → grows i w w' → senders w' = senders w →
  (∀ j peer task message answer, (j, Sent peer task message answer) ∈ iw_log w' →
     (j, Sent peer task message answer) ∈ iw_log w) →
  ledger_sound (iw_ledger w') → quota_sound (iw_quota w') →
  (∀ op j, iw_opened w' !! op = Some j → is_Some (op_projection (iw_ledger w') op)) → sound calls w'.
Proof.
  intros [H1 H2 H3 H4 H5] Hg Hs Hlog Hl Hq Ho. split; [done|done|done|by rewrite Hs|].
  intros j peer task message answer Hin. apply Hlog in Hin. by eapply lasting_sanctioned, H5.
Qed.

(** A call of a port other than the transport's [invoke] *)
Lemma log_sound i ev w :
  sound calls w → sender (i, ev) = None → sound calls (log_call i ev w) ∧ senders (log_call i ev w) = senders w.
Proof.
  intros Hw Hev.
  assert (Hs : senders (log_call i ev w) = senders w).
  { unfold senders. cbn. rewrite omap_app. cbn. rewrite Hev. by rewrite app_nil_r. }
  split; [|done]. eapply sent_more; [done|apply log_grows|done| |apply Hw|apply Hw|apply Hw].
  intros j peer task message answer. cbn. rewrite elem_of_app. intros [H|H]; [done|].
  apply list_elem_of_singleton in H. injection H as -> <-. done.
Qed.

Lemma ledger_step_sound i op l w :
  sound calls w → ledger_grows (iw_ledger w) l → ledger_sound l → sound calls (put_ledger i op l w).
Proof.
  intros Hw Hl Hs. eapply sent_more; [done|by apply put_ledger_grows|done|done|done|apply Hw|].
  intros op' j. cbn. assert (Hold : iw_opened w !! op' = Some j → is_Some (op_projection l op')).
  { intros H. apply Hl. by apply (sd_opened _ _ Hw) in H. }
  destruct (op_projection (iw_ledger w) op); [done|]. destruct (op_projection l op) eqn:E; [|done].
  rewrite lookup_insert. case_decide; [subst; by rewrite E|done].
Qed.

Lemma same_ports_sound i w w' :
  sound calls w → iw_registry w' = iw_registry w → iw_ledger w' = iw_ledger w → iw_log w' = iw_log w →
  iw_opened w' = iw_opened w → quota_sound (iw_quota w') →
  iq_reservations (iw_quota w) ⊆ iq_reservations (iw_quota w') →
  sound calls w' ∧ grows i w w' ∧ senders w' = senders w.
Proof.
  intros Hw Hr Hl Hlog Ho Hq Hres.
  assert (Hg : grows i w w').
  { split_and!; [rewrite Hr; by intros p|by rewrite Hl|done|by rewrite Ho|]. exists []. by rewrite app_nil_r. }
  assert (Hs : senders w' = senders w) by (unfold senders; by rewrite Hlog).
  split_and!; [|done|done].
  eapply sent_more; [done|exact Hg|done|by rewrite Hlog|rewrite Hl; apply Hw|done|].
  rewrite Ho, Hl. apply Hw.
Qed.

Lemma quiet_step e i (R : Set) (o : interop_op R) w :
  quiet o = true → sound calls w →
  sound calls (handle e i R o w).2 ∧ grows i w (handle e i R o w).2 ∧
  senders (handle e i R o w).2 = senders w.
Proof.
  intros Ho Hw. destruct o; cbn [handle snd]; try done;
    try (split_and!; [done|apply grows_refl|done]).
  - destruct (circuit_allow _ _ _) as [b c]. cbn. apply same_ports_sound; try done. apply Hw.
  - apply same_ports_sound; try done. apply Hw.
  - destruct (log_sound i (Asked principal peer capability request_digest
      (an_policy e principal peer capability request_digest)) w Hw eq_refl).
    split_and!; [done|apply log_grows|done].
  - pose proof (reserve_sound tenant_ref reservation_id cost_units (iw_quota w) (sd_quota _ _ Hw)) as Hs.
    pose proof (reserve_grows tenant_ref reservation_id cost_units (iw_quota w)) as Hg.
    destruct (invocation_reserve _ _ _ _) as [r q]. cbn in *. by apply same_ports_sound.
  - pose proof (append_sound operation_id fact_type command_ref actor_ref peer_id p recorded_at projection
      (iw_ledger w) (sd_ledger _ _ Hw)) as Hs.
    pose proof (append_grows operation_id fact_type command_ref actor_ref peer_id p recorded_at projection
      (iw_ledger w)) as Hg.
    destruct (interop_append _ _ _ _ _ _ _ _ _) as [r l]. cbn in *.
    split_and!; [by apply ledger_step_sound|by apply put_ledger_grows|done].
  - destruct (log_sound i (Observed peer task (an_reconcile e peer task)) w Hw eq_refl).
    split_and!; [done|apply log_grows|done].
  - destruct (log_sound i (Stopped peer task (an_cancel e peer task)) w Hw eq_refl).
    split_and!; [done|apply log_grows|done].
Qed.

(** The call of the peer, by a thread that has not called one *)
Lemma send_step e i peer task message timeout w :
  sound calls w → i ∉ senders w → sanctioned calls w i peer task message →
  sound calls (handle e i _ (TransportInvoke peer task message timeout) w).2 ∧
  grows i w (handle e i _ (TransportInvoke peer task message timeout) w).2.
Proof.
  intros Hw Hi Hs. cbn. set (ev := Sent _ _ _ _). split; [|apply log_grows].
  destruct Hw as [H1 H2 H3 H4 H5]. split; [done|done|done| |].
  - unfold senders. cbn. rewrite omap_app. cbn. apply NoDup_app. split_and!; [done| |apply NoDup_singleton].
    intros j Hj Hj'. apply list_elem_of_singleton in Hj' as ->. done.
  - intros j peer' task' message' answer'. cbn. rewrite elem_of_app. intros [H|H].
    + by eapply lasting_sanctioned, H5; [apply log_grows|].
    + apply list_elem_of_singleton in H. subst ev. injection H as -> -> -> -> _.
      by eapply lasting_sanctioned; [apply log_grows|].
Qed.

(** What operators do *)
Lemma operator_step o w :
  sound calls w →
  sound calls (put_registry (run_trust_op o (iw_registry w)).2 w) ∧
  ∀ i, grows i w (put_registry (run_trust_op o (iw_registry w)).2 w).
Proof.
  intros Hw.
  assert (Hg : ∀ i, grows i w (put_registry (run_trust_op o (iw_registry w)).2 w)).
  { intros i. split_and!; [apply run_trust_op_grows|done|done|done|]. exists []. by rewrite app_nil_r. }
  split; [|done]. eapply sent_more; [done|apply (Hg O)|done|done|apply Hw..].
Qed.
End steps.

Section threads.
Context {HDigest : Digest} {HLaws : DigestLaws} (calls : list gateway_call).

(** ** Threads

    [knows fresh i P]: what thread [i] knows while others run: the lasting fact [P], and, as long
    as it is [fresh], that it has called no peer. *)
Definition knows (fresh : bool) (i : nat) (P : interop_world → Prop) (w : interop_world) : Prop :=
  (fresh = true → i ∉ senders w) ∧ P w.

Definition safely {A : Set} (i : nat) (p : P A) (fresh : bool) (P : interop_world → Prop)
    (Q : A → interop_world → Prop) (Z : exn → interop_world → Prop) : Prop :=
  safe handle (sound calls) (λ _ : answers, True) grows i p (knows fresh i P) Q Z.

Lemma senders_others j l : Forall (λ ev : nat * port_call, ev.1 = j) l → ∀ k, k ∈ omap sender l → k = j.
Proof.
  intros Hl k Hk. apply list_elem_of_omap in Hk as (ev & Hev & Hs). rewrite Forall_forall in Hl.
  specialize (Hl ev Hev). unfold sender in Hs. destruct ev as [j' []]; naive_solver.
Qed.

Lemma knows_stable fresh i P : lasting P → stable (sound calls) grows i (knows fresh i P).
Proof.
  intros HP w w' _ [Hf Hp] [_ [->|(j & Hj & Hg)]]; [done|]. split; [|by eapply HP].
  intros Hfresh. specialize (Hf Hfresh). destruct Hg as (_ & _ & _ & _ & l & Hl & Hall).
  unfold senders. rewrite Hl, omap_app. intros [?|Hin]%elem_of_app; [done|].
  by apply (senders_others j l Hall) in Hin.
Qed.

Lemma safely_weaken {A : Set} i (p : P A) fresh (P1 P2 : interop_world → Prop) Q Z :
  (∀ w, P1 w → P2 w) → safely i p fresh P2 Q Z → safely i p fresh P1 Q Z.
Proof. intros HP H. eapply safe_weaken; [exact H| |done|done]. intros w _ [Hf Hp]. split; [done|by apply HP]. Qed.

(** An operation, and what its answer tells *)
Lemma safely_op {A R : Set} i (o : interop_op R) (k : R → prog interop_op exn A) fresh P (P' : R → interop_world → Prop) Q Z :
  quiet o = true → lasting P → (∀ r, lasting (P' r)) →
  (∀ e w, sound calls w → P w → P' (handle e i R o w).1 (handle e i R o w).2) →
  (∀ r, safely i (k r) fresh (λ w, P w ∧ P' r w) Q Z) → safely i (Do o k) fresh P Q Z.
Proof.
  intros Hq HP HP' Ho Hk. eapply safe_do with (P' := λ r, knows fresh i (λ w, P w ∧ P' r w)).
  - intros r. apply knows_stable. by apply lasting_and.
  - intros e w _ Hw [Hf Hp]. destruct (quiet_step calls e i R o w Hq Hw) as (H1 & H2 & H3).
    split_and!; [|done|done]. split; [by rewrite H3|]. split; [by eapply HP|by apply Ho].
  - exact Hk.
Qed.

Lemma safely_skip {A R : Set} i (o : interop_op R) (k : R → prog interop_op exn A) fresh P Q Z :
  quiet o = true → lasting P → (∀ r, safely i (k r) fresh P Q Z) → safely i (Do o k) fresh P Q Z.
Proof.
  intros Hq HP Hk. apply safely_op with (P' := λ _ _, True); [done|done|intros; apply lasting_pure|done|].
  intros r. eapply safely_weaken; [|apply Hk]. by intros w [? _].
Qed.

Lemma safely_return {A : Set} i (a : A) fresh (P : interop_world → Prop) (Q : A → interop_world → Prop) Z :
  (∀ w, sound calls w → P w → Q a w) → safely i (Return a : prog interop_op exn A) fresh P Q Z.
Proof. intros H w Hw [_ Hp]. by apply H. Qed.

(** The threads end in any exception. *)
Abbreviation raised := (λ (_ : exn) (_ : interop_world), True).

Lemma safely_throw {A : Set} i x fresh P (Q : A → interop_world → Prop) :
  safely i (Throw x : prog interop_op exn A) fresh P Q raised.
Proof. by intros w Hw _. Qed.

(** An operation whose answer may be an exception, then the rest of the thread *)
Lemma safely_try {A R : Set} i (o : interop_op (res R)) (k : R → prog interop_op exn A) fresh P
    (P' : R → interop_world → Prop) Q :
  quiet o = true → lasting P → (∀ r, lasting (P' r)) →
  (∀ e w a, sound calls w → P w → (handle e i _ o w).1 = Ok a → P' a (handle e i _ o w).2) →
  (∀ a, safely i (k a) fresh (λ w, P w ∧ P' a w) Q raised) →
  safely i (then_ (try_call o) k) fresh P Q raised.
Proof.
  intros Hq HP HP' Ho Hk.
  apply safely_op with (P' := λ r, match r with Ok a => P' a | Raise _ => λ _, True end); [done|done| | |].
  - intros [a|x]; [apply HP'|apply lasting_pure].
  - intros e w Hw Hp. destruct (handle e i _ o w) as [[a|x] w'] eqn:E; [|done]. cbn.
    specialize (Ho e w a Hw Hp). rewrite E in Ho. by apply Ho.
  - intros [a|x]; [apply Hk|apply safely_throw].
Qed.

Lemma safely_try_skip {A R : Set} i (o : interop_op (res R)) (k : R → prog interop_op exn A) fresh P Q :
  quiet o = true → lasting P → (∀ a, safely i (k a) fresh P Q raised) →
  safely i (then_ (try_call o) k) fresh P Q raised.
Proof.
  intros Hq HP Hk. apply safely_try with (P' := λ _ _, True); [done|done|intros; apply lasting_pure|done|].
  intros a. eapply safely_weaken; [|apply Hk]. by intros w [? _].
Qed.

Lemma safely_res {A R : Set} i (r : res R) (k : R → prog interop_op exn A) fresh P Q :
  (∀ a, r = Ok a → safely i (k a) fresh P Q raised) → safely i (then_ (of_res r) k) fresh P Q raised.
Proof. intros Hk. destruct r as [a|x]; [by apply Hk|apply safely_throw]. Qed.

Lemma safely_guard {A : Set} i (b : bool) kind msg (k : unit → prog interop_op exn A) fresh P Q :
  (b = false → safely i (k tt) fresh P Q raised) → safely i (then_ (guard b kind msg) k) fresh P Q raised.
Proof. intros Hk. destruct b; [apply safely_throw|by apply Hk]. Qed.

(** The last statement: [InvocationResult(...)] *)
Lemma safely_result i task status artifacts replayed fresh P (Q : InvocationResult → interop_world → Prop) :
  (∀ w, sound calls w → P w →
     Q {| ir_task := task; ir_status := status; ir_artifacts := artifacts; ir_replayed := replayed |} w) →
  safely i (invocation_result task status artifacts replayed) fresh P Q raised.
Proof.
  intros HQ. unfold invocation_result, new_InvocationResult, validated.
  destruct (InvocationResult_ok _); [|apply safely_throw]. by apply safely_return.
Qed.
End threads.

Section outline.
Context {HDigest : Digest} {HLaws : DigestLaws} (calls : list gateway_call).

(** ** What a returned result rests on *)

(** The peer's answer to this thread's cancellation, recorded *)
Definition stopped (operation_id command_ref : string) (i : nat) (r : InvocationResult) (w : interop_world) : Prop :=
  ∃ peer task,
    (i, Stopped peer task (Ok (ir_status r))) ∈ iw_log w ∧ st_state (ir_status r) = TA_CANCELLED ∧
    ir_artifacts r = [] ∧ tk_state (ir_task r) = TA_CANCELLED ∧
    recorded (iw_ledger w) operation_id (command_ref +:+ "-confirmed")
      [("status_digest", JStr (st_status_digest (ir_status r)))].

(** The peer's answer to this thread's observation, recorded *)
Definition observed (operation_id command_ref : string) (i : nat) (r : InvocationResult) (w : interop_world) : Prop :=
  ∃ peer task d,
    (i, Observed peer task (Ok (ir_status r, ir_artifacts r))) ∈ iw_log w ∧
    st_state (ir_status r) ∈ [TA_COMPLETED; TA_FAILED] ∧
    digest_value (result_document (ir_status r) (ir_artifacts r)) = Ok d ∧
    tk_result_digest (ir_task r) = Some d ∧
    recorded (iw_ledger w) operation_id command_ref (result_payload (ir_artifacts r) d (ir_status r)).

(** The peer's answer to this thread's call, validated and recorded *)
Definition accepted (a : invoke_args) (i : nat) (r : InvocationResult) (w : interop_world) : Prop :=
  ∃ peer task d,
    (i, Sent peer task (iv_message a) (Ok (ir_status r, ir_artifacts r))) ∈ iw_log w ∧
    _validate_result peer (iv_capability a) task (ir_status r) (ir_artifacts r) = Ok () ∧
    digest_value (result_document (ir_status r) (ir_artifacts r)) = Ok d ∧
    tk_result_digest (ir_task r) = Some d ∧ tk_state (ir_task r) = TA_COMPLETED ∧
    recorded (iw_ledger w) (iv_operation_id a) (iv_command_ref a +:+ "-succeeded")
      (result_payload (ir_artifacts r) d (ir_status r)).

Definition result_of (c : gateway_call) (i : nat) (r : InvocationResult) (w : interop_world) : Prop :=
  match c with
  | InvokeCall a =>
      ir_replayed r = true ∨ stopped (iv_operation_id a) (iv_command_ref a +:+ "-cancel") i r w ∨ accepted a i r w
  | ReconcileCall _ operation_id command_ref _ _ => observed operation_id command_ref i r w
  | CancelCall _ operation_id command_ref _ => stopped operation_id command_ref i r w
  end.

Abbreviation raised := (λ (_ : exn) (_ : interop_world), True).
Abbreviation runs i p fresh P Q := (safely calls i p fresh P Q raised).

(** An append, and that it is recorded *)
Lemma append_then {A : Set} i op ft c actor peer p at_ proj (k : InteroperabilityFact → prog interop_op exn A) fresh P Q :
  lasting P →
  (∀ f, runs i (k f) fresh (λ w, P w ∧ recorded (iw_ledger w) op c p) Q) →
  runs i (then_ (try_call (Append op ft c actor peer p at_ proj)) k) fresh P Q.
Proof.
  intros HP Hk. apply safely_try with (P' := λ _ w, recorded (iw_ledger w) op c p);
    [done|done|intros; apply lasting_recorded| |exact Hk].
  intros e w f Hw _. cbn. destruct (interop_append _ _ _ _ _ _ _ _ _) as [r l] eqn:H. cbn.
  intros ->. by apply append_recorded in H; [|apply Hw].
Qed.

(** ** Cancelling and reconciling *)

Lemma cancel_runs i principal op c timeout P :
  lasting P → runs i (cancel principal op c timeout) false P (stopped op c i).
Proof.
  intros HP. apply safely_skip; [done|done|]. intros [current|]; [|apply safely_throw].
  apply safely_guard. intros _. apply safely_guard. intros _.
  apply safely_skip; [done|done|]. intros now. apply safely_skip; [done|done|]. intros [peer|]; [|apply safely_throw].
  apply safely_try_skip; [done|done|]. intros f. apply safely_res. intros task _.
  apply safely_try with (P' := λ status w, (i, Stopped peer task (Ok status)) ∈ iw_log w);
    [done|done|intros; apply lasting_log| |].
  { intros e w status Hw _. cbn. intros ->. apply elem_of_app. right. by left. }
  intros status. apply safely_guard. intros Hs. py_bool.
  apply safely_skip; [done|auto with lasting|]. intros at_.
  apply append_then; [auto with lasting|]. intros _. apply safely_result. intros w Hw [[_ Hlog] Hrec].
  by exists peer, task.
Qed.

Lemma reconcile_runs i principal op c classification timeout P :
  lasting P → runs i (reconcile principal op c classification timeout) false P (observed op c i).
Proof.
  intros HP. apply safely_skip; [done|done|]. intros [current|]; [|apply safely_throw].
  apply safely_guard. intros _. apply safely_guard. intros _.
  apply safely_skip; [done|done|]. intros now. apply safely_try_skip; [done|done|]. intros peer.
  apply safely_res. intros td _. apply safely_guard. intros _. apply safely_res. intros task _.
  apply safely_try with (P' := λ found w, (i, Observed peer task (Ok found)) ∈ iw_log w);
    [done|done|intros; apply lasting_log| |].
  { intros e w found Hw _. cbn. intros ->. apply elem_of_app. right. by left. }
  intros [status artifacts]. apply safely_guard. intros Hs. py_bool.
  apply safely_res. intros d Hd. apply append_then; [auto with lasting|]. intros _.
  apply safely_result. intros w Hw [[_ Hlog] Hrec]. by exists peer, task, d.
Qed.

(** ** Invoking *)

Section invoking.
Context (i : nat) (a : invoke_args) (Hcall : calls !! i = Some (InvokeCall a)).
Context (Htenant : pn_tenant_ref (iv_principal a) = iv_tenant_ref a).

Abbreviation goes p fresh P := (runs i p fresh P (result_of (InvokeCall a) i)).

Lemma replay_runs existing d now P :
  goes (replay a existing d now) true P.
Proof.
  apply safely_guard. intros _. apply safely_guard. intros _. apply safely_guard. intros _.
  apply safely_res. intros sd _. apply safely_res. intros status _. apply safely_res. intros task _.
  apply safely_result. intros w _ _. by left.
Qed.

Lemma on_fault_runs claimed d x P : lasting P → goes (on_fault a claimed d x) false P.
Proof.
  intros HP. apply safely_skip; [done|done|]. intros _. apply safely_skip; [done|done|]. intros at_.
  destruct (transport_ambiguous x); apply safely_try_skip; try done; intros _; apply safely_throw.
Qed.

(** The answer of the peer, once it was checked *)
Definition answered (peer : TrustEntry) (task : TaskContract) (found : peer_result) (w : interop_world) : Prop :=
  (i, Sent peer task (iv_message a) (Ok found)) ∈ iw_log w ∧
  _validate_result peer (iv_capability a) task found.1 found.2 = Ok ().

Lemma complete_runs peer task claimed found :
  goes (complete a task claimed found) false (answered peer task found).
Proof.
  assert (HP : lasting (answered peer task found)) by (apply lasting_and; auto with lasting).
  destruct found as [status artifacts]. apply safely_skip; [done|done|]. intros _.
  apply safely_res. intros d Hd. apply safely_skip; [done|done|]. intros at_.
  apply append_then; [done|]. intros _. apply safely_result. intros w Hw [[Hlog Hval] Hrec].
  right. right. by exists peer, task, d.
Qed.

Lemma call_peer_runs peer task P :
  (∀ w, P w → sanctioned calls w i peer task (iv_message a)) →
  safe handle (sound calls) (λ _ : answers, True) grows i (call_peer a peer task) (knows true i P)
    (λ found w, knows false i (answered peer task found) w) (λ _ w, knows false i (λ _, True) w).
Proof.
  intros HP e w _ Hw [Hf Hp].
  destruct (send_step calls e i peer task (iv_message a) (iv_timeout_seconds a) w Hw (Hf eq_refl) (HP w Hp)) as [H1 H2].
  cbn in *. destruct (an_invoke e peer task (iv_message a)) as [found|x] eqn:Hans.
  - exists (knows false i (λ w, (i, Sent peer task (iv_message a) (Ok found)) ∈ iw_log w)).
    split; [apply knows_stable, lasting_log|]. split; [split; [done|]; cbn; apply elem_of_app; right; by left|].
    split; [done|]. split; [done|].
    cbn. unfold answered. destruct (_validate_result peer (iv_capability a) task found.1 found.2) as [[]|x] eqn:Hv; cbn.
    + by intros w' Hw' [_ Hlog].
    + by intros w' Hw' _.
  - exists (knows false i (λ _, True)). split; [apply knows_stable, lasting_pure|]. split; [done|].
    split; [done|]. split; [done|]. by intros w' Hw' _.
Qed.

(** Everything but the claim *)
Definition opened (peer : TrustEntry) (policy : PolicyContract) (d td : string) (task : TaskContract)
    (w : interop_world) : Prop :=
  trusted a (iw_registry w) peer (tk_created_at task) ∧
  (i, Asked (iv_principal a) peer (iv_capability a) d (Ok policy)) ∈ iw_log w ∧
  iq_reservations (iw_quota w) !! reservation_id_of a = Some (iv_tenant_ref a, iv_cost_units a) ∧
  iw_opened w !! iv_operation_id a = Some i ∧
  ∃ f, f ∈ op_facts (iw_ledger w) (iv_operation_id a) ∧
       requested_fact a (requested_payload a task policy d td) (tk_created_at task) f.

Lemma lasting_opened_all peer policy d td task : lasting (opened peer policy d td task).
Proof. repeat (apply lasting_and; auto with lasting). Qed.

Lemma claim_runs peer policy d td task requested :
  digest_value (message_json (iv_message a)) = Ok d → digest_value (entry_json peer) = Ok td →
  build_task a d policy peer (tk_created_at task) = Ok task → po_decision policy = PD_allow →
  goes (claim_and_call a peer task requested d) true (opened peer policy d td task).
Proof.
  intros Hd Htd Htask Hallow. pose proof (lasting_opened_all peer policy d td task) as HP.
  apply safely_skip; [done|done|]. intros [].
  - eapply safe_weaken; [apply (cancel_runs i _ _ _ _ (λ _, True)); apply lasting_pure|done| |done].
    intros r w Hw Hr. right. by left.
  - apply safely_skip; [done|done|]. intros at_. apply append_then; [done|]. intros _.
    eapply safe_try; [apply call_peer_runs| |].
    + intros w [(H1 & H2 & H3 & H4 & H5) Hclaim]. by exists a, policy, d, td.
    + intros found. apply complete_runs.
    + intros x. apply on_fault_runs. apply lasting_pure.
Qed.

Lemma build_task_ok d policy peer now task :
  build_task a d policy peer now = Ok task →
  tk_created_at task = now ∧ tk_task_id task = "interop-task-" +:+ iv_operation_id a.
Proof. unfold build_task, new_TaskContract. intros H. apply res_bind_ok in H as (k & _ & H). by apply validated_ok in H as [-> _]. Qed.

Lemma build_requested_ok d td policy peer now p : build_requested a d td policy peer now = Ok p → ip_version p = 1.
Proof. unfold build_requested, new_InvocationProjection. by intros [-> _]%validated_ok. Qed.

(** The append that opens the invocation *)
Lemma request_opens e w p now requested f (w1 := (handle e i _
    (Append (iv_operation_id a) IF_INVOCATION_REQUESTED (iv_command_ref a +:+ "")
       (pn_principal_ref (iv_principal a)) (iv_peer_id a) p now (Some requested)) w).2) :
  sound calls w → ip_version requested = 1 →
  (handle e i _ (Append (iv_operation_id a) IF_INVOCATION_REQUESTED (iv_command_ref a +:+ "")
     (pn_principal_ref (iv_principal a)) (iv_peer_id a) p now (Some requested)) w).1 = Ok f →
  iw_opened w1 !! iv_operation_id a = Some i ∧
  ∃ f, f ∈ op_facts (iw_ledger w1) (iv_operation_id a) ∧ requested_fact a p now f.
Proof.
  intros Hw Hv. subst w1. cbn. destruct (interop_append _ _ _ _ _ _ _ _ _) as [r l] eqn:H. cbn. intros ->.
  apply append_opens in H as (Hnone & Hsome & Hf & Hin); [|apply Hw|done].
  rewrite Hnone, Hsome, lookup_insert_eq. split; [done|]. exists f. split; [done|]. by rewrite Hf.
Qed.

Lemma open_runs d now P :
  lasting P → digest_value (message_json (iv_message a)) = Ok d → goes (open_invocation a d now) true P.
Proof.
  intros HP Hd. apply safely_try with (P' := λ peer w, trusted a (iw_registry w) peer now);
    [done|done|intros; apply lasting_trusted| |].
  { intros e w peer Hw _. cbn. intros H. apply require_active_ok in H as (Hl & H). split; [|exact H].
    apply last_Some in Hl as [h ->]. apply elem_of_app. right. by left. }
  intros peer. apply safely_try with (P' := λ policy w, (i, Asked (iv_principal a) peer (iv_capability a) d (Ok policy)) ∈ iw_log w);
    [done|auto with lasting|intros; apply lasting_log| |].
  { intros e w policy Hw _. cbn. intros ->. apply elem_of_app. right. by left. }
  intros policy. apply safely_guard. intros Hallow. py_bool.
  apply safely_try with (P' := λ _ w, iq_reservations (iw_quota w) !! reservation_id_of a = Some (iv_tenant_ref a, iv_cost_units a));
    [done|auto 6 with lasting|intros; apply lasting_reserved| |].
  { intros e w u Hw _. cbn. destruct (invocation_reserve _ _ _ _) as [r q] eqn:H. cbn. intros ->.
    apply invocation_reserve_run in H as [_ [[H ->]|(_ & _ & _ & ->)]]; [done|]. cbn. by rewrite lookup_insert_eq. }
  intros _. apply safely_res. intros td Htd. apply safely_res. intros task Htask.
  destruct (build_task_ok _ _ _ _ _ Htask) as [Hnow _]. apply safely_res. intros requested Hreq.
  apply safely_try with (P' := λ _ w, iw_opened w !! iv_operation_id a = Some i ∧
    ∃ f, f ∈ op_facts (iw_ledger w) (iv_operation_id a) ∧ requested_fact a (requested_payload a task policy d td) now f);
    [done|auto 8 with lasting|intros; auto with lasting| |].
  { intros e w f Hw _ Hf. eapply request_opens; [done|by eapply build_requested_ok|exact Hf]. }
  intros f. subst now. eapply safely_weaken; [|by apply (claim_runs peer policy d td task requested)].
  intros w [[[[_ H1] H2] H3] [H4 H5]]. done.
Qed.

Lemma invoke_runs P : lasting P → goes (invoke a) true P.
Proof.
  intros HP. apply safely_guard. intros _. apply safely_guard. intros _.
  apply safely_skip; [done|done|]. intros allowed. apply safely_guard. intros _.
  apply safely_skip; [done|done|]. intros now. apply safely_res. intros d Hd.
  apply safely_skip; [done|done|]. intros [existing|]; [apply replay_runs|by apply open_runs].
Qed.
End invoking.

Lemma safely_stale {A : Set} i (p : prog interop_op exn A) P Q :
  runs i p false P Q → runs i p true P Q.
Proof. intros H. eapply safe_weaken; [exact H| |done|done]. by intros w _ [_ Hp]. Qed.

(** Every thread of the gateway *)
Lemma thread_runs i c : calls !! i = Some c → runs i (thread_of c) true (λ _, True) (result_of c i).
Proof.
  intros Hc. assert (HT : lasting (λ _, True)) by apply lasting_pure.
  destruct c as [a|principal op c cls timeout|principal op c timeout]; cbn [thread_of].
  - destruct (decide (pn_tenant_ref (iv_principal a) = iv_tenant_ref a)) as [Ht|Ht]; [by apply invoke_runs|].
    unfold invoke. rewrite bool_decide_eq_true_2 by done. apply safely_throw.
  - apply safely_stale. by apply reconcile_runs.
  - apply safely_stale. by apply cancel_runs.
Qed.

(** ** Schedules *)

Definition turn_allowed (m : move (W := interop_world) (E := answers)) : Prop :=
  ∃ t, m = move_of t.

Lemma start_sound r q c : quota_sound q → sound calls (interop_start r q c).
Proof.
  intros Hq. split; [apply empty_ledger_sound|done| |constructor|].
  - intros op i. cbn. by rewrite lookup_empty.
  - intros i peer task message answer H. by apply not_elem_of_nil in H.
Qed.

Lemma gateway_runs turns w :
  sound calls w → iw_log w = [] →
  let s := run_gateway calls turns w in
  sound calls s.2 ∧
  ∀ i c r, calls !! i = Some c → s.1 !! i = Some (Return r) → result_of c i r s.2.
Proof.
  intros Hw Hlog. unfold run_gateway.
  assert (Hsafe : pool_safe handle (sound calls) (λ _ : answers, True) grows
    (λ i r w, ∀ c, calls !! i = Some c → result_of c i r w) (λ _ _ _, True) (thread_of <$> calls, w)).
  { split; [done|]. intros i p Hp. cbn in Hp. rewrite list_lookup_fmap in Hp.
    destruct (calls !! i) as [c|] eqn:Hc; [|done]. injection Hp as <-.
    exists (knows true i (λ _, True)). split; [apply knows_stable, lasting_pure|]. split.
    - split; [|done]. intros _. unfold senders. cbn. rewrite Hlog. apply not_elem_of_nil.
    - eapply safe_weaken; [by apply thread_runs|done| |done]. intros r w' Hw' Hr c' Hc'. by simplify_eq. }
  apply (run_pool_safe handle (sound calls) (λ _ : answers, True) grows turn_allowed) with (ms := move_of <$> turns)
    in Hsafe.
  - destruct Hsafe as [Hs Hp]. split; [exact Hs|]. intros i c r Hc Hr.
    destruct (Hp i _ Hr) as (P & _ & HP & Hret). by apply (Hret _ Hs HP).
  - done.
  - intros f [t Ht] w' Hw'. destruct t as [j e|o]; [done|]. injection Ht as ->. by apply operator_step.
  - apply Forall_fmap, Forall_true. intros t. by exists t.
Qed.
End outline.
