(* ===== verification/InteropFixtures.v ===== *)
(** * A concrete peer to evaluate

    A reviewed A2A peer, a capability, a message, an artifact that carries every pin, and the
    answers the witnesses give the gateway's threads.  Then runs on which the layer falls short:
    each lemma evaluates a run that the documents, or the code's own intent, rule out. *)

From S2P Require Import Prelude PyJson PyTime PyText PyFloat PyModel PyProg Domain Durability Fixtures InteropText InteropData InteropTrust InteropLedger InteropGateway.

Definition digest_of (c : ascii) : string := str_repeat 64 c.
Definition in_an_hour : datetime := demo_time + hours 1.

Definition demo_principal : PrincipalContract :=
  {| pn_principal_ref := "principal-1"; pn_kind := K_workload; pn_issuer_digest := digest_of "1";
     pn_audience := "aegis"; pn_scopes := ["interop.invoke"]; pn_tenant_ref := "tenant-a";
     pn_purpose := "incident-response"; pn_proof_digest := digest_of "2"; pn_authenticated_at := demo_time;
     pn_expires_at := in_an_hour |}.

Definition demo_capability : CapabilityContract :=
  {| cp_capability_id := "investigate-1"; cp_protocol := PK_A2A; cp_operation := CO_INVESTIGATE;
     cp_resource_kind := "incident"; cp_risk := RLow; cp_input_schema_digest := digest_of "3";
     cp_output_schema_digest := digest_of "4"; cp_maximum_input_bytes := 4096;
     cp_maximum_output_bytes := 4096 |}.

(** The entry an operator registers *)
Definition demo_entry : TrustEntry :=
  {| te_peer_id := "peer-1"; te_protocol := PK_A2A; te_owner_ref := "owner-1";
     te_environment := EN_production; te_trust_tier := TT_PARTNER; te_status := TS_PENDING_REVIEW;
     te_revision := 1; te_expires_at := demo_time + hours 24; te_review_after := demo_time + hours 12;
     te_card_digest := Some (digest_of "5"); te_schema_digest := digest_of "6";
     te_certificate_digest := Some (digest_of "7"); te_key_digest := Some (digest_of "8");
     te_allowed_classifications := [DC_INTERNAL]; te_allowed_risks := [RLow];
     te_allowed_capabilities := ["investigate-1"]; te_allowed_transports := [TK_GRPC];
     te_egress_origins := ["https://peer.example:8443"]; te_maximum_request_bytes := 4096;
     te_maximum_response_bytes := 16384; te_maximum_requests_per_minute := 10;
     te_maximum_cost_units_per_hour := 10; te_change_digest := digest_of "9"; te_reviewed_by := [];
     te_reviewed_at := None |}.

Example demo_entry_ok : new_TrustEntry demo_entry = Ok demo_entry.
Proof. vm_compute. reflexivity. Qed.

Definition demo_trust : list trust_op :=
  [Register demo_entry; Review "peer-1" 1 "operator-1" demo_time "TRUST peer-1"].

Section demo.
#[local] Existing Instance demo_digest.

Definition demo_registry : registry := run_trust demo_trust ∅.

Definition text_part (id text : string) : MessagePart :=
  {| mp_part_id := id; mp_kind := PT_text; mp_media_type := "text/plain"; mp_text := Some text;
     mp_data := None; mp_resource_ref := None; mp_content_digest := json_digest (JStr text);
     mp_redacted := false |}.

Example text_part_ok : new_MessagePart (text_part "part-1" "hello") = Ok (text_part "part-1" "hello").
Proof. vm_compute. reflexivity. Qed.

Definition demo_message : MessageContract :=
  {| mg_message_id := "message-1"; mg_role := RO_user; mg_parts := [text_part "part-1" "hello"];
     mg_citations := []; mg_created_at := demo_time |}.

Definition demo_invoke (operation : string) : invoke_args :=
  {| iv_principal := demo_principal; iv_capability := demo_capability; iv_peer_id := "peer-1";
     iv_message := demo_message; iv_operation_id := operation; iv_command_ref := "command-" +:+ operation;
     iv_idempotency_key := "key-1"; iv_tenant_ref := "tenant-a"; iv_classification := DC_INTERNAL;
     iv_cost_units := 2; iv_timeout_seconds := float_of_int 30 |}.

Definition artifact_with (parts : list MessagePart) (operation digest : string) : ArtifactContract :=
  {| af_artifact_id := "artifact-1"; af_task_id := "interop-task-" +:+ operation;
     af_kind := AK_status_report; af_parts := parts; af_citations := [];
     af_producer_peer_id := "peer-1"; af_card_digest := digest_of "5";
     af_capability_digest := json_digest (capability_json demo_capability); af_artifact_digest := digest;
     af_created_at := demo_time |}.

(** The artifact with its own digest *)
Definition artifact_of (parts : list MessagePart) (operation : string) : ArtifactContract :=
  artifact_with parts operation (json_digest (JObj (artifact_members (artifact_with parts operation "")))).

Definition demo_artifact (operation : string) : ArtifactContract :=
  artifact_of [text_part "part-2" "all clear"] operation.

Example demo_artifact_ok : new_ArtifactContract (demo_artifact "op-1") = Ok (demo_artifact "op-1").
Proof. vm_compute. reflexivity. Qed.

Definition status_of (state : TaskState) : StatusContract :=
  {| st_state := state; st_progress_percent := 100; st_sequence := 1; st_retry_after_seconds := None;
     st_status_digest := digest_of "a"; st_occurred_at := demo_time |}.

Definition demo_allow : PolicyContract :=
  {| po_policy_id := "policy-1"; po_revision := 1; po_decision := PD_allow;
     po_capability_id := "investigate-1"; po_principal_ref := "principal-1"; po_peer_id := "peer-1";
     po_purpose := "incident-response"; po_risk := RLow; po_maximum_cost_units := 5;
     po_reason_code := "allowed"; po_policy_digest := digest_of "b" |}.

(** The peer answers with [result] and observes and cancels as told. *)
Definition answers_with (result observation : res peer_result) (cancellation : res StatusContract) : answers :=
  {| an_now := demo_time; an_clock := f_zero; an_cancelled := false; an_policy := λ _ _ _ _, Ok demo_allow;
     an_invoke := λ _ _ _, result; an_reconcile := λ _ _, observation; an_cancel := λ _ _, cancellation |}.

Definition demo_answers : answers :=
  answers_with (Ok (status_of TA_COMPLETED, [demo_artifact "op-1"]))
    (Ok (status_of TA_COMPLETED, [])) (Ok (status_of TA_CANCELLED)).

Definition demo_quota : invocation_quota :=
  {| iq_request_limit := 2; iq_cost_limit := 10; iq_usage := ∅; iq_reservations := ∅ |}.

Definition demo_circuit : circuit_breaker :=
  {| cb_failure_threshold := 3; cb_cooldown_seconds := float_of_int 30; cb_failures := ∅; cb_opened_at := ∅ |}.

Definition demo_start : interop_world := interop_start demo_registry demo_quota demo_circuit.

(** [n] steps of thread [i] with the same answers *)
Definition steps (i n : nat) (e : answers) : list turn := replicate n (Step i e).

Definition demo_call : gateway_call := InvokeCall (demo_invoke "op-1").
(** Two calls for one operation; the second runs while the first is under way. *)
Definition demo_turns : list turn := steps 0 10 demo_answers ++ steps 1 20 demo_answers ++ steps 0 20 demo_answers.
Definition demo_calls : list gateway_call := [demo_call; demo_call].

(** How a thread ended *)
Definition raised_of (p : prog interop_op exn InvocationResult) : option ExnKind :=
  match p with Throw x => Some (exn_kind x) | _ => None end.
Definition returned_of (p : prog interop_op exn InvocationResult) : option InvocationResult :=
  match p with Return r => Some r | _ => None end.

(** The state the ledger shows for an operation *)
Definition state_of (op : string) (w : interop_world) : option InvocationState :=
  ip_state <$> op_projection (iw_ledger w) op.

Definition sent_count (w : interop_world) : nat :=
  length (List.filter (λ ev, match ev.2 with Sent _ _ _ _ => true | _ => false end) (iw_log w)).
End demo.

(** Written out, so that the theorems apply to it as it is *)
Abbreviation demo_run :=
  (run_gateway demo_calls demo_turns (interop_start (run_trust demo_trust ∅) demo_quota demo_circuit)).

#[local] Existing Instance demo_digest.

Definition with_command (command_ref : string) (a : invoke_args) : invoke_args :=
  {| iv_principal := iv_principal a; iv_capability := iv_capability a; iv_peer_id := iv_peer_id a;
     iv_message := iv_message a; iv_operation_id := iv_operation_id a; iv_command_ref := command_ref;
     iv_idempotency_key := iv_idempotency_key a; iv_tenant_ref := iv_tenant_ref a;
     iv_classification := iv_classification a; iv_cost_units := iv_cost_units a;
     iv_timeout_seconds := iv_timeout_seconds a |}.

Definition with_cost (units : Z) (principal : PrincipalContract) (a : invoke_args) : invoke_args :=
  {| iv_principal := principal; iv_capability := iv_capability a; iv_peer_id := iv_peer_id a;
     iv_message := iv_message a; iv_operation_id := iv_operation_id a; iv_command_ref := iv_command_ref a;
     iv_idempotency_key := iv_idempotency_key a; iv_tenant_ref := iv_tenant_ref a;
     iv_classification := iv_classification a; iv_cost_units := units;
     iv_timeout_seconds := iv_timeout_seconds a |}.

(** How the threads ended, the state of the operation and the number of calls of the peer *)
Definition summary (s : list (prog interop_op exn InvocationResult) * interop_world)
    : list (option ExnKind * option TaskState) * option InvocationState * nat :=
  ((λ p, (raised_of p, (λ r, tk_state (ir_task r)) <$> returned_of p)) <$> s.1, state_of "op-1" s.2,
   sent_count s.2).

(** A peer that does not answer, and then observes and cancels as told *)
Definition silent (observation : res peer_result) (cancellation : res StatusContract) : answers :=
  answers_with (Raise (Exn TimeoutError "")) observation cancellation.
Definition silent_peer : answers :=
  silent (Ok (status_of TA_COMPLETED, [demo_artifact "op-2"])) (Ok (status_of TA_CANCELLED)).

Definition demo_reconcile : gateway_call :=
  ReconcileCall demo_principal "op-1" "reconcile-1" DC_INTERNAL (float_of_int 30).
Definition demo_cancel : gateway_call := CancelCall demo_principal "op-1" "cancel-1" (float_of_int 30).

(** A caller's command of 120 characters is accepted and claimed; with the suffix of its outcome it
    exceeds the 128 of an identifier.  The peer has been called, the outcome, success or ambiguity
    alike, cannot be recorded, and the operation stays claimed. *)
Lemma long_command_strands_invocation :
  let run e := summary (run_gateway [InvokeCall (with_command (str_repeat 120 "c") (demo_invoke "op-1"))]
                          (steps 0 30 e) demo_start) in
  run demo_answers = ([(Some ValidationError, None)], Some IV_CLAIMED, 1%nat) ∧
  run silent_peer = ([(Some ValidationError, None)], Some IV_CLAIMED, 1%nat).
Proof. vm_compute. split; reflexivity. Qed.

(** An artifact is checked as a document of its own; the digest of the result holds it two levels
    deeper.  A peer whose artifact nests to the limit passes every check, counts as a success of the
    circuit, and leaves the operation claimed. *)
Fixpoint nested (n : nat) : json := match n with O => JNull | S n => JList [nested n] end.

Definition deep_part : MessagePart :=
  {| mp_part_id := "part-3"; mp_kind := PT_data; mp_media_type := "application/json"; mp_text := None;
     mp_data := Some [("k", nested 8)]; mp_resource_ref := None;
     mp_content_digest := json_digest (JObj [("k", nested 8)]); mp_redacted := false |}.
Definition deep_artifact : ArtifactContract := artifact_of [deep_part] "op-1".

Lemma deep_artifact_strands_invocation :
  is_ok (new_MessagePart deep_part) = true ∧ is_ok (new_ArtifactContract deep_artifact) = true ∧
  summary (run_gateway [demo_call]
             (steps 0 30 (answers_with (Ok (status_of TA_COMPLETED, [deep_artifact])) (Raise (Exn TimeoutError ""))
                            (Raise (Exn TimeoutError "")))) demo_start)
  = ([(Some PayloadRejected, None)], Some IV_CLAIMED, 1%nat).
Proof. vm_compute. split_and!; reflexivity. Qed.

(** [reconcile] takes what the peer observes without the checks of [invoke]: here an artifact of
    another task. *)
Lemma reconcile_accepts_forged_artifacts :
  let s := run_gateway [demo_call; demo_reconcile] (steps 0 30 silent_peer ++ steps 1 30 silent_peer) demo_start in
  summary s = ([(Some ReconciliationRequired, None); (None, Some TA_COMPLETED)], Some IV_RECONCILED, 1%nat) ∧
  (λ r, af_task_id <$> ir_artifacts r) <$> (s.1 !! 1%nat ≫= returned_of) = Some ["interop-task-op-2"].
Proof. vm_compute. split; reflexivity. Qed.

(** A cancellation the peer did not confirm is tried again under its command: the repeated append
    leaves the projection where it is, the version of the confirmation is one too high, and the peer's
    confirmation is never recorded. *)
Lemma retried_cancel_is_not_recorded :
  summary (run_gateway [demo_call; demo_cancel; demo_cancel]
             (steps 0 10 silent_peer
              ++ steps 1 30 (silent (Raise (Exn TimeoutError "")) (Ok (status_of TA_WORKING)))
              ++ steps 2 30 silent_peer) demo_start)
  = ([(None, None); (Some ReconciliationRequired, None); (Some ConcurrencyConflict, None)],
     Some IV_CLAIMED, 0%nat).
Proof. vm_compute. reflexivity. Qed.

(** A peer revoked after its trust was checked is still called, and its result is accepted. *)
Lemma revoked_peer_result_is_accepted :
  let turns := steps 0 10 demo_answers ++ [Operator (Revoke "peer-1" 2 "operator-1" demo_time "REVOKE peer-1")] in
  let before := run_gateway [demo_call] turns demo_start in
  let after := run_gateway [demo_call] (turns ++ steps 0 20 demo_answers) demo_start in
  (sent_count before.2 = 0%nat ∧ te_status <$> _current (iw_registry before.2) "peer-1" = Some TS_REVOKED) ∧
  summary after = ([(None, Some TA_COMPLETED)], Some IV_SUCCEEDED, 1%nat).
Proof. vm_compute. split_and!; reflexivity. Qed.

(** A worker that stops after the call leaves the operation claimed: it is neither ambiguous, so
    [reconcile] refuses it, nor invoked again. *)
Lemma stopped_worker_is_not_reconciled :
  summary (run_gateway [demo_call; demo_reconcile; demo_call]
             (steps 0 11 demo_answers ++ steps 1 30 demo_answers ++ steps 2 30 demo_answers) demo_start)
  = ([(None, None); (Some PolicyDenied, None); (None, Some TA_WORKING)], Some IV_CLAIMED, 1%nat).
Proof. vm_compute. reflexivity. Qed.

(** The policy port's cost ceiling is not compared with the cost of the invocation. *)
Lemma policy_cost_ceiling_is_ignored :
  po_maximum_cost_units demo_allow = 5 ∧
  summary (run_gateway [InvokeCall (with_cost 9 demo_principal (demo_invoke "op-1"))] (steps 0 30 demo_answers) demo_start)
  = ([(None, Some TA_COMPLETED)], Some IV_SUCCEEDED, 1%nat).
Proof. vm_compute. split; reflexivity. Qed.

(** A principal whose proof has expired is only found out by the task's own validator, after the
    quota was spent. *)
Definition expired_principal : PrincipalContract :=
  {| pn_principal_ref := "principal-1"; pn_kind := K_workload; pn_issuer_digest := digest_of "1";
     pn_audience := "aegis"; pn_scopes := ["interop.invoke"]; pn_tenant_ref := "tenant-a";
     pn_purpose := "incident-response"; pn_proof_digest := digest_of "2";
     pn_authenticated_at := demo_time - hours 2; pn_expires_at := demo_time - hours 1 |}.

Lemma expired_principal_spends_quota :
  let s := run_gateway [InvokeCall (with_cost 2 expired_principal (demo_invoke "op-1"))] (steps 0 30 demo_answers) demo_start in
  summary s = ([(Some ValidationError, None)], None, 0%nat) ∧ usage (iw_quota s.2) "tenant-a" = (1, 2).
Proof. vm_compute. split; reflexivity. Qed.

(** Empty text and an empty object are passed over when a part's digest is checked: the right digest
    is refused, the digest of [null] accepted. *)
Definition empty_text_part (digest : string) : MessagePart :=
  {| mp_part_id := "part-4"; mp_kind := PT_text; mp_media_type := "text/plain"; mp_text := Some "";
     mp_data := None; mp_resource_ref := None; mp_content_digest := digest; mp_redacted := false |}.

Lemma empty_text_needs_null_digest :
  raised_kind (new_MessagePart (empty_text_part (json_digest (JStr "")))) = Some ValidationError ∧
  is_ok (new_MessagePart (empty_text_part (json_digest JNull))) = true.
Proof. vm_compute. split; reflexivity. Qed.
