(* ===== verification/InteropTheorems.v ===== *)
(** * What the interoperability layer promises

    Who may be called and how often, where results come from, how peers come to be trusted, and
    the bounds of documents, quotas, replay caches and circuits; then the runs on which the code
    falls short of its documents. *)

From S2P Require Import Prelude PyJson PyTime PyText PyFloat PyModel PyDigest PyProg Domain Durability Fixtures InteropText InteropData InteropTrust InteropLedger InteropGateway InteropFacts InteropSafety InteropFixtures.

Section theorems.
Context {HDigest : Digest} {HLaws : DigestLaws}.

(** ** Trust *)

(** [vouched ops peer e]: entry [e] is a registered entry of the peer with an operator's review. *)
Definition vouched (ops : list trust_op) (peer : string) (e : TrustEntry) : Prop :=
  ∃ p reviewer at_ d,
    Register p ∈ ops ∧ te_peer_id p = peer ∧ te_status p = TS_PENDING_REVIEW ∧
    Review peer (te_revision p) reviewer at_ ("TRUST " +:+ peer) ∈ ops ∧
    e = reviewed p TS_ACTIVE reviewer at_ d.

Lemma active_vouched ops r peer e :
  history_sound ops r → e ∈ history r peer → te_status e = TS_ACTIVE → vouched ops peer e.
Proof.
  intros Hr He Ha. apply list_elem_of_split in He as (h1 & h2 & Hh).
  destruct (Hr peer h1 e h2 Hh) as (He & _ & _).
  destruct He as [e' _ _ Hs|c reviewer at_ d Hc Hs Hrev|c target reviewer at_ d _ Ht]; cbn in Ha.
  - congruence.
  - apply last_Some in Hc as [h0 ->].
    destruct (Hr peer h0 c (reviewed c TS_ACTIVE reviewer at_ d :: h2)) as (Hc & Hp & _); [by rewrite Hh, <- app_assoc|].
    exists c, reviewer, at_, d. split_and!; try done.
    destruct Hc as [? ? ? ? ? ?|c' ? ? ?|c' target ? ? ? _ Ht]; [done|done|]. cbn in Hs. subst target. set_solver.
  - subst target. set_solver.
Qed.

(** C16: Over any sequence of registrations and reviews, every history carries the revisions 1, 2, ...
    in order, and an entry [require_active] admits is the peer's latest, is active, unexpired and
    allows what was asked; it differs from an entry registered as pending only by the review an
    operator made of exactly that revision with the typed confirmation. *)
Theorem trust_needs_review ops peer protocol cap risk cls now e (r := run_trust ops ∅) :
  require_active r peer protocol cap risk cls now = Ok e →
  (∀ i x, history r peer !! i = Some x → te_revision x = Z.of_nat i + 1 ∧ te_peer_id x = peer) ∧
  last (history r peer) = Some e ∧ te_protocol e = protocol ∧ te_status e = TS_ACTIVE ∧
  now < te_expires_at e ∧ now < te_review_after e ∧ cap ∈ te_allowed_capabilities e ∧
  risk ∈ te_allowed_risks e ∧ cls ∈ te_allowed_classifications e ∧ vouched ops peer e.
Proof.
  intros H. apply require_active_ok in H as (Hl & Hp & Hs & ? & ? & ? & ? & ?).
  pose proof (run_trust_sound ops) as Hr. split_and!; try done.
  - intros i x Hx. apply list_elem_of_split_length in Hx as (h1 & h2 & Hh & ->).
    destruct (Hr peer h1 x h2 Hh) as (_ & Hid & Hv). done.
  - eapply active_vouched; [exact Hr| |done]. apply last_Some in Hl as [h Hh].
    change (e ∈ history r peer). rewrite Hh. apply elem_of_app. right. by left.
Qed.

(** ** Calls of peers *)

(** The operator actions of a schedule *)
Definition operator_ops (turns : list turn) : list trust_op :=
  omap (λ t, match t with Operator o => Some o | Step _ _ => None end) turns.

Lemma run_trust_app ops1 ops2 r : run_trust (ops1 ++ ops2) r = run_trust ops2 (run_trust ops1 r).
Proof. apply foldl_app. Qed.

Lemma handle_registry e i (R : Set) (o : interop_op R) w : iw_registry (handle e i R o w).2 = iw_registry w.
Proof.
  destruct o; cbn; try done.
  - by destruct (circuit_allow _ _ _).
  - by destruct (invocation_reserve _ _ _ _).
  - by destruct (interop_append _ _ _ _ _ _ _ _ _).
Qed.

Lemma pool_registry turns : ∀ (s : list (prog interop_op exn InvocationResult) * interop_world),
  iw_registry (run_pool handle (move_of <$> turns) s).2 = run_trust (operator_ops turns) (iw_registry s.2).
Proof.
  induction turns as [|t turns IH]; intros s; [done|].
  change (run_pool handle (move_of <$> t :: turns) s) with (run_pool handle (move_of <$> turns) (pool_step handle s (move_of t))).
  rewrite IH. destruct t as [i e|o]; [|done]. f_equal. cbn. destruct (s.1 !! i) as [p|]; [|done].
  destruct p as [x|x|R o k]; [done|done|]. cbn. pose proof (handle_registry e i R o s.2) as H.
  by destruct (handle e i R o s.2).
Qed.

Lemma gateway_sound calls ops requests cost q c turns :
  new_InvocationQuota requests cost = Ok q →
  sound calls (run_gateway calls turns (interop_start (run_trust ops ∅) q c)).2 ∧
  iw_registry (run_gateway calls turns (interop_start (run_trust ops ∅) q c)).2
  = run_trust (ops ++ operator_ops turns) ∅.
Proof.
  intros Hq. split.
  - apply gateway_runs; [|done]. eapply start_sound, new_quota_sound, Hq.
  - unfold run_gateway. by rewrite pool_registry, run_trust_app.
Qed.

(** C10: However the calls of a gateway and the actions of operators interleave, and whatever the
    clock, the policy port and the peers answer, a peer is only called for an invocation of its
    caller's own tenant, with the message, task and binding of that invocation, after: its trust
    entry, which an operator reviewed, admitted protocol, capability, risk and classification at the
    task's creation; the application policy allowed exactly this principal, peer, capability and
    request digest; the tenant's quota reserved its cost; and the ledger recorded the request and
    the claim. *)
Theorem external_calls_are_sanctioned calls ops requests cost q c turns i peer task message answer
    (w := (run_gateway calls turns (interop_start (run_trust ops ∅) q c)).2) :
  new_InvocationQuota requests cost = Ok q →
  (i, Sent peer task message answer) ∈ iw_log w →
  ∃ a policy d td,
    calls !! i = Some (InvokeCall a) ∧ message = iv_message a ∧
    pn_tenant_ref (iv_principal a) = iv_tenant_ref a ∧
    digest_value (message_json message) = Ok d ∧ digest_value (entry_json peer) = Ok td ∧
    build_task a d policy peer (tk_created_at task) = Ok task ∧
    trusted a (iw_registry w) peer (tk_created_at task) ∧
    vouched (ops ++ operator_ops turns) (iv_peer_id a) peer ∧
    (i, Asked (iv_principal a) peer (iv_capability a) d (Ok policy)) ∈ iw_log w ∧
    po_decision policy = PD_allow ∧
    iq_reservations (iw_quota w) !! reservation_id_of a = Some (iv_tenant_ref a, iv_cost_units a) ∧
    (∃ f, f ∈ op_facts (iw_ledger w) (iv_operation_id a) ∧
          requested_fact a (requested_payload a task policy d td) (tk_created_at task) f) ∧
    recorded (iw_ledger w) (iv_operation_id a) (iv_command_ref a +:+ "-claim") (claim_payload a peer d).
Proof.
  intros Hq Hin. destruct (gateway_sound calls ops requests cost q c turns Hq) as [Hs Hr].
  destruct (sd_sent _ _ Hs _ _ _ _ _ Hin) as (a & policy & d & td & H1 & H2 & H3 & H4 & H5 & H6 & H7 & H8 & H9 & H10 & _ & H12 & H13).
  exists a, policy, d, td. split_and!; try done. destruct H7 as (Hh & _ & Ha & _).
  eapply active_vouched; [|exact Hh|done]. rewrite Hr. apply run_trust_sound.
Qed.

Lemma sent_position calls w k1 k2 i p1 t1 m1 a1 p2 t2 m2 a2 :
  sound calls w → iw_log w !! k1 = Some (i, Sent p1 t1 m1 a1) → iw_log w !! k2 = Some (i, Sent p2 t2 m2 a2) → k1 = k2.
Proof.
  intros Hw. pose proof (sd_once _ _ Hw) as Hn. unfold senders in Hn. revert k1 k2.
  induction (iw_log w) as [|ev l IH]; [done|]. intros k1 k2 H1 H2.
  assert (Hin : ∀ k p t m x, l !! k = Some (i, Sent p t m x) → i ∈ omap sender l).
  { intros k p t m x Hk. apply list_elem_of_omap. exists (i, Sent p t m x). split; [by eapply list_elem_of_lookup_2|done]. }
  assert (Hl : NoDup (omap sender l)).
  { cbn in Hn. destruct (sender ev); [by apply NoDup_cons in Hn as [_ ?]|done]. }
  destruct k1 as [|k1], k2 as [|k2]; cbn in H1, H2; [done| | |f_equal; by apply IH].
  - simplify_eq. cbn in Hn. apply NoDup_cons in Hn as [Hn _]. by destruct Hn; eapply Hin.
  - simplify_eq. cbn in Hn. apply NoDup_cons in Hn as [Hn _]. by destruct Hn; eapply Hin.
Qed.

(** C17: For one operation a peer is called at most once, however many calls of the gateway name
    the operation, with whatever arguments, and however they interleave. *)
Theorem external_calls_happen_once calls ops requests cost q c turns k1 k2 i1 i2 p1 p2 t1 t2 m1 m2 a1 a2
    (w := (run_gateway calls turns (interop_start (run_trust ops ∅) q c)).2) :
  new_InvocationQuota requests cost = Ok q →
  iw_log w !! k1 = Some (i1, Sent p1 t1 m1 a1) → iw_log w !! k2 = Some (i2, Sent p2 t2 m2 a2) →
  tk_task_id t1 = tk_task_id t2 → k1 = k2.
Proof.
  intros Hq H1 H2 Ht. destruct (gateway_sound calls ops requests cost q c turns Hq) as [Hs _].
  assert (Ho : ∀ k i p t m x, iw_log w !! k = Some (i, Sent p t m x) →
    ∃ op, tk_task_id t = "interop-task-" +:+ op ∧ iw_opened w !! op = Some i).
  { intros k i p t m x H. apply list_elem_of_lookup_2 in H.
    destruct (sd_sent _ _ Hs _ _ _ _ _ H) as (a & policy & d & td & _ & _ & _ & _ & _ & Htask & _ & _ & _ & _ & Hop & _).
    exists (iv_operation_id a). split; [|done]. by eapply build_task_ok. }
  destruct (Ho _ _ _ _ _ _ H1) as (op1 & E1 & O1). destruct (Ho _ _ _ _ _ _ H2) as (op2 & E2 & O2).
  rewrite E1, E2 in Ht. apply (inj (String.append _)) in Ht. subst op2. rewrite O1 in O2. injection O2 as ->.
  by eapply sent_position.
Qed.

(** ** Results *)

(** What [_validate_result] admits *)
Definition artifact_accepted (peer : TrustEntry) (capability : CapabilityContract) (task : TaskContract)
    (x : ArtifactContract) : Prop :=
  af_task_id x = tk_task_id task ∧ af_producer_peer_id x = te_peer_id peer ∧
  (te_protocol peer = PK_A2A → te_card_digest peer = Some (af_card_digest x)) ∧
  digest_value (capability_json capability) = Ok (af_capability_digest x) ∧ document_ok (artifact_json x) = true.

Lemma check_artifact_ok peer capability task total x n :
  check_artifact peer capability task total x = Ok n →
  artifact_accepted peer capability task x ∧ n = total + str_len (canonical_json (artifact_json x)).
Proof.
  unfold check_artifact. intros H. apply res_bind_ok in H as (u & H1 & H). apply raise_if_ok in H1.
  apply res_bind_ok in H as (u' & H2 & H). apply raise_if_ok in H2.
  apply res_bind_ok in H as (d & Hd & H). apply res_bind_ok in H as (u'' & H3 & H). apply raise_if_ok in H3.
  apply res_bind_ok in H as (t & Ht & [= <-]). apply protocol_json_ok in Ht as [Hok ->].
  py_bool. subst d. split; [|done]. split_and!; try done.
  intros Hp. apply andb_false_iff in H2 as [H2|H2]; py_bool; [done|done].
Qed.

Lemma check_artifacts_ok peer capability task l : ∀ total n,
  foldM (check_artifact peer capability task) total l = Ok n →
  Forall (artifact_accepted peer capability task) l ∧
  n = total + sum_of (λ x, str_len (canonical_json (artifact_json x))) l.
Proof.
  induction l as [|x l IH]; intros total n H.
  - injection H as <-. split; [constructor|]. unfold sum_of. cbn. lia.
  - apply res_bind_ok in H as (m & Hm & H). apply check_artifact_ok in Hm as [Hx ->].
    apply IH in H as [Hl ->]. split; [by constructor|]. rewrite sum_of_cons. lia.
Qed.

Lemma validate_result_ok peer capability task status artifacts :
  _validate_result peer capability task status artifacts = Ok () →
  st_state status = TA_COMPLETED ∧ zlen artifacts ≤ 64 ∧
  Forall (artifact_accepted peer capability task) artifacts ∧
  sum_of (λ x, str_len (canonical_json (artifact_json x))) artifacts ≤ te_maximum_response_bytes peer.
Proof.
  unfold _validate_result. intros H. apply res_bind_ok in H as (u & H1 & H). apply raise_if_ok in H1.
  apply res_bind_ok in H as (u' & H2 & H). apply raise_if_ok in H2.
  apply res_bind_ok in H as (n & Hn & H). apply raise_if_ok in H. py_bool.
  apply check_artifacts_ok in Hn as [Hf ->]. split_and!; [done|lia|done|lia].
Qed.

(** A completed result that an [invoke] returns, unless it replays an earlier one, is the answer
    the peer gave to this very call: completed, at most 64 artifacts within the peer's response
    bound, each of them of this task and this peer, with the pinned card and capability; and the
    ledger holds a success under the caller's command with the digest of exactly this result. *)
Theorem completed_results_are_checked calls ops requests cost q c turns i a r
    (s := run_gateway calls turns (interop_start (run_trust ops ∅) q c)) :
  new_InvocationQuota requests cost = Ok q →
  calls !! i = Some (InvokeCall a) → s.1 !! i = Some (Return r) →
  ir_replayed r = false → tk_state (ir_task r) = TA_COMPLETED →
  ∃ peer task d,
    (i, Sent peer task (iv_message a) (Ok (ir_status r, ir_artifacts r))) ∈ iw_log s.2 ∧
    sanctioned calls s.2 i peer task (iv_message a) ∧
    st_state (ir_status r) = TA_COMPLETED ∧ zlen (ir_artifacts r) ≤ 64 ∧
    Forall (artifact_accepted peer (iv_capability a) task) (ir_artifacts r) ∧
    sum_of (λ x, str_len (canonical_json (artifact_json x))) (ir_artifacts r) ≤ te_maximum_response_bytes peer ∧
    digest_value (result_document (ir_status r) (ir_artifacts r)) = Ok d ∧
    tk_result_digest (ir_task r) = Some d ∧
    recorded (iw_ledger s.2) (iv_operation_id a) (iv_command_ref a +:+ "-succeeded")
      (result_payload (ir_artifacts r) d (ir_status r)).
Proof.
  intros Hq Hc Hr Hrep Hst.
  destruct (gateway_runs calls turns (interop_start (run_trust ops ∅) q c)) as [Hs Hres];
    [by eapply start_sound, new_quota_sound|done|].
  destruct (Hres i _ r Hc Hr) as [H|[(_ & _ & _ & _ & _ & H & _)|(peer & task & d & H1 & H2 & H3 & H4 & _ & H6)]];
    [congruence..|].
  exists peer, task, d. apply validate_result_ok in H2 as (? & ? & ? & ?).
  split_and!; try done. by eapply sd_sent.
Qed.

(** ** Bounds *)

(** What no step and no operator changes is as it was. *)
Lemma pool_keeps {X : Type} (f : interop_world → X) turns :
  (∀ e i (R : Set) (o : interop_op R) w, f (handle e i R o w).2 = f w) →
  (∀ r w, f (put_registry r w) = f w) →
  ∀ s : list (prog interop_op exn InvocationResult) * interop_world,
    f (run_pool handle (move_of <$> turns) s).2 = f s.2.
Proof.
  intros Hh Ho. induction turns as [|t turns IH]; intros s; [done|].
  change (run_pool handle (move_of <$> t :: turns) s) with (run_pool handle (move_of <$> turns) (pool_step handle s (move_of t))).
  rewrite IH. destruct t as [i e|o]; [|apply Ho]. cbn. destruct (s.1 !! i) as [p|]; [|done].
  destruct p as [x|x|R o k]; [done|done|]. cbn. pose proof (Hh e i R o s.2) as H.
  by destruct (handle e i R o s.2).
Qed.

Lemma handle_limits e i (R : Set) (o : interop_op R) w :
  (iq_request_limit (iw_quota (handle e i R o w).2), iq_cost_limit (iw_quota (handle e i R o w).2))
  = (iq_request_limit (iw_quota w), iq_cost_limit (iw_quota w)).
Proof.
  destruct o; cbn; try done.
  - by destruct (circuit_allow _ _ _).
  - destruct (invocation_reserve _ _ _ _) as [r q'] eqn:H. apply invocation_reserve_run in H. cbn.
    destruct r; [|by subst]. destruct H as [_ [[_ ->]|(_ & _ & _ & ->)]]; done.
  - by destruct (interop_append _ _ _ _ _ _ _ _ _).
Qed.

(** Over any schedule the usage of every tenant is the number and the sum of its reservations,
    and stays within both limits. *)
Theorem interop_quota_is_kept calls ops requests cost q c turns tenant
    (final := iw_quota (run_gateway calls turns (interop_start (run_trust ops ∅) q c)).2) :
  new_InvocationQuota requests cost = Ok q →
  usage final tenant = (total_of (reserved_requests tenant) (iq_reservations final),
                        total_of (reserved_units tenant) (iq_reservations final)) ∧
  (usage final tenant).1 ≤ requests ∧ (usage final tenant).2 ≤ cost.
Proof.
  intros Hq. destruct (gateway_sound calls ops requests cost q c turns Hq) as [Hs _].
  pose proof (pool_keeps (λ w, (iq_request_limit (iw_quota w), iq_cost_limit (iw_quota w))) turns handle_limits
    (λ _ _, eq_refl) (thread_of <$> calls, interop_start (run_trust ops ∅) q c)) as Hlim.
  assert (Hq' : iq_request_limit q = requests ∧ iq_cost_limit q = cost ∧ 1 ≤ requests ∧ 0 ≤ cost).
  { unfold new_InvocationQuota in Hq. py_inv. by py_bool. }
  destruct Hq' as (Eq & Ec & ? & ?). cbn in Hlim. rewrite Eq, Ec in Hlim. injection Hlim as Hlr Hlc.
  destruct (sd_quota _ _ Hs) as [Hu Hl _]. split; [apply Hu|]. specialize (Hl tenant).
  fold (iq_request_limit final) in Hlr. unfold run_gateway in Hl. rewrite Hlr, Hlc in Hl. subst final. unfold run_gateway. lia.
Qed.

(** The calls of the ledger: every sequence of appends, with any arguments *)
Record append_args := {
  aa_operation : string; aa_type : InteroperabilityFactType; aa_command : string; aa_actor : string;
  aa_peer : string; aa_payload : payload; aa_at : datetime; aa_projection : option InvocationProjection
}.

Definition run_append (x : append_args) : M interop_ledger InteroperabilityFact :=
  interop_append (aa_operation x) (aa_type x) (aa_command x) (aa_actor x) (aa_peer x) (aa_payload x) (aa_at x)
    (aa_projection x).

Definition run_appends (l : list append_args) (s : interop_ledger) : interop_ledger :=
  foldl (λ s x, (run_append x s).2) s l.

Lemma run_appends_sound l : ∀ s, ledger_sound s → ledger_sound (run_appends l s) ∧ ledger_grows s (run_appends l s).
Proof.
  induction l as [|x l IH]; intros s Hs; [done|]. cbn. destruct (IH (run_append x s).2) as [H1 H2]; [by apply append_sound|].
  split; [done|]. etrans; [apply append_grows|exact H2].
Qed.

(** After any sequence of appends every operation's facts verify: numbered from 1, chained, each
    digest its own content's, at most 128; facts are never removed or changed by what follows; a
    command names one fact in all the ledger; and a projection's version never exceeds the number
    of facts. *)
Theorem interop_ledger_sound before after operation
    (l := run_appends before new_InteroperabilityLedger) (l' := run_appends after l) :
  interop_verify l operation = Ok true ∧ zlen (op_facts l operation) ≤ 128 ∧
  op_facts l operation `prefix_of` op_facts l' operation ∧
  (∀ f, f ∈ op_facts l operation → if_operation_id f = operation) ∧
  (∀ f g operation', f ∈ op_facts l operation → g ∈ op_facts l operation' →
     if_command_ref f = if_command_ref g → operation' = operation ∧
     digest_value (JObj (if_payload f)) = digest_value (JObj (if_payload g))) ∧
  (∀ p, op_projection l operation = Some p → 1 ≤ ip_version p ≤ zlen (op_facts l operation)).
Proof.
  destruct (run_appends_sound before _ empty_ledger_sound) as [Hl _].
  destruct (run_appends_sound after l Hl) as [_ (Hg & _)]. destruct (ls_chain _ Hl operation) as [Hv Hn].
  split_and!; [done|done|apply Hg| | |apply Hl].
  - intros f Hf. by destruct (ls_names _ Hl _ _ Hf).
  - intros f g op' Hf Hg' Heq. destruct (ls_names _ Hl _ _ Hf) as (_ & d & Hd & Hc).
    destruct (ls_names _ Hl _ _ Hg') as (_ & d' & Hd' & Hc'). rewrite Heq, Hc' in Hc.
    injection Hc as -> ->. by rewrite Hd, Hd'.
Qed.

(** ** Workload identities *)

Record validation := {
  va_assertion : WorkloadIdentityAssertion; va_tenant : string; va_purpose : string; va_binding : string;
  va_now : datetime
}.

Section identities.
Context (policy : WorkloadIdentityPolicy) (production mutual_tls_ready : bool).

Definition run_validation (v : validation) : M memory_cache PrincipalContract :=
  InteropTrust.validate policy production mutual_tls_ready (va_assertion v) (va_tenant v) (va_purpose v)
    (va_binding v) (va_now v).

Fixpoint run_validations (l : list validation) (c : memory_cache) : list (res PrincipalContract) * memory_cache :=
  match l with
  | [] => ([], c)
  | v :: l => let '(r, c) := run_validation v c in let '(rs, c) := run_validations l c in (r :: rs, c)
  end.

Definition token_of (v : validation) : string * datetime :=
  (wa_token_id_digest (va_assertion v), wa_expires_at (va_assertion v)).

(** What [validate] asks of an assertion *)
Definition admissible (v : validation) : Prop :=
  let x := va_assertion v in
  ready (C := memory_cache) policy production mutual_tls_ready = true ∧
  wa_issuer_digest x ∈ wp_allowed_issuer_digests policy ∧ wa_audience x = wp_audience policy ∧
  wa_principal_ref x ∈ wp_allowed_principals policy ∧ wa_tenant_ref x = va_tenant v ∧
  wa_purpose x = va_purpose v ∧ wa_purpose x ∈ wp_allowed_purposes policy ∧
  (∀ scope, scope ∈ wp_required_scopes policy → scope ∈ wa_scopes x) ∧
  wa_confirmation_digest x = va_binding v ∧
  wa_issued_at x ≤ va_now v < wa_expires_at x ∧
  wa_expires_at x - wa_issued_at x ≤ seconds (wp_maximum_lifetime_seconds policy).

Lemma checks_admissible v u :
  assertion_checks (C := memory_cache) policy production mutual_tls_ready (va_assertion v) (va_tenant v)
    (va_purpose v) (va_binding v) (va_now v) = Ok u → admissible v.
Proof.
  unfold assertion_checks, admissible. intros H.
  do 7 (let u := fresh "u" in let H' := fresh "H" in apply res_bind_ok in H as (u & H' & H); apply raise_if_ok in H').
  apply res_bind_ok in H as (same & Hs & H). unfold compare_digest in Hs. apply res_bind_ok in Hs as (? & _ & [= <-]).
  do 2 (let u := fresh "u" in let H' := fresh "H" in apply res_bind_ok in H as (u & H' & H); apply raise_if_ok in H').
  apply raise_if_ok in H. py_bool. split_and!; try done; try lia.
  intros scope Hscope. rewrite forallb_forall in H6. apply list_elem_of_In, H6 in Hscope. by py_bool.
Qed.

(** The principal an accepted assertion gives *)
Definition principal_of (v : validation) : PrincipalContract :=
  let x := va_assertion v in
  {| pn_principal_ref := wa_principal_ref x; pn_kind := K_workload; pn_issuer_digest := wa_issuer_digest x;
     pn_audience := wa_audience x; pn_scopes := sorted_set (wa_scopes x); pn_tenant_ref := wa_tenant_ref x;
     pn_purpose := wa_purpose x; pn_proof_digest := wa_proof_digest x; pn_authenticated_at := va_now v;
     pn_expires_at := wa_expires_at x |}.

Lemma validation_run v c r c' :
  WorkloadIdentityAssertion_ok (va_assertion v) = true → run_validation v c = (r, c') →
  match r with
  | Ok p => admissible v ∧ p = principal_of v ∧ memory_consume (token_of v).1 (token_of v).2 c = (Ok true, c')
  | Raise _ => c' = c ∨ memory_consume (token_of v).1 (token_of v).2 c = (Ok false, c')
  end.
Proof.
  intros Hok H. unfold run_validation, InteropTrust.validate in H. bind_step H. unfold lift in H at 1.
  destruct (assertion_checks _ _ _ _ _ _ _ _) as [u|e] eqn:Hc; [|injection H as <- <-; by left].
  apply checks_admissible in Hc. bind_step H. unfold consume at 1, memory_replay_cache at 1 in H.
  destruct (memory_consume _ _ c) as [[b|e] c1] eqn:Hm.
  - bind_step H. unfold lift in H at 1. destruct b; cbn [negb raise_if] in H.
    + unfold lift, new_PrincipalContract in H. rewrite validated_returns in H.
      * cbn in H. injection H as <- <-. split_and!; done.
      * destruct Hc as (_ & _ & _ & _ & _ & _ & _ & _ & _ & Ht & _).
        unfold WorkloadIdentityAssertion_ok in Hok. unfold PrincipalContract_ok.
        cbn [forallb] in *. unfold count_range, in_range in *. py_bool. cbn.
        repeat match goal with H : _ = true |- _ => rewrite H; clear H end. cbn.
        assert (0 ≤ zlen (wa_scopes (va_assertion v))) by (unfold zlen; lia).
        rewrite !(proj2 (Z.leb_le _ _)), (proj2 (Z.ltb_lt _ _)) by lia. cbn.
        rewrite bool_decide_eq_false_2; [done|]. intros Hn. rewrite Hn in *. unfold zlen in *. cbn in *. lia.
    + injection H as <- <-. by right.
  - exfalso. unfold memory_consume in Hm. bind_step Hm. unfold get in Hm at 1. by destruct (dict_get _ _).
Qed.

(** The tokens accepted, in order *)
Definition accepted_tokens (l : list validation) (rs : list (res PrincipalContract)) : list (string * datetime) :=
  omap (λ vr : validation * res PrincipalContract, if is_ok vr.2 then Some (token_of vr.1) else None) (zip l rs).

Lemma validations_sound l : ∀ c acc j v p y,
  Forall (λ v, WorkloadIdentityAssertion_ok (va_assertion v) = true) l → cache_sound acc c →
  l !! j = Some v → (run_validations l c).1 !! j = Some (Ok p) →
  ((token_of v).1, y) ∈ acc ++ accepted_tokens (take j l) (take j (run_validations l c).1) →
  crowded (mc_maximum_entries c) (acc ++ accepted_tokens (take j l) (take j (run_validations l c).1)) ((token_of v).1, y).
Proof.
  induction l as [|v0 l IH]; intros c acc j v p y Hok Hc Hj Hp Hy; [done|].
  apply Forall_cons in Hok as [Hv0 Hok]. cbn [run_validations] in *.
  destruct (run_validation v0 c) as [r c1] eqn:Hr. destruct (run_validations l c1) as [rs c2] eqn:Hrs.
  apply validation_run in Hr; [|done].
  assert (Hc1 : ∃ b, cache_sound (if b : bool then acc ++ [token_of v0] else acc) c1 ∧
    mc_maximum_entries c1 = mc_maximum_entries c ∧ b = is_ok r).
  { destruct r as [p0|e]; cbn.
    - destruct Hr as (_ & _ & Hm). exists true. destruct (consume_sound _ _ _ _ _ _ Hc Hm) as (H1 & H2 & _).
      split; [|done]. by destruct (token_of v0).
    - exists false. destruct Hr as [->|Hm]; [done|]. by destruct (consume_sound _ _ _ _ _ _ Hc Hm) as (H1 & H2 & _). }
  destruct Hc1 as (b & Hc1 & Hmax & ->). destruct j as [|j]; cbn in Hj, Hp |- *.
  - simplify_eq. cbn in Hy. rewrite app_nil_r in Hy |- *. destruct Hr as (_ & _ & Hm).
    destruct (consume_sound _ _ _ _ _ _ Hc Hm) as (_ & _ & H3). by apply H3.
  - specialize (IH c1 _ j v p y Hok Hc1 Hj). rewrite Hrs, Hmax in IH. cbn in IH. specialize (IH Hp).
    cbn in Hy. unfold accepted_tokens in *. cbn. destruct (is_ok r); [|by apply IH].
    rewrite <- app_assoc in IH. by apply IH.
Qed.

(** An assertion is only accepted when it is admissible for the policy, tenant, purpose, channel
    and time of the call, and the principal is exactly what it asserts; a token that was accepted
    before is only accepted again after as many distinct tokens as the cache holds were accepted
    that expire no earlier. *)
Theorem assertions_are_used_once n c0 l i j v v' p p' :
  new_InMemoryReplayCache n = Ok c0 →
  Forall (λ v, WorkloadIdentityAssertion_ok (va_assertion v) = true) l →
  (i < j)%nat → l !! i = Some v' → l !! j = Some v →
  (run_validations l c0).1 !! i = Some (Ok p') → (run_validations l c0).1 !! j = Some (Ok p) →
  admissible v ∧ p = principal_of v ∧
  (wa_token_id_digest (va_assertion v) = wa_token_id_digest (va_assertion v') →
   ∃ D : list (string * datetime), NoDup D.*1 ∧ n ≤ zlen D ∧
     ∀ d, d ∈ D → d ∈ accepted_tokens (take j l) (take j (run_validations l c0).1) ∧
                  wa_expires_at (va_assertion v') ≤ d.2).
Proof.
  intros Hn Hok Hij Hi Hj Hp' Hp.
  assert (Hrun : ∀ k l c w q, Forall (λ v, WorkloadIdentityAssertion_ok (va_assertion v) = true) l → l !! k = Some w →
    (run_validations l c).1 !! k = Some (Ok q) → admissible w ∧ q = principal_of w).
  { clear. induction k as [|k IH]; intros [|v l] c w q Hok Hl Hq; try done;
      apply Forall_cons in Hok as [Hv Hok]; cbn in Hl, Hq; destruct (run_validation v c) as [r c1] eqn:Hr;
      destruct (run_validations l c1) as [rs c2] eqn:Hrs; cbn in Hq.
    - simplify_eq. by apply validation_run in Hr as (? & ? & _).
    - apply (IH l c1); [done|done|by rewrite Hrs]. }
  destruct (Hrun j l c0 v p Hok Hj Hp) as [Ha Hpv]. split_and!; [done|done|]. intros Ht.
  assert (Hm : mc_maximum_entries c0 = n ∧ cache_sound [] c0).
  { unfold new_InMemoryReplayCache in Hn. apply res_bind_ok in Hn as (u & _ & [= <-]). split; [done|].
    split_and!; [constructor|done|]. intros kv Hkv. by apply not_elem_of_nil in Hkv. }
  destruct Hm as [Hm Hc0].
  pose proof (validations_sound l c0 [] j v p (wa_expires_at (va_assertion v')) Hok Hc0 Hj Hp) as Hcr.
  cbn [app] in Hcr. rewrite Hm in Hcr. apply Hcr. cbn. rewrite Ht.
  apply list_elem_of_omap. exists (v', Ok p'). split; [|done].
  apply list_elem_of_lookup. exists i. apply lookup_zip_with_Some. exists v', (Ok p').
  rewrite !lookup_take_lt by done. done.
Qed.
End identities.

(** ** Circuits *)

(** The events of one peer among those of all *)
Definition events_of (peer : string) (l : list (string * gate_event)) : list gate_event :=
  omap (λ pe : string * gate_event, if decide (pe.1 = peer) then Some pe.2 else None) l.

Fixpoint run_circuit (l : list (string * gate_event)) (c : circuit_breaker) : list (string * option bool) :=
  match l with
  | [] => []
  | (p, ev) :: l => let '(b, c) := circuit_step p ev c in (p, b) :: run_circuit l c
  end.

Fixpoint run_gate (threshold : Z) (cooldown : float) (l : list gate_event) (g : gate) : list (option bool) :=
  match l with
  | [] => []
  | ev :: l => let '(b, g) := gate_step threshold cooldown ev g in b :: run_gate threshold cooldown l g
  end.

Definition answers_to (peer : string) (l : list (string * option bool)) : list (option bool) :=
  omap (λ pb : string * option bool, if decide (pb.1 = peer) then Some pb.2 else None) l.

Lemma run_circuit_gates l peer : ∀ c,
  circuit_sound c →
  answers_to peer (run_circuit l c)
  = run_gate (cb_failure_threshold c) (cb_cooldown_seconds c) (events_of peer l) (gate_of c peer).
Proof.
  induction l as [|[p ev] l IH]; intros c Hc; [done|]. cbn [run_circuit].
  pose proof (circuit_step_gate p ev c Hc) as H. destruct (circuit_step p ev c) as [b c'].
  destruct H as (Hc' & Ht & Hd & Hg & Ho). unfold answers_to, events_of. cbn.
  destruct (decide (p = peer)) as [->|Hne]; cbn.
  - rewrite <- Hg. f_equal. rewrite <- Ht, <- Hd. by apply IH.
  - rewrite <- Ho, <- Ht, <- Hd by done. by apply IH.
Qed.

(** The circuit breaker answers the events of each peer as an automaton of that peer alone: shut
    after the threshold of failures in a row, until the cooldown has passed since it opened; then
    one failure shuts it again. *)
Theorem circuit_refines_gates threshold cooldown c l peer :
  new_CircuitBreaker threshold cooldown = Ok c →
  answers_to peer (run_circuit l c) = run_gate threshold cooldown (events_of peer l) (Closed 0).
Proof.
  intros H. destruct (new_circuit_sound _ _ _ H) as [Hc Hg]. rewrite run_circuit_gates by done. rewrite Hg.
  unfold new_CircuitBreaker in H. by py_inv.
Qed.

(** ** Documents *)

(** [digest_value] answers exactly for documents of nesting at most 12 whose numbers are finite,
    whose arrays hold at most 256 items and whose objects at most 128 members, whose keys have at
    most 128 characters and whose texts at most 16384, without control characters; and it then
    binds the document: equal digests are equal documents up to the order of keys, or a collision. *)
Theorem digests_bind_bounded_documents v v' d :
  (digest_value v = Ok d ↔
   json_depth v ≤ 12 ∧ json_finite v = true ∧ json_narrow v = true ∧ d = json_digest v) ∧
  (json_wf v = true → json_wf v' = true → digest_value v = Ok d → digest_value v' = Ok d →
   jnorm v = jnorm v' ∨ collides (canonical_json v) (canonical_json v')).
Proof.
  split.
  - rewrite digest_value_ok. unfold document_ok. rewrite !andb_true_iff, Z.leb_le. tauto.
  - intros W W' (_ & H)%digest_value_ok (_ & H')%digest_value_ok. rewrite H in H'.
    apply json_digest_inj in H' as [?|?]; [by right|by left|done..].
Qed.
End theorems.

(** ** Witnesses *)

Section witnesses.
#[local] Existing Instance demo_digest.
#[local] Existing Instance demo_digest_laws.

(** The reviewed entry, the task and the answer of the demonstration run *)
Definition demo_peer : TrustEntry :=
  reviewed demo_entry TS_ACTIVE "operator-1" demo_time
    (json_digest (change_document demo_entry "operator-1" TS_ACTIVE)).

Definition demo_task : TaskContract :=
  {| tk_task_id := "interop-task-op-1"; tk_protocol := PK_A2A; tk_peer_id := "peer-1";
     tk_capability_id := "investigate-1"; tk_tenant_ref := "tenant-a"; tk_principal_ref := "principal-1";
     tk_purpose := "incident-response"; tk_request_digest := json_digest (message_json demo_message);
     tk_idempotency_key_digest := json_digest (JStr "key-1"); tk_policy_digest := digest_of "b";
     tk_trust_revision := 2; tk_fence_token := "interop-fence-op-1-1"; tk_state := TA_SUBMITTED;
     tk_created_at := demo_time; tk_updated_at := demo_time; tk_expires_at := in_an_hour;
     tk_result_digest := None; tk_error_code := None |}.

Definition demo_answer : res peer_result := Ok (status_of TA_COMPLETED, [demo_artifact "op-1"]).

Lemma demo_active :
  require_active demo_registry "peer-1" PK_A2A "investigate-1" RLow DC_INTERNAL demo_time = Ok demo_peer.
Proof. vm_compute. reflexivity. Qed.

Lemma trust_needs_review_witness : vouched demo_trust "peer-1" demo_peer.
Proof.
  pose proof (trust_needs_review demo_trust "peer-1" PK_A2A "investigate-1" RLow DC_INTERNAL demo_time _ demo_active) as Hw.
  apply Hw.
Defined.

Lemma demo_quota_new : new_InvocationQuota 2 10 = Ok demo_quota.
Proof. reflexivity. Qed.

Lemma demo_sent : iw_log demo_run.2 !! 1%nat = Some (O, Sent demo_peer demo_task demo_message demo_answer).
Proof. vm_compute. reflexivity. Qed.

Lemma external_calls_are_sanctioned_witness :
  (O, Sent demo_peer demo_task demo_message demo_answer) ∈ iw_log demo_run.2 ∧
  ∃ a, demo_calls !! O = Some (InvokeCall a) ∧ vouched (demo_trust ++ operator_ops demo_turns) (iv_peer_id a) demo_peer.
Proof.
  assert (Hin : (O, Sent demo_peer demo_task demo_message demo_answer) ∈ iw_log demo_run.2)
    by (eapply list_elem_of_lookup_2, demo_sent).
  split; [exact Hin|].
  pose proof (external_calls_are_sanctioned demo_calls demo_trust 2 10 demo_quota demo_circuit demo_turns O
    demo_peer demo_task demo_message demo_answer demo_quota_new Hin) as (a & _ & _ & _ & H1 & _ & _ & _ & _ & _ & _ & H2 & _).
  by exists a.
Defined.

Lemma external_calls_happen_once_witness :
  sent_count demo_run.2 = 1%nat ∧ ∀ k, tk_task_id demo_task = "interop-task-op-1" →
    iw_log demo_run.2 !! k = Some (O, Sent demo_peer demo_task demo_message demo_answer) → k = 1%nat.
Proof.
  split; [vm_compute; reflexivity|]. intros k _ Hk. pose proof demo_sent as Hs.
  exact (external_calls_happen_once demo_calls demo_trust 2 10 demo_quota demo_circuit demo_turns k 1 O O
    _ _ _ _ _ _ _ _ demo_quota_new Hk Hs eq_refl).
Defined.

Definition demo_result : InvocationResult :=
  {| ir_task := task_with TA_COMPLETED demo_time
       (Some (json_digest (result_document (status_of TA_COMPLETED) [demo_artifact "op-1"]))) demo_task;
     ir_status := status_of TA_COMPLETED; ir_artifacts := [demo_artifact "op-1"]; ir_replayed := false |}.

Lemma demo_returns : demo_run.1 !! O = Some (Return demo_result).
Proof. vm_compute. reflexivity. Qed.

Lemma completed_results_are_checked_witness :
  ∃ peer task d,
    (O, Sent peer task (iv_message (demo_invoke "op-1")) (Ok (ir_status demo_result, ir_artifacts demo_result)))
      ∈ iw_log demo_run.2 ∧
    digest_value (result_document (ir_status demo_result) (ir_artifacts demo_result)) = Ok d.
Proof.
  pose proof demo_returns as Hr.
  pose proof (completed_results_are_checked demo_calls demo_trust 2 10 demo_quota demo_circuit demo_turns O
    (demo_invoke "op-1") demo_result demo_quota_new eq_refl Hr eq_refl eq_refl)
    as (peer & task & d & H1 & _ & _ & _ & _ & _ & H2 & _).
  exists peer, task, d. exact (conj H1 H2).
Defined.

Lemma interop_quota_is_kept_witness :
  usage (iw_quota demo_run.2) "tenant-a" = (1, 2) ∧ (usage (iw_quota demo_run.2) "tenant-a").2 ≤ 10.
Proof.
  split; [vm_compute; reflexivity|].
  pose proof (interop_quota_is_kept demo_calls demo_trust 2 10 demo_quota demo_circuit demo_turns "tenant-a" demo_quota_new) as Hw.
  apply Hw.
Defined.

(** A policy and three assertions, the first and the last with one token *)
Definition demo_identity_policy : WorkloadIdentityPolicy :=
  {| wp_audience := "aegis"; wp_allowed_issuer_digests := [digest_of "1"]; wp_required_scopes := ["invoke"];
     wp_allowed_purposes := ["incident-response"]; wp_maximum_lifetime_seconds := 3600;
     wp_require_mutual_tls := true; wp_allowed_principals := ["principal-1"] |}.

Definition demo_validation (token : ascii) (lifetime : Z) : validation :=
  {| va_assertion :=
       {| wa_principal_ref := "principal-1"; wa_issuer_digest := digest_of "1"; wa_audience := "aegis";
          wa_scopes := ["invoke"]; wa_tenant_ref := "tenant-a"; wa_purpose := "incident-response";
          wa_token_id_digest := digest_of token; wa_proof_digest := digest_of "2";
          wa_confirmation_digest := digest_of "3"; wa_issued_at := demo_time;
          wa_expires_at := demo_time + seconds lifetime |};
     va_tenant := "tenant-a"; va_purpose := "incident-response"; va_binding := digest_of "3";
     va_now := demo_time |}.

Definition demo_validations : list validation :=
  [demo_validation "a" 60; demo_validation "b" 600; demo_validation "a" 60].

Definition demo_cache : memory_cache := {| mc_maximum_entries := 1; mc_entries := [] |}.

Lemma assertions_are_used_once_witness :
  ∃ D : list (string * datetime), 1 ≤ zlen D ∧ ∀ d, d ∈ D → demo_time + seconds 60 ≤ d.2.
Proof.
  assert (Hok : Forall (λ v, WorkloadIdentityAssertion_ok (va_assertion v) = true) demo_validations)
    by (repeat constructor; vm_compute; reflexivity).
  assert (Hruns : (run_validations demo_identity_policy false false demo_validations demo_cache).1
    = (λ v, Ok (principal_of v)) <$> demo_validations) by (vm_compute; reflexivity).
  pose proof (assertions_are_used_once demo_identity_policy false false 1 demo_cache demo_validations 0 2
    (demo_validation "a" 60) (demo_validation "a" 60) (principal_of (demo_validation "a" 60))
    (principal_of (demo_validation "a" 60)) eq_refl Hok ltac:(lia) eq_refl eq_refl
    ltac:(rewrite Hruns; reflexivity) ltac:(rewrite Hruns; reflexivity)) as (_ & _ & Hw).
  destruct (Hw eq_refl) as (D & _ & Hn & HD). exists D. split; [exact Hn|]. intros d Hd. by apply HD.
Defined.

Lemma circuit_refines_gates_witness :
  answers_to "peer-1"
    (run_circuit [("peer-1", Record false f_zero); ("peer-2", Allow f_zero); ("peer-1", Record false f_zero);
                  ("peer-1", Allow f_one); ("peer-1", Allow (float_of_int 60)); ("peer-1", Record false f_two);
                  ("peer-1", Allow f_two)]
       {| cb_failure_threshold := 2; cb_cooldown_seconds := float_of_int 30; cb_failures := ∅; cb_opened_at := ∅ |})
  = [None; None; Some false; Some true; None; Some false].
Proof.
  etransitivity; [apply (circuit_refines_gates 2 (float_of_int 30)); vm_compute; reflexivity|].
  vm_compute. reflexivity.
Defined.
End witnesses.
