(* ===== verification/Investigation.v ===== *)
(** * Investigation data and correlation (the rest of [domain.py], [safety.py], [correlation.py])

    What the specialists, the critic and the planner exchange, the state of the graph with its
    reducers, and the numbers of facts: ints, floats and bools compare by exact value.  Then the
    view of evidence the models get, the detection of injected instructions, the check of a
    citation, and the deterministic timeline with its links and conflicts. *)

From Stdlib Require Import Floats.SpecFloat.
From S2P Require Import Prelude PyJson PyTime PyText PyFloat PyModel Domain RemediationData Evidence.

(** ** Orders *)

(** [key=lambda x: (k(x), ...)]: the first component that differs decides. *)
Definition then_by {A K} `{!EqDecision K} (key : A → K) (leb : K → K → bool) (next : A → A → bool)
    (a b : A) : bool :=
  if decide (key a = key b) then next a b else leb (key a) (key b).
Definition by_key {A K} (key : A → K) (leb : K → K → bool) (a b : A) : bool := leb (key a) (key b).

(** [{k(x): x for x in l}.values()]: a later value takes the place of an earlier one. *)
Definition dict_of {K A} `{!EqDecision K} (key : A → K) (l : list A) : list (K * A) :=
  foldl (λ d x, dict_set (key x) x d) [] l.

(** ** Numbers *)

Definition dec_value (s : string) : Z :=
  (fix go s acc := match s with "" => acc | String c s => go s (10 * acc + (char_code c - 48)) end) s 0.

(** [float(r)] on what [repr] prints of a float *)
Definition float_of_repr (r : string) : float :=
  let '(neg, r) := match r with String "-" t => (true, t) | _ => (false, r) end in
  if decide (r = "inf") then S754_infinity neg
  else if decide (r = "nan") then S754_nan
  else
    let '(ip, r) := span is_digit r in
    let '(fp, r) := match r with String "." t => span is_digit t | _ => ("", r) end in
    let e := match r with
             | String "e" (String "-" t) => - dec_value t
             | String "e" (String "+" t) => dec_value t
             | String "e" t => dec_value t
             | _ => 0
             end in
    let m := dec_value (ip +:+ fp) in
    let x := e - str_len fp in
    let f := if 0 <=? x then float_of_int (m * 10 ^ x) else int_truediv m (10 ^ (- x)) in
    if neg then fopp f else f.

(** The number a fact stands for in a comparison *)
Definition fact_number (v : json) : option number :=
  match v with
  | JBool b => Some (Dyadic (Z.b2z b) 0)
  | JInt z => Some (Dyadic z 0)
  | JFloat r => Some (number_of_float (float_of_repr r))
  | _ => None
  end.

Definition number_leb (a b : number) : bool :=
  match number_compare a b with Some Lt | Some Eq => true | _ => false end.

(** [a == b] on facts *)
Definition fact_eqb (a b : json) : bool :=
  match fact_number a, fact_number b with
  | Some x, Some y => bool_decide (number_compare x y = Some Eq)
  | None, None => bool_decide (a = b)
  | _, _ => false
  end.

(** [isinstance(v, (int, float)) and not isinstance(v, bool)] *)
Definition plain_number (v : option json) : option number :=
  match v with Some (JInt _ as v) | Some (JFloat _ as v) => fact_number v | _ => None end.

(** The nearest integer, a tie to the even one *)
Definition round_half_even (n d : Z) : Z :=
  let q := n / d in
  let r := 2 * (n mod d) in
  if (r <? d) || ((r =? d) && Z.even q) then q else q + 1.

(** [f * 10 ^ k], rounded to an integer; [f] is finite. *)
Definition scaled (m e k : Z) : Z :=
  round_half_even (m * 2 ^ Z.max 0 e * 10 ^ Z.max 0 k) (2 ^ Z.max 0 (- e) * 10 ^ Z.max 0 (- k)).

(** [round(f, 2)]: the nearest two-decimal number, then the nearest float *)
Definition round2 (f : float) : float :=
  match f with
  | S754_finite b m e =>
      let r := int_truediv (scaled (Zpos m) e 2) 100 in if b then fopp r else r
  | _ => f
  end.

(** [format(f, ".12g")]: twelve significant digits without trailing zeros.  The exponent is
    found from a lower estimate in at most four steps. *)
Fixpoint decimal_exponent (fuel : nat) (m e x : Z) : Z :=
  match fuel with
  | O => x
  | S n => if 10 ^ 12 <=? scaled m e (11 - x) then decimal_exponent n m e (x + 1) else x
  end.

Definition strip_zeros (s : string) : string := rstrip_chars (λ c, bool_decide (c = "0"%char)) s.

Definition with_fraction (whole fraction : string) : string :=
  match strip_zeros fraction with "" => whole | f => whole +:+ "." +:+ f end.

Definition format_12g (f : float) : string :=
  match f with
  | S754_zero b => if b then "-0" else "0"
  | S754_infinity b => if b then "-inf" else "inf"
  | S754_nan => "nan"
  | S754_finite b p e =>
      let x := decimal_exponent 4 (Zpos p) e ((Z.log2 (Zpos p) + e) * 30103 / 100000 - 1) in
      let digits := str_of_int (scaled (Zpos p) e (11 - x)) in
      (if b then "-" else "") +:+
      (if (-4 <=? x) && (x <? 12) then
         if 0 <=? x then with_fraction (str_take (Z.to_nat (x + 1)) digits) (str_drop (Z.to_nat (x + 1)) digits)
         else with_fraction "0" (str_repeat (Z.to_nat (- x - 1)) "0" +:+ digits)
       else
         with_fraction (str_take 1 digits) (str_drop 1 digits) +:+ "e"
         +:+ (if x <? 0 then "-" else "+") +:+ (if Z.abs x <? 10 then "0" else "") +:+ str_of_int (Z.abs x))
  end.

Example format_tenth : format_12g (float_of_repr "0.1") = "0.1".
Proof. vm_compute. reflexivity. Qed.
Example format_small : format_12g (float_of_repr "-1.2345678901234e-07") = "-1.23456789012e-07".
Proof. vm_compute. reflexivity. Qed.
Example format_large : format_12g (float_of_repr "999999999999.9") = "1e+12".
Proof. vm_compute. reflexivity. Qed.
Example format_whole : format_12g (float_of_repr "120.0") = "120".
Proof. vm_compute. reflexivity. Qed.
Example round_tie : feqb (round2 (float_of_repr "2.675")) (float_of_repr "2.67") = true.
Proof. vm_compute. reflexivity. Qed.

(** ** Enumerations *)

Inductive Specialist := SP_TELEMETRY | SP_CHANGE | SP_RUNTIME | SP_KNOWLEDGE.
#[export] Instance Specialist_eq_dec : EqDecision Specialist.
Proof. solve_decision. Defined.
Definition specialist_value (s : Specialist) : string :=
  match s with
  | SP_TELEMETRY => "telemetry" | SP_CHANGE => "change"
  | SP_RUNTIME => "runtime" | SP_KNOWLEDGE => "knowledge"
  end.

Inductive InvestigationStatus := IS_COMPLETE | IS_ABSTAINED | IS_DENIED | IS_CANCELLED.
#[export] Instance InvestigationStatus_eq_dec : EqDecision InvestigationStatus.
Proof. solve_decision. Defined.
Definition investigation_status_value (s : InvestigationStatus) : string :=
  match s with
  | IS_COMPLETE => "complete" | IS_ABSTAINED => "abstained"
  | IS_DENIED => "denied" | IS_CANCELLED => "cancelled"
  end.

Inductive CriticDecision := CD_ACCEPTED | CD_ABSTAINED | CD_REJECTED.
#[export] Instance CriticDecision_eq_dec : EqDecision CriticDecision.
Proof. solve_decision. Defined.
Definition critic_decision_value (d : CriticDecision) : string :=
  match d with CD_ACCEPTED => "accepted" | CD_ABSTAINED => "abstained" | CD_REJECTED => "rejected" end.

Inductive CorrelationStatus := CS_COMPLETE | CS_PARTIAL | CS_CONFLICTED | CS_STALE.
#[export] Instance CorrelationStatus_eq_dec : EqDecision CorrelationStatus.
Proof. solve_decision. Defined.

(** ** Evidence as the model sees it *)

Record ModelEvidence := {
  me_evidence_id : string;
  me_kind : EvidenceKind;
  me_locator : string;
  me_content_hash : string;
  me_facts : payload;
  me_provenance_digest : option string;
  me_source_id : option string;
  me_query_id : option string;
  me_page_number : option Z
}.

Definition ModelEvidence_ok (e : ModelEvidence) : bool :=
  Identifier (me_evidence_id e) && length_between 1 512 (me_locator e)
  && is_sha256_hex (me_content_hash e)
  && count_range 1 32 (me_facts e) && forallb (λ kv, fact_value_ok kv.2) (me_facts e)
  && opt_ok is_sha256_hex (me_provenance_digest e) && opt_Identifier (me_source_id e)
  && opt_Identifier (me_query_id e) && opt_ok (in_range 1 100) (me_page_number e)
  && all_or_none [bool_decide (is_Some (me_provenance_digest e)); bool_decide (is_Some (me_source_id e));
                  bool_decide (is_Some (me_query_id e)); bool_decide (is_Some (me_page_number e))].

Definition new_ModelEvidence (e : ModelEvidence) : res ModelEvidence :=
  validated ModelEvidence_ok "ModelEvidence" e.

#[export] Instance Citation_eq_dec : EqDecision Citation.
Proof. solve_decision. Defined.

Definition new_Citation (c : Citation) : res Citation := validated Citation_ok "Citation" c.

(** ** Correlation *)

Record TimelineEvidenceEvent := {
  tl_event_id : string;
  tl_occurred_at : datetime;
  tl_kind : EvidenceKind;
  tl_statement : string;
  tl_citations : list Citation
}.

Definition TimelineEvidenceEvent_ok (t : TimelineEvidenceEvent) : bool :=
  Identifier (tl_event_id t) && length_between 1 512 (tl_statement t) && count_range 1 16 (tl_citations t).

Inductive link_relation := LR_temporal_proximity | LR_shared_fact.
#[export] Instance link_relation_eq_dec : EqDecision link_relation.
Proof. solve_decision. Defined.
Definition relation_value (r : link_relation) : string :=
  match r with LR_temporal_proximity => "temporal_proximity" | LR_shared_fact => "shared_fact" end.

Record EvidenceLink := {
  lk_link_id : string;
  lk_relation : link_relation;
  lk_left_evidence_id : string;
  lk_right_evidence_id : string;
  lk_fact_key : option string;
  lk_distance_seconds : option Z
}.

Definition EvidenceLink_ok (l : EvidenceLink) : bool :=
  Identifier (lk_link_id l) && Identifier (lk_left_evidence_id l) && Identifier (lk_right_evidence_id l)
  && opt_Identifier (lk_fact_key l) && opt_ok (in_range 0 604800) (lk_distance_seconds l).

Record EvidenceConflict := {
  cf_conflict_id : string;
  cf_fact_key : string;
  cf_values : list string;
  cf_citations : list Citation
}.

Definition EvidenceConflict_ok (c : EvidenceConflict) : bool :=
  Identifier (cf_conflict_id c) && Identifier (cf_fact_key c)
  && count_range 2 16 (cf_values c) && forallb (length_between 0 512) (cf_values c)
  && count_range 2 32 (cf_citations c).

Record CorrelationContext := {
  cc_status : CorrelationStatus;
  cc_timeline : list TimelineEvidenceEvent;
  cc_links : list EvidenceLink;
  cc_conflicts : list EvidenceConflict;
  cc_missing_sources : list EvidenceKind;
  cc_stale_sources : list EvidenceKind
}.

Definition CorrelationContext_ok (c : CorrelationContext) : bool :=
  count_range 0 1000 (cc_timeline c) && count_range 0 2000 (cc_links c) && count_range 0 1000 (cc_conflicts c)
  && count_range 0 16 (cc_missing_sources c) && count_range 0 16 (cc_stale_sources c).

(** ** Findings, hypotheses, verdicts, proposals *)

Record SpecialistTask := {
  sk_tenant_id : string;
  sk_run_id : string;
  sk_incident_id : string;
  sk_specialist : Specialist;
  sk_evidence : list ModelEvidence;
  sk_correlation : option CorrelationContext
}.

Definition SpecialistTask_ok (t : SpecialistTask) : bool :=
  forallb Identifier [sk_tenant_id t; sk_run_id t; sk_incident_id t].

Record SpecialistFinding := {
  fd_finding_id : string;
  fd_specialist : Specialist;
  fd_statement : string;
  fd_cause_code : option string;
  fd_confidence : float;
  fd_citations : list Citation;
  fd_abstained : bool;
  fd_reason : option string
}.

(** An abstention claims nothing; anything else names a cause and cites. *)
Definition abstention_bound (abstained : bool) (cause : option string) (citations : list Citation)
    (confidence : float) : bool :=
  if abstained then
    bool_decide (cause = None) && bool_decide (citations = []) && feqb confidence f_zero
  else bool_decide (is_Some cause) && negb (bool_decide (citations = [])).

Definition SpecialistFinding_ok (f : SpecialistFinding) : bool :=
  Identifier (fd_finding_id f) && length_between 1 1000 (fd_statement f) && opt_Identifier (fd_cause_code f)
  && unit_interval (fd_confidence f)
  && count_range 0 16 (fd_citations f) && forallb Citation_ok (fd_citations f)
  && opt_ok (length_between 0 256) (fd_reason f)
  && abstention_bound (fd_abstained f) (fd_cause_code f) (fd_citations f) (fd_confidence f).

(** With [normalize_citations] *)
Definition new_SpecialistFinding (f : SpecialistFinding) : res SpecialistFinding :=
  validated SpecialistFinding_ok "SpecialistFinding" f;;
  Ok {| fd_finding_id := fd_finding_id f; fd_specialist := fd_specialist f; fd_statement := fd_statement f;
        fd_cause_code := fd_cause_code f; fd_confidence := fd_confidence f;
        fd_citations := py_sorted (by_key ci_evidence_id str_leb) (fd_citations f);
        fd_abstained := fd_abstained f; fd_reason := fd_reason f |}.

(** [Hypothesis], a word Rocq reserves *)
Record Hypothesis_ := {
  hy_hypothesis_id : string;
  hy_rank : Z;
  hy_statement : string;
  hy_cause_code : string;
  hy_confidence : float;
  hy_citations : list Citation
}.

Definition Hypothesis_ok (h : Hypothesis_) : bool :=
  Identifier (hy_hypothesis_id h) && in_range 1 10 (hy_rank h) && length_between 1 1000 (hy_statement h)
  && Identifier (hy_cause_code h) && unit_interval (hy_confidence h) && count_range 1 64 (hy_citations h).

Definition new_Hypothesis (h : Hypothesis_) : res Hypothesis_ := validated Hypothesis_ok "Hypothesis" h.

Record CriticVerdict := {
  cv_decision : CriticDecision;
  cv_reasons : list string;
  cv_checked_citations : Z;
  cv_contradictions : list string;
  cv_injection_contained : bool
}.

Definition CriticVerdict_ok (v : CriticVerdict) : bool :=
  count_range 0 16 (cv_reasons v) && (0 <=? cv_checked_citations v) && count_range 0 64 (cv_contradictions v).

Definition new_CriticVerdict (v : CriticVerdict) : res CriticVerdict :=
  validated CriticVerdict_ok "CriticVerdict" v.

Record RemediationProposal := {
  pp_proposal_id : string;
  pp_target : string;
  pp_rationale : string
}.
#[export] Instance RemediationProposal_eq_dec : EqDecision RemediationProposal.
Proof. solve_decision. Defined.

Definition RemediationProposal_ok (p : RemediationProposal) : bool :=
  Identifier (pp_proposal_id p) && Identifier (pp_target p) && length_between 1 1000 (pp_rationale p).

Definition new_RemediationProposal (p : RemediationProposal) : res RemediationProposal :=
  validated RemediationProposal_ok "RemediationProposal" p.

Record NodeError := { nd_node : string; nd_code : string }.
#[export] Instance NodeError_eq_dec : EqDecision NodeError.
Proof. solve_decision. Defined.

Definition NodeError_ok (e : NodeError) : bool := Identifier (nd_node e) && Identifier (nd_code e).
Definition new_NodeError (e : NodeError) : res NodeError := validated NodeError_ok "NodeError" e.

(** *** Their documents *)

Section documents.
Context {HFloat : FloatJson}.

Definition finding_document (f : SpecialistFinding) : payload :=
  [("finding_id", JStr (fd_finding_id f)); ("specialist", JStr (specialist_value (fd_specialist f)));
   ("statement", JStr (fd_statement f)); ("cause_code", opt_json (fd_cause_code f));
   ("confidence", float_json (fd_confidence f)); ("citations", JList (citation_json <$> fd_citations f));
   ("abstained", JBool (fd_abstained f)); ("reason", opt_json (fd_reason f))].

Definition hypothesis_json (h : Hypothesis_) : json :=
  JObj [("hypothesis_id", JStr (hy_hypothesis_id h)); ("rank", JInt (hy_rank h));
        ("statement", JStr (hy_statement h)); ("cause_code", JStr (hy_cause_code h));
        ("confidence", float_json (hy_confidence h)); ("citations", JList (citation_json <$> hy_citations h))].

Definition proposal_json (p : RemediationProposal) : json :=
  JObj [("proposal_id", JStr (pp_proposal_id p)); ("action", JStr "rollback_candidate");
        ("target", JStr (pp_target p)); ("rationale", JStr (pp_rationale p)); ("risk", JStr "medium");
        ("requires_approval", JBool true)].
End documents.

(** ** Reducers of the graph state *)

Definition finding_leb : SpecialistFinding → SpecialistFinding → bool :=
  then_by (λ f, specialist_value (fd_specialist f)) str_leb (by_key fd_finding_id str_leb).

Definition merge_findings (left right : list SpecialistFinding) : list SpecialistFinding :=
  py_sorted finding_leb (dict_of fd_finding_id (left ++ right)).*2.

Definition error_leb : NodeError → NodeError → bool := then_by nd_node str_leb (by_key nd_code str_leb).

Definition merge_node_errors (left right : list NodeError) : list NodeError :=
  py_sorted error_leb (dict_of (λ e, (nd_node e, nd_code e)) (left ++ right)).*2.

Definition merge_cancelled (left right : bool) : bool := left || right.

(** ** Content hashes *)

Section hashes.
Context {HDigest : Digest}.

(** [f"{key}={facts[key]!r}"] for each key in order *)
Definition canonical_facts (facts : payload) : string :=
  str_join "|" ((λ kv, kv.1 +:+ "=" +:+ py_repr kv.2) <$> py_sorted key_leb facts).

Definition nul : string := String "000" "".

Definition evidence_hash (tenant_id : string) (kind : EvidenceKind) (locator : string)
    (observed_at : datetime) (facts : payload) : string :=
  hexdigest (utf8 (tenant_id +:+ nul +:+ evidence_kind_value kind +:+ nul +:+ locator +:+ nul
                   +:+ isoformat observed_at +:+ nul +:+ canonical_facts facts)).
End hashes.

(** ** [safety.py] *)

Definition words (s : string) : regex := RSeqs [RBoundary; RLit caseless s; RBoundary].

Definition _INJECTION_PATTERNS : list regex :=
  [RSeqs [RBoundary; RLit caseless "ignore "; ROpt (RAny [RLit caseless "all "; RLit caseless "any "]);
          RAny [RLit caseless "prior"; RLit caseless "previous"; RLit caseless "system"];
          RLit caseless " instruction"; ROpt (RLit caseless "s"); RBoundary];
   words "system prompt"; words "developer message"; words "tool call";
   RSeqs [RBoundary; RLit caseless "exfiltrat"; RAny [RLit caseless "e"; RLit caseless "ion"]; RBoundary]].

Definition _ALLOWED_FACTS (kind : EvidenceKind) : list string :=
  match kind with
  | EK_TELEMETRY => ["metric"; "value"; "baseline"; "threshold"; "region"; "error_code"; "sample_count"; "count";
                     "involved_kind"; "involved_name"; "namespace"; "reason"; "timestamp"; "type"]
  | EK_CHANGE => ["service"; "version"; "minutes_before_alert"; "change_id"; "deployment"; "environment"; "sha";
                  "status"; "timestamp"]
  | EK_RUNBOOK => ["action"; "condition"; "owner"; "service"; "title"; "version"]
  end.

Definition text_values (facts : payload) : list string :=
  omap (λ kv : string * json, match kv.2 with JStr s => Some s | _ => None end) facts.

Definition contains_prompt_injection (e : Evidence) : bool :=
  let material := str_join (String newline "")
                    (ev_summary e :: option_list (ev_untrusted_text e) ++ text_values (ev_facts e)) in
  existsb (λ pattern, re_search pattern material) _INJECTION_PATTERNS.

Definition safe_facts (kind : EvidenceKind) (facts : payload) : payload :=
  List.filter (λ kv, bool_decide (kv.1 ∈ _ALLOWED_FACTS kind)) (py_sorted key_leb facts).

Definition model_view (e : Evidence) : res ModelEvidence :=
  new_ModelEvidence
    {| me_evidence_id := ev_evidence_id e; me_kind := ev_kind e; me_locator := ev_locator e;
       me_content_hash := ev_content_hash e; me_facts := safe_facts (ev_kind e) (ev_facts e);
       me_provenance_digest := ev_provenance_digest e; me_source_id := ev_source_id e;
       me_query_id := ev_query_id e; me_page_number := ev_page_number e |}.

Definition evidence_by_id : Evidence → Evidence → bool := by_key ev_evidence_id str_leb.

Definition prepare_model_evidence (evidence : list Evidence) : res (list ModelEvidence * bool) :=
  let ordered := py_sorted evidence_by_id evidence in
  projected ← traverse model_view ordered;
  Ok (projected, existsb contains_prompt_injection ordered).

Definition citation_is_valid (c : Citation) (evidence : list Evidence) : bool :=
  match dict_get (ci_evidence_id c) (dict_of ev_evidence_id evidence) with
  | Some expected =>
      bool_decide (ci_locator c = ev_locator expected)
      && bool_decide (ci_content_hash c = ev_content_hash expected)
      && bool_decide (ci_provenance_digest c = ev_provenance_digest expected)
      && bool_decide (ci_source_id c = ev_source_id expected)
      && bool_decide (ci_query_id c = ev_query_id expected)
      && bool_decide (ci_page_number c = ev_page_number expected)
  | None => false
  end.

(** ** [correlation.py] *)

Definition _REQUIRED_SOURCES : list EvidenceKind := [EK_TELEMETRY; EK_CHANGE; EK_RUNBOOK].
Definition _FRESHNESS (kind : EvidenceKind) : Z :=
  match kind with EK_TELEMETRY => hours 1 | EK_CHANGE => us_per_day | EK_RUNBOOK => 30 * us_per_day end.
Definition _SHARED_FACT_KEYS : list string := ["region"; "service"; "status"; "version"].
Definition _CONFLICT_FACT_KEYS : list string :=
  ["change_id"; "error_code"; "region"; "service"; "status"; "version"].

Definition fact_text (v : json) : string :=
  match v with
  | JBool b => if b then "true" else "false"
  | JFloat r => format_12g (float_of_repr r)
  | _ => str_take 512 (py_str v)
  end.

Definition plain_citation (e : Evidence) : res Citation :=
  new_Citation
    {| ci_evidence_id := ev_evidence_id e; ci_locator := ev_locator e; ci_content_hash := ev_content_hash e;
       ci_provenance_digest := None; ci_source_id := None; ci_query_id := None; ci_page_number := None |}.

Definition kind_leb : EvidenceKind → EvidenceKind → bool := by_key evidence_kind_value str_leb.

Definition timeline_leb : Evidence → Evidence → bool :=
  then_by ev_observed_at Z.leb (then_by (λ e, evidence_kind_value (ev_kind e)) str_leb evidence_by_id).

Definition sorted_kinds (l : list EvidenceKind) : list EvidenceKind := py_sorted kind_leb (remove_dups l).

Definition link_leb : EvidenceLink → EvidenceLink → bool :=
  then_by (λ l, relation_value (lk_relation l)) str_leb
    (then_by lk_left_evidence_id str_leb
       (then_by lk_right_evidence_id str_leb (by_key (λ l, default "" (lk_fact_key l)) str_leb))).

(** The items with the items after them *)
Fixpoint with_later {A} (l : list A) : list (A * A) :=
  match l with [] => [] | x :: l => (pair x <$> l) ++ with_later l end.

(** One evidence item under each of its conflict keys: [grouped[(kind, key)][text].append(item)] *)
Definition grouping := list ((EvidenceKind * string) * list (string * list Evidence)).

Definition add_to_group (g : grouping) (kind : EvidenceKind) (key text : string) (e : Evidence) : grouping :=
  let values := default [] (dict_get (kind, key) g) in
  dict_set (kind, key) (dict_set text (default [] (dict_get text values) ++ [e]) values) g.

Definition grouped (evidence : list Evidence) : grouping :=
  foldl (λ g e,
    foldl (λ g (kv : string * json),
      if negb (bool_decide (kv.1 ∈ _CONFLICT_FACT_KEYS)) || bool_decide (kv.2 = JNull) then g
      else add_to_group g (ev_kind e) kv.1 (fact_text kv.2) e) g (ev_facts e)) [] evidence.

Definition group_leb {V} : (EvidenceKind * string) * V → (EvidenceKind * string) * V → bool :=
  then_by (λ g, evidence_kind_value g.1.1) str_leb (by_key (λ g, g.1.2) str_leb).

Section correlation.
Context {HDigest : Digest}.

Definition proximity_link (left right : Evidence) (distance : Z) : EvidenceLink :=
  {| lk_link_id := stable_id "link" ["temporal_proximity"; ev_evidence_id left; ev_evidence_id right] 24;
     lk_relation := LR_temporal_proximity; lk_left_evidence_id := ev_evidence_id left;
     lk_right_evidence_id := ev_evidence_id right; lk_fact_key := None; lk_distance_seconds := Some distance |}.

Definition fact_link (left right : Evidence) (key : string) : EvidenceLink :=
  {| lk_link_id := stable_id "link" ["shared_fact"; key; ev_evidence_id left; ev_evidence_id right] 24;
     lk_relation := LR_shared_fact; lk_left_evidence_id := ev_evidence_id left;
     lk_right_evidence_id := ev_evidence_id right; lk_fact_key := Some key; lk_distance_seconds := None |}.

(** The keys on which two items agree *)
Definition shared_keys (left right : Evidence) : list string :=
  List.filter (λ key, match dict_get key (ev_facts left), dict_get key (ev_facts right) with
                      | Some l, Some r => negb (bool_decide (l = JNull)) && fact_eqb l r
                      | _, _ => false
                      end) _SHARED_FACT_KEYS.

(** The links between two items, in the order they are made.  Seconds are truncated; the pairs
    are in order of time. *)
Definition pair_links (proximity : Z) (left right : Evidence) : list EvidenceLink :=
  if decide (ev_evidence_id left = ev_evidence_id right) then []
  else
    let distance := Z.abs (ev_observed_at right - ev_observed_at left) / us_per_second in
    (if distance <=? proximity / us_per_second then [proximity_link left right distance] else [])
    ++ (fact_link left right <$> shared_keys left right).

Definition _links (evidence : list Evidence) (proximity : Z) : res (list EvidenceLink) :=
  links ← traverse (validated EvidenceLink_ok "EvidenceLink")
            (with_later evidence ≫= λ p, pair_links proximity p.1 p.2);
  Ok (py_sorted link_leb (dict_of lk_link_id links).*2).

Definition conflict_of (g : (EvidenceKind * string) * list (string * list Evidence)) : res EvidenceConflict :=
  let '((kind, key), values) := g in
  let texts := py_sorted str_leb values.*1 in
  let cited := dict_of ev_evidence_id (concat values.*2) in
  citations ← traverse plain_citation (py_sorted evidence_by_id cited.*2);
  validated EvidenceConflict_ok "EvidenceConflict"
    {| cf_conflict_id := stable_id "conflict" (evidence_kind_value kind :: key :: texts) 24;
       cf_fact_key := key; cf_values := texts; cf_citations := citations |}.

Definition _conflicts (evidence : list Evidence) : res (list EvidenceConflict) :=
  traverse conflict_of
    (List.filter (λ g, negb (zlen g.2 <? 2)) (py_sorted group_leb (grouped evidence))).

Definition timeline_event (e : Evidence) : res TimelineEvidenceEvent :=
  c ← plain_citation e;
  validated TimelineEvidenceEvent_ok "TimelineEvidenceEvent"
    {| tl_event_id := stable_id "timeline" [ev_evidence_id e; isoformat (ev_observed_at e)] 24;
       tl_occurred_at := ev_observed_at e; tl_kind := ev_kind e;
       tl_statement := evidence_kind_value (ev_kind e) +:+ " evidence was observed."; tl_citations := [c] |}.

Definition missing_sources (required_sources : list EvidenceKind) (evidence : list Evidence)
    : list EvidenceKind :=
  sorted_kinds (List.filter (λ k, bool_decide (k ∉ ev_kind <$> evidence)) required_sources).

Definition stale_sources (reference_time : datetime) (evidence : list Evidence) : list EvidenceKind :=
  sorted_kinds (ev_kind <$> List.filter (λ e, _FRESHNESS (ev_kind e) <? reference_time - ev_observed_at e) evidence).

Definition correlation_status (conflicts : list EvidenceConflict) (missing stale : list EvidenceKind)
    : CorrelationStatus :=
  match conflicts, missing, stale with
  | _ :: _, _, _ => CS_CONFLICTED
  | [], _ :: _, _ => CS_PARTIAL
  | [], [], _ :: _ => CS_STALE
  | [], [], [] => CS_COMPLETE
  end.

Definition correlate_evidence (evidence : list Evidence) (reference_time : datetime)
    (required_sources : list EvidenceKind) (proximity : Z) : res CorrelationContext :=
  raise_if ((proximity <=? 0) || (7 * us_per_day <? proximity)) ValueError
    "correlation proximity is outside the permitted bound";;
  let ordered := py_sorted timeline_leb evidence in
  let missing := missing_sources required_sources ordered in
  let stale := stale_sources reference_time ordered in
  timeline ← traverse timeline_event ordered;
  links ← _links ordered proximity;
  conflicts ← _conflicts ordered;
  validated CorrelationContext_ok "CorrelationContext"
    {| cc_status := correlation_status conflicts missing stale; cc_timeline := timeline; cc_links := links;
       cc_conflicts := conflicts; cc_missing_sources := missing; cc_stale_sources := stale |}.

(** With the defaults of the two keyword arguments *)
Definition correlate (evidence : list Evidence) (reference_time : datetime) : res CorrelationContext :=
  correlate_evidence evidence reference_time _REQUIRED_SOURCES (30 * 60 * us_per_second).
End correlation.
