(* ===== verification/Identity.v ===== *)
(** * Identity ([identity.py], [access.py], the identity and governance stores of [adapters.py])

    [JwtAuthenticator] turns a bearer token into an [IdentityContext]: the signature under a key
    of the trusted issuer's JWKS ([BoundedJwksCache]), the times, then the principal, the tenant
    and the grants that the application stores.  PyJWT is the class [JwtLibrary]. *)

From S2P Require Import Prelude PyJson PyFloat PyTime PyText PyModel Domain Authorization Investigation.
From Stdlib Require Import Floats.SpecFloat.

(** ** Records of [access.py] *)

Inductive TenantStatus := TENANT_ACTIVE | TENANT_SUSPENDED.
Inductive PrincipalStatus := PRINCIPAL_ACTIVE | PRINCIPAL_DISABLED.
Inductive GrantStatus := GRANT_ACTIVE | GRANT_REVOKED.
#[export] Instance TenantStatus_eq_dec : EqDecision TenantStatus.
Proof. solve_decision. Defined.
#[export] Instance PrincipalStatus_eq_dec : EqDecision PrincipalStatus.
Proof. solve_decision. Defined.
#[export] Instance GrantStatus_eq_dec : EqDecision GrantStatus.
Proof. solve_decision. Defined.

Record TenantRecord := {
  tn_tenant_id : string;
  tn_display_name : string;
  tn_status : TenantStatus;
  tn_version : Z
}.

Definition TenantRecord_ok (t : TenantRecord) : bool :=
  Identifier (tn_tenant_id t) && length_between 1 200 (tn_display_name t) && (1 <=? tn_version t).

Record PrincipalRecord := {
  pr_tenant_id : string;
  pr_issuer : string;
  pr_subject_id : string;
  pr_principal_kind : PrincipalKind;
  pr_status : PrincipalStatus;
  pr_grant_version : Z;
  pr_version : Z
}.

Definition PrincipalRecord_ok (p : PrincipalRecord) : bool :=
  Identifier (pr_tenant_id p) && Issuer (pr_issuer p) && SubjectIdentifier (pr_subject_id p)
  && (1 <=? pr_grant_version p) && (1 <=? pr_version p).

Record GrantRecord := {
  gt_grant_id : string;
  gt_tenant_id : string;
  gt_issuer : string;
  gt_subject_id : string;
  gt_role : string;
  gt_purpose : string;
  gt_risk_ceiling : RiskLevel;
  gt_status : GrantStatus;
  gt_expires_at : datetime;
  gt_version : Z
}.

Definition GrantRecord_ok (g : GrantRecord) : bool :=
  forallb Identifier [gt_grant_id g; gt_tenant_id g; gt_role g; gt_purpose g] && Issuer (gt_issuer g)
  && SubjectIdentifier (gt_subject_id g) && (1 <=? gt_version g).

Record QuotaRecord := {
  qt_tenant_id : string;
  qt_quota_key : string;
  qt_limit_units : Z;
  qt_used_units : Z;
  qt_period_start : datetime;
  qt_period_end : datetime;
  qt_version : Z
}.

Definition QuotaRecord_ok (q : QuotaRecord) : bool :=
  Identifier (qt_tenant_id q) && Identifier (qt_quota_key q) && (0 <=? qt_limit_units q)
  && (0 <=? qt_used_units q) && (1 <=? qt_version q) && (qt_period_start q <? qt_period_end q)
  && (qt_used_units q <=? qt_limit_units q).

(** ** The identity repository ([InMemoryIdentityRepository]) *)

Record identity_repository := {
  iy_tenants : gmap string TenantRecord;
  iy_principals : gmap (string * string) PrincipalRecord;
  iy_grants : list GrantRecord
}.

(** [{k(x): x for x in items}] *)
Definition index_by {K A} `{Countable K} (key : A → K) (items : list A) : gmap K A :=
  foldl (λ m x, <[key x := x]> m) ∅ items.

Definition new_identity_repository (tenants : list TenantRecord) (principals : list PrincipalRecord)
    (grants : list GrantRecord) : identity_repository :=
  {| iy_tenants := index_by tn_tenant_id tenants;
     iy_principals := index_by (λ p, (pr_issuer p, pr_subject_id p)) principals; iy_grants := grants |}.

Definition resolve_principal (r : identity_repository) (tenant_id issuer subject_id : string) : option PrincipalRecord :=
  match iy_principals r !! (issuer, subject_id) with
  | Some p => if decide (pr_tenant_id p = tenant_id) then Some p else None
  | None => None
  end.

Definition active_grants (r : identity_repository) (tenant_id issuer subject_id : string) (now : datetime)
    : list GrantRecord :=
  List.filter (λ g, bool_decide (gt_tenant_id g = tenant_id) && bool_decide (gt_issuer g = issuer)
                    && bool_decide (gt_subject_id g = subject_id) && bool_decide (gt_status g = GRANT_ACTIVE)
                    && (now <? gt_expires_at g)) (iy_grants r).

Definition get_tenant (r : identity_repository) (tenant_id : string) : option TenantRecord := iy_tenants r !! tenant_id.

(** ** Governance ([InMemoryGovernance]) *)

Record governance := {
  gn_policies : gmap string PolicyRecord;
  gn_quotas : gmap (string * string) QuotaRecord
}.

(** [policy.model_copy(update={"version": expected_version + 1})] *)
Definition policy_at (version : Z) (p : PolicyRecord) : PolicyRecord :=
  {| po_policy_id := po_policy_id p; po_tenant_id := po_tenant_id p; po_revision := po_revision p;
     po_allowed_actions := po_allowed_actions p; po_allowed_purposes := po_allowed_purposes p;
     po_max_risk := po_max_risk p; po_version := version |}.
Definition quota_at (version : Z) (q : QuotaRecord) : QuotaRecord :=
  {| qt_tenant_id := qt_tenant_id q; qt_quota_key := qt_quota_key q; qt_limit_units := qt_limit_units q;
     qt_used_units := qt_used_units q; qt_period_start := qt_period_start q; qt_period_end := qt_period_end q;
     qt_version := version |}.

Definition replace_policy (policy : PolicyRecord) (expected_version : Z) : M governance PolicyRecord :=
  g ← get;
  lift (raise_if (match gn_policies g !! po_tenant_id policy with
                  | Some current => bool_decide (po_version current ≠ expected_version)
                  | None => true
                  end) ConcurrencyConflict "policy version changed");;
  let updated := policy_at (expected_version + 1) policy in
  modify (λ g, {| gn_policies := <[po_tenant_id policy := updated]> (gn_policies g); gn_quotas := gn_quotas g |});;
  mret updated.

Definition replace_quota (quota : QuotaRecord) (expected_version : Z) : M governance QuotaRecord :=
  g ← get;
  let key := (qt_tenant_id quota, qt_quota_key quota) in
  lift (raise_if (match gn_quotas g !! key with
                  | Some current => bool_decide (qt_version current ≠ expected_version)
                  | None => true
                  end) ConcurrencyConflict "quota version changed");;
  let updated := quota_at (expected_version + 1) quota in
  modify (λ g, {| gn_policies := gn_policies g; gn_quotas := <[key := updated]> (gn_quotas g) |});;
  mret updated.

(** ** Issuers *)

Record IssuerConfiguration := {
  is_issuer : string;
  is_audiences : list string;
  is_jwks_uri : string;
  is_algorithms : list string;
  is_tenant_claim : string;
  is_grant_version_claim : string;
  is_clock_skew_seconds : Z;
  is_maximum_token_lifetime_seconds : Z;
  is_jwks_ttl_seconds : Z;
  is_jwks_refresh_cooldown_seconds : Z;
  is_maximum_jwks_keys : Z
}.

Definition IssuerConfiguration_ok (c : IssuerConfiguration) : bool :=
  Issuer (is_issuer c) && forallb (length_between 1 200) (is_audiences c)
  && negb (bool_decide (is_audiences c = [])) && length_between 8 512 (is_jwks_uri c)
  && forallb (λ a, bool_decide (a ∈ ["RS256"; "PS256"; "ES256"])) (is_algorithms c)
  && negb (bool_decide (is_algorithms c = [])) && length_between 1 64 (is_tenant_claim c)
  && length_between 1 64 (is_grant_version_claim c) && in_range 0 120 (is_clock_skew_seconds c)
  && in_range 60 86400 (is_maximum_token_lifetime_seconds c) && in_range 30 3600 (is_jwks_ttl_seconds c)
  && in_range 1 60 (is_jwks_refresh_cooldown_seconds c) && in_range 1 32 (is_maximum_jwks_keys c).

(** [IssuerConfiguration(...)]: field constraints, then [require_unique_values] *)
Definition new_IssuerConfiguration (c : IssuerConfiguration) : res IssuerConfiguration :=
  raise_if (negb (IssuerConfiguration_ok c)) ValidationError "IssuerConfiguration";;
  Ok {| is_issuer := is_issuer c; is_audiences := sorted_set (is_audiences c); is_jwks_uri := is_jwks_uri c;
        is_algorithms := sorted_set (is_algorithms c); is_tenant_claim := is_tenant_claim c;
        is_grant_version_claim := is_grant_version_claim c; is_clock_skew_seconds := is_clock_skew_seconds c;
        is_maximum_token_lifetime_seconds := is_maximum_token_lifetime_seconds c;
        is_jwks_ttl_seconds := is_jwks_ttl_seconds c;
        is_jwks_refresh_cooldown_seconds := is_jwks_refresh_cooldown_seconds c;
        is_maximum_jwks_keys := is_maximum_jwks_keys c |}.

(** ** PyJWT *)

(** What a call of the library ends with: a value, one of the exceptions the caller catches, or
    another exception *)
Inductive library_result (A : Set) := Good (a : A) | Caught | Uncaught (x : exn).
#[global] Arguments Good {A} a.
#[global] Arguments Caught {A}.
#[global] Arguments Uncaught {A} x.

Class JwtLibrary := {
  PyJWK : Set;
  get_unverified_header : string → library_result payload;
  decode_unverified : string → library_result payload;
  decode_verified (token : string) (key : PyJWK) (algorithm : string) (audience : list string) (issuer : string)
    : library_result payload;
  jwk_from_dict (candidate : payload) (algorithm : string) : library_result PyJWK
}.

(** [try: ... except InvalidTokenError: raise AuthenticationFailed(msg)] *)
Definition or_unauthenticated {A : Set} (msg : string) (r : library_result A) : res A :=
  match r with Good a => Ok a | Caught => raise AuthenticationFailed msg | Uncaught x => Raise x end.

(** ** JSON values *)

Definition as_str (v : option json) : option string := match v with Some (JStr s) => Some s | _ => None end.
Definition as_list (v : option json) : option (list json) := match v with Some (JList l) => Some l | _ => None end.

(** [d.get(k) is not None] *)
Definition present (v : option json) : bool := match v with None | Some JNull => false | _ => true end.

(** [v in s] for a set of strings, and perhaps [None]; lists and dicts have no hash *)
Definition in_str_set (v : option json) (none : bool) (s : list string) : res bool :=
  match v with
  | None | Some JNull => Ok none
  | Some (JStr x) => Ok (bool_decide (x ∈ s))
  | Some (JList _ | JObj _) => raise TypeError "unhashable type"
  | Some _ => Ok false
  end.

(** ** The JWKS cache *)

Record CacheState := {
  cs_keys : list (string * payload);
  cs_expires_at : datetime;
  cs_refreshed_at : datetime
}.

(** One round of the loop of [_refresh] *)
Definition parse_raw_key (parsed : list (string * payload)) (raw : json) : res (list (string * payload)) :=
  match raw with
  | JObj key =>
      match as_str (dict_get "kid" key) with
      | Some kid =>
          raise_if (bool_decide (kid = "") || (128 <? str_len kid)) IdentityUnavailable "JWKS key ID is invalid";;
          raise_if (bool_decide (is_Some (dict_get kid parsed))) IdentityUnavailable "JWKS key IDs must be unique";;
          Ok (dict_set kid key parsed)
      | None => raise IdentityUnavailable "JWKS key ID is invalid"
      end
  | _ => raise IdentityUnavailable "JWKS key must be an object"
  end.

(** What [fetcher.fetch] answers *)
Definition jwks_fetcher : Set := string → string → res payload.

(** The keys of a JWKS document *)
Definition parse_document (c : IssuerConfiguration) (document : payload) : res (list (string * payload)) :=
  raw_keys ← match as_list (dict_get "keys" document) with
             | Some ((_ :: _) as raw_keys) => Ok raw_keys
             | _ => raise IdentityUnavailable "JWKS must contain keys"
             end;
  raise_if (is_maximum_jwks_keys c <? zlen raw_keys) IdentityUnavailable "JWKS contains too many keys";;
  foldM parse_raw_key [] raw_keys.

Definition fetch_document (c : IssuerConfiguration) (fetch : jwks_fetcher) : res payload :=
  match fetch (is_issuer c) (is_jwks_uri c) with
  | Ok document => Ok document
  | Raise x => if decide (exn_kind x = IdentityUnavailable) then Raise x
               else raise IdentityUnavailable "JWKS fetcher failed"
  end.

Definition _refresh (c : IssuerConfiguration) (fetch : jwks_fetcher) (now : datetime) : M (option CacheState) CacheState :=
  document ← lift (fetch_document c fetch);
  parsed ← lift (parse_document c document);
  let state := {| cs_keys := parsed; cs_refreshed_at := now;
                  cs_expires_at := now + seconds (is_jwks_ttl_seconds c) |} in
  modify (λ _, Some state);;
  mret state.

Section cache.
Context {HJwt : JwtLibrary}.

Definition _parse_key (candidate : payload) (algorithm : string) : res PyJWK :=
  raise_if (match dict_get "alg" candidate with
            | None | Some JNull => false
            | Some v => bool_decide (v ≠ JStr algorithm)
            end) AuthenticationFailed "token algorithm does not match its key";;
  signing ← in_str_set (dict_get "use" candidate) true ["sig"];
  raise_if (negb signing) AuthenticationFailed "token key is not a signing key";;
  raise_if (present (dict_get "key_ops" candidate)
            && match as_list (dict_get "key_ops" candidate) with
               | Some ops => bool_decide (JStr "verify" ∉ ops)
               | None => true
               end) AuthenticationFailed "token key cannot verify signatures";;
  or_unauthenticated "token signing key is invalid" (jwk_from_dict candidate algorithm).

(** [verification_key], under the cache's lock *)
Definition verification_key (c : IssuerConfiguration) (fetch : jwks_fetcher) (now : datetime)
    (key_id algorithm : string) : M (option CacheState) PyJWK :=
  lift (raise_if (bool_decide (key_id = "") || (128 <? str_len key_id)) AuthenticationFailed "token key ID is invalid");;
  cached ← get;
  state ← match cached with
          | Some state => if cs_expires_at state <=? now then _refresh c fetch now else mret state
          | None => _refresh c fetch now
          end;
  state ← (if bool_decide (dict_get key_id (cs_keys state) = None)
              && (seconds (is_jwks_refresh_cooldown_seconds c) <=? now - cs_refreshed_at state)
           then _refresh c fetch now else mret state);
  candidate ← lift (of_option (dict_get key_id (cs_keys state)) AuthenticationFailed "token signing key is unknown");
  lift (_parse_key candidate algorithm).
End cache.

(** ** Times *)

(** Microseconds from the ordinal origin to 1970 *)
Definition epoch : datetime := 719162 * us_per_day.

(** [datetime.fromtimestamp(f, tz=UTC)]: the fraction of a second, times a million, rounded to the
    nearest even microsecond *)
Definition float_microseconds (f : float) : option Z :=
  match f with
  | S754_zero _ => Some 0
  | S754_finite b m e =>
      let d := 2 ^ Z.max 0 (- e) in
      let n := Zpos m * 2 ^ Z.max 0 e in
      let us := match fmul (binary_normalize prec emax (n mod d) (Z.min 0 e) false) (float_of_int 1000000) with
                | S754_finite _ m' e' => scaled (Zpos m') e' 0
                | _ => 0
                end in
      let t := n / d * us_per_second + us in
      Some (if b then - t else t)
  | _ => None
  end.

Definition from_timestamp (v : json) : option datetime :=
  let t := match v with
           | JInt z => Some (epoch + z * us_per_second)
           | JFloat r => Z.add epoch <$> float_microseconds (float_of_repr r)
           | _ => None
           end in
  t ← t; if datetime_ok t then Some t else None.

Definition _numeric_date (v : option json) (claim : string) : res datetime :=
  match v with
  | Some (JInt _ as v) | Some (JFloat _ as v) =>
      of_option (from_timestamp v) AuthenticationFailed ("token " +:+ claim +:+ " claim is invalid")
  | _ => raise AuthenticationFailed ("token " +:+ claim +:+ " claim must be a NumericDate")
  end.

Definition _validate_times (claims : payload) (c : IssuerConfiguration) (now : datetime) : res (datetime * datetime) :=
  issued_at ← _numeric_date (dict_get "iat" claims) "iat";
  expires_at ← _numeric_date (dict_get "exp" claims) "exp";
  not_before ← (if present (dict_get "nbf" claims) then Some <$> _numeric_date (dict_get "nbf" claims) "nbf" else Ok None);
  let skew := seconds (is_clock_skew_seconds c) in
  raise_if (now + skew <? issued_at) AuthenticationFailed "token was issued in the future";;
  raise_if (expires_at <=? now - skew) AuthenticationFailed "token has expired";;
  raise_if (expires_at <=? issued_at) AuthenticationFailed "token expiry must follow issuance";;
  raise_if (seconds (is_maximum_token_lifetime_seconds c) <? expires_at - issued_at) AuthenticationFailed
    "token lifetime exceeds policy";;
  raise_if (match not_before with
            | Some t => (now + skew <? t) || (expires_at <=? t)
            | None => false
            end) AuthenticationFailed "token is not currently valid";;
  Ok (issued_at, expires_at).

(** ** The authenticator *)

Definition _MAX_BEARER_LENGTH : Z := 16384.
Definition _ALLOWED_TOKEN_TYPES : list string := ["JWT"; "at+jwt"].

(** What the collaborators answer during one call: three readings of the clock, the fetcher and
    the identity repository *)
Record auth_answers := {
  aa_cache_now : datetime;
  aa_times_now : datetime;
  aa_grants_now : datetime;
  aa_fetch : jwks_fetcher;
  aa_principal : string → string → string → option PrincipalRecord;
  aa_tenant : string → option TenantRecord;
  aa_grants : string → string → string → datetime → list GrantRecord
}.

Record JwtAuthenticator := { ja_configurations : gmap string IssuerConfiguration }.

(** [JwtAuthenticator(...)]; the caches start empty *)
Definition new_JwtAuthenticator (configurations : list IssuerConfiguration) : res JwtAuthenticator :=
  raise_if (bool_decide (configurations = [])) ValueError "at least one trusted issuer is required";;
  let index := index_by is_issuer configurations in
  raise_if (bool_decide (Z.of_nat (size index) ≠ zlen configurations)) ValueError "trusted issuer values must be unique";;
  Ok {| ja_configurations := index |}.

Abbreviation jwks_caches := (gmap string CacheState).

(** The cache of one issuer *)
Definition cache_of (issuer : string) {A} (m : M (option CacheState) A) : M jwks_caches A :=
  zoom (λ caches, caches !! issuer) (λ state caches, partial_alter (λ _, state) issuer caches) m.

(** [key=lambda grant: (grant.purpose, grant.role, grant.grant_id)] *)
Definition grant_record_leb (a b : GrantRecord) : bool :=
  if decide (gt_purpose a = gt_purpose b) then
    if decide (gt_role a = gt_role b) then str_leb (gt_grant_id a) (gt_grant_id b)
    else str_leb (gt_role a) (gt_role b)
  else str_leb (gt_purpose a) (gt_purpose b).

Definition bind_grant (now : datetime) (g : GrantRecord) : res GrantBinding :=
  raise_if (bool_decide (gt_status g ≠ GRANT_ACTIVE) || (gt_expires_at g <=? now)) AuthenticationFailed
    "identity repository returned stale grant";;
  let permissions := permissions_for (gt_role g) in
  raise_if (bool_decide (permissions = [])) AuthenticationFailed "grant refers to an unknown role";;
  new_GrantBinding {| gb_role := gt_role g; gb_purpose := gt_purpose g; gb_permissions := permissions;
                      gb_risk_ceiling := gt_risk_ceiling g; gb_expires_at := gt_expires_at g |}.

(** The identity of a principal with grants *)
Definition identity_of (p : PrincipalRecord) (grants : list GrantRecord) (bindings : list GrantBinding)
    (issued_at expires_at : datetime) (request_id trace_id : string) : res IdentityContext :=
  new_IdentityContext
    {| ic_tenant_id := pr_tenant_id p; ic_issuer := pr_issuer p; ic_subject_id := pr_subject_id p;
       ic_principal_kind := pr_principal_kind p; ic_roles := sorted_set (gb_role <$> bindings);
       ic_permissions := sorted_set (bindings ≫= gb_permissions); ic_purposes := sorted_set (gb_purpose <$> bindings);
       ic_grants := bindings; ic_grant_version := pr_grant_version p; ic_authenticated_at := issued_at;
       ic_expires_at := foldl Z.min expires_at (gt_expires_at <$> grants); ic_request_id := request_id;
       ic_trace_id := trace_id |}.

Section authenticator.
Context {HJwt : JwtLibrary}.

(** From the verified claims on *)
Definition authorize_claims (c : IssuerConfiguration) (e : auth_answers) (claims : payload)
    (request_id trace_id : string) : res IdentityContext :=
  times ← _validate_times claims c (aa_times_now e);
  match as_str (dict_get "sub" claims), as_str (dict_get (is_tenant_claim c) claims),
        dict_get (is_grant_version_claim c) claims with
  | Some subject_id, Some tenant_id, Some (JInt grant_version) =>
      raise_if (grant_version <? 1) AuthenticationFailed "required authority claims are invalid";;
      match aa_principal e tenant_id (is_issuer c) subject_id with
      | Some p =>
          raise_if (bool_decide (pr_status p ≠ PRINCIPAL_ACTIVE) || bool_decide (pr_tenant_id p ≠ tenant_id)
                    || bool_decide (pr_grant_version p ≠ grant_version)) AuthenticationFailed
            "principal or grants are not current";;
          raise_if (match aa_tenant e (pr_tenant_id p) with
                    | Some t => bool_decide (tn_status t ≠ TENANT_ACTIVE)
                    | None => true
                    end) AuthenticationFailed "tenant is not active";;
          let now := aa_grants_now e in
          let grants := py_sorted grant_record_leb
                          (aa_grants e (pr_tenant_id p) (pr_issuer p) (pr_subject_id p) now) in
          raise_if (bool_decide (zlen grants = 0)) AuthenticationFailed "principal has no current grant";;
          bindings ← traverse (bind_grant now) grants;
          identity_of p grants bindings times.1 times.2 request_id trace_id
      | None => raise AuthenticationFailed "principal or grants are not current"
      end
  | _, _, _ => raise AuthenticationFailed "required authority claims are invalid"
  end.

(** The header checks: the algorithm and the key id *)
Definition permitted_header (c : IssuerConfiguration) (header : payload) : res (string * string) :=
  match as_str (dict_get "alg" header), as_str (dict_get "kid" header) with
  | Some algorithm, Some key_id =>
      raise_if (bool_decide (algorithm ∉ is_algorithms c) || present (dict_get "crit" header)) AuthenticationFailed
        "token header is not permitted";;
      allowed ← in_str_set (dict_get "typ" header) true _ALLOWED_TOKEN_TYPES;
      raise_if (negb allowed) AuthenticationFailed "token header is not permitted";;
      Ok (algorithm, key_id)
  | _, _ => raise AuthenticationFailed "token header is not permitted"
  end.

Definition authenticate (a : JwtAuthenticator) (e : auth_answers) (bearer_token request_id trace_id : string)
    : M jwks_caches IdentityContext :=
  lift (raise_if (bool_decide (bearer_token = "") || (_MAX_BEARER_LENGTH <? str_len bearer_token)
                  || negb (str_forallb (λ c, negb (is_space c)) bearer_token)) AuthenticationFailed
          "bearer token is invalid");;
  header ← lift (or_unauthenticated "bearer token is malformed" (get_unverified_header bearer_token));
  unverified ← lift (or_unauthenticated "bearer token is malformed" (decode_unverified bearer_token));
  c ← lift (of_option (issuer ← as_str (dict_get "iss" unverified); ja_configurations a !! issuer)
              AuthenticationFailed "token issuer is not trusted");
  hdr ← lift (permitted_header c header);
  let '(algorithm, key_id) := hdr in
  key ← cache_of (is_issuer c) (verification_key c (aa_fetch e) (aa_cache_now e) key_id algorithm);
  claims ← lift (or_unauthenticated "bearer token validation failed"
                   (decode_verified bearer_token key algorithm (is_audiences c) (is_issuer c)));
  lift (authorize_claims c e claims request_id trace_id).
End authenticator.

(** ** The other authenticators *)

(** [identity.model_copy(update={"request_id": ..., "trace_id": ...})] *)
Definition for_request (request_id trace_id : string) (i : IdentityContext) : IdentityContext :=
  {| ic_tenant_id := ic_tenant_id i; ic_issuer := ic_issuer i; ic_subject_id := ic_subject_id i;
     ic_principal_kind := ic_principal_kind i; ic_roles := ic_roles i; ic_permissions := ic_permissions i;
     ic_purposes := ic_purposes i; ic_grants := ic_grants i; ic_grant_version := ic_grant_version i;
     ic_authenticated_at := ic_authenticated_at i; ic_expires_at := ic_expires_at i; ic_request_id := request_id;
     ic_trace_id := trace_id |}.

(** [StaticAuthenticator.authenticate] *)
Definition static_authenticate (identities : gmap string IdentityContext) (bearer_token request_id trace_id : string)
    : res IdentityContext :=
  identity ← of_option (identities !! bearer_token) AuthenticationFailed "demo bearer token is invalid";
  Ok (for_request request_id trace_id identity).

(** [UnavailableAuthenticator.authenticate] *)
Definition unavailable_authenticate (bearer_token request_id trace_id : string) : res IdentityContext :=
  raise IdentityUnavailable "production identity is not configured".

(** ** The cache holds what the issuer published *)

Section theorems.
Context {HJwt : JwtLibrary} (a : JwtAuthenticator).

(** The caches after calls whose collaborators answered [h], the last call first *)
Inductive auth_reach : list auth_answers → jwks_caches → Prop :=
  | reach_start : auth_reach [] ∅
  | reach_call h caches e bearer_token request_id trace_id :
      auth_reach h caches → auth_reach (e :: h) (authenticate a e bearer_token request_id trace_id caches).2.

(** The keys of a document that the fetcher answered at time [t] for the configured URI *)
Definition published (h : list auth_answers) (c : IssuerConfiguration) (t : datetime)
    (keys : list (string * payload)) : Prop :=
  ∃ e document, e ∈ h ∧ aa_cache_now e = t ∧ aa_fetch e (is_issuer c) (is_jwks_uri c) = Ok document ∧
    parse_document c document = Ok keys.

Definition state_sound (h : list auth_answers) (c : IssuerConfiguration) (s : CacheState) : Prop :=
  published h c (cs_refreshed_at s) (cs_keys s) ∧
  cs_expires_at s = cs_refreshed_at s + seconds (is_jwks_ttl_seconds c).

Lemma published_more e h c t keys : published h c t keys → published (e :: h) c t keys.
Proof. intros (e' & d & H & H'). exists e', d. split; [by right|done]. Qed.

Lemma refresh_cases e h c s r s' :
  _refresh c (aa_fetch e) (aa_cache_now e) s = (r, s') →
  (∃ x, r = Raise x ∧ s' = s) ∨
  ∃ state, r = Ok state ∧ s' = Some state ∧ state_sound (e :: h) c state ∧ cs_refreshed_at state = aa_cache_now e.
Proof.
  unfold _refresh, mbind, M_bind, lift, modify, mret, M_ret, fetch_document.
  destruct (aa_fetch e _ _) as [document|x] eqn:Ef; [|destruct (decide _); intros [= <- <-]; left; eauto].
  destruct (parse_document c document) as [keys|x] eqn:Ek; intros [= <- <-]; [|left; eauto].
  right. eexists. split_and!; [done|done| |done]. split; [|done]. exists e, document. split_and!; [by left|done..].
Qed.

(** A key that is handed out comes from a document the issuer published less than the ttl ago. *)
Lemma verification_key_cases e h c key_id algorithm s r s' :
  0 < is_jwks_ttl_seconds c →
  (∀ state, s = Some state → state_sound h c state) →
  verification_key c (aa_fetch e) (aa_cache_now e) key_id algorithm s = (r, s') →
  (∀ state, s' = Some state → state_sound (e :: h) c state) ∧
  ∀ key, r = Ok key → ∃ t keys candidate, published (e :: h) c t keys ∧
    aa_cache_now e < t + seconds (is_jwks_ttl_seconds c) ∧ dict_get key_id keys = Some candidate ∧
    _parse_key candidate algorithm = Ok key.
Proof.
  intros Hc Hs H.
  assert (Hs' : ∀ state, s = Some state → state_sound (e :: h) c state).
  { intros state E. destruct (Hs state E) as [H1 H2]. split; [by apply published_more|done]. }
  assert (Httl : 0 < seconds (is_jwks_ttl_seconds c)).
  { unfold seconds, us_per_second. lia. }
  unfold verification_key in H. unfold mbind, M_bind, lift, get in H. cbn in H. unfold raise_if in H.
  destruct (_ || _); [injection H as <- <-; split; [done|by intros ? [=]]|].
  (* the state the key is looked up in *)
  set (m := match s with Some _ => _ | None => _ end) in H.
  assert (Hm : ∀ r1 s1, m s = (r1, s1) →
    (∀ state, s1 = Some state → state_sound (e :: h) c state) ∧
    ∀ state, r1 = Ok state → state_sound (e :: h) c state ∧ aa_cache_now e < cs_expires_at state).
  { intros r1 s1 E. subst m. destruct s as [state|].
    - destruct (Z.leb_spec (cs_expires_at state) (aa_cache_now e)).
      + apply (refresh_cases e h) in E as [(x & -> & ->)|(st & -> & -> & H1 & H2)]; [by split|].
        split; [by intros ? [= <-]|]. intros ? [= <-]. split; [done|]. destruct H1 as [_ ->]. lia.
      + injection E as <- <-. split; [done|]. intros ? [= <-]. split; [by apply Hs'|lia].
    - apply (refresh_cases e h) in E as [(x & -> & ->)|(st & -> & -> & H1 & H2)]; [by split|].
      split; [by intros ? [= <-]|]. intros ? [= <-]. split; [done|]. destruct H1 as [_ ->]. lia. }
  destruct (m s) as [[state|x] s1] eqn:E1; [|injection H as <- <-; split; [by apply (Hm _ _ eq_refl)|by intros ? [=]]].
  destruct (Hm _ _ eq_refl) as [Hs1 Hst]. specialize (Hst state eq_refl). clear Hm.
  set (m2 := if _ && _ then _ else _) in H.
  assert (Hm2 : ∀ r2 s2, m2 s1 = (r2, s2) →
    (∀ state, s2 = Some state → state_sound (e :: h) c state) ∧
    ∀ state, r2 = Ok state → state_sound (e :: h) c state ∧ aa_cache_now e < cs_expires_at state).
  { intros r2 s2 E. subst m2. destruct (_ && _).
    - apply (refresh_cases e h) in E as [(x & -> & ->)|(st & -> & -> & H1 & H2)]; [by split|].
      split; [by intros ? [= <-]|]. intros ? [= <-]. split; [done|]. destruct H1 as [_ ->]. lia.
    - injection E as <- <-. split; [done|]. by intros ? [= <-]. }
  destruct (m2 s1) as [[st2|x] s2] eqn:E2; [|injection H as <- <-; split; [by apply (Hm2 _ _ eq_refl)|by intros ? [=]]].
  destruct (Hm2 _ _ eq_refl) as [Hs2 Hst2]. destruct (Hst2 st2 eq_refl) as [[Hp He] Hlt].
  unfold of_option in H. destruct (dict_get key_id (cs_keys st2)) as [candidate|] eqn:Ed;
    injection H as <- <-; (split; [done|]); [|by intros ? [=]]. intros key Hkey.
  exists (cs_refreshed_at st2), (cs_keys st2), candidate. split_and!; [done|lia|done|done].
Qed.

(** An authenticator built from validated configurations *)
Definition configured : Prop :=
  ∃ inputs configurations, traverse new_IssuerConfiguration inputs = Ok configurations ∧
    new_JwtAuthenticator configurations = Ok a.

Lemma index_by_lookup {K A} `{Countable K} (key : A → K) items k x :
  index_by key items !! k = Some x → key x = k ∧ x ∈ items.
Proof.
  unfold index_by. assert (Hg : ∀ m : gmap K A, foldl (λ m x, <[key x := x]> m) m items !! k = Some x →
    m !! k = Some x ∨ (key x = k ∧ x ∈ items)); [|intros [?|?]%Hg; [done|done]].
  induction items as [|y items IH]; intros m Hm; [by left|]. cbn in Hm. apply IH in Hm as [Hm|[? ?]].
  - rewrite lookup_insert in Hm. case_decide; [injection Hm as ->; right; split; [done|by left]|by left].
  - right. split; [done|by right].
Qed.

Lemma configured_lookup issuer c :
  configured → ja_configurations a !! issuer = Some c → is_issuer c = issuer ∧ 0 < is_jwks_ttl_seconds c.
Proof.
  intros (inputs & configurations & Hin & Ha) Hc. unfold new_JwtAuthenticator in Ha.
  apply res_bind_ok in Ha as ([] & _ & Ha). apply res_bind_ok in Ha as ([] & _ & [= <-]). cbn in Hc.
  apply index_by_lookup in Hc as [Hi Hel]. split; [done|]. apply traverse_ok in Hin.
  apply list_elem_of_lookup in Hel as [n Hn]. destruct (Forall2_lookup_r _ _ _ _ _ Hin Hn) as (c0 & _ & H0).
  unfold new_IssuerConfiguration in H0. apply res_bind_ok in H0 as ([] & Hok & [= <-]). apply raise_if_ok, negb_false_iff in Hok.
  unfold IssuerConfiguration_ok, in_range in Hok. rewrite !andb_true_iff, !Z.leb_le in Hok. cbn. lia.
Qed.

Definition caches_sound (h : list auth_answers) (caches : jwks_caches) : Prop :=
  ∀ issuer state, caches !! issuer = Some state → ∃ c, ja_configurations a !! issuer = Some c ∧ state_sound h c state.

(** What is known of a token whose claims were accepted *)
Record verified (h : list auth_answers) (now : datetime) (c : IssuerConfiguration) (bearer_token : string)
    (claims : payload) : Prop := {
  vf_trusted : ja_configurations a !! is_issuer c = Some c;
  vf_signed : ∃ header algorithm key_id t keys candidate key,
    get_unverified_header bearer_token = Good header ∧ dict_get "alg" header = Some (JStr algorithm) ∧
    dict_get "kid" header = Some (JStr key_id) ∧ algorithm ∈ is_algorithms c ∧
    published h c t keys ∧ now < t + seconds (is_jwks_ttl_seconds c) ∧
    dict_get key_id keys = Some candidate ∧ jwk_from_dict candidate algorithm = Good key ∧
    decode_verified bearer_token key algorithm (is_audiences c) (is_issuer c) = Good claims
}.

Lemma as_str_some v s : as_str v = Some s → v = Some (JStr s).
Proof. destruct v as [[]|]; cbn; congruence. Qed.

Lemma parse_key_good candidate algorithm key :
  _parse_key candidate algorithm = Ok key → jwk_from_dict candidate algorithm = Good key.
Proof.
  unfold _parse_key. intros H. apply res_bind_ok in H as (u & _ & H). apply res_bind_ok in H as (b & _ & H).
  apply res_bind_ok in H as (u2 & _ & H). apply res_bind_ok in H as (u3 & _ & H).
  unfold or_unauthenticated in H. destruct (jwk_from_dict candidate algorithm); [by injection H as ->|done|done].
Qed.

Lemma library_good {A : Set} msg (r : library_result A) x : or_unauthenticated msg r = Ok x → r = Good x.
Proof. destruct r; [by intros [= ->]|done|done]. Qed.

Lemma authenticate_cases h caches e bearer_token request_id trace_id :
  configured → caches_sound h caches →
  let rc := authenticate a e bearer_token request_id trace_id caches in
  caches_sound (e :: h) rc.2 ∧
  ∀ identity, rc.1 = Ok identity → ∃ c claims, verified (e :: h) (aa_cache_now e) c bearer_token claims ∧
    authorize_claims c e claims request_id trace_id = Ok identity.
Proof.
  intros Ha Hs rc.
  assert (Hs' : caches_sound (e :: h) caches).
  { intros issuer state H. destruct (Hs _ _ H) as (c & Hc & H1 & H2). exists c. split; [done|]. split; [by apply published_more|done]. }
  subst rc. unfold authenticate, mbind, M_bind, lift. cbn.
  destruct (raise_if _ _ _) as [u|x]; [|split; [done|by intros ? [=]]].
  destruct (or_unauthenticated _ (get_unverified_header bearer_token)) as [header|x] eqn:Eh; [|split; [done|by intros ? [=]]].
  apply library_good in Eh.
  destruct (or_unauthenticated _ (decode_unverified bearer_token)) as [unverified|x]; [|split; [done|by intros ? [=]]].
  destruct (of_option _ _ _) as [c|x] eqn:Ec; [|split; [done|by intros ? [=]]].
  assert (Hc : ja_configurations a !! is_issuer c = Some c ∧ 0 < is_jwks_ttl_seconds c).
  { unfold of_option in Ec. destruct (as_str _) as [issuer|]; cbn in Ec; [|done].
    destruct (ja_configurations a !! issuer) as [c'|] eqn:E; [|done]. injection Ec as ->.
    destruct (configured_lookup _ _ Ha E) as [-> ?]. done. }
  destruct Hc as [Hc Httl]. clear Ec.
  destruct (permitted_header c header) as [[algorithm key_id]|x] eqn:Ep; [|split; [done|by intros ? [=]]].
  unfold cache_of, zoom. destruct (verification_key c _ _ _ _ _) as [r state'] eqn:Ek.
  destruct (verification_key_cases e h c key_id algorithm (caches !! is_issuer c) r state' Httl) as [Hst Hkey]; [|done|].
  { intros state Hstate. destruct (Hs _ _ Hstate) as (c' & Hc' & Hsound). rewrite Hc in Hc'. by injection Hc' as <-. }
  assert (Hnew : caches_sound (e :: h) (partial_alter (λ _, state') (is_issuer c) caches)).
  { intros issuer state H. destruct (decide (issuer = is_issuer c)) as [->|Hne].
    - rewrite lookup_partial_alter_eq in H. exists c. split; [done|by apply Hst].
    - rewrite lookup_partial_alter_ne in H by done. by apply Hs'. }
  destruct r as [key|x]; cbn; [|split; [done|by intros ? [=]]].
  destruct (or_unauthenticated _ (decode_verified _ _ _ _ _)) as [claims|x] eqn:Ed; cbn; (split; [done|]); [|by intros ? [=]].
  intros identity Hid. exists c, claims. split; [|done]. split; [done|].
  destruct (Hkey key eq_refl) as (t & keys & candidate & K1 & K2 & K3 & K4).
  unfold permitted_header in Ep. destruct (as_str (dict_get "alg" header)) as [algorithm'|] eqn:Ealg; [|done].
  destruct (as_str (dict_get "kid" header)) as [key_id'|] eqn:Ekid; [|done]. apply as_str_some in Ealg, Ekid.
  apply res_bind_ok in Ep as (u1 & Hu1 & Ep). apply res_bind_ok in Ep as (b & _ & Ep). apply res_bind_ok in Ep as (u2 & _ & Ep).
  injection Ep as -> ->. apply raise_if_ok, orb_false_iff in Hu1 as [Hu1 _]. apply bool_decide_eq_false, dec_stable in Hu1.
  exists header, algorithm, key_id, t, keys, candidate, key. split_and!; try done.
  - by apply parse_key_good.
  - by apply library_good in Ed.
Qed.

Lemma reach_sound h caches : configured → auth_reach h caches → caches_sound h caches.
Proof.
  intros Ha Hr. induction Hr as [|h caches e bearer_token request_id trace_id Hr IH]; [by intros issuer state H|].
  by apply authenticate_cases.
Qed.
End theorems.

(** ** What an identity rests on *)

Lemma new_identity_returns i i' :
  new_IdentityContext i = Ok i' →
  (ic_tenant_id i', ic_issuer i', ic_subject_id i', ic_principal_kind i', ic_grant_version i', ic_authenticated_at i',
   ic_expires_at i', ic_request_id i', ic_trace_id i')
  = (ic_tenant_id i, ic_issuer i, ic_subject_id i, ic_principal_kind i, ic_grant_version i, ic_authenticated_at i,
     ic_expires_at i, ic_request_id i, ic_trace_id i) ∧
  ic_authenticated_at i < ic_expires_at i ∧ (∀ b, b ∈ ic_grants i' ↔ b ∈ ic_grants i).
Proof.
  unfold new_IdentityContext. intros H. apply res_bind_ok in H as ([] & _ & H). apply res_bind_ok in H as ([] & Ht & H).
  do 3 (apply res_bind_ok in H as ([] & _ & H)). injection H as <-. apply raise_if_ok, Z.leb_gt in Ht.
  split; [done|]. split; [done|]. intros b. cbn. rewrite (py_sorted_perm grant_leb). apply elem_of_remove_dups.
Qed.

Lemma bind_grant_returns now g b :
  bind_grant now g = Ok b →
  gt_status g = GRANT_ACTIVE ∧ now < gt_expires_at g ∧ permissions_for (gt_role g) ≠ [] ∧
  b = {| gb_role := gt_role g; gb_purpose := gt_purpose g; gb_permissions := sorted_set (permissions_for (gt_role g));
         gb_risk_ceiling := gt_risk_ceiling g; gb_expires_at := gt_expires_at g |}.
Proof.
  unfold bind_grant, new_GrantBinding. intros H. apply res_bind_ok in H as ([] & H1 & H). apply res_bind_ok in H as ([] & H2 & H).
  apply res_bind_ok in H as ([] & _ & [= <-]). apply raise_if_ok in H1, H2. apply orb_false_iff in H1 as [H1 H3].
  apply bool_decide_eq_false, dec_stable in H1. apply bool_decide_eq_false in H2. apply Z.leb_gt in H3. done.
Qed.

Lemma foldl_min_le l : ∀ x, foldl Z.min x l <= x ∧ ∀ y, y ∈ l → foldl Z.min x l <= y.
Proof.
  induction l as [|z l IH]; intros x; cbn; [split; [lia|]; by intros y ?%not_elem_of_nil|].
  destruct (IH (Z.min x z)) as [H1 H2]. split; [lia|]. intros y [->|Hy]%elem_of_cons; [lia|by apply H2].
Qed.

(** The claims are current and the stores confirm principal, tenant and grants. *)
Record entitled (c : IssuerConfiguration) (e : auth_answers) (claims : payload) (identity : IdentityContext) : Prop := {
  en_times : ∃ expires_at, _numeric_date (dict_get "iat" claims) "iat" = Ok (ic_authenticated_at identity) ∧
    _numeric_date (dict_get "exp" claims) "exp" = Ok expires_at ∧
    ic_authenticated_at identity <= aa_times_now e + seconds (is_clock_skew_seconds c) ∧
    aa_times_now e - seconds (is_clock_skew_seconds c) < expires_at ∧
    expires_at - ic_authenticated_at identity <= seconds (is_maximum_token_lifetime_seconds c) ∧
    ic_authenticated_at identity < ic_expires_at identity <= expires_at;
  en_principal : ∃ subject p, dict_get "sub" claims = Some (JStr subject) ∧
    dict_get (is_tenant_claim c) claims = Some (JStr (ic_tenant_id identity)) ∧
    dict_get (is_grant_version_claim c) claims = Some (JInt (ic_grant_version identity)) ∧
    aa_principal e (ic_tenant_id identity) (is_issuer c) subject = Some p ∧ pr_status p = PRINCIPAL_ACTIVE ∧
    pr_tenant_id p = ic_tenant_id identity ∧ pr_issuer p = ic_issuer identity ∧
    pr_subject_id p = ic_subject_id identity ∧ pr_grant_version p = ic_grant_version identity;
  en_tenant : ∃ t, aa_tenant e (ic_tenant_id identity) = Some t ∧ tn_status t = TENANT_ACTIVE;
  en_grants b : b ∈ ic_grants identity → ∃ g,
    g ∈ aa_grants e (ic_tenant_id identity) (ic_issuer identity) (ic_subject_id identity) (aa_grants_now e) ∧
    gt_status g = GRANT_ACTIVE ∧ aa_grants_now e < gt_expires_at g ∧ ic_expires_at identity <= gt_expires_at g ∧
    gb_role b = gt_role g ∧ gb_purpose b = gt_purpose g ∧ gb_risk_ceiling b = gt_risk_ceiling g ∧
    gb_expires_at b = gt_expires_at g ∧ ∀ p, p ∈ gb_permissions b → p ∈ permissions_for (gt_role g)
}.

Lemma validate_times_returns claims c now times :
  _validate_times claims c now = Ok times →
  _numeric_date (dict_get "iat" claims) "iat" = Ok times.1 ∧ _numeric_date (dict_get "exp" claims) "exp" = Ok times.2 ∧
  times.1 <= now + seconds (is_clock_skew_seconds c) ∧ now - seconds (is_clock_skew_seconds c) < times.2 ∧
  times.2 - times.1 <= seconds (is_maximum_token_lifetime_seconds c).
Proof.
  unfold _validate_times. intros H. apply res_bind_ok in H as (iat & Hi & H). apply res_bind_ok in H as (exp & He & H).
  apply res_bind_ok in H as (nbf & _ & H). apply res_bind_ok in H as ([] & H1 & H). apply res_bind_ok in H as ([] & H2 & H).
  apply res_bind_ok in H as ([] & _ & H). apply res_bind_ok in H as ([] & H3 & H). apply res_bind_ok in H as ([] & _ & [= <-]).
  apply raise_if_ok in H1, H2, H3. cbn. split_and!; try done; lia.
Qed.

Lemma authorize_claims_entitled c e claims request_id trace_id identity :
  authorize_claims c e claims request_id trace_id = Ok identity →
  entitled c e claims identity ∧ ic_request_id identity = request_id ∧ ic_trace_id identity = trace_id.
Proof.
  unfold authorize_claims. intros H. apply res_bind_ok in H as (times & Ht & H). apply validate_times_returns in Ht as (T1 & T2 & T3 & T4 & T5).
  destruct (as_str (dict_get "sub" claims)) as [subject|] eqn:Es; [|done].
  destruct (as_str (dict_get (is_tenant_claim c) claims)) as [tenant|] eqn:Et; [|done].
  apply as_str_some in Es, Et. destruct (dict_get (is_grant_version_claim c) claims) as [[| |version| | | |]|] eqn:Ev; try done.
  apply res_bind_ok in H as ([] & _ & H). destruct (aa_principal e tenant _ subject) as [p|] eqn:Ep; [|done].
  apply res_bind_ok in H as ([] & H1 & H). apply res_bind_ok in H as ([] & H2 & H). apply res_bind_ok in H as ([] & _ & H).
  apply res_bind_ok in H as (bindings & Hb & H). apply raise_if_ok in H1, H2.
  apply orb_false_iff in H1 as [H1 P3]. apply orb_false_iff in H1 as [P1 P2].
  apply bool_decide_eq_false, dec_stable in P1, P2, P3.
  destruct (aa_tenant e (pr_tenant_id p)) as [t|] eqn:Etn; [|done]. apply bool_decide_eq_false, dec_stable in H2.
  set (grants := py_sorted grant_record_leb _) in *.
  apply new_identity_returns in H as (E & Hlt & Hg). cbn in E, Hlt, Hg. injection E as E1 E2 E3 E4 E5 E6 E7 E8 E9.
  destruct (foldl_min_le (gt_expires_at <$> grants) times.2) as [M1 M2]. rewrite <- E7 in Hlt, M1, M2.
  split; [|done]. split.
  - exists times.2. rewrite E6. split_and!; try done; lia.
  - exists subject, p. rewrite E1, E2, E3, E5. split_and!; try done; congruence.
  - exists t. split; [congruence|done].
  - intros b Hbin. apply Hg in Hbin. apply traverse_ok in Hb. apply list_elem_of_lookup in Hbin as [n Hn].
    destruct (Forall2_lookup_r _ _ _ _ _ Hb Hn) as (g & Hgn & Hbg). apply list_elem_of_lookup_2 in Hgn as Hgel.
    apply bind_grant_returns in Hbg as (G1 & G2 & _ & ->). exists g. rewrite E1, E2, E3.
    split_and!; try done.
    + subst grants. by rewrite (py_sorted_perm grant_record_leb) in Hgel.
    + apply M2. apply list_elem_of_fmap. by exists g.
    + intros q. cbn. by rewrite sorted_set_elem.
Qed.

(** ** Promises *)

Section promises.
Context {HJwt : JwtLibrary} (a : JwtAuthenticator).

(** C11: an identity comes from a token that PyJWT verified for the issuer's audiences under a
    permitted algorithm and a key of the header's id, which the issuer published at its configured URI
    less than the cache's ttl ago; its claims are current within the skew, its principal, tenant and
    grant version are the stored active ones, and each of its bindings is a stored active grant that
    outlives it, with the permissions of the grant's role. *)
Theorem identities_are_current h caches e bearer_token request_id trace_id identity caches' :
  configured a → auth_reach a h caches →
  authenticate a e bearer_token request_id trace_id caches = (Ok identity, caches') →
  ∃ c claims, verified a (e :: h) (aa_cache_now e) c bearer_token claims ∧ entitled c e claims identity ∧
    ic_request_id identity = request_id ∧ ic_trace_id identity = trace_id.
Proof.
  intros Ha Hr H. destruct (authenticate_cases a h caches e bearer_token request_id trace_id Ha) as [_ Hid].
  { by apply reach_sound. }
  rewrite H in Hid. destruct (Hid identity eq_refl) as (c & claims & Hv & Hc). exists c, claims. split; [done|].
  by apply authorize_claims_entitled.
Qed.


(** Within the cooldown after a refresh that has not expired, a call asks the fetcher nothing. *)
Lemma cooldown_spares_the_issuer c fetch fetch' now key_id algorithm state :
  now < cs_expires_at state → now - cs_refreshed_at state < seconds (is_jwks_refresh_cooldown_seconds c) →
  verification_key c fetch now key_id algorithm (Some state) = verification_key c fetch' now key_id algorithm (Some state).
Proof.
  intros H1 H2. unfold verification_key, mbind, M_bind, lift, get. cbn. destruct (raise_if _ _ _); [|done].
  rewrite (proj2 (Z.leb_gt _ _)) by lia. cbn. rewrite (proj2 (Z.leb_gt _ _)) by lia. by rewrite andb_false_r.
Qed.
End promises.

(** ** A concrete issuer *)

Definition demo_claims : payload :=
  [("iss", JStr "https://idp.example"); ("sub", JStr "alice"); ("aud", JStr "aegis"); ("iat", JInt 1767225600);
   ("exp", JFloat "1767227400.5"); ("aegis_tenant", JStr "tenant-a"); ("aegis_grant_version", JInt 3)].

(** The header a token has in this library: one of type "JWT", or one whose type is an array *)
Definition demo_header (token : string) : payload :=
  [("alg", JStr "RS256"); ("kid", JStr "key-1");
   ("typ", if decide (token = "array-type") then JList [] else JStr "JWT")].

Definition demo_jwt : JwtLibrary := {|
  PyJWK := payload;
  get_unverified_header token := Good (demo_header token);
  decode_unverified _ := Good demo_claims;
  decode_verified token key algorithm audience issuer :=
    if decide ("aegis" ∈ audience ∧ issuer = "https://idp.example" ∧ algorithm = "RS256") then Good demo_claims else Caught;
  jwk_from_dict candidate _ := Good candidate
|}.

Definition demo_issuer : IssuerConfiguration :=
  {| is_issuer := "https://idp.example"; is_audiences := ["aegis"]; is_jwks_uri := "https://idp.example/jwks";
     is_algorithms := ["RS256"]; is_tenant_claim := "aegis_tenant"; is_grant_version_claim := "aegis_grant_version";
     is_clock_skew_seconds := 30; is_maximum_token_lifetime_seconds := 3600; is_jwks_ttl_seconds := 300;
     is_jwks_refresh_cooldown_seconds := 5; is_maximum_jwks_keys := 16 |}.

Definition demo_jwks : payload :=
  [("keys", JList [JObj [("kid", JStr "key-1"); ("kty", JStr "RSA"); ("alg", JStr "RS256"); ("use", JStr "sig")]])].

(** 2026-01-01T00:00:00Z, when the claims were issued *)
Definition demo_issued : datetime := 739616 * us_per_day.

Definition demo_repository (grant_expiry : datetime) : identity_repository :=
  new_identity_repository
    [{| tn_tenant_id := "tenant-a"; tn_display_name := "Tenant A"; tn_status := TENANT_ACTIVE; tn_version := 1 |}]
    [{| pr_tenant_id := "tenant-a"; pr_issuer := "https://idp.example"; pr_subject_id := "alice"; pr_principal_kind := PHuman;
        pr_status := PRINCIPAL_ACTIVE; pr_grant_version := 3; pr_version := 1 |}]
    [{| gt_grant_id := "grant-1"; gt_tenant_id := "tenant-a"; gt_issuer := "https://idp.example"; gt_subject_id := "alice";
        gt_role := "incident-responder"; gt_purpose := "incident-response"; gt_risk_ceiling := RMedium;
        gt_status := GRANT_ACTIVE; gt_expires_at := grant_expiry; gt_version := 1 |}].

Definition demo_collaborators (now grant_expiry : datetime) : auth_answers :=
  {| aa_cache_now := now; aa_times_now := now; aa_grants_now := now; aa_fetch := λ _ _, Ok demo_jwks;
     aa_principal := resolve_principal (demo_repository grant_expiry);
     aa_tenant := get_tenant (demo_repository grant_expiry); aa_grants := active_grants (demo_repository grant_expiry) |}.

Section demo.
#[local] Existing Instance demo_jwt.

Definition demo_authenticator : JwtAuthenticator := {| ja_configurations := {["https://idp.example" := demo_issuer]} |}.

Lemma demo_configured : configured demo_authenticator.
Proof. exists [demo_issuer], [demo_issuer]. split; vm_compute; reflexivity. Qed.

Definition demo_authenticated (token : string) (now grant_expiry : datetime) : res IdentityContext * jwks_caches :=
  authenticate demo_authenticator (demo_collaborators now grant_expiry) token "req-1" "trace-1" ∅.

Example demo_expiry :
  ic_expires_at <$> (demo_authenticated "token" (demo_issued + seconds 10) (demo_issued + hours 1)).1
  = Ok (demo_issued + 1800500000).
Proof. vm_compute. reflexivity. Qed.

(** Two inputs on which the authenticator raises neither of its two exceptions: a header whose type is
    an array, before any signature is checked, and a grant that ends before a token issued within the
    clock skew. *)
Lemma authentication_raises_other_errors :
  raised_kind (demo_authenticated "array-type" (demo_issued + seconds 10) (demo_issued + hours 1)).1 = Some TypeError ∧
  raised_kind (demo_authenticated "token" (demo_issued - seconds 20) (demo_issued - seconds 10)).1 = Some ValidationError.
Proof. vm_compute. split; reflexivity. Qed.

Abbreviation demo_answers := (demo_collaborators (demo_issued + seconds 10) (demo_issued + hours 1)).
Abbreviation demo_call := (authenticate demo_authenticator demo_answers "token" "req-1" "trace-1" ∅).

Lemma jwt_demo_returns : is_ok demo_call.1 = true.
Proof. vm_compute. reflexivity. Qed.

Lemma identities_are_current_witness :
  ∃ identity c claims, demo_call.1 = Ok identity ∧
    verified demo_authenticator [demo_answers] (demo_issued + seconds 10) c "token" claims ∧ entitled c demo_answers claims identity.
Proof.
  pose proof jwt_demo_returns as H. destruct demo_call as [[identity|x] caches] eqn:E; [|discriminate H].
  destruct (identities_are_current demo_authenticator [] ∅ demo_answers "token" "req-1" "trace-1" identity caches
    demo_configured (reach_start _) E) as (c & claims & H1 & H2 & _).
  exists identity, c, claims. split; [reflexivity|]. split; [exact H1|exact H2].
Defined.

Definition demo_current_policy (tenant_id : string) : option PolicyRecord :=
  Some {| po_policy_id := "policy-1"; po_tenant_id := tenant_id; po_revision := 1;
          po_allowed_actions := ["investigation:run"]; po_allowed_purposes := ["incident-response"];
          po_max_risk := RMedium; po_version := 1 |}.

Lemma jwt_demo_allowed :
  match demo_call.1 with
  | Ok i => pd_allowed (authorize demo_current_policy (demo_issued + seconds 20) i INVESTIGATION_RUN "tenant-a"
                          "incident-response" RMedium) = true
  | Raise _ => False
  end.
Proof. vm_compute. reflexivity. Qed.

End demo.
