(* ===== verification/Orchestration.v ===== *)
(** * Governed artifacts and the orchestration ledger ([orchestration.py])

    The artifacts the agents of an investigation emit, each with the digest of its content and
    of its provenance, who may write which kind and what may follow what; and
    [InMemoryOrchestrationLedger], the runs, the fenced tasks and the artifacts, each method
    under its lock. *)

From S2P Require Import Prelude PyJson PyFloat PyTime PyText PyModel Domain RemediationData Evidence Investigation.
From Stdlib Require Import Floats.SpecFloat.

Definition GRAPH_VERSION : string := "6.0.0".
Definition MAX_SPECIALIST_FANOUT : Z := 4.
Definition MAX_ARTIFACTS : Z := 64.

(** ** Roles, kinds, states *)

Inductive AgentRole :=
  | AR_COORDINATOR | AR_TELEMETRY_SPECIALIST | AR_CHANGE_SPECIALIST | AR_RUNTIME_SPECIALIST
  | AR_KNOWLEDGE_SPECIALIST | AR_CRITIC | AR_REMEDIATION_PLANNER | AR_VERIFICATION_AGENT.
#[export] Instance AgentRole_eq_dec : EqDecision AgentRole.
Proof. solve_decision. Defined.
Definition agent_role_value (r : AgentRole) : string :=
  match r with
  | AR_COORDINATOR => "coordinator" | AR_TELEMETRY_SPECIALIST => "telemetry_specialist"
  | AR_CHANGE_SPECIALIST => "change_specialist" | AR_RUNTIME_SPECIALIST => "runtime_specialist"
  | AR_KNOWLEDGE_SPECIALIST => "knowledge_specialist" | AR_CRITIC => "critic"
  | AR_REMEDIATION_PLANNER => "remediation_planner" | AR_VERIFICATION_AGENT => "verification_agent"
  end.

Definition SPECIALIST_ROLES : list AgentRole :=
  [AR_TELEMETRY_SPECIALIST; AR_CHANGE_SPECIALIST; AR_RUNTIME_SPECIALIST; AR_KNOWLEDGE_SPECIALIST].

Inductive ArtifactKind :=
  | AK_INVESTIGATION_PLAN | AK_INVESTIGATION_TASK | AK_EVIDENCE_ASSESSMENT | AK_HYPOTHESIS | AK_CRITIQUE
  | AK_CONTRADICTION | AK_CONTEXT_REFERENCES | AK_REMEDIATION_PROPOSAL | AK_VERIFICATION_PLAN
  | AK_COORDINATOR_DECISION | AK_FINAL_ASSESSMENT.
#[export] Instance ArtifactKind_eq_dec : EqDecision ArtifactKind.
Proof. solve_decision. Defined.
Definition kind_value (k : ArtifactKind) : string :=
  match k with
  | AK_INVESTIGATION_PLAN => "investigation_plan" | AK_INVESTIGATION_TASK => "investigation_task"
  | AK_EVIDENCE_ASSESSMENT => "evidence_assessment" | AK_HYPOTHESIS => "hypothesis" | AK_CRITIQUE => "critique"
  | AK_CONTRADICTION => "contradiction" | AK_CONTEXT_REFERENCES => "context_references"
  | AK_REMEDIATION_PROPOSAL => "remediation_proposal" | AK_VERIFICATION_PLAN => "verification_plan"
  | AK_COORDINATOR_DECISION => "coordinator_decision" | AK_FINAL_ASSESSMENT => "final_assessment"
  end.

Inductive CalibrationBand := CB_UNCALIBRATED | CB_LOW | CB_MEDIUM | CB_HIGH.
#[export] Instance CalibrationBand_eq_dec : EqDecision CalibrationBand.
Proof. solve_decision. Defined.
Definition calibration_value (b : CalibrationBand) : string :=
  match b with
  | CB_UNCALIBRATED => "uncalibrated" | CB_LOW => "low" | CB_MEDIUM => "medium" | CB_HIGH => "high"
  end.

Inductive OrchestrationTerminalState := OT_COMPLETE | OT_ABSTAINED | OT_ESCALATED | OT_FAILED | OT_CANCELLED.
#[export] Instance OrchestrationTerminalState_eq_dec : EqDecision OrchestrationTerminalState.
Proof. solve_decision. Defined.
Definition terminal_value (t : OrchestrationTerminalState) : string :=
  match t with
  | OT_COMPLETE => "complete" | OT_ABSTAINED => "abstained" | OT_ESCALATED => "escalated"
  | OT_FAILED => "failed" | OT_CANCELLED => "cancelled"
  end.

#[export] Instance float_eq_dec : EqDecision float.
Proof. solve_decision. Defined.
#[export] Instance Hypothesis_eq_dec : EqDecision Hypothesis_.
Proof. solve_decision. Defined.

(** ** Payloads *)

Inductive ArtifactPayload :=
  | InvestigationPlanPayload (objective : string) (task_ids : list string)
  | InvestigationTaskPayload (task_id : string) (assigned_role : AgentRole) (objective : string)
      (allowed_evidence_kinds predecessor_task_ids : list string)
  | EvidenceAssessmentPayload (task_id finding_id statement : string) (cause_code : option string)
      (confidence : float) (calibration : CalibrationBand) (citations : list Citation) (abstained : bool)
      (reason : option string)
  | HypothesisPayload (hypothesis : Hypothesis_) (alternative_cause_codes : list string)
      (calibration : CalibrationBand)
  | CritiquePayload (decision : CriticDecision) (reasons : list string) (checked_citations : Z)
      (rejected_claim_ids : list string)
  | ContradictionPayload (contradiction_ids : list string) (reason : string)
  | ContextReferencesPayload (timeline_event_ids conflict_ids : list string)
  | RemediationProposalPayload (proposal : RemediationProposal)
  | VerificationPlanPayload (proposal_id : string) (steps required_evidence_ids : list string)
  | CoordinatorDecisionPayload (decision : OrchestrationTerminalState) (reason_codes : list string)
      (selected_hypothesis_id proposal_id : option string)
  | FinalAssessmentPayload (status : InvestigationStatus) (summary : string) (hypothesis_ids : list string)
      (proposal_id : option string) (requires_human_escalation : bool).
#[export] Instance ArtifactPayload_eq_dec : EqDecision ArtifactPayload.
Proof. solve_decision. Defined.

Definition payload_kind (p : ArtifactPayload) : ArtifactKind :=
  match p with
  | InvestigationPlanPayload _ _ => AK_INVESTIGATION_PLAN
  | InvestigationTaskPayload _ _ _ _ _ => AK_INVESTIGATION_TASK
  | EvidenceAssessmentPayload _ _ _ _ _ _ _ _ _ => AK_EVIDENCE_ASSESSMENT
  | HypothesisPayload _ _ _ => AK_HYPOTHESIS
  | CritiquePayload _ _ _ _ => AK_CRITIQUE
  | ContradictionPayload _ _ => AK_CONTRADICTION
  | ContextReferencesPayload _ _ => AK_CONTEXT_REFERENCES
  | RemediationProposalPayload _ => AK_REMEDIATION_PROPOSAL
  | VerificationPlanPayload _ _ _ => AK_VERIFICATION_PLAN
  | CoordinatorDecisionPayload _ _ _ _ => AK_COORDINATOR_DECISION
  | FinalAssessmentPayload _ _ _ _ _ => AK_FINAL_ASSESSMENT
  end.

Definition ids_range (lo hi : Z) (l : list string) : bool := count_range lo hi l && forallb Identifier l.

Definition ArtifactPayload_ok (p : ArtifactPayload) : bool :=
  match p with
  | InvestigationPlanPayload objective tasks =>
      length_between 1 512 objective && ids_range MAX_SPECIALIST_FANOUT MAX_SPECIALIST_FANOUT tasks
  | InvestigationTaskPayload task _ objective kinds predecessors =>
      Identifier task && length_between 1 512 objective && ids_range 1 3 kinds && ids_range 0 4 predecessors
  | EvidenceAssessmentPayload task finding statement cause confidence _ citations abstained reason =>
      Identifier task && Identifier finding && length_between 1 1000 statement && opt_Identifier cause
      && unit_interval confidence && count_range 0 16 citations && opt_ok (length_between 0 256) reason
      && abstention_bound abstained cause citations confidence
  | HypothesisPayload _ alternatives _ => ids_range 0 9 alternatives
  | CritiquePayload _ reasons checked rejected =>
      ids_range 1 16 reasons && in_range 0 256 checked && ids_range 0 64 rejected
  | ContradictionPayload contradictions reason => ids_range 1 64 contradictions && Identifier reason
  | ContextReferencesPayload events conflicts => ids_range 0 1000 events && ids_range 0 1000 conflicts
  | RemediationProposalPayload _ => true
  | VerificationPlanPayload proposal steps required =>
      Identifier proposal && count_range 1 8 steps && forallb (length_between 1 256) steps
      && ids_range 1 32 required
  | CoordinatorDecisionPayload _ reasons selected proposal =>
      ids_range 1 16 reasons && opt_Identifier selected && opt_Identifier proposal
  | FinalAssessmentPayload _ summary hypotheses proposal _ =>
      length_between 1 1000 summary && ids_range 0 10 hypotheses && opt_Identifier proposal
  end.

Definition new_payload (p : ArtifactPayload) : res ArtifactPayload := validated ArtifactPayload_ok "ArtifactPayload" p.

(** ** Who writes what, and what follows what *)

Definition _ROLE_WRITES (role : AgentRole) : list ArtifactKind :=
  match role with
  | AR_COORDINATOR => [AK_INVESTIGATION_PLAN; AK_INVESTIGATION_TASK; AK_CONTEXT_REFERENCES;
                       AK_COORDINATOR_DECISION; AK_FINAL_ASSESSMENT]
  | AR_TELEMETRY_SPECIALIST | AR_CHANGE_SPECIALIST | AR_RUNTIME_SPECIALIST | AR_KNOWLEDGE_SPECIALIST =>
      [AK_EVIDENCE_ASSESSMENT]
  | AR_CRITIC => [AK_CRITIQUE; AK_CONTRADICTION; AK_HYPOTHESIS]
  | AR_REMEDIATION_PLANNER => [AK_REMEDIATION_PROPOSAL]
  | AR_VERIFICATION_AGENT => [AK_VERIFICATION_PLAN]
  end.

Definition _TRANSITIONS (kind : ArtifactKind) : list ArtifactKind :=
  match kind with
  | AK_INVESTIGATION_PLAN => [AK_INVESTIGATION_TASK; AK_CONTEXT_REFERENCES]
  | AK_INVESTIGATION_TASK => [AK_EVIDENCE_ASSESSMENT]
  | AK_EVIDENCE_ASSESSMENT => [AK_CRITIQUE; AK_CONTRADICTION]
  | AK_CRITIQUE => [AK_HYPOTHESIS; AK_COORDINATOR_DECISION]
  | AK_CONTRADICTION => [AK_COORDINATOR_DECISION]
  | AK_HYPOTHESIS => [AK_REMEDIATION_PROPOSAL]
  | AK_REMEDIATION_PROPOSAL => [AK_VERIFICATION_PLAN]
  | AK_VERIFICATION_PLAN => [AK_COORDINATOR_DECISION]
  | AK_COORDINATOR_DECISION => [AK_FINAL_ASSESSMENT]
  | AK_CONTEXT_REFERENCES | AK_FINAL_ASSESSMENT => []
  end.

(** ** Artifacts *)

Record ArtifactProvenance := { pv_artifact_id : string; pv_artifact_digest : string }.
#[export] Instance ArtifactProvenance_eq_dec : EqDecision ArtifactProvenance.
Proof. solve_decision. Defined.

Record GovernanceArtifact := {
  ga_artifact_id : string;
  ga_tenant_id : string;
  ga_incident_id : string;
  ga_run_id : string;
  ga_task_id : option string;
  ga_ordinal : Z;
  ga_producer_role : AgentRole;
  ga_payload : ArtifactPayload;
  ga_provenance : list ArtifactProvenance;
  ga_canonical_digest : string
}.
#[export] Instance GovernanceArtifact_eq_dec : EqDecision GovernanceArtifact.
Proof. solve_decision. Defined.

Definition ga_kind (a : GovernanceArtifact) : ArtifactKind := payload_kind (ga_payload a).

Definition _validate_transition (target : ArtifactKind) (sources : list GovernanceArtifact) : res unit :=
  if decide (target = AK_INVESTIGATION_PLAN) then
    raise_if (negb (bool_decide (sources = []))) ValueError "investigation plan cannot have artifact predecessors"
  else
    raise_if (bool_decide (sources = [])) ValueError "artifact transition requires provenance";;
    raise_if (existsb (λ s, bool_decide (target ∉ _TRANSITIONS (ga_kind s))) sources) ValueError
      "artifact transition is not permitted".

Definition GovernanceArtifact_fields (a : GovernanceArtifact) : bool :=
  forallb Identifier [ga_artifact_id a; ga_tenant_id a; ga_incident_id a; ga_run_id a]
  && opt_Identifier (ga_task_id a) && in_range 1 1000 (ga_ordinal a)
  && count_range 0 16 (ga_provenance a)
  && forallb (λ p, Identifier (pv_artifact_id p) && is_sha256_hex (pv_artifact_digest p)) (ga_provenance a)
  && is_sha256_hex (ga_canonical_digest a).

(** The checks of [validate_envelope] after the digest *)
Definition envelope_ok (a : GovernanceArtifact) : bool :=
  bool_decide (ga_kind a ∈ _ROLE_WRITES (ga_producer_role a))
  && match ga_payload a with
     | InvestigationTaskPayload task role _ _ _ =>
         bool_decide (role ∈ SPECIALIST_ROLES) && bool_decide (ga_task_id a = Some task)
     | _ => true
     end.

Definition provenance_of (sources : list GovernanceArtifact) : list ArtifactProvenance :=
  (λ s, {| pv_artifact_id := ga_artifact_id s; pv_artifact_digest := ga_canonical_digest s |})
  <$> py_sorted (by_key ga_artifact_id str_leb) sources.

Section artifacts.
Context {HDigest : Digest} {HFloat : FloatJson}.

Definition payload_members (p : ArtifactPayload) : payload :=
  match p with
  | InvestigationPlanPayload objective tasks =>
      [("objective", JStr objective); ("task_ids", strings_json tasks); ("graph_version", JStr GRAPH_VERSION);
       ("maximum_fanout", JInt 4); ("maximum_critic_iterations", JInt 1)]
  | InvestigationTaskPayload task role objective kinds predecessors =>
      [("task_id", JStr task); ("assigned_role", JStr (agent_role_value role)); ("objective", JStr objective);
       ("allowed_evidence_kinds", strings_json kinds); ("predecessor_task_ids", strings_json predecessors)]
  | EvidenceAssessmentPayload task finding statement cause confidence calibration citations abstained reason =>
      [("task_id", JStr task); ("finding_id", JStr finding); ("statement", JStr statement);
       ("cause_code", opt_json cause); ("confidence", float_json confidence);
       ("calibration", JStr (calibration_value calibration));
       ("citations", JList (citation_json <$> citations)); ("abstained", JBool abstained);
       ("reason", opt_json reason)]
  | HypothesisPayload hypothesis alternatives calibration =>
      [("hypothesis", hypothesis_json hypothesis); ("alternative_cause_codes", strings_json alternatives);
       ("calibration", JStr (calibration_value calibration))]
  | CritiquePayload decision reasons checked rejected =>
      [("decision", JStr (critic_decision_value decision)); ("reasons", strings_json reasons);
       ("checked_citations", JInt checked); ("rejected_claim_ids", strings_json rejected)]
  | ContradictionPayload contradictions reason =>
      [("contradiction_ids", strings_json contradictions); ("reason", JStr reason)]
  | ContextReferencesPayload events conflicts =>
      [("timeline_event_ids", strings_json events); ("conflict_ids", strings_json conflicts);
       ("causal_claims_supported", JBool false)]
  | RemediationProposalPayload proposal =>
      [("proposal", proposal_json proposal); ("production_effect_performed", JBool false)]
  | VerificationPlanPayload proposal steps required =>
      [("proposal_id", JStr proposal); ("steps", strings_json steps);
       ("required_evidence_ids", strings_json required); ("production_verification_performed", JBool false)]
  | CoordinatorDecisionPayload decision reasons selected proposal =>
      [("decision", JStr (terminal_value decision)); ("reason_codes", strings_json reasons);
       ("selected_hypothesis_id", opt_json selected); ("proposal_id", opt_json proposal)]
  | FinalAssessmentPayload status summary hypotheses proposal escalate =>
      [("status", JStr (investigation_status_value status)); ("summary", JStr summary);
       ("hypothesis_ids", strings_json hypotheses); ("proposal_id", opt_json proposal);
       ("requires_human_escalation", JBool escalate); ("production_effect_verified", JBool false)]
  end.

Definition payload_json (p : ArtifactPayload) : json :=
  JObj (("kind", JStr (kind_value (payload_kind p))) :: payload_members p).

Definition artifact_provenance_json (p : ArtifactProvenance) : json :=
  JObj [("artifact_id", JStr (pv_artifact_id p)); ("artifact_digest", JStr (pv_artifact_digest p))].

Definition artifact_members (tenant_id incident_id run_id : string) (task_id : option string) (ordinal : Z)
    (producer_role : AgentRole) (p : ArtifactPayload) (provenance : list ArtifactProvenance) : payload :=
  [("incident_id", JStr incident_id); ("ordinal", JInt ordinal); ("payload", payload_json p);
   ("producer_role", JStr (agent_role_value producer_role));
   ("provenance", JList (artifact_provenance_json <$> provenance)); ("run_id", JStr run_id);
   ("schema_version", JInt 1); ("task_id", opt_json task_id); ("tenant_id", JStr tenant_id)].

Definition artifact_digest (tenant_id incident_id run_id : string) (task_id : option string) (ordinal : Z)
    (producer_role : AgentRole) (p : ArtifactPayload) (provenance : list ArtifactProvenance) : string :=
  json_digest (JObj (artifact_members tenant_id incident_id run_id task_id ordinal producer_role p provenance)).

(** The digest an artifact's own members have *)
Definition digest_of_artifact (a : GovernanceArtifact) : string :=
  artifact_digest (ga_tenant_id a) (ga_incident_id a) (ga_run_id a) (ga_task_id a) (ga_ordinal a)
    (ga_producer_role a) (ga_payload a) (ga_provenance a).

Definition GovernanceArtifact_ok (a : GovernanceArtifact) : bool :=
  GovernanceArtifact_fields a && ArtifactPayload_ok (ga_payload a)
  && bool_decide (ga_canonical_digest a = digest_of_artifact a) && envelope_ok a.

Definition new_GovernanceArtifact (a : GovernanceArtifact) : res GovernanceArtifact :=
  validated GovernanceArtifact_ok "GovernanceArtifact" a.

Definition artifact_id_of (run_id : string) (p : ArtifactPayload) (role : AgentRole) (task_id : option string)
    (digest : string) : string :=
  stable_id "artifact" [run_id; kind_value (payload_kind p); agent_role_value role;
                        match task_id with Some (String c t) => String c t | _ => "run" end; digest] 40.

(** [GovernanceArtifact.issue] *)
Definition issue (tenant_id incident_id run_id : string) (task_id : option string) (ordinal : Z)
    (producer_role : AgentRole) (p : ArtifactPayload) (sources : list GovernanceArtifact)
    : res GovernanceArtifact :=
  let provenance := provenance_of sources in
  _validate_transition (payload_kind p) sources;;
  let digest := artifact_digest tenant_id incident_id run_id task_id ordinal producer_role p provenance in
  new_GovernanceArtifact
    {| ga_artifact_id := artifact_id_of run_id p producer_role task_id digest; ga_tenant_id := tenant_id;
       ga_incident_id := incident_id; ga_run_id := run_id; ga_task_id := task_id; ga_ordinal := ordinal;
       ga_producer_role := producer_role; ga_payload := p; ga_provenance := provenance;
       ga_canonical_digest := digest |}.

Definition orchestration_input_digest (tenant_id incident_id run_id : string) (evidence_digests : list string)
    : string :=
  json_digest (JObj [("evidence_digests", strings_json (py_sorted str_leb evidence_digests));
                     ("graph_version", JStr GRAPH_VERSION); ("incident_id", JStr incident_id);
                     ("run_id", JStr run_id); ("tenant_id", JStr tenant_id)]).

Definition task_fence (tenant_id run_id task_id : string) (role : AgentRole) (input_digest : string)
    (attempt : Z) : string :=
  stable_id "task-fence" [tenant_id; run_id; task_id; agent_role_value role; input_digest; str_of_int attempt] 40.
End artifacts.
#[global] Arguments issue : simpl never.

Record ArtifactSummary := {
  as_artifact_id : string;
  as_schema_version : Z;
  as_ordinal : Z;
  as_kind : ArtifactKind;
  as_producer_role : AgentRole;
  as_task_id : option string
}.

Definition summary_of (a : GovernanceArtifact) : ArtifactSummary :=
  {| as_artifact_id := ga_artifact_id a; as_schema_version := 1; as_ordinal := ga_ordinal a;
     as_kind := ga_kind a; as_producer_role := ga_producer_role a; as_task_id := ga_task_id a |}.

Record ArtifactPage := { ap_items : list ArtifactSummary; ap_next_ordinal : option Z }.

(** ** The ledger *)

Inductive TaskDispatchStatus :=
  | TD_STARTED | TD_COMPLETED | TD_CACHED | TD_RECONCILIATION_REQUIRED | TD_CANCELLED.
#[export] Instance TaskDispatchStatus_eq_dec : EqDecision TaskDispatchStatus.
Proof. solve_decision. Defined.
Definition dispatch_value (s : TaskDispatchStatus) : string :=
  match s with
  | TD_STARTED => "started" | TD_COMPLETED => "completed" | TD_CACHED => "cached"
  | TD_RECONCILIATION_REQUIRED => "reconciliation_required" | TD_CANCELLED => "cancelled"
  end.

Record TaskDispatchClaim := {
  tc_status : TaskDispatchStatus;
  tc_fence_token : string;
  tc_cached_result : option json
}.

Definition new_TaskDispatchClaim (status : TaskDispatchStatus) (fence : string) (cached : option json)
    : res TaskDispatchClaim :=
  validated (λ c, Identifier (tc_fence_token c)) "TaskDispatchClaim"
    {| tc_status := status; tc_fence_token := fence; tc_cached_result := cached |}.

Record OrchestrationRunProjection := {
  or_tenant_id : string;
  or_incident_id : string;
  or_run_id : string;
  or_thread_ref : string;
  or_graph_version : string;
  or_input_digest : string;
  or_fence_token : string;
  or_cancelled : bool;
  or_artifact_count : Z;
  or_decision : option OrchestrationTerminalState
}.
#[export] Instance OrchestrationRunProjection_eq_dec : EqDecision OrchestrationRunProjection.
Proof. solve_decision. Defined.

Definition OrchestrationRunProjection_ok (p : OrchestrationRunProjection) : bool :=
  forallb Identifier [or_tenant_id p; or_incident_id p; or_run_id p; or_thread_ref p; or_graph_version p;
                      or_fence_token p]
  && is_sha256_hex (or_input_digest p) && in_range 0 MAX_ARTIFACTS (or_artifact_count p).

(** [model_copy(update=...)] of the members the ledger changes *)
Definition run_with (cancelled : bool) (count : Z) (decision : option OrchestrationTerminalState)
    (p : OrchestrationRunProjection) : OrchestrationRunProjection :=
  {| or_tenant_id := or_tenant_id p; or_incident_id := or_incident_id p; or_run_id := or_run_id p;
     or_thread_ref := or_thread_ref p; or_graph_version := or_graph_version p;
     or_input_digest := or_input_digest p; or_fence_token := or_fence_token p; or_cancelled := cancelled;
     or_artifact_count := count; or_decision := decision |}.

Record TaskLedgerRecord := {
  tr_role : AgentRole;
  tr_input_digest : string;
  tr_fence_token : string;
  tr_attempt : Z;
  tr_status : TaskDispatchStatus;
  tr_result : option json
}.

Definition TaskLedgerRecord_ok (t : TaskLedgerRecord) : bool :=
  is_sha256_hex (tr_input_digest t) && Identifier (tr_fence_token t) && in_range 1 16 (tr_attempt t).

Definition task_with (fence : string) (attempt : Z) (status : TaskDispatchStatus) (result : option json)
    (t : TaskLedgerRecord) : TaskLedgerRecord :=
  {| tr_role := tr_role t; tr_input_digest := tr_input_digest t; tr_fence_token := fence;
     tr_attempt := attempt; tr_status := status; tr_result := result |}.

(** The keys are those of the dicts; no iteration order is observed, since artifacts are sorted. *)
Record orchestration_ledger := {
  ol_runs : gmap (string * string) OrchestrationRunProjection;
  ol_tasks : gmap (string * string * string) TaskLedgerRecord;
  ol_artifacts : gmap (string * string * string) GovernanceArtifact
}.

Definition new_InMemoryOrchestrationLedger : orchestration_ledger :=
  {| ol_runs := ∅; ol_tasks := ∅; ol_artifacts := ∅ |}.

Definition put_run (k : string * string) (p : OrchestrationRunProjection) (l : orchestration_ledger)
    : orchestration_ledger :=
  {| ol_runs := <[k := p]> (ol_runs l); ol_tasks := ol_tasks l; ol_artifacts := ol_artifacts l |}.
Definition put_task (k : string * string * string) (t : TaskLedgerRecord) (l : orchestration_ledger)
    : orchestration_ledger :=
  {| ol_runs := ol_runs l; ol_tasks := <[k := t]> (ol_tasks l); ol_artifacts := ol_artifacts l |}.
Definition put_artifacts (a : gmap (string * string * string) GovernanceArtifact) (l : orchestration_ledger)
    : orchestration_ledger :=
  {| ol_runs := ol_runs l; ol_tasks := ol_tasks l; ol_artifacts := a |}.

Definition _required_run (l : orchestration_ledger) (tenant_id run_id : string)
    : res OrchestrationRunProjection :=
  of_option (ol_runs l !! (tenant_id, run_id)) IntegrityFailure "orchestration run is unavailable".

Definition artifact_leb : GovernanceArtifact → GovernanceArtifact → bool :=
  then_by ga_ordinal Z.leb (by_key ga_artifact_id str_leb).

(** The entries of a run: [{k: v for k, v in artifacts.items() if k[0] == tenant and k[1] == run}] *)
Definition of_run (tenant_id run_id : string) (a : gmap (string * string * string) GovernanceArtifact)
    : gmap (string * string * string) GovernanceArtifact :=
  filter (λ kv, kv.1.1 = (tenant_id, run_id)) a.

Definition in_order (a : gmap (string * string * string) GovernanceArtifact) : list GovernanceArtifact :=
  py_sorted artifact_leb (map_to_list a).*2.

Definition _run_artifacts (l : orchestration_ledger) (tenant_id run_id : string) : list GovernanceArtifact :=
  in_order (of_run tenant_id run_id (ol_artifacts l)).

Definition decision_of (a : GovernanceArtifact) : option OrchestrationTerminalState :=
  match ga_payload a with CoordinatorDecisionPayload d _ _ _ => Some d | _ => None end.

(** [next((item.payload.decision for item in reversed(items) if ...), default)] *)
Definition last_decision (items : list GovernanceArtifact) (otherwise : option OrchestrationTerminalState)
    : option OrchestrationTerminalState :=
  match head (omap decision_of (reverse items)) with Some d => Some d | None => otherwise end.

(** One turn of the loop of [append_artifacts] *)
Definition add_artifact (stored : gmap (string * string * string) GovernanceArtifact) (tenant_id run_id : string)
    (proposed : gmap (string * string * string) GovernanceArtifact) (a : GovernanceArtifact)
    : res (gmap (string * string * string) GovernanceArtifact) :=
  raise_if (bool_decide (ga_tenant_id a ≠ tenant_id) || bool_decide (ga_run_id a ≠ run_id)) IntegrityFailure
    "artifact tenant/run binding mismatch";;
  raise_if (match stored !! (tenant_id, run_id, ga_artifact_id a) with
            | Some existing => bool_decide (existing ≠ a)
            | None => false
            end) IntegrityFailure "immutable artifact changed";;
  Ok (<[(tenant_id, run_id, ga_artifact_id a) := a]> proposed).

Section ledger.
Context {HDigest : Digest}.

Definition begin_run (tenant_id incident_id run_id thread_ref graph_version input_digest : string)
    : M orchestration_ledger OrchestrationRunProjection :=
  proposed ← lift (validated OrchestrationRunProjection_ok "OrchestrationRunProjection"
    {| or_tenant_id := tenant_id; or_incident_id := incident_id; or_run_id := run_id;
       or_thread_ref := thread_ref; or_graph_version := graph_version; or_input_digest := input_digest;
       or_fence_token := stable_id "fence" [tenant_id; run_id; graph_version; input_digest] 40;
       or_cancelled := false; or_artifact_count := 0; or_decision := None |});
  l ← get;
  match ol_runs l !! (tenant_id, run_id) with
  | None => modify (put_run (tenant_id, run_id) proposed);; mret proposed
  | Some existing =>
      lift (raise_if (bool_decide (or_incident_id existing ≠ incident_id)
                      || bool_decide (or_thread_ref existing ≠ thread_ref)
                      || bool_decide (or_graph_version existing ≠ graph_version)
                      || bool_decide (or_input_digest existing ≠ input_digest)) OrchestrationFailure
              "orchestration run binding changed");;
      mret existing
  end.

Definition claim_task (tenant_id run_id task_id : string) (role : AgentRole) (input_digest : string)
    : M orchestration_ledger TaskDispatchClaim :=
  let fence := task_fence tenant_id run_id task_id role input_digest in
  l ← get;
  run ← lift (_required_run l tenant_id run_id);
  if or_cancelled run then lift (new_TaskDispatchClaim TD_CANCELLED (fence 1) None)
  else
    match ol_tasks l !! (tenant_id, run_id, task_id) with
    | None =>
        started ← lift (validated TaskLedgerRecord_ok "_TaskLedgerRecord"
          {| tr_role := role; tr_input_digest := input_digest; tr_fence_token := fence 1; tr_attempt := 1;
             tr_status := TD_STARTED; tr_result := None |});
        modify (put_task (tenant_id, run_id, task_id) started);;
        lift (new_TaskDispatchClaim TD_STARTED (fence 1) None)
    | Some existing =>
        lift (raise_if (bool_decide (tr_role existing ≠ role)
                        || bool_decide (tr_input_digest existing ≠ input_digest)) IntegrityFailure
                "task dispatch binding changed");;
        match tr_status existing with
        | TD_COMPLETED =>
            result ← lift (of_option (tr_result existing) IntegrityFailure "completed task result is unavailable");
            lift (new_TaskDispatchClaim TD_CACHED (tr_fence_token existing) (Some result))
        | TD_RECONCILIATION_REQUIRED =>
            lift (new_TaskDispatchClaim TD_RECONCILIATION_REQUIRED (tr_fence_token existing) None)
        | _ =>
            let attempt := tr_attempt existing + 1 in
            modify (put_task (tenant_id, run_id, task_id)
                      (task_with (fence attempt) attempt TD_RECONCILIATION_REQUIRED (tr_result existing) existing));;
            lift (new_TaskDispatchClaim TD_RECONCILIATION_REQUIRED (fence attempt) None)
        end
    end.

Definition complete_task (tenant_id run_id task_id fence_token : string) (result : payload)
    : M orchestration_ledger unit :=
  canonical ← lift (of_option (json_loads (canonical_json (JObj result))) ValueError "");
  lift (raise_if (match canonical with JObj _ => false | _ => true end) IntegrityFailure
          "task result must be an object");;
  l ← get;
  run ← lift (_required_run l tenant_id run_id);
  lift (raise_if (or_cancelled run) IntegrityFailure "cancelled run rejected stale task result");;
  match ol_tasks l !! (tenant_id, run_id, task_id) with
  | Some existing =>
      lift (raise_if (bool_decide (tr_fence_token existing ≠ fence_token)
                      || bool_decide (tr_status existing ≠ TD_STARTED)) IntegrityFailure
              "task result fence is stale");;
      modify (put_task (tenant_id, run_id, task_id)
                (task_with (tr_fence_token existing) (tr_attempt existing) TD_COMPLETED (Some canonical) existing))
  | None => lift (raise IntegrityFailure "task result fence is stale")
  end.

Definition append_artifacts (tenant_id run_id fence_token : string) (artifacts : list GovernanceArtifact)
    : M orchestration_ledger unit :=
  lift (raise_if (MAX_ARTIFACTS <? zlen artifacts) IntegrityFailure "artifact append exceeds run bound");;
  l ← get;
  run ← lift (_required_run l tenant_id run_id);
  lift (raise_if (or_cancelled run || bool_decide (or_fence_token run ≠ fence_token)) IntegrityFailure
          "artifact fence is stale");;
  proposed ← lift (foldM (add_artifact (ol_artifacts l) tenant_id run_id)
                     (of_run tenant_id run_id (ol_artifacts l)) artifacts);
  let current := in_order proposed in
  lift (raise_if (MAX_ARTIFACTS <? zlen current) IntegrityFailure "artifact run bound exceeded");;
  lift (raise_if (negb (no_dups (ga_ordinal <$> current))) IntegrityFailure "artifact ordinal was reused");;
  modify (put_artifacts (proposed ∪ ol_artifacts l));;
  modify (put_run (tenant_id, run_id)
            (run_with (or_cancelled run) (zlen current) (last_decision current (or_decision run)) run)).

Definition artifacts (tenant_id run_id : string) : M orchestration_ledger (list GovernanceArtifact) :=
  l ← get;
  lift (_required_run l tenant_id run_id);;
  mret (_run_artifacts l tenant_id run_id).

Definition artifact_page (tenant_id run_id : string) (after_ordinal limit : Z)
    : M orchestration_ledger ArtifactPage :=
  lift (raise_if ((after_ordinal <? 0) || (limit <? 1) || (100 <? limit)) ValueError
          "artifact page bounds are invalid");;
  l ← get;
  lift (_required_run l tenant_id run_id);;
  let selected := ztake (limit + 1)
                    (List.filter (λ a, after_ordinal <? ga_ordinal a) (_run_artifacts l tenant_id run_id)) in
  let page := ztake limit selected in
  mret {| ap_items := summary_of <$> page;
          ap_next_ordinal := if limit <? zlen selected then ga_ordinal <$> last page else None |}.

Definition projection (l : orchestration_ledger) (tenant_id run_id : string) : option OrchestrationRunProjection :=
  ol_runs l !! (tenant_id, run_id).

Definition cancel (tenant_id run_id : string) : M orchestration_ledger unit :=
  l ← get;
  current ← lift (_required_run l tenant_id run_id);
  modify (put_run (tenant_id, run_id) (run_with true (or_artifact_count current) (or_decision current) current)).

Definition rebuild_projection (tenant_id run_id : string) : M orchestration_ledger OrchestrationRunProjection :=
  l ← get;
  current ← lift (_required_run l tenant_id run_id);
  let items := _run_artifacts l tenant_id run_id in
  let rebuilt := run_with (or_cancelled current) (zlen items) (last_decision items None) current in
  modify (put_run (tenant_id, run_id) rebuilt);;
  mret rebuilt.
End ledger.

#[global] Arguments begin_run : simpl never.
#[global] Arguments claim_task : simpl never.
#[global] Arguments complete_task : simpl never.
#[global] Arguments append_artifacts : simpl never.

(** ** Calls of the ledger in sequence *)

Inductive ledger_call :=
  | BeginRun (tenant_id incident_id run_id thread_ref graph_version input_digest : string)
  | ClaimTask (tenant_id run_id task_id : string) (role : AgentRole) (input_digest : string)
  | CompleteTask (tenant_id run_id task_id fence_token : string) (result : payload)
  | AppendArtifacts (tenant_id run_id fence_token : string) (items : list GovernanceArtifact)
  | CancelRun (tenant_id run_id : string)
  | RebuildProjection (tenant_id run_id : string).

Section calls.
Context {HDigest : Digest}.

(** The state after a call, and whether it returned *)
Definition run_call (c : ledger_call) (l : orchestration_ledger) : bool * orchestration_ledger :=
  match c with
  | BeginRun t i r h g d => let m := begin_run t i r h g d l in (is_ok m.1, m.2)
  | ClaimTask t r k role d => let m := claim_task t r k role d l in (is_ok m.1, m.2)
  | CompleteTask t r k f result => let m := complete_task t r k f result l in (is_ok m.1, m.2)
  | AppendArtifacts t r f items => let m := append_artifacts t r f items l in (is_ok m.1, m.2)
  | CancelRun t r => let m := cancel t r l in (is_ok m.1, m.2)
  | RebuildProjection t r => let m := rebuild_projection t r l in (is_ok m.1, m.2)
  end.

Definition run_calls (calls : list ledger_call) (l : orchestration_ledger) : orchestration_ledger :=
  foldl (λ l c, (run_call c l).2) l calls.
End calls.
