(* ===== verification/Graph.v ===== *)
(** * The investigation graph ([graph.py])

    [LangGraphInvestigator]: nine nodes over a shared state.  A node is a thread of operations
    on the ledger and the model; it returns the members of the state it updates.  LangGraph runs
    a node when all its predecessors have returned, the four specialists at once, each on the
    state before them, and then applies their updates through the reducers. *)

From S2P Require Import Prelude PyJson PyFloat PyTime PyText PyModel PyProg Domain RemediationData Evidence Investigation Orchestration.

(** ** The state *)

Record InvestigationState := {
  gs_tenant_id : string;
  gs_incident_id : string;
  gs_run_id : string;
  gs_request_id : string;
  gs_thread_ref : string;
  gs_graph_version : string;
  gs_input_digest : string;
  gs_fence_token : string;
  gs_correlation_reference : datetime;
  gs_evidence : list Evidence;
  gs_safe_evidence : option (list ModelEvidence);
  gs_correlation : option CorrelationContext;
  gs_findings : list SpecialistFinding;
  gs_node_errors : list NodeError;
  gs_artifacts : list GovernanceArtifact;
  gs_injection_detected : bool;
  gs_hypotheses : list Hypothesis_;
  gs_critic : option CriticVerdict;
  gs_proposal : option RemediationProposal;
  gs_terminal_state : option OrchestrationTerminalState;
  gs_critic_iteration : Z;
  gs_cancelled : bool
}.

(** The members a node returns; an absent member is [None], or nothing to merge. *)
Record update := {
  up_safe_evidence : option (list ModelEvidence);
  up_correlation : option CorrelationContext;
  up_findings : list SpecialistFinding;
  up_node_errors : list NodeError;
  up_artifacts : list GovernanceArtifact;
  up_injection_detected : option bool;
  up_hypotheses : option (list Hypothesis_);
  up_critic : option CriticVerdict;
  up_proposal : option (option RemediationProposal);
  up_terminal_state : option OrchestrationTerminalState;
  up_critic_iteration : option Z;
  up_cancelled : bool
}.

Definition no_update : update :=
  {| up_safe_evidence := None; up_correlation := None; up_findings := []; up_node_errors := [];
     up_artifacts := []; up_injection_detected := None; up_hypotheses := None; up_critic := None;
     up_proposal := None; up_terminal_state := None; up_critic_iteration := None; up_cancelled := false |}.

(** [merge_artifacts]: the artifacts so far under their ids, and the digests seen *)
Definition merge_artifact (merged : list (string * GovernanceArtifact)) (a : GovernanceArtifact)
    : res (list (string * GovernanceArtifact)) :=
  raise_if (match dict_get (ga_artifact_id a) merged with
            | Some existing => bool_decide (ga_canonical_digest existing ≠ ga_canonical_digest a)
            | None => false
            end) ValueError "artifact id was reused with a different digest";;
  Ok (dict_set (ga_artifact_id a) a merged).

Definition merge_artifacts (left right : list GovernanceArtifact) : res (list GovernanceArtifact) :=
  merged ← foldM merge_artifact [] (left ++ right);
  Ok (py_sorted artifact_leb merged.*2).

Definition apply_update (st : InvestigationState) (u : update) : res InvestigationState :=
  merged ← merge_artifacts (gs_artifacts st) (up_artifacts u);
  Ok {| gs_tenant_id := gs_tenant_id st; gs_incident_id := gs_incident_id st; gs_run_id := gs_run_id st;
        gs_request_id := gs_request_id st; gs_thread_ref := gs_thread_ref st;
        gs_graph_version := gs_graph_version st; gs_input_digest := gs_input_digest st;
        gs_fence_token := gs_fence_token st; gs_correlation_reference := gs_correlation_reference st;
        gs_evidence := gs_evidence st;
        gs_safe_evidence := match up_safe_evidence u with Some e => Some e | None => gs_safe_evidence st end;
        gs_correlation := match up_correlation u with Some c => Some c | None => gs_correlation st end;
        gs_findings := merge_findings (gs_findings st) (up_findings u);
        gs_node_errors := merge_node_errors (gs_node_errors st) (up_node_errors u);
        gs_artifacts := merged;
        gs_injection_detected := default (gs_injection_detected st) (up_injection_detected u);
        gs_hypotheses := default (gs_hypotheses st) (up_hypotheses u);
        gs_critic := match up_critic u with Some c => Some c | None => gs_critic st end;
        gs_proposal := default (gs_proposal st) (up_proposal u);
        gs_terminal_state := match up_terminal_state u with Some t => Some t | None => gs_terminal_state st end;
        gs_critic_iteration := default (gs_critic_iteration st) (up_critic_iteration u);
        gs_cancelled := merge_cancelled (gs_cancelled st) (up_cancelled u) |}.

(** ** Operations of a node *)

Inductive graph_op : Set → Set :=
  | Claim (tenant_id run_id task_id : string) (role : AgentRole) (input_digest : string)
      : graph_op (res TaskDispatchClaim)
  | Complete (tenant_id run_id task_id fence_token : string) (result : payload) : graph_op (res unit)
  | Append (tenant_id run_id fence_token : string) (items : list GovernanceArtifact) : graph_op (res unit)
  | RunProjection (tenant_id run_id : string) : graph_op (option OrchestrationRunProjection)
  | Analyze (task : SpecialistTask) : graph_op (res (option SpecialistFinding)).

Notation P A := (prog graph_op exn A).

Definition of_res {A : Set} (r : res A) : P A :=
  match r with Ok a => Return a | Raise e => Throw e end.

Definition try_call {A : Set} (o : graph_op (res A)) : P A := r ←' call o; of_res r.

(** What Pydantic makes of a document that should be a finding: the members it reads, or
    nothing when they are missing, of other types or too many. *)
Class FindingDecoder := decode_finding : json → option SpecialistFinding.

(** ** Bindings of the specialists *)

Record specialist_binding := {
  sb_specialist : Specialist;
  sb_role : AgentRole;
  sb_evidence_kinds : list string;
  sb_task_ordinal : Z;
  sb_assessment_ordinal : Z
}.

Definition binding_of (s : Specialist) : specialist_binding :=
  match s with
  | SP_TELEMETRY => {| sb_specialist := s; sb_role := AR_TELEMETRY_SPECIALIST;
                       sb_evidence_kinds := ["telemetry"; "change"]; sb_task_ordinal := 10;
                       sb_assessment_ordinal := 20 |}
  | SP_CHANGE => {| sb_specialist := s; sb_role := AR_CHANGE_SPECIALIST;
                    sb_evidence_kinds := ["change"; "telemetry"]; sb_task_ordinal := 11;
                    sb_assessment_ordinal := 21 |}
  | SP_RUNTIME => {| sb_specialist := s; sb_role := AR_RUNTIME_SPECIALIST;
                     sb_evidence_kinds := ["telemetry"; "change"]; sb_task_ordinal := 12;
                     sb_assessment_ordinal := 22 |}
  | SP_KNOWLEDGE => {| sb_specialist := s; sb_role := AR_KNOWLEDGE_SPECIALIST;
                       sb_evidence_kinds := ["runbook"; "change"]; sb_task_ordinal := 13;
                       sb_assessment_ordinal := 23 |}
  end.

Definition specialists : list Specialist := [SP_TELEMETRY; SP_CHANGE; SP_RUNTIME; SP_KNOWLEDGE].
Definition _SPECIALIST_BINDINGS : list specialist_binding := binding_of <$> specialists.

Definition _MINIMUM_CONFIDENCE : float := int_truediv 7 10.

Definition _calibration (confidence : float) : CalibrationBand :=
  if fleb confidence f_zero then CB_UNCALIBRATED
  else if fltb confidence (int_truediv 7 10) then CB_LOW
  else if fltb confidence (int_truediv 85 100) then CB_MEDIUM
  else CB_HIGH.

Definition first_of_kind (kind : EvidenceKind) (l : list ModelEvidence) : option ModelEvidence :=
  head (List.filter (λ e, bool_decide (me_kind e = kind)) l).
Definition first_evidence (kind : EvidenceKind) (l : list Evidence) : option Evidence :=
  head (List.filter (λ e, bool_decide (ev_kind e = kind)) l).

(** [facts.get(key) == text] *)
Definition fact_is (key text : string) (facts : payload) : bool :=
  match dict_get key facts with Some (JStr s) => bool_decide (s = text) | _ => false end.

Section findings.
Context {HDigest : Digest}.

Definition _task_id (run_id : string) (s : Specialist) : string := stable_id "task" [run_id; specialist_value s] 32.

Definition _abstaining_finding (incident_id : string) (s : Specialist) (reason : string) : res SpecialistFinding :=
  new_SpecialistFinding
    {| fd_finding_id := stable_id "finding" [incident_id; specialist_value s; reason] 24; fd_specialist := s;
       fd_statement := specialist_value s +:+ " specialist abstained: " +:+ reason +:+ ".";
       fd_cause_code := None; fd_confidence := f_zero; fd_citations := []; fd_abstained := true;
       fd_reason := Some reason |}.

Definition _citation (e : ModelEvidence) : res Citation :=
  new_Citation
    {| ci_evidence_id := me_evidence_id e; ci_locator := me_locator e; ci_content_hash := me_content_hash e;
       ci_provenance_digest := me_provenance_digest e; ci_source_id := me_source_id e;
       ci_query_id := me_query_id e; ci_page_number := me_page_number e |}.

(** The finding both deterministic specialists return, on their two pieces of evidence *)
Definition regression_finding (t : SpecialistTask) (statement : string) (confidence : float)
    (first second : ModelEvidence) : res SpecialistFinding :=
  c1 ← _citation first;
  c2 ← _citation second;
  new_SpecialistFinding
    {| fd_finding_id := stable_id "finding" [sk_incident_id t; specialist_value (sk_specialist t);
                                             "post_deploy_regression"] 24;
       fd_specialist := sk_specialist t; fd_statement := statement;
       fd_cause_code := Some "post_deploy_regression"; fd_confidence := confidence;
       fd_citations := [c1; c2]; fd_abstained := false; fd_reason := None |}.

Definition _runtime_finding (t : SpecialistTask) : res SpecialistFinding :=
  match first_of_kind EK_TELEMETRY (sk_evidence t), first_of_kind EK_CHANGE (sk_evidence t) with
  | Some telemetry, Some change =>
      match plain_number (dict_get "value" (me_facts telemetry)),
            plain_number (dict_get "threshold" (me_facts telemetry)) with
      | Some value, Some threshold =>
          if number_leb value threshold || negb (fact_is "status" "deployed" (me_facts change)) then
            _abstaining_finding (sk_incident_id t) (sk_specialist t) "runtime_correlation_not_supported"
          else
            regression_finding t
              "Runtime telemetry and deployment state independently support a post-deployment regression."
              (int_truediv 84 100) telemetry change
      | _, _ => _abstaining_finding (sk_incident_id t) (sk_specialist t) "runtime_correlation_not_supported"
      end
  | _, _ => _abstaining_finding (sk_incident_id t) (sk_specialist t) "runtime_evidence_missing"
  end.

Definition _knowledge_finding (t : SpecialistTask) : res SpecialistFinding :=
  match first_of_kind EK_RUNBOOK (sk_evidence t), first_of_kind EK_CHANGE (sk_evidence t) with
  | Some runbook, Some change =>
      if negb (fact_is "action" "rollback_candidate" (me_facts runbook))
         || negb (fact_is "status" "deployed" (me_facts change)) then
        _abstaining_finding (sk_incident_id t) (sk_specialist t) "knowledge_support_missing"
      else
        regression_finding t
          "The trusted runbook contains a proposal-only rollback candidate for the observed deployment condition."
          (int_truediv 78 100) runbook change
  | _, _ => _abstaining_finding (sk_incident_id t) (sk_specialist t) "knowledge_support_missing"
  end.

(** ** The critic *)

Definition verdict (decision : CriticDecision) (reasons : list string) (checked : Z)
    (contradictions : list string) (contained : bool) : res CriticVerdict :=
  new_CriticVerdict {| cv_decision := decision; cv_reasons := reasons; cv_checked_citations := checked;
                       cv_contradictions := contradictions; cv_injection_contained := contained |}.

Definition invalid_citations (findings : list SpecialistFinding) (evidence : list Evidence) : list string :=
  sorted_set (ci_evidence_id <$> List.filter (λ c, negb (citation_is_valid c evidence)) (findings ≫= fd_citations)).

Definition required_kinds : list EvidenceKind := [EK_TELEMETRY; EK_CHANGE].
Definition lacks (sources : list EvidenceKind) : bool := existsb (λ k, bool_decide (k ∈ sources)) required_kinds.

Definition reason_of (f : SpecialistFinding) : string :=
  match fd_reason f with Some (String c t) => String c t | _ => "specialist_abstained" end.

Definition core_abstentions (findings : list SpecialistFinding) : list SpecialistFinding :=
  List.filter (λ f, bool_decide (fd_specialist f ∈ [SP_TELEMETRY; SP_CHANGE]) && fd_abstained f) findings.

Definition usable_findings (findings : list SpecialistFinding) : list SpecialistFinding :=
  List.filter (λ f, negb (fd_abstained f) && fleb _MINIMUM_CONFIDENCE (fd_confidence f)) findings.

Definition _unique_citations (findings : list SpecialistFinding) : list Citation :=
  (py_sorted key_leb (dict_of ci_evidence_id (findings ≫= fd_citations))).*2.

(** [min(finding.confidence for finding in usable)] *)
Definition lowest_confidence (findings : list SpecialistFinding) : float :=
  match findings with
  | [] => f_zero
  | f :: findings => foldl fmin (fd_confidence f) (fd_confidence <$> findings)
  end.

Definition insufficient (findings : list SpecialistFinding) (checked : Z)
    : res (CriticVerdict * list Hypothesis_) :=
  v ← verdict CD_ABSTAINED (sorted_set ("insufficient_corroboration" :: (reason_of <$> findings))) checked [] false;
  Ok (v, []).

Definition accept (found : list SpecialistFinding) (evidence : list Evidence) (cause_code : string)
    (checked : Z) : res (CriticVerdict * list Hypothesis_) :=
  first ← of_option (head evidence) IndexError "tuple index out of range";
  hypothesis ← new_Hypothesis
    {| hy_hypothesis_id := stable_id "hypothesis" [ev_tenant_id first; cause_code] 24; hy_rank := 1;
       hy_statement := "A recent checkout-api deployment is the leading supported explanation for the elevated checkout failure rate.";
       hy_cause_code := cause_code; hy_confidence := round2 (lowest_confidence found);
       hy_citations := _unique_citations found |};
  v ← verdict CD_ACCEPTED ["corroborated_and_cited"] checked [] false;
  Ok (v, [hypothesis]).

Definition _evaluate_critic (findings : list SpecialistFinding) (evidence : list Evidence)
    (correlation : CorrelationContext) (injection_detected : bool)
    : res (CriticVerdict * list Hypothesis_) :=
  let checked := sum_of (λ f, zlen (fd_citations f)) findings in
  let abstain reasons contradictions contained :=
    v ← verdict CD_ABSTAINED reasons checked contradictions contained; Ok (v, []) in
  match invalid_citations findings evidence with
  | (_ :: _) as invalid =>
      v ← verdict CD_REJECTED ["citation_validation_failed"] checked invalid false; Ok (v, [])
  | [] =>
      match cc_conflicts correlation with
      | (_ :: _) as conflicts => abstain ["deterministic_evidence_conflict"] (cf_conflict_id <$> conflicts) false
      | [] =>
          if lacks (cc_missing_sources correlation) then
            abstain ["insufficient_corroboration"; "required_evidence_source_missing"] [] false
          else if lacks (cc_stale_sources correlation) then abstain ["required_evidence_stale"] [] false
          else if injection_detected then abstain ["untrusted_instruction_detected"] [] true
          else
            match core_abstentions findings with
            | (_ :: _) as core => insufficient core checked
            | [] =>
                if zlen (usable_findings findings) <? 2 then
                  insufficient (List.filter fd_abstained findings) checked
                else
                  match sorted_set (omap fd_cause_code (usable_findings findings)) with
                  | [cause_code] => accept (usable_findings findings) evidence cause_code checked
                  | cause_codes => abstain ["specialist_contradiction"] cause_codes false
                  end
            end
      end
  end.

(** ** The proposal *)

Definition fact_or (key default_text : string) (facts : payload) : string :=
  match dict_get key facts with Some v => py_str v | None => default_text end.

Definition _proposal_from_runbook (tenant_id incident_id : string) (evidence : list Evidence)
    (hypothesis : Hypothesis_) : option RemediationProposal :=
  match first_evidence EK_RUNBOOK evidence, first_evidence EK_CHANGE evidence with
  | Some runbook, Some change =>
      if fact_is "action" "rollback_candidate" (ev_facts runbook) then
        let target := fact_or "service" "checkout-api" (ev_facts change) +:+ ":"
                      +:+ fact_or "version" "unknown" (ev_facts change) in
        match new_RemediationProposal
                {| pp_proposal_id := stable_id "proposal" [tenant_id; incident_id; target] 24;
                   pp_target := target;
                   pp_rationale := "Hypothesis " +:+ hy_hypothesis_id hypothesis
                                   +:+ " is corroborated and cited." |} with
        | Ok p => Some p
        | Raise _ => None
        end
      else None
  | _, _ => None
  end.
End findings.

(** ** The nodes *)

Section nodes.
Context {HDigest : Digest} {HFloat : FloatJson} {HDecode : FindingDecoder}.
Context (st : InvestigationState).

(** [GovernanceArtifact.issue] for this run; the payload is validated first. *)
Definition issued (task_id : option string) (ordinal : Z) (role : AgentRole) (p : ArtifactPayload)
    (sources : list GovernanceArtifact) : res GovernanceArtifact :=
  p ← new_payload p;
  issue (gs_tenant_id st) (gs_incident_id st) (gs_run_id st) task_id ordinal role p sources.

Definition _append_artifacts (items : list GovernanceArtifact) : P unit :=
  try_call (Append (gs_tenant_id st) (gs_run_id st) (gs_fence_token st) items).

Definition _is_cancelled : P bool :=
  found ←' call (RunProjection (gs_tenant_id st) (gs_run_id st));
  Return (match found with Some p => or_cancelled p | None => false end).

(** [_artifacts] and [_artifact] *)
Definition _artifacts (kind : ArtifactKind) : list GovernanceArtifact :=
  List.filter (λ a, bool_decide (ga_kind a = kind)) (gs_artifacts st).

Definition _artifact (kind : ArtifactKind) (task_id : option string) : res GovernanceArtifact :=
  match List.filter (λ a, match task_id with
                          | Some t => bool_decide (ga_task_id a = Some t)
                          | None => true
                          end) (_artifacts kind) with
  | [a] => Ok a
  | _ => raise OrchestrationFailure "required artifact transition source is unavailable"
  end.

(** [state[key]] of a member that may be missing *)
Definition member {A} (key : string) (o : option A) : res A := of_option o KeyError key.

(** *** The coordinator *)

Definition plan_artifact : res GovernanceArtifact :=
  issued None 1 AR_COORDINATOR
    (InvestigationPlanPayload
       "Assess the checkout incident with fixed independent specialists, critic review, remediation proposal only, and verification planning."
       (_task_id (gs_run_id st) <$> specialists)) [].

Definition task_artifact (plan : GovernanceArtifact) (b : specialist_binding) : res GovernanceArtifact :=
  let task_id := _task_id (gs_run_id st) (sb_specialist b) in
  issued (Some task_id) (sb_task_ordinal b) AR_COORDINATOR
    (InvestigationTaskPayload task_id (sb_role b)
       ("Produce a cited " +:+ specialist_value (sb_specialist b) +:+ " assessment or abstain.")
       (sb_evidence_kinds b) []) [plan].

Definition context_artifact (plan : GovernanceArtifact) (c : CorrelationContext) : res GovernanceArtifact :=
  issued None 14 AR_COORDINATOR
    (ContextReferencesPayload (tl_event_id <$> cc_timeline c) (cf_conflict_id <$> cc_conflicts c)) [plan].

Definition _coordinator : P update :=
  prepared ←' of_res (prepare_model_evidence (gs_evidence st));
  correlation ←' of_res (correlate (gs_evidence st) (gs_correlation_reference st));
  plan ←' of_res plan_artifact;
  tasks ←' of_res (traverse (task_artifact plan) _SPECIALIST_BINDINGS);
  context ←' of_res (context_artifact plan correlation);
  _append_artifacts (plan :: tasks ++ [context]) ;;'
  Return {| up_safe_evidence := Some prepared.1; up_correlation := Some correlation; up_findings := [];
            up_node_errors := []; up_artifacts := plan :: tasks ++ [context];
            up_injection_detected := Some prepared.2; up_hypotheses := None; up_critic := None;
            up_proposal := None; up_terminal_state := None; up_critic_iteration := Some 0;
            up_cancelled := false |}.

(** *** The specialists *)

Section specialist.
Context (specialist : Specialist).

Definition this_task : string := _task_id (gs_run_id st) specialist.

Definition cancelled_update : update :=
  {| up_safe_evidence := None; up_correlation := None; up_findings := []; up_node_errors := [];
     up_artifacts := []; up_injection_detected := None; up_hypotheses := None; up_critic := None;
     up_proposal := None; up_terminal_state := None; up_critic_iteration := None; up_cancelled := true |}.

Definition abstain_with (reason : string) : res SpecialistFinding :=
  _abstaining_finding (gs_incident_id st) specialist reason.

(** [SpecialistFinding.model_validate] of what the model returned, and the check of its author *)
Definition model_finding (raw : option SpecialistFinding) : res SpecialistFinding :=
  match raw ≫= λ f, match new_SpecialistFinding f with Ok f => Some f | Raise _ => None end with
  | None => abstain_with "model_output_invalid"
  | Some f =>
      if decide (fd_specialist f = specialist) then Ok f else abstain_with "specialist_identity_mismatch"
  end.

(** Of the exceptions of the model, [ValidationError] has a clause of its own. *)
Definition model_fault (x : exn) : res SpecialistFinding :=
  abstain_with (match exn_kind x with
                | ValidationError => "model_output_invalid"
                | ModelProviderError => "model_provider_error"
                | _ => "model_adapter_exception"
                end).

Definition build_task : res SpecialistTask :=
  evidence ← member "safe_evidence" (gs_safe_evidence st);
  correlation ← member "correlation" (gs_correlation st);
  validated SpecialistTask_ok "SpecialistTask"
    {| sk_tenant_id := gs_tenant_id st; sk_run_id := gs_run_id st; sk_incident_id := gs_incident_id st;
       sk_specialist := specialist; sk_evidence := evidence; sk_correlation := Some correlation |}.

Definition _execute_specialist : P SpecialistFinding :=
  task ←' of_res build_task;
  match specialist with
  | SP_RUNTIME => of_res (_runtime_finding task)
  | SP_KNOWLEDGE => of_res (_knowledge_finding task)
  | _ => try_else (try_call (Analyze task)) (λ x, of_res (model_fault x)) (λ raw, of_res (model_finding raw))
  end.

(** The finding of a claimed task *)
Definition claimed_finding (c : TaskDispatchClaim) : P SpecialistFinding :=
  match tc_status c with
  | TD_CACHED =>
      match match tc_cached_result c with
            | Some document => decode_finding document ≫= λ f,
                match new_SpecialistFinding f with Ok f => Some f | Raise _ => None end
            | None => None
            end with
      | Some f => Return f
      | None => of_res (abstain_with "cached_task_result_invalid")
      end
  | TD_RECONCILIATION_REQUIRED => of_res (abstain_with (dispatch_value TD_RECONCILIATION_REQUIRED))
  | _ => _execute_specialist
  end.

Definition _assessment_artifact (task : GovernanceArtifact) (f : SpecialistFinding) : res GovernanceArtifact :=
  issued (Some this_task) (sb_assessment_ordinal (binding_of specialist)) (sb_role (binding_of specialist))
    (EvidenceAssessmentPayload this_task (fd_finding_id f) (fd_statement f) (fd_cause_code f)
       (fd_confidence f) (_calibration (fd_confidence f)) (fd_citations f) (fd_abstained f) (fd_reason f)) [task].

(** The finding and its assessment: an assessment the contract refuses becomes an abstention. *)
Definition assessed (task : GovernanceArtifact) (f : SpecialistFinding)
    : res (SpecialistFinding * GovernanceArtifact) :=
  match _assessment_artifact task f with
  | Ok a => Ok (f, a)
  | Raise x =>
      if decide (exn_kind x = ValidationError) then
        f ← abstain_with "assessment_payload_invalid";
        a ← _assessment_artifact task f;
        Ok (f, a)
      else Raise x
  end.

(** The body of the last [try]: the result is recorded, then the artifact. *)
Definition settle (c : TaskDispatchClaim) (f : SpecialistFinding) (assessment : GovernanceArtifact) : P unit :=
  (if decide (tc_status c = TD_STARTED) then
     try_call (Complete (gs_tenant_id st) (gs_run_id st) this_task (tc_fence_token c) (finding_document f))
   else Return tt) ;;'
  _append_artifacts [assessment].

(** [except IntegrityFailure]: a cancelled run ends the node quietly. *)
Definition on_stale (x : exn) : P update :=
  if decide (exn_kind x = IntegrityFailure) then
    stopped ←' _is_cancelled;
    if (stopped : bool) then Return cancelled_update else Throw x
  else Throw x.

Definition node_errors_of (f : SpecialistFinding) : res (list NodeError) :=
  if fd_abstained f then
    e ← new_NodeError {| nd_node := specialist_value specialist; nd_code := reason_of f |}; Ok [e]
  else Ok [].

Definition _run_specialist : P update :=
  c ←' try_call (Claim (gs_tenant_id st) (gs_run_id st) this_task (sb_role (binding_of specialist))
                   (gs_input_digest st));
  if decide (tc_status c = TD_CANCELLED) then Return cancelled_update
  else
    f ←' claimed_finding c;
    task ←' of_res (_artifact AK_INVESTIGATION_TASK (Some this_task));
    fa ←' of_res (assessed task f);
    try_else (settle c fa.1 fa.2) on_stale
      (λ _, errors ←' of_res (node_errors_of fa.1);
            Return {| up_safe_evidence := None; up_correlation := None; up_findings := [fa.1];
                      up_node_errors := errors; up_artifacts := [fa.2]; up_injection_detected := None;
                      up_hypotheses := None; up_critic := None; up_proposal := None;
                      up_terminal_state := None; up_critic_iteration := None; up_cancelled := false |}).
End specialist.

(** *** The critic *)

Definition cancelled_verdict : CriticVerdict :=
  {| cv_decision := CD_ABSTAINED; cv_reasons := ["run_cancelled"]; cv_checked_citations := 0;
     cv_contradictions := []; cv_injection_contained := false |}.

Definition reason_id (reason : string) : string := stable_id "reason" [reason] 24.

Definition critique_artifact (v : CriticVerdict) : res GovernanceArtifact :=
  issued None 30 AR_CRITIC
    (CritiquePayload (cv_decision v) (reason_id <$> cv_reasons v) (cv_checked_citations v) (cv_contradictions v))
    (_artifacts AK_EVIDENCE_ASSESSMENT).

Definition contradiction_artifact (v : CriticVerdict) : res GovernanceArtifact :=
  issued None 31 AR_CRITIC
    (ContradictionPayload (cv_contradictions v) (reason_id (default "contradiction" (head (cv_reasons v)))))
    (_artifacts AK_EVIDENCE_ASSESSMENT).

Definition alternative_causes (h : Hypothesis_) : list string :=
  sorted_set (List.filter (λ c, bool_decide (c ≠ hy_cause_code h)) (omap fd_cause_code (gs_findings st))).

Definition hypothesis_artifact (critique : GovernanceArtifact) (h : Hypothesis_) : res GovernanceArtifact :=
  issued None 32 AR_CRITIC (HypothesisPayload h (alternative_causes h) (_calibration (hy_confidence h))) [critique].

(** The artifacts the critic emits with a verdict and at most one hypothesis *)
Definition critic_artifacts (v : CriticVerdict) (hypotheses : list Hypothesis_) : res (list GovernanceArtifact) :=
  critique ← critique_artifact v;
  contradiction ← (if bool_decide (cv_contradictions v = []) then Ok []
                   else a ← contradiction_artifact v; Ok [a]);
  hypothesis ← match hypotheses with
               | h :: _ => a ← hypothesis_artifact critique h; Ok [a]
               | [] => Ok []
               end;
  Ok (critique :: contradiction ++ hypothesis).

Definition critic_update (v : CriticVerdict) (hypotheses : list Hypothesis_) (emitted : list GovernanceArtifact)
    : update :=
  {| up_safe_evidence := None; up_correlation := None; up_findings := []; up_node_errors := [];
     up_artifacts := emitted; up_injection_detected := None; up_hypotheses := Some hypotheses;
     up_critic := Some v; up_proposal := Some None; up_terminal_state := None; up_critic_iteration := Some 1;
     up_cancelled := false |}.

Definition _critic : P update :=
  if gs_cancelled st then Return (critic_update cancelled_verdict [] [])
  else
    correlation ←' of_res (member "correlation" (gs_correlation st));
    judged ←' of_res (_evaluate_critic (gs_findings st) (gs_evidence st) correlation (gs_injection_detected st));
    emitted ←' of_res (critic_artifacts judged.1 judged.2);
    _append_artifacts emitted ;;'
    Return (critic_update judged.1 judged.2 emitted).

(** [_route_after_critic]: whether the next node is the planner *)
Definition _route_after_critic : res bool :=
  critic ← member "critic" (gs_critic st);
  Ok (bool_decide (cv_decision critic = CD_ACCEPTED) && negb (bool_decide (gs_hypotheses st = []))).

(** *** The planner and the verification agent *)

(** An update of the proposal and the artifacts *)
Definition proposal_update (proposal : option (option RemediationProposal)) (emitted : list GovernanceArtifact)
    : update :=
  {| up_safe_evidence := None; up_correlation := None; up_findings := []; up_node_errors := [];
     up_artifacts := emitted; up_injection_detected := None; up_hypotheses := None; up_critic := None;
     up_proposal := proposal; up_terminal_state := None; up_critic_iteration := None; up_cancelled := false |}.

Definition proposal_artifact (p : RemediationProposal) : res GovernanceArtifact :=
  source ← _artifact AK_HYPOTHESIS None;
  issued None 40 AR_REMEDIATION_PLANNER (RemediationProposalPayload p) [source].

Definition _remediation_planner : P update :=
  hypothesis ←' of_res (of_option (head (gs_hypotheses st)) IndexError "tuple index out of range");
  match _proposal_from_runbook (gs_tenant_id st) (gs_incident_id st) (gs_evidence st) hypothesis with
  | None => Return (proposal_update (Some None) [])
  | Some proposal =>
      a ←' of_res (proposal_artifact proposal);
      _append_artifacts [a] ;;'
      Return (proposal_update (Some (Some proposal)) [a])
  end.

Definition verification_steps : list string :=
  ["After separately approved execution, compare checkout error rate with the cited baseline.";
   "Confirm the deployment version and incident window from fresh authorized evidence.";
   "Record verification through a future effect ledger, never this graph."].

Definition required_evidence_ids : list string :=
  sorted_set (List.filter (λ i, bool_decide (i ∈ ev_evidence_id <$> gs_evidence st))
                (ci_evidence_id <$> (gs_hypotheses st ≫= hy_citations))).

Definition verification_artifact (p : RemediationProposal) : res GovernanceArtifact :=
  source ← _artifact AK_REMEDIATION_PROPOSAL None;
  issued None 50 AR_VERIFICATION_AGENT
    (VerificationPlanPayload (pp_proposal_id p) verification_steps required_evidence_ids) [source].

Definition _verification_agent : P update :=
  match gs_proposal st with
  | None => Return no_update
  | Some proposal =>
      a ←' of_res (verification_artifact proposal);
      _append_artifacts [a] ;;'
      Return (proposal_update None [a])
  end.

(** *** The decision *)

(** What the coordinator decides: the terminal state, the status of the assessment, the reasons,
    the artifacts it rests on, the summary and whether a human is asked. *)
Record coordinator_choice := {
  ch_terminal : OrchestrationTerminalState;
  ch_status : InvestigationStatus;
  ch_reasons : list string;
  ch_source : list GovernanceArtifact;
  ch_summary : string;
  ch_escalate : bool
}.

(** An accepted verdict without a proposal gives its reason. *)
Definition decided_critic (v : CriticVerdict) : CriticVerdict :=
  if bool_decide (cv_decision v = CD_ACCEPTED) && bool_decide (gs_proposal st = None) then
    {| cv_decision := cv_decision v; cv_reasons := ["corroborated_but_no_valid_action"];
       cv_checked_citations := cv_checked_citations v; cv_contradictions := cv_contradictions v;
       cv_injection_contained := cv_injection_contained v |}
  else v.

Definition choose (v : CriticVerdict) : coordinator_choice :=
  if bool_decide (cv_decision v = CD_ACCEPTED) && bool_decide (is_Some (gs_proposal st))
     && negb (bool_decide (_artifacts AK_VERIFICATION_PLAN = [])) && negb (bool_decide (gs_hypotheses st = []))
  then
    {| ch_terminal := OT_COMPLETE; ch_status := IS_COMPLETE; ch_reasons := ["corroborated_and_cited"];
       ch_source := _artifacts AK_VERIFICATION_PLAN;
       ch_summary := "Cited specialist assessments support one remediation proposal and a future verification plan; no approval or production effect occurred.";
       ch_escalate := false |}
  else
    let terminal := if decide (cv_decision v = CD_REJECTED) then OT_ESCALATED else OT_ABSTAINED in
    {| ch_terminal := terminal; ch_status := IS_ABSTAINED;
       ch_reasons := match cv_reasons v with [] => ["no_authorized_proposal"] | reasons => reasons end;
       ch_source := match _artifacts AK_CONTRADICTION with
                    | [] => _artifacts AK_CRITIQUE
                    | contradictions => contradictions
                    end;
       ch_summary := "The governed investigation abstained or escalated because evidence, citations, confidence, or critic gates did not support a proposal.";
       ch_escalate := bool_decide (terminal = OT_ESCALATED) |}.

Definition decision_artifact (c : coordinator_choice) : res GovernanceArtifact :=
  issued None 60 AR_COORDINATOR
    (CoordinatorDecisionPayload (ch_terminal c) (reason_id <$> ch_reasons c)
       (hy_hypothesis_id <$> head (gs_hypotheses st)) (pp_proposal_id <$> gs_proposal st)) (ch_source c).

Definition final_artifact (c : coordinator_choice) (decision : GovernanceArtifact) : res GovernanceArtifact :=
  issued None 61 AR_COORDINATOR
    (FinalAssessmentPayload (ch_status c) (ch_summary c) (hy_hypothesis_id <$> gs_hypotheses st)
       (pp_proposal_id <$> gs_proposal st) (ch_escalate c)) [decision].

Definition decision_update (t : OrchestrationTerminalState) (v : CriticVerdict) (emitted : list GovernanceArtifact)
    : update :=
  {| up_safe_evidence := None; up_correlation := None; up_findings := []; up_node_errors := [];
     up_artifacts := emitted; up_injection_detected := None; up_hypotheses := None; up_critic := Some v;
     up_proposal := None; up_terminal_state := Some t; up_critic_iteration := None; up_cancelled := false |}.

Definition _coordinator_decision : P update :=
  critic ←' of_res (member "critic" (gs_critic st));
  if gs_cancelled st then Return (decision_update OT_CANCELLED critic [])
  else
    let v := decided_critic critic in
    let c := choose v in
    decision ←' of_res (decision_artifact c);
    final ←' of_res (final_artifact c decision);
    _append_artifacts [decision; final] ;;'
    Return (decision_update (ch_terminal c) v [decision; final]).
End nodes.

(** ** Supersteps

    The nodes that are ready run at once, each on the state before the step; the engine then
    applies the updates they return, in an order of its own.  Other processes use the same
    ledger meanwhile. *)

(** The order in which the engine applies the updates of a step *)
Class UpdateOrder := arrange : list update → list update.
Class UpdateOrderLaws `{!UpdateOrder} : Prop := arrange_perm us : arrange us ≡ₚ us.

Definition model_answer : Set := res (option SpecialistFinding).

Inductive graph_turn := Node (i : nat) (answer : model_answer) | Elsewhere (c : ledger_call).

Section engine.
Context {HDigest : Digest} {HFloat : FloatJson} {HDecode : FindingDecoder} {HOrder : UpdateOrder}.

(** An operation of node [i], when the model answers [e] *)
Definition graph_handle (e : model_answer) (i : nat) (R : Set) (o : graph_op R)
    : orchestration_ledger → R * orchestration_ledger :=
  match o with
  | Claim tenant_id run_id task_id role input_digest => claim_task tenant_id run_id task_id role input_digest
  | Complete tenant_id run_id task_id fence_token result =>
      complete_task tenant_id run_id task_id fence_token result
  | Append tenant_id run_id fence_token items => append_artifacts tenant_id run_id fence_token items
  | RunProjection tenant_id run_id => λ l, (projection l tenant_id run_id, l)
  | Analyze task => λ l, (e, l)
  end.

Definition graph_move (t : graph_turn) : move (W := orchestration_ledger) (E := model_answer) :=
  match t with
  | Node i e => Thread i e
  | Elsewhere c => Outside (λ l, (run_call c l).2)
  end.

(** The answer of a step: an exception of one of its nodes, or, when all have ended, their updates *)
Definition raised_by {A : Set} (p : P A) : option exn := match p with Throw x => Some x | _ => None end.
Definition returned_by {A : Set} (p : P A) : option A := match p with Return a => Some a | _ => None end.

Definition collected {A : Set} (threads : list (P A)) : option (res (list A)) :=
  match omap raised_by threads with
  | x :: _ => Some (Raise x)
  | [] => Ok <$> mapM returned_by threads
  end.

(** [None]: the schedule ended before the step did *)
Definition superstep (nodes : list (InvestigationState → P update)) (turns : list graph_turn)
    (st : InvestigationState) (l : orchestration_ledger) : option (res InvestigationState) * orchestration_ledger :=
  let s := run_pool graph_handle (graph_move <$> turns) ((λ node, node st) <$> nodes, l) in
  ((λ updates, us ← updates; foldM apply_update st (arrange us)) <$> collected s.1, s.2).

Definition and_then (m : option (res InvestigationState) * orchestration_ledger)
    (f : InvestigationState → orchestration_ledger → option (res InvestigationState) * orchestration_ledger)
    : option (res InvestigationState) * orchestration_ledger :=
  match m with
  | (Some (Ok st), l) => f st l
  | m => m
  end.

(** The edges of [_build_graph]; the schedule gives the turns of each step. *)
Definition invoke_graph (schedule : nat → list graph_turn) (st : InvestigationState) (l : orchestration_ledger)
    : option (res InvestigationState) * orchestration_ledger :=
  and_then (superstep [_coordinator] (schedule 0%nat) st l) (λ st l,
  and_then (superstep ((λ s st, _run_specialist st s) <$> specialists) (schedule 1%nat) st l) (λ st l,
  and_then (superstep [_critic] (schedule 2%nat) st l) (λ st l,
    match _route_after_critic st with
    | Raise x => (Some (Raise x), l)
    | Ok true =>
        and_then (superstep [_remediation_planner] (schedule 3%nat) st l) (λ st l,
        and_then (superstep [_verification_agent] (schedule 4%nat) st l) (λ st l,
        superstep [_coordinator_decision] (schedule 5%nat) st l))
    | Ok false => superstep [_coordinator_decision] (schedule 3%nat) st l
    end))).

(** ** The investigator *)

(** A request for approval of a proposal; its status is the literal "pending". *)
Record ApprovalRequest := {
  ap_approval_id : string;
  ap_proposal_id : string;
  ap_tenant_id : string;
  ap_required_roles : list string;
  ap_created_at : datetime
}.

Definition ApprovalRequest_ok (a : ApprovalRequest) : bool :=
  forallb Identifier (ap_approval_id a :: ap_proposal_id a :: ap_tenant_id a :: ap_required_roles a).

Record InvestigationResult := {
  vr_status : InvestigationStatus;
  vr_tenant_id : string;
  vr_incident_id : string;
  vr_run_id : string;
  vr_request_id : string;
  vr_thread_ref : string;
  vr_hypotheses : list Hypothesis_;
  vr_critic : CriticVerdict;
  vr_proposal : option RemediationProposal;
  vr_artifacts : list GovernanceArtifact;
  vr_approval : option ApprovalRequest;
  vr_replayed : bool
}.

Definition InvestigationResult_ok (r : InvestigationResult) : bool :=
  forallb Identifier [vr_tenant_id r; vr_incident_id r; vr_run_id r; vr_request_id r; vr_thread_ref r]
  && count_range 0 64 (vr_artifacts r).

Definition new_InvestigationResult (r : InvestigationResult) : res InvestigationResult :=
  validated InvestigationResult_ok "InvestigationResult" r.

Record graph_world := { gw_ledger : orchestration_ledger; gw_threads : gmap string string }.

Definition put_ledger (l : orchestration_ledger) (w : graph_world) : graph_world :=
  {| gw_ledger := l; gw_threads := gw_threads w |}.
Definition on_ledger {A} (m : M orchestration_ledger A) : M graph_world A := zoom gw_ledger put_ledger m.

(** [self._thread_tenants.setdefault(thread_ref, tenant_id)] *)
Definition own_thread (thread_ref tenant_id : string) : M graph_world string :=
  w ← get;
  let owner := default tenant_id (gw_threads w !! thread_ref) in
  modify (λ w, {| gw_ledger := gw_ledger w; gw_threads := <[thread_ref := owner]> (gw_threads w) |});;
  mret owner.

Definition initial_state (tenant_id : string) (request : InvestigationRequest)
    (request_id run_id thread_ref input_digest fence_token : string) (evidence : list Evidence)
    : InvestigationState :=
  {| gs_tenant_id := tenant_id; gs_incident_id := ir_incident_id request; gs_run_id := run_id;
     gs_request_id := request_id; gs_thread_ref := thread_ref; gs_graph_version := GRAPH_VERSION;
     gs_input_digest := input_digest; gs_fence_token := fence_token;
     gs_correlation_reference := ca_observed_at (ir_alert request);
     gs_evidence := py_sorted evidence_by_id evidence; gs_safe_evidence := None; gs_correlation := None;
     gs_findings := []; gs_node_errors := []; gs_artifacts := []; gs_injection_detected := false;
     gs_hypotheses := []; gs_critic := None; gs_proposal := None; gs_terminal_state := None;
     gs_critic_iteration := 0; gs_cancelled := false |}.

Definition _validate_checkpoint_binding (existing : InvestigationState)
    (tenant_id run_id request_id graph_version input_digest : string) : res unit :=
  raise_if (bool_decide (gs_tenant_id existing ≠ tenant_id) || bool_decide (gs_run_id existing ≠ run_id)
            || bool_decide (gs_request_id existing ≠ request_id)
            || bool_decide (gs_graph_version existing ≠ graph_version)
            || bool_decide (gs_input_digest existing ≠ input_digest)) OrchestrationFailure
    "checkpoint graph version or run binding mismatch".

(** [except (KeyError, TypeError, ValidationError, ValueError)] *)
Definition invalid_state (x : exn) : bool :=
  bool_decide (exn_kind x ∈ [KeyError; TypeError; ValidationError; ValueError]).

Definition status_of (t : OrchestrationTerminalState) : InvestigationStatus :=
  match t with OT_COMPLETE => IS_COMPLETE | OT_CANCELLED => IS_CANCELLED | _ => IS_ABSTAINED end.

Definition _result (st : InvestigationState) (request : InvestigationRequest)
    (request_id run_id thread_ref : string) (replayed : bool) : M graph_world InvestigationResult :=
  critic_terminal ← lift (match gs_critic st, gs_terminal_state st with
                          | Some critic, Some terminal => Ok (critic, terminal)
                          | _, _ => raise OrchestrationFailure "LangGraph returned invalid state"
                          end);
  items ← on_ledger (artifacts (gs_tenant_id st) run_id);
  lift (new_InvestigationResult
    {| vr_status := status_of critic_terminal.2; vr_tenant_id := gs_tenant_id st;
       vr_incident_id := ir_incident_id request; vr_run_id := run_id; vr_request_id := request_id;
       vr_thread_ref := thread_ref; vr_hypotheses := gs_hypotheses st; vr_critic := critic_terminal.1;
       vr_proposal := gs_proposal st; vr_artifacts := items; vr_approval := None;
       vr_replayed := replayed |}).

Definition _cancelled_result (tenant_id : string) (request : InvestigationRequest)
    (request_id run_id thread_ref : string) : M graph_world InvestigationResult :=
  items ← on_ledger (artifacts tenant_id run_id);
  lift (new_InvestigationResult
    {| vr_status := IS_CANCELLED; vr_tenant_id := tenant_id; vr_incident_id := ir_incident_id request;
       vr_run_id := run_id; vr_request_id := request_id; vr_thread_ref := thread_ref; vr_hypotheses := [];
       vr_critic := cancelled_verdict; vr_proposal := None; vr_artifacts := items; vr_approval := None;
       vr_replayed := false |}).

(** The compiled graph and its checkpoints are LangGraph's: [get_state] is what the checkpoint of
    the thread holds, [invoke] what an invocation does to the ledger and returns, [invoke None]
    when it goes on from the checkpoint. *)
Section run.
Context (get_state : res (option InvestigationState)).
Context (invoke : option InvestigationState → M orchestration_ledger InvestigationState).

(** The body of the [try]: a state, or the result of a run that had ended. *)
Definition resume_or_start (request : InvestigationRequest) (initial : InvestigationState)
    : M graph_world (InvestigationState + InvestigationResult) :=
  existing ← lift get_state;
  match existing with
  | None => st ← on_ledger (invoke (Some initial)); mret (inl st)
  | Some existing =>
      lift (_validate_checkpoint_binding existing (gs_tenant_id initial) (gs_run_id initial)
              (gs_request_id initial) GRAPH_VERSION (gs_input_digest initial));;
      if decide (is_Some (gs_terminal_state existing)) then
        r ← _result existing request (gs_request_id initial) (gs_run_id initial) (gs_thread_ref initial) true; mret (inr r)
      else st ← on_ledger (invoke None); mret (inl st)
  end.

(** The [except] clauses *)
Definition on_failure (request : InvestigationRequest) (initial : InvestigationState) (x : exn)
    : M graph_world InvestigationResult :=
  if decide (exn_kind x = OrchestrationFailure) then lift (Raise x)
  else if invalid_state x then lift (raise OrchestrationFailure "LangGraph checkpoint or state is invalid")
  else
    w ← get;
    match projection (gw_ledger w) (gs_tenant_id initial) (gs_run_id initial) with
    | Some current =>
        if or_cancelled current then
          _cancelled_result (gs_tenant_id initial) request (gs_request_id initial) (gs_run_id initial)
            (gs_thread_ref initial)
        else lift (raise OrchestrationFailure "LangGraph invocation failed")
    | None => lift (raise OrchestrationFailure "LangGraph invocation failed")
    end.

Definition run_bound (request : InvestigationRequest) (initial : InvestigationState)
    : M graph_world InvestigationResult := λ w,
  match resume_or_start request initial w with
  | (Ok (inl st), w) =>
      _result st request (gs_request_id initial) (gs_run_id initial) (gs_thread_ref initial) false w
  | (Ok (inr r), w) => (Ok r, w)
  | (Raise x, w) => on_failure request initial x w
  end.

(** [LangGraphInvestigator.run]; an absent or empty [run_id] is the request's. *)
Definition run (tenant_id : string) (request : InvestigationRequest) (request_id : string)
    (run_id : option string) (thread_ref : string) (evidence : list Evidence)
    : M graph_world InvestigationResult :=
  let bound_run_id := match run_id with Some (String c t) => String c t | _ => request_id end in
  owner ← own_thread thread_ref tenant_id;
  lift (raise_if (bool_decide (owner ≠ tenant_id)) OrchestrationFailure "checkpoint thread tenant mismatch");;
  let input_digest := orchestration_input_digest tenant_id (ir_incident_id request) bound_run_id
                        (ev_content_hash <$> evidence) in
  started ← on_ledger (begin_run tenant_id (ir_incident_id request) bound_run_id thread_ref GRAPH_VERSION
                         input_digest);
  let initial := initial_state tenant_id request request_id bound_run_id thread_ref input_digest
                   (or_fence_token started) evidence in
  run_bound request initial.
End run.

Definition cancel_run (tenant_id run_id : string) : M graph_world unit :=
  w ← get;
  match projection (gw_ledger w) tenant_id run_id with
  | Some _ => on_ledger (cancel tenant_id run_id)
  | None => mret tt
  end.
End engine.
