(* ===== verification/Service.v ===== *)
(** * The application service ([service.py], [adapters.py])

    [InvestigationService.investigate] as a thread over the ports of the application: the policy,
    the request ledger, the audit, the budget, the evidence, the orchestrator and the approval
    boundary.  The in-memory adapters are defined here; the policy, the evidence and the
    orchestrator answer anything. *)

From S2P Require Import Prelude PyJson PyFloat PyTime PyText PyModel PyProg Domain Authorization RemediationData Evidence Investigation Orchestration Graph.

(** ** Policies *)

Definition local_decision (allowed : bool) (policy_id purpose : string) (risk : RiskLevel) (reason : string)
    : PolicyDecision :=
  {| pd_allowed := allowed; pd_policy_id := policy_id; pd_policy_revision := 1; pd_purpose := purpose;
     pd_risk := risk; pd_reason := reason |}.

(** [DenyAllPolicy.authorize] *)
Definition deny_all_authorize (identity : IdentityContext) (action : Action)
    (resource_tenant_id purpose : string) (risk : RiskLevel) : PolicyDecision :=
  local_decision false "deny-all:v1" purpose risk "no_explicit_grant".

(** [RolePolicy.authorize] *)
Definition role_authorize (identity : IdentityContext) (action : Action)
    (resource_tenant_id purpose : string) (risk : RiskLevel) : PolicyDecision :=
  let decide_ allowed reason := local_decision allowed "role-policy:v1" purpose risk reason in
  if decide (ic_tenant_id identity ≠ resource_tenant_id) then decide_ false "tenant_mismatch"
  else if existsb (λ g, bool_decide (gb_purpose g = purpose)
                        && bool_decide (action_value action ∈ gb_permissions g)) (ic_grants identity)
  then decide_ true "explicit_role_grant"
  else decide_ false "action_or_purpose_not_granted".

(** ** The request ledger ([InMemoryIdempotency]) *)

Inductive run_status := RUN_IN_PROGRESS | RUN_COMPLETED | RUN_FAILED.
#[export] Instance run_status_eq_dec : EqDecision run_status.
Proof. solve_decision. Defined.

Record RunRecord := {
  rr_fingerprint : string;
  rr_attempt : Z;
  rr_status : run_status;
  rr_result : option InvestigationResult;
  rr_failure_code : option string
}.

Inductive RunClaimStatus := CL_STARTED | CL_COMPLETED | CL_RETRY | CL_IN_PROGRESS.
#[export] Instance RunClaimStatus_eq_dec : EqDecision RunClaimStatus.
Proof. solve_decision. Defined.

Record RunClaim := { rl_status : RunClaimStatus; rl_attempt : Z; rl_result : option InvestigationResult }.

Abbreviation run_ledger := (gmap (string * string) RunRecord).

Definition claim (status : RunClaimStatus) (attempt : Z) (result : option InvestigationResult) : RunClaim :=
  {| rl_status := status; rl_attempt := attempt; rl_result := result |}.

(** [record.attempt += 1; record.status = "in_progress"; record.failure_code = None] *)
Definition reopened (r : RunRecord) : RunRecord :=
  {| rr_fingerprint := rr_fingerprint r; rr_attempt := rr_attempt r + 1; rr_status := RUN_IN_PROGRESS;
     rr_result := rr_result r; rr_failure_code := None |}.

Definition acquire (tenant_id request_id fingerprint : string) : M run_ledger RunClaim :=
  let key := (tenant_id, request_id) in
  l ← get;
  match l !! key with
  | None =>
      modify <[key := {| rr_fingerprint := fingerprint; rr_attempt := 1; rr_status := RUN_IN_PROGRESS;
                         rr_result := None; rr_failure_code := None |}]>;;
      mret (claim CL_STARTED 1 None)
  | Some record =>
      lift (raise_if (bool_decide (rr_fingerprint record ≠ fingerprint)) IdempotencyConflict
              "request_id was reused with different input");;
      match rr_status record with
      | RUN_COMPLETED =>
          result ← lift (of_option (rr_result record) IdempotencyConflict "completed request has no stored result");
          mret (claim CL_COMPLETED (rr_attempt record) (Some result))
      | RUN_IN_PROGRESS => mret (claim CL_IN_PROGRESS (rr_attempt record) None)
      | RUN_FAILED =>
          modify <[key := reopened record]>;;
          mret (claim CL_RETRY (rr_attempt record + 1) None)
      end
  end.

Definition owned_run (l : run_ledger) (key : string * string) : res RunRecord :=
  match l !! key with
  | Some r => if decide (rr_status r = RUN_IN_PROGRESS) then Ok r
              else raise IdempotencyConflict "request is not owned by an active run"
  | None => raise IdempotencyConflict "request is not owned by an active run"
  end.

Definition complete_run (tenant_id request_id : string) (result : InvestigationResult) : M run_ledger unit :=
  l ← get;
  r ← lift (owned_run l (tenant_id, request_id));
  modify <[(tenant_id, request_id) :=
    {| rr_fingerprint := rr_fingerprint r; rr_attempt := rr_attempt r; rr_status := RUN_COMPLETED;
       rr_result := Some result; rr_failure_code := rr_failure_code r |}]>.

Definition fail_run (tenant_id request_id code : string) : M run_ledger unit :=
  l ← get;
  r ← lift (owned_run l (tenant_id, request_id));
  modify <[(tenant_id, request_id) :=
    {| rr_fingerprint := rr_fingerprint r; rr_attempt := rr_attempt r; rr_status := RUN_FAILED;
       rr_result := rr_result r; rr_failure_code := Some code |}]>.

(** ** The budget ([InMemoryBudget]) *)

Record BudgetDecision := {
  bd_allowed : bool;
  bd_reservation_id : string;
  bd_requested_units : Z;
  bd_remaining_units : Z;
  bd_reason : string
}.

Definition BudgetDecision_ok (d : BudgetDecision) : bool :=
  (0 <? bd_requested_units d) && (0 <=? bd_remaining_units d).

Record budget := {
  bu_remaining : gmap string Z;
  bu_default_limit : Z;
  bu_reservations : gmap (string * string) BudgetDecision
}.

Definition new_budget (limits : gmap string Z) (default_limit : Z) : budget :=
  {| bu_remaining := limits; bu_default_limit := default_limit; bu_reservations := ∅ |}.

Definition remaining_units (b : budget) (tenant_id : string) : Z :=
  default (bu_default_limit b) (bu_remaining b !! tenant_id).

Definition reserve_units (tenant_id reservation_id : string) (units : Z) : M budget BudgetDecision :=
  lift (raise_if (units <=? 0) ValueError "budget reservation units must be positive");;
  b ← get;
  match bu_reservations b !! (tenant_id, reservation_id) with
  | Some existing => mret existing
  | None =>
      let remaining := remaining_units b tenant_id in
      let allowed := units <=? remaining in
      let new_remaining := if allowed then remaining - units else remaining in
      decision ← lift (validated BudgetDecision_ok "BudgetDecision"
        {| bd_allowed := allowed; bd_reservation_id := reservation_id; bd_requested_units := units;
           bd_remaining_units := new_remaining;
           bd_reason := if allowed then "reserved" else "tenant_budget_exhausted" |});
      modify (λ b, {| bu_remaining := if allowed then <[tenant_id := new_remaining]> (bu_remaining b)
                                      else bu_remaining b;
                      bu_default_limit := bu_default_limit b;
                      bu_reservations := <[(tenant_id, reservation_id) := decision]> (bu_reservations b) |});;
      mret decision
  end.

(** ** Evidence ([InMemoryEvidence]) *)

Definition collect_evidence (items : gmap (string * string) (list Evidence)) (identity : IdentityContext)
    (request : InvestigationRequest) : list Evidence :=
  py_sorted evidence_by_id (default [] (items !! (ic_tenant_id identity, ir_incident_id request))).

Section audit.
Context {HDigest : Digest}.

(** ** The audit ([HashChainAudit]) *)

Record AuditRecord := {
  ad_event_id : string;
  ad_sequence : Z;
  ad_tenant_id : string;
  ad_event_type : string;
  ad_actor_ref : string;
  ad_principal_kind : PrincipalKind;
  ad_recorded_at : datetime;
  ad_attributes : payload;
  ad_previous_hash : string;
  ad_record_hash : string
}.

Record audit_log := { au_records : list AuditRecord; au_heads : gmap string (Z * string) }.

Definition new_audit : audit_log := {| au_records := []; au_heads := ∅ |}.

Definition _SAFE_AUDIT_KEYS : list string :=
  ["approval_required"; "attempt"; "citation_count"; "error_code"; "evidence_count"; "policy_id";
   "policy_revision"; "reason"; "request_ref"; "operation"; "record_count"; "status"].

(** [safe_audit_attributes]; the attributes are a dict of strings, integers and booleans *)
Definition safe_audit_attributes (attributes : payload) : payload :=
  py_sorted key_leb
    ((λ kv, (kv.1, match kv.2 with JStr s => JStr (str_take 128 s) | v => v end))
     <$> List.filter (λ kv, bool_decide (kv.1 ∈ _SAFE_AUDIT_KEYS)) attributes).

(** ** Redaction *)

Definition _SENSITIVE_KEY_PARTS : list string :=
  ["authorization"; "cookie"; "credential"; "evidence"; "password"; "prompt"; "raw"; "secret"; "token"; "untrusted"].

Definition _SAFE_OBSERVABILITY_KEYS : list string :=
  ["operation"; "status"; "scenario"; "evidence_count"; "finding_count"; "citation_count"; "injection_detected";
   "replayed"; "error_code"; "connector_kind"; "page_count"; "record_count"; "quarantined_count"; "rate_limited";
   "reconciliation_required"; "stale_result"; "node"; "role"; "artifact_count"; "critic_decision"; "action_kind";
   "approval_status"; "effect_outcome"; "verification_status"; "rollback"; "sandbox_outcome"; "artifact_disposition";
   "output_file_count"; "output_byte_bucket"; "cleanup_status"; "runtime_profile"; "memory_tier"; "memory_outcome";
   "candidate_count"; "chunk_count"; "cache_hit"; "context_token_bucket"; "purged_count"; "protocol_kind";
   "transport_kind"; "trust_status"; "task_state"; "risk"; "version_family"].

Definition safe_observability_attributes (attributes : payload) : payload :=
  List.filter (λ kv, bool_decide (kv.1 ∈ _SAFE_OBSERVABILITY_KEYS)) attributes.

Definition sensitive_key (key : string) : bool :=
  existsb (λ part, str_contains part (str_lower key)) _SENSITIVE_KEY_PARTS.

(** [redact_value] on a document, whose keys are strings *)
Fixpoint redact_value (value : json) : json :=
  match value with
  | JObj o => JObj ((λ kv, (kv.1, if sensitive_key kv.1 then JStr "[REDACTED]" else redact_value kv.2)) <$> o)
  | JList l => JList (redact_value <$> l)
  | v => v
  end.

(** [int(s, 16)] on lower-case hexadecimal digits *)
Fixpoint int_of_hex (acc : Z) (s : string) : Z :=
  match s with
  | "" => acc
  | String c s => int_of_hex (16 * acc + Z.of_N (if is_digit c then N_of_ascii c - 48 else N_of_ascii c - 87)) s
  end.

(** [tenant_bucket], for a number of buckets other than 0, which raises [ZeroDivisionError] *)
Definition tenant_bucket `{Digest} (tenant_id : string) (buckets : Z) : string :=
  let value := int_of_hex 0 (str_take 8 (hexdigest (utf8 tenant_id))) mod buckets in
  if (0 <=? value) && (value <? 10) then "0" +:+ str_of_int value else str_of_int value.

Definition zero_hash : string := str_repeat 64 "0".

Definition tenant_head (heads : gmap string (Z * string)) (tenant_id : string) : Z * string :=
  default (0, zero_hash) (heads !! tenant_id).

(** The document both [append] and [verify] hash *)
Definition audit_document (r : AuditRecord) (previous_hash : string) : json :=
  JObj [("event_id", JStr (ad_event_id r)); ("sequence", JInt (ad_sequence r));
        ("tenant_id", JStr (ad_tenant_id r)); ("event_type", JStr (ad_event_type r));
        ("actor_ref", JStr (ad_actor_ref r));
        ("principal_kind", JStr (principal_kind_value (ad_principal_kind r)));
        ("recorded_at", JStr (isoformat (ad_recorded_at r))); ("attributes", JObj (ad_attributes r));
        ("previous_hash", JStr previous_hash)].

Definition audit_hash (r : AuditRecord) (previous_hash : string) : string :=
  hexdigest (utf8 (canonical_json (audit_document r previous_hash))).

Definition audit_record (identity : IdentityContext) (event_type : string) (attributes : payload)
    (recorded_at : datetime) (sequence : Z) (previous_hash record_hash : string) : AuditRecord :=
  {| ad_event_id := stable_id "audit" [ic_tenant_id identity; str_of_int sequence; event_type;
                                       isoformat recorded_at] 32;
     ad_sequence := sequence; ad_tenant_id := ic_tenant_id identity; ad_event_type := event_type;
     ad_actor_ref := actor_ref identity; ad_principal_kind := ic_principal_kind identity;
     ad_recorded_at := recorded_at; ad_attributes := safe_audit_attributes attributes;
     ad_previous_hash := previous_hash; ad_record_hash := record_hash |}.

Definition audit_append (identity : IdentityContext) (event_type : string) (attributes : payload)
    (recorded_at : datetime) (l : audit_log) : audit_log :=
  let '(previous_sequence, previous_hash) := tenant_head (au_heads l) (ic_tenant_id identity) in
  let unsealed := audit_record identity event_type attributes recorded_at (previous_sequence + 1)
                    previous_hash "" in
  let record := audit_record identity event_type attributes recorded_at (previous_sequence + 1)
                  previous_hash (audit_hash unsealed previous_hash) in
  {| au_records := au_records l ++ [record];
     au_heads := <[ic_tenant_id identity := (ad_sequence record, ad_record_hash record)]> (au_heads l) |}.

Definition records_for (tenant_id : string) (l : audit_log) : list AuditRecord :=
  List.filter (λ r, bool_decide (ad_tenant_id r = tenant_id)) (au_records l).

(** One round of the loop of [verify]: the heads after the record, or nothing when it does not fit *)
Definition verify_record (heads : option (gmap string (Z * string))) (r : AuditRecord)
    : option (gmap string (Z * string)) :=
  heads ← heads;
  let '(previous_sequence, previous_hash) := tenant_head heads (ad_tenant_id r) in
  if bool_decide (ad_sequence r ≠ previous_sequence + 1) || bool_decide (ad_previous_hash r ≠ previous_hash)
     || bool_decide (ad_record_hash r ≠ audit_hash r previous_hash)
  then None
  else Some (<[ad_tenant_id r := (ad_sequence r, ad_record_hash r)]> heads).

Definition audit_verify (l : audit_log) : bool :=
  bool_decide (is_Some (foldl verify_record (Some ∅) (au_records l))).
End audit.

Record AuditEventView := {
  av_event_id : string;
  av_sequence : Z;
  av_event_type : string;
  av_actor_ref : string;
  av_principal_kind : PrincipalKind;
  av_recorded_at : datetime;
  av_attributes : payload;
  av_previous_hash : string;
  av_record_hash : string
}.

Definition AuditEventView_ok (v : AuditEventView) : bool :=
  forallb Identifier [av_event_id v; av_event_type v; av_actor_ref v] && (1 <=? av_sequence v)
  && is_sha256_hex (av_previous_hash v) && is_sha256_hex (av_record_hash v).

Definition audit_view (r : AuditRecord) : res AuditEventView :=
  validated AuditEventView_ok "AuditEventView"
    {| av_event_id := ad_event_id r; av_sequence := ad_sequence r; av_event_type := ad_event_type r;
       av_actor_ref := ad_actor_ref r; av_principal_kind := ad_principal_kind r; av_recorded_at := ad_recorded_at r;
       av_attributes := ad_attributes r; av_previous_hash := ad_previous_hash r; av_record_hash := ad_record_hash r |}.

(** [InMemoryGovernance.list_audit] *)
Definition list_audit (identity : IdentityContext) (limit : Z) (l : audit_log) : res (list AuditEventView) :=
  raise_if ((limit <? 1) || (100 <? limit)) ValueError "audit limit is outside the permitted range";;
  let records := records_for (ic_tenant_id identity) l in
  traverse audit_view (drop (length records - Z.to_nat limit) records).

(** ** Effects are disabled ([DisabledEffectAdapter]); [Approval] is the type of approval grants, [Receipt] of receipts *)

Definition disabled_execute {Approval Receipt : Type} (identity : IdentityContext) (p : RemediationProposal)
    (approval : Approval) : res Receipt :=
  raise EffectsDisabled "production effects are disabled in Layer 1".

(** ** The approval boundary ([InMemoryApprovalBoundary])

    Its dict is not locked: [open_request] looks it up, reads the clock and stores. *)

Abbreviation approvals := (gmap (string * string) ApprovalRequest).

Definition new_approval `{Digest} (identity : IdentityContext) (p : RemediationProposal) (now : datetime)
    : res ApprovalRequest :=
  validated ApprovalRequest_ok "ApprovalRequest"
    {| ap_approval_id := stable_id "approval" [ic_tenant_id identity; pp_proposal_id p] 24;
       ap_proposal_id := pp_proposal_id p; ap_tenant_id := ic_tenant_id identity;
       ap_required_roles := ["incident-commander"]; ap_created_at := now |}.

(** ** Operations of a thread *)

Inductive app_op : Set → Set :=
  | Now : app_op datetime
  | Authorize (identity : IdentityContext) (action : Action) (resource_tenant_id purpose : string)
      (risk : RiskLevel) : app_op PolicyDecision
  | Audit (identity : IdentityContext) (event_type : string) (attributes : payload) : app_op unit
  | Acquire (tenant_id request_id fingerprint : string) : app_op (res RunClaim)
  | ReserveUnits (tenant_id reservation_id : string) (units : Z) : app_op (res BudgetDecision)
  | Collect (identity : IdentityContext) (request : InvestigationRequest) : app_op (res (list Evidence))
  | Orchestrate (tenant_id : string) (request : InvestigationRequest) (request_id run_id thread_ref : string)
      (evidence : list Evidence) : app_op (res InvestigationResult)
  | PendingApproval (key : string * string) : app_op (option ApprovalRequest)
  | StoreApproval (key : string * string) (a : ApprovalRequest) : app_op unit
  | CompleteRun (tenant_id request_id : string) (result : InvestigationResult) : app_op (res unit)
  | FailRun (tenant_id request_id code : string) : app_op (res unit)
  | Finish (status : string) (attributes : payload) : app_op unit.

Notation App A := (prog app_op exn A).

Definition from_res {A : Set} (r : res A) : App A :=
  match r with Ok a => Return a | Raise e => Throw e end.
Definition try_port {A : Set} (o : app_op (res A)) : App A := r ←' call o; from_res r.

Section service.
Context {HDigest : Digest}.

Definition _INVESTIGATION_BUDGET_UNITS : Z := 5.

(** [open_request]; a proposal's [requires_approval] is the literal [True], so its guard never raises. *)
Definition open_request (identity : IdentityContext) (p : RemediationProposal) : App ApprovalRequest :=
  let key := (ic_tenant_id identity, pp_proposal_id p) in
  existing ←' call (PendingApproval key);
  match existing with
  | Some existing => Return existing
  | None =>
      now ←' call Now;
      approval ←' from_res (new_approval identity p now);
      call (StoreApproval key approval) ;;'
      Return approval
  end.

Definition _request_ref (identity : IdentityContext) : string :=
  stable_id "request" [ic_tenant_id identity; ic_request_id identity] 32.

Definition thread_ref_of (identity : IdentityContext) (incident_id : string) : string :=
  stable_id "thread" [ic_tenant_id identity; incident_id; ic_request_id identity] 32.
Definition run_id_of (identity : IdentityContext) (incident_id : string) : string :=
  stable_id "run" [ic_tenant_id identity; incident_id; ic_request_id identity] 32.

(** [sha256(request.model_dump_json().encode()).hexdigest()] *)
Definition request_fingerprint (r : InvestigationRequest) : string := hexdigest (utf8 (pr (request_json r) "")).

(** One round of the loop of [validate_evidence] *)
Definition validate_item (item : Evidence) : res unit :=
  match ev_provenance_digest item with
  | Some _ =>
      raise_if (match ev_untrusted_text item with
                | None => true
                | Some text => bool_decide (hexdigest (utf8 text) ≠ ev_content_hash item)
                end) EvidenceUnavailable "normalized evidence content hash validation failed"
  | None =>
      raise_if (bool_decide (ev_content_hash item ≠ evidence_hash (ev_tenant_id item) (ev_kind item)
                               (ev_locator item) (ev_observed_at item) (ev_facts item)))
        EvidenceUnavailable "evidence content hash validation failed"
  end.

Definition validate_evidence (identity : IdentityContext) (collected : list Evidence) : res unit :=
  raise_if (existsb (λ e, bool_decide (ev_tenant_id e ≠ ic_tenant_id identity)) collected)
    EvidenceIsolationViolation "evidence adapter returned cross-tenant data";;
  raise_if (negb (no_dups (ev_evidence_id <$> collected))) EvidenceUnavailable
    "evidence adapter returned duplicate evidence ids";;
  each_ok validate_item collected.

Definition _budget_abstention (identity : IdentityContext) (request : InvestigationRequest)
    (run_id thread_ref : string) : res InvestigationResult :=
  critic ← verdict CD_ABSTAINED ["tenant_budget_exhausted"] 0 [] false;
  new_InvestigationResult
    {| vr_status := IS_ABSTAINED; vr_tenant_id := ic_tenant_id identity; vr_incident_id := ir_incident_id request;
       vr_run_id := run_id; vr_request_id := ic_request_id identity; vr_thread_ref := thread_ref;
       vr_hypotheses := []; vr_critic := critic; vr_proposal := None; vr_artifacts := []; vr_approval := None;
       vr_replayed := false |}.

(** [result.model_copy(update={"approval": approval})] *)
Definition with_approval (approval : ApprovalRequest) (r : InvestigationResult) : InvestigationResult :=
  {| vr_status := vr_status r; vr_tenant_id := vr_tenant_id r; vr_incident_id := vr_incident_id r;
     vr_run_id := vr_run_id r; vr_request_id := vr_request_id r; vr_thread_ref := vr_thread_ref r;
     vr_hypotheses := vr_hypotheses r; vr_critic := vr_critic r; vr_proposal := vr_proposal r;
     vr_artifacts := vr_artifacts r; vr_approval := Some approval; vr_replayed := vr_replayed r |}.

(** [claim.result.model_copy(update={"replayed": True})] *)
Definition replayed (r : InvestigationResult) : InvestigationResult :=
  {| vr_status := vr_status r; vr_tenant_id := vr_tenant_id r; vr_incident_id := vr_incident_id r;
     vr_run_id := vr_run_id r; vr_request_id := vr_request_id r; vr_thread_ref := vr_thread_ref r;
     vr_hypotheses := vr_hypotheses r; vr_critic := vr_critic r; vr_proposal := vr_proposal r;
     vr_artifacts := vr_artifacts r; vr_approval := vr_approval r; vr_replayed := true |}.

(** The failures a run is marked with, and the names of their classes *)
Definition failure_code (k : ExnKind) : option string :=
  match k with
  | ApprovalBoundaryFailure => Some "ApprovalBoundaryFailure"
  | EvidenceIsolationViolation => Some "EvidenceIsolationViolation"
  | EvidenceUnavailable => Some "EvidenceUnavailable"
  | OrchestrationFailure => Some "OrchestrationFailure"
  | _ => None
  end.

Section investigate.
Context (identity : IdentityContext) (request : InvestigationRequest).

Let tenant_id := ic_tenant_id identity.
Let request_id := ic_request_id identity.
Let thread_ref := thread_ref_of identity (ir_incident_id request).
Let run_id := run_id_of identity (ir_incident_id request).
Let request_ref : string * json := ("request_ref", JStr (_request_ref identity)).

(** The body of the [try] *)
Definition run_investigation : App (list Evidence * InvestigationResult) :=
  collected ←' try_port (Collect identity request);
  from_res (validate_evidence identity collected) ;;'
  result ←' try_port (Orchestrate tenant_id request request_id run_id thread_ref collected);
  result ←' match vr_proposal result with
            | Some p => approval ←' open_request identity p; Return (with_approval approval result)
            | None => Return result
            end;
  try_port (CompleteRun tenant_id request_id result) ;;'
  Return (collected, result).

(** The [except] clause *)
Definition on_run_failure (x : exn) : App InvestigationResult :=
  match failure_code (exn_kind x) with
  | None => Throw x
  | Some code =>
      try_port (FailRun tenant_id request_id code) ;;'
      call (Audit identity "investigation.failed" [request_ref; ("error_code", JStr code)]) ;;'
      call (Finish "failed" [("error_code", JStr code)]) ;;'
      Throw x
  end.

Definition on_run_success (cr : list Evidence * InvestigationResult) : App InvestigationResult :=
  let '(collected, result) := cr in
  let checked := cv_checked_citations (vr_critic result) in
  call (Audit identity ("investigation." +:+ investigation_status_value (vr_status result))
          [request_ref; ("evidence_count", JInt (zlen collected)); ("citation_count", JInt checked);
           ("approval_required", JBool (bool_decide (is_Some (vr_approval result))))]) ;;'
  call (Finish (investigation_status_value (vr_status result))
          [("evidence_count", JInt (zlen collected)); ("finding_count", JInt (zlen (vr_hypotheses result)));
           ("citation_count", JInt checked);
           ("injection_detected", JBool (cv_injection_contained (vr_critic result)))]) ;;'
  Return result.

Definition abstain_for_budget (reason : string) : App InvestigationResult :=
  result ←' from_res (_budget_abstention identity request run_id thread_ref);
  try_port (CompleteRun tenant_id request_id result) ;;'
  call (Audit identity "investigation.abstained" [request_ref; ("reason", JStr reason)]) ;;'
  call (Finish (investigation_status_value (vr_status result))
          [("evidence_count", JInt 0); ("finding_count", JInt 0); ("citation_count", JInt 0)]) ;;'
  Return result.

(** From the accepted claim on *)
Definition start_run (attempt : Z) : App InvestigationResult :=
  call (Audit identity "investigation.accepted" [request_ref; ("attempt", JInt attempt)]) ;;'
  budget ←' try_port (ReserveUnits tenant_id thread_ref _INVESTIGATION_BUDGET_UNITS);
  if bd_allowed budget then try_else run_investigation on_run_failure on_run_success
  else abstain_for_budget (bd_reason budget).

(** [InvestigationService.investigate] *)
Definition investigate : App InvestigationResult :=
  decision ←' call (Authorize identity INVESTIGATION_RUN tenant_id "incident-response" RMedium);
  if pd_allowed decision then
    claim ←' try_port (Acquire tenant_id request_id (request_fingerprint request));
    match rl_status claim with
    | CL_COMPLETED =>
        match rl_result claim with
        | None => Throw (Exn OrchestrationFailure "idempotency record omitted completed result")
        | Some result =>
            call (Audit identity "investigation.replayed" [request_ref; ("attempt", JInt (rl_attempt claim))]) ;;'
            Return (replayed result)
        end
    | CL_IN_PROGRESS => Throw (Exn InvestigationInProgress "an identical request is already running")
    | _ => start_run (rl_attempt claim)
    end
  else
    call (Audit identity "investigation.denied"
            [request_ref; ("reason", JStr (pd_reason decision)); ("policy_id", JStr (pd_policy_id decision));
             ("policy_revision", JInt (pd_policy_revision decision))]) ;;'
    Throw (Exn PolicyDenied (pd_reason decision)).
End investigate.

(** ** Threads and their world *)

Record port_answers := {
  pa_now : datetime;
  pa_policy : IdentityContext → Action → string → string → RiskLevel → PolicyDecision;
  pa_evidence : IdentityContext → InvestigationRequest → res (list Evidence);
  pa_run : string → InvestigationRequest → string → string → string → list Evidence → res InvestigationResult
}.

(** A call of a port outside, with its answer *)
Inductive app_event :=
  | Decided (identity : IdentityContext) (action : Action) (decision : PolicyDecision)
  | Collected (identity : IdentityContext) (request : InvestigationRequest) (evidence : list Evidence)
  | Ran (tenant_id : string) (request : InvestigationRequest) (request_id run_id thread_ref : string)
      (evidence : list Evidence) (answer : res InvestigationResult).

(** The shared objects, with two histories that no code reads: the port calls of each thread and
    the thread that last acquired each request. *)
Record app_world := {
  aw_runs : run_ledger;
  aw_budget : budget;
  aw_audit : audit_log;
  aw_approvals : approvals;
  aw_log : list (nat * app_event);
  aw_owner : gmap (string * string) nat
}.

Definition note (i : nat) (ev : app_event) (w : app_world) : app_world :=
  {| aw_runs := aw_runs w; aw_budget := aw_budget w; aw_audit := aw_audit w; aw_approvals := aw_approvals w;
     aw_log := aw_log w ++ [(i, ev)]; aw_owner := aw_owner w |}.
Definition put_runs (l : run_ledger) (w : app_world) : app_world :=
  {| aw_runs := l; aw_budget := aw_budget w; aw_audit := aw_audit w; aw_approvals := aw_approvals w;
     aw_log := aw_log w; aw_owner := aw_owner w |}.
Definition put_budget (b : budget) (w : app_world) : app_world :=
  {| aw_runs := aw_runs w; aw_budget := b; aw_audit := aw_audit w; aw_approvals := aw_approvals w;
     aw_log := aw_log w; aw_owner := aw_owner w |}.
Definition put_audit (l : audit_log) (w : app_world) : app_world :=
  {| aw_runs := aw_runs w; aw_budget := aw_budget w; aw_audit := l; aw_approvals := aw_approvals w;
     aw_log := aw_log w; aw_owner := aw_owner w |}.
Definition put_approval (key : string * string) (a : ApprovalRequest) (w : app_world) : app_world :=
  {| aw_runs := aw_runs w; aw_budget := aw_budget w; aw_audit := aw_audit w;
     aw_approvals := <[key := a]> (aw_approvals w); aw_log := aw_log w; aw_owner := aw_owner w |}.
Definition put_owner (key : string * string) (i : nat) (w : app_world) : app_world :=
  {| aw_runs := aw_runs w; aw_budget := aw_budget w; aw_audit := aw_audit w; aw_approvals := aw_approvals w;
     aw_log := aw_log w; aw_owner := <[key := i]> (aw_owner w) |}.

(** Whether the claim made the thread the owner of the request *)
Definition acquired (r : res RunClaim) : bool :=
  match r with
  | Ok c => match rl_status c with CL_STARTED | CL_RETRY => true | _ => false end
  | Raise _ => false
  end.

Definition app_handle (e : port_answers) (i : nat) (R : Set) (o : app_op R) (w : app_world) : R * app_world :=
  match o in app_op R return R * app_world with
  | Now => (pa_now e, w)
  | Authorize identity action resource_tenant_id purpose risk =>
      let d := pa_policy e identity action resource_tenant_id purpose risk in
      (d, note i (Decided identity action d) w)
  | Audit identity event_type attributes =>
      (tt, put_audit (audit_append identity event_type attributes (pa_now e) (aw_audit w)) w)
  | Acquire tenant_id request_id fingerprint =>
      let '(r, l) := acquire tenant_id request_id fingerprint (aw_runs w) in
      (r, if acquired r then put_owner (tenant_id, request_id) i (put_runs l w) else put_runs l w)
  | ReserveUnits tenant_id reservation_id units =>
      let '(r, b) := reserve_units tenant_id reservation_id units (aw_budget w) in (r, put_budget b w)
  | Collect identity request =>
      let r := pa_evidence e identity request in
      (r, match r with Ok evidence => note i (Collected identity request evidence) w | Raise _ => w end)
  | Orchestrate tenant_id request request_id run_id thread_ref evidence =>
      let r := pa_run e tenant_id request request_id run_id thread_ref evidence in
      (r, note i (Ran tenant_id request request_id run_id thread_ref evidence r) w)
  | PendingApproval key => (aw_approvals w !! key, w)
  | StoreApproval key a => (tt, put_approval key a w)
  | CompleteRun tenant_id request_id result =>
      let '(r, l) := complete_run tenant_id request_id result (aw_runs w) in (r, put_runs l w)
  | FailRun tenant_id request_id code =>
      let '(r, l) := fail_run tenant_id request_id code (aw_runs w) in (r, put_runs l w)
  | Finish status attributes => (tt, w)
  end.

Definition app_start (b : budget) : app_world :=
  {| aw_runs := ∅; aw_budget := b; aw_audit := new_audit; aw_approvals := ∅; aw_log := []; aw_owner := ∅ |}.

(** The service after a schedule of steps of its threads *)
Definition run_service (calls : list (IdentityContext * InvestigationRequest)) (turns : list (nat * port_answers))
    (w : app_world) : list (App InvestigationResult) * app_world :=
  run_pool app_handle ((λ t, Thread t.1 t.2) <$> turns) ((λ c, investigate c.1 c.2) <$> calls, w).
End service.

(** [InvestigationService.checkpoint_count]: the policy is asked first. *)
Definition checkpoint_count `{Digest} (authorize : IdentityContext → Action → string → string → RiskLevel → PolicyDecision)
    (count : string → string → Z) (identity : IdentityContext) (incident_id : string) : res Z :=
  let decision := authorize identity INVESTIGATION_READ (ic_tenant_id identity) "incident-response" RLow in
  raise_if (negb (pd_allowed decision)) PolicyDenied (pd_reason decision);;
  Ok (count (ic_tenant_id identity) (thread_ref_of identity incident_id)).
