(* ===== verification/OrchestrationFacts.v ===== *)
(** * Facts on the orchestration ledger and the graph

    What one call of the ledger changes; the invariant of its runs and the life of a task over
    any calls; what a node can return whatever the ledger and the model answer; the content of
    the correlation. *)

From S2P Require Import Prelude PyJson PyFloat PyTime PyText PyModel PyProg Domain RemediationData Evidence Investigation Orchestration Graph.

(** ** One call of the ledger *)

Section moves.
Context {HDigest : Digest}.

(** What a call does to a ledger: nothing, or one of these *)
Inductive ledger_move (l : orchestration_ledger) : orchestration_ledger → Prop :=
  | move_none : ledger_move l l
  | move_begin t r p :
      ol_runs l !! (t, r) = None → or_cancelled p = false → or_artifact_count p = 0 → or_decision p = None →
      or_tenant_id p = t → or_run_id p = r → ledger_move l (put_run (t, r) p l)
  | move_task t r k p record :
      ol_runs l !! (t, r) = Some p → or_cancelled p = false → ledger_move l (put_task (t, r, k) record l)
  | move_append t r p proposed items :
      ol_runs l !! (t, r) = Some p → or_cancelled p = false →
      foldM (add_artifact (ol_artifacts l) t r) (of_run t r (ol_artifacts l)) items = Ok proposed →
      zlen (in_order proposed) ≤ MAX_ARTIFACTS → NoDup (ga_ordinal <$> in_order proposed) →
      ledger_move l
        (put_run (t, r) (run_with (or_cancelled p) (zlen (in_order proposed))
                           (last_decision (in_order proposed) (or_decision p)) p)
           (put_artifacts (proposed ∪ ol_artifacts l) l))
  | move_cancel t r p :
      ol_runs l !! (t, r) = Some p →
      ledger_move l (put_run (t, r) (run_with true (or_artifact_count p) (or_decision p) p) l)
  | move_rebuild t r p :
      ol_runs l !! (t, r) = Some p →
      ledger_move l (put_run (t, r) (run_with (or_cancelled p) (zlen (_run_artifacts l t r))
                                       (last_decision (_run_artifacts l t r) None) p) l).

Lemma required_run l t r p : _required_run l t r = Ok p ↔ ol_runs l !! (t, r) = Some p.
Proof. unfold _required_run, of_option, raise. destruct (ol_runs l !! (t, r)); naive_solver. Qed.

Lemma begin_run_moves t i r h g d l : ledger_move l (begin_run t i r h g d l).2.
Proof.
  unfold begin_run. destruct (validated _ _ _) as [q|x] eqn:Hv; [|constructor].
  apply validated_ok in Hv as [-> _]. unfold lift, get, modify, mret, M_ret, mbind, M_bind.
  destruct (ol_runs l !! (t, r)) as [p|] eqn:Hr; cbn; [destruct (raise_if _ _ _); constructor|].
  by apply move_begin.
Qed.

Lemma claim_task_moves t r k role d l : ledger_move l (claim_task t r k role d l).2.
Proof.
  unfold claim_task, lift, get, modify, mbind, M_bind.
  destruct (_required_run l t r) as [p|x] eqn:Hr; cbn; [|constructor]. apply required_run in Hr.
  destruct (or_cancelled p) eqn:Hc; [constructor|].
  destruct (ol_tasks l !! (t, r, k)) as [e|].
  - destruct (raise_if _ _ _); [|constructor].
    destruct (tr_status e); try (by eapply move_task); [|constructor]. destruct (of_option _ _ _); constructor.
  - destruct (validated _ _ _); [|constructor]. by eapply move_task.
Qed.

Lemma complete_task_moves t r k f result l : ledger_move l (complete_task t r k f result l).2.
Proof.
  unfold complete_task, lift, get, modify, mbind, M_bind.
  destruct (of_option _ _ _); cbn; [|constructor]. destruct (raise_if _ _ _); [|constructor].
  destruct (_required_run l t r) as [p|x] eqn:Hr; [|constructor]. apply required_run in Hr.
  unfold raise_if. destruct (or_cancelled p) eqn:Hc; [constructor|]. cbn.
  destruct (ol_tasks l !! (t, r, k)) as [e|]; [|constructor].
  destruct (_ || _); [constructor|]. by eapply move_task.
Qed.

Lemma append_artifacts_returns t r f items l u l' :
  append_artifacts t r f items l = (Ok u, l') →
  ∃ p proposed, ol_runs l !! (t, r) = Some p ∧ or_cancelled p = false ∧ or_fence_token p = f ∧
    foldM (add_artifact (ol_artifacts l) t r) (of_run t r (ol_artifacts l)) items = Ok proposed ∧
    zlen (in_order proposed) ≤ MAX_ARTIFACTS ∧ NoDup (ga_ordinal <$> in_order proposed) ∧
    l' = put_run (t, r) (run_with (or_cancelled p) (zlen (in_order proposed))
                           (last_decision (in_order proposed) (or_decision p)) p)
           (put_artifacts (proposed ∪ ol_artifacts l) l).
Proof.
  unfold append_artifacts. intros H. py_inv.
  match goal with H : _required_run _ _ _ = Ok ?p |- _ => apply required_run in H; exists p end.
  py_bool. unfold no_dups in *. py_bool. eauto 10.
Qed.

Lemma append_artifacts_raises t r f items l x l' : append_artifacts t r f items l = (Raise x, l') → l' = l.
Proof.
  unfold append_artifacts, lift, get, modify, mbind, M_bind. intros H.
  repeat (case_match; simplify_eq/=; try done).
Qed.

Lemma append_artifacts_moves t r f items l : ledger_move l (append_artifacts t r f items l).2.
Proof.
  destruct (append_artifacts t r f items l) as [[u|x] l'] eqn:H.
  - apply append_artifacts_returns in H as (p & proposed & Hr & Hc & _ & Hf & Hz & Hn & ->). by eapply move_append.
  - apply append_artifacts_raises in H as ->. constructor.
Qed.

Lemma run_call_moves c l : ledger_move l (run_call c l).2.
Proof.
  destruct c; cbn; auto using begin_run_moves, claim_task_moves, complete_task_moves, append_artifacts_moves.
  - unfold cancel, lift, get, modify, mbind, M_bind.
    destruct (_required_run _ _ _) eqn:H; cbn; [|constructor]. apply required_run in H. by constructor.
  - unfold rebuild_projection, lift, get, modify, mret, M_ret, mbind, M_bind.
    destruct (_required_run _ _ _) eqn:H; cbn; [|constructor]. apply required_run in H. by constructor.
Qed.
End moves.

(** ** The artifacts of a run *)

Lemma of_run_lookup (t r : string) (a : gmap (string * string * string) GovernanceArtifact) k x :
  of_run t r a !! k = Some x ↔ a !! k = Some x ∧ k.1 = (t, r).
Proof. unfold of_run. by rewrite map_lookup_filter_Some. Qed.

Lemma in_order_elem a x : x ∈ in_order a ↔ ∃ k, a !! k = Some x.
Proof.
  unfold in_order. rewrite py_sorted_perm, list_elem_of_fmap. split.
  - intros ([k y] & -> & H). exists k. by apply elem_of_map_to_list in H.
  - intros [k H]. exists (k, x). split; [done|]. by apply elem_of_map_to_list.
Qed.

Lemma of_run_elem l t r x :
  x ∈ _run_artifacts l t r ↔ ∃ k, ol_artifacts l !! (t, r, k) = Some x.
Proof.
  unfold _run_artifacts. rewrite in_order_elem. setoid_rewrite of_run_lookup. split.
  - intros ([[t' r'] k] & H & [= -> ->]). by exists k.
  - intros [k H]. by exists (t, r, k).
Qed.

Lemma add_artifact_ok stored t r proposed a proposed' :
  add_artifact stored t r proposed a = Ok proposed' →
  ga_tenant_id a = t ∧ ga_run_id a = r ∧ proposed' = <[(t, r, ga_artifact_id a) := a]> proposed ∧
  (∀ e, stored !! (t, r, ga_artifact_id a) = Some e → e = a).
Proof.
  unfold add_artifact. intros H. py_inv. py_bool. do 3 (split; [done|]). intros e He.
  rewrite He in *. by py_bool.
Qed.

Lemma add_artifacts_grow stored t r items : ∀ proposed proposed' k,
  foldM (add_artifact stored t r) proposed items = Ok proposed' → is_Some (proposed !! k) → is_Some (proposed' !! k).
Proof.
  induction items as [|a items IH]; intros proposed proposed' k H Hk; simpl in H; [by simplify_eq|].
  py_inv. match goal with H : add_artifact _ _ _ _ _ = _ |- _ => apply add_artifact_ok in H as (_ & _ & -> & _) end.
  eapply IH; [done|]. rewrite lookup_insert_is_Some'. by right.
Qed.

(** What an append proposes: the run's artifacts, unchanged, and the new ones under their ids *)
Lemma add_artifacts_ok stored t r items : ∀ proposed proposed',
  (∀ k x, proposed !! k = Some x → k = (t, r, ga_artifact_id x)) →
  (∀ k x, stored !! k = Some x → k.1 = (t, r) → proposed !! k = Some x) →
  foldM (add_artifact stored t r) proposed items = Ok proposed' →
  (∀ k x, proposed' !! k = Some x → k = (t, r, ga_artifact_id x) ∧ (proposed !! k = Some x ∨ x ∈ items)) ∧
  (∀ k x, stored !! k = Some x → k.1 = (t, r) → proposed' !! k = Some x) ∧
  (∀ x, x ∈ items → ga_tenant_id x = t ∧ ga_run_id x = r ∧ is_Some (proposed' !! (t, r, ga_artifact_id x))).
Proof.
  induction items as [|a items IH]; intros proposed proposed' Hk Hs H; simpl in H.
  - injection H as <-. split; [eauto|]. split; [done|]. by intros x ?%not_elem_of_nil.
  - py_inv. match goal with H : add_artifact _ _ _ _ _ = _ |- _ => apply add_artifact_ok in H as (<- & <- & -> & He) end.
    pose proof H as H0. apply IH in H as (H1 & H2 & H3).
    + split; [|split; [done|]].
      * intros k x Hx. destruct (H1 k x Hx) as [-> [Hp|Hp]]; split; [done| |done|right; by constructor].
        apply lookup_insert_Some in Hp as [[Hkey ->]|[_ Hp]]; [right; constructor|by left].
      * intros x [->|Hx]%elem_of_cons; [|by apply H3]. do 2 (split; [done|]).
        eapply add_artifacts_grow; [exact H0|]. by rewrite lookup_insert_eq.
    + intros k x [[<- <-]|[_ Hx]]%lookup_insert_Some; eauto.
    + intros k x Hx Hr. destruct (decide (k = (ga_tenant_id a, ga_run_id a, ga_artifact_id a))) as [->|Hne].
      * rewrite lookup_insert_eq. by rewrite (He x Hx).
      * rewrite lookup_insert_ne by done. eauto.
Qed.

(** ** The invariant of the ledger *)

Record run_sound (l : orchestration_ledger) (t r : string) (p : OrchestrationRunProjection) : Prop := {
  rs_tenant : or_tenant_id p = t;
  rs_run : or_run_id p = r;
  rs_count : or_artifact_count p = zlen (_run_artifacts l t r);
  rs_bound : zlen (_run_artifacts l t r) ≤ MAX_ARTIFACTS;
  rs_ordinals : NoDup (ga_ordinal <$> _run_artifacts l t r);
  rs_decision : or_decision p = last_decision (_run_artifacts l t r) None
}.

Definition ledger_sound (l : orchestration_ledger) : Prop :=
  (∀ t r p, ol_runs l !! (t, r) = Some p → run_sound l t r p) ∧
  (∀ k a, ol_artifacts l !! k = Some a →
     k = (ga_tenant_id a, ga_run_id a, ga_artifact_id a) ∧ is_Some (ol_runs l !! k.1)).

(** What the ledger never changes of a run *)
Definition run_binding (p : OrchestrationRunProjection) : list string :=
  [or_tenant_id p; or_incident_id p; or_run_id p; or_thread_ref p; or_graph_version p; or_input_digest p;
   or_fence_token p].

Definition frozen (l l' : orchestration_ledger) (t r : string) : Prop :=
  ol_runs l' !! (t, r) = ol_runs l !! (t, r) ∧
  (∀ k, ol_tasks l' !! (t, r, k) = ol_tasks l !! (t, r, k)) ∧
  (∀ k, ol_artifacts l' !! (t, r, k) = ol_artifacts l !! (t, r, k)).

Definition persists (l l' : orchestration_ledger) : Prop :=
  (∀ t r p, ol_runs l !! (t, r) = Some p →
     (∃ p', ol_runs l' !! (t, r) = Some p' ∧ run_binding p' = run_binding p) ∧
     (or_cancelled p = true → frozen l l' t r)) ∧
  ol_artifacts l ⊆ ol_artifacts l'.

#[export] Instance persists_refl : Reflexive persists.
Proof.
  intros l. split; [|done]. intros t r p Hp. split; [by exists p|]. done.
Qed.

#[export] Instance persists_trans : Transitive persists.
Proof.
  intros l1 l2 l3 [H1 A1] [H2 A2]. split; [|by etransitivity]. intros t r p Hp.
  destruct (H1 t r p Hp) as [(p' & Hp' & Hb) Hf]. destruct (H2 t r p' Hp') as [(p'' & Hp'' & Hb') Hf'].
  split; [exists p''; split; [done|congruence]|]. intros Hc. destruct (Hf Hc) as (F1 & F2 & F3).
  destruct Hf' as (G1 & G2 & G3); [rewrite F1, Hp in Hp'; by simplify_eq|].
  split; [congruence|]. split; intros k; [by rewrite G2|by rewrite G3].
Qed.

Lemma same_run_artifacts l l' t r :
  (∀ k, ol_artifacts l' !! (t, r, k) = ol_artifacts l !! (t, r, k)) → _run_artifacts l' t r = _run_artifacts l t r.
Proof.
  intros H. unfold _run_artifacts. f_equal. apply map_eq. intros [[t' r'] k].
  destruct (decide ((t', r') = (t, r))) as [[= -> ->]|Hne].
  - apply option_eq. intros x. rewrite !of_run_lookup. by rewrite H.
  - apply option_eq. intros x. rewrite !of_run_lookup. simpl. naive_solver.
Qed.

Lemma run_sound_same l l' t r p :
  (∀ k, ol_artifacts l' !! (t, r, k) = ol_artifacts l !! (t, r, k)) → run_sound l t r p → run_sound l' t r p.
Proof.
  intros H [H1 H2 H3 H4 H5 H6]. pose proof (same_run_artifacts l l' t r H) as E. split; rewrite ?E; done.
Qed.

(** The decision of a run is the last one appended. *)
Lemma last_decision_grows (current items : list GovernanceArtifact) :
  (∀ x, x ∈ items → x ∈ current) →
  last_decision current (last_decision items None) = last_decision current None.
Proof.
  intros H. unfold last_decision. destruct (head (omap decision_of (reverse current))) as [d|] eqn:E; [done|].
  destruct (head (omap decision_of (reverse items))) as [d|] eqn:E'; [|done]. exfalso.
  apply head_Some_elem_of in E'. apply list_elem_of_omap in E' as (x & Hx & Hd).
  destruct (omap decision_of (reverse current)) as [|d' ds] eqn:Eo; [|done].
  assert (Hd' : d ∈ omap decision_of (reverse current)).
  { apply list_elem_of_omap. exists x. split; [|done]. rewrite elem_of_reverse in Hx |- *. by apply H. }
  rewrite Eo in Hd'. by apply not_elem_of_nil in Hd'.
Qed.

Lemma proposed_of_run l t r items proposed :
  (∀ k a, ol_artifacts l !! k = Some a → k = (ga_tenant_id a, ga_run_id a, ga_artifact_id a)) →
  foldM (add_artifact (ol_artifacts l) t r) (of_run t r (ol_artifacts l)) items = Ok proposed →
  (∀ k x, proposed !! k = Some x →
     k = (t, r, ga_artifact_id x) ∧ k = (ga_tenant_id x, ga_run_id x, ga_artifact_id x)) ∧
  (∀ k x, ol_artifacts l !! k = Some x → k.1 = (t, r) → proposed !! k = Some x) ∧
  of_run t r (proposed ∪ ol_artifacts l) = proposed ∧
  ol_artifacts l ⊆ proposed ∪ ol_artifacts l.
Proof.
  intros Hk H. assert (Hr : ∀ k x, of_run t r (ol_artifacts l) !! k = Some x → k = (t, r, ga_artifact_id x)).
  { intros k x [Hx Hkr]%of_run_lookup. rewrite (Hk k x Hx) in *. cbn in *. congruence. }
  destruct (add_artifacts_ok _ t r items _ _ Hr ltac:(intros; by apply of_run_lookup) H) as (H1 & H2 & H3).
  assert (Hall : ∀ k x, proposed !! k = Some x →
            k = (t, r, ga_artifact_id x) ∧ k = (ga_tenant_id x, ga_run_id x, ga_artifact_id x)).
  { intros k x Hx. destruct (H1 k x Hx) as [-> [[Hs _]%of_run_lookup|Hi]]; split; try done.
    - exact (Hk _ _ Hs).
    - by destruct (H3 x Hi) as (<- & <- & _). }
  do 2 (split; [done|]). split.
  - apply map_eq. intros k. apply option_eq. intros x. rewrite of_run_lookup, lookup_union_Some_raw. split.
    + intros [[Hx|[Hn Hx]] Hkr]; [done|]. by rewrite (H2 k x Hx Hkr) in Hn.
    + intros Hx. split; [by left|]. by destruct (Hall k x Hx) as [-> _].
  - apply map_subseteq_spec. intros k x Hx. rewrite lookup_union_Some_raw.
    destruct (proposed !! k) as [y|] eqn:Hy; [|by right]. left.
    destruct (Hall k y Hy) as [-> _]. by rewrite <- Hy, (H2 _ x Hx).
Qed.

Lemma orchestration_append_sound l t r p proposed items
    (l' := put_run (t, r) (run_with (or_cancelled p) (zlen (in_order proposed))
                             (last_decision (in_order proposed) (or_decision p)) p)
             (put_artifacts (proposed ∪ ol_artifacts l) l)) :
  ledger_sound l → ol_runs l !! (t, r) = Some p → or_cancelled p = false →
  foldM (add_artifact (ol_artifacts l) t r) (of_run t r (ol_artifacts l)) items = Ok proposed →
  zlen (in_order proposed) ≤ MAX_ARTIFACTS → NoDup (ga_ordinal <$> in_order proposed) →
  ledger_sound l' ∧ persists l l'.
Proof.
  intros [Hr Ha] Hp Hc H Hz Hn. destruct (proposed_of_run l t r items proposed) as (H1 & H2 & H3 & H4); [|done|].
  { intros k a Hk. by destruct (Ha k a Hk). }
  assert (Eother : ∀ t' r' k, (t', r') ≠ (t, r) → ol_artifacts l' !! (t', r', k) = ol_artifacts l !! (t', r', k)).
  { intros t' r' k Hne. apply lookup_union_r. destruct (proposed !! (t', r', k)) eqn:Hx; [|done].
    destruct (H1 _ _ Hx). congruence. }
  assert (Erun : _run_artifacts l' t r = in_order proposed) by exact (f_equal in_order H3).
  split; [split|split].
  - intros t' r' p' Hp'. apply (lookup_insert_Some (ol_runs l)) in Hp' as [[[= <- <-] <-]|[Hne Hp']].
    + destruct (Hr _ _ _ Hp) as [T1 T2 T3 T4 T5 T6].
      split; cbn [run_with or_tenant_id or_run_id or_artifact_count or_decision]; rewrite ?Erun; try done.
      rewrite T6. apply last_decision_grows. intros x Hx. apply of_run_elem in Hx as [k Hx].
      apply in_order_elem. exists (t, r, k). by apply H2.
    + apply (run_sound_same l); [|by apply Hr]. intros k. by apply Eother.
  - intros k a [Hx|[_ Hx]]%lookup_union_Some_raw.
    + destruct (H1 k a Hx) as [-> E]. split; [done|]. cbn. rewrite lookup_insert_is_Some'. by left.
    + destruct (Ha k a Hx) as [E Hs]. split; [done|]. cbn. rewrite lookup_insert_is_Some'. by right.
  - intros t' r' p' Hp'. destruct (decide ((t', r') = (t, r))) as [[= -> ->]|Hne].
    + simplify_eq. split; [|congruence]. eexists. split; [apply (lookup_insert_eq (ol_runs l))|done].
    + assert (E : ol_runs l' !! (t', r') = ol_runs l !! (t', r')) by (by apply lookup_insert_ne).
      rewrite E. split; [by exists p'|]. intros _. split; [done|]. split; intros k; [done|by apply Eother].
  - done.
Qed.

Lemma put_run_sound l t r p p' :
  ledger_sound l → ol_runs l !! (t, r) = Some p → run_binding p' = run_binding p →
  or_artifact_count p' = or_artifact_count p → or_decision p' = or_decision p →
  (or_cancelled p = true → p' = p) → ledger_sound (put_run (t, r) p' l) ∧ persists l (put_run (t, r) p' l).
Proof.
  intros [Hr Ha] Hp Hb Hn Hd Hc. split; [split|split].
  - intros t' r' q Hq. apply (lookup_insert_Some (ol_runs l)) in Hq as [[[= <- <-] <-]|[Hne Hq]].
    + destruct (Hr _ _ _ Hp) as [T1 T2 T3 T4 T5 T6]. injection Hb as B1 _ B2 _ _ _ _.
      split; [congruence|congruence|by rewrite Hn|done|done|by rewrite Hd].
    + by apply (run_sound_same l); [|apply Hr].
  - intros k a Hk. destruct (Ha k a Hk) as [E Hs]. split; [done|]. cbn. rewrite lookup_insert_is_Some'. by right.
  - intros t' r' q Hq. destruct (decide ((t', r') = (t, r))) as [[= -> ->]|Hne].
    + rewrite Hp in Hq. injection Hq as <-. split; [exists p'; split; [apply (lookup_insert_eq (ol_runs l))|done]|].
      intros Hq. split; [|done]. rewrite (Hc Hq). cbn. by rewrite lookup_insert_eq, Hp.
    + assert (E : ol_runs (put_run (t, r) p' l) !! (t', r') = ol_runs l !! (t', r')) by (by apply lookup_insert_ne).
      split; [exists q; by rewrite E|]. intros _. by split.
  - done.
Qed.

(** Every call keeps the invariant, and what a run is bound to. *)
Lemma run_call_sound `{Digest} c l : ledger_sound l → ledger_sound (run_call c l).2 ∧ persists l (run_call c l).2.
Proof.
  intros Hl. destruct (run_call_moves c l) as [|t r p Hn Hc Hz Hd Ht Hr|t r k p rec Hp Hc|t r p proposed items Hp Hc Hf Hz Hn|t r p Hp|t r p Hp].
  - done.
  - destruct Hl as [Hs Ha].
    assert (E : _run_artifacts l t r = []).
    { destruct (_run_artifacts l t r) as [|a items] eqn:E; [done|].
      assert (Hin : a ∈ _run_artifacts l t r) by (rewrite E; constructor).
      apply of_run_elem in Hin as [k Hk]. destruct (Ha _ _ Hk) as [_ [q Hq]]. cbn in Hq. congruence. }
    assert (Hrun : ∀ t' r' q, ol_runs l !! (t', r') = Some q → (t', r') ≠ (t, r)) by congruence.
    split; [split|split].
    + intros t' r' q Hq. apply (lookup_insert_Some (ol_runs l)) in Hq as [[[= <- <-] <-]|[Hne Hq]].
      * apply (run_sound_same l); [done|]. split; rewrite ?E; try done. constructor.
      * by apply (run_sound_same l); [|apply Hs].
    + intros k a Hk. destruct (Ha k a Hk) as [Ek Hk']. split; [done|]. cbn. rewrite lookup_insert_is_Some'. by right.
    + intros t' r' q Hq. pose proof (Hrun _ _ _ Hq) as Hne.
      assert (Eo : ol_runs (put_run (t, r) p l) !! (t', r') = ol_runs l !! (t', r')) by (by apply lookup_insert_ne).
      split; [exists q; by rewrite Eo|]. intros _. by split.
    + done.
  - destruct Hl as [Hs Ha]. split; [split|split]; [|done| |done].
    + intros t' r' q Hq. by apply (run_sound_same l); [|apply Hs].
    + intros t' r' q Hq. split; [by exists q|]. intros Hq'. split; [done|]. split; [|done]. intros k'.
      apply lookup_insert_ne. intros [= -> -> _]. congruence.
  - by apply orchestration_append_sound with items.
  - apply (put_run_sound l t r p); try done. by destruct p; cbn; intros ->.
  - pose proof Hl as [Hs _]. destruct (Hs _ _ _ Hp) as [_ _ T3 _ _ T6].
    assert (E : run_with (or_cancelled p) (zlen (_run_artifacts l t r)) (last_decision (_run_artifacts l t r) None) p = p)
      by (rewrite <- T3, <- T6; by destruct p).
    rewrite E. by apply (put_run_sound l t r p).
Qed.

Lemma run_calls_sound `{Digest} calls l :
  ledger_sound l → ledger_sound (run_calls calls l) ∧ persists l (run_calls calls l).
Proof.
  revert l. induction calls as [|c calls IH]; intros l Hl; [done|].
  destruct (run_call_sound c l Hl) as [H1 P1]. destruct (IH _ H1) as [H2 P2]. split; [done|]. by transitivity (run_call c l).2.
Qed.

Lemma new_ledger_sound : ledger_sound new_InMemoryOrchestrationLedger.
Proof. split; [intros t r p Hp; cbn in Hp|intros k a Hp; cbn in Hp]; by apply lookup_empty_Some in Hp. Qed.

(** ** The life of a task *)

Section tasks.
Context {HDigest : Digest}.

Definition live (l : orchestration_ledger) (t r : string) : Prop :=
  ∃ p, ol_runs l !! (t, r) = Some p ∧ or_cancelled p = false.

Inductive claim_outcome (l : orchestration_ledger) (t r k : string) (c : TaskDispatchClaim) : orchestration_ledger → Prop :=
  | claimed_cancelled p :
      ol_runs l !! (t, r) = Some p → or_cancelled p = true → tc_status c = TD_CANCELLED → claim_outcome l t r k c l
  | claimed_started e :
      ol_tasks l !! (t, r, k) = None → tc_status c = TD_STARTED → tr_status e = TD_STARTED →
      tr_fence_token e = tc_fence_token c → claim_outcome l t r k c (put_task (t, r, k) e l)
  | claimed_cached e result :
      live l t r → ol_tasks l !! (t, r, k) = Some e → tr_status e = TD_COMPLETED → tr_result e = Some result →
      tc_status c = TD_CACHED → tc_cached_result c = Some result → claim_outcome l t r k c l
  | claimed_reconcile e :
      live l t r → ol_tasks l !! (t, r, k) = Some e → tr_status e = TD_RECONCILIATION_REQUIRED →
      tc_status c = TD_RECONCILIATION_REQUIRED → claim_outcome l t r k c l
  | claimed_again e fence attempt :
      live l t r → ol_tasks l !! (t, r, k) = Some e → tr_status e ≠ TD_COMPLETED → tc_status c = TD_RECONCILIATION_REQUIRED →
      claim_outcome l t r k c
        (put_task (t, r, k) (task_with fence attempt TD_RECONCILIATION_REQUIRED (tr_result e) e) l).

Lemma claim_task_returns t r k role d l c l' :
  claim_task t r k role d l = (Ok c, l') → claim_outcome l t r k c l'.
Proof.
  unfold claim_task, new_TaskDispatchClaim. intros H. inv_bind H l0 w0 H0. injection H0 as <- <-.
  inv_lift H p Hp. apply required_run in Hp. destruct (or_cancelled p) eqn:Hc.
  { unfold lift in H. injection H as H <-. apply validated_ok in H as [-> _]. by eapply claimed_cancelled. }
  assert (Hlive : live l t r) by (by exists p).
  destruct (ol_tasks l !! (t, r, k)) as [e|] eqn:He.
  - inv_lift H u Hu. clear Hu. destruct (tr_status e) eqn:Hs.
    2: { inv_lift H doc Hr. unfold lift in H. injection H as H <-. apply validated_ok in H as [-> _].
         eapply claimed_cached; try done. destruct (tr_result e); cbn in *; by simplify_eq. }
    3: { unfold lift in H. injection H as H <-. apply validated_ok in H as [-> _]. by eapply claimed_reconcile. }
    all: inv_bind H u' w Hm; unfold modify in Hm; injection Hm as _ <-; unfold lift in H; injection H as H <-;
      apply validated_ok in H as [-> _]; eapply claimed_again; [done|exact He|congruence|done].
  - inv_lift H e He'. apply validated_ok in He' as [-> _]. inv_bind H u w Hm. unfold modify in Hm. injection Hm as _ <-.
    unfold lift in H. injection H as H <-. apply validated_ok in H as [-> _]. by eapply claimed_started.
Qed.

Lemma complete_task_returns t r k f result l u l' :
  complete_task t r k f result l = (Ok u, l') →
  ∃ p e canonical, ol_runs l !! (t, r) = Some p ∧ or_cancelled p = false ∧ ol_tasks l !! (t, r, k) = Some e ∧
    tr_fence_token e = f ∧ tr_status e = TD_STARTED ∧ json_loads (canonical_json (JObj result)) = Some canonical ∧
    l' = put_task (t, r, k) (task_with (tr_fence_token e) (tr_attempt e) TD_COMPLETED (Some canonical) e) l.
Proof.
  unfold complete_task. intros H. inv_lift H canonical Hj. inv_lift H u0 Hu. clear Hu. inv_bind H l0 w0 H0. injection H0 as <- <-.
  inv_lift H p Hp. apply required_run in Hp. inv_lift H u1 Hc. apply raise_if_ok in Hc.
  destruct (ol_tasks l !! (t, r, k)) as [e|] eqn:He; [|done]. inv_lift H u2 Hf. apply raise_if_ok in Hf.
  unfold modify in H. injection H as _ <-. py_bool. exists p, e, canonical. do 5 (split; [done|]).
  split; [|done]. destruct (json_loads _); cbn in *; by simplify_eq.
Qed.

Definition concerns (t r k : string) (c : ledger_call) : bool :=
  match c with
  | ClaimTask t' r' k' _ _ | CompleteTask t' r' k' _ _ => bool_decide ((t', r', k') = (t, r, k))
  | _ => false
  end.

(** The calls of a sequence that returned *)
Fixpoint returned (calls : list ledger_call) (l : orchestration_ledger) : list ledger_call :=
  match calls with
  | [] => []
  | c :: calls => (if (run_call c l).1 then [c] else []) ++ returned calls (run_call c l).2
  end.

Lemma returned_snoc calls c : ∀ l,
  returned (calls ++ [c]) l = returned calls l ++ (if (run_call c (run_calls calls l)).1 then [c] else []).
Proof.
  induction calls as [|c0 calls IH]; intros l; cbn; [by rewrite app_nil_r|]. rewrite IH, <- app_assoc. done.
Qed.

Lemma run_calls_snoc calls c l : run_calls (calls ++ [c]) l = (run_call c (run_calls calls l)).2.
Proof. unfold run_calls. by rewrite foldl_app. Qed.


Lemma complete_task_raises t r k f result l x l' : complete_task t r k f result l = (Raise x, l') → l' = l.
Proof.
  unfold complete_task, lift, get, modify, mbind, M_bind, raise. intros H.
  destruct (of_option _ _ _); [|by injection H]. destruct (raise_if _ _ _); [|by injection H].
  destruct (_required_run _ _ _) as [p|]; [|by injection H]. destruct (raise_if _ _ _); [|by injection H].
  destruct (ol_tasks l !! _); [|by injection H]. destruct (raise_if _ _ _); [done|by injection H].
Qed.

(** A claim of a task that was claimed before, even one that raises *)
Lemma claim_task_again t r k role d l e :
  ol_tasks l !! (t, r, k) = Some e →
  (claim_task t r k role d l).2 = l ∨
  ∃ fence attempt, tr_status e ≠ TD_COMPLETED ∧
    (claim_task t r k role d l).2
    = put_task (t, r, k) (task_with fence attempt TD_RECONCILIATION_REQUIRED (tr_result e) e) l.
Proof.
  intros He. unfold claim_task, lift, get, modify, mbind, M_bind.
  destruct (_required_run _ _ _) as [p|]; [|by left]. destruct (or_cancelled p); [by left|]. rewrite He.
  destruct (raise_if _ _ _); [|by left]. destruct (tr_status e) eqn:Hs; try (by left).
  2: by destruct (of_option _ _ _); left.
  all: right; eexists _, _; split; [congruence|reflexivity].
Qed.

Lemma call_keeps_tasks c l t r k :
  concerns t r k c = false → ol_tasks (run_call c l).2 !! (t, r, k) = ol_tasks l !! (t, r, k).
Proof.
  intros Hc. destruct c as [t' i r' h g d|t' r' k' role d|t' r' k' f result|t' r' f items|t' r'|t' r']; cbn in Hc |- *.
  - unfold begin_run, lift, get, modify, mret, M_ret, mbind, M_bind. destruct (validated _ _ _); [|done].
    destruct (ol_runs l !! (t', r')); [by destruct (raise_if _ _ _)|done].
  - py_bool. unfold claim_task, lift, get, modify, mbind, M_bind.
    destruct (_required_run _ _ _) as [p|]; [|done]. destruct (or_cancelled p); [done|].
    destruct (ol_tasks l !! (t', r', k')) as [e|].
    + destruct (raise_if _ _ _); [|done]. destruct (tr_status e); cbn; rewrite ?lookup_insert_ne by done; try done.
      by destruct (of_option _ _ _).
    + destruct (validated _ _ _); [|done]. cbn. by rewrite lookup_insert_ne.
  - py_bool. destruct (complete_task t' r' k' f result l) as [[u|x] l'] eqn:H; cbn.
    + apply complete_task_returns in H as (p & e & doc & _ & _ & _ & _ & _ & _ & ->). cbn. by rewrite lookup_insert_ne.
    + by apply complete_task_raises in H as ->.
  - destruct (append_artifacts t' r' f items l) as [[u|x] l'] eqn:H; cbn.
    + by apply append_artifacts_returns in H as (p & proposed & _ & _ & _ & _ & _ & _ & ->).
    + by apply append_artifacts_raises in H as ->.
  - unfold cancel, lift, get, modify, mbind, M_bind. by destruct (_required_run _ _ _).
  - unfold rebuild_projection, lift, get, modify, mret, M_ret, mbind, M_bind. by destruct (_required_run _ _ _).
Qed.

(** What the ledger holds of a task after calls that returned [past], the task having been
    started with [fence] *)
Definition task_phase (t r k fence : string) (past : list ledger_call) (e : TaskLedgerRecord) : Prop :=
  match tr_status e with
  | TD_STARTED => tr_fence_token e = fence ∧ ∀ c, c ∈ past → concerns t r k c = false
  | TD_COMPLETED =>
      ∃ result, tr_result e = json_loads (canonical_json (JObj result)) ∧
        ∀ f' result', CompleteTask t r k f' result' ∈ past → result' = result
  | _ => ∀ f' result', CompleteTask t r k f' result' ∉ past
  end.

Definition task_story (t r k fence : string) (past : list ledger_call) (l : orchestration_ledger) : Prop :=
  ∃ e p, ol_tasks l !! (t, r, k) = Some e ∧ ol_runs l !! (t, r) = Some p ∧
    (or_cancelled p = false → task_phase t r k fence past e).

Lemma task_phase_more t r k fence past c e :
  concerns t r k c = false → task_phase t r k fence past e → task_phase t r k fence (past ++ [c]) e.
Proof.
  intros Hc. assert (Hn : ∀ f' result', CompleteTask t r k f' result' ∈ past ++ [c] → CompleteTask t r k f' result' ∈ past).
  { intros f' result' H. apply elem_of_app in H as [H|H]; [done|]. apply list_elem_of_singleton in H as <-. cbn in Hc. by py_bool. }
  unfold task_phase. destruct (tr_status e).
  - intros [Hf Hp]. split; [done|]. intros c' H. apply elem_of_app in H as [H|H]; [auto|]. by apply list_elem_of_singleton in H as ->.
  - intros (result & Hr & Hp). exists result. split; [done|]. eauto.
  - intros Hp f' result' H%Hn. by apply (Hp f' result').
  - intros Hp f' result' H%Hn. by apply (Hp f' result').
  - intros Hp f' result' H%Hn. by apply (Hp f' result').
Qed.

(** A claim or a failed call adds nothing that was completed. *)
Lemma phase_of_claim t r k fence past past' e :
  tr_status e ≠ TD_STARTED → (∀ f' result', CompleteTask t r k f' result' ∈ past' → CompleteTask t r k f' result' ∈ past) →
  task_phase t r k fence past e → task_phase t r k fence past' e.
Proof.
  unfold task_phase. intros Hs Hp. destruct (tr_status e); [done|naive_solver..].
Qed.

(** The new part of the past after a call *)
Definition latest (c : ledger_call) (l : orchestration_ledger) : list ledger_call :=
  if (run_call c l).1 then [c] else [].

Lemma latest_elem c l c' : c' ∈ latest c l → c' = c ∧ (run_call c l).1 = true.
Proof.
  unfold latest. destruct (run_call c l).1; intros H; [|by apply not_elem_of_nil in H].
  by apply list_elem_of_singleton in H.
Qed.

Lemma story_of_claim t r k role d fence past l (c := ClaimTask t r k role d) e :
  ol_tasks l !! (t, r, k) = Some e → (∃ p, ol_runs l !! (t, r) = Some p ∧ or_cancelled p = false) →
  task_phase t r k fence past e →
  ∃ e', ol_tasks (run_call c l).2 !! (t, r, k) = Some e' ∧ task_phase t r k fence (past ++ latest c l) e'.
Proof.
  intros He (p & Hp & Hc) Hph.
  assert (Hn : ∀ f' result', CompleteTask t r k f' result' ∈ past ++ latest c l → CompleteTask t r k f' result' ∈ past).
  { intros f' result' [H|H]%elem_of_app; [done|]. by apply latest_elem in H as [H _]. }
  cbn. destruct (claim_task_again t r k role d l e He) as [E|(fence' & attempt & Hs & E)]; rewrite E; cbn [ol_tasks put_task].
  - exists e. split; [done|]. destruct (decide (tr_status e = TD_STARTED)) as [Hs|Hs]; [|by eapply phase_of_claim].
    assert (Hl : latest c l = []).
    { unfold latest, c. cbn. destruct (claim_task t r k role d l) as [[a|x] l'] eqn:H; [|done]. cbn in E. subst l'.
      exfalso. apply claim_task_returns in H. inversion H as [q Hq Hq'|e' H1|e' doc _ H1 H2|e' _ H1 H2|e' f a' _ H1 H2 H3 H4]; try congruence.
      rewrite <- H4 in He at 1. cbn in He. rewrite lookup_insert_eq in He. injection He as <-. discriminate. }
    by rewrite Hl, app_nil_r.
  - eexists. rewrite lookup_insert_eq. split; [done|]. unfold task_phase in *. cbn. intros f' result' H%Hn.
    destruct (tr_status e); try done.
    + destruct Hph as [_ Hph]. specialize (Hph _ H). cbn in Hph. by py_bool.
    + by apply (Hph f' result').
    + by apply (Hph f' result').
    + by apply (Hph f' result').
Qed.

Lemma story_of_completion t r k f result fence past l (c := CompleteTask t r k f result) e :
  ol_tasks l !! (t, r, k) = Some e → task_phase t r k fence past e →
  ∃ e', ol_tasks (run_call c l).2 !! (t, r, k) = Some e' ∧ task_phase t r k fence (past ++ latest c l) e'.
Proof.
  intros He Hph. unfold latest, c. cbn. destruct (complete_task t r k f result l) as [[u|x] l'] eqn:H; cbn.
  - apply complete_task_returns in H as (p & e' & doc & Hp & Hc & He' & Hf & Hs & Hj & ->). simplify_eq.
    cbn. rewrite lookup_insert_eq. eexists. split; [done|]. unfold task_phase in *. rewrite Hs in Hph. cbn.
    exists result. split; [by rewrite Hj|]. intros f' result' [H|H]%elem_of_app.
    + destruct Hph as [_ Hph]. specialize (Hph _ H). cbn in Hph. by py_bool.
    + apply list_elem_of_singleton in H. by injection H.
  - apply complete_task_raises in H as ->. exists e. by rewrite app_nil_r.
Qed.

Lemma task_story_call t r k fence past l c :
  ledger_sound l → task_story t r k fence past l →
  task_story t r k fence (past ++ latest c l) (run_call c l).2.
Proof.
  intros Hl (e & p & He & Hp & Hph). destruct (run_call_sound c l Hl) as [_ [Hrun _]].
  destruct (Hrun t r p Hp) as [(p' & Hp' & _) Hfr]. unfold task_story.
  destruct (or_cancelled p) eqn:Hc.
  { destruct (Hfr eq_refl) as (F1 & F2 & _). exists e, p. rewrite F1, F2. do 2 (split; [done|]). congruence. }
  specialize (Hph eq_refl).
  assert (∃ e', ol_tasks (run_call c l).2 !! (t, r, k) = Some e' ∧ task_phase t r k fence (past ++ latest c l) e')
    as (e' & He' & Hph'); [|by exists e', p'].
  destruct (concerns t r k c) eqn:Hk.
  - destruct c; try done; cbn in Hk; py_bool; simplify_eq.
    + eapply story_of_claim; eauto.
    + by eapply story_of_completion.
  - exists e. rewrite call_keeps_tasks by done. split; [done|]. unfold latest.
    destruct (run_call c l).1; [by apply task_phase_more|by rewrite app_nil_r].
Qed.

Lemma task_story_calls t r k fence calls l :
  ledger_sound l → task_story t r k fence [] l → task_story t r k fence (returned calls l) (run_calls calls l).
Proof.
  intros Hl H0. induction calls as [|c calls IH] using rev_ind; [done|].
  rewrite returned_snoc, run_calls_snoc. apply task_story_call; [by apply run_calls_sound|done].
Qed.
End tasks.

(** ** What a node can return *)

Section always.
Context {op : Set → Set} {X : Set}.

(** [always p Q]: whatever the answers, what [p] returns has [Q]. *)
Fixpoint always {A : Set} (p : prog op X A) (Q : A → Prop) : Prop :=
  match p with
  | Return a => Q a
  | Throw _ => True
  | Do o k => ∀ r, always (k r) Q
  end.

Lemma always_then {A B : Set} (p : prog op X A) (f : A → prog op X B) (R : A → Prop) Q :
  always p R → (∀ a, R a → always (f a) Q) → always (then_ p f) Q.
Proof. intros Hp Hf. induction p; cbn in *; auto. Qed.

Lemma always_try {A B : Set} (p : prog op X A) h (f : A → prog op X B) (R : A → Prop) Q :
  always p R → (∀ x, always (h x) Q) → (∀ a, R a → always (f a) Q) → always (try_else p h f) Q.
Proof. intros Hp Hh Hf. induction p; cbn in *; auto. Qed.

Lemma always_true {A : Set} (p : prog op X A) : always p (λ _, True).
Proof. induction p; cbn; auto. Qed.

(** Whatever the schedule, a thread that returned returned what it can. *)
Lemma run_pool_always {A W E : Set} (handle : E → nat → ∀ R : Set, op R → W → R * W) (ms : list (move (W := W) (E := E))) i :
  ∀ (s : list (prog op X A) * W) p Q a,
    s.1 !! i = Some p → always p Q → (run_pool handle ms s).1 !! i = Some (Return a) → Q a.
Proof.
  induction ms as [|m ms IH]; intros s p Q a Hp HQ Ha; [by cbn in Ha; simplify_eq|].
  change (run_pool handle (m :: ms) s) with (run_pool handle ms (pool_step handle s m)) in Ha.
  assert (∃ p', (pool_step handle s m).1 !! i = Some p' ∧ always p' Q) as (p' & Hp' & HQ'); [|by eapply IH].
  destruct m as [j e|f]; cbn; [|by exists p]. destruct (s.1 !! j) as [q|] eqn:Hq; [|by exists p].
  destruct (step handle e j q s.2) as [q' w] eqn:Hs. cbn. destruct (decide (j = i)) as [->|Hne].
  - exists q'. split; [apply list_lookup_insert_eq; by apply lookup_lt_Some in Hq|]. simplify_eq.
    destruct p as [b|x|R o k]; cbn in Hs; [by simplify_eq..|]. destruct (handle e i R o s.2). by simplify_eq.
  - exists p. by rewrite list_lookup_insert_ne.
Qed.

Lemma run_pool_length {A W E : Set} (handle : E → nat → ∀ R : Set, op R → W → R * W) (ms : list (move (W := W) (E := E))) :
  ∀ s : list (prog op X A) * W, length (run_pool handle ms s).1 = length s.1.
Proof.
  induction ms as [|m ms IH]; intros s; [done|].
  change (run_pool handle (m :: ms) s) with (run_pool handle ms (pool_step handle s m)). rewrite IH.
  destruct m as [j e|f]; cbn; [|done]. destruct (s.1 !! j); [|done]. destruct (step _ _ _ _ _). cbn. apply length_insert.
Qed.
End always.

Section nodes.
Context {HDigest : Digest} {HFloat : FloatJson} {HDecode : FindingDecoder}.

Lemma always_of_res {A : Set} (r : res A) (Q : A → Prop) : (∀ a, r = Ok a → Q a) → always (of_res r : P A) Q.
Proof. destruct r; cbn; auto. Qed.

Lemma always_res {A : Set} (r : res A) : always (of_res r : P A) (λ a, r = Ok a).
Proof. by apply always_of_res. Qed.

(** A superstep that succeeds applies an update of each node. *)
Lemma superstep_returns {HOrder : UpdateOrder} {HOrderLaws : UpdateOrderLaws} (nodes : list (InvestigationState → P update)) turns st l st' l'
    (Q : update → Prop) :
  (∀ node, node ∈ nodes → always (node st) Q) → superstep nodes turns st l = (Some (Ok st'), l') →
  ∃ us, length us = length nodes ∧ (∀ u, u ∈ us → Q u) ∧ foldM apply_update st us = Ok st'.
Proof.
  intros HQ. unfold superstep. set (s := run_pool _ _ _). intros H. injection H as H _.
  destruct (collected s.1) as [r|] eqn:Hc; [|done]. cbn in H. injection H as H.
  apply res_bind_ok in H as (us & -> & H). unfold collected in Hc.
  destruct (omap raised_by s.1); [|done]. destruct (mapM returned_by s.1) as [vs|] eqn:Hm; [|done].
  cbn in Hc. injection Hc as ->. apply mapM_Some in Hm. exists (arrange us).
  assert (Hlen : length s.1 = length nodes) by (unfold s; rewrite run_pool_length; apply length_fmap).
  split; [|split; [|done]].
  - rewrite arrange_perm. apply Forall2_length in Hm. congruence.
  - intros u Hu. rewrite arrange_perm in Hu. apply list_elem_of_lookup in Hu as [i Hu].
    destruct (Forall2_lookup_r _ _ _ _ _ Hm Hu) as (p & Hp & Hr).
    destruct p as [a|x|R o k]; cbn in Hr; try done. injection Hr as ->.
    assert (Hlt : (i < length nodes)%nat) by (apply lookup_lt_Some in Hp; congruence).
    apply lookup_lt_is_Some_2 in Hlt as [node Hnode].
    eapply (run_pool_always graph_handle (graph_move <$> turns) i _ (node st)); [| |exact Hp].
    + cbn. by rewrite list_lookup_fmap, Hnode.
    + apply HQ. by apply list_elem_of_lookup_2 in Hnode.
Qed.

Lemma superstep_one {HOrder : UpdateOrder} {HOrderLaws : UpdateOrderLaws} (node : InvestigationState → P update) turns st l st' l'
    (Q : update → Prop) :
  always (node st) Q → superstep [node] turns st l = (Some (Ok st'), l') →
  ∃ u, Q u ∧ apply_update st u = Ok st'.
Proof.
  intros HQ H. eapply (superstep_returns [node] turns st l st' l' Q) in H as (us & Hlen & Hus & H).
  - destruct us as [|u [|]]; try done. exists u. split; [apply Hus; left|]. cbn in H.
    destruct (apply_update st u) eqn:E; cbn in H; congruence.
  - by intros n ->%list_elem_of_singleton.
Qed.
End nodes.

(** ** Dicts built by assignment *)

Section dicts.
Context {K A : Type} `{!EqDecision K}.

Lemma dict_set_member (k : K) (v : A) d x : x ∈ dict_set k v d → x = (k, v) ∨ x ∈ d.
Proof.
  induction d as [|[k' v'] d IH]; cbn [dict_set]; [intros ->%list_elem_of_singleton; by left|].
  destruct (decide (k' = k)) as [->|Hne]; intros [->|H]%elem_of_cons.
  - by left.
  - right. by right.
  - right. by left.
  - destruct (IH H) as [->|H']; [by left|right; by right].
Qed.

Lemma dict_get_NoDup_elem (k : K) (v : A) d : NoDup d.*1 → (k, v) ∈ d → dict_get k d = Some v.
Proof.
  induction d as [|[k' v'] d IH]; cbn; [by intros _ ?%not_elem_of_nil|].
  intros [Hn Hnd]%NoDup_cons [[= <- <-]|H]%elem_of_cons; [by rewrite decide_True|].
  destruct (decide (k' = k)) as [->|_]; [|by apply IH]. exfalso. apply Hn. apply list_elem_of_fmap. by exists (k, v).
Qed.

Lemma foldl_keeps {B} (I : B → Prop) (f : B → A → B) l : ∀ b,
  (∀ b x, x ∈ l → I b → I (f b x)) → I b → I (foldl f b l).
Proof.
  induction l as [|x l IH]; intros b Hf Hb; [done|]. cbn. apply IH; [|apply Hf; [by left|done]].
  intros b' y Hy. apply Hf. by right.
Qed.

Lemma foldl_reaches {B} (P : B → Prop) (f : B → A → B) l x : ∀ b,
  x ∈ l → (∀ b, P (f b x)) → (∀ b y, P b → P (f b y)) → P (foldl f b l).
Proof.
  induction l as [|y l IH]; intros b Hx H1 H2; [by apply not_elem_of_nil in Hx|]. cbn.
  apply elem_of_cons in Hx as [->|Hx]; [|by apply IH]. apply (foldl_keeps P); auto.
Qed.

Context (key : A → K).

Lemma dict_of_elem l k x : (k, x) ∈ dict_of key l → x ∈ l ∧ k = key x.
Proof.
  unfold dict_of. intros H. pattern (k, x) in H. revert k x H.
  refine (foldl_keeps (λ d, ∀ k x, (k, x) ∈ d → x ∈ l ∧ k = key x) _ l [] _ _).
  - intros d y Hy IH k x [[= -> ->]|H]%dict_set_member; [done|by apply IH].
  - by intros k x ?%not_elem_of_nil.
Qed.

Lemma dict_of_NoDup l : NoDup (dict_of key l).*1.
Proof.
  unfold dict_of. apply (foldl_keeps (λ d, NoDup d.*1)); [|constructor]. intros d x _. apply dict_set_NoDup.
Qed.

Lemma dict_of_get l k : k ∈ key <$> l → is_Some (dict_get k (dict_of key l)).
Proof.
  intros (x & -> & Hx)%list_elem_of_fmap. unfold dict_of.
  apply (foldl_reaches (λ d, is_Some (dict_get (key x) d)) _ _ x); [done| |].
  - intros d. by rewrite dict_get_set_eq.
  - intros d y [v Hv]. destruct (decide (key y = key x)) as [E|Hne]; [rewrite E, dict_get_set_eq; eauto|].
    rewrite dict_get_set_ne by done. eauto.
Qed.
End dicts.

(** ** The correlation *)

(** Item [e] says [text] under [key]. *)
Definition says (e : Evidence) (key text : string) : Prop :=
  ∃ v, (key, v) ∈ ev_facts e ∧ v ≠ JNull ∧ fact_text v = text.

Definition grouping_sound (evidence : list Evidence) (g : grouping) : Prop :=
  NoDup g.*1 ∧
  ∀ kk values, dict_get kk g = Some values →
    NoDup values.*1 ∧
    ∀ text, text ∈ values.*1 → ∃ e, e ∈ evidence ∧ ev_kind e = kk.1 ∧ kk.2 ∈ _CONFLICT_FACT_KEYS ∧ says e kk.2 text.

Lemma add_to_group_sound evidence g e key v :
  e ∈ evidence → (key, v) ∈ ev_facts e → v ≠ JNull → key ∈ _CONFLICT_FACT_KEYS →
  grouping_sound evidence g → grouping_sound evidence (add_to_group g (ev_kind e) key (fact_text v) e).
Proof.
  intros He Hv Hn Hkey [Hnd Hg]. unfold add_to_group. split; [by apply dict_set_NoDup|]. intros kk values Hk.
  destruct (decide ((ev_kind e, key) = kk)) as [<-|Hne]; [|rewrite dict_get_set_ne in Hk by done; by apply Hg].
  rewrite dict_get_set_eq in Hk. injection Hk as <-. cbn [fst snd].
  assert (Hold : let old := default [] (dict_get (ev_kind e, key) g) in
            NoDup old.*1 ∧ ∀ text, text ∈ old.*1 →
              ∃ e', e' ∈ evidence ∧ ev_kind e' = ev_kind e ∧ key ∈ _CONFLICT_FACT_KEYS ∧ says e' key text).
  { cbn. destruct (dict_get (ev_kind e, key) g) as [values|] eqn:Hg'; [exact (Hg _ _ Hg')|].
    split; [constructor|]. by intros text ?%not_elem_of_nil. }
  destruct Hold as [H1 H2]. split; [by apply dict_set_NoDup|]. intros text Ht.
  apply list_elem_of_fmap in Ht as ([text' es] & -> & Ht). apply dict_set_member in Ht as [[= -> ->]|Ht].
  - exists e. repeat split; try done. by exists v.
  - apply H2. apply list_elem_of_fmap. by exists (text', es).
Qed.

Lemma grouped_sound evidence : grouping_sound evidence (grouped evidence).
Proof.
  unfold grouped. apply foldl_keeps; [|by split; [constructor|]]. intros g e He Hg.
  apply foldl_keeps; [|done]. intros g' [key v] Hv Hg'. cbn [fst snd].
  destruct (_ || _) eqn:E; [done|]. py_bool. by apply add_to_group_sound.
Qed.

Definition group_has (kk : EvidenceKind * string) (text : string) (g : grouping) : Prop :=
  ∃ values, dict_get kk g = Some values ∧ text ∈ values.*1.

Lemma dict_set_has_key {V} (k : string) (v : V) d k' : k' ∈ d.*1 → k' ∈ (dict_set k v d).*1.
Proof. intros H. rewrite dict_set_keys. case_decide; [done|]. apply elem_of_app. by left. Qed.

Lemma add_to_group_has g kind key text e :
  group_has (kind, key) text (add_to_group g kind key text e) ∧
  ∀ kk text', group_has kk text' g → group_has kk text' (add_to_group g kind key text e).
Proof.
  unfold group_has, add_to_group. split.
  - rewrite dict_get_set_eq. eexists. split; [done|]. rewrite dict_set_keys. case_decide; [done|].
    apply elem_of_app. right. by apply list_elem_of_singleton.
  - intros kk text' (values & Hv & Ht). destruct (decide ((kind, key) = kk)) as [<-|Hne].
    + rewrite dict_get_set_eq. eexists. split; [done|]. rewrite Hv. cbn. by apply dict_set_has_key.
    + rewrite dict_get_set_ne by done. eauto.
Qed.

Lemma grouped_has evidence e key text :
  e ∈ evidence → key ∈ _CONFLICT_FACT_KEYS → says e key text → group_has (ev_kind e, key) text (grouped evidence).
Proof.
  intros He Hkey (v & Hv & Hn & <-). unfold grouped.
  assert (Hmono : ∀ e' g (kv : string * json), group_has (ev_kind e, key) (fact_text v) g →
     group_has (ev_kind e, key) (fact_text v)
       (if negb (bool_decide (kv.1 ∈ _CONFLICT_FACT_KEYS)) || bool_decide (kv.2 = JNull) then g
        else add_to_group g (ev_kind e') kv.1 (fact_text kv.2) e')).
  { intros e' g kv Hg. destruct (_ || _); [done|]. by apply add_to_group_has. }
  apply (foldl_reaches (group_has (ev_kind e, key) (fact_text v)) _ _ e); [done| |].
  - intros g. apply (foldl_reaches _ _ _ (key, v)); [done| |intros g' kv; apply Hmono].
    intros g'. cbn [fst snd]. rewrite (bool_decide_eq_true_2 (key ∈ _)), (bool_decide_eq_false_2 (v = _)) by done.
    apply (proj1 (add_to_group_has g' (ev_kind e) key (fact_text v) e)).
  - intros g e' Hg. apply foldl_keeps; [|done]. intros g' kv _. apply Hmono.
Qed.

Section conflicts.
Context {HDigest : Digest}.

(** The evidence is consistent: no two items of a kind say different things under a key the
    correlation compares. *)
Definition consistent (evidence : list Evidence) : Prop :=
  ∀ e1 e2 key text1 text2, e1 ∈ evidence → e2 ∈ evidence → ev_kind e1 = ev_kind e2 →
    key ∈ _CONFLICT_FACT_KEYS → says e1 key text1 → says e2 key text2 → text1 = text2.

Lemma two_elements {A} (l : list A) : NoDup l → (∀ x y, x ∈ l → y ∈ l → x = y) → zlen l < 2.
Proof.
  intros Hnd H. destruct l as [|x [|y l]]; unfold zlen; cbn; [lia..|]. exfalso.
  assert (x = y) as -> by (apply H; [left|right; left]). apply NoDup_cons in Hnd as [Hn _]. apply Hn. left.
Qed.

Lemma large_groups evidence :
  List.filter (λ g, negb (zlen g.2 <? 2)) (py_sorted group_leb (grouped evidence)) = [] ↔ consistent evidence.
Proof.
  destruct (grouped_sound evidence) as [Hnd Hg]. split.
  - intros H e1 e2 key text1 text2 H1 H2 Hk Hkey S1 S2.
    destruct (grouped_has evidence e1 key text1 H1 Hkey S1) as (values & Hv & T1).
    destruct (grouped_has evidence e2 key text2 H2 Hkey S2) as (values' & Hv' & T2). rewrite <- Hk in Hv'. simplify_eq.
    assert (Hs : zlen values < 2).
    { destruct (zlen values <? 2) eqn:E; [lia|]. exfalso.
      assert (Hin : ((ev_kind e1, key), values) ∈ List.filter (λ g, negb (zlen g.2 <? 2)) (py_sorted group_leb (grouped evidence))).
      { apply list_elem_of_In, filter_In. cbn. rewrite E. split; [|done]. apply list_elem_of_In.
        rewrite py_sorted_perm. by apply dict_get_elem. }
      rewrite H in Hin. by apply not_elem_of_nil in Hin. }
    destruct values as [|[a es] [|[b es'] values]]; cbn in *; [by apply not_elem_of_nil in T1| |unfold zlen in Hs; cbn in Hs; lia].
    apply list_elem_of_singleton in T1. apply list_elem_of_singleton in T2. congruence.
  - intros Hc. apply elem_of_nil_inv. intros [kk values] Hin. apply list_elem_of_In, filter_In in Hin as [Hin Hz]. revert Hz. apply not_true_iff_false. apply list_elem_of_In in Hin. cbn. rewrite py_sorted_perm in Hin.
    apply (dict_get_NoDup_elem _ _ _ Hnd) in Hin. destruct (Hg _ _ Hin) as [Hnd' Ht].
    rewrite negb_false_iff. apply Z.ltb_lt. unfold zlen. rewrite <- (length_fmap fst). apply two_elements; [done|].
    intros x y Hx Hy. destruct (Ht x Hx) as (e1 & ? & ? & Hkey & ?). destruct (Ht y Hy) as (e2 & ? & ? & _ & ?).
    apply (Hc e1 e2 kk.2); congruence.
Qed.

Lemma conflicts_exact evidence conflicts :
  _conflicts evidence = Ok conflicts → (conflicts = [] ↔ consistent evidence).
Proof.
  unfold _conflicts. intros H. apply traverse_ok in H. rewrite <- large_groups. split.
  - intros ->. by apply Forall2_nil_inv_r in H.
  - intros E. rewrite E in H. by apply Forall2_nil_inv_l in H.
Qed.

Lemma consistent_perm evidence evidence' : evidence ≡ₚ evidence' → consistent evidence → consistent evidence'.
Proof. intros E H e1 e2 key t1 t2 H1 H2. rewrite <- E in H1, H2. by apply H. Qed.

(** What a correlation says of the evidence *)
Lemma correlate_returns evidence reference c :
  correlate evidence reference = Ok c →
  (cc_conflicts c = [] ↔ consistent evidence) ∧
  cc_missing_sources c = missing_sources _REQUIRED_SOURCES (py_sorted timeline_leb evidence) ∧
  cc_stale_sources c = stale_sources reference (py_sorted timeline_leb evidence).
Proof.
  unfold correlate, correlate_evidence. intros H. py_inv.
  match goal with H : validated _ _ _ = _ |- _ => apply validated_ok in H as [-> _] end. cbn. split; [|done].
  match goal with H : _conflicts _ = _ |- _ => rewrite (conflicts_exact _ _ H) end.
  split; apply consistent_perm; by rewrite py_sorted_perm.
Qed.

Lemma sorted_kinds_elem k l : k ∈ sorted_kinds l ↔ k ∈ l.
Proof. unfold sorted_kinds. by rewrite py_sorted_perm, elem_of_remove_dups. Qed.

Lemma not_missing evidence k :
  k ∈ _REQUIRED_SOURCES → k ∉ missing_sources _REQUIRED_SOURCES evidence → ∃ e, e ∈ evidence ∧ ev_kind e = k.
Proof.
  unfold missing_sources. rewrite sorted_kinds_elem. intros Hk Hn.
  destruct (decide (k ∈ ev_kind <$> evidence)) as [(e & -> & He)%list_elem_of_fmap|Hk']; [by exists e|]. exfalso. apply Hn.
  apply list_elem_of_In, filter_In. split; [by apply list_elem_of_In|]. by apply bool_decide_eq_true_2.
Qed.

Lemma not_stale reference evidence e :
  e ∈ evidence → ev_kind e ∉ stale_sources reference evidence → reference - ev_observed_at e ≤ _FRESHNESS (ev_kind e).
Proof.
  unfold stale_sources. rewrite sorted_kinds_elem. intros He Hn. apply Z.nlt_ge. intros Hlt. apply Hn.
  apply list_elem_of_fmap. exists e. split; [done|]. apply list_elem_of_In, filter_In.
  split; [by apply list_elem_of_In|lia].
Qed.
End conflicts.

(** ** The critic *)

Section critic.
Context {HDigest : Digest}.

Lemma filter_nil_forall {A} (f : A → bool) l : List.filter f l = [] → ∀ x, x ∈ l → f x = false.
Proof.
  intros H x Hx. destruct (f x) eqn:E; [|done]. exfalso.
  assert (Hin : x ∈ List.filter f l) by (apply list_elem_of_In, filter_In; by rewrite <- list_elem_of_In).
  rewrite H in Hin. by apply not_elem_of_nil in Hin.
Qed.

Lemma filter_elem {A} (f : A → bool) l x : x ∈ List.filter f l ↔ x ∈ l ∧ f x = true.
Proof. by rewrite !list_elem_of_In, filter_In. Qed.

Lemma sorted_set_nil l : sorted_set l = [] → l = [].
Proof.
  intros H. apply elem_of_nil_inv. intros x Hx. apply sorted_set_elem in Hx. rewrite H in Hx. by apply not_elem_of_nil in Hx.
Qed.

Lemma invalid_citations_nil findings evidence :
  invalid_citations findings evidence = [] →
  ∀ f c, f ∈ findings → c ∈ fd_citations f → citation_is_valid c evidence = true.
Proof.
  intros H%sorted_set_nil f c Hf Hc. apply fmap_nil_inv in H.
  apply negb_false_iff, (filter_nil_forall _ _ H c), list_elem_of_bind. by exists f.
Qed.

(** A valid citation names an item of the evidence and carries its content hash. *)
Lemma citation_valid_item c evidence :
  citation_is_valid c evidence = true →
  ∃ e, e ∈ evidence ∧ ev_evidence_id e = ci_evidence_id c ∧ ev_content_hash e = ci_content_hash c ∧
    ev_locator e = ci_locator c.
Proof.
  unfold citation_is_valid. destruct (dict_get _ _) as [e|] eqn:He; [|done]. intros H. py_bool.
  apply dict_get_elem, dict_of_elem in He as [He Hid]. by exists e.
Qed.

Lemma lacks_false sources : lacks sources = false → EK_TELEMETRY ∉ sources ∧ EK_CHANGE ∉ sources.
Proof. unfold lacks. cbn. rewrite orb_false_r, orb_false_iff. intros [H1 H2]. by py_bool. Qed.

(** Everything the critic requires of an accepted verdict *)
Record accepted_on (findings : list SpecialistFinding) (evidence : list Evidence) (c : CorrelationContext)
    (injection : bool) (h : Hypothesis_) : Prop := {
  ao_citations : invalid_citations findings evidence = [];
  ao_conflicts : cc_conflicts c = [];
  ao_missing : lacks (cc_missing_sources c) = false;
  ao_stale : lacks (cc_stale_sources c) = false;
  ao_injection : injection = false;
  ao_core : core_abstentions findings = [];
  ao_usable : 2 ≤ zlen (usable_findings findings);
  ao_cause : sorted_set (omap fd_cause_code (usable_findings findings)) = [hy_cause_code h];
  ao_cites : hy_citations h = _unique_citations (usable_findings findings);
  ao_confidence : hy_confidence h = round2 (lowest_confidence (usable_findings findings))
}.

Lemma insufficient_abstains findings checked v hs : insufficient findings checked = Ok (v, hs) → cv_decision v ≠ CD_ACCEPTED.
Proof.
  unfold insufficient. intros H. py_inv. match goal with H : verdict _ _ _ _ _ = _ |- _ => apply validated_ok in H as [-> _] end. done.
Qed.

Lemma evaluate_critic_accepts findings evidence c injection v hs :
  _evaluate_critic findings evidence c injection = Ok (v, hs) → cv_decision v = CD_ACCEPTED →
  ∃ h, hs = [h] ∧ accepted_on findings evidence c injection h.
Proof.
  unfold _evaluate_critic. intros H Ha.
  destruct (invalid_citations findings evidence) eqn:E1.
  2: { py_inv. match goal with H : verdict _ _ _ _ _ = _ |- _ => apply validated_ok in H as [-> _] end. done. }
  destruct (cc_conflicts c) eqn:E2.
  2: { py_inv. match goal with H : verdict _ _ _ _ _ = _ |- _ => apply validated_ok in H as [-> _] end. done. }
  assert (Habs : ∀ reasons l contained,
    (v0 ← verdict CD_ABSTAINED reasons (sum_of (λ f, zlen (fd_citations f)) findings) l contained; Ok (v0, [])) = Ok (v, hs) → False).
  { intros reasons l contained H'. py_inv.
    match goal with H : verdict _ _ _ _ _ = _ |- _ => apply validated_ok in H as [-> _] end. done. }
  destruct (lacks (cc_missing_sources c)) eqn:E3; [by apply Habs in H|].
  destruct (lacks (cc_stale_sources c)) eqn:E4; [by apply Habs in H|].
  destruct injection; [by apply Habs in H|].
  destruct (core_abstentions findings) eqn:E5; [|by apply insufficient_abstains in H].
  destruct (zlen (usable_findings findings) <? 2) eqn:E6; [by apply insufficient_abstains in H|].
  destruct (sorted_set _) as [|cause [|]] eqn:E7; [by apply Habs in H| |by apply Habs in H].
  unfold accept in H. apply res_bind_ok in H as (first & _ & H). apply res_bind_ok in H as (h & Hh & H).
  apply res_bind_ok in H as (v' & _ & [= <- <-]). apply validated_ok in Hh as [-> _].
  eexists. split; [done|]. split; try done; cbn; py_bool; done.
Qed.

(** A finding as the constructor makes it *)
Definition made (f : SpecialistFinding) : Prop := ∃ f0, new_SpecialistFinding f0 = Ok f.

Lemma made_claims f : made f → fd_abstained f = false → is_Some (fd_cause_code f) ∧ fd_citations f ≠ [].
Proof.
  intros (f0 & H) Ha. unfold new_SpecialistFinding in H. py_inv.
  match goal with H : validated _ _ _ = _ |- _ => apply validated_ok in H as [_ H] end.
  unfold SpecialistFinding_ok, abstention_bound in *. rewrite Ha in *. py_bool. split; [done|].
  intros E. pose proof (py_sorted_perm (by_key ci_evidence_id str_leb) (fd_citations f0)) as Hp. rewrite E in Hp.
  by apply Permutation_nil in Hp.
Qed.

Lemma merge_findings_elem left right f : f ∈ merge_findings left right → f ∈ left ∨ f ∈ right.
Proof.
  unfold merge_findings. rewrite py_sorted_perm, list_elem_of_fmap. intros ([k x] & -> & H).
  apply dict_of_elem in H as [H _]. by apply elem_of_app.
Qed.

Lemma merge_findings_NoDup left right : NoDup (fd_finding_id <$> merge_findings left right).
Proof.
  unfold merge_findings. rewrite py_sorted_perm, <- list_fmap_compose.
  replace ((fd_finding_id ∘ snd) <$> _) with (dict_of fd_finding_id (left ++ right)).*1; [apply dict_of_NoDup|].
  apply list_fmap_ext. intros i [k x] Hx%list_elem_of_lookup_2. by apply dict_of_elem in Hx as [_ ->].
Qed.
End critic.

(** ** Orders and sorting: what does not depend on the order of its input *)

(** A total preorder; two elements each below the other are the [same]. *)
Class LebOrder {A} (leb : A → A → bool) (same : A → A → Prop) := {
  lo_total x y : leb x y = true ∨ leb y x = true;
  lo_trans x y z : leb x y = true → leb y z = true → leb x z = true;
  lo_same x y : leb x y = true → leb y x = true → same x y
}.

#[export] Instance str_order : LebOrder str_leb (=).
Proof. split; [apply str_leb_total|apply str_leb_trans|apply str_leb_antisym]. Qed.

#[export] Instance Z_order : LebOrder Z.leb (=).
Proof. split; intros *; rewrite ?Z.leb_le; lia. Qed.

#[export] Instance by_key_order {A K} (key : A → K) leb :
  LebOrder leb (=) → LebOrder (by_key key leb) (λ x y, key x = key y).
Proof. intros []. unfold by_key. split; eauto. Qed.

#[export] Instance then_by_order {A K} `{!EqDecision K} (key : A → K) leb next same :
  LebOrder leb (=) → LebOrder next same → LebOrder (then_by key leb next) (λ x y, key x = key y ∧ same x y).
Proof.
  intros [T1 R1 S1] [T2 R2 S2]. unfold then_by. split.
  - intros x y. destruct (decide (key x = key y)) as [E|E]; [rewrite decide_True by done; apply T2|].
    rewrite decide_False by done. apply T1.
  - intros x y z Hxy Hyz. destruct (decide (key x = key y)) as [E|E], (decide (key y = key z)) as [E'|E'].
    + rewrite decide_True by congruence. by eapply R2.
    + rewrite decide_False by congruence. by rewrite E.
    + rewrite decide_False by congruence. by rewrite <- E'.
    + destruct (decide (key x = key z)) as [E''|E'']; [|by eapply R1].
      exfalso. apply E'. rewrite <- E'' in Hyz |- *. symmetry. by apply S1.
  - intros x y Hxy Hyx. destruct (decide (key x = key y)) as [E|E].
    + rewrite decide_True in Hyx by done. auto.
    + rewrite decide_False in Hyx by done. exfalso. apply E. by apply S1.
Qed.

Lemma sorted_canonical {A} (leb : A → A → bool) same `{!LebOrder leb same} l1 l2 :
  l1 ≡ₚ l2 → (∀ x y, x ∈ l1 → y ∈ l1 → same x y → x = y) → py_sorted leb l1 = py_sorted leb l2.
Proof.
  intros Hp Hs. pose proof (lo_total (leb := leb)) as Ht.
  assert (Transitive (λ x y, leb x y = true)) by (intros x y z; apply lo_trans).
  apply (Sorted_unique_strong (λ x y, leb x y = true)).
  - intros x y Hx Hy H1 H2. rewrite py_sorted_perm in Hx. rewrite py_sorted_perm, <- Hp in Hy.
    apply Hs; [done..|by apply lo_same].
  - by apply py_sorted_sorted.
  - by apply py_sorted_sorted.
  - by rewrite !py_sorted_perm.
Qed.

Section values.
Context {K A : Type} `{!EqDecision K} (key : A → K).

(** Elements with the same key are equal. *)
Definition keyed (l : list A) : Prop := ∀ x y, x ∈ l → y ∈ l → key x = key y → x = y.

Lemma dict_of_values l x : keyed l → (x ∈ (dict_of key l).*2 ↔ x ∈ l).
Proof.
  intros Hk. rewrite list_elem_of_fmap. split.
  - intros ([k y] & -> & H). by apply dict_of_elem in H as [H _].
  - intros Hx. destruct (dict_of_get key l (key x)) as [y Hy]; [apply list_elem_of_fmap; by exists x|].
    apply dict_get_elem in Hy as Hin. destruct (dict_of_elem key l _ _ Hin) as [Hy' E].
    exists (key x, y). split; [by apply Hk|done].
Qed.

Lemma dict_of_values_NoDup l : NoDup (dict_of key l).*2.
Proof.
  apply (NoDup_fmap_1 key). rewrite <- list_fmap_compose.
  replace ((key ∘ snd) <$> dict_of key l) with (dict_of key l).*1; [apply dict_of_NoDup|].
  apply list_fmap_ext. intros i [k x] Hx%list_elem_of_lookup_2. by apply dict_of_elem in Hx as [_ ->].
Qed.

Lemma dict_of_perm l l' : l ≡ₚ l' → keyed l → (dict_of key l).*2 ≡ₚ (dict_of key l').*2.
Proof.
  intros Hp Hk. assert (Hk' : keyed l') by (intros x y; rewrite <- Hp; apply Hk).
  apply NoDup_Permutation; [apply dict_of_values_NoDup..|]. intros x. by rewrite !dict_of_values, Hp.
Qed.
End values.

Lemma keyed_sorted {K A} `{!EqDecision K} (key : A → K) leb same `{!LebOrder leb same} l l' :
  l ≡ₚ l' → keyed key l → (∀ x y, same x y → key x = key y) →
  py_sorted leb (dict_of key l).*2 = py_sorted leb (dict_of key l').*2.
Proof.
  intros Hp Hk Hs. apply (sorted_canonical leb same); [by apply dict_of_perm|].
  intros x y Hx Hy E. rewrite dict_of_values in Hx, Hy by done. apply Hk; auto.
Qed.
