(* ===== verification/OrchestrationTheorems.v ===== *)
(** * Theorems on investigations

    The orchestration ledger over any calls; the chain of artifacts; the correlation; and what a
    completed investigation rests on, whatever the model answers, however the nodes interleave
    and whatever other processes do to the ledger.  The fixtures and the runs on which the graph
    falls short are at the end. *)

From S2P Require Import Prelude PyJson PyFloat PyTime PyText PyModel PyProg Domain RemediationData Evidence Investigation Orchestration Graph OrchestrationFacts Fixtures.

(** ** What the nodes return *)

Section nodes.
Context {HDigest : Digest} {HFloat : FloatJson} {HDecode : FindingDecoder}.

Lemma given {A} (o : option A) k msg a : of_option o k msg = Ok a → o = Some a.
Proof. destruct o; [by intros [= ->]|done]. Qed.

Lemma abstaining_made i s reason f : _abstaining_finding i s reason = Ok f → made f.
Proof. intros H. by eexists. Qed.

Lemma regression_made t statement confidence a b f : regression_finding t statement confidence a b = Ok f → made f.
Proof. unfold regression_finding. intros H. apply res_bind_ok in H as (c1 & _ & H). apply res_bind_ok in H as (c2 & _ & H). by eexists. Qed.

#[local] Hint Resolve abstaining_made regression_made : core.

Lemma runtime_made t f : _runtime_finding t = Ok f → made f.
Proof. unfold _runtime_finding. repeat case_match; eauto. Qed.

Lemma knowledge_made t f : _knowledge_finding t = Ok f → made f.
Proof. unfold _knowledge_finding. repeat case_match; eauto. Qed.

Lemma revalidated f f' :
  match new_SpecialistFinding f with Ok f => Some f | Raise _ => None end = Some f' → made f'.
Proof. intros H. exists f. by destruct (new_SpecialistFinding f); simplify_eq. Qed.

Lemma model_finding_made st s raw f : model_finding st s raw = Ok f → made f.
Proof.
  unfold model_finding. destruct (raw ≫= _) as [f'|] eqn:E; [|eauto].
  destruct (decide _); [|eauto]. intros [= ->]. apply bind_Some in E as (f0 & _ & E). by apply revalidated in E.
Qed.

Lemma execute_made st s : always (_execute_specialist st s) made.
Proof.
  unfold _execute_specialist. eapply always_then; [apply always_true|]. intros task _.
  destruct s; try (apply always_of_res; eauto using runtime_made, knowledge_made; fail).
  all: eapply always_try; [apply always_true|intros x|intros raw _]; apply always_of_res; intros f H;
    [unfold model_fault in H; eauto|by apply model_finding_made in H].
Qed.

Lemma claimed_made st s c : always (claimed_finding st s c) made.
Proof.
  unfold claimed_finding. destruct (tc_status c); try apply execute_made; [|apply always_of_res; eauto].
  destruct (match tc_cached_result c with Some _ => _ | None => _ end) as [f|] eqn:E; [|apply always_of_res; eauto].
  cbn. destruct (tc_cached_result c); [|done]. apply bind_Some in E as (f0 & _ & E). by apply revalidated in E.
Qed.

Lemma assessed_made st s task f fa : assessed st s task f = Ok fa → made f → made fa.1.
Proof.
  unfold assessed. destruct (_assessment_artifact st s task f); [intros [= <-]; done|]. destruct (decide _); [|done].
  intros H _. apply res_bind_ok in H as (f' & Hf & H). apply res_bind_ok in H as (a & _ & [= <-]). eauto.
Qed.

(** An update that leaves what the critic and the coordinator judge as it is *)
Definition quiet (u : update) : Prop :=
  up_correlation u = None ∧ up_injection_detected u = None ∧ up_hypotheses u = None ∧ up_critic u = None ∧
  up_proposal u = None ∧ up_terminal_state u = None.

Lemma specialist_returns st s : always (_run_specialist st s) (λ u, quiet u ∧ ∀ f, f ∈ up_findings u → made f).
Proof.
  assert (Hc : quiet cancelled_update ∧ ∀ f, f ∈ up_findings cancelled_update → made f)
    by (split; [done|]; by intros f ?%not_elem_of_nil).
  unfold _run_specialist. eapply always_then; [apply always_true|]. intros c _. destruct (decide _); [done|].
  eapply always_then; [apply claimed_made|]. intros f Hf. eapply always_then; [apply always_true|]. intros task _.
  eapply always_then; [apply always_res|]. intros fa Hfa. pose proof (assessed_made _ _ _ _ _ Hfa Hf) as Hm.
  eapply always_try; [apply always_true|intros x|intros _ _].
  - unfold on_stale. destruct (decide _); [|done]. eapply always_then; [apply always_true|]. intros [] _; done.
  - eapply always_then; [apply always_true|]. intros errors _. split; [done|]. cbn. intros f' ->%list_elem_of_singleton. done.
Qed.

Lemma coordinator_returns st :
  always (_coordinator st) (λ u, ∃ prepared c,
    prepare_model_evidence (gs_evidence st) = Ok prepared ∧
    correlate (gs_evidence st) (gs_correlation_reference st) = Ok c ∧
    up_correlation u = Some c ∧ up_injection_detected u = Some prepared.2 ∧ up_findings u = [] ∧
    up_hypotheses u = None ∧ up_critic u = None ∧ up_proposal u = None ∧ up_terminal_state u = None).
Proof.
  unfold _coordinator. eapply always_then; [apply always_res|]. intros prepared Hp.
  eapply always_then; [apply always_res|]. intros c Hc.
  do 3 (eapply always_then; [apply always_true|]; intros ? _). eapply always_then; [apply always_true|]. intros _ _.
  cbn. exists prepared, c. by split_and!.
Qed.

(** The critic's verdict is its evaluation of the state, unless the run was cancelled. *)
Lemma critic_returns st :
  always (_critic st) (λ u, ∃ v hs,
    up_critic u = Some v ∧ up_hypotheses u = Some hs ∧ up_proposal u = Some None ∧ up_correlation u = None ∧
    up_injection_detected u = None ∧ up_terminal_state u = None ∧ up_findings u = [] ∧
    (cv_decision v = CD_ACCEPTED → ∃ c, gs_correlation st = Some c ∧
       _evaluate_critic (gs_findings st) (gs_evidence st) c (gs_injection_detected st) = Ok (v, hs))).
Proof.
  unfold _critic. destruct (gs_cancelled st); [cbn; eexists _, _; by split_and!|].
  eapply always_then; [apply always_res|]. intros c Hc. eapply always_then; [apply always_res|]. intros [v hs] Hv.
  do 2 (eapply always_then; [apply always_true|]; intros ? _). cbn. exists v, hs. split_and!; try done.
  intros _. exists c. split; [|done]. by apply given in Hc.
Qed.

Lemma planner_returns st :
  always (_remediation_planner st) (λ u, ∃ h, head (gs_hypotheses st) = Some h ∧
    up_proposal u = Some (_proposal_from_runbook (gs_tenant_id st) (gs_incident_id st) (gs_evidence st) h) ∧
    up_hypotheses u = None ∧ up_critic u = None ∧ up_terminal_state u = None ∧ up_findings u = []).
Proof.
  unfold _remediation_planner. eapply always_then; [apply always_res|]. intros h Hh.
  assert (Hhd : head (gs_hypotheses st) = Some h) by (by apply given in Hh).
  destruct (_proposal_from_runbook _ _ _ _) eqn:Hp.
  - do 2 (eapply always_then; [apply always_true|]; intros ? _). cbn. exists h. rewrite Hp. by split_and!.
  - cbn. exists h. rewrite Hp. by split_and!.
Qed.

Lemma verification_returns st : always (_verification_agent st) (λ u, quiet u ∧ up_findings u = []).
Proof.
  unfold _verification_agent. destruct (gs_proposal st); [|by cbn].
  do 2 (eapply always_then; [apply always_true|]; intros ? _). by cbn.
Qed.

(** A coordinator that decides COMPLETE had an accepted verdict, a proposal and a hypothesis. *)
Lemma decision_returns st :
  always (_coordinator_decision st) (λ u,
    up_hypotheses u = None ∧ up_proposal u = None ∧ up_findings u = [] ∧
    (up_terminal_state u = Some OT_COMPLETE →
     ∃ v, gs_critic st = Some v ∧ up_critic u = Some v ∧ cv_decision v = CD_ACCEPTED ∧
       is_Some (gs_proposal st) ∧ gs_hypotheses st ≠ [])).
Proof.
  unfold _coordinator_decision. eapply always_then; [apply always_res|]. intros v Hv.
  destruct (gs_cancelled st); [by cbn|]. do 3 (eapply always_then; [apply always_true|]; intros ? _).
  cbn. do 3 (split; [done|]). intros [= E]. exists v.
  split; [by apply given in Hv|].
  unfold choose in E. destruct (_ && _) eqn:Hc in E; [|cbn in E; by case_decide]. py_bool.
  assert (Ed : decided_critic st v = v).
  { unfold decided_critic. rewrite (bool_decide_eq_false_2 (gs_proposal st = None)), andb_false_r; [done|].
    intros E'. rewrite E' in *. match goal with H : is_Some None |- _ => by apply is_Some_None in H end. }
  rewrite Ed in *. by split_and!.
Qed.
End nodes.

(** ** A run of the graph *)

Section graph.
Context {HDigest : Digest} {HFloat : FloatJson} {HDecode : FindingDecoder} {HOrder : UpdateOrder} {HOrderLaws : UpdateOrderLaws}.

Definition inputs (st : InvestigationState) : string * string * datetime * list Evidence :=
  (gs_tenant_id st, gs_incident_id st, gs_correlation_reference st, gs_evidence st).

(** What the critic and the coordinator judge *)
Definition judged (st : InvestigationState)
    : option CorrelationContext * bool * list Hypothesis_ * option CriticVerdict * option RemediationProposal
      * option OrchestrationTerminalState :=
  (gs_correlation st, gs_injection_detected st, gs_hypotheses st, gs_critic st, gs_proposal st, gs_terminal_state st).

Definition findings_made (st : InvestigationState) : Prop :=
  NoDup (fd_finding_id <$> gs_findings st) ∧ ∀ f, f ∈ gs_findings st → made f.

Lemma apply_update_returns st u st' :
  apply_update st u = Ok st' →
  inputs st' = inputs st ∧ gs_findings st' = merge_findings (gs_findings st) (up_findings u) ∧
  judged st' = (match up_correlation u with Some c => Some c | None => gs_correlation st end,
                default (gs_injection_detected st) (up_injection_detected u),
                default (gs_hypotheses st) (up_hypotheses u),
                match up_critic u with Some c => Some c | None => gs_critic st end,
                default (gs_proposal st) (up_proposal u),
                match up_terminal_state u with Some t => Some t | None => gs_terminal_state st end).
Proof. unfold apply_update. intros H. by apply res_bind_ok in H as (merged & _ & [= <-]). Qed.

Lemma update_findings st u st' :
  apply_update st u = Ok st' → findings_made st → (∀ f, f ∈ up_findings u → made f) → findings_made st'.
Proof.
  intros H [_ Hm] Hu. apply apply_update_returns in H as (_ & E & _). unfold findings_made. rewrite E.
  split; [apply merge_findings_NoDup|]. intros f [Hf|Hf]%merge_findings_elem; auto.
Qed.

Lemma no_findings (l : list SpecialistFinding) : l = [] → ∀ f, f ∈ l → made f.
Proof. intros -> f Hf. by apply not_elem_of_nil in Hf. Qed.

Lemma quiet_update st u st' : apply_update st u = Ok st' → quiet u → inputs st' = inputs st ∧ judged st' = judged st.
Proof.
  intros H (Q1 & Q2 & Q3 & Q4 & Q5 & Q6). apply apply_update_returns in H as (E & _ & Ej). split; [done|].
  by rewrite Ej, Q1, Q2, Q3, Q4, Q5, Q6.
Qed.

Lemma quiet_updates us : ∀ st st',
  foldM apply_update st us = Ok st' → (∀ u, u ∈ us → quiet u ∧ ∀ f, f ∈ up_findings u → made f) →
  findings_made st → inputs st' = inputs st ∧ judged st' = judged st ∧ findings_made st'.
Proof.
  induction us as [|u us IH]; intros st st' H Hus Hf; cbn in H; [by simplify_eq|].
  apply res_bind_ok in H as (st1 & H1 & H). destruct (Hus u ltac:(left)) as [Hq Hm].
  destruct (quiet_update _ _ _ H1 Hq) as [E1 E2]. rewrite <- E1, <- E2. apply (IH st1); [done| |].
  - intros v Hv. apply Hus. by right.
  - by eapply update_findings.
Qed.

(** What an accepted hypothesis rests on *)
Definition supported (evidence : list Evidence) (reference : datetime) (h : Hypothesis_) : Prop :=
  ∃ prepared c findings, prepare_model_evidence evidence = Ok prepared ∧ correlate evidence reference = Ok c ∧
    NoDup (fd_finding_id <$> findings) ∧ (∀ f, f ∈ findings → made f) ∧
    accepted_on findings evidence c prepared.2 h.

(** The state after the coordinator and the specialists: nothing is judged yet. *)
Definition assessed_state (st : InvestigationState) : Prop :=
  findings_made st ∧
  ∃ prepared c, prepare_model_evidence (gs_evidence st) = Ok prepared ∧
    correlate (gs_evidence st) (gs_correlation_reference st) = Ok c ∧
    judged st = (Some c, prepared.2, [], None, None, None).

Lemma after_coordinator turns st l st' l' :
  judged st = (None, false, [], None, None, None) → gs_findings st = [] →
  superstep [_coordinator] turns st l = (Some (Ok st'), l') → inputs st' = inputs st ∧ assessed_state st'.
Proof.
  intros Hj Hf H. eapply superstep_one in H as (u & Hu & H); [|apply coordinator_returns].
  destruct Hu as (prepared & c & Hp & Hc & U1 & U2 & U3 & U4 & U5 & U6 & U7).
  pose proof (apply_update_returns _ _ _ H) as (Ei & Ef & Ej). split; [done|]. unfold judged in Hj.
  injection Hj as J1 J2 J3 J4 J5 J6. unfold inputs in Ei. injection Ei as I1 I2 I3 I4. split.
  - eapply update_findings; [exact H| |by apply no_findings]. split; rewrite Hf; [constructor|by apply no_findings].
  - exists prepared, c. rewrite I3, I4. do 2 (split; [done|]). by rewrite Ej, U1, U2, U4, U5, U6, U7, J3, J4, J5, J6.
Qed.

Lemma after_specialists turns st l st' l' :
  assessed_state st → superstep ((λ s st, _run_specialist st s) <$> specialists) turns st l = (Some (Ok st'), l') →
  inputs st' = inputs st ∧ assessed_state st'.
Proof.
  intros [Hf (prepared & c & Hp & Hc & Hj)] H.
  apply superstep_returns with (Q := λ u, quiet u ∧ ∀ f, f ∈ up_findings u → made f) in H as (us & _ & Hus & H).
  - apply quiet_updates in H as (Ei & Ej & Hf'); [|done|done]. split; [done|]. split; [done|]. exists prepared, c.
    unfold inputs in Ei. injection Ei as I1 I2 I3 I4. by rewrite I3, I4, Ej.
  - intros node (s & -> & _)%list_elem_of_fmap. apply specialist_returns.
Qed.

(** After the critic: an accepted verdict comes with a supported hypothesis. *)
Definition criticized (st : InvestigationState) : Prop :=
  gs_terminal_state st = None ∧
  ∃ v, gs_critic st = Some v ∧
    (cv_decision v = CD_ACCEPTED →
     ∃ h, gs_hypotheses st = [h] ∧ supported (gs_evidence st) (gs_correlation_reference st) h).

Lemma after_critic turns st l st' l' :
  assessed_state st → superstep [_critic] turns st l = (Some (Ok st'), l') →
  inputs st' = inputs st ∧ gs_proposal st' = None ∧ criticized st'.
Proof.
  intros [[Hn Hm] (prepared & c & Hp & Hc & Hj)] H.
  eapply superstep_one in H as (u & Hu & H); [|apply critic_returns].
  destruct Hu as (v & hs & U1 & U2 & U3 & U4 & U5 & U6 & U7 & Hv).
  pose proof (apply_update_returns _ _ _ H) as (Ei & Ef & Ej). unfold judged in Hj, Ej.
  injection Hj as J1 J2 J3 J4 J5 J6. rewrite U1, U2, U3, U4, U5, U6 in Ej. cbn in Ej. injection Ej as K1 K2 K3 K4 K5 K6.
  split; [done|]. split; [done|]. split; [by rewrite K6|]. exists v. split; [done|]. intros Ha.
  destruct (Hv Ha) as (c' & Hc' & He). rewrite J1 in Hc'. injection Hc' as <-.
  destruct (evaluate_critic_accepts _ _ _ _ _ _ He Ha) as (h & -> & Hacc). exists h. split; [done|].
  unfold inputs in Ei. injection Ei as I1 I2 I3 I4. rewrite I3, I4. exists prepared, c, (gs_findings st).
  rewrite J2 in Hacc. by split_and!.
Qed.

(** The planner and the verification agent keep the verdict. *)
Lemma judged_by_inputs st st' :
  inputs st' = inputs st → gs_hypotheses st' = gs_hypotheses st → gs_critic st' = gs_critic st →
  gs_terminal_state st' = gs_terminal_state st → criticized st → criticized st'.
Proof.
  unfold inputs, criticized. intros Ei Eh Ec Et (Ht & v & Hv & Hs). injection Ei as I1 I2 I3 I4.
  rewrite I3, I4, Eh, Ec, Et. split; [done|]. by exists v.
Qed.

Definition planned (st : InvestigationState) : Prop :=
  ∀ p, gs_proposal st = Some p → ∃ h, head (gs_hypotheses st) = Some h ∧
    _proposal_from_runbook (gs_tenant_id st) (gs_incident_id st) (gs_evidence st) h = Some p.

Lemma after_planner turns st l st' l' :
  criticized st → superstep [_remediation_planner] turns st l = (Some (Ok st'), l') →
  inputs st' = inputs st ∧ criticized st' ∧ planned st'.
Proof.
  intros Hc H. eapply superstep_one in H as (u & Hu & H); [|apply planner_returns].
  destruct Hu as (h & Hh & U1 & U2 & U3 & U4 & U5).
  pose proof (apply_update_returns _ _ _ H) as (Ei & Ef & Ej). unfold judged in Ej.
  rewrite U1, U2, U3, U4 in Ej. cbn in Ej. injection Ej as K1 K2 K3 K4 K5 K6.
  split; [done|]. split; [by apply (judged_by_inputs st)|]. intros p Hp. exists h. rewrite K3.
  split; [done|]. unfold inputs in Ei. injection Ei as I1 I2 I3 I4. rewrite I1, I2, I4. congruence.
Qed.

Lemma after_verification turns st l st' l' :
  criticized st → planned st → superstep [_verification_agent] turns st l = (Some (Ok st'), l') →
  inputs st' = inputs st ∧ criticized st' ∧ planned st'.
Proof.
  intros Hc Hp H. eapply superstep_one in H as (u & Hu & H); [|apply verification_returns]. destruct Hu as [Hq _].
  destruct (quiet_update _ _ _ H Hq) as [Ei Ej]. unfold judged in Ej. injection Ej as K1 K2 K3 K4 K5 K6.
  split; [done|]. split; [by apply (judged_by_inputs st)|]. unfold inputs in Ei. injection Ei as I1 I2 I3 I4.
  unfold planned. rewrite I1, I2, I4, K3, K5. done.
Qed.

Lemma after_decision turns st l st' l' :
  criticized st → planned st → superstep [_coordinator_decision] turns st l = (Some (Ok st'), l') →
  gs_terminal_state st' = Some OT_COMPLETE →
  ∃ h p, gs_hypotheses st' = [h] ∧ gs_proposal st' = Some p ∧
    supported (gs_evidence st) (gs_correlation_reference st) h ∧
    _proposal_from_runbook (gs_tenant_id st) (gs_incident_id st) (gs_evidence st) h = Some p.
Proof.
  intros (Ht & v & Hv & Hs) Hp H Hend. eapply superstep_one in H as (u & Hu & H); [|apply decision_returns].
  destruct Hu as (U1 & U2 & U3 & Hd). pose proof (apply_update_returns _ _ _ H) as (Ei & Ef & Ej). unfold judged in Ej.
  rewrite U1, U2 in Ej. cbn in Ej. injection Ej as K1 K2 K3 K4 K5 K6. rewrite Hend, Ht in K6.
  destruct (up_terminal_state u) as [t|]; [|done]. injection K6 as <-.
  destruct (Hd eq_refl) as (v' & Hv' & _ & Ha & [p Hpr] & _). rewrite Hv in Hv'. injection Hv' as <-.
  destruct (Hs Ha) as (h & Hh & Hsup). destruct (Hp p Hpr) as (h' & Hh' & Hpr'). rewrite Hh in Hh'. injection Hh' as <-.
  exists h, p. rewrite K3, K5. by split_and!.
Qed.

Lemma and_then_ok m f st' l' :
  and_then m f = (Some (Ok st'), l') → ∃ st l, m = (Some (Ok st), l) ∧ f st l = (Some (Ok st'), l').
Proof. destruct m as [[[st|x]|] l]; cbn; [eauto|done|done]. Qed.

(** A run of the graph from its initial state that ends COMPLETE *)
Lemma invoke_completes schedule st l st' l' :
  judged st = (None, false, [], None, None, None) → gs_findings st = [] →
  invoke_graph schedule st l = (Some (Ok st'), l') → gs_terminal_state st' = Some OT_COMPLETE →
  ∃ h p, gs_hypotheses st' = [h] ∧ gs_proposal st' = Some p ∧
    supported (gs_evidence st) (gs_correlation_reference st) h ∧
    _proposal_from_runbook (gs_tenant_id st) (gs_incident_id st) (gs_evidence st) h = Some p.
Proof.
  intros Hj Hf H Hend. unfold invoke_graph in H.
  apply and_then_ok in H as (s1 & l1 & H1 & H). destruct (after_coordinator _ _ _ _ _ Hj Hf H1) as [E1 A1].
  apply and_then_ok in H as (s2 & l2 & H2 & H). destruct (after_specialists _ _ _ _ _ A1 H2) as [E2 A2].
  apply and_then_ok in H as (s3 & l3 & H3 & H). destruct (after_critic _ _ _ _ _ A2 H3) as (E3 & Hp3 & C3).
  destruct (_route_after_critic s3) as [[]|x]; [| |done].
  - apply and_then_ok in H as (s4 & l4 & H4 & H). destruct (after_planner _ _ _ _ _ C3 H4) as (E4 & C4 & P4).
    apply and_then_ok in H as (s5 & l5 & H5 & H). destruct (after_verification _ _ _ _ _ C4 P4 H5) as (E5 & C5 & P5).
    destruct (after_decision _ _ _ _ _ C5 P5 H Hend) as (h & p & Hh & Hp & Hs & Hr). exists h, p.
    rewrite E4, E3, E2, E1 in E5. unfold inputs in E5. injection E5 as I1 I2 I3 I4. rewrite <- I1, <- I2, <- I3, <- I4. done.
  - destruct (after_decision _ _ _ _ _ C3 ltac:(by intros p; rewrite Hp3) H Hend) as (h & p & Hh & Hp & Hs & Hr). exists h, p.
    rewrite E2, E1 in E3. unfold inputs in E3. injection E3 as I1 I2 I3 I4. rewrite <- I1, <- I2, <- I3, <- I4. done.
Qed.
End graph.

(** ** Completed investigations *)

Section completed.
Context {HDigest : Digest} {HFloat : FloatJson} {HDecode : FindingDecoder} {HOrder : UpdateOrder} {HOrderLaws : UpdateOrderLaws}.

(** The citation is of an item of the evidence, with its content hash and its locator. *)
Definition cites_item (evidence : list Evidence) (c : Citation) : Prop :=
  ∃ e, e ∈ evidence ∧ ev_evidence_id e = ci_evidence_id c ∧ ev_content_hash e = ci_content_hash c ∧
    ev_locator e = ci_locator c.

(** What an accepted hypothesis has behind it *)
Record corroborated (evidence : list Evidence) (reference : datetime) (h : Hypothesis_) : Prop := {
  cb_consistent : consistent evidence;
  cb_sources : ∀ k, k ∈ required_kinds →
    (∃ e, e ∈ evidence ∧ ev_kind e = k) ∧
    ∀ e, e ∈ evidence → ev_kind e = k → reference - ev_observed_at e ≤ _FRESHNESS k;
  cb_contained : ∀ e, e ∈ evidence → contains_prompt_injection e = false;
  cb_cited : ∀ c, c ∈ hy_citations h → cites_item evidence c;
  cb_found : ∃ found, 2 ≤ zlen found ∧ NoDup (fd_finding_id <$> found) ∧
    hy_confidence h = round2 (lowest_confidence found) ∧
    ∀ f, f ∈ found →
      fd_abstained f = false ∧ fd_cause_code f = Some (hy_cause_code h) ∧
      fleb _MINIMUM_CONFIDENCE (fd_confidence f) = true ∧
      fd_citations f ≠ [] ∧ ∀ c, c ∈ fd_citations f → cites_item evidence c
}.

Lemma filter_NoDup {A} (k : A → string) (g : A → bool) l : NoDup (k <$> l) → NoDup (k <$> List.filter g l).
Proof.
  induction l as [|x l IH]; cbn; [done|]. intros [Hx Hl]%NoDup_cons. destruct (g x); cbn; [|by apply IH].
  apply NoDup_cons. split; [|by apply IH]. intros (y & Hy & [Hin _]%filter_elem)%list_elem_of_fmap.
  apply Hx. apply list_elem_of_fmap. by exists y.
Qed.

Lemma prepared_contained evidence prepared :
  prepare_model_evidence evidence = Ok prepared → prepared.2 = false →
  ∀ e, e ∈ evidence → contains_prompt_injection e = false.
Proof.
  unfold prepare_model_evidence. intros H Hi e He. apply res_bind_ok in H as (views & _ & [= <-]). cbn in Hi.
  destruct (contains_prompt_injection e) eqn:E; [|done]. rewrite <- Hi. symmetry. apply existsb_exists. exists e.
  split; [|done]. apply list_elem_of_In. by rewrite py_sorted_perm.
Qed.

Lemma required_sources evidence reference c k :
  correlate evidence reference = Ok c → lacks (cc_missing_sources c) = false → lacks (cc_stale_sources c) = false →
  k ∈ required_kinds →
  (∃ e, e ∈ evidence ∧ ev_kind e = k) ∧
  ∀ e, e ∈ evidence → ev_kind e = k → reference - ev_observed_at e ≤ _FRESHNESS k.
Proof.
  intros Hc Hm Hs Hk. destruct (correlate_returns _ _ _ Hc) as (_ & Em & Es). rewrite Em in Hm. rewrite Es in Hs.
  apply lacks_false in Hm as [M1 M2]. apply lacks_false in Hs as [S1 S2].
  assert (Hn : k ∉ missing_sources _REQUIRED_SOURCES (py_sorted timeline_leb evidence)
            ∧ k ∉ stale_sources reference (py_sorted timeline_leb evidence) ∧ k ∈ _REQUIRED_SOURCES).
  { apply elem_of_cons in Hk as [->| ->%list_elem_of_singleton]; split_and!; try done; by repeat constructor. }
  destruct Hn as (Hn1 & Hn2 & Hreq). split.
  - destruct (not_missing _ _ Hreq Hn1) as (e & He & <-). exists e. by rewrite py_sorted_perm in He.
  - intros e He <-. eapply not_stale; [|done]. by rewrite py_sorted_perm.
Qed.

Lemma supported_corroborated evidence reference h : supported evidence reference h → corroborated evidence reference h.
Proof.
  intros (prepared & c & findings & Hp & Hc & Hn & Hm & [A1 A2 A3 A4 A5 A6 A7 A8 A9 A10]).
  pose proof (invalid_citations_nil _ _ A1) as Hv. split.
  - by apply (correlate_returns _ _ _ Hc).
  - intros k Hk. by eapply required_sources.
  - by eapply prepared_contained.
  - intros x Hx. rewrite A9 in Hx. unfold _unique_citations in Hx. rewrite py_sorted_perm in Hx.
    apply list_elem_of_fmap in Hx as ([k x'] & -> & Hx). apply dict_of_elem in Hx as [Hx _].
    apply list_elem_of_bind in Hx as (f & Hx & Hf). apply filter_elem in Hf as [Hf _]. apply citation_valid_item. by eapply Hv.
  - exists (usable_findings findings). split; [done|]. split; [|split; [done|]].
    + by apply filter_NoDup.
    + intros f Hf. pose proof Hf as Hu. apply filter_elem in Hf as [Hf Hb]. py_bool.
      destruct (made_claims f (Hm f Hf)) as [[cause Hcause] Hne]; [done|]. split; [done|]. split_and!; try done.
      * rewrite Hcause. f_equal. apply list_elem_of_singleton. rewrite <- A8. apply sorted_set_elem.
        apply list_elem_of_omap. by exists f.
      * intros x Hx. apply citation_valid_item. by eapply Hv.
Qed.

(** The proposal rolls back what a change item of the evidence deployed, because a runbook item says so. *)
Definition proposed_by_runbook (evidence : list Evidence) (p : RemediationProposal) : Prop :=
  ∃ runbook change, runbook ∈ evidence ∧ ev_kind runbook = EK_RUNBOOK ∧
    fact_is "action" "rollback_candidate" (ev_facts runbook) = true ∧
    change ∈ evidence ∧ ev_kind change = EK_CHANGE ∧
    pp_target p = fact_or "service" "checkout-api" (ev_facts change) +:+ ":"
                  +:+ fact_or "version" "unknown" (ev_facts change).

Lemma first_evidence_elem kind evidence e : first_evidence kind evidence = Some e → e ∈ evidence ∧ ev_kind e = kind.
Proof. unfold first_evidence. intros [H Hk]%head_Some_elem_of%filter_elem. by py_bool. Qed.

Lemma runbook_proposal tenant incident evidence h p :
  _proposal_from_runbook tenant incident evidence h = Some p → proposed_by_runbook evidence p.
Proof.
  unfold _proposal_from_runbook. destruct (first_evidence EK_RUNBOOK evidence) as [runbook|] eqn:Er; [|done].
  destruct (first_evidence EK_CHANGE evidence) as [change|] eqn:Ec; [|done]. destruct (fact_is _ _ _) eqn:Ef; [|done].
  destruct (new_RemediationProposal _) eqn:Hp; [|done]. intros [= <-]. apply validated_ok in Hp as [-> _].
  apply first_evidence_elem in Er as []. apply first_evidence_elem in Ec as []. by exists runbook, change.
Qed.

Lemma corroborated_perm evidence evidence' reference h :
  evidence ≡ₚ evidence' → corroborated evidence reference h → corroborated evidence' reference h.
Proof.
  intros E [C1 C2 C3 C4 (found & F1 & F2 & F3 & F4)].
  assert (Hc : ∀ c, cites_item evidence c → cites_item evidence' c).
  { intros c (e & He & H). exists e. by rewrite <- E. }
  split.
  - by eapply consistent_perm.
  - intros k Hk. destruct (C2 k Hk) as [(e & He & Hek) Hs]. setoid_rewrite <- E. eauto.
  - intros e He. apply C3. by rewrite E.
  - eauto.
  - exists found. do 3 (split; [done|]). intros f Hf. destruct (F4 f Hf) as (G1 & G2 & G3 & G4 & G5).
    do 4 (split; [done|]). eauto.
Qed.

(** LangGraph runs the graph: what an invocation from an initial state returns, the supersteps
    return under some schedule. *)
Definition follows_graph (invoke : option InvestigationState → M orchestration_ledger InvestigationState) : Prop :=
  ∀ st l st' l', invoke (Some st) l = (Ok st', l') →
    ∃ schedule, invoke_graph schedule st l = (Some (Ok st'), l').

Lemma result_completes st request request_id run_id thread replayed w r w' :
  _result st request request_id run_id thread replayed w = (Ok r, w') → vr_status r = IS_COMPLETE →
  gs_terminal_state st = Some OT_COMPLETE ∧ vr_hypotheses r = gs_hypotheses st ∧ vr_proposal r = gs_proposal st.
Proof.
  unfold _result. intros H Hs. inv_lift H ct Hct. inv_bind H items w1 Hi. unfold lift in H. injection H as H <-.
  apply validated_ok in H as [-> _]. cbn in Hs |- *. destruct (gs_critic st); [|done].
  destruct (gs_terminal_state st) as [t|]; [|done]. injection Hct as <-. cbn in Hs. by destruct t.
Qed.

Lemma cancelled_status tenant request request_id run_id thread w r w' :
  _cancelled_result tenant request request_id run_id thread w = (Ok r, w') → vr_status r = IS_CANCELLED.
Proof.
  unfold _cancelled_result. intros H. inv_bind H items w1 Hi. unfold lift in H. injection H as H <-.
  by apply validated_ok in H as [-> _].
Qed.

Lemma failure_status request initial x w r w' :
  on_failure request initial x w = (Ok r, w') → vr_status r = IS_CANCELLED.
Proof.
  unfold on_failure. destruct (decide _); [done|]. destruct (invalid_state x); [done|].
  intros H. inv_bind H w0 w1 H0. injection H0 as <- <-. destruct (projection _ _ _) as [current|]; [|done].
  destruct (or_cancelled current); [by apply cancelled_status in H|done].
Qed.

(** A fresh run that completes *)
Lemma completed_run_corroborated invoke tenant request request_id run_id thread evidence w r w' :
  follows_graph invoke →
  run (Ok None) invoke tenant request request_id run_id thread evidence w = (Ok r, w') →
  vr_status r = IS_COMPLETE →
  ∃ h p, vr_hypotheses r = [h] ∧ vr_proposal r = Some p ∧
    corroborated evidence (ca_observed_at (ir_alert request)) h ∧ proposed_by_runbook evidence p.
Proof.
  intros Hinv H Hs. unfold run in H. inv_bind H owner w1 Ho. inv_lift H u Hu. inv_bind H started w2 Hb.
  set (initial := initial_state _ _ _ _ _ _ _ _) in H.
  destruct (on_ledger (invoke (Some initial)) w2) as [[st|x] w3] eqn:Hi.
  2: { unfold run_bound, resume_or_start, mbind, M_bind in H. cbn in H. rewrite Hi in H.
       apply failure_status in H. congruence. }
  unfold run_bound, resume_or_start, mbind, M_bind in H. cbn in H. rewrite Hi in H. cbn in H.
  destruct (result_completes _ _ _ _ _ _ _ _ _ H Hs) as (Ht & -> & ->).
  unfold on_ledger, zoom in Hi. destruct (invoke (Some initial) (gw_ledger w2)) as [r' l'] eqn:Hin. injection Hi as -> _.
  destruct (Hinv _ _ _ _ Hin) as [schedule Hg].
  destruct (invoke_completes schedule initial _ _ _ eq_refl eq_refl Hg Ht) as (h & p & Hh & Hp & Hsup & Hr).
  exists h, p. do 2 (split; [done|]). apply supported_corroborated in Hsup. apply runbook_proposal in Hr. cbn in Hsup, Hr.
  split; [eapply corroborated_perm; [apply py_sorted_perm|done]|].
  destruct Hr as (runbook & change & R1 & R2 & R3 & R4 & R5). rewrite py_sorted_perm in R1, R4. by exists runbook, change.
Qed.

End completed.

(** ** The chain of artifacts *)

Section provenance.
Context {HDigest : Digest} {HFloat : FloatJson} {HDecode : FindingDecoder} {HOrder : UpdateOrder} {HOrderLaws : UpdateOrderLaws}.

(** An artifact issued from artifacts that were issued *)
Inductive governed : GovernanceArtifact → Prop :=
  | governed_issue tenant incident run task ordinal role p sources a :
      (∀ s, s ∈ sources → governed s) → issue tenant incident run task ordinal role p sources = Ok a → governed a.

(** [a] names [b] and its digest among its sources. *)
Definition cites (a b : GovernanceArtifact) : Prop :=
  {| pv_artifact_id := ga_artifact_id b; pv_artifact_digest := ga_canonical_digest b |} ∈ ga_provenance a.

Lemma issue_returns tenant incident run task ordinal role p sources a :
  issue tenant incident run task ordinal role p sources = Ok a →
  GovernanceArtifact_ok a = true ∧ ga_kind a = payload_kind p ∧ (∀ s, s ∈ sources → cites a s) ∧
  _validate_transition (ga_kind a) sources = Ok tt.
Proof.
  unfold issue. intros H. apply res_bind_ok in H as ([] & Ht & H). apply validated_ok in H as [-> Hok].
  split; [done|]. split; [done|]. split; [|done]. intros s Hs. unfold cites, provenance_of. cbn.
  apply list_elem_of_fmap. exists s. split; [done|]. by rewrite py_sorted_perm.
Qed.

(** An artifact that is not a plan has a source, and every source admits it. *)
Lemma transition_source target sources :
  _validate_transition target sources = Ok tt → target ≠ AK_INVESTIGATION_PLAN →
  ∃ s, s ∈ sources ∧ target ∈ _TRANSITIONS (ga_kind s).
Proof.
  unfold _validate_transition. intros H Hn. rewrite decide_False in H by done. py_inv. py_bool.
  destruct sources as [|s sources]; [done|]. exists s. split; [left|].
  match goal with H : existsb _ _ = false |- _ => cbn in H end. py_bool. done.
Qed.

(** What may follow an assessment, at any distance *)
Definition after_assessment (k : ArtifactKind) : bool :=
  match k with
  | AK_INVESTIGATION_PLAN | AK_INVESTIGATION_TASK | AK_CONTEXT_REFERENCES | AK_EVIDENCE_ASSESSMENT => false
  | _ => true
  end.

Lemma transition_after target source :
  target ∈ _TRANSITIONS source → after_assessment target = true →
  source = AK_EVIDENCE_ASSESSMENT ∨ after_assessment source = true.
Proof. intros H Ha. destruct source; [..|by right]; try (by left); try (by right); destruct target; cbn in *; set_solver. Qed.

Lemma governed_chain a :
  governed a →
  (∃ plan, governed plan ∧ ga_kind plan = AK_INVESTIGATION_PLAN ∧ rtc cites a plan) ∧
  (after_assessment (ga_kind a) = true →
   ∃ s, governed s ∧ ga_kind s = AK_EVIDENCE_ASSESSMENT ∧ rtc cites a s).
Proof.
  induction 1 as [tenant incident run task ordinal role p sources a Hs IH Hi].
  destruct (issue_returns _ _ _ _ _ _ _ _ _ Hi) as (_ & _ & Hc & Ht). split.
  - destruct (decide (ga_kind a = AK_INVESTIGATION_PLAN)) as [Hk|Hk]; [exists a; split; [by econstructor|done]|].
    destruct (transition_source _ _ Ht Hk) as (s & Hin & _). destruct (IH s Hin) as [(plan & Hg & Hp & Hr) _].
    exists plan. do 2 (split; [done|]). eapply rtc_l; [|done]. by apply Hc.
  - intros Ha. assert (Hk : ga_kind a ≠ AK_INVESTIGATION_PLAN) by (intros E; by rewrite E in Ha).
    destruct (transition_source _ _ Ht Hk) as (s & Hin & Htr).
    destruct (transition_after _ _ Htr Ha) as [E|E].
    + exists s. split; [by apply Hs|]. split; [done|]. apply rtc_once. by apply Hc.
    + destruct (IH s Hin) as [_ H]. destruct (H E) as (x & Hg & Hx & Hr). exists x. do 2 (split; [done|]).
      eapply rtc_l; [|done]. by apply Hc.
Qed.

Lemma governed_writer a :
  governed a → ga_kind a ∈ _ROLE_WRITES (ga_producer_role a) ∧ ga_canonical_digest a = digest_of_artifact a.
Proof.
  destruct 1 as [tenant incident run task ordinal role p sources a Hs Hi].
  destruct (issue_returns _ _ _ _ _ _ _ _ _ Hi) as (Hok & _). unfold GovernanceArtifact_ok, envelope_ok in Hok.
  by py_bool.
Qed.

(** *** The artifacts of a run *)

Definition all_governed (l : list GovernanceArtifact) : Prop := ∀ a, a ∈ l → governed a.

Lemma governed_nil : all_governed [].
Proof. by intros a ?%not_elem_of_nil. Qed.
Lemma governed_one a : governed a → all_governed [a].
Proof. by intros H b ->%list_elem_of_singleton. Qed.
Lemma governed_cons a l : governed a → all_governed l → all_governed (a :: l).
Proof. intros H1 H2 b [->|Hb]%elem_of_cons; auto. Qed.
Lemma governed_app l1 l2 : all_governed l1 → all_governed l2 → all_governed (l1 ++ l2).
Proof. intros H1 H2 b [Hb|Hb]%elem_of_app; auto. Qed.

#[local] Hint Resolve governed_nil governed_one governed_cons governed_app : core.

Lemma issued_governed st task ordinal role p sources a :
  all_governed sources → issued st task ordinal role p sources = Ok a → governed a.
Proof. unfold issued. intros Hs H. apply res_bind_ok in H as (p' & _ & H). by eapply governed_issue. Qed.

Lemma merge_artifacts_governed left right l :
  merge_artifacts left right = Ok l → all_governed left → all_governed right → all_governed l.
Proof.
  unfold merge_artifacts. intros H Hl Hr. apply res_bind_ok in H as (merged & Hm & [= <-]).
  assert (Hall : ∀ d d', foldM merge_artifact d (left ++ right) = Ok d' → (∀ x, x ∈ d.*2 → governed x) → ∀ x, x ∈ d'.*2 → governed x).
  { pose proof (governed_app _ _ Hl Hr) as Hg. revert Hg. generalize (left ++ right) as items. clear.
    induction items as [|a items IH]; intros Hg d d' H Hd; cbn in H; [by injection H as <-|].
    apply res_bind_ok in H as (d1 & H1 & H). eapply IH; [intros x Hx; apply Hg; by right|exact H|].
    unfold merge_artifact in H1. apply res_bind_ok in H1 as ([] & _ & [= <-]).
    intros x ([k y] & -> & Hy)%list_elem_of_fmap. apply dict_set_member in Hy as [[= -> ->]|Hy]; [apply Hg; left|].
    apply Hd. apply list_elem_of_fmap. by exists (k, y). }
  intros a Ha. rewrite py_sorted_perm in Ha. eapply Hall; [exact Hm| |exact Ha]. intros x Hx. by apply not_elem_of_nil in Hx.
Qed.

Lemma artifacts_governed st kind : all_governed (gs_artifacts st) → all_governed (_artifacts st kind).
Proof. intros H a [Ha _]%filter_elem. auto. Qed.

Lemma artifact_governed st kind task a : all_governed (gs_artifacts st) → _artifact st kind task = Ok a → governed a.
Proof.
  unfold _artifact. intros H Ha. destruct (List.filter _ _) as [|b [|]] eqn:E; try done. injection Ha as <-.
  assert (Hb : b ∈ [b]) by left. rewrite <- E in Hb. apply filter_elem in Hb as [Hb _]. by apply (artifacts_governed st kind).
Qed.

Lemma coordinator_governed st : always (_coordinator st) (λ u, all_governed (up_artifacts u)).
Proof.
  unfold _coordinator. eapply always_then; [apply always_true|]. intros prepared _.
  eapply always_then; [apply always_true|]. intros c _. eapply always_then; [apply always_res|]. intros plan Hp. eapply always_then; [apply always_res|]. intros tasks Ht.
  eapply always_then; [apply always_res|]. intros context Hc. eapply always_then; [apply always_true|]. intros _ _.
  cbn. apply issued_governed in Hp; [|done]. apply governed_cons; [done|]. apply governed_app.
  - intros a Ha. apply traverse_ok in Ht. destruct (proj1 (list_elem_of_lookup _ _) Ha) as [i Hi].
    destruct (Forall2_lookup_r _ _ _ _ _ Ht Hi) as (b & _ & Hb). apply issued_governed in Hb; auto.
  - apply governed_one. apply issued_governed in Hc; auto.
Qed.

Lemma assessed_governed st s task f fa : assessed st s task f = Ok fa → governed task → governed fa.2.
Proof.
  unfold assessed. intros H Ht. destruct (_assessment_artifact st s task f) as [a|x] eqn:Ea.
  - injection H as <-. cbn. apply issued_governed in Ea; auto.
  - destruct (decide _); [|done]. apply res_bind_ok in H as (f' & _ & H). apply res_bind_ok in H as (a & Ha & [= <-]).
    cbn. apply issued_governed in Ha; auto.
Qed.

Lemma specialist_governed st s :
  all_governed (gs_artifacts st) → always (_run_specialist st s) (λ u, all_governed (up_artifacts u)).
Proof.
  intros Hg. unfold _run_specialist. eapply always_then; [apply always_true|]. intros c _. destruct (decide _); [by cbn|].
  eapply always_then; [apply always_true|]. intros f _. eapply always_then; [apply always_res|]. intros task Ht.
  apply artifact_governed in Ht; [|done]. eapply always_then; [apply always_res|]. intros fa Hfa.
  apply assessed_governed in Hfa; [|done]. eapply always_try; [apply always_true|intros x|intros _ _].
  - unfold on_stale. destruct (decide _); [|done]. eapply always_then; [apply always_true|]. intros [] _; [|done]. by cbn.
  - eapply always_then; [apply always_true|]. intros errors _. cbn. auto.
Qed.

Lemma critic_governed st :
  all_governed (gs_artifacts st) → always (_critic st) (λ u, all_governed (up_artifacts u)).
Proof.
  intros Hg. unfold _critic. destruct (gs_cancelled st); [by cbn|]. eapply always_then; [apply always_true|]. intros c _.
  eapply always_then; [apply always_true|]. intros verdict _. eapply always_then; [apply always_res|]. intros emitted He. eapply always_then; [apply always_true|]. intros _ _. cbn.
  unfold critic_artifacts in He. apply res_bind_ok in He as (critique & Hc & He).
  apply issued_governed in Hc; [|by apply artifacts_governed].
  apply res_bind_ok in He as (contradiction & Hx & He). apply res_bind_ok in He as (hypothesis & Hh & [= <-]).
  apply governed_cons; [done|]. apply governed_app.
  - destruct (bool_decide _); [by injection Hx as <-|]. apply res_bind_ok in Hx as (b & Hb & [= <-]).
    apply issued_governed in Hb; [|by apply artifacts_governed]. auto.
  - destruct verdict.2 as [|h hs]; [by injection Hh as <-|]. apply res_bind_ok in Hh as (b & Hb & [= <-]).
    apply issued_governed in Hb; auto.
Qed.

Lemma planner_governed st :
  all_governed (gs_artifacts st) → always (_remediation_planner st) (λ u, all_governed (up_artifacts u)).
Proof.
  intros Hg. unfold _remediation_planner. eapply always_then; [apply always_true|]. intros h _.
  destruct (_proposal_from_runbook _ _ _ _); [|by cbn]. eapply always_then; [apply always_res|]. intros a Ha.
  eapply always_then; [apply always_true|]. intros _ _. cbn. unfold proposal_artifact in Ha.
  apply res_bind_ok in Ha as (source & Hs & Ha). apply artifact_governed in Hs; [|done]. apply issued_governed in Ha; auto.
Qed.

Lemma verification_governed st :
  all_governed (gs_artifacts st) → always (_verification_agent st) (λ u, all_governed (up_artifacts u)).
Proof.
  intros Hg. unfold _verification_agent. destruct (gs_proposal st); [|by cbn].
  eapply always_then; [apply always_res|]. intros a Ha. eapply always_then; [apply always_true|]. intros _ _. cbn.
  unfold verification_artifact in Ha. apply res_bind_ok in Ha as (source & Hs & Ha).
  apply artifact_governed in Hs; [|done]. apply issued_governed in Ha; auto.
Qed.

Lemma decision_governed st :
  all_governed (gs_artifacts st) → always (_coordinator_decision st) (λ u, all_governed (up_artifacts u)).
Proof.
  intros Hg. unfold _coordinator_decision. eapply always_then; [apply always_true|]. intros v _.
  destruct (gs_cancelled st); [by cbn|]. eapply always_then; [apply always_res|]. intros decision Hd.
  eapply always_then; [apply always_res|]. intros final Hf. eapply always_then; [apply always_true|]. intros _ _. cbn.
  apply issued_governed in Hd.
  - apply issued_governed in Hf; auto.
  - unfold choose. destruct (_ && _); cbn; [by apply artifacts_governed|].
    destruct (_artifacts st AK_CONTRADICTION) eqn:E; [|rewrite <- E]; by apply artifacts_governed.
Qed.

Lemma update_governed st u st' :
  apply_update st u = Ok st' → all_governed (gs_artifacts st) → all_governed (up_artifacts u) →
  all_governed (gs_artifacts st').
Proof.
  unfold apply_update. intros H Hg Hu. apply res_bind_ok in H as (merged & Hm & [= <-]). by eapply merge_artifacts_governed.
Qed.

Lemma updates_governed us : ∀ st st',
  foldM apply_update st us = Ok st' → all_governed (gs_artifacts st) →
  (∀ u, u ∈ us → all_governed (up_artifacts u)) → all_governed (gs_artifacts st').
Proof.
  induction us as [|u us IH]; intros st st' H Hg Hus; cbn in H; [by injection H as <-|].
  apply res_bind_ok in H as (st1 & H1 & H). apply (IH st1); [done| |intros v Hv; apply Hus; by right].
  eapply update_governed; [done|done|apply Hus; left].
Qed.

Lemma superstep_governed nodes turns st l st' l' :
  (∀ node, node ∈ nodes → always (node st) (λ u, all_governed (up_artifacts u))) → all_governed (gs_artifacts st) →
  superstep nodes turns st l = (Some (Ok st'), l') → all_governed (gs_artifacts st').
Proof.
  intros Hn Hg H. apply superstep_returns with (Q := λ u, all_governed (up_artifacts u)) in H as (us & _ & Hus & H).
  - by eapply updates_governed.
  - done.
Qed.

Lemma one_governed (node : InvestigationState → P update) turns st l st' l' :
  always (node st) (λ u, all_governed (up_artifacts u)) → all_governed (gs_artifacts st) →
  superstep [node] turns st l = (Some (Ok st'), l') → all_governed (gs_artifacts st').
Proof. intros Hn. apply superstep_governed. by intros n ->%list_elem_of_singleton. Qed.

End provenance.

(** ** The ledger over any calls *)

Section ledger.
Context {HDigest : Digest}.

(** C15: over any sequences of calls of a ledger that starts empty, a run has at most 64 artifacts,
    of distinct ordinals, each stored under its tenant, run and id; its projection counts them and holds the last
    decision, so that [rebuild_projection] returns it and changes nothing; later calls keep what the
    run is bound to and every artifact; and once the run is cancelled, its projection, its tasks and
    its artifacts are final. *)
Theorem orchestration_ledger_sound before after t r p
    (l := run_calls before new_InMemoryOrchestrationLedger) (l' := run_calls after l) :
  ol_runs l !! (t, r) = Some p →
  zlen (_run_artifacts l t r) ≤ MAX_ARTIFACTS ∧ NoDup (ga_ordinal <$> _run_artifacts l t r) ∧
  (∀ a, a ∈ _run_artifacts l t r → ol_artifacts l !! (ga_tenant_id a, ga_run_id a, ga_artifact_id a) = Some a) ∧
  rebuild_projection t r l = (Ok p, l) ∧
  (∃ p', ol_runs l' !! (t, r) = Some p' ∧ run_binding p' = run_binding p) ∧
  (∀ a, a ∈ _run_artifacts l t r → a ∈ _run_artifacts l' t r) ∧
  (or_cancelled p = true → frozen l l' t r).
Proof.
  intros Hp. destruct (run_calls_sound before _ new_ledger_sound) as [Hl _]. fold l in Hl.
  destruct (run_calls_sound after l Hl) as [_ [Hrun Hart]]. fold l' in Hrun, Hart.
  pose proof Hl as [Hruns Hkeys]. destruct (Hruns t r p Hp) as [_ _ S3 S4 S5 S6].
  do 2 (split; [done|]). split; [|split; [|split; [by apply Hrun|split; [|by apply Hrun]]]].
  - intros a [k Hk]%of_run_elem. destruct (Hkeys _ _ Hk) as [E _]. by rewrite <- E.
  - assert (E : run_with (or_cancelled p) (zlen (_run_artifacts l t r)) (last_decision (_run_artifacts l t r) None) p = p)
      by (rewrite <- S3, <- S6; by destruct p).
    unfold rebuild_projection, get, modify, lift, mret, M_ret, mbind, M_bind.
    rewrite (proj2 (required_run l t r p) Hp), E. f_equal. unfold put_run.
    assert (Ei : <[(t, r) := p]> (ol_runs l) = ol_runs l) by (by apply insert_id).
    rewrite Ei. by destruct l.
  - intros a [k Hk]%of_run_elem. apply of_run_elem. exists k. by eapply lookup_weaken.
Qed.

(** C9: a task that was started once is never started again.  Until the run is cancelled, it is
    completed only under the fence of that start, and only when no claim or completion of the task
    has returned in between; once it is completed, a claim answers with the recorded result, or that
    the run was cancelled. *)
Theorem tasks_run_once before during t r k role d c l1
    (l2 := run_calls during l1) (past := returned during l1) :
  claim_task t r k role d (run_calls before new_InMemoryOrchestrationLedger) = (Ok c, l1) →
  tc_status c = TD_STARTED →
  (∀ role' d' c' l3, claim_task t r k role' d' l2 = (Ok c', l3) →
     tc_status c' ≠ TD_STARTED ∧
     ∀ f' result, CompleteTask t r k f' result ∈ past →
       tc_status c' = TD_CANCELLED ∨
       tc_status c' = TD_CACHED ∧ tc_cached_result c' = json_loads (canonical_json (JObj result))) ∧
  (∀ f' result l3, complete_task t r k f' result l2 = (Ok tt, l3) →
     f' = tc_fence_token c ∧ ∀ call, call ∈ past → concerns t r k call = false).
Proof.
  intros Hc Hs. set (l0 := run_calls before _) in Hc.
  destruct (run_calls_sound before _ new_ledger_sound) as [Hl0 _]. fold l0 in Hl0.
  destruct (run_call_sound (ClaimTask t r k role d) l0 Hl0) as [Hl1 Hpers]. cbn in Hl1, Hpers. rewrite Hc in Hl1, Hpers. cbn in Hl1, Hpers.
  assert (Hrun : ∃ p, ol_runs l0 !! (t, r) = Some p).
  { unfold claim_task, get, lift, mbind, M_bind in Hc. destruct (_required_run l0 t r) as [p|x] eqn:Hp; [|done].
    exists p. by apply required_run. }
  destruct Hrun as [p Hp]. destruct Hpers as [Hrun _]. destruct (Hrun t r p Hp) as [(p1 & Hp1 & _) _].
  assert (H0 : task_story t r k (tc_fence_token c) [] l1).
  { apply claim_task_returns in Hc. destruct Hc as [q ? ? E|e He E Hst Hf|e doc ? ? ? ? E ?|e ? ? ? E|e f a ? ? ? E]; try congruence.
    exists e, p1. cbn. rewrite lookup_insert_eq. do 2 (split; [done|]). intros _. unfold task_phase. rewrite Hst.
    split; [done|]. by intros call ?%not_elem_of_nil. }
  destruct (task_story_calls t r k (tc_fence_token c) during l1 Hl1 H0) as (e & p2 & He & Hp2 & Hph).
  fold l2 past in He, Hp2, Hph. split.
  - intros role' d' c' l3 H%claim_task_returns.
    destruct H as [q Hq Hqc E|e' He' E|e' doc Hlive He' Hst Hr E Hcache|e' Hlive He' Hst E|e' f a Hlive He' Hst E]; simplify_eq; rewrite E.
    2-4: destruct Hlive as (q & Hq & Hqc); simplify_eq; specialize (Hph Hqc); unfold task_phase in Hph.
    + split; [done|]. by left.
    + split; [done|]. intros f' result Hin. right. split; [done|]. rewrite Hst in Hph. destruct Hph as (result' & Hdoc & Huniq).
      rewrite (Huniq _ _ Hin), Hcache, <- Hdoc. done.
    + split; [done|]. intros f' result Hin. rewrite Hst in Hph. by apply Hph in Hin.
    + split; [done|]. intros f' result Hin. destruct (tr_status e); [|done|by apply Hph in Hin..].
      destruct Hph as [_ Hph]. specialize (Hph _ Hin). cbn in Hph. by py_bool.
  - intros f' result l3 H. apply complete_task_returns in H as (q & e' & doc & Hq & Hqc & He' & Hf & Hst & _).
    simplify_eq. specialize (Hph Hqc). unfold task_phase in Hph. by rewrite Hst in Hph.
Qed.
End ledger.

(** ** What the order of the input does not change *)

Section order.
Context {HDigest : Digest} {HFloat : FloatJson} {HDecode : FindingDecoder}.

(** The reducers of findings and of node errors give the same list whatever the order in which
    the updates of the specialists arrive and however they are grouped, as long as two findings
    with the same id are the same finding. *)
Theorem reducers_ignore_order left right left' right' errors more errors' more' :
  left ++ right ≡ₚ left' ++ right' → keyed fd_finding_id (left ++ right) →
  errors ++ more ≡ₚ errors' ++ more' →
  merge_findings left right = merge_findings left' right' ∧
  merge_node_errors errors more = merge_node_errors errors' more'.
Proof.
  intros Hp Hk He. unfold merge_findings, merge_node_errors. split.
  - eapply keyed_sorted; [apply _|done|done|]. by intros x y [_ E].
  - eapply keyed_sorted; [apply _|done| |].
    + intros [n c] [n' c'] _ _ [= -> ->]. done.
    + intros x y [-> ->]. done.
Qed.

(** C36: an investigation depends on the set of its evidence only: with the items in another order,
    [run] returns and does the same. *)
Theorem investigations_ignore_evidence_order get_state invoke tenant request request_id run_id thread evidence evidence' w :
  evidence ≡ₚ evidence' → NoDup (ev_evidence_id <$> evidence) →
  correlate evidence (ca_observed_at (ir_alert request)) = correlate evidence' (ca_observed_at (ir_alert request)) ∧
  run get_state invoke tenant request request_id run_id thread evidence w
  = run get_state invoke tenant request request_id run_id thread evidence' w.
Proof.
  intros Hp Hn.
  assert (Hid : ∀ x y, x ∈ evidence → y ∈ evidence → ev_evidence_id x = ev_evidence_id y → x = y).
  { intros x y Hx Hy E. apply list_elem_of_lookup in Hx as [i Hi]. apply list_elem_of_lookup in Hy as [j Hj].
    assert (i = j) as ->; [|congruence]. eapply (NoDup_lookup _ _ _ (ev_evidence_id x) Hn); rewrite list_lookup_fmap.
    - by rewrite Hi.
    - rewrite Hj. cbn. by rewrite E. }
  split.
  - unfold correlate, correlate_evidence.
    rewrite (sorted_canonical timeline_leb _ evidence evidence' Hp); [done|]. intros x y Hx Hy (_ & _ & E). auto.
  - unfold run, initial_state, orchestration_input_digest.
    rewrite (sorted_canonical evidence_by_id _ evidence evidence' Hp) by auto.
    rewrite (sorted_canonical str_leb eq (ev_content_hash <$> evidence) (ev_content_hash <$> evidence')); [done| |auto].
    by rewrite Hp.
Qed.
End order.

(** ** The correlation *)

Section correlation.
Context {HDigest : Digest}.

(** C35: a correlation reports conflicts exactly when two items of one kind say different things
    under a compared key, misses exactly the required kinds of which there is no item, calls stale
    exactly the kinds with an item older than their freshness, and is complete exactly when there is
    none of these. *)
Theorem correlation_is_exact evidence reference c :
  correlate evidence reference = Ok c →
  (cc_conflicts c = [] ↔ consistent evidence) ∧
  (∀ k, k ∈ cc_missing_sources c ↔ k ∈ _REQUIRED_SOURCES ∧ ∀ e, e ∈ evidence → ev_kind e ≠ k) ∧
  (∀ k, k ∈ cc_stale_sources c ↔ ∃ e, e ∈ evidence ∧ ev_kind e = k ∧ _FRESHNESS k < reference - ev_observed_at e) ∧
  (cc_status c = CS_COMPLETE ↔ cc_conflicts c = [] ∧ cc_missing_sources c = [] ∧ cc_stale_sources c = []).
Proof.
  intros H. destruct (correlate_returns _ _ _ H) as (Hc & Hm & Hs). split; [done|]. rewrite Hm, Hs.
  split; [|split].
  - intros k. unfold missing_sources. rewrite sorted_kinds_elem, filter_elem. f_equiv. rewrite bool_decide_eq_true. split.
    + intros Hn e He <-. apply Hn. apply list_elem_of_fmap. exists e. by rewrite py_sorted_perm.
    + intros Hn (e & -> & He)%list_elem_of_fmap. rewrite py_sorted_perm in He. by apply (Hn e).
  - intros k. unfold stale_sources. rewrite sorted_kinds_elem, list_elem_of_fmap. split.
    + intros (e & -> & [He Hlt]%filter_elem). rewrite py_sorted_perm in He. py_bool. by exists e.
    + intros (e & He & <- & Hlt). exists e. split; [done|]. apply filter_elem. rewrite py_sorted_perm.
      split; [done|]. by apply Z.ltb_lt.
  - rewrite <- Hm, <- Hs. unfold correlate, correlate_evidence in H. py_inv.
    match goal with H : validated _ _ _ = _ |- _ => apply validated_ok in H as [-> _] end.
    cbn [cc_status cc_conflicts cc_missing_sources cc_stale_sources]. unfold correlation_status.
    match goal with H : _conflicts _ = Ok ?l |- _ => destruct l end;
      destruct (missing_sources _ _), (stale_sources _ _); naive_solver.
Qed.
End correlation.

(** ** Every run of the graph ends *)

Section ends.
Context {HDigest : Digest} {HFloat : FloatJson} {HDecode : FindingDecoder} {HOrder : UpdateOrder}.

Lemma ends_of_res {A : Set} (r : res A) : ends_within (of_res r : P A) 0.
Proof. by destruct r. Qed.

Lemma ends_try_call {A : Set} (o : graph_op (res A)) : ends_within (try_call o) 1.
Proof. intros r. apply ends_of_res. Qed.

Lemma ends_bind {A B : Set} (p : P A) (f : A → P B) n m k :
  ends_within p n → (∀ a, ends_within (f a) m) → (n + m ≤ k)%nat → ends_within (then_ p f) k.
Proof. intros Hp Hf Hk. eapply ends_within_mono; [exact Hk|]. by apply ends_within_then. Qed.

Ltac bind_ends n m := eapply (ends_bind _ _ n m); [try apply ends_of_res; try apply ends_try_call|intros ?|lia].

Lemma ends_cancelled st : ends_within (_is_cancelled st) 1.
Proof. intros r. by cbn. Qed.

Lemma ends_execute st s : ends_within (_execute_specialist st s) 1.
Proof.
  unfold _execute_specialist. bind_ends 0%nat 1%nat. destruct s; try (eapply ends_within_mono; [|apply ends_of_res]; lia).
  all: eapply ends_within_mono; [|apply (ends_within_try _ _ _ 0 1)]; [lia|apply ends_try_call|intros; apply ends_of_res..].
Qed.

Lemma ends_claimed st s c : ends_within (claimed_finding st s c) 1.
Proof.
  unfold claimed_finding. destruct (tc_status c); try apply ends_execute.
  - destruct (match tc_cached_result c with Some _ => _ | None => _ end); [done|eapply ends_within_mono; [|apply ends_of_res]; lia].
  - eapply ends_within_mono; [|apply ends_of_res]; lia.
Qed.

Lemma ends_specialist st s : ends_within (_run_specialist st s) 5.
Proof.
  unfold _run_specialist. bind_ends 1%nat 4%nat. destruct (decide _); [done|].
  eapply (ends_bind _ _ 1 3); [apply ends_claimed|intros f|lia]. bind_ends 0%nat 3%nat. bind_ends 0%nat 3%nat.
  eapply ends_within_mono; [|apply (ends_within_try _ _ _ 1 2)]; [lia| |intros _|intros x].
  - unfold settle. eapply (ends_bind _ _ 1 1); [|intros _; apply ends_try_call|lia].
    destruct (decide _); [apply ends_try_call|done].
  - bind_ends 0%nat 1%nat. done.
  - unfold on_stale. destruct (decide _); [|done]. eapply (ends_bind _ _ 1 0); [apply ends_cancelled|intros []; done|lia].
Qed.

Lemma ends_coordinator st : ends_within (_coordinator st) 5.
Proof. unfold _coordinator. do 5 bind_ends 0%nat 5%nat. bind_ends 1%nat 4%nat. done. Qed.

Lemma ends_critic st : ends_within (_critic st) 5.
Proof. unfold _critic. destruct (gs_cancelled st); [done|]. do 3 bind_ends 0%nat 5%nat. bind_ends 1%nat 4%nat. done. Qed.

Lemma ends_planner st : ends_within (_remediation_planner st) 5.
Proof.
  unfold _remediation_planner. bind_ends 0%nat 5%nat. destruct (_proposal_from_runbook _ _ _ _); [|done].
  bind_ends 0%nat 5%nat. bind_ends 1%nat 4%nat. done.
Qed.

Lemma ends_verification st : ends_within (_verification_agent st) 5.
Proof. unfold _verification_agent. destruct (gs_proposal st); [|done]. bind_ends 0%nat 5%nat. bind_ends 1%nat 4%nat. done. Qed.

Lemma ends_decision st : ends_within (_coordinator_decision st) 5.
Proof.
  unfold _coordinator_decision. bind_ends 0%nat 5%nat. destruct (gs_cancelled st); [done|].
  do 2 bind_ends 0%nat 5%nat. bind_ends 1%nat 4%nat. done.
Qed.

Lemma all_collected {A : Set} (threads : list (P A)) :
  (∀ i p, threads !! i = Some p → ended p = true) → is_Some (collected threads).
Proof.
  intros H. unfold collected. destruct (omap raised_by threads) as [|x xs] eqn:E; [|eauto].
  assert (Hm : is_Some (mapM returned_by threads)); [|by destruct Hm as [us ->]; eauto].
  apply mapM_is_Some_2, Forall_forall. intros p Hp. destruct (proj1 (list_elem_of_lookup _ _) Hp) as [i Hi].
  specialize (H i p Hi). destruct p as [a|x|R o k]; [cbn; eauto| |done]. exfalso.
  assert (Hx : x ∈ omap raised_by threads) by (apply list_elem_of_omap; by exists (Throw x)).
  rewrite E in Hx. by apply not_elem_of_nil in Hx.
Qed.

Definition enough (turns : list graph_turn) : Prop :=
  ∀ i, (i < 4)%nat → (5 ≤ steps_of i (graph_move <$> turns))%nat.

Lemma superstep_ends nodes turns st l :
  enough turns → (length nodes ≤ 4)%nat → (∀ node, node ∈ nodes → ends_within (node st) 5) →
  is_Some (superstep nodes turns st l).1.
Proof.
  intros He Hlen Hn. unfold superstep. cbn [fst]. apply fmap_is_Some, all_collected. intros i p Hp.
  assert (Hlt : (i < length nodes)%nat).
  { apply lookup_lt_Some in Hp. rewrite run_pool_length in Hp. cbn in Hp. by rewrite length_fmap in Hp. }
  destruct (lookup_lt_is_Some_2 _ _ Hlt) as [node Hnode].
  destruct (run_pool_ends graph_handle (graph_move <$> turns) i ((λ node, node st) <$> nodes, l) (node st) 5) as (q & Hq & Hend).
  - cbn. by rewrite list_lookup_fmap, Hnode.
  - apply Hn. by apply list_elem_of_lookup_2 in Hnode.
  - apply He. lia.
  - congruence.
Qed.

Lemma one_ends (node : InvestigationState → P update) turns st l :
  enough turns → ends_within (node st) 5 → is_Some (superstep [node] turns st l).1.
Proof. intros He Hn. apply superstep_ends; [done|cbn; lia|]. by intros n ->%list_elem_of_singleton. Qed.

Lemma and_then_ends m f : is_Some m.1 → (∀ st l, is_Some (f st l).1) → is_Some (and_then m f).1.
Proof. intros [r Hr] Hf. destruct m as [[[st|x]|] l]; cbn in *; [apply Hf|eauto|done]. Qed.

(** C40: an invocation ends, with a state or an exception, once in each superstep every node has had
    five steps: the claim of its task, the call of the model, the completion, the append and the
    reading of the run. *)
Theorem investigations_end schedule st l :
  (∀ n, enough (schedule n)) → is_Some (invoke_graph schedule st l).1.
Proof.
  intros He. unfold invoke_graph. apply and_then_ends; [apply one_ends; [done|apply ends_coordinator]|]. intros s1 l1.
  apply and_then_ends.
  { apply superstep_ends; [done|cbn; lia|]. intros node (s & -> & _)%list_elem_of_fmap. apply ends_specialist. }
  intros s2 l2. apply and_then_ends; [apply one_ends; [done|apply ends_critic]|]. intros s3 l3.
  destruct (_route_after_critic s3) as [[]|x]; [| |cbn; eauto].
  - apply and_then_ends; [apply one_ends; [done|apply ends_planner]|]. intros s4 l4.
    apply and_then_ends; [apply one_ends; [done|apply ends_verification]|]. intros s5 l5.
    apply one_ends; [done|apply ends_decision].
  - apply one_ends; [done|apply ends_decision].
Qed.
End ends.

(** * A concrete incident *)

Definition hash_of (c : ascii) : string := str_repeat 64 c.

Definition demo_evidence (id : string) (kind : EvidenceKind) (summary : string) (facts : payload) (hash : ascii) : Evidence :=
  {| ev_evidence_id := id; ev_tenant_id := "tenant-a"; ev_kind := kind; ev_source := "prometheus";
     ev_locator := "metrics://checkout/" +:+ id; ev_observed_at := demo_time - 60 * us_per_second; ev_summary := summary;
     ev_facts := facts; ev_content_hash := hash_of hash; ev_untrusted_text := None; ev_provenance_digest := None;
     ev_source_id := None; ev_query_id := None; ev_page_number := None |}.

Definition demo_telemetry : Evidence :=
  demo_evidence "evidence-telemetry" EK_TELEMETRY "Checkout failures are elevated."
    [("metric", JStr "failure_rate"); ("value", JFloat "0.25"); ("threshold", JFloat "0.05")] "1".
Definition demo_change : Evidence :=
  demo_evidence "evidence-change" EK_CHANGE "A deployment finished."
    [("service", JStr "checkout-api"); ("version", JStr "v42"); ("status", JStr "deployed")] "2".
Definition demo_runbook : Evidence :=
  demo_evidence "evidence-runbook" EK_RUNBOOK "Roll back a failed deployment."
    [("action", JStr "rollback_candidate"); ("service", JStr "checkout-api")] "3".
Definition demo_incident : list Evidence := [demo_telemetry; demo_change; demo_runbook].

Definition demo_citation (e : Evidence) : Citation :=
  {| ci_evidence_id := ev_evidence_id e; ci_locator := ev_locator e; ci_content_hash := ev_content_hash e;
     ci_provenance_digest := None; ci_source_id := None; ci_query_id := None; ci_page_number := None |}.

(** What the model finds *)
Definition demo_finding (s : Specialist) (id : string) : SpecialistFinding :=
  {| fd_finding_id := id; fd_specialist := s; fd_statement := "The deployment preceded the failures.";
     fd_cause_code := Some "post_deploy_regression"; fd_confidence := int_truediv 9 10;
     fd_citations := [demo_citation demo_change; demo_citation demo_telemetry]; fd_abstained := false; fd_reason := None |}.

Definition demo_abstention (s : Specialist) (reason : string) : SpecialistFinding :=
  {| fd_finding_id := "finding-none"; fd_specialist := s; fd_statement := "Nothing to say."; fd_cause_code := None;
     fd_confidence := f_zero; fd_citations := []; fd_abstained := true; fd_reason := Some reason |}.

Definition demo_decoder : FindingDecoder := λ _, None.

(** Five steps for each node; the model answers specialist [i] with [answers i]. *)
Definition demo_schedule (answers : nat → model_answer) (n : nat) : list graph_turn :=
  [0; 1; 2; 3]%nat ≫= λ i, replicate 5 (Node i (answers i)).

Definition demo_answers (i : nat) : model_answer :=
  Ok (Some (demo_finding (default SP_KNOWLEDGE (specialists !! i)) (match i with O => "finding-1" | _ => "finding-2" end))).

Definition demo_world : graph_world := {| gw_ledger := new_InMemoryOrchestrationLedger; gw_threads := ∅ |}.

Section engine.
Context {HDigest : Digest} {HFloat : FloatJson} {HDecode : FindingDecoder} {HOrder : UpdateOrder}.

(** An engine that runs the graph under the schedule *)
Definition scheduled_engine (schedule : nat → list graph_turn) (st : option InvestigationState)
    : M orchestration_ledger InvestigationState := λ l,
  match st with
  | Some st => match invoke_graph schedule st l with
               | (Some r, l) => (r, l)
               | (None, l) => (raise RuntimeError "unfinished", l)
               end
  | None => (raise RuntimeError "no checkpoint", l)
  end.

Lemma scheduled_engine_follows schedule : follows_graph (scheduled_engine schedule).
Proof.
  intros st l st' l' H. exists schedule. unfold scheduled_engine in H.
  destruct (invoke_graph _ st l) as [[r|] l1]; [by injection H as -> ->|done].
Qed.
End engine.

(** Two orders of the updates of the specialists: as they are added to the graph, and by name *)
Definition in_node_order : UpdateOrder := λ us, us.
Definition in_name_order : UpdateOrder := λ us,
  match us with [telemetry; change; runtime; knowledge] => [change; knowledge; runtime; telemetry] | us => us end.

Lemma in_node_order_laws : @UpdateOrderLaws in_node_order.
Proof. by intros us. Qed.

Lemma in_name_order_laws : @UpdateOrderLaws in_name_order.
Proof.
  intros [|a [|b [|c [|d [|]]]]]; try done. cbn. rewrite (Permutation_app_comm [b; d; c] [a]). cbn.
  by rewrite (Permutation_swap c d []).
Qed.

Section demo.
#[local] Existing Instances demo_digest demo_float demo_decoder.
Context (HOrder : UpdateOrder).

Definition demo_run (answers : nat → model_answer) (evidence : list Evidence) : res InvestigationResult * graph_world :=
  run (Ok None) (scheduled_engine (demo_schedule answers)) "tenant-a" demo_request "request-1" None "thread-1" evidence demo_world.

(** A ledger that has a run, its fence, and the state the run starts from *)
Definition demo_binding : ledger_call := BeginRun "tenant-a" "inc-1" "request-1" "thread-1" GRAPH_VERSION (hash_of "5").
Definition demo_ledger : orchestration_ledger := run_calls [demo_binding] new_InMemoryOrchestrationLedger.
Definition demo_fence : string :=
  match ol_runs demo_ledger !! ("tenant-a", "request-1") with Some p => or_fence_token p | None => "" end.

Definition demo_initial : InvestigationState :=
  initial_state "tenant-a" demo_request "request-1" "request-1" "thread-1" (hash_of "5") demo_fence demo_incident.
End demo.

(** What a run ended with *)
Definition outcome (r : res InvestigationResult * graph_world) : res InvestigationStatus :=
  s ← r.1; Ok (vr_status s).

Example demo_completes : outcome (demo_run in_name_order demo_answers demo_incident) = Ok IS_COMPLETE.
Proof. vm_compute. reflexivity. Qed.

(** ** Runs on which the graph falls short *)

Definition telemetry_says (a : model_answer) (i : nat) : model_answer := match i with O => a | _ => demo_answers i end.
Definition change_says (a : model_answer) (i : nat) : model_answer := match i with 1%nat => a | _ => demo_answers i end.

(** A core specialist's abstention stops the run: *)
Example abstention_stops :
  outcome (demo_run in_name_order (change_says (Ok (Some (demo_abstention SP_CHANGE "no_data")))) demo_incident)
  = Ok IS_ABSTAINED.
Proof. vm_compute. reflexivity. Qed.

(** [SpecialistFinding] with the id of another finding *)
Definition finding_as (id : string) (f : SpecialistFinding) : SpecialistFinding :=
  {| fd_finding_id := id; fd_specialist := fd_specialist f; fd_statement := fd_statement f;
     fd_cause_code := fd_cause_code f; fd_confidence := fd_confidence f; fd_citations := fd_citations f;
     fd_abstained := fd_abstained f; fd_reason := fd_reason f |}.

(** The ids of findings come from the model, and [merge_findings] keeps one finding of each id:
    under either order of the updates, an abstention of a core specialist disappears behind another
    specialist's finding of the same id, and the investigation is COMPLETE. *)
Lemma abstention_can_be_hidden :
  outcome (demo_run in_name_order (change_says (Ok (Some (finding_as "finding-1" (demo_abstention SP_CHANGE "no_data")))))
             demo_incident) = Ok IS_COMPLETE ∧
  outcome (demo_run in_node_order (telemetry_says (Ok (Some (finding_as "finding-2" (demo_abstention SP_TELEMETRY "no_data")))))
             demo_incident) = Ok IS_COMPLETE.
Proof. split; vm_compute; reflexivity. Qed.

(** A model that abstains in words of its own makes the run fail, although a finding may give any
    reason of up to 256 characters: the code of a [NodeError] is an identifier.  The task has been
    completed by then, so the answer is recorded. *)
Lemma free_text_abstention_fails :
  let r := demo_run in_name_order (telemetry_says (Ok (Some (demo_abstention SP_TELEMETRY "no data")))) demo_incident in
  is_ok (new_SpecialistFinding (demo_abstention SP_TELEMETRY "no data")) = true ∧
  raised_kind r.1 = Some OrchestrationFailure ∧
  tr_status <$> (map_to_list (ol_tasks (gw_ledger r.2))).*2 = replicate 4 TD_COMPLETED.
Proof. vm_compute. repeat split. Qed.

(** One item without an allow-listed fact stops the investigation of all the others. *)
Lemma unlisted_facts_fail :
  outcome (demo_run in_name_order demo_answers
             (demo_evidence "evidence-note" EK_TELEMETRY "A note." [("note", JStr "x")] "4" :: demo_incident))
  = raise OrchestrationFailure "LangGraph checkpoint or state is invalid".
Proof. vm_compute. reflexivity. Qed.

(** ** Witnesses *)

#[local] Existing Instances demo_digest demo_float demo_decoder in_name_order in_name_order_laws.


Abbreviation demo_invoked := (invoke_graph (demo_schedule demo_answers) demo_initial demo_ledger).

Lemma demo_final :
  match demo_invoked.1 with
  | Some (Ok st) => match last (gs_artifacts st) with Some a => ga_kind a = AK_FINAL_ASSESSMENT | None => False end
  | _ => False
  end.
Proof. vm_compute. reflexivity. Qed.


Definition demo_plan : res GovernanceArtifact := plan_artifact demo_initial.

(** A run with a plan, which is then cancelled *)
Definition demo_calls : list ledger_call :=
  demo_binding :: match demo_plan with
                  | Ok a => [AppendArtifacts "tenant-a" "request-1" demo_fence [a]]
                  | Raise _ => []
                  end.

Lemma orchestration_ledger_sound_witness :
  ∃ p, ol_runs (run_calls demo_calls new_InMemoryOrchestrationLedger) !! ("tenant-a", "request-1") = Some p ∧
    or_artifact_count p = 1 ∧
    rebuild_projection "tenant-a" "request-1" (run_calls demo_calls new_InMemoryOrchestrationLedger)
    = (Ok p, run_calls demo_calls new_InMemoryOrchestrationLedger).
Proof.
  assert (H : option_map or_artifact_count
    (ol_runs (run_calls demo_calls new_InMemoryOrchestrationLedger) !! ("tenant-a", "request-1")) = Some 1)
    by (vm_compute; reflexivity).
  destruct (ol_runs (run_calls demo_calls new_InMemoryOrchestrationLedger) !! ("tenant-a", "request-1")) as [p|] eqn:E; [|discriminate H].
  exists p. split; [done|]. split; [by injection H|].
  by destruct (orchestration_ledger_sound demo_calls [CancelRun "tenant-a" "request-1"] "tenant-a" "request-1" p E) as (_ & _ & _ & Hr & _).
Defined.

(** The claim of a task, and its completion under the fence of the claim *)
Abbreviation demo_claim :=
  (claim_task "tenant-a" "request-1" "task-1" AR_TELEMETRY_SPECIALIST (hash_of "5") (run_calls [demo_binding] new_InMemoryOrchestrationLedger)).

Lemma demo_claim_starts : match demo_claim.1 with Ok c => tc_status c = TD_STARTED | Raise _ => False end.
Proof. vm_compute. reflexivity. Qed.

Lemma tasks_run_once_witness :
  ∃ c l, demo_claim = (Ok c, l) ∧ tc_status c = TD_STARTED ∧
    ∀ c' l3, claim_task "tenant-a" "request-1" "task-1" AR_TELEMETRY_SPECIALIST (hash_of "5")
               (run_calls [CompleteTask "tenant-a" "request-1" "task-1" (tc_fence_token c) []] l) = (Ok c', l3) →
      tc_status c' ≠ TD_STARTED.
Proof.
  pose proof demo_claim_starts as Hs. destruct demo_claim as [[c|x] l] eqn:E; [|destruct Hs]. cbn in Hs.
  exists c, l. split; [exact eq_refl|]. split; [exact Hs|]. intros c' l3 H.
  destruct (tasks_run_once [demo_binding] [CompleteTask "tenant-a" "request-1" "task-1" (tc_fence_token c) []]
              _ _ _ _ _ c l E Hs) as [Hc _].
  by destruct (Hc _ _ _ _ H).
Defined.

Lemma reducers_ignore_order_witness :
  merge_findings [demo_finding SP_TELEMETRY "finding-1"] [demo_finding SP_CHANGE "finding-2"]
  = merge_findings [demo_finding SP_CHANGE "finding-2"] [demo_finding SP_TELEMETRY "finding-1"].
Proof.
  apply (reducers_ignore_order [demo_finding SP_TELEMETRY "finding-1"] [demo_finding SP_CHANGE "finding-2"]
           [demo_finding SP_CHANGE "finding-2"] [demo_finding SP_TELEMETRY "finding-1"] [] [] [] []).
  - apply Permutation_swap.
  - intros x y Hx Hy. apply elem_of_cons in Hx as [->|Hx]; apply elem_of_cons in Hy as [->|Hy];
      rewrite ?list_elem_of_singleton in *; subst; done.
  - done.
Defined.

Lemma investigations_ignore_evidence_order_witness :
  correlate demo_incident demo_time = correlate [demo_runbook; demo_change; demo_telemetry] demo_time.
Proof.
  apply (investigations_ignore_evidence_order (Ok None) (scheduled_engine (demo_schedule demo_answers)) "tenant-a" demo_request
           "request-1" None "thread-1" demo_incident [demo_runbook; demo_change; demo_telemetry] demo_world).
  - apply (Permutation_rev demo_incident).
  - by apply (bool_decide_eq_true (NoDup _)).
Defined.

Lemma correlation_is_exact_witness : consistent demo_incident.
Proof.
  assert (H : match correlate demo_incident demo_time with Ok c => cc_conflicts c = [] | Raise _ => False end)
    by (vm_compute; reflexivity).
  destruct (correlate demo_incident demo_time) as [c|x] eqn:E; [|destruct H].
  by apply (proj1 (correlation_is_exact _ _ _ E)).
Defined.

Lemma investigations_end_witness : is_Some demo_invoked.1.
Proof.
  apply investigations_end. intros n i Hi. destruct i as [|[|[|[|i]]]]; [vm_compute; lia..|lia].
Defined.
