(* ===== verification/ServiceTheorems.v ===== *)
(** * Theorems on the application service

    Whatever the policy, the evidence and the orchestrator answer and however the threads of
    [investigate] interleave: what precedes a run, how often a request runs, what its callers get,
    and what the audit and the budget add up to. *)

From S2P Require Import Prelude QuotaFacts PyJson PyFloat PyTime PyText PyModel PyProg Domain Authorization RemediationData Evidence Investigation Orchestration Graph Service OrchestrationTheorems Fixtures.

(** ** The stores *)

Section stores.
Context {HDigest : Digest}.

(** The heads are what [verify] computes. *)
Definition audit_sound (l : audit_log) : Prop := foldl verify_record (Some ∅) (au_records l) = Some (au_heads l).

Lemma audit_append_sound identity event_type attributes now l :
  audit_sound l → audit_sound (audit_append identity event_type attributes now l).
Proof.
  unfold audit_sound, audit_append. intros H. destruct (tenant_head _ _) as [sequence hash] eqn:E. cbn.
  rewrite foldl_app, H. cbn. rewrite E. rewrite !bool_decide_eq_false_2 by (intros Hn; by apply Hn). done.
Qed.

(** What remains and what was granted add up to the limit. *)
Record budget_sound (limit : string → Z) (b : budget) : Prop := {
  bs_sum t : remaining_units b t + granted bd_requested_units bd_allowed t (bu_reservations b) = limit t;
  bs_left t : 0 <= limit t → 0 <= remaining_units b t;
  bs_units k d : bu_reservations b !! k = Some d → bd_requested_units d = _INVESTIGATION_BUDGET_UNITS
}.

Lemma new_budget_sound limits default_limit :
  budget_sound (remaining_units (new_budget limits default_limit)) (new_budget limits default_limit).
Proof. split; [intros t|done|done]. unfold granted. cbn. rewrite map_fold_empty. lia. Qed.

Lemma reserve_units_sound limit t id b :
  budget_sound limit b → budget_sound limit (reserve_units t id _INVESTIGATION_BUDGET_UNITS b).2.
Proof.
  intros [H1 H2 H3]. unfold reserve_units, mbind, M_bind, lift, get. cbn.
  destruct (bu_reservations b !! (t, id)) as [d|] eqn:E; [done|]. cbn.
  unfold validated. destruct (BudgetDecision_ok _); cbn; [|done].
  destruct (Z.leb_spec _INVESTIGATION_BUDGET_UNITS (remaining_units b t)) as [Hle|_]; cbn; split; cbn.
  - intros t'. rewrite granted_insert by done. specialize (H1 t'). unfold granted_units, remaining_units in *. cbn.
    rewrite andb_true_r, lookup_insert. case_decide as Et; cbn.
    + subst. rewrite bool_decide_eq_true_2 by done. cbn. lia.
    + rewrite bool_decide_eq_false_2 by done. lia.
  - intros t' Hl. specialize (H2 t' Hl). unfold remaining_units in *. cbn.
    rewrite lookup_insert. case_decide as Et; cbn; [subst; lia|done].
  - intros k d. rewrite lookup_insert. case_decide; [by intros [= <-]|apply H3].
  - intros t'. rewrite granted_insert by done. unfold granted_units. cbn. rewrite andb_false_r. apply H1.
  - apply H2.
  - intros k d. rewrite lookup_insert. case_decide; [by intros [= <-]|apply H3].
Qed.

Lemma reserve_units_grows t id units b : bu_reservations b ⊆ bu_reservations (reserve_units t id units b).2.
Proof.
  unfold reserve_units, mbind, M_bind, lift, get, raise_if. destruct (units <=? 0); cbn; [done|].
  destruct (bu_reservations b !! (t, id)) as [d|] eqn:E; [done|]. cbn.
  unfold validated. destruct (BudgetDecision_ok _); cbn; [|done]. by apply insert_subseteq.
Qed.

Lemma reserve_units_returns t id units b d b' :
  reserve_units t id units b = (Ok d, b') → bu_reservations b' !! (t, id) = Some d.
Proof.
  unfold reserve_units, mbind, M_bind, lift, get, raise_if. destruct (units <=? 0); cbn; [done|].
  destruct (bu_reservations b !! (t, id)) as [d'|] eqn:E; [by intros [= <- <-]|]. cbn.
  unfold validated. destruct (BudgetDecision_ok _); cbn; [|done]. intros [= <- <-]. cbn. by rewrite lookup_insert_eq.
Qed.
End stores.

(** *** The request ledger *)

Definition in_state (l : run_ledger) (key : string * string) (s : run_status) (r : RunRecord) : Prop :=
  l !! key = Some r ∧ rr_status r = s.

Lemma acquire_refused t q f l r l' :
  acquire t q f l = (r, l') → acquired r = false →
  l' = l ∧ ∀ c result, r = Ok c → rl_status c = CL_COMPLETED → rl_result c = Some result →
    ∃ rec, in_state l (t, q) RUN_COMPLETED rec ∧ rr_result rec = Some result ∧ rr_fingerprint rec = f.
Proof.
  unfold acquire, mbind, M_bind, mret, M_ret, modify, lift, get, raise_if, in_state. cbn.
  destruct (l !! (t, q)) as [rec|]; cbn; [|by intros [= <- <-]].
  destruct (bool_decide _) eqn:Ef; cbn; [by intros [= <- <-]|]. apply bool_decide_eq_false, dec_stable in Ef.
  destruct (rr_status rec) eqn:Es; cbn; [|destruct (rr_result rec) as [result|] eqn:Er; cbn|];
    intros [= <- <-] Ha; try discriminate Ha; (split; [done|]); [by intros c result [= <-]| |done].
  intros c result' [= <-] _ [= <-]. by exists rec.
Qed.

Lemma acquire_accepted t q f l r l' :
  acquire t q f l = (r, l') → acquired r = true →
  ∃ rec, l' = <[(t, q) := rec]> l ∧ rr_status rec = RUN_IN_PROGRESS ∧ rr_fingerprint rec = f ∧
    ((l !! (t, q) = None ∧ rr_attempt rec = 1) ∨
     ∃ old, in_state l (t, q) RUN_FAILED old ∧ rr_fingerprint old = f ∧ rr_attempt rec = rr_attempt old + 1).
Proof.
  unfold acquire, mbind, M_bind, mret, M_ret, modify, lift, get, raise_if, in_state. cbn.
  destruct (l !! (t, q)) as [old|]; cbn; [|intros [= <- <-] _; eexists; split_and!; [done..|by left]].
  destruct (bool_decide _) eqn:Ef; cbn; [by intros [= <- <-]|]. apply bool_decide_eq_false, dec_stable in Ef.
  destruct (rr_status old) eqn:Es; cbn; [by intros [= <- <-]| |].
  - destruct (rr_result old); cbn; by intros [= <- <-].
  - intros [= <- <-] _. exists (reopened old). split_and!; [done..|right; by exists old].
Qed.

Lemma complete_run_owned t q result l rec :
  in_state l (t, q) RUN_IN_PROGRESS rec →
  ∃ rec', complete_run t q result l = (Ok tt, <[(t, q) := rec']> l) ∧ rr_status rec' = RUN_COMPLETED ∧
    rr_fingerprint rec' = rr_fingerprint rec ∧ rr_attempt rec' = rr_attempt rec ∧ rr_result rec' = Some result.
Proof.
  intros [H Hs]. unfold complete_run, owned_run, mbind, M_bind, lift, get. cbn. rewrite H. cbn.
  rewrite decide_True by done. by eexists.
Qed.

Lemma fail_run_owned t q code l rec :
  in_state l (t, q) RUN_IN_PROGRESS rec →
  ∃ rec', fail_run t q code l = (Ok tt, <[(t, q) := rec']> l) ∧ rr_status rec' = RUN_FAILED ∧
    rr_fingerprint rec' = rr_fingerprint rec ∧ rr_attempt rec' = rr_attempt rec.
Proof.
  intros [H Hs]. unfold fail_run, owned_run, mbind, M_bind, lift, get. cbn. rewrite H. cbn.
  rewrite decide_True by done. by eexists.
Qed.

(** ** What holds of the shared world *)

(** What the orchestrator promises of a result it returns *)
Class OrchestratorPromise :=
  promised : string → InvestigationRequest → string → string → string → list Evidence → InvestigationResult → Prop.

(** The answers of an orchestrator that keeps it *)
Definition keeps_promise `{OrchestratorPromise} (e : port_answers) : Prop :=
  ∀ t request q run_id thread_ref evidence r,
    pa_run e t request q run_id thread_ref evidence = Ok r → promised t request q run_id thread_ref evidence r.

Section world.
Context {HDigest : Digest} {HPromise : OrchestratorPromise} (calls : list (IdentityContext * InvestigationRequest)) (limit : string → Z).

Definition request_key (identity : IdentityContext) : string * string :=
  (ic_tenant_id identity, ic_request_id identity).

(** The request an event runs *)
Definition ran_key (ev : nat * app_event) : option (string * string) :=
  match ev.2 with Ran t _ q _ _ _ _ => Some (t, q) | _ => None end.
Definition runs_of (w : app_world) (key : string * string) : Z :=
  zlen (List.filter (λ ev, bool_decide (ran_key ev = Some key)) (aw_log w)).

(** What [validate_evidence] checks *)
Record valid_evidence (tenant_id : string) (evidence : list Evidence) : Prop := {
  ve_tenant e : e ∈ evidence → ev_tenant_id e = tenant_id;
  ve_distinct : NoDup (ev_evidence_id <$> evidence);
  ve_hashed e : e ∈ evidence →
    match ev_provenance_digest e with
    | Some _ => ∃ text, ev_untrusted_text e = Some text ∧ hexdigest (utf8 text) = ev_content_hash e
    | None => ev_content_hash e = evidence_hash (ev_tenant_id e) (ev_kind e) (ev_locator e) (ev_observed_at e)
                                    (ev_facts e)
    end
}.

Lemma validate_evidence_valid identity evidence :
  validate_evidence identity evidence = Ok tt → valid_evidence (ic_tenant_id identity) evidence.
Proof.
  unfold validate_evidence. intros H. apply res_bind_ok in H as ([] & H1 & H). apply res_bind_ok in H as ([] & H2 & H).
  apply raise_if_ok in H1, H2. split.
  - intros e He. apply existsb_false with (x := e) in H1; [|done]. by apply bool_decide_eq_false, dec_stable in H1.
  - apply negb_false_iff in H2. by apply bool_decide_eq_true in H2.
  - intros e He. rewrite each_ok_ok, Forall_forall in H. specialize (H e He). unfold validate_item in H.
    destruct (ev_provenance_digest e); apply raise_if_ok in H.
    + destruct (ev_untrusted_text e) as [text|]; [|done]. exists text. split; [done|].
      by apply bool_decide_eq_false, dec_stable in H.
    + by apply bool_decide_eq_false, dec_stable in H.
Qed.

(** The request was recorded with this input. *)
Definition recorded_input (key : string * string) (f : string) (w : app_world) : Prop :=
  ∃ rec, aw_runs w !! key = Some rec ∧ rr_fingerprint rec = f.

(** All that precedes a run by thread [i] *)
Definition backed (w : app_world) (i : nat) (t : string) (request : InvestigationRequest)
    (q run_id thread_ref : string) (evidence : list Evidence) : Prop :=
  ∃ identity d b a,
    calls !! i = Some (identity, request) ∧
    (t, q, run_id, thread_ref) = (ic_tenant_id identity, ic_request_id identity,
      run_id_of identity (ir_incident_id request), thread_ref_of identity (ir_incident_id request)) ∧
    ((i, Decided identity INVESTIGATION_RUN d) ∈ aw_log w ∧ pd_allowed d = true) ∧
    (bu_reservations (aw_budget w) !! (t, thread_ref) = Some b ∧ bd_allowed b = true) ∧
    recorded_input (t, q) (request_fingerprint request) w ∧
    (a ∈ au_records (aw_audit w) ∧ ad_tenant_id a = t ∧ ad_event_type a = "investigation.accepted") ∧
    (i, Collected identity request evidence) ∈ aw_log w ∧ valid_evidence t evidence.

(** The result with the approval its proposal waits for *)
Definition approved (key : string * string) (r0 r : InvestigationResult) : Prop :=
  match vr_proposal r0 with
  | None => r = r0
  | Some p => ∃ a, r = with_approval a r0 ∧ ap_tenant_id a = key.1 ∧ ap_proposal_id a = pp_proposal_id p ∧
                ap_required_roles a = ["incident-commander"]
  end.

(** A stored result is what a run answered, or the abstention of a tenant without budget. *)
Definition settled (w : app_world) (key : string * string) (r : InvestigationResult) : Prop :=
  (∃ identity request run_id thread_ref b,
     bu_reservations (aw_budget w) !! (key.1, thread_ref) = Some b ∧ bd_allowed b = false ∧
     _budget_abstention identity request run_id thread_ref = Ok r) ∨
  (∃ i request run_id thread_ref evidence r0,
     (i, Ran key.1 request key.2 run_id thread_ref evidence (Ok r0)) ∈ aw_log w ∧ approved key r0 r).

Record app_sound (w : app_world) : Prop := {
  as_audit : audit_sound (aw_audit w);
  as_budget : budget_sound limit (aw_budget w);
  as_approvals key a : aw_approvals w !! key = Some a →
    ap_tenant_id a = key.1 ∧ ap_proposal_id a = key.2 ∧ ap_required_roles a = ["incident-commander"];
  as_owner key rec : in_state (aw_runs w) key RUN_IN_PROGRESS rec → is_Some (aw_owner w !! key);
  as_fresh key : aw_runs w !! key = None → runs_of w key = 0;
  as_once key rec : aw_runs w !! key = Some rec → runs_of w key <= rr_attempt rec;
  as_ran i t request q run_id thread_ref evidence answer :
    (i, Ran t request q run_id thread_ref evidence answer) ∈ aw_log w → backed w i t request q run_id thread_ref evidence;
  as_promised i t request q run_id thread_ref evidence r :
    (i, Ran t request q run_id thread_ref evidence (Ok r)) ∈ aw_log w → promised t request q run_id thread_ref evidence r;
  as_settled key rec : in_state (aw_runs w) key RUN_COMPLETED rec → ∃ r, rr_result rec = Some r ∧ settled w key r
}.

(** Thread [i] acquired the request and has neither completed nor failed it. *)
Definition owns (i : nat) (key : string * string) (w : app_world) : Prop :=
  ∃ rec, in_state (aw_runs w) key RUN_IN_PROGRESS rec ∧ aw_owner w !! key = Some i.

(** Nothing recorded is lost, the runs added are of requests that thread [i] owns, and it changes
    only these requests, those that failed and new ones. *)
Record goes (i : nat) (w w' : app_world) : Prop := {
  go_log : ∃ l, aw_log w' = aw_log w ++ l ∧ ∀ ev key, ev ∈ l → ran_key ev = Some key → owns i key w;
  go_audit : ∃ l, au_records (aw_audit w') = au_records (aw_audit w) ++ l;
  go_budget : bu_reservations (aw_budget w) ⊆ bu_reservations (aw_budget w');
  go_runs key rec : aw_runs w !! key = Some rec →
    ∃ rec', aw_runs w' !! key = Some rec' ∧ rr_fingerprint rec' = rr_fingerprint rec ∧
      (rec' = rec ∧ aw_owner w' !! key = aw_owner w !! key ∨ owns i key w ∨ rr_status rec = RUN_FAILED)
}.

(** ** Facts that last *)

Definition stays (P : app_world → Prop) : Prop := ∀ j w w', goes j w w' → P w → P w'.

Lemma stays_and P Q : stays P → stays Q → stays (λ w, P w ∧ Q w).
Proof. intros HP HQ j w w' Hg [H1 H2]. split; [by eapply HP|by eapply HQ]. Qed.
Lemma stays_or P Q : stays P → stays Q → stays (λ w, P w ∨ Q w).
Proof. intros HP HQ j w w' Hg [H|H]; [left; by eapply HP|right; by eapply HQ]. Qed.
Lemma stays_pure (φ : Prop) : stays (λ _, φ).
Proof. by intros j w w' _ H. Qed.
Lemma stays_exists {A} (P : A → app_world → Prop) : (∀ x, stays (P x)) → stays (λ w, ∃ x, P x w).
Proof. intros HP j w w' Hg [x Hx]. exists x. by eapply HP. Qed.
Lemma stays_log ev : stays (λ w, ev ∈ aw_log w).
Proof. intros j w w' Hg H. destruct (go_log _ _ _ Hg) as (l & -> & _). apply elem_of_app. by left. Qed.
Lemma stays_audit a : stays (λ w, a ∈ au_records (aw_audit w)).
Proof. intros j w w' Hg H. destruct (go_audit _ _ _ Hg) as (l & ->). apply elem_of_app. by left. Qed.
Lemma stays_reserved k b : stays (λ w, bu_reservations (aw_budget w) !! k = Some b).
Proof. intros j w w' Hg H. by eapply lookup_weaken, go_budget. Qed.

Lemma stays_input key f : stays (recorded_input key f).
Proof. intros j w w' Hg (rec & H & <-). destruct (go_runs _ _ _ Hg _ _ H) as (rec' & H' & Hf & _). by exists rec'. Qed.

(** The request is completed with this result. *)
Definition completed_with (key : string * string) (r : InvestigationResult) (w : app_world) : Prop :=
  ∃ rec, in_state (aw_runs w) key RUN_COMPLETED rec ∧ rr_result rec = Some r.
Lemma stays_completed key r : stays (completed_with key r).
Proof.
  intros j w w' Hg (rec & [H Hs] & Hr). destruct (go_runs _ _ _ Hg _ _ H) as (rec' & H' & _ & [[-> _]|[(rec2 & [H2 Hs2] & _)|Hf]]).
  - by exists rec.
  - rewrite H in H2. injection H2 as ->. congruence.
  - congruence.
Qed.

Lemma goes_refl i w : goes i w w.
Proof.
  split; [exists []|exists []|done|]; [by rewrite app_nil_r; split; [|intros ? ? ?%not_elem_of_nil]|by rewrite app_nil_r|].
  intros key rec H. exists rec. split_and!; [done|done|by left].
Qed.
End world.

Create HintDb stays discriminated.
#[export] Hint Resolve stays_and stays_or stays_pure stays_exists stays_log stays_audit stays_reserved stays_input
  stays_completed : stays.

Section steps.
Context {HDigest : Digest} {HPromise : OrchestratorPromise} (calls : list (IdentityContext * InvestigationRequest)) (limit : string → Z).

(** ** Operations *)

Lemma stays_backed i t request q run_id thread_ref evidence :
  stays (λ w, backed calls w i t request q run_id thread_ref evidence).
Proof. unfold backed. repeat first [solve [eauto with stays]|apply stays_and|apply stays_exists; intros ?]. Qed.

Lemma stays_settled key r : stays (λ w, settled w key r).
Proof.
  apply stays_or; repeat first [solve [eauto with stays]|apply stays_and|apply stays_exists; intros ?].
Qed.

(** An operation that runs nothing and leaves the request ledger as it is *)
Record calm (i : nat) (w w' : app_world) : Prop := {
  cl_runs : aw_runs w' = aw_runs w;
  cl_owner : aw_owner w' = aw_owner w;
  cl_log : ∃ l, aw_log w' = aw_log w ++ l ∧ ∀ ev, ev ∈ l → ran_key ev = None;
  cl_audit : ∃ l, au_records (aw_audit w') = au_records (aw_audit w) ++ l;
  cl_budget : bu_reservations (aw_budget w) ⊆ bu_reservations (aw_budget w')
}.

Lemma runs_of_app w w' l key :
  aw_log w' = aw_log w ++ l → runs_of w' key = runs_of w key + zlen (List.filter (λ ev, bool_decide (ran_key ev = Some key)) l).
Proof. intros Hl. unfold runs_of. rewrite Hl, List.filter_app. unfold zlen. rewrite length_app. lia. Qed.

Lemma runs_in_none l key :
  (∀ ev, ev ∈ l → ran_key ev ≠ Some key) → zlen (List.filter (λ ev, bool_decide (ran_key ev = Some key)) l) = 0.
Proof.
  induction l as [|ev l IH]; intros H; [done|]. cbn. rewrite bool_decide_eq_false_2 by (apply H; left).
  apply IH. intros ev' Hev. apply H. by right.
Qed.

Lemma calm_runs_of i w w' key : calm i w w' → runs_of w' key = runs_of w key.
Proof.
  intros Hc. destruct (cl_log _ _ _ Hc) as (l & Hl & Hn). rewrite (runs_of_app w w' l key Hl), runs_in_none; [lia|].
  intros ev Hev. by rewrite (Hn ev Hev).
Qed.

Lemma calm_goes i w w' : calm i w w' → goes i w w'.
Proof.
  intros [H1 H2 (l & Hl & Hn) H4 H5]. split; [|done|done|].
  - exists l. split; [done|]. intros ev key Hev Hk. rewrite Hn in Hk by done. done.
  - intros key rec H. exists rec. rewrite H1, H2. split_and!; [done|done|by left].
Qed.

Lemma calm_sound i w w' :
  app_sound calls limit w → calm i w w' → audit_sound (aw_audit w') → budget_sound limit (aw_budget w') →
  (∀ key a, aw_approvals w' !! key = Some a →
     ap_tenant_id a = key.1 ∧ ap_proposal_id a = key.2 ∧ ap_required_roles a = ["incident-commander"]) →
  app_sound calls limit w' ∧ goes i w w'.
Proof.
  intros [H1 H2 H3 H4 H5 H6 H7 H7' H8] Hc Ha Hb Hp. pose proof (calm_goes _ _ _ Hc) as Hg. split; [|done].
  split; [done|done|done| | | | | |].
  - rewrite (cl_runs _ _ _ Hc), (cl_owner _ _ _ Hc). apply H4.
  - intros key. rewrite (calm_runs_of _ _ _ _ Hc), (cl_runs _ _ _ Hc). apply H5.
  - intros key rec. rewrite (calm_runs_of _ _ _ _ Hc), (cl_runs _ _ _ Hc). apply H6.
  - intros j t request q run_id thread_ref evidence answer Hin.
    destruct (cl_log _ _ _ Hc) as (l & Hl & Hn). rewrite Hl in Hin. apply elem_of_app in Hin as [Hin|Hin].
    + eapply stays_backed; [exact Hg|by eapply H7].
    + by apply Hn in Hin.
  - intros j t request q run_id thread_ref evidence r Hin.
    destruct (cl_log _ _ _ Hc) as (l & Hl & Hn). rewrite Hl in Hin. apply elem_of_app in Hin as [Hin|Hin].
    + by eapply H7'.
    + by apply Hn in Hin.
  - intros key rec. rewrite (cl_runs _ _ _ Hc). intros H. destruct (H8 key rec H) as (r & Hr & Hs). exists r.
    split; [done|]. by eapply stays_settled.
Qed.

(** The operations that neither run nor settle a request *)
Definition mild {R : Set} (o : app_op R) : Prop :=
  match o with
  | ReserveUnits _ _ units => units = _INVESTIGATION_BUDGET_UNITS
  | StoreApproval key a => ap_tenant_id a = key.1 ∧ ap_proposal_id a = key.2 ∧ ap_required_roles a = ["incident-commander"]
  | Acquire _ _ _ | Orchestrate _ _ _ _ _ _ | CompleteRun _ _ _ | FailRun _ _ _ => False
  | _ => True
  end.

Lemma calm_refl i w : calm i w w.
Proof. split; try done; exists []; rewrite app_nil_r; [split; [done|]; by intros ev ?%not_elem_of_nil|done]. Qed.

Lemma calm_note i ev w : ran_key (i, ev) = None → calm i w (note i ev w).
Proof.
  intros H. split; try done; [|exists []; by rewrite app_nil_r]. exists [(i, ev)]. split; [done|].
  by intros ev' ->%list_elem_of_singleton.
Qed.

Lemma mild_step e i (R : Set) (o : app_op R) w :
  mild o → app_sound calls limit w →
  app_sound calls limit (app_handle e i R o w).2 ∧ calm i w (app_handle e i R o w).2.
Proof.
  intros Ho Hw. pose proof Hw as [H1 H2 H3 _ _ _ _ _ _]. destruct o; cbn [app_handle snd mild] in *; try done;
    try (split; [done|apply calm_refl]).
  - assert (Hc : calm i w (note i (Decided identity action (pa_policy e identity action resource_tenant_id purpose risk)) w))
      by by apply calm_note.
    split; [|done]. by apply (calm_sound i w).
  - assert (Hc : calm i w (put_audit (audit_append identity event_type attributes (pa_now e) (aw_audit w)) w)).
    { split; try done; [exists []; rewrite app_nil_r; split; [done|]; by intros ev ?%not_elem_of_nil|].
      unfold audit_append. destruct (tenant_head _ _). cbn. by eexists. }
    split; [|done]. apply (calm_sound i w); try done. by apply audit_append_sound.
  - subst units. pose proof (reserve_units_sound limit tenant_id reservation_id _ H2) as Hs.
    pose proof (reserve_units_grows tenant_id reservation_id _INVESTIGATION_BUDGET_UNITS (aw_budget w)) as Hg.
    destruct (reserve_units _ _ _ _) as [r b]. cbn in *.
    assert (Hc : calm i w (put_budget b w)).
    { split; try done; exists []; rewrite app_nil_r; [split; [done|]; by intros ev ?%not_elem_of_nil|done]. }
    split; [|done]. by apply (calm_sound i w).
  - destruct (pa_evidence e identity request) as [evidence|x]; cbn; [|split; [done|apply calm_refl]].
    assert (Hc : calm i w (note i (Collected identity request evidence) w)) by by apply calm_note.
    split; [|done]. by apply (calm_sound i w).
  - assert (Hc : calm i w (put_approval key a w)).
    { split; try done; exists []; rewrite app_nil_r; [split; [done|]; by intros ev ?%not_elem_of_nil|done]. }
    split; [|done]. apply (calm_sound i w); try done. intros key' a'. cbn. rewrite lookup_insert.
    case_decide; [subst; by intros [= <-]|apply H3].
Qed.

(** *** The request ledger *)

(** Thread [i] owns the request; as long as it is [fresh], it may still run it. *)
Definition holding (i : nat) (key : string * string) (fresh : bool) (w : app_world) : Prop :=
  ∃ rec, in_state (aw_runs w) key RUN_IN_PROGRESS rec ∧ aw_owner w !! key = Some i ∧
    (fresh = true → runs_of w key < rr_attempt rec).

Lemma holding_owns i key fresh w : holding i key fresh w → owns i key w.
Proof. intros (rec & H1 & H2 & _). by exists rec. Qed.

Lemma calm_holding i j key fresh w w' : calm j w w' → holding i key fresh w → holding i key fresh w'.
Proof.
  intros Hc (rec & H1 & H2 & H3). exists rec. rewrite (cl_runs _ _ _ Hc), (cl_owner _ _ _ Hc).
  by rewrite (calm_runs_of _ _ _ _ Hc).
Qed.

Lemma others_holding i j key fresh w w' : j ≠ i → goes j w w' → holding i key fresh w → holding i key fresh w'.
Proof.
  intros Hj Hg (rec & [H1 Hs] & H2 & H3).
  assert (Hno : ¬ owns j key w) by (intros (rec2 & _ & Ho); congruence).
  destruct (go_runs _ _ _ Hg _ _ H1) as (rec' & H' & _ & [[-> Ho]|[?|?]]); [|done|congruence].
  exists rec. split; [done|]. split; [congruence|]. intros Hf. destruct (go_log _ _ _ Hg) as (l & Hl & Hk).
  rewrite (runs_of_app w w' l key Hl), runs_in_none; [specialize (H3 Hf); lia|].
  intros ev Hev He. apply Hno. by eapply Hk.
Qed.

(** An update of the record of one request, by its owner or when it is new or failed *)
Lemma record_sound i key rec' w w' :
  app_sound calls limit w → aw_budget w' = aw_budget w → aw_audit w' = aw_audit w →
  aw_approvals w' = aw_approvals w → aw_log w' = aw_log w → aw_runs w' = <[key := rec']> (aw_runs w) →
  (∀ k, k ≠ key → aw_owner w' !! k = aw_owner w !! k) →
  (∀ rec, aw_runs w !! key = Some rec → rr_fingerprint rec' = rr_fingerprint rec ∧ (owns i key w ∨ rr_status rec = RUN_FAILED)) →
  runs_of w key <= rr_attempt rec' → (rr_status rec' = RUN_IN_PROGRESS → is_Some (aw_owner w' !! key)) →
  (rr_status rec' = RUN_COMPLETED → ∃ r, rr_result rec' = Some r ∧ settled w key r) →
  app_sound calls limit w' ∧ goes i w w'.
Proof.
  intros [H1 H2 H3 H4 H5 H6 H7 H7' H8] Eb Ea Ep El Er Eo Hold Hn Hi Hc.
  assert (Hg : goes i w w').
  { split.
    - exists []. rewrite app_nil_r. split; [done|]. by intros ev k ?%not_elem_of_nil.
    - exists []. by rewrite Ea, app_nil_r.
    - by rewrite Eb.
    - intros k rec H. rewrite Er, lookup_insert. case_decide as E; [subst k|].
      + destruct (Hold rec H) as [Hf Ho]. exists rec'. split_and!; [done|done|by right].
      + exists rec. split_and!; [done|done|left; split; [done|by apply Eo]]. }
  assert (Hr : ∀ k, runs_of w' k = runs_of w k) by (intros k; unfold runs_of; by rewrite El).
  split; [|done]. split; [by rewrite Ea|by rewrite Eb|by rewrite Ep| | | | |by rewrite El|].
  - intros k rec [H Hs]. rewrite Er, lookup_insert in H. case_decide as E; [subst k; injection H as ->; by apply Hi|].
    rewrite Eo by done. by eapply H4.
  - intros k. rewrite Hr, Er, lookup_insert. case_decide; [done|apply H5].
  - intros k rec. rewrite Hr, Er, lookup_insert. case_decide; [subst; by intros [= <-]|apply H6].
  - intros j t request q run_id thread_ref evidence answer. rewrite El. intros Hin.
    eapply stays_backed; [exact Hg|by eapply H7].
  - intros k rec [H Hs]. rewrite Er, lookup_insert in H. case_decide as E.
    + subst k. injection H as <-. destruct (Hc Hs) as (r & Hres & Hset). exists r. split; [done|by eapply stays_settled].
    + destruct (H8 k rec (conj H Hs)) as (r & Hres & Hset). exists r. split; [done|by eapply stays_settled].
Qed.

Lemma acquire_step e i t q f w :
  app_sound calls limit w →
  let rw := app_handle e i _ (Acquire t q f) w in
  app_sound calls limit rw.2 ∧ goes i w rw.2 ∧
  (acquired rw.1 = true → holding i (t, q) true rw.2 ∧ recorded_input (t, q) f rw.2) ∧
  (∀ c result, rw.1 = Ok c → rl_status c = CL_COMPLETED → rl_result c = Some result →
     completed_with (t, q) result rw.2 ∧ recorded_input (t, q) f rw.2).
Proof.
  intros Hw. cbn. destruct (acquire t q f (aw_runs w)) as [r l] eqn:E. destruct (acquired r) eqn:Ha; cbn; rewrite ?Ha.
  - destruct (acquire_accepted _ _ _ _ _ _ E Ha) as (rec & -> & Hs & Hf & Hcase).
    assert (Hlt : runs_of w (t, q) < rr_attempt rec).
    { destruct Hcase as [[Hnone ->]|(old & [Hold _] & _ & ->)].
      - rewrite (as_fresh _ _ _ Hw _ Hnone). lia.
      - pose proof (as_once _ _ _ Hw _ _ Hold). lia. }
    destruct (record_sound i (t, q) rec w (put_owner (t, q) i (put_runs (<[(t, q) := rec]> (aw_runs w)) w))) as [H1 H2];
      try done; cbn.
    + intros k Hk. by rewrite lookup_insert_ne.
    + intros old Hold. destruct Hcase as [[Hnone _]|(old' & [Hold' Hst] & Hfp & _)]; [congruence|].
      rewrite Hold in Hold'. injection Hold' as <-. split; [congruence|by right].
    + lia.
    + intros _. by rewrite lookup_insert_eq.
    + intros ?. congruence.
    + split_and!; [done|done| |].
      * intros _. split; exists rec; cbn; rewrite ?lookup_insert_eq; [|done].
        split_and!; [by split; cbn; rewrite ?lookup_insert_eq|done|]. intros _. exact Hlt.
      * intros c result -> Hc. cbn in Ha. by rewrite Hc in Ha.
  - destruct (acquire_refused _ _ _ _ _ _ E Ha) as [-> Hc].
    assert (Hm : calm i w (put_runs (aw_runs w) w)).
    { split; try done; exists []; rewrite app_nil_r; [split; [done|]; by intros ev ?%not_elem_of_nil|done]. }
    destruct (calm_sound i w _ Hw Hm) as [H1 H2]; [apply Hw..|]. split_and!; [done|done|done|].
    intros c result -> Hcs Hr.
    destruct (Hc c result eq_refl Hcs Hr) as (rec & H & Hres & Hf). split; exists rec; [done|split; [apply H|done]].
Qed.

Lemma complete_step e i t q result w :
  app_sound calls limit w → owns i (t, q) w → settled w (t, q) result →
  let rw := app_handle e i _ (CompleteRun t q result) w in
  app_sound calls limit rw.2 ∧ goes i w rw.2 ∧ rw.1 = Ok tt ∧ completed_with (t, q) result rw.2.
Proof.
  intros Hw Ho Hs. pose proof Ho as (rec & Hrec & Hown). cbn.
  destruct (complete_run_owned t q result _ rec Hrec) as (rec' & E & Hst & Hf & Ha & Hres). rewrite E. cbn.
  destruct (record_sound i (t, q) rec' w (put_runs (<[(t, q) := rec']> (aw_runs w)) w)) as [H1 H2]; try done.
  - intros rec2 H2. destruct Hrec as [Hrec _]. rewrite Hrec in H2. injection H2 as <-. split; [done|by left].
  - rewrite Ha. by apply (as_once _ _ _ Hw), Hrec.
  - intros _. by exists result.
  - split_and!; [done|done|done|]. exists rec'. split; [|done]. by split; [cbn; rewrite lookup_insert_eq|].
Qed.

Lemma fail_step e i t q code w :
  app_sound calls limit w → owns i (t, q) w →
  let rw := app_handle e i _ (FailRun t q code) w in
  app_sound calls limit rw.2 ∧ goes i w rw.2 ∧ rw.1 = Ok tt.
Proof.
  intros Hw Ho. pose proof Ho as (rec & Hrec & Hown). cbn.
  destruct (fail_run_owned t q code _ rec Hrec) as (rec' & E & Hst & Hf & Ha). rewrite E. cbn.
  destruct (record_sound i (t, q) rec' w (put_runs (<[(t, q) := rec']> (aw_runs w)) w)) as [H1 H2]; try done; try (intros ?; congruence).
  - intros rec2 H2. destruct Hrec as [Hrec _]. rewrite Hrec in H2. injection H2 as <-. split; [done|by left].
  - rewrite Ha. by apply (as_once _ _ _ Hw), Hrec.
Qed.

(** A run by a thread that may still run the request *)
Lemma run_step e i t request q run_id thread_ref evidence w :
  keeps_promise e → app_sound calls limit w → holding i (t, q) true w → backed calls w i t request q run_id thread_ref evidence →
  let rw := app_handle e i _ (Orchestrate t request q run_id thread_ref evidence) w in
  app_sound calls limit rw.2 ∧ goes i w rw.2 ∧ holding i (t, q) false rw.2 ∧
  (i, Ran t request q run_id thread_ref evidence rw.1) ∈ aw_log rw.2.
Proof.
  intros He Hw Hh Hb. cbn. set (ev := Ran _ _ _ _ _ _ _).
  assert (Hg : goes i w (note i ev w)).
  { split; [|exists []; by rewrite app_nil_r|done|].
    - exists [(i, ev)]. split; [done|]. intros ev' key ->%list_elem_of_singleton [= <-]. by eapply holding_owns.
    - intros key rec H. exists rec. split_and!; [done|done|by left]. }
  assert (Hn : ∀ key, runs_of (note i ev w) key = runs_of w key + if decide (key = (t, q)) then 1 else 0).
  { intros key. rewrite (runs_of_app w (note i ev w) [(i, ev)]) by done. cbn. case_decide as E.
    - subst. by rewrite bool_decide_eq_true_2.
    - rewrite bool_decide_eq_false_2; [done|]. by intros [= <-]. }
  destruct Hh as (rec & [Hrec Hst] & Hown & Hlt). specialize (Hlt eq_refl).
  destruct Hw as [H1 H2 H3 H4 H5 H6 H7 H7' H8]. split_and!.
  - split; [done|done|done|done| | | | |].
    + intros key Hnone. rewrite Hn. case_decide as E; [subst; cbn in Hnone; congruence|]. rewrite (H5 key Hnone). lia.
    + intros key rec' Hrec'. rewrite Hn. cbn in Hrec'. pose proof (H6 key rec' Hrec'). case_decide as E; [|lia].
      subst. rewrite Hrec in Hrec'. injection Hrec' as <-. lia.
    + intros j t' request' q' run_id' thread_ref' evidence' answer' Hin. cbn in Hin.
      eapply stays_backed; [exact Hg|]. apply elem_of_app in Hin as [Hin|Hin]; [by eapply H7|].
      apply list_elem_of_singleton in Hin. subst ev. by injection Hin as -> -> -> -> -> -> -> _.
    + intros j t' request' q' run_id' thread_ref' evidence' r Hin. cbn in Hin.
      apply elem_of_app in Hin as [Hin|Hin]; [by eapply H7'|].
      apply list_elem_of_singleton in Hin. subst ev. injection Hin as -> -> -> -> -> -> -> Hr. by apply He.
    + intros key rec' Hrec'. destruct (H8 key rec' Hrec') as (r & Hr & Hs). exists r. split; [done|by eapply stays_settled].
  - done.
  - exists rec. split_and!; [done|done|done].
  - cbn. apply elem_of_app. right. by left.
Qed.
End steps.

(** ** Threads

    [knows h i P]: what thread [i] knows while others run: the lasting fact [P], and the request
    it holds, if any. *)
Section threads.
Context {HDigest : Digest} {HPromise : OrchestratorPromise} (calls : list (IdentityContext * InvestigationRequest))
  (limit : string → Z).

Definition held (h : option (string * string * bool)) (i : nat) (w : app_world) : Prop :=
  match h with Some (key, fresh) => holding i key fresh w | None => True end.

Definition app_knows (h : option (string * string * bool)) (i : nat) (P : app_world → Prop) (w : app_world) : Prop :=
  held h i w ∧ P w.

Abbreviation raises := (λ (_ : exn) (_ : app_world), True).

Definition app_safely {A : Set} (i : nat) (p : App A) (h : option (string * string * bool)) (P : app_world → Prop)
    (Q : A → app_world → Prop) (Z : exn → app_world → Prop) : Prop :=
  safe app_handle (app_sound calls limit) keeps_promise goes i p (app_knows h i P) Q Z.

Lemma app_knows_stable h i P : stays P → stable (app_sound calls limit) goes i (app_knows h i P).
Proof.
  intros HP w w' _ [Hh Hp] [_ [->|(j & Hj & Hg)]]; [done|]. split; [|by eapply HP].
  destruct h as [[key fresh]|]; [|done]. by eapply others_holding.
Qed.

Lemma app_weaken {A : Set} i (p : App A) h (P1 P2 : app_world → Prop) Q Z :
  (∀ w, P1 w → P2 w) → app_safely i p h P2 Q Z → app_safely i p h P1 Q Z.
Proof. intros HP H. eapply safe_weaken; [exact H| |done|done]. intros w _ [Hf Hp]. split; [done|by apply HP]. Qed.

Lemma app_forget {A : Set} i (p : App A) h (P : app_world → Prop) Q Z :
  app_safely i p None P Q Z → app_safely i p h P Q Z.
Proof. intros H. eapply safe_weaken; [exact H| |done|done]. by intros w _ [_ Hp]. Qed.

(** An operation that neither runs nor settles a request, and what its answer tells *)
Lemma app_mild {A R : Set} i (o : app_op R) (k : R → App A) h P (P' : R → app_world → Prop) Q Z :
  mild o → stays P → (∀ r, stays (P' r)) →
  (∀ e w, app_sound calls limit w → P w → P' (app_handle e i R o w).1 (app_handle e i R o w).2) →
  (∀ r, app_safely i (k r) h (λ w, P w ∧ P' r w) Q Z) → app_safely i (Do o k) h P Q Z.
Proof.
  intros Hm HP HP' Ho Hk. eapply safe_do with (P' := λ r, app_knows h i (λ w, P w ∧ P' r w)).
  - intros r. apply app_knows_stable. by apply stays_and.
  - intros e w _ Hw [Hf Hp]. destruct (mild_step calls limit e i R o w Hm Hw) as [H1 H2].
    pose proof (calm_goes _ _ _ H2) as Hg. split_and!; [|done|done]. split; [|split; [by eapply HP|by apply Ho]].
    destruct h as [[key fresh]|]; [by eapply calm_holding|done].
  - exact Hk.
Qed.

Lemma app_skip {A R : Set} i (o : app_op R) (k : R → App A) h P Q Z :
  mild o → stays P → (∀ r, app_safely i (k r) h P Q Z) → app_safely i (Do o k) h P Q Z.
Proof.
  intros Hm HP Hk. apply app_mild with (P' := λ _ _, True); [done|done|intros; apply stays_pure|done|].
  intros r. eapply app_weaken; [|apply Hk]. by intros w [? _].
Qed.

Lemma app_return {A : Set} i (a : A) h (P : app_world → Prop) (Q : A → app_world → Prop) Z :
  (∀ w, app_sound calls limit w → P w → Q a w) → app_safely i (Return a : App A) h P Q Z.
Proof. intros H w Hw [_ Hp]. by apply H. Qed.

Lemma app_throw {A : Set} i x h P (Q : A → app_world → Prop) : app_safely i (Throw x : App A) h P Q raises.
Proof. by intros w Hw _. Qed.

(** A lasting fact is still there at the end. *)
Lemma app_frame {A : Set} i (p : App A) (P F : app_world → Prop) (Q : A → app_world → Prop) (Z : exn → app_world → Prop) :
  stays F → safe app_handle (app_sound calls limit) keeps_promise goes i p P Q Z →
  safe app_handle (app_sound calls limit) keeps_promise goes i p (λ w, P w ∧ F w) (λ a w, F w ∧ Q a w) Z.
Proof.
  intros HF. revert P. induction p as [a|x|R o k IH]; intros P H; cbn in *.
  - intros w Hw [Hp Hf]. split; [done|by apply H].
  - intros w Hw [Hp _]. by apply H.
  - intros e w He Hw [Hp Hf]. destruct (H e w He Hw Hp) as (P' & Hs & Hp' & Hi & Hg & Hk).
    exists (λ w, P' w ∧ F w). split_and!; [|done|by eapply HF|done|done|by apply IH].
    intros w1 w2 Hw1 [H1 H2] Hr. split; [by eapply Hs|]. destruct Hr as [_ [->|(j & _ & Hg')]]; [done|by eapply HF].
Qed.

(** A port whose answer may be an exception *)
Lemma app_port {A R : Set} i (o : app_op (res R)) (k : R → App A) h P (P' : R → app_world → Prop) Q (Z : exn → app_world → Prop) :
  mild o → stays P → (∀ r, stays (P' r)) →
  (∀ e w a, app_sound calls limit w → P w → (app_handle e i _ o w).1 = Ok a → P' a (app_handle e i _ o w).2) →
  (∀ a, app_safely i (k a) h (λ w, P w ∧ P' a w) Q Z) →
  (∀ x w, app_sound calls limit w → held h i w → P w → Z x w) →
  app_safely i (then_ (try_port o) k) h P Q Z.
Proof.
  intros Hm HP HP' Ho Hk Hz.
  apply app_mild with (P' := λ r, match r with Ok a => P' a | Raise _ => λ _, True end); [done|done| | |].
  - intros [a|x]; [apply HP'|apply stays_pure].
  - intros e w Hw Hp. destruct (app_handle e i _ o w) as [[a|x] w'] eqn:E; [|done]. cbn.
    specialize (Ho e w a Hw Hp). rewrite E in Ho. by apply Ho.
  - intros [a|x]; [apply Hk|]. intros w Hw [Hh [Hp _]]. by apply Hz.
Qed.

Lemma app_res {A R : Set} i (r : res R) (k : R → App A) h P Q (Z : exn → app_world → Prop) :
  (∀ x w, app_sound calls limit w → held h i w → P w → Z x w) →
  (∀ a, r = Ok a → app_safely i (k a) h P Q Z) → app_safely i (then_ (from_res r) k) h P Q Z.
Proof. intros Hz Hk. destruct r as [a|x]; [by apply Hk|]. intros w Hw [Hh Hp]. by apply Hz. Qed.

(** The answers of the mild ports *)
Lemma authorize_tells e i identity action resource purpose risk w :
  let rw := app_handle e i _ (Authorize identity action resource purpose risk) w in
  (i, Decided identity action rw.1) ∈ aw_log rw.2.
Proof. cbn. apply elem_of_app. right. by left. Qed.

Lemma reserve_tells e i t id units w d :
  let rw := app_handle e i _ (ReserveUnits t id units) w in
  rw.1 = Ok d → bu_reservations (aw_budget rw.2) !! (t, id) = Some d.
Proof. cbn. destruct (reserve_units _ _ _ _) as [r b] eqn:E. cbn. intros ->. by eapply reserve_units_returns. Qed.

Lemma collect_tells e i identity request w evidence :
  let rw := app_handle e i _ (Collect identity request) w in
  rw.1 = Ok evidence → (i, Collected identity request evidence) ∈ aw_log rw.2.
Proof. cbn. intros ->. apply elem_of_app. right. by left. Qed.

Lemma audit_tells e i identity event_type attributes w :
  let rw := app_handle e i _ (Audit identity event_type attributes) w in
  ∃ a, a ∈ au_records (aw_audit rw.2) ∧ ad_tenant_id a = ic_tenant_id identity ∧ ad_event_type a = event_type.
Proof.
  cbn. unfold audit_append. destruct (tenant_head _ _) as [sequence hash]. cbn. eexists. split.
  - apply elem_of_app. right. by left.
  - done.
Qed.

Lemma holding_spent i key fresh w : holding i key fresh w → holding i key false w.
Proof. intros (rec & H1 & H2 & _). by exists rec. Qed.

(** ** The thread of an investigation *)

Section thread.
Context (i : nat) (identity : IdentityContext) (request : InvestigationRequest).
Context (Hcall : calls !! i = Some (identity, request)).

Let key := request_key identity.
Let thread_ref := thread_ref_of identity (ir_incident_id request).

(** What the thread knows when it starts to run the request *)
Definition accepted (w : app_world) : Prop :=
  (∃ d, (i, Decided identity INVESTIGATION_RUN d) ∈ aw_log w ∧ pd_allowed d = true) ∧
  recorded_input key (request_fingerprint request) w ∧
  (∃ a, a ∈ au_records (aw_audit w) ∧ ad_tenant_id a = ic_tenant_id identity ∧ ad_event_type a = "investigation.accepted").

(** ... and when its budget is reserved *)
Definition funded (w : app_world) : Prop :=
  accepted w ∧ ∃ b, bu_reservations (aw_budget w) !! (ic_tenant_id identity, thread_ref) = Some b ∧ bd_allowed b = true.

Ltac stays := repeat first [solve [eauto with stays]|apply stays_and|apply stays_exists; intros ?].

Lemma stays_accepted : stays accepted.
Proof. unfold accepted. stays. Qed.
Lemma stays_funded : stays funded.
Proof. unfold funded. apply stays_and; [apply stays_accepted|stays]. Qed.

(** The exceptions of the body of the [try] leave the request to the thread. *)
Definition still_held (_ : exn) (w : app_world) : Prop := app_knows (Some (key, false)) i (λ _, True) w.

Lemma still_holds fresh P x w : app_knows (Some (key, fresh)) i P w → still_held x w.
Proof. intros [H _]. split; [by eapply holding_spent|done]. Qed.

Definition approval_of (p : RemediationProposal) (a : ApprovalRequest) : Prop :=
  ap_tenant_id a = key.1 ∧ ap_proposal_id a = pp_proposal_id p ∧ ap_required_roles a = ["incident-commander"].

Lemma new_approval_of p now a : new_approval identity p now = Ok a → approval_of p a.
Proof. unfold new_approval, validated. destruct (ApprovalRequest_ok _); [by intros [= <-]|done]. Qed.

Lemma open_request_safe P p :
  stays P →
  app_safely i (open_request identity p) (Some (key, false)) P
    (λ a w, app_knows (Some (key, false)) i (λ w, P w ∧ approval_of p a) w) still_held.
Proof.
  intros HP. unfold open_request. cbn zeta. cbn [then_ call].
  apply app_mild with (P' := λ (r : option ApprovalRequest) (_ : app_world), match r with Some a => approval_of p a | None => True end); [done|done| | |].
  - intros r. apply stays_pure.
  - intros e w Hw _. cbn. destruct (aw_approvals w !! _) as [a|] eqn:E; [|done]. by apply (as_approvals _ _ _ Hw) in E.
  - intros [a|].
    { intros w _ [Hh [Hp Ha]]. by split. }
    apply app_skip; [done|apply stays_and; [done|apply stays_pure]|]. intros now.
    apply app_res; [intros x w _ Hh _; by eapply still_holds; split|]. intros a Ha. apply new_approval_of in Ha as Hof.
    apply app_skip; [by destruct Hof as (? & ? & ?)|apply stays_and; [done|apply stays_pure]|].
    intros []. intros w _ [Hh [Hp _]]. by split.
Qed.

Lemma run_investigation_safe :
  app_safely i (run_investigation identity request) (Some (key, true)) funded
    (λ cr w, completed_with key cr.2 w) still_held.
Proof.
  unfold run_investigation.
  apply app_port with (P' := λ evidence w, (i, Collected identity request evidence) ∈ aw_log w);
    [done|apply stays_funded|intros; apply stays_log| | |].
  { intros e w evidence _ _ H. by apply collect_tells. }
  2: { intros x w _ Hh Hp. eapply still_holds. by split. }
  intros evidence. apply app_res; [intros x w _ Hh Hp; eapply still_holds; by split|]. intros [] Hv.
  apply validate_evidence_valid in Hv.
  (* the run *)
  intros e w He Hw [Hh [Hf Hc]].
  assert (Hb : backed calls w i (ic_tenant_id identity) request (ic_request_id identity)
    (run_id_of identity (ir_incident_id request)) thread_ref evidence).
  { destruct Hf as [((d & Hd1 & Hd2) & Hin & (a & Ha1 & Ha2 & Ha3)) (b & Hb1 & Hb2)]. exists identity, d, b, a. by split_and!. }
  destruct (run_step calls limit e i _ _ _ _ _ _ w He Hw Hh Hb) as (H1 & H2 & H3 & H4).
  set (answer := (app_handle e i _ (Orchestrate _ _ _ _ _ _) w).1) in *.
  exists (app_knows (Some (key, false)) i (λ w, (i, Ran (ic_tenant_id identity) request (ic_request_id identity)
    (run_id_of identity (ir_incident_id request)) thread_ref evidence answer) ∈ aw_log w)).
  split; [apply app_knows_stable, stays_log|]. split; [by split|]. split; [done|]. split; [done|].
  (* the rest *)
  destruct answer as [r0|x]; cbn [then_ call from_res]; [|intros w' _ Hk; by eapply still_holds].
  apply (safe_then app_handle) with (Q := λ r w, app_knows (Some (key, false)) i (λ w, (i, Ran (ic_tenant_id identity) request
    (ic_request_id identity) (run_id_of identity (ir_incident_id request)) thread_ref evidence (Ok r0)) ∈ aw_log w
    ∧ approved key r0 r) w).
  - destruct (vr_proposal r0) as [p|] eqn:Ep.
    + apply (safe_then app_handle) with (Q := λ a w, app_knows (Some (key, false)) i (λ w,
        (i, Ran (ic_tenant_id identity) request (ic_request_id identity) (run_id_of identity (ir_incident_id request))
         thread_ref evidence (Ok r0)) ∈ aw_log w ∧ approval_of p a) w).
      { apply open_request_safe, stays_log. }
      intros a w' _ [Hk [Hl Ha]]. split; [done|]. split; [done|]. unfold approved. rewrite Ep. by exists a.
    + intros w' _ [Hk Hl]. split; [done|]. split; [done|]. unfold approved. by rewrite Ep.
  - intros r e' w' _ Hw' [Hk [Hl Ha]]. apply holding_owns in Hk as Ho.
    destruct (complete_step calls limit e' i (ic_tenant_id identity) (ic_request_id identity) r w' Hw' Ho) as (C1 & C2 & C3 & C4).
    { right. by eexists _, _, _, _, _, _. }
    exists (app_knows None i (completed_with key r)). split; [apply app_knows_stable, stays_completed|].
    split; [by split|]. split; [done|]. split; [done|]. rewrite C3. cbn. by intros w2 _ [_ Hdone].
Qed.

(** What a thread that returns a result knows *)
Definition handed_out (r : InvestigationResult) (w : app_world) : Prop :=
  (∃ d, (i, Decided identity INVESTIGATION_RUN d) ∈ aw_log w ∧ pd_allowed d = true) ∧
  recorded_input key (request_fingerprint request) w ∧
  ∃ result, completed_with key result w ∧ (r = result ∨ r = replayed result).

Abbreviation decided := (λ w,
  (∃ d, (i, Decided identity INVESTIGATION_RUN d) ∈ aw_log w ∧ pd_allowed d = true) ∧
  recorded_input key (request_fingerprint request) w).

Lemma stays_decided : stays decided.
Proof. stays. Qed.

Lemma failure_safe x :
  safe app_handle (app_sound calls limit) keeps_promise goes i (on_run_failure identity x) (still_held x)
    handed_out raises.
Proof.
  unfold on_run_failure. destruct (failure_code (exn_kind x)) as [code|]; [|done].
  intros e w He Hw [Hh _]. apply holding_owns in Hh as Ho.
  destruct (fail_step calls limit e i (ic_tenant_id identity) (ic_request_id identity) code w Hw Ho) as (F1 & F2 & F3).
  exists (app_knows None i (λ _, True)). split; [apply app_knows_stable, stays_pure|]. split; [done|].
  split; [done|]. split; [done|]. rewrite F3. cbn [then_ call from_res].
  apply app_skip; [done|apply stays_pure|]. intros _. apply app_skip; [done|apply stays_pure|]. intros _. apply app_throw.
Qed.

Lemma success_safe cr :
  app_safely i (on_run_success identity cr) None (λ w, decided w ∧ completed_with key cr.2 w) handed_out raises.
Proof.
  assert (Hs : stays (λ w, decided w ∧ completed_with key cr.2 w)) by (apply stays_and; [apply stays_decided|apply stays_completed]).
  unfold on_run_success. destruct cr as [collected result]. cbn [then_ call].
  apply app_skip; [done|exact Hs|]. intros _. apply app_skip; [done|exact Hs|]. intros _.
  apply app_return. intros w _ [[Hd Hr] Hc]. split; [done|]. split; [done|]. exists result. split; [done|by left].
Qed.

Lemma abstain_safe reason :
  app_safely i (abstain_for_budget identity request reason) (Some (key, true))
    (λ w, decided w ∧ ∃ b, bu_reservations (aw_budget w) !! (ic_tenant_id identity, thread_ref) = Some b ∧ bd_allowed b = false)
    handed_out raises.
Proof.
  unfold abstain_for_budget. apply app_res; [done|]. intros r Hr.
  intros e w He Hw [Hh [Hd (b & Hb1 & Hb2)]]. apply holding_owns in Hh as Ho.
  destruct (complete_step calls limit e i (ic_tenant_id identity) (ic_request_id identity) r w Hw Ho) as (C1 & C2 & C3 & C4).
  { left. by eexists _, _, _, thread_ref, b. }
  assert (Hs : stays (λ w, decided w ∧ completed_with key r w)) by (apply stays_and; [apply stays_decided|apply stays_completed]).
  exists (app_knows None i (λ w, decided w ∧ completed_with key r w)). split; [by apply app_knows_stable|].
  split; [split; [done|split; [by eapply stays_decided|done]]|]. split; [done|]. split; [done|].
  rewrite C3. cbn [then_ call from_res].
  apply app_skip; [done|exact Hs|]. intros _. apply app_skip; [done|exact Hs|]. intros _.
  apply app_return. intros w2 _ [[Hd2 Hr2] Hc]. split; [done|]. split; [done|]. exists r. split; [done|by left].
Qed.

Lemma start_safe attempt :
  app_safely i (start_run identity request attempt) (Some (key, true))
    decided handed_out raises.
Proof.
  unfold start_run.
  apply app_mild with (P' := λ _ w, ∃ a, a ∈ au_records (aw_audit w) ∧ ad_tenant_id a = ic_tenant_id identity ∧
    ad_event_type a = "investigation.accepted"); [done|stays|intros; stays| |].
  { intros e w _ _. apply audit_tells. }
  intros []. eapply app_weaken with (P2 := accepted); [intros w [[H1 H2] H3]; by split_and!|].
  apply app_port with (P' := λ b w, bu_reservations (aw_budget w) !! (ic_tenant_id identity, thread_ref) = Some b);
    [done|apply stays_accepted|intros; stays| | |done].
  { intros e w b _ _ H. by apply reserve_tells in H. }
  intros b. destruct (bd_allowed b) eqn:Eb.
  - apply (safe_try app_handle) with (Q := λ cr w, app_knows None i (λ w, decided w ∧ completed_with key cr.2 w) w) (Z := still_held).
    + eapply safe_weaken; [apply (app_frame i _ _ _ _ _ stays_decided run_investigation_safe)| | |done].
      * intros w _ [Hh [Ha Hb]]. split; [|split; apply Ha]. split; [done|]. split; [done|]. by exists b.
      * by intros cr w _ [Hd Hc].
    + apply success_safe.
    + apply failure_safe.
  - eapply app_weaken; [|apply abstain_safe]. intros w [[Hd [Hr _]] Hb]. split; [done|]. by exists b.
Qed.

Lemma investigate_safe : app_safely i (investigate identity request) None (λ _, True) handed_out raises.
Proof.
  unfold investigate. cbn [then_ call].
  apply app_mild with (P' := λ d w, (i, Decided identity INVESTIGATION_RUN d) ∈ aw_log w);
    [done|apply stays_pure|intros; apply stays_log| |].
  { intros e w _ _. apply authorize_tells. }
  intros d. destruct (pd_allowed d) eqn:Ed; [|apply app_skip; [done|stays|intros _; apply app_throw]].
  eapply app_weaken with (P2 := λ w, ∃ d, (i, Decided identity INVESTIGATION_RUN d) ∈ aw_log w ∧ pd_allowed d = true);
    [intros w [_ H]; by exists d|].
  intros e w He Hw [_ Hd]. destruct (acquire_step calls limit e i (ic_tenant_id identity) (ic_request_id identity)
    (request_fingerprint request) w Hw) as (A1 & A2 & A3 & A4).
  set (rw := app_handle e i _ (Acquire _ _ _) w) in *.
  assert (Hd' : ∃ d, (i, Decided identity INVESTIGATION_RUN d) ∈ aw_log rw.2 ∧ pd_allowed d = true).
  { destruct Hd as (d' & Hd' & ?). exists d'. split; [by eapply stays_log|done]. }
  destruct (acquired rw.1) eqn:Ea.
  - destruct (A3 eq_refl) as [Hh Hin].
    exists (app_knows (Some (key, true)) i decided).
    split; [apply app_knows_stable, stays_decided|]. split; [done|]. split; [done|]. split; [done|].
    destruct rw.1 as [c|x]; [|done]. cbn [then_ call from_res]. cbn in Ea.
    destruct (rl_status c); try done; apply start_safe.
  - destruct rw.1 as [c|x] eqn:Er1; cbn [then_ call from_res].
    2: { exists (app_knows None i (λ _, True)). split; [apply app_knows_stable, stays_pure|]. by split_and!. }
    cbn in Ea. destruct (rl_status c) eqn:Ec; try done; [|by exists (app_knows None i (λ _, True));
      (split; [apply app_knows_stable, stays_pure|])].
    destruct (rl_result c) as [result|] eqn:Er; [|by exists (app_knows None i (λ _, True));
      (split; [apply app_knows_stable, stays_pure|])].
    destruct (A4 c result eq_refl Ec Er) as [Hc Hin].
    exists (app_knows None i (λ w, decided w ∧ completed_with key result w)).
    assert (Hs : stays (λ w, decided w ∧ completed_with key result w)) by (apply stays_and; [apply stays_decided|stays]).
    split; [by apply app_knows_stable|]. do 3 (split; [done|]).
    apply app_skip; [done|exact Hs|]. intros _. apply app_return. intros w1 _ [[H1 H2] H3].
    split; [done|]. split; [done|]. exists result. split; [done|by right].
Qed.
End thread.
End threads.

(** ** Promises *)

Section service.
Context {HDigest : Digest} {HPromise : OrchestratorPromise} (calls : list (IdentityContext * InvestigationRequest))
  (limits : gmap string Z) (default_limit : Z).

Abbreviation start := (app_start (new_budget limits default_limit)).
Abbreviation limit := (remaining_units (new_budget limits default_limit)).

(** The turns of a schedule whose orchestrator keeps its promise *)
Definition kept (turns : list (nat * port_answers)) : Prop := Forall (λ t, keeps_promise t.2) turns.

Definition results (i : nat) (r : InvestigationResult) (w : app_world) : Prop :=
  ∀ identity request, calls !! i = Some (identity, request) → handed_out i identity request r w.

Lemma service_start_sound : app_sound calls limit start.
Proof.
  split; try done.
  - apply new_budget_sound.
  - by intros key rec [H _].
  - by intros i t request q run_id thread_ref evidence answer ?%not_elem_of_nil.
  - by intros i t request q run_id thread_ref evidence answer ?%not_elem_of_nil.
  - by intros key rec [H _].
Qed.

Abbreviation safe_pool := (pool_safe app_handle (app_sound calls limit) keeps_promise goes results (λ _ (_ : exn) _, True)).

Lemma threads_start : safe_pool ((λ c, investigate c.1 c.2) <$> calls, start).
Proof.
  split; [apply service_start_sound|]. intros i p Hp. cbn in Hp. apply list_lookup_fmap_Some in Hp as ([identity request] & -> & Hc).
  exists (app_knows None i (λ _, True)). split; [apply app_knows_stable, stays_pure|]. split; [done|].
  eapply safe_weaken; [by apply investigate_safe|done| |done]. intros r w _ H identity' request' Hc'.
  rewrite Hc in Hc'. by injection Hc' as <- <-.
Qed.

Definition app_allowed (m : move (W := app_world) (E := port_answers)) : Prop :=
  match m with Thread _ e => keeps_promise e | Outside _ => False end.

Lemma allowed_turns turns : kept turns → Forall app_allowed ((λ t, Thread t.1 t.2) <$> turns).
Proof. intros H. by apply Forall_fmap. Qed.

Lemma service_safe turns s : kept turns → safe_pool s →
  safe_pool (run_pool app_handle ((λ t, Thread t.1 t.2) <$> turns) s).
Proof.
  intros Hk Hs. eapply (run_pool_safe app_handle (app_sound calls limit) keeps_promise goes app_allowed);
    [done|done|by apply allowed_turns|done].
Qed.

Lemma service_runs turns : kept turns → safe_pool (run_service calls turns start).
Proof. intros Hk. apply service_safe; [done|apply threads_start]. Qed.

Lemma service_keeps (K : app_world → Prop) turns s :
  stays K → kept turns → safe_pool s → K s.2 → K (run_pool app_handle ((λ t, Thread t.1 t.2) <$> turns) s).2.
Proof.
  intros HK Hk Hs. eapply (run_pool_keeps app_handle (app_sound calls limit) keeps_promise goes app_allowed);
    [done|done| |by apply allowed_turns|exact Hs].
  intros j w w' _ H Hg. by eapply HK.
Qed.
End service.

Section promises.
Context {HDigest : Digest} (calls : list (IdentityContext * InvestigationRequest))
  (limits : gmap string Z) (default_limit : Z).

Abbreviation start := (app_start (new_budget limits default_limit)).

(** An orchestrator that promises nothing *)
Definition no_promise : OrchestratorPromise := λ _ _ _ _ _ _ _, True.

Lemma no_promise_kept turns : @kept no_promise turns.
Proof. by apply Forall_forall. Qed.

(** C7: whatever the ports answer and however the threads interleave, the orchestrator runs a
    request only for a thread whose policy decision allowed the investigation, with budget reserved
    under the thread reference, the request recorded under its fingerprint, an audit record of the
    acceptance, and evidence that the thread collected: of the caller's tenant alone, under distinct
    ids, every item hashing to its content hash. *)
Theorem runs_are_authorized turns i t request q run_id thread_ref evidence answer :
  let w := (run_service calls turns start).2 in
  (i, Ran t request q run_id thread_ref evidence answer) ∈ aw_log w →
  backed calls w i t request q run_id thread_ref evidence.
Proof.
  intros w H. eapply (as_ran (HPromise := no_promise)); [|exact H].
  apply (service_runs calls limits default_limit turns), no_promise_kept.
Qed.

(** C13: a completed request stays completed with the result it got, is never run again, and every
    thread that returns for it returns this result, or a copy marked as replayed; before that, a
    request is run at most once per attempt. *)
Theorem completed_requests_are_replayed turns1 turns2 key result :
  let s1 := run_service calls turns1 start in
  let s2 := run_service calls (turns1 ++ turns2) start in
  completed_with key result s1.2 →
  completed_with key result s2.2 ∧ runs_of s2.2 key = runs_of s1.2 key ∧
  (∀ rec, aw_runs s2.2 !! key = Some rec → runs_of s2.2 key <= rr_attempt rec) ∧
  ∀ i identity request r, calls !! i = Some (identity, request) → request_key identity = key →
    s2.1 !! i = Some (Return r) → r = result ∨ r = replayed result.
Proof.
  intros s1 s2 H1.
  assert (E : s2 = run_pool app_handle ((λ t, Thread t.1 t.2) <$> turns2) s1).
  { subst s1 s2. unfold run_service. rewrite fmap_app. unfold run_pool. by rewrite foldl_app. }
  assert (Hp1 := service_runs (HPromise := no_promise) calls limits default_limit turns1 (no_promise_kept _)).
  assert (Hp2 := service_safe (HPromise := no_promise) calls limits default_limit turns2 _ (no_promise_kept _) Hp1).
  fold s1 in Hp1, Hp2. rewrite <- E in Hp2.
  assert (Hk : completed_with key result s2.2 ∧ runs_of s2.2 key = runs_of s1.2 key).
  { rewrite E. eapply (service_keeps (HPromise := no_promise) calls limits default_limit
      (λ w, completed_with key result w ∧ runs_of w key = runs_of s1.2 key)); [|apply no_promise_kept|exact Hp1|done].
    intros j w w' Hg [Hc Hr]. split; [by eapply stays_completed|].
    destruct (go_log _ _ _ Hg) as (l & Hl & Ho). rewrite (runs_of_app w w' l key Hl), runs_in_none; [lia|].
    intros ev Hev Hkey. destruct (Ho ev key Hev Hkey) as (rec & [Hrec Hs] & _). destruct Hc as (rec' & [Hrec' Hs'] & _).
    rewrite Hrec in Hrec'. injection Hrec' as <-. congruence. }
  destruct Hk as [Hc Hr]. destruct Hp2 as [Hw Ht]. split_and!; [done|done|apply Hw|].
  intros i identity request r Hcall Hkey Hret. destruct (Ht i _ Hret) as (P & _ & HP & Hsafe). cbn in Hsafe.
  destruct (Hsafe _ Hw HP identity request Hcall) as (_ & _ & result' & Hc' & Hr'). rewrite Hkey in Hc'.
  destruct Hc as (rec & [Hrec _] & Hres), Hc' as (rec' & [Hrec' _] & Hres').
  rewrite Hrec in Hrec'. injection Hrec' as <-. rewrite Hres in Hres'. by injection Hres' as <-.
Qed.

(** C25: the audit verifies after any schedule, and for every tenant the units granted and those
    that remain add up to the limit, so that the budget is never overdrawn. *)
Theorem application_ledgers_are_sound turns t :
  let w := (run_service calls turns start).2 in
  audit_verify (aw_audit w) = true ∧
  remaining_units (aw_budget w) t + granted bd_requested_units bd_allowed t (bu_reservations (aw_budget w))
    = default default_limit (limits !! t) ∧
  (0 <= default default_limit (limits !! t) →
   granted bd_requested_units bd_allowed t (bu_reservations (aw_budget w)) <= default default_limit (limits !! t)).
Proof.
  intros w. destruct (service_runs (HPromise := no_promise) calls limits default_limit turns (no_promise_kept _)) as [Hw _].
  fold w in Hw. destruct (as_budget _ _ _ Hw) as [H1 H2 _]. specialize (H1 t). specialize (H2 t).
  unfold remaining_units in H1 at 2, H2 at 1. cbn in H1, H2. split_and!; [|done|intros Hl; specialize (H2 Hl); lia].
  unfold audit_verify. rewrite (as_audit _ _ _ Hw). by apply bool_decide_eq_true.
Qed.
End promises.

(** ** With the investigation graph *)

Section graph.
Context {HDigest : Digest} {HFloat : FloatJson} {HDecode : FindingDecoder} {HOrder : UpdateOrder} {HOrderLaws : UpdateOrderLaws}.
Context (calls : list (IdentityContext * InvestigationRequest)) (limits : gmap string Z) (default_limit : Z).

(** An orchestrator whose results are those of fresh runs of [LangGraphInvestigator] *)
Definition langgraph_promise : OrchestratorPromise := λ t request q run_id thread_ref evidence r,
  ∃ invoke w w', follows_graph invoke ∧
    run (Ok None) invoke t request q (Some run_id) thread_ref evidence w = (Ok r, w').

(** The approval a returned proposal waits for *)
Definition awaits_approval (tenant_id : string) (r : InvestigationResult) : Prop :=
  ∀ p, vr_proposal r = Some p → ∃ a, vr_approval r = Some a ∧ ap_proposal_id a = pp_proposal_id p ∧
    ap_tenant_id a = tenant_id ∧ ap_required_roles a = ["incident-commander"].

Lemma abstention_returns identity request run_id thread_ref r :
  _budget_abstention identity request run_id thread_ref = Ok r → vr_proposal r = None ∧ vr_status r = IS_ABSTAINED.
Proof.
  unfold _budget_abstention, new_InvestigationResult, validated. intros H. apply res_bind_ok in H as (critic & _ & H).
  destruct (InvestigationResult_ok _); [by injection H as <-|done].
Qed.

End graph.

(** ** Ends *)

Section ends.
Context {HDigest : Digest}.

Lemma ends_from_res {A : Set} (r : res A) n : ends_within (from_res r) n.
Proof. by destruct r. Qed.

Lemma ends_port {A B : Set} (o : app_op (res A)) (k : A → App B) n :
  (∀ a, ends_within (k a) n) → ends_within (then_ (try_port o) k) (S n).
Proof. intros Hk [a|x]; [apply Hk|done]. Qed.

Lemma ends_res {A B : Set} (r : res A) (k : A → App B) n :
  (∀ a, ends_within (k a) n) → ends_within (then_ (from_res r) k) n.
Proof. intros Hk. destruct r; [apply Hk|done]. Qed.

(** A thread of the service ends after at most fourteen operations, whatever the ports answer. *)
Lemma service_threads_end identity request : ends_within (investigate identity request) 14.
Proof.
  assert (Ho : ∀ p, ends_within (open_request identity p) 3).
  { intros p [a|]; [done|]. intros now. apply ends_res. intros a. by intros []. }
  assert (Hb : ends_within (run_investigation identity request) (1 + (1 + (3 + 1)))).
  { apply ends_port. intros evidence. apply ends_res. intros []. apply ends_port. intros r0.
    apply ends_within_then; [|intros r; apply ends_port; by intros []].
    destruct (vr_proposal r0); [|done]. apply (ends_within_then _ _ 0 3); [apply Ho|done]. }
  assert (Hs : ∀ attempt, ends_within (start_run identity request attempt) 12).
  { intros attempt []. apply ends_port. intros b. destruct (bd_allowed b).
    - eapply ends_within_mono; [|apply (ends_within_try _ _ _ 3); [exact Hb| |]]; [cbn; lia| |].
      + intros [collected r]. by intros [] [].
      + intros x. unfold on_run_failure. destruct (failure_code _); [|done]. apply ends_port. intros []. by intros [] [].
    - unfold abstain_for_budget. apply ends_res. intros r. apply (ends_port _ _ 9). intros []. by intros [] []. }
  intros d. unfold investigate. cbn [then_ call]. destruct (pd_allowed d); [|by intros []]. apply ends_port. intros c.
  destruct (rl_status c); try done. destruct (rl_result c); [|done]. by intros [].
Qed.
End ends.

(** ** Redaction *)

#[local] Arguments sensitive_key : simpl never.

(** No value stands under a sensitive key, at any depth. *)
Fixpoint redacted (v : json) : bool :=
  match v with
  | JObj o => forallb (λ kv, if sensitive_key kv.1 then bool_decide (kv.2 = JStr "[REDACTED]") else redacted kv.2) o
  | JList l => forallb redacted l
  | _ => true
  end.

Lemma redact_value_redacts v : redacted (redact_value v) = true.
Proof.
  induction v as [| | | | |l IH|o IH] using json_nested_ind; try done; cbn; rewrite forallb_forall; intros x Hx.
  - apply list_elem_of_In, list_elem_of_fmap in Hx as (y & -> & Hy). rewrite Forall_forall in IH. by apply IH.
  - apply list_elem_of_In, list_elem_of_fmap in Hx as (y & -> & Hy). rewrite Forall_forall in IH. cbn.
    destruct (sensitive_key y.1); [by apply bool_decide_eq_true_2|by apply IH].
Qed.

Lemma redact_value_fixed v : redacted v = true → redact_value v = v.
Proof.
  induction v as [| | | | |l IH|o IH] using json_nested_ind; try done; cbn; rewrite forallb_forall; intros Hr; f_equal.
  - induction IH as [|x l Hx _ IHl]; [done|]. cbn. f_equal; [apply Hx, Hr; by left|]. apply IHl. intros y Hy. apply Hr. by right.
  - induction IH as [|[k x] o Hx _ IHo]; [done|]. cbn. f_equal; [|apply IHo; intros y Hy; apply Hr; by right].
    specialize (Hr (k, x) (or_introl eq_refl)). cbn in Hr, Hx. destruct (sensitive_key k); [|by rewrite Hx].
    by apply bool_decide_eq_true in Hr as ->.
Qed.

(** Redaction hides every value under a sensitive key, and changes nothing once it has. *)
Theorem redaction_is_idempotent v : redact_value (redact_value v) = redact_value v.
Proof. apply redact_value_fixed, redact_value_redacts. Qed.

Example redaction_is_deep :
  redact_value (JObj [("Auth-Token", JStr "x"); ("items", JList [JObj [("PASSWORD", JInt 1); ("kind", JStr "a")]])])
  = JObj [("Auth-Token", JStr "[REDACTED]"); ("items", JList [JObj [("PASSWORD", JStr "[REDACTED]"); ("kind", JStr "a")]])].
Proof. vm_compute. reflexivity. Qed.

(** ** Reading the audit *)

(** What [list_audit] returns are views of the last records of the caller's own tenant, at most
    [limit] of them. *)
Lemma list_audit_is_own identity limit l views :
  list_audit identity limit l = Ok views →
  zlen views <= limit ∧
  ∃ earlier last, records_for (ic_tenant_id identity) l = earlier ++ last ∧ traverse audit_view last = Ok views ∧
    Forall (λ r, ad_tenant_id r = ic_tenant_id identity) last.
Proof.
  unfold list_audit. intros H. apply res_bind_ok in H as (u & Hu & H). apply raise_if_ok, orb_false_iff in Hu as [H1 _].
  apply Z.ltb_ge in H1. set (records := records_for _ l) in *. set (n := (length records - Z.to_nat limit)%nat) in *.
  split.
  - apply traverse_ok, Forall2_length in H. rewrite length_drop in H. unfold zlen. rewrite <- H. subst n. lia.
  - exists (take n records), (drop n records). split; [by rewrite take_drop|]. split; [done|].
    apply Forall_drop. unfold records, records_for. apply Forall_forall. intros r Hr.
    apply list_elem_of_In, filter_In in Hr as [_ Hr]. by apply bool_decide_eq_true in Hr.
Qed.

(** ** A concrete service *)

(** The item under its own hash *)
Definition hashed `{Digest} (e : Evidence) : Evidence :=
  {| ev_evidence_id := ev_evidence_id e; ev_tenant_id := ev_tenant_id e; ev_kind := ev_kind e;
     ev_source := ev_source e; ev_locator := ev_locator e; ev_observed_at := ev_observed_at e;
     ev_summary := ev_summary e; ev_facts := ev_facts e;
     ev_content_hash := evidence_hash (ev_tenant_id e) (ev_kind e) (ev_locator e) (ev_observed_at e) (ev_facts e);
     ev_untrusted_text := ev_untrusted_text e; ev_provenance_digest := ev_provenance_digest e;
     ev_source_id := ev_source_id e; ev_query_id := ev_query_id e; ev_page_number := ev_page_number e |}.

Section served.
#[local] Existing Instances demo_digest demo_float demo_decoder in_name_order in_name_order_laws.

Definition served_incident : list Evidence := hashed <$> demo_incident.

(** A model that cites the hashed items *)
Definition served_answers (i : nat) : model_answer :=
  let f := demo_finding (default SP_KNOWLEDGE (specialists !! i)) (match i with O => "finding-1" | _ => "finding-2" end) in
  Ok (Some {| fd_finding_id := fd_finding_id f; fd_specialist := fd_specialist f; fd_statement := fd_statement f;
              fd_cause_code := fd_cause_code f; fd_confidence := fd_confidence f;
              fd_citations := [demo_citation (hashed demo_change); demo_citation (hashed demo_telemetry)];
              fd_abstained := false; fd_reason := None |}).

(** Ports: the local role policy, the incident's evidence, the investigation graph *)
Definition served_ports (evidence : res (list Evidence)) : port_answers :=
  {| pa_now := demo_time; pa_policy := role_authorize; pa_evidence := λ _ _, evidence;
     pa_run := λ t request q run_id thread_ref evidence,
       (run (Ok None) (scheduled_engine (demo_schedule served_answers)) t request q (Some run_id) thread_ref evidence
          demo_world).1 |}.

Definition served_calls : list (IdentityContext * InvestigationRequest) := replicate 3 (demo_identity, demo_request).
Definition served_budget : gmap string Z := {["tenant-a" := 7]}.

(** Fourteen steps of a thread *)
Definition turns_of (i : nat) (evidence : res (list Evidence)) : list (nat * port_answers) :=
  replicate 14 (i, served_ports evidence).

Abbreviation served turns := (run_service served_calls turns (app_start (new_budget served_budget 0))).

(** What a thread ended with: a status and whether it is a replay, or an exception *)
Definition ended_with (p : option (App InvestigationResult)) : option (res (InvestigationStatus * bool)) :=
  match p with
  | Some (Return r) => Some (Ok (vr_status r, vr_replayed r))
  | Some (Throw x) => Some (Raise x)
  | _ => None
  end.

(** The first thread completes the request, the second gets a replay. *)
Example served_once :
  let s := served (turns_of 0 (Ok served_incident) ++ turns_of 1 (Ok served_incident)) in
  ended_with <$> [s.1 !! 0%nat; s.1 !! 1%nat; s.1 !! 2%nat]
  = [Some (Ok (IS_COMPLETE, false)); Some (Ok (IS_COMPLETE, true)); None].
Proof. vm_compute. reflexivity. Qed.

(** An evidence port that raises another exception than the four the service expects, a connector's
    rejection say, leaves the request in progress: no later thread of it can run or fail. *)
Lemma unexpected_failures_block_requests :
  let s := served (turns_of 0 (raise ConnectorRejected "rejected") ++ turns_of 1 (Ok served_incident)
                   ++ turns_of 2 (Ok served_incident)) in
  ended_with <$> [s.1 !! 0%nat; s.1 !! 1%nat; s.1 !! 2%nat]
  = [Some (raise ConnectorRejected "rejected");
     Some (raise InvestigationInProgress "an identical request is already running");
     Some (raise InvestigationInProgress "an identical request is already running")].
Proof. vm_compute. reflexivity. Qed.

Definition is_run (ev : nat * app_event) : bool := match ev.2 with Ran _ _ _ _ _ _ _ => true | _ => false end.

Lemma served_has_run : existsb is_run (aw_log (served (turns_of 0 (Ok served_incident))).2) = true.
Proof. vm_compute. reflexivity. Qed.

Lemma runs_are_authorized_witness :
  ∃ i t request q run_id thread_ref evidence,
    backed served_calls (served (turns_of 0 (Ok served_incident))).2 i t request q run_id thread_ref evidence.
Proof.
  destruct (proj1 (existsb_exists _ _) served_has_run) as ([i ev] & Hin & Hev). apply list_elem_of_In in Hin.
  destruct ev as [| |t request q run_id thread_ref evidence answer]; try discriminate Hev.
  exists i, t, request, q, run_id, thread_ref, evidence. exact (runs_are_authorized served_calls served_budget 0 (turns_of 0 (Ok served_incident)) i t request q run_id thread_ref
    evidence answer Hin).
Defined.

Definition served_key : string * string := ("tenant-a", "req-1").

Lemma served_completes :
  match aw_runs (served (turns_of 0 (Ok served_incident))).2 !! served_key with
  | Some rec => bool_decide (rr_status rec = RUN_COMPLETED) && bool_decide (is_Some (rr_result rec))
  | None => false
  end = true.
Proof. vm_compute. reflexivity. Qed.

Lemma served_completed : ∃ result, completed_with served_key result (served (turns_of 0 (Ok served_incident))).2.
Proof.
  pose proof served_completes as H. destruct (aw_runs _ !! served_key) as [rec|] eqn:E; [|done].
  apply andb_prop in H as [H1%bool_decide_eq_true [result H2]%bool_decide_eq_true].
  exists result, rec. split; [split; [exact E|exact H1]|exact H2].
Qed.

Lemma completed_requests_are_replayed_witness :
  ∃ result, completed_with served_key result
    (served (turns_of 0 (Ok served_incident) ++ turns_of 1 (Ok served_incident))).2.
Proof.
  destruct served_completed as [result H]. exists result.
  exact (proj1 (completed_requests_are_replayed served_calls served_budget 0 (turns_of 0 (Ok served_incident))
           (turns_of 1 (Ok served_incident)) served_key result H)).
Defined.

Lemma served_keeps : kept (HPromise := langgraph_promise) (turns_of 0 (Ok served_incident)).
Proof.
  apply Forall_forall. intros t Ht. apply elem_of_replicate in Ht as [-> _]. intros u request q run_id thread_ref evidence r H.
  exists (scheduled_engine (demo_schedule served_answers)), demo_world. cbn in H.
  destruct (run _ _ _ _ _ _ _ _ demo_world) as [answer w'] eqn:E. exists w'. cbn in H. subst answer.
  split; [apply scheduled_engine_follows|reflexivity].
Qed.

Lemma served_returns :
  match (served (turns_of 0 (Ok served_incident))).1 !! 0%nat with
  | Some (Return r) => vr_status r = IS_COMPLETE
  | _ => False
  end.
Proof. vm_compute. reflexivity. Qed.

End served.
